(* ===== verification/_CoqProject ===== *)
-Q . S2P
Prelude.v
Commands.v
Events.v
EventStore.v
MongoStore.v
BusPool.v
Handler.v
Pendings.v
ResourceState.v
ResourceStateFacts.v
ResourceCancel.v
ResourceStateSpec.v
ResourceCommands.v
ResourceLinks.v
ResourceLinksFacts.v
DeviceMetadata.v
DeviceMetadataFacts.v
ServiceMetadata.v
ServiceMetadataFacts.v
Projection.v
ProjectionFacts.v
Goroutines.v
DeviceProjection.v
DeviceProjectionFacts.v
Aggregate.v
AggregateFacts.v
ResourceModel.v
Validation.v
SortedSlice.v
Slices.v
Subjects.v
MongoStoreFacts.v
BusPoolFacts.v
IdentityStore.v
Heartbeat.v
HeartbeatFacts.v
IdFilter.v
Snippets.v
SnippetStore.v
SnippetStoreFacts.v
SnippetService.v
AppliedStore.v
SnippetUpdater.v
SnippetSystem.v
SnippetSystemFacts.v
SnippetUpdaterFacts.v
SnippetRun.v
HandlerTable.v
Subscription.v
SubscriptionFacts.v
ResourceIdFilters.v
DirectoryModels.v
DirectoryModelsFacts.v
DirectoryProjection.v
Directory.v
DirectoryFacts.v
DirectoryRun.v
DirectoryCache.v
DirectoryEvents.v
DeviceSubscriber.v
CoapConv.v
Session.v
ResourcesObserver.v
ResourcesObserverFacts.v
SubscriptionsCache.v
SubscriptionsCacheFacts.v
SubscriptionSubjects.v
OwnerCache.v
OwnerCacheFacts.v
RequestHandler.v
RequestHandlerFacts.v
Concrete.v
Witnesses.v
SnippetWitnesses.v
HeartbeatWitnesses.v
MongoWitnesses.v
BusWitnesses.v
RequestWitnesses.v
DirectoryWitnesses.v
DeviceWitnesses.v
