(* ===== verification/Prelude.v ===== *)
(** * plgd hub: commands, events and those who listen to them

    The hub keeps the state of devices as logs of events.  A command reaches the
    aggregate it is about (a resource, the links or the metadata of a device, the
    services of the hub), which replays its log, decides, and appends events;
    the events are published on subjects of an event bus; gateways subscribe to
    the subjects and filter what they hear; snippet-service applies the
    configurations of a user when an event meets their conditions, by commands
    that come back to the aggregates.  This development follows that circle.

    ** The parts (paths are under src/)

    - Prelude.v: Go's zero values and nil-safe accessors, slices, integers and
      times, errors and gRPC codes; lemmas and automation ([hub] hints).
    - Commands.v, Events.v (resource-aggregate/commands, events, pb): the
      messages as records, one instance of the class [Event] for each event.
    - EventStore.v, Projection.v, Aggregate.v (resource-aggregate/cqrs): what a
      store answers, the check before a save, the projection that builds models
      from events, and the loop that handles a command with retries.
    - Handler.v, Pendings.v: what the aggregates share.  ResourceState.v,
      ResourceLinks.v, DeviceMetadata.v, ServiceMetadata.v: the aggregates, from
      the files *SnapshotTaken.go; ResourceModel.v, Validation.v: the models and
      the checks of resource-aggregate/service.
    - RequestHandler.v (service/grpcApi.go and the files beside it): the gRPC
      API: who may call, the command, what is published, the response.
    - Heartbeat.v (service/updateServiceHeartbeat.go): the goroutines around the
      aggregate of the services.
    - MongoStore.v (cqrs/eventstore/mongodb: save.go, load.go and the rest): the
      documents of the event store and the conditional writes on them.
    - BusPool.v (cqrs/eventbus/goroutinePoolHandler.go): the queues between the
      event bus and the handlers of events.
    - Subjects.v, SortedSlice.v, Slices.v, HandlerTable.v: templates of subjects,
      sorted slices, and tables of handlers that the caches share.
    - IdentityStore.v, OwnerCache.v (identity-store/service, client): who owns a
      device, and the cache of it in other services.
    - Subscription.v, SubscriptionsCache.v, SubscriptionSubjects.v
      (grpc-gateway/subscription): the filters of a subscription, the subjects
      it listens to, and the shared subscriptions of a connection.
    - IdFilter.v, Snippets.v, SnippetStore.v, SnippetService.v, AppliedStore.v,
      SnippetUpdater.v (snippet-service: pb, store, service/grpc, updater, jq):
      configurations, conditions and their application to devices.
    - Goroutines.v: programs whose calls other goroutines can come between.
      DeviceProjection.v (resource-aggregate/cqrs/projection): the projection
      that follows the event bus for the devices that are registered.
    - DirectoryModels.v, DirectoryProjection.v, Directory.v, DirectoryEvents.v
      (resource-directory/service): the read side: the models of resources, links
      and metadata, the cache of devices, the searches, and the requests;
      ResourceIdFilters.v (grpc-gateway/pb): filters of resources as text.
    - DeviceSubscriber.v (grpc-gateway/client/deviceSubscriber.go): how the
      commands that wait reach the gateway of a device.  CoapConv.v, Session.v
      (coap-gateway/coapconv, service/session.go): the messages of devices, and
      the session that serves commands and passes notifications on.
      ResourcesObserver.v (coap-gateway/service/observation): which resources of
      a device a gateway observes, and when their twin is in sync.
    - The files *Facts, *Spec, DirectoryRun, DirectoryCache, ResourceCancel, ResourceCommands, SnippetSystem,
      SnippetRun: theorems; Concrete.v: instances of all parameters; the files
      *Witnesses: the theorems at concrete inputs.

    ** Conventions

    A pointer to a message is an [option], [x ~> f] is the nil-safe accessor, a
    slice that may be nil a [gslice].  Fallible code answers [result A], an error
    or a value; a handler takes the state and returns the new one with the
    answer.  Integers are [Z], with [u64] and [i64] where Go wraps; a time is a
    number of nanoseconds.  Every reading of the clock is an argument: [now], or
    [clk k] for the k-th one; a load of an aggregate, an operation of a cache and
    a step of a system read it once.  Where the code mutates what it shares, the
    model says so: the loops that cancel commands range over the array from which
    their bodies remove ([cancel_range] in Pendings.v), and the twin
    synchronization of a device is one object in the state and in the event.
    Goroutines are step relations ([cache_step], [hb_step], [sys_step],
    [run_step], [bus_step]); the handlers of snippet-service are trees of the
    calls they make ([prog]), which a step runs one call at a time, among the
    others, and so are the operations of the directory: [run] runs one alone,
    [yields I p r] says that [p] may give [r] when between its calls the others
    do anything that keeps [I], [pool_step] that several take turns.  A search of
    the directory keeps what it has sent and the devices to reload; what the bus
    and the store answer to each of its passes is an argument.  Where a function ranges over a map, the order is an argument with
    the law that it is a permutation of the keys.

    ** What is assumed

    Code that is not in the repository is a class or a variable of a section,
    with its documented behaviour as laws: [UUIDLib] and [UUIDLaws]
    (github.com/google/uuid), [StringSet] (kit's sets of strings), [Unmarshaler]
    (protobuf), [TokenLib] (JWT), [Slices] and its laws (slices.SortFunc, which
    need not be stable), [SubjectLaws] (the order in which values are filled in), [MongoErrors]
    and [ContentLib] (codecs and jq), [KitSet], [RefCounter] and [ExpiringCache] (kit's sets, counters
    and cache), [DeviceLib] (the schema of devices), [CoapLib] (go-coap and the
    decoders of device messages), [MapOrder] (ranges over maps).  Interfaces of the repository that have
    several implementations are classes as well, with what their clients rely on:
    [EventStoreLaws] for an event store, [PersistenceLaws] for the database of
    the identity store.  Concrete.v has an instance of each.  Of MongoDB, the
    operators that the queries and pipelines use are read as documented; strings
    in queries do not begin with a dollar sign; a number that is 0 is not in a
    document, as protojson leaves it out.  A sync.Map is a map with atomic
    operations.  The identifier of an aggregate is in one group only.

    ** Fuel

    The loops of aggregate.go and projection.go take the number of their turns as
    fuel; [HandleCommand_returns] and [HandleWithReload_returns] show what is
    enough.  [alloc_fuel] (HandlerTable.v) tries one identifier more than are in
    use, which finds a free one ([Subscribe_locked_total]).  The loop over the
    devices of an expired service ends when its store answers
    ([handleExpiredService_ends]).  All other recursion is structural.

    ** What the theorems show

    - The log and the state never part: [HandleCommand_replays] and its like for
      the links and the services; of the metadata of a device, they part only in
      waiting commands whose identifier was used again ([HandleCommand_device],
      [dropped_without_event]); [resource_request_refines]: from the
      caller of the API to the event bus, with load, handle, save, retries and
      other writers, a request is one atomic step on the log;
      [HandleCommand_serializable]: no update is lost.  Snapshots change no
      answer ([HandleCommand_TakeSnapshot], [Handle_from_snapshot]).
    - The API ([serve]): nothing happens to devices of others, a batch is its
      parts, a deletion is exact, and each request is answered, that on the
      metadata of services by the loop of the heartbeats
      ([foreign_device_untouched], [BatchNotify_each], [DeleteDevices_exact],
      [every_request_answered], [request_answered]).
    - Invariants of the aggregates: identifiers of live commands differ, arrays
      are sorted and disjoint, the key of a link is its href.
    - What each command does: accepted and confirmed, cancelled (with what the
      loops pass over), published and unpublished, heartbeats, connections.
    - The projection: whole logs, redelivery, missing events.
    - The event store in MongoDB: a save by a writer that has not fallen behind
      a full document is the abstract append, a load delivers what follows the
      last snapshot, a removal changes no load; and the writes that are lost
      ([Save_refines], [stale_save_lost]).  The queues of the event
      bus keep their order in every interleaving, and are emptied when nothing
      fails ([handed_in_order], [pushed_is_handed]).
    - Heartbeats: with a valid identifier of the hub each request is answered, in
      every execution that goes on long enough ([request_answered]), and without
      one none is ([no_hub_no_answer]); each overdue service is found, its devices
      are put offline; and the timer that can be forgotten ([timer_forgotten]).
    - Subscriptions: what is published and covered is heard, nothing else is
      delivered, no subscription leaks; where filters are not the union that is
      documented.  The cache of an owner's devices catches up with the store.
    - The directory: a device is followed as long as it was registered more often
      than unregistered, which the reload and the cache keep
      ([projection_refines], [ReloadDevices_ok]); its models follow the aggregates
      ([command_followed], [links_followed], [metadata_followed]); a request sends
      data of the owner's devices only, whatever others do meanwhile
      ([requests_stay_with_owner]), the links of a device once, and alone exactly
      what the filters select ([GetResources_exact]).  The races of the
      projection: [subscription_overtaken], [registration_lost], [release_panics].
    - Devices: no command is handed on twice and none is forgotten in a cold start
      ([handed_on_once], [cold_start_serves]); from the aggregate over the bus, the
      subscriber and the session back to the aggregate, an accepted command is
      confirmed and waits no more ([command_served]); a batch is reported whole
      ([batch_requests]).  Where the two ways overtake each other:
      [overtaken_lost], [NotFound_ends_cold_start], [trigger_ends_tries].
      The observations that may be open are those of the observed resources and
      those the device failed to cancel ([no_observation_leaks]), the twin is in sync when they all are
      ([twin_follows]), entity tags fit in queries ([encodeETags_groups]), and
      what a device does not have any more is unpublished
      ([cleanUpPublishedResources_exact]); [cancel_leaves_syncing] and
      [in_sync_too_early] are where the twin is wrong.
    - Snippets: what a filter selects, reads and deletes; versions ascend; in
      every interleaving of all handlers a device has one applied configuration
      of a configuration, statuses only go forward, and no handler panics.

    ** Not modelled

    Of coap-gateway the handlers that sign devices in and up, tokens, the requests
    of clients and the CoAP server; the other gateways, certificate authority, provisioning and the OAuth server, which translate between
    protocols or wrap libraries; the tables of CQL; NATS itself; logging,
    tracing, configuration and TLS; generated code, whose nil-safe accessors are
    the notation above.  Of the subscriptions, the initial events that are sent
    when one begins; of resource-directory, its configuration and the codes of its
    errors; of the projection that follows the bus, how it is closed. *)

From Stdlib Require Import ZArith Lia String Ascii.
From Stdlib Require Export Strings.Byte.
From stdpp Require Export base list gmap strings sorting.

(** The scope of the notations below. *)
Declare Scope go_scope.
Delimit Scope go_scope with go.
Open Scope go_scope.

(** ** Zero values

    Go gives every type a zero value, and the accessors that the protobuf
    compiler writes are nil-safe: [x.GetF()] is the zero value of the field's
    type when [x] is nil.  A pointer to a message is an [option] here and
    [x ~> f] is that accessor. *)
Class Zero (A : Type) := zero : A.
#[export] Instance Zero_Z : Zero Z := 0%Z.
#[export] Instance Zero_bool : Zero bool := false.
#[export] Instance Zero_string : Zero string := ""%string.
#[export] Instance Zero_option {A} : Zero (option A) := None.
#[export] Instance Zero_list {A} : Zero (list A) := [].

Definition getter {T A} `{!Zero A} (f : T -> A) (x : option T) : A :=
  match x with Some v => f v | None => zero end.
Notation "x ~> f" := (getter f x) (at level 1, f at level 0, left associativity, format "x  ~>  f") : go_scope.

Lemma getter_Some {T A} `{!Zero A} (f : T -> A) v : (Some v) ~> f = f v.
Proof. reflexivity. Qed.
Lemma getter_None {T A} `{!Zero A} (f : T -> A) : (None : option T) ~> f = zero.
Proof. reflexivity. Qed.

(** ** Slices

    A slice that the code compares with nil is a [gslice]: [None] is the nil
    slice, [Some l] a slice holding [l].  [elems] is what [len] and [range] see. *)
Definition gslice (A : Type) := option (list A).
Definition elems {A} (s : gslice A) : list A := default [] s.
Definition snoc {A} (s : gslice A) (x : A) : gslice A := Some (elems s ++ [x]).

(** [append(s[:i], s[i+1:]...)] as a value ... *)
Definition remove_at {A} (i : nat) (s : gslice A) : gslice A := Some (delete i (elems s)).

(** ... and what it does to the array behind a slice of length [len]: the tail
    moves one place to the left inside the first [len] cells, and the last of
    these cells keeps its old content.  Any other slice over the same array
    sees the move. *)
Definition remove_in_place {A} (i len : nat) (arr : list A) : list A :=
  delete i (take len arr) ++ drop (len - 1) arr.

(** ** Integers at their width *)
Definition u64 (z : Z) : Z := (z mod 2 ^ 64)%Z.
Definition i64 (z : Z) : Z := ((z + 2 ^ 63) mod 2 ^ 64 - 2 ^ 63)%Z.
Definition is_u64 (z : Z) : Prop := (0 <= z < 2 ^ 64)%Z.
Definition is_i64 (z : Z) : Prop := (- 2 ^ 63 <= z < 2 ^ 63)%Z.

Lemma u64_id z : is_u64 z -> u64 z = z.
Proof. unfold is_u64, u64. intros. by rewrite Z.mod_small. Qed.
Lemma i64_id z : is_i64 z -> i64 z = z.
Proof. unfold is_i64, i64. intros. rewrite Z.mod_small; lia. Qed.
Lemma u64_range z : is_u64 (u64 z).
Proof. unfold is_u64, u64. apply Z.mod_pos_bound. lia. Qed.
Lemma i64_range z : is_i64 (i64 z).
Proof. unfold is_i64, i64. pose proof (Z.mod_pos_bound (z + 2 ^ 63) (2 ^ 64)). lia. Qed.

(** ** Time

    [time.Time] is a number of nanoseconds since the Unix epoch; the zero time
    of Go is the first instant of year 1.  [time.Duration] is a 64-bit number of
    nanoseconds. *)
Definition time_ := Z.
Definition zeroTime : time_ := (-62135596800 * 1000000000)%Z.
Definition IsZero (t : time_) : bool := (t =? zeroTime)%Z.
Definition After (t u : time_) : bool := (u <? t)%Z.
Definition Before (t u : time_) : bool := (t <? u)%Z.
Definition Millisecond : Z := 1000000%Z.
Definition Second : Z := 1000000000%Z.
Definition Minute : Z := (60 * Second)%Z.

(** [time.Time.UnixNano]: the count does not fit 64 bits outside of the years
    1678 to 2262, and wraps. *)
Definition Time_UnixNano (t : time_) : Z := i64 t.

(** pkg/time/unixnano.go *)
Definition MinTime : time_ := 0%Z.
Definition MaxTime : time_ := ((2 ^ 63 - 62135596801) * 1000000000 + 999999999)%Z.
Definition UnixNano (t : time_) : Z := if IsZero t then 0%Z else Time_UnixNano t.
Definition UnixSec (t : time_) : Z := if IsZero t then 0%Z else (t / 1000000000)%Z.
Definition Unix (sec nsec : Z) : time_ :=
  if negb (sec =? 0)%Z || negb (nsec =? 0)%Z
  then (sec * 1000000000 + nsec)%Z else zeroTime.

Lemma Unix_nsec_nonzero n : is_i64 n -> IsZero (Unix 0 n) = (n =? 0)%Z.
Proof.
  unfold Unix, IsZero, zeroTime, is_i64. intros Hn.
  destruct (Z.eqb_spec n 0) as [->|Hne]; [reflexivity|]. cbn [Z.eqb negb orb].
  apply Z.eqb_neq. lia.
Qed.

Lemma Unix_UnixNano t : is_i64 t -> t <> 0%Z -> Unix 0 (UnixNano t) = t.
Proof.
  intros Hr Hne. unfold UnixNano, Time_UnixNano, IsZero.
  destruct (Z.eqb_spec t zeroTime) as [->|_].
  - unfold is_i64, zeroTime in Hr. lia.
  - rewrite i64_id by done. unfold Unix.
    destruct (Z.eqb_spec t 0); [done|]. cbn [Z.eqb negb orb]. lia.
Qed.

(** ** Errors *)
(** google.golang.org/grpc/codes *)
Inductive Code := OK | Canceled | Unknown | InvalidArgument | DeadlineExceeded
  | NotFound | AlreadyExists | PermissionDenied | ResourceExhausted
  | FailedPrecondition | Aborted | OutOfRange | Unimplemented | Internal
  | Unavailable | DataLoss | Unauthenticated.
#[export] Instance Code_eq_dec : EqDecision Code.
Proof. solve_decision. Defined.

(** [status.Errorf(code, format, ...)], [errors.New(format)] or
    [fmt.Errorf(format, ...)], and [fmt.Errorf("format: %w", err)].  The format
    stands for the message; its arguments are left out. *)
Inductive error :=
  | Errorf (c : Code) (format : string)
  | errors_New (format : string)
  | Wrap (format : string) (e : error).
#[export] Instance error_eq_dec : EqDecision error.
Proof. solve_decision. Defined.

(** The code a gRPC status carries, through the wrapping. *)
Fixpoint error_code (e : error) : Code :=
  match e with
  | Errorf c _ => c
  | errors_New _ => Unknown
  | Wrap _ e => error_code e
  end.

(** A fallible call returns [inl err] or [inr v]. *)
Definition result (A : Type) : Type := (error + A)%type.
Notation "'let!' x ':=' c 'in' k" :=
  (match c with inl err => inl err | inr x => k end)
  (at level 10, x name, c at level 100, k at level 200) : go_scope.

(** ** Bytes and strings *)
#[export] Instance byte_eq_dec : EqDecision byte := Byte.byte_eq_dec.
Definition bytes := option (list byte).
(** [bytes.Equal] does not tell nil from empty. *)
Definition bytes_Equal (a b : bytes) : bool := bool_decide (elems a = elems b).

Definition str_nonempty (s : string) : bool := negb (String.eqb s "").

(** ** Automation *)
Create HintDb hub discriminated.
Create Rewrite HintDb hub_rw.
#[export] Hint Resolve u64_range i64_range : hub.
#[export] Hint Rewrite @getter_Some @getter_None : hub_rw.

(** Case analysis on whatever the goal (or a hypothesis) is stuck on. *)
Ltac case_goal :=
  match goal with
  | |- context [match ?x with _ => _ end] =>
      lazymatch x with context [match _ with _ => _ end] => fail | _ => destruct x eqn:? end
  end.
Ltac case_hyp H :=
  match type of H with
  | context [match ?x with _ => _ end] =>
      lazymatch x with context [match _ with _ => _ end] => fail | _ => destruct x eqn:? end
  end.
Ltac cases_goal := repeat (case_goal; simplify_eq/=; try done).
Ltac cases_hyp H := repeat (case_hyp H; simplify_eq/=; try done).

(** Boolean tests of the code, as propositions. *)
Ltac bool_prop :=
  repeat match goal with
  | H : _ && _ = true |- _ => apply andb_true_iff in H as [? ?]
  | H : _ || _ = false |- _ => apply orb_false_iff in H as [? ?]
  | H : negb _ = true |- _ => apply negb_true_iff in H
  | H : negb _ = false |- _ => apply negb_false_iff in H
  | H : (_ <? _)%Z = true |- _ => apply Z.ltb_lt in H
  | H : (_ <? _)%Z = false |- _ => apply Z.ltb_ge in H
  | H : (_ <=? _)%Z = true |- _ => apply Z.leb_le in H
  | H : (_ <=? _)%Z = false |- _ => apply Z.leb_gt in H
  | H : (_ =? _)%Z = true |- _ => apply Z.eqb_eq in H
  | H : (_ =? _)%Z = false |- _ => apply Z.eqb_neq in H
  | H : String.eqb _ _ = true |- _ => apply String.eqb_eq in H
  | H : String.eqb _ _ = false |- _ => apply String.eqb_neq in H
  | H : bool_decide _ = true |- _ => apply bool_decide_eq_true in H
  | H : bool_decide _ = false |- _ => apply bool_decide_eq_false in H
  end.

(** ** Lists *)
Section lists.
Context {A : Type}.
Implicit Types (l : list A) (i j : nat).

Lemma length_remove_in_place i len l :
  len <= length l -> i < len -> length (remove_in_place i len l) = length l.
Proof.
  intros Hlen Hi. unfold remove_in_place.
  assert (Hlk : is_Some (take len l !! i)).
  { apply lookup_lt_is_Some. rewrite length_take. lia. }
  rewrite length_app, length_drop, length_delete, length_take by done. lia.
Qed.

Lemma take_remove_in_place i len l :
  len <= length l -> i < len ->
  take (len - 1) (remove_in_place i len l) = delete i (take len l).
Proof.
  intros Hlen Hi. unfold remove_in_place.
  assert (Hlk : is_Some (take len l !! i)).
  { apply lookup_lt_is_Some. rewrite length_take. lia. }
  apply take_app_length'. rewrite length_delete, length_take by done. lia.
Qed.

Lemma drop_remove_in_place i len l :
  len <= length l -> i < len ->
  drop (len - 1) (remove_in_place i len l) = drop (len - 1) l.
Proof.
  intros Hlen Hi. unfold remove_in_place.
  assert (Hlk : is_Some (take len l !! i)).
  { apply lookup_lt_is_Some. rewrite length_take. lia. }
  apply drop_app_length'. rewrite length_delete, length_take by done. lia.
Qed.

Lemma drop_last x l : drop (length l) (x :: l) = [default x (last l)].
Proof.
  destruct l as [|y l _] using rev_ind; [done|].
  rewrite last_snoc, length_app, Nat.add_comm. simpl. apply drop_app_length.
Qed.

(** Removing [x] from a slice in front of the cells [m]. *)
Lemma remove_in_place_middle l x k m :
  remove_in_place (length l) (length (l ++ x :: k)) ((l ++ x :: k) ++ m)
  = l ++ k ++ default x (last k) :: m.
Proof.
  unfold remove_in_place. rewrite take_app_length, delete_middle, <- app_assoc. do 2 f_equal.
  replace (length (l ++ x :: k) - 1) with (length l + length k)
    by (rewrite length_app; simpl; lia).
  rewrite <- app_assoc, <- drop_drop, drop_app_length, drop_app_le by (simpl; lia).
  by rewrite drop_last.
Qed.

Lemma drop_S_middle l x k : drop (S (length l)) (l ++ x :: k) = k.
Proof. rewrite drop_app_ge by lia. by rewrite Nat.sub_succ_l, Nat.sub_diag by lia. Qed.
Lemma drop_SS_middle l x y k : drop (S (S (length l))) (l ++ x :: y :: k) = k.
Proof. rewrite drop_app_ge by lia. by replace (S (S (length l)) - length l) with 2 by lia. Qed.
Lemma lookup_S_middle l x y k : (l ++ x :: y :: k) !! S (length l) = Some y.
Proof. rewrite lookup_app_r by lia. by replace (S (length l) - length l) with 1 by lia. Qed.

Lemma Forall_delete (P : A -> Prop) l i : Forall P l -> Forall P (delete i l).
Proof. intros H. revert i. induction H; intros [|i]; simpl; auto. Qed.

Lemma sublist_filter (P : A -> Prop) `{!forall x, Decision (P x)} l k :
  l `sublist_of` k -> filter P l `sublist_of` filter P k.
Proof.
  induction 1 as [|x l' k' ? IH|x l' k' ? IH]; [done| |].
  - rewrite !filter_cons. case_decide; [by constructor|done].
  - rewrite filter_cons. case_decide; [by constructor|done].
Qed.

Lemma sublist_filter_self (P : A -> Prop) `{!forall x, Decision (P x)} l :
  filter P l `sublist_of` l.
Proof. induction l as [|x l IH]; [done|]. rewrite filter_cons. case_decide; by constructor. Qed.

Lemma list_filter_nil (P : A -> Prop) `{!forall x, Decision (P x)} l :
  (forall x, x ∈ l -> ~ P x) -> filter P l = [].
Proof.
  induction l as [|x l IH]; intros Hn; [done|]. rewrite filter_cons_False by (apply Hn; by left).
  apply IH. intros y Hy. apply Hn. by right.
Qed.

Lemma list_filter_all (P : A -> Prop) `{!forall x, Decision (P x)} l :
  (forall x, x ∈ l -> P x) -> filter P l = l.
Proof.
  induction l as [|x l IH]; intros Hp; [done|]. rewrite filter_cons_True by (apply Hp; by left).
  f_equal. apply IH. intros y Hy. apply Hp. by right.
Qed.

Lemma filter_ext_elem (P Q : A -> Prop)
    `{!forall x, Decision (P x)} `{!forall x, Decision (Q x)} l :
  (forall x, x ∈ l -> P x <-> Q x) -> filter P l = filter Q l.
Proof.
  induction l as [|x l IH]; intros Heq; [done|].
  assert (Hx : P x <-> Q x) by (apply Heq; by left).
  assert (Hl : filter P l = filter Q l) by (apply IH; intros y Hy; apply Heq; by right).
  destruct (decide (P x)) as [HP|HP].
  - rewrite !filter_cons_True by tauto. by rewrite Hl.
  - rewrite !filter_cons_False by tauto. done.
Qed.

Lemma list_filter_idemp (P : A -> Prop) `{!forall x, Decision (P x)} l :
  filter P (filter P l) = filter P l.
Proof.
  induction l as [|x l IH]; [done|]. rewrite filter_cons. case_decide as Hx; [|done].
  rewrite filter_cons_True by done. by rewrite IH.
Qed.

Lemma fmap_NoDup_inj {B} (f : A -> B) l x y :
  NoDup (f <$> l) -> x ∈ l -> y ∈ l -> f x = f y -> x = y.
Proof.
  induction l as [|z l IH]; intros Hnd Hx Hy Heq; [by apply not_elem_of_nil in Hx|].
  rewrite fmap_cons, NoDup_cons in Hnd. destruct Hnd as [Hz Hnd].
  apply elem_of_cons in Hx as [->|Hx], Hy as [->|Hy]; [done| | |by apply IH].
  - destruct Hz. rewrite Heq. by apply list_elem_of_fmap_2.
  - destruct Hz. rewrite <- Heq. by apply list_elem_of_fmap_2.
Qed.

Lemma sublist_fmap {B} (f : A -> B) l k : l `sublist_of` k -> f <$> l `sublist_of` f <$> k.
Proof. induction 1; simpl; by constructor. Qed.
End lists.

Lemma omap_ext_elem {A B} (f g : A -> option B) (l : list A) :
  (forall x, x ∈ l -> f x = g x) -> omap f l = omap g l.
Proof.
  induction l as [|x l IH]; [done|]. intros Hfg. cbn. rewrite (Hfg x) by left.
  by rewrite IH by (intros y Hy; apply Hfg; by right).
Qed.
Lemma omap_bind {A B C} (f : A -> option B) (g : B -> option C) (l : list A) :
  omap g (omap f l) = omap (fun x => f x ≫= g) l.
Proof. induction l as [|x l IH]; [done|]. cbn. destruct (f x); cbn; by rewrite IH. Qed.
Lemma omap_id {A} (l : list A) : omap Some l = l.
Proof. induction l as [|x l IH]; [done|]. cbn. by rewrite IH. Qed.
Lemma fmap_as_omap {A B} (f : A -> B) (l : list A) : f <$> l = omap (fun x => Some (f x)) l.
Proof. induction l as [|x l IH]; [done|]. cbn. by rewrite IH. Qed.

(** ** Strings *)
Section strings.
#[local] Arguments String.append !_ _ /.
Lemma append_assoc (s t u : string) : ((s +:+ t) +:+ u)%string = (s +:+ (t +:+ u))%string.
Proof. induction s as [|c s IH]; cbn; [done|by rewrite IH]. Qed.
Lemma append_nil_r (s : string) : (s +:+ "")%string = s.
Proof. induction s as [|c s IH]; cbn; [done|by rewrite IH]. Qed.
Lemma length_append (s t : string) : String.length (s +:+ t) = String.length s + String.length t.
Proof. induction s as [|c s IH]; cbn; [done|by rewrite IH]. Qed.
End strings.
