(* ===== verification/Commands.v ===== *)
(** * Commands of the resource aggregate

    The package resource-aggregate/commands: the messages of commands.proto and
    resources.proto that the aggregates read (one [Record] per message, a
    pointer to a message being an [option]; the fields carry a short prefix),
    and the helpers of commands.go, utils.go, resouces.go and
    eventContentToContent.go.  github.com/google/uuid and the media types of
    go-coap are not part of the repository: they are the class [UUIDLib] and
    parameters. *)

From Stdlib Require Import ZArith String Ascii.
From S2P Require Import Prelude.

(** ** Messages *)

(** The values of the proto enum [Status] carry the prefix [Status_] that the
    Go code gives them. *)
Inductive Status := Status_UNKNOWN | Status_OK | Status_BAD_REQUEST
  | Status_UNAUTHORIZED | Status_FORBIDDEN | Status_NOT_FOUND | Status_UNAVAILABLE
  | Status_NOT_IMPLEMENTED | Status_ACCEPTED | Status_ERROR
  | Status_METHOD_NOT_ALLOWED | Status_CREATED | Status_CANCELED | Status_NOT_MODIFIED.
#[export] Instance Status_eq_dec : EqDecision Status.
Proof. solve_decision. Defined.
#[export] Instance Zero_Status : Zero Status := Status_UNKNOWN.

Record AuditContext := MkAuditContext {
  ac_UserId : string; ac_CorrelationId : string; ac_Owner : string }.
#[export] Instance AuditContext_eq_dec : EqDecision AuditContext.
Proof. solve_decision. Defined.

Record ResourceId := MkResourceId { rid_DeviceId : string; rid_Href : string }.
#[export] Instance ResourceId_eq_dec : EqDecision ResourceId.
Proof. solve_decision. Defined.

Record CommandMetadata := MkCommandMetadata { cm_ConnectionId : string; cm_Sequence : Z }.
#[export] Instance CommandMetadata_eq_dec : EqDecision CommandMetadata.
Proof. solve_decision. Defined.

Record Content := MkContent {
  ct_Data : bytes; ct_ContentType : string; ct_CoapContentFormat : Z }.
#[export] Instance Content_eq_dec : EqDecision Content.
Proof. solve_decision. Defined.

Record Policy := MkPolicy { pol_BitFlags : Z }.
#[export] Instance Policy_eq_dec : EqDecision Policy.
Proof. solve_decision. Defined.

Record EndpointInformation := MkEndpointInformation { ei_Endpoint : string; ei_Priority : Z }.
#[export] Instance EndpointInformation_eq_dec : EqDecision EndpointInformation.
Proof. solve_decision. Defined.

Record Resource := MkResource {
  res_Href : string; res_DeviceId : string; res_ResourceTypes : list string;
  res_Interfaces : list string; res_Anchor : string; res_Title : string;
  res_SupportedContentTypes : list string; res_ValidUntil : Z;
  res_Policy : option Policy; res_EndpointInformations : gslice EndpointInformation }.
#[export] Instance Resource_eq_dec : EqDecision Resource.
Proof. solve_decision. Defined.

Inductive Connection_Status := Connection_OFFLINE | Connection_ONLINE.
#[export] Instance Connection_Status_eq_dec : EqDecision Connection_Status.
Proof. solve_decision. Defined.
#[export] Instance Zero_Connection_Status : Zero Connection_Status := Connection_OFFLINE.

Inductive Connection_Protocol := Connection_UNKNOWN | Connection_COAP | Connection_COAPS
  | Connection_COAP_TCP | Connection_COAPS_TCP | Connection_C2C.
#[export] Instance Connection_Protocol_eq_dec : EqDecision Connection_Protocol.
Proof. solve_decision. Defined.
#[export] Instance Zero_Connection_Protocol : Zero Connection_Protocol := Connection_UNKNOWN.

Record Connection := MkConnection {
  con_Status : Connection_Status; con_Id : string; con_ConnectedAt : Z;
  con_Protocol : Connection_Protocol; con_ServiceId : string;
  con_LocalEndpoints : list string }.
#[export] Instance Connection_eq_dec : EqDecision Connection.
Proof. solve_decision. Defined.

Inductive TwinSynchronization_State := TwinSynchronization_OUT_OF_SYNC
  | TwinSynchronization_DISABLED | TwinSynchronization_SYNCING | TwinSynchronization_IN_SYNC.
#[export] Instance TwinSynchronization_State_eq_dec : EqDecision TwinSynchronization_State.
Proof. solve_decision. Defined.
#[export] Instance Zero_TwinSynchronization_State : Zero TwinSynchronization_State :=
  TwinSynchronization_OUT_OF_SYNC.

Record TwinSynchronization := MkTwinSynchronization {
  ts_State : TwinSynchronization_State; ts_SyncingAt : Z; ts_InSyncAt : Z;
  ts_CommandMetadata : option CommandMetadata; ts_ForceSynchronizationAt : Z }.
#[export] Instance TwinSynchronization_eq_dec : EqDecision TwinSynchronization.
Proof. solve_decision. Defined.

(** ** Requests on resource links *)
Record PublishResourceLinksRequest := MkPublishResourceLinksRequest {
  plr_Resources : gslice Resource; plr_DeviceId : string;
  plr_CommandMetadata : option CommandMetadata }.

Record UnpublishResourceLinksRequest := MkUnpublishResourceLinksRequest {
  ulr_Hrefs : list string; ulr_DeviceId : string;
  ulr_CommandMetadata : option CommandMetadata; ulr_InstanceIds : list Z }.

(** ** Requests on a resource *)
Record NotifyResourceChangedRequest := MkNotifyResourceChangedRequest {
  ncr_ResourceId : option ResourceId; ncr_Content : option Content;
  ncr_CommandMetadata : option CommandMetadata; ncr_Status : Status;
  ncr_Etag : bytes; ncr_ResourceTypes : list string }.

Record UpdateResourceRequest := MkUpdateResourceRequest {
  urr_ResourceId : option ResourceId; urr_CorrelationId : string;
  urr_Content : option Content; urr_ResourceInterface : string; urr_TimeToLive : Z;
  urr_CommandMetadata : option CommandMetadata; urr_Force : bool }.

Record RetrieveResourceRequest := MkRetrieveResourceRequest {
  rrr_ResourceId : option ResourceId; rrr_CorrelationId : string;
  rrr_ResourceInterface : string; rrr_TimeToLive : Z;
  rrr_CommandMetadata : option CommandMetadata; rrr_Etag : list (list byte) }.

Record DeleteResourceRequest := MkDeleteResourceRequest {
  drr_ResourceId : option ResourceId; drr_CorrelationId : string; drr_TimeToLive : Z;
  drr_CommandMetadata : option CommandMetadata; drr_ResourceInterface : string;
  drr_Force : bool }.

Record CreateResourceRequest := MkCreateResourceRequest {
  crr_ResourceId : option ResourceId; crr_CorrelationId : string;
  crr_Content : option Content; crr_TimeToLive : Z;
  crr_CommandMetadata : option CommandMetadata; crr_Force : bool }.

(** The four confirmations have the same fields; only the one of a retrieval
    carries an etag. *)
Record ConfirmResourceUpdateRequest := MkConfirmResourceUpdateRequest {
  cur_ResourceId : option ResourceId; cur_CorrelationId : string; cur_Status : Status;
  cur_Content : option Content; cur_CommandMetadata : option CommandMetadata }.

Record ConfirmResourceRetrieveRequest := MkConfirmResourceRetrieveRequest {
  ctr_ResourceId : option ResourceId; ctr_CorrelationId : string; ctr_Status : Status;
  ctr_Content : option Content; ctr_CommandMetadata : option CommandMetadata;
  ctr_Etag : bytes }.

Record ConfirmResourceDeleteRequest := MkConfirmResourceDeleteRequest {
  cdr_ResourceId : option ResourceId; cdr_CorrelationId : string; cdr_Status : Status;
  cdr_Content : option Content; cdr_CommandMetadata : option CommandMetadata }.

Record ConfirmResourceCreateRequest := MkConfirmResourceCreateRequest {
  ccr_ResourceId : option ResourceId; ccr_CorrelationId : string; ccr_Status : Status;
  ccr_Content : option Content; ccr_CommandMetadata : option CommandMetadata }.

Record CancelPendingCommandsRequest := MkCancelPendingCommandsRequest {
  cpr_ResourceId : option ResourceId; cpr_CorrelationIdFilter : list string;
  cpr_CommandMetadata : option CommandMetadata }.

(** ** Requests on the metadata of a device *)
(** The proto oneof [update]; the wrapped messages are pointers. *)
Inductive UpdateDeviceMetadataRequest_Update :=
  | UpdateDeviceMetadataRequest_Connection (c : option Connection)
  | UpdateDeviceMetadataRequest_TwinSynchronization (t : option TwinSynchronization)
  | UpdateDeviceMetadataRequest_TwinEnabled (b : bool)
  | UpdateDeviceMetadataRequest_TwinForceSynchronization (b : bool).

Record UpdateDeviceMetadataRequest := MkUpdateDeviceMetadataRequest {
  udr_DeviceId : string; udr_CorrelationId : string;
  udr_Update : option UpdateDeviceMetadataRequest_Update; udr_TimeToLive : Z;
  udr_CommandMetadata : option CommandMetadata }.

Inductive ConfirmDeviceMetadataUpdateRequest_Confirm :=
  | ConfirmDeviceMetadataUpdateRequest_TwinEnabled (b : bool)
  | ConfirmDeviceMetadataUpdateRequest_TwinForceSynchronization (b : bool).

Record ConfirmDeviceMetadataUpdateRequest := MkConfirmDeviceMetadataUpdateRequest {
  cmr_DeviceId : string; cmr_CorrelationId : string; cmr_Status : Status;
  cmr_Confirm : option ConfirmDeviceMetadataUpdateRequest_Confirm;
  cmr_CommandMetadata : option CommandMetadata }.

Record CancelPendingMetadataUpdatesRequest := MkCancelPendingMetadataUpdatesRequest {
  cxr_DeviceId : string; cxr_CorrelationIdFilter : list string;
  cxr_CommandMetadata : option CommandMetadata }.

(** ** Requests on the metadata of the services *)
Record ServiceHeartbeat := MkServiceHeartbeat {
  hb_ServiceId : string; hb_TimeToLive : Z; hb_Timestamp : Z; hb_Register : bool }.

Inductive UpdateServiceMetadataRequest_Update :=
  | UpdateServiceMetadataRequest_Heartbeat (h : option ServiceHeartbeat).

Record UpdateServiceMetadataRequest := MkUpdateServiceMetadataRequest {
  usr_Update : option UpdateServiceMetadataRequest_Update }.

(** The accessors of a oneof: nil unless the oneof holds that field. *)
Definition udr_GetConnection (r : UpdateDeviceMetadataRequest) : option Connection :=
  match udr_Update r with Some (UpdateDeviceMetadataRequest_Connection c) => c | _ => None end.
Definition udr_GetTwinSynchronization (r : UpdateDeviceMetadataRequest)
    : option TwinSynchronization :=
  match udr_Update r with
  | Some (UpdateDeviceMetadataRequest_TwinSynchronization t) => t | _ => None end.
Definition udr_GetTwinEnabled (r : UpdateDeviceMetadataRequest) : bool :=
  match udr_Update r with
  | Some (UpdateDeviceMetadataRequest_TwinEnabled b) => b | _ => false end.
Definition udr_GetTwinForceSynchronization (r : UpdateDeviceMetadataRequest) : bool :=
  match udr_Update r with
  | Some (UpdateDeviceMetadataRequest_TwinForceSynchronization b) => b | _ => false end.
Definition cmr_GetTwinEnabled (r : ConfirmDeviceMetadataUpdateRequest) : bool :=
  match cmr_Confirm r with
  | Some (ConfirmDeviceMetadataUpdateRequest_TwinEnabled b) => b | _ => false end.
Definition cmr_GetTwinForceSynchronization (r : ConfirmDeviceMetadataUpdateRequest) : bool :=
  match cmr_Confirm r with
  | Some (ConfirmDeviceMetadataUpdateRequest_TwinForceSynchronization b) => b | _ => false end.
Definition usr_GetHeartbeat (r : UpdateServiceMetadataRequest) : option ServiceHeartbeat :=
  match usr_Update r with
  | Some (UpdateServiceMetadataRequest_Heartbeat h) => h | None => None end.

(** ** commands.go *)
Definition NewAuditContext (userID correlationID owner : string) : AuditContext :=
  MkAuditContext userID correlationID owner.

Definition AuditContext_Clone (c : option AuditContext) : option AuditContext :=
  match c with
  | None => None
  | Some _ => Some (NewAuditContext (c ~> ac_UserId) (c ~> ac_CorrelationId) (c ~> ac_Owner))
  end.

Definition NewConnection (status : Connection_Status) (connectionID : string)
    (connectedAt : Z) : Connection :=
  MkConnection status connectionID connectedAt Connection_UNKNOWN "" [].

Definition Connection_Clone (c : option Connection) : option Connection :=
  match c with
  | None => None
  | Some _ => Some (NewConnection (c ~> con_Status) (c ~> con_Id) (c ~> con_ConnectedAt))
  end.

(** ** resouces.go *)
Definition Content_Clone (c : option Content) : option Content :=
  match c with
  | None => None
  | Some _ =>
      Some (MkContent (c ~> ct_Data) (c ~> ct_ContentType) (c ~> ct_CoapContentFormat))
  end.

Definition ResourceId_Clone (r : option ResourceId) : option ResourceId :=
  match r with
  | None => None
  | Some _ => Some (MkResourceId (r ~> rid_DeviceId) (r ~> rid_Href))
  end.

Definition EndpointInformation_Clone (e : EndpointInformation) : EndpointInformation :=
  MkEndpointInformation (ei_Endpoint e) (ei_Priority e).

Definition EndpointInformations_Clone (e : gslice EndpointInformation)
    : gslice EndpointInformation :=
  match e with
  | None => None
  | Some l => Some (EndpointInformation_Clone <$> l)
  end.

Definition Resource_Clone (r : Resource) : Resource :=
  {| res_Href := res_Href r; res_DeviceId := res_DeviceId r;
     res_ResourceTypes := [] ++ res_ResourceTypes r;
     res_Interfaces := [] ++ res_Interfaces r;
     res_Anchor := res_Anchor r; res_Title := res_Title r;
     res_SupportedContentTypes := [] ++ res_SupportedContentTypes r;
     res_ValidUntil := res_ValidUntil r;
     res_Policy := Some (MkPolicy ((res_Policy r) ~> pol_BitFlags));
     res_EndpointInformations := EndpointInformations_Clone (res_EndpointInformations r) |}.

Definition CloneResourcesMap (resources : gmap string Resource) : gmap string Resource :=
  Resource_Clone <$> resources.

(** ** utils.go *)
Definition ResourceLinksHref : string := "/plgd/res".
Definition StatusHref : string := "/plgd/s".
Definition ServicesResourceHref : string := "/plgd/services".

(** github.com/google/uuid, on the textual form of a UUID: [NewSHA1] in the URL
    namespace, the nil UUID, and whether [Parse] accepts a string. *)
Class UUIDLib := {
  uuid_NewSHA1 : string -> string;
  uuid_Nil : string;
  uuid_Parse : string -> bool }.

(** What the code relies on: the UUIDs of the library parse, the empty string does not, and the SHA1
    UUIDs of two different names differ (no collision). *)
Class UUIDLaws `{!UUIDLib} := {
  uuid_NewSHA1_parses : forall s, uuid_Parse (uuid_NewSHA1 s) = true;
  uuid_Nil_parses : uuid_Parse uuid_Nil = true;
  uuid_Parse_empty : uuid_Parse "" = false;
  uuid_NewSHA1_inj : forall s t, uuid_NewSHA1 s = uuid_NewSHA1 t -> s = t }.

Definition NewResourceID (deviceID href : string) : ResourceId := MkResourceId deviceID href.

Definition IsOnline (c : option Connection) : bool :=
  match c with
  | None => false
  | Some _ => bool_decide (c ~> con_Status = Connection_ONLINE)
  end.

Section uuid.
Context `{!UUIDLib}.

Definition ResourceId_ToUUID (r : option ResourceId) : string :=
  if String.eqb (r ~> rid_Href) "" then uuid_Nil
  else uuid_NewSHA1 ((r ~> rid_DeviceId) +:+ (r ~> rid_Href)).

Definition MakeLinksResourceUUID (deviceID : string) : string :=
  uuid_NewSHA1 (deviceID +:+ ResourceLinksHref).
Definition MakeStatusResourceUUID (deviceID : string) : string :=
  uuid_NewSHA1 (deviceID +:+ StatusHref).
Definition MakeServicesResourceUUID (hubID : string) : string :=
  uuid_NewSHA1 (hubID +:+ ServicesResourceHref).
End uuid.

(** The tables of the HTTP statuses and of the gRPC codes; the codes that
    grpc-gateway/pb/codes adds to those of gRPC start at 4096. *)
Definition HTTPStatus2Status (s : Z) : Status :=
  match s with
  | 202 => Status_ACCEPTED | 304 => Status_NOT_MODIFIED | 200 => Status_OK
  | 400 => Status_BAD_REQUEST | 404 => Status_NOT_FOUND | 501 => Status_NOT_IMPLEMENTED
  | 403 => Status_FORBIDDEN | 401 => Status_UNAUTHORIZED
  | 405 => Status_METHOD_NOT_ALLOWED | 201 => Status_CREATED | 204 => Status_OK
  | 503 => Status_UNAVAILABLE
  | _ => Status_UNKNOWN
  end%Z.

Definition ToHTTPCode (s : Status) : Z :=
  match s with
  | Status_ACCEPTED => 202 | Status_OK => 200 | Status_NOT_MODIFIED => 304
  | Status_BAD_REQUEST => 400 | Status_NOT_FOUND => 404 | Status_NOT_IMPLEMENTED => 501
  | Status_FORBIDDEN => 403 | Status_UNAUTHORIZED => 401
  | Status_METHOD_NOT_ALLOWED => 405 | Status_CREATED => 201
  | Status_UNAVAILABLE => 503 | Status_UNKNOWN => 503
  | Status_ERROR | Status_CANCELED => 500
  end%Z.

Inductive ExtCode := GrpcCode (c : Code) | ExtAccepted | ExtMethodNotAllowed
  | ExtCreated | ExtValid.
#[export] Instance ExtCode_eq_dec : EqDecision ExtCode.
Proof. solve_decision. Defined.

Definition ToGrpcCode (s : Status) : ExtCode :=
  match s with
  | Status_OK => GrpcCode OK | Status_BAD_REQUEST => GrpcCode InvalidArgument
  | Status_UNAUTHORIZED => GrpcCode Unauthenticated
  | Status_FORBIDDEN => GrpcCode PermissionDenied
  | Status_NOT_FOUND => GrpcCode NotFound | Status_UNAVAILABLE => GrpcCode Unavailable
  | Status_NOT_IMPLEMENTED => GrpcCode Unimplemented | Status_ACCEPTED => ExtAccepted
  | Status_ERROR => GrpcCode Internal | Status_METHOD_NOT_ALLOWED => ExtMethodNotAllowed
  | Status_CREATED => ExtCreated | Status_NOT_MODIFIED => ExtValid
  | Status_UNKNOWN | Status_CANCELED => GrpcCode Unknown
  end.

Definition ResourceId_Equal (r r1 : option ResourceId) : bool :=
  match r, r1 with
  | None, None => true
  | None, Some _ | Some _, None => false
  | Some _, Some _ =>
      String.eqb (r ~> rid_DeviceId) (r1 ~> rid_DeviceId)
      && String.eqb (r ~> rid_Href) (r1 ~> rid_Href)
  end.

(** [strings.SplitN(v, "/", 2)]: the part before the first slash and the rest,
    or the whole string when there is no slash. *)
Fixpoint SplitN2 (v : string) : list string :=
  match v with
  | EmptyString => [""%string]
  | String c v' =>
      if Ascii.eqb c "/"%char then [""%string; v']
      else match SplitN2 v' with
           | [a; b] => [String c a; b]
           | [a] => [String c a]
           | l => l
           end
  end.

Definition ResourceId_ToString (r : option ResourceId) : string :=
  match r with
  | None => ""
  | Some r =>
      if String.eqb (rid_DeviceId r) "" then ""
      else match rid_Href r with
           | EmptyString => ""
           | String c _ =>
               let href := if negb (Ascii.eqb c "/"%char) then ("/" +:+ rid_Href r)%string
                           else rid_Href r in
               rid_DeviceId r +:+ href
           end
  end%string.

Definition ResourceIdFromString (v : string) : option ResourceId :=
  let v := match v with String "/"%char v' => v' | _ => v end in
  match SplitN2 v with
  | [device; href] => Some (MkResourceId device ("/" +:+ href)%string)
  | _ => None
  end.
