(* ===== verification/Events.v ===== *)
(** * Events of the resource aggregate

    The package resource-aggregate/events without its snapshots' command
    handlers (those are the files ResourceState, ResourceLinks, DeviceMetadata
    and ServiceMetadata): a [Record] for each message of events.proto, the
    methods that make it an eventstore.Event (the class [Event], one instance a
    message), and its CopyData, Clone, Equal, CheckInitialized and IsExpired.
    Marshal and Unmarshal are protobuf's: see [Unmarshaler] in EventStore. *)

From Stdlib Require Import ZArith String.
From S2P Require Import Prelude Commands.

(** ** Messages *)
Record EventMetadata := MkEventMetadata {
  em_Version : Z; em_Timestamp : Z; em_ConnectionId : string; em_Sequence : Z;
  em_HubId : string }.
#[export] Instance EventMetadata_eq_dec : EqDecision EventMetadata.
Proof. solve_decision. Defined.

(** Open telemetry data carried along with an event. *)
Abbreviation carrier := (list (string * string)).

Record ResourceLinksPublished := MkResourceLinksPublished {
  rlp_DeviceId : string; rlp_Resources : gslice Resource; rlp_AuditContext : option
  AuditContext; rlp_EventMetadata : option EventMetadata; rlp_OpenTelemetryCarrier :
  carrier }.
#[export] Instance ResourceLinksPublished_eq_dec : EqDecision ResourceLinksPublished.
Proof. solve_decision. Defined.

Record ResourceLinksUnpublished := MkResourceLinksUnpublished {
  rlu_DeviceId : string; rlu_Hrefs : gslice string; rlu_AuditContext : option
  AuditContext; rlu_EventMetadata : option EventMetadata; rlu_OpenTelemetryCarrier :
  carrier }.
#[export] Instance ResourceLinksUnpublished_eq_dec : EqDecision ResourceLinksUnpublished.
Proof. solve_decision. Defined.

Record ResourceLinksSnapshotTaken := MkResourceLinksSnapshotTaken {
  rls_DeviceId : string; rls_Resources : option (gmap string Resource); rls_EventMetadata
  : option EventMetadata; rls_AuditContext : option AuditContext }.
#[export] Instance ResourceLinksSnapshotTaken_eq_dec : EqDecision ResourceLinksSnapshotTaken.
Proof. solve_decision. Defined.

Record ResourceChanged := MkResourceChanged {
  rc_ResourceId : option ResourceId; rc_Content : option Content; rc_Status : Status;
  rc_AuditContext : option AuditContext; rc_EventMetadata : option EventMetadata; rc_Etag
  : bytes; rc_ResourceTypes : list string; rc_OpenTelemetryCarrier : carrier }.
#[export] Instance ResourceChanged_eq_dec : EqDecision ResourceChanged.
Proof. solve_decision. Defined.

Record ResourceUpdatePending := MkResourceUpdatePending {
  rup_ResourceId : option ResourceId; rup_ResourceInterface : string; rup_Content : option
  Content; rup_AuditContext : option AuditContext; rup_EventMetadata : option
  EventMetadata; rup_ValidUntil : Z; rup_ResourceTypes : list string;
  rup_OpenTelemetryCarrier : carrier }.
#[export] Instance ResourceUpdatePending_eq_dec : EqDecision ResourceUpdatePending.
Proof. solve_decision. Defined.

Record ResourceUpdated := MkResourceUpdated {
  ru_ResourceId : option ResourceId; ru_Status : Status; ru_Content : option Content;
  ru_AuditContext : option AuditContext; ru_EventMetadata : option EventMetadata;
  ru_ResourceTypes : list string; ru_OpenTelemetryCarrier : carrier }.
#[export] Instance ResourceUpdated_eq_dec : EqDecision ResourceUpdated.
Proof. solve_decision. Defined.

Record ResourceRetrievePending := MkResourceRetrievePending {
  rrp_ResourceId : option ResourceId; rrp_ResourceInterface : string; rrp_AuditContext :
  option AuditContext; rrp_EventMetadata : option EventMetadata; rrp_ValidUntil : Z;
  rrp_Etag : list (list byte); rrp_ResourceTypes : list string; rrp_OpenTelemetryCarrier :
  carrier }.
#[export] Instance ResourceRetrievePending_eq_dec : EqDecision ResourceRetrievePending.
Proof. solve_decision. Defined.

Record ResourceRetrieved := MkResourceRetrieved {
  rr_ResourceId : option ResourceId; rr_Status : Status; rr_Content : option Content;
  rr_AuditContext : option AuditContext; rr_EventMetadata : option EventMetadata; rr_Etag
  : bytes; rr_ResourceTypes : list string; rr_OpenTelemetryCarrier : carrier }.
#[export] Instance ResourceRetrieved_eq_dec : EqDecision ResourceRetrieved.
Proof. solve_decision. Defined.

Record ResourceDeletePending := MkResourceDeletePending {
  rdp_ResourceId : option ResourceId; rdp_AuditContext : option AuditContext;
  rdp_EventMetadata : option EventMetadata; rdp_ValidUntil : Z; rdp_ResourceInterface :
  string; rdp_ResourceTypes : list string; rdp_OpenTelemetryCarrier : carrier }.
#[export] Instance ResourceDeletePending_eq_dec : EqDecision ResourceDeletePending.
Proof. solve_decision. Defined.

Record ResourceDeleted := MkResourceDeleted {
  rd_ResourceId : option ResourceId; rd_Status : Status; rd_Content : option Content;
  rd_AuditContext : option AuditContext; rd_EventMetadata : option EventMetadata;
  rd_ResourceTypes : list string; rd_OpenTelemetryCarrier : carrier }.
#[export] Instance ResourceDeleted_eq_dec : EqDecision ResourceDeleted.
Proof. solve_decision. Defined.

Record ResourceCreatePending := MkResourceCreatePending {
  rcp_ResourceId : option ResourceId; rcp_Content : option Content; rcp_AuditContext :
  option AuditContext; rcp_EventMetadata : option EventMetadata; rcp_ValidUntil : Z;
  rcp_ResourceTypes : list string; rcp_OpenTelemetryCarrier : carrier }.
#[export] Instance ResourceCreatePending_eq_dec : EqDecision ResourceCreatePending.
Proof. solve_decision. Defined.

Record ResourceCreated := MkResourceCreated {
  rcd_ResourceId : option ResourceId; rcd_Status : Status; rcd_Content : option Content;
  rcd_AuditContext : option AuditContext; rcd_EventMetadata : option EventMetadata;
  rcd_ResourceTypes : list string; rcd_OpenTelemetryCarrier : carrier }.
#[export] Instance ResourceCreated_eq_dec : EqDecision ResourceCreated.
Proof. solve_decision. Defined.

Record ResourceStateSnapshotTaken := MkResourceStateSnapshotTaken {
  rss_ResourceId : option ResourceId; rss_LatestResourceChange : option ResourceChanged;
  rss_ResourceCreatePendings : gslice ResourceCreatePending; rss_ResourceRetrievePendings
  : gslice ResourceRetrievePending; rss_ResourceUpdatePendings : gslice
  ResourceUpdatePending; rss_ResourceDeletePendings : gslice ResourceDeletePending;
  rss_AuditContext : option AuditContext; rss_EventMetadata : option EventMetadata;
  rss_ResourceTypes : list string }.
#[export] Instance ResourceStateSnapshotTaken_eq_dec : EqDecision ResourceStateSnapshotTaken.
Proof. solve_decision. Defined.

Record DeviceMetadataUpdated := MkDeviceMetadataUpdated {
  dmu_DeviceId : string; dmu_Connection : option Connection; dmu_TwinSynchronization :
  option TwinSynchronization; dmu_TwinEnabled : bool; dmu_AuditContext : option
  AuditContext; dmu_EventMetadata : option EventMetadata; dmu_Canceled : bool;
  dmu_OpenTelemetryCarrier : carrier }.
#[export] Instance DeviceMetadataUpdated_eq_dec : EqDecision DeviceMetadataUpdated.
Proof. solve_decision. Defined.

(** The proto oneof [update_pending]. *)
Inductive DeviceMetadataUpdatePending_Update :=
  | DeviceMetadataUpdatePending_TwinEnabled (b : bool)
  | DeviceMetadataUpdatePending_TwinForceSynchronization (b : bool).
#[export] Instance DeviceMetadataUpdatePending_Update_eq_dec :
  EqDecision DeviceMetadataUpdatePending_Update.
Proof. solve_decision. Defined.

Record DeviceMetadataUpdatePending := MkDeviceMetadataUpdatePending {
  dmp_DeviceId : string; dmp_UpdatePending : option DeviceMetadataUpdatePending_Update;
  dmp_AuditContext : option AuditContext; dmp_EventMetadata : option EventMetadata;
  dmp_ValidUntil : Z; dmp_OpenTelemetryCarrier : carrier }.
#[export] Instance DeviceMetadataUpdatePending_eq_dec : EqDecision DeviceMetadataUpdatePending.
Proof. solve_decision. Defined.

Record DeviceMetadataSnapshotTaken := MkDeviceMetadataSnapshotTaken {
  dms_DeviceId : string; dms_DeviceMetadataUpdated : option DeviceMetadataUpdated;
  dms_UpdatePendings : gslice DeviceMetadataUpdatePending; dms_EventMetadata : option
  EventMetadata }.
#[export] Instance DeviceMetadataSnapshotTaken_eq_dec : EqDecision DeviceMetadataSnapshotTaken.
Proof. solve_decision. Defined.

Record ServicesHeartbeat_Heartbeat := MkServicesHeartbeat_Heartbeat {
  shh_ServiceId : string; shh_ValidUntil : Z }.
#[export] Instance ServicesHeartbeat_Heartbeat_eq_dec : EqDecision ServicesHeartbeat_Heartbeat.
Proof. solve_decision. Defined.

Record ServicesHeartbeat := MkServicesHeartbeat {
  sh_Valid : list ServicesHeartbeat_Heartbeat; sh_Expired : list
  ServicesHeartbeat_Heartbeat }.
#[export] Instance ServicesHeartbeat_eq_dec : EqDecision ServicesHeartbeat.
Proof. solve_decision. Defined.

Record ServiceMetadataUpdated := MkServiceMetadataUpdated {
  smu_ServicesHeartbeat : option ServicesHeartbeat; smu_EventMetadata : option
  EventMetadata; smu_AuditContext : option AuditContext; smu_OpenTelemetryCarrier :
  carrier }.
#[export] Instance ServiceMetadataUpdated_eq_dec : EqDecision ServiceMetadataUpdated.
Proof. solve_decision. Defined.

Record ServiceMetadataSnapshotTaken := MkServiceMetadataSnapshotTaken {
  sms_ServiceMetadataUpdated : option ServiceMetadataUpdated; sms_EventMetadata : option
  EventMetadata }.
#[export] Instance ServiceMetadataSnapshotTaken_eq_dec : EqDecision ServiceMetadataSnapshotTaken.
Proof. solve_decision. Defined.

(** ** utils.go *)

(** [now] is the reading of time.Now. *)
Definition MakeEventMeta (now : time_) (connectionID : string) (sequence version : Z)
    (hubID : string) : EventMetadata :=
  {| em_ConnectionId := connectionID; em_Sequence := sequence; em_Version := version;
     em_Timestamp := Time_UnixNano now; em_HubId := hubID |}.

Fixpoint EqualStringSlice_go (x y : list string) : bool :=
  match x, y with
  | a :: x, b :: y => if negb (String.eqb a b) then false else EqualStringSlice_go x y
  | _, _ => true
  end.
Definition EqualStringSlice (x y : list string) : bool :=
  if negb (length x =? length y)%nat then false else EqualStringSlice_go x y.

Definition EqualResource (x y : Resource) : bool :=
  String.eqb (res_DeviceId x) (res_DeviceId y)
  && EqualStringSlice (res_ResourceTypes x) (res_ResourceTypes y)
  && EqualStringSlice (res_Interfaces x) (res_Interfaces y)
  && String.eqb (res_Anchor x) (res_Anchor y)
  && String.eqb (res_Title x) (res_Title y)
  && EqualStringSlice (res_SupportedContentTypes x) (res_SupportedContentTypes y)
  && (res_ValidUntil x =? res_ValidUntil y)%Z
  && ((bool_decide (res_Policy x = None) && bool_decide (res_Policy y = None))
      || (bool_decide (res_Policy x <> None) && bool_decide (res_Policy y <> None)
          && ((res_Policy x) ~> pol_BitFlags =? (res_Policy y) ~> pol_BitFlags)%Z)).

Definition IsExpired (now validUntil : time_) : bool :=
  if IsZero validUntil then false else After now validUntil.

(** ** eventstore.Event *)
Record ETagData := MkETagData { et_ETag : bytes; et_Timestamp : Z }.

Class Event (T : Type) := {
  Version : T -> Z;
  EventType : T -> string;
  AggregateID : T -> string;
  GroupID : T -> string;
  IsSnapshot : T -> bool;
  ServiceID : T -> string * bool;
  Timestamp : T -> time_;
  ETag : T -> option ETagData;
  Types : T -> list string }.

(** The interface resourceValidUntilValidator of a pending command, and the
    interface pendingEvent it includes. *)
Class PendingEvent (T : Type) := {
  pe_ValidUntil : T -> Z;
  pe_EventMetadata : T -> option EventMetadata;
  pe_AuditContext : T -> option AuditContext;
  pe_ResourceId : T -> option ResourceId }.

Definition pe_ValidUntilTime {T} `{!PendingEvent T} (e : T) : time_ := Unix 0 (pe_ValidUntil e).
Definition pe_IsExpired {T} `{!PendingEvent T} (now : time_) (e : T) : bool :=
  IsExpired now (pe_ValidUntilTime e).
Definition pe_CorrelationId {T} `{!PendingEvent T} (e : T) : string :=
  (pe_AuditContext e) ~> ac_CorrelationId.

(** ** Events of resource links *)
(** EventMetadata.Clone *)
Definition EventMetadata_Clone (e : option EventMetadata) : option EventMetadata :=
  match e with
  | None => None
  | Some _ => Some {| em_Version := e ~> em_Version; em_Timestamp := e ~> em_Timestamp;
                      em_ConnectionId := e ~> em_ConnectionId;
                      em_Sequence := e ~> em_Sequence; em_HubId := e ~> em_HubId |}
  end.

#[export] Instance ResourceLinksPublished_Event `{!UUIDLib} : Event ResourceLinksPublished := {|
  Version e := (rlp_EventMetadata e) ~> em_Version;
  EventType _ := "resourcelinkspublished";
  AggregateID e := MakeLinksResourceUUID (rlp_DeviceId e);
  GroupID e := rlp_DeviceId e;
  IsSnapshot _ := false;
  ServiceID := (fun _ => (""%string, false));
  Timestamp e := Unix 0 ((rlp_EventMetadata e) ~> em_Timestamp);
  ETag := (fun _ => None);
  Types := (fun _ => []) |}.

Definition ResourceLinksPublished_CopyData (e event : ResourceLinksPublished) : ResourceLinksPublished :=
  {| rlp_DeviceId := rlp_DeviceId event; rlp_Resources := rlp_Resources event;
     rlp_AuditContext := rlp_AuditContext event; rlp_EventMetadata := rlp_EventMetadata
     event; rlp_OpenTelemetryCarrier := rlp_OpenTelemetryCarrier event |}.

Definition ResourceLinksPublished_CheckInitialized (e : ResourceLinksPublished) : bool :=
  bool_decide (rlp_Resources e <> None)
  && str_nonempty (rlp_DeviceId e)
  && bool_decide (rlp_AuditContext e <> None)
  && bool_decide (rlp_EventMetadata e <> None).

#[export] Instance ResourceLinksUnpublished_Event `{!UUIDLib} : Event ResourceLinksUnpublished := {|
  Version e := (rlu_EventMetadata e) ~> em_Version;
  EventType _ := "resourcelinksunpublished";
  AggregateID e := MakeLinksResourceUUID (rlu_DeviceId e);
  GroupID e := rlu_DeviceId e;
  IsSnapshot _ := false;
  ServiceID := (fun _ => (""%string, false));
  Timestamp e := Unix 0 ((rlu_EventMetadata e) ~> em_Timestamp);
  ETag := (fun _ => None);
  Types := (fun _ => []) |}.

Definition ResourceLinksUnpublished_CopyData (e event : ResourceLinksUnpublished) : ResourceLinksUnpublished :=
  {| rlu_DeviceId := rlu_DeviceId event; rlu_Hrefs := rlu_Hrefs event; rlu_AuditContext
     := rlu_AuditContext event; rlu_EventMetadata := rlu_EventMetadata event;
     rlu_OpenTelemetryCarrier := rlu_OpenTelemetryCarrier event |}.

Definition ResourceLinksUnpublished_CheckInitialized (e : ResourceLinksUnpublished) : bool :=
  bool_decide (rlu_Hrefs e <> None)
  && str_nonempty (rlu_DeviceId e)
  && bool_decide (rlu_AuditContext e <> None)
  && bool_decide (rlu_EventMetadata e <> None).

#[export] Instance ResourceLinksSnapshotTaken_Event `{!UUIDLib} : Event ResourceLinksSnapshotTaken := {|
  Version e := (rls_EventMetadata e) ~> em_Version;
  EventType _ := "resourcelinkssnapshottaken";
  AggregateID e := MakeLinksResourceUUID (rls_DeviceId e);
  GroupID e := rls_DeviceId e;
  IsSnapshot _ := true;
  ServiceID := (fun _ => (""%string, false));
  Timestamp e := Unix 0 ((rls_EventMetadata e) ~> em_Timestamp);
  ETag := (fun _ => None);
  Types := (fun _ => []) |}.

Definition ResourceLinksSnapshotTaken_CopyData (e event : ResourceLinksSnapshotTaken) : ResourceLinksSnapshotTaken :=
  {| rls_DeviceId := rls_DeviceId event; rls_Resources := rls_Resources event;
     rls_EventMetadata := rls_EventMetadata event; rls_AuditContext := rls_AuditContext
     event |}.

(** CloneData: the map is [CloneResourcesMap] of a possibly nil map, never nil. *)
Definition ResourceLinksSnapshotTaken_CloneData (e event : ResourceLinksSnapshotTaken)
    : ResourceLinksSnapshotTaken :=
  {| rls_DeviceId := rls_DeviceId event;
     rls_Resources := Some (CloneResourcesMap (default ∅ (rls_Resources event)));
     rls_EventMetadata := EventMetadata_Clone (rls_EventMetadata event);
     rls_AuditContext := AuditContext_Clone (rls_AuditContext event) |}.

Definition ResourceLinksSnapshotTaken_CheckInitialized (e : ResourceLinksSnapshotTaken) : bool :=
  bool_decide (rls_Resources e <> None)
  && str_nonempty (rls_DeviceId e)
  && bool_decide (rls_AuditContext e <> None)
  && bool_decide (rls_EventMetadata e <> None).

(** ** Events of a resource *)
Definition ResourceChanged_ETag (e : ResourceChanged) : option ETagData :=
  if (length (elems (rc_Etag e)) =? 0)%nat then None
  else Some (MkETagData (rc_Etag e) ((rc_EventMetadata e) ~> em_Timestamp)).

#[export] Instance ResourceChanged_Event `{!UUIDLib} : Event ResourceChanged := {|
  Version e := (rc_EventMetadata e) ~> em_Version;
  EventType _ := "resourcechanged";
  AggregateID e := ResourceId_ToUUID (rc_ResourceId e);
  GroupID e := (rc_ResourceId e) ~> rid_DeviceId;
  IsSnapshot _ := false;
  ServiceID := (fun _ => (""%string, false));
  Timestamp e := Unix 0 ((rc_EventMetadata e) ~> em_Timestamp);
  ETag := ResourceChanged_ETag;
  Types := rc_ResourceTypes |}.

Definition ResourceChanged_CopyData (e event : ResourceChanged) : ResourceChanged :=
  {| rc_ResourceId := rc_ResourceId event; rc_Content := rc_Content event; rc_Status :=
     rc_Status event; rc_AuditContext := rc_AuditContext event; rc_EventMetadata :=
     rc_EventMetadata event; rc_Etag := rc_Etag event; rc_ResourceTypes :=
     rc_ResourceTypes event; rc_OpenTelemetryCarrier := rc_OpenTelemetryCarrier event |}.

Definition ResourceChanged_CheckInitialized (e : ResourceChanged) : bool :=
  bool_decide (rc_ResourceId e <> None)
  && bool_decide (rc_Content e <> None)
  && bool_decide (rc_AuditContext e <> None)
  && bool_decide (rc_EventMetadata e <> None)
  && bool_decide (rc_Status e <> Status_UNKNOWN).

(** The receiver may be nil: its fields then read as zero. *)
Definition ResourceChanged_Equal (e : option ResourceChanged) (changed : ResourceChanged) : bool :=
  if bool_decide (e ~> rc_Status <> rc_Status changed) then false
  else if negb ((e ~> rc_Content) ~> ct_CoapContentFormat
                =? (rc_Content changed) ~> ct_CoapContentFormat)%Z
          || negb (String.eqb ((e ~> rc_Content) ~> ct_ContentType)
                              ((rc_Content changed) ~> ct_ContentType))
          || negb (bytes_Equal ((e ~> rc_Content) ~> ct_Data) ((rc_Content changed) ~> ct_Data))
  then false
  else if negb (String.eqb ((e ~> rc_AuditContext) ~> ac_UserId)
                           ((rc_AuditContext changed) ~> ac_UserId)) then false
  else if negb (bool_decide (e ~> rc_ResourceTypes = rc_ResourceTypes changed)) then false
  else true.

#[export] Instance ResourceUpdatePending_Event `{!UUIDLib} : Event ResourceUpdatePending := {|
  Version e := (rup_EventMetadata e) ~> em_Version;
  EventType _ := "resourceupdatepending";
  AggregateID e := ResourceId_ToUUID (rup_ResourceId e);
  GroupID e := (rup_ResourceId e) ~> rid_DeviceId;
  IsSnapshot _ := false;
  ServiceID := (fun _ => (""%string, false));
  Timestamp e := Unix 0 ((rup_EventMetadata e) ~> em_Timestamp);
  ETag := (fun _ => None);
  Types := rup_ResourceTypes |}.

Definition ResourceUpdatePending_CopyData (e event : ResourceUpdatePending) : ResourceUpdatePending :=
  {| rup_ResourceId := rup_ResourceId event; rup_ResourceInterface :=
     rup_ResourceInterface event; rup_Content := rup_Content event; rup_AuditContext :=
     rup_AuditContext event; rup_EventMetadata := rup_EventMetadata event;
     rup_ValidUntil := rup_ValidUntil event; rup_ResourceTypes := rup_ResourceTypes
     event; rup_OpenTelemetryCarrier := rup_OpenTelemetryCarrier event |}.

Definition ResourceUpdatePending_CheckInitialized (e : ResourceUpdatePending) : bool :=
  bool_decide (rup_ResourceId e <> None)
  && str_nonempty (rup_ResourceInterface e)
  && bool_decide (rup_Content e <> None)
  && bool_decide (rup_AuditContext e <> None)
  && bool_decide (rup_EventMetadata e <> None).

#[export] Instance ResourceUpdatePending_Pending : PendingEvent ResourceUpdatePending := {|
  pe_ValidUntil := rup_ValidUntil; pe_EventMetadata := rup_EventMetadata;
  pe_AuditContext := rup_AuditContext; pe_ResourceId := rup_ResourceId |}.

#[export] Instance ResourceRetrievePending_Event `{!UUIDLib} : Event ResourceRetrievePending := {|
  Version e := (rrp_EventMetadata e) ~> em_Version;
  EventType _ := "resourceretrievepending";
  AggregateID e := ResourceId_ToUUID (rrp_ResourceId e);
  GroupID e := (rrp_ResourceId e) ~> rid_DeviceId;
  IsSnapshot _ := false;
  ServiceID := (fun _ => (""%string, false));
  Timestamp e := Unix 0 ((rrp_EventMetadata e) ~> em_Timestamp);
  ETag := (fun _ => None);
  Types := rrp_ResourceTypes |}.

(** The etags are not copied. *)
Definition ResourceRetrievePending_CopyData (e event : ResourceRetrievePending) : ResourceRetrievePending :=
  {| rrp_ResourceId := rrp_ResourceId event; rrp_ResourceInterface :=
     rrp_ResourceInterface event; rrp_AuditContext := rrp_AuditContext event;
     rrp_EventMetadata := rrp_EventMetadata event; rrp_ValidUntil := rrp_ValidUntil
     event; rrp_Etag := rrp_Etag e; rrp_ResourceTypes := rrp_ResourceTypes event;
     rrp_OpenTelemetryCarrier := rrp_OpenTelemetryCarrier event |}.

Definition ResourceRetrievePending_CheckInitialized (e : ResourceRetrievePending) : bool :=
  bool_decide (rrp_ResourceId e <> None)
  && str_nonempty (rrp_ResourceInterface e)
  && bool_decide (rrp_AuditContext e <> None)
  && bool_decide (rrp_EventMetadata e <> None).

#[export] Instance ResourceRetrievePending_Pending : PendingEvent ResourceRetrievePending := {|
  pe_ValidUntil := rrp_ValidUntil; pe_EventMetadata := rrp_EventMetadata;
  pe_AuditContext := rrp_AuditContext; pe_ResourceId := rrp_ResourceId |}.

#[export] Instance ResourceDeletePending_Event `{!UUIDLib} : Event ResourceDeletePending := {|
  Version e := (rdp_EventMetadata e) ~> em_Version;
  EventType _ := "resourcedeletepending";
  AggregateID e := ResourceId_ToUUID (rdp_ResourceId e);
  GroupID e := (rdp_ResourceId e) ~> rid_DeviceId;
  IsSnapshot _ := false;
  ServiceID := (fun _ => (""%string, false));
  Timestamp e := Unix 0 ((rdp_EventMetadata e) ~> em_Timestamp);
  ETag := (fun _ => None);
  Types := rdp_ResourceTypes |}.

Definition ResourceDeletePending_CopyData (e event : ResourceDeletePending) : ResourceDeletePending :=
  {| rdp_ResourceId := rdp_ResourceId event; rdp_AuditContext := rdp_AuditContext event;
     rdp_EventMetadata := rdp_EventMetadata event; rdp_ValidUntil := rdp_ValidUntil
     event; rdp_ResourceInterface := rdp_ResourceInterface event; rdp_ResourceTypes :=
     rdp_ResourceTypes event; rdp_OpenTelemetryCarrier := rdp_OpenTelemetryCarrier event |}.

Definition ResourceDeletePending_CheckInitialized (e : ResourceDeletePending) : bool :=
  bool_decide (rdp_ResourceId e <> None)
  && bool_decide (rdp_AuditContext e <> None)
  && bool_decide (rdp_EventMetadata e <> None).

#[export] Instance ResourceDeletePending_Pending : PendingEvent ResourceDeletePending := {|
  pe_ValidUntil := rdp_ValidUntil; pe_EventMetadata := rdp_EventMetadata;
  pe_AuditContext := rdp_AuditContext; pe_ResourceId := rdp_ResourceId |}.

#[export] Instance ResourceCreatePending_Event `{!UUIDLib} : Event ResourceCreatePending := {|
  Version e := (rcp_EventMetadata e) ~> em_Version;
  EventType _ := "resourcecreatepending";
  AggregateID e := ResourceId_ToUUID (rcp_ResourceId e);
  GroupID e := (rcp_ResourceId e) ~> rid_DeviceId;
  IsSnapshot _ := false;
  ServiceID := (fun _ => (""%string, false));
  Timestamp e := Unix 0 ((rcp_EventMetadata e) ~> em_Timestamp);
  ETag := (fun _ => None);
  Types := rcp_ResourceTypes |}.

Definition ResourceCreatePending_CopyData (e event : ResourceCreatePending) : ResourceCreatePending :=
  {| rcp_ResourceId := rcp_ResourceId event; rcp_Content := rcp_Content event;
     rcp_AuditContext := rcp_AuditContext event; rcp_EventMetadata := rcp_EventMetadata
     event; rcp_ValidUntil := rcp_ValidUntil event; rcp_ResourceTypes :=
     rcp_ResourceTypes event; rcp_OpenTelemetryCarrier := rcp_OpenTelemetryCarrier event |}.

Definition ResourceCreatePending_CheckInitialized (e : ResourceCreatePending) : bool :=
  bool_decide (rcp_ResourceId e <> None)
  && bool_decide (rcp_Content e <> None)
  && bool_decide (rcp_AuditContext e <> None)
  && bool_decide (rcp_EventMetadata e <> None).

#[export] Instance ResourceCreatePending_Pending : PendingEvent ResourceCreatePending := {|
  pe_ValidUntil := rcp_ValidUntil; pe_EventMetadata := rcp_EventMetadata;
  pe_AuditContext := rcp_AuditContext; pe_ResourceId := rcp_ResourceId |}.

#[export] Instance ResourceUpdated_Event `{!UUIDLib} : Event ResourceUpdated := {|
  Version e := (ru_EventMetadata e) ~> em_Version;
  EventType _ := "resourceupdated";
  AggregateID e := ResourceId_ToUUID (ru_ResourceId e);
  GroupID e := (ru_ResourceId e) ~> rid_DeviceId;
  IsSnapshot _ := false;
  ServiceID := (fun _ => (""%string, false));
  Timestamp e := Unix 0 ((ru_EventMetadata e) ~> em_Timestamp);
  ETag := (fun _ => None);
  Types := ru_ResourceTypes |}.

Definition ResourceUpdated_CopyData (e event : ResourceUpdated) : ResourceUpdated :=
  {| ru_ResourceId := ru_ResourceId event; ru_Status := ru_Status event; ru_Content :=
     ru_Content event; ru_AuditContext := ru_AuditContext event; ru_EventMetadata :=
     ru_EventMetadata event; ru_ResourceTypes := ru_ResourceTypes event;
     ru_OpenTelemetryCarrier := ru_OpenTelemetryCarrier event |}.

Definition ResourceUpdated_Clone (e : option ResourceUpdated) : option ResourceUpdated :=
  match e with
  | None => None
  | Some e => Some
      {| ru_ResourceId := ResourceId_Clone (ru_ResourceId e); ru_Status := ru_Status e;
         ru_Content := Content_Clone (ru_Content e);
         ru_AuditContext := AuditContext_Clone (ru_AuditContext e);
         ru_EventMetadata := EventMetadata_Clone (ru_EventMetadata e);
         ru_ResourceTypes := ru_ResourceTypes e;
         ru_OpenTelemetryCarrier := ru_OpenTelemetryCarrier e |}
  end.

Definition ResourceUpdated_CheckInitialized (e : ResourceUpdated) : bool :=
  bool_decide (ru_ResourceId e <> None)
  && bool_decide (ru_Status e <> Status_UNKNOWN)
  && bool_decide (ru_Content e <> None)
  && bool_decide (ru_AuditContext e <> None)
  && bool_decide (ru_EventMetadata e <> None).

#[export] Instance ResourceRetrieved_Event `{!UUIDLib} : Event ResourceRetrieved := {|
  Version e := (rr_EventMetadata e) ~> em_Version;
  EventType _ := "resourceretrieved";
  AggregateID e := ResourceId_ToUUID (rr_ResourceId e);
  GroupID e := (rr_ResourceId e) ~> rid_DeviceId;
  IsSnapshot _ := false;
  ServiceID := (fun _ => (""%string, false));
  Timestamp e := Unix 0 ((rr_EventMetadata e) ~> em_Timestamp);
  ETag := (fun _ => None);
  Types := rr_ResourceTypes |}.

(** The etag is not copied. *)
Definition ResourceRetrieved_CopyData (e event : ResourceRetrieved) : ResourceRetrieved :=
  {| rr_ResourceId := rr_ResourceId event; rr_Status := rr_Status event; rr_Content :=
     rr_Content event; rr_AuditContext := rr_AuditContext event; rr_EventMetadata :=
     rr_EventMetadata event; rr_Etag := rr_Etag e; rr_ResourceTypes := rr_ResourceTypes
     event; rr_OpenTelemetryCarrier := rr_OpenTelemetryCarrier event |}.

Definition ResourceRetrieved_CheckInitialized (e : ResourceRetrieved) : bool :=
  bool_decide (rr_ResourceId e <> None)
  && bool_decide (rr_Content e <> None)
  && bool_decide (rr_AuditContext e <> None)
  && bool_decide (rr_EventMetadata e <> None)
  && bool_decide (rr_Status e <> Status_UNKNOWN).

#[export] Instance ResourceDeleted_Event `{!UUIDLib} : Event ResourceDeleted := {|
  Version e := (rd_EventMetadata e) ~> em_Version;
  EventType _ := "resourcedeleted";
  AggregateID e := ResourceId_ToUUID (rd_ResourceId e);
  GroupID e := (rd_ResourceId e) ~> rid_DeviceId;
  IsSnapshot _ := false;
  ServiceID := (fun _ => (""%string, false));
  Timestamp e := Unix 0 ((rd_EventMetadata e) ~> em_Timestamp);
  ETag := (fun _ => None);
  Types := rd_ResourceTypes |}.

Definition ResourceDeleted_CopyData (e event : ResourceDeleted) : ResourceDeleted :=
  {| rd_ResourceId := rd_ResourceId event; rd_Status := rd_Status event; rd_Content :=
     rd_Content event; rd_AuditContext := rd_AuditContext event; rd_EventMetadata :=
     rd_EventMetadata event; rd_ResourceTypes := rd_ResourceTypes event;
     rd_OpenTelemetryCarrier := rd_OpenTelemetryCarrier event |}.

Definition ResourceDeleted_CheckInitialized (e : ResourceDeleted) : bool :=
  bool_decide (rd_ResourceId e <> None)
  && bool_decide (rd_Status e <> Status_UNKNOWN)
  && bool_decide (rd_Content e <> None)
  && bool_decide (rd_AuditContext e <> None)
  && bool_decide (rd_EventMetadata e <> None).

#[export] Instance ResourceCreated_Event `{!UUIDLib} : Event ResourceCreated := {|
  Version e := (rcd_EventMetadata e) ~> em_Version;
  EventType _ := "resourcecreated";
  AggregateID e := ResourceId_ToUUID (rcd_ResourceId e);
  GroupID e := (rcd_ResourceId e) ~> rid_DeviceId;
  IsSnapshot _ := false;
  ServiceID := (fun _ => (""%string, false));
  Timestamp e := Unix 0 ((rcd_EventMetadata e) ~> em_Timestamp);
  ETag := (fun _ => None);
  Types := rcd_ResourceTypes |}.

Definition ResourceCreated_CopyData (e event : ResourceCreated) : ResourceCreated :=
  {| rcd_ResourceId := rcd_ResourceId event; rcd_Status := rcd_Status event; rcd_Content
     := rcd_Content event; rcd_AuditContext := rcd_AuditContext event; rcd_EventMetadata
     := rcd_EventMetadata event; rcd_ResourceTypes := rcd_ResourceTypes event;
     rcd_OpenTelemetryCarrier := rcd_OpenTelemetryCarrier event |}.

Definition ResourceCreated_CheckInitialized (e : ResourceCreated) : bool :=
  bool_decide (rcd_ResourceId e <> None)
  && bool_decide (rcd_Status e <> Status_UNKNOWN)
  && bool_decide (rcd_Content e <> None)
  && bool_decide (rcd_AuditContext e <> None)
  && bool_decide (rcd_EventMetadata e <> None).

(** The receiver of ETag may be nil. *)
#[export] Instance ResourceStateSnapshotTaken_Event `{!UUIDLib} : Event ResourceStateSnapshotTaken := {|
  Version e := (rss_EventMetadata e) ~> em_Version;
  EventType _ := "resourcestatesnapshottaken";
  AggregateID e := ResourceId_ToUUID (rss_ResourceId e);
  GroupID e := (rss_ResourceId e) ~> rid_DeviceId;
  IsSnapshot _ := true;
  ServiceID := (fun _ => (""%string, false));
  Timestamp e := Unix 0 ((rss_EventMetadata e) ~> em_Timestamp);
  ETag := (fun e => match rss_LatestResourceChange e with
                    | Some c => ResourceChanged_ETag c | None => None end);
  Types := rss_ResourceTypes |}.

Definition ResourceStateSnapshotTaken_CopyData (e event : ResourceStateSnapshotTaken) : ResourceStateSnapshotTaken :=
  {| rss_ResourceId := rss_ResourceId event; rss_LatestResourceChange :=
     rss_LatestResourceChange event; rss_ResourceCreatePendings :=
     rss_ResourceCreatePendings event; rss_ResourceRetrievePendings :=
     rss_ResourceRetrievePendings event; rss_ResourceUpdatePendings :=
     rss_ResourceUpdatePendings event; rss_ResourceDeletePendings :=
     rss_ResourceDeletePendings event; rss_AuditContext := rss_AuditContext event;
     rss_EventMetadata := rss_EventMetadata event; rss_ResourceTypes :=
     rss_ResourceTypes event |}.

Definition ResourceStateSnapshotTaken_CheckInitialized (e : ResourceStateSnapshotTaken) : bool :=
  bool_decide (rss_ResourceId e <> None)
  && bool_decide (rss_AuditContext e <> None)
  && bool_decide (rss_EventMetadata e <> None)
  && (bool_decide (rss_LatestResourceChange e <> None)
      || bool_decide (rss_ResourceCreatePendings e <> None)
      || bool_decide (rss_ResourceRetrievePendings e <> None)
      || bool_decide (rss_ResourceUpdatePendings e <> None)
      || bool_decide (rss_ResourceDeletePendings e <> None)).

(** ** Events of the metadata of a device *)
#[export] Instance DeviceMetadataUpdated_Event `{!UUIDLib} : Event DeviceMetadataUpdated := {|
  Version e := (dmu_EventMetadata e) ~> em_Version;
  EventType _ := "devicemetadataupdated";
  AggregateID e := MakeStatusResourceUUID (dmu_DeviceId e);
  GroupID e := dmu_DeviceId e;
  IsSnapshot _ := false;
  ServiceID := (fun e => ((dmu_Connection e) ~> con_ServiceId, true));
  Timestamp e := Unix 0 ((dmu_EventMetadata e) ~> em_Timestamp);
  ETag := (fun _ => None);
  Types := (fun _ => []) |}.

Definition DeviceMetadataUpdated_CopyData (e event : DeviceMetadataUpdated) : DeviceMetadataUpdated :=
  {| dmu_DeviceId := dmu_DeviceId event; dmu_Connection := dmu_Connection event;
     dmu_TwinSynchronization := dmu_TwinSynchronization event; dmu_TwinEnabled :=
     dmu_TwinEnabled event; dmu_AuditContext := dmu_AuditContext event;
     dmu_EventMetadata := dmu_EventMetadata event; dmu_Canceled := dmu_Canceled event;
     dmu_OpenTelemetryCarrier := dmu_OpenTelemetryCarrier event |}.

Definition DeviceMetadataUpdated_CheckInitialized (e : DeviceMetadataUpdated) : bool :=
  str_nonempty (dmu_DeviceId e)
  && bool_decide (dmu_Connection e <> None)
  && bool_decide (dmu_AuditContext e <> None)
  && bool_decide (dmu_EventMetadata e <> None).

Definition DeviceMetadataUpdated_Equal (d : option DeviceMetadataUpdated)
    (upd : DeviceMetadataUpdated) : bool :=
  bool_decide ((d ~> dmu_Connection) ~> con_Status = (dmu_Connection upd) ~> con_Status)
  && String.eqb ((d ~> dmu_Connection) ~> con_Id) ((dmu_Connection upd) ~> con_Id)
  && bool_decide ((d ~> dmu_Connection) ~> con_Protocol = (dmu_Connection upd) ~> con_Protocol)
  && bool_decide ((d ~> dmu_Connection) ~> con_LocalEndpoints
                  = (dmu_Connection upd) ~> con_LocalEndpoints)
  && Bool.eqb (d ~> dmu_Canceled) (dmu_Canceled upd)
  && Bool.eqb (d ~> dmu_TwinEnabled) (dmu_TwinEnabled upd)
  && String.eqb ((d ~> dmu_AuditContext) ~> ac_UserId) ((dmu_AuditContext upd) ~> ac_UserId)
  && String.eqb ((d ~> dmu_AuditContext) ~> ac_CorrelationId)
                ((dmu_AuditContext upd) ~> ac_CorrelationId)
  && String.eqb (((d ~> dmu_TwinSynchronization) ~> ts_CommandMetadata) ~> cm_ConnectionId)
                (((dmu_TwinSynchronization upd) ~> ts_CommandMetadata) ~> cm_ConnectionId)
  && ((d ~> dmu_TwinSynchronization) ~> ts_SyncingAt
      =? (dmu_TwinSynchronization upd) ~> ts_SyncingAt)%Z
  && ((d ~> dmu_TwinSynchronization) ~> ts_InSyncAt
      =? (dmu_TwinSynchronization upd) ~> ts_InSyncAt)%Z
  && bool_decide ((d ~> dmu_TwinSynchronization) ~> ts_State
                  = (dmu_TwinSynchronization upd) ~> ts_State)
  && ((d ~> dmu_TwinSynchronization) ~> ts_ForceSynchronizationAt
      =? (dmu_TwinSynchronization upd) ~> ts_ForceSynchronizationAt)%Z.

Definition DeviceMetadataUpdated_Clone (d : option DeviceMetadataUpdated)
    : option DeviceMetadataUpdated :=
  match d with
  | None => None
  | Some d => Some
      {| dmu_DeviceId := dmu_DeviceId d; dmu_Connection := Connection_Clone (dmu_Connection d);
         dmu_TwinSynchronization := dmu_TwinSynchronization d;
         dmu_TwinEnabled := dmu_TwinEnabled d;
         dmu_AuditContext := AuditContext_Clone (dmu_AuditContext d);
         dmu_EventMetadata := EventMetadata_Clone (dmu_EventMetadata d);
         dmu_Canceled := dmu_Canceled d; dmu_OpenTelemetryCarrier := [] |}
  end.

#[export] Instance DeviceMetadataUpdatePending_Event `{!UUIDLib} : Event DeviceMetadataUpdatePending := {|
  Version e := (dmp_EventMetadata e) ~> em_Version;
  EventType _ := "devicemetadataupdatepending";
  AggregateID e := MakeStatusResourceUUID (dmp_DeviceId e);
  GroupID e := dmp_DeviceId e;
  IsSnapshot _ := false;
  ServiceID := (fun _ => (""%string, false));
  Timestamp e := Unix 0 ((dmp_EventMetadata e) ~> em_Timestamp);
  ETag := (fun _ => None);
  Types := (fun _ => []) |}.

Definition DeviceMetadataUpdatePending_CopyData (e event : DeviceMetadataUpdatePending) : DeviceMetadataUpdatePending :=
  {| dmp_DeviceId := dmp_DeviceId event; dmp_UpdatePending := dmp_UpdatePending event;
     dmp_AuditContext := dmp_AuditContext event; dmp_EventMetadata := dmp_EventMetadata
     event; dmp_ValidUntil := dmp_ValidUntil event; dmp_OpenTelemetryCarrier :=
     dmp_OpenTelemetryCarrier event |}.

Definition DeviceMetadataUpdatePending_CheckInitialized (e : DeviceMetadataUpdatePending) : bool :=
  str_nonempty (dmp_DeviceId e)
  && bool_decide (dmp_UpdatePending e <> None)
  && bool_decide (dmp_AuditContext e <> None)
  && bool_decide (dmp_EventMetadata e <> None).

(** It has no resource identifier; nothing reads it through the interface. *)
#[export] Instance DeviceMetadataUpdatePending_Pending :
    PendingEvent DeviceMetadataUpdatePending := {|
  pe_ValidUntil := dmp_ValidUntil; pe_EventMetadata := dmp_EventMetadata;
  pe_AuditContext := dmp_AuditContext; pe_ResourceId _ := None |}.

Definition DeviceMetadataUpdatePending_Clone (d : option DeviceMetadataUpdatePending)
    : option DeviceMetadataUpdatePending :=
  match d with
  | None => None
  | Some d => Some
      {| dmp_DeviceId := dmp_DeviceId d; dmp_UpdatePending := dmp_UpdatePending d;
         dmp_AuditContext := AuditContext_Clone (dmp_AuditContext d);
         dmp_EventMetadata := EventMetadata_Clone (dmp_EventMetadata d);
         dmp_ValidUntil := dmp_ValidUntil d; dmp_OpenTelemetryCarrier := [] |}
  end.

#[export] Instance DeviceMetadataSnapshotTaken_Event `{!UUIDLib} : Event DeviceMetadataSnapshotTaken := {|
  Version e := (dms_EventMetadata e) ~> em_Version;
  EventType _ := "devicemetadatasnapshottaken";
  AggregateID e := MakeStatusResourceUUID (dms_DeviceId e);
  GroupID e := dms_DeviceId e;
  IsSnapshot _ := true;
  ServiceID := (fun e => (((dms_DeviceMetadataUpdated e) ~> dmu_Connection) ~> con_ServiceId, true));
  Timestamp e := Unix 0 ((dms_EventMetadata e) ~> em_Timestamp);
  ETag := (fun _ => None);
  Types := (fun _ => []) |}.

Definition DeviceMetadataSnapshotTaken_CopyData (e event : DeviceMetadataSnapshotTaken) : DeviceMetadataSnapshotTaken :=
  {| dms_DeviceId := dms_DeviceId event; dms_DeviceMetadataUpdated :=
     dms_DeviceMetadataUpdated event; dms_UpdatePendings := dms_UpdatePendings event;
     dms_EventMetadata := dms_EventMetadata event |}.

Definition DeviceMetadataSnapshotTaken_CheckInitialized (e : DeviceMetadataSnapshotTaken)
    : bool :=
  str_nonempty (dms_DeviceId e)
  && bool_decide (dms_EventMetadata e <> None)
  && (bool_decide (dms_DeviceMetadataUpdated e <> None)
      || bool_decide (dms_UpdatePendings e <> None)).

(** The pendings are appended to a nil slice, which stays nil when there are none. *)
Definition DeviceMetadataSnapshotTaken_Clone (d : option DeviceMetadataSnapshotTaken)
    : option DeviceMetadataSnapshotTaken :=
  match d with
  | None => None
  | Some d => Some
      {| dms_DeviceId := dms_DeviceId d;
         dms_DeviceMetadataUpdated := DeviceMetadataUpdated_Clone (dms_DeviceMetadataUpdated d);
         dms_UpdatePendings := match elems (dms_UpdatePendings d) with
                               | [] => None | l => Some l end;
         dms_EventMetadata := EventMetadata_Clone (dms_EventMetadata d) |}
  end.

(** ** Events of the metadata of the services *)
#[export] Instance ServiceMetadataUpdated_Event `{!UUIDLib} : Event ServiceMetadataUpdated := {|
  Version e := (smu_EventMetadata e) ~> em_Version;
  EventType _ := "ServiceMetadataUpdated";
  AggregateID e := MakeServicesResourceUUID ((smu_EventMetadata e) ~> em_HubId);
  GroupID e := (smu_EventMetadata e) ~> em_HubId;
  IsSnapshot _ := false;
  ServiceID := (fun _ => (""%string, false));
  Timestamp e := Unix 0 ((smu_EventMetadata e) ~> em_Timestamp);
  ETag := (fun _ => None);
  Types := (fun _ => []) |}.

Definition ServicesHeartbeat_CopyData (s : ServicesHeartbeat) (s1 : option ServicesHeartbeat)
    : ServicesHeartbeat :=
  {| sh_Valid := s1 ~> sh_Valid; sh_Expired := s1 ~> sh_Expired |}.

(** The heartbeats become non-nil and the audit context is not copied. *)
Definition ServiceMetadataUpdated_CopyData (e event : ServiceMetadataUpdated)
    : ServiceMetadataUpdated :=
  {| smu_EventMetadata := smu_EventMetadata event;
     smu_OpenTelemetryCarrier := smu_OpenTelemetryCarrier event;
     smu_ServicesHeartbeat :=
       Some (ServicesHeartbeat_CopyData (MkServicesHeartbeat [] []) (smu_ServicesHeartbeat event));
     smu_AuditContext := smu_AuditContext e |}.

Definition ServiceMetadataUpdated_CheckInitialized (e : ServiceMetadataUpdated) : bool :=
  bool_decide (smu_ServicesHeartbeat e <> None) && bool_decide (smu_EventMetadata e <> None).

Fixpoint equalServicesHeartbeates_go (v1 v2 : list ServicesHeartbeat_Heartbeat) : bool :=
  match v1, v2 with
  | a :: v1, b :: v2 =>
      if negb (String.eqb (shh_ServiceId a) (shh_ServiceId b)) then false
      else if negb (shh_ValidUntil a =? shh_ValidUntil b)%Z then false
      else equalServicesHeartbeates_go v1 v2
  | _, _ => true
  end.
Definition equalServicesHeartbeates (v1 v2 : list ServicesHeartbeat_Heartbeat) : bool :=
  if negb (length v1 =? length v2)%nat then false else equalServicesHeartbeates_go v1 v2.

Definition ServicesHeartbeat_Equal (s upd : option ServicesHeartbeat) : bool :=
  if negb (equalServicesHeartbeates (s ~> sh_Valid) (upd ~> sh_Valid)) then false
  else if negb (equalServicesHeartbeates (s ~> sh_Expired) (upd ~> sh_Expired)) then false
  else true.

Definition ServiceMetadataUpdated_Equal (d : option ServiceMetadataUpdated)
    (upd : ServiceMetadataUpdated) : bool :=
  match d ~> smu_ServicesHeartbeat with
  | None => false
  | Some h => ServicesHeartbeat_Equal (Some h) (smu_ServicesHeartbeat upd)
  end.

#[export] Instance ServiceMetadataSnapshotTaken_Event `{!UUIDLib} : Event ServiceMetadataSnapshotTaken := {|
  Version e := (sms_EventMetadata e) ~> em_Version;
  EventType _ := "ServiceMetadataSnapshotTaken";
  AggregateID e := MakeServicesResourceUUID ((sms_EventMetadata e) ~> em_HubId);
  GroupID e := (sms_EventMetadata e) ~> em_HubId;
  IsSnapshot _ := true;
  ServiceID := (fun _ => (""%string, false));
  Timestamp e := Unix 0 ((sms_EventMetadata e) ~> em_Timestamp);
  ETag := (fun _ => None);
  Types := (fun _ => []) |}.

Definition ServiceMetadataSnapshotTaken_CopyData (e event : ServiceMetadataSnapshotTaken) : ServiceMetadataSnapshotTaken :=
  {| sms_ServiceMetadataUpdated := sms_ServiceMetadataUpdated event; sms_EventMetadata
     := sms_EventMetadata event |}.

Definition ServiceMetadataSnapshotTaken_CheckInitialized (e : ServiceMetadataSnapshotTaken) : bool :=
  bool_decide (sms_ServiceMetadataUpdated e <> None)
  && bool_decide (sms_EventMetadata e <> None).

Definition ServicesHeartbeat_Heartbeat_CopyData (h h1 : ServicesHeartbeat_Heartbeat)
    : ServicesHeartbeat_Heartbeat :=
  {| shh_ServiceId := shh_ServiceId h1; shh_ValidUntil := shh_ValidUntil h1 |}.

(** ** Any event

    A value of the Go interface eventstore.Event that this package can hold. *)
Inductive AnyEvent :=
  | EvResourceLinksPublished (e : ResourceLinksPublished)
  | EvResourceLinksUnpublished (e : ResourceLinksUnpublished)
  | EvResourceLinksSnapshotTaken (e : ResourceLinksSnapshotTaken)
  | EvResourceChanged (e : ResourceChanged)
  | EvResourceUpdatePending (e : ResourceUpdatePending)
  | EvResourceUpdated (e : ResourceUpdated)
  | EvResourceRetrievePending (e : ResourceRetrievePending)
  | EvResourceRetrieved (e : ResourceRetrieved)
  | EvResourceDeletePending (e : ResourceDeletePending)
  | EvResourceDeleted (e : ResourceDeleted)
  | EvResourceCreatePending (e : ResourceCreatePending)
  | EvResourceCreated (e : ResourceCreated)
  | EvResourceStateSnapshotTaken (e : ResourceStateSnapshotTaken)
  | EvDeviceMetadataUpdated (e : DeviceMetadataUpdated)
  | EvDeviceMetadataUpdatePending (e : DeviceMetadataUpdatePending)
  | EvDeviceMetadataSnapshotTaken (e : DeviceMetadataSnapshotTaken)
  | EvServiceMetadataUpdated (e : ServiceMetadataUpdated)
  | EvServiceMetadataSnapshotTaken (e : ServiceMetadataSnapshotTaken).
#[export] Instance AnyEvent_eq_dec : EqDecision AnyEvent.
Proof. solve_decision. Defined.

(** A method call through the interface. *)
Definition on_event {A} `{!UUIDLib} (f : forall T, Event T -> T -> A) (ev : AnyEvent) : A :=
  match ev with
  | EvResourceLinksPublished e => f _ _ e
  | EvResourceLinksUnpublished e => f _ _ e
  | EvResourceLinksSnapshotTaken e => f _ _ e
  | EvResourceChanged e => f _ _ e
  | EvResourceUpdatePending e => f _ _ e
  | EvResourceUpdated e => f _ _ e
  | EvResourceRetrievePending e => f _ _ e
  | EvResourceRetrieved e => f _ _ e
  | EvResourceDeletePending e => f _ _ e
  | EvResourceDeleted e => f _ _ e
  | EvResourceCreatePending e => f _ _ e
  | EvResourceCreated e => f _ _ e
  | EvResourceStateSnapshotTaken e => f _ _ e
  | EvDeviceMetadataUpdated e => f _ _ e
  | EvDeviceMetadataUpdatePending e => f _ _ e
  | EvDeviceMetadataSnapshotTaken e => f _ _ e
  | EvServiceMetadataUpdated e => f _ _ e
  | EvServiceMetadataSnapshotTaken e => f _ _ e
  end.

#[export] Instance AnyEvent_Event `{!UUIDLib} : Event AnyEvent := {|
  Version := on_event (fun T H => @Version T H);
  EventType := on_event (fun T H => @EventType T H);
  AggregateID := on_event (fun T H => @AggregateID T H);
  GroupID := on_event (fun T H => @GroupID T H);
  IsSnapshot := on_event (fun T H => @IsSnapshot T H);
  ServiceID := on_event (fun T H => @ServiceID T H);
  Timestamp := on_event (fun T H => @Timestamp T H);
  ETag := on_event (fun T H => @ETag T H);
  Types := on_event (fun T H => @Types T H) |}.

(** ** Commands

    The dynamic types of the interface value aggregate.Command that a
    HandleCommand of this package distinguishes, and any other one.  The
    messages are passed by pointer and never nil. *)
Record UpdateDeviceToOfflineRequest := MkUpdateDeviceToOfflineRequest {
  uor_DeviceID : string; uor_ServiceID : string }.

Record ConfirmExpiredServicesRequest := MkConfirmExpiredServicesRequest {
  cer_Heartbeat : list ServicesHeartbeat_Heartbeat }.

Inductive Command :=
  | CmdPublishResourceLinks (r : PublishResourceLinksRequest)
  | CmdUnpublishResourceLinks (r : UnpublishResourceLinksRequest)
  | CmdNotifyResourceChanged (r : NotifyResourceChangedRequest)
  | CmdUpdateResource (r : UpdateResourceRequest)
  | CmdConfirmResourceUpdate (r : ConfirmResourceUpdateRequest)
  | CmdRetrieveResource (r : RetrieveResourceRequest)
  | CmdConfirmResourceRetrieve (r : ConfirmResourceRetrieveRequest)
  | CmdDeleteResource (r : DeleteResourceRequest)
  | CmdConfirmResourceDelete (r : ConfirmResourceDeleteRequest)
  | CmdCreateResource (r : CreateResourceRequest)
  | CmdConfirmResourceCreate (r : ConfirmResourceCreateRequest)
  | CmdCancelPendingCommands (r : CancelPendingCommandsRequest)
  | CmdUpdateDeviceMetadata (r : UpdateDeviceMetadataRequest)
  | CmdUpdateDeviceToOffline (r : UpdateDeviceToOfflineRequest)
  | CmdConfirmDeviceMetadataUpdate (r : ConfirmDeviceMetadataUpdateRequest)
  | CmdCancelPendingMetadataUpdates (r : CancelPendingMetadataUpdatesRequest)
  | CmdUpdateServiceMetadata (r : UpdateServiceMetadataRequest)
  | CmdConfirmExpiredServices (r : ConfirmExpiredServicesRequest)
  | CmdOther.
