(* ===== verification/EventStore.v ===== *)
(** * The event store's interfaces

    resource-aggregate/cqrs/eventstore: event.go (an event read back from a
    store, and the checks every store makes before it saves) and eventstore.go
    (queries and the outcome of a save).  The bytes of an event and what
    protobuf makes of them are a parameter: a type [D] and the class
    [Unmarshaler]. *)

From Stdlib Require Import ZArith String.
From S2P Require Import Prelude Commands Events.

(** [proto.Unmarshal] of stored data as a message of type [T]. *)
Class Unmarshaler (D T : Type) := Unmarshal : D -> result T.

(** ** event.go *)
Record LoadedEvent (D : Type) := NewLoadedEvent {
  le_version : Z; le_eventType : string; le_aggregateID : string; le_groupID : string;
  le_isSnapshot : bool; le_timestamp : time_; le_data : D }.
Arguments NewLoadedEvent {D}.
Arguments le_version {D}.
Arguments le_eventType {D}.
Arguments le_aggregateID {D}.
Arguments le_groupID {D}.
Arguments le_isSnapshot {D}.
Arguments le_timestamp {D}.
Arguments le_data {D}.

(** A store of the events themselves, where unmarshalling cannot go wrong: the
    instance on which the witnesses run. *)
Definition wrong_type : error := errors_New "proto: wrong type".
#[export] Instance Unmarshal_ResourceLinksPublished : Unmarshaler AnyEvent ResourceLinksPublished :=
  fun d => match d with EvResourceLinksPublished e => inr e | _ => inl wrong_type end.
#[export] Instance Unmarshal_ResourceLinksUnpublished : Unmarshaler AnyEvent ResourceLinksUnpublished :=
  fun d => match d with EvResourceLinksUnpublished e => inr e | _ => inl wrong_type end.
#[export] Instance Unmarshal_ResourceLinksSnapshotTaken : Unmarshaler AnyEvent ResourceLinksSnapshotTaken :=
  fun d => match d with EvResourceLinksSnapshotTaken e => inr e | _ => inl wrong_type end.
#[export] Instance Unmarshal_ResourceChanged : Unmarshaler AnyEvent ResourceChanged :=
  fun d => match d with EvResourceChanged e => inr e | _ => inl wrong_type end.
#[export] Instance Unmarshal_ResourceUpdatePending : Unmarshaler AnyEvent ResourceUpdatePending :=
  fun d => match d with EvResourceUpdatePending e => inr e | _ => inl wrong_type end.
#[export] Instance Unmarshal_ResourceUpdated : Unmarshaler AnyEvent ResourceUpdated :=
  fun d => match d with EvResourceUpdated e => inr e | _ => inl wrong_type end.
#[export] Instance Unmarshal_ResourceRetrievePending : Unmarshaler AnyEvent ResourceRetrievePending :=
  fun d => match d with EvResourceRetrievePending e => inr e | _ => inl wrong_type end.
#[export] Instance Unmarshal_ResourceRetrieved : Unmarshaler AnyEvent ResourceRetrieved :=
  fun d => match d with EvResourceRetrieved e => inr e | _ => inl wrong_type end.
#[export] Instance Unmarshal_ResourceDeletePending : Unmarshaler AnyEvent ResourceDeletePending :=
  fun d => match d with EvResourceDeletePending e => inr e | _ => inl wrong_type end.
#[export] Instance Unmarshal_ResourceDeleted : Unmarshaler AnyEvent ResourceDeleted :=
  fun d => match d with EvResourceDeleted e => inr e | _ => inl wrong_type end.
#[export] Instance Unmarshal_ResourceCreatePending : Unmarshaler AnyEvent ResourceCreatePending :=
  fun d => match d with EvResourceCreatePending e => inr e | _ => inl wrong_type end.
#[export] Instance Unmarshal_ResourceCreated : Unmarshaler AnyEvent ResourceCreated :=
  fun d => match d with EvResourceCreated e => inr e | _ => inl wrong_type end.
#[export] Instance Unmarshal_ResourceStateSnapshotTaken : Unmarshaler AnyEvent ResourceStateSnapshotTaken :=
  fun d => match d with EvResourceStateSnapshotTaken e => inr e | _ => inl wrong_type end.
#[export] Instance Unmarshal_DeviceMetadataUpdated : Unmarshaler AnyEvent DeviceMetadataUpdated :=
  fun d => match d with EvDeviceMetadataUpdated e => inr e | _ => inl wrong_type end.
#[export] Instance Unmarshal_DeviceMetadataUpdatePending : Unmarshaler AnyEvent DeviceMetadataUpdatePending :=
  fun d => match d with EvDeviceMetadataUpdatePending e => inr e | _ => inl wrong_type end.
#[export] Instance Unmarshal_DeviceMetadataSnapshotTaken : Unmarshaler AnyEvent DeviceMetadataSnapshotTaken :=
  fun d => match d with EvDeviceMetadataSnapshotTaken e => inr e | _ => inl wrong_type end.
#[export] Instance Unmarshal_ServiceMetadataUpdated : Unmarshaler AnyEvent ServiceMetadataUpdated :=
  fun d => match d with EvServiceMetadataUpdated e => inr e | _ => inl wrong_type end.
#[export] Instance Unmarshal_ServiceMetadataSnapshotTaken : Unmarshaler AnyEvent ServiceMetadataSnapshotTaken :=
  fun d => match d with EvServiceMetadataSnapshotTaken e => inr e | _ => inl wrong_type end.

(** The event a store hands back for [ev]. *)
Definition loaded `{!UUIDLib} (ev : AnyEvent) : LoadedEvent AnyEvent :=
  NewLoadedEvent (Version ev) (EventType ev) (AggregateID ev) (GroupID ev) (IsSnapshot ev)
    (Timestamp ev) ev.

(** ** eventstore.go *)
Record VersionQuery := MkVersionQuery {
  vq_GroupID : string; vq_AggregateID : string; vq_Version : Z }.
#[export] Instance VersionQuery_eq_dec : EqDecision VersionQuery.
Proof. solve_decision. Defined.

Record SnapshotQuery := MkSnapshotQuery {
  sq_GroupID : string; sq_AggregateID : string; sq_Types : list string }.

Inductive SaveStatus := SaveOk | ConcurrencyException | SnapshotRequired | Fail.
#[export] Instance SaveStatus_eq_dec : EqDecision SaveStatus.
Proof. solve_decision. Defined.

(** ** Validation before a save *)
Section validate.
Context `{!UUIDLib} {T : Type} `{!Event T}.

Definition validateFirstEvent (event : T) : option error :=
  if negb (uuid_Parse (AggregateID event)) then
    Some (errors_New "invalid events[0].AggregateID('%v'): %w")
  else if negb (uuid_Parse (GroupID event)) then
    Some (errors_New "invalid events[0].GroupID('%v'): %w")
  else if IsZero (Timestamp event) then
    Some (errors_New "invalid zero events[0].Timestamp")
  else None.

Definition validateEvent (event : T) (idx : nat) (aggregateID groupID : string)
    (version : Z) (timestamp : time_) : option error :=
  if negb (String.eqb (AggregateID event) aggregateID) then
    Some (errors_New "invalid events[%v].AggregateID('%v') != events[0].AggregateID('%v')")
  else if negb (String.eqb (GroupID event) groupID) then
    Some (errors_New "invalid events[%v].GroupID('%v') != events[0].GroupID('%v')")
  else if String.eqb (EventType event) "" then
    Some (errors_New "invalid events[%v].EventType('%v')")
  else if IsZero (Timestamp event) then
    Some (errors_New "invalid zero events[%v].Timestamp")
  else if (0 <? idx)%nat && negb (Version event =? u64 (version + Z.of_nat idx))%Z then
    Some (errors_New "invalid continues ascending events[%v].Version(%v))")
  else if (0 <? idx)%nat && After timestamp (Timestamp event) then
    Some (errors_New "invalid decreasing events[%v].Timestamp(%v))")
  else
    let '(serviceID, ok) := ServiceID event in
    if ok && str_nonempty serviceID && negb (uuid_Parse serviceID) then
      Some (errors_New "invalid events[%v].ServiceID('%v'): %w")
    else None.

(** The loop of ValidateEventsBeforeSave from index [idx] on; an event may be nil. *)
Fixpoint validateEvents_go (events : list (option T)) (idx : nat)
    (aggregateID groupID : string) (version : Z) (timestamp : time_) : option error :=
  match events with
  | [] => None
  | None :: _ => Some (errors_New "invalid events[%v]('%v')")
  | Some event :: events =>
      match validateEvent event idx aggregateID groupID version timestamp with
      | Some err => Some err
      | None => validateEvents_go events (S idx) aggregateID groupID version (Timestamp event)
      end
  end.

Definition ValidateEventsBeforeSave (events : list (option T)) : option error :=
  match events with
  | [] | None :: _ => Some (errors_New "invalid events('%v')")
  | Some firstEvent :: _ =>
      match validateFirstEvent firstEvent with
      | Some err => Some err
      | None =>
          validateEvents_go events 0 (AggregateID firstEvent) (GroupID firstEvent)
            (Version firstEvent) (Timestamp firstEvent)
      end
  end.

(** *** What an accepted sequence looks like *)
Definition event_ok (aggregateID groupID : string) (event : T) : Prop :=
  AggregateID event = aggregateID /\ GroupID event = groupID /\
  EventType event <> ""%string /\ IsZero (Timestamp event) = false /\
  ((ServiceID event).2 = true -> (ServiceID event).1 <> ""%string ->
   uuid_Parse (ServiceID event).1 = true).

(** The versions are those of the first event, plus one at each step, and the
    timestamps do not decrease. *)
Definition ascending (version : Z) (idx : nat) (events : list T) : Prop :=
  forall i ev, events !! i = Some ev -> 0 < idx + i ->
    Version ev = u64 (version + Z.of_nat (idx + i)).
Definition nondecreasing (timestamps : list time_) : Prop :=
  forall i a b, timestamps !! i = Some a -> timestamps !! (S i) = Some b -> (a <= b)%Z.

(** The checks one by one, on events none of which is nil. *)
Definition saveable (evs : list T) : Prop :=
  match evs with
  | [] => False
  | first :: _ =>
      uuid_Parse (AggregateID first) = true /\ uuid_Parse (GroupID first) = true /\
      Forall (event_ok (AggregateID first) (GroupID first)) evs /\
      ascending (Version first) 0 evs /\ nondecreasing (Timestamp <$> evs)
  end.

Lemma validateEvent_None event idx aggregateID groupID version timestamp :
  validateEvent event idx aggregateID groupID version timestamp = None <->
  event_ok aggregateID groupID event /\
  (0 < idx -> Version event = u64 (version + Z.of_nat idx) /\
              (timestamp <= Timestamp event)%Z).
Proof.
  unfold validateEvent, event_ok, After, str_nonempty.
  destruct (ServiceID event) as [sid ok]; simpl.
  destruct (String.eqb_spec (AggregateID event) aggregateID); simpl; [|naive_solver].
  destruct (String.eqb_spec (GroupID event) groupID); simpl; [|naive_solver].
  destruct (String.eqb_spec (EventType event) ""); simpl; [naive_solver|].
  destruct (IsZero (Timestamp event)); simpl; [naive_solver|].
  destruct (Nat.ltb_spec 0 idx) as [Hi|Hi]; simpl.
  - destruct (Z.eqb_spec (Version event) (u64 (version + Z.of_nat idx))); simpl; [|naive_solver].
    destruct (Z.ltb_spec (Timestamp event) timestamp); simpl; [naive_solver lia|].
    destruct ok, (String.eqb_spec sid ""), (uuid_Parse sid) eqn:?; simpl; naive_solver.
  - destruct ok, (String.eqb_spec sid ""), (uuid_Parse sid) eqn:?; simpl;
      naive_solver lia.
Qed.

Lemma validateEvents_go_None events idx aggregateID groupID version timestamp :
  validateEvents_go events idx aggregateID groupID version timestamp = None <->
  exists evs, events = Some <$> evs /\
    Forall (event_ok aggregateID groupID) evs /\ ascending version idx evs /\
    (forall i a b, (timestamp :: (Timestamp <$> evs)) !! i = Some a ->
                   (timestamp :: (Timestamp <$> evs)) !! (S i) = Some b ->
                   0 < idx + i -> (a <= b)%Z).
Proof.
  revert idx timestamp. induction events as [|[ev|] events IH]; intros idx timestamp; simpl.
  - split; [|done]. intros _. exists []. repeat split; [done| |].
    + intros i ev Hl; by rewrite lookup_nil in Hl.
    + intros [|i] a b; simpl; [done|]. by rewrite lookup_nil.
  - destruct (validateEvent _ _ _ _ _ _) eqn:Hv.
    + split; [done|]. intros (evs & Heq & Hok & Hasc & Hts).
      destruct evs as [|ev' evs]; simplify_eq/=.
      enough (validateEvent ev' idx aggregateID groupID version timestamp = None) by congruence.
      apply validateEvent_None. inversion Hok; subst. split; [done|]. intros Hi.
      specialize (Hasc 0 ev' eq_refl). specialize (Hts 0 timestamp (Timestamp ev')).
      rewrite Nat.add_0_r in *. naive_solver.
    + apply validateEvent_None in Hv as [Hok Hv]. rewrite IH. split.
      * intros (evs & -> & Hoks & Hasc & Hts). exists (ev :: evs). repeat split; auto.
        -- intros [|i] ev' Hl Hi; simplify_eq/=.
           ++ rewrite Nat.add_0_r in *. naive_solver.
           ++ rewrite (Hasc i ev' Hl) by lia. f_equal. lia.
        -- intros [|i] a b Ha Hb Hi; simplify_eq/=.
           ++ rewrite Nat.add_0_r in *. naive_solver.
           ++ apply (Hts i); [done|done|lia].
      * intros (evs & Heq & Hoks & Hasc & Hts).
        destruct evs as [|ev' evs]; simplify_eq/=. exists evs.
        inversion Hoks; subst. repeat split; auto.
        -- intros i e Hl Hi. rewrite (Hasc (S i) e Hl) by lia. f_equal. lia.
        -- intros i a b Ha Hb Hi. apply (Hts (S i)); [done|done|lia].
  - split; [done|]. intros (evs & Heq & _). by destruct evs.
Qed.

Lemma ValidateEventsBeforeSave_None events :
  ValidateEventsBeforeSave events = None <->
  exists evs, events = Some <$> evs /\ saveable evs.
Proof.
  unfold ValidateEventsBeforeSave.
  destruct events as [|[first|] rest]; [split; [done|]; intros ([|??] & ? & ?); done| |
    split; [done|]; intros ([|??] & ? & ?); done].
  assert (Hf : validateFirstEvent first = None <->
    uuid_Parse (AggregateID first) = true /\ uuid_Parse (GroupID first) = true /\
      IsZero (Timestamp first) = false).
  { unfold validateFirstEvent.
    destruct (uuid_Parse (AggregateID first)), (uuid_Parse (GroupID first)),
      (IsZero (Timestamp first)); naive_solver. }
  destruct (validateFirstEvent first) eqn:Hfirst.
  - split; [done|]. intros ([|ev evs] & Heq & Hs); simplify_eq/=.
    destruct Hs as (? & ? & Hok & _). inversion Hok as [|? ? (_ & _ & _ & Hz & _)]; subst.
    naive_solver.
  - destruct Hf as [Hf _]. specialize (Hf eq_refl) as (Ha & Hg & Hz).
    rewrite validateEvents_go_None. split.
    + intros (evs & Heq & Hok & Hasc & Hts). exists evs. split; [done|].
      destruct evs as [|ev evs]; simplify_eq/=. repeat split; try done.
      intros i a b Hi Hi'. apply (Hts (S i) a b); [done|done|lia].
    + intros (evs & Heq & Hs). exists evs. destruct evs as [|ev evs]; simplify_eq/=.
      destruct Hs as (_ & _ & Hok & Hasc & Hts). repeat split; try done.
      intros [|i] a b Hi Hi' Hpos; [lia|]. by apply (Hts i a b).
Qed.
(** ValidateEventsBeforeSave accepts a list of events exactly when it is
    not empty, no event is nil, the identifiers of the first event are UUIDs,
    all events carry these identifiers, a type, a timestamp and a service
    identifier that is empty or a UUID, the versions ascend by one and the
    timestamps do not decrease.  Nothing is asked of the position of a
    snapshot. *)
Theorem ValidateEventsBeforeSave_spec events :
  ValidateEventsBeforeSave events = None <->
  exists evs, events = Some <$> evs /\ saveable evs.
Proof. apply ValidateEventsBeforeSave_None. Qed.
End validate.

(** ** Sequences of events

    The versions of [evs] count up from [v]; each carries, as its timestamp, one
    of the clock readings [lo], ..., [hi - 1], each a later one than the event
    before it. *)
Section sequences.
Context {T : Type} `{!Event T}.

Definition versions_from (v : Z) (evs : list T) : Prop :=
  forall i ev, evs !! i = Some ev -> Version ev = u64 (v + Z.of_nat i).

Inductive stamped (clk : nat -> time_) : nat -> list T -> nat -> Prop :=
  | stamped_nil lo hi : lo <= hi -> stamped clk lo [] hi
  | stamped_cons lo k ev evs hi :
      lo <= k -> Timestamp ev = Unix 0 (Time_UnixNano (clk k)) ->
      stamped clk (S k) evs hi -> stamped clk lo (ev :: evs) hi.

Lemma versions_from_nil v : versions_from v [].
Proof. intros i ev H. by rewrite lookup_nil in H. Qed.

Lemma versions_from_app v a b :
  versions_from v a -> versions_from (u64 (v + Z.of_nat (length a))) b ->
  versions_from v (a ++ b).
Proof.
  intros Ha Hb i ev [Hi|[Hle Hi]]%lookup_app_Some; [by apply Ha|].
  rewrite (Hb _ _ Hi). unfold u64. rewrite Zplus_mod_idemp_l. f_equal. lia.
Qed.

Lemma versions_from_singleton v ev : is_u64 v -> Version ev = v -> versions_from v [ev].
Proof.
  intros Hv He [|i] ev' Hi; simplify_eq/=. rewrite Z.add_0_r. by rewrite u64_id.
Qed.

Lemma stamped_weaken clk lo lo' hi hi' evs :
  lo' <= lo -> hi <= hi' -> stamped clk lo evs hi -> stamped clk lo' evs hi'.
Proof.
  intros Hlo Hhi H. revert lo' Hlo. induction H as [lo hi ?|lo k ev evs hi ? ? ? IH]; intros.
  - constructor. lia.
  - apply (stamped_cons _ _ k); [lia|done|]. apply IH; lia.
Qed.

Lemma stamped_app clk lo mid hi a b :
  stamped clk lo a mid -> stamped clk mid b hi -> stamped clk lo (a ++ b) hi.
Proof.
  induction 1; intros Hb; simpl.
  - by eapply stamped_weaken.
  - by econstructor; eauto.
Qed.

Lemma stamped_shift clk k lo hi evs :
  stamped (fun n => clk (k + n)) lo evs hi -> stamped clk (k + lo) evs (k + hi).
Proof.
  remember (fun n => clk (k + n)) as clk' eqn:Hclk.
  induction 1 as [|lo j ev evs hi ? Ht ? IH]; subst.
  - constructor. lia.
  - apply (stamped_cons _ _ (k + j)); [lia|done|].
    replace (S (k + j)) with (k + S j) by lia. by apply IH.
Qed.

Lemma Timestamp_clk n : is_i64 n -> (0 < n)%Z -> Unix 0 (Time_UnixNano n) = n.
Proof.
  intros Hi Hpos. rewrite <- (Unix_UnixNano n Hi) at 2 by lia.
  unfold UnixNano, IsZero, zeroTime.
  destruct (Z.eqb_spec n (-62135596800 * 1000000000)); [lia|done].
Qed.

Lemma stamped_nonzero clk lo evs hi :
  (forall n, is_i64 (clk n) /\ (0 < clk n)%Z) -> stamped clk lo evs hi ->
  Forall (fun ev => IsZero (Timestamp ev) = false) evs.
Proof.
  intros Hr. induction 1 as [|lo k ev evs hi Hlo Ht Hs IH]; constructor; [|done].
  destruct (Hr k). rewrite Ht, Timestamp_clk by done. unfold IsZero, zeroTime, time_ in *.
  apply Z.eqb_neq. lia.
Qed.

(** On a clock that does not go back and stays within the range of the
    nanosecond count, the timestamps do not decrease. *)
Lemma stamped_nondecreasing clk lo evs hi :
  (forall n, is_i64 (clk n) /\ (0 < clk n)%Z) -> (forall n, (clk n <= clk (S n))%Z) ->
  stamped clk lo evs hi -> nondecreasing (Timestamp <$> evs).
Proof.
  unfold time_ in *. intros Hr Hm. assert (Hmono : forall a b, a <= b -> (clk a <= clk b)%Z).
  { intros a b Hab. induction Hab as [|b ? IH]; [done|]. specialize (Hm b). lia. }
  assert (Hts : forall n, Unix 0 (Time_UnixNano (clk n)) = clk n).
  { intros n. by apply Timestamp_clk; apply Hr. }
  induction 1 as [|lo k ev evs hi Hlo Ht Hs IH]; intros i a b Ha Hb; [done|].
  destruct i as [|i]; simplify_eq/=; [|by eapply IH].
  inversion Hs as [|? k' ev' evs' ? Hk' Ht' _]; simplify_eq/=.
  rewrite Ht, Ht', !Hts. apply Hmono. lia.
Qed.
End sequences.
