(* ===== verification/MongoStore.v ===== *)
(** * The event store in MongoDB

    resource-aggregate/cqrs/eventstore/mongodb: the documents that hold the
    events of an aggregate, and the operations on their collection.  Saving is
    save.go with the makers of documents in eventstore.go; loading is load.go and
    getevents.go; then remove.go, delete.go, loadDeviceMetadataByServiceIDs.go,
    getLatestDeviceETags.go and maintenance.go.

    A collection is the list of its documents in the order of their insertion;
    filters, updates and projections are read as MongoDB documents their
    operators.  A field that a document may lack is an [option].  Each call of
    the driver may fail, [fault k] being the failure of the k-th call of an
    operation and whether its write was done all the same.  Marshalling events
    is protobuf's: a parameter. *)

From Stdlib Require Import ZArith Lia String.
From stdpp Require Import pretty.
From S2P Require Import Prelude Commands Events EventStore.

(** ** Errors of the driver

    The errors that the code tells apart; the code of the write concern error of
    a WriteException is an [option]. *)
Inductive mongo_error :=
  | ErrNilDocument
  | CommandError (code : Z) (message_E11000 : bool)
  | WriteError (code : Z)
  | WriteException (writeErrors : list Z) (writeConcernError : option Z)
  | OtherError.
Definition HasErrorCode (writeErrors : list Z) (writeConcernError : option Z) (code : Z) : bool :=
  bool_decide (writeConcernError = Some code) || bool_decide (code ∈ writeErrors).
Definition IsDup_code (code : Z) : bool := (code =? 11000)%Z || (code =? 11001)%Z || (code =? 12582)%Z.
Definition IsDup (err : mongo_error) : bool :=
  match err with
  | CommandError code m => IsDup_code code || ((code =? 16460)%Z && m)
  | WriteError code => IsDup_code code
  | WriteException werrs _ => forallb IsDup_code werrs
  | _ => false
  end.
(** How an error reads in a message. *)
Definition mongo_Error (err : mongo_error) : error := errors_New "mongo: %v".

Definition Fault : Type := option (mongo_error * bool).

(** ** Documents *)
Section store.
Context {E D : Type} `{!UUIDLib} `{!Event E} (marshaler : E -> result D).

Record DBEvent := MkDBEvent {
  ev_version : Z; ev_data : D; ev_eventType : string; ev_isSnapshot : bool; ev_timestamp : Z }.
(** The identifier is [None] when the server made it. *)
Record DBDoc := MkDBDoc {
  doc_id : option string; doc_groupID : option string; doc_aggregateID : string;
  doc_latestVersion : Z; doc_firstVersion : option Z; doc_latestSnapshotVersion : option Z;
  doc_latestTimestamp : option Z; doc_isActive : bool; doc_events : option (list DBEvent);
  doc_latestETag : option ETagData; doc_etag : option bytes; doc_types : list string;
  doc_serviceID : option string }.
Implicit Types (docs : list DBDoc) (d : DBDoc) (events : list E).

(** [fmt.Sprintf("%v.%v")] *)
Definition getDocID (event : E) : string :=
  AggregateID event +:+ "." +:+ pretty (Z.to_N (Version event)).

(** The loop, and whether a version was found. *)
Definition getLatestSnapshotVersion events : option Z :=
  match fold_left (fun acc e => if IsSnapshot e then Some (Version e) else acc) events None with
  | Some v => Some v
  | None => match events with
            | e :: _ => if (Version e =? 0)%Z then Some 0%Z else None
            | [] => None
            end
  end.
(** The service of the last event that has one. *)
Definition tryToSetServiceID (serviceID : option string) events : option string :=
  fold_left (fun acc e => let '(serviceID, ok) := ServiceID e in if ok then Some serviceID else acc)
    events serviceID.
Definition makeDBEvent (raw : D) (event : E) : DBEvent :=
  MkDBEvent (Version event) raw (EventType event) (IsSnapshot event) (UnixNano (Timestamp event)).
Fixpoint makeDBEventsAndGetETag events : result (option ETagData * list string * list DBEvent) :=
  match events with
  | [] => inr (None, [], [])
  | event :: events =>
      match marshaler event with
      | inl err => inl (Wrap "cannot create db event from event[%v]: %w" err)
      | inr raw =>
          match makeDBEventsAndGetETag events with
          | inl err => inl err
          | inr (etag, types, dbEvents) =>
              inr (match etag with Some et => Some et | None => ETag event end,
                   match types with [] => Types event | _ => types end,
                   makeDBEvent raw event :: dbEvents)
          end
      end
  end.
Definition makeDBDoc events : result DBDoc :=
  match makeDBEventsAndGetETag events, head events, last events with
  | inl err, _, _ => inl (Wrap "cannot insert first events('%v'): %w" err)
  | inr (etag, types, e), Some first, Some final =>
      match getLatestSnapshotVersion events with
      | None => inl (Wrap "cannot get latestSnapshotVersion from events('%v'): %w" (errors_New "not found"))
      | Some latestSnapshotVersion =>
          inr {| doc_id := Some (getDocID first); doc_groupID := Some (GroupID first);
                 doc_aggregateID := AggregateID first; doc_latestVersion := Version final;
                 doc_firstVersion := Some (Version first);
                 doc_latestSnapshotVersion := Some latestSnapshotVersion;
                 doc_latestTimestamp := Some (Time_UnixNano (Timestamp final)); doc_isActive := true;
                 doc_events := Some e; doc_latestETag := etag; doc_etag := et_ETag <$> etag;
                 doc_types := types; doc_serviceID := tryToSetServiceID None events |}
      end
  | inr _, _, _ => inl (errors_New "index out of range")
  end.

(** ** Calls of the driver

    [fits] tells the documents that are not larger than the server allows. *)
Context (fits : DBDoc -> bool).

(** UpdateOne: the first document of the filter, with whether the update modifies it. *)
Fixpoint update_one (filter : DBDoc -> bool) (update : DBDoc -> DBDoc * bool) docs
    : option (DBDoc * bool * list DBDoc) :=
  match docs with
  | [] => None
  | d :: docs =>
      if filter d then let '(d', modified) := update d in Some (d', modified, d' :: docs)
      else match update_one filter update docs with
           | Some (d', modified, docs) => Some (d', modified, d :: docs)
           | None => None
           end
  end.
Definition too_large : mongo_error := WriteException [10334%Z] None.
Definition duplicate_key : mongo_error := WriteException [11000%Z] None.
(** The count of the modified documents, or an error; [upsert] is the document
    to insert when none matches. *)
Definition UpdateOne (fault : Fault) (filter : DBDoc -> bool) (update : DBDoc -> DBDoc * bool)
    (upsert : option DBDoc) docs : list DBDoc * (mongo_error + nat) :=
  let done : list DBDoc * (mongo_error + nat) :=
    match update_one filter update docs with
    | Some (d, modified, docs') =>
        if fits d then (docs', inr (if modified then 1 else 0)) else (docs, inl too_large)
    | None => (match upsert with Some d => docs ++ [d] | None => docs end, inr 0)
    end in
  match fault with
  | None => done
  | Some (err, written) => (if written : bool then fst done else docs, inl err)
  end.
Definition has_id (id : option string) d : bool :=
  match id with Some id => bool_decide (doc_id d = Some id) | None => false end.
Definition InsertOne (fault : Fault) (doc : DBDoc) docs : list DBDoc * option mongo_error :=
  let done := if negb (fits doc) then (docs, Some OtherError)
              else if existsb (has_id (doc_id doc)) docs then (docs, Some duplicate_key)
              else (docs ++ [doc], None) in
  match fault with
  | None => done
  | Some (err, written) => (if written : bool then fst done else docs, Some err)
  end.

(** ** save.go *)

(** The document of the aggregate with the previous version. *)
Definition previous_version (aggregateID : string) (version : Z) d : bool :=
  String.eqb (doc_aggregateID d) aggregateID && (doc_latestVersion d =? u64 (version - 1))%Z.
(** The update of saveEvent: a push of at least one event modifies a document. *)
Definition push_events (final : E) (etag : option ETagData) (types : list string)
    (e : list DBEvent) events d : DBDoc * bool :=
  ({| doc_id := doc_id d; doc_groupID := doc_groupID d; doc_aggregateID := doc_aggregateID d;
      doc_latestVersion := Version final; doc_firstVersion := doc_firstVersion d;
      doc_latestSnapshotVersion := match getLatestSnapshotVersion events with
                                   | Some v => Some v
                                   | None => doc_latestSnapshotVersion d
                                   end;
      doc_latestTimestamp := Some (Time_UnixNano (Timestamp final)); doc_isActive := doc_isActive d;
      doc_events := Some (default [] (doc_events d) ++ e);
      doc_latestETag := match etag with Some et => Some et | None => doc_latestETag d end;
      doc_etag := doc_etag d;
      doc_types := match types with [] => doc_types d | _ => types end;
      doc_serviceID := tryToSetServiceID (doc_serviceID d) events |}, true).
Definition pushed (err : mongo_error) : result SaveStatus :=
  let failed := inl (Wrap "cannot push events('%v') to db: %w" (mongo_Error err)) in
  match err with
  | ErrNilDocument => inr ConcurrencyException
  | WriteException werrs concern =>
      if HasErrorCode werrs concern 10334 then inr SnapshotRequired else failed
  | _ => failed
  end.
Definition saveEvent (fault : Fault) events docs : list DBDoc * result SaveStatus :=
  match makeDBEventsAndGetETag events, head events, last events with
  | inl err, _, _ => (docs, inl err)
  | inr (etag, types, e), Some first, Some final =>
      match UpdateOne fault (previous_version (AggregateID first) (Version first))
              (push_events final etag types e events) None docs with
      | (docs, inr modified) =>
          (docs, inr (if (modified =? 0)%nat then ConcurrencyException else SaveOk))
      | (docs, inl err) => (docs, pushed err)
      end
  | inr _, _, _ => (docs, inl (errors_New "index out of range"))
  end.

Definition set_inactive d : DBDoc * bool :=
  ({| doc_id := doc_id d; doc_groupID := doc_groupID d; doc_aggregateID := doc_aggregateID d;
      doc_latestVersion := doc_latestVersion d; doc_firstVersion := doc_firstVersion d;
      doc_latestSnapshotVersion := doc_latestSnapshotVersion d;
      doc_latestTimestamp := doc_latestTimestamp d; doc_isActive := false; doc_events := doc_events d;
      doc_latestETag := doc_latestETag d; doc_etag := doc_etag d; doc_types := doc_types d;
      doc_serviceID := doc_serviceID d |}, doc_isActive d).
(** What the upsert inserts: the equalities of the filter and the update. *)
Definition upserted (aggregateID : string) (version : Z) : DBDoc :=
  MkDBDoc None None aggregateID (u64 (version - 1)) None None None false None None None [] None.
(** The session is not in the context of the calls: they are not part of its
    transaction, and take effect one by one. *)
Definition saveSnapshot (fault : nat -> Fault) events docs : list DBDoc * result SaveStatus :=
  let fail (format : string) (err : mongo_error) : result SaveStatus :=
    if IsDup err then inr ConcurrencyException else inl (Wrap format (mongo_Error err)) in
  match makeDBDoc events, head events with
  | inl err, _ => (docs, inl err)
  | inr doc, Some first =>
      match fault 0, fault 1 with
      | Some (err, _), _ => (docs, inl (mongo_Error err))
      | None, Some (err, _) => (docs, inl (mongo_Error err))
      | None, None =>
          match UpdateOne (fault 2) (previous_version (AggregateID first) (Version first)) set_inactive
                  (Some (upserted (AggregateID first) (Version first))) docs with
          | (docs, inl err) => (docs, fail "cannot remove current from doc for events('%v'): %w" err)
          | (docs, inr 0) => (docs, inr ConcurrencyException)
          | (docs, inr (S _)) =>
              match InsertOne (fault 3) doc docs with
              | (docs, Some err) => (docs, fail "cannot insert snapshot events('%v'): %w" err)
              | (docs, None) =>
                  match fault 4 with
                  | Some (err, _) => (docs, fail "cannot commit transaction for events('%v'): %w" err)
                  | None => (docs, inr SaveOk)
                  end
              end
          end
      end
  | inr _, None => (docs, inl (errors_New "index out of range"))
  end.

Definition Save (fault : nat -> Fault) docs events : list DBDoc * result SaveStatus :=
  match ValidateEventsBeforeSave (Some <$> events), events with
  | Some err, _ => (docs, inl err)
  | None, [] => (docs, inl (errors_New "index out of range"))
  | None, first :: _ =>
      if (Version first =? 0)%Z then
        match makeDBDoc events with
        | inl err => (docs, inl (Wrap "cannot insert first events('%v'): %w" err))
        | inr doc =>
            match InsertOne (fault 0) doc docs with
            | (docs, Some err) =>
                (docs, if IsDup err then inr ConcurrencyException
                       else inl (Wrap "cannot insert first events('%v'): %w" (mongo_Error err)))
            | (docs, None) => (docs, inr SaveOk)
            end
        end
      else
        match saveEvent (fault 0) events docs with
        | (docs, inr SnapshotRequired) =>
            if IsSnapshot first then saveSnapshot (fun k => fault (S k)) events docs
            else (docs, inr SnapshotRequired)
        | r => r
        end
  end.

(** ** load.go: the iterator *)
Inductive signOperator := signOperator_gte | signOperator_lt.
(** queryResolver *)
Record queryResolver := MkQueryResolver { qr_op : signOperator; qr_aggregateVersions : gmap string Z }.
Definition newQueryResolver (op : signOperator) : queryResolver := MkQueryResolver op ∅.
Definition queryResolver_set (query : VersionQuery) (r : queryResolver) : queryResolver * option error :=
  if String.eqb (vq_GroupID query) "" then (r, Some (errors_New "invalid GroupID('%v')"))
  else if String.eqb (vq_AggregateID query) "" || String.eqb (vq_AggregateID query) uuid_Nil then
    (r, Some (errors_New "invalid AggregateID('%v')"))
  else (MkQueryResolver (qr_op r) (<[vq_AggregateID query := vq_Version query]> (qr_aggregateVersions r)), None).
Definition compare_sign (op : signOperator) (a b : Z) : bool :=
  match op with signOperator_lt => (a <? b)%Z | signOperator_gte => (b <=? a)%Z end.
Definition check (r : queryResolver) (aggregateID : string) (version : Z) : bool :=
  match qr_aggregateVersions r !! aggregateID with
  | None => false
  | Some v => compare_sign (qr_op r) version v
  end.

(** A document is read as it was written, or it lacks a field. *)
Definition parseDocument d : result (list DBEvent * string * string) :=
  match doc_events d with
  | None => inl (errors_New "invalid data, %v is not an array")
  | Some [] => inl (errors_New "invalid data, no events found")
  | Some events =>
      match doc_groupID d with
      | None => inl (errors_New "invalid data['%v'] type ('%T'), expected string type")
      | Some groupID => inr (events, groupID, doc_aggregateID d)
      end
  end.
Definition checked (r : option queryResolver) (aggregateID : string) (ev : DBEvent) : bool :=
  match r with None => true | Some r => check r aggregateID (ev_version ev) end.
Definition newLoadedEvent (groupID aggregateID : string) (ev : DBEvent) : LoadedEvent D :=
  NewLoadedEvent (ev_version ev) (ev_eventType ev) aggregateID groupID (ev_isSnapshot ev)
    (Unix 0 (ev_timestamp ev)) (ev_data ev).
(** The error that a cursor ends with, and the one of closing it. *)
Record Cursor := MkCursor { cur_Err : option mongo_error; cur_Close : option mongo_error }.
(** What Next delivers until it finds the end, and what Err answers then;
    [broken] is an error of the cursor after its documents. *)
Fixpoint iterate (r : option queryResolver) docs (broken : option mongo_error)
    : list (LoadedEvent D) * option error :=
  match docs with
  | [] => ([], mongo_Error <$> broken)
  | d :: docs =>
      match parseDocument d with
      | inl err => ([], Some err)
      | inr (events, groupID, aggregateID) =>
          let '(loaded, err) := iterate r docs broken in
          ((newLoadedEvent groupID aggregateID <$> List.filter (checked r aggregateID) events)
             ++ loaded, err)
      end
  end.

(** *** Queries

    What the handler is given, one iterator after the other, and the errors of
    the store itself; a multierror is the list of its errors.  [find] is the
    order in which the server delivers what it finds. *)
Record Iterator := MkIterator { it_events : list (LoadedEvent D); it_Err : option error }.
Record Loading := MkLoading { ld_handled : list Iterator; ld_errors : list error }.
Definition loading_app (a b : Loading) : Loading :=
  MkLoading (ld_handled a ++ ld_handled b) (ld_errors a ++ ld_errors b).
Context (find : list DBDoc -> list DBDoc).

(** A query of the driver: its filter and its projection.  [None] is a nil
    bson.M: what the driver makes of one (a filter, or an error) is a parameter. *)
Record mongoQuery := MkMongoQuery {
  mq_filter : option (DBDoc -> bool); mq_project : DBDoc -> DBDoc }.
Context (nil_filter : mongo_error + (DBDoc -> bool)).
Definition filter_of (q : option (DBDoc -> bool)) : mongo_error + (DBDoc -> bool) :=
  match q with Some filter => inr filter | None => nil_filter end.
Definition loadEventsQuery_one (fault : Fault) (broken : Cursor) (r : option queryResolver)
    (q : mongoQuery) docs : Loading :=
  match filter_of (mq_filter q), fault with
  | inl ErrNilDocument, _ | inr _, Some (ErrNilDocument, _) => MkLoading [] []
  | inl err, _ | inr _, Some (err, _) => MkLoading [] [mongo_Error err]
  | inr filter, None =>
      let '(events, err) := iterate r (mq_project q <$> find (List.filter filter docs)) (cur_Err broken) in
      MkLoading [MkIterator events err]
        (match cur_Close broken with Some err => [mongo_Error err] | None => [] end)
  end.
Fixpoint loadEventsQuery (fault : nat -> Fault) (broken : Cursor) (r : option queryResolver)
    (queries : list mongoQuery) docs : Loading :=
  match queries with
  | [] => MkLoading [] []
  | q :: queries =>
      loading_app (loadEventsQuery_one (fault 0) broken r q docs)
        (loadEventsQuery (fun k => fault (S k)) broken r queries docs)
  end.

(** *** LoadFromVersion, LoadUpToVersion *)
Inductive maxVersionKey := firstVersionKey | latestVersionKey.
Definition versionQueryToMongoQuery (aggregateID : string) (version : Z) (op : signOperator)
    (key : maxVersionKey) d : bool :=
  String.eqb (doc_aggregateID d) aggregateID &&
  match key with
  | latestVersionKey => compare_sign op (doc_latestVersion d) version
  | firstVersionKey => match doc_firstVersion d with
                       | Some v => compare_sign op v version
                       | None => false
                       end
  end.
Definition toMongoQuery (r : queryResolver) (key : maxVersionKey) : option (DBDoc -> bool) :=
  if (size (qr_aggregateVersions r) =? 0)%nat then None
  else Some (fun d => existsb (fun av => versionQueryToMongoQuery av.1 av.2 (qr_op r) key d)
                        (map_to_list (qr_aggregateVersions r))).
(** The loop over the queries of a group. *)
Definition resolve_all (format : string) (queries : list VersionQuery) (r : queryResolver)
    : queryResolver * list error :=
  fold_left (fun '(r, errs) q =>
    match queryResolver_set q r with
    | (r, Some err) => (r, errs ++ [Wrap format err])
    | (r, None) => (r, errs)
    end) queries (r, []).
Definition loadMongoQuery (fault : Fault) (broken : Cursor) (r : queryResolver)
    (key : maxVersionKey) docs : Loading :=
  loadEventsQuery (fun _ => fault) broken (Some r) [MkMongoQuery (toMongoQuery r key) id] docs.
(** The queries by their groups; [range] is the order of the map. *)
Definition by_group {Q} (group : Q -> string) (queries : list Q) : gmap string (list Q) :=
  fold_left (fun m q => <[group q := default [] (m !! group q) ++ [q]]> m) queries ∅.
Definition loadEvents (range : gmap string (list VersionQuery) -> list (string * list VersionQuery))
    (fault : Fault) (broken : Cursor) (versionQueries : list VersionQuery)
    (op : signOperator) (key : maxVersionKey) docs : Loading :=
  fold_right (fun '(_, queries) l =>
    let '(r, errs) := resolve_all "cannot load events version for query('%+v'): %w" queries
                        (newQueryResolver op) in
    loading_app (MkLoading [] errs) (loading_app (loadMongoQuery fault broken r key docs) l))
    (MkLoading [] []) (range (by_group vq_GroupID versionQueries)).
Definition LoadFromVersion range fault broken queries docs : Loading :=
  loadEvents range fault broken queries signOperator_gte latestVersionKey docs.
Definition LoadUpToVersion range fault broken queries docs : Loading :=
  loadEvents range fault broken queries signOperator_lt firstVersionKey docs.

(** *** LoadFromSnapshot *)
(** The projection: the events from the latest snapshot on.  A number is not
    less than a field that is missing. *)
Definition from_latest_snapshot d : DBDoc :=
  {| doc_id := doc_id d; doc_groupID := doc_groupID d; doc_aggregateID := doc_aggregateID d;
     doc_latestVersion := doc_latestVersion d; doc_firstVersion := doc_firstVersion d;
     doc_latestSnapshotVersion := doc_latestSnapshotVersion d;
     doc_latestTimestamp := doc_latestTimestamp d; doc_isActive := doc_isActive d;
     doc_events := List.filter (fun ev => match doc_latestSnapshotVersion d with
                                          | Some v => (v <=? ev_version ev)%Z
                                          | None => true
                                          end) <$> doc_events d;
     doc_latestETag := doc_latestETag d; doc_etag := doc_etag d; doc_types := doc_types d;
     doc_serviceID := doc_serviceID d |}.
Definition no_aggregate (q : SnapshotQuery) : bool :=
  String.eqb (sq_AggregateID q) "" || String.eqb (sq_AggregateID q) uuid_Nil.
Definition of_group (groupID : string) d : bool :=
  bool_decide (doc_groupID d = Some groupID) && doc_isActive d.
Definition of_aggregate (groupID aggregateID : string) d : bool :=
  of_group groupID d && String.eqb (doc_aggregateID d) aggregateID.
(** [$all] of a nonempty list. *)
Definition of_types (groupID : string) (types : list string) d : bool :=
  of_group groupID d && forallb (fun t => bool_decide (t ∈ doc_types d)) types.
(** The loop over the queries: the filters of aggregates and of types, or [None]
    when a query asks for the whole group. *)
Fixpoint split_queries (groupID : string) (queries : list SnapshotQuery)
    (resourceQueries typeQueries : list (DBDoc -> bool))
    : option (list (DBDoc -> bool) * list (DBDoc -> bool)) :=
  match queries with
  | [] => Some (resourceQueries, typeQueries)
  | q :: queries =>
      if no_aggregate q then
        match sq_Types q with
        | [] => None
        | types => split_queries groupID queries resourceQueries (typeQueries ++ [of_types groupID types])
        end
      else split_queries groupID queries (resourceQueries ++ [of_aggregate groupID (sq_AggregateID q)])
             typeQueries
  end.
Definition any_of (filters : list (DBDoc -> bool)) d : bool := existsb (fun f => f d) filters.
Definition or_query (filters : list (DBDoc -> bool)) : list mongoQuery :=
  match filters with [] => [] | _ => [MkMongoQuery (Some (any_of filters)) from_latest_snapshot] end.
Definition snapshotQueriesToMongoQuery (groupID : string) (queries : list SnapshotQuery)
    : list mongoQuery :=
  let whole := [MkMongoQuery (Some (of_group groupID)) from_latest_snapshot] in
  match queries with
  | [] => whole
  | _ => match split_queries groupID queries [] [] with
         | None => whole
         | Some (resourceQueries, typeQueries) => or_query resourceQueries ++ or_query typeQueries
         end
  end.
Definition loadFromSnapshot (fault : nat -> Fault) (broken : Cursor) (groupID : string)
    (queries : list SnapshotQuery) docs : Loading :=
  let mongoQueries := snapshotQueriesToMongoQuery groupID queries in
  if (1 <? length mongoQueries)%nat then MkLoading [] [errors_New "too many types of queries"]
  else loadEventsQuery fault broken None mongoQueries docs.

(** Deleting from a set the elements of [subset], until it is empty. *)
Fixpoint empties (set : gset string) (subset : list string) : bool :=
  match subset with
  | [] => false
  | s :: subset => let set := set ∖ {[s]} in (size set =? 0)%nat || empties set subset
  end.
Definition resourceTypesIsSubset (slice subset : list string) : bool :=
  if (length slice =? 0)%nat then false
  else if (length subset <? length slice)%nat then false
  else empties (list_to_set slice) subset.
(** The elements after [startIdx] that are to be removed leave. *)
Definition removeDuplicates (queries : list SnapshotQuery) (startIdx : nat)
    (remove : SnapshotQuery -> bool) : list SnapshotQuery :=
  take (S startIdx) queries ++ List.filter (fun q => negb (remove q)) (drop (S startIdx) queries).
Fixpoint replace_general (query : SnapshotQuery) (idx : nat) (rest queries : list SnapshotQuery)
    : list SnapshotQuery :=
  match rest with
  | [] => queries ++ [query]
  | q :: rest =>
      if resourceTypesIsSubset (sq_Types query) (sq_Types q) then
        removeDuplicates (<[idx := query]> queries) idx
          (fun qa => resourceTypesIsSubset (sq_Types query) (sq_Types qa))
      else replace_general query (S idx) rest queries
  end.
Definition uniqueQueryWithEmptyAggregateID (queries : list SnapshotQuery) (query : SnapshotQuery)
    : list SnapshotQuery :=
  match sq_Types query with [] => [query] | _ => replace_general query 0 queries queries end.
(** [None] when the query was not handled. *)
Definition uniqueQueryHandleAtIndex (queries : list SnapshotQuery) (query : SnapshotQuery)
    (idx : nat) (q : SnapshotQuery) : option (list SnapshotQuery) :=
  if no_aggregate q && (length (sq_Types q) =? 0)%nat
     || resourceTypesIsSubset (sq_Types q) (sq_Types query) then Some queries
  else if String.eqb (sq_AggregateID q) (sq_AggregateID query) then
    if (length (sq_Types query) =? 0)%nat then
      Some (removeDuplicates (<[idx := query]> queries) idx
              (fun qa => String.eqb (sq_AggregateID qa) (sq_AggregateID query)))
    else if (length (sq_Types q) =? 0)%nat
            || resourceTypesIsSubset (sq_Types q) (sq_Types query) then Some queries
    else if resourceTypesIsSubset (sq_Types query) (sq_Types q) then
      Some (removeDuplicates (<[idx := query]> queries) idx
              (fun qa => resourceTypesIsSubset (sq_Types qa) (sq_Types query)))
    else None
  else None.
Fixpoint unique_at (queries : list SnapshotQuery) (query : SnapshotQuery) (idx : nat)
    (rest : list SnapshotQuery) : list SnapshotQuery :=
  match rest with
  | [] => queries ++ [query]
  | q :: rest => match uniqueQueryHandleAtIndex queries query idx q with
                 | Some queries => queries
                 | None => unique_at queries query (S idx) rest
                 end
  end.
Definition uniqueQuery (queries : list SnapshotQuery) (query : SnapshotQuery) : list SnapshotQuery :=
  if no_aggregate query then uniqueQueryWithEmptyAggregateID queries query
  else unique_at queries query 0 queries.
Definition normalizeSnapshotQuery (queries : list SnapshotQuery) : gmap string (list SnapshotQuery) :=
  fold_left (fun m q =>
    if String.eqb (sq_GroupID q) "" then m
    else <[sq_GroupID q := uniqueQuery (default [] (m !! sq_GroupID q)) q]> m) queries ∅.
(** [range] is the order of the map; the groups have faults of their own. *)
Definition LoadFromSnapshot (range : gmap string (list SnapshotQuery) -> list (string * list SnapshotQuery))
    (fault : string -> nat -> Fault) (broken : string -> Cursor)
    (queries : list SnapshotQuery) docs : Loading :=
  if (length queries =? 0)%nat then MkLoading [] [errors_New "not supported"]
  else fold_right (fun '(groupID, queries) l =>
    loading_app (loadFromSnapshot (fault groupID) (broken groupID) groupID queries docs) l)
    (MkLoading [] []) (range (normalizeSnapshotQuery queries)).

(** ** getevents.go *)
Record GetEventsQuery := MkGetEventsQuery {
  gq_GroupID : string; gq_AggregateID : string; gq_Types : list string }.
Definition getEventsAggregateIdFilter (groupID : string) (queries : list GetEventsQuery) : gset string :=
  list_to_set (gq_AggregateID <$> filter (fun q => gq_GroupID q = groupID /\ gq_AggregateID q <> "") queries).
Definition getEventsFilter (groupID : string) (queries : list GetEventsQuery) (timestamp : Z) d : bool :=
  let aggregateIdFilter := getEventsAggregateIdFilter groupID queries in
  (String.eqb groupID "" || bool_decide (doc_groupID d = Some groupID)) &&
  ((size aggregateIdFilter =? 0)%nat || bool_decide (doc_aggregateID d ∈ aggregateIdFilter)) &&
  (negb (0 <? timestamp)%Z ||
   match doc_latestTimestamp d with Some t => (timestamp <? t)%Z | None => false end).
(** [$gt] on the timestamp of an event. *)
Definition getEventsProjection (timestamp : Z) d : DBDoc :=
  if (0 <? timestamp)%Z then
    {| doc_id := None; doc_groupID := doc_groupID d; doc_aggregateID := doc_aggregateID d;
       doc_latestVersion := doc_latestVersion d; doc_firstVersion := doc_firstVersion d;
       doc_latestSnapshotVersion := doc_latestSnapshotVersion d;
       doc_latestTimestamp := doc_latestTimestamp d; doc_isActive := doc_isActive d;
       doc_events := List.filter (fun ev => (timestamp <? ev_timestamp ev)%Z) <$> doc_events d;
       doc_latestETag := doc_latestETag d; doc_etag := doc_etag d; doc_types := doc_types d;
       doc_serviceID := doc_serviceID d |}
  else d.
Definition getEvents (fault : Fault) (broken : Cursor) (groupID : string)
    (queries : list GetEventsQuery) (timestamp : Z) docs : Loading :=
  loadEventsQuery (fun _ => fault) broken None
    [MkMongoQuery (Some (getEventsFilter groupID queries timestamp)) (getEventsProjection timestamp)] docs.

Record ResourceIdFilter := MkResourceIdFilter { rf_All : bool; rf_ResourceIds : gset string }.
Record DeviceIdFilter := MkDeviceIdFilter { df_All : bool; df_DeviceIds : gmap string ResourceIdFilter }.
Definition add_get_query (query : GetEventsQuery) (ids : gmap string ResourceIdFilter)
    : gmap string ResourceIdFilter :=
  let v := default (MkResourceIdFilter false ∅) (ids !! gq_GroupID query) in
  if rf_All v then ids
  else <[gq_GroupID query :=
         if String.eqb (gq_AggregateID query) "" then MkResourceIdFilter true ∅
         else MkResourceIdFilter false ({[gq_AggregateID query]} ∪ rf_ResourceIds v)]> ids.
Fixpoint get_filter_from (queries : list GetEventsQuery) (ids : gmap string ResourceIdFilter)
    : DeviceIdFilter :=
  match queries with
  | [] => MkDeviceIdFilter false ids
  | query :: queries =>
      if String.eqb (gq_GroupID query) "" && String.eqb (gq_AggregateID query) "" then
        MkDeviceIdFilter true ∅
      else get_filter_from queries (add_get_query query ids)
  end.
Definition GetNormalizedGetEventsFilter (queries : list GetEventsQuery) : DeviceIdFilter :=
  get_filter_from queries ∅.
Definition GetEvents (range : gmap string ResourceIdFilter -> list (string * ResourceIdFilter))
    (fault : string -> Fault) (broken : string -> Cursor) (queries : list GetEventsQuery)
    (timestamp : Z) docs : Loading :=
  if (length queries =? 0)%nat then MkLoading [] [errors_New "not supported"]
  else
    let eventFilter := GetNormalizedGetEventsFilter queries in
    if df_All eventFilter then getEvents (fault "") (broken "") "" [] timestamp docs
    else fold_right (fun '(groupID, _) l =>
      loading_app (getEvents (fault groupID) (broken groupID) groupID queries timestamp docs) l)
      (MkLoading [] []) (range (df_DeviceIds eventFilter)).

(** ** remove.go *)
Definition DeleteMany (fault : Fault) (filter : option (DBDoc -> bool)) docs
    : list DBDoc * option mongo_error :=
  match filter_of filter with
  | inl err => (docs, Some err)
  | inr f =>
      let rest := List.filter (fun d => negb (f d)) docs in
      match fault with
      | None => (rest, None)
      | Some (err, written) => (if written : bool then rest else docs, Some err)
      end
  end.
Definition UpdateMany (fault : Fault) (filter : option (DBDoc -> bool)) (update : DBDoc -> DBDoc) docs
    : list DBDoc * option mongo_error :=
  match filter_of filter with
  | inl err => (docs, Some err)
  | inr f =>
      let changed := (fun d => if f d then update d else d) <$> docs in
      match fault with
      | None => (changed, None)
      | Some (err, written) => (if written : bool then changed else docs, Some err)
      end
  end.
Definition removeDocumentsUpToVersion (fault : Fault) (queries : list VersionQuery) docs
    : list DBDoc * list error :=
  let '(r, errs) := resolve_all "cannot remove events version for query('%+v'): %w" queries
                      (newQueryResolver signOperator_lt) in
  match DeleteMany fault (toMongoQuery r latestVersionKey) docs with
  | (docs, Some err) => (docs, errs ++ [mongo_Error err])
  | (docs, None) => (docs, errs)
  end.
Definition pull_events (version : Z) d : DBDoc :=
  {| doc_id := doc_id d; doc_groupID := doc_groupID d; doc_aggregateID := doc_aggregateID d;
     doc_latestVersion := doc_latestVersion d; doc_firstVersion := Some version;
     doc_latestSnapshotVersion := doc_latestSnapshotVersion d;
     doc_latestTimestamp := doc_latestTimestamp d; doc_isActive := doc_isActive d;
     doc_events := List.filter (fun ev => (version <=? ev_version ev)%Z) <$> doc_events d;
     doc_latestETag := doc_latestETag d; doc_etag := doc_etag d; doc_types := doc_types d;
     doc_serviceID := doc_serviceID d |}.
Fixpoint removeEventsUpToVersion (fault : nat -> Fault) (queries : list VersionQuery) docs
    : list DBDoc * list error :=
  match queries with
  | [] => (docs, [])
  | q :: queries =>
      match queryResolver_set q (newQueryResolver signOperator_lt) with
      | (_, Some err) =>
          let '(docs, errs) := removeEventsUpToVersion fault queries docs in
          (docs, Wrap "cannot pull events version for query('%+v'): %w" err :: errs)
      | (r, None) =>
          let '(docs, err) := UpdateMany (fault 0) (toMongoQuery r firstVersionKey)
                                (pull_events (vq_Version q)) docs in
          let '(docs, errs) := removeEventsUpToVersion (fun k => fault (S k)) queries docs in
          (docs, match err with Some err => mongo_Error err :: errs | None => errs end)
      end
  end.
(** The faults of a group are those of its deletion and of its updates. *)
Definition RemoveUpToVersion (range : gmap string (list VersionQuery) -> list (string * list VersionQuery))
    (fault : string -> nat -> Fault) (versionQueries : list VersionQuery) docs
    : list DBDoc * list error :=
  fold_left (fun '(docs, errs) '(groupID, queries) =>
    match removeDocumentsUpToVersion (fault groupID 0) queries docs with
    | (docs, []) =>
        let '(docs, errs') := removeEventsUpToVersion (fun k => fault groupID (S k)) queries docs in
        (docs, errs ++ errs')
    | (docs, errs') => (docs, errs ++ errs')
    end) (range (by_group vq_GroupID versionQueries)) (docs, []).

(** ** delete.go *)
Definition getDeviceIDFilter (queries : list string) : gset string :=
  list_to_set (filter (fun groupID => groupID <> "") queries).
(** A DeleteQuery is the identifier of a group. *)
Definition Delete_ (fault : Fault) (queries : list string) docs : list DBDoc * option error :=
  let deviceIDFilter := getDeviceIDFilter queries in
  if (size deviceIDFilter =? 0)%nat then
    (docs, Some (errors_New "failed to delete documents: invalid query"))
  else
    let '(docs, err) := DeleteMany fault (Some (fun d =>
      match doc_groupID d with Some g => bool_decide (g ∈ deviceIDFilter) | None => false end)) docs in
    (docs, mongo_Error <$> err).

(** ** loadDeviceMetadataByServiceIDs.go *)
Record DeviceDocumentMetadata := MkDeviceDocumentMetadata { dm_DeviceID : string; dm_ServiceID : string }.
Definition of_service (serviceIDs : list string) d : bool :=
  match doc_serviceID d with Some s => bool_decide (s ∈ serviceIDs) && doc_isActive d | None => false end.
Fixpoint device_documents docs : result (list DeviceDocumentMetadata) :=
  match docs with
  | [] => inr []
  | d :: docs =>
      match doc_groupID d, doc_serviceID d with
      | Some groupID, Some serviceID =>
          match device_documents docs with
          | inl err => inl err
          | inr ret => inr (MkDeviceDocumentMetadata groupID serviceID :: ret)
          end
      | _, _ => inl (errors_New "invalid data['%v'] type ('%T'), expected string type")
      end
  end.
(** A limit of 0 is none. *)
Definition limited (limit : Z) docs : list DBDoc :=
  if (limit =? 0)%Z then docs else take (Z.to_nat limit) docs.
Definition LoadDeviceMetadataByServiceIDs (fault : Fault) (serviceIDs : list string) (limit : Z) docs
    : result (list DeviceDocumentMetadata) :=
  if (length serviceIDs =? 0)%nat then inl (errors_New "not supported")
  else match fault with
       | Some (ErrNilDocument, _) => inr []
       | Some (err, _) => inl (mongo_Error err)
       | None => device_documents (limited limit (find (List.filter (of_service serviceIDs) docs)))
       end.

(** ** getLatestDeviceETags.go *)
Definition decodeETag d : result (list byte) :=
  match doc_latestETag d with
  | None => inl (errors_New "cannot find '%v' in result %v")
  | Some latestETag =>
      match et_ETag latestETag with
      | None => inl (errors_New "cannot find '%v' in latestETagKey %v")
      | Some [] => inl (errors_New "etag is empty")
      | Some etag => inr etag
      end
  end.
(** [sorted] is the order of the server: the latest entity tags first. *)
Definition GetLatestDeviceETags (sorted : list DBDoc -> list DBDoc) (fault : Fault) (deviceID : string)
    (limit : Z) docs : result (list (list byte)) :=
  if String.eqb deviceID "" then inl (errors_New "deviceID is invalid")
  else match fault with
       | Some (ErrNilDocument, _) => inr []
       | Some (err, _) => inl (mongo_Error err)
       | None =>
           let found := limited limit (sorted (List.filter (fun d => bool_decide (doc_groupID d = Some deviceID)) docs)) in
           let etags := omap (fun d => match decodeETag d with inr e => Some e | inl _ => None end) found in
           let errors := omap (fun d => match decodeETag d with inr _ => None | inl err => Some err end) found in
           match etags, errors with
           | [], err :: _ => inl err
           | etags, _ => inr etags
           end
       end.
End store.

(** ** maintenance.go *)
Record Task := MkTask { t_GroupID : string; t_AggregateID : string; t_Version : Z }.
Definition getID (task : Task) : string := t_AggregateID task.
(** The collection: the record of an aggregate by its identifier. *)
Definition Insert (fault : Fault) (task : Task) (records : gmap string Task) : gmap string Task * option error :=
  let failed := Some (errors_New "could not insert record with aggregate ID %v, version %d") in
  if String.eqb (t_GroupID task) "" then
    (records, Some (errors_New "could not insert record - group ID cannot be empty"))
  else if String.eqb (t_AggregateID task) "" then
    (records, Some (errors_New "could not insert record - aggregate ID cannot be empty"))
  else
    let done : gmap string Task * option mongo_error :=
      match records !! getID task with
      | None => (<[getID task := task]> records, None)
      | Some t => if (t_Version t <? t_Version task)%Z then (<[getID task := task]> records, None)
                  else (records, Some (WriteException [11000%Z] None))
      end in
    match fault with
    | Some (err, written) => (if written : bool then fst done else records, failed)
    | None => (fst done, match snd done with Some _ => failed | None => None end)
    end.
(** The tasks that are handed to the handler, and its answer or the error of closing the cursor. *)
Definition Query (order : gmap string Task -> list Task) (fault : Fault) (closing : option mongo_error)
    (limit : Z) (handler : list Task -> option error) (records : gmap string Task) : option error :=
  match fault with
  | Some (ErrNilDocument, _) => None
  | Some (err, _) => Some (mongo_Error err)
  | None =>
      match handler (if (limit =? 0)%Z then order records else take (Z.to_nat limit) (order records)) with
      | Some err => Some err
      | None => mongo_Error <$> closing
      end
  end.
Definition Remove_ (fault : Fault) (task : Task) (records : gmap string Task)
    : gmap string Task * option error :=
  let matches := match records !! getID task with
                 | Some t => String.eqb (t_GroupID t) (t_GroupID task) && (t_Version t =? t_Version task)%Z
                 | None => false
                 end in
  let removed := if matches then delete (getID task) records else records in
  match fault with
  | Some (err, written) => (if written : bool then removed else records, Some (mongo_Error err))
  | None => (removed, if matches then None else
      Some (errors_New "could not remove record with aggregate ID %s and/or version %d"))
  end.
