(* ===== verification/BusPool.v ===== *)
(** * From the event bus to the handlers

    resource-aggregate/cqrs/eventbus/goroutinePoolHandler.go: events that arrive
    from the bus are put into queues, one for the name of an aggregate, and a
    goroutine of a pool empties each queue into the handler of events.  A state
    is the map of the queues, the queues themselves (one that has left the map
    may still be in use) and where every goroutine is; a step is what a
    goroutine does under a lock, or a call of the handler.

    [b_pushed] and [b_handed] record what was put into the queues and what was
    handed to the handler, in order; the code does not keep them. *)

From Stdlib Require Import ZArith Lia String.
From S2P Require Import Prelude Commands Events EventStore.

Section pool.
Context {Ev : Type} (GroupID AggregateID : Ev -> string).

Definition eventToName (ev : Ev) : string := GroupID ev +:+ "." +:+ AggregateID ev.

(** ** Batches

    The loop of Handle: a batch ends before an event of another name, or when it
    has 128 events, and is put into the queue of the event that follows it. *)
Fixpoint handle_batches (lastID : string) (events : list Ev) (iter : list Ev) : list (string * list Ev) :=
  match iter with
  | [] => match events with [] => [] | e :: _ => [(eventToName e, events)] end
  | eu :: iter =>
      let id := eventToName eu in
      if (str_nonempty lastID && negb (String.eqb id lastID)) || (128 <=? length events)%nat then
        (id, events) :: handle_batches id [eu] iter
      else handle_batches id (events ++ [eu]) iter
  end.
Definition batches (iter : list Ev) : list (string * list Ev) := handle_batches "" [] iter.

(** ** Queues and goroutines *)
(** eventsProcessor *)
Record eventsProcessor := MkEventsProcessor { p_name : string; p_queue : list Ev; p_isProcessed : bool }.
Definition newEventsProcessor (name : string) : eventsProcessor := MkEventsProcessor name [] false.
(** push, and whether a goroutine is to be started. *)
Definition push (events : list Ev) (ed : eventsProcessor) : eventsProcessor * bool :=
  (MkEventsProcessor (p_name ed) (p_queue ed ++ events) true, negb (p_isProcessed ed)).
Definition pop (ed : eventsProcessor) : eventsProcessor * list Ev :=
  match p_queue ed with
  | [] => (MkEventsProcessor (p_name ed) [] false, [])
  | res => (MkEventsProcessor (p_name ed) [] (p_isProcessed ed), res)
  end.
Definition not_processed (ed : eventsProcessor) : eventsProcessor :=
  MkEventsProcessor (p_name ed) (p_queue ed) false.

(** Where a goroutine is.  [back] is what the caller of Handle has still to do
    when it empties the queue itself because there is no pool. *)
Abbreviation Todo := (list (string * list Ev)).
Inductive goroutine :=
  | Calling (todo : Todo)                                 (* in the loop of Handle *)
  | Pushing (p : nat) (events : list Ev) (todo : Todo)    (* has got the queue from the map *)
  | Starting (p : nat) (todo : Todo)                      (* push has answered true *)
  | Popping (p : nat) (back : option Todo)                (* in the loop of process *)
  | Handling (p : nat) (events : list Ev) (back : option Todo)
  | Failing (p : nat) (back : option Todo)                (* the handler has failed *)
  | Deleting (p : nat) (failed : bool) (back : option Todo)
  | Finished (failed : bool).

(** GoroutinePoolHandler *)
Record bus := MkBus {
  b_container : gmap string nat; b_processors : list eventsProcessor; b_goroutines : list goroutine;
  b_pushed : list (nat * list Ev); b_handed : list (nat * list Ev) }.
Definition at_goroutine (i : nat) (g : goroutine) (s : bus) : bus :=
  MkBus (b_container s) (b_processors s) (<[i := g]> (b_goroutines s)) (b_pushed s) (b_handed s).
Definition go (g : goroutine) (s : bus) : bus :=
  MkBus (b_container s) (b_processors s) (b_goroutines s ++ [g]) (b_pushed s) (b_handed s).
Definition set_processor (p : nat) (ed : eventsProcessor) (s : bus) : bus :=
  MkBus (b_container s) (<[p := ed]> (b_processors s)) (b_goroutines s) (b_pushed s) (b_handed s).
Definition set_container (m : gmap string nat) (s : bus) : bus :=
  MkBus m (b_processors s) (b_goroutines s) (b_pushed s) (b_handed s).
Definition note_pushed (p : nat) (events : list Ev) (s : bus) : bus :=
  MkBus (b_container s) (b_processors s) (b_goroutines s) (b_pushed s ++ [(p, events)]) (b_handed s).
Definition note_handed (p : nat) (events : list Ev) (s : bus) : bus :=
  MkBus (b_container s) (b_processors s) (b_goroutines s) (b_pushed s) (b_handed s ++ [(p, events)]).

Definition getEventsData (name : string) (s : bus) : bus * nat :=
  match b_container s !! name with
  | Some p => (s, p)
  | None =>
      let p := length (b_processors s) in
      (MkBus (<[name := p]> (b_container s)) (b_processors s ++ [newEventsProcessor name])
         (b_goroutines s) (b_pushed s) (b_handed s), p)
  end.
Definition tryToDelete (name : string) (s : bus) : bus :=
  match b_container s !! name with
  | Some p => match b_processors s !! p with
              | Some ed => if p_isProcessed ed then s else set_container (delete name (b_container s)) s
              | None => s
              end
  | None => s
  end.
(** What follows process and tryToDelete in run. *)
Definition after_run (failed : bool) (back : option Todo) : goroutine :=
  match back with
  | Some todo => if failed then Finished true else Calling todo
  | None => Finished failed
  end.

(** One step of the goroutine [i].  [pool] tells whether there is a pool;
    [faulty] lets the pool refuse a goroutine and the handler fail. *)
Context (pool faulty : bool).
Inductive goroutine_step (i : nat) (s : bus) : goroutine -> bus -> Prop :=
  | step_get name events todo s' p :
      getEventsData name s = (s', p) ->
      goroutine_step i s (Calling ((name, events) :: todo)) (at_goroutine i (Pushing p events todo) s')
  | step_return : goroutine_step i s (Calling []) (at_goroutine i (Finished false) s)
  | step_push p events todo ed ed' spawnGo :
      b_processors s !! p = Some ed -> push events ed = (ed', spawnGo) ->
      goroutine_step i s (Pushing p events todo)
        (at_goroutine i (if spawnGo : bool then Starting p todo else Calling todo)
           (note_pushed p events (set_processor p ed' s)))
  | step_start p todo :
      pool = true ->
      goroutine_step i s (Starting p todo) (go (Popping p None) (at_goroutine i (Calling todo) s))
  | step_refused p todo :
      pool = true -> faulty = true ->
      goroutine_step i s (Starting p todo) (at_goroutine i (Finished true) s)
  | step_no_pool p todo :
      pool = false -> goroutine_step i s (Starting p todo) (at_goroutine i (Popping p (Some todo)) s)
  | step_pop p back ed ed' e events :
      b_processors s !! p = Some ed -> pop ed = (ed', e :: events) ->
      goroutine_step i s (Popping p back)
        (at_goroutine i (Handling p (e :: events) back) (note_handed p (e :: events) (set_processor p ed' s)))
  | step_pop_nil p back ed ed' :
      b_processors s !! p = Some ed -> pop ed = (ed', []) ->
      goroutine_step i s (Popping p back) (at_goroutine i (Deleting p false back) (set_processor p ed' s))
  | step_handled p events back :
      goroutine_step i s (Handling p events back) (at_goroutine i (Popping p back) s)
  | step_failed p events back :
      faulty = true ->
      goroutine_step i s (Handling p events back) (at_goroutine i (Failing p back) s)
  | step_failing p back ed :
      faulty = true -> b_processors s !! p = Some ed ->
      goroutine_step i s (Failing p back)
        (at_goroutine i (Deleting p true back) (set_processor p (not_processed ed) s))
  | step_delete p failed back ed :
      b_processors s !! p = Some ed ->
      goroutine_step i s (Deleting p failed back)
        (at_goroutine i (after_run failed back) (tryToDelete (p_name ed) s)).

Inductive bus_step (s : bus) : bus -> Prop :=
  (** Handle is called with the events of an iterator. *)
  | bus_call iter : bus_step s (go (Calling (batches iter)) s)
  | bus_go i g s' : b_goroutines s !! i = Some g -> goroutine_step i s g s' -> bus_step s s'.

(** NewGoroutinePoolHandler *)
Definition NewGoroutinePoolHandler : bus := MkBus ∅ [] [] [] [].
Definition bus_reachable : bus -> Prop := rtc bus_step NewGoroutinePoolHandler.
End pool.
Arguments bus Ev : clear implicits.
Arguments goroutine Ev : clear implicits.
Arguments eventsProcessor Ev : clear implicits.
