(* ===== verification/Handler.v ===== *)
(** * What the aggregates share

    The four aggregates of the package resource-aggregate/events have the same
    outline: a state that replays events read from a store ([handle_loop]), and
    command handlers that build an event, apply it to the state and return it
    ([finish]).  [outcome] is what has to hold of such a handler for the log and
    the state to stay together; its lemmas compose handlers. *)

From Stdlib Require Import ZArith Lia String.
From S2P Require Import Prelude Commands Events EventStore.

(** github.com/plgd-dev/kit/v2/strings: a set made of a list of strings. *)
Class StringSet := {
  kit_Set : Type;
  MakeSet : list string -> kit_Set;
  set_len : kit_Set -> nat;
  HasOneOf : kit_Set -> string -> bool }.

Class StringSetLaws `{!StringSet} := {
  set_len_MakeSet : forall l, set_len (MakeSet l) = 0 <-> l = [];
  HasOneOf_MakeSet : forall l x, HasOneOf (MakeSet l) x = true <-> x ∈ l }.

(** What a command handler has besides the state: the fields of
    the structs *SnapshotTakenForCommand, and the trace that
    propagation.TraceFromCtx takes out of the context. *)
Record CommandContext := MkCommandContext {
  cc_userID : string; cc_owner : string; cc_hubID : string;
  cc_resourceLinks : option ResourceLinksSnapshotTaken; cc_trace : carrier }.

Definition errInvalidCommandMetadata : error := Errorf InvalidArgument "invalid command metadata".

Section context.
Context (cc : CommandContext).

(** The metadata and the audit context every command gives its event. *)
Definition command_meta (now : time_) (cm : option CommandMetadata) (newVersion : Z)
    : EventMetadata :=
  MakeEventMeta now (cm ~> cm_ConnectionId) (cm ~> cm_Sequence) newVersion (cc_hubID cc).
Definition command_audit (correlationID : string) : AuditContext :=
  NewAuditContext (cc_userID cc) correlationID (cc_owner cc).

End context.

(** deviceMetadataSnapshotTaken.go; [now] is read only when there is a limit. *)
Definition timeToLive2ValidUntil (now : time_) (timeToLive : Z) : Z :=
  if (timeToLive =? 0)%Z then 0%Z else UnixNano (now + timeToLive)%Z.

(** Moving a clock past its first [k] readings. *)
Definition skip (k : nat) (clk : nat -> time_) : nat -> time_ := fun n => clk (k + n).

(** ** Replay *)
Section replay.
Context {State D : Type}.

(** One case of the switch: unmarshal, then handle; what the handler reports
    is dropped. *)
Definition unmarshal_case {T} `{!Unmarshaler D T} (e : State) (eu : LoadedEvent D)
    (handle : T -> State) : State * option error :=
  match Unmarshal (le_data eu) with
  | inl _ => (e, Some (Errorf Internal "%v"))
  | inr s => (handle s, None)
  end.

Context (handleByEvent : time_ -> State -> LoadedEvent D -> State * option error).

(** The loop of Handle: the iterator delivers [events] and then fails with [iter_err] or
    not at all. *)
Fixpoint handle_loop (clk : nat -> time_) (e : State) (events : list (LoadedEvent D))
    (iter_err : option error) : State * option error :=
  match events with
  | [] => (e, iter_err)
  | eu :: events =>
      if String.eqb (le_eventType eu) "" then
        (e, Some (Errorf Internal "cannot determine type of event"))
      else match handleByEvent (clk 0) e eu with
           | (e, Some err) => (e, Some err)
           | (e, None) => handle_loop (fun n => clk (S n)) e events iter_err
           end
  end.
End replay.

Section handlers.
Context {State : Type}.

(** What is left to do with the outcome of an event handler. *)
Definition finish (r : State * option error) (ev : AnyEvent) : State * result (list AnyEvent) :=
  match r with
  | (e, Some err) => (e, inl err)
  | (e, None) => (e, inr [ev])
  end.
Lemma finish_inr (r : State * option error) ev e' evs :
  finish r ev = (e', inr evs) -> r = (e', None) /\ evs = [ev].
Proof. destruct r as [e [err|]]; simpl; [done|]. by intros [= -> ->]. Qed.
End handlers.

(** The body of the loop of Handle, as a function of an event. *)
Definition loop_body {State D : Type}
    (handleByEvent : time_ -> State -> LoadedEvent D -> State * option error)
    (now : time_) (e : State) (eu : LoadedEvent D) : State * option error :=
  if String.eqb (le_eventType eu) "" then
    (e, Some (Errorf Internal "cannot determine type of event"))
  else handleByEvent now e eu.

(** ** The events of a command *)
Section outcome.
Context {State : Type} `{!UUIDLib}
  (handleByEvent : time_ -> State -> LoadedEvent AnyEvent -> State * option error)
  (good : AnyEvent -> Prop).

(** Replaying [evs], as a store hands them back, at the time [t]. *)
Definition replay_at (t : time_) (e : State) (evs : list AnyEvent) : State * option error :=
  handle_loop handleByEvent (fun _ => t) e (loaded <$> evs) None.

Lemma replay_at_app t e evs evs' e' :
  replay_at t e evs = (e', None) -> replay_at t e (evs ++ evs') = replay_at t e' evs'.
Proof.
  unfold replay_at. revert e. induction evs as [|ev evs IH]; intros e.
  - by intros [= ->].
  - rewrite fmap_app. cbn [fmap list_fmap app handle_loop].
    destruct (String.eqb _ _); [done|]. destruct (handleByEvent _ _ _) as [e1 [err|]]; [done|].
    rewrite <- fmap_app. apply IH.
Qed.

Lemma replay_at_invariant (P : State -> Prop) t e evs e' :
  (forall e ev, ev ∈ evs -> P e -> P (handleByEvent t e (loaded ev)).1) ->
  P e -> replay_at t e evs = (e', None) -> P e'.
Proof.
  unfold replay_at. revert e. induction evs as [|ev evs IH]; intros e Hstep Hp.
  - by intros [= <-].
  - cbn [fmap list_fmap handle_loop]. destruct (String.eqb _ _); [done|].
    assert (Hp' := Hstep e ev ltac:(by left) Hp).
    destruct (handleByEvent _ _ _) as [e1 [err|]]; [done|]. apply IH; [|done].
    intros e2 ev2 Hin. apply Hstep. by right.
Qed.

(** [evs], stamped with readings of [clk] from [lo] to [hi], are [good] events
    whose versions count up from [v], and a model that was in state [e] and
    replays them at time [t] ends in state [e']. *)
Record produced (clk : nat -> time_) (t : time_) (v : Z) (lo hi : nat) (e e' : State)
    (evs : list AnyEvent) : Prop := {
  pr_replay : replay_at t e evs = (e', None);
  pr_versions : versions_from v evs;
  pr_good : Forall good evs;
  pr_stamped : stamped clk lo evs hi }.

Lemma produced_nil clk t v lo hi e : lo <= hi -> produced clk t v lo hi e e [].
Proof. split; [done|apply versions_from_nil|constructor|by constructor]. Qed.

Lemma produced_app clk t v lo mid hi e e1 e2 a b :
  produced clk t v lo mid e e1 a ->
  produced clk t (u64 (v + Z.of_nat (length a))) mid hi e1 e2 b ->
  produced clk t v lo hi e e2 (a ++ b).
Proof.
  intros [Ra Va Fa Sa] [Rb Vb Fb Sb]. split.
  - by rewrite (replay_at_app _ _ _ _ _ Ra).
  - by apply versions_from_app.
  - by apply Forall_app.
  - by eapply stamped_app.
Qed.

Lemma produced_weaken clk t v lo lo' hi hi' e e' evs :
  lo' <= lo -> hi <= hi' -> produced clk t v lo hi e e' evs -> produced clk t v lo' hi' e e' evs.
Proof. intros ? ? []. split; try done. by eapply stamped_weaken. Qed.

Lemma produced_shift clk k t v lo hi e e' evs :
  produced (skip k clk) t v lo hi e e' evs -> produced clk t v (k + lo) (k + hi) e e' evs.
Proof. intros []. split; try done. by apply stamped_shift. Qed.

Lemma produced_app_shift clk t v lo k n hi e e1 e2 a b :
  produced clk t v lo k e e1 a ->
  produced (skip k clk) t (u64 (v + Z.of_nat (length a))) 0 n e1 e2 b ->
  k + n <= hi -> produced clk t v lo hi e e2 (a ++ b).
Proof.
  intros Ha Hb Hle. eapply produced_app; [exact Ha|]. apply produced_shift in Hb.
  eapply produced_weaken; [..|exact Hb]; lia.
Qed.

(** Without events the state is as it was. *)
Lemma produced_nothing clk t v lo hi e e' : produced clk t v lo hi e e' [] -> e' = e.
Proof. intros [Hr _ _ _]. by injection Hr. Qed.

(** What holds of a command's result: it failed and changed nothing, or it
    produced events that lead from the old state to the new one. *)
Definition outcome (clk : nat -> time_) (t : time_) (v : Z) (lo hi : nat) (e : State)
    (r : State * result (list AnyEvent)) : Prop :=
  match r with
  | (e', inl _) => e' = e
  | (e', inr evs) => produced clk t v lo hi e e' evs
  end.

Lemma outcome_weaken clk t v lo lo' hi hi' e r :
  lo' <= lo -> hi <= hi' -> outcome clk t v lo hi e r -> outcome clk t v lo' hi' e r.
Proof. destruct r as [e' [err|evs]]; [done|]. apply produced_weaken. Qed.

Lemma produced_one clk t v lo k hi e e' ev :
  is_u64 v -> Version ev = v -> EventType ev <> ""%string -> good ev ->
  Timestamp ev = Unix 0 (Time_UnixNano (clk k)) -> lo <= k -> k < hi ->
  handleByEvent t e (loaded ev) = (e', None) -> produced clk t v lo hi e e' [ev].
Proof.
  intros Hv Hver Hty Hgood Hts Hlo Hk Hrep. split.
  - unfold replay_at. cbn [fmap list_fmap handle_loop]. apply String.eqb_neq in Hty.
    change (le_eventType (loaded ev)) with (EventType ev). by rewrite Hty, Hrep.
  - by apply versions_from_singleton.
  - by repeat constructor.
  - apply (stamped_cons _ _ k); [lia|done|]. constructor. lia.
Qed.

(** A handler of one event: it reports an error and changes nothing, or the
    event, replayed at the same time, does what the handler did. *)
Lemma finish_outcome clk t v lo k hi e r ev :
  is_u64 v -> Version ev = v -> EventType ev <> ""%string -> good ev ->
  Timestamp ev = Unix 0 (Time_UnixNano (clk k)) -> lo <= k -> k < hi ->
  (r.2 <> None -> r.1 = e) ->
  handleByEvent t e (loaded ev) = (r.1, None) ->
  outcome clk t v lo hi e (finish r ev).
Proof.
  intros ? ? ? ? ? ? ? Herr Hrep. destruct r as [e' [err|]]; cbn [fst snd finish outcome] in *.
  - by apply Herr.
  - by eapply produced_one.
Qed.

(** What the events of a command preserve, the command preserves. *)
Lemma outcome_invariant (P : State -> Prop) clk t v lo hi e r :
  (forall e ev, good ev -> P e -> P (handleByEvent t e (loaded ev)).1) ->
  outcome clk t v lo hi e r -> P e -> P r.1.
Proof.
  intros Hstep Ho Hp. destruct r as [e' [err|evs]]; cbn [fst outcome] in *; [by rewrite Ho|].
  destruct Ho as [Hr _ Hg _]. eapply replay_at_invariant; [|exact Hp|exact Hr].
  intros e1 ev Hin. apply Hstep. rewrite Forall_forall in Hg. by apply Hg.
Qed.
End outcome.

(** The events that [saveable] asks for: of one aggregate, each with a type. *)
Section saved.
Context {State : Type} `{!UUIDLib}
  (handleByEvent : time_ -> State -> LoadedEvent AnyEvent -> State * option error)
  (aggregateID groupID : string).

Definition of_aggregate (ev : AnyEvent) : Prop :=
  AggregateID ev = aggregateID /\ GroupID ev = groupID /\ EventType ev <> ""%string /\
  ((ServiceID ev).2 = true -> (ServiceID ev).1 <> ""%string ->
   uuid_Parse (ServiceID ev).1 = true).

(** A clock that does not go back and is in the range of the 64-bit count. *)
Definition sane_clock (clk : nat -> time_) : Prop :=
  (forall n, is_i64 (clk n) /\ (0 < clk n)%Z) /\ (forall n, (clk n <= clk (S n))%Z).

Lemma versions_ascending v evs first :
  versions_from v (first :: evs) -> ascending (Version first) 0 (first :: evs).
Proof.
  intros Hv. assert (Hf : Version first = u64 v).
  { rewrite (Hv 0 first) by done. f_equal. lia. }
  intros i ev Hi _. rewrite (Hv _ _ Hi), Hf. unfold u64. by rewrite Zplus_mod_idemp_l.
Qed.

Lemma stamped_saveable clk v lo hi evs :
  sane_clock clk -> uuid_Parse aggregateID = true -> uuid_Parse groupID = true ->
  Forall of_aggregate evs -> versions_from v evs -> stamped clk lo evs hi -> evs <> [] ->
  saveable evs.
Proof.
  intros [Hr Hm] Ha Hg Hof Hv Hst Hne. destruct evs as [|first evs]; [done|].
  assert (Hid := Forall_inv Hof). destruct Hid as (Hfa & Hfg & _).
  cbn [saveable]. rewrite Hfa, Hfg. split_and!; [done|done| |..].
  - eapply Forall_impl; [apply Forall_and; split; [exact Hof|by eapply stamped_nonzero]|].
    intros ev [(? & ? & ? & ?) ?]. by split_and!.
  - by eapply versions_ascending.
  - by eapply stamped_nondecreasing.
Qed.

Lemma one_event_saveable (now : time_) ev :
  is_i64 now -> (0 < now)%Z -> uuid_Parse aggregateID = true -> uuid_Parse groupID = true ->
  is_u64 (Version ev) -> of_aggregate ev -> Timestamp ev = Unix 0 (Time_UnixNano now) ->
  ValidateEventsBeforeSave [Some ev] = None.
Proof.
  intros Hi Hp Ha Hg Hv Hof Hts. apply ValidateEventsBeforeSave_None. exists [ev]. split; [done|].
  apply (stamped_saveable (fun _ => now) (Version ev) 0 1);
    [|done|done|by constructor|by apply versions_from_singleton| |done].
  - split; [done|]. intros _. apply Z.le_refl.
  - apply (stamped_cons _ _ 0); [lia|done|]. by constructor.
Qed.
End saved.
