(* ===== verification/Pendings.v ===== *)
(** * Commands that wait for a confirmation

    What the state of a resource and the metadata of a device share: a list of
    pending commands is searched by correlation identifier, checked for
    duplicates among the commands that have not expired, and cancelled by a loop
    that ranges over the list while its body removes elements in place. *)

From Stdlib Require Import ZArith Lia String.
From S2P Require Import Prelude Commands Events EventStore Handler.

(** The generic function checkForDuplicityCorrelationID: false on a duplicate. *)
Fixpoint checkForDuplicity {T} `{!PendingEvent T} (pes : list T) (correlationID : string)
    (now : time_) : bool :=
  match pes with
  | [] => true
  | pe :: pes =>
      if pe_IsExpired now pe then checkForDuplicity pes correlationID now
      else if String.eqb (pe_CorrelationId pe) correlationID then false
      else checkForDuplicity pes correlationID now
  end.

(** The index of the first command with the correlation identifier; [None] is -1. *)
Fixpoint findResourceOperationPendingIndex {T} `{!PendingEvent T} (correlationID : string)
    (ops : list T) : option nat :=
  match ops with
  | [] => None
  | event :: ops =>
      if String.eqb (pe_CorrelationId event) correlationID then Some 0
      else S <$> findResourceOperationPendingIndex correlationID ops
  end.

(** ** Cancellation of pending commands

    The four functions cancelResource*Pendings and
    CancelPendingMetadataUpdatesRequest are the same loop over a slice of the
    state.  The range expression is evaluated once:
    the loop runs over the array and the length that the slice has at the
    start.  The confirmation it makes removes an element of that slice in
    place, so it changes the array under the loop: [arr] is that array, cell by
    cell, and [n] the iterations left. *)
Section cancel_loop.
Context `{!StringSet} {State T : Type} `{!PendingEvent T} (pendings : State -> gslice T)
  (confirm : time_ -> State -> string -> Z -> State * result (list AnyEvent))
  (correlationIdFilter : kit_Set).

Definition filtered_out (event : T) : bool :=
  negb (set_len correlationIdFilter =? 0)%nat
  && negb (HasOneOf correlationIdFilter (pe_CorrelationId event)).

(** What the removal of the confirmed command does to the array. *)
Definition array_after_confirm (e : State) (correlationID : string) (arr : list T) : list T :=
  match findResourceOperationPendingIndex correlationID (elems (pendings e)) with
  | Some index => remove_in_place index (length (elems (pendings e))) arr
  | None => arr
  end.

Fixpoint cancel_loop (clk : nat -> time_) (newVersion : Z) (n i : nat) (arr : list T)
    (e : State) (events : list AnyEvent) : State * list AnyEvent :=
  match n, arr !! i with
  | S n, Some event =>
      if filtered_out event then cancel_loop clk newVersion n (S i) arr e events
      else
        let correlationID := pe_CorrelationId event in
        let '(e', r) := confirm (clk i) e correlationID
                          (u64 (newVersion + Z.of_nat (length events))) in
        let arr' := array_after_confirm e correlationID arr in
        match r with
        | inr ev => cancel_loop clk newVersion n (S i) arr' e' (events ++ ev)
        | inl _ => cancel_loop clk newVersion n (S i) arr' e' events
        end
  | _, _ => (e, events)
  end.

Definition cancel_range (clk : nat -> time_) (e : State) (newVersion : Z)
    : State * list AnyEvent :=
  let arr := elems (pendings e) in
  cancel_loop clk newVersion (length arr) 0 arr e [].
End cancel_loop.


(** ** Live commands *)
Lemma IsExpired_mono now now' vu :
  (now <= now')%Z -> IsExpired now vu = true -> IsExpired now' vu = true.
Proof.
  unfold IsExpired, After. destruct (IsZero vu); [done|]. intros ? ?. bool_prop.
  apply Z.ltb_lt. lia.
Qed.

Section pendings.
Context {T : Type} `{!PendingEvent T}.
Implicit Types (l : list T) (now : time_).

Definition live now l : list T := filter (fun p => pe_IsExpired now p = false) l.
Definition live_ids now l : list string := pe_CorrelationId <$> live now l.

Lemma live_ids_sublist now l k : l `sublist_of` k -> live_ids now l `sublist_of` live_ids now k.
Proof. intros. by apply sublist_fmap, sublist_filter. Qed.

Lemma live_ids_later now now' l :
  (now <= now')%Z -> live_ids now' l `sublist_of` live_ids now l.
Proof.
  intros Hle. unfold live_ids. apply sublist_fmap. unfold live.
  induction l as [|p l IH]; [done|]. rewrite !filter_cons.
  destruct (decide (pe_IsExpired now' p = false)) as [Hl|Hl];
    destruct (decide (pe_IsExpired now p = false)) as [Hn|Hn]; try by constructor.
  - apply not_false_is_true in Hn. apply (IsExpired_mono _ now') in Hn; [|done].
    unfold pe_IsExpired in *. congruence.
  - done.
Qed.

Lemma live_ids_snoc now l p :
  pe_IsExpired now p = false -> live_ids now (l ++ [p]) = live_ids now l ++ [pe_CorrelationId p].
Proof.
  intros Hp. unfold live_ids, live. rewrite filter_app, fmap_app. f_equal.
  rewrite filter_cons, decide_True by done. done.
Qed.

Lemma checkForDuplicity_true l c now :
  checkForDuplicity l c now = true <-> c ∉ live_ids now l.
Proof.
  unfold live_ids, live. induction l as [|p l IH]; simpl; [split; [set_solver|done]|].
  rewrite filter_cons. destruct (pe_IsExpired now p) eqn:Hp; simpl.
  - done.
  - rewrite not_elem_of_cons.
    destruct (String.eqb_spec (pe_CorrelationId p) c); [naive_solver|]. naive_solver.
Qed.

Lemma findIndex_Some l c i :
  findResourceOperationPendingIndex c l = Some i ->
  exists p, l !! i = Some p /\ pe_CorrelationId p = c /\ i < length l.
Proof.
  revert i. induction l as [|p l IH]; intros i; simpl; [done|].
  destruct (String.eqb_spec (pe_CorrelationId p) c) as [<-|].
  - intros [= <-]. exists p. simpl. split_and!; [done..|lia].
  - intros (j & Hj & ->)%fmap_Some. destruct (IH _ Hj) as (q & ? & ? & ?).
    exists q. simpl. split_and!; [done..|lia].
Qed.

Lemma findIndex_None l c :
  findResourceOperationPendingIndex c l = None <-> c ∉ (pe_CorrelationId <$> l).
Proof.
  induction l as [|p l IH]; simpl; [split; [set_solver|done]|].
  rewrite not_elem_of_cons. destruct (String.eqb_spec (pe_CorrelationId p) c).
  - naive_solver.
  - rewrite fmap_None, IH. naive_solver.
Qed.

(** With distinct identifiers the search finds the element's own place. *)
Lemma findIndex_lookup l i p :
  NoDup (pe_CorrelationId <$> l) -> l !! i = Some p ->
  findResourceOperationPendingIndex (pe_CorrelationId p) l = Some i.
Proof.
  intros Hnd Hi. destruct (findResourceOperationPendingIndex _ _) as [j|] eqn:Hf.
  - apply findIndex_Some in Hf as (q & Hj & Hc & _). f_equal.
    apply (NoDup_lookup _ _ _ (pe_CorrelationId p) Hnd);
      rewrite list_lookup_fmap, ?Hi, ?Hj; simpl; congruence.
  - apply findIndex_None in Hf. destruct Hf.
    apply list_elem_of_fmap. exists p. split; [done|]. by apply list_elem_of_lookup_2 in Hi.
Qed.
End pendings.

(** ** What the loop cancels *)
(** The elements that a loop removing the element it stands on passes over:
    every second one, but never the last. *)
Fixpoint passed_over {A} (l : list A) : list A :=
  match l with
  | _ :: y :: ((_ :: _) as l') => y :: passed_over l'
  | _ => []
  end.

Lemma passed_over_nil {A} (l : list A) : passed_over l = [] <-> length l <= 2.
Proof. destruct l as [|? [|? [|? l]]]; simpl; split; intros; try done; lia. Qed.

Lemma length_passed_over {A} (l : list A) : 2 * length (passed_over l) <= length l.
Proof.
  induction l as [l IH] using (well_founded_induction (well_founded_ltof _ length)).
  destruct l as [|x [|y [|z l]]]; simpl; try lia.
  specialize (IH (z :: l) ltac:(unfold ltof; simpl; lia)). simpl in *. lia.
Qed.

Section loop.
Context `{!StringSet, !StringSetLaws} {State T B : Type} `{!PendingEvent T}
  (pendings : State -> gslice T) (others : State -> B)
  (confirm : time_ -> State -> string -> Z -> State * result (list AnyEvent)).

(** What the loop relies on: the confirmation of a command that waits removes
    the command and, when [one] holds, produces one event; any other one fails
    and changes nothing. *)
Record removes (one : Prop) : Prop := {
  rm_found now e c v i :
    findResourceOperationPendingIndex c (elems (pendings e)) = Some i ->
    exists e' evs, confirm now e c v = (e', inr evs) /\ (one -> length evs = 1) /\
      elems (pendings e') = delete i (elems (pendings e)) /\ others e' = others e;
  rm_missing now e c v :
    findResourceOperationPendingIndex c (elems (pendings e)) = None ->
    exists err, confirm now e c v = (e, inl err) }.

Context (one : Prop) (Hconfirm : removes one).

(** Cells that hold no waiting command change nothing. *)
Lemma cancel_loop_stale flt clk v n i arr e evs :
  Forall (fun p => filtered_out flt p = false ->
    findResourceOperationPendingIndex (pe_CorrelationId p) (elems (pendings e)) = None)
    (drop i arr) ->
  cancel_loop pendings confirm flt clk v n i arr e evs = (e, evs).
Proof.
  revert i. induction n as [|n IH]; intros i Hs; cbn [cancel_loop].
  { by destruct (arr !! i). }
  destruct (arr !! i) as [p|] eqn:Hi; [|done].
  rewrite (drop_S _ _ _ Hi) in Hs. apply Forall_cons in Hs as [Hp Hs].
  destruct (filtered_out flt p); [by apply IH|]. specialize (Hp eq_refl).
  unfold array_after_confirm. rewrite Hp.
  destruct (rm_missing _ Hconfirm (clk i) e (pe_CorrelationId p)
              (u64 (v + Z.of_nat (length evs))) Hp) as [err ->].
  by apply IH.
Qed.

Lemma filtered_out_nil p : filtered_out (MakeSet []) p = false.
Proof.
  unfold filtered_out. destruct (set_len (MakeSet [])) eqn:Hl; [done|].
  assert (set_len (MakeSet []) = 0) by (by apply set_len_MakeSet). lia.
Qed.

(** One step on a cell [i] that holds a waiting command. *)
Lemma cancel_loop_step flt clk v n i kept x rest stale e evs :
  elems (pendings e) = kept ++ x :: rest ->
  NoDup (pe_CorrelationId <$> (kept ++ x :: rest)) ->
  filtered_out flt x = false -> ((kept ++ x :: rest) ++ stale) !! i = Some x ->
  exists e' evs',
    (one -> length evs' = 1) /\ elems (pendings e') = kept ++ rest /\ others e' = others e /\
    cancel_loop pendings confirm flt clk v (S n) i ((kept ++ x :: rest) ++ stale) e evs
    = cancel_loop pendings confirm flt clk v n (S i)
        ((kept ++ rest) ++ default x (last rest) :: stale) e' (evs ++ evs').
Proof.
  intros Hl Hnd Hf Hi. cbn [cancel_loop]. rewrite Hi, Hf.
  assert (Hx : (kept ++ x :: rest) !! length kept = Some x) by by apply list_lookup_middle.
  assert (Hj := findIndex_lookup _ _ _ Hnd Hx). rewrite <- Hl in Hj.
  destruct (rm_found _ Hconfirm (clk i) e (pe_CorrelationId x)
              (u64 (v + Z.of_nat (length evs))) _ Hj) as (e' & evs' & -> & H1 & Hl' & Ho).
  exists e', evs'. split_and!; [done| |done|].
  - rewrite Hl', Hl. apply delete_middle.
  - unfold array_after_confirm. by rewrite Hj, Hl, remove_in_place_middle, <- app_assoc.
Qed.

Lemma not_waiting l k x :
  NoDup (pe_CorrelationId <$> (l ++ x :: k)) ->
  findResourceOperationPendingIndex (pe_CorrelationId x) (l ++ k) = None.
Proof.
  rewrite fmap_app. intros Hnd. apply findIndex_None. rewrite fmap_app.
  apply NoDup_app in Hnd as (_ & Hd & Hnd). apply NoDup_cons in Hnd as [Hx _].
  rewrite elem_of_app. intros [Hin|Hin]; [|done]. apply (Hd _ Hin). by left.
Qed.

(** Without a filter and with distinct identifiers, the loop keeps [kept] and
    leaves of [rest] what it passes over. *)
Lemma cancel_loop_all clk v n kept rest stale e evs :
  elems (pendings e) = kept ++ rest -> NoDup (pe_CorrelationId <$> (kept ++ rest)) ->
  length rest <= n -> Forall (fun p => Some p = last rest) stale ->
  let r := cancel_loop pendings confirm (MakeSet []) clk v n (length kept)
             ((kept ++ rest) ++ stale) e evs in
  elems (pendings r.1) = kept ++ passed_over rest /\ others r.1 = others e /\
  (one -> length r.2 + length (passed_over rest) = length evs + length rest).
Proof.
  revert n kept stale e evs. induction rest as [rest IH] using (well_founded_induction
    (well_founded_ltof _ length)). intros n kept stale e evs Hl Hnd Hn Hst.
  destruct rest as [|x rest].
  - destruct stale as [|p stale]; [|by inversion Hst].
    rewrite cancel_loop_stale; cbn [fst snd passed_over]; [done|].
    by rewrite !app_nil_r, drop_ge.
  - destruct n as [|n]; [simpl in Hn; lia|].
    assert (Hnw := not_waiting _ _ _ Hnd).
    destruct (cancel_loop_step (MakeSet []) clk v n (length kept) kept x rest stale e evs Hl Hnd)
      as (e' & evs' & Hev & Hl' & Ho & ->); [apply filtered_out_nil| |].
    { rewrite <- app_assoc. by apply list_lookup_middle. }
    destruct rest as [|y [|z rest]].
    + rewrite app_nil_r in *. rewrite cancel_loop_stale; cbn [fst snd passed_over].
      * rewrite Hl', length_app, app_nil_r. simpl. split_and!; [done|done|]. intros; rewrite Hev by done; lia.
      * rewrite Hl', drop_S_middle. eapply Forall_impl; [exact Hst|].
        intros p [= ->] _. exact Hnw.
    + destruct n as [|n]; [simpl in Hn; lia|].
      change (default x (last [y])) with y. rewrite fmap_app in Hnd. simpl in Hnd.
      assert (Hnd' : NoDup (pe_CorrelationId <$> (kept ++ [y]))).
      { rewrite fmap_app. apply (sublist_NoDup _ _ Hnd). apply sublist_app; [done|].
        by apply sublist_cons. }
      destruct (cancel_loop_step (MakeSet []) clk v n (S (length kept)) kept y [] (y :: stale)
                  e' (evs ++ evs') Hl' Hnd') as (e2 & ev2 & Hev2 & Hl2 & Ho2 & ->);
        [apply filtered_out_nil| |].
      { rewrite <- app_assoc. simpl. apply lookup_S_middle. }
      rewrite cancel_loop_stale; cbn [fst snd passed_over].
      * rewrite Hl2, app_nil_r, !length_app. simpl. split_and!; [done|congruence|].
        intros; rewrite Hev, Hev2 by done; lia.
      * rewrite Hl2, app_nil_r. simpl. rewrite drop_SS_middle.
        eapply Forall_impl; [exact Hst|]. intros p [= ->] _.
        rewrite <- (app_nil_r kept). by apply not_waiting.
    + assert (Hassoc : kept ++ y :: z :: rest = (kept ++ [y]) ++ z :: rest)
        by by rewrite <- app_assoc.
      replace (S (length kept)) with (length (kept ++ [y])) by (rewrite length_app; simpl; lia).
      rewrite Hassoc in *.
      destruct (IH (z :: rest) ltac:(unfold ltof; simpl; lia) n (kept ++ [y])
                  (default x (last (y :: z :: rest)) :: stale) e' (evs ++ evs'))
        as (H1 & H2 & H3); [done| |simpl in *; lia| |].
      * rewrite <- Hassoc. apply (sublist_NoDup _ _ Hnd), sublist_fmap.
        apply sublist_app; [done|]. by apply sublist_cons.
      * constructor; [|exact Hst]. rewrite !last_cons. by destruct (last rest).
      * cbv zeta. rewrite H1, H2. split_and!; [by rewrite <- app_assoc|done|].
        change (passed_over (x :: y :: z :: rest)) with (y :: passed_over (z :: rest)).
        intros H1'. specialize (H3 H1'). rewrite (length_app evs), Hev in H3 by done.
        cbn [length] in *. lia.
Qed.

(** With a filter that selects one identifier, the loop cancels the command
    with this identifier and no other. *)
Lemma cancel_loop_none flt clk v n i arr e evs :
  Forall (fun p => filtered_out flt p = true) (drop i arr) ->
  cancel_loop pendings confirm flt clk v n i arr e evs = (e, evs).
Proof.
  intros Hf. apply cancel_loop_stale. eapply Forall_impl; [exact Hf|].
  intros p Hp Hp'. simpl in *. congruence.
Qed.

Lemma filtered_out_singleton c p :
  filtered_out (MakeSet [c]) p = false <-> pe_CorrelationId p = c.
Proof.
  unfold filtered_out. destruct (set_len (MakeSet [c])) as [|m] eqn:Hl.
  { by apply set_len_MakeSet in Hl. }
  simpl. rewrite negb_false_iff, HasOneOf_MakeSet. apply list_elem_of_singleton.
Qed.

Lemma cancel_loop_one clk v n kept x rest e :
  elems (pendings e) = kept ++ x :: rest -> NoDup (pe_CorrelationId <$> (kept ++ x :: rest)) ->
  forall i done todo evs, kept = done ++ todo -> i = length done -> length (todo ++ x :: rest) <= n ->
  let r := cancel_loop pendings confirm (MakeSet [pe_CorrelationId x]) clk v n i
             (kept ++ x :: rest) e evs in
  elems (pendings r.1) = kept ++ rest /\ others r.1 = others e /\
  (one -> length r.2 = S (length evs)).
Proof.
  intros Hl Hnd. assert (Hne : Forall (fun p => filtered_out (MakeSet [pe_CorrelationId x]) p = true)
                                 (kept ++ rest)).
  { apply Forall_forall. intros p Hp. apply not_false_is_true. rewrite filtered_out_singleton.
    intros Heq. assert (Hnw := not_waiting _ _ _ Hnd). apply findIndex_None in Hnw.
    apply Hnw. rewrite list_elem_of_fmap. by exists p. }
  intros i dn todo. revert n i dn. induction todo as [|p todo IH]; intros n i dn evs -> -> Hn.
  - rewrite app_nil_r in *. destruct n as [|n]; [simpl in Hn; lia|].
    pose proof (cancel_loop_step (MakeSet [pe_CorrelationId x]) clk v n (length dn) dn x rest []
                  e evs Hl Hnd) as Hstep.
    rewrite app_nil_r in Hstep.
    destruct Hstep as (e' & evs' & Hev & Hl' & Ho & ->); [by apply filtered_out_singleton| |].
    { by apply list_lookup_middle. }
    rewrite cancel_loop_stale; cbn [fst snd].
    + rewrite length_app. simpl. split_and!; [done|done|]. intros; rewrite Hev by done; lia.
    + rewrite Hl'. apply Forall_drop, Forall_app. split.
      { eapply Forall_impl; [exact Hne|]. intros q Hq Hq'. simpl in *. congruence. }
      constructor; [|done]. intros Hq%filtered_out_singleton. rewrite Hq.
      by apply not_waiting.
  - destruct n as [|n]; [simpl in Hn; lia|]. cbn [cancel_loop].
    assert (Hp : ((dn ++ p :: todo) ++ x :: rest) !! length dn = Some p).
    { rewrite <- app_assoc. by apply list_lookup_middle. }
    rewrite Hp.
    apply Forall_app in Hne as [Hne _]. apply Forall_app in Hne as [_ Hne].
    apply Forall_cons in Hne as [-> _].
    replace (S (length dn)) with (length (dn ++ [p])) by (rewrite length_app; simpl; lia).
    apply (IH n _ (dn ++ [p])); [by rewrite <- app_assoc|done|].
    simpl in Hn. lia.
Qed.
End loop.

Section keeps.
Context `{!StringSet, !StringSetLaws}.

(** What a filter keeps of a list: [keeps] of it. *)
Definition range_keeps (flt : list string)
    (keeps : forall T, PendingEvent T -> list T -> list T) : Prop :=
  forall State T B (PE : PendingEvent T) pendings (others : State -> B) confirm one clk e v,
    removes pendings others confirm one -> NoDup (pe_CorrelationId <$> elems (pendings e)) ->
    let r := cancel_range pendings confirm (MakeSet flt) clk e v in
    elems (pendings r.1) = keeps T PE (elems (pendings e)) /\ others r.1 = others e /\
    (one -> length r.2 + length (keeps T PE (elems (pendings e))) = length (elems (pendings e))).

Lemma range_keeps_all : range_keeps [] (fun _ _ => passed_over).
Proof.
  intros State T B PE pendings others confirm one clk e v Hc Hnd. unfold cancel_range.
  pose proof (cancel_loop_all pendings others confirm one Hc clk v (length (elems (pendings e)))
    [] (elems (pendings e)) [] e [] eq_refl Hnd ltac:(done) ltac:(done)) as Ha.
  cbn [app length] in Ha. by rewrite app_nil_r in Ha.
Qed.

Definition without (c : string) : forall T, PendingEvent T -> list T -> list T :=
  fun _ _ => filter (fun p => pe_CorrelationId p <> c).

Lemma without_absent {T} `{!PendingEvent T} c l :
  c ∉ (pe_CorrelationId <$> l) -> without c T _ l = l.
Proof.
  intros Hc. unfold without. induction l as [|p l IH]; [done|].
  rewrite fmap_cons, not_elem_of_cons in Hc. destruct Hc as [Hp Hl].
  rewrite filter_cons_True by done. f_equal. by apply IH.
Qed.

Lemma range_keeps_one c : range_keeps [c] (without c).
Proof.
  intros State T B PE pendings others confirm one clk e v Hc Hnd. unfold cancel_range.
  destruct (decide (c ∈ (pe_CorrelationId <$> elems (pendings e)))) as [Hin|Hin].
  - apply list_elem_of_fmap in Hin as (x & -> & (kept & rest & Hl)%list_elem_of_split).
    rewrite Hl in Hnd.
    destruct (cancel_loop_one pendings others confirm one Hc clk v (length (elems (pendings e)))
      kept x rest e Hl Hnd 0 [] kept [] eq_refl eq_refl) as (H4 & H5 & H6); [by rewrite Hl|].
    rewrite fmap_app in Hnd. apply NoDup_app in Hnd as (_ & Hd & [Hx _]%NoDup_cons).
    assert (Hk : pe_CorrelationId x ∉ (pe_CorrelationId <$> kept)).
    { intros Hk. apply (Hd _ Hk). by left. }
    assert (Hw : without (pe_CorrelationId x) T _ (kept ++ x :: rest) = kept ++ rest).
    { unfold without. rewrite filter_app, filter_cons_False by (intros Hf; by apply Hf).
      by f_equal; apply without_absent. }
    rewrite Hl, Hw in *. split_and!; [done|done|]. intros H1. rewrite H6, !length_app by done. simpl. lia.
  - rewrite without_absent by done. rewrite (cancel_loop_none _ _ _ _ Hc).
    + done.
    + apply Forall_forall. intros p Hp. apply not_false_is_true.
      rewrite filtered_out_singleton. intros <-. apply Hin. apply list_elem_of_fmap. eauto.
Qed.
End keeps.

(** ** What the loop does to the log and to the state *)
Section cancel.
Context `{!StringSet} {State T : Type} `{!PendingEvent T} (pendings : State -> gslice T)
  (confirm : time_ -> State -> string -> Z -> State * result (list AnyEvent)) (flt : kit_Set).

(** What every turn of the loop keeps, the loop keeps: [J i e events] before turn [i]. *)
Lemma cancel_loop_rule (J : nat -> State -> list AnyEvent -> Prop) clk v n i arr e evs :
  (forall i e evs, J i e evs -> J (S i) e evs) ->
  (forall i e evs c, J i e evs ->
     let r := confirm (clk i) e c (u64 (v + Z.of_nat (length evs))) in
     J (S i) r.1 (match r.2 with inr ev => evs ++ ev | inl _ => evs end)) ->
  J i e evs ->
  let r := cancel_loop pendings confirm flt clk v n i arr e evs in J (i + n) r.1 r.2.
Proof.
  cbv zeta. intros Hskip Hstep. revert i arr e evs.
  assert (Hmono : forall k i e evs, J i e evs -> J (i + k) e evs).
  { induction k as [|k IH]; intros i e evs Hj; [by rewrite Nat.add_0_r|].
    rewrite <- Nat.add_succ_comm. by apply IH, Hskip. }
  induction n as [|n IH]; intros i arr e evs Hj; cbn [cancel_loop].
  { rewrite Nat.add_0_r. by destruct (arr !! i). }
  destruct (arr !! i) as [event|]; [|by apply Hmono]. rewrite <- Nat.add_succ_comm.
  destruct (filtered_out flt event); [by apply IH, Hskip|].
  specialize (Hstep i e evs (pe_CorrelationId event) Hj). cbv zeta in Hstep.
  destruct (confirm _ _ _ _) as [e' [err|ev]]; by apply IH.
Qed.

Section produced.
Context `{!UUIDLib}
  (handleByEvent : time_ -> State -> LoadedEvent AnyEvent -> State * option error)
  (good : AnyEvent -> Prop).
#[local] Abbreviation produced := (produced handleByEvent good).
#[local] Abbreviation outcome := (outcome handleByEvent good).

(** [Inv] is what the confirmations rely on and keep. *)
Context (Inv : State -> Prop) (clk : nat -> time_) (t : time_)
  (Hconfirm : forall k e c v, is_u64 v -> Inv e ->
     outcome clk t v k (S k) e (confirm (clk k) e c v) /\ Inv (confirm (clk k) e c v).1).

Lemma cancel_loop_produced v n i arr e0 e evs :
  produced clk t v 0 i e0 e evs -> Inv e ->
  let r := cancel_loop pendings confirm flt clk v n i arr e evs in
  produced clk t v 0 (i + n) e0 r.1 r.2 /\ Inv r.1.
Proof.
  intros Hp Hi. apply (cancel_loop_rule (fun i e evs => produced clk t v 0 i e0 e evs /\ Inv e)); [| |by split].
  - intros j e1 evs1 [Hj He]. split; [|done]. eapply produced_weaken; [..|exact Hj]; lia.
  - intros j e1 evs1 c [Hj He]. cbv zeta. set (v' := u64 _).
    destruct (Hconfirm j e1 c v' (u64_range _) He) as [Hc Hi'].
    destruct (confirm (clk j) e1 c v') as [e2 [err|ev]]; cbn [fst snd outcome] in *; (split; [|done]).
    + subst e2. eapply produced_weaken; [..|exact Hj]; lia.
    + eapply produced_app; [exact Hj|exact Hc].
Qed.

Lemma cancel_range_produced v e :
  Inv e ->
  let r := cancel_range pendings confirm flt clk e v in
  produced clk t v 0 (length (elems (pendings e))) e r.1 r.2 /\ Inv r.1.
Proof. intros Hi. apply (cancel_loop_produced _ _ 0); [by apply produced_nil|done]. Qed.
End produced.

(** A relation that every confirmation satisfies, the loop satisfies. *)
Lemma cancel_loop_relates (R : relation State) `{!PreOrder R} clk v n i arr e evs :
  (forall now e c v, R e (confirm now e c v).1) ->
  R e (cancel_loop pendings confirm flt clk v n i arr e evs).1.
Proof.
  intros Hc. revert i arr e evs. induction n as [|n IH]; intros i arr e evs; cbn [cancel_loop].
  { by destruct (arr !! i). }
  destruct (arr !! i) as [event|]; [|done]. destruct (filtered_out _ _); [apply IH|].
  match goal with |- context [confirm ?a ?b ?c ?d] =>
    specialize (Hc a b c d); destruct (confirm a b c d) as [e' [err|ev]] end;
    (etrans; [exact Hc|apply IH]).
Qed.

(** An equivalence that the confirmations respect, the loop respects. *)
Section respects.
Context (R : relation State) (Hp : Proper (R ==> eq) pendings)
  (Hc : Proper (eq ==> R ==> eq ==> eq ==> prod_relation R eq) confirm).

Lemma cancel_loop_respects clk v n i arr e e' evs :
  R e e' ->
  prod_relation R eq (cancel_loop pendings confirm flt clk v n i arr e evs)
    (cancel_loop pendings confirm flt clk v n i arr e' evs).
Proof.
  revert i arr e e' evs. induction n as [|n IH]; intros i arr e e' evs He; cbn [cancel_loop].
  { destruct (arr !! i); by split. }
  destruct (arr !! i) as [event|]; [|by split]. destruct (filtered_out _ _); [by apply IH|].
  set (v' := u64 _). unfold array_after_confirm. rewrite <- (Hp _ _ He).
  assert (Hb := Hc (clk i) _ eq_refl _ _ He (pe_CorrelationId event) _ eq_refl v' _ eq_refl).
  destruct (confirm (clk i) e _ v') as [e1 r1], (confirm (clk i) e' _ v') as [e2 r2].
  destruct Hb as [Hs Ho]; simpl in *; subst r2. destruct r1; by apply IH.
Qed.

Lemma cancel_range_respects clk v e e' :
  R e e' ->
  prod_relation R eq (cancel_range pendings confirm flt clk e v)
    (cancel_range pendings confirm flt clk e' v).
Proof. intros He. unfold cancel_range. rewrite (Hp _ _ He). by apply cancel_loop_respects. Qed.
End respects.
End cancel.
