(* ===== verification/ResourceState.v ===== *)
(** * The state of a resource

    resource-aggregate/events/resourceStateSnapshotTaken.go: the aggregate of
    one resource.  Its state is the message ResourceStateSnapshotTaken: the last
    reported content and four lists of commands that wait for the device to
    confirm them.  An event handler takes the state and returns the new one with
    the error it reports ([None]: no error); a command handler returns the new
    state with the events it produced or an error.

    Every call of time.Now is an argument: [now] where a function reads the
    clock once, otherwise [clk k] for the [k]-th reading. *)

From Stdlib Require Import ZArith String.
From S2P Require Import Prelude Commands Events EventStore Handler Pendings.

(** The media types of go-coap, and the CBOR and JSON codecs of
    github.com/plgd-dev/kit/v2/codec. *)
Class ContentCodec := {
  MediaType_String : Z -> string;
  AppCBOR : Z; AppOcfCbor : Z; AppJSON : Z;
  codec_value : Type;
  cbor_Encode : codec_value -> result (list byte);
  cbor_Decode : bytes -> result codec_value;
  json_Encode : codec_value -> result (list byte);
  json_Decode : bytes -> result codec_value }.

Definition errResourceChangedNotExists : error := Errorf NotFound "resource changed not exists".

#[local] Abbreviation State := ResourceStateSnapshotTaken.

(** ** Setters *)
Definition set_meta (e : State) (r : option ResourceId) (em : option EventMetadata)
    (ac : option AuditContext) : State :=
  {| rss_ResourceId := r; rss_LatestResourceChange := rss_LatestResourceChange e;
     rss_ResourceCreatePendings := rss_ResourceCreatePendings e;
     rss_ResourceRetrievePendings := rss_ResourceRetrievePendings e;
     rss_ResourceUpdatePendings := rss_ResourceUpdatePendings e;
     rss_ResourceDeletePendings := rss_ResourceDeletePendings e;
     rss_AuditContext := ac; rss_EventMetadata := em;
     rss_ResourceTypes := rss_ResourceTypes e |}.
Definition set_pendings (e : State) c r u d : State :=
  {| rss_ResourceId := rss_ResourceId e; rss_LatestResourceChange := rss_LatestResourceChange e;
     rss_ResourceCreatePendings := c; rss_ResourceRetrievePendings := r;
     rss_ResourceUpdatePendings := u; rss_ResourceDeletePendings := d;
     rss_AuditContext := rss_AuditContext e; rss_EventMetadata := rss_EventMetadata e;
     rss_ResourceTypes := rss_ResourceTypes e |}.
Definition set_LatestResourceChange (e : State) (c : option ResourceChanged) : State :=
  {| rss_ResourceId := rss_ResourceId e; rss_LatestResourceChange := c;
     rss_ResourceCreatePendings := rss_ResourceCreatePendings e;
     rss_ResourceRetrievePendings := rss_ResourceRetrievePendings e;
     rss_ResourceUpdatePendings := rss_ResourceUpdatePendings e;
     rss_ResourceDeletePendings := rss_ResourceDeletePendings e;
     rss_AuditContext := rss_AuditContext e; rss_EventMetadata := rss_EventMetadata e;
     rss_ResourceTypes := rss_ResourceTypes e |}.
Definition set_CreatePendings (e : State) c : State :=
  set_pendings e c (rss_ResourceRetrievePendings e) (rss_ResourceUpdatePendings e)
    (rss_ResourceDeletePendings e).
Definition set_RetrievePendings (e : State) r : State :=
  set_pendings e (rss_ResourceCreatePendings e) r (rss_ResourceUpdatePendings e)
    (rss_ResourceDeletePendings e).
Definition set_UpdatePendings (e : State) u : State :=
  set_pendings e (rss_ResourceCreatePendings e) (rss_ResourceRetrievePendings e) u
    (rss_ResourceDeletePendings e).
Definition set_DeletePendings (e : State) d : State :=
  set_pendings e (rss_ResourceCreatePendings e) (rss_ResourceRetrievePendings e)
    (rss_ResourceUpdatePendings e) d.

Definition setResourceTypes (e : State) (resourceTypes : list string) : State :=
  if (length resourceTypes =? 0)%nat then e
  else {| rss_ResourceId := rss_ResourceId e;
          rss_LatestResourceChange := rss_LatestResourceChange e;
          rss_ResourceCreatePendings := rss_ResourceCreatePendings e;
          rss_ResourceRetrievePendings := rss_ResourceRetrievePendings e;
          rss_ResourceUpdatePendings := rss_ResourceUpdatePendings e;
          rss_ResourceDeletePendings := rss_ResourceDeletePendings e;
          rss_AuditContext := rss_AuditContext e; rss_EventMetadata := rss_EventMetadata e;
          rss_ResourceTypes := resourceTypes |}.

(** ** Events that add a pending command *)
Definition processValidUntil {T} `{!PendingEvent T} (e : State) (v : T) (now : time_)
    : State * bool :=
  if pe_IsExpired now v
  then (set_meta e (pe_ResourceId v) (pe_EventMetadata v) (pe_AuditContext v), false)
  else (e, true).

Definition checkForDuplicityCorrelationID (e : State) (correlationID : string) (now : time_)
    : option error :=
  if negb (checkForDuplicity (elems (rss_ResourceCreatePendings e)) correlationID now) then
    Some (Errorf InvalidArgument "duplicit correlationId('%v') at resource create pendings")
  else if negb (checkForDuplicity (elems (rss_ResourceUpdatePendings e)) correlationID now) then
    Some (Errorf InvalidArgument "duplicit correlationId('%v') at resource update pendings")
  else if negb (checkForDuplicity (elems (rss_ResourceRetrievePendings e)) correlationID now) then
    Some (Errorf InvalidArgument "duplicit correlationId('%v') at resource retrieve pendings")
  else if negb (checkForDuplicity (elems (rss_ResourceDeletePendings e)) correlationID now) then
    Some (Errorf InvalidArgument "duplicit correlationId('%v') at resource delete pendings")
  else None.

Definition handleEventResourceCreatePending (now : time_) (e : State)
    (createPending : ResourceCreatePending) : State * option error :=
  let '(e, ok) := processValidUntil e createPending now in
  if negb ok then (e, None)
  else match checkForDuplicityCorrelationID e
               ((rcp_AuditContext createPending) ~> ac_CorrelationId) now with
  | Some err => (e, Some err)
  | None =>
      let e := set_meta e (rcp_ResourceId createPending) (rcp_EventMetadata createPending)
                 (rcp_AuditContext createPending) in
      let e := set_CreatePendings e (snoc (rss_ResourceCreatePendings e) createPending) in
      (setResourceTypes e (rcp_ResourceTypes createPending), None)
  end.

Definition handleEventResourceUpdatePending (now : time_) (e : State)
    (updatePending : ResourceUpdatePending) : State * option error :=
  let '(e, ok) := processValidUntil e updatePending now in
  if negb ok then (e, None)
  else match checkForDuplicityCorrelationID e
               ((rup_AuditContext updatePending) ~> ac_CorrelationId) now with
  | Some err => (e, Some err)
  | None =>
      let e := set_meta e (rup_ResourceId updatePending) (rup_EventMetadata updatePending)
                 (rup_AuditContext updatePending) in
      let e := set_UpdatePendings e (snoc (rss_ResourceUpdatePendings e) updatePending) in
      (setResourceTypes e (rup_ResourceTypes updatePending), None)
  end.

Definition handleEventResourceRetrievePending (now : time_) (e : State)
    (retrievePending : ResourceRetrievePending) : State * option error :=
  let '(e, ok) := processValidUntil e retrievePending now in
  if negb ok then (e, None)
  else match checkForDuplicityCorrelationID e
               ((rrp_AuditContext retrievePending) ~> ac_CorrelationId) now with
  | Some err => (e, Some err)
  | None =>
      let e := set_meta e (rrp_ResourceId retrievePending) (rrp_EventMetadata retrievePending)
                 (rrp_AuditContext retrievePending) in
      let e := set_RetrievePendings e (snoc (rss_ResourceRetrievePendings e) retrievePending) in
      (setResourceTypes e (rrp_ResourceTypes retrievePending), None)
  end.

Definition handleEventResourceDeletePending (now : time_) (e : State)
    (deletePending : ResourceDeletePending) : State * option error :=
  let '(e, ok) := processValidUntil e deletePending now in
  if negb ok then (e, None)
  else match checkForDuplicityCorrelationID e
               ((rdp_AuditContext deletePending) ~> ac_CorrelationId) now with
  | Some err => (e, Some err)
  | None =>
      let e := set_meta e (rdp_ResourceId deletePending) (rdp_EventMetadata deletePending)
                 (rdp_AuditContext deletePending) in
      let e := set_DeletePendings e (snoc (rss_ResourceDeletePendings e) deletePending) in
      (setResourceTypes e (rdp_ResourceTypes deletePending), None)
  end.

(** ** Events that confirm a pending command *)
Definition handleEventResourceCreated (e : State) (created : ResourceCreated)
    : State * option error :=
  match findResourceOperationPendingIndex ((rcd_AuditContext created) ~> ac_CorrelationId)
          (elems (rss_ResourceCreatePendings e)) with
  | None => (e, Some (Errorf InvalidArgument
      "cannot find resource create pending event with correlationId('%v')"))
  | Some index =>
      let e := set_meta e (rcd_ResourceId created) (rcd_EventMetadata created)
                 (rcd_AuditContext created) in
      let e := set_CreatePendings e (remove_at index (rss_ResourceCreatePendings e)) in
      (setResourceTypes e (rcd_ResourceTypes created), None)
  end.

Definition handleEventResourceUpdated (e : State) (updated : ResourceUpdated)
    : State * option error :=
  match findResourceOperationPendingIndex ((ru_AuditContext updated) ~> ac_CorrelationId)
          (elems (rss_ResourceUpdatePendings e)) with
  | None => (e, Some (Errorf InvalidArgument
      "cannot find resource update pending event with correlationId('%v')"))
  | Some index =>
      let e := set_meta e (ru_ResourceId updated) (ru_EventMetadata updated)
                 (ru_AuditContext updated) in
      let e := set_UpdatePendings e (remove_at index (rss_ResourceUpdatePendings e)) in
      (setResourceTypes e (ru_ResourceTypes updated), None)
  end.

Definition handleEventResourceRetrieved (e : State) (retrieved : ResourceRetrieved)
    : State * option error :=
  match findResourceOperationPendingIndex ((rr_AuditContext retrieved) ~> ac_CorrelationId)
          (elems (rss_ResourceRetrievePendings e)) with
  | None => (e, Some (Errorf InvalidArgument
      "cannot find resource retrieve pending event with correlationId('%v')"))
  | Some index =>
      let e := set_meta e (rr_ResourceId retrieved) (rr_EventMetadata retrieved)
                 (rr_AuditContext retrieved) in
      let e := set_RetrievePendings e (remove_at index (rss_ResourceRetrievePendings e)) in
      (setResourceTypes e (rr_ResourceTypes retrieved), None)
  end.

(** ** Changes of the resource *)
Definition ValidateSequence (e : State) (eventMetadata : option EventMetadata) : bool :=
  if negb (String.eqb (((rss_LatestResourceChange e) ~> rc_EventMetadata) ~> em_ConnectionId)
                      (eventMetadata ~> em_ConnectionId)) then true
  else if (((rss_LatestResourceChange e) ~> rc_EventMetadata) ~> em_Sequence
           <? eventMetadata ~> em_Sequence)%Z then true
  else false.

Definition handleEventResourceChanged (e : State) (changed : ResourceChanged) : State * bool :=
  if bool_decide (rss_LatestResourceChange e = None)
     || (ValidateSequence e (rc_EventMetadata changed)
         && negb (ResourceChanged_Equal (rss_LatestResourceChange e) changed))
  then
    let e := set_meta e (rc_ResourceId changed) (rc_EventMetadata changed)
               (rc_AuditContext changed) in
    let e := set_LatestResourceChange e (Some changed) in
    (setResourceTypes e (rc_ResourceTypes changed), true)
  else (e, false).

Definition findResourceDeletePendingIndex (e : State) (status : Status) (correlationID : string)
    : bool * option nat :=
  if bool_decide (status = Status_OK) || bool_decide (status = Status_ACCEPTED)
  then (true, None)
  else (false, findResourceOperationPendingIndex correlationID
                 (elems (rss_ResourceDeletePendings e))).

Definition handleEventResourceDeleted (e : State) (deleted : ResourceDeleted)
    : State * option error :=
  let '(deleteResource, deletePendingIndex) :=
    findResourceDeletePendingIndex e (rd_Status deleted)
      ((rd_AuditContext deleted) ~> ac_CorrelationId) in
  let finish (e : State) :=
    let e := set_meta e (rd_ResourceId deleted) (rd_EventMetadata deleted)
               (rd_AuditContext deleted) in
    (setResourceTypes e (rd_ResourceTypes deleted), None) in
  if deleteResource then finish (set_pendings e None None None None)
  else match deletePendingIndex with
       | Some index =>
           finish (set_DeletePendings e (remove_at index (rss_ResourceDeletePendings e)))
       | None => (e, Some (Errorf InvalidArgument
           "cannot find resource delete pending event with correlationId('%v')"))
       end.

Definition handleEventResourceStateSnapshotTaken (e snapshot : State) : State :=
  ResourceStateSnapshotTaken_CopyData e snapshot.

(** ** Replay *)
Section replay.
Context `{!UUIDLib} {D : Type}
  `{!Unmarshaler D ResourceStateSnapshotTaken} `{!Unmarshaler D ResourceUpdatePending}
  `{!Unmarshaler D ResourceUpdated} `{!Unmarshaler D ResourceCreatePending}
  `{!Unmarshaler D ResourceCreated} `{!Unmarshaler D ResourceChanged}
  `{!Unmarshaler D ResourceDeleted} `{!Unmarshaler D ResourceDeletePending}
  `{!Unmarshaler D ResourceRetrieved} `{!Unmarshaler D ResourceRetrievePending}.

Definition handleByEvent (now : time_) (e : State) (eu : LoadedEvent D)
    : State * option error :=
  let ty := le_eventType eu in
  if String.eqb ty "resourcestatesnapshottaken" then
    unmarshal_case e eu (handleEventResourceStateSnapshotTaken e)
  else if String.eqb ty "resourceupdatepending" then
    unmarshal_case e eu (fun s => (handleEventResourceUpdatePending now e s).1)
  else if String.eqb ty "resourceupdated" then
    unmarshal_case e eu (fun s => (handleEventResourceUpdated e s).1)
  else if String.eqb ty "resourcecreatepending" then
    unmarshal_case e eu (fun s => (handleEventResourceCreatePending now e s).1)
  else if String.eqb ty "resourcecreated" then
    unmarshal_case e eu (fun s => (handleEventResourceCreated e s).1)
  else if String.eqb ty "resourcechanged" then
    unmarshal_case e eu (fun s => (handleEventResourceChanged e s).1)
  else if String.eqb ty "resourcedeleted" then
    unmarshal_case e eu (fun s => (handleEventResourceDeleted e s).1)
  else if String.eqb ty "resourcedeletepending" then
    unmarshal_case e eu (fun s => (handleEventResourceDeletePending now e s).1)
  else if String.eqb ty "resourceretrieved" then
    unmarshal_case e eu (fun s => (handleEventResourceRetrieved e s).1)
  else if String.eqb ty "resourceretrievepending" then
    unmarshal_case e eu (fun s => (handleEventResourceRetrievePending now e s).1)
  else (e, None).

Definition Handle := handle_loop handleByEvent.
End replay.

(** ** Commands *)
Section commands.
Context `{!UUIDLib} `{!StringSet} `{!ContentCodec} (cc : CommandContext).

Definition resolveResourceTypes (e : State) (href : string) (resourceTypes : list string)
    : list string :=
  if (0 <? length resourceTypes)%nat then resourceTypes
  else match cc_resourceLinks cc with
       | None => rss_ResourceTypes e
       | Some links =>
           let resources : gmap string Resource := default ∅ (rls_Resources links) in
           if (size resources =? 0)%nat then rss_ResourceTypes e
           else match resources !! href with
                | None => rss_ResourceTypes e
                | Some link => res_ResourceTypes link
                end
       end.

(** The target format and its encoder, for the supported content types that
    the switch knows; the first case (same type) is in [convertContent]. *)
Definition encoder (supportedContentType : string)
    : option ((codec_value -> result (list byte)) * Z) :=
  if String.eqb supportedContentType (MediaType_String AppCBOR) then Some (cbor_Encode, AppCBOR)
  else if String.eqb supportedContentType (MediaType_String AppOcfCbor) then
    Some (cbor_Encode, AppOcfCbor)
  else if String.eqb supportedContentType (MediaType_String AppJSON) then
    Some (json_Encode, AppJSON)
  else None.

Definition decoder (contentType : string) : option (bytes -> result codec_value) :=
  if String.eqb contentType (MediaType_String AppCBOR)
     || String.eqb contentType (MediaType_String AppOcfCbor) then Some cbor_Decode
  else if String.eqb contentType (MediaType_String AppJSON) then Some json_Decode
  else None.

Definition convertContent (content : option Content) (supportedContentType : string)
    : result (option Content) :=
  let contentType := content ~> ct_ContentType in
  let contentType :=
    if (0 <=? content ~> ct_CoapContentFormat)%Z && String.eqb contentType ""
    then MediaType_String (content ~> ct_CoapContentFormat) else contentType in
  let supportedContentType :=
    if String.eqb supportedContentType "" then contentType else supportedContentType in
  if String.eqb supportedContentType contentType then inr content
  else match encoder supportedContentType with
  | None => inl (Errorf InvalidArgument "cannot convert content-type from %v: unknown target")
  | Some (encode, coapContentFormat) =>
      match decoder contentType with
      | None =>
          inl (Errorf InvalidArgument "cannot convert content-type from %v: unsupported source")
      | Some decode =>
          match decode (content ~> ct_Data) with
          | inl _ => inl (Errorf InvalidArgument "cannot decode content data from %v: %v")
          | inr m =>
              match encode m with
              | inl _ => inl (Errorf InvalidArgument "cannot encode content data to %v: %v")
              | inr data =>
                  inr (Some (MkContent (Some data) (MediaType_String coapContentFormat)
                               coapContentFormat))
              end
          end
      end
  end.

(** *** Confirmations *)
Definition confirmResourceUpdateRequest (now : time_) (e : State)
    (req : ConfirmResourceUpdateRequest) (newVersion : Z) : State * result (list AnyEvent) :=
  match cur_CommandMetadata req with
  | None => (e, inl errInvalidCommandMetadata)
  | Some _ =>
      let rc := {|
        ru_ResourceId := cur_ResourceId req;
        ru_AuditContext := Some (command_audit cc (cur_CorrelationId req));
        ru_EventMetadata := Some (command_meta cc now (cur_CommandMetadata req) newVersion);
        ru_Content := cur_Content req; ru_Status := cur_Status req;
        ru_OpenTelemetryCarrier := cc_trace cc;
        ru_ResourceTypes := resolveResourceTypes e ((cur_ResourceId req) ~> rid_Href) [] |} in
      finish (handleEventResourceUpdated e rc) (EvResourceUpdated rc)
  end.

Definition confirmResourceRetrieveRequest (now : time_) (e : State)
    (req : ConfirmResourceRetrieveRequest) (newVersion : Z) : State * result (list AnyEvent) :=
  match ctr_CommandMetadata req with
  | None => (e, inl errInvalidCommandMetadata)
  | Some _ =>
      let rc := {|
        rr_ResourceId := ctr_ResourceId req;
        rr_AuditContext := Some (command_audit cc (ctr_CorrelationId req));
        rr_EventMetadata := Some (command_meta cc now (ctr_CommandMetadata req) newVersion);
        rr_Content := ctr_Content req; rr_Status := ctr_Status req;
        rr_OpenTelemetryCarrier := cc_trace cc; rr_Etag := ctr_Etag req;
        rr_ResourceTypes := resolveResourceTypes e ((ctr_ResourceId req) ~> rid_Href) [] |} in
      finish (handleEventResourceRetrieved e rc) (EvResourceRetrieved rc)
  end.

Definition confirmResourceDeleteRequest (now : time_) (e : State)
    (req : ConfirmResourceDeleteRequest) (newVersion : Z) : State * result (list AnyEvent) :=
  match cdr_CommandMetadata req with
  | None => (e, inl errInvalidCommandMetadata)
  | Some _ =>
      let rc := {|
        rd_ResourceId := cdr_ResourceId req;
        rd_AuditContext := Some (command_audit cc (cdr_CorrelationId req));
        rd_EventMetadata := Some (command_meta cc now (cdr_CommandMetadata req) newVersion);
        rd_Content := cdr_Content req; rd_Status := cdr_Status req;
        rd_OpenTelemetryCarrier := cc_trace cc;
        rd_ResourceTypes := resolveResourceTypes e ((cdr_ResourceId req) ~> rid_Href) [] |} in
      finish (handleEventResourceDeleted e rc) (EvResourceDeleted rc)
  end.

Definition confirmResourceCreateRequest (now : time_) (e : State)
    (req : ConfirmResourceCreateRequest) (newVersion : Z) : State * result (list AnyEvent) :=
  match ccr_CommandMetadata req with
  | None => (e, inl errInvalidCommandMetadata)
  | Some _ =>
      let rc := {|
        rcd_ResourceId := ccr_ResourceId req;
        rcd_AuditContext := Some (command_audit cc (ccr_CorrelationId req));
        rcd_EventMetadata := Some (command_meta cc now (ccr_CommandMetadata req) newVersion);
        rcd_Content := ccr_Content req; rcd_Status := ccr_Status req;
        rcd_OpenTelemetryCarrier := cc_trace cc;
        rcd_ResourceTypes := resolveResourceTypes e ((ccr_ResourceId req) ~> rid_Href) [] |} in
      finish (handleEventResourceCreated e rc) (EvResourceCreated rc)
  end.

(** *** Cancellation of pending commands *)
Definition cancelResourceCreatePendings (clk : nat -> time_) (e : State)
    (req : CancelPendingCommandsRequest) (newVersion : Z) : State * list AnyEvent :=
  cancel_range rss_ResourceCreatePendings
    (fun now e correlationID =>
       confirmResourceCreateRequest now e
         (MkConfirmResourceCreateRequest (cpr_ResourceId req) correlationID Status_CANCELED
            None (cpr_CommandMetadata req)))
    (MakeSet (cpr_CorrelationIdFilter req)) clk e newVersion.

Definition cancelResourceUpdatePendings (clk : nat -> time_) (e : State)
    (req : CancelPendingCommandsRequest) (newVersion : Z) : State * list AnyEvent :=
  cancel_range rss_ResourceUpdatePendings
    (fun now e correlationID =>
       confirmResourceUpdateRequest now e
         (MkConfirmResourceUpdateRequest (cpr_ResourceId req) correlationID Status_CANCELED
            None (cpr_CommandMetadata req)))
    (MakeSet (cpr_CorrelationIdFilter req)) clk e newVersion.

Definition cancelResourceRetrievePendings (clk : nat -> time_) (e : State)
    (req : CancelPendingCommandsRequest) (newVersion : Z) : State * list AnyEvent :=
  cancel_range rss_ResourceRetrievePendings
    (fun now e correlationID =>
       confirmResourceRetrieveRequest now e
         (MkConfirmResourceRetrieveRequest (cpr_ResourceId req) correlationID Status_CANCELED
            None (cpr_CommandMetadata req) None))
    (MakeSet (cpr_CorrelationIdFilter req)) clk e newVersion.

Definition cancelResourceDeletePendings (clk : nat -> time_) (e : State)
    (req : CancelPendingCommandsRequest) (newVersion : Z) : State * list AnyEvent :=
  cancel_range rss_ResourceDeletePendings
    (fun now e correlationID =>
       confirmResourceDeleteRequest now e
         (MkConfirmResourceDeleteRequest (cpr_ResourceId req) correlationID Status_CANCELED
            None (cpr_CommandMetadata req)))
    (MakeSet (cpr_CorrelationIdFilter req)) clk e newVersion.

(** [clk] counts on through the four loops: [skip] moves it past the readings
    of the loops before. *)
Definition CancelPendingCommandsRequest_ (clk : nat -> time_) (e : State)
    (req : CancelPendingCommandsRequest) (newVersion : Z) : State * result (list AnyEvent) :=
  match cpr_CommandMetadata req with
  | None => (e, inl errInvalidCommandMetadata)
  | Some _ =>
      let k1 := length (elems (rss_ResourceCreatePendings e)) in
      let k2 := k1 + length (elems (rss_ResourceUpdatePendings e)) in
      let k3 := k2 + length (elems (rss_ResourceRetrievePendings e)) in
      let next (events : list AnyEvent) := u64 (newVersion + Z.of_nat (length events)) in
      let '(e, events) := cancelResourceCreatePendings clk e req newVersion in
      let '(e, ev) := cancelResourceUpdatePendings (skip k1 clk) e req (next events) in
      let events := events ++ ev in
      let '(e, ev) := cancelResourceRetrievePendings (skip k2 clk) e req (next events) in
      let events := events ++ ev in
      let '(e, ev) := cancelResourceDeletePendings (skip k3 clk) e req (next events) in
      let events := events ++ ev in
      if (length events =? 0)%nat
      then (e, inl (Errorf NotFound "cannot find commands with correlationID(%v)"))
      else (e, inr events)
  end.

(** *** New commands *)
Definition handleNotifyResourceChangedRequest (now : time_) (e : State)
    (req : NotifyResourceChangedRequest) (newVersion : Z) : State * result (list AnyEvent) :=
  match ncr_CommandMetadata req with
  | None => (e, inl errInvalidCommandMetadata)
  | Some _ =>
      let rc := {|
        rc_ResourceId := ncr_ResourceId req; rc_AuditContext := Some (command_audit cc "");
        rc_EventMetadata := Some (command_meta cc now (ncr_CommandMetadata req) newVersion);
        rc_Content := ncr_Content req; rc_Status := ncr_Status req;
        rc_OpenTelemetryCarrier := cc_trace cc; rc_Etag := ncr_Etag req;
        rc_ResourceTypes := resolveResourceTypes e ((ncr_ResourceId req) ~> rid_Href)
                              (ncr_ResourceTypes req) |} in
      match handleEventResourceChanged e rc with
      | (e, true) => (e, inr [EvResourceChanged rc])
      | (e, false) => (e, inr [])
      end
  end.

(** The content type that the resource reported last. *)
Definition latestContentType (e : State) : string :=
  ((rss_LatestResourceChange e) ~> rc_Content) ~> ct_ContentType.

Definition handleUpdateResourceRequest (clk : nat -> time_) (e : State)
    (req : UpdateResourceRequest) (newVersion : Z) : State * result (list AnyEvent) :=
  match urr_CommandMetadata req with
  | None => (e, inl errInvalidCommandMetadata)
  | Some _ =>
      let em := command_meta cc (clk 0) (urr_CommandMetadata req) newVersion in
      match convertContent (urr_Content req) (latestContentType e) with
      | inl err => (e, inl err)
      | inr content =>
          let rc := {|
            rup_ResourceId := urr_ResourceId req;
            rup_ResourceInterface := urr_ResourceInterface req;
            rup_AuditContext := Some (command_audit cc (urr_CorrelationId req));
            rup_EventMetadata := Some em; rup_Content := content;
            rup_ValidUntil := timeToLive2ValidUntil (clk 1) (urr_TimeToLive req);
            rup_OpenTelemetryCarrier := cc_trace cc;
            rup_ResourceTypes := resolveResourceTypes e ((urr_ResourceId req) ~> rid_Href) [] |} in
          finish (handleEventResourceUpdatePending (clk 2) e rc) (EvResourceUpdatePending rc)
      end
  end.

Definition handleRetrieveResourceRequest (clk : nat -> time_) (e : State)
    (req : RetrieveResourceRequest) (newVersion : Z) : State * result (list AnyEvent) :=
  match rrr_CommandMetadata req with
  | None => (e, inl errInvalidCommandMetadata)
  | Some _ =>
      let rc := {|
        rrp_ResourceId := rrr_ResourceId req;
        rrp_ResourceInterface := rrr_ResourceInterface req;
        rrp_AuditContext := Some (command_audit cc (rrr_CorrelationId req));
        rrp_EventMetadata := Some (command_meta cc (clk 0) (rrr_CommandMetadata req) newVersion);
        rrp_ValidUntil := timeToLive2ValidUntil (clk 1) (rrr_TimeToLive req);
        rrp_OpenTelemetryCarrier := cc_trace cc; rrp_Etag := rrr_Etag req;
        rrp_ResourceTypes := resolveResourceTypes e ((rrr_ResourceId req) ~> rid_Href) [] |} in
      finish (handleEventResourceRetrievePending (clk 2) e rc) (EvResourceRetrievePending rc)
  end.

Definition handleDeleteResourceRequest (clk : nat -> time_) (e : State)
    (req : DeleteResourceRequest) (newVersion : Z) : State * result (list AnyEvent) :=
  match drr_CommandMetadata req with
  | None => (e, inl errInvalidCommandMetadata)
  | Some _ =>
      let rc := {|
        rdp_ResourceId := drr_ResourceId req;
        rdp_AuditContext := Some (command_audit cc (drr_CorrelationId req));
        rdp_EventMetadata := Some (command_meta cc (clk 0) (drr_CommandMetadata req) newVersion);
        rdp_ValidUntil := timeToLive2ValidUntil (clk 1) (drr_TimeToLive req);
        rdp_ResourceInterface := drr_ResourceInterface req;
        rdp_OpenTelemetryCarrier := cc_trace cc;
        rdp_ResourceTypes := resolveResourceTypes e ((drr_ResourceId req) ~> rid_Href) [] |} in
      finish (handleEventResourceDeletePending (clk 2) e rc) (EvResourceDeletePending rc)
  end.

Definition handleCreateResourceRequest (clk : nat -> time_) (e : State)
    (req : CreateResourceRequest) (newVersion : Z) : State * result (list AnyEvent) :=
  match crr_CommandMetadata req with
  | None => (e, inl errInvalidCommandMetadata)
  | Some _ =>
      let em := command_meta cc (clk 0) (crr_CommandMetadata req) newVersion in
      match convertContent (crr_Content req) (latestContentType e) with
      | inl err => (e, inl err)
      | inr content =>
          let rc := {|
            rcp_ResourceId := crr_ResourceId req; rcp_Content := content;
            rcp_AuditContext := Some (command_audit cc (crr_CorrelationId req));
            rcp_EventMetadata := Some em;
            rcp_ValidUntil := timeToLive2ValidUntil (clk 1) (crr_TimeToLive req);
            rcp_OpenTelemetryCarrier := cc_trace cc;
            rcp_ResourceTypes := resolveResourceTypes e ((crr_ResourceId req) ~> rid_Href) [] |} in
          finish (handleEventResourceCreatePending (clk 2) e rc) (EvResourceCreatePending rc)
      end
  end.

(** *** The dispatch *)
Definition validateCancelPendingCommandsForNotExistingResource (e : State)
    (req : CancelPendingCommandsRequest) : bool :=
  if (length (elems (rss_ResourceUpdatePendings e)) =? 0)%nat
     && (length (elems (rss_ResourceCreatePendings e)) =? 0)%nat
     && (length (elems (rss_ResourceDeletePendings e)) =? 0)%nat then false
  else if (length (cpr_CorrelationIdFilter req) =? 0)%nat then true
  else
    let correlationIdFilter := MakeSet (cpr_CorrelationIdFilter req) in
    existsb (fun ev => HasOneOf correlationIdFilter (pe_CorrelationId ev))
      (elems (rss_ResourceUpdatePendings e))
    || existsb (fun ev => HasOneOf correlationIdFilter (pe_CorrelationId ev))
         (elems (rss_ResourceCreatePendings e))
    || existsb (fun ev => HasOneOf correlationIdFilter (pe_CorrelationId ev))
         (elems (rss_ResourceDeletePendings e)).

Definition validateCommandForNotExistingResource (e : State) (cmd : Command) : bool :=
  match rss_LatestResourceChange e with
  | Some _ => true
  | None =>
      match cmd with
      | CmdNotifyResourceChanged _ => true
      | CmdUpdateResource req => urr_Force req
      | CmdConfirmResourceUpdate req =>
          bool_decide (is_Some (findResourceOperationPendingIndex (cur_CorrelationId req)
                                  (elems (rss_ResourceUpdatePendings e))))
      | CmdCreateResource req => crr_Force req
      | CmdConfirmResourceCreate req =>
          bool_decide (is_Some (findResourceOperationPendingIndex (ccr_CorrelationId req)
                                  (elems (rss_ResourceCreatePendings e))))
      | CmdDeleteResource req => drr_Force req
      | CmdConfirmResourceDelete req =>
          let '(deleteResource, deletePending) :=
            findResourceDeletePendingIndex e (cdr_Status req) (cdr_CorrelationId req) in
          deleteResource || bool_decide (is_Some deletePending)
      | CmdCancelPendingCommands req =>
          validateCancelPendingCommandsForNotExistingResource e req
      | _ => false
      end
  end.

Definition HandleCommand (clk : nat -> time_) (e : State) (cmd : Command) (newVersion : Z)
    : State * result (list AnyEvent) :=
  if negb (validateCommandForNotExistingResource e cmd)
  then (e, inl errResourceChangedNotExists)
  else match cmd with
  | CmdNotifyResourceChanged req =>
      handleNotifyResourceChangedRequest (clk 0) e req newVersion
  | CmdUpdateResource req => handleUpdateResourceRequest clk e req newVersion
  | CmdConfirmResourceUpdate req => confirmResourceUpdateRequest (clk 0) e req newVersion
  | CmdRetrieveResource req => handleRetrieveResourceRequest clk e req newVersion
  | CmdConfirmResourceRetrieve req => confirmResourceRetrieveRequest (clk 0) e req newVersion
  | CmdDeleteResource req => handleDeleteResourceRequest clk e req newVersion
  | CmdConfirmResourceDelete req => confirmResourceDeleteRequest (clk 0) e req newVersion
  | CmdCreateResource req => handleCreateResourceRequest clk e req newVersion
  | CmdConfirmResourceCreate req => confirmResourceCreateRequest (clk 0) e req newVersion
  | CmdCancelPendingCommands req => CancelPendingCommandsRequest_ clk e req newVersion
  | _ => (e, inl (errors_New "unknown command(%T)"))
  end.
End commands.

Definition TakeSnapshot (now : time_) (e : State) (version : Z) : State :=
  {| rss_ResourceId := rss_ResourceId e; rss_LatestResourceChange := rss_LatestResourceChange e;
     rss_EventMetadata :=
       Some (MakeEventMeta now ((rss_EventMetadata e) ~> em_ConnectionId)
               ((rss_EventMetadata e) ~> em_Sequence) version
               ((rss_EventMetadata e) ~> em_HubId));
     rss_ResourceCreatePendings := rss_ResourceCreatePendings e;
     rss_ResourceUpdatePendings := rss_ResourceUpdatePendings e;
     rss_ResourceRetrievePendings := rss_ResourceRetrievePendings e;
     rss_ResourceDeletePendings := rss_ResourceDeletePendings e;
     rss_AuditContext := rss_AuditContext e; rss_ResourceTypes := rss_ResourceTypes e |}.

Definition NewResourceStateSnapshotTaken : State :=
  {| rss_ResourceId := None; rss_LatestResourceChange := None;
     rss_ResourceCreatePendings := None; rss_ResourceRetrievePendings := None;
     rss_ResourceUpdatePendings := None; rss_ResourceDeletePendings := None;
     rss_AuditContext := None; rss_EventMetadata := Some (MkEventMetadata 0 0 "" 0 "");
     rss_ResourceTypes := [] |}.
