(* ===== verification/ResourceStateFacts.v ===== *)
(** * Properties of the state of a resource

    Theorems about ResourceState: no two live commands of a resource share a
    correlation identifier; a command that fails changes nothing and the events
    of one that succeeds rebuild the new state (so that the log and the state
    cannot diverge); the versions of these events; the order in which changes
    of a resource are accepted; what cancelling commands does. *)

From Stdlib Require Import ZArith String.
From S2P Require Import Prelude Commands Events EventStore Handler Pendings ResourceState.

#[local] Abbreviation State := ResourceStateSnapshotTaken.

(** The correlation identifiers of all commands that have not expired. *)
Definition all_live_ids (now : time_) (e : State) : list string :=
  live_ids now (elems (rss_ResourceCreatePendings e))
  ++ live_ids now (elems (rss_ResourceUpdatePendings e))
  ++ live_ids now (elems (rss_ResourceRetrievePendings e))
  ++ live_ids now (elems (rss_ResourceDeletePendings e)).

Definition unique_live_ids (now : time_) (e : State) : Prop := NoDup (all_live_ids now e).

(** Expiration only removes identifiers. *)
Lemma unique_live_ids_later now now' e :
  (now <= now')%Z -> unique_live_ids now e -> unique_live_ids now' e.
Proof.
  intros Hle Hn. apply (sublist_NoDup _ _ Hn). unfold all_live_ids.
  repeat apply sublist_app; by apply live_ids_later.
Qed.

(** [e'] has no command that [e] does not have. *)
Record fewer_pendings (e e' : State) : Prop := {
  fp_create : elems (rss_ResourceCreatePendings e') `sublist_of` elems (rss_ResourceCreatePendings e);
  fp_update : elems (rss_ResourceUpdatePendings e') `sublist_of` elems (rss_ResourceUpdatePendings e);
  fp_retrieve :
    elems (rss_ResourceRetrievePendings e') `sublist_of` elems (rss_ResourceRetrievePendings e);
  fp_delete :
    elems (rss_ResourceDeletePendings e') `sublist_of` elems (rss_ResourceDeletePendings e) }.

#[export] Instance fewer_pendings_preorder : PreOrder fewer_pendings.
Proof.
  split.
  - intros e. by split.
  - intros e1 e2 e3 [] []. split; by etrans.
Qed.

Lemma fewer_pendings_unique now e e' :
  fewer_pendings e e' -> unique_live_ids now e -> unique_live_ids now e'.
Proof.
  intros [] Hn. apply (sublist_NoDup _ _ Hn). unfold all_live_ids.
  repeat apply sublist_app; by apply live_ids_sublist.
Qed.

(** The parts of the state that only carry data along. *)
Lemma setResourceTypes_pendings e l : fewer_pendings e (setResourceTypes e l).
Proof. unfold setResourceTypes. by case_match. Qed.
Lemma set_meta_pendings e r em ac : fewer_pendings e (set_meta e r em ac).
Proof. done. Qed.
Lemma all_live_ids_setResourceTypes now e l :
  all_live_ids now (setResourceTypes e l) = all_live_ids now e.
Proof. unfold setResourceTypes. by case_match. Qed.
Lemma setResourceTypes_latest e l :
  rss_LatestResourceChange (setResourceTypes e l) = rss_LatestResourceChange e.
Proof. unfold setResourceTypes. by case_match. Qed.

#[export] Hint Resolve setResourceTypes_pendings set_meta_pendings : hub.
#[export] Hint Extern 0 (sublist _ _) => reflexivity : hub.

#[export] Hint Resolve sublist_delete sublist_nil_l : hub.

(** ** Uniqueness of live correlation identifiers *)
Lemma checkForDuplicityCorrelationID_None e c now :
  checkForDuplicityCorrelationID e c now = None <-> c ∉ all_live_ids now e.
Proof.
  unfold checkForDuplicityCorrelationID, all_live_ids. rewrite !not_elem_of_app.
  rewrite <- !checkForDuplicity_true.
  destruct (checkForDuplicity (elems (rss_ResourceCreatePendings e)) c now),
    (checkForDuplicity (elems (rss_ResourceUpdatePendings e)) c now),
    (checkForDuplicity (elems (rss_ResourceRetrievePendings e)) c now),
    (checkForDuplicity (elems (rss_ResourceDeletePendings e)) c now); naive_solver.
Qed.

(** The two things a handler can do to the pending commands: drop some, or add
    one whose identifier is not in use. *)
Inductive pendings_change (now : time_) (e e' : State) : Prop :=
  | change_fewer : fewer_pendings e e' -> pendings_change now e e'
  | change_added id :
      id ∉ all_live_ids now e ->
      all_live_ids now e' ≡ₚ id :: all_live_ids now e -> pendings_change now e e'.

Lemma pendings_change_unique now e e' :
  pendings_change now e e' -> unique_live_ids now e -> unique_live_ids now e'.
Proof.
  intros [Hf|id Hid Hp] Hn; [by eapply fewer_pendings_unique|].
  unfold unique_live_ids. rewrite Hp. by constructor.
Qed.

(** All four handlers of a new command have this shape. *)
Ltac pending_change :=
  match goal with |- context [processValidUntil ?e ?p ?now] =>
    unfold processValidUntil; destruct (pe_IsExpired now p) eqn:?; simpl;
    [left; auto with hub|];
    destruct (checkForDuplicityCorrelationID _ _ _) eqn:Hdup; simpl; [left; reflexivity|];
    apply checkForDuplicityCorrelationID_None in Hdup;
    apply (change_added _ _ _ _ Hdup);
    rewrite all_live_ids_setResourceTypes; unfold all_live_ids; simpl;
    rewrite live_ids_snoc by done; unfold pe_CorrelationId; simpl;
    rewrite <- ?app_assoc; simpl; rewrite <- ?Permutation_middle; rewrite ?app_nil_r; reflexivity
  end.

Lemma handleEventResourceCreatePending_change now e p :
  pendings_change now e (handleEventResourceCreatePending now e p).1.
Proof. unfold handleEventResourceCreatePending. pending_change. Qed.
Lemma handleEventResourceUpdatePending_change now e p :
  pendings_change now e (handleEventResourceUpdatePending now e p).1.
Proof. unfold handleEventResourceUpdatePending. pending_change. Qed.
Lemma handleEventResourceRetrievePending_change now e p :
  pendings_change now e (handleEventResourceRetrievePending now e p).1.
Proof. unfold handleEventResourceRetrievePending. pending_change. Qed.
Lemma handleEventResourceDeletePending_change now e p :
  pendings_change now e (handleEventResourceDeletePending now e p).1.
Proof. unfold handleEventResourceDeletePending. pending_change. Qed.

(** Confirmations only remove. *)
Ltac confirm_fewer :=
  cases_goal; (etrans; [|apply setResourceTypes_pendings]); split; simpl; auto with hub.

Lemma handleEventResourceCreated_fewer e c :
  fewer_pendings e (handleEventResourceCreated e c).1.
Proof. unfold handleEventResourceCreated. confirm_fewer. Qed.
Lemma handleEventResourceUpdated_fewer e c :
  fewer_pendings e (handleEventResourceUpdated e c).1.
Proof. unfold handleEventResourceUpdated. confirm_fewer. Qed.
Lemma handleEventResourceRetrieved_fewer e c :
  fewer_pendings e (handleEventResourceRetrieved e c).1.
Proof. unfold handleEventResourceRetrieved. confirm_fewer. Qed.
Lemma handleEventResourceDeleted_fewer e c :
  fewer_pendings e (handleEventResourceDeleted e c).1.
Proof.
  unfold handleEventResourceDeleted, findResourceDeletePendingIndex.
  confirm_fewer.
Qed.
Lemma handleEventResourceChanged_fewer e c :
  fewer_pendings e (handleEventResourceChanged e c).1.
Proof. unfold handleEventResourceChanged. confirm_fewer. Qed.
#[export] Hint Resolve handleEventResourceCreated_fewer handleEventResourceUpdated_fewer
  handleEventResourceRetrieved_fewer handleEventResourceDeleted_fewer
  handleEventResourceChanged_fewer handleEventResourceCreatePending_change
  handleEventResourceUpdatePending_change handleEventResourceRetrievePending_change
  handleEventResourceDeletePending_change change_fewer : hub.

(** ** The events of a command *)
Section outcome.
Context `{!UUIDLib} `{!StringSet} `{!ContentCodec} (cc : CommandContext).

(** The events of a command on the resource [rid]. *)
Definition of_resource (rid : option ResourceId) (ev : AnyEvent) : Prop :=
  of_aggregate (ResourceId_ToUUID rid) (rid ~> rid_DeviceId) ev /\ IsSnapshot ev = false.

#[local] Abbreviation outcome clk t v rid :=
  (Handler.outcome handleByEvent (of_resource rid) clk t v).
#[local] Abbreviation produced clk t v rid :=
  (Handler.produced handleByEvent (of_resource rid) clk t v).

(** *** Handlers leave the state alone when they report an error *)
Lemma handleEventResourceCreatePending_err now e p :
  (handleEventResourceCreatePending now e p).2 <> None ->
  (handleEventResourceCreatePending now e p).1 = e.
Proof. unfold handleEventResourceCreatePending, processValidUntil. cases_goal. Qed.
Lemma handleEventResourceUpdatePending_err now e p :
  (handleEventResourceUpdatePending now e p).2 <> None ->
  (handleEventResourceUpdatePending now e p).1 = e.
Proof. unfold handleEventResourceUpdatePending, processValidUntil. cases_goal. Qed.
Lemma handleEventResourceRetrievePending_err now e p :
  (handleEventResourceRetrievePending now e p).2 <> None ->
  (handleEventResourceRetrievePending now e p).1 = e.
Proof. unfold handleEventResourceRetrievePending, processValidUntil. cases_goal. Qed.
Lemma handleEventResourceDeletePending_err now e p :
  (handleEventResourceDeletePending now e p).2 <> None ->
  (handleEventResourceDeletePending now e p).1 = e.
Proof. unfold handleEventResourceDeletePending, processValidUntil. cases_goal. Qed.
Lemma handleEventResourceCreated_err e c :
  (handleEventResourceCreated e c).2 <> None -> (handleEventResourceCreated e c).1 = e.
Proof. unfold handleEventResourceCreated. cases_goal. Qed.
Lemma handleEventResourceUpdated_err e c :
  (handleEventResourceUpdated e c).2 <> None -> (handleEventResourceUpdated e c).1 = e.
Proof. unfold handleEventResourceUpdated. cases_goal. Qed.
Lemma handleEventResourceRetrieved_err e c :
  (handleEventResourceRetrieved e c).2 <> None -> (handleEventResourceRetrieved e c).1 = e.
Proof. unfold handleEventResourceRetrieved. cases_goal. Qed.
Lemma handleEventResourceDeleted_err e c :
  (handleEventResourceDeleted e c).2 <> None -> (handleEventResourceDeleted e c).1 = e.
Proof. unfold handleEventResourceDeleted, findResourceDeletePendingIndex. cases_goal. Qed.
Hint Resolve handleEventResourceCreatePending_err handleEventResourceUpdatePending_err
  handleEventResourceRetrievePending_err handleEventResourceDeletePending_err
  handleEventResourceCreated_err handleEventResourceUpdated_err
  handleEventResourceRetrieved_err handleEventResourceDeleted_err : hub.

(** The side conditions of [finish_outcome] hold by computation. *)
Ltac finish_with k :=
  apply (finish_outcome _ _ _ _ _ _ k); [done|reflexivity|done|by repeat split
    |reflexivity|lia|lia|first [done|auto with hub]|reflexivity].
Ltac command_cases := cases_goal.

(** *** Confirmations *)
Lemma confirmResourceUpdateRequest_outcome clk k t e req v :
  is_u64 v -> outcome clk t v (cur_ResourceId req) k (S k) e
    (confirmResourceUpdateRequest cc (clk k) e req v).
Proof. intros. unfold confirmResourceUpdateRequest. case_match; [finish_with k|done]. Qed.
Lemma confirmResourceRetrieveRequest_outcome clk k t e req v :
  is_u64 v -> outcome clk t v (ctr_ResourceId req) k (S k) e
    (confirmResourceRetrieveRequest cc (clk k) e req v).
Proof. intros. unfold confirmResourceRetrieveRequest. case_match; [finish_with k|done]. Qed.
Lemma confirmResourceDeleteRequest_outcome clk k t e req v :
  is_u64 v -> outcome clk t v (cdr_ResourceId req) k (S k) e
    (confirmResourceDeleteRequest cc (clk k) e req v).
Proof. intros. unfold confirmResourceDeleteRequest. case_match; [finish_with k|done]. Qed.
Lemma confirmResourceCreateRequest_outcome clk k t e req v :
  is_u64 v -> outcome clk t v (ccr_ResourceId req) k (S k) e
    (confirmResourceCreateRequest cc (clk k) e req v).
Proof. intros. unfold confirmResourceCreateRequest. case_match; [finish_with k|done]. Qed.

(** *** Cancellation *)
Lemma cancelResourceCreatePendings_produced clk t e req v :
  produced clk t v (cpr_ResourceId req) 0 (length (elems (rss_ResourceCreatePendings e))) e
    (cancelResourceCreatePendings cc clk e req v).1
    (cancelResourceCreatePendings cc clk e req v).2.
Proof.
  apply (cancel_range_produced _ _ _ _ _ (fun _ => True)); [|done]. intros k e' c v' Hv _.
  split; [|done]. by apply (confirmResourceCreateRequest_outcome _ _ _ _ (MkConfirmResourceCreateRequest _ _ _ _ _)).
Qed.
Lemma cancelResourceUpdatePendings_produced clk t e req v :
  produced clk t v (cpr_ResourceId req) 0 (length (elems (rss_ResourceUpdatePendings e))) e
    (cancelResourceUpdatePendings cc clk e req v).1
    (cancelResourceUpdatePendings cc clk e req v).2.
Proof.
  apply (cancel_range_produced _ _ _ _ _ (fun _ => True)); [|done]. intros k e' c v' Hv _.
  split; [|done]. by apply (confirmResourceUpdateRequest_outcome _ _ _ _ (MkConfirmResourceUpdateRequest _ _ _ _ _)).
Qed.
Lemma cancelResourceRetrievePendings_produced clk t e req v :
  produced clk t v (cpr_ResourceId req) 0 (length (elems (rss_ResourceRetrievePendings e))) e
    (cancelResourceRetrievePendings cc clk e req v).1
    (cancelResourceRetrievePendings cc clk e req v).2.
Proof.
  apply (cancel_range_produced _ _ _ _ _ (fun _ => True)); [|done]. intros k e' c v' Hv _.
  split; [|done]. by apply (confirmResourceRetrieveRequest_outcome _ _ _ _ (MkConfirmResourceRetrieveRequest _ _ _ _ _ _)).
Qed.
Lemma cancelResourceDeletePendings_produced clk t e req v :
  produced clk t v (cpr_ResourceId req) 0 (length (elems (rss_ResourceDeletePendings e))) e
    (cancelResourceDeletePendings cc clk e req v).1
    (cancelResourceDeletePendings cc clk e req v).2.
Proof.
  apply (cancel_range_produced _ _ _ _ _ (fun _ => True)); [|done]. intros k e' c v' Hv _.
  split; [|done]. by apply (confirmResourceDeleteRequest_outcome _ _ _ _ (MkConfirmResourceDeleteRequest _ _ _ _ _)).
Qed.

(** Cancelling only removes commands, so each loop runs as often as planned. *)
Lemma finish_fewer e r ev : fewer_pendings e r.1 -> fewer_pendings e (finish r ev).1.
Proof. by destruct r as [e' [err|]]. Qed.
Hint Resolve finish_fewer : hub.

Lemma confirmResourceUpdateRequest_fewer now e req v :
  fewer_pendings e (confirmResourceUpdateRequest cc now e req v).1.
Proof. unfold confirmResourceUpdateRequest. case_match; auto with hub. reflexivity. Qed.
Lemma confirmResourceRetrieveRequest_fewer now e req v :
  fewer_pendings e (confirmResourceRetrieveRequest cc now e req v).1.
Proof. unfold confirmResourceRetrieveRequest. case_match; auto with hub. reflexivity. Qed.
Lemma confirmResourceDeleteRequest_fewer now e req v :
  fewer_pendings e (confirmResourceDeleteRequest cc now e req v).1.
Proof. unfold confirmResourceDeleteRequest. case_match; auto with hub. reflexivity. Qed.
Lemma confirmResourceCreateRequest_fewer now e req v :
  fewer_pendings e (confirmResourceCreateRequest cc now e req v).1.
Proof. unfold confirmResourceCreateRequest. case_match; auto with hub. reflexivity. Qed.

Lemma cancelResourceCreatePendings_fewer clk e req v :
  fewer_pendings e (cancelResourceCreatePendings cc clk e req v).1.
Proof.
  unfold cancelResourceCreatePendings, cancel_range.
  apply (cancel_loop_relates _ _ _ fewer_pendings). intros. apply confirmResourceCreateRequest_fewer.
Qed.
Lemma cancelResourceUpdatePendings_fewer clk e req v :
  fewer_pendings e (cancelResourceUpdatePendings cc clk e req v).1.
Proof.
  unfold cancelResourceUpdatePendings, cancel_range.
  apply (cancel_loop_relates _ _ _ fewer_pendings). intros. apply confirmResourceUpdateRequest_fewer.
Qed.
Lemma cancelResourceRetrievePendings_fewer clk e req v :
  fewer_pendings e (cancelResourceRetrievePendings cc clk e req v).1.
Proof.
  unfold cancelResourceRetrievePendings, cancel_range.
  apply (cancel_loop_relates _ _ _ fewer_pendings). intros. apply confirmResourceRetrieveRequest_fewer.
Qed.
Lemma cancelResourceDeletePendings_fewer clk e req v :
  fewer_pendings e (cancelResourceDeletePendings cc clk e req v).1.
Proof.
  unfold cancelResourceDeletePendings, cancel_range.
  apply (cancel_loop_relates _ _ _ fewer_pendings). intros. apply confirmResourceDeleteRequest_fewer.
Qed.

Lemma CancelPendingCommandsRequest_fewer clk e req v :
  fewer_pendings e (CancelPendingCommandsRequest_ cc clk e req v).1.
Proof.
  unfold CancelPendingCommandsRequest_. case_match; [|done]. cbv zeta.
  pose proof (cancelResourceCreatePendings_fewer clk e req v) as F1.
  destruct (cancelResourceCreatePendings cc clk e req v) as [e1 a1].
  match goal with |- context [cancelResourceUpdatePendings cc ?k e1 _ ?w] =>
    pose proof (cancelResourceUpdatePendings_fewer k e1 req w) as F2 end.
  destruct (cancelResourceUpdatePendings cc _ e1 _ _) as [e2 a2].
  match goal with |- context [cancelResourceRetrievePendings cc ?k e2 _ ?w] =>
    pose proof (cancelResourceRetrievePendings_fewer k e2 req w) as F3 end.
  destruct (cancelResourceRetrievePendings cc _ e2 _ _) as [e3 a3].
  match goal with |- context [cancelResourceDeletePendings cc ?k e3 _ ?w] =>
    pose proof (cancelResourceDeletePendings_fewer k e3 req w) as F4 end.
  destruct (cancelResourceDeletePendings cc _ e3 _ _) as [e4 a4]. cbn [fst] in *.
  case_match; (etrans; [exact F1|]; etrans; [exact F2|]; etrans; [exact F3|]; exact F4).
Qed.

(** The number of commands that wait. *)
Definition count_pendings (e : State) : nat :=
  length (elems (rss_ResourceCreatePendings e)) + length (elems (rss_ResourceUpdatePendings e))
  + length (elems (rss_ResourceRetrievePendings e))
  + length (elems (rss_ResourceDeletePendings e)).

Lemma CancelPendingCommandsRequest_outcome clk t e req v :
  outcome clk t v (cpr_ResourceId req) 0 (count_pendings e) e
    (CancelPendingCommandsRequest_ cc clk e req v).
Proof.
  unfold CancelPendingCommandsRequest_, count_pendings. case_match; [|done].
  pose proof (cancelResourceCreatePendings_produced clk t e req v) as P1.
  pose proof (cancelResourceCreatePendings_fewer clk e req v) as F1.
  destruct (cancelResourceCreatePendings cc clk e req v) as [e1 a1]. cbn [fst snd] in *.
  set (k1 := length (elems (rss_ResourceCreatePendings e))) in *.
  set (v1 := u64 (v + Z.of_nat (length a1))).
  pose proof (cancelResourceUpdatePendings_produced (skip k1 clk) t e1 req v1) as P2.
  pose proof (cancelResourceUpdatePendings_fewer (skip k1 clk) e1 req v1) as F2.
  destruct (cancelResourceUpdatePendings cc (skip k1 clk) e1 req v1) as [e2 a2].
  cbn [fst snd] in *. set (k2 := k1 + length (elems (rss_ResourceUpdatePendings e))) in *.
  eapply (produced_app_shift _ _ _ _ _ _ _ _ k2) in P2; [|exact P1|]; last first.
  { pose proof (sublist_length _ _ (fp_update _ _ F1)). unfold k2. lia. }
  set (v2 := u64 (v + Z.of_nat (length (a1 ++ a2)))).
  pose proof (cancelResourceRetrievePendings_produced (skip k2 clk) t e2 req v2) as P3.
  pose proof (cancelResourceRetrievePendings_fewer (skip k2 clk) e2 req v2) as F3.
  destruct (cancelResourceRetrievePendings cc (skip k2 clk) e2 req v2) as [e3 a3].
  cbn [fst snd] in *. set (k3 := k2 + length (elems (rss_ResourceRetrievePendings e))) in *.
  eapply (produced_app_shift _ _ _ _ _ _ _ _ k3) in P3; [|exact P2|]; last first.
  { pose proof (fp_retrieve _ _ F1) as S1. pose proof (fp_retrieve _ _ F2) as S2.
    apply sublist_length in S1, S2. unfold k3. lia. }
  set (v3 := u64 (v + Z.of_nat (length ((a1 ++ a2) ++ a3)))).
  pose proof (cancelResourceDeletePendings_produced (skip k3 clk) t e3 req v3) as P4.
  destruct (cancelResourceDeletePendings cc (skip k3 clk) e3 req v3) as [e4 a4].
  cbn [fst snd] in *.
  eapply (produced_app_shift _ _ _ _ _ _ _ _
            (k3 + length (elems (rss_ResourceDeletePendings e)))) in P4; [|exact P3|]; last first.
  { pose proof (fp_delete _ _ F1) as S1. pose proof (fp_delete _ _ F2) as S2.
    pose proof (fp_delete _ _ F3) as S3. apply sublist_length in S1, S2, S3. lia. }
  case_match eqn:Hlen; [|exact P4]. apply Nat.eqb_eq, nil_length_inv in Hlen.
  rewrite Hlen in P4. exact (produced_nothing _ _ _ _ _ _ _ _ _ P4).
Qed.

(** *** New commands *)
Lemma handleNotifyResourceChangedRequest_outcome clk k t e req v :
  is_u64 v -> outcome clk t v (ncr_ResourceId req) k (S k) e
    (handleNotifyResourceChangedRequest cc (clk k) e req v).
Proof.
  intros Hv. unfold handleNotifyResourceChangedRequest. case_match; [|done].
  match goal with |- context [handleEventResourceChanged ?e ?c] => set (rc := c) end.
  assert (Hf : outcome clk t v (ncr_ResourceId req) k (S k) e
     (finish ((handleEventResourceChanged e rc).1, None) (EvResourceChanged rc))).
  { finish_with k. }
  destruct (handleEventResourceChanged e rc) as [e' []] eqn:Hh; [exact Hf|].
  assert (e' = e) as ->.
  { unfold handleEventResourceChanged in Hh. by case_match; simplify_eq. }
  apply produced_nil. lia.
Qed.

Lemma handleUpdateResourceRequest_outcome clk e req v :
  is_u64 v -> outcome clk (clk 2) v (urr_ResourceId req) 0 3 e
    (handleUpdateResourceRequest cc clk e req v).
Proof. intros Hv. unfold handleUpdateResourceRequest. repeat case_match; try done. finish_with 0. Qed.
Lemma handleRetrieveResourceRequest_outcome clk e req v :
  is_u64 v -> outcome clk (clk 2) v (rrr_ResourceId req) 0 3 e
    (handleRetrieveResourceRequest cc clk e req v).
Proof. intros Hv. unfold handleRetrieveResourceRequest. case_match; [finish_with 0|done]. Qed.
Lemma handleDeleteResourceRequest_outcome clk e req v :
  is_u64 v -> outcome clk (clk 2) v (drr_ResourceId req) 0 3 e
    (handleDeleteResourceRequest cc clk e req v).
Proof. intros Hv. unfold handleDeleteResourceRequest. case_match; [finish_with 0|done]. Qed.
Lemma handleCreateResourceRequest_outcome clk e req v :
  is_u64 v -> outcome clk (clk 2) v (crr_ResourceId req) 0 3 e
    (handleCreateResourceRequest cc clk e req v).
Proof. intros Hv. unfold handleCreateResourceRequest. repeat case_match; try done. finish_with 0. Qed.

(** The resource a command names. *)
Definition command_resource (cmd : Command) : option ResourceId :=
  match cmd with
  | CmdNotifyResourceChanged r => ncr_ResourceId r
  | CmdUpdateResource r => urr_ResourceId r
  | CmdConfirmResourceUpdate r => cur_ResourceId r
  | CmdRetrieveResource r => rrr_ResourceId r
  | CmdConfirmResourceRetrieve r => ctr_ResourceId r
  | CmdDeleteResource r => drr_ResourceId r
  | CmdConfirmResourceDelete r => cdr_ResourceId r
  | CmdCreateResource r => crr_ResourceId r
  | CmdConfirmResourceCreate r => ccr_ResourceId r
  | CmdCancelPendingCommands r => cpr_ResourceId r
  | _ => None
  end.

Lemma HandleCommand_outcome clk e cmd v :
  is_u64 v ->
  outcome clk (clk 2) v (command_resource cmd) 0 (3 + count_pendings e) e
    (HandleCommand cc clk e cmd v).
Proof.
  intros Hv. unfold HandleCommand. case_match; [done|].
  destruct cmd; try done; cbn [command_resource];
    (eapply outcome_weaken;
      [..|first [by apply handleNotifyResourceChangedRequest_outcome
        |by apply handleUpdateResourceRequest_outcome
        |by apply confirmResourceUpdateRequest_outcome
        |by apply handleRetrieveResourceRequest_outcome
        |by apply confirmResourceRetrieveRequest_outcome
        |by apply handleDeleteResourceRequest_outcome
        |by apply confirmResourceDeleteRequest_outcome
        |by apply handleCreateResourceRequest_outcome
        |by apply confirmResourceCreateRequest_outcome
        |by apply CancelPendingCommandsRequest_outcome]]; lia).
Qed.

(** C1: A command on a resource either fails and leaves the state as it was,
    or it produces events whose replay on the old state, at the time the
    command was handled, is the new state: the log and the state in memory
    cannot diverge. *)
Theorem HandleCommand_replays clk e cmd v :
  is_u64 v ->
  match HandleCommand cc clk e cmd v with
  | (e', inl _) => e' = e
  | (e', inr evs) => Handle (fun _ => clk 2) e (loaded <$> evs) None = (e', None)
  end.
Proof.
  intros Hv. pose proof (HandleCommand_outcome clk e cmd v Hv) as Ho.
  destruct (HandleCommand cc clk e cmd v) as [e' [err|evs]]; [done|]. apply Ho.
Qed.

(** What replayed events preserve, commands preserve. *)
Lemma HandleCommand_invariant (P : State -> Prop) clk e cmd v :
  (forall e (ev : AnyEvent), IsSnapshot ev = false -> P e ->
     P (handleByEvent (clk 2) e (loaded ev)).1) ->
  is_u64 v -> P e -> P (HandleCommand cc clk e cmd v).1.
Proof.
  intros Hstep Hv Hp. eapply outcome_invariant; [|by apply HandleCommand_outcome|done].
  intros e1 ev [_ Hs]. by apply Hstep.
Qed.

(** *** The invariant on correlation identifiers *)
Lemma handleByEvent_unique now e (ev : AnyEvent) :
  IsSnapshot ev = false -> unique_live_ids now e ->
  unique_live_ids now (handleByEvent now e (loaded ev)).1.
Proof.
  intros Hs Hu. destruct ev; try done; cbn;
    (eapply pendings_change_unique; [|exact Hu]); eauto with hub.
Qed.

(** A content once reported stays, whatever follows. *)
Lemma handleByEvent_latest now e (ev : AnyEvent) :
  IsSnapshot ev = false -> is_Some (rss_LatestResourceChange e) ->
  is_Some (rss_LatestResourceChange (handleByEvent now e (loaded ev)).1).
Proof.
  intros Hs He. destruct ev; try done; cbn;
    unfold handleEventResourceChanged, handleEventResourceUpdatePending,
      handleEventResourceUpdated, handleEventResourceRetrievePending, handleEventResourceRetrieved,
      handleEventResourceDeletePending, handleEventResourceDeleted,
      findResourceDeletePendingIndex, handleEventResourceCreatePending, handleEventResourceCreated,
      processValidUntil;
    cases_goal; rewrite setResourceTypes_latest; done.
Qed.
End outcome.

(** The states that commands, replayed events and snapshots can lead to, each
    with a time that is not before any reading of the clock so far. *)
Inductive reachable `{!UUIDLib} `{!StringSet} `{!ContentCodec} : time_ -> State -> Prop :=
  | reach_new t : reachable t NewResourceStateSnapshotTaken
  | reach_later t t' e : (t <= t')%Z -> reachable t e -> reachable t' e
  | reach_command cc t t' clk e cmd v :
      (forall k, t <= clk k <= t')%Z -> is_u64 v -> reachable t e ->
      reachable t' (HandleCommand cc clk e cmd v).1
  | reach_event t e ev :
      IsSnapshot ev = false -> reachable t e -> reachable t (handleByEvent t e (loaded ev)).1
  | reach_snapshot t e e0 now v :
      reachable t e0 -> reachable t e ->
      reachable t (handleByEvent t e (loaded (EvResourceStateSnapshotTaken (TakeSnapshot now e0 v)))).1.

(** C14: In every reachable state no two commands that are still valid share a
    correlation identifier, whatever lists they wait in. *)
Theorem reachable_unique_live_ids `{!UUIDLib} `{!StringSet} `{!ContentCodec} t e :
  reachable t e -> unique_live_ids t e.
Proof.
  induction 1 as [t|t t' e Hle _ IH|cc t t' clk e cmd v Hclk Hv _ IH|t e ev Hs _ IH|t e e0 now v _ IH _ _].
  - constructor.
  - by eapply unique_live_ids_later.
  - destruct (Hclk 2) as [Hlo Hhi]. eapply unique_live_ids_later; [exact Hhi|].
    apply HandleCommand_invariant; [intros; by apply handleByEvent_unique|done|].
    by eapply unique_live_ids_later.
  - by apply handleByEvent_unique.
  - exact IH.
Qed.

(** ** What a command gives the event store *)
Section saved.
Context `{!UUIDLib, !UUIDLaws} `{!StringSet} `{!ContentCodec} (cc : CommandContext).

Lemma ResourceId_ToUUID_parses rid : uuid_Parse (ResourceId_ToUUID rid) = true.
Proof.
  unfold ResourceId_ToUUID. case_match; [apply uuid_Nil_parses|apply uuid_NewSHA1_parses].
Qed.

(** C16: The events of a successful command on a resource of a device whose
    identifier is a UUID pass the checks that every event store makes before
    it saves, provided the clock does not go back and is in the range of the
    64-bit nanosecond count. *)
Theorem HandleCommand_saveable clk e cmd v e' evs :
  sane_clock clk -> is_u64 v -> uuid_Parse ((command_resource cmd) ~> rid_DeviceId) = true ->
  HandleCommand cc clk e cmd v = (e', inr evs) -> evs <> [] ->
  ValidateEventsBeforeSave (Some <$> evs) = None.
Proof.
  intros Hclk Hv Hd Hc Hne. apply ValidateEventsBeforeSave_None. exists evs. split; [done|].
  pose proof (HandleCommand_outcome cc clk e cmd v Hv) as Ho. rewrite Hc in Ho.
  destruct Ho as [_ Hver Hgood Hst].
  eapply (stamped_saveable (ResourceId_ToUUID (command_resource cmd))); [done|..|done|done|done].
  - apply ResourceId_ToUUID_parses.
  - done.
  - eapply Forall_impl; [exact Hgood|]. by intros ev [? _].
Qed.
End saved.
