(* ===== verification/ResourceCancel.v ===== *)
(** * Cancelling the commands that wait on a resource

    CancelPendingCommandsRequest of resourceStateSnapshotTaken.go: which
    commands its four loops cancel.  Each loop ranges over a slice from which
    its own body removes elements in place, so it does not see every element. *)

From Stdlib Require Import ZArith Lia String.
From S2P Require Import Prelude Commands Events EventStore Handler Pendings ResourceState.
From S2P Require Import ResourceStateFacts.

#[local] Abbreviation State := ResourceStateSnapshotTaken.

(** ** The four loops *)
Section cancel.
Context `{!UUIDLib} `{!StringSet, !StringSetLaws} `{!ContentCodec} (cc : CommandContext).

(** The four lists of commands. *)
Definition lists_of (e : State) :=
  (elems (rss_ResourceCreatePendings e), elems (rss_ResourceUpdatePendings e),
   elems (rss_ResourceRetrievePendings e), elems (rss_ResourceDeletePendings e)).
Definition others_create (e : State) := let '(_, u, r, d) := lists_of e in (u, r, d).
Definition others_update (e : State) := let '(c, _, r, d) := lists_of e in (c, r, d).
Definition others_retrieve (e : State) := let '(c, u, _, d) := lists_of e in (c, u, d).
Definition others_delete (e : State) := let '(c, u, r, _) := lists_of e in (c, u, r).

Lemma lists_of_setResourceTypes e l : lists_of (setResourceTypes e l) = lists_of e.
Proof. unfold setResourceTypes. by case_match. Qed.

Lemma count_pendings_lists e c u r d :
  lists_of e = (c, u, r, d) -> count_pendings e = length c + length u + length r + length d.
Proof. by intros [= <- <- <- <-]. Qed.

Ltac removes_by conf op :=
  split; intros now e c v; [intros i|]; unfold conf, op, findResourceDeletePendingIndex;
  cbn -[findResourceOperationPendingIndex]; intros Hi; rewrite Hi; cbn;
  [eexists _, _; split; [reflexivity|split; [done|]]|by eexists];
  unfold others_create, others_update, others_retrieve, others_delete, setResourceTypes;
  case_match; done.

Lemma removes_create rid cm :
  removes rss_ResourceCreatePendings others_create
    (fun now e c => confirmResourceCreateRequest cc now e
       (MkConfirmResourceCreateRequest rid c Status_CANCELED None (Some cm))) True.
Proof. removes_by confirmResourceCreateRequest handleEventResourceCreated. Qed.
Lemma removes_update rid cm :
  removes rss_ResourceUpdatePendings others_update
    (fun now e c => confirmResourceUpdateRequest cc now e
       (MkConfirmResourceUpdateRequest rid c Status_CANCELED None (Some cm))) True.
Proof. removes_by confirmResourceUpdateRequest handleEventResourceUpdated. Qed.
Lemma removes_retrieve rid cm :
  removes rss_ResourceRetrievePendings others_retrieve
    (fun now e c => confirmResourceRetrieveRequest cc now e
       (MkConfirmResourceRetrieveRequest rid c Status_CANCELED None (Some cm) None)) True.
Proof. removes_by confirmResourceRetrieveRequest handleEventResourceRetrieved. Qed.
Lemma removes_delete rid cm :
  removes rss_ResourceDeletePendings others_delete
    (fun now e c => confirmResourceDeleteRequest cc now e
       (MkConfirmResourceDeleteRequest rid c Status_CANCELED None (Some cm))) True.
Proof. removes_by confirmResourceDeleteRequest handleEventResourceDeleted. Qed.

(** Each loop works on its own list. *)
Section loops.
Context (clk : nat -> time_) (e : State) (rid : option ResourceId) (cm : CommandMetadata) (v : Z)
  (c : list ResourceCreatePending) (u : list ResourceUpdatePending)
  (r : list ResourceRetrievePending) (d : list ResourceDeletePending)
  (Hlists : lists_of e = (c, u, r, d)).
Context (flt : list string) (keeps : forall T, PendingEvent T -> list T -> list T)
  (Hkeeps : range_keeps flt keeps).
Let req := MkCancelPendingCommandsRequest rid flt (Some cm).

Ltac by_loop H :=
  let Hl := fresh in let Ho := fresh in let Hc := fresh in
  destruct H as (Hl & Ho & Hc); split; [|by apply Hc];
  match type of Hl with context [fst ?r] =>
    match goal with |- lists_of (fst ?o) = _ => change o with r end;
    generalize dependent r end;
  intros [e' evs]; cbn; intros; unfold lists_of; congruence.

Lemma cancelResourceCreatePendings_keeps :
  NoDup (pe_CorrelationId <$> c) ->
  let o := cancelResourceCreatePendings cc clk e req v in
  lists_of o.1 = (keeps _ _ c, u, r, d) /\ length o.2 + length (keeps _ _ c) = length c.
Proof.
  injection Hlists as <- <- <- <-. intros Hn.
  by_loop (Hkeeps _ _ _ _ _ _ _ _ clk e v (removes_create rid cm) Hn).
Qed.
Lemma cancelResourceUpdatePendings_keeps :
  NoDup (pe_CorrelationId <$> u) ->
  let o := cancelResourceUpdatePendings cc clk e req v in
  lists_of o.1 = (c, keeps _ _ u, r, d) /\ length o.2 + length (keeps _ _ u) = length u.
Proof.
  injection Hlists as <- <- <- <-. intros Hn.
  by_loop (Hkeeps _ _ _ _ _ _ _ _ clk e v (removes_update rid cm) Hn).
Qed.
Lemma cancelResourceRetrievePendings_keeps :
  NoDup (pe_CorrelationId <$> r) ->
  let o := cancelResourceRetrievePendings cc clk e req v in
  lists_of o.1 = (c, u, keeps _ _ r, d) /\ length o.2 + length (keeps _ _ r) = length r.
Proof.
  injection Hlists as <- <- <- <-. intros Hn.
  by_loop (Hkeeps _ _ _ _ _ _ _ _ clk e v (removes_retrieve rid cm) Hn).
Qed.
Lemma cancelResourceDeletePendings_keeps :
  NoDup (pe_CorrelationId <$> d) ->
  let o := cancelResourceDeletePendings cc clk e req v in
  lists_of o.1 = (c, u, r, keeps _ _ d) /\ length o.2 + length (keeps _ _ d) = length d.
Proof.
  injection Hlists as <- <- <- <-. intros Hn.
  by_loop (Hkeeps _ _ _ _ _ _ _ _ clk e v (removes_delete rid cm) Hn).
Qed.
End loops.

Lemma CancelPendingCommandsRequest_keeps clk e rid flt cm keeps v c u r d :
  range_keeps flt keeps -> lists_of e = (c, u, r, d) ->
  NoDup (pe_CorrelationId <$> c) -> NoDup (pe_CorrelationId <$> u) ->
  NoDup (pe_CorrelationId <$> r) -> NoDup (pe_CorrelationId <$> d) ->
  exists e' res,
    CancelPendingCommandsRequest_ cc clk e (MkCancelPendingCommandsRequest rid flt (Some cm)) v
    = (e', res) /\
    lists_of e' = (keeps _ _ c, keeps _ _ u, keeps _ _ r, keeps _ _ d) /\
    ((exists err, res = inl err /\ error_code err = NotFound) /\
     count_pendings e' = count_pendings e \/
     exists evs, res = inr evs /\ evs <> [] /\
                 length evs + count_pendings e' = count_pendings e).
Proof.
  intros Hk L0 N1 N2 N3 N4. unfold CancelPendingCommandsRequest_. cbn [cpr_CommandMetadata].
  destruct (cancelResourceCreatePendings_keeps clk e rid cm v _ _ _ _ L0 _ _ Hk N1) as (L1 & C1).
  destruct (cancelResourceCreatePendings cc clk _ _ _) as [e1 a1]. cbn [fst snd] in *.
  match goal with |- context [cancelResourceUpdatePendings cc ?k e1 _ ?v] =>
    destruct (cancelResourceUpdatePendings_keeps k e1 rid cm v _ _ _ _ L1 _ _ Hk N2)
      as (L2 & C2) end.
  destruct (cancelResourceUpdatePendings cc _ e1 _ _) as [e2 a2]. cbn [fst snd] in *.
  match goal with |- context [cancelResourceRetrievePendings cc ?k e2 _ ?v] =>
    destruct (cancelResourceRetrievePendings_keeps k e2 rid cm v _ _ _ _ L2 _ _ Hk N3)
      as (L3 & C3) end.
  destruct (cancelResourceRetrievePendings cc _ e2 _ _) as [e3 a3]. cbn [fst snd] in *.
  match goal with |- context [cancelResourceDeletePendings cc ?k e3 _ ?v] =>
    destruct (cancelResourceDeletePendings_keeps k e3 rid cm v _ _ _ _ L3 _ _ Hk N4)
      as (L4 & C4) end.
  destruct (cancelResourceDeletePendings cc _ e3 _ _) as [e4 a4]. cbn [fst snd] in *.
  assert (Hcount : length (((a1 ++ a2) ++ a3) ++ a4) + count_pendings e4 = count_pendings e).
  { rewrite (count_pendings_lists _ _ _ _ _ L0), (count_pendings_lists _ _ _ _ _ L4).
    rewrite !length_app. lia. }
  case_match eqn:Hlen; (eexists _, _; split; [reflexivity|]; split; [exact L4|]).
  - left. apply Nat.eqb_eq in Hlen. split; [eauto|lia].
  - right. apply Nat.eqb_neq in Hlen. eexists. split_and!; [done| |done]. intros Hnil. by rewrite Hnil in Hlen.
Qed.

(** C22: A cancellation without a filter of correlation identifiers is meant to
    cancel every command of the resource.  On commands with distinct
    identifiers it leaves, of each list, every second command except the last
    one, because the loop removes elements of the slice it ranges over (a list
    of at most two commands is emptied).  It answers NotFound only when no
    command waits, and produces one event for each command it removes. *)
Theorem CancelPendingCommandsRequest_all clk e rid cm v c u r d :
  lists_of e = (c, u, r, d) ->
  NoDup (pe_CorrelationId <$> c) -> NoDup (pe_CorrelationId <$> u) ->
  NoDup (pe_CorrelationId <$> r) -> NoDup (pe_CorrelationId <$> d) ->
  exists e' res,
    CancelPendingCommandsRequest_ cc clk e (MkCancelPendingCommandsRequest rid [] (Some cm)) v
    = (e', res) /\
    lists_of e' = (passed_over c, passed_over u, passed_over r, passed_over d) /\
    ((exists err, res = inl err /\ error_code err = NotFound) /\ count_pendings e = 0 \/
     exists evs, res = inr evs /\ evs <> [] /\
                 length evs + count_pendings e' = count_pendings e).
Proof.
  intros L0 N1 N2 N3 N4.
  destruct (CancelPendingCommandsRequest_keeps clk e rid [] cm _ v c u r d range_keeps_all
              L0 N1 N2 N3 N4) as (e' & res & -> & L4 & Hres).
  exists e', res. split_and!; [done|done|]. destruct Hres as [[Herr Hc]|?]; [left|by right].
  split; [done|].
  rewrite (count_pendings_lists _ _ _ _ _ L0), (count_pendings_lists _ _ _ _ _ L4) in *.
  pose proof (length_passed_over c). pose proof (length_passed_over u).
  pose proof (length_passed_over r). pose proof (length_passed_over d). lia.
Qed.

(** A cancellation of one correlation identifier removes the commands with
    this identifier from the four lists and no other command; it answers
    NotFound only when there is none. *)
Theorem CancelPendingCommandsRequest_one clk e rid id cm v c u r d :
  lists_of e = (c, u, r, d) ->
  NoDup (pe_CorrelationId <$> c) -> NoDup (pe_CorrelationId <$> u) ->
  NoDup (pe_CorrelationId <$> r) -> NoDup (pe_CorrelationId <$> d) ->
  exists e' res,
    CancelPendingCommandsRequest_ cc clk e (MkCancelPendingCommandsRequest rid [id] (Some cm)) v
    = (e', res) /\
    lists_of e' = (without id _ _ c, without id _ _ u, without id _ _ r, without id _ _ d) /\
    ((exists err, res = inl err /\ error_code err = NotFound) /\
     count_pendings e' = count_pendings e \/
     exists evs, res = inr evs /\ evs <> [] /\
                 length evs + count_pendings e' = count_pendings e).
Proof. intros. apply CancelPendingCommandsRequest_keeps; [apply range_keeps_one|done..]. Qed.
End cancel.
