(* ===== verification/ResourceStateSpec.v ===== *)
(** * What the operations on the state of a resource promise

    Snapshots: everything but the metadata of the last event survives them, and
    no operation depends on that metadata.  The order in which changes are
    accepted, deletion, commands on a resource that never reported a content,
    and the conversion of contents. *)

From Stdlib Require Import ZArith Lia String.
From S2P Require Import Prelude Commands Events EventStore Handler Pendings ResourceState.
From S2P Require Import ResourceStateFacts.

#[local] Abbreviation State := ResourceStateSnapshotTaken.

(** ** States up to the metadata of the last event *)
Definition forget_meta (e : State) : State :=
  set_meta e (rss_ResourceId e) None (rss_AuditContext e).
Definition meta_eq (e e' : State) : Prop := forget_meta e = forget_meta e'.

#[export] Instance meta_eq_equivalence : Equivalence meta_eq.
Proof. split; unfold meta_eq; [done|intros ?? ->; done|intros ??? -> ->; done]. Qed.

Lemma TakeSnapshot_meta_eq now e v : meta_eq (TakeSnapshot now e v) e.
Proof. done. Qed.

(** A result of a handler, up to the metadata. *)
Definition res_eq {A} : relation (State * A) := prod_relation meta_eq eq.

#[export] Instance res_eq_equivalence {A} : Equivalence (@res_eq A).
Proof.
  split.
  - intros [e a]. by split.
  - intros [e a] [e' a'] [? ?]. split; by symmetry.
  - intros [e a] [e' a'] [e2 a2] [? ?] [? ?]. split; by etrans.
Qed.

Lemma res_eq_fst {A} (r r' : State * A) : res_eq r r' -> meta_eq r.1 r'.1.
Proof. by intros [? ?]. Qed.

(** Two states up to the metadata, as one record with two metadata. *)
Ltac meta_cases :=
  let e := fresh "e" in let e' := fresh "e'" in let H := fresh in
  intros e e' H; destruct e, e'; unfold meta_eq, forget_meta, set_meta in H; simpl in H;
  injection H as -> -> -> -> -> -> -> ->.
Ltac meta_proper :=
  unfold setResourceTypes; simpl; repeat (case_goal; simpl); by split.

#[export] Instance rss_ResourceCreatePendings_proper :
  Proper (meta_eq ==> eq) rss_ResourceCreatePendings.
Proof. by meta_cases. Qed.
#[export] Instance rss_ResourceUpdatePendings_proper :
  Proper (meta_eq ==> eq) rss_ResourceUpdatePendings.
Proof. by meta_cases. Qed.
#[export] Instance rss_ResourceRetrievePendings_proper :
  Proper (meta_eq ==> eq) rss_ResourceRetrievePendings.
Proof. by meta_cases. Qed.
#[export] Instance rss_ResourceDeletePendings_proper :
  Proper (meta_eq ==> eq) rss_ResourceDeletePendings.
Proof. by meta_cases. Qed.
#[export] Instance rss_LatestResourceChange_proper :
  Proper (meta_eq ==> eq) rss_LatestResourceChange.
Proof. by meta_cases. Qed.
#[export] Instance rss_ResourceTypes_proper : Proper (meta_eq ==> eq) rss_ResourceTypes.
Proof. by meta_cases. Qed.

#[export] Instance handleEventResourceCreatePending_proper :
  Proper (eq ==> meta_eq ==> eq ==> res_eq) handleEventResourceCreatePending.
Proof.
  intros ? now ->. meta_cases. intros ? p ->.
  unfold handleEventResourceCreatePending, processValidUntil, checkForDuplicityCorrelationID.
  meta_proper.
Qed.
#[export] Instance handleEventResourceUpdatePending_proper :
  Proper (eq ==> meta_eq ==> eq ==> res_eq) handleEventResourceUpdatePending.
Proof.
  intros ? now ->. meta_cases. intros ? p ->.
  unfold handleEventResourceUpdatePending, processValidUntil, checkForDuplicityCorrelationID.
  meta_proper.
Qed.
#[export] Instance handleEventResourceRetrievePending_proper :
  Proper (eq ==> meta_eq ==> eq ==> res_eq) handleEventResourceRetrievePending.
Proof.
  intros ? now ->. meta_cases. intros ? p ->.
  unfold handleEventResourceRetrievePending, processValidUntil, checkForDuplicityCorrelationID.
  meta_proper.
Qed.
#[export] Instance handleEventResourceDeletePending_proper :
  Proper (eq ==> meta_eq ==> eq ==> res_eq) handleEventResourceDeletePending.
Proof.
  intros ? now ->. meta_cases. intros ? p ->.
  unfold handleEventResourceDeletePending, processValidUntil, checkForDuplicityCorrelationID.
  meta_proper.
Qed.
#[export] Instance handleEventResourceCreated_proper :
  Proper (meta_eq ==> eq ==> res_eq) handleEventResourceCreated.
Proof. meta_cases. intros ? c ->. unfold handleEventResourceCreated. meta_proper. Qed.
#[export] Instance handleEventResourceUpdated_proper :
  Proper (meta_eq ==> eq ==> res_eq) handleEventResourceUpdated.
Proof. meta_cases. intros ? c ->. unfold handleEventResourceUpdated. meta_proper. Qed.
#[export] Instance handleEventResourceRetrieved_proper :
  Proper (meta_eq ==> eq ==> res_eq) handleEventResourceRetrieved.
Proof. meta_cases. intros ? c ->. unfold handleEventResourceRetrieved. meta_proper. Qed.
#[export] Instance handleEventResourceDeleted_proper :
  Proper (meta_eq ==> eq ==> res_eq) handleEventResourceDeleted.
Proof. meta_cases. intros ? c ->. unfold handleEventResourceDeleted, findResourceDeletePendingIndex. meta_proper. Qed.
#[export] Instance handleEventResourceChanged_proper :
  Proper (meta_eq ==> eq ==> res_eq) handleEventResourceChanged.
Proof.
  meta_cases. intros ? c ->. unfold handleEventResourceChanged, ValidateSequence. meta_proper.
Qed.

Section replay.
Context `{!UUIDLib}.

Lemma unmarshal_case_proper {T} `{!Unmarshaler AnyEvent T} e e' eu (f f' : T -> State) :
  meta_eq e e' -> (forall s, meta_eq (f s) (f' s)) ->
  res_eq (unmarshal_case e eu f) (unmarshal_case e' eu f').
Proof. intros He Hf. unfold unmarshal_case. case_match; by split; simpl. Qed.

#[export] Instance handleByEvent_proper :
  Proper (eq ==> meta_eq ==> eq ==> res_eq) (handleByEvent (D:=AnyEvent)).
Proof.
  intros ? now -> e e' He ? eu ->. unfold handleByEvent.
  repeat (case_match; [apply unmarshal_case_proper; [done|intros s]|]); try by split.
  all: try (apply res_eq_fst; by rewrite He).
Qed.

Lemma Handle_proper clk e e' (eus : list (LoadedEvent AnyEvent)) err :
  meta_eq e e' -> res_eq (Handle clk e eus err) (Handle clk e' eus err).
Proof.
  unfold Handle. revert clk e e'.
  induction eus as [|eu eus IH]; intros clk e e' He; cbn [handle_loop]; [by split|].
  case_match; [by split|].
  assert (Hb : res_eq (handleByEvent (clk 0) e eu) (handleByEvent (clk 0) e' eu)) by by rewrite He.
  destruct Hb as [Hs Ho]. destruct (handleByEvent (clk 0) e eu) as [e1 o1],
    (handleByEvent (clk 0) e' eu) as [e2 o2]. simpl in *. subst o2.
  destruct o1; [by split|]. by apply IH.
Qed.
End replay.

Section commands.
Context `{!UUIDLib} `{!StringSet} `{!ContentCodec} (cc : CommandContext).

Lemma finish_proper r r' ev : res_eq r r' -> res_eq (finish r ev) (finish r' ev).
Proof. destruct r as [e [err|]], r' as [e' [err'|]]; intros [? ?]; simplify_eq/=; by split. Qed.

#[export] Instance resolveResourceTypes_proper :
  Proper (meta_eq ==> eq ==> eq ==> eq) (resolveResourceTypes cc).
Proof. intros e e' He ? href -> ? l ->. unfold resolveResourceTypes. by rewrite (rss_ResourceTypes_proper _ _ He). Qed.


Ltac command_proper He :=
  repeat (case_match; try by split);
  rewrite (resolveResourceTypes_proper _ _ He _ _ eq_refl _ _ eq_refl); apply finish_proper;
  by rewrite He.

#[export] Instance confirmResourceUpdateRequest_proper :
  Proper (eq ==> meta_eq ==> eq ==> eq ==> res_eq) (confirmResourceUpdateRequest cc).
Proof.
  intros ? now -> e e' He ? req -> ? v ->. unfold confirmResourceUpdateRequest.
  command_proper He.
Qed.
#[export] Instance confirmResourceRetrieveRequest_proper :
  Proper (eq ==> meta_eq ==> eq ==> eq ==> res_eq) (confirmResourceRetrieveRequest cc).
Proof.
  intros ? now -> e e' He ? req -> ? v ->. unfold confirmResourceRetrieveRequest.
  command_proper He.
Qed.
#[export] Instance confirmResourceDeleteRequest_proper :
  Proper (eq ==> meta_eq ==> eq ==> eq ==> res_eq) (confirmResourceDeleteRequest cc).
Proof.
  intros ? now -> e e' He ? req -> ? v ->. unfold confirmResourceDeleteRequest.
  command_proper He.
Qed.
#[export] Instance confirmResourceCreateRequest_proper :
  Proper (eq ==> meta_eq ==> eq ==> eq ==> res_eq) (confirmResourceCreateRequest cc).
Proof.
  intros ? now -> e e' He ? req -> ? v ->. unfold confirmResourceCreateRequest.
  command_proper He.
Qed.

#[export] Instance cancelResourceCreatePendings_proper :
  Proper (eq ==> meta_eq ==> eq ==> eq ==> res_eq) (cancelResourceCreatePendings cc).
Proof.
  intros ? clk -> e e' He ? req -> ? v ->. apply (cancel_range_respects _ _ _ meta_eq); [apply _| |done].
  intros ? now -> s s' Hs ? c -> ? w ->. by rewrite Hs.
Qed.
#[export] Instance cancelResourceUpdatePendings_proper :
  Proper (eq ==> meta_eq ==> eq ==> eq ==> res_eq) (cancelResourceUpdatePendings cc).
Proof.
  intros ? clk -> e e' He ? req -> ? v ->. apply (cancel_range_respects _ _ _ meta_eq); [apply _| |done].
  intros ? now -> s s' Hs ? c -> ? w ->. by rewrite Hs.
Qed.
#[export] Instance cancelResourceRetrievePendings_proper :
  Proper (eq ==> meta_eq ==> eq ==> eq ==> res_eq) (cancelResourceRetrievePendings cc).
Proof.
  intros ? clk -> e e' He ? req -> ? v ->. apply (cancel_range_respects _ _ _ meta_eq); [apply _| |done].
  intros ? now -> s s' Hs ? c -> ? w ->. by rewrite Hs.
Qed.
#[export] Instance cancelResourceDeletePendings_proper :
  Proper (eq ==> meta_eq ==> eq ==> eq ==> res_eq) (cancelResourceDeletePendings cc).
Proof.
  intros ? clk -> e e' He ? req -> ? v ->. apply (cancel_range_respects _ _ _ meta_eq); [apply _| |done].
  intros ? now -> s s' Hs ? c -> ? w ->. by rewrite Hs.
Qed.

Ltac cancel_step :=
  match goal with |- res_eq (let '(_, _) := ?a in _) (let '(_, _) := ?b in _) =>
    let H := fresh in let e := fresh "e" in let e' := fresh "e" in
    assert (H : res_eq a b) by (solve_proper || (match goal with H : meta_eq _ _ |- _ => by rewrite H end));
    destruct a as [e ?], b as [e' ?]; destruct H as [? ?]; simpl in *; simplify_eq
  end.

#[export] Instance CancelPendingCommandsRequest_proper :
  Proper (eq ==> meta_eq ==> eq ==> eq ==> res_eq) (CancelPendingCommandsRequest_ cc).
Proof.
  intros ? clk -> e e' He ? req -> ? v ->. unfold CancelPendingCommandsRequest_.
  case_match; [|by split]. cbv zeta.
  rewrite <- (rss_ResourceCreatePendings_proper _ _ He), <- (rss_ResourceUpdatePendings_proper _ _ He),
    <- (rss_ResourceRetrievePendings_proper _ _ He). do 4 cancel_step. case_match; by split.
Qed.

#[export] Instance handleNotifyResourceChangedRequest_proper :
  Proper (eq ==> meta_eq ==> eq ==> eq ==> res_eq) (handleNotifyResourceChangedRequest cc).
Proof.
  intros ? now -> e e' He ? req -> ? v ->. unfold handleNotifyResourceChangedRequest.
  case_match; [|by split].
  rewrite (resolveResourceTypes_proper _ _ He _ _ eq_refl _ _ eq_refl).
  cancel_step. case_match; by split.
Qed.
#[export] Instance handleUpdateResourceRequest_proper :
  Proper (eq ==> meta_eq ==> eq ==> eq ==> res_eq) (handleUpdateResourceRequest cc).
Proof.
  intros ? clk -> e e' He ? req -> ? v ->. unfold handleUpdateResourceRequest, latestContentType.
  rewrite ?(rss_LatestResourceChange_proper _ _ He). command_proper He.
Qed.
#[export] Instance handleRetrieveResourceRequest_proper :
  Proper (eq ==> meta_eq ==> eq ==> eq ==> res_eq) (handleRetrieveResourceRequest cc).
Proof.
  intros ? clk -> e e' He ? req -> ? v ->. unfold handleRetrieveResourceRequest, latestContentType.
  rewrite ?(rss_LatestResourceChange_proper _ _ He). command_proper He.
Qed.
#[export] Instance handleDeleteResourceRequest_proper :
  Proper (eq ==> meta_eq ==> eq ==> eq ==> res_eq) (handleDeleteResourceRequest cc).
Proof.
  intros ? clk -> e e' He ? req -> ? v ->. unfold handleDeleteResourceRequest, latestContentType.
  rewrite ?(rss_LatestResourceChange_proper _ _ He). command_proper He.
Qed.
#[export] Instance handleCreateResourceRequest_proper :
  Proper (eq ==> meta_eq ==> eq ==> eq ==> res_eq) (handleCreateResourceRequest cc).
Proof.
  intros ? clk -> e e' He ? req -> ? v ->. unfold handleCreateResourceRequest, latestContentType.
  rewrite ?(rss_LatestResourceChange_proper _ _ He). command_proper He.
Qed.

#[export] Instance validateCommandForNotExistingResource_proper :
  Proper (meta_eq ==> eq ==> eq) validateCommandForNotExistingResource.
Proof. meta_cases. by intros ? cmd ->. Qed.

Lemma HandleCommand_proper clk e e' cmd v :
  meta_eq e e' -> res_eq (HandleCommand cc clk e cmd v) (HandleCommand cc clk e' cmd v).
Proof.
  intros He. unfold HandleCommand.
  rewrite (validateCommandForNotExistingResource_proper _ _ He _ _ eq_refl).
  case_match; [by split|]. destruct cmd; try (by split); by rewrite He.
Qed.

(** C23: A command answers the same on a snapshot as on the state the snapshot
    was taken of, with the same events, and leads to the same state up to the
    metadata of the last event. *)
Theorem HandleCommand_TakeSnapshot clk now e v0 cmd v :
  res_eq (HandleCommand cc clk (TakeSnapshot now e v0) cmd v) (HandleCommand cc clk e cmd v).
Proof. apply HandleCommand_proper, TakeSnapshot_meta_eq. Qed.
End commands.

(** Replaying a snapshot and the events after it, on whatever state a model
    is in, gives the same as replaying the whole log from the state it started
    in, up to the metadata of the last event. *)
Theorem Handle_from_snapshot `{!UUIDLib} t now v e e1 a b any :
  Handle (fun _ => t) e (loaded <$> a) None = (e1, None) ->
  res_eq
    (Handle (fun _ => t) any
       (loaded <$> (EvResourceStateSnapshotTaken (TakeSnapshot now e1 v) :: b)) None)
    (Handle (fun _ => t) e (loaded <$> (a ++ b)) None).
Proof.
  intros Ha. change (Handle (fun _ => t) e (loaded <$> (a ++ b)) None) with
    (replay_at handleByEvent t e (a ++ b)). rewrite (replay_at_app _ _ _ _ _ _ Ha).
  change (res_eq (Handle (fun _ => t) (TakeSnapshot now e1 v) (loaded <$> b) None)
                 (Handle (fun _ => t) e1 (loaded <$> b) None)).
  apply Handle_proper, TakeSnapshot_meta_eq.
Qed.

(** ** Changes of a resource *)

(** Replaying reports of the resource; the accepted ones are returned. *)
Fixpoint apply_changes (e : State) (cs : list ResourceChanged) : State * list ResourceChanged :=
  match cs with
  | [] => (e, [])
  | c :: cs =>
      let '(e, ok) := handleEventResourceChanged e c in
      let '(e, acc) := apply_changes e cs in
      (e, if ok then c :: acc else acc)
  end.

Definition sequence_of (c : ResourceChanged) : Z := (rc_EventMetadata c) ~> em_Sequence.
Definition connection_of (c : ResourceChanged) : string := (rc_EventMetadata c) ~> em_ConnectionId.

Lemma handleEventResourceChanged_cases e c :
  match handleEventResourceChanged e c with
  | (e', true) => rss_LatestResourceChange e' = Some c /\
      (forall l, rss_LatestResourceChange e = Some l ->
         connection_of l <> connection_of c \/ (sequence_of l < sequence_of c)%Z)
  | (e', false) => e' = e /\ exists l, rss_LatestResourceChange e = Some l /\
      (connection_of l = connection_of c /\ (sequence_of c <= sequence_of l)%Z \/
       ResourceChanged_Equal (Some l) c = true)
  end.
Proof.
  unfold handleEventResourceChanged, ValidateSequence, connection_of, sequence_of.
  destruct (rss_LatestResourceChange e) as [l|] eqn:Hl; cbn [getter]; simpl.
  - destruct (String.eqb_spec ((rc_EventMetadata l) ~> em_ConnectionId)
                ((rc_EventMetadata c) ~> em_ConnectionId)); simpl.
    + destruct (Z.ltb_spec ((rc_EventMetadata l) ~> em_Sequence)
                  ((rc_EventMetadata c) ~> em_Sequence)); simpl; [|eauto 10].
      destruct (ResourceChanged_Equal (Some l) c) eqn:?; simpl; [eauto 10|].
      rewrite setResourceTypes_latest. split; [done|]. intros ? [= <-]. by right.
    + destruct (ResourceChanged_Equal (Some l) c) eqn:?; simpl; [eauto 10|].
      rewrite setResourceTypes_latest. split; [done|]. intros ? [= <-]. by left.
  - rewrite setResourceTypes_latest. by split.
Qed.

(** Of the reports of one connection, in whatever order and however often
    they arrive, those that are accepted have strictly ascending sequence
    numbers, all above that of the content stored before from the same
    connection, and the content stored in the end is that of the last one
    accepted: a late or repeated report never brings back an old content. *)
Theorem apply_changes_ascending e cs conn :
  Forall (fun c => connection_of c = conn) cs ->
  let '(e', acc) := apply_changes e cs in
  StronglySorted Z.lt (sequence_of <$> acc) /\
  (forall l, rss_LatestResourceChange e = Some l -> connection_of l = conn ->
     Forall (fun c => (sequence_of l < sequence_of c)%Z) acc) /\
  rss_LatestResourceChange e' = match last acc with
                                | Some c => Some c | None => rss_LatestResourceChange e end.
Proof.
  intros Hcs. revert e. induction Hcs as [|c cs Hc _ IH]; intros e; cbn [apply_changes].
  { split_and!; [constructor|by constructor|done]. }
  pose proof (handleEventResourceChanged_cases e c) as Hh.
  destruct (handleEventResourceChanged e c) as [e1 []]; specialize (IH e1);
    destruct (apply_changes e1 cs) as [e2 acc]; destruct IH as (Hs & Hlt & Hl).
  - destruct Hh as [Hl1 Hseq]. specialize (Hlt c Hl1 Hc). split_and!.
    + constructor; [done|]. by apply Forall_fmap.
    + intros l He Hcl. destruct (Hseq l He) as [Hne|Hlt']; [congruence|].
      constructor; [done|]. eapply Forall_impl; [exact Hlt|]. simpl. lia.
    + rewrite Hl, Hl1, last_cons. by destruct (last acc).
  - destruct Hh as [-> _]. by split_and!.
Qed.
