(* ===== verification/ResourceCommands.v ===== *)
(** * The life of a command on a resource

    A command waits in its list until it is confirmed; a successful deletion
    drops all that wait; on a resource that never reported a content only some
    commands are accepted; the content of a command is converted to the type
    the resource reports. *)

From Stdlib Require Import ZArith Lia String.
From S2P Require Import Prelude Commands Events EventStore Handler Pendings ResourceState.
From S2P Require Import ResourceStateFacts ResourceCancel.

#[local] Abbreviation State := ResourceStateSnapshotTaken.

(** ** Requests and their confirmations *)

(** [conf] confirms the command that [req] asks for, with the correlation
    identifier [id]; the deletion did not succeed. *)
Inductive answers (id : string) : Command -> Command -> Prop :=
  | answers_update r c :
      urr_CorrelationId r = id -> cur_CorrelationId c = id -> is_Some (cur_CommandMetadata c) ->
      answers id (CmdUpdateResource r) (CmdConfirmResourceUpdate c)
  | answers_create r c :
      crr_CorrelationId r = id -> ccr_CorrelationId c = id -> is_Some (ccr_CommandMetadata c) ->
      answers id (CmdCreateResource r) (CmdConfirmResourceCreate c)
  | answers_retrieve r c :
      rrr_CorrelationId r = id -> ctr_CorrelationId c = id -> is_Some (ctr_CommandMetadata c) ->
      answers id (CmdRetrieveResource r) (CmdConfirmResourceRetrieve c)
  | answers_delete r c :
      drr_CorrelationId r = id -> cdr_CorrelationId c = id -> is_Some (cdr_CommandMetadata c) ->
      cdr_Status c <> Status_OK -> cdr_Status c <> Status_ACCEPTED ->
      answers id (CmdDeleteResource r) (CmdConfirmResourceDelete c).

(** The correlation identifiers of all commands, expired ones included. *)
Definition all_ids (e : State) : list string :=
  let '(c, u, r, d) := lists_of e in
  (pe_CorrelationId <$> c) ++ (pe_CorrelationId <$> u) ++ (pe_CorrelationId <$> r)
  ++ (pe_CorrelationId <$> d).

Lemma findIndex_snoc {T} `{!PendingEvent T} (l : list T) p id :
  pe_CorrelationId p = id -> id ∉ (pe_CorrelationId <$> l) ->
  findResourceOperationPendingIndex id (l ++ [p]) = Some (length l).
Proof.
  intros Hp. induction l as [|q l IH]; simpl; intros Hn.
  - by rewrite Hp, String.eqb_refl.
  - rewrite not_elem_of_cons in Hn. destruct Hn as [Hq Hn].
    destruct (String.eqb_spec (pe_CorrelationId q) id); [congruence|]. by rewrite IH.
Qed.

Lemma findIndex_added {T} `{!PendingEvent T} (l l' : list T) p id id' :
  id ∉ (pe_CorrelationId <$> l) -> l' = l ++ [p] -> id' = id -> pe_CorrelationId p = id ->
  findResourceOperationPendingIndex id' l' = Some (length l) /\ delete (length l) l' = l.
Proof.
  intros Hn -> -> Hp. split; [by apply findIndex_snoc|]. rewrite delete_middle. apply app_nil_r.
Qed.

(** ** A pending command is added at the end of its list, or was born expired *)
Section added.
Context (now : time_) (e e' : State).

Lemma handleEventResourceUpdatePending_lists p :
  handleEventResourceUpdatePending now e p = (e', None) ->
  rss_LatestResourceChange e' = rss_LatestResourceChange e /\
  (lists_of e' = lists_of e \/
   let '(c, u, r, d) := lists_of e in lists_of e' = (c, u ++ [p], r, d)).
Proof.
  unfold handleEventResourceUpdatePending, processValidUntil.
  destruct (pe_IsExpired now p); simpl; [intros [= <-]; eauto|].
  case_match; [done|]. intros [= <-]. rewrite lists_of_setResourceTypes.
  rewrite setResourceTypes_latest. split; [done|by right].
Qed.
Lemma handleEventResourceCreatePending_lists p :
  handleEventResourceCreatePending now e p = (e', None) ->
  rss_LatestResourceChange e' = rss_LatestResourceChange e /\
  (lists_of e' = lists_of e \/
   let '(c, u, r, d) := lists_of e in lists_of e' = (c ++ [p], u, r, d)).
Proof.
  unfold handleEventResourceCreatePending, processValidUntil.
  destruct (pe_IsExpired now p); simpl; [intros [= <-]; eauto|].
  case_match; [done|]. intros [= <-]. rewrite lists_of_setResourceTypes.
  rewrite setResourceTypes_latest. split; [done|by right].
Qed.
Lemma handleEventResourceRetrievePending_lists p :
  handleEventResourceRetrievePending now e p = (e', None) ->
  rss_LatestResourceChange e' = rss_LatestResourceChange e /\
  (lists_of e' = lists_of e \/
   let '(c, u, r, d) := lists_of e in lists_of e' = (c, u, r ++ [p], d)).
Proof.
  unfold handleEventResourceRetrievePending, processValidUntil.
  destruct (pe_IsExpired now p); simpl; [intros [= <-]; eauto|].
  case_match; [done|]. intros [= <-]. rewrite lists_of_setResourceTypes.
  rewrite setResourceTypes_latest. split; [done|by right].
Qed.
Lemma handleEventResourceDeletePending_lists p :
  handleEventResourceDeletePending now e p = (e', None) ->
  rss_LatestResourceChange e' = rss_LatestResourceChange e /\
  (lists_of e' = lists_of e \/
   let '(c, u, r, d) := lists_of e in lists_of e' = (c, u, r, d ++ [p])).
Proof.
  unfold handleEventResourceDeletePending, processValidUntil.
  destruct (pe_IsExpired now p); simpl; [intros [= <-]; eauto|].
  case_match; [done|]. intros [= <-]. rewrite lists_of_setResourceTypes.
  rewrite setResourceTypes_latest. split; [done|by right].
Qed.
End added.

Section commands.
Context `{!UUIDLib} `{!StringSet} `{!ContentCodec} (cc : CommandContext).

(** A confirmation finds its command at [i] and removes it. *)
Lemma confirmResourceUpdateRequest_found now e c v i :
  is_Some (cur_CommandMetadata c) ->
  findResourceOperationPendingIndex (cur_CorrelationId c) (elems (rss_ResourceUpdatePendings e))
    = Some i ->
  exists e' ev, confirmResourceUpdateRequest cc now e c v = (e', inr [ev]) /\
    let '(cs, us, rs, ds) := lists_of e in lists_of e' = (cs, delete i us, rs, ds).
Proof.
  intros [cm Hcm] Hi. unfold confirmResourceUpdateRequest, handleEventResourceUpdated.
  rewrite Hcm. cbn -[findResourceOperationPendingIndex]. rewrite Hi. simpl.
  eexists _, _. split; [reflexivity|]. by rewrite lists_of_setResourceTypes.
Qed.
Lemma confirmResourceCreateRequest_found now e c v i :
  is_Some (ccr_CommandMetadata c) ->
  findResourceOperationPendingIndex (ccr_CorrelationId c) (elems (rss_ResourceCreatePendings e))
    = Some i ->
  exists e' ev, confirmResourceCreateRequest cc now e c v = (e', inr [ev]) /\
    let '(cs, us, rs, ds) := lists_of e in lists_of e' = (delete i cs, us, rs, ds).
Proof.
  intros [cm Hcm] Hi. unfold confirmResourceCreateRequest, handleEventResourceCreated.
  rewrite Hcm. cbn -[findResourceOperationPendingIndex]. rewrite Hi. simpl.
  eexists _, _. split; [reflexivity|]. by rewrite lists_of_setResourceTypes.
Qed.
Lemma confirmResourceRetrieveRequest_found now e c v i :
  is_Some (ctr_CommandMetadata c) ->
  findResourceOperationPendingIndex (ctr_CorrelationId c)
    (elems (rss_ResourceRetrievePendings e)) = Some i ->
  exists e' ev, confirmResourceRetrieveRequest cc now e c v = (e', inr [ev]) /\
    let '(cs, us, rs, ds) := lists_of e in lists_of e' = (cs, us, delete i rs, ds).
Proof.
  intros [cm Hcm] Hi. unfold confirmResourceRetrieveRequest, handleEventResourceRetrieved.
  rewrite Hcm. cbn -[findResourceOperationPendingIndex]. rewrite Hi. simpl.
  eexists _, _. split; [reflexivity|]. by rewrite lists_of_setResourceTypes.
Qed.
Lemma findResourceDeletePendingIndex_other e st id :
  st <> Status_OK -> st <> Status_ACCEPTED ->
  findResourceDeletePendingIndex e st id
  = (false, findResourceOperationPendingIndex id (elems (rss_ResourceDeletePendings e))).
Proof. intros. unfold findResourceDeletePendingIndex. by rewrite !bool_decide_eq_false_2. Qed.
Lemma confirmResourceDeleteRequest_found now e c v i :
  is_Some (cdr_CommandMetadata c) -> cdr_Status c <> Status_OK ->
  cdr_Status c <> Status_ACCEPTED ->
  findResourceOperationPendingIndex (cdr_CorrelationId c) (elems (rss_ResourceDeletePendings e))
    = Some i ->
  exists e' ev, confirmResourceDeleteRequest cc now e c v = (e', inr [ev]) /\
    let '(cs, us, rs, ds) := lists_of e in lists_of e' = (cs, us, rs, delete i ds).
Proof.
  intros [cm Hcm] Hs1 Hs2 Hi. unfold confirmResourceDeleteRequest, handleEventResourceDeleted.
  rewrite Hcm. cbn -[findResourceDeletePendingIndex].
  rewrite findResourceDeletePendingIndex_other, Hi by done. simpl.
  eexists _, _. split; [reflexivity|]. by rewrite lists_of_setResourceTypes.
Qed.

Lemma validate_Some e cmd :
  is_Some (rss_LatestResourceChange e) -> validateCommandForNotExistingResource e cmd = true.
Proof. intros [c Hc]. unfold validateCommandForNotExistingResource. by rewrite Hc. Qed.

Lemma validate_confirm_found e :
  (forall c, is_Some (findResourceOperationPendingIndex (cur_CorrelationId c)
                        (elems (rss_ResourceUpdatePendings e))) ->
     validateCommandForNotExistingResource e (CmdConfirmResourceUpdate c) = true) /\
  (forall c, is_Some (findResourceOperationPendingIndex (ccr_CorrelationId c)
                        (elems (rss_ResourceCreatePendings e))) ->
     validateCommandForNotExistingResource e (CmdConfirmResourceCreate c) = true) /\
  (forall c, is_Some (findResourceOperationPendingIndex (cdr_CorrelationId c)
                        (elems (rss_ResourceDeletePendings e))) ->
     validateCommandForNotExistingResource e (CmdConfirmResourceDelete c) = true).
Proof.
  unfold validateCommandForNotExistingResource.
  destruct (rss_LatestResourceChange e); [done|]. split; [|split]; intros c Hi.
  1,2: by apply bool_decide_eq_true.
  unfold findResourceDeletePendingIndex.
  destruct (bool_decide _ || bool_decide _); [done|]. by rewrite (bool_decide_eq_true_2 _ Hi).
Qed.

End commands.

Section accepted.
Context `{!UUIDLib} `{!StringSet} `{!ContentCodec} (cc cc' : CommandContext).

(** The parts of the argument, for each kind of command: the request adds at
    the end of its list, the confirmation is let through and finds it there. *)
Tactic Notation "accepted" hyp(req) reference(handler) constr(added) :=
  unfold HandleCommand in req; case_match; [done|]; unfold handler in req; cases_hyp req;
  apply finish_inr in req as [req _]; apply added in req as [Hlatest [Hsame|Hadded]];
  [by left|right; cbn in Hadded; injection Hadded as L1 L2 L3 L4].
Ltac finds L Ec Hn :=
  destruct (findIndex_added _ _ _ _ _ Hn L Ec eq_refl) as [Hf Hdel].
Ltac confirmed found validated :=
  destruct found as (e2 & ev & He2 & Hl2); exists e2, ev; rewrite validated;
  split; [exact He2|]; cbn in Hl2; rewrite Hl2; unfold lists_of; congruence.

(** A command that was accepted with an identifier not in use either was
    expired from the start and never waits, or is confirmed by the first
    confirmation with its identifier, which produces one event and leaves
    exactly the commands that waited before. *)
Theorem confirm_accepted id clk clk' e req conf v v' e1 evs :
  answers id req conf -> id ∉ all_ids e ->
  HandleCommand cc clk e req v = (e1, inr evs) ->
  lists_of e1 = lists_of e \/
  exists e2 ev, HandleCommand cc' clk' e1 conf v' = (e2, inr [ev]) /\ lists_of e2 = lists_of e.
Proof.
  intros Ha Hid Hreq. unfold all_ids in Hid. cbn in Hid. rewrite !not_elem_of_app in Hid.
  destruct Hid as (Hc & Hu & Hr & Hd).
  destruct (validate_confirm_found e1) as (V1 & V2 & V3).
  destruct Ha as [r c Er Ec Hm|r c Er Ec Hm|r c Er Ec Hm|r c Er Ec Hm S1 S2];
    unfold HandleCommand at 1.
  - accepted Hreq handleUpdateResourceRequest handleEventResourceUpdatePending_lists.
    finds L2 Ec Hu.
    confirmed (confirmResourceUpdateRequest_found cc' (clk' 0) e1 c v' _ Hm Hf) (V1 c (ex_intro _ _ Hf)).
  - accepted Hreq handleCreateResourceRequest handleEventResourceCreatePending_lists.
    finds L1 Ec Hc.
    confirmed (confirmResourceCreateRequest_found cc' (clk' 0) e1 c v' _ Hm Hf) (V2 c (ex_intro _ _ Hf)).
  - accepted Hreq handleRetrieveResourceRequest handleEventResourceRetrievePending_lists.
    finds L3 Ec Hr.
    assert (Hex : is_Some (rss_LatestResourceChange e1)).
    { rewrite Hlatest. destruct (rss_LatestResourceChange e) eqn:He; [done|].
      by unfold validateCommandForNotExistingResource in *; rewrite He in *. }
    confirmed (confirmResourceRetrieveRequest_found cc' (clk' 0) e1 c v' _ Hm Hf)
      (validate_Some e1 (CmdConfirmResourceRetrieve c) Hex).
  - accepted Hreq handleDeleteResourceRequest handleEventResourceDeletePending_lists.
    finds L4 Ec Hd.
    confirmed (confirmResourceDeleteRequest_found cc' (clk' 0) e1 c v' _ Hm S1 S2 Hf)
      (V3 c (ex_intro _ _ Hf)).
Qed.

End accepted.

Section deletion.
Context `{!UUIDLib} `{!StringSet} `{!ContentCodec} (cc : CommandContext).

(** ** A successful deletion *)
Lemma cancel_loop_empty {T} `{!PendingEvent T} (pendings : State -> gslice T) confirm flt clk v e :
  elems (pendings e) = [] -> cancel_range pendings confirm flt clk e v = (e, []).
Proof. intros He. unfold cancel_range. by rewrite He. Qed.

Lemma cancel_nothing clk e req v :
  lists_of e = ([], [], [], []) ->
  exists err, CancelPendingCommandsRequest_ cc clk e req v = (e, inl err).
Proof.
  intros [= Hc Hu Hr Hd]. unfold CancelPendingCommandsRequest_. case_match; [|by eexists].
  unfold cancelResourceCreatePendings. rewrite cancel_loop_empty by done.
  unfold cancelResourceUpdatePendings. rewrite cancel_loop_empty by done.
  unfold cancelResourceRetrievePendings. rewrite cancel_loop_empty by done.
  unfold cancelResourceDeletePendings. rewrite cancel_loop_empty by done. by eexists.
Qed.

(** The commands that only make sense while another one waits. *)
Definition needs_pending (cmd : Command) : bool :=
  match cmd with
  | CmdConfirmResourceUpdate _ | CmdConfirmResourceCreate _ | CmdConfirmResourceRetrieve _
  | CmdCancelPendingCommands _ => true
  | CmdConfirmResourceDelete c =>
      negb (bool_decide (cdr_Status c = Status_OK) || bool_decide (cdr_Status c = Status_ACCEPTED))
  | _ => false
  end.

Lemma needs_pending_fails clk e cmd v :
  needs_pending cmd = true -> lists_of e = ([], [], [], []) ->
  exists err, HandleCommand cc clk e cmd v = (e, inl err).
Proof.
  intros Hn Hl. unfold HandleCommand. case_match; [by eexists|].
  destruct cmd; try done; try (by apply cancel_nothing); injection Hl as Hc Hu Hr Hd.
  - unfold confirmResourceUpdateRequest. case_match; [|by eexists].
    unfold handleEventResourceUpdated. rewrite Hu. by eexists.
  - unfold confirmResourceRetrieveRequest. case_match; [|by eexists].
    unfold handleEventResourceRetrieved. rewrite Hr. by eexists.
  - unfold confirmResourceDeleteRequest. case_match; [|by eexists].
    simpl in Hn. apply negb_true_iff in Hn.
    unfold handleEventResourceDeleted, findResourceDeletePendingIndex. cbn [rd_Status].
    rewrite Hn, Hd. by eexists.
  - unfold confirmResourceCreateRequest. case_match; [|by eexists].
    unfold handleEventResourceCreated. rewrite Hc. by eexists.
Qed.

(** A confirmed deletion (OK or ACCEPTED) always succeeds, even when no
    deletion waits or the resource never reported a content; it drops every
    command that waits and keeps the last content; after it, confirmations
    and cancellations fail and change nothing, until a new command is
    accepted. *)
Theorem confirm_delete_drops clk clk' e req v cmd v' :
  is_Some (cdr_CommandMetadata req) ->
  cdr_Status req = Status_OK \/ cdr_Status req = Status_ACCEPTED ->
  exists e1 ev, HandleCommand cc clk e (CmdConfirmResourceDelete req) v = (e1, inr [ev]) /\
    lists_of e1 = ([], [], [], []) /\
    rss_LatestResourceChange e1 = rss_LatestResourceChange e /\
    (needs_pending cmd = true ->
     exists err, HandleCommand cc clk' e1 cmd v' = (e1, inl err)).
Proof.
  intros [cm Hcm] Hst.
  assert (Hv : validateCommandForNotExistingResource e (CmdConfirmResourceDelete req) = true).
  { unfold validateCommandForNotExistingResource, findResourceDeletePendingIndex.
    case_match; [done|]. by destruct Hst as [-> | ->]. }
  assert (Hh : exists e1 ev, HandleCommand cc clk e (CmdConfirmResourceDelete req) v
      = (e1, inr [ev]) /\ lists_of e1 = ([], [], [], []) /\
      rss_LatestResourceChange e1 = rss_LatestResourceChange e).
  { unfold HandleCommand. rewrite Hv. cbn [negb]. unfold confirmResourceDeleteRequest.
    rewrite Hcm. unfold handleEventResourceDeleted, findResourceDeletePendingIndex.
    cbn [rd_Status]. destruct Hst as [-> | ->]; simpl; (eexists _, _; split; [reflexivity|]);
      by rewrite lists_of_setResourceTypes, setResourceTypes_latest. }
  destruct Hh as (e1 & ev & He1 & Hl & Hlat). exists e1, ev. split_and!; [done..|].
  intros Hn. by apply needs_pending_fails.
Qed.

(** ** Resources that never reported a content *)

(** No command to read such a resource waits: none is accepted. *)
Definition no_early_retrieve (e : State) : Prop :=
  rss_LatestResourceChange e = None -> elems (rss_ResourceRetrievePendings e) = [].

Lemma finish_retrieve r ev e :
  elems (rss_ResourceRetrievePendings e) = [] ->
  (r.2 <> None -> r.1 = e) -> (forall e', r = (e', None) -> (lists_of e').1.2 = (lists_of e).1.2) ->
  elems (rss_ResourceRetrievePendings (finish r ev).1) = [].
Proof.
  destruct r as [e' [err|]]; simpl; intros He Herr Hok; [by rewrite Herr|].
  rewrite <- He. by apply Hok.
Qed.

Lemma fewer_retrieve e e' :
  fewer_pendings e e' -> elems (rss_ResourceRetrievePendings e) = [] ->
  elems (rss_ResourceRetrievePendings e') = [].
Proof.
  intros [_ _ Hf _] He. rewrite He in Hf. apply sublist_nil_r in Hf. done.
Qed.

Ltac retrieve_kept He err added :=
  repeat (case_match; try done); apply (finish_retrieve _ _ _ He (err _ _ _));
  intros e' He'; apply added in He' as [_ [Hs|Hs]];
  unfold lists_of in *; cbn in *; congruence.

Lemma HandleCommand_no_early_retrieve clk e cmd v :
  is_u64 v -> no_early_retrieve e -> no_early_retrieve (HandleCommand cc clk e cmd v).1.
Proof.
  intros Hv He. unfold no_early_retrieve.
  destruct (rss_LatestResourceChange e) as [l|] eqn:Hl.
  { intros Hn. assert (Hs : is_Some (rss_LatestResourceChange (HandleCommand cc clk e cmd v).1)).
    { apply HandleCommand_invariant; [apply handleByEvent_latest|done|by rewrite Hl]. }
    rewrite Hn in Hs. by destruct Hs. }
  intros _. specialize (He Hl).
  unfold HandleCommand. destruct (validateCommandForNotExistingResource e cmd) eqn:Hval; [|done].
  cbn [negb]. destruct cmd; try done.
  - unfold handleNotifyResourceChangedRequest. case_match; [|done].
    match goal with |- context [handleEventResourceChanged e ?c] =>
      pose proof (handleEventResourceChanged_fewer e c) as Hf end.
    destruct (handleEventResourceChanged _ _) as [e' []]; by apply (fewer_retrieve e e').
  - unfold handleUpdateResourceRequest.
    retrieve_kept He handleEventResourceUpdatePending_err handleEventResourceUpdatePending_lists.
  - by eapply fewer_retrieve, He; apply confirmResourceUpdateRequest_fewer.
  - unfold validateCommandForNotExistingResource in Hval. by rewrite Hl in Hval.
  - by eapply fewer_retrieve, He; apply confirmResourceRetrieveRequest_fewer.
  - unfold handleDeleteResourceRequest.
    retrieve_kept He handleEventResourceDeletePending_err handleEventResourceDeletePending_lists.
  - by eapply fewer_retrieve, He; apply confirmResourceDeleteRequest_fewer.
  - unfold handleCreateResourceRequest.
    retrieve_kept He handleEventResourceCreatePending_err handleEventResourceCreatePending_lists.
  - by eapply fewer_retrieve, He; apply confirmResourceCreateRequest_fewer.
  - by eapply fewer_retrieve, He; apply CancelPendingCommandsRequest_fewer.
Qed.
End deletion.

(** The states that commands alone lead to. *)
Inductive commanded `{!UUIDLib} `{!StringSet} `{!ContentCodec} : State -> Prop :=
  | commanded_new : commanded NewResourceStateSnapshotTaken
  | commanded_step cc clk e cmd v :
      is_u64 v -> commanded e -> commanded (HandleCommand cc clk e cmd v).1
  | commanded_snapshot now e v : commanded e -> commanded (TakeSnapshot now e v).

Section cancel_check.
Context `{!UUIDLib} `{!StringSet, !StringSetLaws} `{!ContentCodec}.

Lemma commanded_no_early_retrieve e : commanded e -> no_early_retrieve e.
Proof.
  induction 1; [done|by apply HandleCommand_no_early_retrieve|done].
Qed.

Lemma cancel_range_none {T B} `{!PendingEvent T} (pendings : State -> gslice T)
    (others : State -> B) confirm flt clk v e :
  removes pendings others confirm True ->
  elems (pendings e) = [] \/
  flt <> [] /\ existsb (fun ev => HasOneOf (MakeSet flt) (pe_CorrelationId ev))
                 (elems (pendings e)) = false ->
  cancel_range pendings confirm (MakeSet flt) clk e v = (e, []).
Proof.
  intros Hc [He|[Hne Hex]]; [by apply cancel_loop_empty|].
  apply (cancel_loop_none _ _ _ _ Hc). apply Forall_forall. intros p Hp. unfold filtered_out.
  destruct (set_len (MakeSet flt)) eqn:Hl; [by apply set_len_MakeSet in Hl|]. simpl.
  apply negb_true_iff, not_true_is_false. intros Hh.
  assert (Ht : existsb (fun ev => HasOneOf (MakeSet flt) (pe_CorrelationId ev))
                 (elems (pendings e)) = true).
  { apply existsb_exists. exists p. split; [by apply list_elem_of_In in Hp|done]. }
  congruence.
Qed.

(** The check for resources that never reported a content does not look
    at the commands to read the resource.  It need not: on every state that
    commands lead to, a cancellation it turns away would have found nothing to
    cancel. *)
Theorem cancel_check_complete cc clk e req v :
  commanded e -> rss_LatestResourceChange e = None ->
  validateCommandForNotExistingResource e (CmdCancelPendingCommands req) = false ->
  exists err, CancelPendingCommandsRequest_ cc clk e req v = (e, inl err).
Proof.
  intros Hcom Hl Hval. apply commanded_no_early_retrieve in Hcom. specialize (Hcom Hl).
  unfold validateCommandForNotExistingResource in Hval. rewrite Hl in Hval.
  unfold validateCancelPendingCommandsForNotExistingResource in Hval.
  destruct req as [rid flt [cm|]]; [|by eexists].
  cbn [cpr_CorrelationIdFilter] in Hval. unfold CancelPendingCommandsRequest_.
  cbn [cpr_CommandMetadata]. unfold cancelResourceCreatePendings, cancelResourceUpdatePendings,
    cancelResourceRetrievePendings, cancelResourceDeletePendings.
  cbn [cpr_CommandMetadata cpr_ResourceId cpr_CorrelationIdFilter].
  assert (Hnone : (elems (rss_ResourceUpdatePendings e) = [] /\
     elems (rss_ResourceCreatePendings e) = [] /\ elems (rss_ResourceDeletePendings e) = []) \/
     flt <> [] /\ existsb (fun ev => HasOneOf (MakeSet flt) (pe_CorrelationId ev))
         (elems (rss_ResourceUpdatePendings e)) = false /\
       existsb (fun ev => HasOneOf (MakeSet flt) (pe_CorrelationId ev))
         (elems (rss_ResourceCreatePendings e)) = false /\
       existsb (fun ev => HasOneOf (MakeSet flt) (pe_CorrelationId ev))
         (elems (rss_ResourceDeletePendings e)) = false).
  { case_match eqn:Hlen.
    - left. bool_prop. repeat match goal with H : (_ =? 0) = true |- _ => apply Nat.eqb_eq in H end.
      split_and!; by apply nil_length_inv.
    - right. destruct flt; [done|]. cbn in Hval. bool_prop. by split_and!. }
  rewrite (cancel_range_none _ _ _ _ _ _ _ (removes_create cc rid cm)) by (destruct Hnone; naive_solver).
  rewrite (cancel_range_none _ _ _ _ _ _ _ (removes_update cc rid cm)) by (destruct Hnone; naive_solver).
  rewrite (cancel_range_none _ _ _ _ _ _ _ (removes_retrieve cc rid cm)) by (by left).
  rewrite (cancel_range_none _ _ _ _ _ _ _ (removes_delete cc rid cm)) by (destruct Hnone; naive_solver).
  by eexists.
Qed.
End cancel_check.

(** ** The conversion of contents *)
Section convert.
Context `{!ContentCodec}.

(** The type of a content: the one it names, or that of its format. *)
Definition contentType (content : option Content) : string :=
  if (0 <=? content ~> ct_CoapContentFormat)%Z && String.eqb (content ~> ct_ContentType) ""
  then MediaType_String (content ~> ct_CoapContentFormat) else content ~> ct_ContentType.

(** A content is passed on unchanged when the resource reports no type
    or its type; otherwise the result has exactly the reported type and its
    bytes are the encoding, in that type, of what the bytes of the original
    decode to in theirs; every failure answers InvalidArgument. *)
Theorem convertContent_spec content supported :
  match convertContent content supported with
  | inr content' =>
      (supported = ""%string \/ supported = contentType content) /\ content' = content \/
      contentType content' = supported /\
      exists decode encode format m data,
        decoder (contentType content) = Some decode /\ encoder supported = Some (encode, format) /\
        decode (content ~> ct_Data) = inr m /\ encode m = inr data /\
        content' ~> ct_Data = Some data
  | inl err => error_code err = InvalidArgument
  end.
Proof.
  unfold convertContent. cbv zeta. fold (contentType content).
  destruct (String.eqb_spec supported "") as [->|Hs].
  { rewrite String.eqb_refl. eauto. }
  destruct (String.eqb_spec supported (contentType content)) as [->|Hne]; [eauto|].
  destruct (encoder supported) as [[encode format]|] eqn:He; [|done].
  destruct (decoder (contentType content)) as [decode|] eqn:Hd; [|done].
  destruct (decode _) as [|m] eqn:Hm; [done|]. destruct (encode m) as [|data] eqn:Hdata; [done|].
  right. split; [|by eauto 10]. unfold encoder in He.
  assert (Hf : supported = MediaType_String format).
  { repeat (case_match; bool_prop; simplify_eq; try done). }
  unfold contentType. simpl. rewrite <- Hf.
  destruct (String.eqb_spec supported ""); [done|]. by rewrite andb_false_r.
Qed.
End convert.
