(* ===== verification/ResourceLinks.v ===== *)
(** * The resource links of a device

    resource-aggregate/events/resourceLinksSnapshotTaken.go: the aggregate of the
    links that a device has published, a map from the href of a resource to its
    link.  Go ranges over a map in an order of its own: every function that does
    takes that order, [order m] listing the keys of [m]. *)

From Stdlib Require Import ZArith Lia String Ascii.
From S2P Require Import Prelude Commands Events EventStore Handler.

#[local] Abbreviation State := ResourceLinksSnapshotTaken.

(** ** coap-gateway/resource: the instance identifier of a resource

    hash/crc32 with the IEEE table: the reflected polynomial 0xedb88320. *)
Definition crc32_bit (c : Z) : Z :=
  if Z.testbit c 0 then Z.lxor (Z.shiftr c 1) 3988292384 else Z.shiftr c 1.
Definition crc32_byte (c : Z) (b : ascii) : Z :=
  Nat.iter 8 crc32_bit (Z.lxor c (Z.of_nat (nat_of_ascii b))).
Fixpoint crc32_update (c : Z) (s : string) : Z :=
  match s with
  | EmptyString => c
  | String b s => crc32_update (crc32_byte c b) s
  end.
Definition crc32 (s : string) : Z := Z.lxor (crc32_update 4294967295 s) 4294967295.

Definition GetInstanceID (href : string) : Z := crc32 href.

Example crc32_check_value : crc32 "123456789" = 3421780262%Z.
Proof. reflexivity. Qed.

(** ** Publishing *)
Definition set_rls (d : string) (r : option (gmap string Resource))
    (em : option EventMetadata) (ac : option AuditContext) : State :=
  MkResourceLinksSnapshotTaken d r em ac.

(** The links of a map that may be nil, as lookups and ranges see them. *)
Definition links (e : State) : gmap string Resource := default ∅ (rls_Resources e).

Definition GetNewPublishedLinks (e : State) (pub : ResourceLinksPublished) : gslice Resource :=
  match rls_Resources e with
  | None => rlp_Resources pub
  | Some resources =>
      Some (filter (fun resPub =>
              match resources !! res_Href resPub with
              | None => true
              | Some resSnap => negb (EqualResource resPub resSnap)
              end = true) (elems (rlp_Resources pub)))
  end.

(** The loop that stores the published links; the map is made when needed. *)
Definition store_links (resources : option (gmap string Resource)) (published : list Resource)
    : option (gmap string Resource) :=
  fold_left (fun resources res => Some (<[res_Href res := res]> (default ∅ resources)))
    published resources.

Definition HandleEventResourceLinksPublished (e : State) (pub : ResourceLinksPublished)
    : State * gslice Resource :=
  let published := GetNewPublishedLinks e pub in
  (set_rls (rlp_DeviceId pub) (store_links (rls_Resources e) (elems published))
     (rlp_EventMetadata pub) (rlp_AuditContext pub), published).

(** ** Unpublishing *)
(** The loop over the hrefs: those present are returned and deleted. *)
Fixpoint unpublish_hrefs (resources : gmap string Resource) (hrefs : list string)
    : gmap string Resource * list string :=
  match hrefs with
  | [] => (resources, [])
  | href :: hrefs =>
      match resources !! href with
      | Some _ =>
          let '(resources, unpublished) := unpublish_hrefs (delete href resources) hrefs in
          (resources, href :: unpublished)
      | None => unpublish_hrefs resources hrefs
      end
  end.

(** The map from instance identifiers to hrefs: of two hrefs with the same
    identifier the one ranged over last wins. *)
Definition instanceIDToHref (hrefs : list string) : gmap Z string :=
  fold_left (fun m href => <[GetInstanceID href := href]> m) hrefs ∅.

Fixpoint unpublish_instances (resources : gmap string Resource) (ids : gmap Z string)
    (instanceIDs : list Z) : gmap string Resource * list string :=
  match instanceIDs with
  | [] => (resources, [])
  | insID :: instanceIDs =>
      match ids !! insID with
      | Some href =>
          let '(resources, unpublished) :=
            unpublish_instances (delete href resources) (delete insID ids) instanceIDs in
          (resources, href :: unpublished)
      | None => unpublish_instances resources ids instanceIDs
      end
  end.

Definition unpublishResourceLinksAndUpdateCache (order : gmap string Resource -> list string)
    (e : State) (instanceIDs : list Z) (upub : ResourceLinksUnpublished)
    : option (gmap string Resource) * gslice string :=
  let resources := links e in
  if (size resources =? 0)%nat then (rls_Resources e, None)
  else if (length (elems (rlu_Hrefs upub)) =? 0)%nat && (length instanceIDs =? 0)%nat
  then (Some ∅, Some (order resources))
  else
    let '(resources, unpublished) := unpublish_hrefs resources (elems (rlu_Hrefs upub)) in
    if (length instanceIDs =? 0)%nat then (Some resources, Some unpublished)
    else
      let '(resources, more) :=
        unpublish_instances resources (instanceIDToHref (order resources)) instanceIDs in
      (Some resources, Some (unpublished ++ more)).

Definition HandleEventResourceLinksUnpublished (order : gmap string Resource -> list string)
    (e : State) (instanceIDs : list Z) (upub : ResourceLinksUnpublished) : State * gslice string :=
  let '(resources, unpublished) := unpublishResourceLinksAndUpdateCache order e instanceIDs upub in
  (set_rls (rls_DeviceId e) resources (rlu_EventMetadata upub) (rlu_AuditContext upub),
   unpublished).

Definition HandleEventResourceLinksSnapshotTaken (e s : State) : State :=
  ResourceLinksSnapshotTaken_CopyData e s.

(** ** Replay *)
Section replay.
Context `{!UUIDLib} {D : Type} `{!Unmarshaler D ResourceLinksSnapshotTaken}
  `{!Unmarshaler D ResourceLinksPublished} `{!Unmarshaler D ResourceLinksUnpublished}
  (order : gmap string Resource -> list string).

(** The clock is not read. *)
Definition handleByEvent (_ : time_) (e : State) (eu : LoadedEvent D) : State * option error :=
  let ty := le_eventType eu in
  if String.eqb ty "resourcelinkssnapshottaken" then
    unmarshal_case e eu (HandleEventResourceLinksSnapshotTaken e)
  else if String.eqb ty "resourcelinkspublished" then
    unmarshal_case e eu (fun s => (HandleEventResourceLinksPublished e s).1)
  else if String.eqb ty "resourcelinksunpublished" then
    unmarshal_case e eu (fun s => (HandleEventResourceLinksUnpublished order e [] s).1)
  else (e, None).

Definition Handle := handle_loop handleByEvent.
End replay.

(** ** Commands *)
Definition errInvalidVersion : error := Errorf NotFound "invalid version for events".

Definition HandleCommand (cc : CommandContext) (order : gmap string Resource -> list string)
    (now : time_) (e : State) (cmd : Command) (newVersion : Z) : State * result (list AnyEvent) :=
  match cmd with
  | CmdPublishResourceLinks req =>
      match plr_CommandMetadata req with
      | None => (e, inl errInvalidCommandMetadata)
      | Some _ =>
          let rlp := {|
            rlp_Resources := plr_Resources req; rlp_DeviceId := plr_DeviceId req;
            rlp_AuditContext := Some (command_audit cc "");
            rlp_EventMetadata := Some (command_meta cc now (plr_CommandMetadata req) newVersion);
            rlp_OpenTelemetryCarrier := cc_trace cc |} in
          let '(e, published) := HandleEventResourceLinksPublished e rlp in
          if (length (elems published) =? 0)%nat then (e, inr [])
          else (e, inr [EvResourceLinksPublished
                 {| rlp_Resources := published; rlp_DeviceId := rlp_DeviceId rlp;
                    rlp_AuditContext := rlp_AuditContext rlp;
                    rlp_EventMetadata := rlp_EventMetadata rlp;
                    rlp_OpenTelemetryCarrier := rlp_OpenTelemetryCarrier rlp |}])
      end
  | CmdUnpublishResourceLinks req =>
      if (newVersion =? 0)%Z then (e, inl errInvalidVersion)
      else match ulr_CommandMetadata req with
      | None => (e, inl errInvalidCommandMetadata)
      | Some _ =>
          let rlu := {|
            rlu_DeviceId := ulr_DeviceId req; rlu_Hrefs := Some (ulr_Hrefs req);
            rlu_AuditContext := Some (command_audit cc "");
            rlu_EventMetadata := Some (command_meta cc now (ulr_CommandMetadata req) newVersion);
            rlu_OpenTelemetryCarrier := cc_trace cc |} in
          let '(e, unpublished) :=
            HandleEventResourceLinksUnpublished order e (ulr_InstanceIds req) rlu in
          if (length (elems unpublished) =? 0)%nat then (e, inr [])
          else (e, inr [EvResourceLinksUnpublished
                 {| rlu_DeviceId := rlu_DeviceId rlu; rlu_Hrefs := unpublished;
                    rlu_AuditContext := rlu_AuditContext rlu;
                    rlu_EventMetadata := rlu_EventMetadata rlu;
                    rlu_OpenTelemetryCarrier := rlu_OpenTelemetryCarrier rlu |}])
      end
  | _ => (e, inl (errors_New "unknown command (%T)"))
  end.

Definition TakeSnapshot (now : time_) (e : State) (version : Z) : State :=
  {| rls_DeviceId := rls_DeviceId e;
     rls_EventMetadata :=
       Some (MakeEventMeta now ((rls_EventMetadata e) ~> em_ConnectionId)
               ((rls_EventMetadata e) ~> em_Sequence) version
               ((rls_EventMetadata e) ~> em_HubId));
     rls_Resources := Some (links e); rls_AuditContext := rls_AuditContext e |}.

Definition NewResourceLinksSnapshotTaken : State :=
  {| rls_DeviceId := ""; rls_Resources := Some ∅;
     rls_EventMetadata := Some (MkEventMetadata 0 0 "" 0 ""); rls_AuditContext := None |}.

Definition ToResourceLinksPublished (order : gmap string Resource -> list string) (e : State)
    : ResourceLinksPublished :=
  {| rlp_DeviceId := rls_DeviceId e; rlp_EventMetadata := rls_EventMetadata e;
     rlp_Resources := Some (omap (fun href => links e !! href) (order (links e)));
     rlp_AuditContext := rls_AuditContext e; rlp_OpenTelemetryCarrier := [] |}.
