(* ===== verification/ResourceLinksFacts.v ===== *)
(** * Properties of the resource links of a device

    What publishing and unpublishing do to the map of links; the key of a link
    is its href; the events of a command rebuild the links; snapshots change no
    answer. *)

From Stdlib Require Import ZArith Lia String.
From S2P Require Import Prelude Commands Events EventStore Handler ResourceLinks.

#[local] Abbreviation State := ResourceLinksSnapshotTaken.

(** The orders in which Go may range over a map. *)
Definition map_order (order : gmap string Resource -> list string) : Prop :=
  forall m, order m ≡ₚ (map_to_list m).*1.

Lemma map_order_elem order m k : map_order order -> k ∈ order m <-> is_Some (m !! k).
Proof.
  intros Ho. rewrite (Ho m). rewrite list_elem_of_fmap. split.
  - intros ([k' v] & -> & Hin). apply elem_of_map_to_list in Hin. by eexists.
  - intros [v Hv]. exists (k, v). split; [done|]. by apply elem_of_map_to_list.
Qed.

(** ** Removing keys *)
Definition without_keys (l : list string) (m : gmap string Resource) : gmap string Resource :=
  filter (fun kv => kv.1 ∉ l) m.

Lemma lookup_without_keys l m k :
  without_keys l m !! k = if decide (k ∈ l) then None else m !! k.
Proof.
  unfold without_keys. destruct (decide (k ∈ l)) as [Hin|Hin].
  - apply map_lookup_filter_None. right. intros x _. simpl. by intros Hn.
  - destruct (m !! k) as [r|] eqn:Hm.
    + apply map_lookup_filter_Some. by split.
    + apply map_lookup_filter_None. by left.
Qed.

Lemma without_keys_delete k l m : without_keys l (delete k m) = without_keys (k :: l) m.
Proof.
  apply map_eq. intros j. rewrite !lookup_without_keys.
  destruct (decide (j = k)) as [->|Hne].
  - rewrite lookup_delete_eq. repeat case_decide; set_solver.
  - rewrite lookup_delete_ne by done. repeat case_decide; set_solver.
Qed.

Lemma without_keys_app l k m : without_keys k (without_keys l m) = without_keys (l ++ k) m.
Proof.
  apply map_eq. intros j. rewrite !lookup_without_keys. repeat case_decide; set_solver.
Qed.

Lemma without_keys_nil m : without_keys [] m = m.
Proof. apply map_eq. intros j. rewrite lookup_without_keys. case_decide; set_solver. Qed.

(** The two loops of unpublishing. *)
Lemma unpublish_hrefs_spec m hrefs :
  (unpublish_hrefs m hrefs).1 = without_keys hrefs m /\
  (forall k, k ∈ (unpublish_hrefs m hrefs).2 <-> k ∈ hrefs /\ is_Some (m !! k)).
Proof.
  revert m. induction hrefs as [|h hrefs IH]; intros m; simpl.
  { rewrite without_keys_nil. split; [done|]. set_solver. }
  destruct (m !! h) as [r|] eqn:Hm.
  - destruct (IH (delete h m)) as [IH1 IH2].
    destruct (unpublish_hrefs (delete h m) hrefs) as [m' un]; simpl in *.
    rewrite IH1, without_keys_delete. split; [done|]. intros k. rewrite !elem_of_cons, IH2.
    destruct (decide (k = h)) as [->|Hne].
    + rewrite Hm. naive_solver.
    + rewrite lookup_delete_ne by done. naive_solver.
  - destruct (IH m) as [IH1 IH2]. rewrite IH1. split.
    + apply map_eq. intros j. rewrite !lookup_without_keys.
      destruct (decide (j = h)) as [->|]; repeat case_decide; set_solver.
    + intros k. rewrite IH2, elem_of_cons. split; [naive_solver|].
      intros [[->|?] Hs]; [|done]. rewrite Hm in Hs. by destruct Hs.
Qed.

(** Deleting the reported hrefs again gives the same map. *)
Lemma unpublish_hrefs_reported m hrefs :
  without_keys (unpublish_hrefs m hrefs).2 m = (unpublish_hrefs m hrefs).1.
Proof.
  destruct (unpublish_hrefs_spec m hrefs) as [-> H2]. apply map_eq. intros k.
  rewrite !lookup_without_keys. destruct (m !! k) eqn:Hm; repeat case_decide; try done.
  - destruct (proj1 (H2 k)); done.
  - exfalso. apply H. apply H2. split; [done|]. by eexists.
Qed.

Lemma unpublish_instances_spec m ids insts :
  (unpublish_instances m ids insts).1 = without_keys (unpublish_instances m ids insts).2 m /\
  (forall k, k ∈ (unpublish_instances m ids insts).2 <-> exists i, i ∈ insts /\ ids !! i = Some k).
Proof.
  revert m ids. induction insts as [|i insts IH]; intros m ids; simpl.
  { rewrite without_keys_nil. split; [done|]. set_solver. }
  destruct (ids !! i) as [h|] eqn:Hi.
  - destruct (IH (delete h m) (delete i ids)) as [IH1 IH2].
    destruct (unpublish_instances (delete h m) (delete i ids) insts) as [m' un]; simpl in *.
    rewrite IH1, without_keys_delete. split; [done|]. intros k. rewrite elem_of_cons, IH2. split.
    + intros [->|(j & Hj & Hk)]; [exists i; set_solver|].
      apply lookup_delete_Some in Hk as [? ?]. exists j. set_solver.
    + intros (j & Hj & Hk). destruct (decide (j = i)) as [->|Hne]; [left; congruence|].
      right. exists j. split; [set_solver|]. by rewrite lookup_delete_ne.
  - destruct (IH m ids) as [IH1 IH2]. split; [done|]. intros k. rewrite IH2.
    split; intros (j & Hj & Hk); exists j; (split; [|done]); [by right|].
    apply elem_of_cons in Hj as [->|?]; [congruence|done].
Qed.

(** The identifier map holds, for an identifier, some href that has it. *)
Lemma instanceIDToHref_spec hrefs i :
  match instanceIDToHref hrefs !! i with
  | Some h => h ∈ hrefs /\ GetInstanceID h = i
  | None => forall h, h ∈ hrefs -> GetInstanceID h <> i
  end.
Proof.
  unfold instanceIDToHref.
  induction hrefs as [|h hrefs IH] using rev_ind; [simpl; set_solver|].
  rewrite fold_left_app. simpl. destruct (decide (GetInstanceID h = i)) as [<-|Hne].
  - rewrite lookup_insert_eq. set_solver.
  - rewrite lookup_insert_ne by done. destruct (fold_left _ _ _ !! i); set_solver.
Qed.

(** ** What unpublishing removes *)
Section unpublish.
Context (order : gmap string Resource -> list string) (Horder : map_order order).

(** The links and the hrefs that a call leaves and reports. *)
Lemma unpublish_cases e instanceIDs upub :
  let '(resources, unpublished) :=
    unpublishResourceLinksAndUpdateCache order e instanceIDs upub in
  default ∅ resources = without_keys (elems unpublished) (links e) /\
  (elems unpublished = [] -> resources = rls_Resources e) /\
  (forall k, k ∈ elems unpublished <-> is_Some (links e !! k) /\
     ((elems (rlu_Hrefs upub) = [] /\ instanceIDs = []) \/ k ∈ elems (rlu_Hrefs upub) \/
      exists i, i ∈ instanceIDs /\
        instanceIDToHref (order (unpublish_hrefs (links e) (elems (rlu_Hrefs upub))).1) !! i
        = Some k)).
Proof.
  unfold unpublishResourceLinksAndUpdateCache.
  destruct (size (links e) =? 0) eqn:Hsize.
  { apply Nat.eqb_eq, map_size_empty_iff in Hsize. unfold elems, default. simpl.
    change (default ∅ (rls_Resources e)) with (links e). rewrite Hsize. split_and!.
    - by rewrite without_keys_nil.
    - done.
    - intros k. rewrite lookup_empty. split; [set_solver|]. intros [[? ?] _]. done. }
  apply Nat.eqb_neq in Hsize.
  assert (Hsome : rls_Resources e = Some (links e)).
  { unfold links in *. destruct (rls_Resources e); [done|]. destruct Hsize. apply map_size_empty. }
  destruct (_ && _) eqn:Hall.
  { apply andb_true_iff in Hall as [Hh%Nat.eqb_eq%nil_length_inv Hi%Nat.eqb_eq%nil_length_inv].
    rewrite Hh. cbn [elems from_option id]. split_and!.
    - apply map_eq. intros k. rewrite lookup_empty, lookup_without_keys. case_decide; [done|].
      rewrite map_order_elem in H by done. destruct (links e !! k); [|done]. by destruct H.
    - intros Hnil. rewrite Hsome. f_equal. symmetry. apply map_empty. intros k.
      apply eq_None_not_Some. rewrite <- (map_order_elem order) by done. rewrite Hnil. set_solver.
    - intros k. cbn. rewrite map_order_elem by done. naive_solver. }
  destruct (unpublish_hrefs_spec (links e) (elems (rlu_Hrefs upub))) as [H1 H2].
  pose proof (unpublish_hrefs_reported (links e) (elems (rlu_Hrefs upub))) as H3.
  destruct (unpublish_hrefs (links e) (elems (rlu_Hrefs upub))) as [m un].
  cbn [fst snd] in *.
  destruct (length instanceIDs =? 0) eqn:Hins.
  { apply Nat.eqb_eq, nil_length_inv in Hins. subst instanceIDs. cbn [elems from_option id].
    split_and!; [done| |].
    - intros Hn. cbn in Hn. rewrite Hn, without_keys_nil in H3. by rewrite Hsome, H3.
    - intros k. cbn. rewrite H2. split; [naive_solver|].
      intros [Hk [[Hn _]|[Hin|(i & Hi & _)]]]; [|done|set_solver].
      rewrite Hn in Hall. done. }
  destruct (unpublish_instances_spec m (instanceIDToHref (order m)) instanceIDs) as [H4 H5].
  destruct (unpublish_instances m _ _) as [m2 un2]. cbn [fst snd elems from_option id] in *.
  split_and!.
  - rewrite H4, <- H3, without_keys_app. done.
  - intros Hn. cbn in Hn. apply app_eq_nil in Hn as [-> ->]. rewrite without_keys_nil in *.
    rewrite Hsome. congruence.
  - intros k. cbn. rewrite elem_of_app, H2, H5. split.
    + intros [[Hk Hs]|(i & Hi & Hk)]; [naive_solver|]. split; [|eauto].
      pose proof (instanceIDToHref_spec (order m) i) as Hspec. rewrite Hk in Hspec.
      destruct Hspec as [Hin _]. apply map_order_elem in Hin; [|done].
      rewrite H1, lookup_without_keys in Hin. by case_decide; [destruct Hin|].
    + intros [Hs [[Hn ->]|[Hk|Hk]]]; [by rewrite Hn in Hall|by left|by right].
Qed.

(** Unpublishing removes a link only if its href is listed, its instance
    identifier is listed, or nothing is listed; it removes every link whose
    href is listed, and every one whose identifier is, when no two links of
    the device have the same identifier; the reported hrefs are exactly those
    of the removed links, and all other links stay as they are. *)
Theorem HandleEventResourceLinksUnpublished_links e instanceIDs upub :
  let '(e', unpublished) := HandleEventResourceLinksUnpublished order e instanceIDs upub in
  let hrefs := elems (rlu_Hrefs upub) in
  (forall k, k ∈ elems unpublished -> links e' !! k = None /\ is_Some (links e !! k) /\
     (hrefs = [] /\ instanceIDs = [] \/ k ∈ hrefs \/ GetInstanceID k ∈ instanceIDs)) /\
  (forall k, k ∉ elems unpublished -> links e' !! k = links e !! k) /\
  (forall k, k ∈ hrefs \/ hrefs = [] /\ instanceIDs = [] -> links e' !! k = None) /\
  ((forall k j, is_Some (links e !! k) -> is_Some (links e !! j) ->
      GetInstanceID k = GetInstanceID j -> k = j) ->
   forall k, GetInstanceID k ∈ instanceIDs -> links e' !! k = None).
Proof.
  unfold HandleEventResourceLinksUnpublished. cbv zeta.
  pose proof (unpublish_cases e instanceIDs upub) as Hc.
  destruct (unpublishResourceLinksAndUpdateCache order e instanceIDs upub) as [res un].
  destruct Hc as (Hm & _ & Hu).
  change (links (set_rls (rls_DeviceId e) res (rlu_EventMetadata upub) (rlu_AuditContext upub)))
    with (default ∅ res : gmap string Resource).
  assert (Hl : forall k, default ∅ res !! k
                 = if decide (k ∈ elems un) then None else links e !! k).
  { intros k. rewrite Hm. apply lookup_without_keys. }
  assert (Hin : forall k, is_Some (links e !! k) -> k ∈ elems un -> default ∅ res !! k = None).
  { intros k _ Hk. rewrite Hl. by case_decide. }
  assert (Hrm : forall k, (is_Some (links e !! k) -> k ∈ elems un) -> default ∅ res !! k = None).
  { intros k Hk. rewrite Hl. case_decide as Hd; [done|]. apply eq_None_not_Some. naive_solver. }
  split_and!.
  - intros k Hk. rewrite Hl. case_decide; [|done]. apply Hu in Hk as [Hs Hk].
    split_and!; [done|done|]. destruct Hk as [?|[?|(i & Hi & Hk)]]; [by left|naive_solver|].
    pose proof (instanceIDToHref_spec
      (order (unpublish_hrefs (links e) (elems (rlu_Hrefs upub))).1) i) as Hspec.
    rewrite Hk in Hspec. destruct Hspec as [_ <-]. naive_solver.
  - intros k Hk. rewrite Hl. by case_decide.
  - intros k Hk. apply Hrm. intros Hs. apply Hu. naive_solver.
  - intros Hinj k Hk. apply Hrm. intros Hs. apply Hu. split; [done|].
    destruct (decide (k ∈ elems (rlu_Hrefs upub))) as [?|Hnin]; [naive_solver|].
    right; right. exists (GetInstanceID k). split; [done|].
    set (m := (unpublish_hrefs (links e) (elems (rlu_Hrefs upub))).1).
    assert (Hkm : forall j, j ∈ order m <->
              (j ∉ elems (rlu_Hrefs upub)) /\ is_Some (links e !! j)).
    { intros j. rewrite map_order_elem by done. unfold m.
      destruct (unpublish_hrefs_spec (links e) (elems (rlu_Hrefs upub))) as [-> _].
      rewrite lookup_without_keys. case_decide; [|naive_solver].
      split; [by intros [? ?]|naive_solver]. }
    pose proof (instanceIDToHref_spec (order m) (GetInstanceID k)) as Hspec.
    destruct (instanceIDToHref (order m) !! GetInstanceID k) as [j|].
    + destruct Hspec as [Hj Heq]. apply Hkm in Hj as [_ Hj]. f_equal. by apply Hinj.
    + exfalso. apply (Hspec k); [|done]. by apply Hkm.
Qed.
End unpublish.

(** ** What publishing stores *)
Lemma EqualStringSlice_refl l : EqualStringSlice l l = true.
Proof.
  unfold EqualStringSlice. rewrite Nat.eqb_refl. simpl.
  induction l as [|x l IH]; [done|]. simpl. by rewrite String.eqb_refl.
Qed.
Lemma EqualResource_refl r : EqualResource r r = true.
Proof.
  unfold EqualResource. rewrite !String.eqb_refl, !EqualStringSlice_refl, !Z.eqb_refl.
  by destruct (res_Policy r).
Qed.

Lemma store_links_absent rs published k :
  k ∉ (res_Href <$> published) ->
  default ∅ (store_links rs published) !! k = default ∅ rs !! k.
Proof.
  unfold store_links. revert rs. induction published as [|r l IH]; intros rs Hk; [done|].
  rewrite fmap_cons, not_elem_of_cons in Hk. destruct Hk as [Hr Hk]. cbn [fold_left].
  rewrite IH by done. by apply lookup_insert_ne.
Qed.

Lemma store_links_present rs published r :
  NoDup (res_Href <$> published) -> r ∈ published ->
  default ∅ (store_links rs published) !! res_Href r = Some r.
Proof.
  unfold store_links. revert rs. induction published as [|x l IH]; intros rs Hnd Hr; [set_solver|].
  rewrite fmap_cons, NoDup_cons in Hnd. destruct Hnd as [Hx Hnd]. cbn [fold_left].
  apply elem_of_cons in Hr as [<-|Hr]; [|by apply IH].
  pose proof (store_links_absent (Some (<[res_Href r := r]> (default ∅ rs))) l _ Hx) as Ha.
  unfold store_links in Ha. rewrite Ha. apply lookup_insert_eq.
Qed.

Lemma elems_GetNewPublishedLinks e pub :
  elems (GetNewPublishedLinks e pub)
  = filter (fun r => match links e !! res_Href r with
                     | None => true | Some s => negb (EqualResource r s) end = true)
      (elems (rlp_Resources pub)).
Proof.
  unfold GetNewPublishedLinks, links. destruct (rls_Resources e) as [m|]; [done|].
  cbn [from_option]. induction (elems (rlp_Resources pub)) as [|r l IH]; [done|].
  by rewrite filter_cons_True, <- IH.
Qed.

(** Publishing links with distinct hrefs leaves, for each of them, a link
    that the code holds equal to it (the same one, unless such a link was
    already there), and every other link as it was; it reports exactly those
    that were not there or not equal; and publishing the same links again
    reports none and changes no link. *)
Theorem HandleEventResourceLinksPublished_links e pub pub' :
  NoDup (res_Href <$> elems (rlp_Resources pub)) ->
  elems (rlp_Resources pub') = elems (rlp_Resources pub) ->
  let '(e', published) := HandleEventResourceLinksPublished e pub in
  (forall r, r ∈ elems (rlp_Resources pub) ->
     exists s, links e' !! res_Href r = Some s /\ EqualResource r s = true /\
       (r ∈ elems published /\ s = r \/ (r ∉ elems published) /\ links e !! res_Href r = Some s)) /\
  (forall k, k ∉ (res_Href <$> elems (rlp_Resources pub)) -> links e' !! k = links e !! k) /\
  let '(e2, published2) := HandleEventResourceLinksPublished e' pub' in
  elems published2 = [] /\ links e2 = links e'.
Proof.
  intros Hnd Hsame. unfold HandleEventResourceLinksPublished.
  set (published := GetNewPublishedLinks e pub).
  set (e' := set_rls _ _ _ _). cbn zeta.
  assert (Hpub := elems_GetNewPublishedLinks e pub). fold published in Hpub.
  assert (Hnd' : NoDup (res_Href <$> elems published)).
  { rewrite Hpub. apply (sublist_NoDup _ _ Hnd), sublist_fmap, sublist_filter_self. }
  assert (He' : links e' = default ∅ (store_links (rls_Resources e) (elems published))) by done.
  assert (Hst : forall r, r ∈ elems (rlp_Resources pub) ->
     exists s, links e' !! res_Href r = Some s /\ EqualResource r s = true /\
       (r ∈ elems published /\ s = r \/ (r ∉ elems published) /\ links e !! res_Href r = Some s)).
  { intros r Hr. destruct (decide (r ∈ elems published)) as [Hin|Hnin].
    - exists r. rewrite He', store_links_present by done. eauto using EqualResource_refl.
    - assert (Hk : res_Href r ∉ (res_Href <$> elems published)).
      { rewrite list_elem_of_fmap. intros (x & Hx & Hin). apply Hnin.
        enough (x = r) by congruence. rewrite Hpub, list_elem_of_filter in Hin.
        destruct Hin as [_ Hin]. by apply (fmap_NoDup_inj res_Href _ _ _ Hnd). }
      rewrite He', store_links_absent by done. fold (links e).
      assert (Hn := Hnin). rewrite Hpub, list_elem_of_filter in Hn.
      destruct (links e !! res_Href r) as [s|]; [|by destruct Hn].
      exists s. split; [done|]. split; [|by right].
      destruct (EqualResource r s); [done|]. by destruct Hn. }
  split; [exact Hst|split].
  - intros k Hk. rewrite He'. apply store_links_absent. rewrite Hpub. intros Hin. apply Hk.
    apply list_elem_of_fmap in Hin as (x & -> & Hx). apply list_elem_of_filter in Hx as [_ Hx].
    apply list_elem_of_fmap. eauto.
  - assert (Hnone : elems (GetNewPublishedLinks e' pub') = []).
    { rewrite elems_GetNewPublishedLinks, Hsame. apply list_filter_nil. intros r Hr.
      destruct (Hst r Hr) as (s & -> & -> & _). done. }
    split; [exact Hnone|]. unfold links at 1. cbn [rls_Resources set_rls]. by rewrite Hnone.
Qed.

(** ** Commands and the log *)
Section commands.
Context `{!UUIDLib} (cc : CommandContext).

(** Publishing what was reported new gives the state that was computed. *)
Lemma HandleEventResourceLinksPublished_again e pub :
  let '(e', published) := HandleEventResourceLinksPublished e pub in
  (HandleEventResourceLinksPublished e
     (MkResourceLinksPublished (rlp_DeviceId pub) published (rlp_AuditContext pub)
        (rlp_EventMetadata pub) (rlp_OpenTelemetryCarrier pub))).1 = e' /\
  (elems published = [] -> rls_Resources e' = rls_Resources e).
Proof.
  unfold HandleEventResourceLinksPublished. set (published := GetNewPublishedLinks e pub).
  cbn [fst rlp_DeviceId rlp_EventMetadata rlp_AuditContext rls_Resources set_rls].
  split; [|by intros ->]. f_equal. f_equal.
  rewrite elems_GetNewPublishedLinks. cbn [rlp_Resources].
  unfold published. rewrite elems_GetNewPublishedLinks. apply list_filter_idemp.
Qed.

Lemma HandleEventResourceLinksUnpublished_again order order' e instanceIDs upub :
  map_order order ->
  let '(e', unpublished) := HandleEventResourceLinksUnpublished order e instanceIDs upub in
  (elems unpublished <> [] ->
   (HandleEventResourceLinksUnpublished order' e []
      (MkResourceLinksUnpublished (rlu_DeviceId upub) unpublished (rlu_AuditContext upub)
        (rlu_EventMetadata upub) (rlu_OpenTelemetryCarrier upub))).1 = e') /\
  (elems unpublished = [] -> rls_Resources e' = rls_Resources e).
Proof.
  intros Ho. unfold HandleEventResourceLinksUnpublished.
  pose proof (unpublish_cases order Ho e instanceIDs upub) as Hc.
  assert (Hsome : elems (unpublishResourceLinksAndUpdateCache order e instanceIDs upub).2 <> [] ->
    exists m, (unpublishResourceLinksAndUpdateCache order e instanceIDs upub).1 = Some m).
  { unfold unpublishResourceLinksAndUpdateCache. repeat case_match; simpl; eauto. done. }
  destruct (unpublishResourceLinksAndUpdateCache order e instanceIDs upub) as [res un].
  destruct Hc as (Hm & Hnil & Hu). split; [|exact Hnil]. intros Hne.
  destruct Hsome as [m Hres]; [done|]. cbn [fst snd] in *. subst res. cbn in Hm. subst m.
  assert (Hne' : exists k, k ∈ elems un).
  { destruct (elems un) as [|k l]; [done|]. exists k. by left. }
  destruct Hne' as [k Hk]. apply Hu in Hk as [[r Hr] _].
  unfold unpublishResourceLinksAndUpdateCache. cbn [rlu_Hrefs rlu_EventMetadata rlu_AuditContext].
  destruct (size (links e) =? 0) eqn:Hsize.
  { apply Nat.eqb_eq, map_size_empty_iff in Hsize. by rewrite Hsize, lookup_empty in Hr. }
  destruct (length (elems un) =? 0) eqn:Hlen.
  { by apply Nat.eqb_eq, nil_length_inv in Hlen. }
  simpl. destruct (unpublish_hrefs_spec (links e) (elems un)) as [H1 _].
  destruct (unpublish_hrefs (links e) (elems un)) as [m' un']. simpl in *. by subst m'.
Qed.

Definition command_device (cmd : Command) : string :=
  match cmd with
  | CmdPublishResourceLinks r => plr_DeviceId r
  | CmdUnpublishResourceLinks r => ulr_DeviceId r
  | _ => ""
  end.

(** A command on the links of a device fails and changes nothing, or
    produces no event and changes no link, or produces one event with the
    given version, which rebuilds the new state when it is replayed on the old
    one, whatever orders Go ranges over its maps in, and which every event
    store accepts when the identifier of the device is a UUID. *)
Theorem HandleCommand_links `{!UUIDLaws} order order' now e cmd v :
  map_order order -> is_u64 v ->
  match HandleCommand cc order now e cmd v with
  | (e', inl _) => e' = e
  | (e', inr []) => rls_Resources e' = rls_Resources e
  | (e', inr evs) => exists ev, evs = [ev] /\ Version ev = v /\
      (forall clk, Handle order' clk e [loaded ev] None = (e', None)) /\
      (is_i64 now -> (0 < now)%Z -> uuid_Parse (command_device cmd) = true ->
       ValidateEventsBeforeSave [Some ev] = None)
  end.
Proof.
  intros Ho Hv. unfold HandleCommand. destruct cmd as [req|req| | | | | | | | | | | | | | | | |];
    try done.
  - destruct (plr_CommandMetadata req); [|done].
    match goal with |- context [HandleEventResourceLinksPublished e ?p] =>
      pose proof (HandleEventResourceLinksPublished_again e p) as Ha;
      destruct (HandleEventResourceLinksPublished e p) as [e' un] end.
    destruct Ha as [Ha Hnil]. destruct (length (elems un) =? 0) eqn:Hlen.
    { apply Hnil. by apply Nat.eqb_eq, nil_length_inv in Hlen. }
    eexists. split_and!; [reflexivity|done|intros clk; cbn; by rewrite <- Ha|].
    intros Hn Hp Hd. apply (one_event_saveable (MakeLinksResourceUUID (plr_DeviceId req))
      (plr_DeviceId req) now); try done. apply uuid_NewSHA1_parses.
  - destruct (v =? 0)%Z; [done|]. destruct (ulr_CommandMetadata req); [|done].
    match goal with |- context [HandleEventResourceLinksUnpublished order e ?i ?p] =>
      pose proof (HandleEventResourceLinksUnpublished_again order order' e i p Ho) as Ha;
      destruct (HandleEventResourceLinksUnpublished order e i p) as [e' un] end.
    destruct Ha as [Ha Hnil]. destruct (length (elems un) =? 0) eqn:Hlen.
    { apply Hnil. by apply Nat.eqb_eq, nil_length_inv in Hlen. }
    assert (Hne : elems un <> []) by (by intros Hn; rewrite Hn in Hlen).
    eexists. split_and!; [reflexivity|done|intros clk; cbn; by rewrite <- (Ha Hne)|].
    intros Hn Hp Hd. apply (one_event_saveable (MakeLinksResourceUUID (ulr_DeviceId req))
      (ulr_DeviceId req) now); try done. apply uuid_NewSHA1_parses.
Qed.
End commands.

(** ** The key of a link is its href *)
Definition keys_match (e : State) : Prop := forall k r, links e !! k = Some r -> res_Href r = k.

Lemma store_links_keys rs published k r :
  (forall k r, default ∅ rs !! k = Some r -> res_Href r = k) ->
  default ∅ (store_links rs published) !! k = Some r -> res_Href r = k.
Proof.
  unfold store_links. revert rs. induction published as [|x l IH]; intros rs Hrs; [apply Hrs|].
  cbn [fold_left]. apply IH. intros k' r' Hk. cbn in Hk.
  apply lookup_insert_Some in Hk as [[<- <-]|[_ Hk]]; [done|by apply Hrs].
Qed.

Lemma keys_match_published e pub :
  keys_match e -> keys_match (HandleEventResourceLinksPublished e pub).1.
Proof. intros He k r. by apply store_links_keys. Qed.

Lemma keys_match_unpublished order e ids upub :
  map_order order -> keys_match e ->
  keys_match (HandleEventResourceLinksUnpublished order e ids upub).1.
Proof.
  intros Ho He. unfold HandleEventResourceLinksUnpublished.
  pose proof (unpublish_cases order Ho e ids upub) as Hc.
  destruct (unpublishResourceLinksAndUpdateCache order e ids upub) as [res un].
  destruct Hc as (Hm & _). intros k r. unfold links. simpl. rewrite Hm, lookup_without_keys.
  case_decide; [done|]. apply He.
Qed.

(** The states that commands, events and snapshots lead to. *)
Inductive reachable `{!UUIDLib} : State -> Prop :=
  | reach_new : reachable NewResourceLinksSnapshotTaken
  | reach_command cc order now e cmd v :
      map_order order -> reachable e -> reachable (HandleCommand cc order now e cmd v).1
  | reach_published e pub :
      reachable e -> reachable (HandleEventResourceLinksPublished e pub).1
  | reach_unpublished order e ids upub :
      map_order order -> reachable e ->
      reachable (HandleEventResourceLinksUnpublished order e ids upub).1
  | reach_snapshot e now e0 v :
      reachable e0 -> reachable (HandleEventResourceLinksSnapshotTaken e (TakeSnapshot now e0 v)).

(** C32: In every reachable state the key of each link is its href. *)
Theorem reachable_keys_match `{!UUIDLib} e : reachable e -> keys_match e.
Proof.
  induction 1 as [|cc order now e cmd v Ho _ IH|e pub _ IH|order e ids upub Ho _ IH|e now e0 v _ IH].
  - intros k r Hk. change ((∅ : gmap string Resource) !! k = Some r) in Hk.
    by rewrite lookup_empty in Hk.
  - unfold HandleCommand. destruct cmd; try done.
    + destruct (plr_CommandMetadata _); [|done].
      match goal with |- context [HandleEventResourceLinksPublished e ?p] =>
        pose proof (keys_match_published e p IH) as Hk;
        destruct (HandleEventResourceLinksPublished e p) as [e' un] end.
      by destruct (length (elems un) =? 0).
    + destruct (v =? 0)%Z; [done|]. destruct (ulr_CommandMetadata _); [|done].
      match goal with |- context [HandleEventResourceLinksUnpublished order e ?i ?p] =>
        pose proof (keys_match_unpublished order e i p Ho IH) as Hk;
        destruct (HandleEventResourceLinksUnpublished order e i p) as [e' un] end.
      by destruct (length (elems un) =? 0).
  - by apply keys_match_published.
  - by apply keys_match_unpublished.
  - exact IH.
Qed.

(** ** Publishing and unpublishing *)

(** Links published with distinct hrefs that were not there before, and
    then unpublished by their hrefs, leave the links as they were. *)
Theorem publish_unpublish_roundtrip order e pub upub :
  map_order order -> NoDup (res_Href <$> elems (rlp_Resources pub)) ->
  (forall r, r ∈ elems (rlp_Resources pub) -> links e !! res_Href r = None) ->
  elems (rlp_Resources pub) <> [] ->
  elems (rlu_Hrefs upub) ≡ₚ (res_Href <$> elems (rlp_Resources pub)) ->
  links (HandleEventResourceLinksUnpublished order
           (HandleEventResourceLinksPublished e pub).1 [] upub).1 = links e.
Proof.
  intros Ho Hnd Hnew Hne Hperm. set (e1 := (HandleEventResourceLinksPublished e pub).1).
  unfold HandleEventResourceLinksUnpublished.
  pose proof (unpublish_cases order Ho e1 [] upub) as Hc.
  destruct (unpublishResourceLinksAndUpdateCache order e1 [] upub) as [res un].
  destruct Hc as (Hm & _ & Hu).
  assert (Hall : elems (GetNewPublishedLinks e pub) = elems (rlp_Resources pub)).
  { rewrite elems_GetNewPublishedLinks. apply list_filter_all. intros r Hr. by rewrite Hnew. }
  assert (Hlinks : links e1 = default ∅ (store_links (rls_Resources e) (elems (rlp_Resources pub)))).
  { unfold e1, HandleEventResourceLinksPublished. cbv zeta. rewrite Hall. done. }
  apply map_eq. intros k. unfold links at 1. simpl. rewrite Hm, lookup_without_keys.
  destruct (decide (k ∈ (res_Href <$> elems (rlp_Resources pub)))) as [Hk|Hk].
  - apply list_elem_of_fmap in Hk as (r & -> & Hr). rewrite Hnew by done.
    rewrite decide_True; [done|]. apply Hu. rewrite Hlinks, store_links_present by done.
    split; [done|]. right; left. rewrite Hperm. apply list_elem_of_fmap. eauto.
  - rewrite decide_False.
    + rewrite Hlinks. by apply store_links_absent.
    + rewrite Hu. intros [_ [[Hn _]|[Hin|(i & Hi & _)]]];
        [|by rewrite Hperm in Hin|by apply not_elem_of_nil in Hi].
      rewrite Hn in Hperm. apply Permutation_nil in Hperm. apply fmap_nil_inv in Hperm. done.
Qed.
