(* ===== verification/DeviceMetadata.v ===== *)
(** * The metadata of a device

    resource-aggregate/events/deviceMetadataSnapshotTaken.go: the aggregate of a
    device's connection and of the synchronization of its twin.

    Pointers.  The functions that change the twin synchronization mutate the
    object that the state points to and put the same object into the event they
    build: [mutate_twin] writes such a change through the state, before the
    event is compared with it.  The handlers also complete the request in place;
    the completed parts are values here ([complete_connection]). *)

From Stdlib Require Import ZArith String.
From S2P Require Import Prelude Commands Events EventStore Handler Pendings.

#[local] Abbreviation State := DeviceMetadataSnapshotTaken.

Definition set_dms (id : string) (upd : option DeviceMetadataUpdated)
    (pendings : gslice DeviceMetadataUpdatePending) (em : option EventMetadata) : State :=
  MkDeviceMetadataSnapshotTaken id upd pendings em.
Definition set_UpdatePendings (d : State) pendings : State :=
  set_dms (dms_DeviceId d) (dms_DeviceMetadataUpdated d) pendings (dms_EventMetadata d).

(** The fields of the last update, which may be missing. *)
Definition connection (d : State) : option Connection :=
  (dms_DeviceMetadataUpdated d) ~> dmu_Connection.
Definition twin (d : State) : option TwinSynchronization :=
  (dms_DeviceMetadataUpdated d) ~> dmu_TwinSynchronization.
Definition twin_enabled (d : State) : bool := (dms_DeviceMetadataUpdated d) ~> dmu_TwinEnabled.

Definition HandleDeviceMetadataUpdated (d : State) (upd : DeviceMetadataUpdated) (confirm : bool)
    : State * result bool :=
  let index := findResourceOperationPendingIndex ((dmu_AuditContext upd) ~> ac_CorrelationId)
                 (elems (dms_UpdatePendings d)) in
  if confirm && bool_decide (index = None)
  then (d, inl (Errorf InvalidArgument
              "cannot find twin synchronization update pending event with correlationId('%v')"))
  else
    let d := match index with
             | Some i => set_UpdatePendings d (remove_at i (dms_UpdatePendings d))
             | None => d
             end in
    if DeviceMetadataUpdated_Equal (dms_DeviceMetadataUpdated d) upd then (d, inr false)
    else (set_dms (dmu_DeviceId upd) (Some upd) (dms_UpdatePendings d) (dmu_EventMetadata upd),
          inr true).

Definition HandleDeviceMetadataSnapshotTaken (d s : State) : State :=
  DeviceMetadataSnapshotTaken_CopyData d s.

(** The loop is that of checkForDuplicity in ResourceState. *)
Definition HandleDeviceMetadataUpdatePending (now : time_) (d : State)
    (updatePending : DeviceMetadataUpdatePending) : State * option error :=
  if pe_IsExpired now updatePending
  then (set_dms (dmp_DeviceId updatePending) (dms_DeviceMetadataUpdated d) (dms_UpdatePendings d)
          (dmp_EventMetadata updatePending), None)
  else if negb (checkForDuplicity (elems (dms_UpdatePendings d))
                  ((dmp_AuditContext updatePending) ~> ac_CorrelationId) now)
  then (d, Some (Errorf InvalidArgument
              "device metadata update pending with correlationId('%v') already exist"))
  else (set_dms (dmp_DeviceId updatePending) (dms_DeviceMetadataUpdated d)
          (snoc (dms_UpdatePendings d) updatePending) (dmp_EventMetadata updatePending), None).

(** ** Replay *)
Section replay.
Context `{!UUIDLib} {D : Type} `{!Unmarshaler D DeviceMetadataSnapshotTaken}
  `{!Unmarshaler D DeviceMetadataUpdated} `{!Unmarshaler D DeviceMetadataUpdatePending}.

Definition handleByEvent (now : time_) (d : State) (eu : LoadedEvent D)
    : State * option error :=
  let ty := le_eventType eu in
  if String.eqb ty "devicemetadatasnapshottaken" then
    unmarshal_case d eu (HandleDeviceMetadataSnapshotTaken d)
  else if String.eqb ty "devicemetadataupdated" then
    unmarshal_case d eu (fun s => (HandleDeviceMetadataUpdated d s false).1)
  else if String.eqb ty "devicemetadataupdatepending" then
    unmarshal_case d eu (fun s => (HandleDeviceMetadataUpdatePending now d s).1)
  else (d, None).

Definition Handle := handle_loop handleByEvent.
End replay.

(** ** The twin synchronization *)

(** The object that the state points to becomes [ts]; nothing happens when the
    state points to none: the code then works on an object of its own. *)
Definition mutate_twin (d : State) (ts : TwinSynchronization) : State :=
  match dms_DeviceMetadataUpdated d, twin d with
  | Some u, Some _ =>
      set_dms (dms_DeviceId d)
        (Some {| dmu_DeviceId := dmu_DeviceId u; dmu_Connection := dmu_Connection u;
                 dmu_TwinSynchronization := Some ts; dmu_TwinEnabled := dmu_TwinEnabled u;
                 dmu_AuditContext := dmu_AuditContext u;
                 dmu_EventMetadata := dmu_EventMetadata u; dmu_Canceled := dmu_Canceled u;
                 dmu_OpenTelemetryCarrier := dmu_OpenTelemetryCarrier u |})
        (dms_UpdatePendings d) (dms_EventMetadata d)
  | _, _ => d
  end.

Definition ts_set (ts : TwinSynchronization) state cm force : TwinSynchronization :=
  MkTwinSynchronization state (ts_SyncingAt ts) (ts_InSyncAt ts) cm force.

Definition zero_twin : TwinSynchronization :=
  MkTwinSynchronization TwinSynchronization_OUT_OF_SYNC 0 0 None 0.

Definition prepareTwinSynchronization (d : State) : TwinSynchronization :=
  match twin d with None => zero_twin | Some ts => ts end.

(** The state that an enabled or disabled twin restarts from. *)
Definition restart_state (d : State) : TwinSynchronization_State :=
  if twin_enabled d then TwinSynchronization_OUT_OF_SYNC else TwinSynchronization_DISABLED.

(** [conn] is the connection of the request, [cm] its command metadata. *)
Definition getTwinSynchronizationForConnectedDevice (d : State) (conn : Connection)
    (cm : option CommandMetadata) : TwinSynchronization :=
  let twinSynchronization := prepareTwinSynchronization d in
  if negb (String.eqb (con_Id conn) ((connection d) ~> con_Id)) || negb (IsOnline (connection d))
  then ts_set twinSynchronization (restart_state d) cm
         (ts_ForceSynchronizationAt twinSynchronization)
  else twinSynchronization.

Definition getTwinSynchronizationForDisconnectedDevice (d : State) (conn : Connection)
    (cm : option CommandMetadata) : result TwinSynchronization :=
  let twinSynchronization := prepareTwinSynchronization d in
  if IsOnline (connection d) && negb (IsOnline (Some conn))
     && negb (String.eqb ((connection d) ~> con_Id) (con_Id conn))
  then inl (Errorf InvalidArgument
         "cannot update connection status online(id='%v') to offline(id='%v'): connectionId mismatch")
  else inr (ts_set twinSynchronization (restart_state d) cm
              (ts_ForceSynchronizationAt twinSynchronization)).

Definition prepareTwinSynchronizationToSyncing (d : State) (ts : TwinSynchronization)
    : result (option TwinSynchronization) :=
  if negb (twin_enabled d) then
    inl (Errorf InvalidArgument "cannot update twinSynchronization to %v: twin is disabled")
  else if (ts_SyncingAt ts <=? 0)%Z then
    inl (Errorf InvalidArgument "cannot update twin synchronization with invalid startedAt(%v)")
  else if bool_decide ((twin d) ~> ts_State = TwinSynchronization_SYNCING)
          && ((twin d) ~> ts_SyncingAt <? ts_SyncingAt ts)%Z
  then inr None
  else inr (Some (MkTwinSynchronization (ts_State ts) (ts_SyncingAt ts) ((twin d) ~> ts_InSyncAt)
                    (ts_CommandMetadata ts) (ts_ForceSynchronizationAt ts))).

Definition prepareTwinSynchronizationToInSync (d : State) (ts : TwinSynchronization)
    : result (option TwinSynchronization) :=
  if negb (twin_enabled d) then
    inl (Errorf InvalidArgument "cannot update twinSynchronization to %v: twin is disabled")
  else if (ts_InSyncAt ts <=? 0)%Z then
    inl (Errorf InvalidArgument "cannot update twin synchronization with invalid finishAt(%v)")
  else if bool_decide ((twin d) ~> ts_State = TwinSynchronization_IN_SYNC)
          && (ts_InSyncAt ts <? (twin d) ~> ts_InSyncAt)%Z
  then inr None
  else if bool_decide ((twin d) ~> ts_State = TwinSynchronization_SYNCING)
          && (ts_InSyncAt ts <? (twin d) ~> ts_SyncingAt)%Z
  then inr None
  else inr (Some (MkTwinSynchronization (ts_State ts) ((twin d) ~> ts_SyncingAt) (ts_InSyncAt ts)
                    (ts_CommandMetadata ts) (ts_ForceSynchronizationAt ts))).

(** ** Commands *)
Section commands.
Context `{!StringSet} (cc : CommandContext).

(** What is left to do after HandleDeviceMetadataUpdated. *)
Definition finish_updated (r : State * result bool) (ev : DeviceMetadataUpdated)
    : State * result (list AnyEvent) :=
  match r with
  | (d, inl err) => (d, inl err)
  | (d, inr false) => (d, inr [])
  | (d, inr true) => (d, inr [EvDeviceMetadataUpdated ev])
  end.

(** An update that keeps the connection. *)
Definition updated_event (d : State) (deviceID : string) (ts : option TwinSynchronization)
    (enabled canceled : bool) (em : EventMetadata) (ac : AuditContext) : DeviceMetadataUpdated :=
  {| dmu_DeviceId := deviceID; dmu_Connection := connection d; dmu_TwinSynchronization := ts;
     dmu_TwinEnabled := enabled; dmu_Canceled := canceled; dmu_AuditContext := Some ac;
     dmu_EventMetadata := Some em; dmu_OpenTelemetryCarrier := cc_trace cc |}.

(** *** Confirmations *)
Definition cancelDeviceMetadataUpdate (d : State) (req : ConfirmDeviceMetadataUpdateRequest)
    (em : EventMetadata) (ac : AuditContext) : State * result (list AnyEvent) :=
  let ev := updated_event d (cmr_DeviceId req) (twin d) (twin_enabled d) true em ac in
  finish_updated (HandleDeviceMetadataUpdated d ev true) ev.

(** The twin synchronization that confirming twin_enabled leaves. *)
Definition twin_after_enabled (d : State) (req : ConfirmDeviceMetadataUpdateRequest)
    : TwinSynchronization :=
  let twinSynchronization :=
    match twin d with
    | Some ts => ts
    | None => MkTwinSynchronization TwinSynchronization_OUT_OF_SYNC 0 0 (cmr_CommandMetadata req) 0
    end in
  if String.eqb ((cmr_CommandMetadata req) ~> cm_ConnectionId)
       (((twin d) ~> ts_CommandMetadata) ~> cm_ConnectionId)
  then
    let with_state s := ts_set twinSynchronization s (ts_CommandMetadata twinSynchronization)
                          (ts_ForceSynchronizationAt twinSynchronization) in
    if cmr_GetTwinEnabled req
    then if bool_decide (ts_State twinSynchronization = TwinSynchronization_DISABLED)
         then with_state TwinSynchronization_OUT_OF_SYNC else twinSynchronization
    else with_state TwinSynchronization_DISABLED
  else twinSynchronization.

Definition updateTwinEnabled (d : State) (req : ConfirmDeviceMetadataUpdateRequest)
    (em : EventMetadata) (ac : AuditContext) : State * result (list AnyEvent) :=
  let ts := twin_after_enabled d req in
  let d := mutate_twin d ts in
  let ev := updated_event d (cmr_DeviceId req) (Some ts) (cmr_GetTwinEnabled req) false em ac in
  finish_updated (HandleDeviceMetadataUpdated d ev true) ev.

Definition updateTwinForceSynchronization (d : State) (req : ConfirmDeviceMetadataUpdateRequest)
    (em : EventMetadata) (ac : AuditContext) : State * result (list AnyEvent) :=
  if negb (cmr_GetTwinForceSynchronization req)
  then (d, inl (Errorf InvalidArgument
              "cannot update twin synchronization with invalid forceSynchronization(%v)"))
  else
    let twinSynchronization :=
      match twin d with
      | Some ts => ts
      | None => MkTwinSynchronization TwinSynchronization_OUT_OF_SYNC 0 0 (cmr_CommandMetadata req) 0
      end in
    let ts := ts_set twinSynchronization TwinSynchronization_OUT_OF_SYNC
                (ts_CommandMetadata twinSynchronization) (em_Timestamp em) in
    let d := mutate_twin d ts in
    let ev := updated_event d (cmr_DeviceId req) (Some ts) true false em ac in
    finish_updated (HandleDeviceMetadataUpdated d ev true) ev.

Definition ConfirmDeviceMetadataUpdateRequest_ (now : time_) (d : State)
    (req : ConfirmDeviceMetadataUpdateRequest) (newVersion : Z) (cancel : bool)
    : State * result (list AnyEvent) :=
  match cmr_CommandMetadata req with
  | None => (d, inl errInvalidCommandMetadata)
  | Some _ =>
      let em := command_meta cc now (cmr_CommandMetadata req) newVersion in
      let ac := command_audit cc (cmr_CorrelationId req) in
      if cancel then cancelDeviceMetadataUpdate d req em ac
      else match cmr_Confirm req with
      | Some (ConfirmDeviceMetadataUpdateRequest_TwinEnabled _) => updateTwinEnabled d req em ac
      | Some (ConfirmDeviceMetadataUpdateRequest_TwinForceSynchronization _) =>
          updateTwinForceSynchronization d req em ac
      | None => (d, inl (Errorf InvalidArgument "unknown confirm type(%T)"))
      end
  end.

Definition CancelPendingMetadataUpdatesRequest_ (clk : nat -> time_) (d : State)
    (req : CancelPendingMetadataUpdatesRequest) (newVersion : Z)
    : State * result (list AnyEvent) :=
  match cxr_CommandMetadata req with
  | None => (d, inl errInvalidCommandMetadata)
  | Some _ =>
      let '(d, events) :=
        cancel_range dms_UpdatePendings
          (fun now d correlationID v =>
             ConfirmDeviceMetadataUpdateRequest_ now d
               (MkConfirmDeviceMetadataUpdateRequest (cxr_DeviceId req) correlationID
                  Status_CANCELED None (cxr_CommandMetadata req)) v true)
          (MakeSet (cxr_CorrelationIdFilter req)) clk d newVersion in
      if (length events =? 0)%nat
      then (d, inl (Errorf NotFound "cannot find commands with correlationID(%v)"))
      else (d, inr events)
  end.

(** *** Updates that the device makes on its own *)

(** The connection of the request, as the code completes it: it takes the
    identifier of the connection the command came on; one that is not online
    loses its service and keeps the protocol; the time of the connection does
    not go back; local endpoints are kept when none are given. *)
Definition complete_connection (d : State) (conn : Connection) (cm : option CommandMetadata)
    : Connection :=
  let online := IsOnline (Some conn) in
  let lastConnectedAt := (connection d) ~> con_ConnectedAt in
  {| con_Status := con_Status conn; con_Id := cm ~> cm_ConnectionId;
     con_ConnectedAt := if (con_ConnectedAt conn <? lastConnectedAt)%Z
                        then lastConnectedAt else con_ConnectedAt conn;
     con_Protocol := if online then con_Protocol conn else (connection d) ~> con_Protocol;
     con_ServiceId := if online then con_ServiceId conn else "";
     con_LocalEndpoints := if (length (con_LocalEndpoints conn) =? 0)%nat
                           then (connection d) ~> con_LocalEndpoints
                           else con_LocalEndpoints conn |}.

Definition updateDeviceConnection (d : State) (deviceID : string) (conn : Connection)
    (cm : option CommandMetadata) (em : EventMetadata) (ac : AuditContext)
    : State * result (list AnyEvent) :=
  if String.eqb (cm ~> cm_ConnectionId) "" then
    (d, inl (Errorf InvalidArgument "cannot update connection status for empty connectionId"))
  else if negb (IsOnline (Some conn)) && (em_Version em =? 0)%Z then
    (d, inl (Errorf InvalidArgument
           "cannot update connection status to offline for not existing device %v"))
  else
    let conn := complete_connection d conn cm in
    match (if IsOnline (Some conn)
           then inr (getTwinSynchronizationForConnectedDevice d conn cm)
           else getTwinSynchronizationForDisconnectedDevice d conn cm) with
    | inl err => (d, inl err)
    | inr ts =>
        let d := mutate_twin d ts in
        let ev :=
          {| dmu_DeviceId := deviceID; dmu_Connection := Some conn;
             dmu_TwinSynchronization := Some ts; dmu_TwinEnabled := twin_enabled d;
             dmu_Canceled := false; dmu_AuditContext := Some ac; dmu_EventMetadata := Some em;
             dmu_OpenTelemetryCarrier := cc_trace cc |} in
        finish_updated (HandleDeviceMetadataUpdated d ev false) ev
    end.

Definition updateDeviceTwinSynchronization (d : State) (deviceID : string)
    (twinSynchronization : TwinSynchronization) (commandMetadata : option CommandMetadata)
    (em : EventMetadata) (ac : AuditContext) : State * result (list AnyEvent) :=
  let latest := (twin d) ~> ts_CommandMetadata in
  if String.eqb (commandMetadata ~> cm_ConnectionId) "" then
    (d, inl (Errorf InvalidArgument "cannot update twin synchronization for empty connectionId"))
  else if negb (String.eqb (commandMetadata ~> cm_ConnectionId) (latest ~> cm_ConnectionId)) then
    (d, inl (Errorf InvalidArgument
           "cannot update twin synchronization for different connectionId: get %v, expected %v"))
  else if (em_Version em =? 0)%Z then
    (d, inl (Errorf InvalidArgument
           "cannot update twin synchronization for not existing device %v"))
  else if (commandMetadata ~> cm_Sequence <=? latest ~> cm_Sequence)%Z then (d, inr [])
  else
    match (match ts_State twinSynchronization with
           | TwinSynchronization_OUT_OF_SYNC =>
               inl (Errorf InvalidArgument
                      "cannot update twin synchronization with invalid state(%v)")
           | TwinSynchronization_SYNCING =>
               prepareTwinSynchronizationToSyncing d twinSynchronization
           | TwinSynchronization_IN_SYNC =>
               prepareTwinSynchronizationToInSync d twinSynchronization
           | TwinSynchronization_DISABLED => inr (Some twinSynchronization)
           end) with
    | inl err => (d, inl err)
    | inr None => (d, inr [])
    | inr (Some ts) =>
        let ts := ts_set ts (ts_State ts) commandMetadata (ts_ForceSynchronizationAt ts) in
        let ev := updated_event d deviceID (Some ts) (twin_enabled d) false em ac in
        finish_updated (HandleDeviceMetadataUpdated d ev false) ev
    end.

(** *** Updates that wait for a confirmation *)
Definition pending_event (deviceID : string) (validUntil : Z)
    (update : DeviceMetadataUpdatePending_Update) (em : EventMetadata) (ac : AuditContext)
    : DeviceMetadataUpdatePending :=
  {| dmp_DeviceId := deviceID; dmp_ValidUntil := validUntil; dmp_UpdatePending := Some update;
     dmp_AuditContext := Some ac; dmp_EventMetadata := Some em;
     dmp_OpenTelemetryCarrier := cc_trace cc |}.

Definition updateDeviceTwinEnabled (clk : nat -> time_) (d : State)
    (req : UpdateDeviceMetadataRequest) (em : EventMetadata) (ac : AuditContext)
    : State * result (list AnyEvent) :=
  if (em_Version em =? 0)%Z then
    (d, inl (Errorf InvalidArgument "cannot update twin enabled for not existing device %v"))
  else
    let ev := pending_event (udr_DeviceId req)
                (timeToLive2ValidUntil (clk 1) (udr_TimeToLive req))
                (DeviceMetadataUpdatePending_TwinEnabled (udr_GetTwinEnabled req)) em ac in
    finish (HandleDeviceMetadataUpdatePending (clk 2) d ev) (EvDeviceMetadataUpdatePending ev).

Definition updateDeviceTwinForceSynchronization (clk : nat -> time_) (d : State)
    (req : UpdateDeviceMetadataRequest) (em : EventMetadata) (ac : AuditContext)
    : State * result (list AnyEvent) :=
  if (em_Version em =? 0)%Z then
    (d, inl (Errorf InvalidArgument "cannot update twin enabled for not existing device %v"))
  else if negb (udr_GetTwinForceSynchronization req) then
    (d, inl (Errorf InvalidArgument
           "cannot update twin force synchronization with invalid forceSynchronization(%v)"))
  else
    let ev := pending_event (udr_DeviceId req)
                (timeToLive2ValidUntil (clk 1) (udr_TimeToLive req))
                (DeviceMetadataUpdatePending_TwinForceSynchronization
                   (udr_GetTwinForceSynchronization req)) em ac in
    finish (HandleDeviceMetadataUpdatePending (clk 2) d ev) (EvDeviceMetadataUpdatePending ev).

Definition updateDeviceMetadataRequest (clk : nat -> time_) (d : State)
    (req : UpdateDeviceMetadataRequest) (newVersion : Z) : State * result (list AnyEvent) :=
  match udr_CommandMetadata req with
  | None => (d, inl errInvalidCommandMetadata)
  | Some _ =>
      let em := command_meta cc (clk 0) (udr_CommandMetadata req) newVersion in
      let ac := command_audit cc (udr_CorrelationId req) in
      match udr_GetConnection req, udr_GetTwinSynchronization req with
      | Some conn, _ =>
          updateDeviceConnection d (udr_DeviceId req) conn (udr_CommandMetadata req) em ac
      | None, Some ts =>
          updateDeviceTwinSynchronization d (udr_DeviceId req) ts (udr_CommandMetadata req) em ac
      | None, None =>
          match udr_Update req with
          | Some (UpdateDeviceMetadataRequest_TwinEnabled _) =>
              updateDeviceTwinEnabled clk d req em ac
          | Some (UpdateDeviceMetadataRequest_TwinForceSynchronization _) =>
              updateDeviceTwinForceSynchronization clk d req em ac
          | _ => (d, inl (Errorf InvalidArgument "unknown update type(%T)"))
          end
      end
  end.

Definition updateToOfflineRequest (now : time_) (d : State) (req : UpdateDeviceToOfflineRequest)
    (newVersion : Z) : State * result (list AnyEvent) :=
  if String.eqb (uor_DeviceID req) "" then
    (d, inl (Errorf InvalidArgument "cannot update device to offline for empty deviceId"))
  else if negb (String.eqb ((connection d) ~> con_ServiceId) (uor_ServiceID req))
  then (d, inr [])
  else
    let em := MakeEventMeta now ((connection d) ~> con_Id)
                (u64 ((dms_EventMetadata d) ~> em_Sequence + 1)) newVersion (cc_hubID cc) in
    let ac := NewAuditContext (cc_userID cc) ""
                (((dms_DeviceMetadataUpdated d) ~> dmu_AuditContext) ~> ac_Owner) in
    updateDeviceConnection d (uor_DeviceID req) (NewConnection Connection_OFFLINE "" 0)
      (Some (MkCommandMetadata (em_ConnectionId em) (em_Sequence em))) em ac.

Definition HandleCommand (clk : nat -> time_) (d : State) (cmd : Command) (newVersion : Z)
    : State * result (list AnyEvent) :=
  match cmd with
  | CmdUpdateDeviceMetadata req => updateDeviceMetadataRequest clk d req newVersion
  | CmdUpdateDeviceToOffline req => updateToOfflineRequest (clk 0) d req newVersion
  | CmdConfirmDeviceMetadataUpdate req =>
      ConfirmDeviceMetadataUpdateRequest_ (clk 0) d req newVersion false
  | CmdCancelPendingMetadataUpdates req =>
      CancelPendingMetadataUpdatesRequest_ clk d req newVersion
  | _ => (d, inl (errors_New "unknown command (%T)"))
  end.
End commands.

Definition TakeSnapshot (now : time_) (d : State) (version : Z) : State :=
  set_dms (dms_DeviceId d) (dms_DeviceMetadataUpdated d) (dms_UpdatePendings d)
    (Some (MakeEventMeta now ((dms_EventMetadata d) ~> em_ConnectionId)
             ((dms_EventMetadata d) ~> em_Sequence) version ((dms_EventMetadata d) ~> em_HubId))).

Definition NewDeviceMetadataSnapshotTaken : State :=
  {| dms_DeviceId := "";
     dms_DeviceMetadataUpdated :=
       Some {| dmu_DeviceId := ""; dmu_Connection := None; dmu_TwinSynchronization := None;
               dmu_TwinEnabled := true; dmu_AuditContext := None; dmu_EventMetadata := None;
               dmu_Canceled := false; dmu_OpenTelemetryCarrier := [] |};
     dms_UpdatePendings := None; dms_EventMetadata := Some (MkEventMetadata 0 0 "" 0 "") |}.
