(* ===== verification/DeviceMetadataFacts.v ===== *)
(** * Properties of the metadata of a device

    The log and the state stay together, but for waiting commands whose correlation
    identifier was used again, which may be lost without an event
    ([dropped_without_event] in [Witnesses] is an example); live commands
    have distinct identifiers; who may set a device offline; the time of the
    connection and the sequence of twin synchronizations do not go back; what
    cancelling cancels. *)

From Stdlib Require Import ZArith Lia String.
From S2P Require Import Prelude Commands Events EventStore Handler Pendings DeviceMetadata.

#[local] Abbreviation State := DeviceMetadataSnapshotTaken.

(** ** The comparison of updates *)

(** What DeviceMetadataUpdated.Equal compares, besides the twin synchronization. *)
Definition plain_fields (u : option DeviceMetadataUpdated) :=
  ((u ~> dmu_Connection) ~> con_Status, (u ~> dmu_Connection) ~> con_Id,
   (u ~> dmu_Connection) ~> con_Protocol, (u ~> dmu_Connection) ~> con_LocalEndpoints,
   u ~> dmu_Canceled, u ~> dmu_TwinEnabled, (u ~> dmu_AuditContext) ~> ac_UserId,
   (u ~> dmu_AuditContext) ~> ac_CorrelationId).
Definition twin_fields (t : option TwinSynchronization) :=
  ((t ~> ts_CommandMetadata) ~> cm_ConnectionId, t ~> ts_SyncingAt, t ~> ts_InSyncAt, t ~> ts_State,
   t ~> ts_ForceSynchronizationAt).

Lemma DeviceMetadataUpdated_Equal_spec d upd :
  DeviceMetadataUpdated_Equal d upd = true <->
  plain_fields d = plain_fields (Some upd) /\
  twin_fields (d ~> dmu_TwinSynchronization) = twin_fields (dmu_TwinSynchronization upd).
Proof.
  unfold DeviceMetadataUpdated_Equal, plain_fields, twin_fields. cbn [getter].
  rewrite !andb_true_iff, !bool_decide_eq_true, !String.eqb_eq, !Z.eqb_eq, !eqb_true_iff.
  split; [intros; destruct_and!; split; congruence|]. intros [Hp Ht].
  injection Hp as -> -> -> -> -> -> -> ->. injection Ht as -> -> -> -> ->. done.
Qed.

(** The identifier of the last update. *)
Definition last_id (d : State) : string :=
  ((dms_DeviceMetadataUpdated d) ~> dmu_AuditContext) ~> ac_CorrelationId.

Lemma Equal_same_id d upd :
  DeviceMetadataUpdated_Equal (dms_DeviceMetadataUpdated d) upd = true ->
  last_id d = (dmu_AuditContext upd) ~> ac_CorrelationId.
Proof. intros [Hp _]%DeviceMetadataUpdated_Equal_spec. by injection Hp. Qed.

(** A change of the twin that the event carries is invisible to the comparison. *)
Lemma Equal_mutate_twin d ts upd :
  dmu_TwinSynchronization upd = Some ts ->
  DeviceMetadataUpdated_Equal (dms_DeviceMetadataUpdated d) upd = true ->
  DeviceMetadataUpdated_Equal (dms_DeviceMetadataUpdated (mutate_twin d ts)) upd = true.
Proof.
  intros Hts [Hp Ht]%DeviceMetadataUpdated_Equal_spec. apply DeviceMetadataUpdated_Equal_spec.
  unfold mutate_twin, twin. destruct (dms_DeviceMetadataUpdated d) as [u|] eqn:Hd;
    [|by rewrite Hd]. cbn [getter] in *.
  destruct (dmu_TwinSynchronization u) eqn:Hu; [|by rewrite Hd; cbn [getter]; rewrite Hu].
  cbn [dms_DeviceMetadataUpdated set_dms getter dmu_TwinSynchronization]. rewrite Hts. by split.
Qed.

Lemma mutate_twin_fields d ts :
  dms_DeviceId (mutate_twin d ts) = dms_DeviceId d /\
  dms_UpdatePendings (mutate_twin d ts) = dms_UpdatePendings d /\
  dms_EventMetadata (mutate_twin d ts) = dms_EventMetadata d /\
  connection (mutate_twin d ts) = connection d /\
  twin_enabled (mutate_twin d ts) = twin_enabled d /\ last_id (mutate_twin d ts) = last_id d.
Proof.
  unfold mutate_twin, connection, twin_enabled, last_id.
  destruct (dms_DeviceMetadataUpdated d) eqn:Hd, (twin d); simpl; by rewrite ?Hd.
Qed.

(** ** Applying an update *)
Section updated.
Context (d : State) (upd : DeviceMetadataUpdated).
Let id := (dmu_AuditContext upd) ~> ac_CorrelationId.

(** The list without the first command with the identifier of the update. *)
Definition pendings_after (l : gslice DeviceMetadataUpdatePending) :=
  match findResourceOperationPendingIndex ((dmu_AuditContext upd) ~> ac_CorrelationId) (elems l) with
  | Some i => remove_at i l
  | None => l
  end.

Lemma HandleDeviceMetadataUpdated_cases confirm :
  match HandleDeviceMetadataUpdated d upd confirm with
  | (d', inl err) =>
      d' = d /\ confirm = true /\
      findResourceOperationPendingIndex id (elems (dms_UpdatePendings d)) = None
  | (d', inr false) =>
      d' = set_UpdatePendings d (pendings_after (dms_UpdatePendings d)) /\
      DeviceMetadataUpdated_Equal (dms_DeviceMetadataUpdated d) upd = true
  | (d', inr true) =>
      d' = set_dms (dmu_DeviceId upd) (Some upd) (pendings_after (dms_UpdatePendings d))
             (dmu_EventMetadata upd) /\
      DeviceMetadataUpdated_Equal (dms_DeviceMetadataUpdated d) upd = false
  end.
Proof.
  unfold HandleDeviceMetadataUpdated, pendings_after. fold id.
  destruct (findResourceOperationPendingIndex id (elems (dms_UpdatePendings d))) as [i|] eqn:Hf.
  - rewrite andb_false_r. simpl.
    destruct (DeviceMetadataUpdated_Equal _ _) eqn:He; by split.
  - rewrite andb_true_r. destruct confirm; [done|].
    destruct (DeviceMetadataUpdated_Equal _ _) eqn:He; split; try done. by destruct d.
Qed.
End updated.

(** ** The log and the state *)

Definition pending_ids (d : State) : list string :=
  pe_CorrelationId <$> elems (dms_UpdatePendings d).

(** No identifier is used twice: neither by two commands that wait, nor by one
    that waits and the update that was stored last. *)
Definition fresh_ids (d : State) : Prop := NoDup (pending_ids d) /\ last_id d ∉ pending_ids d.

(** The state but for the twin synchronization of the last update. *)
Definition forget_twin (d : State) : State := mutate_twin d zero_twin.

Lemma forget_mutate_twin d ts : forget_twin (mutate_twin d ts) = forget_twin d.
Proof.
  by destruct d as [dev [[? ? [t|] ? ? ? ? ?]|] l em].
Qed.

Lemma pendings_after_ids upd (l : gslice DeviceMetadataUpdatePending) :
  NoDup (pe_CorrelationId <$> elems l) ->
  NoDup (pe_CorrelationId <$> elems (pendings_after upd l)) /\
  (((dmu_AuditContext upd) ~> ac_CorrelationId) ∉ (pe_CorrelationId <$> elems (pendings_after upd l))).
Proof.
  intros Hnd. unfold pendings_after.
  destruct (findResourceOperationPendingIndex _ _) as [i|] eqn:Hf.
  - apply findIndex_Some in Hf as (p & Hi & <- & _).
    apply list_elem_of_split_length in Hi as (l1 & l2 & Hl & ->).
    cbn [remove_at elems from_option id]. rewrite Hl in *. rewrite delete_middle.
    split; [|by apply findIndex_None, not_waiting].
    apply (sublist_NoDup _ _ Hnd), sublist_fmap, sublist_app; [done|by apply sublist_cons].
  - split; [done|]. by apply findIndex_None.
Qed.

(** Removing the first command with an identifier keeps one list inside another. *)
Lemma pendings_after_cons upd p l :
  elems (pendings_after upd (Some (p :: l))) =
    if String.eqb (pe_CorrelationId p) ((dmu_AuditContext upd) ~> ac_CorrelationId) then l
    else p :: elems (pendings_after upd (Some l)).
Proof.
  unfold pendings_after. cbn [elems from_option id findResourceOperationPendingIndex].
  destruct (String.eqb _ _); [done|]. by destruct (findResourceOperationPendingIndex _ l).
Qed.

Lemma pendings_after_elems upd (l : gslice DeviceMetadataUpdatePending) :
  elems (pendings_after upd l) = elems (pendings_after upd (Some (elems l))).
Proof. destruct l; [done|]. unfold pendings_after. cbn. done. Qed.

Lemma pendings_after_mono upd (l k : gslice DeviceMetadataUpdatePending) :
  elems l `sublist_of` elems k -> elems (pendings_after upd l) `sublist_of` elems (pendings_after upd k).
Proof.
  rewrite (pendings_after_elems _ l), (pendings_after_elems _ k).
  generalize (elems l) (elems k). clear l k. induction 1 as [|p l k Hs IH|p l k Hs IH]; [done|..];
    rewrite ?pendings_after_cons; destruct (String.eqb _ _); [done|by constructor| |by constructor].
  etrans; [|exact Hs]. unfold pendings_after.
  destruct (findResourceOperationPendingIndex _ _); [apply sublist_delete|done].
Qed.

Lemma pendings_after_elem upd (l : gslice DeviceMetadataUpdatePending) p :
  p ∈ elems l ->
  p ∈ elems (pendings_after upd l) \/ pe_CorrelationId p = (dmu_AuditContext upd) ~> ac_CorrelationId.
Proof.
  rewrite pendings_after_elems. induction (elems l) as [|q k IH]; [by intros ?%not_elem_of_nil|].
  rewrite pendings_after_cons. intros [-> |Hp]%elem_of_cons.
  - destruct (String.eqb_spec (pe_CorrelationId q) ((dmu_AuditContext upd) ~> ac_CorrelationId)); [by right|left; by left].
  - destruct (String.eqb _ _); [by left|]. destruct (IH Hp); [left; by right|by right].
Qed.

(** An update is built on the state [d1], which is [d] or [d] with the twin of
    the update. *)
Definition built_on (d d1 : State) (ev : DeviceMetadataUpdated) : Prop :=
  d1 = d \/ exists ts, d1 = mutate_twin d ts /\ dmu_TwinSynchronization ev = Some ts.
Lemma built_on_fields d d1 ev : built_on d d1 ev ->
  dms_UpdatePendings d1 = dms_UpdatePendings d /\ last_id d1 = last_id d /\ forget_twin d1 = forget_twin d.
Proof.
  intros [-> |(ts & -> & _)]; [done|]. split_and!; [apply mutate_twin_fields..|apply forget_mutate_twin].
Qed.

(** ** Commands that are lost *)

(** The identifier of the update that an event is. *)
Definition update_id (ev : AnyEvent) : option string :=
  match ev with
  | EvDeviceMetadataUpdated upd => Some ((dmu_AuditContext upd) ~> ac_CorrelationId)
  | _ => None
  end.
(** The identifiers of the update that the state [d] holds and of those among the events [evs]. *)
Definition used_ids (d : State) (evs : list AnyEvent) : list string := last_id d :: omap update_id evs.

(** The state [d'] is the state [d2], less commands that wait for a confirmation and have the
    identifier of the update in [d] or of one in [evs]. *)
Record lost (d : State) (evs : list AnyEvent) (d2 d' : State) : Prop := {
  lost_device : dms_DeviceId d' = dms_DeviceId d2;
  lost_updated : dms_DeviceMetadataUpdated d' = dms_DeviceMetadataUpdated d2;
  lost_metadata : dms_EventMetadata d' = dms_EventMetadata d2;
  lost_kept : elems (dms_UpdatePendings d') `sublist_of` elems (dms_UpdatePendings d2);
  lost_used p : p ∈ elems (dms_UpdatePendings d2) ->
    p ∈ elems (dms_UpdatePendings d') \/ pe_CorrelationId p ∈ used_ids d evs }.

Lemma lost_nothing d evs e : lost d evs e e.
Proof. split; try done. by left. Qed.

Lemma lost_forget d evs d2 d' : lost d evs d2 d' -> lost d evs (forget_twin d2) (forget_twin d').
Proof.
  intros [H1 H2 H3 Hk Hu]. unfold forget_twin.
  destruct (mutate_twin_fields d2 zero_twin) as (E1 & E2 & E3 & _), (mutate_twin_fields d' zero_twin) as (F1 & F2 & F3 & _).
  split; rewrite ?E1, ?E2, ?E3, ?F1, ?F2, ?F3; try done.
  unfold mutate_twin, twin. rewrite H2. destruct (dms_DeviceMetadataUpdated d2) as [u|] eqn:Hd2; [|by rewrite Hd2].
  cbn [getter]. destruct (dmu_TwinSynchronization u); cbn [dms_DeviceMetadataUpdated set_dms]; congruence.
Qed.

(** An update that equals the last one takes the first command with its identifier along. *)
Lemma lost_silently d evs d2 e upd :
  lost d evs d2 e -> ((dmu_AuditContext upd) ~> ac_CorrelationId) ∈ used_ids d evs ->
  lost d evs d2 (set_UpdatePendings e (pendings_after upd (dms_UpdatePendings e))).
Proof.
  intros [H1 H2 H3 Hk Hu] Hid. split; [done..| |]; cbn [dms_UpdatePendings set_UpdatePendings set_dms].
  - etrans; [|exact Hk]. unfold pendings_after.
    destruct (findResourceOperationPendingIndex _ _); [apply sublist_delete|done].
  - intros p [Hp|Hp]%Hu; [|by right]. destruct (pendings_after_elem upd _ _ Hp) as [?| ->]; [by left|by right].
Qed.

(** An update that both states apply. *)
Lemma lost_applied d evs d2 e upd :
  let apply s := set_dms (dmu_DeviceId upd) (Some upd) (pendings_after upd (dms_UpdatePendings s)) (dmu_EventMetadata upd) in
  lost d evs d2 e -> lost d (evs ++ [EvDeviceMetadataUpdated upd]) (apply d2) (apply e).
Proof.
  cbv zeta. intros [_ _ _ Hk Hu]. split; [done..| |]; cbn [dms_UpdatePendings set_dms].
  - by apply pendings_after_mono.
  - assert (Hin : forall x, x ∈ used_ids d evs -> x ∈ used_ids d (evs ++ [EvDeviceMetadataUpdated upd])).
    { unfold used_ids. intros x. rewrite omap_app, !elem_of_cons, elem_of_app. tauto. }
    intros p Hp. assert (Hp2 : p ∈ elems (dms_UpdatePendings d2)).
    { eapply elem_of_submseteq; [exact Hp|]. apply sublist_submseteq. unfold pendings_after.
      destruct (findResourceOperationPendingIndex _ _); [apply sublist_delete|done]. }
    apply Hu in Hp2 as [Hpe|Hid]; [|right; by apply Hin].
    destruct (pendings_after_elem upd _ _ Hpe) as [?| ->]; [by left|]. right.
    unfold used_ids. rewrite omap_app, elem_of_cons, elem_of_app. right. right. by left.
Qed.

Section outcome.
Context `{!UUIDLib}.

Lemma handleByEvent_updated t d ev :
  DeviceMetadataUpdated_Equal (dms_DeviceMetadataUpdated d) ev = false ->
  handleByEvent t d (loaded (EvDeviceMetadataUpdated ev)) =
    (set_dms (dmu_DeviceId ev) (Some ev) (pendings_after ev (dms_UpdatePendings d)) (dmu_EventMetadata ev), None).
Proof.
  intros Hne. change (handleByEvent t d (loaded (EvDeviceMetadataUpdated ev)))
    with ((HandleDeviceMetadataUpdated d ev false).1, @None error).
  pose proof (HandleDeviceMetadataUpdated_cases d ev false) as Hc.
  destruct (HandleDeviceMetadataUpdated d ev false) as [d2 [err|[]]];
    [by destruct Hc as (_ & ? & _)|by destruct Hc as [-> _]|destruct Hc as [_ He]; congruence].
Qed.

Lemma finish_updated_cases t d d1 ev confirm :
  built_on d d1 ev ->
  match finish_updated (HandleDeviceMetadataUpdated d1 ev confirm) ev with
  | (d', inl _) => d' = d1
  | (d', inr []) => d' = set_UpdatePendings d1 (pendings_after ev (dms_UpdatePendings d1)) /\
      last_id d = (dmu_AuditContext ev) ~> ac_CorrelationId /\ (fresh_ids d -> d' = d1)
  | (d', inr evs) => evs = [EvDeviceMetadataUpdated ev] /\
      handleByEvent t d (loaded (EvDeviceMetadataUpdated ev)) = (d', None) /\ (fresh_ids d -> fresh_ids d')
  end.
Proof.
  intros Hb. pose proof (HandleDeviceMetadataUpdated_cases d1 ev confirm) as Hc.
  destruct (built_on_fields d d1 ev Hb) as (Hp & Hl & _).
  assert (Hf1 : fresh_ids d -> fresh_ids d1) by (unfold fresh_ids, pending_ids; by rewrite Hp, Hl).
  destruct (HandleDeviceMetadataUpdated d1 ev confirm) as [d' [err|[]]];
    cbn [finish_updated]; [apply Hc| |].
  - destruct Hc as [-> Hne]. split; [done|]. split.
    + rewrite handleByEvent_updated; [by rewrite Hp|]. apply not_true_iff_false. intros He.
      destruct Hb as [->|(ts & -> & Hts)]; [congruence|].
      rewrite (Equal_mutate_twin _ _ _ Hts He) in Hne. done.
    + intros Hf. destruct (pendings_after_ids ev (dms_UpdatePendings d1) (proj1 (Hf1 Hf))) as [Hnd Hnin]. by split.
  - destruct Hc as [-> He]. apply Equal_same_id in He. split; [done|]. split; [congruence|]. intros Hf%Hf1.
    unfold pendings_after. destruct (findResourceOperationPendingIndex _ _) as [i|] eqn:Hi; [|by destruct d1].
    exfalso. apply findIndex_Some in Hi as (p & Hi & Hid & _). apply Hf.
    rewrite He, <- Hid. apply list_elem_of_fmap_2. by apply list_elem_of_lookup_2 in Hi.
Qed.

(** The events of a command on the device [dev]. *)
Definition of_device (dev : string) (ev : AnyEvent) : Prop :=
  AggregateID ev = MakeStatusResourceUUID dev /\ GroupID ev = dev /\ IsSnapshot ev = false.

#[local] Abbreviation outcome clk t v dev :=
  (Handler.outcome handleByEvent (of_device dev) clk t v).

(** What holds of a command's result.  Without events only the twin object may have changed, and
    commands may be lost that have the identifier of the update that the state holds.  Events lead
    from the old state to a state [d2], of which the new one may have lost commands.  Nothing is
    lost where no identifier is used twice, and of the events when the command is [exact]. *)
Definition device_outcome (clk : nat -> time_) (t : time_) (v : Z) (dev : string) (hi : nat) (exact : Prop)
    (d : State) (r : State * result (list AnyEvent)) : Prop :=
  match r with
  | (d', inl _) | (d', inr []) =>
      lost d [] (forget_twin d) (forget_twin d') /\ (fresh_ids d -> forget_twin d' = forget_twin d)
  | (d', inr evs) => exists d2, produced handleByEvent (of_device dev) clk t v 0 hi d d2 evs /\
      lost d evs d2 d' /\ (fresh_ids d \/ exact -> d' = d2)
  end.

Lemma device_outcome_unchanged clk t v dev hi exact d d' r :
  match r with inl _ | inr [] => True | inr _ => False end ->
  forget_twin d' = forget_twin d -> device_outcome clk t v dev hi exact d (d', r).
Proof.
  destruct r as [err|[|ev evs]]; cbn [device_outcome]; [| |done]; intros _ ->; (split; [apply lost_nothing|done]).
Qed.

Lemma device_outcome_produced clk t v dev hi exact d d' ev evs :
  produced handleByEvent (of_device dev) clk t v 0 hi d d' (ev :: evs) ->
  device_outcome clk t v dev hi exact d (d', inr (ev :: evs)).
Proof. intros Hp. exists d'. split; [done|]. split; [apply lost_nothing|done]. Qed.

Lemma forget_set_UpdatePendings d l : forget_twin (set_UpdatePendings d l) = set_UpdatePendings (forget_twin d) l.
Proof. by destruct d as [dev [[? ? [t|] ? ? ? ? ?]|] k em]. Qed.

Lemma finish_updated_outcome clk t v dev k exact d d1 ev confirm :
  built_on d d1 ev -> is_u64 v -> dmu_DeviceId ev = dev ->
  (exists con seq hub, dmu_EventMetadata ev = Some (MakeEventMeta (clk 0) con seq v hub)) ->
  device_outcome clk t v dev (S k) exact d
    (finish_updated (HandleDeviceMetadataUpdated d1 ev confirm) ev).
Proof.
  intros Hb Hv Hdev (con & seq & hub & Hem).
  pose proof (finish_updated_cases t d d1 ev confirm Hb) as Hc.
  destruct (built_on_fields d d1 ev Hb) as (_ & _ & Hforget).
  destruct (finish_updated _ ev) as [d' [err|[|ev' evs]]].
  - subst. by apply device_outcome_unchanged.
  - destruct Hc as (-> & Hl & Hf). split; [|intros ?%Hf; congruence].
    rewrite forget_set_UpdatePendings, Hforget.
    assert (Hp : dms_UpdatePendings d1 = dms_UpdatePendings (forget_twin d)).
    { rewrite <- Hforget. symmetry. apply mutate_twin_fields. }
    rewrite Hp. apply lost_silently; [apply lost_nothing|]. rewrite <- Hl. by left.
  - destruct Hc as ([= -> ->] & Hr & _). apply device_outcome_produced.
    apply (produced_one _ _ _ _ _ _ 0); [done| |done| | |lia|lia|done].
    + cbn. by rewrite Hem.
    + unfold of_device. cbn. by rewrite Hdev.
    + cbn. by rewrite Hem.
Qed.

Lemma HandleDeviceMetadataUpdatePending_err now d p :
  (HandleDeviceMetadataUpdatePending now d p).2 <> None ->
  (HandleDeviceMetadataUpdatePending now d p).1 = d.
Proof. unfold HandleDeviceMetadataUpdatePending. by repeat case_match. Qed.

Lemma finish_pending_outcome clk v hi exact d p :
  is_u64 v ->
  (exists con seq hub, dmp_EventMetadata p = Some (MakeEventMeta (clk 0) con seq v hub)) ->
  1 <= hi ->
  device_outcome clk (clk 2) v (dmp_DeviceId p) hi exact d
    (finish (HandleDeviceMetadataUpdatePending (clk 2) d p) (EvDeviceMetadataUpdatePending p)).
Proof.
  intros Hv (con & seq & hub & Hem) Hhi.
  pose proof (HandleDeviceMetadataUpdatePending_err (clk 2) d p) as Herr.
  destruct (HandleDeviceMetadataUpdatePending (clk 2) d p) as [d' [err|]] eqn:Hd; cbn [finish].
  - simpl in Herr. apply device_outcome_unchanged; [done|]. by rewrite Herr.
  - apply device_outcome_produced, (produced_one _ _ _ _ _ _ 0); [done| |done|done| |lia|lia|].
    + cbn. by rewrite Hem.
    + cbn. by rewrite Hem.
    + change (handleByEvent (clk 2) d (loaded (EvDeviceMetadataUpdatePending p)))
        with ((HandleDeviceMetadataUpdatePending (clk 2) d p).1, @None error). by rewrite Hd.
Qed.

Lemma device_outcome_weaken clk t v dev hi hi' exact d r :
  hi <= hi' -> device_outcome clk t v dev hi exact d r -> device_outcome clk t v dev hi' exact d r.
Proof.
  intros Hle. destruct r as [d' [err|[|ev evs]]]; [done|done|]. intros (d2 & Hp & Hd). exists d2.
  split; [|done]. by eapply produced_weaken; [..|exact Hp].
Qed.
End outcome.

Section commands.
Context `{!UUIDLib} `{!StringSet} (cc : CommandContext).

Lemma cancelDeviceMetadataUpdate_cases clk k t d dev c status con cm v d2 :
  is_u64 v ->
  dms_DeviceMetadataUpdated d2 = dms_DeviceMetadataUpdated d ->
  let '(d', r) := ConfirmDeviceMetadataUpdateRequest_ cc (clk k) d
                    (MkConfirmDeviceMetadataUpdateRequest dev c status con (Some cm)) v true in
  match r with
  | inl _ => d' = d
  | inr [] => exists upd, last_id d = (dmu_AuditContext upd) ~> ac_CorrelationId /\
      d' = set_UpdatePendings d (pendings_after upd (dms_UpdatePendings d)) /\ (fresh_ids d -> d' = d)
  | inr evs => exists upd, evs = [EvDeviceMetadataUpdated upd] /\
      d' = set_dms (dmu_DeviceId upd) (Some upd) (pendings_after upd (dms_UpdatePendings d)) (dmu_EventMetadata upd) /\
      produced handleByEvent (of_device dev) clk t v k (S k) d2
        (set_dms (dmu_DeviceId upd) (Some upd) (pendings_after upd (dms_UpdatePendings d2)) (dmu_EventMetadata upd)) evs /\
      (fresh_ids d -> fresh_ids d')
  end.
Proof.
  intros Hv Hd2. unfold ConfirmDeviceMetadataUpdateRequest_, cancelDeviceMetadataUpdate. cbn [cmr_CommandMetadata].
  match goal with |- context [finish_updated _ ?ev] =>
    pose proof (finish_updated_cases t d d ev true (or_introl eq_refl)) as Hc;
    pose proof (HandleDeviceMetadataUpdated_cases d ev true) as Hh;
    assert (Hem : dmu_EventMetadata ev = Some (command_meta cc (clk k) (Some cm) v)) by done;
    assert (Hdev : dmu_DeviceId ev = dev) by done;
    revert Hc Hh Hem Hdev; generalize ev end.
  intros ev Hc Hh Hem Hdev.
  destruct (HandleDeviceMetadataUpdated d ev true) as [d' [err|[]]]; cbn [finish_updated] in *; [done| |].
  - destruct Hc as (_ & _ & Hfr). destruct Hh as [-> Hne]. exists ev. split_and!; [done|done| |done].
    rewrite <- Hd2 in Hne. apply (produced_one _ _ _ _ _ _ k); [done| |done| | |lia|lia|by apply handleByEvent_updated].
    + cbn. by rewrite Hem.
    + unfold of_device. cbn. by rewrite Hdev.
    + cbn. by rewrite Hem.
  - exists ev. by destruct Hc as (-> & Hl & Hf).
Qed.

(** Where no identifier is used twice, cancelling loses nothing. *)
Lemma cancel_confirm_outcome clk k t d dev c status con cm v :
  is_u64 v -> fresh_ids d ->
  let r := ConfirmDeviceMetadataUpdateRequest_ cc (clk k) d
             (MkConfirmDeviceMetadataUpdateRequest dev c status con (Some cm)) v true in
  Handler.outcome handleByEvent (of_device dev) clk t v k (S k) d r /\ fresh_ids r.1.
Proof.
  intros Hv Hf. cbv zeta.
  pose proof (cancelDeviceMetadataUpdate_cases clk k t d dev c status con cm v d Hv eq_refl) as Hc.
  destruct (ConfirmDeviceMetadataUpdateRequest_ _ _ _ _ _ _) as [d' [err|[|ev evs]]]; cbn [fst Handler.outcome].
  - by subst.
  - destruct Hc as (upd & _ & _ & Hd). rewrite (Hd Hf). split; [apply produced_nil; lia|done].
  - destruct Hc as (upd & _ & -> & Hp & Hfr). split; [exact Hp|by apply Hfr].
Qed.

(** What the loop of the cancellations keeps: the events so far lead to a state of which only
    commands are lost. *)
Definition cancels_to clk t v dev (d : State) (i : nat) (e : State) (evs : list AnyEvent) : Prop :=
  last_id e ∈ used_ids d evs /\
  exists d2, produced handleByEvent (of_device dev) clk t v 0 i d d2 evs /\ lost d evs d2 e.

Lemma cancels_to_step clk t v dev status con cm d i e evs c :
  cancels_to clk t v dev d i e evs ->
  let r := ConfirmDeviceMetadataUpdateRequest_ cc (clk i) e
             (MkConfirmDeviceMetadataUpdateRequest dev c status con (Some cm))
             (u64 (v + Z.of_nat (length evs))) true in
  cancels_to clk t v dev d (S i) r.1 (match r.2 with inr ev => evs ++ ev | inl _ => evs end).
Proof.
  intros (Hid & d2 & Hp & Hl). cbv zeta.
  pose proof (cancelDeviceMetadataUpdate_cases clk i t e dev c status con cm _ d2
    (u64_range (v + Z.of_nat (length evs))) ltac:(by destruct Hl)) as Hc.
  assert (Hp' : produced handleByEvent (of_device dev) clk t v 0 (S i) d d2 evs)
    by (eapply produced_weaken; [..|exact Hp]; lia).
  destruct (ConfirmDeviceMetadataUpdateRequest_ _ _ _ _ _ _) as [d' [err|[|ev evs']]]; cbn [fst snd].
  - subst d'. split; [done|by exists d2].
  - destruct Hc as (upd & Hu & -> & _). rewrite app_nil_r. split; [done|]. exists d2. split; [done|].
    apply lost_silently; [done|]. by rewrite <- Hu.
  - destruct Hc as (upd & [= -> ->] & -> & Hev & _). split.
    + unfold used_ids. rewrite omap_app, elem_of_cons, elem_of_app. right. right. by left.
    + eexists. split; [eapply produced_app; [exact Hp|exact Hev]|]. by apply lost_applied.
Qed.

Lemma CancelPendingMetadataUpdatesRequest_outcome clk t d req v :
  device_outcome clk t v (cxr_DeviceId req) (length (elems (dms_UpdatePendings d))) False d
    (CancelPendingMetadataUpdatesRequest_ cc clk d req v).
Proof.
  unfold CancelPendingMetadataUpdatesRequest_.
  destruct (cxr_CommandMetadata req) as [cm|]; [|by apply device_outcome_unchanged].
  match goal with |- context [cancel_range dms_UpdatePendings ?confirm ?flt clk d v] =>
    pose proof (cancel_range_produced dms_UpdatePendings confirm flt handleByEvent
      (of_device (cxr_DeviceId req)) fresh_ids clk t) as Hp;
    pose proof (cancel_loop_rule dms_UpdatePendings confirm flt (cancels_to clk t v (cxr_DeviceId req) d)
      clk v (length (elems (dms_UpdatePendings d))) 0 (elems (dms_UpdatePendings d)) d []) as Hj;
    change (cancel_loop _ confirm flt clk v _ 0 _ d []) with (cancel_range dms_UpdatePendings confirm flt clk d v) in Hj;
    destruct (cancel_range dms_UpdatePendings confirm flt clk d v) as [d' evs] eqn:Hr end.
  cbv zeta in Hj. destruct Hj as (_ & d2 & Hd2 & Hl).
  { intros i e evs1 (Hid & d2 & Hd2 & Hl). split; [done|]. exists d2. split; [|done].
    eapply produced_weaken; [..|exact Hd2]; lia. }
  { intros i e evs1 c. apply cancels_to_step. }
  { split; [by left|]. exists d. split; [by apply produced_nil|apply lost_nothing]. }
  assert (Hex : fresh_ids d -> d' = d2).
  { intros Hf. destruct (fun H => Hp H v d Hf) as [Hpr _].
    { intros k e corr v' Hv He. by apply cancel_confirm_outcome. }
    rewrite Hr in Hpr. destruct Hpr as [Hpr _ _ _], Hd2 as [Hd2 _ _ _]. cbn [fst snd] in *. congruence. }
  cbn [fst snd] in *. destruct evs as [|ev evs]; cbn [length Nat.eqb device_outcome].
  - pose proof (produced_nothing _ _ _ _ _ _ _ _ _ Hd2) as ->. split; [|intros Hf; by rewrite (Hex Hf)].
    by apply lost_forget.
  - exists d2. split; [exact Hd2|]. split; [done|]. by intros [Hf|[]]; apply Hex.
Qed.

Definition command_device (cmd : Command) : string :=
  match cmd with
  | CmdUpdateDeviceMetadata r => udr_DeviceId r
  | CmdUpdateDeviceToOffline r => uor_DeviceID r
  | CmdConfirmDeviceMetadataUpdate r => cmr_DeviceId r
  | CmdCancelPendingMetadataUpdates r => cxr_DeviceId r
  | _ => ""
  end.

Lemma updateDeviceConnection_outcome clk t exact d dev conn cm con seq hub v ac :
  is_u64 v ->
  device_outcome clk t v dev 1 exact d
    (updateDeviceConnection cc d dev conn cm (MakeEventMeta (clk 0) con seq v hub) ac).
Proof.
  intros Hv. unfold updateDeviceConnection. do 2 (case_match; [by apply device_outcome_unchanged|]).
  destruct (if IsOnline _ then _ else _) as [err|ts]; [by apply device_outcome_unchanged|].
  apply finish_updated_outcome; [|done|done|by eexists _, _, _].
  right. by exists ts.
Qed.

(** C31: A command on the metadata of a device that fails or produces no event leaves the state
    as it was, except for the twin synchronization it may have written through the pointer, and
    except for waiting commands with the correlation identifier of the last update, which may
    be lost without an event ([dropped_without_event] shows one that is).  The events of any other
    one are of this device, their versions count up from the given one, and they replay on the old
    state to the new state: exactly, unless the command cancels; of a cancellation the new state
    may have lost waiting commands with the identifier of the last update or of one of its events.
    Nothing is lost while no identifier is used twice. *)
Theorem HandleCommand_device clk d cmd v :
  is_u64 v ->
  device_outcome clk (clk 2) v (command_device cmd)
    (3 + length (elems (dms_UpdatePendings d))) (forall req, cmd <> CmdCancelPendingMetadataUpdates req) d
    (HandleCommand cc clk d cmd v).
Proof.
  intros Hv. destruct cmd as [| | | | | | | | | | | |r|r|r|r| | |]; try by apply device_outcome_unchanged.
  all: cbn [HandleCommand command_device].
  - unfold updateDeviceMetadataRequest. destruct (udr_CommandMetadata r) as [cm|]; [|by apply device_outcome_unchanged].
    destruct (udr_GetConnection r) as [conn|].
    { eapply device_outcome_weaken; [|by apply updateDeviceConnection_outcome]. lia. }
    destruct (udr_GetTwinSynchronization r) as [ts|].
    { unfold updateDeviceTwinSynchronization. do 4 (case_match; [by apply device_outcome_unchanged|]).
      lazymatch goal with |- device_outcome _ _ _ _ _ _ _ (match ?m with _ => _ end) =>
        destruct m as [err|[ts'|]]; [by apply device_outcome_unchanged| |by apply device_outcome_unchanged] end.
      eapply device_outcome_weaken; [|apply (finish_updated_outcome _ _ _ _ 0);
        [by left|done|done|by eexists _, _, _]]. lia. }
    destruct (udr_Update r) as [[?|?|?|?]|]; try by apply device_outcome_unchanged.
    + unfold updateDeviceTwinEnabled. case_match; [by apply device_outcome_unchanged|].
      apply finish_pending_outcome; [done|by eexists _, _, _|lia].
    + unfold updateDeviceTwinForceSynchronization. do 2 (case_match; [by apply device_outcome_unchanged|]).
      apply finish_pending_outcome; [done|by eexists _, _, _|lia].
  - unfold updateToOfflineRequest. do 2 (case_match; [by apply device_outcome_unchanged|]).
    eapply device_outcome_weaken; [|by apply updateDeviceConnection_outcome]. lia.
  - unfold ConfirmDeviceMetadataUpdateRequest_. case_match; [|by apply device_outcome_unchanged].
    destruct (cmr_Confirm r) as [[b|b]|]; [| |by apply device_outcome_unchanged].
    + unfold updateTwinEnabled. eapply device_outcome_weaken;
        [|apply (finish_updated_outcome _ _ _ _ 0); [|done|done|by eexists _, _, _]]; [lia|].
      right. by eexists.
    + unfold updateTwinForceSynchronization. case_match; [by apply device_outcome_unchanged|].
      eapply device_outcome_weaken;
        [|apply (finish_updated_outcome _ _ _ _ 0); [|done|done|by eexists _, _, _]]; [lia|].
      right. by eexists.
  - pose proof (CancelPendingMetadataUpdatesRequest_outcome clk (clk 2) d r v) as Ho.
    apply (device_outcome_weaken _ _ _ _ _ (3 + length (elems (dms_UpdatePendings d)))) in Ho; [|lia].
    destruct (CancelPendingMetadataUpdatesRequest_ _ _ _ _ _) as [d' [err|[|ev evs]]]; [done|done|].
    destruct Ho as (d2 & Hp & Hl & Hex). exists d2. split; [exact Hp|]. split; [done|].
    intros [Hf|Hne]; [apply Hex; by left|by destruct (Hne r)].
Qed.
End commands.

(** ** Live commands *)
Definition device_live_ids (now : time_) (d : State) : list string :=
  live_ids now (elems (dms_UpdatePendings d)).

(** No handler makes two live commands share an identifier. *)
Lemma HandleDeviceMetadataUpdated_pendings d upd confirm :
  elems (dms_UpdatePendings (HandleDeviceMetadataUpdated d upd confirm).1)
    `sublist_of` elems (dms_UpdatePendings d).
Proof.
  pose proof (HandleDeviceMetadataUpdated_cases d upd confirm) as Hc.
  assert (Hs : elems (pendings_after upd (dms_UpdatePendings d)) `sublist_of` elems (dms_UpdatePendings d)).
  { unfold pendings_after. destruct (findResourceOperationPendingIndex _ _); [|done].
    apply sublist_delete. }
  destruct (HandleDeviceMetadataUpdated d upd confirm) as [d' [err|[]]]; destruct Hc as [-> _]; done.
Qed.

Lemma HandleDeviceMetadataUpdatePending_live now d p :
  NoDup (device_live_ids now d) ->
  NoDup (device_live_ids now (HandleDeviceMetadataUpdatePending now d p).1).
Proof.
  unfold HandleDeviceMetadataUpdatePending, device_live_ids. intros Hn.
  destruct (pe_IsExpired now p) eqn:He; [done|].
  destruct (checkForDuplicity _ _ _) eqn:Hd; [|done]. simpl.
  apply checkForDuplicity_true in Hd. rewrite live_ids_snoc by done.
  apply NoDup_app. split_and!; [done| |apply NoDup_singleton].
  intros x Hx ->%list_elem_of_singleton. by apply Hd.
Qed.

Lemma live_ids_of_sublist now d d' :
  elems (dms_UpdatePendings d') `sublist_of` elems (dms_UpdatePendings d) ->
  NoDup (device_live_ids now d) -> NoDup (device_live_ids now d').
Proof. intros Hs Hn. apply (sublist_NoDup _ _ Hn). by apply live_ids_sublist. Qed.

Section live.
Context `{!UUIDLib} `{!StringSet} (cc : CommandContext).

Lemma finish_updated_pendings r ev : (finish_updated r ev).1 = r.1.
Proof. by destruct r as [d [err|[]]]. Qed.

Lemma finish_updated_sublist d d1 upd confirm ev :
  dms_UpdatePendings d1 = dms_UpdatePendings d ->
  elems (dms_UpdatePendings (finish_updated (HandleDeviceMetadataUpdated d1 upd confirm) ev).1)
    `sublist_of` elems (dms_UpdatePendings d).
Proof.
  intros Hp. rewrite finish_updated_pendings, <- Hp. apply HandleDeviceMetadataUpdated_pendings.
Qed.

Definition fewer (d d' : State) : Prop :=
  elems (dms_UpdatePendings d') `sublist_of` elems (dms_UpdatePendings d).
#[export] Instance fewer_preorder : PreOrder fewer.
Proof. split; [intros d; by unfold fewer|]. intros a b c Hab Hbc. unfold fewer in *. by etrans. Qed.

Lemma mutate_twin_pendings d ts : dms_UpdatePendings (mutate_twin d ts) = dms_UpdatePendings d.
Proof. apply mutate_twin_fields. Qed.

Lemma confirm_fewer now d req v cancel :
  fewer d (ConfirmDeviceMetadataUpdateRequest_ cc now d req v cancel).1.
Proof.
  unfold ConfirmDeviceMetadataUpdateRequest_, cancelDeviceMetadataUpdate, updateTwinEnabled,
    updateTwinForceSynchronization.
  repeat case_match; try reflexivity; apply finish_updated_sublist; auto using mutate_twin_pendings.
Qed.

Lemma updateDeviceConnection_fewer d dev conn cm em ac :
  fewer d (updateDeviceConnection cc d dev conn cm em ac).1.
Proof.
  unfold updateDeviceConnection. do 2 (case_match; [reflexivity|]).
  destruct (if IsOnline _ then _ else _) as [err|ts]; [reflexivity|].
  apply finish_updated_sublist, mutate_twin_pendings.
Qed.

Lemma finish_pending_live now d p ev :
  NoDup (device_live_ids now d) ->
  NoDup (device_live_ids now (finish (HandleDeviceMetadataUpdatePending now d p) ev).1).
Proof.
  intros Hn. pose proof (HandleDeviceMetadataUpdatePending_live now d p Hn).
  by destruct (HandleDeviceMetadataUpdatePending now d p) as [d' [err|]].
Qed.

Lemma HandleCommand_live clk d cmd v :
  NoDup (device_live_ids (clk 2) d) ->
  NoDup (device_live_ids (clk 2) (HandleCommand cc clk d cmd v).1).
Proof.
  intros Hn. destruct cmd as [| | | | | | | | | | | |r|r|r|r| | |]; try done; cbn [HandleCommand].
  - unfold updateDeviceMetadataRequest. destruct (udr_CommandMetadata r); [|done].
    destruct (udr_GetConnection r) as [conn|].
    { apply (live_ids_of_sublist _ d); [apply updateDeviceConnection_fewer|done]. }
    destruct (udr_GetTwinSynchronization r) as [ts|].
    { apply (live_ids_of_sublist _ d); [|done]. unfold updateDeviceTwinSynchronization.
      do 4 (case_match; [done|]).
      lazymatch goal with |- context [match ?m with inl _ => _ | inr _ => _ end] =>
        destruct m as [err|[ts'|]]; [done| |done] end.
      by apply finish_updated_sublist. }
    destruct (udr_Update r) as [[?|?|?|?]|]; try done.
    + unfold updateDeviceTwinEnabled. case_match; [done|]. by apply finish_pending_live.
    + unfold updateDeviceTwinForceSynchronization. do 2 (case_match; [done|]).
      by apply finish_pending_live.
  - apply (live_ids_of_sublist _ d); [|done]. unfold updateToOfflineRequest.
    do 2 (case_match; [done|]). apply updateDeviceConnection_fewer.
  - apply (live_ids_of_sublist _ d); [apply confirm_fewer|done].
  - apply (live_ids_of_sublist _ d); [|done]. unfold CancelPendingMetadataUpdatesRequest_.
    case_match; [|done].
    match goal with |- context [cancel_range ?p ?c ?f clk d v] =>
      assert (Hf : fewer d (cancel_range p c f clk d v).1)
        by (unfold cancel_range; apply (cancel_loop_relates _ _ _ fewer); intros; apply confirm_fewer);
      destruct (cancel_range p c f clk d v) as [d' evs] end.
    by case_match.
Qed.
End live.

(** The states that commands, replayed events and snapshots can lead to, each
    with a time that is not before any reading of the clock so far. *)
Inductive reachable `{!UUIDLib} `{!StringSet} : time_ -> State -> Prop :=
  | reach_new t : reachable t NewDeviceMetadataSnapshotTaken
  | reach_command cc t t' clk d cmd v :
      (forall k, t <= clk k <= t')%Z -> reachable t d ->
      reachable t' (HandleCommand cc clk d cmd v).1
  | reach_event t t' d ev :
      (t <= t')%Z -> IsSnapshot ev = false -> reachable t d ->
      reachable t' (handleByEvent t' d (loaded ev)).1
  | reach_snapshot t d d0 now v :
      reachable t d0 -> reachable t (HandleDeviceMetadataSnapshotTaken d (TakeSnapshot now d0 v)).

(** In every reachable state no two commands on the metadata of the device
    that are still valid share a correlation identifier. *)
Theorem reachable_live_ids `{!UUIDLib} `{!StringSet} t d :
  reachable t d -> NoDup (device_live_ids t d).
Proof.
  assert (Hlater : forall t t' d, (t <= t')%Z ->
    NoDup (device_live_ids t d) -> NoDup (device_live_ids t' d)).
  { intros a b e Hle Hn. apply (sublist_NoDup _ _ Hn). by apply live_ids_later. }
  induction 1 as [t|cc t t' clk d cmd v Hclk _ IH|t t' d ev Hle Hs _ IH|t d d0 now v _ IH].
  - constructor.
  - destruct (Hclk 2). eapply Hlater; [done|]. apply HandleCommand_live. by eapply Hlater.
  - pose proof (Hlater _ _ _ Hle IH) as IH'. destruct ev as [| | | | | | | | | | | | |u|p| | |]; try done.
    + eapply live_ids_of_sublist; [|exact IH']. apply (HandleDeviceMetadataUpdated_pendings d u false).
    + by apply (HandleDeviceMetadataUpdatePending_live t' d p).
  - exact IH.
Qed.

(** ** Who changes the connection *)
Section connection.
Context `{!StringSet} (cc : CommandContext).

Lemma HandleDeviceMetadataUpdated_connection d upd confirm :
  connection (HandleDeviceMetadataUpdated d upd confirm).1 = connection d \/
  connection (HandleDeviceMetadataUpdated d upd confirm).1 = dmu_Connection upd.
Proof.
  pose proof (HandleDeviceMetadataUpdated_cases d upd confirm) as Hc.
  destruct (HandleDeviceMetadataUpdated d upd confirm) as [d' [err|[]]]; destruct Hc as [-> _];
    [by left|by right|by left].
Qed.

Lemma HandleDeviceMetadataUpdatePending_connection now d p ev :
  connection (finish (HandleDeviceMetadataUpdatePending now d p) ev).1 = connection d.
Proof. unfold HandleDeviceMetadataUpdatePending. by repeat case_match. Qed.

(** An update that carries the connection on does not change it. *)
Lemma updated_event_connection d d1 ev confirm :
  connection d1 = connection d -> dmu_Connection ev = connection d ->
  connection (finish_updated (HandleDeviceMetadataUpdated d1 ev confirm) ev).1 = connection d.
Proof.
  intros H1 H2. rewrite finish_updated_pendings.
  destruct (HandleDeviceMetadataUpdated_connection d1 ev confirm) as [-> | ->]; congruence.
Qed.

Lemma confirm_connection now d req v cancel :
  connection (ConfirmDeviceMetadataUpdateRequest_ cc now d req v cancel).1 = connection d.
Proof.
  unfold ConfirmDeviceMetadataUpdateRequest_, cancelDeviceMetadataUpdate, updateTwinEnabled,
    updateTwinForceSynchronization.
  repeat case_match; try done; apply updated_event_connection; try done; apply mutate_twin_fields.
Qed.

Definition same_connection (d d' : State) : Prop := connection d' = connection d.
#[export] Instance same_connection_preorder : PreOrder same_connection.
Proof. split; [done|]. unfold same_connection. intros a b c. congruence. Qed.

(** The connection becomes the completed one of the request; offline over an
    online connection only with the same identifier. *)
Lemma updateDeviceConnection_connection d dev conn cm em ac :
  let d' := (updateDeviceConnection cc d dev conn cm em ac).1 in
  connection d' = connection d \/
  connection d' = Some (complete_connection d conn cm) /\
  (IsOnline (Some conn) = false -> IsOnline (connection d) = true ->
   cm ~> cm_ConnectionId = (connection d) ~> con_Id).
Proof.
  cbv zeta. unfold updateDeviceConnection. do 2 (case_match; [by left|]).
  destruct (if IsOnline _ then _ else _) as [err|ts] eqn:Hts; [by left|].
  rewrite finish_updated_pendings.
  match goal with |- context [HandleDeviceMetadataUpdated ?a ?b ?c] =>
    destruct (HandleDeviceMetadataUpdated_connection a b c) as [-> | ->] end.
  - left. apply mutate_twin_fields.
  - right. split; [done|]. intros Hoff Hon.
    assert (Hc : IsOnline (Some (complete_connection d conn cm)) = false) by exact Hoff.
    rewrite Hc in Hts. unfold getTwinSynchronizationForDisconnectedDevice in Hts.
    rewrite Hon, Hc in Hts. simpl in Hts.
    destruct (String.eqb_spec ((connection d) ~> con_Id) (cm ~> cm_ConnectionId)); [done|].
    by simpl in Hts.
Qed.

Lemma HandleCommand_connection clk d cmd v :
  let d' := (HandleCommand cc clk d cmd v).1 in
  connection d' = connection d \/
  exists conn cm, connection d' = Some (complete_connection d conn cm) /\
    (IsOnline (Some conn) = false -> IsOnline (connection d) = true ->
     cm ~> cm_ConnectionId = (connection d) ~> con_Id) /\
    ((exists req, cmd = CmdUpdateDeviceMetadata req /\ udr_GetConnection req = Some conn /\
                  udr_CommandMetadata req = cm) \/
     (exists req, cmd = CmdUpdateDeviceToOffline req /\
                  uor_ServiceID req = (connection d) ~> con_ServiceId /\
                  conn = NewConnection Connection_OFFLINE "" 0)).
Proof.
  cbv zeta. destruct cmd as [| | | | | | | | | | | |r|r|r|r| | |]; try (by left);
    cbn [HandleCommand].
  - unfold updateDeviceMetadataRequest. destruct (udr_CommandMetadata r) eqn:Hcm; [|by left].
    destruct (udr_GetConnection r) as [conn|] eqn:Hconn.
    { match goal with |- context [updateDeviceConnection cc d ?a conn ?b ?e ?f] =>
        destruct (updateDeviceConnection_connection d a conn b e f) as [?|[? ?]] end;
        [by left|right]. eexists conn, _. split_and!; [done|done|]. left. by exists r. }
    left. destruct (udr_GetTwinSynchronization r) as [ts|].
    { unfold updateDeviceTwinSynchronization. do 4 (case_match; [done|]).
      lazymatch goal with |- context [match ?m with inl _ => _ | inr _ => _ end] =>
        destruct m as [err|[ts'|]]; [done| |done] end.
      by apply updated_event_connection. }
    destruct (udr_Update r) as [[?|?|?|?]|]; try done.
    + unfold updateDeviceTwinEnabled. case_match; [done|].
      apply HandleDeviceMetadataUpdatePending_connection.
    + unfold updateDeviceTwinForceSynchronization. do 2 (case_match; [done|]).
      apply HandleDeviceMetadataUpdatePending_connection.
  - unfold updateToOfflineRequest. case_match; [by left|]. case_match eqn:Hs; [by left|].
    apply negb_false_iff, String.eqb_eq in Hs.
    match goal with |- context [updateDeviceConnection cc d ?a ?conn ?b ?e ?f] =>
      destruct (updateDeviceConnection_connection d a conn b e f) as [?|[? ?]] end;
      [by left|right]. eexists _, _. split_and!; [done|done|]. right. by exists r.
  - left. apply confirm_connection.
  - left. unfold CancelPendingMetadataUpdatesRequest_. case_match; [|done].
    match goal with |- context [cancel_range ?p ?c ?f clk d v] =>
      assert (Hf : same_connection d (cancel_range p c f clk d v).1)
        by (unfold cancel_range; apply (cancel_loop_relates _ _ _ same_connection);
            intros; apply confirm_connection);
      destruct (cancel_range p c f clk d v) as [d' evs] end.
    by case_match.
Qed.

(** C39: Only a command on the connection that the device is online with, or
    the report that the service this connection belongs to is gone, sets an
    online device offline: a late message of an older connection cannot.  The
    connection then keeps its identifier, protocol and time. *)
Theorem offline_only_by_owner clk d cmd v :
  let d' := (HandleCommand cc clk d cmd v).1 in
  IsOnline (connection d) = true -> IsOnline (connection d') = false ->
  ((exists req, cmd = CmdUpdateDeviceMetadata req /\
      (udr_CommandMetadata req) ~> cm_ConnectionId = (connection d) ~> con_Id) \/
   (exists req, cmd = CmdUpdateDeviceToOffline req /\
      uor_ServiceID req = (connection d) ~> con_ServiceId)) /\
  (connection d') ~> con_Id = (connection d) ~> con_Id /\
  (connection d') ~> con_Protocol = (connection d) ~> con_Protocol /\
  (connection d') ~> con_ServiceId = ""%string.
Proof.
  cbv zeta. intros Hon Hoff.
  destruct (HandleCommand_connection clk d cmd v) as [He|(conn & cm & He & Hid & Hcmd)];
    [congruence|].
  rewrite He in *. assert (Hc : IsOnline (Some conn) = false) by exact Hoff.
  specialize (Hid Hc Hon). cbn [getter]. unfold complete_connection. rewrite Hc.
  cbn [con_Id con_Protocol con_ServiceId]. split_and!; [|done..].
  destruct Hcmd as [(req & -> & _ & <-)|(req & -> & Hs & _)]; [left|right]; by exists req.
Qed.

(** Whatever the command, the time a device was connected at does not go
    back, and its local endpoints are never lost. *)
Theorem connected_at_monotone clk d cmd v :
  let d' := (HandleCommand cc clk d cmd v).1 in
  ((connection d) ~> con_ConnectedAt <= (connection d') ~> con_ConnectedAt)%Z /\
  ((connection d) ~> con_LocalEndpoints <> [] -> (connection d') ~> con_LocalEndpoints <> []).
Proof.
  cbv zeta.
  destruct (HandleCommand_connection clk d cmd v) as [He|(conn & cm & He & _)]; rewrite He.
  - by split.
  - cbn [getter]. unfold complete_connection. cbn [con_ConnectedAt con_LocalEndpoints]. split.
    + destruct (Z.ltb_spec (con_ConnectedAt conn) ((connection d) ~> con_ConnectedAt)); lia.
    + by destruct (con_LocalEndpoints conn).
Qed.
End connection.

(** ** The reports of the twin synchronization *)
Section twin.
Context `{!StringSet} (cc : CommandContext).

(** The command of the device that the stored twin synchronization came with. *)
Definition twin_command (d : State) : option CommandMetadata := (twin d) ~> ts_CommandMetadata.

Lemma prepareTwinSynchronizationToSyncing_Some d ts ts' :
  prepareTwinSynchronizationToSyncing d ts = inr (Some ts') ->
  twin_enabled d = true /\ (0 < ts_SyncingAt ts)%Z /\ ts_State ts' = ts_State ts /\
  ts_SyncingAt ts' = ts_SyncingAt ts /\ ts_InSyncAt ts' = (twin d) ~> ts_InSyncAt /\
  ((twin d) ~> ts_State = TwinSynchronization_SYNCING ->
   (ts_SyncingAt ts' <= (twin d) ~> ts_SyncingAt)%Z).
Proof.
  unfold prepareTwinSynchronizationToSyncing. intros Hok.
  destruct (twin_enabled d); [|done]. simpl in Hok.
  destruct (Z.leb_spec (ts_SyncingAt ts) 0); [done|].
  destruct (bool_decide_reflect ((twin d) ~> ts_State = TwinSynchronization_SYNCING)) as [Hs|Hs];
    destruct (Z.ltb_spec ((twin d) ~> ts_SyncingAt) (ts_SyncingAt ts)); simpl in Hok; simplify_eq;
    split_and!; try done; simpl; intros; try done; lia.
Qed.

Lemma prepareTwinSynchronizationToInSync_Some d ts ts' :
  prepareTwinSynchronizationToInSync d ts = inr (Some ts') ->
  twin_enabled d = true /\ (0 < ts_InSyncAt ts)%Z /\ ts_State ts' = ts_State ts /\
  ts_InSyncAt ts' = ts_InSyncAt ts /\ ts_SyncingAt ts' = (twin d) ~> ts_SyncingAt /\
  ((twin d) ~> ts_State = TwinSynchronization_IN_SYNC ->
   ((twin d) ~> ts_InSyncAt <= ts_InSyncAt ts')%Z) /\
  ((twin d) ~> ts_State = TwinSynchronization_SYNCING ->
   ((twin d) ~> ts_SyncingAt <= ts_InSyncAt ts')%Z).
Proof.
  unfold prepareTwinSynchronizationToInSync. intros Hok.
  destruct (twin_enabled d); [|done]. simpl in Hok.
  destruct (Z.leb_spec (ts_InSyncAt ts) 0); [done|].
  destruct (bool_decide_reflect ((twin d) ~> ts_State = TwinSynchronization_IN_SYNC)) as [Hs|Hs];
    destruct (Z.ltb_spec (ts_InSyncAt ts) ((twin d) ~> ts_InSyncAt)); simpl in Hok; simplify_eq;
  destruct (bool_decide_reflect ((twin d) ~> ts_State = TwinSynchronization_SYNCING)) as [Hs'|Hs'];
    destruct (Z.ltb_spec (ts_InSyncAt ts) ((twin d) ~> ts_SyncingAt)); simpl in Hok; simplify_eq;
    split_and!; try done; simpl; intros; try done; lia.
Qed.

(** A report of the device on its twin synchronization that produces an
    event came on the connection of the stored one with a larger sequence
    number, which becomes the stored one; it reports SYNCING or IN_SYNC only
    while the twin is enabled, with positive times that keep the other time
    of the stored one, and in order: not a later start of the same
    synchronization, not an end before its start or before the last end.  Any
    other report changes neither the twin nor the connection. *)
Theorem twin_report clk d req ts v :
  udr_GetConnection req = None -> udr_GetTwinSynchronization req = Some ts ->
  let '(d', r) := HandleCommand cc clk d (CmdUpdateDeviceMetadata req) v in
  match r with
  | inr [_] =>
      exists ts', twin d' = Some ts' /\ ts_State ts' = ts_State ts /\
      ts_CommandMetadata ts' = udr_CommandMetadata req /\
      (twin_command d') ~> cm_ConnectionId = (twin_command d) ~> cm_ConnectionId /\
      ((twin_command d) ~> cm_Sequence < (twin_command d') ~> cm_Sequence)%Z /\
      match ts_State ts' with
      | TwinSynchronization_OUT_OF_SYNC => False
      | TwinSynchronization_DISABLED => True
      | TwinSynchronization_SYNCING =>
          twin_enabled d = true /\ (0 < ts_SyncingAt ts')%Z /\
          ts_InSyncAt ts' = (twin d) ~> ts_InSyncAt /\
          ((twin d) ~> ts_State = TwinSynchronization_SYNCING ->
           (ts_SyncingAt ts' <= (twin d) ~> ts_SyncingAt)%Z)
      | TwinSynchronization_IN_SYNC =>
          twin_enabled d = true /\ (0 < ts_InSyncAt ts')%Z /\
          ts_SyncingAt ts' = (twin d) ~> ts_SyncingAt /\
          ((twin d) ~> ts_State = TwinSynchronization_IN_SYNC ->
           ((twin d) ~> ts_InSyncAt <= ts_InSyncAt ts')%Z) /\
          ((twin d) ~> ts_State = TwinSynchronization_SYNCING ->
           ((twin d) ~> ts_SyncingAt <= ts_InSyncAt ts')%Z)
      end
  | _ => twin d' = twin d /\ connection d' = connection d
  end.
Proof.
  intros Hconn Hts. cbn [HandleCommand]. unfold updateDeviceMetadataRequest.
  destruct (udr_CommandMetadata req) as [cm|] eqn:Hcm; [|done]. rewrite Hconn, Hts.
  unfold updateDeviceTwinSynchronization. destruct (String.eqb _ ""); [done|].
  destruct (negb (String.eqb _ _)) eqn:Hid; [done|].
  destruct (em_Version _ =? 0)%Z; [done|]. destruct (_ <=? _)%Z eqn:Hseq; [done|].
  apply negb_false_iff, String.eqb_eq in Hid. apply Z.leb_gt in Hseq.
  match goal with |- context [match ?m with _ => _ end] =>
    match type of m with sum _ (option TwinSynchronization) =>
      destruct m as [err|[ts'|]] eqn:Hm; [done| |done] end end.
  match goal with |- context [HandleDeviceMetadataUpdated d ?ev false] =>
    pose proof (HandleDeviceMetadataUpdated_cases d ev false) as Hc;
    destruct (HandleDeviceMetadataUpdated d ev false) as [d' [err|[]]] end;
    destruct Hc as [-> _]; cbn [finish_updated]; [done| |done].
  eexists. split; [reflexivity|]. cbn [ts_State ts_CommandMetadata ts_set ts_SyncingAt ts_InSyncAt].
  assert (Hst : ts_State ts' = ts_State ts).
  { destruct (ts_State ts) eqn:Hs; simplify_eq; rewrite <- Hs.
    - done.
    - by apply prepareTwinSynchronizationToSyncing_Some in Hm as (_ & _ & ? & _).
    - by apply prepareTwinSynchronizationToInSync_Some in Hm as (_ & _ & ? & _). }
  split_and!; [done|done|exact Hid|exact Hseq|]. rewrite Hst. destruct (ts_State ts); [done|done|..].
  - apply prepareTwinSynchronizationToSyncing_Some in Hm as (? & ? & _ & Ha & ? & ?).
    by rewrite Ha in *.
  - apply prepareTwinSynchronizationToInSync_Some in Hm as (? & ? & _ & Ha & ? & ? & ?).
    by rewrite Ha in *.
Qed.
End twin.

(** ** What cancelling cancels *)
Section cancel.
Context `{!StringSet, !StringSetLaws} (cc : CommandContext).

Lemma removes_device dev cm :
  removes dms_UpdatePendings (fun _ => tt)
    (fun now d c v => ConfirmDeviceMetadataUpdateRequest_ cc now d
       (MkConfirmDeviceMetadataUpdateRequest dev c Status_CANCELED None (Some cm)) v true) False.
Proof.
  split; intros now d c v; [intros i|]; intros Hi;
    unfold ConfirmDeviceMetadataUpdateRequest_, cancelDeviceMetadataUpdate; cbn [cmr_CommandMetadata].
  - match goal with |- context [finish_updated (HandleDeviceMetadataUpdated d ?ev true) _] =>
      pose proof (HandleDeviceMetadataUpdated_cases d ev true) as Hc;
      assert (Hp : pendings_after ev (dms_UpdatePendings d) = remove_at i (dms_UpdatePendings d))
        by (unfold pendings_after; cbn -[findResourceOperationPendingIndex]; by rewrite Hi);
      destruct (HandleDeviceMetadataUpdated d ev true) as [d' [err|[]]] end.
    + destruct Hc as (_ & _ & Hn). cbn -[findResourceOperationPendingIndex] in Hn. congruence.
    + destruct Hc as [-> _]. eexists _, _. split; [reflexivity|]. rewrite Hp. by split.
    + destruct Hc as [-> _]. eexists _, _. split; [reflexivity|]. rewrite Hp. by split.
  - unfold HandleDeviceMetadataUpdated. cbn -[findResourceOperationPendingIndex]. rewrite Hi.
    by eexists.
Qed.

(** Cancelling updates of the metadata of a device: with distinct
    identifiers, no filter leaves every second command except the last one,
    where all are meant, and a filter of one identifier removes the command
    with it and no other. *)
Theorem CancelPendingMetadataUpdatesRequest_keeps clk d dev cm v :
  NoDup (pending_ids d) ->
  let cancel flt := (CancelPendingMetadataUpdatesRequest_ cc clk d
                       (MkCancelPendingMetadataUpdatesRequest dev flt (Some cm)) v).1 in
  elems (dms_UpdatePendings (cancel [])) = passed_over (elems (dms_UpdatePendings d)) /\
  forall id, elems (dms_UpdatePendings (cancel [id]))
             = without id _ _ (elems (dms_UpdatePendings d)).
Proof.
  intros Hnd. cbv zeta. unfold CancelPendingMetadataUpdatesRequest_.
  cbn [cxr_CommandMetadata cxr_CorrelationIdFilter cxr_DeviceId].
  assert (Hk : forall flt keeps, range_keeps flt keeps ->
    elems (dms_UpdatePendings (cancel_range dms_UpdatePendings
      (fun now d c v => ConfirmDeviceMetadataUpdateRequest_ cc now d
         (MkConfirmDeviceMetadataUpdateRequest dev c Status_CANCELED None (Some cm)) v true)
      (MakeSet flt) clk d v).1) = keeps _ _ (elems (dms_UpdatePendings d))).
  { intros flt keeps Hk. by apply (Hk _ _ _ _ _ _ _ _ clk d v (removes_device dev cm)). }
  split.
  - pose proof (Hk [] _ range_keeps_all) as H1. destruct (cancel_range _ _ _ clk d v) as [d' evs].
    by case_match.
  - intros id. pose proof (Hk [id] _ (range_keeps_one id)) as H1.
    destruct (cancel_range _ _ _ clk d v) as [d' evs]. by case_match.
Qed.
End cancel.
