(* ===== verification/ServiceMetadata.v ===== *)
(** * The metadata of the services

    resource-aggregate/events/serviceMetadataSnapshotTaken.go: the aggregate of
    the heartbeats of the services of a hub: those that are valid until a time
    and those found expired, two arrays sorted by service identifier.

    [clk 0] is the reading in MakeEventMeta, [clk 1] the one of updateHeartbeat
    (or of TakeSnapshot), [clk 2] the one of time.Since. *)

From Stdlib Require Import ZArith String.
From S2P Require Import Prelude Commands Events EventStore Handler.

#[local] Abbreviation State := ServiceMetadataSnapshotTaken.
#[local] Abbreviation Heartbeat := ServicesHeartbeat_Heartbeat.

Definition set_sms (upd : option ServiceMetadataUpdated) (em : option EventMetadata) : State :=
  MkServiceMetadataSnapshotTaken upd em.

(** The arrays of the last update, which may be missing. *)
Definition valid_of (upd : option ServiceMetadataUpdated) : list Heartbeat :=
  (upd ~> smu_ServicesHeartbeat) ~> sh_Valid.
Definition expired_of (upd : option ServiceMetadataUpdated) : list Heartbeat :=
  (upd ~> smu_ServicesHeartbeat) ~> sh_Expired.
Definition valid (d : State) : list Heartbeat := valid_of (sms_ServiceMetadataUpdated d).
Definition expired (d : State) : list Heartbeat := expired_of (sms_ServiceMetadataUpdated d).

(** ** Maps and arrays *)
(** [for _, v := range l { m[v.GetServiceId()] = v }] *)
Definition add_all (l : list Heartbeat) (m : gmap string Heartbeat) : gmap string Heartbeat :=
  fold_left (fun m v => <[shh_ServiceId v := v]> m) l m.
Definition delete_all (l : list Heartbeat) (m : gmap string Heartbeat) : gmap string Heartbeat :=
  fold_left (fun m v => delete (shh_ServiceId v) m) l m.

Definition service_le (x y : Heartbeat) : Prop := String.le (shh_ServiceId x) (shh_ServiceId y).
#[export] Instance service_le_dec x y : Decision (service_le x y) := String.le_dec _ _.

(** Each heartbeat is copied, and the array is sorted. *)
Definition serviceHeartbeatMapToArray (m : gmap string Heartbeat) : list Heartbeat :=
  merge_sort service_le
    (ServicesHeartbeat_Heartbeat_CopyData (MkServicesHeartbeat_Heartbeat "" 0)
       <$> (map_to_list m).*2).

(** ** Events *)
Definition HandleServiceMetadataUpdated (d : State) (upd : ServiceMetadataUpdated)
    : State * result bool :=
  if ServiceMetadataUpdated_Equal (sms_ServiceMetadataUpdated d) upd then (d, inr false)
  else
    let valid := add_all (valid d) ∅ in
    let expired := add_all (expired d) ∅ in
    (* the two loops over the update *)
    let valid := add_all (valid_of (Some upd)) valid in
    let expired := delete_all (valid_of (Some upd)) expired in
    let expired := add_all (expired_of (Some upd)) expired in
    let valid := delete_all (expired_of (Some upd)) valid in
    if bool_decide (map_Forall (fun key _ => valid !! key = None) expired)
    then (set_sms
            (Some {| smu_ServicesHeartbeat :=
                       Some (MkServicesHeartbeat (serviceHeartbeatMapToArray valid)
                               (serviceHeartbeatMapToArray expired));
                     smu_EventMetadata := smu_EventMetadata upd; smu_AuditContext := None;
                     smu_OpenTelemetryCarrier := smu_OpenTelemetryCarrier upd |})
            (smu_EventMetadata upd), inr true)
    else (d, inl (errors_New "invalid status: service %v is valid and expired")).

Definition HandleServiceMetadataSnapshotTaken (d s : State) : State :=
  ServiceMetadataSnapshotTaken_CopyData d s.

(** ** Replay *)
Section replay.
Context `{!UUIDLib} {D : Type} `{!Unmarshaler D ServiceMetadataSnapshotTaken}
  `{!Unmarshaler D ServiceMetadataUpdated}.

(** The switch of Handle; the clock is not read. *)
Definition handleByEvent (_ : time_) (d : State) (eu : LoadedEvent D) : State * option error :=
  let ty := le_eventType eu in
  if String.eqb ty "ServiceMetadataSnapshotTaken" then
    unmarshal_case d eu (HandleServiceMetadataSnapshotTaken d)
  else if String.eqb ty "ServiceMetadataUpdated" then
    unmarshal_case d eu (fun s => (HandleServiceMetadataUpdated d s).1)
  else (d, None).

Definition Handle := handle_loop handleByEvent.
End replay.

(** ** Heartbeats *)
Definition writeCostAgainstRead : Z := 10%Z.

(** [now2] is the reading of time.Since, whose duration is at most 2^63-1. *)
Definition calculateTimeToLive (now now2 : time_) (heartbeat : ServiceHeartbeat) : Z :=
  let timeToLive := hb_TimeToLive heartbeat in
  if negb (hb_Timestamp heartbeat =? 0)%Z then
    let timestamp := Unix 0 (hb_Timestamp heartbeat) in
    if IsZero timestamp || Before now timestamp then timeToLive
    else
      let processingTime := Z.max (- 2 ^ 63) (Z.min (now2 - timestamp) (2 ^ 63 - 1)) in
      let processingTime := if (Minute * 2 <? processingTime)%Z then (Minute * 2)%Z
                            else processingTime in
      if (0 <? processingTime)%Z
      then i64 (timeToLive + i64 (processingTime * writeCostAgainstRead)) else timeToLive
  else timeToLive.

Definition is_valid_at (now : time_) (v : Heartbeat) : bool :=
  negb (Before (Unix 0 (shh_ValidUntil v)) now).

Definition prepareHeartbeatForService (now now2 : time_) (d : State) (heartbeat : ServiceHeartbeat)
    : result (Z * list Heartbeat) :=
  let id := hb_ServiceId heartbeat in
  if String.eqb id "" then
    inl (Errorf InvalidArgument "cannot %v heartbeat for service %v: invalid serviceId")
  else
    let expired := add_all (expired d) ∅ in
    if bool_decide (expired !! id <> None) then
      inl (Errorf FailedPrecondition "cannot %v heartbeat for service %v: already expired")
    else
      let newExpired := add_all (filter (fun v => is_valid_at now v = false) (valid d)) ∅ in
      let expired := add_all (filter (fun v => is_valid_at now v = false) (valid d)) expired in
      let valid := add_all (filter (fun v => is_valid_at now v = true) (valid d)) ∅ in
      if hb_Register heartbeat && (bool_decide (valid !! id <> None) || bool_decide (expired !! id <> None))
      then inl (Errorf FailedPrecondition "cannot %v heartbeat for service %v: already registered")
      else if negb (hb_Register heartbeat)
              && (bool_decide (valid !! id = None) && bool_decide (expired !! id = None))
      then inl (Errorf FailedPrecondition "cannot %v heartbeat for service %v: not registered")
      else inr (calculateTimeToLive now now2 heartbeat,
                serviceHeartbeatMapToArray (delete id newExpired)).

(** ** Commands *)
Section commands.
Context (cc : CommandContext).

Definition finish_updated (r : State * result bool) (ev : ServiceMetadataUpdated)
    : State * result (list AnyEvent) :=
  match r with
  | (d, inl err) => (d, inl err)
  | (d, inr false) => (d, inr [])
  | (d, inr true) => (d, inr [EvServiceMetadataUpdated ev])
  end.

Definition heartbeat_event (valid expired : list Heartbeat) (em : EventMetadata)
    (ac : AuditContext) : ServiceMetadataUpdated :=
  {| smu_ServicesHeartbeat := Some (MkServicesHeartbeat valid expired);
     smu_EventMetadata := Some em; smu_AuditContext := Some ac;
     smu_OpenTelemetryCarrier := cc_trace cc |}.

Definition updateHeartbeatForService (now now2 : time_) (d : State)
    (heartbeat : ServiceHeartbeat) (em : EventMetadata) (ac : AuditContext)
    : State * result (list AnyEvent) :=
  match prepareHeartbeatForService now now2 d heartbeat with
  | inl err => (d, inl err)
  | inr (timeToLive, newExpired) =>
      let ev := heartbeat_event
                  [MkServicesHeartbeat_Heartbeat (hb_ServiceId heartbeat)
                     (Time_UnixNano (now + timeToLive)%Z)] newExpired em ac in
      finish_updated (HandleServiceMetadataUpdated d ev) ev
  end.

Definition updateHeartbeatCheckExpiredServices (now : time_) (d : State) (em : EventMetadata)
    (ac : AuditContext) : State * result (list AnyEvent) :=
  let expired := add_all (filter (fun v => is_valid_at now v = false) (valid d)) ∅ in
  if (size expired =? 0)%nat then (d, inr [])
  else
    let ev := heartbeat_event [] (serviceHeartbeatMapToArray expired) em ac in
    finish_updated (HandleServiceMetadataUpdated d ev) ev.

Definition updateHeartbeat (now now2 : time_) (d : State) (heartbeat : ServiceHeartbeat)
    (em : EventMetadata) (ac : AuditContext) : State * result (list AnyEvent) :=
  if String.eqb (hb_ServiceId heartbeat) "" && (hb_TimeToLive heartbeat =? 0)%Z
  then updateHeartbeatCheckExpiredServices now d em ac
  else updateHeartbeatForService now now2 d heartbeat em ac.

Definition TakeSnapshot (now : time_) (d : State) (version : Z) : State :=
  set_sms (sms_ServiceMetadataUpdated d)
    (Some (MakeEventMeta now ((sms_EventMetadata d) ~> em_ConnectionId)
             ((sms_EventMetadata d) ~> em_Sequence) version ((sms_EventMetadata d) ~> em_HubId))).

(** The loop that takes the confirmed services out of the map. *)
Fixpoint confirm_loop (expired : gmap string Heartbeat) (exist_ : bool) (l : list Heartbeat)
    : gmap string Heartbeat * bool :=
  match l with
  | [] => (expired, exist_)
  | v :: l =>
      match expired !! shh_ServiceId v with
      | Some _ => confirm_loop (delete (shh_ServiceId v) expired) true l
      | None => confirm_loop expired exist_ l
      end
  end.

Definition confirmExpiredServices (now : time_) (d : State) (req : ConfirmExpiredServicesRequest)
    (em : EventMetadata) (ac : AuditContext) : State * result (list AnyEvent) :=
  let '(remaining, exist_) := confirm_loop (add_all (expired d) ∅) false (cer_Heartbeat req) in
  if negb exist_ then (d, inr [])
  else
    let d := set_sms (Some (heartbeat_event (valid d) (serviceHeartbeatMapToArray remaining) em ac))
               (Some em) in
    (d, inr [EvServiceMetadataSnapshotTaken (TakeSnapshot now d (em_Version em))]).

(** [peer] is the address of the peer in the context, when there is one. *)
Definition peer_meta (peer : option string) (now : time_) (newVersion : Z) : EventMetadata :=
  MakeEventMeta now (default ""%string peer) 0 newVersion (cc_hubID cc).

Definition updateServiceMetadataRequest (peer : option string) (clk : nat -> time_) (d : State)
    (req : UpdateServiceMetadataRequest) (newVersion : Z) : State * result (list AnyEvent) :=
  let em := peer_meta peer (clk 0) newVersion in
  let ac := command_audit cc "" in
  match usr_GetHeartbeat req with
  | Some heartbeat => updateHeartbeat (clk 1) (clk 2) d heartbeat em ac
  | None => (d, inl (Errorf InvalidArgument "unknown update type(%T)"))
  end.

Definition confirmExpiredServicesRequest (peer : option string) (clk : nat -> time_) (d : State)
    (req : ConfirmExpiredServicesRequest) (newVersion : Z) : State * result (list AnyEvent) :=
  confirmExpiredServices (clk 1) d req (peer_meta peer (clk 0) newVersion) (command_audit cc "").

Definition HandleCommand (peer : option string) (clk : nat -> time_) (d : State) (cmd : Command)
    (newVersion : Z) : State * result (list AnyEvent) :=
  match cmd with
  | CmdUpdateServiceMetadata req => updateServiceMetadataRequest peer clk d req newVersion
  | CmdConfirmExpiredServices req => confirmExpiredServicesRequest peer clk d req newVersion
  | _ => (d, inl (errors_New "unknown command (%T)"))
  end.
End commands.

Definition NewServiceMetadataSnapshotTaken : State :=
  {| sms_ServiceMetadataUpdated := Some (MkServiceMetadataUpdated None None None []);
     sms_EventMetadata := Some (MkEventMetadata 0 0 "" 0 "") |}.
