(* ===== verification/ServiceMetadataFacts.v ===== *)
(** * Properties of the metadata of the services

    The arrays are sorted and disjoint; the events of a command rebuild the
    state; the status of a service changes only along the edges absent, valid,
    expired, absent; the bounds of a time to live. *)

From Stdlib Require Import ZArith Lia String.
From S2P Require Import Prelude Commands Events EventStore Handler ServiceMetadata.

#[local] Abbreviation State := ServiceMetadataSnapshotTaken.
#[local] Abbreviation Heartbeat := ServicesHeartbeat_Heartbeat.

(** ** Arrays of heartbeats *)
#[export] Instance service_le_trans : Transitive service_le.
Proof. intros x y z. unfold service_le. by etrans. Qed.
#[export] Instance service_le_total : Total service_le.
Proof. intros x y. apply String.le_total. Qed.

(** The last heartbeat of a service in an array. *)
Definition find_service (l : list Heartbeat) (id : string) : option Heartbeat := add_all l ∅ !! id.

Lemma lookup_add_all l m id :
  add_all l m !! id = match find_service l id with Some v => Some v | None => m !! id end.
Proof.
  unfold find_service, add_all. induction l as [|v l IH] using rev_ind; [by cbn; rewrite lookup_empty|].
  rewrite !fold_left_app. simpl. destruct (decide (shh_ServiceId v = id)) as [<-|Hne].
  - by rewrite !lookup_insert_eq.
  - by rewrite !lookup_insert_ne.
Qed.

Lemma lookup_delete_all l m id :
  delete_all l m !! id = match find_service l id with Some _ => None | None => m !! id end.
Proof.
  unfold find_service, delete_all, add_all.
  induction l as [|v l IH] using rev_ind; [by cbn; rewrite lookup_empty|].
  rewrite !fold_left_app. simpl. destruct (decide (shh_ServiceId v = id)) as [<-|Hne].
  - by rewrite lookup_delete_eq, lookup_insert_eq.
  - by rewrite lookup_delete_ne, lookup_insert_ne.
Qed.

Lemma find_service_id l id v : find_service l id = Some v -> shh_ServiceId v = id /\ v ∈ l.
Proof.
  unfold find_service, add_all. induction l as [|x l IH] using rev_ind.
  - cbn. by rewrite lookup_empty.
  - rewrite fold_left_app. simpl. intros [[<- <-]|[_ Hv]]%lookup_insert_Some; [set_solver|].
    specialize (IH Hv). set_solver.
Qed.

Lemma find_service_None l id : find_service l id = None <-> id ∉ (shh_ServiceId <$> l).
Proof.
  unfold find_service, add_all. induction l as [|x l IH] using rev_ind; [set_solver|].
  rewrite fold_left_app, fmap_app, not_elem_of_app. simpl.
  rewrite lookup_insert_None, IH, list_elem_of_singleton. naive_solver.
Qed.

(** In an array without repetitions it is the only one. *)
Lemma find_service_elem l v :
  NoDup (shh_ServiceId <$> l) -> v ∈ l -> find_service l (shh_ServiceId v) = Some v.
Proof.
  intros Hnd Hv. destruct (find_service l (shh_ServiceId v)) as [w|] eqn:Hf.
  - apply find_service_id in Hf as [Hid Hw]. f_equal. by apply (fmap_NoDup_inj _ _ _ _ Hnd).
  - apply find_service_None in Hf. destruct Hf. by apply list_elem_of_fmap_2.
Qed.

(** A map whose keys are the identifiers of its values. *)
Definition keyed (m : gmap string Heartbeat) : Prop :=
  forall id v, m !! id = Some v -> shh_ServiceId v = id.

Lemma keyed_empty : keyed ∅.
Proof. intros id v. by rewrite lookup_empty. Qed.
Lemma keyed_add_all l m : keyed m -> keyed (add_all l m).
Proof.
  intros Hm id v. rewrite lookup_add_all. destruct (find_service l id) eqn:Hf.
  - intros [= <-]. by apply find_service_id in Hf as [? _].
  - apply Hm.
Qed.
Lemma keyed_delete_all l m : keyed m -> keyed (delete_all l m).
Proof. intros Hm id v. rewrite lookup_delete_all. case_match; [done|apply Hm]. Qed.
Lemma keyed_delete id m : keyed m -> keyed (delete id m).
Proof. intros Hm id' v [_ Hv]%lookup_delete_Some. by apply Hm. Qed.
#[export] Hint Resolve keyed_empty keyed_add_all keyed_delete_all keyed_delete : hub.

Lemma Heartbeat_CopyData_id h0 h : ServicesHeartbeat_Heartbeat_CopyData h0 h = h.
Proof. by destruct h. Qed.

Lemma array_Permutation m : serviceHeartbeatMapToArray m ≡ₚ (map_to_list m).*2.
Proof.
  unfold serviceHeartbeatMapToArray. rewrite merge_sort_Permutation.
  induction (map_to_list m).*2 as [|h l IH]; [done|]. by rewrite fmap_cons, Heartbeat_CopyData_id, IH.
Qed.

Lemma array_ids m : keyed m -> shh_ServiceId <$> (map_to_list m).*2 = (map_to_list m).*1.
Proof.
  intros Hk. rewrite <- list_fmap_compose. apply list_fmap_ext. intros i [id v] Hi. simpl.
  apply Hk. apply elem_of_map_to_list. by apply list_elem_of_lookup_2 in Hi.
Qed.

Lemma array_NoDup m : keyed m -> NoDup (shh_ServiceId <$> serviceHeartbeatMapToArray m).
Proof.
  intros Hk. rewrite array_Permutation, array_ids by done. apply NoDup_fst_map_to_list.
Qed.

Lemma array_Sorted m : Sorted service_le (serviceHeartbeatMapToArray m).
Proof. apply Sorted_merge_sort. apply _. Qed.

(** Turning a map into an array and back. *)
Lemma find_service_array m id : keyed m -> find_service (serviceHeartbeatMapToArray m) id = m !! id.
Proof.
  intros Hk. destruct (m !! id) as [v|] eqn:Hm.
  - rewrite <- (Hk _ _ Hm). apply find_service_elem; [by apply array_NoDup|].
    rewrite array_Permutation. apply list_elem_of_fmap. exists (id, v). split; [done|].
    by apply elem_of_map_to_list.
  - apply find_service_None. rewrite array_Permutation, array_ids by done.
    intros ([k w] & -> & Hin)%list_elem_of_fmap. apply elem_of_map_to_list in Hin.
    simpl in *. congruence.
Qed.

(** ** Well-formed states *)
Record wf (d : State) : Prop := {
  wf_valid : NoDup (shh_ServiceId <$> valid d); wf_expired : NoDup (shh_ServiceId <$> expired d);
  wf_sorted_valid : Sorted service_le (valid d); wf_sorted_expired : Sorted service_le (expired d);
  wf_disjoint id v : find_service (expired d) id = Some v -> find_service (valid d) id = None }.

Inductive status := Absent | Valid (validUntil : Z) | Expired (validUntil : Z).

Definition status_of (d : State) (id : string) : status :=
  match find_service (valid d) id, find_service (expired d) id with
  | Some v, _ => Valid (shh_ValidUntil v)
  | None, Some v => Expired (shh_ValidUntil v)
  | None, None => Absent
  end.

Lemma equalServicesHeartbeates_eq l k : equalServicesHeartbeates l k = true -> l = k.
Proof.
  unfold equalServicesHeartbeates. destruct (length l =? length k) eqn:Hlen; [|done]. simpl.
  apply Nat.eqb_eq in Hlen. revert k Hlen. induction l as [|x l IH]; intros [|y k] Hlen; try done.
  simpl. destruct (String.eqb_spec (shh_ServiceId x) (shh_ServiceId y)); [|done].
  destruct (Z.eqb_spec (shh_ValidUntil x) (shh_ValidUntil y)); [|done]. simpl. intros Hk.
  f_equal; [destruct x, y; simpl in *; congruence|]. apply IH; [by injection Hlen|done].
Qed.

Lemma ServiceMetadataUpdated_Equal_eq d upd :
  ServiceMetadataUpdated_Equal (sms_ServiceMetadataUpdated d) upd = true ->
  valid d = valid_of (Some upd) /\ expired d = expired_of (Some upd).
Proof.
  unfold ServiceMetadataUpdated_Equal, valid, expired, valid_of, expired_of.
  destruct (sms_ServiceMetadataUpdated d) as [u|]; [|done]. cbn [getter].
  destruct (smu_ServicesHeartbeat u) as [h|]; [|done]. unfold ServicesHeartbeat_Equal. intros He.
  destruct (equalServicesHeartbeates _ (_ ~> sh_Valid)) eqn:H1; [|done].
  destruct (equalServicesHeartbeates _ (_ ~> sh_Expired)) eqn:H2; [|done].
  by apply equalServicesHeartbeates_eq in H1, H2.
Qed.

(** What an update makes of the two arrays. *)
Definition updated_lookups (d d' : State) (upd : ServiceMetadataUpdated) : Prop :=
  forall id,
    find_service (valid d') id
    = match find_service (expired_of (Some upd)) id, find_service (valid_of (Some upd)) id with
      | Some _, _ => None
      | None, Some v => Some v
      | None, None => find_service (valid d) id
      end /\
    find_service (expired d') id
    = match find_service (expired_of (Some upd)) id, find_service (valid_of (Some upd)) id with
      | Some v, _ => Some v
      | None, Some _ => None
      | None, None => find_service (expired d) id
      end.

(** On a well-formed state the report "valid and expired" cannot occur. *)
Lemma HandleServiceMetadataUpdated_cases d upd :
  wf d ->
  exists d' changed, HandleServiceMetadataUpdated d upd = (d', inr changed) /\ wf d' /\
    updated_lookups d d' upd /\ (changed = false -> d' = d).
Proof.
  intros Hwf. unfold HandleServiceMetadataUpdated.
  destruct (ServiceMetadataUpdated_Equal _ upd) eqn:He.
  - apply ServiceMetadataUpdated_Equal_eq in He as [Hv Hx]. exists d, false.
    split_and!; [done|done| |done]. intros id. rewrite <- Hv, <- Hx.
    destruct (find_service (expired d) id) as [x|] eqn:Hex;
      destruct (find_service (valid d) id) as [v|] eqn:Hval; try done.
    by rewrite (wf_disjoint _ Hwf _ _ Hex) in Hval.
  - set (v' := delete_all _ (add_all _ (add_all (valid d) ∅))).
    set (x' := add_all _ (delete_all _ (add_all (expired d) ∅))).
    assert (Hkv : keyed v') by (unfold v'; auto 10 with hub).
    assert (Hkx : keyed x') by (unfold x'; auto 10 with hub).
    assert (Hv : forall id, v' !! id
      = match find_service (expired_of (Some upd)) id, find_service (valid_of (Some upd)) id with
        | Some _, _ => None | None, Some v => Some v | None, None => find_service (valid d) id end).
    { intros id. unfold v'. rewrite lookup_delete_all, lookup_add_all. by repeat case_match. }
    assert (Hx : forall id, x' !! id
      = match find_service (expired_of (Some upd)) id, find_service (valid_of (Some upd)) id with
        | Some v, _ => Some v | None, Some _ => None | None, None => find_service (expired d) id end).
    { intros id. unfold x'. rewrite lookup_add_all, lookup_delete_all. by repeat case_match. }
    assert (Hdis : forall id v, x' !! id = Some v -> v' !! id = None).
    { intros id v. rewrite Hx, Hv. destruct (find_service (expired_of _) id); [done|].
      destruct (find_service (valid_of _) id); [done|]. apply (wf_disjoint _ Hwf). }
    rewrite bool_decide_eq_true_2 by (intros id v; apply Hdis).
    eexists _, _. split; [reflexivity|]. split_and!; [|intros id|done].
    + split; cbn; [by apply array_NoDup|by apply array_NoDup|apply array_Sorted|apply array_Sorted|].
      intros id v. rewrite !find_service_array by done. apply Hdis.
    + cbn. by rewrite !find_service_array.
Qed.

(** ** Heartbeats *)

(** The status of a service that nobody renews, as others find it at [now]. *)
Definition aged (now : time_) (s : status) : status :=
  match s with
  | Valid u => if Before (Unix 0 u) now then Expired u else Valid u
  | s => s
  end.

Lemma find_service_filter (P : Heartbeat -> Prop) `{!forall v, Decision (P v)} l id :
  NoDup (shh_ServiceId <$> l) ->
  find_service (filter P l) id
  = match find_service l id with
    | Some v => if decide (P v) then Some v else None
    | None => None
    end.
Proof.
  intros Hnd. assert (Hnd' : NoDup (shh_ServiceId <$> filter P l)).
  { apply (sublist_NoDup _ _ Hnd), sublist_fmap, sublist_filter_self. }
  destruct (find_service (filter P l) id) as [v|] eqn:Hf.
  - apply find_service_id in Hf as [<- [Hp Hv]%list_elem_of_filter].
    rewrite (find_service_elem l) by done. by rewrite decide_True.
  - destruct (find_service l id) as [v|] eqn:Hl; [|done]. apply find_service_id in Hl as [<- Hv].
    case_decide as Hp; [|done]. apply find_service_None in Hf. destruct Hf.
    apply list_elem_of_fmap_2. by apply list_elem_of_filter.
Qed.

(** The heartbeats of [valid d] that are past their time. *)
Definition overdue (now : time_) (d : State) (id : string) : option Heartbeat :=
  match find_service (valid d) id with
  | Some v => if is_valid_at now v then None else Some v
  | None => None
  end.

Lemma find_overdue now d id :
  wf d -> find_service (filter (fun v => is_valid_at now v = false) (valid d)) id = overdue now d id.
Proof.
  intros Hwf. rewrite find_service_filter by apply Hwf. unfold overdue.
  destruct (find_service (valid d) id) as [v|]; [|done].
  by destruct (is_valid_at now v); case_decide.
Qed.
Lemma find_in_time now d id :
  wf d -> find_service (filter (fun v => is_valid_at now v = true) (valid d)) id
          = match overdue now d id with Some _ => None | None => find_service (valid d) id end.
Proof.
  intros Hwf. rewrite find_service_filter by apply Hwf. unfold overdue.
  destruct (find_service (valid d) id) as [v|]; [|done].
  by destruct (is_valid_at now v); case_decide.
Qed.

(** The result of applying an update whose expired part is the overdue services,
    but for [id], and whose valid part is at most [id]. *)
Lemma status_of_lookups now d d' upd id u :
  wf d -> updated_lookups d d' upd ->
  (forall j, find_service (expired_of (Some upd)) j = if decide (j = id) then None else overdue now d j) ->
  (forall j, find_service (valid_of (Some upd)) j
             = if decide (j = id) then Some (MkServicesHeartbeat_Heartbeat id u) else None) ->
  forall j, status_of d' j = if decide (j = id) then Valid u else aged now (status_of d j).
Proof.
  intros Hwf Hl Hx Hv j. unfold status_of. destruct (Hl j) as [-> ->]. rewrite Hx, Hv.
  case_decide; [done|]. unfold overdue.
  destruct (find_service (valid d) j) as [v|] eqn:Hj; [|by destruct (find_service (expired d) j)].
  unfold is_valid_at. simpl. by destruct (Before (Unix 0 (shh_ValidUntil v)) now).
Qed.

Section commands.
Context (cc : CommandContext).

Definition rejects_with (c : Code) (d : State) (r : State * result (list AnyEvent)) : Prop :=
  exists err, r = (d, inl err) /\ error_code err = c.

(** Applying the event of a heartbeat. *)
Lemma finish_updated_status d ev :
  wf d -> exists d' evs, finish_updated (HandleServiceMetadataUpdated d ev) ev = (d', inr evs) /\
    wf d' /\ updated_lookups d d' ev /\ (evs = [] -> d' = d).
Proof.
  intros Hwf. destruct (HandleServiceMetadataUpdated_cases d ev Hwf) as (d' & [] & -> & Hwf' & Hl & Hch);
    eexists _, _; (split; [reflexivity|]); split_and!; try done. intros _. by apply Hch.
Qed.

Definition new_until (now now2 : time_) (hb : ServiceHeartbeat) : Z :=
  Time_UnixNano (now + calculateTimeToLive now now2 hb)%Z.

Lemma prepareHeartbeatForService_spec now now2 d hb :
  wf d -> hb_ServiceId hb <> ""%string ->
  let r := prepareHeartbeatForService now now2 d hb in
  match status_of d (hb_ServiceId hb), hb_Register hb with
  | Expired _, _ | Valid _, true | Absent, false =>
      exists err, r = inl err /\ error_code err = FailedPrecondition
  | _, _ => exists newExpired, r = inr (calculateTimeToLive now now2 hb, newExpired) /\
      forall j, find_service newExpired j
                = if decide (j = hb_ServiceId hb) then None else overdue now d j
  end.
Proof.
  intros Hwf Hne. cbv zeta. unfold prepareHeartbeatForService.
  destruct (String.eqb_spec (hb_ServiceId hb) ""); [done|].
  set (id := hb_ServiceId hb) in *.
  assert (Hne' : exists newExpired,
    serviceHeartbeatMapToArray (delete id (add_all (filter (fun v => is_valid_at now v = false) (valid d)) ∅))
      = newExpired /\
    forall j, find_service newExpired j = if decide (j = id) then None else overdue now d j).
  { eexists. split; [reflexivity|]. intros j.
    rewrite find_service_array by auto with hub. case_decide as Hj.
    - subst j. apply lookup_delete_eq.
    - rewrite lookup_delete_ne by done. change (add_all ?l ∅ !! j) with (find_service l j).
      by apply find_overdue. }
  change (add_all (expired d) ∅ !! id) with (find_service (expired d) id).
  assert (E1 : add_all (filter (fun v => is_valid_at now v = false) (valid d))
                 (add_all (expired d) ∅) !! id
               = match overdue now d id with
                 | Some v => Some v | None => find_service (expired d) id end).
  { rewrite lookup_add_all. by rewrite find_overdue. }
  assert (E2 : add_all (filter (fun v => is_valid_at now v = true) (valid d)) ∅ !! id
               = match overdue now d id with
                 | Some _ => None | None => find_service (valid d) id end).
  { by apply find_in_time. }
  rewrite E1, E2. unfold status_of. destruct Hne' as (newExpired & -> & Hnew).
  destruct (find_service (expired d) id) as [x|] eqn:Hx.
  - rewrite (bool_decide_eq_true_2 (Some x <> None)) by done.
    rewrite (wf_disjoint _ Hwf _ _ Hx). eauto.
  - rewrite (bool_decide_eq_false_2 (None <> None)) by (intros Hn; by apply Hn).
    assert (Ho : overdue now d id = None \/ overdue now d id = find_service (valid d) id).
    { unfold overdue. destruct (find_service (valid d) id) as [s|]; [destruct (is_valid_at now s)|]; auto. }
    destruct Ho as [-> | ->];
      destruct (find_service (valid d) id) as [v|] eqn:Hv; destruct (hb_Register hb); simpl; eauto.
Qed.

Lemma valid_of_event v x em ac : valid_of (Some (heartbeat_event cc v x em ac)) = v.
Proof. reflexivity. Qed.
Lemma expired_of_event v x em ac : expired_of (Some (heartbeat_event cc v x em ac)) = x.
Proof. reflexivity. Qed.
Lemma find_service_nil j : find_service [] j = None.
Proof. apply find_service_None. set_solver. Qed.
Lemma find_service_singleton v j :
  find_service [v] j = if decide (j = shh_ServiceId v) then Some v else None.
Proof.
  case_decide as Hj; subst.
  - apply find_service_elem; [apply NoDup_singleton|by left].
  - apply find_service_None. set_solver.
Qed.

(** What a command that succeeds makes of the services. *)
Definition succeeds (d : State) (r : State * result (list AnyEvent)) (f : string -> status) : Prop :=
  exists d' evs, r = (d', inr evs) /\ wf d' /\ (evs = [] -> d' = d) /\
    forall id, status_of d' id = f id.

Lemma updateHeartbeatForService_spec now now2 d hb em ac :
  wf d -> hb_ServiceId hb <> ""%string ->
  let r := updateHeartbeatForService cc now now2 d hb em ac in
  match status_of d (hb_ServiceId hb), hb_Register hb with
  | Expired _, _ | Valid _, true | Absent, false => rejects_with FailedPrecondition d r
  | _, _ => succeeds d r (fun j =>
      if decide (j = hb_ServiceId hb) then Valid (new_until now now2 hb)
      else aged now (status_of d j))
  end.
Proof.
  intros Hwf Hne r. subst r. unfold updateHeartbeatForService.
  pose proof (prepareHeartbeatForService_spec now now2 d hb Hwf Hne) as Hp. cbv zeta in Hp.
  assert (Hok : (exists newExpired, prepareHeartbeatForService now now2 d hb
      = inr (calculateTimeToLive now now2 hb, newExpired) /\
      forall j, find_service newExpired j
                = if decide (j = hb_ServiceId hb) then None else overdue now d j) ->
    succeeds d (updateHeartbeatForService cc now now2 d hb em ac) (fun j =>
      if decide (j = hb_ServiceId hb) then Valid (new_until now now2 hb)
      else aged now (status_of d j))).
  { intros (newExpired & Hr & Hnew). unfold updateHeartbeatForService. rewrite Hr.
    set (ev := heartbeat_event cc _ _ em ac).
    destruct (finish_updated_status d ev Hwf) as (d' & evs & -> & Hwf' & Hl & Hevs).
    exists d', evs. split_and!; [done|done|done|].
    apply (status_of_lookups _ _ _ ev); [done|done|done|].
    intros j. unfold ev. rewrite valid_of_event. apply find_service_singleton. }
  unfold updateHeartbeatForService in Hok.
  destruct (status_of d (hb_ServiceId hb)), (hb_Register hb); try (by apply Hok);
    destruct Hp as (err & -> & Hc); by exists err.
Qed.

Lemma updateHeartbeatCheckExpiredServices_spec now d em ac :
  wf d -> succeeds d (updateHeartbeatCheckExpiredServices cc now d em ac)
            (fun j => aged now (status_of d j)).
Proof.
  intros Hwf. unfold updateHeartbeatCheckExpiredServices.
  set (m := add_all (filter _ (valid d)) ∅).
  assert (Hm : forall j, m !! j = overdue now d j) by (intros j; by apply find_overdue).
  destruct (size m =? 0) eqn:Hsz.
  - apply Nat.eqb_eq, map_size_empty_inv in Hsz. exists d, []. split_and!; [done..|].
    intros j. specialize (Hm j). rewrite Hsz, lookup_empty in Hm. unfold overdue in Hm.
    unfold status_of. destruct (find_service (valid d) j) as [v|];
      [|by destruct (find_service (expired d) j)].
    unfold is_valid_at in Hm. simpl.
    by destruct (Before (Unix 0 (shh_ValidUntil v)) now).
  - set (ev := heartbeat_event cc _ _ em ac).
    destruct (finish_updated_status d ev Hwf) as (d' & evs & -> & Hwf' & Hl & Hevs).
    exists d', evs. split_and!; [done..|]. intros j. unfold status_of.
    destruct (Hl j) as [-> ->]. unfold ev. rewrite valid_of_event, expired_of_event, find_service_nil.
    rewrite find_service_array by (unfold m; auto with hub). rewrite Hm. unfold overdue, is_valid_at.
    destruct (find_service (valid d) j) as [v|] eqn:Hv;
      [|by destruct (find_service (expired d) j)].
    simpl. by destruct (Before (Unix 0 (shh_ValidUntil v)) now).
Qed.

(** The loop that confirms takes the named services out and says if there was one. *)
Lemma confirm_loop_spec m b l :
  let '(m', b') := confirm_loop m b l in
  (forall j, m' !! j = if decide (j ∈ (shh_ServiceId <$> l)) then None else m !! j) /\
  (b' = true <-> b = true \/ exists j, j ∈ (shh_ServiceId <$> l) /\ m !! j <> None).
Proof.
  revert m b. induction l as [|v l IH]; intros m b; simpl.
  - split; [done|]. split; [auto|]. intros [?|(j & Hj & _)]; [done|set_solver].
  - destruct (m !! shh_ServiceId v) as [x|] eqn:Hv.
    + specialize (IH (delete (shh_ServiceId v) m) true).
      destruct (confirm_loop _ true l) as [m' b']. destruct IH as [IHm IHb]. split.
      * intros j. rewrite IHm. destruct (decide (j = shh_ServiceId v)) as [->|Hne].
        -- rewrite lookup_delete_eq, (decide_True (P := _ ∈ _ :: _)) by (by left).
           by case_decide.
        -- rewrite lookup_delete_ne by done. repeat case_decide; set_solver.
      * rewrite IHb. split; [|auto]. intros _. right. exists (shh_ServiceId v).
        split; [by left|congruence].
    + specialize (IH m b). destruct (confirm_loop _ b l) as [m' b']. destruct IH as [IHm IHb]. split.
      * intros j. rewrite IHm. destruct (decide (j = shh_ServiceId v)) as [->|Hne].
        -- rewrite Hv. by repeat case_decide.
        -- repeat case_decide; set_solver.
      * rewrite IHb. split; intros [?|(j & Hj & Hn)]; auto; right; exists j; split; set_solver.
Qed.

Lemma confirmExpiredServices_spec now d req em ac :
  wf d -> succeeds d (confirmExpiredServices cc now d req em ac)
    (fun j => match status_of d j with
              | Expired u => if decide (j ∈ (shh_ServiceId <$> cer_Heartbeat req)) then Absent
                             else Expired u
              | s => s
              end).
Proof.
  intros Hwf. unfold confirmExpiredServices.
  pose proof (confirm_loop_spec (add_all (expired d) ∅) false (cer_Heartbeat req)) as Hl.
  destruct (confirm_loop _ false _) as [rest b] eqn:Hc. destruct Hl as [Hrest Hb].
  assert (Hx : forall j, add_all (expired d) ∅ !! j = find_service (expired d) j) by done.
  destruct b; simpl.
  - assert (Hk : keyed rest).
    { intros j v. rewrite Hrest. case_decide; [done|]. by apply keyed_add_all, keyed_empty. }
    eexists _, _. split; [reflexivity|]. split_and!; [|done|].
    + split; cbn; [apply Hwf|by apply array_NoDup|apply Hwf|apply array_Sorted|].
      intros j v. rewrite find_service_array, Hrest by done. case_decide; [done|].
      rewrite Hx. apply (wf_disjoint _ Hwf).
    + intros j. unfold status_of, valid, expired. cbn [sms_ServiceMetadataUpdated set_sms].
      rewrite valid_of_event, expired_of_event, find_service_array, Hrest, Hx by done.
      fold (valid d) (expired d).
      destruct (find_service (valid d) j); [done|].
      case_decide; destruct (find_service (expired d) j); done.
  - exists d, []. split_and!; [done..|]. intros j. unfold status_of.
    destruct (find_service (valid d) j); [done|].
    destruct (find_service (expired d) j) as [v|] eqn:Hv; [|done].
    rewrite decide_False; [done|]. intros Hj.
    enough (false = true) by done. apply Hb. right. exists j. split; [done|]. rewrite Hx. congruence.
Qed.
End commands.

(** ** Commands *)
Section theorems.
Context `{!UUIDLib} (cc : CommandContext).

(** A heartbeat of a service: it is refused with FailedPrecondition, and
    nothing changes, when the service has expired, when it registers although
    it is known, and when it renews although it is not known; else the service
    is valid until its new time, and exactly the other services past their
    time expire. *)
Theorem heartbeat_spec peer clk d req hb v :
  wf d -> usr_GetHeartbeat req = Some hb -> hb_ServiceId hb <> ""%string ->
  let r := HandleCommand cc peer clk d (CmdUpdateServiceMetadata req) v in
  match status_of d (hb_ServiceId hb), hb_Register hb with
  | Expired _, _ | Valid _, true | Absent, false => rejects_with FailedPrecondition d r
  | _, _ => succeeds d r (fun j =>
      if decide (j = hb_ServiceId hb) then Valid (new_until (clk 1) (clk 2) hb)
      else aged (clk 1) (status_of d j))
  end.
Proof.
  intros Hwf Hreq Hne r. subst r. cbn [HandleCommand]. unfold updateServiceMetadataRequest.
  rewrite Hreq. unfold updateHeartbeat.
  apply String.eqb_neq in Hne as He. rewrite He. cbn [andb].
  by apply updateHeartbeatForService_spec.
Qed.

(** The heartbeat without a service and a time to live is the sweep: it
    expires the services past their time, and only those. *)
Theorem sweep_spec peer clk d req hb v :
  wf d -> usr_GetHeartbeat req = Some hb -> hb_ServiceId hb = ""%string ->
  hb_TimeToLive hb = 0%Z ->
  succeeds d (HandleCommand cc peer clk d (CmdUpdateServiceMetadata req) v)
    (fun j => aged (clk 1) (status_of d j)).
Proof.
  intros Hwf Hreq He Ht. cbn [HandleCommand]. unfold updateServiceMetadataRequest.
  rewrite Hreq. unfold updateHeartbeat. rewrite He, Ht. cbn [String.eqb Z.eqb andb].
  by apply updateHeartbeatCheckExpiredServices_spec.
Qed.

(** Confirming expired services forgets those of the request that have
    expired, and changes no other service. *)
Theorem confirm_spec peer clk d req v :
  wf d -> succeeds d (HandleCommand cc peer clk d (CmdConfirmExpiredServices req) v)
    (fun j => match status_of d j with
              | Expired u => if decide (j ∈ (shh_ServiceId <$> cer_Heartbeat req)) then Absent
                             else Expired u
              | s => s
              end).
Proof. intros Hwf. by apply confirmExpiredServices_spec. Qed.

(** *** The life of a service *)
Inductive status_step (clk : nat -> time_) (cmd : Command) (id : string) : status -> status -> Prop :=
  | stays s : status_step clk cmd id s s
  | registers req hb :
      cmd = CmdUpdateServiceMetadata req -> usr_GetHeartbeat req = Some hb ->
      hb_ServiceId hb = id -> hb_Register hb = true ->
      status_step clk cmd id Absent (Valid (new_until (clk 1) (clk 2) hb))
  | renews u req hb :
      cmd = CmdUpdateServiceMetadata req -> usr_GetHeartbeat req = Some hb ->
      hb_ServiceId hb = id -> hb_Register hb = false ->
      status_step clk cmd id (Valid u) (Valid (new_until (clk 1) (clk 2) hb))
  | expires u req :
      cmd = CmdUpdateServiceMetadata req -> Before (Unix 0 u) (clk 1) = true ->
      status_step clk cmd id (Valid u) (Expired u)
  | is_confirmed u req :
      cmd = CmdConfirmExpiredServices req -> id ∈ (shh_ServiceId <$> cer_Heartbeat req) ->
      status_step clk cmd id (Expired u) Absent.

Lemma aged_step clk req id s :
  status_step clk (CmdUpdateServiceMetadata req) id s (aged (clk 1) s).
Proof.
  destruct s as [|u|u]; simpl; [constructor| |constructor].
  destruct (Before (Unix 0 u) (clk 1)) eqn:?; [by econstructor|constructor].
Qed.

Lemma HandleCommand_status peer clk d cmd v :
  wf d -> wf (HandleCommand cc peer clk d cmd v).1 /\
  forall id, status_step clk cmd id (status_of d id)
               (status_of (HandleCommand cc peer clk d cmd v).1 id).
Proof.
  intros Hwf. destruct cmd; try (split; [done|]; intros id; constructor).
  - cbn [HandleCommand]. unfold updateServiceMetadataRequest.
    destruct (usr_GetHeartbeat r) as [hb|] eqn:Hreq;
      [|split; [done|]; intros id; constructor].
    unfold updateHeartbeat. destruct (String.eqb_spec (hb_ServiceId hb) "") as [He|Hne].
    + cbn [andb]. destruct (hb_TimeToLive hb =? 0)%Z.
      * destruct (updateHeartbeatCheckExpiredServices_spec cc (clk 1) d
          (peer_meta cc peer (clk 0) v) (command_audit cc "") Hwf) as (d' & evs & -> & Hw & _ & Hs).
        split; [done|]. intros id. simpl. rewrite Hs. apply aged_step.
      * unfold updateHeartbeatForService, prepareHeartbeatForService. rewrite He. simpl.
        split; [done|]. intros id. constructor.
    + cbn [andb].
      pose proof (updateHeartbeatForService_spec cc (clk 1) (clk 2) d hb
        (peer_meta cc peer (clk 0) v) (command_audit cc "") Hwf Hne) as Hr. cbv zeta in Hr.
      destruct (updateHeartbeatForService _ _ _ _ _ _ _) as [d' r'].
      assert (Hrej : rejects_with FailedPrecondition d (d', r') -> wf d' /\
        forall id, status_step clk (CmdUpdateServiceMetadata r) id (status_of d id) (status_of d' id)).
      { intros (err & [= -> ->] & _). split; [done|]. intros. constructor. }
      destruct (status_of d (hb_ServiceId hb)) eqn:Hst, (hb_Register hb) eqn:Hreg;
        try (by apply Hrej); destruct Hr as (d2 & evs & [= <- ->] & Hw & _ & Hs);
        (split; [done|]); intros id; simpl;
        rewrite Hs; case_decide; subst; rewrite ?Hst; first [apply aged_step|by econstructor].
  - destruct (confirmExpiredServices_spec cc (clk 1) d r (peer_meta cc peer (clk 0) v)
      (command_audit cc "") Hwf) as (d' & evs & Hr & Hw & _ & Hs).
    cbn [HandleCommand]. unfold confirmExpiredServicesRequest. rewrite Hr. split; [done|].
    intros id. simpl. rewrite Hs. destruct (status_of d id); [constructor..|].
    case_decide; [by econstructor|constructor].
Qed.
End theorems.

(** ** Reachable states *)
Section runs.
Context `{!UUIDLib}.

(** The states that a model goes through: it replays updates and snapshots of
    reachable states and handles commands. *)
Inductive reachable : State -> Prop :=
  | reach_new : reachable NewServiceMetadataSnapshotTaken
  | reach_command cc peer clk d cmd v :
      reachable d -> reachable (HandleCommand cc peer clk d cmd v).1
  | reach_update d upd : reachable d -> reachable (HandleServiceMetadataUpdated d upd).1
  | reach_snapshot d d0 now v :
      reachable d0 -> reachable d ->
      reachable (HandleServiceMetadataSnapshotTaken d (TakeSnapshot now d0 v)).

(** In every reachable state the two arrays are sorted by service, a
    service occurs in them at most once, and it is not valid and expired at the
    same time. *)
Theorem reachable_wf d : reachable d -> wf d.
Proof.
  induction 1 as [|cc peer clk d cmd v _ IH|d upd _ IH|d d0 now v _ IH _ _].
  - split; cbn; by constructor.
  - by apply HandleCommand_status.
  - by destruct (HandleServiceMetadataUpdated_cases d upd IH) as (d' & b & -> & ? & _).
  - by destruct IH.
Qed.

(** A run of commands, each with its own context and clock. *)
Record Call := MkCall {
  call_context : CommandContext; call_peer : option string; call_clock : nat -> time_;
  call_command : Command; call_version : Z }.
Definition call (d : State) (c : Call) : State :=
  (HandleCommand (call_context c) (call_peer c) (call_clock c) d (call_command c)
     (call_version c)).1.
Definition run (d : State) (calls : list Call) : State := fold_left call calls d.

Definition confirms (id : string) (cmd : Command) : bool :=
  match cmd with
  | CmdConfirmExpiredServices req => bool_decide (id ∈ (shh_ServiceId <$> cer_Heartbeat req))
  | _ => false
  end.

Lemma run_status (P : status -> Prop) d calls id :
  wf d -> P (status_of d id) ->
  (forall c s s', c ∈ calls -> P s -> status_step (call_clock c) (call_command c) id s s' -> P s') ->
  P (status_of (run d calls) id).
Proof.
  revert d. induction calls as [|c calls IH]; intros d Hwf Hp Hstep; [done|]. simpl.
  destruct (HandleCommand_status (call_context c) (call_peer c) (call_clock c) d
    (call_command c) (call_version c) Hwf) as [Hwf' Hs].
  apply IH; [done| |].
  - eapply Hstep; [by left|exact Hp|apply Hs].
  - intros c' s s' Hc. apply Hstep. by right.
Qed.

(** A service that has expired stays expired, with the same time, until a
    command confirms it: in particular no heartbeat revives it. *)
Theorem expired_until_confirmed d calls id u :
  wf d -> status_of d id = Expired u ->
  (forall c, c ∈ calls -> confirms id (call_command c) = false) ->
  status_of (run d calls) id = Expired u.
Proof.
  intros Hwf Hst Hno. apply (run_status (fun s => s = Expired u)); [done..|].
  intros c s s' Hc -> Hstep. specialize (Hno c Hc).
  inversion Hstep as [| | | |u' req Hcmd Hin]; subst; [done|]. rewrite Hcmd in Hno. simpl in Hno.
  by apply bool_decide_eq_false in Hno.
Qed.

(** The metadata of an event, but for the time it was made. *)
Definition untimed (em : EventMetadata) : EventMetadata :=
  MkEventMetadata (em_Version em) 0 (em_ConnectionId em) (em_Sequence em) (em_HubId em).

(** A command on the services either fails and changes nothing, or the
    replay of its events on the old state gives the services of the new state
    and its metadata, but for the time of a snapshot. *)
Theorem HandleCommand_services_replay cc peer clk d cmd v :
  wf d ->
  match HandleCommand cc peer clk d cmd v with
  | (d', inl _) => d' = d
  | (d', inr evs) => exists d'', Handle clk d (loaded <$> evs) None = (d'', None) /\
      sms_ServiceMetadataUpdated d'' = sms_ServiceMetadataUpdated d' /\
      untimed <$> sms_EventMetadata d'' = untimed <$> sms_EventMetadata d'
  end.
Proof.
  intros Hwf.
  assert (Hupd : forall ev, match finish_updated (HandleServiceMetadataUpdated d ev) ev with
    | (d', inl _) => d' = d
    | (d', inr evs) => exists d'', Handle clk d (loaded <$> evs) None = (d'', None) /\
        sms_ServiceMetadataUpdated d'' = sms_ServiceMetadataUpdated d' /\
        untimed <$> sms_EventMetadata d'' = untimed <$> sms_EventMetadata d'
    end).
  { intros ev. destruct (HandleServiceMetadataUpdated_cases d ev Hwf) as (d' & [] & Hr & _ & _ & Hch);
      rewrite Hr; cbn [finish_updated].
    - exists d'. split; [|done]. unfold Handle. cbn. by rewrite Hr.
    - rewrite (Hch eq_refl). by exists d. }
  destruct cmd; try done; cbn [HandleCommand].
  - unfold updateServiceMetadataRequest. destruct (usr_GetHeartbeat r) as [hb|]; [|done].
    unfold updateHeartbeat.
    destruct (_ && _).
    + unfold updateHeartbeatCheckExpiredServices. destruct (_ =? 0); [by exists d|apply Hupd].
    + unfold updateHeartbeatForService. destruct (prepareHeartbeatForService _ _ _ _) as [|[]]; [done|].
      apply Hupd.
  - unfold confirmExpiredServicesRequest, confirmExpiredServices.
    destruct (confirm_loop _ _ _) as [rest []]; simpl; [|by exists d].
    eexists. split; [reflexivity|]. done.
Qed.
End runs.

(** ** Times to live *)
(** C40: The time to live of a heartbeat is what the service asked for, plus ten
    times the time the heartbeat took to arrive, of which at most two minutes
    count; nothing is added when the heartbeat has no time or one in the future.
    The sum does not overflow for requests below 2^63 - 20 minutes. *)
Theorem calculateTimeToLive_spec now now2 hb :
  is_i64 (hb_Timestamp hb) -> (now <= now2)%Z ->
  (0 <= hb_TimeToLive hb < 2 ^ 63 - 20 * Minute)%Z ->
  calculateTimeToLive now now2 hb
  = (hb_TimeToLive hb
     + if (hb_Timestamp hb =? 0) || (now <? hb_Timestamp hb) then 0
       else 10 * Z.min (2 * Minute) (now2 - hb_Timestamp hb))%Z /\
  (hb_TimeToLive hb <= calculateTimeToLive now now2 hb <= hb_TimeToLive hb + 20 * Minute)%Z.
Proof.
  intros Hts Hnow Httl. unfold calculateTimeToLive, writeCostAgainstRead.
  assert (Hz := Unix_nsec_nonzero (hb_Timestamp hb) Hts). rewrite Hz. unfold Unix.
  destruct (Z.eqb_spec (hb_Timestamp hb) 0) as [H0|H0]; cbn [negb orb Z.eqb].
  { unfold Minute, Second. lia. }
  replace (0 * 1000000000 + hb_Timestamp hb)%Z with (hb_Timestamp hb) by lia. unfold Before.
  unfold Minute, Second in *.
  destruct (Z.ltb_spec now (hb_Timestamp hb)) as [Hf|Hf]; [lia|].
  set (p := Z.max _ _). assert (Hp : p = Z.min (now2 - hb_Timestamp hb) (2 ^ 63 - 1)) by lia.
  replace (60 * 1000000000 * 2)%Z with 120000000000%Z by done.
  replace (2 * (60 * 1000000000))%Z with 120000000000%Z by done.
  replace (20 * (60 * 1000000000))%Z with 1200000000000%Z in * by done.
  destruct (Z.ltb_spec 120000000000 p) as [Hb|Hb].
  - cbn [Z.ltb Z.compare]. change (i64 (120000000000 * 10)) with 1200000000000%Z.
    rewrite i64_id by (unfold is_i64; lia). lia.
  - destruct (Z.ltb_spec 0 p).
    + rewrite (i64_id (p * 10)) by (unfold is_i64; lia). rewrite i64_id by (unfold is_i64; lia). lia.
    + lia.
Qed.
