(* ===== verification/Projection.v ===== *)
(** * Projections of events to models

    resource-aggregate/cqrs/eventstore/projection.go: a projection reads a
    stream of events, group by group and aggregate by aggregate, keeps for each
    aggregate the version it has reached, hands the model the events that
    follow it, drops those it has seen, and asks for a reload where events are
    missing.

    A model's [Handle] is a loop over the iterator's [Next] that stops at the
    first error; [model_step] is the body of this loop, [model_begin] what
    happens before it and [model_end] what is returned after it, given the
    iterator's [Err]. *)

From Stdlib Require Import ZArith Lia String.
From S2P Require Import Prelude Events EventStore Handler.

Class Model (State D : Type) := {
  model_begin : State -> State;
  model_step : State -> LoadedEvent D -> State * option error;
  model_end : State -> option error -> option error }.

Section projection.
Context {State D : Type} `{!Model State D}.
#[local] Abbreviation Event := (LoadedEvent D).

(** ** The iterator of a store

    It delivers [it_rest]; [Err] reports [it_err] once [Next] has found the end. *)
Record Iter := MkIter { it_rest : list Event; it_err : option error; it_ended : bool }.

Definition Iter_Next (i : Iter) : Iter * option Event :=
  match it_rest i with
  | [] => (MkIter [] (it_err i) true, None)
  | e :: rest => (MkIter rest (it_err i) (it_ended i), Some e)
  end.
Definition Iter_Err (i : Iter) : option error := if it_ended i then it_err i else None.

(** ** The version of an aggregate *)
Record aggregateModel := MkAggregateModel {
  am_groupID : string; am_aggregateID : string; am_model : State; am_version : Z;
  am_hasSnapshot : bool }.

Definition set_version (am : aggregateModel) (v : Z) (s : bool) : aggregateModel :=
  MkAggregateModel (am_groupID am) (am_aggregateID am) (am_model am) v s.
Definition set_model (am : aggregateModel) (m : State) : aggregateModel :=
  MkAggregateModel (am_groupID am) (am_aggregateID am) m (am_version am) (am_hasSnapshot am).

(** The pair is (ignore, reload). *)
Definition Update (am : aggregateModel) (e : Event) : aggregateModel * (bool * bool) :=
  if (le_version e =? 0)%Z
     || (le_isSnapshot e && (negb (am_hasSnapshot am) || (am_version am <? le_version e)%Z))
  then (set_version am (le_version e) true, (false, false))
  else if (u64 (am_version am + 1) =? le_version e)%Z && am_hasSnapshot am
  then (set_version am (le_version e) (am_hasSnapshot am), (false, false))
  else if (le_version e <=? am_version am)%Z && am_hasSnapshot am then (am, (true, false))
  else (am, (false, true)).

(** ** The iterator of one aggregate *)
Record iterator := MkIterator {
  i_iter : Iter; i_firstEvent : option Event; i_model : aggregateModel;
  i_nextEventToProcess : option Event; i_reload : option VersionQuery }.

Definition same_aggregate (am : aggregateModel) (e : Event) : bool :=
  String.eqb (le_groupID e) (am_groupID am) && String.eqb (le_aggregateID e) (am_aggregateID am).

(** The pair is (snapshot, nextAggregateEvent). *)
Fixpoint RewindToSnapshot_go (am : aggregateModel) (err : option error) (ended : bool)
    (l : list Event) : Iter * (option Event * option Event) :=
  match l with
  | [] => (MkIter [] err true, (None, None))
  | e :: l =>
      if le_isSnapshot e && same_aggregate am e then (MkIter l err ended, (Some e, None))
      else if negb (same_aggregate am e) then (MkIter l err ended, (None, Some e))
      else RewindToSnapshot_go am err ended l
  end.
Definition RewindToSnapshot (am : aggregateModel) (i : Iter) : Iter * (option Event * option Event) :=
  RewindToSnapshot_go am (it_err i) (it_ended i) (it_rest i).

(** Each turn of the loop takes an event, so that [S (length (it_rest i))] turns are
    enough. *)
Fixpoint RewindToNextAggregateEvent_go (fuel : nat) (am : aggregateModel) (i : Iter)
    : Iter * option Event :=
  match fuel with
  | O => (i, None)
  | S fuel =>
      match RewindToSnapshot am i with
      | (i, (_, Some next)) => (i, Some next)
      | (i, (None, None)) => (i, None)
      | (i, (Some _, None)) => RewindToNextAggregateEvent_go fuel am i
      end
  end.
Definition RewindToNextAggregateEvent (am : aggregateModel) (i : Iter) : Iter * option Event :=
  RewindToNextAggregateEvent_go (S (length (it_rest i))) am i.

(** The event that Next returns, and the event of another aggregate it met. *)
Fixpoint RewindIgnore_go (am : aggregateModel) (err : option error) (ended : bool)
    (l : list Event) : aggregateModel * Iter * option Event * option Event :=
  match l with
  | [] => (am, MkIter [] err true, None, None)
  | e :: l =>
      if negb (same_aggregate am e) then (am, MkIter l err ended, None, Some e)
      else
        let '(am, (ignore, _)) := Update am e in
        if negb ignore then (am, MkIter l err ended, Some e, None)
        else RewindIgnore_go am err ended l
  end.
Definition RewindIgnore (i : iterator) : iterator * option Event :=
  let '(am, it, ev, next) :=
    RewindIgnore_go (i_model i) (it_err (i_iter i)) (it_ended (i_iter i)) (it_rest (i_iter i)) in
  (MkIterator it (i_firstEvent i) am
     (match next with Some e => Some e | None => i_nextEventToProcess i end) (i_reload i), ev).

Definition reload_query (am : aggregateModel) (e : Event) : VersionQuery :=
  MkVersionQuery (le_groupID e) (le_aggregateID e) (am_version am).

Definition Next (i : iterator) : iterator * option Event :=
  match i_firstEvent i with
  | None => RewindIgnore i
  | Some tmp =>
      let '(am, (ignore, reload)) := Update (i_model i) tmp in
      let i := MkIterator (i_iter i) None am (i_nextEventToProcess i) (i_reload i) in
      if reload then
        match RewindToSnapshot am (i_iter i) with
        | (it, (None, next)) =>
            (MkIterator it None am next (Some (reload_query am tmp)), None)
        | (it, (Some tmp, _)) =>
            let '(am, (ignore, reload)) := Update am tmp in
            if reload then
              let '(it, next) := RewindToNextAggregateEvent am it in
              (MkIterator it None am next (Some (reload_query am tmp)), None)
            else
              let i := MkIterator it None am (i_nextEventToProcess i) (i_reload i) in
              if ignore then RewindIgnore i else (i, Some tmp)
        end
      else if ignore then RewindIgnore i else (i, Some tmp)
  end.

(** aggregateModel.Handle: the model's loop.  A turn takes an event that is
    still to come or the first one, so that there are at most
    [2 + length (it_rest (i_iter i))] turns. *)
Fixpoint Model_Handle (fuel : nat) (i : iterator) : option (iterator * option error) :=
  match fuel with
  | O => None
  | S fuel =>
      match Next i with
      | (i, None) => Some (i, model_end (am_model (i_model i)) (Iter_Err (i_iter i)))
      | (i, Some e) =>
          let '(m, err) := model_step (am_model (i_model i)) e in
          let i := MkIterator (i_iter i) (i_firstEvent i) (set_model (i_model i) m)
                     (i_nextEventToProcess i) (i_reload i) in
          match err with Some err => Some (i, Some err) | None => Model_Handle fuel i end
      end
  end.
Definition am_Handle (i : iterator) : option (iterator * option error) :=
  let am := i_model i in
  Model_Handle (2 + length (it_rest (i_iter i)))
    (MkIterator (i_iter i) (i_firstEvent i) (set_model am (model_begin (am_model am)))
       (i_nextEventToProcess i) (i_reload i)).

(** ** The projection

    [factoryModel] is the function that makes the model of an aggregate. *)
Definition Models := gmap string (gmap string aggregateModel).
Context (factoryModel : string -> string -> result State).

Definition lookup_model (p : Models) (groupID aggregateID : string) : option aggregateModel :=
  default ∅ (p !! groupID) !! aggregateID.
Definition put_model (p : Models) (am : aggregateModel) : Models :=
  <[am_groupID am := <[am_aggregateID am := am]> (default ∅ (p !! am_groupID am))]> p.

Definition getModel (p : Models) (groupID aggregateID : string) : Models * result aggregateModel :=
  let p := <[groupID := default ∅ (p !! groupID)]> p in
  match lookup_model p groupID aggregateID with
  | Some apm => (p, inr apm)
  | None =>
      match factoryModel groupID aggregateID with
      | inl err => (p, inl (Wrap "cannot create model" err))
      | inr model =>
          let apm := MkAggregateModel groupID aggregateID model 0 false in
          (put_model p apm, inr apm)
      end
  end.

(** The end of a turn of handle's loop: look for the next aggregate's event. *)
Definition find_next (i : iterator) : iterator * option Event :=
  match i_nextEventToProcess i with
  | Some e => (i, Some e)
  | None =>
      match Next i with
      | (i, Some _) =>
          let '(it, next) := RewindToNextAggregateEvent (i_model i) (i_iter i) in
          (MkIterator it (i_firstEvent i) (i_model i) next (i_reload i), next)
      | (i, None) => (i, i_nextEventToProcess i)
      end
  end.

(** Each turn of the loop takes the event [ie]. *)
Fixpoint handle_go (fuel : nat) (p : Models) (iter : Iter) (ie : option Event)
    (reloadQueries : list VersionQuery) : option (Models * result (list VersionQuery)) :=
  match ie, fuel with
  | None, _ => Some (p, inr reloadQueries)
  | Some _, O => None
  | Some e, S fuel =>
      match getModel p (le_groupID e) (le_aggregateID e) with
      | (p, inl err) => Some (p, inl (Wrap "cannot handle projection" err))
      | (p, inr am) =>
          match am_Handle (MkIterator iter (Some e) am None None) with
          | None => None
          | Some (i, Some err) =>
              Some (put_model p (i_model i), inl (Wrap "cannot handle projection" err))
          | Some (i, None) =>
              let '(i, next) := find_next i in
              handle_go fuel (put_model p (i_model i)) (i_iter i) next
                (match i_reload i with
                 | Some q => reloadQueries ++ [q] | None => reloadQueries end)
          end
      end
  end.

Definition handle (p : Models) (iter : Iter) : option (Models * result (list VersionQuery)) :=
  match Iter_Next iter with
  | (iter, None) =>
      Some (p, match Iter_Err iter with Some err => inl err | None => inr [] end)
  | (iter, Some e) => handle_go (S (length (it_rest iter))) p iter (Some e) []
  end.

Definition Handle (p : Models) (iter : Iter) : option (Models * option error) :=
  match handle p iter with
  | None => None
  | Some (p, inl err) => Some (p, Some err)
  | Some (p, inr _) => Some (p, None)
  end.

(** What a store does with the handler it is given: it calls Handle for a number of
    iterators, goes on when a call fails, and reports this failure or an error
    of its own (loadEventsQuery of mongodb/load.go). *)
Record Loaded := MkLoaded { ld_iters : list Iter; ld_err : option error }.
Fixpoint Load (p : Models) (iters : list Iter) (err : option error)
    : option (Models * option error) :=
  match iters with
  | [] => Some (p, err)
  | iter :: iters =>
      match Handle p iter with
      | Some (p, err') => Load p iters (match err with Some _ => err | None => err' end)
      | None => None
      end
  end.

Context (LoadFromVersion : list VersionQuery -> Loaded)
  (LoadFromSnapshot : list SnapshotQuery -> Loaded).

Definition HandleWithReload (p : Models) (iter : Iter) : option (Models * option error) :=
  match handle p iter with
  | None => None
  | Some (p, inl err) => Some (p, Some (Wrap "cannot handle events with reload" err))
  | Some (p, inr []) => Some (p, None)
  | Some (p, inr reloadQueries) =>
      let l := LoadFromVersion reloadQueries in
      match Load p (ld_iters l) (ld_err l) with
      | Some (p, Some err) => Some (p, Some (Wrap "cannot reload events for db" err))
      | r => r
      end
  end.

Definition Project (p : Models) (queries : list SnapshotQuery) : option (Models * option error) :=
  let l := LoadFromSnapshot queries in Load p (ld_iters l) (ld_err l).

Definition Forget (p : Models) (queries : list SnapshotQuery) : Models :=
  fold_left (fun p query =>
    if String.eqb (sq_AggregateID query) "" then delete (sq_GroupID query) p
    else match p !! sq_GroupID query with
         | Some m =>
             let m := delete (sq_AggregateID query) m in
             if (size m =? 0)%nat then delete (sq_GroupID query) p
             else <[sq_GroupID query := m]> p
         | None => p
         end) queries p.
End projection.
Arguments Iter D : clear implicits.
Arguments aggregateModel State : clear implicits.
Arguments iterator State D : clear implicits.
Arguments Models State : clear implicits.
Arguments Loaded D : clear implicits.
