(* ===== verification/ProjectionFacts.v ===== *)
(** * Properties of projections

    The loops end; what one turn of the loop does with the events of an
    aggregate; the replay of logs; events delivered again; events missing. *)

From Stdlib Require Import ZArith Lia String.
From S2P Require Import Prelude Events EventStore Handler Projection.

Section facts.
Context {State D : Type} `{!Model State D}.
#[local] Abbreviation Event := (LoadedEvent D).
Implicit Types (am : aggregateModel State) (e : Event) (l own r : list Event).

#[local] Arguments same_aggregate : simpl never.
#[local] Arguments Update : simpl never.

(** ** Versions *)
Lemma Update_ids am e am' b :
  Update am e = (am', b) -> am_groupID am' = am_groupID am /\
  am_aggregateID am' = am_aggregateID am /\ am_model am' = am_model am.
Proof. unfold Update. repeat case_match; by intros [= <- <-]. Qed.

Lemma Update_not_both am e am' ign reload : Update am e = (am', (ign, reload)) -> ign && reload = false.
Proof. unfold Update. repeat case_match; by intros [= <- <- <-]. Qed.

Lemma Update_reload am e am' ign : Update am e = (am', (ign, true)) -> am' = am.
Proof. unfold Update. repeat case_match; by intros [= <- <-]. Qed.

(** The second reload of Next never happens: a snapshot is applied or ignored. *)
Lemma Update_snapshot am e :
  le_isSnapshot e = true -> exists am' ign, Update am e = (am', (ign, false)).
Proof.
  intros Hs. unfold Update. rewrite Hs. destruct (le_version e =? 0)%Z; [by eauto|].
  destruct (am_hasSnapshot am); [|by eauto].
  destruct (Z.ltb_spec (am_version am) (le_version e)); [by eauto|].
  destruct (_ && true) eqn:?; [by eauto|]. exists am, true.
  destruct (Z.leb_spec (le_version e) (am_version am)); [done|lia].
Qed.

Lemma same_aggregate_ids am am' e :
  am_groupID am' = am_groupID am -> am_aggregateID am' = am_aggregateID am ->
  same_aggregate am' e = same_aggregate am e.
Proof. unfold same_aggregate. by intros -> ->. Qed.

(** ** The events of the aggregate at the front of a stream *)
Fixpoint split_own am l : list Event * list Event :=
  match l with
  | [] => ([], [])
  | e :: l' => if same_aggregate am e then let '(own, r) := split_own am l' in (e :: own, r)
               else ([], l)
  end.

Lemma split_own_ids am am' l :
  am_groupID am' = am_groupID am -> am_aggregateID am' = am_aggregateID am ->
  split_own am' l = split_own am l.
Proof.
  intros Hg Ha. induction l as [|e l IH]; simpl; [done|].
  by rewrite (same_aggregate_ids am am'), IH.
Qed.

Lemma split_own_length am l : length (split_own am l).2 <= length l.
Proof.
  induction l as [|e l IH]; simpl; [done|]. case_match; [|done].
  destruct (split_own am l) as [own r]. simpl in *. lia.
Qed.

Definition others am r : Prop := match r with [] => True | e :: _ => same_aggregate am e = false end.

Lemma split_own_app am own r :
  Forall (fun e => same_aggregate am e = true) own -> others am r ->
  split_own am (own ++ r) = (own, r).
Proof.
  intros Hown Hr. induction Hown as [|e own He _ IH]; simpl.
  - destruct r as [|e r]; simpl in *; [done|]. by rewrite Hr.
  - by rewrite He, IH.
Qed.

(** What the model is given of events of its aggregate, once one was applied. *)
Fixpoint feed am own : aggregateModel State * option error :=
  match own with
  | [] => (am, None)
  | e :: own =>
      let '(am, (ignore, _)) := Update am e in
      if ignore then feed am own
      else let '(m, err) := model_step (am_model am) e in
           match err with
           | Some err => (set_model am m, Some err)
           | None => feed (set_model am m) own
           end
  end.

Fixpoint from_snapshot l : list Event :=
  match l with
  | [] => []
  | e :: l' => if le_isSnapshot e then l else from_snapshot l'
  end.

(** ... and of those that open a turn of the loop: when the first one is too new, the
    events up to a snapshot are dropped; without a snapshot a reload is needed. *)
Definition batch am e own : aggregateModel State * option error * option VersionQuery :=
  if (Update am e).2.2 then
    match from_snapshot own with
    | [] => (am, None, Some (reload_query am e))
    | l => (feed am l, None)
    end
  else (feed am (e :: own), None).

Lemma feed_ids am own :
  am_groupID (feed am own).1 = am_groupID am /\ am_aggregateID (feed am own).1 = am_aggregateID am.
Proof.
  revert am. induction own as [|e own IH]; intros am; simpl; [done|].
  destruct (Update am e) as [am1 [ign rel]] eqn:Hu. apply Update_ids in Hu as (<- & <- & _).
  destruct ign; [apply IH|]. destruct (model_step _ _) as [m [err|]]; [done|].
  apply (IH (set_model am1 m)).
Qed.

(** ** The iterator *)
Definition iter_at (l : list Event) (err : option error) (ended : bool) : Iter D := MkIter l err ended.

Lemma Next_skip am next rel e l err ended am' b :
  same_aggregate am e = true -> Update am e = (am', (true, b)) ->
  Next (MkIterator (MkIter (e :: l) err ended) None am next rel)
  = Next (MkIterator (MkIter l err ended) None am' next rel).
Proof.
  intros Hs Hu. unfold Next, RewindIgnore. cbn [i_firstEvent i_model i_iter it_err it_ended it_rest
    RewindIgnore_go]. by rewrite Hs, Hu.
Qed.

Definition ended_after r (ended : bool) : bool := match r with [] => true | _ => ended end.

(** The loop of a model on the rest of a stream. *)
Lemma Model_Handle_rest fuel l err ended am next rel :
  length l < fuel ->
  let '(own, r) := split_own am l in
  match feed am own with
  | (am', None) =>
      Model_Handle fuel (MkIterator (MkIter l err ended) None am next rel)
      = Some (MkIterator (MkIter (tail r) err (ended_after r ended)) None am'
                (match r with [] => next | e :: _ => Some e end) rel,
              model_end (am_model am') (Iter_Err (MkIter (tail r) err (ended_after r ended))))
  | (am', Some er) => exists i',
      Model_Handle fuel (MkIterator (MkIter l err ended) None am next rel) = Some (i', Some er) /\
      i_model i' = am'
  end.
Proof.
  revert fuel am. induction l as [|e l IH]; intros fuel am Hf.
  { destruct fuel; [simpl in Hf; lia|]. done. }
  simpl split_own. destruct (same_aggregate am e) eqn:Hs.
  2:{ destruct fuel; [simpl in Hf; lia|]. cbn. unfold RewindIgnore. cbn. by rewrite Hs. }
  destruct (split_own am l) as [own r] eqn:Hsp. cbn [feed].
  destruct (Update am e) as [am1 [ign b]] eqn:Hu.
  pose proof (Update_ids _ _ _ _ Hu) as (Hg & Ha & Hm). destruct ign.
  - specialize (IH fuel am1 ltac:(simpl in Hf; lia)).
    rewrite (split_own_ids am am1), Hsp in IH by done.
    assert (Heq : Model_Handle fuel (MkIterator (MkIter (e :: l) err ended) None am next rel)
                  = Model_Handle fuel (MkIterator (MkIter l err ended) None am1 next rel)).
    { destruct fuel; [done|]. cbn [Model_Handle].
      by rewrite (Next_skip am next rel e l err ended am1 b Hs Hu). }
    by rewrite Heq.
  - destruct fuel as [|fuel]; [simpl in Hf; lia|]. cbn. unfold RewindIgnore. cbn. rewrite Hs, Hu. cbn.
    destruct (model_step (am_model am1) e) as [m [er|]]; [by eexists|].
    specialize (IH fuel (set_model am1 m) ltac:(simpl in Hf; lia)).
    by rewrite (split_own_ids am), Hsp in IH.
Qed.

Lemma RewindToSnapshot_go_spec am err ended l :
  let '(own, r) := split_own am l in
  RewindToSnapshot_go am err ended l
  = match from_snapshot own with
    | [] => (MkIter (tail r) err (ended_after r ended), (None, head r))
    | s :: l' => (MkIter (l' ++ r) err ended, (Some s, None))
    end.
Proof.
  induction l as [|e l IH]; simpl; [done|].
  destruct (same_aggregate am e) eqn:Hs; [|by rewrite andb_false_r].
  destruct (split_own am l) as [own r] eqn:Hsp. simpl. destruct (le_isSnapshot e); simpl.
  - do 2 f_equal.
    clear -Hsp. revert own r Hsp. induction l as [|x l IH]; simpl; intros own r; [by intros [= <- <-]|].
    destruct (same_aggregate am x); [|by intros [= <- <-]].
    destruct (split_own am l) as [own' r']. intros [= <- <-]. simpl. f_equal. by apply IH.
  - exact IH.
Qed.


Lemma split_own_spec am l :
  let '(own, r) := split_own am l in
  l = own ++ r /\ Forall (fun e => same_aggregate am e = true) own /\ others am r.
Proof.
  induction l as [|e l IH]; simpl; [done|]. destruct (same_aggregate am e) eqn:Hs.
  - destruct (split_own am l) as [own r]. destruct IH as (-> & Hown & Hr). by split_and!; [|constructor|].
  - by split_and!.
Qed.

Lemma from_snapshot_suffix l s l' :
  from_snapshot l = s :: l' -> le_isSnapshot s = true /\ exists a, l = a ++ s :: l'.
Proof.
  induction l as [|e l IH]; simpl; [done|]. destruct (le_isSnapshot e) eqn:Hs.
  - intros [= -> ->]. split; [done|]. by exists [].
  - intros [? [a ->]]%IH. split; [done|]. by exists (e :: a).
Qed.

(** One turn of the loop of handle. *)
Definition begun am : aggregateModel State := set_model am (model_begin (am_model am)).

Definition turned r err ended
    (i : option (iterator State D * option error)) (res : aggregateModel State * option error)
    (q : option VersionQuery) : Prop :=
  match res with
  | (am', Some er) => exists i', i = Some (i', Some er) /\ i_model i' = am'
  | (am', None) => exists i',
      i = Some (i', model_end (am_model am') (Iter_Err (MkIter (tail r) err (ended_after r ended)))) /\
      find_next i' = (MkIterator (MkIter (tail r) err (ended_after r ended)) None am' (head r) q,
                      head r) /\ i_model i' = am'
  end.

Lemma Model_Handle_turned fuel l err ended am q own r :
  split_own am l = (own, r) -> length l < fuel ->
  turned r err ended
    (Model_Handle fuel (MkIterator (MkIter l err ended) None am None q)) (feed am own) q.
Proof.
  intros Hsp Hf. pose proof (Model_Handle_rest fuel l err ended am None q Hf) as Hr.
  rewrite Hsp in Hr. unfold turned. destruct (feed am own) as [am' [er|]]; [done|].
  eexists. split; [exact Hr|]. by destruct r.
Qed.

(** What is left of the model's loop after the Update of its first event. *)
Definition go_on fuel (iter : Iter D) am1 (ignore : bool) e : option (iterator State D * option error) :=
  if ignore then Model_Handle (S fuel) (MkIterator iter None am1 None None)
  else let '(m, er) := model_step (am_model am1) e in
       match er with
       | Some er => Some (MkIterator iter None (set_model am1 m) None None, Some er)
       | None => Model_Handle fuel (MkIterator iter None (set_model am1 m) None None)
       end.

Lemma go_on_turned fuel am e am1 ign l err ended own r :
  Update am e = (am1, (ign, false)) -> split_own am l = (own, r) -> length l < fuel ->
  turned r err ended (go_on fuel (MkIter l err ended) am1 ign e) (feed am (e :: own)) None.
Proof.
  intros Hu Hsp Hf. apply Update_ids in Hu as Hids. destruct Hids as (Hg & Ha & _).
  rewrite <- (split_own_ids am am1) in Hsp by done. cbn [feed]. rewrite Hu. unfold go_on. destruct ign.
  - apply Model_Handle_turned; [done|lia].
  - destruct (model_step (am_model am1) e) as [m [er|]]; [by eexists|].
    apply Model_Handle_turned; [|done]. by rewrite (split_own_ids am1).
Qed.

Lemma Model_Handle_first fuel am e am1 ign iter :
  Update am e = (am1, (ign, false)) ->
  Model_Handle (S fuel) (MkIterator iter (Some e) am None None) = go_on fuel iter am1 ign e.
Proof.
  intros Hu. unfold go_on. cbn [Model_Handle]. unfold Next at 1. cbn [i_firstEvent i_model i_iter
    i_nextEventToProcess i_reload]. rewrite Hu. by destruct ign.
Qed.

Lemma Model_Handle_reload fuel am e l err ended own r :
  Update am e = (am, (false, true)) -> split_own am l = (own, r) ->
  Model_Handle (S fuel) (MkIterator (MkIter l err ended) (Some e) am None None)
  = match from_snapshot own with
    | [] => Some (MkIterator (MkIter (tail r) err (ended_after r ended)) None am (head r)
                    (Some (reload_query am e)),
                  model_end (am_model am) (Iter_Err (MkIter (tail r) err (ended_after r ended))))
    | s :: own' => go_on fuel (MkIter (own' ++ r) err ended) (Update am s).1 (Update am s).2.1 s
    end.
Proof.
  intros Hu Hsp. pose proof (RewindToSnapshot_go_spec am err ended l) as Hrew. rewrite Hsp in Hrew.
  cbn [Model_Handle]. unfold Next at 1. cbn [i_firstEvent i_model i_iter
    i_nextEventToProcess i_reload]. rewrite Hu. unfold RewindToSnapshot. cbn [it_err it_ended it_rest].
  rewrite Hrew. destruct (from_snapshot own) as [|s own'] eqn:Hfs; [done|].
  apply from_snapshot_suffix in Hfs as [Hs _].
  destruct (Update_snapshot am s Hs) as (am2 & ign & Hu2). rewrite Hu2.
  unfold go_on. by destruct ign.
Qed.

Lemma turn_spec am e l err ended own r :
  split_own am l = (own, r) ->
  turned r err ended
    (am_Handle (MkIterator (MkIter l err ended) (Some e) am None None))
    (batch (begun am) e own).1 (batch (begun am) e own).2.
Proof.
  intros Hsp. rewrite <- (split_own_ids am (begun am)) in Hsp by done.
  unfold am_Handle. cbn [i_model i_iter i_firstEvent it_rest i_nextEventToProcess i_reload].
  fold (begun am). set (am0 := begun am) in *. clearbody am0. cbn [Nat.add].
  destruct (Update am0 e) as [am1 [ign reload]] eqn:Hu. unfold batch. rewrite Hu. cbn [fst snd].
  destruct reload.
  - pose proof (Update_not_both _ _ _ _ _ Hu) as Hb. rewrite andb_true_r in Hb. subst ign.
    pose proof (Update_reload _ _ _ _ Hu) as ->. rewrite (Model_Handle_reload _ _ _ _ _ _ own r) by done.
    destruct (from_snapshot own) as [|s own'] eqn:Hfs; cbn [fst snd].
    + eexists. split; [reflexivity|]. split; [|done]. by destruct r.
    + apply from_snapshot_suffix in Hfs as [Hs [a Heq]].
      pose proof (split_own_spec am0 l) as Hl. rewrite Hsp in Hl. destruct Hl as (Hl & Hown & Hr).
      destruct (Update_snapshot am0 s Hs) as (am2 & ign & Hu2). rewrite Hu2.
      apply go_on_turned; [done| |].
      * apply split_own_app; [|done]. rewrite Heq, Forall_app, Forall_cons in Hown. apply Hown.
      * rewrite Hl, Heq, !length_app. simpl. lia.
  - rewrite (Model_Handle_first _ _ _ am1 ign) by done. apply go_on_turned; [done|done|lia].
Qed.

(** ** Logs *)
Fixpoint replay (m : State) l : State * option error :=
  match l with
  | [] => (m, None)
  | e :: l => match model_step m e with
              | (m, Some err) => (m, Some err)
              | (m, None) => replay m l
              end
  end.

Lemma replay_app m l l' m' :
  replay m l = (m', None) -> replay m (l ++ l') = replay m' l'.
Proof.
  revert m. induction l as [|e l IH]; intros m; simpl; [by intros [= ->]|].
  destruct (model_step m e) as [m1 [err|]]; [done|]. apply IH.
Qed.

(** The versions of [l] count up from [v]. *)
Definition numbered (v : Z) l : Prop :=
  forall i e, l !! i = Some e -> le_version e = (v + Z.of_nat i)%Z /\ is_u64 (le_version e).

Lemma numbered_cons v e l :
  numbered v (e :: l) -> le_version e = v /\ is_u64 (le_version e) /\ numbered (v + 1) l.
Proof.
  intros Hn. destruct (Hn 0 e eq_refl) as [Hv Hu]. split_and!; [lia|done|].
  intros i x Hi. destruct (Hn (S i) x Hi). split; [lia|done].
Qed.

(** An aggregate that has replayed the first [k] events of [log]. *)
Definition reached (m0 : State) (log : list Event) (v : Z) (k : nat) am : Prop :=
  0 < k <= length log /\ replay m0 (take k log) = (am_model am, None) /\
  am_version am = (v + Z.of_nat k - 1)%Z /\ am_hasSnapshot am = true.

(** The next event of the log is applied ... *)
Lemma Update_next am e v k m0 log :
  reached m0 log v k am -> numbered v log -> (0 <= v)%Z -> log !! k = Some e ->
  Update am e = (set_version am (v + Z.of_nat k) true, (false, false)).
Proof.
  intros (Hk & _ & Hv & Hs) Hn Hpos He. destruct (Hn k e He) as [Hve Hu]. unfold Update.
  rewrite Hv, Hs, Hve in *. destruct (Z.eqb_spec (v + Z.of_nat k) 0); [done|]. simpl.
  destruct (le_isSnapshot e && _); [done|].
  replace (v + Z.of_nat k - 1 + 1)%Z with (v + Z.of_nat k)%Z by lia.
  rewrite u64_id by done. by rewrite Z.eqb_refl.
Qed.
(** ... one that was applied before is ignored, but for the version 0. *)
Lemma Update_seen am e v k m0 log i :
  reached m0 log v k am -> numbered v log -> log !! i = Some e -> i < k -> le_version e <> 0%Z ->
  Update am e = (am, (true, false)).
Proof.
  intros (Hk & _ & Hv & Hs) Hn He Hi Hne. destruct (Hn i e He) as [Hve Hu].
  assert (Hlast : is_Some (log !! (k - 1))) by (apply lookup_lt_is_Some; lia).
  destruct Hlast as [x Hx]. destruct (Hn _ _ Hx) as [Hvx Hux]. unfold Update. rewrite Hs.
  unfold is_u64 in *.
  destruct (Z.eqb_spec (le_version e) 0); [done|]. simpl.
  destruct (Z.ltb_spec (am_version am) (le_version e)); [lia|]. rewrite andb_false_r. simpl.
  destruct (Z.eqb_spec (u64 (am_version am + 1)) (le_version e)) as [Heq|Hq].
  - exfalso. unfold u64 in Heq. destruct (decide (am_version am + 1 = 2 ^ 64)%Z) as [E|E].
    + rewrite E in Heq. rewrite Z_mod_same_full in Heq. lia.
    + rewrite Z.mod_small in Heq by lia. lia.
  - simpl. destruct (Z.leb_spec (le_version e) (am_version am)); [done|lia].
Qed.

Lemma reached_next am e v k m0 log m :
  reached m0 log v k am -> log !! k = Some e -> model_step (am_model am) e = (m, None) ->
  reached m0 log v (S k) (set_model (set_version am (v + Z.of_nat k) true) m).
Proof.
  intros (Hk & Hr & Hv & Hs) He Hm. assert (k < length log) by by eapply lookup_lt_Some.
  split_and!; [lia|lia| | |done].
  - rewrite (take_S_r _ _ _ He), (replay_app _ _ _ _ Hr). simpl. by rewrite Hm.
  - simpl. lia.
Qed.

Lemma replay_take m l m' k : replay m l = (m', None) -> exists m1, replay m (take k l) = (m1, None).
Proof.
  revert m k. induction l as [|e l IH]; intros m [|k]; simpl; eauto.
  destruct (model_step m e) as [m1 [err|]]; [done|]. eauto.
Qed.
Lemma replay_step m l m' k e m1 :
  replay m l = (m', None) -> l !! k = Some e -> replay m (take k l) = (m1, None) ->
  exists m2, model_step m1 e = (m2, None).
Proof.
  intros Hr He Hk. destruct (replay_take m l m' (S k) Hr) as [m2 H2].
  rewrite (take_S_r _ _ _ He), (replay_app _ _ _ _ Hk) in H2. simpl in H2.
  destruct (model_step m1 e) as [m3 [err|]]; [done|]. by eexists.
Qed.

(** Events of the log from the position [i <= k] on, whether seen or not. *)
Lemma feed_reached m0 log v mz am k i l :
  replay m0 log = (mz, None) -> numbered v log -> (0 <= v)%Z ->
  reached m0 log v k am -> i <= k -> l = take (length l) (drop i log) ->
  Forall (fun e => le_version e <> 0%Z) l ->
  exists am', feed am l = (am', None) /\ reached m0 log v (k `max` (i + length l)) am' /\
    am_groupID am' = am_groupID am /\ am_aggregateID am' = am_aggregateID am.
Proof.
  intros Hr Hn Hv. revert am k i. induction l as [|e l IH]; intros am k i Hk Hi Hl Hne.
  { exists am. simpl. rewrite Nat.add_0_r, Nat.max_l by done. done. }
  destruct (log !! i) as [e'|] eqn:He.
  2:{ apply lookup_ge_None in He. by rewrite drop_ge in Hl. }
  rewrite (drop_S _ _ _ He) in Hl. simpl in Hl. injection Hl as <- Hl.
  apply Forall_cons in Hne as [Hz Hne]. simpl feed.
  destruct (decide (i < k)) as [Hlt|Hge].
  - rewrite (Update_seen am e v k m0 log i) by done.
    destruct (IH am k (S i)) as (am' & Hf & Hre & Hids); [done|lia|done|done|].
    exists am'. split_and!; [done| |apply Hids..]. simpl length. by rewrite Nat.add_succ_r.
  - assert (i = k) as -> by lia.
    destruct (replay_step _ _ _ _ _ _ Hr He (proj1 (proj2 Hk))) as [m2 Hm2].
    rewrite (Update_next am e v k m0 log) by done. cbn [am_model set_version]. rewrite Hm2.
    pose proof (reached_next _ _ _ _ _ _ _ Hk He Hm2) as Hk'.
    destruct (IH _ (S k) (S k) Hk') as (am' & Hf & Hre & Hids); [done|done|done|].
    exists am'. split_and!; [done| |apply Hids..]. simpl in *.
    replace (k `max` (k + S (length l))) with (S k `max` (S (k + length l))) by lia. done.
Qed.

(** ** The loop of handle *)
Section handle.
Context (factoryModel : string -> string -> result State).
#[local] Abbreviation handle_go := (handle_go factoryModel).
#[local] Abbreviation getModel := (getModel factoryModel).

Lemma handle_go_turn fuel p e l err ended qs :
  handle_go (S fuel) p (MkIter l err ended) (Some e) qs
  = match getModel p (le_groupID e) (le_aggregateID e) with
    | (p, inl er) => Some (p, inl (Wrap "cannot handle projection" er))
    | (p, inr am) =>
        let '(own, r) := split_own am l in
        let iter := MkIter (tail r) err (ended_after r ended) in
        match batch (begun am) e own with
        | (am', Some er, _) => Some (put_model p am', inl (Wrap "cannot handle projection" er))
        | (am', None, q) =>
            match model_end (am_model am') (Iter_Err iter) with
            | Some er => Some (put_model p am', inl (Wrap "cannot handle projection" er))
            | None => handle_go fuel (put_model p am') iter (head r)
                        (match q with Some q => qs ++ [q] | None => qs end)
            end
        end
    end.
Proof.
  cbn [Projection.handle_go]. destruct (getModel p _ _) as [p' [er|am]]; [done|].
  destruct (split_own am l) as [own r] eqn:Hsp.
  pose proof (turn_spec am e l err ended own r Hsp) as Ht.
  destruct (batch (begun am) e own) as [[am' [er|]] q]; cbn [fst snd turned] in Ht.
  - destruct Ht as (i & -> & ->). done.
  - destruct Ht as (i & -> & Hfn & Hm).
    destruct (model_end _ _); [by rewrite Hm|]. by rewrite Hfn.
Qed.

Lemma handle_go_returns fuel p l err ended ie qs :
  length l < fuel -> exists res, handle_go fuel p (MkIter l err ended) ie qs = Some res.
Proof.
  revert p l ended ie qs. induction fuel as [|fuel IH]; intros p l ended ie qs Hf; [lia|].
  destruct ie as [e|]; [|by eexists]. rewrite handle_go_turn.
  destruct (getModel p _ _) as [p1 [er|am]]; [by eexists|].
  pose proof (split_own_length am l) as Hlen. destruct (split_own am l) as [own r].
  destruct (batch _ _ _) as [[am' [er|]] q]; [by eexists|].
  cbv zeta. destruct (model_end _ _); [by eexists|].
  destruct r as [|x r].
  - destruct fuel; by eexists.
  - apply IH. simpl in *. lia.
Qed.

Lemma handle_total p iter : exists res, handle factoryModel p iter = Some res.
Proof.
  unfold handle. destruct iter as [[|e l] err ended]; cbn [Iter_Next it_rest it_err it_ended].
  - by eexists.
  - apply handle_go_returns. cbn. lia.
Qed.

Lemma Load_total p iters err : exists res, Load factoryModel p iters err = Some res.
Proof.
  revert p err. induction iters as [|iter iters IH]; intros p err; simpl; [by eexists|].
  unfold Handle. destruct (handle_total p iter) as [[p1 [er|qs]] ->]; apply IH.
Qed.

(** A stream that fails is not handled without an error, by models that report it. *)
Lemma handle_go_failing fuel p l er ended e qs p' qs' :
  (forall m er, model_end m (Some er) <> None) ->
  handle_go fuel p (MkIter l (Some er) ended) (Some e) qs <> Some (p', inr qs').
Proof.
  intros Hend. revert p l ended e qs. induction fuel as [|fuel IH]; intros p l ended e qs; [done|].
  rewrite handle_go_turn. destruct (getModel p _ _) as [p1 [err|am]]; [done|].
  destruct (split_own am l) as [own [|x r]]; destruct (batch _ _ _) as [[am' [err|]] q]; try done; cbv zeta.
  - pose proof (Hend (am_model am') er). unfold Iter_Err. cbn [ended_after it_ended it_err tail].
    by destruct (model_end _ _).
  - destruct (model_end _ _); [done|]. apply IH.
Qed.

(** A load without an error had no iterator that failed. *)
Lemma Load_no_error p iters err p' :
  (forall m er, model_end m (Some er) <> None) ->
  Load factoryModel p iters err = Some (p', None) ->
  err = None /\ Forall (fun it => it_err it = None) iters.
Proof.
  intros Hend. revert p err. induction iters as [|it iters IH]; intros p err; simpl; [by intros [= _ ->]|].
  destruct (Handle factoryModel p it) as [[p1 e1]|] eqn:Hh; [|done].
  intros Hl. apply IH in Hl as [He Hf]. destruct err; [done|]. subst e1. split; [done|].
  constructor; [|done]. unfold Handle, handle in Hh.
  destruct it as [[|e l] [er|] ended]; cbn [Iter_Next it_rest it_err it_ended] in *; try done.
  destruct (handle_go _ _ _ _ _) as [[p2 [e2|q2]]|] eqn:Hgo; try done.
  by apply handle_go_failing in Hgo.
Qed.

(** Handling a stream of events ends, with the reload it may ask for:
    every turn of the loops takes an event. *)
Theorem HandleWithReload_returns LoadFromVersion p iter :
  exists res, HandleWithReload factoryModel LoadFromVersion p iter = Some res.
Proof.
  unfold HandleWithReload. destruct (handle_total p iter) as [[p1 [er|[|q qs]]] ->]; [by eexists..|].
  destruct (Load_total p1 (ld_iters (LoadFromVersion (q :: qs))) (ld_err (LoadFromVersion (q :: qs))))
    as [[p2 [err|]] ->]; by eexists.
Qed.

(** *** The models of a projection *)
Lemma lookup_put_model p am g a :
  lookup_model (put_model p am) g a
  = if decide (g = am_groupID am /\ a = am_aggregateID am) then Some am else lookup_model p g a.
Proof.
  unfold lookup_model, put_model, Models in *. destruct (decide (g = am_groupID am)) as [->|Hg].
  - rewrite lookup_insert_eq. simpl. destruct (decide (a = am_aggregateID am)) as [->|Ha].
    + by rewrite lookup_insert_eq, decide_True.
    + rewrite lookup_insert_ne, decide_False by naive_solver. done.
  - rewrite lookup_insert_ne, decide_False by naive_solver. done.
Qed.

Lemma lookup_model_touch (p : Models State) g g' a' :
  lookup_model (<[g := default ∅ (p !! g)]> p) g' a' = lookup_model p g' a'.
Proof.
  unfold lookup_model, Models in *. destruct (decide (g' = g)) as [->|?].
  - by rewrite lookup_insert_eq.
  - by rewrite lookup_insert_ne.
Qed.

Lemma lookup_model_empty g a : lookup_model (∅ : Models State) g a = None.
Proof. unfold lookup_model, Models. rewrite lookup_empty. apply lookup_empty. Qed.

Lemma getModel_new p g a m :
  lookup_model p g a = None -> factoryModel g a = inr m ->
  exists p', getModel p g a = (p', inr (MkAggregateModel g a m 0 false)) /\
    forall g' a', (g', a') <> (g, a) -> lookup_model p' g' a' = lookup_model p g' a'.
Proof.
  intros Hl Hf. unfold Projection.getModel. set (p1 := <[g := _]> p).
  pose proof (lookup_model_touch p g) as Hp1. fold p1 in Hp1.
  rewrite Hp1, Hl, Hf. eexists. split; [reflexivity|]. intros g' a' Hne.
  rewrite lookup_put_model. cbn. rewrite decide_False by naive_solver. apply Hp1.
Qed.

Lemma getModel_old p g a am :
  lookup_model p g a = Some am -> exists p', getModel p g a = (p', inr am) /\
    forall g' a', lookup_model p' g' a' = lookup_model p g' a'.
Proof.
  intros Hl. unfold Projection.getModel. set (p1 := <[g := _]> p).
  pose proof (lookup_model_touch p g) as Hp1. fold p1 in Hp1.
  rewrite Hp1, Hl. eauto.
Qed.

(** *** What holds of all models

    [P g a m]: a property of the models of the aggregate [a] of the group [g];
    [G]: the groups whose events are handled. *)
Section invariant.
Context (P : string -> string -> State -> Prop) (G : string -> Prop).
Hypothesis P_factory : forall g a m, factoryModel g a = inr m -> P g a m.
Hypothesis P_begin : forall g a m, P g a m -> P g a (model_begin m).
Hypothesis P_step : forall g a m e, P g a m -> P g a (model_step m e).1.

Definition models_ok (p : Models State) : Prop := forall g a am, lookup_model p g a = Some am ->
  am_groupID am = g /\ am_aggregateID am = a /\ P g a (am_model am).
Definition grouped (p0 p : Models State) : Prop := forall g, is_Some (p !! g) -> is_Some (p0 !! g) \/ G g.

Lemma feed_P am own : P (am_groupID am) (am_aggregateID am) (am_model am) ->
  P (am_groupID am) (am_aggregateID am) (am_model (feed am own).1).
Proof.
  revert am. induction own as [|e own IH]; intros am Hp; simpl; [done|].
  destruct (Update am e) as [am1 [ign rel]] eqn:Hu. apply Update_ids in Hu as (Hg & Ha & Hm).
  rewrite <- Hg, <- Ha, <- Hm in *. destruct ign; [by apply IH|].
  pose proof (P_step _ _ _ e Hp) as Hp'. destruct (model_step _ _) as [m [err|]]; [done|].
  by apply (IH (set_model am1 m)).
Qed.

Lemma batch_P am e own : P (am_groupID am) (am_aggregateID am) (am_model am) ->
  let am' := (batch (begun am) e own).1.1 in
  am_groupID am' = am_groupID am /\ am_aggregateID am' = am_aggregateID am /\
  P (am_groupID am) (am_aggregateID am) (am_model am').
Proof.
  intros Hp. unfold batch. assert (Hb := P_begin _ _ _ Hp).
  destruct (Update (begun am) e).2.2; [destruct (from_snapshot own) as [|x l]; [done|]|];
    (match goal with |- context [feed ?x ?y] =>
       pose proof (feed_ids x y) as [Hg Ha]; pose proof (feed_P x y Hb) as Hf end);
    by split_and!.
Qed.

Lemma models_ok_put p am : models_ok p -> P (am_groupID am) (am_aggregateID am) (am_model am) -> models_ok (put_model p am).
Proof.
  intros Hk Hp g a am'. rewrite lookup_put_model. case_decide as Hd; [|apply Hk].
  destruct Hd as [-> ->]. by intros [= <-].
Qed.
Lemma grouped_put p0 p am : grouped p0 p -> G (am_groupID am) -> grouped p0 (put_model p am).
Proof.
  intros Hg HG g. unfold put_model. destruct (decide (g = am_groupID am)) as [->|Hne]; [by right|].
  unfold Models in *. rewrite lookup_insert_ne by done. apply Hg.
Qed.

Lemma getModel_P p0 p g a p1 res :
  models_ok p -> grouped p0 p -> G g -> getModel p g a = (p1, res) ->
  models_ok p1 /\ grouped p0 p1 /\
  match res with
  | inr am => am_groupID am = g /\ am_aggregateID am = a /\ P g a (am_model am)
  | inl _ => True
  end.
Proof.
  intros Hk Hgr HG. unfold Projection.getModel. set (p2 := <[g := _]> p).
  assert (Hk2 : models_ok p2). { intros g' a' am. unfold p2. rewrite lookup_model_touch. apply Hk. }
  assert (Hg2 : grouped p0 p2).
  { intros g'. unfold p2. destruct (decide (g' = g)) as [->|Hne]; [by right|].
    unfold Models in *. rewrite lookup_insert_ne by done. apply Hgr. }
  destruct (lookup_model p2 g a) as [am|] eqn:Hl; [intros [= <- <-]; split; [done|]; split; [done|]; by apply Hk2|].
  destruct (factoryModel g a) as [err|m] eqn:Hf; intros [= <- <-]; [done|].
  split_and!; [by apply models_ok_put; [|by apply P_factory]|by apply grouped_put|done|done|by apply P_factory].
Qed.

Lemma handle_go_P fuel p0 p l err ended ie qs p' res :
  (forall e, ie = Some e -> G (le_groupID e)) -> Forall (fun e => G (le_groupID e)) l ->
  models_ok p -> grouped p0 p ->
  handle_go fuel p (MkIter l err ended) ie qs = Some (p', res) -> models_ok p' /\ grouped p0 p'.
Proof.
  revert p l ended ie qs. induction fuel as [|fuel IH]; intros p l ended ie qs Hie Hl Hk Hgr.
  { destruct ie; [done|]. by intros [= <- _]. }
  destruct ie as [e|]; [|by intros [= <- _]]. rewrite handle_go_turn. specialize (Hie e eq_refl).
  destruct (getModel p _ _) as [p1 rm] eqn:Hget.
  destruct (getModel_P p0 _ _ _ _ _ Hk Hgr Hie Hget) as (Hk1 & Hgr1 & Hr).
  destruct rm as [er|am]; [by intros [= <- _]|]. destruct Hr as (Hg & Ha & Hp).
  pose proof (split_own_spec am l) as Hsp. destruct (split_own am l) as [own rest].
  destruct Hsp as (-> & _ & _). apply Forall_app in Hl as [_ Hl]. rewrite <- Hg, <- Ha in Hp.
  pose proof (batch_P am e own Hp) as (Hg' & Ha' & Hp').
  destruct (batch (begun am) e own) as [[am' er] q]; cbn [fst] in Hg', Ha', Hp'.
  assert (Hk2 : models_ok (put_model p1 am')) by (apply models_ok_put; [done|by rewrite Hg', Ha']).
  assert (Hgr2 : grouped p0 (put_model p1 am')) by (apply grouped_put; [done|by rewrite Hg', Hg]).
  destruct er as [er|]; [by intros [= <- _]|]. cbv zeta. destruct (model_end _ _); [by intros [= <- _]|].
  apply IH; [| |done|done]; destruct rest as [|x rest]; cbn [head tail]; [done| |done|].
  - intros x' [= <-]. by apply Forall_cons in Hl as [? _].
  - by apply Forall_cons in Hl as [_ ?].
Qed.

Lemma handle_P p0 p iter p' res :
  Forall (fun e => G (le_groupID e)) (it_rest iter) -> models_ok p -> grouped p0 p ->
  handle factoryModel p iter = Some (p', res) -> models_ok p' /\ grouped p0 p'.
Proof.
  intros Hg Hk Hgr. unfold handle. destruct iter as [[|e l] err ended]; cbn [Iter_Next it_rest it_err it_ended].
  - by intros [= <- _].
  - apply Forall_cons in Hg as [He Hl]. apply handle_go_P; [|done..]. by intros e' [= <-].
Qed.

Lemma Load_P p0 p iters err p' err' :
  Forall (fun it => Forall (fun e => G (le_groupID e)) (it_rest it)) iters -> models_ok p -> grouped p0 p ->
  Load factoryModel p iters err = Some (p', err') -> models_ok p' /\ grouped p0 p'.
Proof.
  intros Hi. revert p err. induction Hi as [|it iters Hit _ IH]; intros p err Hk Hgr; simpl; [by intros [= <- _]|].
  unfold Handle. destruct (handle factoryModel p it) as [[p1 r]|] eqn:Hh; [|done].
  destruct (handle_P p0 _ _ _ _ Hit Hk Hgr Hh) as [? ?]. destruct r; by apply IH.
Qed.
End invariant.

(** *** Loading logs *)
#[local] Abbreviation Log := (Event * list Event)%type.

(** The events of one aggregate, numbered without gaps, the first one being a
    snapshot or the version 0. *)
Definition log_key (L : Log) : string * string := (le_groupID L.1, le_aggregateID L.1).
Definition log_ok (L : Log) : Prop :=
  Forall (fun e => (le_groupID e, le_aggregateID e) = log_key L) L.2 /\
  numbered (le_version L.1) (L.1 :: L.2) /\
  (le_version L.1 = 0%Z \/ le_isSnapshot L.1 = true).

(** What replaying a log from a new model gives. *)
Definition model_of (L : Log) : option State :=
  match factoryModel (le_groupID L.1) (le_aggregateID L.1) with
  | inr m => match replay (model_begin m) (L.1 :: L.2) with
             | (m, None) => match model_end m None with None => Some m | Some _ => None end
             | _ => None
             end
  | inl _ => None
  end.

Definition log_stream (logs : list Log) : list Event := mjoin ((fun L => L.1 :: L.2) <$> logs).

Lemma same_aggregate_key am e :
  same_aggregate am e = true <-> (le_groupID e, le_aggregateID e) = (am_groupID am, am_aggregateID am).
Proof.
  unfold same_aggregate. rewrite andb_true_iff, !String.eqb_eq. split.
  - by intros [-> ->].
  - by intros [= -> ->].
Qed.

Lemma log_stream_others am logs :
  (am_groupID am, am_aggregateID am) ∉ (log_key <$> logs) -> others am (log_stream logs).
Proof.
  destruct logs as [|[e l] logs]; [done|]. rewrite fmap_cons, not_elem_of_cons. intros [Hne _].
  simpl. apply not_true_is_false. intros Hs. by apply same_aggregate_key in Hs.
Qed.

(** A log, handled by a new model. *)
Lemma batch_log g a m0 L m :
  log_ok L -> log_key L = (g, a) -> replay (model_begin m0) (L.1 :: L.2) = (m, None) ->
  batch (begun (MkAggregateModel g a m0 0 false)) L.1 L.2
  = (MkAggregateModel g a m (le_version L.1 + Z.of_nat (length L.2)) true, None, None).
Proof.
  destruct L as [e l]. intros (Hid & Hn & Hfirst) Hk Hr. simpl in *.
  set (am0 := begun _).
  assert (Hu : Update am0 e = (set_version am0 (le_version e) true, (false, false))).
  { unfold Update, am0. simpl. destruct Hfirst as [->| ->]; [done|]. by rewrite orb_true_r. }
  unfold batch. rewrite Hu. cbn [fst snd feed]. rewrite Hu.
  cbn [replay] in Hr. cbn [am_model set_version am0 begun set_model].
  destruct (model_step (model_begin m0) e) as [m1 [err|]] eqn:Hm1; [done|].
  destruct (Hn 0 e eq_refl) as [_ Hue].
  assert (Hre : reached (model_begin m0) (e :: l) (le_version e) 1
    (MkAggregateModel g a m1 (le_version e) true)).
  { split_and!; [lia|simpl; lia| | |done]; simpl; [by rewrite Hm1|lia]. }
  destruct (feed_reached (model_begin m0) (e :: l) (le_version e) m
    (MkAggregateModel g a m1 (le_version e) true) 1 1 l) as (am' & Hf & Hre' & Hg & Ha);
    [by cbn [replay]; rewrite Hm1|done|apply Hue|done|done|by simpl; rewrite drop_0, firstn_all| |].
  { apply Forall_lookup. intros i x Hx. destruct (Hn (S i) x Hx). unfold is_u64 in *. lia. }
  change (feed (set_model (set_version am0 (le_version e) true) m1) l) with
    (feed (MkAggregateModel g a m1 (le_version e) true) l). rewrite Hf. do 2 f_equal.
  destruct Hre' as (_ & Hrep & Hver & Hsn). rewrite Nat.max_r in Hrep, Hver by lia.
  rewrite firstn_all2 in Hrep by (simpl; lia). cbn [replay] in Hrep. rewrite Hm1, Hr in Hrep.
  destruct am' as [g' a' mm vv ss]. simpl in *. injection Hrep as <-. subst. f_equal. lia.
Qed.

(** The turn that handles a log of a new aggregate. *)
Lemma handle_go_log fuel p L r m qs ended :
  log_ok L -> model_of L = Some m -> lookup_model p (log_key L).1 (log_key L).2 = None ->
  (forall am, am_groupID am = (log_key L).1 -> am_aggregateID am = (log_key L).2 -> others am r) ->
  exists p1 am,
    handle_go (S fuel) p (MkIter (L.2 ++ r) None ended) (Some L.1) qs
    = handle_go fuel p1 (MkIter (tail r) None (ended_after r ended)) (head r) qs /\
    lookup_model p1 (log_key L).1 (log_key L).2 = Some am /\ am_model am = m /\
    am_version am = (le_version L.1 + Z.of_nat (length L.2))%Z /\ am_hasSnapshot am = true /\
    (forall g a, (g, a) <> log_key L -> lookup_model p1 g a = lookup_model p g a).
Proof.
  intros Hok Hm Hnew Hoth. unfold model_of in Hm.
  destruct (factoryModel _ _) as [|m0] eqn:Hfac; [done|].
  destruct (replay _ _) as [m' [|]] eqn:Hrep; [done|].
  destruct (model_end m' None) eqn:Hend; [done|]. injection Hm as ->.
  destruct (getModel_new p _ _ m0 Hnew Hfac) as (p1 & Hget & Hp1).
  exists (put_model p1 (MkAggregateModel (log_key L).1 (log_key L).2 m
    (le_version L.1 + Z.of_nat (length L.2)) true)). eexists. split_and!.
  - rewrite handle_go_turn. change (le_groupID L.1) with (log_key L).1.
    change (le_aggregateID L.1) with (log_key L).2. rewrite Hget.
    rewrite (split_own_app _ L.2) by
      (first [by apply Hoth|eapply Forall_impl; [apply Hok|]; intros x Hx; by apply same_aggregate_key]).
    rewrite (batch_log _ _ _ _ m) by done. cbv zeta. unfold Iter_Err. cbn [it_ended it_err am_model].
    destruct (ended_after r ended); by rewrite Hend.
  - by rewrite lookup_put_model, decide_True.
  - done.
  - done.
  - done.
  - intros g a Hne. rewrite lookup_put_model, decide_False, Hp1; [done| |].
    + by rewrite <- surjective_pairing.
    + cbn. intros [-> ->]. by apply Hne.
Qed.

Lemma handle_go_logs fuel p L logs qs :
  length (L.2 ++ log_stream logs) < fuel ->
  Forall log_ok (L :: logs) -> NoDup (log_key <$> L :: logs) ->
  Forall (fun L => is_Some (model_of L)) (L :: logs) ->
  Forall (fun L => lookup_model p (log_key L).1 (log_key L).2 = None) (L :: logs) ->
  exists p', handle_go fuel p (MkIter (L.2 ++ log_stream logs) None false) (Some L.1) qs
             = Some (p', inr qs) /\
    (forall L', L' ∈ L :: logs -> exists am, lookup_model p' (log_key L').1 (log_key L').2 = Some am /\
       Some (am_model am) = model_of L' /\
       am_version am = (le_version L'.1 + Z.of_nat (length L'.2))%Z /\ am_hasSnapshot am = true) /\
    (forall g a, (g, a) ∉ (log_key <$> L :: logs) -> lookup_model p' g a = lookup_model p g a).
Proof.
  revert fuel p L. induction logs as [|L2 logs IH]; intros fuel p L Hf Hok Hnd Hm Hnew;
    (destruct fuel as [|fuel]; [lia|]);
    apply Forall_cons in Hok as [HokL Hok]; apply Forall_cons in Hm as [[m HmL] Hm];
    apply Forall_cons in Hnew as [HnL Hnew]; apply NoDup_cons in Hnd as [Hni Hnd];
    (match goal with |- context [L.2 ++ ?r] =>
       destruct (handle_go_log fuel p L r m qs false) as
         (p1 & am & Hturn & Ham & Hmod & Hver & Hsn & Hp1) end;
     [done|done|done|intros am Hg Ha; apply log_stream_others; rewrite Hg, Ha;
      rewrite <- surjective_pairing; exact Hni|]); rewrite Hturn.
  - exists p1. split; [by destruct fuel|]. split.
    + intros L' ->%list_elem_of_singleton. exists am. by rewrite HmL, Hmod.
    + intros g a Hna. apply Hp1. set_solver.
  - destruct (IH fuel p1 L2) as (p' & Hh & Hl & Ho); [|done..| |].
    + change (log_stream (L2 :: logs)) with ((L2.1 :: L2.2) ++ log_stream logs) in Hf.
      rewrite !length_app in Hf. rewrite length_app. simpl in Hf. lia.
    + apply Forall_forall. intros L' HL'. rewrite Forall_forall in Hnew.
      rewrite Hp1; [by apply Hnew|]. rewrite <- surjective_pairing. intros Heq. apply Hni.
      rewrite <- Heq. change (log_key L' ∈ log_key <$> L2 :: logs). by apply list_elem_of_fmap_2.
    + exists p'. split; [exact Hh|]. split.
      * intros L' [->|HL']%elem_of_cons; [|by apply Hl]. exists am.
        rewrite Ho by (rewrite <- surjective_pairing; exact Hni). by rewrite HmL, Hmod.
      * intros g a Hna. rewrite fmap_cons, not_elem_of_cons in Hna.
        rewrite Ho by apply Hna. apply Hp1, Hna.
Qed.

(** *** Loads that fail *)
Lemma feed_err am v l m err :
  numbered (v + 1) l -> (0 <= v)%Z -> am_version am = v -> am_hasSnapshot am = true ->
  replay (am_model am) l = (m, Some err) -> (feed am l).2 = Some err.
Proof.
  intros Hn Hv. revert am v Hn Hv. induction l as [|e l IH]; intros am v Hn Hv Hver Hs Hr; [done|].
  apply numbered_cons in Hn as (He & Hu & Hn).
  assert (Hupd : Update am e = (set_version am (v + 1) true, (false, false))).
  { unfold Update. rewrite Hver, Hs, He. destruct (Z.eqb_spec (v + 1) 0); [lia|]. simpl.
    destruct (le_isSnapshot e && _); [done|]. rewrite u64_id by (by rewrite <- He).
    by rewrite Z.eqb_refl. }
  cbn [feed replay] in *. rewrite Hupd. cbn [am_model set_version].
  destruct (model_step (am_model am) e) as [m1 [err1|]]; [by injection Hr as _ ->|].
  by apply (IH _ (v + 1)%Z); [|lia|..].
Qed.

Lemma batch_log_err g a m0 L m err :
  log_ok L -> replay (model_begin m0) (L.1 :: L.2) = (m, Some err) ->
  (batch (begun (MkAggregateModel g a m0 0 false)) L.1 L.2).1.2 = Some err.
Proof.
  destruct L as [e l]. intros (_ & Hn & Hfirst) Hr. simpl in *. set (am0 := begun _).
  assert (Hu : Update am0 e = (set_version am0 (le_version e) true, (false, false))).
  { unfold Update, am0. simpl. destruct Hfirst as [->| ->]; [done|]. by rewrite orb_true_r. }
  apply numbered_cons in Hn as (_ & Hue & Hn). unfold batch. rewrite Hu. cbn [fst snd feed]. rewrite Hu.
  cbn [am_model set_version am0 begun set_model].
  destruct (model_step (model_begin m0) e) as [m1 [err1|]]; [by injection Hr as _ ->|].
  apply (feed_err _ (le_version e) _ m); [done|apply Hue|done..].
Qed.

Lemma handle_go_log_err fuel p L r qs ended :
  log_ok L -> model_of L = None -> lookup_model p (log_key L).1 (log_key L).2 = None ->
  (forall am, am_groupID am = (log_key L).1 -> am_aggregateID am = (log_key L).2 -> others am r) ->
  exists p1 err, handle_go (S fuel) p (MkIter (L.2 ++ r) None ended) (Some L.1) qs = Some (p1, inl err).
Proof.
  intros Hok Hm Hnew Hoth. rewrite handle_go_turn. unfold model_of in Hm.
  destruct (factoryModel (le_groupID L.1) (le_aggregateID L.1)) as [er|m0] eqn:Hfac.
  - unfold Projection.getModel. rewrite lookup_model_touch.
    change (le_groupID L.1) with (log_key L).1 in *. change (le_aggregateID L.1) with (log_key L).2 in *.
    rewrite Hnew, Hfac. by do 2 eexists.
  - destruct (getModel_new p _ _ m0 Hnew Hfac) as (p1 & Hget & _).
    change (le_groupID L.1) with (log_key L).1. change (le_aggregateID L.1) with (log_key L).2.
    rewrite Hget. rewrite (split_own_app _ L.2) by
      (first [by apply Hoth|eapply Forall_impl; [apply Hok|]; intros x Hx; by apply same_aggregate_key]).
    destruct (replay _ _) as [m [err|]] eqn:Hrep.
    + pose proof (batch_log_err (log_key L).1 (log_key L).2 m0 L m err Hok Hrep) as Hb.
      destruct (batch _ _ _) as [[am' er] q]. simpl in Hb. subst er. by do 2 eexists.
    + destruct (model_end m None) as [er|] eqn:Hend; [|done].
      rewrite (batch_log _ _ _ _ m) by done. cbv zeta. unfold Iter_Err. cbn [it_ended it_err am_model].
      destruct (ended_after r ended); rewrite Hend; by do 2 eexists.
Qed.

Lemma handle_go_logs_inv fuel p L logs qs p' qs' :
  length (L.2 ++ log_stream logs) < fuel ->
  Forall log_ok (L :: logs) -> NoDup (log_key <$> L :: logs) ->
  Forall (fun L => lookup_model p (log_key L).1 (log_key L).2 = None) (L :: logs) ->
  handle_go fuel p (MkIter (L.2 ++ log_stream logs) None false) (Some L.1) qs = Some (p', inr qs') ->
  Forall (fun L => is_Some (model_of L)) (L :: logs).
Proof.
  revert fuel p L. induction logs as [|L2 logs IH]; intros fuel p L Hf Hok Hnd Hnew Hh;
    (destruct fuel as [|fuel]; [lia|]);
    apply Forall_cons in Hok as [HokL Hok]; apply Forall_cons in Hnew as [HnL Hnew];
    apply NoDup_cons in Hnd as [Hni Hnd];
    (assert (Hoth : forall ls, log_key L ∉ (log_key <$> ls) ->
       forall am, am_groupID am = (log_key L).1 -> am_aggregateID am = (log_key L).2 ->
       others am (log_stream ls))
     by (intros ls Hls am Hg Ha; apply log_stream_others; rewrite Hg, Ha;
         by rewrite <- surjective_pairing));
    (destruct (model_of L) as [m|] eqn:HmL;
     [|match type of Hh with context [log_stream ?ls] =>
         destruct (handle_go_log_err fuel p L (log_stream ls) qs false HokL HmL HnL (Hoth ls Hni)) as
           (p1 & err & Heq) end; by rewrite Heq in Hh]);
    (match type of Hh with context [log_stream ?ls] =>
       destruct (handle_go_log fuel p L (log_stream ls) m qs false HokL HmL HnL (Hoth ls Hni)) as
         (p1 & am & Hturn & _ & _ & _ & _ & Hp1) end); rewrite Hturn in Hh.
  - by repeat constructor.
  - constructor; [by eexists|]. apply (IH fuel p1 L2); [|done|done| |done].
    + change (log_stream (L2 :: logs)) with ((L2.1 :: L2.2) ++ log_stream logs) in Hf.
      rewrite !length_app in Hf. rewrite length_app. simpl in Hf. lia.
    + apply Forall_forall. intros L' HL'. rewrite Forall_forall in Hnew.
      rewrite Hp1; [by apply Hnew|]. rewrite <- surjective_pairing. intros Heq. apply Hni.
      rewrite <- Heq. change (log_key L' ∈ log_key <$> L2 :: logs). by apply list_elem_of_fmap_2.
Qed.

(** C30: Loading the logs of several aggregates into a projection that does
    not hold them builds, for each one, the model that replays its whole log
    in order, at the version of its last event, asks for no reload and
    touches no other aggregate. *)
Theorem handle_loads_logs p logs :
  logs <> [] -> Forall log_ok logs -> NoDup (log_key <$> logs) ->
  Forall (fun L => is_Some (model_of L)) logs ->
  Forall (fun L => lookup_model p (log_key L).1 (log_key L).2 = None) logs ->
  exists p', handle factoryModel p (MkIter (log_stream logs) None false) = Some (p', inr []) /\
    (forall L, L ∈ logs -> exists am, lookup_model p' (log_key L).1 (log_key L).2 = Some am /\
       Some (am_model am) = model_of L /\
       am_version am = (le_version L.1 + Z.of_nat (length L.2))%Z /\ am_hasSnapshot am = true) /\
    (forall g a, (g, a) ∉ (log_key <$> logs) -> lookup_model p' g a = lookup_model p g a).
Proof.
  intros Hne ? ? ? ?. destruct logs as [|[e l] logs]; [done|].
  apply (handle_go_logs (S (length (l ++ log_stream logs))) p (e, l) logs []); [simpl; lia|done..].
Qed.

(** The same for a stream that is known to be handled. *)
Lemma handle_logs_inv p logs p' qs :
  Forall log_ok logs -> NoDup (log_key <$> logs) ->
  Forall (fun L => lookup_model p (log_key L).1 (log_key L).2 = None) logs ->
  handle factoryModel p (MkIter (log_stream logs) None false) = Some (p', inr qs) ->
  qs = [] /\
  (forall L, L ∈ logs -> exists am, lookup_model p' (log_key L).1 (log_key L).2 = Some am /\
     Some (am_model am) = model_of L /\
     am_version am = (le_version L.1 + Z.of_nat (length L.2))%Z) /\
  (forall g a, (g, a) ∉ (log_key <$> logs) -> lookup_model p' g a = lookup_model p g a).
Proof.
  intros Hok Hnd Hnew Hh. destruct logs as [|[e l] logs].
  { injection Hh as <- <-. split_and!; [done|set_solver|done]. }
  change (handle_go (S (length (l ++ log_stream logs))) p
    (MkIter ((e, l).2 ++ log_stream logs) None false) (Some (e, l).1) [] = Some (p', inr qs)) in Hh.
  pose proof (handle_go_logs_inv _ _ _ _ _ _ _ (Nat.lt_succ_diag_r _) Hok Hnd Hnew Hh) as Hm.
  destruct (handle_go_logs _ _ _ _ [] (Nat.lt_succ_diag_r _) Hok Hnd Hm Hnew) as (p2 & Hh2 & Hl & Ho).
  cbn [fst snd] in Hh, Hh2. rewrite Hh2 in Hh. injection Hh as <- <-. split_and!; [done| |done].
  intros L HL. destruct (Hl L HL) as (am & ? & ? & ? & _). by exists am.
Qed.

(** *** Events delivered again, and events missing *)
Lemma handle_own p e l am g a :
  lookup_model p g a = Some am -> am_groupID am = g -> am_aggregateID am = a ->
  Forall (fun e => (le_groupID e, le_aggregateID e) = (g, a)) (e :: l) ->
  exists p1, (forall g' a', lookup_model p1 g' a' = lookup_model p g' a') /\
    handle factoryModel p (MkIter (e :: l) None false)
    = match batch (begun am) e l with
      | (am', Some er, _) => Some (put_model p1 am', inl (Wrap "cannot handle projection" er))
      | (am', None, q) =>
          Some (put_model p1 am',
                match model_end (am_model am') None with
                | Some er => inl (Wrap "cannot handle projection" er)
                | None => inr (match q with Some q => [q] | None => [] end)
                end)
      end.
Proof.
  intros Hl Hg Ha Hown. destruct (getModel_old p g a am Hl) as (p1 & Hget & Hp1).
  exists p1. split; [done|]. apply Forall_cons in Hown as [Heid Hown].
  change (handle factoryModel p (MkIter (e :: l) None false)) with
    (handle_go (S (length l)) p (MkIter l None false) (Some e) []).
  rewrite handle_go_turn. injection Heid as -> ->. rewrite Hget.
  assert (Hsp : split_own am l = (l, [])).
  { rewrite <- (app_nil_r l) at 1. apply split_own_app; [|done].
    eapply Forall_impl; [exact Hown|]. intros x Hx. apply same_aggregate_key. by rewrite Hg, Ha. }
  rewrite Hsp. destruct (batch (begun am) e l) as [[am' [er|]] q]; [done|].
  cbv zeta. cbn [Iter_Err it_ended it_err ended_after tail head].
  unfold Iter_Err. cbn. destruct (model_end _ _); [done|]. destruct (length l); by destruct q.
Qed.

(** Events delivered again are dropped: when a model has replayed the
    first [k] events of its log, any part of the log that starts at or
    before the position [k] brings it to the end of that part, or leaves it
    where it is when it was further; nothing is applied twice or out of
    order.  (The event of version 0 is the exception.) *)
Theorem redelivery p am g a m0 log v mz k i e l :
  (forall m, model_begin m = m) ->
  lookup_model p g a = Some am -> am_groupID am = g -> am_aggregateID am = a ->
  replay m0 log = (mz, None) -> numbered v log -> (0 <= v)%Z -> reached m0 log v k am ->
  i <= k -> e :: l = take (S (length l)) (drop i log) ->
  (forall j m, replay m0 (take (S j) log) = (m, None) -> model_end m None = None) ->
  Forall (fun e => le_version e <> 0%Z /\ (le_groupID e, le_aggregateID e) = (g, a)) (e :: l) ->
  exists p' am', handle factoryModel p (MkIter (e :: l) None false) = Some (p', inr []) /\
    lookup_model p' g a = Some am' /\ reached m0 log v (k `max` (i + S (length l))) am' /\
    (forall g' a', (g', a') <> (g, a) -> lookup_model p' g' a' = lookup_model p g' a').
Proof.
  intros Hb Hl Hg Ha Hr Hn Hv Hk Hi Hsl Hend Hown.
  apply Forall_and in Hown as [Hne Hown].
  destruct (handle_own p e l am g a Hl Hg Ha Hown) as (p1 & Hp1 & ->).
  assert (Hbeg : begun am = am). { unfold begun. rewrite Hb. by destruct am. }
  rewrite Hbeg.
  destruct (feed_reached m0 log v mz am k i (e :: l)) as (am' & Hf & Hre & Hg' & Ha'); [done..|].
  assert (Hu : (Update am e).2.2 = false).
  { assert (He : log !! i = Some e).
    { assert (E : (e :: l) !! 0 = Some e) by done. rewrite Hsl in E.
      rewrite lookup_take_lt, lookup_drop, Nat.add_0_r in E by lia. done. }
    destruct (decide (i < k)) as [Hlt|Hge].
    - rewrite (Update_seen am e v k m0 log i); [done..|]. by apply Forall_cons in Hne as [? _].
    - assert (i = k) as -> by lia. by rewrite (Update_next am e v k m0 log). }
  assert (Hem : model_end (am_model am') None = None).
  { destruct Hre as ([Hpos _] & Hrep & _). destruct (k `max` _) as [|j]; [lia|]. by apply (Hend j). }
  unfold batch. rewrite Hu, Hf, Hem. exists (put_model p1 am'), am'. split_and!; [done| |exact Hre|].
  - rewrite lookup_put_model, decide_True; [done|]. by rewrite Hg', Ha'.
  - intros g' a' Hno. rewrite lookup_put_model, decide_False; [apply Hp1|].
    rewrite Hg', Ha', Hg, Ha. naive_solver.
Qed.

(** A missing event: when the first event of a batch is not the one
    that follows the version of the model, nor a snapshot, and no snapshot
    comes after it, nothing is applied, and the store is asked for the
    events from the version of the model on. *)
Theorem gap_reloads LoadFromVersion p am g a e l :
  lookup_model p g a = Some am -> am_groupID am = g -> am_aggregateID am = a ->
  Forall (fun e => (le_groupID e, le_aggregateID e) = (g, a) /\ le_isSnapshot e = false) (e :: l) ->
  is_u64 (am_version am) -> am_hasSnapshot am = true ->
  (am_version am + 1 < le_version e)%Z -> model_end (model_begin (am_model am)) None = None ->
  exists p', (forall g' a', lookup_model p' g' a'
               = if decide (g' = g /\ a' = a) then Some (begun am) else lookup_model p g' a') /\
    HandleWithReload factoryModel LoadFromVersion p (MkIter (e :: l) None false)
    = (let ld := LoadFromVersion [MkVersionQuery g a (am_version am)] in
       match Load factoryModel p' (ld_iters ld) (ld_err ld) with
       | Some (p, Some err) => Some (p, Some (Wrap "cannot reload events for db" err))
       | r => r
       end).
Proof.
  intros Hl Hg Ha Hown Hv Hs Hgap Hend. apply Forall_and in Hown as [Hown Hns].
  destruct (handle_own p e l am g a Hl Hg Ha Hown) as (p1 & Hp1 & Hh).
  assert (Hu : Update (begun am) e = (begun am, (false, true))).
  { apply Forall_cons in Hns as [Hse _]. unfold Update. rewrite Hse. cbn [am_version am_hasSnapshot
      begun set_model]. rewrite Hs. unfold is_u64, u64 in *.
    destruct (Z.eqb_spec (le_version e) 0); [lia|]. simpl.
    destruct (Z.eqb_spec ((am_version am + 1) mod 2 ^ 64) (le_version e)) as [Heq|_]; simpl.
    - pose proof (Z.mod_le (am_version am + 1) (2 ^ 64)). lia.
    - destruct (Z.leb_spec (le_version e) (am_version am)); [lia|done]. }
  assert (Hfs : from_snapshot l = []).
  { apply Forall_cons in Hns as [_ Hns]. clear -Hns. induction Hns as [|x l Hx _ IH]; [done|].
    simpl. by rewrite Hx. }
  unfold batch in Hh. rewrite Hu, Hfs in Hh. cbn [fst snd am_model begun set_model] in Hh. rewrite Hend in Hh.
  exists (put_model p1 (begun am)). split.
  - intros g' a'. rewrite lookup_put_model. cbn. rewrite Hg, Ha. by rewrite Hp1.
  - unfold HandleWithReload. rewrite Hh. apply Forall_cons in Hown as [Heid _].
    injection Heid as He1 He2. unfold reload_query. by rewrite He1, He2.
Qed.
End handle.
End facts.

(** ** Two limits of the version check

    A model that keeps the versions it was given. *)
Section limits.
#[local] Instance versions_model : Model (list Z) unit := {|
  model_begin m := m; model_step m e := (m ++ [le_version e], None); model_end _ err := err |}.

#[local] Definition ev (v : Z) (snapshot : bool) : LoadedEvent unit :=
  NewLoadedEvent v "type" "aggregate" "group" snapshot 0%Z tt.
#[local] Definition versions (l : list (LoadedEvent unit)) : option (option (list Z * Z)) :=
  (fun r : Models (list Z) * _ => am ← lookup_model r.1 "group" "aggregate"; Some (am_model am, am_version am))
    <$> handle (fun _ _ => inr []) ∅ (MkIter l None false).

(** An event that is missing in the middle of a batch is not noticed: the
    events after it are applied, while the version stays behind. *)
Example hole_in_a_batch_is_applied :
  versions [ev 0 false; ev 1 false; ev 5 false] = Some (Some ([0; 1; 5]%Z, 1%Z)).
Proof. vm_compute. reflexivity. Qed.

(** The event of version 0 is applied whenever it arrives, and takes the
    version back, so that the events after it are applied again. *)
Example first_event_is_applied_again :
  versions [ev 0 false; ev 1 false; ev 0 false; ev 1 false] = Some (Some ([0; 1; 0; 1]%Z, 1%Z)).
Proof. vm_compute. reflexivity. Qed.
End limits.
