(* ===== verification/Goroutines.v ===== *)
(** * Programs of goroutines

    A goroutine that works on shared state: each of its atomic actions takes the
    state and gives the new one with the rest of the program, or waits
    ([None]: a mutex is held).  [run] is a goroutine that has the state to
    itself, [pool_step] one action of one of several goroutines. *)

From S2P Require Import Prelude.
From stdpp Require Import relations.

(** What a call returns, when it does not panic. *)
Inductive outcome (A : Type) := Returns (a : A) | Panics.
Arguments Returns {A}.
Arguments Panics {A}.

Section programs.
Context {S : Type}.

#[warnings="-register-all"]
Inductive prog (R : Type) :=
  | Ret (r : R)
  | Act (f : S -> option (S * prog R)).
Arguments Ret {R}.
Arguments Act {R}.

Fixpoint bind {A B} (p : prog A) (k : A -> prog B) : prog B :=
  match p with
  | Ret a => k a
  | Act f => Act (fun s => match f s with Some (s, p) => Some (s, bind p k) | None => None end)
  end.

(** An action that always can be taken, and one that may have to wait. *)
Definition act {A} (f : S -> S * A) : prog A := Act (fun s => let '(s, a) := f s in Some (s, Ret a)).
Definition wait {A} (f : S -> option (S * A)) : prog A :=
  Act (fun s => match f s with Some (s, a) => Some (s, Ret a) | None => None end).

(** [None]: it waits for ever. *)
Fixpoint run {A} (p : prog A) (s : S) : option (S * A) :=
  match p with
  | Ret a => Some (s, a)
  | Act f => match f s with Some (s, p) => run p s | None => None end
  end.

Lemma run_seq {A B} (p : prog A) (k : A -> prog B) s :
  run (bind p k) s = match run p s with Some (s, a) => run (k a) s | None => None end.
Proof.
  revert p s. fix IH 1. intros p. destruct p as [a|f]; intros s; cbn [bind run]; [done|].
  destruct (f s) as [[s1 p1]|]; [|done]. apply IH.
Qed.

Lemma run_act {A} (f : S -> S * A) s : run (act f) s = Some (f s).
Proof. unfold act. cbn. by destruct (f s). Qed.
Lemma run_wait {A} (f : S -> option (S * A)) s : run (wait f) s = f s.
Proof. unfold wait. cbn. by destruct (f s) as [[??]|]. Qed.

(** ** Panics *)
Definition bindO {A B} (p : prog (outcome A)) (k : A -> prog (outcome B)) : prog (outcome B) :=
  bind p (fun r => match r with Returns a => k a | Panics => Ret Panics end).

Lemma run_bindO {A B} (p : prog (outcome A)) (k : A -> prog (outcome B)) s :
  run (bindO p k) s = match run p s with
                      | Some (s, Returns a) => run (k a) s
                      | Some (s, Panics) => Some (s, Panics)
                      | None => None
                      end.
Proof. unfold bindO. rewrite run_seq. by destruct (run p s) as [[s1 [a|]]|]. Qed.

(** ** A program among others

    [yields I p r]: the program may end with [r] when other goroutines change the
    state between its actions, in any way that leaves [I] true. *)
Section yields.
Context (I : S -> Prop).

Inductive yields {R} : prog R -> R -> Prop :=
  | yields_ret r : yields (Ret r) r
  | yields_act f s s' p r : I s -> f s = Some (s', p) -> yields p r -> yields (Act f) r.

Lemma yields_bind {A B} (p : prog A) (k : A -> prog B) r :
  yields (bind p k) r -> exists a, yields p a /\ yields (k a) r.
Proof.
  intros Hy. remember (bind p k) as q eqn:Hq. revert p Hq.
  induction Hy as [r|g s s' q r Hs Hg Hy IH]; intros [a|f] Hq; cbn in Hq.
  - exists a. split; [constructor|]. rewrite <- Hq. constructor.
  - done.
  - exists a. split; [constructor|]. rewrite <- Hq. by econstructor.
  - injection Hq as ->. destruct (f s) as [[s1 p1]|] eqn:Hf; [|done]. injection Hg as <- <-.
    destruct (IH p1 eq_refl) as (a & Ha & Hk). exists a. split; [by econstructor|done].
Qed.

Lemma yields_bindO {A B} (p : prog (outcome A)) (k : A -> prog (outcome B)) r :
  yields (bindO p k) r ->
  (exists a, yields p (Returns a) /\ yields (k a) r) \/ yields p Panics /\ r = Panics.
Proof.
  intros ([a|] & Hp & Hk)%yields_bind; [left; by eexists|right]. split; [done|]. by inversion Hk.
Qed.
Lemma yields_bindO_Returns {A B} (p : prog (outcome A)) (k : A -> prog (outcome B)) b :
  yields (bindO p k) (Returns b) -> exists a, yields p (Returns a) /\ yields (k a) (Returns b).
Proof. by intros [?|[_ ?]]%yields_bindO. Qed.

Lemma yields_Ret {A} (a r : A) : yields (Ret a) r -> r = a.
Proof. by inversion 1. Qed.
Lemma yields_action {A} (f : S -> S * A) a : yields (act f) a -> exists s, I s /\ (f s).2 = a.
Proof.
  inversion 1 as [|? s s' p ? Hs Hf Hy]; subst. destruct (f s) as [s1 a1] eqn:Hfs. injection Hf as <- <-.
  apply yields_Ret in Hy as ->. exists s. by rewrite Hfs.
Qed.

(** ** Postconditions

    [post p Q]: what [p] gives, whatever the others do, satisfies [Q]; [out pk Q] of a
    call: what it returns satisfies [Q], and [pk] if it panics. *)
Definition post {R} (p : prog R) (Q : R -> Prop) : Prop := forall r, yields p r -> Q r.
Definition out {A} (pk : Prop) (Q : A -> Prop) (o : outcome A) : Prop :=
  match o with Returns a => Q a | Panics => pk end.

Lemma post_Ret {A} (a : A) (Q : A -> Prop) : Q a -> post (Ret a) Q.
Proof. by intros Ha r ->%yields_Ret. Qed.
Lemma post_weaken {A} (p : prog A) (Q Q' : A -> Prop) : post p Q -> (forall a, Q a -> Q' a) -> post p Q'.
Proof. intros Hp HQ r Hr. apply HQ. by apply Hp. Qed.
Lemma post_bind {A B} (p : prog A) (k : A -> prog B) (Q : A -> Prop) (Q' : B -> Prop) :
  post p Q -> (forall a, Q a -> post (k a) Q') -> post (bind p k) Q'.
Proof. intros Hp Hk r (a & Ha & Hr)%yields_bind. eapply Hk; [|exact Hr]. by apply Hp. Qed.
Lemma post_bindO {A B} pk (p : prog (outcome A)) (k : A -> prog (outcome B)) (Q : A -> Prop) (Q' : B -> Prop) :
  post p (out pk Q) -> (forall a, Q a -> post (k a) (out pk Q')) -> post (bindO p k) (out pk Q').
Proof.
  intros Hp Hk. apply (post_bind _ _ (out pk Q)); [exact Hp|].
  intros [a|] Ha; [by apply Hk|by apply post_Ret].
Qed.
Lemma post_act {A} (f : S -> S * A) (Q : A -> Prop) : (forall s, I s -> Q (f s).2) -> post (act f) Q.
Proof. intros HQ r (s & Hs & <-)%yields_action. by apply HQ. Qed.
Lemma post_True {A} (p : prog (outcome A)) : post p (out True (fun _ => True)).
Proof. by intros [a|] _. Qed.

(** Alone is one way to be among others. *)
Lemma run_yields {A} (p : prog A) s s' r : (forall s, I s) -> run p s = Some (s', r) -> yields p r.
Proof.
  intros HI. revert p s. fix IH 1. intros p s. destruct p as [a|f]; cbn [run].
  - intros [= _ ->]. constructor.
  - destruct (f s) as [[s1 p1]|] eqn:Hf; [|done]. intros Hr. econstructor; [apply HI|exact Hf|]. by eapply IH.
Qed.
End yields.

(** The states that a program alone goes through. *)
Fixpoint visits {R} (p : prog R) (s : S) : list S :=
  match p with
  | Ret _ => []
  | Act f => s :: match f s with Some (s, p) => visits p s | None => [] end
  end.
Lemma visits_yields {R} (I : S -> Prop) (p : prog R) s s' r :
  Forall I (visits p s) -> run p s = Some (s', r) -> yields I p r.
Proof.
  revert p s. fix IH 1. intros p s. destruct p as [a|f]; cbn [run visits].
  - intros _ [= _ ->]. constructor.
  - intros [Hs Hv]%Forall_cons. destruct (f s) as [[s1 p1]|] eqn:Hf; [|done].
    intros Hr. econstructor; [exact Hs|exact Hf|]. by eapply IH.
Qed.

(** ** Several goroutines *)
Section pool.
Context {R : Type}.
#[local] Abbreviation pool := (S * list (prog R))%type.

Inductive pool_step : pool -> pool -> Prop :=
  | pool_action s ps1 f ps2 s' p' :
      f s = Some (s', p') -> pool_step (s, ps1 ++ Act f :: ps2) (s', ps1 ++ p' :: ps2).

(** The goroutines take turns as [sched] says. *)
Fixpoint exec (sched : list nat) (c : pool) : option pool :=
  match sched with
  | [] => Some c
  | i :: sched =>
      match c.2 !! i with
      | Some (Act f) => match f c.1 with
                        | Some (s, p) => exec sched (s, <[i := p]> c.2)
                        | None => None
                        end
      | _ => None
      end
  end.

Lemma exec_steps sched c c' : exec sched c = Some c' -> rtc pool_step c c'.
Proof.
  revert c. induction sched as [|i sched IH]; intros [s ps]; cbn [exec fst snd]; [by intros [= ->]|].
  destruct (ps !! i) as [[r|f]|] eqn:Hi; [done| |done]. destruct (f s) as [[s1 p1]|] eqn:Hf; [|done].
  intros He. apply IH in He. eapply rtc_l; [|exact He].
  rewrite <- (take_drop_middle ps i (Act f) Hi) at 1.
  rewrite (insert_take_drop ps i p1) by (by eapply lookup_lt_Some). by apply pool_action.
Qed.
End pool.
End programs.
Arguments prog S R : clear implicits.
Arguments Ret {S R}.
Arguments Act {S R}.

(** A program on a part of the state. *)
Fixpoint lift {S T R} (get : T -> S) (put : S -> T -> T) (p : prog S R) : prog T R :=
  match p with
  | Ret r => Ret r
  | Act f => Act (fun t => match f (get t) with
                           | Some (s, p) => Some (put s t, lift get put p)
                           | None => None
                           end)
  end.

Lemma run_lift {S T R} (get : T -> S) (put : S -> T -> T) (p : prog S R) :
  (forall s t, get (put s t) = s) -> (forall s s' t, put s (put s' t) = put s t) ->
  forall t s r, run p (get t) = Some (s, r) -> exists t', run (lift get put p) t = Some (t', r) /\
    get t' = s /\ (t' = t \/ t' = put s t).
Proof.
  intros Hget Hput. revert p. fix IH 1. intros p t s r. destruct p as [a|f]; cbn [run lift].
  - intros [= <- <-]. exists t. auto.
  - destruct (f (get t)) as [[s1 p1]|] eqn:Hf; [|done]. intros Hr.
    destruct (IH p1 (put s1 t) s r) as (t' & Ht' & Hg & Hp); [by rewrite Hget|].
    exists t'. split; [exact Ht'|]. split; [done|]. right. destruct Hp as [-> | ->].
    + rewrite Hget in Hg. by subst.
    + by rewrite Hput.
Qed.

Notation "'do!' x ':=' p 'in' k" := (bind p (fun x => k))
  (at level 10, x name, p at level 100, k at level 200) : go_scope.
Notation "'do!' ' pat ':=' p 'in' k" := (bind p (fun x => match x with pat => k end))
  (at level 10, pat pattern, p at level 100, k at level 200) : go_scope.
Notation "'do?' x ':=' p 'in' k" := (bindO p (fun x => k))
  (at level 10, x name, p at level 100, k at level 200) : go_scope.
Notation "'do?' ' pat ':=' p 'in' k" := (bindO p (fun x => match x with pat => k end))
  (at level 10, pat pattern, p at level 100, k at level 200) : go_scope.
