(* ===== verification/DeviceProjection.v ===== *)
(** * Projections that follow the event bus

    resource-aggregate/cqrs/projection: a projection of the events of the devices
    that somebody is registered for.  A device has a counter of its registrations;
    the first one subscribes to the subjects of the device (topicManager.go,
    projectionInternal.go) and loads its events, the last one to go drops them
    (projection.go).

    The operations run in many goroutines, so they are programs: a call of
    the map of counters, of the topic manager, of the event bus or of the
    projection is one action.  [Handle] of the events that the bus
    delivers is one action as well.  The counter is kit's RefCounter. *)

From Stdlib Require Import ZArith Lia String.
From S2P Require Import Prelude Commands Events EventStore Projection Goroutines.

(** github.com/plgd-dev/kit/v2/sync: a counter that starts at 1; the second
    component of [rc_release] tells that the function that frees the data ran. *)
Class RefCounter := {
  RC : Type;
  NewRefCounter : RC;
  Acquire : RC -> RC;
  Release : RC -> RC * bool }.

Class RefCounterLaws `{!RefCounter} := {
  count : RC -> nat;
  count_New : count NewRefCounter = 1;
  count_Acquire : forall c, count (Acquire c) = S (count c);
  count_Release : forall c n, count c = S n ->
    count (Release c).1 = n /\ (Release c).2 = bool_decide (n = 0) }.

(** ** topicManager.go

    [order] is the order in which Go ranges over the topics. *)
Section topics.
Context (getTopics : string -> string -> list string) (order : gmap string Z -> list string).

Definition Add_step (acc : gmap string Z * bool) (t : string) : gmap string Z * bool :=
  let '(topics, updateSubscriber) := acc in
  match topics !! t with
  | Some n => (<[t := i64 (n + 1)]> topics, updateSubscriber)
  | None => (<[t := 1%Z]> topics, true)
  end.
Definition Remove_step (acc : gmap string Z * bool) (t : string) : gmap string Z * bool :=
  let '(topics, updateSubscriber) := acc in
  match topics !! t with
  | Some n => let n := i64 (n - 1) in
              if (n <=? 0)%Z then (delete t topics, true) else (<[t := n]> topics, updateSubscriber)
  | None => acc
  end.

Definition topic_update (step : gmap string Z * bool -> string -> gmap string Z * bool)
    (topics : gmap string Z) (key : string) : gmap string Z * (list string * bool) :=
  let '(topics, updateSubscriber) := fold_left step (getTopics "*" key) (topics, false) in
  (topics, (if updateSubscriber then order topics else [], updateSubscriber)).
Definition Topics_Add := topic_update Add_step.
Definition Topics_Remove := topic_update Remove_step.
End topics.

Section projection.
Context {State D : Type} `{!Model State D, !RefCounter}.
Context (getTopics : string -> string -> list string) (order : gmap string Z -> list string).
Context (factoryModel : string -> string -> result State).

(** ** The state

    A device's counter with its data is an object that goroutines hold on to,
    also after the map has lost it; [p_refs] has the number of the object. *)
Record counted := MkCounted {
  cd_counter : RC; cd_deviceID : string; cd_released : bool; cd_locked : bool }.

Record PState := MkPState {
  p_refs : gmap string nat; p_objs : list counted; p_topics : gmap string Z;
  p_observer : option (list string); p_models : Models State }.

Definition set_refs (m : gmap string nat) (s : PState) : PState :=
  MkPState m (p_objs s) (p_topics s) (p_observer s) (p_models s).
Definition set_objs (l : list counted) (s : PState) : PState :=
  MkPState (p_refs s) l (p_topics s) (p_observer s) (p_models s).
Definition set_topics (t : gmap string Z) (s : PState) : PState :=
  MkPState (p_refs s) (p_objs s) t (p_observer s) (p_models s).
Definition set_observer (o : option (list string)) (s : PState) : PState :=
  MkPState (p_refs s) (p_objs s) (p_topics s) o (p_models s).
Definition set_models (m : Models State) (s : PState) : PState :=
  MkPState (p_refs s) (p_objs s) (p_topics s) (p_observer s) m.
Definition set_counter (c : RC) (o : counted) : counted :=
  MkCounted c (cd_deviceID o) (cd_released o) (cd_locked o).
Definition set_locked (b : bool) (o : counted) : counted :=
  MkCounted (cd_counter o) (cd_deviceID o) (cd_released o) b.

(** NewProjection *)
Definition NewProjection : PState := MkPState ∅ [] ∅ None ∅.

(** ** projectionInternal.go

    What the event bus answers: both calls succeed, Subscribe fails, or SetTopics
    fails and leaves the observer with the topics [kept]. *)
Inductive bus_answer := Bus_ok | Subscribe_fails (err : error)
  | SetTopics_fails (err : error) (kept : list string).

(** [subscriber]: whether the projection was given one. *)
Context (subscriber : bool).

Definition SubscribeTo (ans : bus_answer) (topics : list string) (s : PState) : PState * option error :=
  if negb subscriber then (s, None) else
  match p_observer s, ans with
  | None, Subscribe_fails err => (s, Some (Wrap "projection cannot subscribe to topics" err))
  | _, SetTopics_fails err kept =>
      (set_observer (Some kept) s, Some (Wrap "projection cannot set topics" err))
  | _, _ => (set_observer (Some topics) s, None)
  end.

(** Project and Forget; the loops of [Load] end ([Load_total]), so that the last
    case is never taken. *)
Definition project (answer : list SnapshotQuery -> Loaded D) (qs : list SnapshotQuery) (s : PState)
    : PState * option error :=
  match Project factoryModel answer (p_models s) qs with
  | Some (m, err) => (set_models m s, err)
  | None => (s, None)
  end.
Definition forget (qs : list SnapshotQuery) (s : PState) : PState :=
  set_models (Forget (p_models s) qs) s.
(** An event that the bus delivers. *)
Definition bus_handle (answer : list VersionQuery -> Loaded D) (iter : Iter D) (s : PState)
    : PState * option error :=
  match HandleWithReload factoryModel answer (p_models s) iter with
  | Some (m, err) => (set_models m s, err)
  | None => (s, None)
  end.

Definition device_query (deviceID : string) : SnapshotQuery := MkSnapshotQuery deviceID "" [].

(** ** projection.go: the map of counters *)
Definition upd_obj (oid : nat) (f : counted -> counted) (s : PState) : PState :=
  set_objs (alter f oid (p_objs s)) s.

(** LoadOrStoreWithFunc of Register: the object, and whether it was there. *)
Definition load_or_store (deviceID : string) (s : PState) : PState * (nat * bool) :=
  match p_refs s !! deviceID with
  | Some oid => (upd_obj oid (fun o => set_counter (Acquire (cd_counter o)) o) s, (oid, true))
  | None =>
      let oid := length (p_objs s) in
      (set_refs (<[deviceID := oid]> (p_refs s))
         (set_objs (p_objs s ++ [MkCounted NewRefCounter deviceID false false]) s), (oid, false))
  end.
(** LoadWithFunc of Unregister and ForceUpdate. *)
Definition load_acquire (deviceID : string) (s : PState) : PState * option nat :=
  match p_refs s !! deviceID with
  | Some oid => (upd_obj oid (fun o => set_counter (Acquire (cd_counter o)) o) s, Some oid)
  | None => (s, None)
  end.
(** The mutex of the device. *)
Definition lock (oid : nat) (s : PState) : option (PState * unit) :=
  match p_objs s !! oid with
  | Some o => if cd_locked o then None else Some (upd_obj oid (set_locked true) s, tt)
  | None => None
  end.
Definition unlock (oid : nat) (s : PState) : PState * unit := (upd_obj oid (set_locked false) s, tt).

Definition release_counted (o : counted) : counted :=
  let '(c, freed) := Release (cd_counter o) in
  MkCounted c (cd_deviceID o) (cd_released o || freed) (cd_locked o).

(** ReplaceWithFunc of release: it works on the object that the map has for the
    device; when the map has none, the assertion of its type panics. *)
Definition replace_release (deviceID : string) (s : PState) : PState * outcome unit :=
  match p_refs s !! deviceID with
  | None => (s, Panics)
  | Some oid =>
      let s := upd_obj oid release_counted s in
      match p_objs s !! oid with
      | Some o => (if cd_released o then set_refs (delete deviceID (p_refs s)) s else s, Returns tt)
      | None => (s, Returns tt)
      end
  end.
Definition is_released (oid : nat) (s : PState) : PState * bool :=
  (s, match p_objs s !! oid with Some o => cd_released o | None => false end).
Definition deviceID_of (oid : nat) (s : PState) : PState * string :=
  (s, match p_objs s !! oid with Some o => cd_deviceID o | None => ""%string end).

(** ** projection.go: the operations *)
#[local] Abbreviation program := (prog PState).

Definition add_topics (deviceID : string) (s : PState) : PState * (list string * bool) :=
  let '(t, r) := Topics_Add getTopics order (p_topics s) deviceID in (set_topics t s, r).
Definition remove_topics (deviceID : string) (s : PState) : PState * (list string * bool) :=
  let '(t, r) := Topics_Remove getTopics order (p_topics s) deviceID in (set_topics t s, r).

(** Forget never fails, and so neither does release. *)
Definition release (ans : bus_answer) (oid : nat) : program (outcome (option error)) :=
  do! deviceID := act (deviceID_of oid) in
  do! r := act (replace_release deviceID) in
  match r with
  | Panics => Ret Panics
  | Returns _ =>
      do! released := act (is_released oid) in
      if negb released then Ret (Returns None) else
      do! _ := act (fun s => (set_refs (delete deviceID (p_refs s)) s, tt)) in
      do! ' (topics, updateSubscriber) := act (remove_topics deviceID) in
      do! _ := (if updateSubscriber then act (SubscribeTo ans topics) else Ret None) in
      act (fun s => (forget [device_query deviceID] s, Returns None))
  end.

(** What the event bus and the store answer during an operation. *)
Record answers := MkAnswers {
  an_subscribe : bus_answer; an_release : bus_answer; an_load : list SnapshotQuery -> Loaded D }.

Definition releaseAndReturnError (ans : answers) (oid : nat) (err : error)
    : program (outcome (result bool)) :=
  do! r := release (an_release ans) oid in
  match r with
  | Panics => Ret Panics
  | Returns _ => do! _ := act (unlock oid) in Ret (Returns (inl (Wrap "cannot register device %v" err)))
  end.

Definition Register (ans : answers) (deviceID : string) : program (outcome (result bool)) :=
  do! ' (oid, loaded) := act (load_or_store deviceID) in
  do! _ := wait (lock oid) in
  if loaded : bool then do! _ := act (unlock oid) in Ret (Returns (inr false)) else
  do! ' (topics, updateSubscriber) := act (add_topics deviceID) in
  do! err := (if updateSubscriber then act (SubscribeTo (an_subscribe ans) topics) else Ret None) in
  match err with
  | Some err => releaseAndReturnError ans oid err
  | None =>
      do! err := act (project (an_load ans) [device_query deviceID]) in
      match err with
      | Some err => releaseAndReturnError ans oid err
      | None => do! _ := act (unlock oid) in Ret (Returns (inr true))
      end
  end.

(** The two calls of release in Unregister; the counter cannot be freed by the first
    one as the caller has just acquired it. *)
Definition Unregister (ans : answers) (deviceID : string) : program (outcome (option error)) :=
  do! oid := act (load_acquire deviceID) in
  match oid with
  | None => Ret (Returns (Some (errors_New "cannot unregister projection for %v: not found")))
  | Some oid =>
      do! _ := wait (lock oid) in
      do! r := release (an_release ans) oid in
      match r with
      | Panics => Ret Panics
      | Returns _ =>
          do! r := release (an_release ans) oid in
          match r with
          | Panics => Ret Panics
          | Returns _ => do! _ := act (unlock oid) in Ret (Returns None)
          end
      end
  end.

(** The mutex is unlocked before the counter is released. *)
Definition ForceUpdate `{!UUIDLib} (ans : answers) (resourceID : option ResourceId)
    : program (outcome (option error)) :=
  do! oid := act (load_acquire (resourceID ~> rid_DeviceId)) in
  match oid with
  | None => Ret (Returns (Some (errors_New "cannot force update projection for %v: not found")))
  | Some oid =>
      do! _ := wait (lock oid) in
      do! err := act (project (an_load ans)
        [MkSnapshotQuery (resourceID ~> rid_DeviceId) (ResourceId_ToUUID resourceID) []]) in
      do! _ := act (unlock oid) in
      do! r := release (an_release ans) oid in
      match r with
      | Panics => Ret Panics
      | Returns _ =>
          Ret (Returns (match err with
                        | Some err => Some (Wrap "cannot force update projection for %v" err)
                        | None => None
                        end))
      end
  end.
End projection.
Arguments PState State {_}.
Arguments answers D : clear implicits.
Arguments MkAnswers {D}.
