(* ===== verification/DeviceProjectionFacts.v ===== *)
(** * Properties of the projections that follow the event bus

    One operation after another, a projection is a multiset of registrations:
    what it subscribes to and the models it has are those of the devices that
    are registered.  Operations beside each other are another matter. *)

From Stdlib Require Import ZArith Lia String.
From S2P Require Import Prelude Commands Events EventStore Projection ProjectionFacts Goroutines DeviceProjection.
From stdpp Require Import relations.

Section topics.
Implicit Types (m : gmap string Z) (ts : list string).

Lemma Add_fresh ts m b :
  NoDup ts -> Forall (fun t => m !! t = None) ts ->
  let r := fold_left Add_step ts (m, b) in
  r.2 = b || negb (bool_decide (ts = [])) /\ forall t, r.1 !! t = if decide (t ∈ ts) then Some 1%Z else m !! t.
Proof.
  revert m b. induction ts as [|t ts IH]; intros m b Hnd Hf; cbn [fold_left].
  { split; [by rewrite orb_false_r|]. intros t. by rewrite decide_False by set_solver. }
  apply NoDup_cons in Hnd as [Hni Hnd]. apply Forall_cons in Hf as [Ht Hf]. cbn [Add_step]. rewrite Ht.
  destruct (IH (<[t:=1%Z]> m) true Hnd) as [Hb Hl].
  { rewrite Forall_forall in *. intros x Hx. rewrite lookup_insert_ne by naive_solver. by apply Hf. }
  split; [rewrite Hb; by destruct b|]. intros x. rewrite Hl.
  destruct (decide (x = t)) as [->|Hne].
  - by rewrite decide_False, lookup_insert_eq, decide_True by set_solver.
  - rewrite lookup_insert_ne by done. repeat case_decide; set_solver.
Qed.

Lemma Remove_own ts m b :
  NoDup ts -> Forall (fun t => m !! t = Some 1%Z) ts ->
  let r := fold_left Remove_step ts (m, b) in
  r.2 = b || negb (bool_decide (ts = [])) /\ forall t, r.1 !! t = if decide (t ∈ ts) then None else m !! t.
Proof.
  revert m b. induction ts as [|t ts IH]; intros m b Hnd Hf; cbn [fold_left].
  { split; [by rewrite orb_false_r|]. intros t. by rewrite decide_False by set_solver. }
  apply NoDup_cons in Hnd as [Hni Hnd]. apply Forall_cons in Hf as [Ht Hf]. cbn [Remove_step]. rewrite Ht.
  change (i64 (1 - 1) <=? 0)%Z with true. cbv iota zeta.
  destruct (IH (delete t m) true Hnd) as [Hb Hl].
  { rewrite Forall_forall in *. intros x Hx. rewrite lookup_delete_ne by naive_solver. by apply Hf. }
  split; [rewrite Hb; by destruct b|]. intros x. rewrite Hl.
  destruct (decide (x = t)) as [->|Hne].
  - by rewrite decide_False, lookup_delete_eq, decide_True by set_solver.
  - rewrite lookup_delete_ne by done. repeat case_decide; set_solver.
Qed.
End topics.

Section facts.
Context {State D : Type} `{!Model State D, !RefCounter, !RefCounterLaws}.
Context (getTopics : string -> string -> list string) (order : gmap string Z -> list string).
Context (factoryModel : string -> string -> result State) (subscriber : bool).

(** The order of a range over a map, and the subjects of devices. *)
Hypothesis order_keys : forall m t, t ∈ order m <-> is_Some (m !! t).
Hypothesis topics_NoDup : forall d, NoDup (getTopics "*" d).
Hypothesis topics_some : forall d, getTopics "*" d <> [].
Hypothesis topics_apart : forall d d' t, t ∈ getTopics "*" d -> t ∈ getTopics "*" d' -> d = d'.


(** A property of the models of the factory that their handlers keep. *)
Context (P : string -> string -> State -> Prop).
Hypothesis P_factory : forall g a m, factoryModel g a = inr m -> P g a m.
Hypothesis P_begin : forall g a m, P g a m -> P g a (model_begin m).
Hypothesis P_step : forall g a m e, P g a m -> P g a (model_step m e).1.

#[local] Abbreviation PState := (PState State).
#[local] Abbreviation release := (release getTopics order subscriber (State := State)).
#[local] Abbreviation Register := (Register getTopics order factoryModel subscriber).
#[local] Abbreviation Unregister := (Unregister (D := D) getTopics order subscriber (State := State)).
#[local] Abbreviation releaseAndReturnError :=
  (releaseAndReturnError (D := D) getTopics order subscriber (State := State)).
Implicit Types (s : PState) (n : gmap string nat) (d : string).

(** ** Objects and counters

    [lk] is the device whose mutex the running operation holds. *)
Definition obj_ok (k : nat) d (locked : bool) (o : counted) : Prop :=
  count (cd_counter o) = k /\ cd_deviceID o = d /\ cd_released o = false /\ cd_locked o = locked.
Definition refs_ok s n (lk : option string) : Prop := forall d,
  match n !! d with
  | Some k => 0 < k /\ exists oid o, p_refs s !! d = Some oid /\ p_objs s !! oid = Some o /\
      obj_ok k d (bool_decide (lk = Some d)) o
  | None => p_refs s !! d = None
  end.

(** The topics, the observer and the models are those of the registered devices. *)
Definition topics_ok s n : Prop := forall t,
  match p_topics s !! t with
  | Some c => c = 1%Z /\ exists d, is_Some (n !! d) /\ t ∈ getTopics "*" d
  | None => forall d, is_Some (n !! d) -> t ∉ getTopics "*" d
  end.
Definition observer_ok s : Prop := subscriber = true ->
  match p_observer s with
  | Some T => forall t, t ∈ T <-> is_Some (p_topics s !! t)
  | None => p_topics s = ∅
  end.
Definition groups_ok s n : Prop :=
  models_ok P (p_models s) /\ forall g, is_Some (p_models s !! g) -> is_Some (n !! g).

Record idle s n : Prop := {
  idle_refs : refs_ok s n None; idle_topics : topics_ok s n; idle_observer : observer_ok s;
  idle_groups : groups_ok s n }.

Lemma refs_upd s n lk d oid k f k' lk' :
  refs_ok s n lk -> p_refs s !! d = Some oid -> n !! d = Some k -> 0 < k' ->
  (forall o, obj_ok k d (bool_decide (lk = Some d)) o -> obj_ok k' d (bool_decide (lk' = Some d)) (f o)) ->
  (forall d', d' <> d -> bool_decide (lk = Some d') = bool_decide (lk' = Some d')) ->
  refs_ok (upd_obj oid f s) (<[d := k']> n) lk'.
Proof.
  intros Hok Hr Hn Hpos Hf Hlk d'. destruct (decide (d' = d)) as [->|Hne].
  - rewrite lookup_insert_eq. split; [done|]. specialize (Hok d). rewrite Hn in Hok.
    destruct Hok as (_ & oid' & o & Hr' & Ho & Hob). rewrite Hr in Hr'. injection Hr' as <-.
    exists oid, (f o). cbn. rewrite list_lookup_alter_eq, Ho. split; [done|]. split; [done|]. by apply Hf.
  - rewrite lookup_insert_ne by done. pose proof (Hok d') as Hok'. destruct (n !! d') as [j|]; [|done].
    destruct Hok' as (Hj & oid' & o & Hr' & Ho & Hob). split; [done|]. exists oid', o. cbn.
    rewrite list_lookup_alter_ne; [rewrite <- Hlk by done; done|].
    intros <-. specialize (Hok d). rewrite Hn in Hok. destruct Hok as (_ & x & o2 & Hr2 & Ho2 & Hob2).
    rewrite Hr in Hr2. injection Hr2 as <-. rewrite Ho in Ho2. injection Ho2 as <-.
    destruct Hob as (_ & Hd & _), Hob2 as (_ & Hd2 & _). congruence.
Qed.

(** An object that the map has lost. *)
Lemma refs_dead s n lk oid d f lk' :
  refs_ok s n lk -> p_refs s !! d = None -> cd_deviceID <$> p_objs s !! oid = Some d ->
  (forall d', d' <> d -> bool_decide (lk = Some d') = bool_decide (lk' = Some d')) ->
  refs_ok (upd_obj oid f s) n lk'.
Proof.
  intros Hok Hr Hd Hlk d'. pose proof (Hok d') as Hok'. destruct (n !! d') as [j|] eqn:Hn; [|done].
  destruct Hok' as (Hj & oid' & o & Hr' & Ho & Hob). split; [done|]. exists oid', o. cbn.
  rewrite list_lookup_alter_ne.
  - rewrite <- Hlk; [done|]. intros ->. by rewrite Hr in Hr'.
  - intros <-. rewrite Ho in Hd. injection Hd as Hd. destruct Hob as (_ & Hd2 & _). congruence.
Qed.

Lemma refs_ref s n lk d k : refs_ok s n lk -> n !! d = Some k ->
  exists oid o, p_refs s !! d = Some oid /\ p_objs s !! oid = Some o /\ obj_ok k d (bool_decide (lk = Some d)) o.
Proof. intros Hok Hn. specialize (Hok d). rewrite Hn in Hok. apply Hok. Qed.

Lemma refs_acquire s n lk d k oid : refs_ok s n lk -> n !! d = Some k -> p_refs s !! d = Some oid ->
  refs_ok (upd_obj oid (fun o => set_counter (Acquire (cd_counter o)) o) s) (<[d := S k]> n) lk.
Proof.
  intros Hok Hn Hr. apply (refs_upd _ _ lk _ _ k); [done..|lia| |done].
  intros o (Hc & ? & ? & ?). split; [|done]. cbn. by rewrite count_Acquire, Hc.
Qed.

Lemma lock_ok s n d k oid : refs_ok s n None -> n !! d = Some k -> p_refs s !! d = Some oid ->
  lock oid s = Some (upd_obj oid (set_locked true) s, tt) /\
  refs_ok (upd_obj oid (set_locked true) s) n (Some d).
Proof.
  intros Hok Hn Hr. destruct (refs_ref _ _ _ _ _ Hok Hn) as (oid' & o & Hr' & Ho & Hob).
  rewrite Hr in Hr'. injection Hr' as <-. unfold lock. rewrite Ho.
  assert (Hl : cd_locked o = false). { destruct Hob as (_ & _ & _ & ->). done. } rewrite Hl.
  split; [done|]. rewrite <- (insert_id n d k) by done. specialize (Hok d) as Hd. rewrite Hn in Hd.
  apply (refs_upd _ _ None _ _ k); [done..|apply Hd| |].
  - intros o' (? & ? & ? & _). by rewrite bool_decide_true.
  - intros d' Hne. by rewrite !bool_decide_false by naive_solver.
Qed.

Lemma unlock_ok s n d k oid : refs_ok s n (Some d) -> n !! d = Some k -> p_refs s !! d = Some oid ->
  refs_ok (upd_obj oid (set_locked false) s) n None.
Proof.
  intros Hok Hn Hr. rewrite <- (insert_id n d k) by done. specialize (Hok d) as Hd. rewrite Hn in Hd.
  apply (refs_upd _ _ (Some d) _ _ k); [done..|apply Hd| |].
  - by intros o' (? & ? & ? & _).
  - intros d' Hne. by rewrite !bool_decide_false by naive_solver.
Qed.

(** ** Release *)
Lemma release_counted_ok o k d b : obj_ok (S k) d b o -> 0 < k -> obj_ok k d b (release_counted o).
Proof.
  intros (Hc & Hd & Hr & Hl) Hk. unfold release_counted, obj_ok. apply count_Release in Hc as [Hc Hf].
  destruct (Release (cd_counter o)) as [c freed]. cbn in *.
  rewrite Hr, Hf, bool_decide_false by lia. done.
Qed.

Lemma release_keeps ans s n lk d k oid :
  refs_ok s n lk -> n !! d = Some (S (S k)) -> p_refs s !! d = Some oid ->
  run (release ans oid) s = Some (upd_obj oid release_counted s, Returns None) /\
  refs_ok (upd_obj oid release_counted s) (<[d := S k]> n) lk.
Proof.
  intros Hok Hn Hr. destruct (refs_ref _ _ _ _ _ Hok Hn) as (oid' & o & Hr' & Ho & Hob).
  rewrite Hr in Hr'. injection Hr' as <-.
  pose proof (release_counted_ok o (S k) d _ Hob ltac:(lia)) as Hob'. destruct Hob' as (_ & _ & Hfalse & _).
  assert (Ho1 : p_objs (upd_obj oid release_counted s) !! oid = Some (release_counted o)).
  { cbn. by rewrite list_lookup_alter_eq, Ho. }
  split.
  - unfold DeviceProjection.release. rewrite !run_seq, run_act. unfold deviceID_of. rewrite Ho.
    destruct Hob as (_ & -> & _). rewrite run_seq, run_act. unfold replace_release. rewrite Hr.
    cbv zeta. rewrite Ho1, Hfalse. rewrite run_seq, run_act. unfold is_released. rewrite Ho1, Hfalse. done.
  - apply (refs_upd _ _ lk _ _ (S (S k))); [done..|lia| |done].
    intros o' Hob2. by apply release_counted_ok; [|lia].
Qed.

(** The models that are left by Forget. *)
Lemma forget_device s d g : p_models (forget [device_query d] s) !! g = if decide (g = d) then None else p_models s !! g.
Proof.
  unfold forget, Forget. cbn. unfold Models in *. case_decide as Hd; [subst; apply lookup_delete_eq|].
  by rewrite lookup_delete_ne.
Qed.

Lemma forget_groups s0 s n d :
  p_models s = p_models s0 -> groups_ok s0 n -> groups_ok (forget [device_query d] s) (delete d n).
Proof.
  intros Hm [Hk Hg]. split.
  - intros g a am Hl. unfold lookup_model in Hl. rewrite forget_device in Hl.
    case_decide; [cbn in Hl; by rewrite lookup_empty in Hl|]. rewrite Hm in Hl. by apply Hk.
  - intros g. rewrite forget_device. case_decide as Hgd; [by intros [??]|].
    rewrite Hm, lookup_delete_ne by done. apply Hg.
Qed.

Lemma remove_topics_ok s n d k : topics_ok s n -> n !! d = Some k ->
  let s' := (remove_topics getTopics order d s).1 in
  (remove_topics getTopics order d s).2 = (order (p_topics s'), true) /\ topics_ok s' (delete d n) /\
  p_refs s' = p_refs s /\ p_objs s' = p_objs s /\ p_observer s' = p_observer s /\ p_models s' = p_models s.
Proof.
  intros Ht Hn. unfold remove_topics, Topics_Remove, topic_update.
  destruct (Remove_own (getTopics "*" d) (p_topics s) false (topics_NoDup d)) as [Hb Hl].
  { apply Forall_forall. intros t Hin. specialize (Ht t). destruct (p_topics s !! t); [by destruct Ht as [-> _]|].
    exfalso. by apply (Ht d); [rewrite Hn|]. }
  destruct (fold_left _ _ _) as [m b]. cbn in *. rewrite bool_decide_false in Hb by apply topics_some.
  subst b. split_and!; [done| |done..]. intros t. cbn. rewrite Hl. case_decide as Hin.
  - intros d' [k' Hd'] Hin'. rewrite (topics_apart d' d t) in Hd' by done. by rewrite lookup_delete_eq in Hd'.
  - specialize (Ht t). destruct (p_topics s !! t) as [c|].
    + destruct Ht as [-> (d' & Hd' & Hin')]. split; [done|]. exists d'. split; [|done].
      rewrite lookup_delete_ne by naive_solver. done.
    + intros d' Hd'. apply Ht. destruct Hd' as [j Hd']. exists j. by apply lookup_delete_Some in Hd' as [_ ?].
Qed.

Lemma refs_free s n lk d oid : refs_ok s n lk -> n !! d = Some 1 -> p_refs s !! d = Some oid ->
  let s' := set_refs (delete d (p_refs s)) (upd_obj oid release_counted s) in
  refs_ok s' (delete d n) lk /\ p_refs s' !! d = None /\ cd_deviceID <$> p_objs s' !! oid = Some d /\
  exists o, p_objs s !! oid = Some o /\ cd_deviceID o = d /\ cd_released (release_counted o) = true.
Proof.
  intros Hok Hn Hr s'. destruct (refs_ref _ _ _ _ _ Hok Hn) as (oid' & o & Hr' & Ho & Hc & Hd & Hrel & Hlk).
  rewrite Hr in Hr'. injection Hr' as <-. apply count_Release in Hc as [_ Hf].
  assert (Hgone : p_refs s' !! d = None) by apply lookup_delete_eq.
  assert (Hdev : cd_deviceID <$> p_objs s' !! oid = Some d).
  { cbn. rewrite list_lookup_alter_eq, Ho. cbn. unfold release_counted. destruct (Release _). by rewrite <- Hd. }
  split_and!; [|done|done|].
  - intros d'. destruct (decide (d' = d)) as [->|Hne]; [by rewrite lookup_delete_eq|].
    rewrite lookup_delete_ne by done. specialize (Hok d') as Hok'. destruct (n !! d') as [j|].
    + destruct Hok' as (Hj & oid' & o' & Hr' & Ho' & Hob). split; [done|]. exists oid', o'. cbn.
      rewrite lookup_delete_ne by done. rewrite list_lookup_alter_ne; [done|]. intros <-.
      rewrite Ho in Ho'. injection Ho' as <-. destruct Hob as (_ & Hd' & _). congruence.
    + cbn. rewrite lookup_delete_ne by done. apply Hok'.
  - exists o. split_and!; [done|done|]. unfold release_counted. destruct (Release _) as [c b]. cbn in *.
    rewrite Hrel, Hf. done.
Qed.

Lemma release_frees s n lk d oid :
  refs_ok s n lk -> n !! d = Some 1 -> p_refs s !! d = Some oid -> topics_ok s n -> groups_ok s n ->
  exists s', run (release Bus_ok oid) s = Some (s', Returns None) /\
    refs_ok s' (delete d n) lk /\ topics_ok s' (delete d n) /\ observer_ok s' /\ groups_ok s' (delete d n) /\
    p_refs s' !! d = None /\ cd_deviceID <$> p_objs s' !! oid = Some d.
Proof.
  intros Hok Hn Hr Ht Hg. destruct (refs_free _ _ _ _ _ Hok Hn Hr) as (Hok1 & Hnone & Hdev & o & Ho & Hd & Hrel).
  set (s1 := upd_obj oid release_counted s) in *. set (s2 := set_refs (delete d (p_refs s)) s1) in *.
  destruct (remove_topics_ok s2 n d 1 Ht Hn) as (Hres & Ht' & Hrefs & Hobjs & Hobs & Hmods).
  destruct (remove_topics getTopics order d s2) as [s3 upd] eqn:Hrem. cbn [fst snd] in *. subst upd.
  set (s4 := (SubscribeTo subscriber Bus_ok (order (p_topics s3)) s3).1).
  assert (Hs4 : p_refs s4 = p_refs s3 /\ p_objs s4 = p_objs s3 /\ p_topics s4 = p_topics s3 /\ p_models s4 = p_models s3).
  { unfold s4, SubscribeTo. destruct subscriber; cbn; [destruct (p_observer s3)|]; done. }
  destruct Hs4 as (Hrefs4 & Hobjs4 & Htop4 & Hmods4).
  exists (forget [device_query d] s4). split.
  - unfold DeviceProjection.release. rewrite run_seq, run_act. unfold deviceID_of. rewrite Ho, Hd.
    rewrite run_seq, run_act. unfold replace_release. rewrite Hr. cbv zeta. fold s1.
    assert (Ho1 : p_objs s1 !! oid = Some (release_counted o)).
    { unfold s1. cbn. by rewrite list_lookup_alter_eq, Ho. }
    rewrite Ho1, Hrel. change (set_refs (delete d (p_refs s1)) s1) with s2.
    rewrite run_seq, run_act. unfold is_released. change (p_objs s2) with (p_objs s1). rewrite Ho1, Hrel.
    cbn [negb]. rewrite run_seq, run_act.
    assert (Hs2 : set_refs (delete d (p_refs s2)) s2 = s2).
    { unfold s2 at 1 3, set_refs. cbn. f_equal. apply delete_id, lookup_delete_eq. }
    rewrite Hs2, run_seq, run_act, Hrem, run_seq, run_act.
    rewrite (surjective_pairing (SubscribeTo _ _ _ s3)), run_act. done.
  - split_and!.
    + intros d'. specialize (Hok1 d'). cbn. by rewrite Hrefs4, Hobjs4, Hrefs, Hobjs.
    + intros t. specialize (Ht' t). cbn. by rewrite Htop4.
    + intros Hsub. unfold forget. cbn. rewrite Htop4. unfold s4, SubscribeTo. rewrite Hsub. cbn.
      destruct (p_observer s3); cbn; apply order_keys.
    + apply (forget_groups s); [by rewrite Hmods4, Hmods|done].
    + cbn. by rewrite Hrefs4, Hrefs.
    + cbn. by rewrite Hobjs4, Hobjs.
Qed.

(** ** Registering *)
Lemma topics_ok_dom s n n' :
  (forall d, is_Some (n !! d) <-> is_Some (n' !! d)) -> topics_ok s n -> topics_ok s n'.
Proof.
  intros Hdom Ht t. specialize (Ht t). destruct (p_topics s !! t).
  - destruct Ht as [-> (d & Hd & Hin)]. split; [done|]. exists d. by rewrite <- Hdom.
  - intros d Hd. apply Ht. by apply Hdom.
Qed.
Lemma groups_ok_dom s n n' :
  (forall d, is_Some (n !! d) <-> is_Some (n' !! d)) -> groups_ok s n -> groups_ok s n'.
Proof. intros Hdom [Hk Hg]. split; [done|]. intros g Hs. by apply Hdom, Hg. Qed.
Lemma insert_dom n d k k' : n !! d = Some k -> forall d', is_Some (n !! d') <-> is_Some (<[d:=k']> n !! d').
Proof.
  intros Hn d'. destruct (decide (d' = d)) as [->|Hne]; [rewrite Hn, lookup_insert_eq|rewrite lookup_insert_ne by done];
    naive_solver.
Qed.

Lemma refs_push s n d : refs_ok s n None -> n !! d = None ->
  let s' := (load_or_store d s).1 in
  (load_or_store d s).2 = (length (p_objs s), false) /\ refs_ok s' (<[d := 1]> n) None /\
  p_refs s' !! d = Some (length (p_objs s)) /\
  p_topics s' = p_topics s /\ p_observer s' = p_observer s /\ p_models s' = p_models s.
Proof.
  intros Hok Hn. unfold load_or_store. specialize (Hok d) as Hd. rewrite Hn in Hd. rewrite Hd. cbn.
  split_and!; [done| |by rewrite lookup_insert_eq|done..]. intros d'. destruct (decide (d' = d)) as [->|Hne].
  - rewrite lookup_insert_eq. split; [lia|]. eexists _, _. cbn. rewrite lookup_insert_eq. split; [done|].
    rewrite lookup_app_r, Nat.sub_diag by done. split; [done|]. split; [apply count_New|done].
  - rewrite lookup_insert_ne by done. specialize (Hok d'). destruct (n !! d') as [j|].
    + destruct Hok as (Hj & oid & o & Hr & Ho & Hob). split; [done|]. exists oid, o. cbn.
      rewrite lookup_insert_ne by done. split_and!; [done| |done].
      rewrite lookup_app_l; [done|by eapply lookup_lt_Some].
    + cbn. by rewrite lookup_insert_ne.
Qed.

Lemma add_topics_ok s n d : topics_ok s n -> n !! d = None ->
  let s' := (add_topics getTopics order d s).1 in
  (add_topics getTopics order d s).2 = (order (p_topics s'), true) /\ topics_ok s' (<[d := 1]> n) /\
  p_refs s' = p_refs s /\ p_objs s' = p_objs s /\ p_observer s' = p_observer s /\ p_models s' = p_models s.
Proof.
  intros Ht Hn. unfold add_topics, Topics_Add, topic_update.
  destruct (Add_fresh (getTopics "*" d) (p_topics s) false (topics_NoDup d)) as [Hb Hl].
  { apply Forall_forall. intros t Hin. specialize (Ht t). destruct (p_topics s !! t); [|done].
    destruct Ht as [_ (d' & Hd' & Hin')]. rewrite (topics_apart d' d t) in Hd' by done.
    rewrite Hn in Hd'. by destruct Hd'. }
  destruct (fold_left _ _ _) as [m b]. cbn in *. rewrite bool_decide_false in Hb by apply topics_some.
  subst b. split_and!; [done| |done..]. intros t. cbn. rewrite Hl. case_decide as Hin.
  - split; [done|]. exists d. by rewrite lookup_insert_eq.
  - specialize (Ht t). destruct (p_topics s !! t) as [c|].
    + destruct Ht as [-> (d' & Hd' & Hin')]. split; [done|]. exists d'. split; [|done].
      rewrite lookup_insert_ne by naive_solver. done.
    + intros d' Hd'. destruct (decide (d' = d)) as [->|Hne]; [done|]. apply Ht.
      by rewrite lookup_insert_ne in Hd' by done.
Qed.

(** What the event bus and the store answer: releasing succeeds; the events
    loaded for a query are those of its group. *)
Definition own_events (ld : Loaded D) (g : string) : Prop :=
  Forall (fun it => Forall (fun e => le_groupID e = g) (it_rest it)) (ld_iters ld).
Definition honest (an : answers D) (qs : list SnapshotQuery) (g : string) : Prop :=
  an_release an = Bus_ok /\ own_events (an_load an qs) g.

Lemma project_groups s n qs d an : groups_ok s n -> is_Some (n !! d) -> own_events (an_load an qs) d ->
  let r := project factoryModel (an_load an) qs s in
  groups_ok r.1 n /\ p_refs r.1 = p_refs s /\ p_objs r.1 = p_objs s /\ p_topics r.1 = p_topics s /\
  p_observer r.1 = p_observer s.
Proof.
  intros [Hk Hg] Hd Hown. unfold project, Project.
  destruct (Load _ _ _ _) as [[m err]|] eqn:Hl; [|done]. split_and!; [|done..].
  apply (Load_P factoryModel P (fun g => g = d) P_factory P_begin P_step (p_models s)) in Hl as [Hk' Hgr];
    [|exact Hown|exact Hk|by left].
  split; [exact Hk'|]. intros g Hs. cbn in Hs. destruct (Hgr g Hs) as [? | ->]; [by apply Hg|done].
Qed.

(** A failed registration leaves nothing. *)
Lemma register_rolled_back s n d oid an err :
  an_release an = Bus_ok -> refs_ok s (<[d := 1]> n) (Some d) -> p_refs s !! d = Some oid -> n !! d = None ->
  topics_ok s (<[d := 1]> n) -> groups_ok s (<[d := 1]> n) ->
  exists s', run (releaseAndReturnError an oid err) s
             = Some (s', Returns (inl (Wrap "cannot register device %v" err))) /\ idle s' n.
Proof.
  intros Hrel Hok Hr Hn Ht Hg.
  destruct (release_frees s _ (Some d) d oid Hok (lookup_insert_eq _ _ _) Hr Ht Hg)
    as (s' & Hrun & Hok' & Ht' & Hob' & Hg' & Hr' & Hd').
  rewrite delete_insert_id in Hok', Ht', Hg' by done. unfold DeviceProjection.releaseAndReturnError. rewrite Hrel, run_seq, Hrun.
  rewrite run_seq, run_act. eexists. split; [done|]. split; [|done..].
  eapply refs_dead; [done..|]. intros d' Hne. by rewrite !bool_decide_false by naive_solver.
Qed.

(** The registration of [d], as it goes on with the topics in place. *)
Record registering s n d oid : Prop := {
  rg_new : n !! d = None; rg_refs : refs_ok s (<[d := 1]> n) (Some d); rg_ref : p_refs s !! d = Some oid;
  rg_topics : topics_ok s (<[d := 1]> n); rg_groups : groups_ok s (<[d := 1]> n) }.

Lemma registering_frame s s' n d oid :
  registering s n d oid -> p_refs s' = p_refs s -> p_objs s' = p_objs s -> p_topics s' = p_topics s ->
  groups_ok s' (<[d := 1]> n) -> registering s' n d oid.
Proof.
  intros [Hn Hok Hr Ht Hg] Hr' Ho' Ht' Hg'. split; [done| |by rewrite Hr'| |done].
  - intros d'. specialize (Hok d'). by rewrite Hr', Ho'.
  - intros t. specialize (Ht t). by rewrite Ht'.
Qed.

Definition register_outcome n d (res : option (PState * outcome (result bool))) : Prop :=
  exists s' r, res = Some (s', Returns r) /\
    (r = inr true /\ idle s' (<[d := 1]> n) \/ (exists err, r = inl err) /\ idle s' n).

Lemma register_fails s n d oid an err :
  an_release an = Bus_ok -> registering s n d oid ->
  register_outcome n d (run (releaseAndReturnError an oid err) s).
Proof.
  intros Hrel [Hn Hok Hr Ht Hg].
  destruct (register_rolled_back s n d oid an err) as (s' & Hrun & Hi); [done..|]. rewrite Hrun.
  do 2 eexists. split; [done|]. right. split; [by eexists|done].
Qed.

Lemma SubscribeTo_frame ans s :
  let r := SubscribeTo subscriber ans (order (p_topics s)) s in
  p_refs r.1 = p_refs s /\ p_objs r.1 = p_objs s /\ p_topics r.1 = p_topics s /\ p_models r.1 = p_models s /\
  (r.2 = None -> observer_ok r.1).
Proof.
  unfold SubscribeTo, observer_ok. destruct subscriber; cbn; [|done].
  destruct (p_observer s), ans; cbn; split_and!; try done; intros _ _; apply order_keys.
Qed.

Lemma register_loads s n d oid an :
  registering s n d oid -> observer_ok s -> honest an [device_query d] d ->
  register_outcome n d (run (
    do! err := act (project factoryModel (an_load an) [device_query d]) in
    match err with
    | Some err => releaseAndReturnError an oid err
    | None => do! _ := act (unlock oid) in Ret (Returns (inr true))
    end) s).
Proof.
  intros Hrg Hob [Hrel Hown]. rewrite run_seq, run_act.
  destruct (project_groups s (<[d:=1]> n) [device_query d] d an (rg_groups _ _ _ _ Hrg)) as (Hg & Hr & Ho & Ht & Hob');
    [by rewrite lookup_insert_eq|done|].
  destruct (project _ _ _ s) as [s1 err]. cbn [fst] in *.
  apply (registering_frame _ s1) in Hrg; [|done..]. destruct err as [err|]; [by apply register_fails|].
  rewrite run_seq, run_act. destruct Hrg as [Hn Hok Href Htop _]. do 2 eexists. split; [done|].
  left. split; [done|]. split; [|done| |exact Hg].
  - by apply (unlock_ok _ _ d 1); [|apply lookup_insert_eq|].
  - intros Hs. specialize (Hob Hs). cbn. by rewrite Hob', Ht.
Qed.

Lemma Register_new an s n d :
  idle s n -> n !! d = None -> honest an [device_query d] d ->
  register_outcome n d (run (Register an d) s).
Proof.
  intros [Hok Ht Hob Hg] Hn Hhon.
  destruct (refs_push s n d Hok Hn) as (Hres & Hok1 & Hr1 & Ht1 & Hob1 & Hm1).
  unfold DeviceProjection.Register. rewrite run_seq, run_act.
  destruct (load_or_store d s) as [s1 [oid loaded]]. cbn [fst snd] in *. injection Hres as -> ->.
  set (oid := length (p_objs s)) in *.
  destruct (lock_ok s1 _ d 1 oid Hok1 (lookup_insert_eq _ _ _) Hr1) as [Hlock Hok2].
  rewrite run_seq, run_wait, Hlock, run_seq, run_act. set (s2 := upd_obj oid _ s1) in *.
  destruct (add_topics_ok s2 n d) as (Hres & Ht3 & Hr3 & Ho3 & Hob3 & Hm3);
    [intros t; specialize (Ht t); cbn; by rewrite Ht1|done|].
  destruct (add_topics getTopics order d s2) as [s3 tu]. cbn [fst snd] in *. subst tu.
  assert (Hg3 : groups_ok s3 (<[d:=1]> n)).
  { destruct Hg as [Hk Hg]. unfold groups_ok. rewrite Hm3. cbn. rewrite Hm1. split; [done|].
    intros g [k Hk']%Hg. rewrite lookup_insert_ne by naive_solver. by eexists. }
  assert (Hrg : registering s3 n d oid).
  { split; [done| |by rewrite Hr3|done|done]. intros d'. specialize (Hok2 d'). by rewrite Hr3, Ho3. }
  rewrite run_seq, run_act. pose proof (SubscribeTo_frame (an_subscribe an) s3) as (Hr4 & Ho4 & Ht4 & Hm4 & Hob4).
  destruct (SubscribeTo _ _ _ s3) as [s4 err]. cbn [fst snd] in *.
  apply (registering_frame _ s4) in Hrg; [|done..|unfold groups_ok; by rewrite Hm4].
  destruct err as [err|]; [apply register_fails; [apply Hhon|done]|]. by apply register_loads; [|apply Hob4|].
Qed.

(** ** The other operations *)
Lemma Register_again an s n d k : idle s n -> n !! d = Some k ->
  exists s', run (Register an d) s = Some (s', Returns (inr false)) /\ idle s' (<[d := S k]> n).
Proof.
  intros [Hok Ht Hob Hg] Hn. destruct (refs_ref _ _ _ _ _ Hok Hn) as (oid & o & Hr & _ & _).
  unfold DeviceProjection.Register. rewrite run_seq, run_act. unfold load_or_store. rewrite Hr.
  pose proof (refs_acquire _ _ _ _ _ _ Hok Hn Hr) as Hok1. set (s1 := upd_obj oid _ s) in *.
  destruct (lock_ok s1 _ d (S k) oid Hok1 (lookup_insert_eq _ _ _) Hr) as [Hlock Hok2].
  rewrite run_seq, run_wait, Hlock, run_seq, run_act. eexists. split; [done|].
  pose proof (insert_dom n d k (S k) Hn) as Hdom. split.
  - by apply (unlock_ok _ _ d (S k)); [|apply lookup_insert_eq|].
  - by apply (topics_ok_dom _ n).
  - exact Hob.
  - by apply (groups_ok_dom _ n).
Qed.

(** Acquired and locked by the operation that runs. *)
Lemma acquire_lock s n d k : idle s n -> n !! d = Some k ->
  exists oid s1 s2, load_acquire d s = (s1, Some oid) /\ lock oid s1 = Some (s2, tt) /\
    refs_ok s2 (<[d := S k]> n) (Some d) /\ p_refs s2 !! d = Some oid /\
    topics_ok s2 (<[d := S k]> n) /\ observer_ok s2 /\ groups_ok s2 (<[d := S k]> n).
Proof.
  intros [Hok Ht Hob Hg] Hn. destruct (refs_ref _ _ _ _ _ Hok Hn) as (oid & o & Hr & _ & _).
  unfold load_acquire. rewrite Hr. pose proof (refs_acquire _ _ _ _ _ _ Hok Hn Hr) as Hok1.
  destruct (lock_ok _ _ d (S k) oid Hok1 (lookup_insert_eq _ _ _) Hr) as [Hlock Hok2].
  pose proof (insert_dom n d k (S k) Hn) as Hdom.
  do 3 eexists. split_and!; [done|exact Hlock|exact Hok2|exact Hr|by apply (topics_ok_dom _ n)|exact Hob|].
  by apply (groups_ok_dom _ n).
Qed.

Lemma Unregister_unknown an s n d : idle s n -> n !! d = None ->
  exists err, run (Unregister an d) s = Some (s, Returns (Some err)).
Proof.
  intros [Hok _ _ _] Hn. specialize (Hok d). rewrite Hn in Hok.
  unfold DeviceProjection.Unregister. rewrite run_seq, run_act. unfold load_acquire. rewrite Hok. by eexists.
Qed.

Lemma Unregister_known an s n d k : idle s n -> n !! d = Some (S k) -> an_release an = Bus_ok ->
  exists s', run (Unregister an d) s = Some (s', Returns None) /\
    idle s' (if decide (k = 0) then delete d n else <[d := k]> n).
Proof.
  intros Hi Hn Hrel.
  destruct (acquire_lock s n d (S k) Hi Hn) as (oid & s1 & s2 & Hacq & Hlock & Hok2 & Hr2 & Ht2 & Hob2 & Hg2).
  unfold DeviceProjection.Unregister. rewrite run_seq, run_act, Hacq, run_seq, run_wait, Hlock, Hrel.
  destruct (release_keeps Bus_ok s2 _ _ d k oid Hok2 (lookup_insert_eq _ _ _) Hr2) as [Hrun Hok3].
  rewrite insert_insert_eq in Hok3. rewrite run_seq, Hrun, run_seq. set (s3 := upd_obj oid _ s2) in *.
  assert (Ht3 : topics_ok s3 n) by (apply (topics_ok_dom _ (<[d:=S (S k)]> n)); [symmetry; by eapply insert_dom|done]).
  assert (Hg3 : groups_ok s3 n) by (apply (groups_ok_dom _ (<[d:=S (S k)]> n)); [symmetry; by eapply insert_dom|done]).
  rewrite (insert_id n d (S k)) in Hok3 by done. clear Hi Hok2. case_decide as Hk.
  - subst k. destruct (release_frees s3 n (Some d) d oid Hok3 Hn Hr2 Ht3 Hg3)
      as (s4 & Hrun4 & Hok4 & Ht4 & Hob4 & Hg4 & Hr4 & Hd4).
    rewrite Hrun4, run_seq, run_act. eexists. split; [done|]. split; [|done..].
    eapply refs_dead; [done..|]. intros d' Hne. by rewrite !bool_decide_false by naive_solver.
  - destruct k as [|k]; [done|].
    destruct (release_keeps Bus_ok s3 n (Some d) d k oid Hok3 Hn Hr2) as [Hrun4 Hok4].
    rewrite Hrun4, run_seq, run_act. eexists. split; [done|].
    pose proof (insert_dom n d _ (S k) Hn) as Hdom. split.
    + by apply (unlock_ok _ _ d (S k)); [|apply lookup_insert_eq|].
    + by apply (topics_ok_dom _ n).
    + exact Hob2.
    + by apply (groups_ok_dom _ n).
Qed.

Section force_update.
Context `{!UUIDLib}.
#[local] Abbreviation ForceUpdate := (ForceUpdate getTopics order factoryModel subscriber).
Definition force_query (rid : option ResourceId) : SnapshotQuery :=
  MkSnapshotQuery (rid ~> rid_DeviceId) (ResourceId_ToUUID rid) [].

Lemma ForceUpdate_unknown an s n rid : idle s n -> n !! (rid ~> rid_DeviceId) = None ->
  exists err, run (ForceUpdate an rid) s = Some (s, Returns (Some err)).
Proof.
  intros [Hok _ _ _] Hn. specialize (Hok (rid ~> rid_DeviceId)). rewrite Hn in Hok.
  unfold DeviceProjection.ForceUpdate. rewrite run_seq, run_act. unfold load_acquire. rewrite Hok. by eexists.
Qed.

Lemma ForceUpdate_known an s n rid : idle s n -> is_Some (n !! (rid ~> rid_DeviceId)) ->
  honest an [force_query rid] (rid ~> rid_DeviceId) ->
  exists s' err, run (ForceUpdate an rid) s = Some (s', Returns err) /\ idle s' n.
Proof.
  intros Hi [k Hn] [Hrel Hown]. set (d := rid ~> rid_DeviceId) in *.
  assert (Hpos : exists j, k = S j).
  { destruct Hi as [Hok _ _ _]. specialize (Hok d). rewrite Hn in Hok. destruct k; [lia|by eexists]. }
  destruct Hpos as [j ->].
  destruct (acquire_lock s n d (S j) Hi Hn) as (oid & s1 & s2 & Hacq & Hlock & Hok2 & Hr2 & Ht2 & Hob2 & Hg2).
  unfold DeviceProjection.ForceUpdate. fold d. rewrite run_seq, run_act, Hacq, run_seq, run_wait, Hlock.
  rewrite run_seq, run_act.
  destruct (project_groups s2 (<[d:=S (S j)]> n) [force_query rid] d an Hg2) as (Hg3 & Hr3 & Ho3 & Ht3 & Hob3);
    [by rewrite lookup_insert_eq|done|].
  change [MkSnapshotQuery d (ResourceId_ToUUID rid) []] with [force_query rid].
  destruct (project _ _ _ s2) as [s3 err]. cbn [fst] in *.
  assert (Hok3 : refs_ok s3 (<[d:=S (S j)]> n) (Some d)) by (intros d'; specialize (Hok2 d'); by rewrite Hr3, Ho3).
  assert (Hr3' : p_refs s3 !! d = Some oid) by by rewrite Hr3.
  rewrite run_seq, run_act.
  pose proof (unlock_ok _ _ d _ _ Hok3 (lookup_insert_eq _ _ _) Hr3') as Hok4.
  destruct (release_keeps (an_release an) _ _ None d j oid Hok4 (lookup_insert_eq _ _ _) Hr3') as [Hrun Hok5].
  unfold unlock at 1. rewrite run_seq, Hrun. do 2 eexists. split; [done|]. rewrite insert_insert_eq, (insert_id n) in Hok5 by done.
  assert (Hdom : forall d', is_Some (<[d:=S (S j)]> n !! d') <-> is_Some (n !! d')).
  { intros d'. symmetry. by eapply insert_dom. }
  split; [exact Hok5| | |by apply (groups_ok_dom _ (<[d:=S (S j)]> n))].
  - apply (topics_ok_dom _ (<[d:=S (S j)]> n)); [done|]. intros t. specialize (Ht2 t). cbn. by rewrite Ht3.
  - intros Hs. specialize (Hob2 Hs). cbn. by rewrite Hob3, Ht3.
Qed.

(** Events that the bus delivers for a device that is registered. *)
Lemma bus_handle_known answer iter s n d :
  idle s n -> is_Some (n !! d) -> Forall (fun e => le_groupID e = d) (it_rest iter) ->
  (forall qs, own_events (answer qs) d) -> idle (bus_handle factoryModel answer iter s).1 n.
Proof.
  intros [Hok Ht Hob [Hk Hg]] Hd Hits Hans. unfold bus_handle.
  destruct (HandleWithReload _ _ _ _) as [[m err]|] eqn:Hh; [|done]. split; [done..|].
  unfold HandleWithReload in Hh.
  destruct (handle factoryModel (p_models s) iter) as [[p1 res]|] eqn:Hh1; [|done].
  destruct (handle_P factoryModel P (fun g => g = d) P_factory P_begin P_step (p_models s) _ _ _ _ Hits Hk
    ltac:(by left) Hh1) as [Hk1 Hg1].
  assert (Hgoal : forall p', models_ok P p' -> grouped (fun g => g = d) (p_models s) p' ->
    groups_ok (set_models p' s) n).
  { intros p' Hk' Hg'. split; [done|]. intros g [? | ->]%Hg'; [by apply Hg|done]. }
  destruct res as [er|[|q qs]]; [injection Hh as <- <-; by apply Hgoal..|].
  destruct (Load _ _ _ _) as [[p2 err2]|] eqn:Hl; [|done].
  apply (Load_P factoryModel P (fun g => g = d) P_factory P_begin P_step (p_models s)) in Hl as [Hk2 Hg2];
    [|apply Hans|done|done].
  destruct err2; injection Hh as <- <-; by apply Hgoal.
Qed.

(** ** One operation after another

    The abstract projection is the multiset [n] of the registrations. *)
Inductive operation :=
  | ORegister d
  | OUnregister d
  | OForceUpdate (rid : option ResourceId)
  | OEvents d (iter : Iter D) (answer : list VersionQuery -> Loaded D).
Inductive op_result := RRegister (r : result bool) | RDone (err : option error).

(** The bus delivers the events of a device when one of its subjects is subscribed. *)
Definition delivered d s : bool :=
  subscriber && match p_observer s with
                | Some T => existsb (fun t => bool_decide (t ∈ T)) (getTopics "*" d)
                | None => false
                end.
Lemma delivered_registered d s n : idle s n -> delivered d s = true -> is_Some (n !! d).
Proof.
  intros [_ Ht Hob _] [Hs Hd]%andb_true_iff. specialize (Hob Hs). destruct (p_observer s) as [T|]; [|done].
  apply existsb_exists in Hd as (t & Hin%list_elem_of_In & HT%bool_decide_eq_true). apply Hob in HT as [c HT].
  specialize (Ht t). rewrite HT in Ht. destruct Ht as [_ (d' & Hd' & Hin')]. by rewrite (topics_apart d d' t).
Qed.

Definition perform (op : operation) (an : answers D) : prog PState (outcome op_result) :=
  match op with
  | ORegister d => do? r := Register an d in Ret (Returns (RRegister r))
  | OUnregister d => do? err := Unregister an d in Ret (Returns (RDone err))
  | OForceUpdate rid => do? err := ForceUpdate an rid in Ret (Returns (RDone err))
  | OEvents d iter answer =>
      do! err := act (fun s => if delivered d s then bus_handle factoryModel answer iter s else (s, None)) in
      Ret (Returns (RDone err))
  end.

Inductive abstract_step n : operation -> op_result -> gmap string nat -> Prop :=
  | step_register_first d : n !! d = None -> abstract_step n (ORegister d) (RRegister (inr true)) (<[d := 1]> n)
  | step_register_fails d err : n !! d = None -> abstract_step n (ORegister d) (RRegister (inl err)) n
  | step_register_again d k : n !! d = Some k ->
      abstract_step n (ORegister d) (RRegister (inr false)) (<[d := S k]> n)
  | step_unregister_unknown d err : n !! d = None -> abstract_step n (OUnregister d) (RDone (Some err)) n
  | step_unregister_last d : n !! d = Some 1 -> abstract_step n (OUnregister d) (RDone None) (delete d n)
  | step_unregister d k : n !! d = Some (S (S k)) ->
      abstract_step n (OUnregister d) (RDone None) (<[d := S k]> n)
  | step_force_unknown rid err : n !! (rid ~> rid_DeviceId) = None ->
      abstract_step n (OForceUpdate rid) (RDone (Some err)) n
  | step_force rid err : is_Some (n !! (rid ~> rid_DeviceId)) -> abstract_step n (OForceUpdate rid) (RDone err) n
  | step_events d iter answer err : abstract_step n (OEvents d iter answer) (RDone err) n.

(** What the bus and the store owe an operation: releasing succeeds, and the events
    that are loaded or delivered are those of the device. *)
Definition op_honest (op : operation) (an : answers D) : Prop :=
  match op with
  | ORegister d => honest an [device_query d] d
  | OUnregister _ => an_release an = Bus_ok
  | OForceUpdate rid => honest an [force_query rid] (rid ~> rid_DeviceId)
  | OEvents d iter answer =>
      Forall (fun e => le_groupID e = d) (it_rest iter) /\ forall qs, own_events (answer qs) d
  end.

Lemma idle_NewProjection : idle NewProjection ∅.
Proof.
  split.
  - intros d. by rewrite lookup_empty.
  - intros t. cbn. rewrite lookup_empty. intros d [? Hd]. by rewrite lookup_empty in Hd.
  - by intros _.
  - split; [by intros g a am Hl|]. intros g [? Hg]. done.
Qed.

Lemma perform_refines s n op an : idle s n -> op_honest op an ->
  exists s' r n', run (perform op an) s = Some (s', Returns r) /\ abstract_step n op r n' /\ idle s' n'.
Proof.
  intros Hi Hh. destruct op as [d|d|rid|d iter answer]; cbn [perform op_honest] in *; try rewrite run_bindO.
  - destruct (n !! d) as [k|] eqn:Hn.
    + destruct (Register_again an s n d k Hi Hn) as (s' & -> & Hi').
      do 3 eexists. split; [done|]. split; [by econstructor|done].
    + destruct (Register_new an s n d Hi Hn Hh) as (s' & r & -> & [[-> Hi'] | [[err ->] Hi']]);
        (do 3 eexists; split; [done|]); (split; [by constructor|done]).
  - destruct (n !! d) as [k|] eqn:Hn.
    + pose proof (idle_refs _ _ Hi d) as Hpos. rewrite Hn in Hpos. destruct k as [|k]; [lia|].
      destruct (Unregister_known an s n d k Hi Hn Hh) as (s' & -> & Hi'). do 3 eexists. split; [done|].
      split; [|exact Hi']. destruct k; [by constructor|by econstructor].
    + destruct (Unregister_unknown an s n d Hi Hn) as [err ->].
      do 3 eexists. split; [done|]. split; [by constructor|done].
  - destruct (n !! (rid ~> rid_DeviceId)) as [k|] eqn:Hn.
    + destruct (ForceUpdate_known an s n rid Hi (mk_is_Some _ _ Hn) Hh) as (s' & err & -> & Hi').
      do 3 eexists. split; [done|]. split; [constructor; by rewrite Hn|done].
    + destruct (ForceUpdate_unknown an s n rid Hi Hn) as [err ->].
      do 3 eexists. split; [done|]. split; [by constructor|done].
  - rewrite run_seq, run_act. destruct Hh as [Hits Hans]. destruct (delivered d s) eqn:Hd.
    + apply (delivered_registered d s n Hi) in Hd.
      pose proof (bus_handle_known answer iter s n d Hi Hd Hits Hans) as Hi'.
      destruct (bus_handle _ _ _ s) as [s' err]. do 3 eexists. split; [done|]. split; [constructor|done].
    + do 3 eexists. split; [done|]. split; [constructor|done].
Qed.

(** Operations in turn, each with what the bus and the store answer to it. *)
Fixpoint perform_all (ops : list (operation * answers D)) s : option (PState * list op_result) :=
  match ops with
  | [] => Some (s, [])
  | (op, an) :: ops =>
      match run (perform op an) s with
      | Some (s, Returns r) =>
          match perform_all ops s with Some (s, rs) => Some (s, r :: rs) | None => None end
      | _ => None
      end
  end.
Inductive abstract_run : gmap string nat -> list (operation * answers D) -> list op_result ->
    gmap string nat -> Prop :=
  | run_done n : abstract_run n [] [] n
  | run_more n op an r n1 ops rs n2 : abstract_step n op r n1 -> abstract_run n1 ops rs n2 ->
      abstract_run n ((op, an) :: ops) (r :: rs) n2.

(** C8: Operations one after another do what the multiset of registrations does: each
    of them returns (nothing panics and no mutex is left held), with the answer
    of the multiset (the first registration of a device says so, the last one
    to go drops it, an unknown device is an error), and the state that it leaves
    has a counter, the subscribed subjects and models of the registered devices
    and of no other device. *)
Theorem projection_refines ops n s : idle s n -> Forall (fun '(op, an) => op_honest op an) ops ->
  exists s' rs n', perform_all ops s = Some (s', rs) /\ abstract_run n ops rs n' /\ idle s' n'.
Proof.
  revert n s. induction ops as [|[op an] ops IH]; intros n s Hi Hh; cbn [perform_all].
  { do 3 eexists. split; [done|]. split; [constructor|done]. }
  apply Forall_cons in Hh as [Hh Hrest]. destruct (perform_refines s n op an Hi Hh) as (s1 & r & n1 & -> & Hst & Hi1).
  destruct (IH n1 s1 Hi1 Hrest) as (s2 & rs & n2 & -> & Hrun & Hi2).
  do 3 eexists. split; [done|]. split; [by econstructor|done].
Qed.
End force_update.
End facts.
