(* ===== verification/Aggregate.v ===== *)
(** * Handling a command on an aggregate

    resource-aggregate/cqrs/aggregate/aggregate.go: load the model of an
    aggregate from the store, let it handle the command, save the events it
    answers with (the last one replaced by a snapshot), and start again when
    another writer was faster. *)

From Stdlib Require Import ZArith String.
From S2P Require Import Prelude Commands Events EventStore Handler Projection.

(** AggregateModel: a model that also handles commands.  [others] are the
    additional models that were loaded with it, by the identifier of their
    aggregate; the models of a load are told its time. *)
Class AggregateModel (M E D C : Type) := {
  ag_step : time_ -> M -> LoadedEvent D -> M * option error;
  ag_HandleCommand : (nat -> time_) -> (string -> option M) -> M -> C -> Z -> M * result (list E);
  ag_TakeSnapshot : time_ -> M -> Z -> option E }.

(** The part of the interface EventStore that an aggregate uses. *)
Class EventStore (St E D : Type) := {
  Save : St -> list E -> St * result SaveStatus;
  LoadFromSnapshot : St -> list SnapshotQuery -> Loaded D }.

(** ** Retries *)
Record DefaultRetry := MkDefaultRetry { retry_limit : Z; retry_counter : Z }.

(** NewDefaultRetryFunc: the function it returns. *)
Definition retryFunc (r : DefaultRetry) : DefaultRetry * option error :=
  if (retry_limit r <=? retry_counter r)%Z then (r, Some (errors_New "retry reach limit"))
  else (MkDefaultRetry (retry_limit r) (retry_counter r + 1), None).

(** [canceled]: the context is done before the time to wait is over. *)
Definition HandleRetry (r : DefaultRetry) (canceled : bool) : DefaultRetry * option error :=
  match retryFunc r with
  | (r, Some err) => (r, Some (Wrap "cannot retry" err))
  | (r, None) => (r, if canceled then Some (errors_New "retry canceled") else None)
  end.

(** ** The models of a load *)
Record AggregateModelWrapper (M : Type) := MkWrapper {
  w_model : M; w_lastVersion : Z; w_loaded : bool }.
Arguments MkWrapper {M}.
Arguments w_model {M}.
Arguments w_lastVersion {M}.
Arguments w_loaded {M}.

(** The model the command is for is wrapped, the additional ones are not. *)
Inductive AnyModel (M : Type) := Wrapped (w : AggregateModelWrapper M) | Plain (m : M).
Arguments Wrapped {M}.
Arguments Plain {M}.

(** The wrapper counts what the iterator delivers, from nothing in each Handle. *)
Definition AnyModel_Model {M E D C} `{!AggregateModel M E D C} (t : time_)
    : Model (AnyModel M) D := {|
  model_begin am := match am with
                    | Wrapped w => Wrapped (MkWrapper (w_model w) 0 false)
                    | Plain m => Plain m
                    end;
  model_step am e := match am with
                     | Wrapped w => let '(m, err) := ag_step t (w_model w) e in
                                    (Wrapped (MkWrapper m (le_version e) true), err)
                     | Plain m => let '(m, err) := ag_step t m e in (Plain m, err)
                     end;
  model_end _ err := err |}.

Record AdditionalModel := MkAdditionalModel { addl_GroupID : string; addl_AggregateID : string }.

(** The queries of a load. *)
Definition additional_query (r : AdditionalModel) : SnapshotQuery :=
  MkSnapshotQuery (addl_GroupID r) (addl_AggregateID r) [].
Definition load_queries (groupID aggregateID : string) (additional : list AdditionalModel)
    : list SnapshotQuery :=
  MkSnapshotQuery groupID aggregateID [] :: (additional_query <$> additional).

Section aggregate.
Context {M E D C St : Type} `{!AggregateModel M E D C} `{!EventStore St E D}.
Definition Factory := string -> string -> result M.

(** The loop over the additional models. *)
Fixpoint make_models (factoryModel : Factory) (additional : list AdditionalModel)
    (models : gmap string M) : result (gmap string M) :=
  match additional with
  | [] => inr models
  | r :: additional =>
      match factoryModel (addl_GroupID r) (addl_AggregateID r) with
      | inl err => inl (Wrap "cannot create aggregate model" err)
      | inr m => make_models factoryModel additional (<[addl_AggregateID r := m]> models)
      end
  end.

(** The function given to the projection; [m] is the model that is wrapped. *)
Definition projection_factory (aggregateID : string) (m : M) (models : gmap string M)
    (_ projectionAggregateID : string) : result (AnyModel M) :=
  if String.eqb projectionAggregateID aggregateID then inr (Wrapped (MkWrapper m 0 false))
  else match models !! projectionAggregateID with
       | Some m => inr (Plain m)
       | None => inl (errors_New "cannot create aggregate model for %v %v : not found")
       end.

(** The wrapper after the load, which never saw it when there are no events; an
    aggregate's identifier is unique over all groups. *)
Definition loaded_wrapper (p : Models (AnyModel M)) (groupID aggregateID : string) (m : M)
    : AggregateModelWrapper M :=
  match lookup_model p groupID aggregateID with
  | Some am => match am_model am with Wrapped w => w | Plain m => MkWrapper m 0 false end
  | None => MkWrapper m 0 false
  end.
Definition loaded_others (p : Models (AnyModel M)) (additional : list AdditionalModel)
    (models : gmap string M) (aggregateID : string) : option M :=
  match list_find (fun r => addl_AggregateID r = aggregateID) additional with
  | None => models !! aggregateID
  | Some (_, r) =>
      match lookup_model p (addl_GroupID r) aggregateID with
      | Some am => match am_model am with Wrapped w => Some (w_model w) | Plain m => Some m end
      | None => models !! aggregateID
      end
  end.

Definition NewAggregateModel (t : time_) (groupID aggregateID : string) (store : St)
    (factoryModel : Factory) (additional : list AdditionalModel)
    : option (result (AggregateModelWrapper M * (string -> option M))) :=
  match factoryModel groupID aggregateID with
  | inl err => Some (inl (Wrap "cannot create aggregate model" err))
  | inr m =>
      match make_models factoryModel additional {[aggregateID := m]} with
      | inl err => Some (inl err)
      | inr models =>
          match Project (Model0 := AnyModel_Model t) (projection_factory aggregateID m models)
                  (LoadFromSnapshot store) ∅ (load_queries groupID aggregateID additional) with
          | None => None
          | Some (_, Some err) => Some (inl (Wrap "cannot load aggregate model" err))
          | Some (p, None) =>
              Some (inr (loaded_wrapper p groupID aggregateID m, loaded_others p additional models))
          end
      end
  end.

(** The version is increased only when some events have been processed. *)
Definition new_version (amodel : AggregateModelWrapper M) : Z :=
  if w_loaded amodel then u64 (w_lastVersion amodel + 1) else w_lastVersion amodel.

(** *** One attempt

    [interfere] is what other writers do to the store between the load and
    the save.  The answer is the events, and whether another writer was faster. *)
Definition HandleCommandWithAggregateModelWrapper (clk : nat -> time_) (snapshot_time : time_)
    (interfere : St -> St) (store : St) (cmd : C) (amodel : AggregateModelWrapper M)
    (others : string -> option M)
    : St * AggregateModelWrapper M * result (list E * bool) :=
  let newVersion := new_version amodel in
  let '(m, r) := ag_HandleCommand clk others (w_model amodel) cmd newVersion in
  let amodel := MkWrapper m (w_lastVersion amodel) (w_loaded amodel) in
  match r with
  | inl err => (store, amodel, inl (Wrap "error occurred during command handling" err))
  | inr [] => (store, amodel, inr ([], false))
  | inr newEvents =>
      match ag_TakeSnapshot snapshot_time m (u64 (newVersion + (Z.of_nat (length newEvents) - 1))) with
      | None => (store, amodel, inl (errors_New "cannot take snapshot"))
      | Some snapshot =>
          let saveEvents := removelast newEvents ++ [snapshot] in
          match Save (interfere store) saveEvents with
          | (store, inl err) => (store, amodel, inl (Wrap "cannot save events" err))
          | (store, inr SaveOk) => (store, amodel, inr (newEvents, false))
          | (store, inr SnapshotRequired) =>
              (store, amodel, inl (errors_New
                 "cannot create snapshot during save events[%v] that contains last snapshot event"))
          | (store, inr ConcurrencyException) => (store, amodel, inr ([], true))
          | (store, inr Fail) => (store, amodel, inl (errors_New "cannot save events[%v]: %w"))
          end
      end
  end.

(** *** The loop

    What happens around an attempt: the time of the load and the clock of the
    command, what other writers do, whether the context is done. *)
Record Attempt := MkAttempt {
  at_load : time_; at_clock : nat -> time_; at_snapshot : time_;
  at_before_load : St -> St; at_before_save : St -> St; at_canceled : bool }.

Record Aggregate := MkAggregate {
  a_groupID : string; a_aggregateID : string; a_factoryModel : Factory;
  a_additionalModels : list AdditionalModel }.

(** The checks of NewAggregate that do not ask for a nil function or store. *)
Definition NewAggregate (groupID aggregateID : string) (factoryModel : Factory)
    (additionalModels : list AdditionalModel) : result Aggregate :=
  if String.eqb groupID "" then inl (errors_New "cannot create aggregate: invalid groupID")
  else if String.eqb aggregateID "" then
    inl (errors_New "cannot create aggregate: invalid aggregateId")
  else inr (MkAggregate groupID aggregateID factoryModel additionalModels).

(** The factory of resourceStateModel (service/aggregate.go) hands out the same two
    objects in every attempt, as the attempt before has left them; the other
    factories make new ones ([reuse] is false). *)
Definition next_factory (reuse : bool) (a : Aggregate) (factoryModel : Factory)
    (amodel : AggregateModelWrapper M) (others : string -> option M) : Factory :=
  if reuse then fun groupID aggregateID =>
    if String.eqb aggregateID (a_aggregateID a) then inr (w_model amodel)
    else match others aggregateID with Some m => inr m | None => factoryModel groupID aggregateID end
  else factoryModel.

(** [attempts] is the sequence of the attempts to come; [first] is firstIteration.
    The callers of a factory can keep the objects it hands out: with the events the
    loop answers the model of its last attempt and those loaded with it. *)
Fixpoint HandleCommand_go (reuse : bool) (fuel : nat) (attempts : nat -> Attempt) (first : bool)
    (a : Aggregate) (factoryModel : Factory) (retry : DefaultRetry) (store : St) (cmd : C)
    : option (St * DefaultRetry * result (list E * M * (string -> option M))) :=
  let errHandleCommand (err : error) := inl (Wrap "aggregate model cannot handle command" err) in
  match fuel with
  | O => None
  | S fuel =>
      let att := attempts 0 in
      match (if first then (retry, None) else HandleRetry retry (at_canceled att)) with
      | (retry, Some err) => Some (store, retry, errHandleCommand err)
      | (retry, None) =>
          let store := at_before_load att store in
          match NewAggregateModel (at_load att) (a_groupID a) (a_aggregateID a) store factoryModel
                  (a_additionalModels a) with
          | None => None
          | Some (inl err) => Some (store, retry, errHandleCommand err)
          | Some (inr (amodel, others)) =>
              match HandleCommandWithAggregateModelWrapper (at_clock att) (at_snapshot att)
                      (at_before_save att) store cmd amodel others with
              | (store, _, inl err) => Some (store, retry, errHandleCommand err)
              | (store, amodel, inr (_, true)) =>
                  HandleCommand_go reuse fuel (fun n => attempts (S n)) false a
                    (next_factory reuse a factoryModel amodel others) retry store cmd
              | (store, amodel, inr (events, false)) =>
                  Some (store, retry, inr (events, w_model amodel, others))
              end
          end
      end
  end.

Definition answered {S R X} (r : option (S * R * result (list E * M * X))) : option (S * R * result (list E)) :=
  match r with
  | None => None
  | Some (store, retry, inl err) => Some (store, retry, inl err)
  | Some (store, retry, inr (events, _, _)) => Some (store, retry, inr events)
  end.
(** The retries that are left, and one attempt more, bound the number of turns. *)
Definition HandleCommand (reuse : bool) (attempts : nat -> Attempt) (a : Aggregate)
    (retry : DefaultRetry) (store : St) (cmd : C) : option (St * DefaultRetry * result (list E)) :=
  answered (HandleCommand_go reuse (2 + Z.to_nat (retry_limit retry - retry_counter retry)) attempts true a
    (a_factoryModel a) retry store cmd).
End aggregate.
Arguments Aggregate M : clear implicits.
Arguments Attempt St : clear implicits.
Arguments Factory M : clear implicits.
