(* ===== verification/AggregateFacts.v ===== *)
(** * Properties of handling a command on an aggregate

    What an event store promises ([EventStoreLaws]); the loop ends; a command
    that succeeds was handled on the state of the log it was appended to (no
    update is lost); the next load continues where it ended. *)

From Stdlib Require Import ZArith Lia String.
From S2P Require Import Prelude Commands Events EventStore Handler Projection ProjectionFacts.
From S2P Require Import Aggregate.

(** ** Logs *)
Section logs.
Context `{!UUIDLib} {E : Type} `{!Event E}.
Implicit Types (l : list E).

(** The version of the event that comes next. *)
Definition next_version l : Z :=
  match last l with None => 0%Z | Some e => u64 (Version e + 1) end.

(** The last snapshot and what follows it, or everything. *)
Fixpoint since_snapshot l : list E :=
  match l with
  | [] => []
  | e :: l' => if existsb IsSnapshot l' then since_snapshot l' else l
  end.

(** The log of an aggregate: numbered without gaps, from the version 0 or a snapshot. *)
Definition wf_log (groupID aggregateID : string) l : Prop :=
  exists v, (0 <= v)%Z /\ (forall i e, l !! i = Some e -> Version e = (v + Z.of_nat i)%Z /\ is_u64 (Version e + 1)) /\
    Forall (fun e => GroupID e = groupID /\ AggregateID e = aggregateID) l /\
    (forall e, head l = Some e -> Version e = 0%Z \/ IsSnapshot e = true).

Lemma since_snapshot_nil l : since_snapshot l = [] -> l = [].
Proof.
  induction l as [|e l IH]; simpl; [done|]. destruct (existsb IsSnapshot l) eqn:Hs; [|done].
  intros Hn. rewrite (IH Hn) in Hs. done.
Qed.

Lemma since_snapshot_suffix l : exists a, l = a ++ since_snapshot l.
Proof.
  induction l as [|e l [a IH]]; simpl; [by exists []|]. destruct (existsb IsSnapshot l).
  - exists (e :: a). simpl. by rewrite <- IH.
  - by exists [].
Qed.

Lemma since_snapshot_head l e :
  head (since_snapshot l) = Some e -> head l = Some e \/ IsSnapshot e = true.
Proof.
  assert (Hs : forall l, existsb IsSnapshot l = true -> head (since_snapshot l) = Some e ->
    IsSnapshot e = true).
  { clear l. induction l as [|x l IH]; simpl; [done|]. destruct (existsb IsSnapshot l); [auto|].
    rewrite orb_false_r. by intros ? [= ->]. }
  destruct l as [|x l]; simpl; [done|]. destruct (existsb IsSnapshot l) eqn:Hx; [|by left].
  intros Hh. right. by apply (Hs l).
Qed.

Lemma since_snapshot_snoc l s : IsSnapshot s = true -> since_snapshot (l ++ [s]) = [s].
Proof.
  intros Hs. induction l as [|e l IH]; simpl; [done|].
  by rewrite existsb_app, (eq_refl : existsb _ [s] = (IsSnapshot s || false)), Hs, orb_true_r.
Qed.

Lemma last_since_snapshot l : last (since_snapshot l) = last l.
Proof.
  induction l as [|e l IH]; simpl; [done|]. destruct (existsb IsSnapshot l) eqn:Hs; [|done].
  rewrite IH. destruct l; [done|]. done.
Qed.
End logs.

(** ** What a store promises

    [log] is what the store holds of an aggregate and [stored] how an event is
    handed back. *)
Class EventStoreLaws (St E D : Type) `{!UUIDLib} `{!Event E} `{!EventStore St E D} := {
  log : St -> string -> string -> list E;
  stored : E -> LoadedEvent D;
  stored_spec e : le_version (stored e) = Version e /\ le_isSnapshot (stored e) = IsSnapshot e /\
    le_groupID (stored e) = GroupID e /\ le_aggregateID (stored e) = AggregateID e;

  (** Events that are saved passed the checks and follow the log of their
      aggregate; nothing changes when other events with these versions exist. *)
  Save_Ok s s' evs :
    Save s evs = (s', inr SaveOk) ->
    ValidateEventsBeforeSave (Some <$> evs) = None /\
    forall first, head evs = Some first ->
      next_version (log s (GroupID first) (AggregateID first)) = Version first /\
      forall g a, log s' g a = if decide (g = GroupID first /\ a = AggregateID first)
                               then log s g a ++ evs else log s g a;
  Save_ConcurrencyException s s' evs :
    Save s evs = (s', inr ConcurrencyException) ->
    ValidateEventsBeforeSave (Some <$> evs) = None /\ (forall g a, log s' g a = log s g a) /\
    forall first, head evs = Some first ->
      next_version (log s (GroupID first) (AggregateID first)) <> Version first;

  (** A load of aggregates of one group fails, or delivers the logs from the last snapshot on, in
      some order. *)
  LoadFromSnapshot_spec s qs g :
    Forall (fun q => sq_GroupID q = g) qs -> Forall (fun q => sq_AggregateID q <> ""%string) qs ->
    let ld := LoadFromSnapshot s qs in
    ld_err ld <> None \/ Exists (fun it => it_err it <> None) (ld_iters ld) \/
    exists logs, ld_iters ld = [MkIter (log_stream logs) None false] /\ NoDup (log_key <$> logs) /\
      (forall L, L ∈ logs -> exists q, q ∈ qs /\
         L.1 :: L.2 = stored <$> since_snapshot (log s g (sq_AggregateID q))) /\
      (forall q, q ∈ qs -> log s g (sq_AggregateID q) <> [] ->
         exists L, L ∈ logs /\ L.1 :: L.2 = stored <$> since_snapshot (log s g (sq_AggregateID q))) }.

Section aggregate.
Context {M E D C St : Type} `{!UUIDLib} `{!Event E} `{!AggregateModel M E D C}
  `{!EventStore St E D} `{!EventStoreLaws St E D}.

(** ** The load *)
Definition Plain_Model (t : time_) : Model M D := {| model_begin m := m; model_step := ag_step t; model_end _ err := err |}.
Definition ag_replay (t : time_) : M -> list (LoadedEvent D) -> M * option error :=
  replay (Model0 := Plain_Model t).

Lemma replay_wrapped t m v b l m' :
  replay (Model0 := AnyModel_Model t) (Wrapped (MkWrapper m v b)) l = (m', None) ->
  exists w, m' = Wrapped w /\ ag_replay t m l = (w_model w, None) /\
    w_lastVersion w = match last l with Some e => le_version e | None => v end /\
    w_loaded w = match l with [] => b | _ => true end.
Proof.
  revert m v b. induction l as [|e l IH]; intros m v b.
  - intros [= <-]. by eexists.
  - cbn [replay ag_replay model_step AnyModel_Model Plain_Model w_model].
    destruct (ag_step t m e) as [m1 [err|]] eqn:Hs; [done|]. intros Hr.
    destruct (IH _ _ _ Hr) as (w & -> & Hm & Hv & Hl). exists w. split_and!; [done| | |].
    + exact Hm.
    + rewrite Hv, last_cons. by destruct (last l).
    + rewrite Hl. by destruct l.
Qed.

Lemma stored_log_ok g a s L :
  wf_log g a (log s g a) -> L.1 :: L.2 = stored <$> since_snapshot (log s g a) ->
  log_ok L /\ log_key L = (g, a).
Proof.
  intros (v & Hv & Hn & Hids & Hh) HL.
  destruct (since_snapshot_suffix (log s g a)) as [pre Hpre].
  set (l := since_snapshot (log s g a)) in *.
  assert (Hids' : Forall (fun x => (le_groupID x, le_aggregateID x) = (g, a)) (L.1 :: L.2)).
  { rewrite HL, Forall_fmap. rewrite Hpre, Forall_app in Hids. destruct Hids as [_ Hids].
    eapply Forall_impl; [exact Hids|]. intros e [Hg Ha]. simpl.
    destruct (stored_spec e) as (_ & _ & -> & ->). by rewrite Hg, Ha. }
  apply Forall_cons in Hids' as [Hk Hids'].
  assert (Hkey : log_key L = (g, a)) by exact Hk. split; [|done]. unfold log_ok. rewrite Hkey.
  assert (Hver : forall i x, (L.1 :: L.2) !! i = Some x ->
    le_version x = (v + Z.of_nat (length pre + i))%Z /\ is_u64 (le_version x)).
  { intros i x. rewrite HL, list_lookup_fmap. destruct (l !! i) as [e|] eqn:He; [|done].
    intros [= <-]. destruct (stored_spec e) as (-> & _).
    destruct (Hn (length pre + i) e) as [Hve Hu]; [|split; [done|unfold is_u64 in *; lia]].
    rewrite Hpre, lookup_app_r by lia. by replace (length pre + i - length pre) with i by lia. }
  split_and!; [done| |].
  - intros i x Hx. destruct (Hver i x Hx) as [Hvx Hux]. destruct (Hver 0 L.1 eq_refl) as [Hv0 _].
    split; [lia|done].
  - destruct l as [|e l'] eqn:Hl; [done|]. injection HL as H1 _.
    destruct (stored_spec e) as (Hev & Hes & _). rewrite H1, Hev, Hes.
    assert (Hhd : head (since_snapshot (log s g a)) = Some e) by (unfold l in Hl; by rewrite Hl).
    destruct (since_snapshot_head _ _ Hhd) as [Hd|Hd]; [by apply Hh|by right].
Qed.

(** The queries of an aggregate: it and its additional models, all of one group. *)
Definition queried (a : Aggregate M) : list string :=
  a_aggregateID a :: (addl_AggregateID <$> a_additionalModels a).
Definition aggregate_ok (a : Aggregate M) : Prop :=
  Forall (fun r => addl_GroupID r = a_groupID a) (a_additionalModels a) /\
  Forall (fun id => id <> ""%string) (queried a).
Definition wf_store (a : Aggregate M) (s : St) : Prop :=
  Forall (fun id => wf_log (a_groupID a) id (log s (a_groupID a) id)) (queried a).

Lemma Project_loaded (a : Aggregate M) t s pf p :
  aggregate_ok a -> wf_store a s ->
  Project (Model0 := AnyModel_Model t) pf (LoadFromSnapshot s) ∅
    (load_queries (a_groupID a) (a_aggregateID a) (a_additionalModels a)) = Some (p, None) ->
  forall id, id ∈ queried a ->
    let l := stored <$> since_snapshot (log s (a_groupID a) id) in
    match lookup_model p (a_groupID a) id with
    | None => log s (a_groupID a) id = []
    | Some am => log s (a_groupID a) id <> [] /\ exists m0, pf (a_groupID a) id = inr m0 /\
        replay (Model0 := AnyModel_Model t)
          (model_begin (Model := AnyModel_Model t) m0) l = (am_model am, None)
    end.
Proof.
  intros [Hgr Hne] Hwf HP id Hid. unfold Project in HP.
  set (qs := load_queries _ _ _) in HP. set (g := a_groupID a) in *.
  apply Load_no_error in HP as Hno; [|done]. destruct Hno as [Herr Hits].
  assert (Hids : sq_AggregateID <$> qs = queried a).
  { unfold qs, load_queries, queried. rewrite fmap_cons, <- list_fmap_compose. done. }
  assert (Hqid : forall q, q ∈ qs -> sq_AggregateID q ∈ queried a).
  { intros q Hq. rewrite <- Hids. by apply list_elem_of_fmap_2. }
  assert (Hqs : exists q, q ∈ qs /\ sq_AggregateID q = id).
  { rewrite <- Hids in Hid. apply list_elem_of_fmap in Hid as (q & -> & Hq). by exists q. }
  destruct (LoadFromSnapshot_spec s qs g) as [Hl|[Hl|(logs & Hl & Hnd & Hin & Hall)]].
  { constructor; [done|]. apply Forall_fmap. eapply Forall_impl; [exact Hgr|]. done. }
  { apply Forall_forall. intros q Hq. rewrite Forall_forall in Hne. by apply Hne, Hqid. }
  { done. }
  { apply Exists_exists in Hl as (it & Hit & Hl). rewrite Forall_forall in Hits. by apply Hits in Hit. }
  rewrite Hl, Herr in HP. cbn [Load] in HP.
  unfold Handle in HP. destruct (handle _ _ _) as [[p1 [er|rq]]|] eqn:Hh; [done| |done].
  injection HP as ->.
  assert (Hoks : forall L q, L.1 :: L.2 = stored <$> since_snapshot (log s g (sq_AggregateID q)) ->
    q ∈ qs -> log_ok L /\ log_key L = (g, sq_AggregateID q)).
  { intros L q HL Hq. apply (stored_log_ok g _ s); [|done]. unfold wf_store in Hwf.
    rewrite Forall_forall in Hwf. by apply Hwf, Hqid. }
  apply handle_logs_inv in Hh as (_ & Hmod & Hoth); [| |done|].
  2:{ apply Forall_forall. intros L HL. destruct (Hin L HL) as (q & Hq & Heq). by eapply Hoks. }
  2:{ apply Forall_forall. intros L HL. apply lookup_model_empty. }
  destruct Hqs as (q & Hq & <-). cbv zeta.
  destruct (decide (log s g (sq_AggregateID q) = [])) as [Hnil|Hnn].
  - rewrite Hoth; [rewrite lookup_model_empty; done|].
    intros Hk. apply list_elem_of_fmap in Hk as (L & Hk & HL). destruct (Hin L HL) as (q' & Hq' & Heq).
    destruct (Hoks L q' Heq Hq') as [_ Hk']. rewrite <- Hk in Hk'. injection Hk' as Hk'.
    rewrite <- Hk', Hnil in Heq. done.
  - destruct (Hall q Hq Hnn) as (L & HL & Heq). destruct (Hoks L q Heq Hq) as [_ Hk].
    destruct (Hmod L HL) as (am & Ham & Hm & _). rewrite Hk in Ham. cbn [fst snd] in Ham. rewrite Ham.
    split; [done|]. unfold model_of in Hm.
    injection Hk as Hkg Hka. rewrite Hkg, Hka in Hm.
    destruct (pf g (sq_AggregateID q)) as [|m0]; [done|]. exists m0. split; [done|].
    rewrite <- Heq. destruct (replay _ _) as [m [|]]; [done|]. by injection Hm as ->.
Qed.

(** A load, for an aggregate whose logs are in order: the model has replayed
    the log of the aggregate, and the next version is that of the log. *)
Lemma NewAggregateModel_spec t a s f w others :
  aggregate_ok a -> wf_store a s ->
  NewAggregateModel t (a_groupID a) (a_aggregateID a) s f (a_additionalModels a)
  = Some (inr (w, others)) ->
  exists m0, f (a_groupID a) (a_aggregateID a) = inr m0 /\
    ag_replay t m0 (stored <$> since_snapshot (log s (a_groupID a) (a_aggregateID a)))
    = (w_model w, None) /\
    new_version w = next_version (log s (a_groupID a) (a_aggregateID a)).
Proof.
  intros Hok Hwf. unfold NewAggregateModel.
  destruct (f (a_groupID a) (a_aggregateID a)) as [|m0] eqn:Hf; [done|].
  destruct (make_models _ _ _) as [|models]; [done|].
  destruct (Project _ _ _ _) as [[p [er|]]|] eqn:Hp; [done| |done]. intros [= <- <-].
  exists m0. split; [done|].
  pose proof (Project_loaded a t s _ p Hok Hwf Hp (a_aggregateID a) ltac:(by left)) as Hl. cbv zeta in Hl.
  unfold loaded_wrapper. destruct (lookup_model p _ _) as [am|]; [|by rewrite Hl].
  destruct Hl as (Hnn & m1 & Hpf & Hr). unfold projection_factory in Hpf.
  rewrite String.eqb_refl in Hpf. injection Hpf as <-. cbn [model_begin AnyModel_Model w_model] in Hr.
  apply replay_wrapped in Hr as (w & -> & Hrep & Hv & Hlo). split; [done|].
  unfold new_version, next_version. rewrite Hv, Hlo, fmap_last, last_since_snapshot.
  destruct (last (log s _ _)) as [e|] eqn:Hlast; [|by apply last_None in Hlast]. simpl.
  destruct (stored_spec e) as (-> & _).
  destruct (since_snapshot _) eqn:Hss; [by apply since_snapshot_nil in Hss|done].
Qed.

(** One attempt that ends without an error. *)
Lemma attempt_spec clk ts interfere s cmd w others s' w' evs faster :
  HandleCommandWithAggregateModelWrapper clk ts interfere s cmd w others = (s', w', inr (evs, faster)) ->
  exists m r, ag_HandleCommand clk others (w_model w) cmd (new_version w) = (m, inr r) /\
    w_model w' = m /\
    (r = [] /\ evs = [] /\ faster = false /\ s' = s \/
     r <> [] /\ exists snapshot,
       ag_TakeSnapshot ts m (u64 (new_version w + (Z.of_nat (length r) - 1))) = Some snapshot /\
       (evs = r /\ faster = false /\
        Save (interfere s) (removelast r ++ [snapshot]) = (s', inr SaveOk) \/
        evs = [] /\ faster = true /\
        Save (interfere s) (removelast r ++ [snapshot]) = (s', inr ConcurrencyException))).
Proof.
  unfold HandleCommandWithAggregateModelWrapper.
  destruct (ag_HandleCommand _ _ _ _ _) as [m [er|r]]; [done|].
  destruct r as [|e r]; [intros [= <- <- <- <-]; exists m, []; split; [done|]; split; [done|]; by left|].
  destruct (ag_TakeSnapshot _ _ _) as [snap|] eqn:Hs; [|done].
  destruct (Save _ _) as [s2 [er|[]]] eqn:Hsave; intros [= <- <- <- <-];
    exists m, (e :: r); (split; [done|]); (split; [done|]); right; (split; [done|]); exists snap; (split; [done|]);
    [left|right]; by split_and!.
Qed.

(** ** The loop *)
Lemma NewAggregateModel_total t g id s f addl : exists r, NewAggregateModel t g id s f addl = Some r.
Proof.
  unfold NewAggregateModel. destruct (f g id) as [|m]; [by eexists|]. destruct (make_models _ _ _) as [|g0]; [by eexists|].
  unfold Project. destruct (Load_total (Model0 := AnyModel_Model t) (projection_factory id m g0) ∅
    (ld_iters (LoadFromSnapshot s (load_queries g id addl)))
    (ld_err (LoadFromSnapshot s (load_queries g id addl)))) as [[p [er|]] ->]; by eexists.
Qed.

Lemma HandleCommand_go_total reuse fuel attempts (first : bool) a f retry s cmd :
  (if first then 1 else 0) + Z.to_nat (retry_limit retry - retry_counter retry) < fuel ->
  exists r, HandleCommand_go reuse fuel attempts first a f retry s cmd = Some r.
Proof.
  revert attempts first f retry s. induction fuel as [|fuel IH]; intros attempts first f retry s Hf; [lia|].
  cbn [HandleCommand_go].
  assert (Hretry : forall r2, (if first then (retry, None) else HandleRetry retry (at_canceled (attempts 0)))
      = (r2, None) -> Z.to_nat (retry_limit r2 - retry_counter r2) < fuel).
  { intros r2. destruct first; [intros [= <-]; lia|]. unfold HandleRetry, retryFunc.
    destruct (Z.leb_spec (retry_limit retry) (retry_counter retry)); [done|].
    destruct (at_canceled _); [done|]. intros [= <-]. simpl. lia. }
  destruct (if first then (retry, None) else HandleRetry retry (at_canceled (attempts 0)))
    as [r2 [er|]]; [by eexists|]. specialize (Hretry r2 eq_refl).
  edestruct NewAggregateModel_total as [[er|[w others]] ->]; [by eexists|].
  destruct (HandleCommandWithAggregateModelWrapper _ _ _ _ _ _ _) as [[s2 w2] [er|[evs []]]];
    [by eexists| |by eexists].
  apply IH. simpl. lia.
Qed.

(** Handling a command ends: with the retries of NewDefaultRetryFunc there
    are at most as many attempts as retries are left, and one more. *)
Theorem HandleCommand_returns reuse attempts a retry s cmd :
  exists r, HandleCommand reuse attempts a retry s cmd = Some r.
Proof.
  unfold HandleCommand. edestruct (HandleCommand_go_total reuse (2 + Z.to_nat (retry_limit retry - retry_counter retry)) attempts true a
    (a_factoryModel a) retry s cmd) as [[[s' r] [er|[[evs m] o]]] ->]; [lia|by eexists..].
Qed.

(** ** No update is lost *)
(** What is asked of a model, for the invariant [I]: replaying events of the
    aggregate keeps it; the events of the command are of the aggregate, with
    versions that count up; a snapshot has the version it is given, and is of
    the aggregate if it passes the checks of a store at all. *)
Definition own_event (a : Aggregate M) (e : E) : Prop :=
  GroupID e = a_groupID a /\ AggregateID e = a_aggregateID a.
Record handles_for (I : M -> Prop) (a : Aggregate M) (cmd : C) : Prop := {
  hf_step t m e m' : I m -> own_event a e -> ag_step t m (stored e) = (m', None) -> I m';
  hf_command clk others m v m' evs :
    I m -> is_u64 v -> ag_HandleCommand clk others m cmd v = (m', inr evs) ->
    I m' /\ versions_from v evs /\ Forall (own_event a) evs;
  hf_snapshot t m v snapshot :
    I m -> ag_TakeSnapshot t m v = Some snapshot ->
    Version snapshot = v /\ IsSnapshot snapshot = true /\
    (uuid_Parse (GroupID snapshot) = true -> own_event a snapshot) }.

Lemma replay_keeps I a cmd t m l m' :
  handles_for I a cmd -> I m -> Forall (own_event a) l ->
  ag_replay t m (stored <$> l) = (m', None) -> I m'.
Proof.
  intros Hf. revert m. induction l as [|e l IH]; intros m HI Hl; [by intros [= <-]|].
  apply Forall_cons in Hl as [He Hl]. unfold ag_replay. simpl.
  destruct (ag_step t m (stored e)) as [m1 [err|]] eqn:Hs; [done|]. apply IH; [|done].
  by eapply hf_step.
Qed.

Lemma next_version_u64 l : is_u64 (next_version l).
Proof. unfold next_version. destruct (last l); [apply u64_range|done]. Qed.

(** A log that only grew and has the same next version is the same. *)
Lemma same_log g a l l' :
  wf_log g a l' -> l `prefix_of` l' -> next_version l = next_version l' -> l' = l.
Proof.
  intros (v & Hv & Hn & _) [k ->] Heq.
  destruct (last k) as [e|] eqn:Hk; [|apply last_None in Hk as ->; by rewrite app_nil_r]. exfalso.
  assert (Hnv : forall l0 x i, last l0 = Some x -> (l ++ k) !! i = Some x ->
    next_version l0 = (v + Z.of_nat i + 1)%Z).
  { intros l0 x i Hl Hi. destruct (Hn i x Hi) as [Hx Hu]. unfold next_version. rewrite Hl.
    rewrite u64_id by done. lia. }
  assert (Hlen : 0 < length k) by (destruct k; [done|simpl; lia]).
  assert (Hke : (l ++ k) !! (length l + (length k - 1)) = Some e).
  { rewrite lookup_app_r by lia. rewrite last_lookup in Hk. rewrite <- Hk. f_equal. lia. }
  assert (Hlast : last (l ++ k) = Some e) by (by rewrite last_app, Hk).
  rewrite (Hnv _ _ _ Hlast Hke) in Heq.
  destruct (last l) as [x|] eqn:Hl.
  - assert (Hlx : (l ++ k) !! (length l - 1) = Some x).
    { apply lookup_app_l_Some. rewrite last_lookup in Hl. rewrite <- Hl. f_equal. lia. }
    rewrite (Hnv _ _ _ Hl Hlx) in Heq. assert (0 < length l) by (destruct l; [done|simpl; lia]). lia.
  - unfold next_version in Heq. rewrite Hl in Heq. lia.
Qed.

Definition own_log (a : Aggregate M) (s : St) : list E := log s (a_groupID a) (a_aggregateID a).

(** When models are used again in a retry, logs have to end with a snapshot (as
    they do when aggregates alone write them) and a snapshot has to replace all of a model. *)
Definition ends_in_snapshot (l : list E) : Prop :=
  match last l with Some e => IsSnapshot e = true | None => True end.
Definition store_ok (reuse : bool) (a : Aggregate M) (s : St) : Prop :=
  wf_store a s /\ (reuse = true -> ends_in_snapshot (own_log a s)).
Definition snapshot_replaces (I : M -> Prop) (a : Aggregate M) : Prop :=
  forall t m m' e, I m -> I m' -> own_event a e -> IsSnapshot e = true ->
    ag_step t m (stored e) = ag_step t m' (stored e).

(** Other writers keep the logs in order and only add to that of the aggregate. *)
Definition others_ok (reuse : bool) (a : Aggregate M) (interfere : St -> St) : Prop :=
  forall s, store_ok reuse a s ->
    store_ok reuse a (interfere s) /\ own_log a s `prefix_of` own_log a (interfere s).
Definition attempts_ok (reuse : bool) (a : Aggregate M) (attempts : nat -> Attempt St) : Prop :=
  forall n, others_ok reuse a (at_before_load (attempts n)) /\
            others_ok reuse a (at_before_save (attempts n)).

Lemma store_ok_logs reuse a s s' :
  (forall g id, log s' g id = log s g id) -> store_ok reuse a s -> store_ok reuse a s'.
Proof.
  intros Hl [Hwf He]. split.
  - eapply Forall_impl; [exact Hwf|]. intros id. by rewrite Hl.
  - unfold own_log. by rewrite Hl.
Qed.

Lemma saved_first I a cmd clk others m v m' evs t snapshot :
  handles_for I a cmd -> I m -> is_u64 v ->
  ag_HandleCommand clk others m cmd v = (m', inr evs) -> evs <> [] ->
  ag_TakeSnapshot t m' (u64 (v + (Z.of_nat (length evs) - 1))) = Some snapshot ->
  ValidateEventsBeforeSave (Some <$> (removelast evs ++ [snapshot])) = None ->
  exists first, head (removelast evs ++ [snapshot]) = Some first /\ Version first = v /\
    own_event a first.
Proof.
  intros Hf HI Hv Hc Hne Hs Hval. destruct (hf_command _ _ _ Hf _ _ _ _ _ _ HI Hv Hc) as (HI' & Hver & Hids).
  destruct (hf_snapshot _ _ _ Hf _ _ _ _ HI' Hs) as (Hsv & _ & Hown).
  destruct evs as [|e [|e' evs]]; [done| |].
  - exists snapshot. split_and!; [done| |].
    + rewrite Hsv. replace (v + _)%Z with v by (simpl; lia). by apply u64_id.
    + apply Hown. apply ValidateEventsBeforeSave_None in Hval as (l & Hl & Hsav).
      change ([Some snapshot] = Some <$> l) in Hl.
      destruct l as [|x [|]]; simplify_eq/=. by destruct Hsav as (_ & ? & _).
  - exists e. apply Forall_cons in Hids as [He _]. split_and!; [done| |done].
    rewrite (Hver 0 e eq_refl). rewrite Z.add_0_r. by apply u64_id.
Qed.

Lemma replay_own I a cmd t m0 s m :
  handles_for I a cmd -> I m0 -> wf_store a s ->
  ag_replay t m0 (stored <$> since_snapshot (own_log a s)) = (m, None) -> I m.
Proof.
  intros Hf HI Hwf Hr. eapply replay_keeps; [done|exact HI| |exact Hr].
  destruct (since_snapshot_suffix (own_log a s)) as [pre Hpre].
  apply Forall_cons in Hwf as [(v & _ & _ & Hids & _) _]. fold (own_log a s) in Hids.
  rewrite Hpre in Hids. by apply Forall_app in Hids as [_ Hids].
Qed.

(** The models of a retry replay the log like new ones. *)
Definition as_new (I : M -> Prop) (reuse : bool) (a : Aggregate M) (m0 : M) (f : Factory M) (s : St)
    : Prop :=
  f (a_groupID a) (a_aggregateID a) = inr m0 \/
  (reuse = true /\ snapshot_replaces I a /\ own_log a s <> [] /\
   forall m, f (a_groupID a) (a_aggregateID a) = inr m -> I m).

Lemma replay_as_new I reuse a m0 f s s1 t m1 m :
  as_new I reuse a m0 f s -> I m0 -> own_log a s `prefix_of` own_log a s1 -> store_ok reuse a s1 ->
  f (a_groupID a) (a_aggregateID a) = inr m1 ->
  ag_replay t m1 (stored <$> since_snapshot (own_log a s1)) = (m, None) ->
  ag_replay t m0 (stored <$> since_snapshot (own_log a s1)) = (m, None).
Proof.
  intros [Hf|(Hre & Hover & Hne & Hm)] HI Hpre [Hwf Hend] Hf1 Hr.
  - rewrite Hf in Hf1. by injection Hf1 as ->.
  - specialize (Hend Hre). unfold ends_in_snapshot in Hend.
    destruct (last (own_log a s1)) as [x|] eqn:Hl.
    + apply last_Some in Hl as [l' Hl]. rewrite Hl, (since_snapshot_snoc l' x Hend) in *.
      apply Forall_cons in Hwf as [(v & _ & _ & Hids & _) _]. fold (own_log a s1) in Hids.
      rewrite Hl, Forall_app, Forall_singleton in Hids. destruct Hids as [_ Hids].
      unfold ag_replay in *. simpl in *. by rewrite (Hover t m0 m1 x HI (Hm _ Hf1) Hids Hend).
    + apply last_None in Hl. rewrite Hl in Hpre. by apply prefix_nil_inv in Hpre.
Qed.

(** What a command that answered with the events [evs] did; it left the model [m']
    and had those of [others]. *)
Definition committed_with (a : Aggregate M) (m0 : M) (cmd : C) (s s' : St) (evs : list E)
    (m' : M) (others : string -> option M) : Prop :=
  exists t clk m ts snapshot,
    ag_replay t m0 (stored <$> since_snapshot (own_log a s)) = (m, None) /\
    ag_HandleCommand clk others m cmd (next_version (own_log a s)) = (m', inr evs) /\
    ag_TakeSnapshot ts m' (u64 (next_version (own_log a s) + (Z.of_nat (length evs) - 1)))
    = Some snapshot /\
    own_log a s' = own_log a s ++ removelast evs ++ [snapshot].
Definition committed (a : Aggregate M) (m0 : M) (cmd : C) (s s' : St) (evs : list E) : Prop :=
  exists m' others, committed_with a m0 cmd s s' evs m' others.

Lemma HandleCommand_go_committed I reuse fuel attempts first a m0 f retry s cmd s' retry' evs m' oth :
  aggregate_ok a -> handles_for I a cmd -> I m0 -> attempts_ok reuse a attempts ->
  (reuse = true -> snapshot_replaces I a) -> store_ok reuse a s -> as_new I reuse a m0 f s ->
  HandleCommand_go reuse fuel attempts first a f retry s cmd = Some (s', retry', inr (evs, m', oth)) ->
  evs <> [] -> exists s2, store_ok reuse a s2 /\ own_log a s `prefix_of` own_log a s2 /\
                          committed_with a m0 cmd s2 s' evs m' oth.
Proof.
  intros Hok Hf HI. revert attempts first f retry s.
  induction fuel as [|fuel IH]; intros attempts first f retry s Hatt Hover Hst Hnew Hh Hne; [done|].
  cbn [HandleCommand_go] in Hh.
  destruct (if first then (retry, None) else HandleRetry retry (at_canceled (attempts 0)))
    as [r2 [er|]]; [done|].
  destruct (Hatt 0) as [Hload Hsave]. destruct (Hload s Hst) as [Hst1 Hpre1].
  set (s1 := at_before_load (attempts 0) s) in *.
  destruct (NewAggregateModel _ _ _ _ _ _) as [[er|[w others]]|] eqn:Hl; [done| |done].
  apply NewAggregateModel_spec in Hl as (m1 & Hf1 & Hrep & Hnv); [|done|apply Hst1].
  pose proof (replay_as_new _ _ _ _ _ _ s1 _ _ _ Hnew HI Hpre1 Hst1 Hf1 Hrep) as Hrep0.
  destruct (HandleCommandWithAggregateModelWrapper _ _ _ _ _ _ _) as [[s3 w3] [er|[evs' faster]]] eqn:Hw;
    [done|].
  apply attempt_spec in Hw as (m & r & Hc & Hw3 & [(-> & -> & -> & ->)|(Hr & snapshot & Hsn & Hcase)]).
  { by injection Hh as <- <- <-. }
  destruct (Hsave s1 Hst1) as [Hst2 Hpre2]. set (s2 := at_before_save (attempts 0) s1) in *.
  rewrite Hnv in Hc, Hsn. fold (own_log a s1) in Hc, Hsn.
  assert (HIw : I (w_model w)).
  { eapply replay_own; [done|exact HI|apply Hst1|exact Hrep0]. }
  pose proof (fun Hval => saved_first _ _ _ _ _ _ _ _ _ _ _ Hf HIw (next_version_u64 _) Hc Hr Hsn Hval)
    as Hfirst.
  destruct Hcase as [(-> & -> & Hs)|(-> & -> & Hs)].
  - injection Hh as <- <- <- Hm' <-. apply Save_Ok in Hs as [Hval Hs].
    destruct (Hfirst Hval) as (e1 & Hhd & Hv1 & Hg1 & Ha1). destruct (Hs e1 Hhd) as [Hver Hlog]. rewrite Hg1, Ha1, Hv1 in *.
    assert (Hsame : own_log a s2 = own_log a s1).
    { apply (same_log (a_groupID a) (a_aggregateID a)); [|done|by symmetry].
      destruct Hst2 as [Hst2 _]. by apply Forall_cons in Hst2 as [? _]. }
    exists s2. split; [done|]. split; [by etrans|].
    exists (at_load (attempts 0)), (at_clock (attempts 0)), (w_model w), (at_snapshot (attempts 0)),
      snapshot. rewrite Hsame, <- Hm', Hw3. split_and!; [done..|].
    unfold own_log at 1. rewrite Hlog, decide_True by done. by fold (own_log a s2); rewrite Hsame.
  - apply Save_ConcurrencyException in Hs as (Hval & Hlogs & Hs).
    destruct (Hfirst Hval) as (e1 & Hhd & Hv1 & Hg1 & Ha1). specialize (Hs e1 Hhd).
    rewrite Hg1, Ha1, Hv1 in Hs. fold (own_log a s2) in Hs.
    assert (Hown : own_log a s3 = own_log a s2) by apply Hlogs.
    apply IH in Hh as (s4 & Hst4 & Hpre4 & Hcom); [| |done| | |done].
    + exists s4. split; [done|]. split; [|done]. rewrite Hown in Hpre4. by etrans; [|etrans].
    + intros n. apply (Hatt (S n)).
    + by eapply store_ok_logs.
    + destruct reuse; simpl; [|by left; destruct Hnew as [?|[? _]]].
      right. split; [done|]. split; [by apply Hover|]. split.
      * rewrite Hown. intros Hnil. rewrite Hnil in *.
        apply prefix_nil_inv in Hpre2. rewrite Hpre2 in Hs. done.
      * unfold next_factory. rewrite String.eqb_refl, Hw3. intros m2 [= <-].
        by destruct (hf_command _ _ _ Hf _ _ _ _ _ _ HIw (next_version_u64 _) Hc).
Qed.

(** C5: No update is lost: when a command answers with events, the log its
    events were added to is the one its model had replayed (other writers
    may have been faster in attempts before, and write before and after, but never
    in between), the command was given the next version of that log, and the
    log was extended by exactly its events, the last one replaced by the
    snapshot of the new state.  This holds for factories that make new models
    and, when snapshots replace models, for those that use them again. *)
Theorem HandleCommand_serializable I reuse attempts a m0 retry s cmd s' retry' evs :
  aggregate_ok a -> handles_for I a cmd -> I m0 -> attempts_ok reuse a attempts ->
  (reuse = true -> snapshot_replaces I a) -> store_ok reuse a s ->
  a_factoryModel a (a_groupID a) (a_aggregateID a) = inr m0 ->
  HandleCommand reuse attempts a retry s cmd = Some (s', retry', inr evs) -> evs <> [] ->
  exists s2, store_ok reuse a s2 /\ own_log a s `prefix_of` own_log a s2 /\
             committed a m0 cmd s2 s' evs.
Proof.
  intros Hok Hf HI Hatt Hre Hst Hm Hh Hne. unfold HandleCommand in Hh.
  destruct (HandleCommand_go _ _ _ _ _ _ _ _ _) as [[[s1 r1] [er|[[evs1 m1] o1]]]|] eqn:Hgo; [done| |done].
  injection Hh as <- <- <-.
  eapply HandleCommand_go_committed in Hgo as (s2 & H1 & H2 & H3); [|done..|by left|done].
  exists s2. split_and!; [done|done|by exists m1, o1].
Qed.

(** The load after a command continues where the command ended: the model
    is what the snapshot makes of a new one, and the next version is the
    old one plus the number of events. *)
Theorem load_after_command I a m0 cmd s s' evs t w others :
  aggregate_ok a -> handles_for I a cmd -> I m0 -> wf_store a s -> wf_store a s' ->
  a_factoryModel a (a_groupID a) (a_aggregateID a) = inr m0 ->
  committed a m0 cmd s s' evs ->
  NewAggregateModel t (a_groupID a) (a_aggregateID a) s' (a_factoryModel a) (a_additionalModels a)
  = Some (inr (w, others)) ->
  new_version w = u64 (next_version (own_log a s) + Z.of_nat (length evs)) /\
  exists clk others m m' ts v snapshot,
    ag_HandleCommand clk others m cmd (next_version (own_log a s)) = (m', inr evs) /\
    ag_TakeSnapshot ts m' v = Some snapshot /\ ag_step t m0 (stored snapshot) = (w_model w, None).
Proof.
  intros Hok Hf HI Hwf Hwf' Hm0 (m' & oth & t1 & clk & m & ts & snapshot & Hrep1 & Hc & Hs & Hlog) Hl.
  apply NewAggregateModel_spec in Hl as (m1 & Hf1 & Hrep & Hnv); [|done..].
  rewrite Hm0 in Hf1. injection Hf1 as <-. fold (own_log a s') in Hrep, Hnv.
  assert (HIm : I m) by (eapply replay_own; [done|exact HI|exact Hwf|exact Hrep1]).
  destruct (hf_command _ _ _ Hf _ _ _ _ _ _ HIm (next_version_u64 _) Hc) as (HI' & _).
  destruct (hf_snapshot _ _ _ Hf _ _ _ _ HI' Hs) as (Hsv & Hsnap & _).
  rewrite Hlog, app_assoc in *. rewrite since_snapshot_snoc in Hrep by done. split.
  - rewrite Hnv. unfold next_version at 1. rewrite last_snoc, Hsv. unfold u64.
    rewrite Zplus_mod_idemp_l. f_equal. lia.
  - exists clk, oth, m, m', ts, (u64 (next_version (own_log a s) + (Z.of_nat (length evs) - 1))), snapshot.
    split_and!; [done|done|].
    unfold ag_replay in Hrep. simpl in Hrep. by destruct (ag_step t m0 (stored snapshot)) as [? [|]].
Qed.
End aggregate.
