(* ===== verification/ResourceModel.v ===== *)
(** * The models of the resource aggregates

    resource-aggregate/service/aggregate.go: which model the aggregate of a
    resource is loaded into, and the aggregate that is made of it.  The state of
    a resource and the links of its device implement the interface of
    Aggregate; its theorems, applied to resources. *)

From Stdlib Require Import ZArith Lia String.
From S2P Require Import Prelude Commands Events EventStore Handler Projection ProjectionFacts.
From S2P Require Import Aggregate AggregateFacts ResourceState ResourceStateFacts ResourceStateSpec.
From S2P Require Import ResourceLinks.

Inductive ResourceModel :=
  | ResourceState_ (e : ResourceStateSnapshotTaken)
  | ResourceLinks_ (e : ResourceLinksSnapshotTaken).

Section model.
Context `{!UUIDLib} `{!StringSet} `{!ContentCodec} (cc : CommandContext)
  (order : gmap string Resource -> list string).

(** The identifiers that the aggregates of a resource have. *)
Definition linksAggregateID (deviceID : string) : string :=
  ResourceId_ToUUID (Some (NewResourceID deviceID ResourceLinksHref)).

(** resourceStateModel.model: both objects are made by newResourceStateModel. *)
Definition resourceStateModel_model (groupID aggregateID : string) : result ResourceModel :=
  if String.eqb aggregateID (linksAggregateID groupID)
  then inr (ResourceLinks_ NewResourceLinksSnapshotTaken)
  else inr (ResourceState_ NewResourceStateSnapshotTaken).

(** resourceStateModel.isPublished *)
Definition isPublished (links : option ResourceLinksSnapshotTaken) (resourceID : option ResourceId)
    : bool :=
  match links with
  | None => false
  | Some l =>
      match rls_Resources l with
      | None => false
      | Some resources => bool_decide (is_Some (resources !! (resourceID ~> rid_Href)))
      end
  end.

(** The links that the state of a resource points to: those loaded for the
    device, or the empty ones. *)
Definition links_of (deviceID : string) (others : string -> option ResourceModel)
    : ResourceLinksSnapshotTaken :=
  match others (linksAggregateID deviceID) with
  | Some (ResourceLinks_ l) => l
  | _ => NewResourceLinksSnapshotTaken
  end.
Definition with_links (l : ResourceLinksSnapshotTaken) : CommandContext :=
  MkCommandContext (cc_userID cc) (cc_owner cc) (cc_hubID cc) (Some l) (cc_trace cc).

(** The methods of the two models; [deviceID] is the device they were made for. *)
Definition rm_step (t : time_) (m : ResourceModel) (eu : LoadedEvent AnyEvent)
    : ResourceModel * option error :=
  match m with
  | ResourceState_ e => let '(e, err) := loop_body ResourceState.handleByEvent t e eu in
                        (ResourceState_ e, err)
  | ResourceLinks_ e => let '(e, err) := loop_body (ResourceLinks.handleByEvent order) t e eu in
                        (ResourceLinks_ e, err)
  end.
Definition rm_HandleCommand (deviceID : string) (clk : nat -> time_)
    (others : string -> option ResourceModel) (m : ResourceModel) (cmd : Command) (newVersion : Z)
    : ResourceModel * result (list AnyEvent) :=
  match m with
  | ResourceState_ e =>
      let '(e, r) := ResourceState.HandleCommand (with_links (links_of deviceID others)) clk e cmd
                       newVersion in (ResourceState_ e, r)
  | ResourceLinks_ e =>
      let '(e, r) := ResourceLinks.HandleCommand cc order (clk 0) e cmd newVersion in
      (ResourceLinks_ e, r)
  end.
Definition rm_TakeSnapshot (t : time_) (m : ResourceModel) (version : Z) : option AnyEvent :=
  match m with
  | ResourceState_ e => Some (EvResourceStateSnapshotTaken (ResourceState.TakeSnapshot t e version))
  | ResourceLinks_ e => Some (EvResourceLinksSnapshotTaken (ResourceLinks.TakeSnapshot t e version))
  end.

Definition ResourceModel_AggregateModel (deviceID : string)
    : AggregateModel ResourceModel AnyEvent AnyEvent Command := {|
  ag_step := rm_step; ag_HandleCommand := rm_HandleCommand deviceID;
  ag_TakeSnapshot := rm_TakeSnapshot |}.

(** NewResourceAggregate *)
Definition NewResourceAggregate (resourceID : option ResourceId) (addLinkedResources : bool)
    : result (Aggregate ResourceModel) :=
  let deviceID := resourceID ~> rid_DeviceId in
  let addLink := if addLinkedResources
                 then [MkAdditionalModel deviceID (linksAggregateID deviceID)] else [] in
  match Aggregate.NewAggregate deviceID (ResourceId_ToUUID resourceID) resourceStateModel_model addLink with
  | inl err => inl (Wrap "cannot create aggregate for resource" err)
  | inr a => inr a
  end.
End model.

(** ** Theorems *)
Section facts.
Context `{!UUIDLib, !UUIDLaws} `{!StringSet} `{!ContentCodec} (cc : CommandContext)
  (order : gmap string Resource -> list string) (rid : option ResourceId).
#[local] Abbreviation deviceID := (rid ~> rid_DeviceId).
#[local] Instance model : AggregateModel ResourceModel AnyEvent AnyEvent Command :=
  ResourceModel_AggregateModel cc order deviceID.

(** The model of the resource [rid]: its state names no resource yet, or one with
    the identifiers of [rid]. *)
Definition names (e : ResourceStateSnapshotTaken) : Prop :=
  rss_ResourceId e = None \/
  (ResourceId_ToUUID (rss_ResourceId e) = ResourceId_ToUUID rid /\
   (rss_ResourceId e) ~> rid_DeviceId = deviceID).
Definition model_names (m : ResourceModel) : Prop :=
  match m with ResourceState_ e => names e | ResourceLinks_ _ => False end.

Lemma setResourceTypes_id e l : rss_ResourceId (setResourceTypes e l) = rss_ResourceId e.
Proof. unfold setResourceTypes. by case_match. Qed.

(** An event names its resource in the state, or leaves the state's. *)
Lemma handleByEvent_names t e (ev : AnyEvent) :
  AggregateID ev = ResourceId_ToUUID rid -> GroupID ev = deviceID -> names e ->
  names (ResourceState.handleByEvent t e (loaded ev)).1.
Proof.
  intros Ha Hg Hn. destruct ev; try exact Hn; cbn in Ha, Hg |- *;
    unfold handleEventResourceChanged, handleEventResourceUpdatePending, handleEventResourceUpdated,
      handleEventResourceRetrievePending, handleEventResourceRetrieved, handleEventResourceDeletePending,
      handleEventResourceDeleted, findResourceDeletePendingIndex, handleEventResourceCreatePending,
      handleEventResourceCreated, processValidUntil;
    cases_goal; unfold names; rewrite ?setResourceTypes_id; by right.
Qed.

(** The resource is not one that the hub keeps itself. *)
Definition plain_resource : Prop :=
  (rid ~> rid_Href) <> ""%string /\ (rid ~> rid_Href) <> ResourceLinksHref /\
  (rid ~> rid_Href) <> StatusHref /\ (rid ~> rid_Href) <> ServicesResourceHref.

Lemma loop_body_replay {State} (hb : time_ -> State -> LoadedEvent AnyEvent -> State * option error)
    t e eu e' :
  loop_body hb t e eu = (e', None) -> le_eventType eu <> ""%string /\ hb t e eu = (e', None).
Proof. unfold loop_body. destruct (String.eqb_spec (le_eventType eu) ""); [done|]. by split. Qed.

Lemma model_handles_for a cmd `{!EventStore St AnyEvent AnyEvent, !EventStoreLaws St AnyEvent AnyEvent} :
  (forall ev, stored ev = loaded ev) -> command_resource cmd = rid ->
  a_groupID a = deviceID -> a_aggregateID a = ResourceId_ToUUID rid ->
  handles_for model_names a cmd.
Proof.
  intros Hst Hcmd Hg Ha. split.
  - intros t [e|e] ev m' Hn [Hevg Heva] Hs; [|done]. rewrite Hst in Hs. cbn in Hs.
    destruct (loop_body _ t e (loaded ev)) as [e' [er|]] eqn:Hb; [done|]. injection Hs as <-.
    apply loop_body_replay in Hb as [_ Hb]. simpl.
    pose proof (handleByEvent_names t e ev) as Hnm. rewrite Hb in Hnm. apply Hnm; [congruence|congruence|done].
  - intros clk others [e|e] v m' evs Hn Hv Hc; [|done]. cbn in Hc.
    pose proof (HandleCommand_outcome (with_links cc (links_of deviceID others)) clk e cmd v Hv) as Ho.
    pose proof (fun Hstep => outcome_invariant _ _ names _ _ _ _ _ _ _ Hstep Ho Hn) as Hinv.
    destruct (ResourceState.HandleCommand _ _ _ _ _) as [e' [er|r]]; [done|]. injection Hc as <- <-.
    rewrite Hcmd in *. split_and!.
    + apply Hinv. intros e1 ev [(Hev1 & Hev2 & _) _]. by apply handleByEvent_names.
    + apply Ho.
    + eapply Forall_impl; [apply Ho|]. intros ev [(Hev1 & Hev2 & _) _]. split; congruence.
  - intros t [e|e] v snapshot Hn Hs; [|done]. injection Hs as <-. split_and!; [done..|].
    destruct Hn as [Hn|[Hn1 Hn2]]; [|intros _; split; cbn; congruence].
    change (GroupID _) with ((rss_ResourceId e) ~> rid_DeviceId). rewrite Hn.
    change (None ~> rid_DeviceId) with ""%string. by rewrite uuid_Parse_empty.
Qed.

(** A snapshot of the resource replaces all of a state. *)
Lemma own_snapshot a ev :
  plain_resource -> a_groupID a = deviceID -> a_aggregateID a = ResourceId_ToUUID rid ->
  own_event (M := ResourceModel) a ev -> IsSnapshot ev = true ->
  exists s, ev = EvResourceStateSnapshotTaken s.
Proof.
  intros (Hne & Hl & Hst & Hsv) Hg Ha [Hevg Heva] Hs. rewrite Hg in Hevg. rewrite Ha in Heva.
  unfold ResourceId_ToUUID in Heva. destruct (String.eqb_spec (rid ~> rid_Href) "") as [|_]; [done|].
  assert (Hother : forall d h, uuid_NewSHA1 (d +:+ h) = uuid_NewSHA1 (deviceID +:+ rid ~> rid_Href) ->
    d = deviceID -> rid ~> rid_Href = h).
  { intros d h Hu ->. apply uuid_NewSHA1_inj in Hu. revert Hu. clear.
    generalize (rid ~> rid_Href). induction deviceID as [|c s IH]; intros h' Hu; [by symmetry|].
    injection Hu as Hu. by apply IH. }
  destruct ev; try done; [|by eexists| |]; exfalso; by apply Hother in Heva.
Qed.

Lemma model_snapshot_replaces a `{!EventStore St AnyEvent AnyEvent, !EventStoreLaws St AnyEvent AnyEvent} :
  (forall ev, stored ev = loaded ev) -> plain_resource ->
  a_groupID a = deviceID -> a_aggregateID a = ResourceId_ToUUID rid ->
  snapshot_replaces model_names a.
Proof.
  intros Hst Hp Hg Ha t [e|e] [e'|e'] ev HI HI' Hown Hs; try done.
  destruct (own_snapshot a ev Hp Hg Ha Hown Hs) as [s ->]. rewrite Hst. reflexivity.
Qed.

Lemma state_replay t e l :
  ag_replay t (ResourceState_ e) l
  = (ResourceState_ (ResourceState.Handle (fun _ => t) e l None).1,
     (ResourceState.Handle (fun _ => t) e l None).2).
Proof.
  unfold ag_replay, ResourceState.Handle. revert e. induction l as [|eu l IH]; intros e; [done|].
  cbn. unfold loop_body. destruct (String.eqb _ _); [done|].
  destruct (ResourceState.handleByEvent t e eu) as [e' [er|]]; [done|]. apply IH.
Qed.

Lemma NewResourceAggregate_fields b a :
  NewResourceAggregate rid b = inr a -> a_groupID a = deviceID /\
  a_aggregateID a = ResourceId_ToUUID rid /\ a_factoryModel a = resourceStateModel_model /\
  deviceID <> ""%string /\ ResourceId_ToUUID rid <> ""%string /\ aggregate_ok a.
Proof.
  unfold NewResourceAggregate, Aggregate.NewAggregate. intros Hn.
  destruct (String.eqb_spec deviceID ""); [done|].
  destruct (String.eqb_spec (ResourceId_ToUUID rid) ""); [done|]. injection Hn as <-.
  split_and!; try done; unfold aggregate_ok, queried; cbn; destruct b; cbn; repeat constructor; try done.
  intros Hl. pose proof (uuid_NewSHA1_parses (deviceID +:+ ResourceLinksHref)) as Hp.
  change (linksAggregateID deviceID) with (uuid_NewSHA1 (deviceID +:+ ResourceLinksHref)) in Hl.
  by rewrite Hl, uuid_Parse_empty in Hp.
Qed.

(** A command on a resource, through the loop: when it answers with events, there
    was a moment at which the log of the resource gave the state [e] to the
    aggregate, the handler made these events and the state [e'] of it with the links
    that were loaded, and the store added them to that log, with a snapshot in
    place of the last one, from which later loads rebuild [e'] up to the metadata
    of its last event.  The models that the attempts share do not matter. *)
Lemma resource_committed `{!EventStore St AnyEvent AnyEvent, !EventStoreLaws St AnyEvent AnyEvent}
    b a fuel attempts retry (s s' : St) retry' cmd evs m' others :
  (forall ev, stored ev = loaded ev) -> plain_resource ->
  NewResourceAggregate rid b = inr a -> command_resource cmd = rid ->
  attempts_ok true a attempts -> store_ok true a s ->
  HandleCommand_go true fuel attempts true a (a_factoryModel a) retry s cmd
  = Some (s', retry', inr (evs, m', others)) -> evs <> [] ->
  exists s2 t clk e e' snapshot,
    own_log a s `prefix_of` own_log a s2 /\
    ResourceState.Handle (fun _ => t) NewResourceStateSnapshotTaken
      (loaded <$> since_snapshot (own_log a s2)) None = (e, None) /\
    ResourceState.HandleCommand (with_links cc (links_of deviceID others)) clk e cmd
      (next_version (own_log a s2)) = (e', inr evs) /\ m' = ResourceState_ e' /\
    versions_from (next_version (own_log a s2)) evs /\ Forall (own_event a) evs /\
    Version (EvResourceStateSnapshotTaken snapshot)
    = u64 (next_version (own_log a s2) + (Z.of_nat (length evs) - 1)) /\
    own_log a s' = own_log a s2 ++ removelast evs ++ [EvResourceStateSnapshotTaken snapshot] /\
    forall t', res_eq (ResourceState.Handle (fun _ => t') NewResourceStateSnapshotTaken
                         [loaded (EvResourceStateSnapshotTaken snapshot)] None) (e', None).
Proof.
  intros Hst Hp Ha Hcmd Hatt Hok Hh Hne.
  destruct (NewResourceAggregate_fields b a Ha) as (Hg & Hid & Hf & _ & _ & Hagg).
  assert (Hm0 : a_factoryModel a (a_groupID a) (a_aggregateID a)
                = inr (ResourceState_ NewResourceStateSnapshotTaken)).
  { rewrite Hf, Hg, Hid. unfold resourceStateModel_model, linksAggregateID.
    destruct (String.eqb_spec (ResourceId_ToUUID rid)
      (ResourceId_ToUUID (Some (NewResourceID deviceID ResourceLinksHref)))) as [Heq|]; [|done].
    exfalso. destruct Hp as (Hne0 & Hl & _). apply Hl. unfold ResourceId_ToUUID in Heq.
    destruct (String.eqb_spec (rid ~> rid_Href) "") as [|_]; [done|].
    change (uuid_NewSHA1 (deviceID +:+ rid ~> rid_Href) = uuid_NewSHA1 (deviceID +:+ ResourceLinksHref))
      in Heq. apply uuid_NewSHA1_inj in Heq. revert Heq. clear. generalize (rid ~> rid_Href).
    induction deviceID as [|c s IH]; intros h' Hu; [done|]. injection Hu as Hu. by apply IH. }
  apply (HandleCommand_go_committed model_names true _ _ _ _ (ResourceState_ NewResourceStateSnapshotTaken))
    in Hh as (s2 & Hok2 & Hpre & Hcom); [|done|by apply model_handles_for|by left|done
      |intros _; by apply model_snapshot_replaces|done|by left|done].
  destruct Hcom as (t & clk & m & ts & snap & Hrep & Hc & Hs & Hlog).
  pose proof (model_handles_for a cmd Hst Hcmd Hg Hid) as Hfor.
  assert (Hnames : model_names m).
  { eapply (replay_own model_names a cmd); [exact Hfor| |exact (proj1 Hok2)|exact Hrep]. by left. }
  destruct (hf_command _ _ _ Hfor _ _ _ _ _ _ Hnames (next_version_u64 _) Hc) as (_ & Hver & Hown).
  assert (Hmap : forall l : list AnyEvent, stored <$> l = loaded <$> l).
  { intros l. apply list_fmap_ext. intros _ ev _. apply Hst. }
  rewrite state_replay, Hmap in Hrep.
  destruct (ResourceState.Handle _ _ _ _) as [e er] eqn:He. injection Hrep as <- ->.
  cbn in Hc. destruct (ResourceState.HandleCommand _ _ _ _ _) as [e' r] eqn:Hcm.
  injection Hc as <- ->. injection Hs as <-.
  exists s2, t, clk, e, e', (ResourceState.TakeSnapshot ts e' (u64 (next_version (own_log a s2)
    + (Z.of_nat (length evs) - 1)))). split_and!; [done..|exact Hlog|].
  intros t'. split; [|done]. exact (TakeSnapshot_meta_eq ts e' _).
Qed.
End facts.
