(* ===== verification/Validation.v ===== *)
(** * Requests at the door of the service

    resource-aggregate/service: the checks a request has to pass before it is
    handled (aggregate.go, updateDeviceMetadata.go, confirmDeviceMetadataUpdate.go,
    cancelDeviceMetadataUpdates.go, cancelResourceCommands.go,
    updateServiceHeartbeat.go, utils.go), the methods that handle it, and the
    removal of the events that a snapshot has made superfluous. *)

From Stdlib Require Import ZArith Lia String Ascii.
From S2P Require Import Prelude Commands Events EventStore Handler Projection Aggregate.

(** utils.go *)
Definition checkTimeToLive (timeToLive : Z) : option error :=
  if negb (timeToLive =? 0)%Z && (timeToLive <? Millisecond * 100)%Z
  then Some (Errorf InvalidArgument "timeToLive(`%v`) is less than 100ms") else None.

(** updateDeviceMetadata.go *)
Definition checkTimeToLiveForDefault (defaultTimeToLive reqTimeToLive : Z) : Z :=
  if (defaultTimeToLive =? 0)%Z then reqTimeToLive
  else if negb (reqTimeToLive =? 0)%Z then reqTimeToLive else defaultTimeToLive.

(** [if err := c; err != nil { return err }] *)
Notation "'check!' c 'in' k" := (match c with Some err => Some err | None => k end)
  (at level 10, c at level 100, k at level 200) : go_scope.

(** ** aggregate.go *)
Definition errInvalidDeviceID : error := Errorf InvalidArgument "invalid DeviceId".
Definition errInvalidContent : error := Errorf InvalidArgument "invalid Content".
Definition errInvalidCorrelationID : error := Errorf InvalidArgument "invalid CorrelationId".
Definition errInvalidResourceIdDeviceID : error := Errorf InvalidArgument "invalid ResourceId.DeviceId".
Definition errInvalidResourceIdHref : error := Errorf InvalidArgument "invalid ResourceId.Href".

(** [if b { return err }] *)
Definition reject_if (b : bool) (err : error) : option error := if b then Some err else None.

(** [href[:1] != "/"] *)
Definition starts_with_slash (href : string) : bool :=
  match href with String c _ => Ascii.eqb c "/" | EmptyString => false end.

Fixpoint validatePublish_resources (resources : list Resource) : option error :=
  match resources with
  | [] => None
  | res :: resources =>
      check! reject_if ((String.length (res_Href res) <=? 1)%nat || negb (starts_with_slash (res_Href res)))
              (Errorf InvalidArgument "invalid resource href") in
      check! reject_if (String.eqb (res_DeviceId res) "") (Errorf InvalidArgument "invalid device id") in
      validatePublish_resources resources
  end.
Definition validatePublish (request : PublishResourceLinksRequest) : option error :=
  let resources := elems (plr_Resources request) in
  check! reject_if (length resources =? 0)%nat
          (Errorf InvalidArgument "empty publish is not accepted") in
  check! validatePublish_resources resources in
  reject_if (String.eqb (plr_DeviceId request) "") errInvalidDeviceID.

Definition validateUnpublish (request : UnpublishResourceLinksRequest) : option error :=
  check! reject_if (String.eqb (ulr_DeviceId request) "") errInvalidDeviceID in
  reject_if (existsb (fun href => String.eqb href "") (ulr_Hrefs request))
    (Errorf InvalidArgument "invalid resource id").

(** The two checks of a resource that all commands on resources make. *)
Definition check_resource (rid : option ResourceId) : option error :=
  check! reject_if (String.eqb (rid ~> rid_DeviceId) "") errInvalidResourceIdDeviceID in
  reject_if (String.eqb (rid ~> rid_Href) "") errInvalidResourceIdHref.
Definition check_content (content : option Content) : option error :=
  reject_if (bool_decide (content = None)) errInvalidContent.
Definition check_correlation (correlationID : string) : option error :=
  reject_if (String.eqb correlationID "") errInvalidCorrelationID.

Definition validateNotifyContentChanged (r : NotifyResourceChangedRequest) : option error :=
  check! check_content (ncr_Content r) in check_resource (ncr_ResourceId r).
Definition validateUpdateResourceContent (r : UpdateResourceRequest) : option error :=
  check! checkTimeToLive (urr_TimeToLive r) in check! check_content (urr_Content r) in
  check! check_resource (urr_ResourceId r) in check_correlation (urr_CorrelationId r).
Definition validateRetrieveResource (r : RetrieveResourceRequest) : option error :=
  check! checkTimeToLive (rrr_TimeToLive r) in check! check_resource (rrr_ResourceId r) in
  check_correlation (rrr_CorrelationId r).
Definition validateConfirmResourceUpdate (r : ConfirmResourceUpdateRequest) : option error :=
  check! check_content (cur_Content r) in check! check_resource (cur_ResourceId r) in
  check_correlation (cur_CorrelationId r).
Definition validateConfirmResourceRetrieve (r : ConfirmResourceRetrieveRequest) : option error :=
  check! check_content (ctr_Content r) in check! check_resource (ctr_ResourceId r) in
  check_correlation (ctr_CorrelationId r).
Definition validateDeleteResource (r : DeleteResourceRequest) : option error :=
  check! checkTimeToLive (drr_TimeToLive r) in check! check_resource (drr_ResourceId r) in
  check_correlation (drr_CorrelationId r).
Definition validateCreateResource (r : CreateResourceRequest) : option error :=
  check! checkTimeToLive (crr_TimeToLive r) in check! check_resource (crr_ResourceId r) in
  check! check_correlation (crr_CorrelationId r) in check! check_content (crr_Content r) in
  reject_if (bool_decide ((crr_Content r) ~> ct_Data = None))
    (Errorf InvalidArgument "invalid Content.Data").
Definition validateConfirmResourceCreate (r : ConfirmResourceCreateRequest) : option error :=
  check! check_content (ccr_Content r) in check! check_resource (ccr_ResourceId r) in
  check_correlation (ccr_CorrelationId r).
Definition validateConfirmResourceDelete (r : ConfirmResourceDeleteRequest) : option error :=
  check! check_resource (cdr_ResourceId r) in check_correlation (cdr_CorrelationId r).

(** ** The other files *)
Definition validateCancelResourceCommand (r : CancelPendingCommandsRequest) : option error :=
  check! reject_if (String.eqb ((cpr_ResourceId r) ~> rid_DeviceId) "")
          (Errorf InvalidArgument "invalid DeviceId") in
  reject_if (String.eqb ((cpr_ResourceId r) ~> rid_Href) "") (Errorf InvalidArgument "invalid Href").
Definition validateUpdateDeviceMetadata (r : UpdateDeviceMetadataRequest) : option error :=
  check! checkTimeToLive (udr_TimeToLive r) in
  check! reject_if (String.eqb (udr_DeviceId r) "") (Errorf InvalidArgument "invalid DeviceId") in
  reject_if (bool_decide (udr_Update r = None)) (Errorf InvalidArgument "update type (%T) invalid").
Definition validateConfirmDeviceMetadataUpdate (r : ConfirmDeviceMetadataUpdateRequest) : option error :=
  check! reject_if (String.eqb (cmr_DeviceId r) "") (Errorf InvalidArgument "invalid DeviceId") in
  reject_if (bool_decide (cmr_Confirm r = None)) (Errorf InvalidArgument "confirm has invalid type (%T)").
Definition validateCancelPendingMetadataUpdates (r : CancelPendingMetadataUpdatesRequest) : option error :=
  reject_if (String.eqb (cxr_DeviceId r) "") (Errorf InvalidArgument "invalid DeviceId").
Definition validateUpdateServiceMetadata (r : UpdateServiceMetadataRequest) : option error :=
  check! reject_if (bool_decide (usr_Update r = None)) (Errorf InvalidArgument "invalid update") in
  check! reject_if (bool_decide (usr_GetHeartbeat r = None))
          (Errorf InvalidArgument "unexpected update %T") in
  check! reject_if (String.eqb ((usr_GetHeartbeat r) ~> hb_ServiceId) "")
          (Errorf InvalidArgument "invalid heartbeat.serviceId") in
  reject_if ((usr_GetHeartbeat r) ~> hb_TimeToLive <? Second)%Z
    (Errorf InvalidArgument "invalid heartbeat.timeToLive(%v): is less than 1s").

(** ** The methods of the service's Aggregate

    [wrap fmt] stands for [fmt.Errorf(fmt, err)] around the error of a check. *)
Definition wrap (format : string) (r : option error) : option error :=
  match r with Some err => Some (Wrap format err) | None => None end.

(** The check that the method for a command makes. *)
Definition validate (cmd : Command) : option error :=
  match cmd with
  | CmdPublishResourceLinks r => wrap "invalid publish resource links command" (validatePublish r)
  | CmdUnpublishResourceLinks r => wrap "invalid unpublish resource links command" (validateUnpublish r)
  | CmdNotifyResourceChanged r =>
      wrap "invalid notify content changed command" (validateNotifyContentChanged r)
  | CmdUpdateResource r =>
      wrap "invalid update resource content command" (validateUpdateResourceContent r)
  | CmdConfirmResourceUpdate r =>
      wrap "invalid update resource content notification command" (validateConfirmResourceUpdate r)
  | CmdRetrieveResource r => wrap "invalid retrieve resource content command" (validateRetrieveResource r)
  | CmdConfirmResourceRetrieve r =>
      wrap "invalid retrieve resource content notification command" (validateConfirmResourceRetrieve r)
  | CmdDeleteResource r => wrap "invalid delete resource content command" (validateDeleteResource r)
  | CmdConfirmResourceDelete r =>
      wrap "invalid delete resource content notification command" (validateConfirmResourceDelete r)
  | CmdCreateResource r => wrap "invalid create resource content command" (validateCreateResource r)
  | CmdConfirmResourceCreate r =>
      wrap "invalid create resource content notification command" (validateConfirmResourceCreate r)
  | CmdCancelPendingCommands r => validateCancelResourceCommand r
  | CmdUpdateDeviceMetadata r => wrap "invalid update device metadata command" (validateUpdateDeviceMetadata r)
  | CmdConfirmDeviceMetadataUpdate r =>
      wrap "invalid update device metadata command" (validateConfirmDeviceMetadataUpdate r)
  | CmdCancelPendingMetadataUpdates r => validateCancelPendingMetadataUpdates r
  | CmdUpdateServiceMetadata r => validateUpdateServiceMetadata r
  | CmdUpdateDeviceToOffline _ | CmdConfirmExpiredServices _ | CmdOther => None
  end.

Section cleanup.
Context `{!UUIDLib}.

(** cleanUpToSnapshot: the last event of each aggregate, for which
    RemoveUpToVersion is called (in the order of a Go map, and without regard
    to errors). *)
Definition cleanUp (events : list AnyEvent) : gmap string AnyEvent :=
  fold_left (fun m event =>
    match m !! AggregateID event with
    | Some e => if (Version e <? Version event)%Z then <[AggregateID event := event]> m else m
    | None => <[AggregateID event := event]> m
    end) events ∅.
Definition cleanUpToSnapshot (events : list AnyEvent) : list VersionQuery :=
  (fun event => MkVersionQuery (GroupID event) (AggregateID event) (Version event))
    <$> (map_to_list (cleanUp events)).*2.
End cleanup.

Section service.
Context `{!UUIDLib} {M St : Type} `{!AggregateModel M AnyEvent AnyEvent Command}
  `{!EventStore St AnyEvent AnyEvent} (RemoveUpToVersion : St -> VersionQuery -> St).

(** Aggregate.HandleCommand of the service. *)
Definition HandleCommand reuse attempts a retry (store : St) (cmd : Command)
    : option (St * DefaultRetry * result (list AnyEvent)) :=
  match Aggregate.HandleCommand reuse attempts a retry store cmd with
  | Some (store, retry, inr events) =>
      Some (fold_left RemoveUpToVersion (cleanUpToSnapshot events) store, retry, inr events)
  | r => r
  end.

(** PublishResourceLinks, ..., ConfirmResourceCreate: check, then handle; the
    message of the error is that of the method. *)
Definition process (unable : string) reuse attempts a retry (store : St) (cmd : Command)
    : option (St * DefaultRetry * result (list AnyEvent)) :=
  match validate cmd with
  | Some err => Some (store, retry, inl err)
  | None =>
      match HandleCommand reuse attempts a retry store cmd with
      | Some (store, retry, inl err) => Some (store, retry, inl (Wrap unable err))
      | r => r
      end
  end.
End service.

(** ** What the checks accept *)
Definition accepted_ttl (t : Z) : Prop := t = 0%Z \/ (Millisecond * 100 <= t)%Z.
Definition accepted_resource (rid : option ResourceId) : Prop :=
  rid ~> rid_DeviceId <> ""%string /\ rid ~> rid_Href <> ""%string.

Definition accepted (cmd : Command) : Prop :=
  match cmd with
  | CmdPublishResourceLinks r =>
      elems (plr_Resources r) <> [] /\ plr_DeviceId r <> ""%string /\
      Forall (fun res => res_DeviceId res <> ""%string /\
                exists c s, res_Href res = String "/" (String c s)) (elems (plr_Resources r))
  | CmdUnpublishResourceLinks r => ulr_DeviceId r <> ""%string /\ Forall (fun h => h <> ""%string) (ulr_Hrefs r)
  | CmdNotifyResourceChanged r => ncr_Content r <> None /\ accepted_resource (ncr_ResourceId r)
  | CmdUpdateResource r =>
      accepted_ttl (urr_TimeToLive r) /\ urr_Content r <> None /\ accepted_resource (urr_ResourceId r) /\
      urr_CorrelationId r <> ""%string
  | CmdConfirmResourceUpdate r =>
      cur_Content r <> None /\ accepted_resource (cur_ResourceId r) /\ cur_CorrelationId r <> ""%string
  | CmdRetrieveResource r =>
      accepted_ttl (rrr_TimeToLive r) /\ accepted_resource (rrr_ResourceId r) /\
      rrr_CorrelationId r <> ""%string
  | CmdConfirmResourceRetrieve r =>
      ctr_Content r <> None /\ accepted_resource (ctr_ResourceId r) /\ ctr_CorrelationId r <> ""%string
  | CmdDeleteResource r =>
      accepted_ttl (drr_TimeToLive r) /\ accepted_resource (drr_ResourceId r) /\
      drr_CorrelationId r <> ""%string
  | CmdConfirmResourceDelete r => accepted_resource (cdr_ResourceId r) /\ cdr_CorrelationId r <> ""%string
  | CmdCreateResource r =>
      accepted_ttl (crr_TimeToLive r) /\ accepted_resource (crr_ResourceId r) /\
      crr_CorrelationId r <> ""%string /\ exists c, crr_Content r = Some c /\ ct_Data c <> None
  | CmdConfirmResourceCreate r =>
      ccr_Content r <> None /\ accepted_resource (ccr_ResourceId r) /\ ccr_CorrelationId r <> ""%string
  | CmdCancelPendingCommands r => accepted_resource (cpr_ResourceId r)
  | CmdUpdateDeviceMetadata r =>
      accepted_ttl (udr_TimeToLive r) /\ udr_DeviceId r <> ""%string /\ udr_Update r <> None
  | CmdConfirmDeviceMetadataUpdate r => cmr_DeviceId r <> ""%string /\ cmr_Confirm r <> None
  | CmdCancelPendingMetadataUpdates r => cxr_DeviceId r <> ""%string
  | CmdUpdateServiceMetadata r =>
      exists hb, usr_GetHeartbeat r = Some hb /\ hb_ServiceId hb <> ""%string /\
        (Second <= hb_TimeToLive hb)%Z
  | CmdUpdateDeviceToOffline _ | CmdConfirmExpiredServices _ | CmdOther => True
  end.

(** A check accepts exactly when [P], and rejects with InvalidArgument. *)
Definition checks (c : option error) (P : Prop) : Prop :=
  match c with None => P | Some err => ~ P /\ error_code err = InvalidArgument end.

Lemma checks_reject_if b c f P : c = InvalidArgument -> (b = false <-> P) -> checks (reject_if b (Errorf c f)) P.
Proof.
  intros -> Hb. destruct b; simpl; [|by apply Hb]. split; [|done]. intros Hp. by apply Hb in Hp.
Qed.
Lemma checks_and c k P Q : checks c P -> checks k Q -> checks (check! c in k) (P /\ Q).
Proof. destruct c; simpl; [|destruct k; simpl]; naive_solver. Qed.
Lemma checks_wrap format c P : checks c P -> checks (wrap format c) P.
Proof. by destruct c. Qed.
Lemma checks_iff c P Q : (P <-> Q) -> checks c P -> checks c Q.
Proof. intros Hpq. destruct c; simpl; naive_solver. Qed.

Lemma checks_nonempty s f : checks (reject_if (String.eqb s "") (Errorf InvalidArgument f)) (s <> ""%string).
Proof. apply checks_reject_if; [done|]. apply String.eqb_neq. Qed.
Lemma checks_present {A} (x : option A) `{!Decision (x = None)} f :
  checks (reject_if (bool_decide (x = None)) (Errorf InvalidArgument f)) (x <> None).
Proof. apply checks_reject_if; [done|]. apply bool_decide_eq_false. Qed.
Lemma checks_ttl t : checks (checkTimeToLive t) (accepted_ttl t).
Proof.
  unfold checkTimeToLive, accepted_ttl.
  apply (checks_reject_if _ InvalidArgument); [done|].
  destruct (Z.eqb_spec t 0), (Z.ltb_spec t (Millisecond * 100)); simpl; split; auto with lia; lia.
Qed.
Lemma checks_resource rid : checks (check_resource rid) (accepted_resource rid).
Proof. apply checks_and; apply checks_nonempty. Qed.
Lemma checks_content c : checks (check_content c) (c <> None).
Proof. apply checks_present. Qed.
Lemma checks_correlation s : checks (check_correlation s) (s <> ""%string).
Proof. apply checks_nonempty. Qed.

(** The checks one after the other. *)
Ltac solve_checks :=
  repeat first [apply checks_ttl|apply checks_resource|apply checks_content|apply checks_correlation
    |apply checks_nonempty|apply checks_present|apply checks_and].

Lemma starts_with_slash_spec s :
  (String.length s <=? 1)%nat || negb (starts_with_slash s) = false
  <-> exists c r, s = String "/" (String c r).
Proof.
  destruct s as [|c [|c' s]]; simpl; [split; [done|naive_solver]..|].
  destruct (Ascii.eqb_spec c "/") as [->|Hne]; simpl; split; try done.
  - intros _. by eexists _, _.
  - intros (? & ? & [= -> _ _]). done.
Qed.

Lemma checks_publish_resources l :
  checks (validatePublish_resources l)
    (Forall (fun res => res_DeviceId res <> ""%string /\
               exists c s, res_Href res = String "/" (String c s)) l).
Proof.
  induction l as [|res l IH]; simpl; [by constructor|].
  apply (checks_iff _ ((exists c s, res_Href res = String "/" (String c s)) /\
    res_DeviceId res <> ""%string /\ Forall (fun res => res_DeviceId res <> ""%string /\
      exists c s, res_Href res = String "/" (String c s)) l)).
  - rewrite Forall_cons. naive_solver.
  - apply checks_and; [|by apply checks_and; [apply checks_nonempty|]].
    apply checks_reject_if; [done|apply starts_with_slash_spec].
Qed.

Lemma checks_elems {A} (l : list A) f :
  checks (reject_if (length l =? 0)%nat (Errorf InvalidArgument f)) (l <> []).
Proof. apply checks_reject_if; [done|]. by destruct l. Qed.

Lemma checks_hrefs l f :
  checks (reject_if (existsb (fun href => String.eqb href "") l) (Errorf InvalidArgument f))
    (Forall (fun h => h <> ""%string) l).
Proof.
  apply checks_reject_if; [done|]. induction l as [|h l IH]; simpl; [done|].
  rewrite orb_false_iff, Forall_cons, IH, String.eqb_neq. done.
Qed.

Lemma checks_create_content (c : option Content) :
  checks (check! check_content c in
          reject_if (bool_decide (c ~> ct_Data = None)) (Errorf InvalidArgument "invalid Content.Data"))
    (exists x, c = Some x /\ ct_Data x <> None).
Proof.
  apply (checks_iff _ (c <> None /\ c ~> ct_Data <> None)).
  - destruct c as [c|]; simpl; naive_solver.
  - apply checks_and; [apply checks_content|apply checks_present].
Qed.

Lemma checks_heartbeat r :
  checks (validateUpdateServiceMetadata r)
    (exists hb, usr_GetHeartbeat r = Some hb /\ hb_ServiceId hb <> ""%string /\
       (Second <= hb_TimeToLive hb)%Z).
Proof.
  unfold validateUpdateServiceMetadata, usr_GetHeartbeat.
  destruct (usr_Update r) as [[[hb|]]|]; simpl; [|split; [naive_solver|done]..].
  apply (checks_iff _ (hb_ServiceId hb <> ""%string /\ (Second <= hb_TimeToLive hb)%Z)); [naive_solver|].
  apply checks_and; [apply checks_nonempty|]. apply checks_reject_if; [done|apply Z.ltb_ge].
Qed.

(** The check of a method accepts exactly the requests that name a device and,
    where there is one, a resource, a correlation identifier and a content, whose
    time to live is none or at least 100 ms (1 s for a heartbeat), and whose
    published links are absolute paths of devices; everything else is rejected as an
    invalid argument. *)
Theorem validate_spec cmd : checks (validate cmd) (accepted cmd).
Proof.
  destruct cmd; simpl; try done; try apply checks_wrap; try apply checks_heartbeat; try by solve_checks.
  - unfold validatePublish. apply (checks_iff _ (elems (plr_Resources r) <> [] /\
      Forall (fun res => res_DeviceId res <> ""%string /\
        exists c s, res_Href res = String "/" (String c s)) (elems (plr_Resources r)) /\
      plr_DeviceId r <> ""%string)); [naive_solver|].
    apply checks_and; [apply checks_elems|].
    apply checks_and; [apply checks_publish_resources|apply checks_nonempty].
  - apply checks_and; [apply checks_nonempty|apply checks_hrefs].
  - unfold validateCreateResource. do 3 (apply checks_and; [by solve_checks|]).
    apply checks_create_content.
Qed.

(** ** The events a snapshot has replaced *)
Section facts.
Context `{!UUIDLib}.

Lemma cleanUp_one id g v evs last :
  Forall (fun ev => AggregateID ev = id /\ GroupID ev = g) (evs ++ [last]) ->
  versions_from v (evs ++ [last]) -> (0 <= v)%Z -> (v + Z.of_nat (length evs) < 2 ^ 64)%Z ->
  cleanUp (evs ++ [last]) = {[id := last]}.
Proof.
  unfold cleanUp. revert last. induction evs as [|x evs IH] using rev_ind; intros last Hids Hv Hpos Hlt.
  - apply Forall_singleton in Hids as [<- _]. simpl. by rewrite lookup_empty.
  - apply Forall_app in Hids as [Hids Hl]. rewrite length_app in Hlt. simpl in Hlt.
    rewrite fold_left_app, IH; [|done| |done|lia].
    + apply Forall_singleton in Hl as [<- _]. cbn [fold_left].
      apply Forall_app in Hids as [_ [Hx _]%Forall_singleton].
      rewrite lookup_singleton_eq.
      assert (Hvx : Version x = (v + Z.of_nat (length evs))%Z).
      { rewrite (Hv (length evs) x), u64_id; [done|unfold is_u64; lia|].
        rewrite <- app_assoc. by apply list_lookup_middle. }
      assert (Hvl : Version last = (v + Z.of_nat (length evs) + 1)%Z).
      { rewrite (Hv (length (evs ++ [x])) last), u64_id; [|unfold is_u64; rewrite length_app; simpl; lia|].
        - rewrite length_app. simpl. lia.
        - by apply list_lookup_middle. }
      destruct (Z.ltb_spec (Version x) (Version last)); [|lia]. by rewrite insert_singleton_eq.
    + intros i ev Hi. apply Hv. by apply lookup_app_l_Some.
Qed.

(** After a command the store is asked once, for its aggregate, to remove
    the events before the version of the last event, at which the snapshot was
    saved. *)
Theorem cleanUpToSnapshot_last id g v evs last :
  Forall (fun ev => AggregateID ev = id /\ GroupID ev = g) (evs ++ [last]) ->
  versions_from v (evs ++ [last]) -> (0 <= v)%Z -> (v + Z.of_nat (length evs) < 2 ^ 64)%Z ->
  cleanUpToSnapshot (evs ++ [last]) = [MkVersionQuery g id (Version last)].
Proof.
  intros Hids Hv Hpos Hlt. unfold cleanUpToSnapshot. rewrite (cleanUp_one id g v) by done.
  rewrite map_to_list_singleton. simpl. apply Forall_app in Hids as [_ [<- <-]%Forall_singleton]. done.
Qed.
End facts.
