(* ===== verification/SortedSlice.v ===== *)
(** * Sorted slices of strings: src/pkg/strings/sortedSlice.go

    The slices that the caches keep their identifiers in.  The first part is
    what the file takes from the standard library (the order of strings,
    [sort.Strings] and the binary search of [sort.SearchStrings]), the second
    one the operations as the loops of the source, the third one their meaning
    as operations on sets. *)

From Stdlib Require Import Lia.
From S2P Require Import Prelude.

(** ** The standard library: [<] on strings, sort.Strings, sort.SearchStrings *)
Definition str_lt (x y : string) : bool := negb (String.leb y x).

Definition sort_Strings (l : list string) : list string := merge_sort String.le l.

(** sort.Search halves [i, j) until it is empty; [fuel] is the length of the slice. *)
Fixpoint Search (f : nat -> bool) (fuel i j : nat) : nat :=
  match fuel with
  | O => i
  | S fuel =>
      if (i <? j)%nat then
        let h := Nat.div2 (i + j) in
        if f h then Search f fuel i h else Search f fuel (S h) j
      else i
  end.

Definition SearchStrings (a : list string) (x : string) : nat :=
  Search (fun h => match a !! h with Some y => String.leb x y | None => false end)
    (length a) 0 (length a).

(** ** The operations

    A slice is the list of its elements.  The operations that write to the
    array behind their receiver return the slice that sees the result; their
    callers store it in the place of the receiver. *)
Abbreviation SortedSlice := (list string).

(** The loop of MakeSortedSlice: [acc] is sortedSlice. *)
Fixpoint dedup (acc tmp : list string) : list string :=
  match tmp with
  | [] => acc
  | v :: tmp =>
      if bool_decide (last acc = Some v) then dedup acc tmp else dedup (acc ++ [v]) tmp
  end.

Definition MakeSortedSlice (slice : list string) : SortedSlice :=
  if (length slice <=? 1)%nat then slice else dedup [] (sort_Strings slice).

Fixpoint Equal_loop (slice second : SortedSlice) : bool :=
  match slice, second with
  | x :: slice, y :: second => bool_decide (x = y) && Equal_loop slice second
  | _, _ => true
  end.
Definition SortedSlice_Equal (slice second : SortedSlice) : bool :=
  (length slice =? length second)%nat && Equal_loop slice second.

(** The loop [for j < len(second) && second[j] < v], on the rest of second. *)
Fixpoint skip_less (v : string) (second : list string) : list string :=
  match second with
  | y :: rest => if str_lt y v then skip_less v rest else second
  | [] => []
  end.

Fixpoint Difference_loop (diff slice second : list string) : SortedSlice :=
  match slice with
  | [] => diff
  | x :: rest =>
      match skip_less x second with
      | [] => diff ++ slice
      | (y :: _) as second =>
          Difference_loop (if bool_decide (y = x) then diff else diff ++ [x]) rest second
      end
  end.
Definition Difference (slice second : SortedSlice) : SortedSlice :=
  Difference_loop [] slice second.

Fixpoint Intersection_loop (inter slice second : list string) : SortedSlice :=
  match slice with
  | [] => inter
  | x :: rest =>
      match skip_less x second with
      | [] => inter
      | (y :: _) as second =>
          Intersection_loop (if bool_decide (y = x) then inter ++ [x] else inter) rest second
      end
  end.
Definition Intersection (slice second : SortedSlice) : SortedSlice :=
  Intersection_loop [] slice second.

Definition Contains (slice : SortedSlice) (s : string) : bool :=
  let i := SearchStrings slice s in
  (i <? length slice)%nat && bool_decide (slice !! i = Some s).

(** One turn of the loop of Insert: the tail moves to the right and [v] goes in
    between. *)
Definition Insert1 (slice : SortedSlice) (v : string) : SortedSlice :=
  let i := SearchStrings slice v in
  if Contains slice v then slice else take i slice ++ v :: drop i slice.
Definition SortedSlice_Insert (slice : SortedSlice) (elems : list string) : SortedSlice :=
  fold_left Insert1 elems slice.

Fixpoint IsSubslice_loop (slice s : list string) : bool :=
  match slice with
  | [] => true
  | x :: rest =>
      match skip_less x s with
      | [] => false
      | (y :: _) as s => bool_decide (y = x) && IsSubslice_loop rest s
      end
  end.
Definition IsSubslice (slice s : SortedSlice) : bool :=
  if (length s <? length slice)%nat then false else
  match slice with
  | [] => true
  | [x] => Contains s x
  | x :: _ => IsSubslice_loop slice (drop (SearchStrings s x) s)
  end.
Definition IsSuperslice (slice s : SortedSlice) : bool := IsSubslice s slice.

(** Remove shifts the array and shortens the slice only at the end; the state
    of the loop is the array and the counter [deleted].  Slicing with a
    negative bound panics: [None]. *)
Definition Remove1 (st : list string * nat) (v : string) : list string * nat :=
  let '(slice, deleted) := st in
  let i := SearchStrings slice v in
  if (length slice <=? i)%nat || negb (bool_decide (slice !! i = Some v)) then st
  else (remove_in_place i (length slice) slice, S deleted).
Definition SortedSlice_Remove (slice : SortedSlice) (elems : list string) : option SortedSlice :=
  let '(slice, deleted) := fold_left Remove1 elems (slice, 0) in
  if (length slice <? deleted)%nat then None
  else Some (take (length slice - deleted) slice).

(** ** The order *)
Lemma str_lt_le x y : str_lt x y = true -> String.le x y.
Proof.
  unfold str_lt. intros H. destruct (total String.le x y) as [|Hyx]; [done|].
  unfold String.le in Hyx. by destruct (String.leb y x).
Qed.
Lemma str_lt_irrefl x : str_lt x x = false.
Proof.
  unfold str_lt. assert (Hx : String.le x x) by reflexivity.
  unfold String.le in Hx. by destruct (String.leb x x).
Qed.
Lemma str_lt_false x y : str_lt x y = false <-> String.le y x.
Proof. unfold str_lt, String.le. destruct (String.leb y x); simpl; naive_solver. Qed.
Lemma str_lt_ne x y : str_lt x y = true <-> String.le x y /\ x <> y.
Proof.
  split.
  - intros H. split; [by apply str_lt_le|]. intros ->. by rewrite str_lt_irrefl in H.
  - intros [Hle Hne]. destruct (str_lt x y) eqn:E; [done|]. apply str_lt_false in E.
    destruct Hne. by apply (anti_symm String.le).
Qed.
Lemma str_lt_trans x y z : str_lt x y = true -> str_lt y z = true -> str_lt x z = true.
Proof.
  rewrite !str_lt_ne. intros [H1 N1] [H2 N2]. split; [by etrans|]. intros ->.
  apply N2. by apply (anti_symm String.le).
Qed.

(** What the operations keep: strictly ascending, hence without duplicates. *)
Definition ascending : list string -> Prop := StronglySorted (fun x y => str_lt x y = true).

Lemma ascending_cons x l :
  ascending (x :: l) <-> ascending l /\ forall y, y ∈ l -> str_lt x y = true.
Proof.
  unfold ascending. split.
  - inversion 1 as [|? ? Hl Hx]; subst. by rewrite Forall_forall in Hx.
  - intros [Hl Hx]. constructor; [done|]. by apply Forall_forall.
Qed.
Lemma ascending_NoDup l : ascending l -> NoDup l.
Proof.
  induction l as [|x l IH]; intros Hl; [constructor|].
  apply ascending_cons in Hl as [Hl Hx]. constructor; [|by apply IH].
  intros Hin. apply Hx in Hin. by rewrite str_lt_irrefl in Hin.
Qed.
Lemma ascending_app l k :
  ascending (l ++ k) <->
  ascending l /\ ascending k /\ forall x y, x ∈ l -> y ∈ k -> str_lt x y = true.
Proof.
  induction l as [|z l IH]; simpl.
  - split; [|naive_solver]. intros Hk. split_and!; [constructor|done|]. intros x y Hx.
    by apply not_elem_of_nil in Hx.
  - rewrite !ascending_cons, IH. setoid_rewrite elem_of_app. setoid_rewrite elem_of_cons.
    naive_solver.
Qed.
Lemma ascending_filter (P : string -> Prop) `{!forall x, Decision (P x)} l :
  ascending l -> ascending (filter P l).
Proof.
  induction l as [|x l IH]; intros Hl; [done|]. apply ascending_cons in Hl as [Hl Hx].
  rewrite filter_cons. case_decide; [|by apply IH]. apply ascending_cons.
  split; [by apply IH|]. intros y Hy. apply list_elem_of_filter in Hy as [_ Hy]. by apply Hx.
Qed.

(** Two ascending slices with the same elements are the same slice. *)
Lemma ascending_ext l k : ascending l -> ascending k -> (forall x, x ∈ l <-> x ∈ k) -> l = k.
Proof.
  revert k. induction l as [|x l IH]; intros [|y k] Hl Hk Heq.
  - done.
  - exfalso. assert (Hy : y ∈ @nil string) by (apply Heq; by left). by apply not_elem_of_nil in Hy.
  - exfalso. assert (Hx : x ∈ @nil string) by (apply Heq; by left). by apply not_elem_of_nil in Hx.
  - apply ascending_cons in Hl as [Hl Hxl], Hk as [Hk Hyk].
    assert (x = y) as <-.
    { assert (Hx : x ∈ y :: k) by (apply Heq; by left).
      assert (Hy : y ∈ x :: l) by (apply Heq; by left).
      apply elem_of_cons in Hx as [Hx|Hx]; [done|].
      apply elem_of_cons in Hy as [Hy|Hy]; [done|].
      apply Hyk in Hx. apply Hxl in Hy. pose proof (str_lt_trans _ _ _ Hx Hy) as Hc.
      by rewrite str_lt_irrefl in Hc. }
    f_equal. apply IH; [done..|]. intros z. specialize (Heq z).
    rewrite !elem_of_cons in Heq. split; intros Hz.
    + destruct (proj1 Heq) as [->|?]; [by right| |done].
      apply Hxl in Hz. by rewrite str_lt_irrefl in Hz.
    + destruct (proj2 Heq) as [->|?]; [by right| |done].
      apply Hyk in Hz. by rewrite str_lt_irrefl in Hz.
Qed.

(** ** The binary search *)
Lemma Search_spec f fuel i j p :
  i <= p <= j -> j - i <= fuel ->
  (forall h, i <= h < p -> f h = false) -> (forall h, p <= h < j -> f h = true) ->
  Search f fuel i j = p.
Proof.
  revert i j. induction fuel as [|fuel IH]; intros i j Hp Hf Hlo Hhi; simpl; [lia|].
  destruct (Nat.ltb_spec i j) as [Hij|Hij]; [|lia].
  assert (Hh : i <= Nat.div2 (i + j) < j).
  { rewrite Nat.div2_div. split; [apply Nat.div_le_lower_bound; lia|].
    apply Nat.Div0.div_lt_upper_bound; lia. }
  set (h := Nat.div2 (i + j)) in *. clearbody h.
  destruct (decide (p <= h)) as [Hph|Hph].
  - rewrite Hhi by lia. apply IH; [lia|lia|done|]. intros k Hk. apply Hhi. lia.
  - rewrite Hlo by lia. apply IH; [lia|lia| |]; intros k Hk; [apply Hlo|apply Hhi]; lia.
Qed.

(** In [l ++ k], where [x] is greater than all of [l] and at most as great as
    all of [k], the search finds the place between them. *)
Lemma SearchStrings_between l k x :
  (forall y, y ∈ l -> str_lt y x = true) -> (forall y, y ∈ k -> str_lt y x = false) ->
  SearchStrings (l ++ k) x = length l.
Proof.
  intros Hl Hk. unfold SearchStrings. rewrite length_app. apply Search_spec; [lia|lia| |].
  - intros h Hh. rewrite lookup_app_l by lia.
    destruct (lookup_lt_is_Some_2 l h) as [y Hy]; [lia|]. rewrite Hy.
    specialize (Hl y (list_elem_of_lookup_2 _ _ _ Hy)). unfold str_lt in Hl.
    by destruct (String.leb x y).
  - intros h Hh. rewrite lookup_app_r by lia.
    destruct (lookup_lt_is_Some_2 k (h - length l)) as [y Hy]; [lia|]. rewrite Hy.
    specialize (Hk y (list_elem_of_lookup_2 _ _ _ Hy)). unfold str_lt in Hk.
    by destruct (String.leb x y).
Qed.

(** The place of [x] splits an ascending slice. *)
Lemma ascending_split l x :
  ascending l -> exists k m, l = k ++ m /\ SearchStrings l x = length k /\
    (forall y, y ∈ k -> str_lt y x = true) /\ (forall y, y ∈ m -> str_lt y x = false).
Proof.
  intros Hl.
  assert (exists k m, l = k ++ m /\
    (forall y, y ∈ k -> str_lt y x = true) /\ (forall y, y ∈ m -> str_lt y x = false))
    as (k & m & -> & Hk & Hm).
  { induction l as [|z l IH].
    - exists [], []. split_and!; [done| |]; intros y Hy; by apply not_elem_of_nil in Hy.
    - apply ascending_cons in Hl as [Hl Hz]. destruct (str_lt z x) eqn:E.
      + destruct (IH Hl) as (k & m & -> & Hk & Hm). exists (z :: k), m. split_and!; [done| |done].
        intros y [->|Hy]%elem_of_cons; auto.
      + exists [], (z :: l). split_and!; [done| |].
        * intros y Hy. by apply not_elem_of_nil in Hy.
        * intros y [->|Hy]%elem_of_cons; [done|]. apply str_lt_false in E. apply str_lt_false.
          etrans; [exact E|]. by apply str_lt_le, Hz. }
  exists k, m. split_and!; [done|by apply SearchStrings_between|done..].
Qed.

Lemma list_lookup_middle_head {A} (l m : list A) n : n = length l -> (l ++ m) !! n = head m.
Proof. intros ->. rewrite lookup_app_r, Nat.sub_diag by lia. by destruct m. Qed.

(** The first element from the place of [x] on is [x], if [x] is there. *)
Lemma lookup_place l m x :
  ascending (l ++ m) -> (forall y, y ∈ l -> str_lt y x = true) ->
  (forall y, y ∈ m -> str_lt y x = false) ->
  (x ∈ l ++ m <-> exists m', m = x :: m').
Proof.
  intros Ha Hl Hm. split; [|intros [m' ->]; set_solver].
  intros [Hx|Hx]%elem_of_app; [apply Hl in Hx; by rewrite str_lt_irrefl in Hx|].
  destruct m as [|z m]; [by apply not_elem_of_nil in Hx|]. exists m. f_equal.
  apply elem_of_cons in Hx as [->|Hx]; [done|].
  apply ascending_app in Ha as (_ & Hzm & _). apply ascending_cons in Hzm as [_ Hz].
  apply Hz in Hx. by rewrite Hm in Hx by left.
Qed.

(** Contains answers whether the string is in the slice. *)
Lemma Contains_spec l x : ascending l -> Contains l x = true <-> x ∈ l.
Proof.
  intros Hl. destruct (ascending_split l x Hl) as (k & m & -> & Hs & Hk & Hm).
  rewrite (lookup_place _ _ _ Hl Hk Hm). unfold Contains. rewrite Hs, length_app.
  rewrite andb_true_iff, Nat.ltb_lt, bool_decide_eq_true, list_lookup_middle_head by done.
  destruct m as [|z m]; simpl; [naive_solver lia|]. split; [naive_solver|].
  intros [m' [= -> ->]]. split; [lia|done].
Qed.

(** ** The operations as operations on sets *)

(** Insert keeps the slice ascending and adds the new elements, each once. *)
Lemma Insert1_spec l x :
  ascending l -> ascending (Insert1 l x) /\ forall y, y ∈ Insert1 l x <-> y = x \/ y ∈ l.
Proof.
  intros Hl. unfold Insert1. destruct (Contains l x) eqn:Hc.
  { apply Contains_spec in Hc; [|done]. split; [done|]. naive_solver. }
  assert (Hx : x ∉ l) by (rewrite <- Contains_spec by done; congruence). clear Hc.
  destruct (ascending_split l x Hl) as (k & m & -> & Hs & Hk & Hm). rewrite Hs.
  rewrite take_app_length, drop_app_length. split; [|set_solver].
  apply ascending_app in Hl as (Hak & Ham & Hkm).
  apply ascending_app. split_and!; [done| |].
  - apply ascending_cons. split; [done|]. intros y Hy. apply str_lt_ne. split.
    + by apply str_lt_false, Hm.
    + intros ->. set_solver.
  - intros y z Hy [->|Hz]%elem_of_cons; auto.
Qed.

Theorem Insert_spec slice new :
  ascending slice -> ascending (SortedSlice_Insert slice new) /\
  forall y, y ∈ SortedSlice_Insert slice new <-> y ∈ slice \/ y ∈ new.
Proof.
  unfold SortedSlice_Insert. revert slice.
  induction new as [|x new IH]; intros slice Hl; cbn [fold_left].
  - split; [done|]. intros y. rewrite elem_of_nil. naive_solver.
  - destruct (Insert1_spec slice x Hl) as [H1 Hel]. destruct (IH _ H1) as [H2 Hel2].
    split; [done|]. intros y. rewrite Hel2, Hel, elem_of_cons. naive_solver.
Qed.

(** MakeSortedSlice sorts and removes duplicates. *)
Lemma dedup_spec acc tmp :
  ascending acc -> Sorted String.le tmp -> (forall x y, x ∈ acc -> y ∈ tmp -> String.le x y) ->
  ascending (dedup acc tmp) /\ forall y, y ∈ dedup acc tmp <-> y ∈ acc \/ y ∈ tmp.
Proof.
  revert acc. induction tmp as [|v tmp IH]; intros acc Ha Ht Hle; simpl.
  { split; [done|]. intros y. rewrite elem_of_nil. naive_solver. }
  apply Sorted_StronglySorted in Ht; [|intros ???; by apply transitivity].
  inversion Ht as [|? ? Ht' Hv]; subst. rewrite Forall_forall in Hv.
  apply StronglySorted_Sorted in Ht'. case_bool_decide as Hlast.
  - destruct (IH acc) as [H1 H2]; [done|done|set_solver|]. split; [done|].
    intros y. rewrite H2, elem_of_cons. apply last_Some_elem_of in Hlast. naive_solver.
  - destruct (IH (acc ++ [v])) as [H1 H2].
    + destruct acc as [|w acc _] using rev_ind; [apply ascending_cons; set_solver|].
      rewrite last_snoc in Hlast. apply ascending_app. split_and!; [done| |].
      { apply ascending_cons. split; [constructor|]. intros y Hy. by apply not_elem_of_nil in Hy. }
      intros x y Hx Hy. apply list_elem_of_singleton in Hy as ->. apply str_lt_ne.
      split; [apply Hle; set_solver|]. intros ->.
      apply elem_of_app in Hx as [Hx|Hx]; [|apply list_elem_of_singleton in Hx; naive_solver].
      apply ascending_app in Ha as (_ & _ & Ha).
      specialize (Ha v w Hx). rewrite list_elem_of_singleton in Ha. specialize (Ha eq_refl).
      apply str_lt_ne in Ha as [Ha1 Ha2]. apply Ha2. apply (anti_symm String.le); [done|].
      apply Hle; set_solver.
    + done.
    + intros x y [Hx|Hx]%elem_of_app Hy; [apply Hle; set_solver|].
      apply list_elem_of_singleton in Hx as ->. auto.
    + split; [done|]. intros y. rewrite H2. set_solver.
Qed.

Theorem MakeSortedSlice_spec slice :
  ascending (MakeSortedSlice slice) /\ forall y, y ∈ MakeSortedSlice slice <-> y ∈ slice.
Proof.
  unfold MakeSortedSlice. destruct (Nat.leb_spec (length slice) 1) as [Hlen|Hlen].
  - split; [|done]. destruct slice as [|x [|y slice]]; simpl in Hlen; [constructor| |lia].
    apply ascending_cons. split; [constructor|]. intros y Hy. by apply not_elem_of_nil in Hy.
  - destruct (dedup_spec [] (sort_Strings slice)) as [H1 H2].
    + constructor.
    + apply Sorted_merge_sort. apply _.
    + intros x y Hx. by apply not_elem_of_nil in Hx.
    + split; [done|]. intros y. rewrite H2. unfold sort_Strings.
      rewrite merge_sort_Permutation, elem_of_nil. naive_solver.
Qed.

(** The inner loop of the walks over two slices drops what is less than [x],
    and so nothing that the rest of the walk asks for. *)
Lemma skip_less_spec x l :
  ascending l ->
  ascending (skip_less x l) /\ (forall y, y ∈ skip_less x l -> str_lt y x = false) /\
  forall y, str_lt y x = false -> y ∈ skip_less x l <-> y ∈ l.
Proof.
  induction l as [|z l IH]; intros Hl; simpl.
  { split_and!; [done| |done]. intros y Hy. by apply not_elem_of_nil in Hy. }
  pose proof (proj1 (ascending_cons _ _) Hl) as [Hl' Hz]. destruct (str_lt z x) eqn:E.
  - destruct (IH Hl') as (H1 & H2 & H3). split_and!; [done..|]. intros y Hy.
    rewrite H3, elem_of_cons by done. split; [by right|]. intros [->|?]; [congruence|done].
  - split_and!; [done| |done]. intros y [->|Hy]%elem_of_cons; [done|].
    apply str_lt_false. apply str_lt_false in E. etrans; [exact E|]. by apply str_lt_le, Hz.
Qed.

Lemma head_skip_less x y l :
  (forall z, z ∈ y :: l -> str_lt z x = false) -> ascending (y :: l) -> x ∈ y :: l <-> y = x.
Proof.
  intros Hl Ha. split; [|intros ->; by left]. intros [->|Hx]%elem_of_cons; [done|].
  apply ascending_cons in Ha as [_ Ha]. apply Ha in Hx. by rewrite Hl in Hx by left.
Qed.

(** What the rest of the walk asks for is found in [second] before and after
    the inner loop. *)
Lemma elem_skip_less x rest second y :
  ascending (x :: rest) -> ascending second -> y ∈ x :: rest ->
  y ∈ skip_less x second <-> y ∈ second.
Proof.
  intros Ha Hs Hy. apply skip_less_spec; [done|]. apply ascending_cons in Ha as [_ Hx].
  apply elem_of_cons in Hy as [->|Hy]; [apply str_lt_irrefl|].
  apply str_lt_false, str_lt_le, Hx, Hy.
Qed.

(** Difference, Intersection and IsSubslice walk over both slices at once and
    compute what the definition with a test of membership computes. *)
Lemma Difference_loop_spec diff slice second :
  ascending slice -> ascending second ->
  Difference_loop diff slice second = diff ++ filter (fun x => x ∉ second) slice.
Proof.
  revert diff second. induction slice as [|x rest IH]; intros diff second Ha Hs;
    [by rewrite app_nil_r|].
  cbn [Difference_loop]. pose proof (proj1 (ascending_cons _ _) Ha) as [Ha' _].
  destruct (skip_less_spec x second Hs) as (H1 & H2 & _).
  rewrite (filter_ext_elem (fun y => y ∉ second) (fun y => y ∉ skip_less x second))
    by (intros y Hy; by rewrite elem_skip_less).
  destruct (skip_less x second) as [|y second'] eqn:E.
  { f_equal. symmetry. apply list_filter_all. intros z _ Hz. by apply not_elem_of_nil in Hz. }
  rewrite IH by done. pose proof (head_skip_less x y second' H2 H1) as Hyx.
  case_bool_decide as Hd.
  - rewrite filter_cons_False by tauto. done.
  - rewrite filter_cons_True by tauto. by rewrite <- app_assoc.
Qed.

Lemma Intersection_loop_spec inter slice second :
  ascending slice -> ascending second ->
  Intersection_loop inter slice second = inter ++ filter (fun x => x ∈ second) slice.
Proof.
  revert inter second. induction slice as [|x rest IH]; intros inter second Ha Hs;
    [by rewrite app_nil_r|].
  cbn [Intersection_loop]. pose proof (proj1 (ascending_cons _ _) Ha) as [Ha' _].
  destruct (skip_less_spec x second Hs) as (H1 & H2 & _).
  rewrite (filter_ext_elem (fun y => y ∈ second) (fun y => y ∈ skip_less x second))
    by (intros y Hy; by rewrite elem_skip_less).
  destruct (skip_less x second) as [|y second'] eqn:E.
  { rewrite list_filter_nil; [by rewrite app_nil_r|]. intros z _ Hz.
    by apply not_elem_of_nil in Hz. }
  rewrite IH by done. pose proof (head_skip_less x y second' H2 H1) as Hyx.
  case_bool_decide as Hd.
  - rewrite filter_cons_True by tauto. by rewrite <- app_assoc.
  - rewrite filter_cons_False by tauto. done.
Qed.

Lemma IsSubslice_loop_spec slice s :
  ascending slice -> ascending s -> IsSubslice_loop slice s = true <-> slice ⊆ s.
Proof.
  revert s. induction slice as [|x rest IH]; intros s Ha Hs; cbn [IsSubslice_loop].
  { split; [|done]. intros _ y Hy. by apply not_elem_of_nil in Hy. }
  pose proof (proj1 (ascending_cons _ _) Ha) as [Ha' _].
  destruct (skip_less_spec x s Hs) as (H1 & H2 & _).
  assert (Hsub : x :: rest ⊆ s <-> x :: rest ⊆ skip_less x s).
  { split; intros H y Hy; apply (elem_skip_less x rest s y); auto. }
  rewrite Hsub. destruct (skip_less x s) as [|y s'] eqn:E.
  { split; [done|]. intros H. specialize (H x). rewrite elem_of_nil in H.
    destruct H. by left. }
  rewrite andb_true_iff, bool_decide_eq_true, IH by done.
  rewrite <- (head_skip_less x y s' H2 H1). split.
  - intros [Hx Hr] z [->|Hz]%elem_of_cons; auto.
  - intros H. split; [apply H; by left|]. intros z Hz. apply H. by right.
Qed.

Theorem Difference_spec slice second :
  ascending slice -> ascending second ->
  Difference slice second = filter (fun x => x ∉ second) slice.
Proof. apply Difference_loop_spec. Qed.

Theorem Intersection_spec slice second :
  ascending slice -> ascending second ->
  Intersection slice second = filter (fun x => x ∈ second) slice.
Proof. apply Intersection_loop_spec. Qed.

Lemma ascending_drop n l : ascending l -> ascending (drop n l).
Proof. rewrite <- (take_drop n l) at 1. by intros (_ & ? & _)%ascending_app. Qed.

Theorem IsSubslice_spec slice s :
  ascending slice -> ascending s -> IsSubslice slice s = true <-> slice ⊆ s.
Proof.
  intros Ha Hs. unfold IsSubslice. destruct (Nat.ltb_spec (length s) (length slice)) as [Hl|Hl].
  { split; [done|]. intros Hsub. apply ascending_NoDup in Ha.
    pose proof (NoDup_submseteq _ _ Ha Hsub) as Hle. apply submseteq_length in Hle. lia. }
  destruct slice as [|x [|y slice]].
  - split; [|done]. intros _ z Hz. by apply not_elem_of_nil in Hz.
  - rewrite Contains_spec by done. split; [|intros H; apply H; by left].
    by intros Hx z ->%list_elem_of_singleton.
  - rewrite IsSubslice_loop_spec by auto using ascending_drop.
    destruct (ascending_split s x Hs) as (k & m & -> & Hi & Hk & _).
    rewrite Hi, drop_app_length. apply ascending_cons in Ha as [_ Hx].
    split; intros H z Hz; [apply elem_of_app; right; by apply H|].
    specialize (H z Hz). apply elem_of_app in H as [H|H]; [|done]. apply Hk in H.
    apply elem_of_cons in Hz as [->|Hz]; [by rewrite str_lt_irrefl in H|].
    apply Hx in Hz. pose proof (str_lt_trans _ _ _ H Hz) as Hc. by rewrite str_lt_irrefl in Hc.
Qed.

Theorem SortedSlice_Equal_spec slice second : SortedSlice_Equal slice second = true <-> slice = second.
Proof.
  unfold SortedSlice_Equal. revert second.
  induction slice as [|x slice IH]; intros [|y second]; simpl; [done..|].
  specialize (IH second). rewrite andb_true_iff in IH. rewrite !andb_true_iff, bool_decide_eq_true.
  naive_solver.
Qed.

(** ** Remove

    While the loop runs, the array is what is left of the slice followed by
    one copy of its original last element for each removal. *)
Lemma SearchStrings_padded l x z n :
  ascending l -> str_lt z x = false ->
  exists k m, l = k ++ m /\ SearchStrings (l ++ replicate n z) x = length k /\
    (forall y, y ∈ k -> str_lt y x = true) /\ (forall y, y ∈ m -> str_lt y x = false).
Proof.
  intros Hl Hz. destruct (ascending_split l x Hl) as (k & m & -> & _ & Hk & Hm).
  exists k, m. split_and!; [done| |done..]. rewrite <- app_assoc.
  apply SearchStrings_between; [done|].
  intros y [Hy|Hy]%elem_of_app; [by apply Hm|]. by apply elem_of_replicate in Hy as [-> _].
Qed.

Lemma Remove1_found l x z n :
  ascending l -> x ∈ l -> str_lt z x = false -> (n = 0 -> last l = Some z) ->
  Remove1 (l ++ replicate n z, n) x
  = (filter (fun y => y ≠ x) l ++ replicate (S n) z, S n).
Proof.
  intros Hl Hx Hz Hlast. destruct (SearchStrings_padded l x z n Hl Hz) as (k & m & -> & Hi & Hk & Hm).
  apply (lookup_place _ _ _ Hl Hk Hm) in Hx as [m' ->].
  unfold Remove1. rewrite Hi, <- app_assoc, list_lookup_middle_head by done. cbn [app head].
  rewrite bool_decide_eq_true_2 by done. rewrite length_app. cbn [length negb].
  rewrite (proj2 (Nat.leb_gt _ _)) by lia. cbn [orb]. f_equal.
  pose proof (remove_in_place_middle k x (m' ++ replicate n z) []) as Hr.
  rewrite app_nil_r, length_app in Hr. cbn [length] in Hr. rewrite Hr. clear Hr.
  pose proof (ascending_NoDup _ Hl) as Hnd. apply NoDup_app in Hnd as (_ & Hkm & Hm').
  apply NoDup_cons in Hm' as [Hm' _].
  rewrite filter_app, (filter_cons_False _ _ m') by naive_solver.
  rewrite !list_filter_all by set_solver. rewrite <- !app_assoc. do 2 f_equal.
  rewrite replicate_S_end. f_equal.
  destruct n as [|n]; [|by rewrite replicate_S_end, app_assoc, last_snoc].
  rewrite app_nil_r. specialize (Hlast eq_refl). rewrite last_app, last_cons in Hlast.
  destruct (last m'); simpl in *; congruence.
Qed.

Lemma Remove1_absent l x z n :
  ascending l -> x ∉ l -> (n <> 0 -> x <> z) -> (forall y, y ∈ l -> String.le y z) ->
  Remove1 (l ++ replicate n z, n) x = (l ++ replicate n z, n).
Proof.
  intros Hl Hx Hxz Hlz.
  assert (Hex : exists k m, l ++ replicate n z = k ++ m /\ head m <> Some x /\
    SearchStrings (l ++ replicate n z) x = length k).
  { destruct (str_lt z x) eqn:Hz.
    - exists (l ++ replicate n z), []. split_and!; [symmetry; apply app_nil_r|done|].
      rewrite <- (app_nil_r (l ++ replicate n z)) at 1. apply SearchStrings_between.
      + intros y [Hy|Hy]%elem_of_app; [|by apply elem_of_replicate in Hy as [-> _]].
        apply str_lt_ne in Hz as [Hz1 Hz2]. apply str_lt_ne. split; [etrans; [by apply Hlz|done]|].
        intros ->. apply Hz2, (anti_symm String.le); [done|]. by apply Hlz.
      + intros y Hy. by apply not_elem_of_nil in Hy.
    - destruct (SearchStrings_padded l x z n Hl Hz) as (k & m & -> & Hi & Hk & Hm).
      exists k, (m ++ replicate n z). rewrite <- app_assoc in *. split_and!; [done| |done].
      destruct m as [|w m]; simpl; [|set_solver]. destruct n; simpl; naive_solver. }
  destruct Hex as (k & m & Heq & Hm & Hi). unfold Remove1. rewrite Hi, Heq.
  rewrite list_lookup_middle_head by done. by rewrite bool_decide_eq_false_2, orb_true_r.
Qed.

Lemma Remove_loop l z n xs :
  ascending l -> NoDup xs -> (forall y, y ∈ l -> String.le y z) ->
  (n = 0 -> l <> [] -> last l = Some z) -> (n <> 0 -> z ∉ l -> z ∉ xs) ->
  exists d, fold_left Remove1 xs (l ++ replicate n z, n)
    = (filter (fun y => y ∉ xs) l ++ replicate d z, d).
Proof.
  revert l n. induction xs as [|x xs IH]; intros l n Hl Hnd Hlz Hlast Hz; cbn [fold_left].
  { exists n. rewrite list_filter_all by (intros y _ Hy; by apply not_elem_of_nil in Hy). done. }
  apply NoDup_cons in Hnd as [Hx Hnd]. destruct (decide (x ∈ l)) as [Hxl|Hxl].
  - rewrite Remove1_found; [|done|done|by apply str_lt_false, Hlz|].
    2: { intros ->. apply Hlast; [done|]. intros ->. by apply not_elem_of_nil in Hxl. }
    destruct (IH (filter (fun y => y ≠ x) l) (S n)) as [d Hd].
    + by apply ascending_filter.
    + done.
    + intros y [_ Hy]%list_elem_of_filter. by apply Hlz.
    + done.
    + intros _ Hzl. destruct (decide (z = x)) as [->|Hne]; [done|].
      destruct (decide (z ∈ l)) as [Hin|Hin]; [destruct Hzl; by apply list_elem_of_filter|].
      destruct n as [|n].
      { destruct Hin. apply last_Some_elem_of. apply Hlast; [done|]. intros ->.
        by apply not_elem_of_nil in Hxl. }
      specialize (Hz (Nat.neq_succ_0 _) Hin). set_solver.
    + exists d. rewrite Hd, list_filter_filter. do 2 f_equal. apply filter_ext_elem. set_solver.
  - rewrite Remove1_absent; [|done..|intros Hn ->|done].
    2: { by apply (Hz Hn Hxl); left. }
    destruct (IH l n) as [d Hd]; [done..| |].
    { intros Hn Hzl Hzx. apply (Hz Hn Hzl). by right. }
    exists d. rewrite Hd. do 2 f_equal. apply filter_ext_elem. set_solver.
Qed.

(** Removing different strings removes exactly them.  A string that is listed
    twice can cost the slice an element more, and with it a panic: see the
    examples. *)
Theorem Remove_spec slice old :
  ascending slice -> NoDup old ->
  SortedSlice_Remove slice old = Some (filter (fun x => x ∉ old) slice).
Proof.
  intros Ha Hnd. unfold SortedSlice_Remove.
  destruct (Remove_loop slice (default "" (last slice)) 0 old) as [d Hd].
  - done.
  - done.
  - intros y Hy. destruct slice as [|w l _] using rev_ind; [by apply not_elem_of_nil in Hy|].
    rewrite last_snoc. simpl. apply elem_of_app in Hy as [Hy|Hy].
    + apply ascending_app in Ha as (_ & _ & Ha). apply str_lt_le. by apply Ha; [|left].
    + by apply list_elem_of_singleton in Hy as ->.
  - intros _ Hne. destruct slice as [|w l _] using rev_ind; [done|]. by rewrite last_snoc.
  - done.
  - rewrite app_nil_r in Hd. rewrite Hd, length_app, length_replicate.
    rewrite (proj2 (Nat.ltb_ge _ _)) by lia. f_equal.
    rewrite Nat.add_sub. apply take_app_length.
Qed.

Corollary Remove_ascending slice old :
  ascending slice -> NoDup old ->
  exists slice', SortedSlice_Remove slice old = Some slice' /\ ascending slice'.
Proof. intros Ha Hnd. rewrite Remove_spec by done. eauto using ascending_filter. Qed.

Example remove_twice_drops_another : SortedSlice_Remove ["a"; "b"; "c"] ["c"; "c"] = Some ["a"].
Proof. reflexivity. Qed.
Example remove_twice_panics : SortedSlice_Remove ["a"] ["a"; "a"] = None.
Proof. reflexivity. Qed.

(** ** strings.Unique *)
(** src/pkg/strings/slice.go: slices.Sort, then slices.Compact, which is the
    loop of MakeSortedSlice. *)
Definition strings_Unique (s : list string) : list string :=
  if (length s =? 0)%nat then [] else dedup [] (sort_Strings s).

Lemma strings_Unique_elem l x : x ∈ strings_Unique l <-> x ∈ l.
Proof.
  unfold strings_Unique. destruct l as [|y l]; [done|]. cbn [length Nat.eqb].
  pose proof (MakeSortedSlice_spec (y :: l)) as [_ H]. unfold MakeSortedSlice in H.
  destruct l as [|z l]; [|apply H]. cbn. unfold sort_Strings.
  done.
Qed.
Lemma strings_Unique_length l : (length (strings_Unique l) =? 0)%nat = (length l =? 0)%nat.
Proof.
  destruct l as [|x l]; [done|]. cbn [length Nat.eqb]. apply Nat.eqb_neq.
  assert (Hx : x ∈ strings_Unique (x :: l)) by (apply strings_Unique_elem; by left).
  destruct (strings_Unique (x :: l)); [by apply not_elem_of_nil in Hx|done].
Qed.
Lemma strings_Unique_Forall P l : Forall P l -> Forall P (strings_Unique l).
Proof. rewrite !Forall_forall. intros H x Hx. apply H. by apply strings_Unique_elem. Qed.
