(* ===== verification/Slices.v ===== *)
(** * The packages slices and cmp of Go's standard library

    What the sources use of them besides [sort.Strings]: sorting with a
    function of comparison, which is not stable and therefore a parameter with
    its documented law, and compacting runs of equal elements. *)

From Stdlib Require Import ZArith Lia String.
From S2P Require Import Prelude SortedSlice.

Class Slices := { SortFunc : forall {A : Type}, (A -> A -> Z) -> list A -> list A }.

(** What [SortFunc] asks of the function it gets. *)
Definition weak_order {A} (cmp : A -> A -> Z) : Prop :=
  (forall x y, (cmp x y < 0)%Z <-> (0 < cmp y x)%Z) /\
  (forall x y z, (cmp x y <= 0)%Z -> (cmp y z <= 0)%Z -> (cmp x z <= 0)%Z).

Class SlicesLaws `{!Slices} := {
  SortFunc_perm {A} (cmp : A -> A -> Z) l : SortFunc cmp l ≡ₚ l;
  SortFunc_sorted {A} (cmp : A -> A -> Z) l :
    weak_order cmp -> StronglySorted (fun x y => (cmp x y <= 0)%Z) (SortFunc cmp l) }.

(** strings.Compare and cmp.Compare on integers. *)
Definition strings_Compare (a b : string) : Z :=
  if String.eqb a b then 0 else if str_lt a b then -1 else 1.
Definition cmp_Compare (a b : Z) : Z :=
  if (a <? b)%Z then -1 else if (b <? a)%Z then 1 else 0.

(** slices.CompactFunc: an element goes when it equals the one before it. *)
Fixpoint compact_from {A} (eq : A -> A -> bool) (prev : A) (l : list A) : list A :=
  match l with
  | [] => []
  | x :: l => if eq x prev then compact_from eq x l else x :: compact_from eq x l
  end.
Definition CompactFunc {A} (eq : A -> A -> bool) (l : list A) : list A :=
  match l with [] => [] | x :: l => x :: compact_from eq x l end.

(** ** Orders by a key *)
Lemma strings_Compare_0 a b : strings_Compare a b = 0%Z <-> a = b.
Proof.
  unfold strings_Compare. destruct (String.eqb_spec a b) as [->|Hne]; [done|].
  by destruct (str_lt a b).
Qed.
Lemma strings_Compare_le a b : (strings_Compare a b <= 0)%Z <-> String.le a b.
Proof.
  unfold strings_Compare. destruct (String.eqb_spec a b) as [->|Hne].
  - rewrite <- str_lt_false, str_lt_irrefl. split; [done|lia].
  - destruct (str_lt a b) eqn:E; split; try lia; intros Hle.
    + by apply str_lt_le.
    + exfalso. assert (Ht : str_lt a b = true) by (by apply str_lt_ne). congruence.
Qed.
Lemma strings_Compare_lt a b : (strings_Compare a b < 0)%Z <-> str_lt a b = true.
Proof.
  unfold strings_Compare. destruct (String.eqb_spec a b) as [->|Hne].
  - rewrite str_lt_irrefl. split; [lia|done].
  - destruct (str_lt a b); split; try done; lia.
Qed.
Lemma strings_Compare_weak : weak_order strings_Compare.
Proof.
  split; [|intros x y z; rewrite !strings_Compare_le; apply transitivity].
  intros x y. rewrite strings_Compare_lt. unfold strings_Compare.
  destruct (String.eqb_spec y x) as [->|Hne]; [rewrite str_lt_irrefl; split; [done|lia]|].
  destruct (str_lt y x) eqn:E1; split; intros Hs; try lia; try done.
  - apply str_lt_le in Hs, E1. destruct Hne. by apply (anti_symm String.le).
  - apply str_lt_ne. apply str_lt_false in E1. by split.
Qed.

Lemma weak_order_key {A B} (cmp : B -> B -> Z) (key : A -> B) :
  weak_order cmp -> weak_order (fun x y => cmp (key x) (key y)).
Proof. intros [H1 H2]. split; intros; [apply H1|by eapply H2]. Qed.

(** Compacting a list that is sorted by a key leaves one element of each key. *)
Section compact.
Context {A B : Type} (key : A -> B) (le : relation B) `{!AntiSymm (=) le}.
Context (eq : A -> A -> bool) (eq_key : forall x y, eq x y = true <-> key x = key y).

Lemma elem_of_compact_from x y l : x ∈ compact_from eq y l -> x ∈ l.
Proof.
  revert y. induction l as [|z l IH]; intros y; cbn [compact_from]; [done|].
  destruct (eq z y); [intros Hx; right; by eapply IH|].
  intros [->|Hx]%elem_of_cons; [left|right; by eapply IH].
Qed.
Lemma elem_of_CompactFunc x l : x ∈ CompactFunc eq l -> x ∈ l.
Proof.
  destruct l as [|y l]; [done|]. intros [->|Hx]%elem_of_cons; [left|right].
  by eapply elem_of_compact_from.
Qed.

Lemma compact_from_keys y l :
  StronglySorted le (key <$> y :: l) ->
  (forall x, x ∈ l -> key x = key y \/ exists x', x' ∈ compact_from eq y l /\ key x' = key x) /\
  StronglySorted (fun a b => le a b /\ a <> b) (key <$> y :: compact_from eq y l).
Proof.
  revert y. induction l as [|z l IH]; intros y Hs; cbn [compact_from].
  { split; [by intros x ?%not_elem_of_nil|]. cbn. repeat constructor. }
  cbn in Hs. apply StronglySorted_inv in Hs as [Hs Hy]. destruct (IH z Hs) as [Hk Hss].
  apply Forall_cons in Hy as [Hyz Hy].
  destruct (eq z y) eqn:E.
  - apply eq_key in E. split.
    + intros x [->|Hx]%elem_of_cons; [by left|]. rewrite <- E. by apply Hk.
    + cbn in *. by rewrite <- E.
  - assert (Hne : key y <> key z) by (intros Heq; apply not_true_iff_false in E; by apply E, eq_key).
    split.
    + intros x [->|Hx]%elem_of_cons; [right; exists z; split; [by left|done]|].
      destruct (Hk x Hx) as [->|(x' & Hx' & Heq)]; right; [exists z|exists x']; split; try done;
        [by left|by right].
    + cbn in *. constructor; [done|]. constructor; [done|].
      apply Forall_fmap, Forall_forall. intros w Hw. apply elem_of_compact_from in Hw as Hl.
      rewrite Forall_forall in Hy. split; [apply Hy; by apply list_elem_of_fmap_2|]. cbn. intros Heq.
      apply StronglySorted_inv in Hs as [_ Hz]. rewrite Forall_forall in Hz.
      apply Hne, (anti_symm le); [done|]. rewrite Heq. apply Hz. by apply list_elem_of_fmap_2.
Qed.

Lemma CompactFunc_keys l :
  StronglySorted le (key <$> l) ->
  (forall b, b ∈ key <$> CompactFunc eq l <-> b ∈ key <$> l) /\
  StronglySorted (fun a b => le a b /\ a <> b) (key <$> CompactFunc eq l).
Proof.
  destruct l as [|y l]; [split; [done|constructor]|]. intros Hs. cbn [CompactFunc].
  destruct (compact_from_keys y l Hs) as [Hk Hss]. split; [|done]. intros b.
  rewrite !list_elem_of_fmap. split; intros (x & -> & Hx).
  - exists x. split; [done|]. by apply (elem_of_CompactFunc x (y :: l)).
  - apply elem_of_cons in Hx as [->|Hx]; [exists y; split; [done|left]|].
    destruct (Hk x Hx) as [->|(x' & Hx' & <-)]; [exists y|exists x']; split; try done;
      [by left|by right].
Qed.
End compact.
