(* ===== verification/Subjects.v ===== *)
(** * Subjects of the event bus

    The subjects that events are published to and subscriptions listen on:
    src/identity-store/events/{const,registrations,utils}.go,
    src/resource-aggregate/cqrs/utils/utils.go and the choice of the subject in
    src/resource-aggregate/cqrs/eventbus/nats/publisher/publisher.go.  The
    order in which Go walks over the values of a template is a parameter;
    [ToSubject_render] shows that it does not matter.  How NATS matches a
    subject is documented behaviour and written out in [nats_matches]. *)

From Stdlib Require Import Lia Ascii String.
From S2P Require Import Prelude Commands Events.

(** ** strings.ReplaceAll for a non-empty [old]

    [skip] counts the bytes of an occurrence that was just replaced. *)
Fixpoint ReplaceAll_from (old new : string) (skip : nat) (s : string) : string :=
  match s with
  | EmptyString => EmptyString
  | String c rest =>
      match skip with
      | S skip => ReplaceAll_from old new skip rest
      | O => if String.prefix old s
             then new +:+ ReplaceAll_from old new (String.length old - 1) rest
             else String c (ReplaceAll_from old new 0 rest)
      end
  end.
Definition ReplaceAll (s old new : string) : string := ReplaceAll_from old new 0 s.

(** ** Keys and templates *)
Definition OwnerIdKey : string := "ownerId".
Definition EventTypeKey : string := "eventType".
Definition DeviceIDKey : string := "deviceId".
Definition HrefIDKey : string := "hrefId".
Definition LeadResourceTypeKey : string := "leadResourceType".
Definition LeadResourcePrefix : string := "leadrt".

Definition placeholder (key : string) : string := "{" +:+ key +:+ "}".

Definition Plgd : string := "plgd".
Definition PlgdOwners : string := Plgd +:+ ".owners".
Definition PlgdOwnersOwner : string := PlgdOwners +:+ ".{" +:+ OwnerIdKey +:+ "}".
Definition Registrations : string := "registrations".
Definition PlgdOwnersOwnerRegistrations : string := PlgdOwnersOwner +:+ "." +:+ Registrations.
Definition PlgdOwnersOwnerRegistrationsEvent : string :=
  PlgdOwnersOwnerRegistrations +:+ ".{" +:+ EventTypeKey +:+ "}".
Definition DevicesRegisteredEvent : string := "devicesregistered".
Definition DevicesUnregisteredEvent : string := "devicesunregistered".

Definition Devices : string := "devices".
Definition PlgdOwnersOwnerDevices : string := PlgdOwnersOwner +:+ "." +:+ Devices.
Definition PlgdOwnersOwnerDevicesDevice : string :=
  PlgdOwnersOwnerDevices +:+ ".{" +:+ DeviceIDKey +:+ "}".
Definition PlgdOwnersOwnerDevicesDeviceResourceLinks : string :=
  PlgdOwnersOwnerDevicesDevice +:+ ".resource-links".
Definition PlgdOwnersOwnerDevicesDeviceResourceLinksEvent : string :=
  PlgdOwnersOwnerDevicesDeviceResourceLinks +:+ ".{" +:+ EventTypeKey +:+ "}".
Definition PlgdOwnersOwnerDevicesDeviceMetadata : string :=
  PlgdOwnersOwnerDevicesDevice +:+ ".metadata".
Definition PlgdOwnersOwnerDevicesDeviceMetadataEvent : string :=
  PlgdOwnersOwnerDevicesDeviceMetadata +:+ ".{" +:+ EventTypeKey +:+ "}".
Definition PlgdOwnersOwnerDevicesDeviceResources : string :=
  PlgdOwnersOwnerDevicesDevice +:+ ".resources".
Definition PlgdOwnersOwnerDevicesDeviceResourcesResource : string :=
  PlgdOwnersOwnerDevicesDeviceResources +:+ ".{" +:+ HrefIDKey +:+ "}".
Definition PlgdOwnersOwnerDevicesDeviceResourcesResourceEvent : string :=
  PlgdOwnersOwnerDevicesDeviceResourcesResource +:+ ".{" +:+ EventTypeKey +:+ "}".
Definition PlgdOwnersOwnerDevicesDeviceResourcesResourceEventLeadResourceType : string :=
  PlgdOwnersOwnerDevicesDeviceResourcesResourceEvent +:+ "." +:+ LeadResourcePrefix
    +:+ ".{" +:+ LeadResourceTypeKey +:+ "}".

(** ** Values of a template

    An option of ToSubject sets one entry of the map of values. *)
Abbreviation values := (gmap string string).

Section subjects.
Context `{!UUIDLib} (range : values -> list (string * string)).

(** [uuid.Parse] accepts the string and the result is not [uuid.Nil]. *)
Context (uuid_Parse_nonnil : string -> bool).

Definition OwnerToUUID (owner : string) : string :=
  if uuid_Parse_nonnil owner then owner else uuid_NewSHA1 owner.
Definition WithOwner (owner : string) (vs : values) : values :=
  if String.eqb owner "*" then <[OwnerIdKey := owner]> vs
  else <[OwnerIdKey := OwnerToUUID owner]> vs.
Definition WithEventType (eventType : string) (vs : values) : values :=
  <[EventTypeKey := eventType]> vs.
Definition WithHrefId (hrefId : string) (vs : values) : values := <[HrefIDKey := hrefId]> vs.
Definition WithDeviceID (deviceID : string) (vs : values) : values :=
  <[DeviceIDKey := deviceID]> vs.
Definition WithLeadResourceType (leadResourceType : string) (vs : values) : values :=
  <[LeadResourceTypeKey := leadResourceType]> vs.

Definition ToSubject (template : string) (opts : list (values -> values)) : string :=
  fold_left (fun template kv => ReplaceAll template (placeholder kv.1) kv.2)
    (range (fold_left (fun vs o => o vs) opts ∅)) template.

(** *** identity-store/events/registrations.go *)
Definition GetRegistrationSubject (owner : string) : string :=
  ToSubject (PlgdOwnersOwnerRegistrations +:+ ".>") [WithOwner owner].
Definition GetDevicesRegisteredSubject (owner : string) : string :=
  ToSubject PlgdOwnersOwnerRegistrationsEvent
    [WithOwner owner; WithEventType DevicesRegisteredEvent].
Definition GetDevicesUnregisteredSubject (owner : string) : string :=
  ToSubject PlgdOwnersOwnerRegistrationsEvent
    [WithOwner owner; WithEventType DevicesUnregisteredEvent].

(** *** resource-aggregate/cqrs/utils/utils.go *)
Definition HrefToID (href : string) : string := uuid_NewSHA1 href.
Definition GetSubjectHrefID (href : string) : string :=
  if String.eqb href "" || String.eqb href "*" then "*" else HrefToID href.
Definition GetDeviceSubject (owner deviceID : string) : list string :=
  [ToSubject PlgdOwnersOwnerDevicesDevice [WithOwner owner; WithDeviceID deviceID] +:+ ".>"].
Definition GetDeviceMetadataEventSubject (owner deviceID eventType : string) : list string :=
  [ToSubject PlgdOwnersOwnerDevicesDeviceMetadataEvent
     [WithOwner owner; WithDeviceID deviceID; WithEventType eventType]].
Definition GetResourceEventSubjects (owner : string) (resourceID : option ResourceId)
    (eventType : string) (leadResourceTypeEnabled : bool) : list string :=
  let subject := ToSubject PlgdOwnersOwnerDevicesDeviceResourcesResourceEvent
    [WithOwner owner; WithDeviceID (resourceID ~> rid_DeviceId); WithEventType eventType;
     WithHrefId (GetSubjectHrefID (resourceID ~> rid_Href))] in
  if negb leadResourceTypeEnabled then [subject] else [subject +:+ ".>"].

(** *** publisher.go *)
Inductive LeadResourceTypeFilter :=
  LeadResourceTypeFilter_None | LeadResourceTypeFilter_First | LeadResourceTypeFilter_Last.
(** A regular expression is the predicate it decides. *)
Record leadResourceType := MkLeadResourceType {
  lrt_filter : LeadResourceTypeFilter;
  lrt_regexFilter : gslice (string -> bool);
  lrt_useUUID : bool }.

Definition matchType (t : string) (f : list (string -> bool)) : bool :=
  existsb (fun m => m t) f.

(** Indexing past the end panics: only called when there are types. *)
Definition getLeadResourceTypeByFilter (lrt : leadResourceType) (types : list string) : string :=
  match match lrt_regexFilter lrt with
        | Some f => List.find (fun t => matchType t f) types
        | None => None
        end with
  | Some t => t
  | None =>
      match lrt_filter lrt with
      | LeadResourceTypeFilter_First => default "" (head types)
      | LeadResourceTypeFilter_Last => default "" (last types)
      | LeadResourceTypeFilter_None => ""
      end
  end.

Definition replaceSpecialCharacters (s : string) : string :=
  ReplaceAll (ReplaceAll (ReplaceAll s "*" "_") ">" "_") "$" "_".
Definition ResourceTypeToUUID (resourceType : string) : string := uuid_NewSHA1 resourceType.

Definition GetLeadResourceType (p : option leadResourceType) (types : list string) : string :=
  match p with
  | None => ""
  | Some lrt =>
      if (length types =? 0)%nat then "" else
      let t := replaceSpecialCharacters (getLeadResourceTypeByFilter lrt types) in
      if lrt_useUUID lrt && negb (String.eqb t "") then ResourceTypeToUUID t else t
  end.

Definition getPublishResourceEventSubject (p : option leadResourceType) (owner : string)
    (resourceID : option ResourceId) (event : AnyEvent) : string :=
  let template := PlgdOwnersOwnerDevicesDeviceResourcesResourceEvent in
  let opts := [WithOwner owner; WithDeviceID (GroupID event);
               WithHrefId (HrefToID (resourceID ~> rid_Href)); WithEventType (EventType event)] in
  match p with
  | None => ToSubject template opts
  | Some _ =>
      let lrt := GetLeadResourceType p (Types event) in
      if negb (String.eqb lrt "") then
        ToSubject PlgdOwnersOwnerDevicesDeviceResourcesResourceEventLeadResourceType
          (opts ++ [WithLeadResourceType lrt])
      else
        ToSubject (PlgdOwnersOwnerDevicesDeviceResourcesResourceEvent +:+ "." +:+ LeadResourcePrefix)
          opts
  end.

(** The events with a method GetResourceId, and what it returns. *)
Definition GetResourceId_of (event : AnyEvent) : option (option ResourceId) :=
  match event with
  | EvResourceChanged e => Some (rc_ResourceId e)
  | EvResourceUpdatePending e => Some (rup_ResourceId e)
  | EvResourceUpdated e => Some (ru_ResourceId e)
  | EvResourceRetrievePending e => Some (rrp_ResourceId e)
  | EvResourceRetrieved e => Some (rr_ResourceId e)
  | EvResourceDeletePending e => Some (rdp_ResourceId e)
  | EvResourceDeleted e => Some (rd_ResourceId e)
  | EvResourceCreatePending e => Some (rcp_ResourceId e)
  | EvResourceCreated e => Some (rcd_ResourceId e)
  | EvResourceStateSnapshotTaken e => Some (rss_ResourceId e)
  | _ => None
  end.

Definition GetPublishSubject (p : option leadResourceType) (owner : string) (event : AnyEvent)
    : list string :=
  let ty := EventType event in
  if bool_decide (ty ∈ ["resourcelinkspublished"; "resourcelinksunpublished";
                        "resourcelinkssnapshottaken"]) then
    [ToSubject PlgdOwnersOwnerDevicesDeviceResourceLinksEvent
       [WithOwner owner; WithDeviceID (GroupID event); WithEventType ty]]
  else if bool_decide (ty ∈ ["devicemetadataupdatepending"; "devicemetadataupdated";
                             "devicemetadatasnapshottaken"]) then
    [ToSubject PlgdOwnersOwnerDevicesDeviceMetadataEvent
       [WithOwner owner; WithDeviceID (GroupID event); WithEventType ty]]
  else
    match GetResourceId_of event with
    | Some rid => [getPublishResourceEventSubject p owner rid event]
    | None => []
    end.
End subjects.

(** ** Matching in NATS

    A subject is a list of tokens separated by dots; in a subscription [*]
    stands for one token and a trailing [>] for one or more. *)
Fixpoint split_dots_aux (tok s : string) : list string :=
  match s with
  | EmptyString => [tok]
  | String c rest =>
      if Ascii.eqb c "." then tok :: split_dots_aux "" rest
      else split_dots_aux (tok +:+ String c EmptyString) rest
  end.
Definition split_dots (s : string) : list string := split_dots_aux "" s.

Fixpoint match_tokens (pat subj : list string) : bool :=
  match pat, subj with
  | [], [] => true
  | p :: pat, t :: subj =>
      if String.eqb p ">" && (length pat =? 0)%nat then true
      else (String.eqb p "*" || String.eqb p t) && match_tokens pat subj
  | _, _ => false
  end.
Definition nats_matches (pattern subject : string) : bool :=
  match_tokens (split_dots pattern) (split_dots subject).

(** ** Templates as lists of tokens *)
Fixpoint free (c : ascii) (s : string) : bool :=
  match s with
  | EmptyString => true
  | String d s => negb (Ascii.eqb d c) && free c s
  end.

(** A token of a template is literal or a placeholder; [fill] puts the values
    that are known in the places of the placeholders. *)
Inductive token := Lit (s : string) | Hole (key : string).
Definition fill_token (vs : values) (t : token) : string :=
  match t with
  | Lit s => s
  | Hole key => default (placeholder key) (vs !! key)
  end.
Definition fill (vs : values) (ts : list token) : string :=
  String.concat "." (fill_token vs <$> ts).

(** A value or a literal token: without the brace that opens a placeholder. *)
Definition plain_token (t : token) : bool :=
  match t with
  | Lit s => free "{" s
  | Hole key => free "{" key && free "}" key
  end.
Definition plain_values (vs : values) : Prop := map_Forall (fun _ v => free "{" v = true) vs.

Lemma append_cons c (a b : string) : String c a +:+ b = String c (a +:+ b).
Proof. reflexivity. Qed.
Lemma append_nil (b : string) : "" +:+ b = b.
Proof. reflexivity. Qed.
Lemma prefix_cons a s b t :
  String.prefix (String a s) (String b t) = if ascii_dec a b then String.prefix s t else false.
Proof. reflexivity. Qed.
Lemma string_app_assoc (a b c : string) : (a +:+ b) +:+ c = a +:+ (b +:+ c).
Proof. induction a as [|x a IH]; [done|]. exact (f_equal (String x) IH). Qed.
Lemma string_app_empty (a : string) : a +:+ "" = a.
Proof. induction a as [|x a IH]; [done|]. exact (f_equal (String x) IH). Qed.
Lemma free_app c a b : free c (a +:+ b) = free c a && free c b.
Proof.
  induction a as [|x a IH]; [done|].
  change (negb (Ascii.eqb x c) && free c (a +:+ b)
          = negb (Ascii.eqb x c) && free c a && free c b).
  by rewrite IH, andb_assoc.
Qed.

Lemma ReplaceAll_free old new v s :
  free "{" v = true ->
  ReplaceAll_from (String "{" old) new 0 (v +:+ s)
  = v +:+ ReplaceAll_from (String "{" old) new 0 s.
Proof.
  induction v as [|c v IH]; intros Hv; [done|]. simpl in Hv. apply andb_prop in Hv as [Hc Hv].
  rewrite !append_cons. cbn [ReplaceAll_from]. rewrite prefix_cons.
  destruct (ascii_dec "{" c) as [<-|_]; [by rewrite Ascii.eqb_refl in Hc|].
  by rewrite IH.
Qed.

Lemma ReplaceAll_skip old new u s :
  ReplaceAll_from old new (String.length u) (u +:+ s) = ReplaceAll_from old new 0 s.
Proof. induction u as [|c u IH]; [by destruct s|]. exact IH. Qed.

Lemma prefix_app old s : String.prefix old (old +:+ s) = true.
Proof.
  induction old as [|c old IH]; [by destruct s|]. rewrite append_cons, prefix_cons.
  by destruct (ascii_dec c c).
Qed.

Lemma ReplaceAll_hit key new s :
  ReplaceAll_from (placeholder key) new 0 (placeholder key +:+ s)
  = new +:+ ReplaceAll_from (placeholder key) new 0 s.
Proof.
  pose proof (prefix_app (placeholder key) s) as Hp. unfold placeholder in *.
  rewrite !append_cons, !append_nil in *. cbn [ReplaceAll_from]. rewrite Hp. f_equal.
  cbn [String.length Nat.sub]. rewrite Nat.sub_0_r. apply ReplaceAll_skip.
Qed.

Lemma prefix_placeholder k k' s :
  free "}" k = true -> free "}" k' = true ->
  String.prefix (k +:+ "}") ((k' +:+ "}") +:+ s) = true -> k = k'.
Proof.
  revert k'. induction k as [|c k IH]; intros [|c' k'] Hk Hk' Hp;
    rewrite ?append_nil, ?append_cons, ?append_nil, ?prefix_cons in Hp; cbn [free] in *; [done| | |].
  - revert Hp. destruct (ascii_dec "}" c') as [<-|];
      intros Hp; [|done]. by rewrite Ascii.eqb_refl in Hk'.
  - revert Hp. destruct (ascii_dec c "}") as [->|];
      intros Hp; [|done]. by rewrite Ascii.eqb_refl in Hk.
  - apply andb_prop in Hk as [_ Hk], Hk' as [_ Hk'].
    revert Hp. destruct (ascii_dec c c') as [->|];
      intros Hp; [|done]. f_equal. by apply IH.
Qed.

Lemma ReplaceAll_miss k k' new s :
  k <> k' -> free "}" k = true -> free "{" k' = true -> free "}" k' = true ->
  ReplaceAll_from (placeholder k) new 0 (placeholder k' +:+ s)
  = placeholder k' +:+ ReplaceAll_from (placeholder k) new 0 s.
Proof.
  intros Hne Hk Ho Hc.
  assert (Hp : String.prefix (placeholder k) (placeholder k' +:+ s) = false).
  { destruct (String.prefix _ _) eqn:E; [|done]. destruct Hne.
    unfold placeholder in E. rewrite !append_cons, !append_nil in E.
    by apply prefix_placeholder in E. }
  unfold placeholder in *. rewrite !append_cons, !append_nil in *.
  cbn [ReplaceAll_from]. rewrite Hp. f_equal.
  apply (ReplaceAll_free (k +:+ "}")). by rewrite free_app, Ho.
Qed.

(** Replacing one placeholder in a partly filled template fills it in. *)
Lemma ReplaceAll_token vs k v t s :
  plain_token t = true -> free "}" k = true -> plain_values vs ->
  ReplaceAll_from (placeholder k) v 0 (fill_token vs t +:+ s)
  = fill_token (vs ∪ {[k := v]}) t +:+ ReplaceAll_from (placeholder k) v 0 s.
Proof.
  intros Ht Hk Hvs. destruct t as [l|k']; simpl in *; [by apply ReplaceAll_free|].
  apply andb_prop in Ht as [Ho Hc]. destruct (vs !! k') as [v'|] eqn:E; simpl.
  - rewrite (lookup_union_Some_l _ _ _ _ E). simpl.
    apply ReplaceAll_free. by apply (Hvs k').
  - rewrite (lookup_union_r _ _ _ E). destruct (decide (k = k')) as [->|Hne].
    + rewrite lookup_singleton_eq. apply ReplaceAll_hit.
    + rewrite lookup_singleton_ne by done. by apply ReplaceAll_miss.
Qed.

Lemma ReplaceAll_fill vs k v ts :
  forallb plain_token ts = true -> free "}" k = true -> plain_values vs ->
  ReplaceAll (fill vs ts) (placeholder k) v = fill (vs ∪ {[k := v]}) ts.
Proof.
  intros Hts Hk Hvs. unfold ReplaceAll, fill.
  induction ts as [|t ts IH]; [done|]. simpl in Hts. apply andb_prop in Hts as [Ht Hts].
  destruct ts as [|t' ts].
  - cbn. rewrite <- (string_app_empty (fill_token vs t)), ReplaceAll_token by done.
    cbn. apply string_app_empty.
  - specialize (IH Hts). cbn [fmap list_fmap String.concat] in *.
    rewrite ReplaceAll_token by done. f_equal.
    rewrite (ReplaceAll_free (k +:+ "}") v "." _ eq_refl). f_equal. exact IH.
Qed.

Lemma plain_values_union vs k v :
  plain_values vs -> free "{" v = true -> plain_values (vs ∪ {[k := v]}).
Proof.
  intros Hvs Hv k' v'. rewrite lookup_union_Some_raw. intros [H|[_ H]]; [by apply (Hvs k')|].
  apply lookup_singleton_Some in H as [_ <-]. done.
Qed.

Lemma ReplaceAll_fold l vs ts :
  forallb plain_token ts = true -> plain_values vs ->
  (forall kv, kv ∈ l -> free "}" kv.1 = true /\ free "{" kv.2 = true) ->
  fold_left (fun t kv => ReplaceAll t (placeholder kv.1) kv.2) l (fill vs ts)
  = fill (vs ∪ list_to_map l) ts.
Proof.
  revert vs. induction l as [|[k v] l IH]; intros vs Hts Hvs Hl; cbn [fold_left].
  { cbn. by rewrite map_union_empty. }
  destruct (Hl (k, v)) as [Hk Hv]; [by left|]. cbn [fst snd] in *.
  rewrite ReplaceAll_fill, IH; [|done|by apply plain_values_union|intros kv Hkv; apply Hl; by right|done..].
  f_equal. rewrite list_to_map_cons. cbn [fst snd].
  by rewrite <- (assoc_L (∪)), <- insert_union_singleton_l.
Qed.

(** ToSubject fills a template in, whatever the order it walks over its values in. *)
Lemma ToSubject_fill range opts vs ts :
  let new := fold_left (fun vs o => o vs) opts (∅ : values) in
  range new ≡ₚ map_to_list new -> forallb plain_token ts = true -> plain_values vs ->
  map_Forall (fun k v => free "}" k = true /\ free "{" v = true) new ->
  ToSubject range (fill vs ts) opts = fill (vs ∪ new) ts.
Proof.
  intros new Hr Hts Hvs Hnew. unfold ToSubject. fold new. rewrite ReplaceAll_fold; [|done..|].
  - do 2 f_equal. rewrite <- (list_to_map_to_list new) at 2. apply list_to_map_proper; [|done].
    rewrite Hr. apply NoDup_fst_map_to_list.
  - intros [k v] Hkv. rewrite Hr in Hkv. apply elem_of_map_to_list in Hkv. by apply Hnew.
Qed.

(** The tokens of a filled template are those of its filled tokens. *)
Lemma split_dots_aux_app tok a b :
  split_dots_aux tok (a +:+ String "." b) = split_dots_aux tok a ++ split_dots b.
Proof.
  revert tok. induction a as [|c a IH]; intros tok; [done|].
  rewrite append_cons. cbn [split_dots_aux]. destruct (Ascii.eqb c "."); rewrite IH; done.
Qed.

Lemma split_dots_fill vs ts :
  ts <> [] -> split_dots (fill vs ts) = concat ((fun t => split_dots (fill_token vs t)) <$> ts).
Proof.
  intros Hne. unfold fill. induction ts as [|t [|t' ts] IH]; [done|cbn; by rewrite app_nil_r|].
  cbn [fmap list_fmap String.concat concat]. rewrite append_cons, append_nil.
  unfold split_dots at 1. rewrite split_dots_aux_app. f_equal. by apply IH.
Qed.

Lemma split_dots_free s : free "." s = true -> split_dots s = [s].
Proof.
  unfold split_dots. intros Hs. rewrite <- (append_nil s) at 2. generalize "" as tok.
  induction s as [|c s IH]; intros tok; [by rewrite string_app_empty|].
  cbn [free] in Hs. apply andb_prop in Hs as [Hc Hs]. cbn [split_dots_aux].
  destruct (Ascii.eqb c "."); [done|]. rewrite IH by done. by rewrite string_app_assoc.
Qed.

(** A single token of a subject that fills a placeholder. *)
Definition safe (s : string) : bool := free "{" s && free "." s.
Lemma safe_free s : safe s = true -> free "{" s = true /\ free "." s = true.
Proof. apply andb_prop. Qed.

Class SubjectLaws `{!UUIDLib} (range : values -> list (string * string)) := {
  range_perm : forall vs, range vs ≡ₚ map_to_list vs;
  uuid_NewSHA1_safe : forall s, safe (uuid_NewSHA1 s) = true }.

Section matching.
Context `{!UUIDLib} (range : values -> list (string * string)) `{!SubjectLaws range}.
Context (uuid_Parse_nonnil : string -> bool).

(** What WithOwner puts in the place of the owner. *)
Definition owner_value (owner : string) : string :=
  if String.eqb owner "*" then owner else OwnerToUUID uuid_Parse_nonnil owner.

Lemma WithOwner_value owner vs :
  WithOwner uuid_Parse_nonnil owner vs = <[OwnerIdKey := owner_value owner]> vs.
Proof. unfold WithOwner, owner_value. by destruct (String.eqb owner "*"). Qed.

Lemma EventType_safe (ev : AnyEvent) : safe (EventType ev) = true.
Proof. by destruct ev. Qed.

Lemma HrefToID_safe href : safe (HrefToID href) = true.
Proof. apply uuid_NewSHA1_safe. Qed.

Lemma GetSubjectHrefID_safe href : safe (GetSubjectHrefID href) = true.
Proof. unfold GetSubjectHrefID. case_match; [done|apply HrefToID_safe]. Qed.

(** ToSubject on a whole template. *)
Lemma ToSubject_template template ts opts new :
  template = fill ∅ ts -> forallb plain_token ts = true ->
  fold_left (fun vs o => o vs) opts ∅ = new ->
  map_Forall (fun k v => free "}" k = true /\ free "{" v = true) new ->
  ToSubject range template opts = fill new ts.
Proof.
  intros -> Hts <- Hnew. rewrite ToSubject_fill; [|apply range_perm|done|apply map_Forall_empty|done].
  by rewrite map_empty_union.
Qed.

Lemma plain_insert k v (vs : values) :
  free "}" k = true -> free "{" v = true ->
  map_Forall (fun k v => free "}" k = true /\ free "{" v = true) vs ->
  map_Forall (fun k v => free "}" k = true /\ free "{" v = true) (<[k := v]> vs).
Proof. intros Hk Hv Hvs. by apply map_Forall_insert_2. Qed.

(** The tokens of the templates of resource events. *)
Definition event_tokens : list token :=
  [Lit "plgd"; Lit "owners"; Hole OwnerIdKey; Lit "devices"; Hole DeviceIDKey; Lit "resources";
   Hole HrefIDKey; Hole EventTypeKey].

Lemma fill_snoc_lit vs ts s : ts <> [] -> fill vs ts +:+ String "." s = fill vs (ts ++ [Lit s]).
Proof.
  intros Hne. unfold fill. rewrite fmap_app. induction ts as [|t [|t' ts] IH]; [done| |].
  - cbn. by rewrite append_cons, append_nil.
  - cbn [fmap list_fmap String.concat app] in *. rewrite string_app_assoc. f_equal.
    rewrite string_app_assoc. f_equal. by apply IH.
Qed.

Lemma GetResourceId_of_GroupID ev rid :
  GetResourceId_of ev = Some rid -> GroupID ev = rid ~> rid_DeviceId.
Proof. destruct ev; simpl; intros [= <-]; reflexivity. Qed.

Lemma GetPublishSubject_resource p owner ev rid :
  GetResourceId_of ev = Some rid ->
  GetPublishSubject range uuid_Parse_nonnil p owner ev
  = [getPublishResourceEventSubject range uuid_Parse_nonnil p owner rid ev].
Proof. destruct ev; simpl; intros [= <-]; reflexivity. Qed.

(** The values of the placeholders of [event_tokens]. *)
Definition event_values (owner device href type : string) : values :=
  <[EventTypeKey := type]> (<[HrefIDKey := href]> (<[DeviceIDKey := device]>
    (<[OwnerIdKey := owner_value owner]> ∅))).

Lemma event_values_plain owner device href type :
  safe (owner_value owner) = true -> safe device = true -> safe href = true -> safe type = true ->
  map_Forall (fun k v => free "}" k = true /\ free "{" v = true)
    (event_values owner device href type).
Proof.
  intros ?%safe_free ?%safe_free ?%safe_free ?%safe_free. unfold event_values.
  repeat apply plain_insert; try tauto; done.
Qed.

Lemma event_options_plain owner device href type lrt :
  safe (owner_value owner) = true -> safe device = true -> safe href = true -> safe type = true ->
  free "{" lrt = true ->
  map_Forall (fun k v => free "}" k = true /\ free "{" v = true)
    (<[LeadResourceTypeKey := lrt]> (event_values owner device href type)).
Proof. intros. apply plain_insert; [done|done|]. by apply event_values_plain. Qed.

(** The tokens of a subject of a resource event. *)
Lemma split_event vs owner device href type more :
  vs !! OwnerIdKey = Some owner -> vs !! DeviceIDKey = Some device ->
  vs !! HrefIDKey = Some href -> vs !! EventTypeKey = Some type ->
  safe owner = true -> safe device = true -> safe href = true -> safe type = true ->
  split_dots (fill vs (event_tokens ++ more))
  = ["plgd"; "owners"; owner; "devices"; device; "resources"; href; type]
    ++ concat ((fun t => split_dots (fill_token vs t)) <$> more).
Proof.
  intros Eo Ed Eh Et [_ Ho]%safe_free [_ Hd]%safe_free [_ Hh]%safe_free [_ Ht]%safe_free.
  rewrite split_dots_fill by done. rewrite fmap_app, concat_app. f_equal.
  unfold event_tokens. cbn [fmap list_fmap fill_token]. rewrite Eo, Ed, Eh, Et.
  cbn [from_option id].
  rewrite (split_dots_free owner), (split_dots_free device), (split_dots_free href),
    (split_dots_free type) by done.
  reflexivity.
Qed.

(** A literal token of a pattern, before other tokens, matches itself; so does
    a last one that is not [>]. *)
Lemma match_same t q pat subj :
  match_tokens (t :: q :: pat) (t :: subj) = match_tokens (q :: pat) subj.
Proof. cbn [match_tokens length]. by rewrite andb_false_r, String.eqb_refl, orb_true_r. Qed.
Lemma match_star q pat t subj :
  match_tokens ("*" :: q :: pat) (t :: subj) = match_tokens (q :: pat) subj.
Proof. reflexivity. Qed.
Lemma match_last t : t <> ">" -> match_tokens [t] [t] = true.
Proof.
  intros Ht. cbn. apply String.eqb_neq in Ht. by rewrite Ht, String.eqb_refl, orb_true_r.
Qed.
Lemma match_rest t subj : match_tokens [">"] (t :: subj) = true.
Proof. reflexivity. Qed.

Lemma EventType_not_rest (ev : AnyEvent) : EventType ev <> ">".
Proof. by destruct ev. Qed.

(** The subject of a published resource event: the tokens of the template,
    and more of them when leading resource types are enabled. *)
Definition lead_tokens (p : option leadResourceType) (types : list string) : list string :=
  match p with
  | None => []
  | Some _ => let lrt := GetLeadResourceType p types in
              LeadResourcePrefix :: if String.eqb lrt "" then [] else split_dots lrt
  end.

Lemma publish_tokens p owner ev rid :
  GetResourceId_of ev = Some rid ->
  safe (owner_value owner) = true -> safe (GroupID ev) = true ->
  free "{" (GetLeadResourceType p (Types ev)) = true ->
  split_dots (getPublishResourceEventSubject range uuid_Parse_nonnil p owner rid ev)
  = ["plgd"; "owners"; owner_value owner; "devices"; GroupID ev; "resources";
     HrefToID (rid ~> rid_Href); EventType ev] ++ lead_tokens p (Types ev).
Proof.
  intros Hrid Ho Hd Hl. pose proof (EventType_safe ev) as Ht.
  pose proof (HrefToID_safe (rid ~> rid_Href)) as Hh.
  unfold getPublishResourceEventSubject, lead_tokens.
  set (lrt := GetLeadResourceType p (Types ev)) in *.
  set (vs := event_values owner (GroupID ev) (HrefToID (rid ~> rid_Href)) (EventType ev)).
  assert (Hvs : fold_left (fun vs o => o vs)
    [WithOwner uuid_Parse_nonnil owner; WithDeviceID (GroupID ev);
     WithHrefId (HrefToID (rid ~> rid_Href)); WithEventType (EventType ev)] ∅ = vs).
  { cbn [fold_left]. by rewrite WithOwner_value. }
  destruct p as [p|].
  - fold lrt. destruct (String.eqb lrt "") eqn:El; cbn [negb].
    + rewrite (ToSubject_template _ (event_tokens ++ [Lit LeadResourcePrefix]) _ vs);
        [|reflexivity|reflexivity|done|by apply event_values_plain].
      rewrite (split_event _ (owner_value owner) (GroupID ev) (HrefToID (rid ~> rid_Href))
        (EventType ev)) by (done || by simplify_map_eq). done.
    + rewrite (ToSubject_template _ (event_tokens ++ [Lit LeadResourcePrefix; Hole LeadResourceTypeKey])
        _ (<[LeadResourceTypeKey := lrt]> vs));
        [|reflexivity|reflexivity|by rewrite fold_left_app, Hvs|by apply event_options_plain].
      rewrite (split_event _ (owner_value owner) (GroupID ev) (HrefToID (rid ~> rid_Href))
        (EventType ev)) by (done || by simplify_map_eq).
      f_equal. cbn. rewrite lookup_insert_eq. cbn. by rewrite app_nil_r.
  - rewrite (ToSubject_template _ (event_tokens ++ []) _ vs);
      [|reflexivity|reflexivity|done|by apply event_values_plain].
    by rewrite (split_event _ (owner_value owner) (GroupID ev) (HrefToID (rid ~> rid_Href))
      (EventType ev)) by (done || by simplify_map_eq).
Qed.

(** A subscription to the events of a type on a resource hears every such
    event that is published for the resource, with or without the feature of
    leading resource types. *)
Theorem published_reaches_subscriber p owner ev rid :
  GetResourceId_of ev = Some rid ->
  safe (owner_value owner) = true -> safe (GroupID ev) = true ->
  free "{" (GetLeadResourceType p (Types ev)) = true ->
  exists subject,
    GetPublishSubject range uuid_Parse_nonnil p owner ev = [subject] /\
    Forall (fun pattern => nats_matches pattern subject = true)
      (GetResourceEventSubjects range uuid_Parse_nonnil owner rid (EventType ev)
         (bool_decide (is_Some p))).
Proof.
  intros Hrid Ho Hd Hl. eexists. split; [by apply GetPublishSubject_resource|].
  pose proof (publish_tokens p owner ev rid Hrid Ho Hd Hl) as Htoks.
  pose proof (EventType_safe ev) as Ht. pose proof (GetSubjectHrefID_safe (rid ~> rid_Href)) as Hh.
  unfold GetResourceEventSubjects.
  set (vs := event_values owner (GroupID ev) (GetSubjectHrefID (rid ~> rid_Href)) (EventType ev)).
  rewrite (ToSubject_template _ event_tokens _ vs); [|reflexivity|reflexivity| |by apply event_values_plain].
  2: { cbn [fold_left]. rewrite WithOwner_value, <- (GetResourceId_of_GroupID _ _ Hrid).
       unfold vs, event_values, WithDeviceID, WithEventType, WithHrefId.
       by rewrite (insert_insert_ne _ EventTypeKey) by done. }
  assert (Hmatch : forall pat subj, match_tokens pat subj = true -> pat <> [] ->
    match_tokens (["plgd"; "owners"; owner_value owner; "devices"; GroupID ev; "resources";
       GetSubjectHrefID (rid ~> rid_Href)] ++ pat)
      (["plgd"; "owners"; owner_value owner; "devices"; GroupID ev; "resources";
       HrefToID (rid ~> rid_Href)] ++ subj) = true).
  { intros [|q pat] subj Hm Hne; [done|]. cbn [app]. rewrite !match_same.
    unfold GetSubjectHrefID. case_match; [by rewrite match_star|by rewrite match_same]. }
  case_bool_decide as Hp; cbn [negb]; apply Forall_singleton; unfold nats_matches; rewrite Htoks.
  - rewrite (fill_snoc_lit _ event_tokens ">") by done.
    rewrite (split_event vs (owner_value owner) (GroupID ev) (GetSubjectHrefID (rid ~> rid_Href))
      (EventType ev)) by (done || by simplify_map_eq).
    destruct p as [p|]; [|by destruct Hp]. cbn [lead_tokens].
    apply (Hmatch [EventType ev; ">"] (EventType ev :: LeadResourcePrefix :: _)); [|done].
    by rewrite match_same.
  - rewrite <- (app_nil_r event_tokens).
    rewrite (split_event vs (owner_value owner) (GroupID ev) (GetSubjectHrefID (rid ~> rid_Href))
      (EventType ev)) by (done || by simplify_map_eq).
    destruct p as [p|]; [by destruct Hp; eauto|]. cbn [lead_tokens].
    apply (Hmatch [EventType ev] [EventType ev]); [|done]. apply match_last, EventType_not_rest.
Qed.
(** The subject that a projection of a device listens on hears everything that
    is published for the device. *)
Lemma match_device_pattern owner device subj :
  safe (owner_value owner) = true -> safe device = true -> subj <> [] ->
  match_tokens (split_dots
    (ToSubject range PlgdOwnersOwnerDevicesDevice
       [WithOwner uuid_Parse_nonnil owner; WithDeviceID device] +:+ ".>"))
    (["plgd"; "owners"; owner_value owner; "devices"; device] ++ subj) = true.
Proof.
  intros [Ho1 Ho2]%safe_free [Hd1 Hd2]%safe_free Hne.
  rewrite (ToSubject_template _ [Lit "plgd"; Lit "owners"; Hole OwnerIdKey; Lit "devices";
    Hole DeviceIDKey] _ (<[DeviceIDKey := device]> (<[OwnerIdKey := owner_value owner]> ∅)));
    [|reflexivity|reflexivity|cbn [fold_left]; by rewrite WithOwner_value|].
  2: { repeat apply plain_insert; done. }
  rewrite (fill_snoc_lit _ _ ">") by done. rewrite split_dots_fill by done.
  cbn [fmap list_fmap app fill_token]. simplify_map_eq. cbn [from_option id].
  rewrite (split_dots_free (owner_value owner)), (split_dots_free device) by done.
  destruct subj as [|t subj]; [done|]. cbn [concat app]. by rewrite !match_same.
Qed.

Lemma publish_tokens_device owner device type kind :
  safe (owner_value owner) = true -> safe device = true -> safe type = true ->
  free "{" kind = true -> free "." kind = true ->
  split_dots (ToSubject range
    (fill ∅ [Lit "plgd"; Lit "owners"; Hole OwnerIdKey; Lit "devices"; Hole DeviceIDKey; Lit kind;
             Hole EventTypeKey])
    [WithOwner uuid_Parse_nonnil owner; WithDeviceID device; WithEventType type])
  = ["plgd"; "owners"; owner_value owner; "devices"; device; kind; type].
Proof.
  intros [Ho1 Ho2]%safe_free [Hd1 Hd2]%safe_free [Ht1 Ht2]%safe_free Hk1 Hk2.
  erewrite ToSubject_template; [|reflexivity| |cbn [fold_left]; by rewrite WithOwner_value|].
  2: { cbn [forallb plain_token]. by rewrite Hk1. }
  2: { repeat apply plain_insert; done. }
  rewrite split_dots_fill by done. unfold WithDeviceID, WithEventType.
  cbn [fmap list_fmap fill_token]. simplify_map_eq. cbn [from_option id].
  rewrite (split_dots_free (owner_value owner)), (split_dots_free device), (split_dots_free type),
    (split_dots_free kind) by done.
  reflexivity.
Qed.

Theorem published_reaches_device_subscriber p owner ev subject :
  safe (owner_value owner) = true -> safe (GroupID ev) = true ->
  free "{" (GetLeadResourceType p (Types ev)) = true ->
  subject ∈ GetPublishSubject range uuid_Parse_nonnil p owner ev ->
  Forall (fun pattern => nats_matches pattern subject = true)
    (GetDeviceSubject range uuid_Parse_nonnil owner (GroupID ev)).
Proof.
  intros Ho Hd Hl Hs. pose proof (EventType_safe ev) as Ht. apply Forall_singleton.
  destruct (GetResourceId_of ev) as [rid|] eqn:Hrid.
  - rewrite (GetPublishSubject_resource _ _ _ rid) in Hs by done.
    apply list_elem_of_singleton in Hs as ->.
    pose proof (publish_tokens p owner ev rid Hrid Ho Hd Hl) as Htoks.
    unfold nats_matches. rewrite Htoks. by apply (match_device_pattern owner (GroupID ev)).
  - assert (Hsub : exists kind, free "{" kind = true /\ free "." kind = true /\
      subject = ToSubject range
        (fill ∅ [Lit "plgd"; Lit "owners"; Hole OwnerIdKey; Lit "devices"; Hole DeviceIDKey;
                 Lit kind; Hole EventTypeKey])
        [WithOwner uuid_Parse_nonnil owner; WithDeviceID (GroupID ev); WithEventType (EventType ev)]).
    { unfold GetPublishSubject in Hs. rewrite Hrid in Hs. repeat case_bool_decide.
      - apply list_elem_of_singleton in Hs as ->. by exists "resource-links".
      - apply list_elem_of_singleton in Hs as ->. by exists "metadata".
      - by apply not_elem_of_nil in Hs. }
    destruct Hsub as (kind & H1 & H2 & ->). unfold nats_matches.
    rewrite publish_tokens_device by done. by apply (match_device_pattern owner (GroupID ev)).
Qed.
End matching.
