(* ===== verification/MongoStoreFacts.v ===== *)
(** * The event store in MongoDB: what it promises

    The log of an aggregate is spread over its documents, the last of which is
    the active one.  A save appends to the log or leaves it alone, a load
    delivers it from the latest snapshot on, whether or not documents were full
    in between; and two ways in which events are lost, because the documents of
    a snapshot are not written in one transaction and a save does not ask
    whether a document is active. *)

From Stdlib Require Import ZArith Lia String Ascii.
From stdpp Require Import pretty.
From S2P Require Import Prelude Commands Events EventStore Subjects MongoStore.

(** ** Identifiers of documents *)
Lemma pretty_N_go_dotless x s : free "." s = true -> free "." (pretty_N_go x s) = true.
Proof.
  revert s. induction (N.lt_wf_0 x) as [x _ IH]; intros s Hs.
  destruct (decide (0 < x)%N) as [Hx|Hx].
  - rewrite pretty_N_go_step by done. apply IH; [by apply N.div_lt|]. cbn [free]. rewrite Hs, andb_true_r.
    unfold pretty_N_char. by repeat case_match.
  - by assert (x = 0)%N as -> by lia.
Qed.
Lemma pretty_dotless (n : N) : free "." (pretty n) = true.
Proof. unfold pretty, pretty_N. case_decide; [done|]. by apply pretty_N_go_dotless. Qed.
Lemma append_dot a p : a +:+ "." +:+ p = a +:+ String "." p.
Proof. reflexivity. Qed.
(** The last dot tells where the version begins. *)
Lemma dot_inj a b p q :
  free "." p = true -> free "." q = true -> a +:+ "." +:+ p = b +:+ "." +:+ q -> a = b /\ p = q.
Proof.
  intros Hp Hq. rewrite !append_dot. revert b.
  induction a as [|c a IH]; intros [|c' b] Heq; rewrite ?append_nil, ?append_cons in Heq; injection Heq.
  - by intros ->.
  - intros -> <-. by rewrite free_app, andb_false_r in Hp.
  - intros <- ->. by rewrite free_app, andb_false_r in Hq.
  - intros Ht ->. by destruct (IH b Ht) as [-> ->].
Qed.
Definition version_id (aggregateID : string) (version : Z) : string :=
  aggregateID +:+ "." +:+ pretty (Z.to_N version).
Lemma version_id_inj a b v w :
  (0 <= v)%Z -> (0 <= w)%Z -> version_id a v = version_id b w -> a = b /\ v = w.
Proof.
  intros Hv Hw Heq. apply dot_inj in Heq as [-> Hp]; [|apply pretty_dotless..].
  apply (inj pretty) in Hp. split; [done|lia].
Qed.

Section facts.
Context {E D : Type} `{!UUIDLib} `{!Event E} (marshaler : E -> result D).
#[local] Abbreviation Doc := (DBDoc (D := D)).
#[local] Abbreviation Ev := (DBEvent (D := D)).
#[local] Abbreviation no_faults := (fun _ : nat => None : Fault).
Implicit Types (docs ds : list Doc) (d : Doc) (evs : list Ev) (events : list E).

(** ** The log of an aggregate *)
Definition docs_of (a : string) docs : list Doc := filter (fun d => doc_aggregateID d = a) docs.
Definition doc_log d : list Ev := default [] (doc_events d).
Definition log docs (a : string) : list Ev := docs_of a docs ≫= doc_log.
Definition next_version evs : Z := match last evs with None => 0 | Some e => u64 (ev_version e + 1) end.
(** The last snapshot and what follows it, or everything. *)
Fixpoint since_snapshot evs : list Ev :=
  match evs with
  | [] => []
  | e :: evs' => if existsb ev_isSnapshot evs' then since_snapshot evs' else evs
  end.
(** What is written for an event. *)
Definition written (e : E) (ev : Ev) : Prop :=
  exists raw, marshaler e = inr raw /\ ev = makeDBEvent raw e.

(** Versions that count up, within 63 bits. *)
Definition ascending_from (v : Z) evs : Prop :=
  forall i e, evs !! i = Some e -> ev_version e = (v + Z.of_nat i)%Z.
Definition id_ok (a : string) d : Prop :=
  exists n, doc_id d = Some (version_id a n) /\ (0 <= n <= doc_latestVersion d)%Z.
Record active_ok (d : Doc) (first : bool) : Prop := {
  active : doc_isActive d = true;
  active_events : exists v, doc_events d = Some (doc_log d) /\ (0 <= v)%Z /\ ascending_from v (doc_log d) /\
    (doc_latestVersion d = v + Z.of_nat (length (doc_log d)) - 1)%Z;
  active_nonempty : doc_log d <> [];
  active_bound : (0 <= doc_latestVersion d < 2 ^ 63)%Z;
  active_snapshot : exists s, doc_latestSnapshotVersion d = Some s /\ (s <= doc_latestVersion d)%Z /\
    List.filter (fun ev => (s <=? ev_version ev)%Z) (doc_log d) = since_snapshot (doc_log d);
  active_first : first = false -> existsb ev_isSnapshot (doc_log d) = true }.
(** The documents of an aggregate of the group [g]: those that were full, then the active one. *)
Definition aggregate_ok (a g : string) ds : Prop :=
  exists pre d, ds = pre ++ [d] /\
    active_ok d (bool_decide (pre = [])) /\
    Forall (fun x => id_ok a x /\ doc_groupID x = Some g) ds /\
    Forall (fun x => doc_isActive x = false /\ (doc_latestVersion x < doc_latestVersion d)%Z) pre.
Definition docs_ok docs : Prop :=
  forall a, docs_of a docs <> [] -> exists g, aggregate_ok a g (docs_of a docs).
(** The identifier of an aggregate is in one group only. *)
Definition in_group docs (a g : string) : Prop := Forall (fun d => doc_groupID d = Some g) (docs_of a docs).
(** What a writer of the version [v] has seen of the aggregate: not a document
    that is full by now, nor nothing when the first document is gone. *)
Definition fresh docs (a : string) (v : Z) : Prop :=
  (forall d, d ∈ docs -> doc_aggregateID d = a -> doc_latestVersion d = (v - 1)%Z -> doc_isActive d = true) /\
  (v = 0%Z -> docs_of a docs <> [] -> exists d, d ∈ docs /\ doc_id d = Some (version_id a 0)).

(** ** Lists of events *)
Lemma since_snapshot_app a b :
  since_snapshot (a ++ b) = if existsb ev_isSnapshot b then since_snapshot b else since_snapshot a ++ b.
Proof.
  induction a as [|e a IH]; cbn [app since_snapshot].
  - destruct b as [|x b]; [done|]. cbn. destruct (existsb ev_isSnapshot b) eqn:Hb; [by rewrite orb_true_r|].
    by destruct (ev_isSnapshot x).
  - rewrite existsb_app, IH. destruct (existsb ev_isSnapshot b) eqn:Hb; [by rewrite orb_true_r|].
    rewrite orb_false_r. by destruct (existsb ev_isSnapshot a).
Qed.
Lemma since_snapshot_first a e :
  existsb ev_isSnapshot a = false -> since_snapshot (e :: a) = e :: a.
Proof. intros Ha. cbn. by rewrite Ha. Qed.
Lemma filter_all (f : Ev -> bool) evs : (forall e, e ∈ evs -> f e = true) -> List.filter f evs = evs.
Proof.
  induction evs as [|e evs IH]; intros Hall; cbn; [done|].
  rewrite (Hall e) by by left. f_equal. apply IH. intros x Hx. apply Hall. by right.
Qed.
Lemma filter_none (f : Ev -> bool) evs : (forall e, e ∈ evs -> f e = false) -> List.filter f evs = [].
Proof.
  induction evs as [|e evs IH]; intros Hall; cbn; [done|].
  rewrite (Hall e) by by left. apply IH. intros x Hx. apply Hall. by right.
Qed.
Lemma ascending_from_app v a b :
  ascending_from v (a ++ b) <-> ascending_from v a /\ ascending_from (v + Z.of_nat (length a)) b.
Proof.
  unfold ascending_from. split.
  - intros Hab. split; intros i e Hi.
    + apply Hab. by apply lookup_app_l_Some.
    + specialize (Hab (length a + i)%nat e). rewrite lookup_app_r in Hab by lia.
      replace (length a + i - length a)%nat with i in Hab by lia. rewrite (Hab Hi). lia.
  - intros [Ha Hb] i e Hi. apply lookup_app_Some in Hi as [Hi|[Hl Hi]]; [by apply Ha|].
    rewrite (Hb _ _ Hi). lia.
Qed.
Lemma ascending_bounds v evs e : ascending_from v evs -> e ∈ evs ->
  (v <= ev_version e < v + Z.of_nat (length evs))%Z.
Proof.
  intros Ha (i & Hi)%list_elem_of_lookup. rewrite (Ha _ _ Hi). apply lookup_lt_Some in Hi. lia.
Qed.
(** In ascending events the last snapshot is where the greater versions begin. *)
Lemma snapshot_filter v evs s :
  ascending_from v evs -> fold_left (fun acc e => if ev_isSnapshot e then Some (ev_version e) else acc) evs None = Some s ->
  existsb ev_isSnapshot evs = true /\ (v <= s < v + Z.of_nat (length evs))%Z /\
  List.filter (fun ev => (s <=? ev_version ev)%Z) evs = since_snapshot evs.
Proof.
  induction evs as [|e evs IH] using rev_ind; [done|]. intros [Ha He]%ascending_from_app.
  rewrite fold_left_app. cbn [fold_left]. rewrite existsb_app, length_app, since_snapshot_app, List.filter_app. cbn.
  pose proof (He 0 e eq_refl) as Hv. destruct (ev_isSnapshot e) eqn:Hs; cbn.
  - intros [= <-]. rewrite orb_true_r. split; [done|]. split; [lia|]. rewrite Z.leb_refl, filter_none; [done|].
    intros x Hx. pose proof (ascending_bounds v evs x Ha Hx). apply Z.leb_gt. lia.
  - intros Hf. destruct (IH Ha Hf) as (-> & Hb & ->). split; [done|]. split; [lia|].
    replace (s <=? ev_version e)%Z with true; [done|]. symmetry. apply Z.leb_le. lia.
Qed.

(** ** Events as they are written *)
#[local] Abbreviation snapshot_fold evs :=
  (fold_left (fun acc ev => if ev_isSnapshot ev then Some (ev_version ev) else acc) evs None).
Lemma makeDBEvents_written events etag types e :
  makeDBEventsAndGetETag marshaler events = inr (etag, types, e) -> Forall2 written events e.
Proof.
  revert etag types e. induction events as [|x events IH]; intros etag types e; cbn.
  - intros [= <- <- <-]. constructor.
  - destruct (marshaler x) as [|raw] eqn:Hm; [done|].
    destruct (makeDBEventsAndGetETag marshaler events) as [|[[etag' types'] e']] eqn:He; [done|].
    intros [= <- <- <-]. constructor; [by exists raw|]. by eapply IH.
Qed.
Lemma written_fold events e acc :
  Forall2 written events e ->
  fold_left (fun acc x => if IsSnapshot x then Some (Version x) else acc) events acc
  = fold_left (fun acc ev => if ev_isSnapshot ev then Some (ev_version ev) else acc) e acc.
Proof.
  intros Hw. revert acc. induction Hw as [|x ev events e (raw & _ & ->) _ IH]; intros acc; cbn; [done|].
  apply IH.
Qed.
Lemma latest_snapshot_spec events e first :
  Forall2 written events e -> head events = Some first ->
  getLatestSnapshotVersion events
  = match snapshot_fold e with Some s => Some s | None => if (Version first =? 0)%Z then Some 0%Z else None end.
Proof.
  intros Hw Hh. unfold getLatestSnapshotVersion. rewrite (written_fold _ _ _ Hw).
  destruct events as [|x events]; [done|]. by injection Hh as ->.
Qed.
Lemma snapshot_fold_None evs : snapshot_fold evs = None -> existsb ev_isSnapshot evs = false.
Proof.
  induction evs as [|e evs IH] using rev_ind; [done|]. rewrite fold_left_app, existsb_app. cbn.
  destruct (ev_isSnapshot e); [done|]. intros Hf. by rewrite (IH Hf).
Qed.

(** The events of a save that are valid: their versions fit into BSON's 64 bits. *)
Definition saved events first : Prop :=
  ValidateEventsBeforeSave (Some <$> events) = None /\ head events = Some first /\
  (0 <= Version first)%Z /\ (Version first + Z.of_nat (length events) <= 2 ^ 63)%Z.
Lemma saved_ascending events first e :
  saved events first -> Forall2 written events e ->
  e <> [] /\ length e = length events /\ ascending_from (Version first) e.
Proof.
  intros (Hv & Hh & H0 & H63) Hw. pose proof (Forall2_length _ _ _ Hw) as Hl.
  apply ValidateEventsBeforeSave_None in Hv as (l & Heq & Hs). apply (inj (fmap Some)) in Heq. subst l.
  destruct events as [|x events]; [done|]. injection Hh as ->. destruct Hs as (_ & _ & _ & Ha & _).
  split; [by inversion Hw|]. split; [done|]. intros i ev Hi.
  destruct (Forall2_lookup_r _ _ _ _ _ Hw Hi) as (y & Hy & raw & _ & ->). cbn [ev_version makeDBEvent].
  pose proof (lookup_lt_Some _ _ _ Hy) as Hlt. destruct i as [|i]; [injection Hy as ->; lia|].
  rewrite (Ha (S i) y Hy) by lia. unfold u64. rewrite Z.mod_small; lia.
Qed.
Lemma saved_last events first final :
  saved events first -> last events = Some final ->
  (Version final = Version first + Z.of_nat (length events) - 1)%Z.
Proof.
  intros (Hv & Hh & H0 & H63) Hl.
  apply ValidateEventsBeforeSave_None in Hv as (l & Heq & Hs). apply (inj (fmap Some)) in Heq. subst l.
  destruct events as [|x events]; [done|]. injection Hh as ->. destruct Hs as (_ & _ & _ & Ha & _).
  rewrite last_lookup in Hl. cbn [length pred] in *. destruct (length events) as [|n] eqn:Hn.
  - injection Hl as <-. lia.
  - rewrite (Ha _ _ Hl) by lia. unfold u64. rewrite Z.mod_small; lia.
Qed.

(** ** Documents *)
Lemma docs_of_app a l1 l2 : docs_of a (l1 ++ l2) = docs_of a l1 ++ docs_of a l2.
Proof. apply filter_app. Qed.
Lemma docs_of_cons a d docs :
  docs_of a (d :: docs) = if decide (doc_aggregateID d = a) then d :: docs_of a docs else docs_of a docs.
Proof. unfold docs_of. rewrite filter_cons. done. Qed.
Lemma elem_docs_of a d docs : d ∈ docs_of a docs <-> doc_aggregateID d = a /\ d ∈ docs.
Proof. unfold docs_of. by rewrite list_elem_of_filter. Qed.
Lemma log_app docs1 docs2 a : log (docs1 ++ docs2) a = log docs1 a ++ log docs2 a.
Proof. unfold log. by rewrite docs_of_app, bind_app. Qed.
Lemma active_last d b : active_ok d b -> exists e, last (doc_log d) = Some e /\ ev_version e = doc_latestVersion d.
Proof.
  intros Hd. destruct (active_events _ _ Hd) as (v & _ & Hv & Ha & Hl).
  destruct (last (doc_log d)) as [e|] eqn:He.
  - exists e. split; [done|]. rewrite last_lookup in He. rewrite (Ha _ _ He).
    pose proof (lookup_lt_Some _ _ _ He). lia.
  - by apply last_None, (active_nonempty _ _ Hd) in He.
Qed.
Lemma aggregate_log docs a pre d b :
  docs_of a docs = pre ++ [d] -> active_ok d b ->
  log docs a = (pre ≫= doc_log) ++ doc_log d /\ next_version (log docs a) = (doc_latestVersion d + 1)%Z.
Proof.
  intros Hd Hok. assert (Hl : log docs a = (pre ≫= doc_log) ++ doc_log d).
  { unfold log. rewrite Hd, bind_app. cbn. by rewrite app_nil_r. }
  split; [done|]. destruct (active_last d b Hok) as (e & He & Hv). pose proof (active_bound _ _ Hok).
  unfold next_version. rewrite Hl, last_app, He, Hv. unfold u64. rewrite Z.mod_small; lia.
Qed.

Lemma update_one_Some f u docs d' m docs' :
  update_one f u docs = Some (d', m, docs') ->
  exists l1 d l2, docs = l1 ++ d :: l2 /\ f d = true /\ u d = (d', m) /\ docs' = l1 ++ d' :: l2.
Proof.
  revert d' m docs'. induction docs as [|x docs IH]; intros d' m docs'; cbn; [done|].
  destruct (f x) eqn:Hf.
  - destruct (u x) as [x' mx] eqn:Hu. intros [= <- <- <-]. by exists [], x, docs.
  - destruct (update_one f u docs) as [[[d1 m1] docs1]|] eqn:He; [|done]. intros [= <- <- <-].
    destruct (IH _ _ _ eq_refl) as (l1 & d & l2 & -> & Hd & Hu & ->). by exists (x :: l1), d, l2.
Qed.
Lemma update_one_None f u docs : update_one f u docs = None -> forall d, d ∈ docs -> f d = false.
Proof.
  induction docs as [|x docs IH]; cbn; [by intros _ d ?%not_elem_of_nil|].
  destruct (f x) eqn:Hf; [by destruct (u x)|]. destruct (update_one f u docs) as [[[]]|]; [done|].
  intros _ d [->|Hd]%elem_of_cons; [done|by apply IH].
Qed.
Lemma snoc_split {A} (pre x y : list A) (w w' : A) :
  pre ++ [w] = x ++ w' :: y -> w' ∉ pre -> pre = x /\ y = [] /\ w = w'.
Proof.
  intros Heq Hni. destruct (exists_last (l := w' :: y)) as (y' & z & Hy); [done|].
  rewrite Hy, app_assoc in Heq. apply app_inj_tail in Heq as [Hp ->].
  destruct y' as [|y0 y']; [injection Hy as -> ->; by rewrite app_nil_r in Hp|].
  injection Hy as <- ->. exfalso. apply Hni. rewrite Hp, elem_of_app. right. by left.
Qed.

(** The document that a save of the version [v] finds is the active one. *)
Lemma find_previous docs a v u :
  docs_ok docs -> fresh docs a v -> (0 < v < 2 ^ 63)%Z ->
  match update_one (previous_version a v) u docs with
  | None => next_version (log docs a) <> v
  | Some (d', m, docs') => exists g l1 d l2, docs = l1 ++ d :: l2 /\ u d = (d', m) /\
      docs' = l1 ++ d' :: l2 /\ doc_aggregateID d = a /\ doc_latestVersion d = (v - 1)%Z /\
      docs_of a l2 = [] /\ docs_of a docs = docs_of a l1 ++ [d] /\
      active_ok d (bool_decide (docs_of a l1 = [])) /\ aggregate_ok a g (docs_of a docs) /\
      next_version (log docs a) = v
  end.
Proof.
  intros Hok [Hfr _] Hv. assert (Hu64 : u64 (v - 1) = (v - 1)%Z) by (unfold u64; rewrite Z.mod_small; lia).
  destruct (update_one _ u docs) as [[[d' m] docs']|] eqn:He.
  - apply update_one_Some in He as (l1 & d & l2 & -> & Hf & Hu & ->).
    apply andb_prop in Hf as [Ha Hl]. apply String.eqb_eq in Ha. apply Z.eqb_eq in Hl. rewrite Hu64 in Hl.
    assert (Hof : docs_of a (l1 ++ d :: l2) = docs_of a l1 ++ d :: docs_of a l2).
    { rewrite docs_of_app, docs_of_cons. by rewrite decide_True. }
    destruct (Hok a) as (g & pre & d0 & Hpre & Hact & Hids & Hin); [rewrite Hof; by destruct (docs_of a l1)|].
    assert (Hdact : doc_isActive d = true) by (apply Hfr; [set_solver|done|done]).
    rewrite Hof in Hpre. symmetry in Hpre. apply snoc_split in Hpre as (Hp1 & Hnil & Hd0).
    + rewrite Hd0, Hp1 in Hact. exists g, l1, d, l2. rewrite Hof, Hnil. split_and!; try done.
      * exists (docs_of a l1), d. rewrite Hof, Hnil in Hids. rewrite Hp1, Hd0 in Hin. by split_and!.
      * destruct (aggregate_log (l1 ++ d :: l2) a (docs_of a l1) d _ ltac:(by rewrite Hof, Hnil) Hact) as [_ ->]. lia.
    + intros Hd. rewrite Forall_forall in Hin. destruct (Hin d Hd) as [Hi _]. congruence.
  - intros Hn. destruct (decide (docs_of a docs = [])) as [Hnil|Hne].
    + unfold log in Hn. rewrite Hnil in Hn. cbn in Hn. lia.
    + destruct (Hok a Hne) as (g & pre & d & Hpre & Hact & _).
      destruct (aggregate_log docs a pre d _ Hpre Hact) as [_ Hnx].
      assert (Hd : d ∈ docs_of a docs) by (rewrite Hpre; set_solver). apply elem_docs_of in Hd as [Ha Hd].
      pose proof (update_one_None _ _ _ He d Hd) as Hf. unfold previous_version in Hf.
      rewrite Ha, String.eqb_refl, Hu64 in Hf. cbn in Hf. apply Z.eqb_neq in Hf. lia.
Qed.

(** ** Saving *)
Section saving.
Context (fits : Doc -> bool).
Lemma push_active d b events first final etag types e :
  active_ok d b -> saved events first -> last events = Some final -> Forall2 written events e ->
  Version first <> 0%Z -> doc_latestVersion d = (Version first - 1)%Z ->
  let d' := (push_events final etag types e events d).1 in
  active_ok d' b /\ doc_log d' = doc_log d ++ e.
Proof.
  intros Hd Hs Hf Hw H0 Hl d'. destruct (saved_ascending _ _ _ Hs Hw) as (Hne & Hlen & Hasc).
  pose proof (saved_last _ _ _ Hs Hf) as Hfin. pose proof (latest_snapshot_spec _ _ _ Hw (proj1 (proj2 Hs))) as Hsnap.
  destruct Hs as (_ & _ & Hpos & H63). destruct (active_events _ _ Hd) as (v & Hev & Hv & Ha & Hlv).
  rewrite (proj2 (Z.eqb_neq _ _) H0) in Hsnap.
  assert (Hlog : doc_log d' = doc_log d ++ e) by done. split; [|done].
  assert (Hev' : doc_events d' = Some (doc_log d')) by done.
  assert (Hlv' : doc_latestVersion d' = Version final) by done.
  assert (Hact' : doc_isActive d' = true) by exact (active _ _ Hd).
  assert (Hsv' : doc_latestSnapshotVersion d' = match snapshot_fold e with Some s => Some s
    | None => doc_latestSnapshotVersion d end) by (unfold d'; cbn; rewrite Hsnap; by destruct (snapshot_fold e)).
  clearbody d'.
  assert (Hall : ascending_from v (doc_log d ++ e)).
  { apply ascending_from_app. split; [done|]. by replace (v + Z.of_nat (length (doc_log d)))%Z with (Version first) by lia. }
  assert (Hpos' : (0 < length events)%nat) by (destruct e; [done|cbn in Hlen; lia]).
  split; rewrite ?Hlog, ?Hlv'.
  - done.
  - exists v. rewrite Hev', Hlog. split_and!; [done|done|exact Hall|]. rewrite length_app. lia.
  - destruct e; [done|]. by destruct (doc_log d).
  - pose proof (active_bound _ _ Hd). lia.
  - rewrite Hsv'. destruct (snapshot_fold e) as [s|] eqn:Hsf.
    + destruct (snapshot_filter _ _ _ Hasc Hsf) as (Hex & Hb & Hfil). exists s. split; [done|]. split; [lia|].
      rewrite List.filter_app, since_snapshot_app, Hex, Hfil, filter_none; [done|].
      intros x Hx. pose proof (ascending_bounds v _ _ Ha Hx). apply Z.leb_gt. lia.
    + destruct (active_snapshot _ _ Hd) as (s & Hds & Hsl & Hfil). exists s. split; [done|]. split; [lia|].
      rewrite List.filter_app, since_snapshot_app, Hfil, (snapshot_fold_None _ Hsf), filter_all; [done|].
      intros x Hx. pose proof (ascending_bounds _ _ _ Hasc Hx). apply Z.leb_le. lia.
  - intros Hb. by rewrite existsb_app, (active_first _ _ Hd Hb).
Qed.

Lemma log_other docs1 docs2 x a b : doc_aggregateID x = a -> b <> a ->
  docs_of b (docs1 ++ x :: docs2) = docs_of b (docs1 ++ docs2).
Proof. intros Hx Hb. rewrite !docs_of_app, docs_of_cons, decide_False; [done|congruence]. Qed.
Lemma docs_ok_update docs docs' a :
  docs_ok docs -> (forall b, b <> a -> docs_of b docs' = docs_of b docs) ->
  (exists g, aggregate_ok a g (docs_of a docs')) -> docs_ok docs'.
Proof.
  intros Hok Hoth Ha b Hb. destruct (decide (b = a)) as [->|Hne]; [done|].
  rewrite Hoth in Hb |- * by done. by apply Hok.
Qed.
(** What a save that succeeds does to the logs. *)
Definition appended docs docs' a events : Prop :=
  docs_ok docs' /\
  exists e, Forall2 written events e /\ log docs' a = log docs a ++ e /\
    forall b, b <> a -> docs_of b docs' = docs_of b docs.

Lemma pushed_ok docs events first final etag types e d l1 l2 :
  docs_ok docs -> docs = l1 ++ d :: l2 -> doc_aggregateID d = AggregateID first ->
  doc_latestVersion d = (Version first - 1)%Z -> docs_of (AggregateID first) l2 = [] ->
  active_ok d (bool_decide (docs_of (AggregateID first) l1 = [])) ->
  saved events first -> last events = Some final -> Forall2 written events e -> Version first <> 0%Z ->
  appended docs (l1 ++ (push_events final etag types e events d).1 :: l2) (AggregateID first) events.
Proof.
  intros Hok Hdocs Ha Hl Hl2 Hact Hs Hf Hw H0. set (a := AggregateID first) in *.
  destruct (push_active d _ events first final etag types e Hact Hs Hf Hw H0 Hl) as [Hact' Hlog].
  set (d' := (push_events final etag types e events d).1) in *.
  assert (Ha' : doc_aggregateID d' = a) by done.
  assert (Hof : forall x, doc_aggregateID x = a -> docs_of a (l1 ++ x :: l2) = docs_of a l1 ++ [x]).
  { intros x Hx. by rewrite docs_of_app, docs_of_cons, decide_True, Hl2 by done. }
  assert (Hoth : forall b, b <> a -> docs_of b (l1 ++ d' :: l2) = docs_of b docs).
  { intros b Hb. rewrite Hdocs. by rewrite !(log_other _ _ _ a b). }
  split.
  - apply (docs_ok_update docs _ a Hok Hoth). destruct (Hok a) as (g & pre & d0 & Hpre & Hact0 & Hids & Hin).
    { rewrite Hdocs, Hof by done. by destruct (docs_of a l1). }
    rewrite Hdocs, Hof in Hpre, Hids by done. apply app_inj_tail in Hpre as [<- <-].
    exists g, (docs_of a l1), d'. rewrite Hof by done. split_and!; [done|done| |].
    + apply Forall_app in Hids as [Hi1 Hi2]. apply Forall_app. split; [done|].
      apply Forall_singleton in Hi2 as [(n & Hn & Hnb) Hg]. constructor; [|done]. split; [|done].
      exists n. split; [done|]. cbn. pose proof (saved_last _ _ _ Hs Hf). destruct Hs as (_ & Hh & ? & ?). lia.
    + eapply Forall_impl; [exact Hin|]. intros x [Hx Hlt]. split; [done|]. cbn.
      pose proof (saved_last _ _ _ Hs Hf). destruct Hs as (_ & Hh & ? & ?). lia.
  - exists e. split; [done|]. split; [|done]. destruct (aggregate_log docs a _ d _ ltac:(by rewrite Hdocs, Hof) Hact) as [-> _].
    destruct (aggregate_log (l1 ++ d' :: l2) a _ d' _ ltac:(by apply Hof) Hact') as [-> _]. by rewrite Hlog, app_assoc.
Qed.

Lemma saveEvent_spec docs events first :
  docs_ok docs -> fresh docs (AggregateID first) (Version first) -> saved events first -> Version first <> 0%Z ->
  match saveEvent marshaler fits None events docs with
  | (docs', inr SaveOk) => next_version (log docs (AggregateID first)) = Version first /\
      appended docs docs' (AggregateID first) events
  | (docs', inr ConcurrencyException) => docs' = docs /\
      next_version (log docs (AggregateID first)) <> Version first
  | (docs', inr SnapshotRequired) => docs' = docs /\
      next_version (log docs (AggregateID first)) = Version first
  | (docs', inr Fail) => False
  | (docs', inl _) => docs' = docs
  end.
Proof.
  intros Hok Hfr Hs H0. unfold saveEvent.
  destruct (makeDBEventsAndGetETag marshaler events) as [err|[[etag types] e]] eqn:He; [done|].
  apply makeDBEvents_written in He. destruct (last events) as [final|] eqn:Hf.
  2: { apply last_None in Hf as ->. by destruct Hs as (_ & ? & _). }
  rewrite (proj1 (proj2 Hs)). unfold UpdateOne.
  assert (Hv : (0 < Version first < 2 ^ 63)%Z).
  { pose proof (saved_last _ _ _ Hs Hf). destruct Hs as (_ & Hh & ? & ?).
    destruct events; [done|]. cbn [length] in *. lia. }
  pose proof (find_previous docs _ _ (push_events final etag types e events) Hok Hfr Hv) as Hp.
  destruct (update_one _ _ docs) as [[[d' m] docs']|]; [|done].
  destruct Hp as (g & l1 & d & l2 & Hdocs & Hu & Hdocs' & Ha & Hl & Hl2 & _ & Hact & _ & Hn).
  assert (m = true) as -> by (unfold push_events in Hu; congruence). destruct (fits d'); [|by split].
  split; [done|]. rewrite Hdocs'. assert (d' = (push_events final etag types e events d).1) as -> by by rewrite Hu.
  by eapply pushed_ok.
Qed.

(** *** A new document *)
Lemma since_snapshot_none evs : existsb ev_isSnapshot evs = false -> since_snapshot evs = evs.
Proof.
  destruct evs as [|e evs]; [done|]. cbn [existsb since_snapshot].
  destruct (existsb ev_isSnapshot evs); [by rewrite orb_true_r|done].
Qed.
Lemma makeDBDoc_ok events first doc :
  saved events first -> makeDBDoc marshaler events = inr doc ->
  Forall2 written events (doc_log doc) /\ doc_aggregateID doc = AggregateID first /\
  doc_groupID doc = Some (GroupID first) /\ doc_id doc = Some (version_id (AggregateID first) (Version first)) /\
  (Version first <= doc_latestVersion doc)%Z /\
  active_ok doc (negb (existsb ev_isSnapshot (doc_log doc))).
Proof.
  intros Hs. unfold makeDBDoc.
  destruct (makeDBEventsAndGetETag marshaler events) as [|[[etag types] e]] eqn:He; [done|].
  apply makeDBEvents_written in He. destruct (saved_ascending _ _ _ Hs He) as (Hne & Hlen & Hasc).
  rewrite (latest_snapshot_spec _ _ _ He (proj1 (proj2 Hs))), (proj1 (proj2 Hs)).
  destruct (last events) as [final|] eqn:Hf; [|done]. pose proof (saved_last _ _ _ Hs Hf) as Hfin.
  destruct Hs as (_ & Hh & H0 & H63). intros Hd.
  assert (Hpos : (0 < length events)%nat) by (destruct e; [done|cbn in Hlen; lia]).
  assert (Hdoc : exists s, doc_log doc = e /\ doc_events doc = Some e /\ doc_latestVersion doc = Version final /\
    doc_isActive doc = true /\ doc_latestSnapshotVersion doc = Some s /\
    match snapshot_fold e with Some s => Some s | None => if (Version first =? 0)%Z then Some 0%Z else None end = Some s).
  { destruct (match snapshot_fold e with Some s => Some s | None => if (Version first =? 0)%Z then Some 0%Z else None end)
      as [s|] eqn:Hsn; [|done]. injection Hd as <-. by exists s. }
  assert (Hids : doc_aggregateID doc = AggregateID first /\ doc_groupID doc = Some (GroupID first) /\
    doc_id doc = Some (version_id (AggregateID first) (Version first))).
  { destruct (match snapshot_fold e with Some s => Some s | None => _ end); [|done]. by injection Hd as <-. }
  destruct Hids as (Hi1 & Hi2 & Hi3). destruct Hdoc as (s & Hlog & Hev & Hlv & Hact & Hsv & Hsnap). clear Hd.
  rewrite Hlog. split_and!; [done..|lia|]. split; rewrite ?Hlog; [done| |done|lia| |by intros ->%negb_false_iff].
  - exists (Version first). by split_and!; [|lia| |lia].
  - exists s. split; [done|]. destruct (snapshot_fold e) as [s'|] eqn:Hsf.
    + injection Hsnap as ->. destruct (snapshot_filter _ _ _ Hasc Hsf) as (_ & Hb & ->). split; [lia|done].
    + destruct (Z.eqb_spec (Version first) 0) as [Hv|]; [|done]. injection Hsnap as <-. split; [lia|].
      rewrite since_snapshot_none by by apply snapshot_fold_None.
      apply filter_all. intros x Hx. pose proof (ascending_bounds _ _ _ Hasc Hx). apply Z.leb_le. lia.
Qed.
(** A document that follows those of its aggregate. *)
Lemma insert_ok docs events first doc :
  docs_ok docs \/ (forall b, b <> AggregateID first -> docs_of b docs <> [] -> exists g, aggregate_ok b g (docs_of b docs)) ->
  Forall (fun x => id_ok (AggregateID first) x /\ doc_groupID x = Some (GroupID first) /\
            doc_isActive x = false /\ (doc_latestVersion x < Version first)%Z) (docs_of (AggregateID first) docs) ->
  saved events first -> makeDBDoc marshaler events = inr doc ->
  (docs_of (AggregateID first) docs = [] \/ IsSnapshot first = true) ->
  docs_ok (docs ++ [doc]) /\
  log (docs ++ [doc]) (AggregateID first) = log docs (AggregateID first) ++ doc_log doc /\
  forall b, b <> AggregateID first -> docs_of b (docs ++ [doc]) = docs_of b docs.
Proof.
  intros Hok Hpre Hs Hd Hsnap. set (a := AggregateID first) in *.
  destruct (makeDBDoc_ok _ _ _ Hs Hd) as (Hw & Ha & Hg & Hid & Hle & Hact).
  assert (Hof : docs_of a (docs ++ [doc]) = docs_of a docs ++ [doc]).
  { rewrite docs_of_app, docs_of_cons. by rewrite decide_True. }
  assert (Hoth : forall b, b <> a -> docs_of b (docs ++ [doc]) = docs_of b docs).
  { intros b Hb. rewrite docs_of_app, docs_of_cons, decide_False; [by rewrite app_nil_r|]. intros Hx; apply Hb; by rewrite <- Hx, Ha. }
  assert (Hact' : active_ok doc (bool_decide (docs_of a docs = []))).
  { destruct Hsnap as [->|Hsnap]; [by destruct Hact; split|]. destruct Hact; split; try done. intros _.
    destruct Hs as (_ & Hh & _). destruct events as [|x events]; [done|]. injection Hh as ->.
    inversion Hw as [|? ev ? ? (raw & _ & ->) _ Heq]; subst. cbn. by rewrite Hsnap. }
  split_and!; [|unfold log; rewrite Hof, bind_app; cbn; by rewrite app_nil_r|done].
  intros b Hb. destruct (decide (b = a)) as [->|Hne].
  - exists (GroupID first), (docs_of a docs), doc. rewrite Hof. split_and!; [done|done| |].
    + apply Forall_app. split; [eapply Forall_impl; [exact Hpre|naive_solver]|]. constructor; [|done].
      split; [|done]. exists (Version first). split; [by rewrite Hid|]. destruct Hs as (_ & _ & ? & _). lia.
    + eapply Forall_impl; [exact Hpre|]. intros x (_ & _ & ? & ?). split; [done|lia].
  - rewrite Hoth in Hb |- * by done. destruct Hok as [Hok|Hok]; auto.
Qed.

(** *** The operations *)
Lemma has_id_elem id docs : existsb (has_id id) docs = true <-> exists d x, d ∈ docs /\ id = Some x /\ doc_id d = Some x.
Proof.
  rewrite existsb_exists. setoid_rewrite <- list_elem_of_In. unfold has_id. split.
  - intros (d & Hd & Hi). destruct id as [x|]; [|done]. apply bool_decide_eq_true in Hi. by exists d, x.
  - intros (d & x & Hd & -> & Hi). exists d. by rewrite bool_decide_eq_true.
Qed.
(** Who has an identifier with a version. *)
Lemma id_owner docs d a v :
  docs_ok docs -> d ∈ docs -> doc_id d = Some (version_id a v) -> (0 <= v)%Z ->
  d ∈ docs_of a docs /\ (v <= doc_latestVersion d)%Z.
Proof.
  intros Hok Hd Hid Hv. assert (Hin : d ∈ docs_of (doc_aggregateID d) docs) by by apply elem_docs_of.
  destruct (Hok (doc_aggregateID d)) as (g & pre & d0 & Hpre & _ & Hids & _).
  { intros Hn. rewrite Hn in Hin. by apply not_elem_of_nil in Hin. }
  rewrite Forall_forall in Hids. destruct (Hids d Hin) as [(n & Hn & Hb) _]. rewrite Hid in Hn.
  injection Hn as Hn. apply version_id_inj in Hn as [-> ->]; [|lia..]. by split; [|lia].
Qed.
Lemma next_version_nil docs a : docs_of a docs = [] -> next_version (log docs a) = 0%Z.
Proof. unfold log. by intros ->. Qed.
Lemma next_version_pos docs a : docs_ok docs -> docs_of a docs <> [] -> (0 < next_version (log docs a))%Z.
Proof.
  intros Hok Hne. destruct (Hok a Hne) as (g & pre & d & Hpre & Hact & _).
  destruct (aggregate_log _ _ _ _ _ Hpre Hact) as [_ ->]. pose proof (active_bound _ _ Hact). lia.
Qed.

(** What the outcome of a save says of the logs and of the documents.  The one error that
    leaves other documents is that of a snapshot whose own document is too large. *)
Definition save_outcome docs docs' first events (r : result SaveStatus) : Prop :=
  let a := AggregateID first in
  match r with
  | inr SaveOk => next_version (log docs a) = Version first /\ appended docs docs' a events
  | inr ConcurrencyException => docs' = docs /\ next_version (log docs a) <> Version first
  | inr SnapshotRequired => docs' = docs /\ next_version (log docs a) = Version first /\ IsSnapshot first = false
  | inr Fail => False
  | inl _ =>
      (forall b, log docs' b = log docs b) /\
      (docs' = docs \/ IsSnapshot first = true /\ exists doc, makeDBDoc marshaler events = inr doc /\ fits doc = false)
  end.

Lemma set_inactive_log docs l1 d l2 : docs = l1 ++ d :: l2 ->
  forall b, docs_of b (l1 ++ (set_inactive d).1 :: l2)
            = docs_of b l1 ++ (if decide (doc_aggregateID d = b) then [(set_inactive d).1] else []) ++ docs_of b l2 /\
            log (l1 ++ (set_inactive d).1 :: l2) b = log docs b.
Proof.
  intros -> b.
  assert (Hof : forall x, doc_aggregateID x = doc_aggregateID d ->
    docs_of b (l1 ++ x :: l2) = docs_of b l1 ++ (if decide (doc_aggregateID d = b) then [x] else []) ++ docs_of b l2).
  { intros x Hx. rewrite docs_of_app, docs_of_cons, Hx. by case_decide. }
  split; [by rewrite (Hof (set_inactive d).1)|]. unfold log. rewrite (Hof (set_inactive d).1), (Hof d) by done.
  rewrite !bind_app. by case_decide.
Qed.

Lemma saveSnapshot_spec docs events first :
  docs_ok docs -> in_group docs (AggregateID first) (GroupID first) ->
  fresh docs (AggregateID first) (Version first) -> saved events first -> Version first <> 0%Z ->
  (forall d, d ∈ docs -> fits (set_inactive d).1 = true) -> IsSnapshot first = true ->
  next_version (log docs (AggregateID first)) = Version first ->
  let '(docs', r) := saveSnapshot marshaler fits no_faults events docs in
  save_outcome docs docs' first events r /\ r <> inr ConcurrencyException.
Proof.
  intros Hok Hg Hfr Hs H0 Hfits Hsnap Hn. unfold saveSnapshot.
  destruct (makeDBDoc marshaler events) as [err|doc] eqn:Hdoc; [by split; [split; [|left]|]|].
  rewrite (proj1 (proj2 Hs)). unfold UpdateOne.
  assert (Hv : (0 < Version first < 2 ^ 63)%Z).
  { destruct Hs as (_ & Hh & ? & ?). destruct events; [done|]. cbn [length] in *. lia. }
  pose proof (find_previous docs _ _ set_inactive Hok Hfr Hv) as Hp. set (a := AggregateID first) in *.
  destruct (update_one _ _ docs) as [[[d' m] docs1]|]; [|done].
  destruct Hp as (g & l1 & d & l2 & Hdocs & Hu & Hd1 & Ha & Hl & Hl2 & Hofa & Hact & Hagg & _).
  assert (d' = (set_inactive d).1) as -> by by rewrite Hu.
  assert (m = true) as -> by (unfold set_inactive in Hu; pose proof (active _ _ Hact); congruence).
  rewrite Hfits by (rewrite Hdocs; set_solver).
  assert (Hlogs : forall b, docs_of b docs1 = docs_of b l1 ++ (if decide (doc_aggregateID d = b) then [(set_inactive d).1] else [])
    ++ docs_of b l2 /\ log docs1 b = log docs b) by (rewrite Hd1; by apply set_inactive_log).
  assert (Hof1 : docs_of a docs1 = docs_of a l1 ++ [(set_inactive d).1]).
  { destruct (Hlogs a) as [-> _]. by rewrite decide_True, Hl2, app_nil_r by done. }
  assert (Hoth : forall b, b <> a -> docs_of b docs1 = docs_of b docs).
  { intros b Hb. destruct (Hlogs b) as [-> _]. rewrite Hdocs, docs_of_app, docs_of_cons, !decide_False by congruence. done. }
  assert (Hpre : Forall (fun x => id_ok a x /\ doc_groupID x = Some (GroupID first) /\
            doc_isActive x = false /\ (doc_latestVersion x < Version first)%Z) (docs_of a docs1)).
  { unfold in_group in Hg. destruct Hagg as (pre & d0 & Hpre & _ & Hids & Hin). rewrite Hpre in Hofa.
    apply app_inj_tail in Hofa as [-> ->]. rewrite Hof1. rewrite Hpre in Hids, Hg.
    apply Forall_app in Hids as [Hi1 Hi2]. apply Forall_app in Hg as [Hg1 Hg2]. apply Forall_app. split.
    - apply Forall_forall. intros x Hx. rewrite Forall_forall in Hi1, Hin, Hg1.
      destruct (Hi1 x Hx) as [Hi _], (Hin x Hx) as [Hi' Hlt]. split_and!; [done|by apply Hg1|done|lia].
    - apply Forall_singleton in Hi2 as [(n & Hi & Hb) _]. apply (proj1 (Forall_singleton _ _)) in Hg2. constructor; [|done].
      split_and!; [exists n; by split|exact Hg2|done|]. cbn. lia. }
  destruct (makeDBDoc_ok _ _ _ Hs Hdoc) as (Hw & Hda & Hdg & Hdid & Hdl & Hdact). cbn [InsertOne].
  unfold InsertOne. destruct (fits doc) eqn:Hfd; cbn [negb].
  2: { split; [|done]. split; [intros b; apply Hlogs|right]. split; [done|by exists doc]. }
  destruct (existsb (has_id (doc_id doc)) docs1) eqn:Hex.
  { exfalso. apply has_id_elem in Hex as (x & i & Hx & Hi & Hxi). rewrite Hdid in Hi. injection Hi as <-.
    assert (Hx0 : exists y, y ∈ docs /\ doc_id y = doc_id x /\ doc_latestVersion y = doc_latestVersion x).
    { rewrite Hd1 in Hx. rewrite Hdocs. apply elem_of_app in Hx as [Hx|[->|Hx]%elem_of_cons];
        [exists x; set_solver|exists d; set_solver|exists x; set_solver]. }
    destruct Hx0 as (y & Hy & Hyi & Hyl). rewrite Hxi in Hyi.
    destruct (id_owner _ _ _ _ Hok Hy Hyi) as [Hya Hyv]; [lia|].
    destruct Hagg as (pre & d0 & Hpre' & _ & _ & Hin). fold a in Hya. rewrite Hpre' in Hofa, Hya. apply app_inj_tail in Hofa as [_ ->].
    rewrite Forall_forall in Hin. apply elem_of_app in Hya as [Hya|Hya%list_elem_of_singleton];
      [destruct (Hin y Hya); lia|subst y; lia]. }
  destruct (insert_ok docs1 events first doc) as (Hok' & Hlog' & Hoth'); try done.
  { right. intros b Hb. rewrite Hoth by done. apply Hok. }
  { by right. }
  split; [|done]. split; [done|]. split; [done|]. exists (doc_log doc). split_and!; [done| |].
  - rewrite Hlog'. f_equal. apply Hlogs.
  - intros b Hb. rewrite Hoth' by done. by apply Hoth.
Qed.

(** C6: For a writer that has not fallen behind a document that is full by now
    ([stale_save_lost] is about one that has), and without faults of the driver
    ([interrupted_snapshot_blocks] is about one): saving appends the events to the log of
    their aggregate when they follow it, and answers a concurrency exception only when they
    do not, and then changes nothing; a snapshot is asked for only if they follow and
    begin with none; an error leaves all logs as they were, and the documents too, unless it is that
    the new document of a snapshot is too large.  The logs of other aggregates stay, and the
    documents keep their form whenever the events are saved. *)
Theorem Save_refines docs events first :
  docs_ok docs -> saved events first -> in_group docs (AggregateID first) (GroupID first) ->
  fresh docs (AggregateID first) (Version first) ->
  (forall d, d ∈ docs -> fits (set_inactive d).1 = true) ->
  let '(docs', r) := Save marshaler fits no_faults docs events in save_outcome docs docs' first events r.
Proof.
  intros Hok Hs Hg Hfr Hfits. unfold Save. pose proof Hs as (Hval & Hh & Hpos & _). rewrite Hval.
  destruct events as [|x events]; [done|]. injection Hh as ->.
  destruct (Z.eqb_spec (Version first) 0) as [H0|H0].
  - destruct (makeDBDoc marshaler (first :: events)) as [err|doc] eqn:Hdoc; [by split; [|left]|].
    destruct (makeDBDoc_ok _ _ _ Hs Hdoc) as (Hw & _ & _ & Hid & _). unfold InsertOne.
    destruct (fits doc); cbn [negb]; [|by split; [|left]]. destruct (existsb (has_id (doc_id doc)) docs) eqn:Hex.
    + apply has_id_elem in Hex as (y & i & Hy & Hi & Hyi). rewrite Hid in Hi. injection Hi as <-.
      split; [done|]. rewrite H0 in *.
      destruct (id_owner _ _ _ _ Hok Hy Hyi) as [Hya _]; [lia|].
      assert (Hne : docs_of (AggregateID first) docs <> []) by (intros Hn; rewrite Hn in Hya; by apply not_elem_of_nil in Hya).
      pose proof (next_version_pos _ _ Hok Hne). lia.
    + assert (Hnil : docs_of (AggregateID first) docs = []).
      { destruct (docs_of (AggregateID first) docs) eqn:Hof; [done|]. destruct Hfr as [_ Hfr].
        destruct (Hfr H0) as (y & Hy & Hyi); [by rewrite Hof|]. exfalso. apply Is_true_false in Hex. apply Hex.
        apply Is_true_true, has_id_elem. exists y, (version_id (AggregateID first) 0). by rewrite Hid, H0. }
      destruct (insert_ok docs (first :: events) first doc) as (Hok' & Hlog' & Hoth'); try done;
        [by left|by rewrite Hnil|by left|]. cbn. rewrite next_version_nil by done. split; [done|].
      split; [done|]. by exists (doc_log doc).
  - pose proof (saveEvent_spec docs (first :: events) first Hok Hfr Hs H0) as He.
    destruct (saveEvent marshaler fits None (first :: events) docs) as [docs' [err|[| | |]]];
      [by rewrite He; split; [|left]|done|done| |done].
    destruct He as [-> Hn]. destruct (IsSnapshot first) eqn:Hsnap; [|done].
    pose proof (saveSnapshot_spec docs (first :: events) first Hok Hg Hfr Hs H0 Hfits Hsnap Hn) as Hsp.
    destruct (saveSnapshot _ _ _ _ docs) as [docs1 r]. by destruct Hsp.
Qed.
End saving.

(** ** Loading *)
(** A query of one aggregate. *)
Definition plain (q : SnapshotQuery) : Prop :=
  sq_AggregateID q <> "" /\ sq_AggregateID q <> uuid_Nil /\ sq_Types q = [].
#[local] Abbreviation ids qs := (sq_AggregateID <$> qs).
Lemma plain_aggregate q : plain q -> no_aggregate q = false.
Proof. intros (H1 & H2 & _). unfold no_aggregate. by rewrite (proj2 (String.eqb_neq _ _) H1), (proj2 (String.eqb_neq _ _) H2). Qed.

Lemma unique_at_ids query pre rest :
  Forall plain (pre ++ rest) -> plain query -> sq_AggregateID query ∉ ids pre -> NoDup (ids (pre ++ rest)) ->
  Forall plain (unique_at (pre ++ rest) query (length pre) rest) /\
  ids (unique_at (pre ++ rest) query (length pre) rest)
  = if decide (sq_AggregateID query ∈ ids rest) then ids (pre ++ rest) else ids (pre ++ rest) ++ [sq_AggregateID query].
Proof.
  intros Hpl Hq. revert pre Hpl. induction rest as [|q rest IH]; intros pre Hpl Hni Hnd; cbn [unique_at].
  { rewrite decide_False by by apply not_elem_of_nil. rewrite fmap_app. split; [|done].
    apply Forall_app. by split; [|constructor]. }
  assert (Hplq : plain q) by (rewrite Forall_forall in Hpl; apply Hpl; set_solver).
  unfold uniqueQueryHandleAtIndex. rewrite (plain_aggregate q Hplq). destruct Hplq as (_ & _ & Htq).
  rewrite Htq. cbn [length resourceTypesIsSubset Nat.eqb andb orb].
  destruct (String.eqb_spec (sq_AggregateID q) (sq_AggregateID query)) as [He|He].
  - destruct Hq as (Hq1 & Hq2 & Hqt). rewrite Hqt. cbn [length Nat.eqb]. rewrite decide_True by (cbn; rewrite He; by left).
    rewrite insert_app_r_alt, Nat.sub_diag by lia. cbn [insert list_insert].
    unfold removeDuplicates.
    replace (pre ++ query :: rest) with ((pre ++ [query]) ++ rest) by by rewrite <- app_assoc.
    rewrite take_app_length', drop_app_length' by (rewrite length_app; cbn; lia).
    assert (Hf : List.filter (fun qa => negb (String.eqb (sq_AggregateID qa) (sq_AggregateID query))) rest = rest).
    { rewrite fmap_app, fmap_cons in Hnd. apply NoDup_app in Hnd as (_ & _ & [Hn _]%NoDup_cons). revert Hn.
      rewrite <- He. clear. induction rest as [|x rest IH]; intros Hn; cbn; [done|].
      destruct (String.eqb_spec (sq_AggregateID x) (sq_AggregateID q)) as [Hx|_]; cbn.
      - exfalso. apply Hn. rewrite <- Hx. by left.
      - f_equal. apply IH. intros Hin. apply Hn. by right. }
    rewrite Hf, <- app_assoc. cbn [app]. rewrite !fmap_app, !fmap_cons, He. split; [|done].
    apply Forall_app in Hpl as [Hp1 Hp2]. apply Forall_app. split; [done|]. by inversion Hp2; constructor.
  - replace (pre ++ q :: rest) with ((pre ++ [q]) ++ rest) in * by by rewrite <- app_assoc.
    replace (S (length pre)) with (length (pre ++ [q])) by (rewrite length_app; cbn; lia).
    destruct (IH (pre ++ [q]) Hpl) as [Hfa ->]; [|done|].
    { rewrite fmap_app. intros [Hin|[Hin|Hin%not_elem_of_nil]%elem_of_cons]%elem_of_app; [done|by apply He|done]. }
    split; [done|]. apply decide_ext. rewrite fmap_cons, elem_of_cons. split; [by right|intros [Hx|Hx]; [by rewrite Hx in He|done]].
Qed.
(** The normal form asks once for each aggregate. *)
Lemma normalize_plain g qs :
  g <> "" -> Forall (fun q => sq_GroupID q = g /\ plain q) qs -> qs <> [] ->
  exists us, normalizeSnapshotQuery qs = {[g := us]} /\ Forall plain us /\ NoDup (ids us) /\
    forall a, a ∈ ids us <-> a ∈ ids qs.
Proof.
  intros Hg. induction qs as [|q qs IH] using rev_ind; [done|]. intros Hall _.
  apply Forall_app in Hall as [Hall [[Hqg Hqp] _]%Forall_cons]. unfold normalizeSnapshotQuery.
  rewrite fold_left_app. cbn [fold_left]. rewrite Hqg, (proj2 (String.eqb_neq _ _) Hg).
  change (fold_left _ qs ∅) with (normalizeSnapshotQuery qs).
  assert (Hus : exists us, normalizeSnapshotQuery qs !! g = (if decide (qs = []) then None else Some us) /\
    <[g := uniqueQuery us q]> (normalizeSnapshotQuery qs) = {[g := uniqueQuery us q]} /\ Forall plain us /\ NoDup (ids us) /\
    forall a, a ∈ ids us <-> a ∈ ids qs).
  { destruct (decide (qs = [])) as [->|Hne].
    - exists []. unfold normalizeSnapshotQuery. cbn [fold_left]. rewrite insert_empty.
      split_and!; [done|done|done|constructor|done].
    - destruct (IH Hall Hne) as (us & -> & Hu1 & Hu2 & Hu3). exists us.
      rewrite lookup_singleton_eq, insert_singleton_eq. by split_and!. }
  destruct Hus as (us & Hl & Hins & Hpl & Hnd & Hin).
  assert (Hd : default [] (normalizeSnapshotQuery qs !! g) = us).
  { rewrite Hl. case_decide as Hn; [|done]. destruct us as [|u us]; [done|]. exfalso.
    assert (Hu : sq_AggregateID u ∈ ids qs) by (apply Hin; by left). rewrite Hn in Hu. by apply not_elem_of_nil in Hu. }
  rewrite Hd, Hins. exists (uniqueQuery us q). unfold uniqueQuery. rewrite (plain_aggregate q Hqp).
  destruct (unique_at_ids q [] us Hpl Hqp) as [Hfa Hids]; [by apply not_elem_of_nil|done|]. cbn [app length] in Hfa, Hids.
  rewrite Hids. split_and!; [done|done| |].
  - case_decide as Hq; [done|]. apply NoDup_app. split_and!; [done| |by apply NoDup_singleton].
    intros x Hx Hx'%list_elem_of_singleton. by subst.
  - intros a. rewrite fmap_app, elem_of_app, <- (Hin a). case_decide as Hq.
    + split; [by left|]. intros [?|[->|?%not_elem_of_nil]%elem_of_cons]; done.
    + rewrite elem_of_app. done.
Qed.

Lemma split_plain g us (rq tq : list (Doc -> bool)) :
  Forall plain us -> split_queries g us rq tq = Some (rq ++ (of_aggregate (D := D) g <$> ids us), tq).
Proof.
  intros Hp. revert rq. induction us as [|q us IH]; intros rq; cbn [split_queries fmap list_fmap].
  - by rewrite app_nil_r.
  - inversion Hp as [|? ? Hq Hp']. rewrite (plain_aggregate q Hq), IH by done. by rewrite <- app_assoc.
Qed.
(** The documents that a query for the aggregates [as_] of the group finds. *)
Definition found g (as_ : list string) docs : list Doc :=
  List.filter (any_of (of_aggregate g <$> as_)) docs.
Lemma elem_found g as_ docs d :
  d ∈ found g as_ docs <->
  d ∈ docs /\ doc_isActive d = true /\ doc_groupID d = Some g /\ doc_aggregateID d ∈ as_.
Proof.
  unfold found, any_of. rewrite list_elem_of_In, filter_In, <- list_elem_of_In, existsb_exists.
  setoid_rewrite <- list_elem_of_In. setoid_rewrite list_elem_of_fmap. unfold of_aggregate, of_group. split.
  - intros (Hd & f & (a & -> & Ha) & [[Hg Hact]%andb_prop Hx]%andb_prop).
    apply bool_decide_eq_true in Hg. apply String.eqb_eq in Hx. by subst.
  - intros (Hd & Hact & Hg & Ha). split; [done|]. exists (of_aggregate g (doc_aggregateID d)).
    split; [by exists (doc_aggregateID d)|]. unfold of_aggregate, of_group.
    by rewrite (bool_decide_eq_true_2 _ Hg), Hact, String.eqb_refl.
Qed.
Lemma active_unique docs d d' pre x :
  docs_of (doc_aggregateID d) docs = pre ++ [x] -> Forall (fun y => doc_isActive y = false) pre ->
  d ∈ docs -> doc_isActive d = true -> d = x.
Proof.
  intros Hpre Hin Hd Hact. assert (Hx : d ∈ pre ++ [x]) by (rewrite <- Hpre; by apply elem_docs_of).
  apply elem_of_app in Hx as [Hx|Hx%list_elem_of_singleton]; [|done].
  rewrite Forall_forall in Hin. rewrite (Hin d Hx) in Hact. done.
Qed.
Lemma keys_NoDup {A} (k : A -> string) (l : list A) :
  (forall a, length (filter (fun x => k x = a) l) <= 1) -> NoDup (k <$> l).
Proof.
  induction l as [|x l IH]; intros Hl; cbn; [constructor|]. apply NoDup_cons. split.
  - intros (y & Hy & Hin)%list_elem_of_fmap. specialize (Hl (k x)). rewrite filter_cons_True in Hl by done.
    cbn in Hl. assert (Hf : y ∈ filter (fun z => k z = k x) l) by by apply list_elem_of_filter.
    destruct (filter _ l); [by apply not_elem_of_nil in Hf|cbn in Hl; lia].
  - apply IH. intros a. specialize (Hl a). rewrite filter_cons in Hl. case_decide; cbn in Hl; lia.
Qed.
Lemma found_NoDup g as_ docs : docs_ok docs -> NoDup (doc_aggregateID <$> found g as_ docs).
Proof.
  intros Hok. apply keys_NoDup. intros a.
  assert (Hsub : forall l, length (filter (fun x => doc_aggregateID x = a) (found g as_ l))
    <= length (filter (fun x => doc_isActive x = true) (docs_of a l))).
  { unfold found, docs_of. induction l as [|x l IH]; [done|]. cbn [List.filter].
    destruct (any_of _ x) eqn:Hx.
    - rewrite !filter_cons. case_decide; [|done]. rewrite filter_cons_True; [cbn; lia|].
      unfold any_of in Hx. apply existsb_exists in Hx as (f & Hf & Hfx). rewrite <- list_elem_of_In in Hf.
      apply list_elem_of_fmap in Hf as (b & -> & _). by apply andb_prop in Hfx as [[_ ?]%andb_prop _].
    - rewrite (filter_cons _ x l). case_decide; [|done]. rewrite filter_cons. case_decide; cbn; lia. }
  etrans; [apply Hsub|]. destruct (decide (docs_of a docs = [])) as [->|Hne]; [cbn; lia|].
  destruct (Hok a Hne) as (g' & pre & d & -> & _ & _ & Hin). rewrite filter_app, length_app.
  rewrite list_filter_nil.
  - cbn [length]. pose proof (length_filter (fun x => doc_isActive x = true) [d]). cbn [length] in *. lia.
  - intros x Hx. rewrite Forall_forall in Hin. destruct (Hin x Hx) as [-> _]. done.
Qed.
(** The active document holds the log from its latest snapshot on. *)
Lemma active_since docs d pre :
  docs_of (doc_aggregateID d) docs = pre ++ [d] -> active_ok d (bool_decide (pre = [])) ->
  since_snapshot (log docs (doc_aggregateID d)) = since_snapshot (doc_log d).
Proof.
  intros Hpre Hact. destruct (aggregate_log _ _ _ _ _ Hpre Hact) as [-> _]. rewrite since_snapshot_app.
  destruct (existsb ev_isSnapshot (doc_log d)) eqn:Hs; [done|]. destruct (decide (pre = [])) as [->|Hne].
  - cbn. by rewrite since_snapshot_none.
  - pose proof (active_first _ _ Hact) as Hf. rewrite Hf in Hs; [done|]. by apply bool_decide_eq_false.
Qed.
Lemma since_snapshot_nonempty evs : evs <> [] -> since_snapshot evs <> [].
Proof.
  induction evs as [|e evs IH]; [done|]. intros _. cbn. destruct (existsb _ evs) eqn:Hs; [|done].
  apply IH. by intros ->.
Qed.

(** What is delivered of the documents that were found. *)
Definition delivery g docs d : string * list (LoadedEvent D) :=
  (doc_aggregateID d, newLoadedEvent g (doc_aggregateID d) <$> since_snapshot (log docs (doc_aggregateID d))).
Lemma iterate_found g docs l :
  docs_ok docs -> (forall d, d ∈ l -> d ∈ docs /\ doc_isActive d = true /\ doc_groupID d = Some g) ->
  iterate None (from_latest_snapshot <$> l) None = (concat (delivery g docs <$> l).*2, None).
Proof.
  intros Hok. induction l as [|d l IH]; intros Hl; [done|].
  destruct (Hl d) as (Hd & Hact & Hg); [by left|].
  assert (Hof : d ∈ docs_of (doc_aggregateID d) docs) by by apply elem_docs_of.
  destruct (Hok (doc_aggregateID d)) as (g' & pre & x & Hpre & Hx & _ & Hin); [intros Hn; rewrite Hn in Hof; by apply not_elem_of_nil in Hof|].
  assert (d = x) as <-.
  { eapply (active_unique docs d d pre x); [done| |done|done]. eapply Forall_impl; [exact Hin|]. by intros ? []. }
  destruct (active_events _ _ Hx) as (v & Hev & _). destruct (active_snapshot _ _ Hx) as (s & Hs & _ & Hfil).
  cbn [fmap list_fmap iterate]. unfold parseDocument. cbn [doc_events from_latest_snapshot doc_groupID doc_aggregateID].
  rewrite Hev. cbn [fmap option_fmap option_map]. rewrite Hs, Hfil.
  pose proof (since_snapshot_nonempty _ (active_nonempty _ _ Hx)) as Hne.
  destruct (since_snapshot (doc_log d)) as [|e evs] eqn:Hsi; [done|]. rewrite Hg, IH by set_solver.
  rewrite filter_all by done. cbn [concat fmap list_fmap delivery snd]. by rewrite (active_since docs d pre), Hsi.
Qed.


(** ** Removing *)
Lemma since_suffix evs : exists p, evs = p ++ since_snapshot evs.
Proof.
  induction evs as [|e evs [p IH]]; [by exists []|]. cbn. destruct (existsb _ evs); [|by exists []].
  exists (e :: p). cbn. by rewrite <- IH.
Qed.
Lemma since_idem evs : since_snapshot (since_snapshot evs) = since_snapshot evs.
Proof.
  induction evs as [|e evs IH]; [done|]. cbn [since_snapshot]. destruct (existsb ev_isSnapshot evs) eqn:Hs; [done|].
  cbn [since_snapshot]. by rewrite Hs.
Qed.
Lemma since_existsb evs : existsb ev_isSnapshot (since_snapshot evs) = existsb ev_isSnapshot evs.
Proof.
  induction evs as [|e evs IH]; [done|]. cbn [since_snapshot existsb].
  destruct (existsb ev_isSnapshot evs) eqn:Hs; [by rewrite IH, orb_true_r|]. cbn [existsb]. by rewrite Hs.
Qed.
Lemma since_filter (f : Ev -> bool) evs :
  (forall e, e ∈ since_snapshot evs -> f e = true) -> since_snapshot (List.filter f evs) = since_snapshot evs.
Proof.
  intros Hf. destruct (since_suffix evs) as [p Hp]. rewrite Hp at 1.
  rewrite List.filter_app, (filter_all f (since_snapshot evs)) by done.
  rewrite since_snapshot_app, since_existsb, since_idem. destruct (existsb ev_isSnapshot evs) eqn:Hs; [done|].
  rewrite since_snapshot_none in * by done.
  assert (p = []) as -> by (apply (f_equal length) in Hp; rewrite length_app in Hp; destruct p; [done|cbn in Hp; lia]).
  done.
Qed.
Lemma filter_comm (f h : Ev -> bool) evs : List.filter f (List.filter h evs) = List.filter h (List.filter f evs).
Proof. induction evs as [|e evs IH]; [done|]. cbn. destruct (f e) eqn:Hf, (h e) eqn:Hh; cbn; rewrite ?Hf, ?Hh, IH; done. Qed.
Lemma filter_ascending v w evs : ascending_from w evs ->
  exists k, List.filter (fun ev => (v <=? ev_version ev)%Z) evs = drop k evs /\ k <= length evs.
Proof.
  revert w. induction evs as [|e evs IH]; intros w Ha; [by exists 0|]. cbn.
  pose proof (Ha 0 e eq_refl) as He. assert (Ha' : ascending_from (w + 1) evs).
  { intros i x Hi. rewrite (Ha (S i) x Hi). lia. }
  destruct (Z.leb_spec v (ev_version e)) as [Hle|Hlt].
  - exists 0. split; [|lia]. cbn. f_equal. apply filter_all. intros x Hx.
    pose proof (ascending_bounds _ _ _ Ha' Hx). apply Z.leb_le. lia.
  - destruct (IH _ Ha') as (k & -> & Hk). exists (S k). split; [done|lia].
Qed.
Lemma pull_active d b v :
  active_ok d b -> (forall e, e ∈ since_snapshot (doc_log d) -> (v <= ev_version e)%Z) ->
  active_ok (pull_events v d) b /\ since_snapshot (doc_log (pull_events v d)) = since_snapshot (doc_log d).
Proof.
  intros Hd Hv. set (f := fun ev : Ev => (v <=? ev_version ev)%Z). destruct (active_events _ _ Hd) as (w & Hev & Hw & Ha & Hl).
  assert (Hlog : doc_log (pull_events v d) = List.filter f (doc_log d)).
  { unfold doc_log, pull_events. cbn. by rewrite Hev. }
  assert (Hsi : since_snapshot (List.filter f (doc_log d)) = since_snapshot (doc_log d)).
  { apply since_filter. intros e He. apply Z.leb_le. by apply Hv. }
  split; [|by rewrite Hlog]. split; rewrite ?Hlog; cbn.
  - exact (active _ _ Hd).
  - destruct (filter_ascending v w _ Ha) as (k & Hk & Hkl). exists (w + Z.of_nat k)%Z. rewrite Hev. cbn.
    fold f in Hk. fold f. rewrite Hk, length_drop. split_and!; [done|lia| |lia]. intros i e Hi. rewrite lookup_drop in Hi.
    rewrite (Ha _ _ Hi). lia.
  - intros Hn. rewrite Hn in Hsi. cbn in Hsi. symmetry in Hsi. by apply since_snapshot_nonempty in Hsi; [|exact (active_nonempty _ _ Hd)].
  - exact (active_bound _ _ Hd).
  - destruct (active_snapshot _ _ Hd) as (s & Hs & Hsl & Hfil). exists s. split_and!; [done|done|].
    rewrite filter_comm, Hfil, Hsi, filter_all; [done|]. intros e He. apply Z.leb_le. by apply Hv.
  - intros Hb. rewrite <- since_existsb, Hsi, since_existsb. by apply (active_first _ _ Hd).
Qed.

(** What one query removes. *)
Definition gone (a : string) (v : Z) d : bool :=
  versionQueryToMongoQuery a v signOperator_lt latestVersionKey d || false.
Definition shortened (a : string) (v : Z) d : Doc :=
  if versionQueryToMongoQuery a v signOperator_lt firstVersionKey d || false then pull_events v d else d.
Definition removed (a : string) (v : Z) docs : list Doc :=
  shortened a v <$> List.filter (fun d => negb (gone a v d)) docs.
Lemma RemoveUpToVersion_one nil_filter range docs g a v :
  (forall m, range m ≡ₚ map_to_list m) -> g <> "" -> a <> "" -> a <> uuid_Nil ->
  RemoveUpToVersion nil_filter range (fun _ => no_faults) [MkVersionQuery g a v] docs = (removed a v docs, []).
Proof.
  intros Hrange Hg Ha Hnil.
  assert (Hby : by_group vq_GroupID [MkVersionQuery g a v] = {[g := [MkVersionQuery g a v]]}).
  { unfold by_group. cbn. by rewrite lookup_empty, insert_empty. }
  unfold RemoveUpToVersion. rewrite Hby.
  assert (Hr : range {[g := [MkVersionQuery g a v]]} = [(g, [MkVersionQuery g a v])]).
  { apply Permutation_singleton_r. rewrite Hrange. by rewrite map_to_list_singleton. }
  rewrite Hr. cbn [fold_left]. unfold removeDocumentsUpToVersion, resolve_all. cbn [fold_left].
  unfold queryResolver_set at 1. cbn [vq_GroupID vq_AggregateID vq_Version removeEventsUpToVersion].
  unfold queryResolver_set. cbn [vq_GroupID vq_AggregateID vq_Version].
  rewrite (proj2 (String.eqb_neq _ _) Hg), (proj2 (String.eqb_neq _ _) Ha), (proj2 (String.eqb_neq _ _) Hnil).
  cbn [orb newQueryResolver qr_aggregateVersions qr_op]. rewrite insert_empty. unfold toMongoQuery.
  cbn [qr_aggregateVersions qr_op]. rewrite map_size_singleton. cbn [Nat.eqb].
  rewrite map_to_list_singleton. unfold DeleteMany, UpdateMany, filter_of. cbn [existsb fst snd app]. reflexivity.
Qed.
Lemma shortened_id a v d : doc_aggregateID (shortened a v d) = doc_aggregateID d.
Proof. unfold shortened. by case_match. Qed.
Lemma removed_other a v docs b : b <> a -> docs_of b (removed a v docs) = docs_of b docs.
Proof.
  intros Hb. unfold removed. induction docs as [|d docs IH]; [done|]. cbn [List.filter].
  assert (Hd : doc_aggregateID d = b -> gone a v d = false /\ shortened a v d = d).
  { intros Hx. unfold gone, shortened, versionQueryToMongoQuery.
    rewrite (proj2 (String.eqb_neq (doc_aggregateID d) a)) by congruence. done. }
  rewrite (docs_of_cons b d). case_decide as Hx.
  - destruct (Hd Hx) as [-> Hs]. cbn [negb fmap list_fmap]. by rewrite docs_of_cons, shortened_id, decide_True, Hs, IH.
  - destruct (gone a v d); cbn [negb fmap list_fmap]; [done|]. by rewrite docs_of_cons, shortened_id, decide_False.
Qed.
Lemma removed_own a v docs :
  docs_of a (removed a v docs) = shortened a v <$> List.filter (fun d => negb (gone a v d)) (docs_of a docs).
Proof.
  unfold removed. induction docs as [|d docs IH]; [done|]. cbn [List.filter]. rewrite (docs_of_cons a d).
  case_decide as Hx; cbn [List.filter]; destruct (gone a v d) eqn:Hg; cbn [negb fmap list_fmap]; try done;
    rewrite docs_of_cons, shortened_id; [by rewrite decide_True, IH|by rewrite decide_False].
Qed.
Lemma gone_lt a v d : doc_aggregateID d = a -> gone a v d = (doc_latestVersion d <? v)%Z.
Proof. intros <-. unfold gone, versionQueryToMongoQuery. by rewrite String.eqb_refl, orb_false_r. Qed.
Lemma shortened_log a v ds :
  Forall (fun d => doc_aggregateID d = a) ds ->
  (forall d e, d ∈ ds -> e ∈ doc_log d -> exists n, doc_firstVersion d = Some n /\ (n <= ev_version e <= doc_latestVersion d)%Z) ->
  (shortened a v <$> List.filter (fun d => negb (gone a v d)) ds) ≫= doc_log
  = List.filter (fun ev => (v <=? ev_version ev)%Z) (ds ≫= doc_log).
Proof.
  intros Hall Hfirst. induction Hall as [|d ds Hd _ IH]; [done|]. cbn [List.filter mbind list_bind].
  rewrite (gone_lt a v d Hd), List.filter_app, <- IH by set_solver.
  assert (Hf : forall e, e ∈ doc_log d -> exists n, doc_firstVersion d = Some n /\ (n <= ev_version e <= doc_latestVersion d)%Z)
    by (intros e; apply Hfirst; by left).
  destruct (Z.ltb_spec (doc_latestVersion d) v) as [Hlt|Hge]; cbn [negb].
  - rewrite filter_none; [done|]. intros e He. destruct (Hf e He) as (n & _ & Hn). apply Z.leb_gt. lia.
  - cbn [fmap list_fmap mbind list_bind]. f_equal. unfold shortened, versionQueryToMongoQuery.
    rewrite Hd, String.eqb_refl, orb_false_r. cbn [andb compare_sign].
    assert (Hall : forall n, doc_firstVersion d = Some n -> (v <= n)%Z -> doc_log d = List.filter (fun ev => (v <=? ev_version ev)%Z) (doc_log d)).
    { intros n Hn Hv. rewrite filter_all; [done|]. intros e He. destruct (Hf e He) as (n' & Hn' & ?). apply Z.leb_le.
      rewrite Hn in Hn'. injection Hn' as <-. lia. }
    destruct (doc_firstVersion d) as [n|] eqn:Hn.
    + destruct (Z.ltb_spec n v); [|by apply (Hall n)]. unfold doc_log, pull_events. cbn. by destruct (doc_events d).
    + destruct (doc_log d) as [|e evs]; [done|]. destruct (Hf e) as (n & ? & _); [by left|done].
Qed.

Lemma removed_ok docs a v :
  docs_ok docs -> docs_of a docs <> [] -> (forall e, e ∈ since_snapshot (log docs a) -> (v <= ev_version e)%Z) ->
  docs_ok (removed a v docs).
Proof.
  intros Hok Hne Hv. apply (docs_ok_update docs _ a Hok); [by intros b ?; apply removed_other|].
  destruct (Hok a Hne) as (g' & pre & d & Hpre & Hact & Hids & Hin). exists g'.
  assert (Hda : doc_aggregateID d = a) by (apply (elem_docs_of a d docs); rewrite Hpre; set_solver).
  assert (Hsd : forall e, e ∈ since_snapshot (doc_log d) -> (v <= ev_version e)%Z).
  { subst a. rewrite (active_since docs d pre) in Hv by done. done. }
  assert (Hgone : gone a v d = false).
  { rewrite gone_lt by done. apply Z.ltb_ge. destruct (active_last d _ Hact) as (e & He & <-). apply Hsd.
    destruct (since_suffix (doc_log d)) as [p Hp]. pose proof (since_snapshot_nonempty _ (active_nonempty _ _ Hact)) as Hsn.
    destruct (exists_last Hsn) as (x & y & Hxy). rewrite Hp, Hxy, app_assoc, last_snoc in He. injection He as ->.
    rewrite Hxy. set_solver. }
  assert (Hsame : forall x, doc_id (shortened a v x) = doc_id x /\ doc_groupID (shortened a v x) = doc_groupID x /\
    doc_latestVersion (shortened a v x) = doc_latestVersion x /\ doc_isActive (shortened a v x) = doc_isActive x).
  { intros x. unfold shortened. by case_match. }
  set (pre' := shortened a v <$> List.filter (fun d => negb (gone a v d)) pre).
  assert (Hsub : forall P : Doc -> Prop, (forall x, P x -> P (shortened a v x)) -> Forall P pre -> Forall P pre').
  { intros P HP HF. apply Forall_fmap, Forall_forall. intros x Hx. apply HP. rewrite Forall_forall in HF. apply HF.
    by apply list_elem_of_In, filter_In in Hx as [Hx _]; apply list_elem_of_In. }
  exists pre', (shortened a v d). rewrite removed_own, Hpre, List.filter_app. cbn [List.filter]. rewrite Hgone.
  cbn [negb]. rewrite fmap_app. destruct (Hsame d) as (Hs1 & Hs2 & Hs3 & Hs4).
  assert (Hshort : active_ok (shortened a v d) (bool_decide (pre = []))).
  { unfold shortened. case_match; [by apply pull_active|done]. }
  rewrite Hpre in Hids. apply Forall_app in Hids as [Hi1 Hi2]. split_and!; [done| | |].
  - destruct (decide (pre = [])) as [->|Hp]; [done|]. rewrite bool_decide_eq_false_2 in Hshort by done.
    destruct Hshort; split; try done. intros _. by apply active_first0.
  - apply Forall_app. split.
    + apply (Hsub (fun x => id_ok a x /\ doc_groupID x = Some g')); [|done]. intros x [(n & Hn & Hb) Hx].
      destruct (Hsame x) as (E1 & E2 & E3 & _). split; [exists n; by rewrite E1, E3|by rewrite E2].
    + apply Forall_singleton in Hi2 as [(n & Hn & Hb) Hx]. constructor; [|done].
      split; [exists n; by rewrite Hs1, Hs3|by rewrite Hs2].
  - apply (Hsub (fun x => doc_isActive x = false /\ (doc_latestVersion x < doc_latestVersion (shortened a v d))%Z)).
    + intros x [Hx Hlt]. destruct (Hsame x) as (_ & _ & E3 & E4). by rewrite E3, E4.
    + rewrite Hs3. done.
Qed.
(** Removing the events before the version [v] of an aggregate, which its latest
    snapshot does not follow, removes them and only them from what the store
    holds of the aggregate, and loads deliver what they delivered before. *)
Theorem RemoveUpToVersion_keeps nil_filter range docs g a v :
  docs_ok docs -> (forall m, range m ≡ₚ map_to_list m) -> g <> "" -> a <> "" -> a <> uuid_Nil ->
  docs_of a docs <> [] -> (forall e, e ∈ since_snapshot (log docs a) -> (v <= ev_version e)%Z) ->
  (forall d e, d ∈ docs_of a docs -> e ∈ doc_log d ->
     exists n, doc_firstVersion d = Some n /\ (n <= ev_version e <= doc_latestVersion d)%Z) ->
  let '(docs', errs) := RemoveUpToVersion nil_filter range (fun _ => no_faults) [MkVersionQuery g a v] docs in
  errs = [] /\ docs_ok docs' /\ (forall b, b <> a -> docs_of b docs' = docs_of b docs) /\
  since_snapshot (log docs' a) = since_snapshot (log docs a) /\
  log docs' a = List.filter (fun ev => (v <=? ev_version ev)%Z) (log docs a).
Proof.
  intros Hok Hrange Hg Ha Hnil Hne Hv Hfirst. rewrite RemoveUpToVersion_one by done.
  assert (Hall : Forall (fun d => doc_aggregateID d = a) (docs_of a docs)).
  { apply Forall_forall. intros d Hd. by apply elem_docs_of in Hd as [? _]. }
  assert (Hlog : log (removed a v docs) a = List.filter (fun ev => (v <=? ev_version ev)%Z) (log docs a)).
  { unfold log. rewrite removed_own. by apply shortened_log. }
  split_and!; [done|by apply removed_ok|by intros b ?; apply removed_other| |done].
  rewrite Hlog. apply since_filter. intros e He. apply Z.leb_le. by apply Hv.
Qed.

(** ** Events that are lost *)
Lemma snapshot_filters_active g qs q :
  q ∈ snapshotQueriesToMongoQuery (D := D) g qs ->
  exists f, mq_filter q = Some f /\ mq_project q = from_latest_snapshot /\
    forall d, f d = true -> doc_isActive d = true.
Proof.
  assert (Hwhole : forall q, q ∈ [MkMongoQuery (Some (of_group (D := D) g)) from_latest_snapshot] ->
    exists f, mq_filter q = Some f /\ mq_project q = from_latest_snapshot /\ forall d, f d = true -> doc_isActive d = true).
  { intros x ->%list_elem_of_singleton. exists (of_group g). split_and!; [done|done|]. by intros d [_ ?]%andb_prop. }
  set (good := fun f : Doc -> bool => forall d, f d = true -> doc_isActive d = true).
  assert (Hsplit : forall qs rq tq rq' tq', Forall good rq -> Forall good tq ->
    split_queries g qs rq tq = Some (rq', tq') -> Forall good rq' /\ Forall good tq').
  { clear. induction qs as [|q qs IH]; intros rq tq rq' tq' Hr Ht; cbn [split_queries]; [by intros [= <- <-]|].
    destruct (no_aggregate q).
    - destruct (sq_Types q) as [|ty tys]; [done|]. apply IH; [done|]. apply Forall_app. split; [done|].
      constructor; [|done]. by intros d [[_ ?]%andb_prop _]%andb_prop.
    - apply IH; [|done]. apply Forall_app. split; [done|]. constructor; [|done]. by intros d [[_ ?]%andb_prop _]%andb_prop. }
  unfold snapshotQueriesToMongoQuery. destruct qs as [|q0 qs]; [apply Hwhole|].
  destruct (split_queries g (q0 :: qs) [] []) as [[rq tq]|] eqn:Hs; [|apply Hwhole].
  apply Hsplit in Hs as [Hr Ht]; [|done..].
  assert (Hor : forall fs, Forall good fs -> q ∈ or_query fs -> exists f, mq_filter q = Some f /\
    mq_project q = from_latest_snapshot /\ forall d, f d = true -> doc_isActive d = true).
  { intros fs Hfs. unfold or_query. destruct fs as [|f fs]; [by intros ?%not_elem_of_nil|].
    intros ->%list_elem_of_singleton. eexists. split_and!; [done|done|]. intros d Hd. unfold any_of in Hd.
    apply existsb_exists in Hd as (h & Hh & Hhd). rewrite Forall_forall in Hfs. apply (Hfs h); [by apply list_elem_of_In|done]. }
  intros [Hq|Hq]%elem_of_app; [by apply (Hor rq)|by apply (Hor tq)].
Qed.
(** Loads see the active documents only. *)
Lemma load_active find nil_filter range fault broken qs docs docs' :
  List.filter doc_isActive docs = List.filter doc_isActive docs' ->
  LoadFromSnapshot find nil_filter range fault broken qs docs
  = LoadFromSnapshot find nil_filter range fault broken qs docs'.
Proof.
  intros Hact. assert (Hf : forall f : Doc -> bool, (forall d, f d = true -> doc_isActive d = true) ->
    List.filter f docs = List.filter f docs').
  { intros f Hf. assert (Hff : forall l : list Doc, List.filter f l = List.filter f (List.filter doc_isActive l)).
    { intros l. induction l as [|d l IH]; [done|]. cbn. destruct (doc_isActive d) eqn:Hd; cbn; [by rewrite IH|].
      destruct (f d) eqn:Hfd; [|done]. apply Hf in Hfd. congruence. }
    by rewrite (Hff docs), (Hff docs'), Hact. }
  unfold LoadFromSnapshot. destruct (length qs =? 0)%nat; [done|].
  induction (range (normalizeSnapshotQuery qs)) as [|[g us] rest IH]; [done|]. cbn [fold_right]. rewrite IH. f_equal.
  unfold loadFromSnapshot. destruct (_ <? _)%nat; [done|].
  pose proof (fun q => snapshot_filters_active g us q) as Hq. revert Hq. clear IH. generalize (fault g).
  induction (snapshotQueriesToMongoQuery g us) as [|q mqs IH]; intros fl Hq; [done|]. cbn [loadEventsQuery]. f_equal.
  - unfold loadEventsQuery_one. destruct (Hq q) as (f & -> & _ & Hfa); [by left|]. cbn [filter_of]. by rewrite (Hf f Hfa).
  - apply IH. intros x Hx. apply Hq. by right.
Qed.

Section lost.
Context (fits : Doc -> bool).

(** When the second write of a snapshot fails, the first one stays: no document
    of the aggregate is active, loads find nothing of it, and what a writer
    then makes of nothing is a concurrency exception each time. *)
Theorem interrupted_snapshot_blocks docs events first :
  docs_ok docs -> saved events first -> Version first <> 0%Z -> IsSnapshot first = true ->
  fresh docs (AggregateID first) (Version first) -> next_version (log docs (AggregateID first)) = Version first ->
  (forall d, d ∈ docs -> fits (set_inactive d).1 = true) ->
  (exists d, d ∈ docs /\ doc_id d = Some (version_id (AggregateID first) 0)) ->
  snd (saveEvent marshaler fits None events docs) = inr SnapshotRequired ->
  (exists doc, makeDBDoc marshaler events = inr doc) ->
  let '(docs', r) := Save marshaler fits (fun k => if (k =? 4)%nat then Some (OtherError, false) else None) docs events in
  (exists err, r = inl err) /\ docs_of (AggregateID first) docs' <> [] /\
  Forall (fun d => doc_isActive d = false) (docs_of (AggregateID first) docs') /\
  forall events0 first0 doc0,
    saved events0 first0 -> AggregateID first0 = AggregateID first -> Version first0 = 0%Z ->
    makeDBDoc marshaler events0 = inr doc0 -> fits doc0 = true ->
    Save marshaler fits no_faults docs' events0 = (docs', inr ConcurrencyException).
Proof.
  intros Hok Hs H0 Hsnap Hfr Hn Hfits (d0 & Hd0 & Hid0) Hfull [doc Hdoc]. unfold Save at 1.
  pose proof Hs as (Hval & Hh & Hpos & H63). rewrite Hval. destruct events as [|x events]; [done|]. injection Hh as ->.
  rewrite (proj2 (Z.eqb_neq _ _) H0).
  pose proof (saveEvent_spec fits docs (first :: events) first Hok Hfr Hs H0) as He. cbn [Nat.eqb].
  destruct (saveEvent marshaler fits None (first :: events) docs) as [docs1 r]. cbn [snd] in Hfull. subst r.
  destruct He as [-> _]. rewrite Hsnap. unfold saveSnapshot. rewrite Hdoc. cbn [head Nat.eqb]. unfold UpdateOne.
  assert (Hv : (0 < Version first < 2 ^ 63)%Z) by (cbn [length] in *; lia).
  pose proof (find_previous docs _ _ set_inactive Hok Hfr Hv) as Hp.
  destruct (update_one _ _ docs) as [[[d' m] docs1]|]; [|done].
  destruct Hp as (g & l1 & d & l2 & Hdocs & Hu & Hd1 & Ha & Hl & Hl2 & Hofa & Hact & Hagg & _).
  assert (d' = (set_inactive d).1) as -> by by rewrite Hu.
  assert (m = true) as -> by (unfold set_inactive in Hu; pose proof (active _ _ Hact); congruence).
  rewrite Hfits by (rewrite Hdocs; set_solver). cbn [InsertOne IsDup].
  assert (Hof1 : docs_of (AggregateID first) docs1 = docs_of (AggregateID first) l1 ++ [(set_inactive d).1]).
  { rewrite Hd1. destruct (set_inactive_log docs l1 d l2 Hdocs (AggregateID first)) as [-> _].
    by rewrite decide_True, Hl2, app_nil_r by done. }
  split_and!; [by eexists|rewrite Hof1; by destruct (docs_of _ l1)| |].
  - rewrite Hof1. destruct Hagg as (pre & y & Hpre & _ & _ & Hin). rewrite Hpre in Hofa.
    apply app_inj_tail in Hofa as [-> _]. apply Forall_app. split; [|by constructor].
    eapply Forall_impl; [exact Hin|]. by intros z [].
  - intros events0 first0 doc0 Hs0 Ha0 Hv0 Hdoc0 Hf0. unfold Save. pose proof Hs0 as (-> & Hh0 & _).
    destruct events0 as [|x0 events0]; [done|]. injection Hh0 as ->. rewrite Hv0. cbn [Z.eqb]. rewrite Hdoc0.
    destruct (makeDBDoc_ok _ _ _ Hs0 Hdoc0) as (_ & _ & _ & Hid & _). unfold InsertOne. rewrite Hf0. cbn [negb].
    assert (Hex : existsb (has_id (doc_id doc0)) docs1 = true).
    { apply has_id_elem. rewrite Hdocs in Hd0.
      assert (Hx : exists z, z ∈ docs1 /\ doc_id z = doc_id d0).
      { rewrite Hd1. apply elem_of_app in Hd0 as [Hd0|[->|Hd0]%elem_of_cons];
          [exists d0; set_solver|exists (set_inactive d).1; set_solver|exists d0; set_solver]. }
      destruct Hx as (z & Hz & Hzi). exists z, (version_id (AggregateID first) 0).
      split_and!; [done|by rewrite Hid, Ha0, Hv0|by rewrite Hzi]. }
    by rewrite Hex.
Qed.
End lost.

(** ** Deleting and asking for services *)
(** A deletion removes the documents of the groups it names and no others. *)
Theorem Delete_exact nil_filter groups docs :
  (exists g, g ∈ groups /\ g <> "") ->
  exists docs', Delete_ nil_filter None groups docs = (docs', None) /\
    forall d, d ∈ docs' <-> d ∈ docs /\ forall g, doc_groupID d = Some g -> g ∈ groups -> g = "".
Proof.
  intros (g0 & Hg0 & Hne). unfold Delete_.
  assert (Hin : forall g, g ∈ getDeviceIDFilter groups <-> g ∈ groups /\ g <> "").
  { intros g. unfold getDeviceIDFilter. rewrite elem_of_list_to_set, list_elem_of_filter. naive_solver. }
  destruct (Nat.eqb_spec (size (getDeviceIDFilter groups)) 0) as [Hz|_].
  { apply size_empty_inv in Hz. assert (Hx : g0 ∈ getDeviceIDFilter groups) by by apply Hin. rewrite (Hz g0) in Hx. set_solver. }
  eexists. split; [reflexivity|]. intros d.
  rewrite list_elem_of_In, filter_In, <- list_elem_of_In, negb_true_iff. f_equiv.
  destruct (doc_groupID d) as [g|]; [|naive_solver]. rewrite bool_decide_eq_false, Hin. split.
  - intros Hn g' [= <-] Hg'. destruct (decide (g = "")); [done|]. exfalso. by apply Hn.
  - intros Hg [Hg1 Hg2]. by apply Hg2, Hg.
Qed.
(** Asking for the devices of services answers those of their active documents,
    all of them when there are fewer than the limit. *)
Theorem LoadDeviceMetadata_exact find docs services limit :
  (forall l : list Doc, find l ≡ₚ l) -> services <> [] ->
  (forall d, d ∈ docs -> doc_isActive d = true -> doc_groupID d <> None) ->
  (0 < limit)%Z ->
  exists ret, LoadDeviceMetadataByServiceIDs find None services limit docs = inr ret /\
    (forall m, m ∈ ret -> exists d, d ∈ docs /\ doc_isActive d = true /\
       doc_groupID d = Some (dm_DeviceID m) /\ doc_serviceID d = Some (dm_ServiceID m) /\ dm_ServiceID m ∈ services) /\
    ((Z.of_nat (length ret) < limit)%Z -> forall d s g, d ∈ docs -> doc_isActive d = true ->
       doc_groupID d = Some g -> doc_serviceID d = Some s -> s ∈ services -> MkDeviceDocumentMetadata g s ∈ ret).
Proof.
  intros Hfind Hne Hgr Hlim. unfold LoadDeviceMetadataByServiceIDs. destruct services as [|s0 services]; [done|].
  cbn [length Nat.eqb]. set (ss := s0 :: services). set (all := find (List.filter (of_service ss) docs)).
  assert (Hall : forall d, d ∈ all <-> d ∈ docs /\ doc_isActive d = true /\ exists s, doc_serviceID d = Some s /\ s ∈ ss).
  { intros d. unfold all. rewrite (Hfind _), list_elem_of_In, filter_In, <- list_elem_of_In. unfold of_service. f_equiv.
    destruct (doc_serviceID d) as [s|]; [|naive_solver]. rewrite andb_true_iff, bool_decide_eq_true. naive_solver. }
  assert (Hdev : forall l, (forall d, d ∈ l -> d ∈ all) -> exists ret, device_documents l = inr ret /\ length ret = length l /\
    forall m, m ∈ ret <-> exists d, d ∈ l /\ doc_groupID d = Some (dm_DeviceID m) /\ doc_serviceID d = Some (dm_ServiceID m)).
  { induction l as [|d l IH]; intros Hl.
    - exists []. split_and!; [done|done|]. intros m. split; [by intros ?%not_elem_of_nil|]. by intros (d & ?%not_elem_of_nil & _).
    - destruct IH as (ret & Hr & Hlen & Hin); [set_solver|]. destruct (proj1 (Hall d)) as (Hd & Hact & s & Hs & Hss); [apply Hl; by left|].
      cbn [device_documents]. destruct (doc_groupID d) as [g|] eqn:Hg; [|by destruct (Hgr d Hd Hact)]. rewrite Hs, Hr.
      eexists. split_and!; [done|by cbn; rewrite Hlen|]. intros m. rewrite elem_of_cons, Hin. setoid_rewrite elem_of_cons. split.
      + intros [->|(y & Hy & Hyy)]; [exists d; by split; [left|]|exists y; naive_solver].
      + intros (y & [->|Hy] & Hg1 & Hs1); [left|right; by exists y].
        rewrite Hg in Hg1. rewrite Hs in Hs1. injection Hg1 as ->. injection Hs1 as ->. by destruct m. }
  unfold limited. rewrite (proj2 (Z.eqb_neq limit 0)) by lia.
  destruct (Hdev (take (Z.to_nat limit) all)) as (ret & Hr & Hlen & Hin).
  { intros d (i & Hi & _)%elem_of_take. by eapply list_elem_of_lookup_2. }
  exists ret. split_and!; [done| |].
  - intros m Hm. apply Hin in Hm as (d & (i & Hi & _)%elem_of_take & Hg & Hs). exists d.
    apply list_elem_of_lookup_2, Hall in Hi as (Hd & Hact & s & Hs' & Hss). rewrite Hs in Hs'. injection Hs' as <-. by split_and!.
  - intros Hlt d s g Hd Hact Hg Hs Hss. rewrite length_take in Hlen.
    assert (Htake : take (Z.to_nat limit) all = all) by (apply take_ge; lia).
    apply Hin. exists d. rewrite Htake. split; [|done]. apply Hall. split_and!; [done|done|]. by exists s.
Qed.
End facts.

(** ** The records of maintenance *)
(** The record of an aggregate is of the newest task: a task for an older version is refused. *)
Theorem Insert_newest task records :
  t_GroupID task <> "" -> t_AggregateID task <> "" ->
  let '(records', err) := Insert None task records in
  (err = None <-> forall t, records !! t_AggregateID task = Some t -> (t_Version t < t_Version task)%Z) /\
  forall a, records' !! a = if decide (a = t_AggregateID task /\ err = None) then Some task else records !! a.
Proof.
  intros Hg Ha. unfold Insert. rewrite (proj2 (String.eqb_neq _ _) Hg), (proj2 (String.eqb_neq _ _) Ha). unfold getID.
  destruct (records !! t_AggregateID task) as [t|] eqn:Ht; [destruct (Z.ltb_spec (t_Version t) (t_Version task))|]; cbn;
    split; try naive_solver; try (intros a; case_decide as Hd; [destruct Hd as [-> _]; by rewrite lookup_insert_eq|];
    rewrite lookup_insert_ne; naive_solver).
  - split; [done|]. intros Hx. specialize (Hx t eq_refl). lia.
  - intros a. case_decide as Hd; [by destruct Hd|done].
Qed.
