(* ===== verification/BusPoolFacts.v ===== *)
(** * The queues of the event bus: what they guarantee

    Whatever goroutines run, a queue is emptied by one of them at a time, and
    the events of a queue reach the handler in their order, each once; without
    failures each of them does.  But a goroutine that the pool refuses leaves a
    queue that no one empties any more, and the order of the events of an
    aggregate is not that of its queue: its events can be in several. *)

From Stdlib Require Import ZArith Lia String.
From S2P Require Import Prelude Commands Events EventStore BusPool.

Section facts.
Context {Ev : Type} (GroupID AggregateID : Ev -> string).
#[local] Abbreviation name_of := (eventToName GroupID AggregateID).
Implicit Types (s : bus Ev) (g : goroutine Ev) (gs : list (goroutine Ev)) (evs : list Ev).

(** ** Batches *)
(** Nothing is left out or reordered, and no batch is empty or longer than 128. *)
Lemma handle_batches_concat lastID evs iter :
  length evs <= 128 -> (evs = [] -> lastID = "") ->
  concat (handle_batches GroupID AggregateID lastID evs iter).*2 = evs ++ iter /\
  Forall (fun b => 0 < length b.2 <= 128) (handle_batches GroupID AggregateID lastID evs iter).
Proof.
  revert lastID evs. induction iter as [|eu iter IH]; intros lastID evs Hl Hn; cbn [handle_batches].
  - destruct evs as [|e evs]; [done|]. split; [done|]. constructor; [cbn in *; lia|done].
  - destruct (_ || _) eqn:Hb.
    + destruct (IH (name_of eu) [eu]) as [Hc Hf]; [cbn; lia|done|]. cbn [concat fmap list_fmap snd].
      rewrite Hc. split; [done|]. constructor; [|done]. cbn. destruct evs as [|e evs]; [|cbn in *; lia].
      rewrite Hn in Hb by done. done.
    + apply orb_false_elim in Hb as [_ Hb]. apply Nat.leb_gt in Hb.
      destruct (IH (name_of eu) (evs ++ [eu])) as [Hc Hf].
      * rewrite length_app. cbn. lia.
      * intros Hx. by apply app_eq_nil in Hx as [_ ?].
      * rewrite Hc, <- app_assoc. done.
Qed.
(** Events of one aggregate come in batches with its name. *)
Lemma handle_batches_own n lastID evs iter :
  Forall (fun e => name_of e = n) (evs ++ iter) -> (lastID = "" \/ lastID = n) ->
  Forall (fun b => b.1 = n) (handle_batches GroupID AggregateID lastID evs iter).
Proof.
  revert lastID evs. induction iter as [|eu iter IH]; intros lastID evs Hall Hlast; cbn [handle_batches].
  - destruct evs as [|e evs]; [done|]. rewrite app_nil_r in Hall. inversion Hall as [|? ? He _]. by constructor.
  - apply Forall_app in Hall as [H1 H2]. inversion H2 as [|? ? He H3]. subst.
    destruct (_ || _).
    + constructor; [done|]. apply IH; [by constructor|by right].
    + apply IH; [|by right]. apply Forall_app. split; [|done]. apply Forall_app. by split; [|constructor].
Qed.
(** Events of an aggregate that another one follows are put into its queue. *)
Lemma batches_misnamed a b evs1 evs2 :
  a <> b -> evs1 <> [] -> evs2 <> [] -> length evs1 <= 128 -> length evs2 <= 128 ->
  Forall (fun e => name_of e = a) evs1 -> Forall (fun e => name_of e = b) evs2 ->
  batches GroupID AggregateID (evs1 ++ evs2) = [(b, evs1); (b, evs2)].
Proof.
  intros Hab Hn1 Hn2 Hl1 Hl2 H1 H2. unfold batches.
  assert (Hdot : forall e, name_of e <> "").
  { intros e. unfold eventToName. intros Hx. apply (f_equal String.length) in Hx. revert Hx.
    induction (GroupID e); cbn; done. }
  assert (Hrun : forall evs acc last rest n, Forall (fun e => name_of e = n) evs -> length (acc ++ evs) <= 128 ->
    (last = "" \/ last = n) ->
    handle_batches GroupID AggregateID last acc (evs ++ rest)
    = handle_batches GroupID AggregateID (match evs with [] => last | _ => n end) (acc ++ evs) rest).
  { induction evs as [|e evs IH]; intros acc last rest n Hall Hlen Hlast; [by rewrite app_nil_r|].
    inversion Hall as [|? ? He Hall']. subst. cbn [app handle_batches].
    assert (Hc : str_nonempty last && negb (String.eqb (name_of e) last) = false).
    { destruct Hlast as [->| ->]; [done|]. by rewrite String.eqb_refl, andb_false_r. }
    rewrite Hc. rewrite length_app in Hlen. cbn [length] in Hlen.
    replace (128 <=? length acc) with false by (symmetry; apply Nat.leb_gt; lia). cbn [orb].
    rewrite (IH _ _ _ (name_of e)) by (rewrite ?length_app; cbn; auto; lia). rewrite <- app_assoc.
    by destruct evs. }
  rewrite (Hrun evs1 [] "" evs2 a) by (auto; lia). destruct evs1 as [|x1 evs1]; [done|]. cbn [app].
  destruct evs2 as [|x2 evs2]; [done|]. inversion H2 as [|? ? Hx2 H2']. subst b.
  assert (Ha : a <> "") by (inversion H1 as [|? ? Hx1]; subst; apply Hdot).
  cbn [handle_batches]. assert (Hs : str_nonempty a = true) by (unfold str_nonempty; by rewrite (proj2 (String.eqb_neq _ _) Ha)).
  rewrite Hs, (proj2 (String.eqb_neq _ _) (not_eq_sym Hab)). cbn [andb negb orb]. f_equal.
  pose proof (Hrun evs2 [x2] (name_of x2) [] (name_of x2) H2' ltac:(cbn in *; lia) ltac:(auto)) as Hr.
  rewrite app_nil_r in Hr. rewrite Hr. by destruct evs2.
Qed.

(** ** Who empties a queue *)
Definition owns (p : nat) g : bool :=
  match g with
  | Starting q _ | Popping q _ | Handling q _ _ | Failing q _ => (p =? q)%nat
  | _ => false
  end.
Definition owners (p : nat) gs : nat := list_sum ((fun g => if owns p g then 1 else 0) <$> gs).
Lemma owners_app p gs gs' : owners p (gs ++ gs') = owners p gs + owners p gs'.
Proof. unfold owners. by rewrite fmap_app, list_sum_app. Qed.
Lemma owners_cons p g gs : owners p (g :: gs) = (if owns p g then 1 else 0) + owners p gs.
Proof. reflexivity. Qed.
Lemma sum_cons {A} (f : A -> nat) x l : list_sum (f <$> x :: l) = f x + list_sum (f <$> l).
Proof. reflexivity. Qed.
Lemma sum_insert {A} (f : A -> nat) l i x y :
  l !! i = Some x -> list_sum (f <$> <[i := y]> l) + f x = list_sum (f <$> l) + f y.
Proof.
  intros Hi. pose proof (take_drop_middle _ _ _ Hi) as Hl.
  assert (Heq : list_sum (f <$> l) = list_sum (f <$> take i l) + f x + list_sum (f <$> drop (S i) l)).
  { rewrite <- Hl at 1. by rewrite fmap_app, list_sum_app, sum_cons, Nat.add_assoc. }
  rewrite insert_take_drop by by eapply lookup_lt_Some. rewrite fmap_app, list_sum_app, sum_cons. lia.
Qed.
Lemma owners_insert p gs i g g' :
  gs !! i = Some g ->
  owners p (<[i := g']> gs) + (if owns p g then 1 else 0) = owners p gs + (if owns p g' then 1 else 0).
Proof. intros Hi. by apply (sum_insert (fun g => if owns p g then 1 else 0)). Qed.
(** The events of a queue in a record of calls. *)
Definition events_of (p : nat) (l : list (nat * list Ev)) : list Ev := concat (filter (fun x => x.1 = p) l).*2.
Lemma events_of_snoc p l q evs :
  events_of p (l ++ [(q, evs)]) = events_of p l ++ (if (p =? q)%nat then evs else []).
Proof.
  unfold events_of. rewrite filter_app, fmap_app, concat_app, filter_cons. cbn [fst].
  destruct (Nat.eqb_spec p q) as [->|Hne]; [by rewrite decide_True; cbn; rewrite ?app_nil_r|].
  rewrite decide_False by congruence. done.
Qed.
Definition mentions g : option nat :=
  match g with
  | Pushing p _ _ | Starting p _ | Popping p _ | Handling p _ _ | Failing p _ | Deleting p _ _ => Some p
  | _ => None
  end.

Context (pool faulty : bool).
(** A queue that is marked as processed has an owner, unless the pool has refused it. *)
Definition cared_for (n : nat) (ed : eventsProcessor Ev) : Prop :=
  faulty = false -> (p_isProcessed ed = true -> 0 < n) /\ (p_queue ed <> [] -> p_isProcessed ed = true).
Definition bus_inv s : Prop :=
  (forall g p, g ∈ b_goroutines s -> mentions g = Some p -> p < length (b_processors s)) /\
  (forall p x, x ∈ b_pushed s ++ b_handed s -> x.1 = p -> p < length (b_processors s)) /\
  (forall name p, b_container s !! name = Some p -> exists ed, b_processors s !! p = Some ed /\ p_name ed = name) /\
  forall p ed, b_processors s !! p = Some ed ->
    owners p (b_goroutines s) <= 1 /\ (0 < owners p (b_goroutines s) -> p_isProcessed ed = true) /\
    events_of p (b_pushed s) = events_of p (b_handed s) ++ p_queue ed /\
    cared_for (owners p (b_goroutines s)) ed.

(** What a step of a goroutine on the queue [p] has to keep. *)
#[local] Abbreviation own p g := (if owns p g then 1 else 0).
Lemma events_of_app p l l' : events_of p (l ++ l') = events_of p l ++ events_of p l'.
Proof. unfold events_of. by rewrite filter_app, fmap_app, concat_app. Qed.
Lemma events_of_other p q l : Forall (fun x => x.1 = p) l -> q <> p -> events_of q l = [].
Proof.
  intros Hl Hne. unfold events_of. rewrite list_filter_nil; [done|]. intros x Hxl Hxq.
  rewrite Forall_forall in Hl. apply Hne. rewrite <- Hxq. by apply Hl.
Qed.
Lemma inv_step s i g g' extra p ed ed' cont pu hu :
  bus_inv s -> b_goroutines s !! i = Some g -> b_processors s !! p = Some ed -> p_name ed' = p_name ed ->
  cont ⊆ b_container s -> Forall (fun x => x.1 = p) (pu ++ hu) ->
  (forall q, q <> p -> owns q g = false /\ owns q g' = false /\ owners q extra = 0) ->
  Forall (fun x => mentions x = None \/ mentions x = Some p) (g' :: extra) ->
  (forall n, n <= 1 -> (owns p g = true -> n = 1) -> (0 < n -> p_isProcessed ed = true) -> cared_for n ed ->
   n - own p g + own p g' + owners p extra <= 1 /\
   (0 < n - own p g + own p g' + owners p extra -> p_isProcessed ed' = true) /\
   cared_for (n - own p g + own p g' + owners p extra) ed') ->
  p_queue ed ++ events_of p pu = events_of p hu ++ p_queue ed' ->
  bus_inv (MkBus cont (<[p := ed']> (b_processors s)) (<[i := g']> (b_goroutines s) ++ extra)
             (b_pushed s ++ pu) (b_handed s ++ hu)).
Proof.
  intros (Hm & Hx & Hc & Hp) Hi Hed Hname Hcs Hown Hother Hment Hcond Hq0.
  pose proof (lookup_lt_Some _ _ _ Hed) as Hlt.
  split_and!; cbn [b_goroutines b_processors b_pushed b_handed b_container]; rewrite ?length_insert.
  - intros x q Hin Hq. rewrite Forall_forall in Hment.
    assert (Hin' : x ∈ b_goroutines s \/ x ∈ g' :: extra).
    { apply elem_of_app in Hin as [Hin|Hin]; [|right; by right]. apply list_elem_of_lookup in Hin as (k & Hk).
      destruct (decide (k = i)) as [->|Hne].
      - rewrite list_lookup_insert_eq in Hk by by eapply lookup_lt_Some. injection Hk as <-. right. by left.
      - rewrite list_lookup_insert_ne in Hk by done. left. by eapply list_elem_of_lookup_2. }
    destruct Hin' as [Hin'|Hin']; [by eapply Hm|]. destruct (Hment x Hin'); congruence.
  - intros q x Hin Hq. assert (Hin' : x ∈ b_pushed s ++ b_handed s \/ x ∈ pu ++ hu) by set_solver.
    destruct Hin' as [Hin'|Hin']; [by eapply Hx|]. rewrite Forall_forall in Hown. rewrite (Hown x Hin') in Hq. by subst.
  - intros name q Hq. assert (Hq' : b_container s !! name = Some q) by by eapply lookup_weaken.
    destruct (Hc name q Hq') as (edq & He & Hn). destruct (decide (q = p)) as [->|Hne].
    + exists ed'. rewrite list_lookup_insert_eq by done. split; [done|]. congruence.
    + exists edq. by rewrite list_lookup_insert_ne.
  - intros q edq Hq. rewrite owners_app, !events_of_app. pose proof (owners_insert q _ i g g' Hi) as Ho.
    destruct (decide (q = p)) as [->|Hne].
    + rewrite list_lookup_insert_eq in Hq by done. injection Hq as <-. destruct (Hp p ed Hed) as (H1 & H2 & H3 & H4).
      pose proof (owners_insert p _ i g (Finished false) Hi) as Hf. cbn [owns] in Hf.
      destruct (Hcond _ H1) as (H5 & H6 & H7); [intros Hog; rewrite Hog in Hf; lia|done|done|].
      assert (Hn : owners p (<[i:=g']> (b_goroutines s)) = owners p (b_goroutines s) - own p g + own p g').
      { destruct (owns p g); lia. }
      rewrite Hn, H3, <- !app_assoc, Hq0. by split_and!.
    + rewrite list_lookup_insert_ne in Hq by done. destruct (Hp q edq Hq) as (H1 & H2 & H3 & H4).
      destruct (Hother q Hne) as (E1 & E2 & E3). rewrite E1, E2 in Ho; cbn iota in Ho.
      apply Forall_app in Hown as [Ho1 Ho2].
      rewrite (events_of_other p q pu), (events_of_other p q hu), !app_nil_r by done.
      replace (owners q (<[i:=g']> (b_goroutines s)) + owners q extra) with (owners q (b_goroutines s)) by lia.
      by split_and!.
Qed.
(** A goroutine that empties no queue, before or after. *)
Lemma inv_idle s i g g' :
  bus_inv s -> b_goroutines s !! i = Some g -> (forall p, owns p g = false /\ owns p g' = false) ->
  (mentions g' = None \/ exists p, mentions g' = Some p /\ p < length (b_processors s)) ->
  bus_inv (at_goroutine i g' s).
Proof.
  intros (Hm & Hx & Hc & Hp) Hi Hown Hment. split_and!; cbn [at_goroutine b_goroutines b_processors b_pushed b_handed b_container].
  - intros x q Hin Hq. apply list_elem_of_lookup in Hin as (k & Hk). destruct (decide (k = i)) as [->|Hne].
    + rewrite list_lookup_insert_eq in Hk by by eapply lookup_lt_Some. injection Hk as <-.
      destruct Hment as [Hn|(p & Hn & Hl)]; congruence.
    + rewrite list_lookup_insert_ne in Hk by done. eapply Hm; [|done]. by eapply list_elem_of_lookup_2.
  - done.
  - done.
  - intros q ed Hq. destruct (Hp q ed Hq) as (H1 & H2 & H3 & H4). destruct (Hown q) as [E1 E2].
    pose proof (owners_insert q _ i g g' Hi) as Ho. rewrite E1, E2 in Ho; cbn iota in Ho.
    assert (Heq : owners q (<[i:=g']> (b_goroutines s)) = owners q (b_goroutines s)) by lia. by rewrite Heq.
Qed.
Lemma owners_fresh p gs : (forall g q, g ∈ gs -> mentions g = Some q -> q < p) -> owners p gs = 0.
Proof.
  induction gs as [|g gs IH]; intros Hm; [done|]. rewrite owners_cons, IH by (intros; eapply Hm; [by right|done]).
  destruct (owns p g) eqn:Ho; [|done]. assert (Hx : mentions g = Some p) by (destruct g; try done; cbn in *; by apply Nat.eqb_eq in Ho as ->).
  specialize (Hm g p ltac:(by left) Hx). lia.
Qed.
Lemma inv_new s name :
  bus_inv s -> b_container s !! name = None -> bus_inv (getEventsData name s).1.
Proof.
  intros (Hm & Hx & Hc & Hp) Hn. unfold getEventsData. rewrite Hn. cbn [fst].
  split_and!; cbn [b_goroutines b_processors b_pushed b_handed b_container].
  - intros g q Hin Hq. rewrite length_app. specialize (Hm g q Hin Hq). lia.
  - intros q x Hin Hq. rewrite length_app. specialize (Hx q x Hin Hq). lia.
  - intros nm q Hq. destruct (decide (nm = name)) as [->|Hne].
    + rewrite lookup_insert_eq in Hq. injection Hq as <-. exists (newEventsProcessor name).
      rewrite lookup_app_r, Nat.sub_diag by lia. done.
    + rewrite lookup_insert_ne in Hq by done. destruct (Hc nm q Hq) as (ed & He & Hed). exists ed.
      split; [by apply lookup_app_l_Some|done].
  - intros q ed Hq. apply lookup_app_Some in Hq as [Hq|[Hl Hq]]; [by apply Hp|].
    destruct (q - length (b_processors s)) as [|k] eqn:Hk; [|done]. injection Hq as <-.
    assert (q = length (b_processors s)) as -> by lia. rewrite owners_fresh; [|exact Hm]. split_and!; [lia|lia| |done].
    assert (Hnone : forall l, (forall x, x ∈ l -> x.1 < length (b_processors s)) -> events_of (length (b_processors s)) l = []).
    { intros l Hl'. unfold events_of. rewrite list_filter_nil; [done|]. intros x Hxl Hxq. specialize (Hl' x Hxl). lia. }
    rewrite !Hnone; [done|intros x Hin; eapply Hx; [|done]; set_solver..].
Qed.

Lemma tryToDelete_subset name s :
  b_container (tryToDelete name s) ⊆ b_container s /\ b_processors (tryToDelete name s) = b_processors s /\
  b_goroutines (tryToDelete name s) = b_goroutines s /\ b_pushed (tryToDelete name s) = b_pushed s /\
  b_handed (tryToDelete name s) = b_handed s.
Proof.
  unfold tryToDelete. destruct (b_container s !! name) as [p|]; [|done].
  destruct (b_processors s !! p) as [ed|]; [|done]. destruct (p_isProcessed ed); [done|].
  split_and!; try done. apply delete_subseteq.
Qed.
Lemma own_other p q g : q <> p -> mentions g = Some p -> owns q g = false.
Proof. intros Hne. destruct g; cbn; intros [= ->]; try done; by apply Nat.eqb_neq. Qed.
(** Steps that change the queue [p] only. *)
Lemma inv_step_own s i g g' p ed ed' cont pu hu :
  bus_inv s -> b_goroutines s !! i = Some g -> b_processors s !! p = Some ed -> p_name ed' = p_name ed ->
  cont ⊆ b_container s -> Forall (fun x => x.1 = p) (pu ++ hu) ->
  mentions g = Some p -> (mentions g' = None \/ mentions g' = Some p) ->
  (forall n, n <= 1 -> (owns p g = true -> n = 1) -> (0 < n -> p_isProcessed ed = true) -> cared_for n ed ->
   n - own p g + own p g' <= 1 /\ (0 < n - own p g + own p g' -> p_isProcessed ed' = true) /\
   cared_for (n - own p g + own p g') ed') ->
  p_queue ed ++ events_of p pu = events_of p hu ++ p_queue ed' ->
  bus_inv (MkBus cont (<[p := ed']> (b_processors s)) (<[i := g']> (b_goroutines s))
             (b_pushed s ++ pu) (b_handed s ++ hu)).
Proof.
  intros Hinv Hi Hed Hn Hc Ho Hg Hg' Hcond Hq. rewrite <- (app_nil_r (<[i := g']> (b_goroutines s))).
  eapply (inv_step s i g g' [] p ed); try done.
  - intros q Hne. split; [by eapply own_other|]. split; [|done].
    destruct Hg' as [Hg'|Hg']; [by destruct g'|by eapply own_other].
  - by constructor.
  - intros n H1 H2 H3 H4. change (owners p []) with 0. rewrite Nat.add_0_r. by apply Hcond.
Qed.
Lemma inv_step_same s i g g' p ed :
  bus_inv s -> b_goroutines s !! i = Some g -> b_processors s !! p = Some ed ->
  mentions g = Some p -> (mentions g' = None \/ mentions g' = Some p) ->
  (owns p g = true -> owns p g' = true \/ faulty = true) -> (owns p g' = true -> owns p g = true) ->
  bus_inv (at_goroutine i g' s).
Proof.
  intros Hinv Hi Hed Hg Hg' Ho' Ho. pose proof (inv_step_own s i g g' p ed ed (b_container s) [] []) as Hx.
  rewrite list_insert_id, !app_nil_r in Hx by done. apply Hx; try done; try by rewrite ?app_nil_r.
  intros n H1 H2 H3 H4. destruct (owns p g') eqn:E.
  - rewrite Ho in * by done. rewrite H2 in * by done. split_and!; [lia|intros _; apply H3; lia|done].
  - split_and!; [lia|intros Hn; apply H3; lia|]. destruct (owns p g) eqn:Eg.
    + intros Hf. destruct Ho' as [?|Hf']; congruence.
    + by rewrite Nat.sub_0_r, Nat.add_0_r.
Qed.
Lemma goroutine_step_inv i s g s' :
  bus_inv s -> b_goroutines s !! i = Some g -> goroutine_step pool faulty i s g s' -> bus_inv s'.
Proof.
  intros Hinv Hi Hs. pose proof Hinv as (Hm & _ & Hc & _).
  assert (Hed : forall p, mentions g = Some p -> exists ed, b_processors s !! p = Some ed).
  { intros p Hp. apply lookup_lt_is_Some. eapply Hm; [by eapply list_elem_of_lookup_2|done]. }
  destruct Hs as [name events todo s1 p Hg| |p events todo ed ed' spawnGo Hp Hpush|p todo _|p todo _ Hfy|p todo _
    |p back ed ed' e events Hp Hpop|p back ed ed' Hp Hpop|p events back|p events back Hfy|p back ed Hfy Hp|p failed back ed Hp].
  - unfold getEventsData in Hg. destruct (b_container s !! name) as [p0|] eqn:Hn.
    + injection Hg as <- <-. eapply inv_idle; [done|exact Hi|done|]. right. exists p0. split; [done|].
      destruct (Hc name p0 Hn) as (ed & He & _). by eapply lookup_lt_Some.
    + pose proof (inv_new s name Hinv Hn) as Hnew. unfold getEventsData in Hnew. rewrite Hn in Hnew. injection Hg as <- <-.
      eapply inv_idle; [exact Hnew|exact Hi|done|]. right. eexists. split; [done|]. cbn. rewrite length_app. cbn. lia.
  - eapply inv_idle; [done|exact Hi|done|by left].
  - injection Hpush as <- <-. pose proof (inv_step_own s i _ (if negb (p_isProcessed ed) then Starting p todo else Calling todo)
      p ed (MkEventsProcessor (p_name ed) (p_queue ed ++ events) true) (b_container s) [(p, events)] [] Hinv Hi Hp) as Hx.
    rewrite !app_nil_r in Hx. apply Hx; try done; try by rewrite ?app_nil_r.
    + by constructor.
    + destruct (p_isProcessed ed); [by left|by right].
    + intros n H1 _ H2 H3. cbn [owns]. unfold cared_for in *. destruct (p_isProcessed ed); cbn [negb owns p_isProcessed p_queue].
      * split_and!; [lia|done|]. intros Hf. destruct (H3 Hf) as [H4 _]. specialize (H4 eq_refl). split; [lia|done].
      * rewrite Nat.eqb_refl. destruct n; [split_and!; [lia|done|]; intros _; split; [lia|done]|]. by specialize (H2 ltac:(lia)).
    + cbn. unfold events_of. cbn. rewrite decide_True by done. cbn. by rewrite !app_nil_r.
  - destruct (Hed p eq_refl) as (ed & Hp). pose proof (inv_step s i _ (Calling todo) [Popping p None] p ed ed (b_container s) [] []
      Hinv Hi Hp eq_refl) as Hx. rewrite list_insert_id, !app_nil_r in Hx by done. apply Hx; try done; try by rewrite ?app_nil_r.
    + intros q Hne. apply Nat.eqb_neq in Hne. cbn. by rewrite Hne.
    + constructor; [by left|]. constructor; [by right|done].
    + intros n H1 H2 H3 H4. unfold owners. cbn. rewrite Nat.eqb_refl. cbn [owns] in H2. rewrite Nat.eqb_refl in H2.
      rewrite H2 in * by done. split_and!; [lia|intros _; apply H3; lia|done].
  - destruct (Hed p eq_refl) as (ed & Hp). eapply (inv_step_same s i _ _ p ed); try done; [by left|by right].
  - destruct (Hed p eq_refl) as (ed & Hp). eapply (inv_step_same s i _ _ p ed); try done; [by right|by left].
  - unfold pop in Hpop. destruct (p_queue ed) as [|x q] eqn:Hq; [done|]. injection Hpop as <- <- <-.
    pose proof (inv_step_own s i _ (Handling p (x :: q) back) p ed (MkEventsProcessor (p_name ed) [] (p_isProcessed ed))
      (b_container s) [] [(p, x :: q)] Hinv Hi Hp) as Hx.
    rewrite !app_nil_r in Hx. apply Hx; try done; try by rewrite ?app_nil_r.
    + by constructor.
    + by right.
    + intros n H1 H2 H3 H4. cbn [owns] in *. rewrite Nat.eqb_refl in *. rewrite H2 in * by done.
      split_and!; [lia|intros _; apply H3; lia|]. intros Hf. destruct (H4 Hf) as [H5 _]. split; [lia|done].
    + cbn. unfold events_of. cbn. rewrite decide_True by done. cbn. by rewrite Hq, !app_nil_r.
  - unfold pop in Hpop. destruct (p_queue ed) as [|x q] eqn:Hq; [|done]. injection Hpop as <-.
    pose proof (inv_step_own s i _ (Deleting p false back) p ed (MkEventsProcessor (p_name ed) [] false)
      (b_container s) [] [] Hinv Hi Hp) as Hx.
    rewrite !app_nil_r in Hx. apply Hx; try done; try by rewrite ?Hq; try by right.
    intros n H1 H2 H3 H4. cbn [owns] in *. rewrite Nat.eqb_refl in *. rewrite H2 by done. split_and!; [lia|lia|done].
  - destruct (Hed p eq_refl) as (ed & Hp). eapply (inv_step_same s i _ _ p ed); try done; [by right|by left].
  - destruct (Hed p eq_refl) as (ed & Hp). eapply (inv_step_same s i _ _ p ed); try done; [by right|by left].
  - pose proof (inv_step_own s i _ (Deleting p true back) p ed (not_processed ed) (b_container s) [] [] Hinv Hi Hp) as Hx.
    rewrite !app_nil_r in Hx. apply Hx; try done; try by rewrite ?app_nil_r; try by right.
    intros n H1 H2 H3 H4. cbn [owns] in *. rewrite Nat.eqb_refl in *. rewrite H2 by done. split_and!; [lia|lia|].
    intros Hf. by rewrite Hf in Hfy.
  - destruct (tryToDelete_subset (p_name ed) s) as (T1 & T2 & T3 & T4 & T5).
    pose proof (inv_step_own s i _ (after_run failed back) p ed ed (b_container (tryToDelete (p_name ed) s)) [] [] Hinv Hi Hp) as Hx.
    rewrite list_insert_id, !app_nil_r in Hx by done. unfold at_goroutine. rewrite T2, T3, T4, T5. apply Hx; try done; try by rewrite ?app_nil_r.
    + left. unfold after_run. by destruct back, failed.
    + intros n H1 H2 H3 H4. cbn [owns]. assert (Ho : owns p (after_run failed back) = false) by (by destruct back, failed).
      rewrite Ho, Nat.sub_0_r, Nat.add_0_r. by split_and!.
Qed.

Lemma bus_call_inv s todo : bus_inv s -> bus_inv (go (Calling todo) s).
Proof.
  intros (Hm & Hx & Hc & Hp). split_and!; cbn [go b_goroutines b_processors b_pushed b_handed b_container]; [|done..|].
  - intros g p Hin Hg. apply elem_of_app in Hin as [Hin|Hin]; [by eapply Hm|]. apply list_elem_of_singleton in Hin as ->. done.
  - intros p ed He. assert (Ho : owners p (b_goroutines s ++ [Calling todo]) = owners p (b_goroutines s)).
    { rewrite owners_app. unfold owners at 2. cbn. lia. }
    rewrite Ho. by apply Hp.
Qed.
Lemma bus_step_inv s s' : bus_inv s -> bus_step GroupID AggregateID pool faulty s s' -> bus_inv s'.
Proof. intros Hi Hs. destruct Hs; [by apply bus_call_inv|by eapply goroutine_step_inv]. Qed.
Lemma bus_reachable_inv s : bus_reachable GroupID AggregateID pool faulty s -> bus_inv s.
Proof.
  apply (rtc_ind_r bus_inv).
  - split_and!; cbn; try done; [intros g p Hg; by apply not_elem_of_nil in Hg|intros p x Hx; by apply not_elem_of_nil in Hx].
  - intros. by eapply bus_step_inv.
Qed.
(** Without failures no goroutine is at a failure. *)
Lemma never_failing s p back :
  faulty = false -> bus_reachable GroupID AggregateID pool faulty s -> Failing p back ∉ b_goroutines s.
Proof.
  intros Hf Hr. revert p back. revert s Hr.
  refine (rtc_ind_r (fun s => forall p back, Failing p back ∉ b_goroutines s) _ _ _); [set_solver|].
  intros s s' _ Hs IH p back Hin.
  assert (Hat : forall i g s1, b_goroutines s1 = b_goroutines s -> Failing p back ∈ b_goroutines (at_goroutine i g s1) -> g = Failing p back).
  { intros i g s1 Hg Hx. cbn in Hx. rewrite Hg in Hx. apply list_elem_of_lookup in Hx as (k & Hk).
    destruct (decide (k = i)) as [->|Hne].
    - apply list_lookup_insert_Some in Hk as [(_ & <- & _)|(? & _)]; done.
    - rewrite list_lookup_insert_ne in Hk by done. destruct (IH p back). by eapply list_elem_of_lookup_2. }
  destruct Hs as [iter|i g s' Hi Hg].
  - cbn in Hin. apply elem_of_app in Hin as [Hin|Hin]; [by eapply IH|]. by apply list_elem_of_singleton in Hin.
  - destruct Hg as [name events todo s1 q Hg| |q events todo ed ed' spawnGo Hq Hpush|q todo _|q todo _ Hfy|q todo _
    |q back' ed ed' e events Hq Hpop|q back' ed ed' Hq Hpop|q events back'|q events back' Hfy|q back' ed Hfy Hq|q failed back' ed Hq];
      try congruence; try by apply Hat in Hin.
    + apply Hat in Hin; [done|]. unfold getEventsData in Hg. destruct (b_container s !! name); by injection Hg as <- <-.
    + apply Hat in Hin; [by destruct spawnGo|done].
    + cbn in Hin. apply elem_of_app in Hin as [Hin|Hin]; [by apply (Hat i _ s) in Hin|]. by apply list_elem_of_singleton in Hin.
    + apply Hat in Hin; [by destruct back', failed|]. by apply tryToDelete_subset.
Qed.

(** ** The work that is left *)
Definition back_work (back : option (list (string * list Ev))) : nat :=
  match back with Some todo => 10 * length todo + 1 | None => 0 end.
Definition goroutine_work g : nat :=
  match g with
  | Calling todo => 10 * length todo + 1
  | Pushing _ _ todo => 10 * length todo + 9
  | Starting _ todo => 10 * length todo + 5
  | Popping _ back => back_work back + 3
  | Handling _ _ back => back_work back + 4
  | Failing _ back => back_work back + 3
  | Deleting _ _ back => back_work back + 2
  | Finished _ => 0
  end.
Definition queue_work (ed : eventsProcessor Ev) : nat := match p_queue ed with [] => 0 | _ => 3 end.
Definition bus_work s : nat :=
  list_sum (goroutine_work <$> b_goroutines s) + list_sum (queue_work <$> b_processors s).
(** A step of any of the goroutines, while Handle is not called. *)
Definition goroutines_step s s' : Prop :=
  exists i g, b_goroutines s !! i = Some g /\ goroutine_step pool faulty i s g s'.
Lemma getEventsData_work name s s' p :
  getEventsData name s = (s', p) -> b_goroutines s' = b_goroutines s /\ bus_work s' = bus_work s.
Proof.
  unfold getEventsData, bus_work. destruct (b_container s !! name); intros [= <- <-]; [done|].
  split; [done|]. cbn [b_goroutines b_processors]. rewrite fmap_app, list_sum_app, sum_cons. by rewrite Nat.add_0_r.
Qed.
Lemma goroutines_step_work s s' : goroutines_step s s' -> bus_work s' < bus_work s.
Proof.
  intros (i & g & Hi & Hs).
  assert (Hat : forall g' s1, b_goroutines s1 = b_goroutines s ->
    bus_work (at_goroutine i g' s1) + goroutine_work g = bus_work s1 + goroutine_work g').
  { intros g' s1 Hg. unfold bus_work, at_goroutine. cbn [b_goroutines b_processors]. rewrite Hg.
    pose proof (sum_insert goroutine_work _ i g g' Hi). lia. }
  assert (Hset : forall p ed ed', b_processors s !! p = Some ed ->
    bus_work (set_processor p ed' s) + queue_work ed = bus_work s + queue_work ed').
  { intros p ed ed' Hp. unfold bus_work, set_processor. cbn [b_goroutines b_processors]. pose proof (sum_insert queue_work _ p ed ed' Hp). lia. }
  destruct Hs as [name events todo s1 q Hg| |q events todo ed ed' spawnGo Hq Hpush|q todo _|q todo _ Hfy|q todo _
    |q back ed ed' e events Hq Hpop|q back ed ed' Hq Hpop|q events back|q events back Hfy|q back ed Hfy Hq|q failed back ed Hq].
  - destruct (getEventsData_work _ _ _ _ Hg) as [Hgs Hw]. specialize (Hat (Pushing q events todo) s1 Hgs). cbn [goroutine_work back_work length] in Hat. lia.
  - specialize (Hat (Finished false) s eq_refl). cbn [goroutine_work back_work length] in Hat. lia.
  - injection Hpush as <- <-.
    specialize (Hat (if negb (p_isProcessed ed) then Starting q todo else Calling todo)
      (note_pushed q events (set_processor q (MkEventsProcessor (p_name ed) (p_queue ed ++ events) true) s)) eq_refl).
    specialize (Hset q ed (MkEventsProcessor (p_name ed) (p_queue ed ++ events) true) Hq).
    assert (Hqw : queue_work (MkEventsProcessor (p_name ed) (p_queue ed ++ events) true) <= 3 + queue_work ed)
      by (unfold queue_work; cbn; destruct (p_queue ed ++ events), (p_queue ed); lia).
    set (s1 := set_processor q _ s) in *. change (bus_work (note_pushed q events s1)) with (bus_work s1) in Hat.
    destruct (p_isProcessed ed); cbn [negb goroutine_work] in Hat |- *; lia.
  - specialize (Hat (Calling todo) s eq_refl). unfold bus_work at 1. unfold go. cbn [b_goroutines b_processors].
    rewrite fmap_app, list_sum_app, sum_cons. change (list_sum (goroutine_work <$> [])) with 0.
    unfold bus_work in Hat at 1. cbn [goroutine_work back_work] in *. lia.
  - specialize (Hat (Finished true) s eq_refl). cbn [goroutine_work back_work length] in Hat. lia.
  - specialize (Hat (Popping q (Some todo)) s eq_refl). cbn [goroutine_work back_work length] in Hat. lia.
  - unfold pop in Hpop. destruct (p_queue ed) as [|x l] eqn:Hql; [done|]. injection Hpop as <- <- <-.
    specialize (Hat (Handling q (x :: l) back)
      (note_handed q (x :: l) (set_processor q (MkEventsProcessor (p_name ed) [] (p_isProcessed ed)) s)) eq_refl).
    specialize (Hset q ed (MkEventsProcessor (p_name ed) [] (p_isProcessed ed)) Hq). unfold queue_work in Hset. rewrite Hql in Hset.
    set (s1 := set_processor q _ s) in *. change (bus_work (note_handed q (x :: l) s1)) with (bus_work s1) in Hat.
    cbn [goroutine_work p_queue] in *. lia.
  - unfold pop in Hpop. destruct (p_queue ed) as [|x l] eqn:Hql; [|done]. injection Hpop as <-.
    specialize (Hat (Deleting q false back) (set_processor q (MkEventsProcessor (p_name ed) [] false) s) eq_refl).
    specialize (Hset q ed (MkEventsProcessor (p_name ed) [] false) Hq). unfold queue_work in Hset. rewrite Hql in Hset. cbn [goroutine_work back_work length queue_work not_processed p_queue] in *. lia.
  - specialize (Hat (Popping q back) s eq_refl). cbn [goroutine_work back_work length] in Hat. lia.
  - specialize (Hat (Failing q back) s eq_refl). cbn [goroutine_work back_work length] in Hat. lia.
  - specialize (Hat (Deleting q true back) (set_processor q (not_processed ed) s) eq_refl).
    specialize (Hset q ed (not_processed ed) Hq). unfold queue_work in *. cbn [goroutine_work back_work length queue_work not_processed p_queue] in *. lia.
  - destruct (tryToDelete_subset (p_name ed) s) as (_ & Hps & Hgs & _).
    specialize (Hat (after_run failed back) (tryToDelete (p_name ed) s) Hgs).
    assert (Hw : bus_work (tryToDelete (p_name ed) s) = bus_work s) by (unfold bus_work; by rewrite Hps, Hgs).
    destruct back, failed; cbn [goroutine_work back_work length after_run] in *; lia.
Qed.
(** A goroutine that is not at its end can go on. *)
Lemma goroutine_goes_on s i g :
  bus_inv s -> b_goroutines s !! i = Some g -> (forall failed, g <> Finished failed) ->
  (forall p back, g <> Failing p back) -> exists s', goroutines_step s s'.
Proof.
  intros (Hm & _) Hi Hnf Hnx.
  assert (Hed : forall p, mentions g = Some p -> exists ed, b_processors s !! p = Some ed).
  { intros p Hp. apply lookup_lt_is_Some. eapply Hm; [by eapply list_elem_of_lookup_2|done]. }
  enough (exists s', goroutine_step pool faulty i s g s') as (s' & Hs) by by exists s', i, g.
  destruct g as [[|[name events] todo]|p events todo|p todo|p back|p events back|p back|p failed back|failed].
  - eexists. apply step_return.
  - destruct (getEventsData name s) as [s1 p] eqn:Hg. eexists. by eapply step_get.
  - destruct (Hed p eq_refl) as (ed & Hp). destruct (push events ed) eqn:Hpu. eexists. by eapply step_push.
  - destruct pool eqn:Hpool; eexists; [by apply step_start|by apply step_no_pool].
  - destruct (Hed p eq_refl) as (ed & Hp). destruct (pop ed) as [ed' [|e evs]] eqn:Hpo; eexists;
      [by eapply step_pop_nil|by eapply step_pop].
  - eexists. apply step_handled.
  - by destruct (Hnx p back).
  - destruct (Hed p eq_refl) as (ed & Hp). eexists. by eapply step_delete.
  - by destruct (Hnf failed).
Qed.
Lemma owner_exists p gs : 0 < owners p gs -> exists i g, gs !! i = Some g /\ owns p g = true.
Proof.
  induction gs as [|g gs IH]; [cbn; lia|]. rewrite owners_cons. destruct (owns p g) eqn:Ho; intros Hlt.
  - by exists 0, g.
  - destruct (IH ltac:(lia)) as (i & g' & Hi & Hg). by exists (S i), g'.
Qed.

(** ** What the queues guarantee *)
(** C10: In whatever order the goroutines go, and whether or not they fail, what was
    put into a queue is what was handed to the handler and what still waits in
    it, in this order; and at most one goroutine empties it. *)
Theorem handed_in_order s p ed :
  bus_reachable GroupID AggregateID pool faulty s -> b_processors s !! p = Some ed ->
  events_of p (b_pushed s) = events_of p (b_handed s) ++ p_queue ed /\ owners p (b_goroutines s) <= 1.
Proof. intros Hr Hp. destruct (bus_reachable_inv s Hr) as (_ & _ & _ & Hall). by destruct (Hall p ed Hp) as (? & _ & ? & _). Qed.

(** C29: Without failures, whatever was put into the queues is handed over: the
    goroutines make no more than [bus_work] steps between two calls of Handle,
    and when none of them can go on, each queue has been handed over whole. *)
Theorem pushed_is_handed s n s' :
  faulty = false -> bus_reachable GroupID AggregateID pool faulty s -> nsteps goroutines_step n s s' ->
  n <= bus_work s /\
  ((forall s'', ~ goroutines_step s' s'') -> forall p, events_of p (b_handed s') = events_of p (b_pushed s')).
Proof.
  intros Hf Hr Hn. assert (Hr' : bus_reachable GroupID AggregateID pool faulty s').
  { unfold bus_reachable. transitivity s; [exact Hr|]. eapply (rtc_subrel goroutines_step); [|apply rtc_nsteps; by exists n].
    intros x y (i & g & Hi & Hs). by eapply bus_go. }
  split.
  - clear Hr Hr'. induction Hn as [|n x y z Hs _ IH]; [lia|]. pose proof (goroutines_step_work _ _ Hs). lia.
  - intros Hstuck p. pose proof (bus_reachable_inv s' Hr') as Hinv. pose proof Hinv as (_ & Hx & _ & Hall).
    destruct (b_processors s' !! p) as [ed|] eqn:Hp.
    + destruct (Hall p ed Hp) as (_ & _ & Heq & Hcare). destruct (Hcare Hf) as [Hown Hq].
      destruct (p_queue ed) as [|e q] eqn:Hqe; [by rewrite app_nil_r in Heq|]. exfalso.
      destruct (owner_exists p (b_goroutines s')) as (i & g & Hi & Ho); [by apply Hown, Hq|].
      destruct (goroutine_goes_on s' i g Hinv Hi) as (s'' & Hs); [by destruct g| |by eapply Hstuck].
      intros p' back ->. eapply never_failing; [done|exact Hr'|by eapply list_elem_of_lookup_2].
    + apply lookup_ge_None in Hp.
      assert (Hnone : forall l, (forall x, x ∈ l -> x ∈ b_pushed s' ++ b_handed s') -> events_of p l = []).
      { intros l Hl. unfold events_of. rewrite list_filter_nil; [done|]. intros x Hxl Hxp. specialize (Hx p x (Hl x Hxl) Hxp). lia. }
      rewrite !Hnone; [done|intros x Hin; apply elem_of_app; auto..].
Qed.

(** ** A goroutine that is refused *)
(** A queue that is marked as processed and that no goroutine empties. *)
Definition orphaned (p : nat) s : Prop :=
  (exists ed, b_processors s !! p = Some ed /\ p_isProcessed ed = true) /\ owners p (b_goroutines s) = 0.
Lemma not_owner p gs i g : owners p gs = 0 -> gs !! i = Some g -> owns p g = false.
Proof.
  intros Ho Hi. pose proof (owners_insert p _ i g (Finished false) Hi) as Hx. cbn [owns] in Hx.
  destruct (owns p g); [lia|done].
Qed.
Lemma orphaned_at p s i g g' :
  orphaned p s -> b_goroutines s !! i = Some g -> owns p g' = false -> orphaned p (at_goroutine i g' s).
Proof.
  intros [He Ho] Hi Hg'. split; [done|]. cbn [at_goroutine b_goroutines]. pose proof (owners_insert p _ i g g' Hi) as Hx.
  rewrite Hg', (not_owner _ _ _ _ Ho Hi) in Hx. lia.
Qed.
Lemma orphaned_set p s q ed :
  orphaned p s -> (q = p -> p_isProcessed ed = true) -> orphaned p (set_processor q ed s).
Proof.
  intros [(ed0 & Hp & Hi) Ho] Hq. split; [|done]. cbn. destruct (decide (q = p)) as [->|Hne].
  - exists ed. rewrite list_lookup_insert_eq by by eapply lookup_lt_Some. auto.
  - exists ed0. by rewrite list_lookup_insert_ne.
Qed.
Lemma orphaned_go p s g : orphaned p s -> owns p g = false -> orphaned p (go g s).
Proof. intros [He Ho] Hg. split; [done|]. cbn [go b_goroutines]. by rewrite owners_app, owners_cons, Hg, Ho. Qed.
Lemma orphaned_same p s s' :
  b_processors s' = b_processors s -> b_goroutines s' = b_goroutines s -> orphaned p s -> orphaned p s'.
Proof. unfold orphaned. by intros -> ->. Qed.
Lemma orphaned_get p s name : orphaned p s -> orphaned p (getEventsData name s).1.
Proof.
  intros [(ed & Hp & Hi) Ho]. unfold getEventsData. destruct (b_container s !! name); [by split; [exists ed|]|].
  split; [|done]. exists ed. split; [|done]. cbn. by apply lookup_app_l_Some.
Qed.
(** What no step changes. *)
Definition still_orphaned (p : nat) s s' : Prop :=
  orphaned p s' /\ events_of p (b_handed s') = events_of p (b_handed s) /\
  forall name, b_container s !! name = Some p -> b_container s' !! name = Some p.
Lemma orphaned_step p s s' :
  orphaned p s -> bus_step GroupID AggregateID pool faulty s s' -> still_orphaned p s s'.
Proof.
  intros Hor Hs. unfold still_orphaned. destruct Hs as [iter|i g s' Hi Hg]; [by split_and!; [apply orphaned_go| |]|].
  pose proof (not_owner p _ i g (proj2 Hor) Hi) as Hno.
  assert (Hne : forall q, (owns p g = false -> (p =? q) = false) -> q <> p).
  { intros q Hq ->. specialize (Hq Hno). by rewrite Nat.eqb_refl in Hq. }
  destruct Hg as [name events todo s1 q Hg| |q events todo ed ed' spawnGo Hq Hpush|q todo _|q todo _ Hfy|q todo _
    |q back ed ed' e events Hq Hpop|q back ed ed' Hq Hpop|q events back|q events back Hfy|q back ed Hfy Hq|q failed back ed Hq];
    cbn [owns] in Hno; try by (split_and!; [by eapply orphaned_at| |]).
  - pose proof (orphaned_get p s name Hor) as Hget. destruct (getEventsData_work _ _ _ _ Hg) as [Hgs _].
    rewrite Hg in Hget. split_and!; [by eapply orphaned_at; [| rewrite Hgs|]| |];
      unfold getEventsData in Hg; destruct (b_container s !! name) eqn:Hn; injection Hg as <- <-; try done.
    intros nm Hnm. cbn. rewrite lookup_insert_ne; [done|congruence].
  - injection Hpush as <- <-. split_and!; [|done..]. eapply orphaned_at; [| exact Hi|].
    + apply (orphaned_same p (set_processor q (MkEventsProcessor (p_name ed) (p_queue ed ++ events) true) s)); [done..|].
      by apply orphaned_set.
    + destruct Hor as [(ed0 & Hp & Hpr) _]. destruct (p_isProcessed ed) eqn:Hie; [done|]. apply Nat.eqb_neq. intros ->. congruence.
  - split_and!; [|done..]. apply orphaned_go; [by eapply orphaned_at|done].
  - unfold pop in Hpop. destruct (p_queue ed) as [|x l] eqn:Hql; [done|]. injection Hpop as <- <- <-.
    apply Nat.eqb_neq in Hno. split_and!; [|cbn [at_goroutine note_handed set_processor b_handed]; rewrite events_of_snoc, (proj2 (Nat.eqb_neq p q)), app_nil_r by done; done|done].
    eapply orphaned_at; [| exact Hi|by apply Nat.eqb_neq].
    apply (orphaned_same p (set_processor q (MkEventsProcessor (p_name ed) [] (p_isProcessed ed)) s)); [done..|].
    apply orphaned_set; [done|congruence].
  - apply Nat.eqb_neq in Hno. split_and!; [|done..]. eapply orphaned_at; [| exact Hi|done]. apply orphaned_set; [done|congruence].
  - apply Nat.eqb_neq in Hno. split_and!; [|done..]. eapply orphaned_at; [| exact Hi|done]. apply orphaned_set; [done|congruence].
  - destruct (tryToDelete_subset (p_name ed) s) as (_ & Hps & Hgs & _ & Hhs). split_and!; [|cbn; by rewrite Hhs|].
    + eapply orphaned_at; [by apply (orphaned_same p s)|by rewrite Hgs|by destruct back, failed].
    + intros name Hn. cbn. unfold tryToDelete. destruct (b_container s !! p_name ed) as [r|] eqn:Hr; [|done].
      destruct (b_processors s !! r) as [edr|] eqn:Hedr; [|done]. destruct (p_isProcessed edr) eqn:Hpr; [done|].
      cbn. rewrite lookup_delete_ne; [done|]. intros <-. destruct Hor as [(ed0 & Hp & Hpr0) _]. congruence.
Qed.
Lemma orphaned_steps p s s' :
  orphaned p s -> rtc (bus_step GroupID AggregateID pool faulty) s s' -> still_orphaned p s s'.
Proof.
  intros Hor. revert s'. refine (rtc_ind_r (still_orphaned p s) _ _ _); [by split_and!|].
  intros y z _ Hyz (H1 & H2 & H3). destruct (orphaned_step p y z H1 Hyz) as (H4 & H5 & H6).
  split_and!; [done|congruence|auto].
Qed.
(** When the pool refuses the goroutine that was to empty a queue, no event of
    this queue is ever handed over again; and if the name of an aggregate leads
    to the queue it does so for ever, so what comes later for the aggregate is
    put into this queue too. *)
Theorem failed_spawn_stuck s i p todo s' s'' name :
  bus_reachable GroupID AggregateID pool faulty s -> b_goroutines s !! i = Some (Starting p todo) ->
  goroutine_step pool faulty i s (Starting p todo) s' -> s' = at_goroutine i (Finished true) s ->
  rtc (bus_step GroupID AggregateID pool faulty) s' s'' ->
  b_container s !! name = Some p ->
  events_of p (b_handed s'') = events_of p (b_handed s) /\ getEventsData name s'' = (s'', p).
Proof.
  intros Hr Hi _ -> Hs Hn. destruct (bus_reachable_inv s Hr) as (Hm & _ & Hc & Hall). destruct (Hc name p Hn) as (ed & Hp & _).
  destruct (Hall p ed Hp) as (H1 & H2 & _). pose proof (owners_insert p _ i _ (Finished true) Hi) as Ho.
  cbn [owns] in Ho. rewrite Nat.eqb_refl in Ho.
  assert (Hor : orphaned p (at_goroutine i (Finished true) s)).
  { split; [exists ed; split; [done|]; apply H2; lia|cbn [at_goroutine b_goroutines]; lia]. }
  destruct (orphaned_steps p _ s'' Hor Hs) as (_ & Hh & Hcont). split; [done|].
  unfold getEventsData. by rewrite (Hcont name Hn).
Qed.
End facts.
