(* ===== verification/IdentityStore.v ===== *)
(** * The identity store: who owns a device

    src/identity-store: the events of a registration (pb/events.proto), the
    interface of its persistence (persistence/persist.go) and the handlers of
    the service (service/addDevice.go, deleteDevices.go, getDevices.go).

    The persistence is the class [PersistenceTx], one operation per method of
    the Go interface; a client of it relies on [PersistenceLaws], which are
    stated over the table it represents.  Tokens (gRPC metadata and JWT) are the class
    [TokenLib].  A handler returns the persistence it leaves, the events it
    published and its response. *)

From Stdlib Require Import ZArith String.
From S2P Require Import Prelude.

(** ** src/pkg/net/grpc/error.go: the status of an error is forwarded *)
Fixpoint ErrToGrpcStatus (e : error) : option Code :=
  match e with
  | Errorf c _ => Some c
  | errors_New _ => None
  | Wrap _ e => ErrToGrpcStatus e
  end.
Definition ForwardErrorf (code : Code) (formatter : string) (e : error) : error :=
  Errorf (default code (ErrToGrpcStatus e)) formatter.
Definition ForwardFromError (code : Code) (e : error) : error := ForwardErrorf code "%v" e.

(** ** The events of a registration: pb/events.proto *)
Record IsAuditContext := MkIsAuditContext { iac_UserId : string }.
Record IsEventMetadata := MkIsEventMetadata { iem_HubId : string }.
Record DevicesRegistered := MkDevicesRegistered {
  dr_Owner : string; dr_DeviceIds : list string; dr_Timestamp : Z;
  dr_AuditContext : option IsAuditContext; dr_EventMetadata : option IsEventMetadata;
  dr_OpenTelemetryCarrier : gmap string string }.
Record DevicesUnregistered := MkDevicesUnregistered {
  du_Owner : string; du_DeviceIds : list string; du_Timestamp : Z;
  du_AuditContext : option IsAuditContext; du_EventMetadata : option IsEventMetadata;
  du_OpenTelemetryCarrier : gmap string string }.
Inductive isEvent_Type :=
  | Event_DevicesRegistered (m : option DevicesRegistered)
  | Event_DevicesUnregistered (m : option DevicesUnregistered).
Record IsEvent := MkIsEvent { ev_Type : option isEvent_Type }.

Definition GetDevicesRegistered (e : IsEvent) : option DevicesRegistered :=
  match ev_Type e with Some (Event_DevicesRegistered m) => m | _ => None end.
Definition GetDevicesUnregistered (e : IsEvent) : option DevicesUnregistered :=
  match ev_Type e with Some (Event_DevicesUnregistered m) => m | _ => None end.

(** ** persistence/persist.go *)
Record AuthorizedDevice := MkAuthorizedDevice { ad_DeviceID : string; ad_Owner : string }.

(** What an iterator yields until [Next] is false, and [Err] before the first
    [Next] and after [Close]. *)
Record PersistenceIterator := MkPersistenceIterator {
  it_devices : list AuthorizedDevice; it_err_before : option error; it_err_after : option error }.

Class PersistenceTx (T : Type) := {
  Retrieve : T -> string -> string -> result (option AuthorizedDevice);
  RetrieveByDevice : T -> string -> result (option AuthorizedDevice);
  RetrieveByOwner : T -> string -> PersistenceIterator;
  Persist : T -> AuthorizedDevice -> T * option error;
  PersistenceTx_Delete : T -> string -> string -> T * option error }.

(** What the service relies on: a table from devices to owners, that answers
    for itself whenever it answers without an error, that a persisted device
    enters and a deleted one leaves, and that a failed write leaves alone. *)
Class PersistenceLaws (T : Type) `{!PersistenceTx T} (table : T -> gmap string string) := {
  Retrieve_law t d o r : Retrieve t d o = inr r ->
    r = if bool_decide (table t !! d = Some o) then Some (MkAuthorizedDevice d o) else None;
  RetrieveByDevice_law t d r : RetrieveByDevice t d = inr r ->
    r = MkAuthorizedDevice d <$> table t !! d;
  RetrieveByOwner_law t o : it_err_after (RetrieveByOwner t o) = None ->
    NoDup (ad_DeviceID <$> it_devices (RetrieveByOwner t o)) /\
    forall x, x ∈ it_devices (RetrieveByOwner t o) <->
      ad_Owner x = o /\ table t !! ad_DeviceID x = Some o;
  Persist_law t x :
    table (Persist t x).1 = match (Persist t x).2 with
                            | None => <[ad_DeviceID x := ad_Owner x]> (table t)
                            | Some _ => table t end;
  Delete_law t d o :
    table (PersistenceTx_Delete t d o).1 = match (PersistenceTx_Delete t d o).2 with
                                           | None => delete d (table t)
                                           | Some _ => table t end }.

(** ** Tokens *)
Class TokenLib := {
  context : Type; jwt_Claims : Type;
  TokenFromMD : context -> result string;
  ParseToken : string -> result jwt_Claims;
  Claims_GetOwner : jwt_Claims -> string -> result string;
  Claims_GetSubject : jwt_Claims -> result string;
  TraceFromCtx : context -> gmap string string }.

Section service.
Context `{!TokenLib} {T : Type} `{!PersistenceTx T}.

(** src/pkg/net/grpc/auth.go *)
Definition ParseOwnerFromJwtToken (ownerClaim token : string) : result string :=
  let! claims := ParseToken token in
  let! owner := Claims_GetOwner claims ownerClaim in
  if String.eqb owner "" then inl (errors_New "claim '%v' was not found") else inr owner.
Definition OwnerFromTokenMD (ctx : context) (ownerClaim : string) : result string :=
  let! accessToken := TokenFromMD ctx in
  match ParseOwnerFromJwtToken ownerClaim accessToken with
  | inl err => inl (ForwardFromError InvalidArgument err)
  | inr owner => inr owner
  end.

(** The fields of Service that the handlers read. *)
Record IsService := MkIsService { is_ownerClaim : string; is_hubID : string }.

(** *** service/addDevice.go *)
Definition parseTokenMD (ctx : context) (ownerClaim : string) : result (string * string) :=
  match TokenFromMD ctx with
  | inl err => inl (ForwardFromError InvalidArgument err)
  | inr token =>
  match ParseToken token with
  | inl err => inl (ForwardFromError InvalidArgument err)
  | inr claims =>
  match Claims_GetOwner claims ownerClaim with
  | inl err => inl (ForwardFromError InvalidArgument err)
  | inr owner =>
  if String.eqb owner "" then inl (Errorf InvalidArgument "%v") else
  match Claims_GetSubject claims with
  | inl err => inl (ForwardFromError InvalidArgument err)
  | inr subject =>
  if String.eqb subject "" then inl (Errorf InvalidArgument "%v") else
  inr (owner, subject)
  end end end end.

Definition publishDevicesRegistered (ctx : context) (now : time_)
    (owner userID hubID : string) (deviceID : list string) : IsEvent :=
  MkIsEvent (Some (Event_DevicesRegistered (Some
    {| dr_Owner := owner; dr_DeviceIds := deviceID;
       dr_AuditContext := Some {| iac_UserId := userID |};
       dr_Timestamp := UnixNano now;
       dr_OpenTelemetryCarrier := TraceFromCtx ctx;
       dr_EventMetadata := Some {| iem_HubId := hubID |} |}))).

Definition AddDevice (s : IsService) (ctx : context) (now : time_) (tx : T) (deviceID : string)
    : T * list IsEvent * result unit :=
  match parseTokenMD ctx (is_ownerClaim s) with
  | inl err => (tx, [], inl (Errorf InvalidArgument "cannot add device: %v"))
  | inr (owner, userID) =>
  if String.eqb deviceID "" then
    (tx, [], inl (Errorf InvalidArgument "cannot add device: invalid DeviceId")) else
  match RetrieveByDevice tx deviceID with
  | inl err => (tx, [], inl (Errorf Internal "cannot add device %v: %v"))
  | inr (Some dev) =>
      if String.eqb (ad_Owner dev) owner then (tx, [], inr tt)
      else (tx, [], inl (Errorf Unauthenticated
        "cannot add device: device %v is owned by another user"))
  | inr None =>
      let '(tx, err) := Persist tx (MkAuthorizedDevice deviceID owner) in
      match err with
      | Some _ => (tx, [], inl (Errorf Internal "cannot add device up: %v"))
      | None => (tx, [publishDevicesRegistered ctx now owner userID (is_hubID s) [deviceID]], inr tt)
      end
  end end.

(** *** service/deleteDevices.go

    strings.Set is a Go map; [toSlice] lists its keys in an order of its own. *)
Context (toSlice : gset string -> list string).

Definition getUniqueDeviceIds (deviceIds : list string) : list string :=
  toSlice (list_to_set deviceIds ∖ {[""]}).

(** [Err] is only asked before the iteration. *)
Definition getOwnerDevices (tx : T) (owner : string) : result (list string) :=
  let it := RetrieveByOwner tx owner in
  match it_err_before it with
  | Some err => inl (Wrap "failed to obtain owned devices: %w" err)
  | None => inr (ad_DeviceID <$> it_devices it)
  end.

Definition publishDevicesUnregistered (ctx : context) (now : time_)
    (owner userID hubID : string) (deviceIDs : list string) : IsEvent :=
  MkIsEvent (Some (Event_DevicesUnregistered (Some
    {| du_Owner := owner; du_DeviceIds := deviceIDs;
       du_AuditContext := Some {| iac_UserId := userID |};
       du_Timestamp := UnixNano now;
       du_OpenTelemetryCarrier := TraceFromCtx ctx;
       du_EventMetadata := Some {| iem_HubId := hubID |} |}))).

Definition getDeviceIDs (request : list string) (tx : T) (owner : string) : result (list string) :=
  if (length request =? 0)%nat then
    match getOwnerDevices tx owner with
    | inl err => inl (Errorf InvalidArgument "cannot delete devices: %v")
    | inr deviceIds => inr deviceIds
    end
  else
    let deviceIds := getUniqueDeviceIds request in
    if (length deviceIds =? 0)%nat
    then inl (Errorf InvalidArgument "cannot delete devices: invalid DeviceIds")
    else inr deviceIds.

Definition deleteDevice (tx : T) (deviceId owner : string) : T * result bool :=
  match Retrieve tx deviceId owner with
  | inl err => (tx, inl (Errorf Internal "cannot delete device('%v'): %v"))
  | inr None => (tx, inr false)
  | inr (Some _) =>
      let '(tx, err) := PersistenceTx_Delete tx deviceId owner in
      match err with
      | Some _ => (tx, inl (Errorf NotFound "cannot delete device('%v'): %v"))
      | None => (tx, inr true)
      end
  end.

(** The loop of DeleteDevices; [deleted] is deletedDeviceIDs. *)
Fixpoint deleteDevices_loop (tx : T) (owner : string) (deleted deviceIDs : list string)
    : T * result (list string) :=
  match deviceIDs with
  | [] => (tx, inr deleted)
  | deviceID :: rest =>
      match deleteDevice tx deviceID owner with
      | (tx, inl err) => (tx, inl err)
      | (tx, inr ok) =>
          deleteDevices_loop tx owner (if ok then deleted ++ [deviceID] else deleted) rest
      end
  end.

Definition DeleteDevices (s : IsService) (ctx : context) (now : time_) (tx : T)
    (request : list string) : T * list IsEvent * result (list string) :=
  match parseTokenMD ctx (is_ownerClaim s) with
  | inl err => (tx, [], inl (ForwardFromError InvalidArgument (Wrap "cannot delete devices: %w" err)))
  | inr (owner, userID) =>
  match getDeviceIDs request tx owner with
  | inl err => (tx, [], inl err)
  | inr deviceIDs =>
  if (length deviceIDs =? 0)%nat then (tx, [], inr []) else
  match deleteDevices_loop tx owner [] deviceIDs with
  | (tx, inl err) => (tx, [], inl err)
  | (tx, inr deleted) =>
      (tx, [publishDevicesUnregistered ctx now owner userID (is_hubID s) deleted], inr deleted)
  end end end.

(** *** service/getDevices.go

    A response is the list of devices sent before the stream ends; [send]
    is what the stream answers to the sending of a device. *)
Definition hasMatchDeviceID (deviceID : string) (deviceIDFilter : gset string) : bool :=
  bool_decide (deviceIDFilter = ∅) || bool_decide (deviceID ∈ deviceIDFilter).

Fixpoint send_loop (send : string -> option error) (ids : list string)
    : list string * option error :=
  match ids with
  | [] => ([], None)
  | deviceID :: ids =>
      match send deviceID with
      | Some err => ([], Some (Errorf (error_code err) "cannot get user devices: %v"))
      | None => let '(sent, err) := send_loop send ids in (deviceID :: sent, err)
      end
  end.

Definition sendDevices (filters : list string) (send : string -> option error)
    (it : PersistenceIterator) : list string * option error :=
  let deviceIdFilter := list_to_set filters in
  let ids := filter (fun d => hasMatchDeviceID d deviceIdFilter = true)
               (ad_DeviceID <$> it_devices it) in
  match it_err_after it with
  | Some _ => ([], Some (Errorf Internal "cannot get user devices: %v"))
  | None => send_loop send ids
  end.

Definition IsGetDevices (s : IsService) (ctx : context) (tx : T) (filters : list string)
    (send : string -> option error) : list string * option error :=
  match OwnerFromTokenMD ctx (is_ownerClaim s) with
  | inl err => ([], Some (ForwardErrorf InvalidArgument "cannot get owner devices: %v" err))
  | inr owner => sendDevices filters send (RetrieveByOwner tx owner)
  end.
End service.
