(* ===== verification/Heartbeat.v ===== *)
(** * The heartbeats of services

    resource-aggregate/service/updateServiceHeartbeat.go: the queue of requests,
    the goroutine that handles them, which a request wakes or a timer, and the
    goroutine that puts the devices of expired services offline.  A state is
    everything these goroutines share, with where each of them is; a step is
    what one of them does between two points at which others can run.

    The aggregate of the services is taken as what its log replays to, and a
    command on it as one step (Aggregate and ServiceMetadata say why); other
    instances of resource-aggregate change it in between. *)

From Stdlib Require Import ZArith Lia String.
From S2P Require Import Prelude Commands Events EventStore Handler Aggregate ServiceMetadata Validation.
From S2P Require Import ServiceMetadataFacts IdentityStore.

#[local] Abbreviation Heartbeat_ := ServicesHeartbeat_Heartbeat.

(** UpdateServiceMetadataReqResp: a channel is a number; [None] is nil. *)
Record ReqResp := MkReqResp {
  rr_Request : option UpdateServiceMetadataRequest; rr_ResponseChan : option nat }.
(** UpdateServiceMetadataResponseChanData *)
Abbreviation Response := (result Z).

Inductive run_pc :=
  | AtSelect                                    (* blocked in the select of run *)
  | AtPop (nextWakeUp : time_)                  (* in the loop of processRequests *)
  | Handling (reqs : list ReqResp) (nextWakeUp : time_)
  | AtReset (nextWakeUp : time_)                (* processRequests has returned *)
  | RunStopped.
Inductive expired_pc :=
  | AtWait
  | Expiring (offlineServices : list Heartbeat_)
  | ExpiredStopped.

(** ServiceHeartbeat.  A channel of capacity 1 is whether it holds a token;
    [q_answers] are the first values that were put into the response channels,
    [q_timer] is when the timer fires, [q_wakers] how many goroutines have put a
    request into the queue and are about to wake the loop. *)
Record ServiceHeartbeat_ := MkServiceHeartbeat_ {
  q_requestQueue : list ReqResp; q_wake : bool; q_wakeExpired : bool; q_closed : bool;
  q_offlineServices : gmap string Heartbeat_; q_answers : gmap nat Response;
  q_timer : time_; q_run : run_pc; q_expired : expired_pc; q_wakers : nat; q_chans : nat;
  q_services : ServiceMetadataSnapshotTaken; q_devices : gmap string string; q_now : time_ }.
Abbreviation HB := ServiceHeartbeat_.

Definition set_queue (l : list ReqResp) (s : HB) : HB :=
  MkServiceHeartbeat_ l (q_wake s) (q_wakeExpired s) (q_closed s) (q_offlineServices s) (q_answers s)
    (q_timer s) (q_run s) (q_expired s) (q_wakers s) (q_chans s) (q_services s) (q_devices s) (q_now s).
Definition set_wake (wake expired : bool) (s : HB) : HB :=
  MkServiceHeartbeat_ (q_requestQueue s) wake expired (q_closed s) (q_offlineServices s) (q_answers s)
    (q_timer s) (q_run s) (q_expired s) (q_wakers s) (q_chans s) (q_services s) (q_devices s) (q_now s).
Definition set_run (pc : run_pc) (s : HB) : HB :=
  MkServiceHeartbeat_ (q_requestQueue s) (q_wake s) (q_wakeExpired s) (q_closed s) (q_offlineServices s)
    (q_answers s) (q_timer s) pc (q_expired s) (q_wakers s) (q_chans s) (q_services s) (q_devices s) (q_now s).
Definition set_timer (t : time_) (s : HB) : HB :=
  MkServiceHeartbeat_ (q_requestQueue s) (q_wake s) (q_wakeExpired s) (q_closed s) (q_offlineServices s)
    (q_answers s) t (q_run s) (q_expired s) (q_wakers s) (q_chans s) (q_services s) (q_devices s) (q_now s).
Definition set_offline (m : gmap string Heartbeat_) (pc : expired_pc) (s : HB) : HB :=
  MkServiceHeartbeat_ (q_requestQueue s) (q_wake s) (q_wakeExpired s) (q_closed s) m
    (q_answers s) (q_timer s) (q_run s) pc (q_wakers s) (q_chans s) (q_services s) (q_devices s) (q_now s).
Definition set_services (d : ServiceMetadataSnapshotTaken) (devices : gmap string string) (s : HB) : HB :=
  MkServiceHeartbeat_ (q_requestQueue s) (q_wake s) (q_wakeExpired s) (q_closed s) (q_offlineServices s)
    (q_answers s) (q_timer s) (q_run s) (q_expired s) (q_wakers s) (q_chans s) d devices (q_now s).
Definition set_clients (wakers chans : nat) (answers : gmap nat Response) (s : HB) : HB :=
  MkServiceHeartbeat_ (q_requestQueue s) (q_wake s) (q_wakeExpired s) (q_closed s) (q_offlineServices s)
    answers (q_timer s) (q_run s) (q_expired s) wakers chans (q_services s) (q_devices s) (q_now s).
Definition set_now (t : time_) (s : HB) : HB :=
  MkServiceHeartbeat_ (q_requestQueue s) (q_wake s) (q_wakeExpired s) (q_closed s) (q_offlineServices s)
    (q_answers s) (q_timer s) (q_run s) (q_expired s) (q_wakers s) (q_chans s) (q_services s) (q_devices s) t.
Definition set_closed (s : HB) : HB :=
  MkServiceHeartbeat_ (q_requestQueue s) (q_wake s) (q_wakeExpired s) true (q_offlineServices s)
    (q_answers s) (q_timer s) (q_run s) (q_expired s) (q_wakers s) (q_chans s) (q_services s) (q_devices s)
    (q_now s).

(** ** The queue *)
Definition push (req : ReqResp) (s : HB) : HB := set_queue (q_requestQueue s ++ [req]) s.
Definition pop (s : HB) : list ReqResp * HB := (q_requestQueue s, set_queue [] s).
Definition wakeUp (s : HB) : HB := set_wake true (q_wakeExpired s) s.
Definition wakeUpProcessingExpired (s : HB) : HB := set_wake (q_wake s) true s.

(** The heartbeat without a service and a time: it only checks for expired services. *)
Definition check_request : UpdateServiceMetadataRequest :=
  MkUpdateServiceMetadataRequest (Some (UpdateServiceMetadataRequest_Heartbeat
    (Some (MkServiceHeartbeat "" 0 0 false)))).
Definition is_check (req : ReqResp) : bool :=
  match rr_Request req with
  | None => false
  | Some r => match usr_GetHeartbeat r with
              | Some hb => String.eqb (hb_ServiceId hb) "" && (hb_TimeToLive hb =? 0)%Z
              | None => false
              end
  end.
Definition pushCheckExpiredServices (s : HB) : HB :=
  if existsb is_check (q_requestQueue s) then s
  else push (MkReqResp (Some check_request) (Some (q_chans s)))
         (set_clients (q_wakers s) (S (q_chans s)) (q_answers s) s).
(** The part of ProcessRequest before [wakeUp], which is a step of its own. *)
Definition ProcessRequest_push (r : ReqResp) (s : HB) : HB * option error :=
  match rr_Request r, rr_ResponseChan r with
  | None, _ => (s, Some (errors_New "invalid request"))
  | Some _, None => (s, Some (errors_New "invalid response channel"))
  | Some _, Some _ => (set_clients (S (q_wakers s)) (q_chans s) (q_answers s) (push r s), None)
  end.

(** ** One request *)
Section requests.
Context `{!UUIDLib} (cc : CommandContext).

(** The check of config.go on the identifier of the hub. *)
Definition HubID_valid : bool := uuid_Parse (cc_hubID cc).
(** The aggregate of the services: NewAggregate fails without the identifier of the hub. *)
Definition services_aggregate : result (Aggregate ServiceMetadataSnapshotTaken) :=
  NewAggregate (cc_hubID cc) (ResourceId_ToUUID (Some (NewResourceID (cc_hubID cc) ServicesResourceHref)))
    (fun _ _ => inr NewServiceMetadataSnapshotTaken) [].

(** Sending without blocking: a full channel keeps what it has. *)
Definition send_response (chan : option nat) (r : Response) (answers : gmap nat Response)
    : gmap nat Response :=
  match chan with
  | None => answers
  | Some n => match answers !! n with Some _ => answers | None => <[n := r]> answers end
  end.
(** The last of the updated heartbeats of the service; the inner loop takes the first of an event. *)
Definition heartbeat_until (id : string) (publishEvents : list AnyEvent) : Z :=
  fold_left (fun acc e =>
    match e with
    | EvServiceMetadataUpdated ev =>
        match List.find (fun h => String.eqb (shh_ServiceId h) id) (valid_of (Some ev)) with
        | Some h => shh_ValidUntil h
        | None => acc
        end
    | _ => acc
    end) publishEvents 0%Z.
(** [fault] is an error of the store, with what the model then is: [d0]. *)
Definition updateServiceMetadata (fault : option (error * ServiceMetadataSnapshotTaken)) (now : time_)
    (version : Z) (r : ReqResp) (d : ServiceMetadataSnapshotTaken) (answers : gmap nat Response)
    : ServiceMetadataSnapshotTaken * ServiceMetadataSnapshotTaken * gmap nat Response :=
  let request := default (MkUpdateServiceMetadataRequest None) (rr_Request r) in
  let failed err := inl (ForwardFromError InvalidArgument (Wrap "cannot update service metadata: %w"
    (Wrap "unable to process update service metadata command command: %w" err))) in
  let chan := rr_ResponseChan r in
  match fault with
  | Some (err, d0) =>
      (d, d0, send_response chan (inr 0%Z) (send_response chan (failed err) answers))
  | None =>
      match ServiceMetadata.HandleCommand cc None (fun _ => now) d (CmdUpdateServiceMetadata request) version with
      | (d', inl err) =>
          (d', d', send_response chan (inr 0%Z) (send_response chan (failed err) answers))
      | (d', inr publishEvents) =>
          let id := (usr_GetHeartbeat request) ~> hb_ServiceId in
          (d', d', send_response chan (inr (heartbeat_until id publishEvents)) answers)
      end
  end.
(** The loop over the valid services; [time.Unix(0, t)] is [t]. *)
Definition next_wake_up (valid : list Heartbeat_) : time_ :=
  fold_left (fun nextWakeUp v =>
    if Before (Unix 0 (shh_ValidUntil v)) nextWakeUp then shh_ValidUntil v else nextWakeUp) valid MaxTime.
Definition processRequest (fault : option (error * ServiceMetadataSnapshotTaken)) (version : Z)
    (r : ReqResp) (s : HB) : HB * time_ :=
  match services_aggregate with
  | inl _ => (s, MaxTime)
  | inr _ =>
      let '(d, snapshot, answers) :=
        updateServiceMetadata fault (q_now s) version r (q_services s) (q_answers s) in
      let offline := add_all (expired snapshot) (q_offlineServices s) in
      let s := set_services d (q_devices s) (set_clients (q_wakers s) (q_chans s) answers s) in
      let s := set_offline offline (q_expired s) s in
      let s := if negb (size offline =? 0)%nat then wakeUpProcessingExpired s else s in
      (s, next_wake_up (valid snapshot))
  end.

(** ** The loop of run *)
(** time.Until, a 64-bit number of nanoseconds. *)
Definition Until (t now : time_) : Z := Z.max (- 2 ^ 63) (Z.min (t - now) (2 ^ 63 - 1)).
Definition reset_timer (nextWakeUp : time_) (s : HB) : HB :=
  let d := Until nextWakeUp (q_now s) in
  let d := if (d <=? 0)%Z then (Minute * 10)%Z else d in
  set_timer (q_now s + d)%Z s.

(** *** Expired services *)
(** The devices of a service that LoadDeviceMetadataByServiceIDs answers: [limit]
    of them, in an order of its own. *)
Context (by_service : gmap string string -> string -> list string).
Definition limitNumDevices : nat := 256.
(** updateDeviceToExpired puts the device offline: the store then does not
    answer it for the service any more. *)
Definition update_devices (ds : list string) (devices : gmap string string) : gmap string string :=
  fold_left (fun m d => delete d m) ds devices.
(** [faults]: of each turn, an error of the store, or of the update of a device,
    with how many devices were updated before. *)
Fixpoint handleExpiredService (fuel : nat) (faults : list (option (nat * error))) (service : Heartbeat_)
    (version : Z) (now : time_) (devices : gmap string string) (d : ServiceMetadataSnapshotTaken)
    : option (gmap string string * ServiceMetadataSnapshotTaken * option error) :=
  match fuel with
  | O => None
  | S fuel =>
      let ds := take limitNumDevices (by_service devices (shh_ServiceId service)) in
      match head faults with
      | Some (Some (n, err)) => Some (update_devices (take n ds) devices, d, Some err)
      | _ =>
          match ds with
          | [] =>
              match ServiceMetadata.HandleCommand cc None (fun _ => now) d
                      (CmdConfirmExpiredServices (MkConfirmExpiredServicesRequest [service])) version with
              | (d, inl err) => Some (devices, d, Some (Wrap "cannot confirm expired services metadata: %w" err))
              | (d, inr _) => Some (devices, d, None)
              end
          | ds => handleExpiredService fuel (tail faults) service version now (update_devices ds devices) d
          end
      end
  end.

(** ** Steps *)
(** UpdateServiceMetadata of the gRPC API up to the push. *)
Definition UpdateServiceMetadata_push (request : UpdateServiceMetadataRequest) (s : HB)
    : HB * option error :=
  match validateUpdateServiceMetadata request with
  | Some err => (s, Some (ForwardFromError InvalidArgument (Wrap "cannot update service metadata: %w" err)))
  | None =>
      let respChan := q_chans s in
      match ProcessRequest_push (MkReqResp (Some request) (Some respChan))
              (set_clients (q_wakers s) (S respChan) (q_answers s) s) with
      | (s, Some err) => (s, Some (ForwardFromError Internal (Wrap "cannot update service metadata: %w" err)))
      | (s, None) => (s, None)
      end
  end.
(** The goroutine of run; the timer does not fire while it is not waited for. *)
Inductive run_step : HB -> HB -> Prop :=
  | run_wake s :
      q_run s = AtSelect -> q_wake s = true ->
      run_step s (set_run (AtPop MaxTime) (set_wake false (q_wakeExpired s) s))
  | run_timer s :
      q_run s = AtSelect -> (q_timer s <= q_now s)%Z ->
      run_step s (set_run (AtPop MaxTime) (pushCheckExpiredServices s))
  | run_pop s nextWakeUp :
      q_run s = AtPop nextWakeUp ->
      run_step s (let '(reqs, s) := pop s in
                  set_run (match reqs with [] => AtReset nextWakeUp | _ => Handling reqs nextWakeUp end) s)
  | run_request s r reqs nextWakeUp fault version :
      q_run s = Handling (r :: reqs) nextWakeUp ->
      run_step s (let '(s, t) := processRequest fault version r s in
                  let nextWakeUp := if Before t nextWakeUp then t else nextWakeUp in
                  set_run (match reqs with [] => AtPop nextWakeUp | _ => Handling reqs nextWakeUp end) s)
  | run_reset s nextWakeUp :
      q_run s = AtReset nextWakeUp ->
      run_step s (set_run (if q_closed s then RunStopped else AtSelect) (reset_timer nextWakeUp s)).
Inductive hb_step : HB -> HB -> Prop :=
  (** The clock goes on; other instances handle commands on the services, and
      devices connect. *)
  | step_time s t : (q_now s <= t)%Z -> hb_step s (set_now t s)
  | step_services s peer cmd version :
      hb_step s (set_services
        (ServiceMetadata.HandleCommand cc peer (fun _ => q_now s) (q_services s) cmd version).1 (q_devices s) s)
  | step_devices s devices : hb_step s (set_services (q_services s) devices s)
  (** The clients: UpdateServiceMetadata of the gRPC API, in two steps. *)
  | step_request s request s' :
      UpdateServiceMetadata_push request s = (s', None) -> hb_step s s'
  | step_wake s n :
      q_wakers s = S n -> hb_step s (wakeUp (set_clients n (q_chans s) (q_answers s) s))
  | step_close s : q_closed s = false -> hb_step s (wakeUpProcessingExpired (wakeUp (set_closed s)))
  | step_run s s' : run_step s s' -> hb_step s s'
  (** The goroutine of runProcessExpiredServices; the map is copied in any order,
      and without an aggregate nothing is done. *)
  | step_expired_wake s l :
      q_expired s = AtWait -> q_wakeExpired s = true -> l ≡ₚ (map_to_list (q_offlineServices s)).*2 ->
      hb_step s (set_offline (q_offlineServices s)
        (Expiring (match services_aggregate with inl _ => [] | inr _ => l end)) (set_wake (q_wake s) false s))
  | step_expired_one s off l fuel faults version devices d err :
      q_expired s = Expiring (off :: l) ->
      handleExpiredService fuel faults off version (q_now s) (q_devices s) (q_services s)
      = Some (devices, d, err) ->
      hb_step s (set_services d devices
        (set_offline (match err with
                      | Some _ => q_offlineServices s
                      | None => delete (shh_ServiceId off) (q_offlineServices s)
                      end) (Expiring l) s))
  | step_expired_done s :
      q_expired s = Expiring [] ->
      hb_step s (set_offline (q_offlineServices s) (if q_closed s then ExpiredStopped else AtWait) s).

(** NewServiceHeartbeat: the timer fires at once. *)
Definition NewServiceHeartbeat_ (d : ServiceMetadataSnapshotTaken) (devices : gmap string string)
    (now : time_) : HB :=
  {| q_requestQueue := []; q_wake := false; q_wakeExpired := false; q_closed := false;
     q_offlineServices := ∅; q_answers := ∅; q_timer := now; q_run := AtSelect; q_expired := AtWait;
     q_wakers := 0; q_chans := 0; q_services := d; q_devices := devices; q_now := now |}.
Inductive hb_reachable : HB -> Prop :=
  | hb_init d devices now : ServiceMetadataFacts.reachable d -> hb_reachable (NewServiceHeartbeat_ d devices now)
  | hb_next s s' : hb_reachable s -> hb_step s s' -> hb_reachable s'.
End requests.
