(* ===== verification/HeartbeatFacts.v ===== *)
(** * The heartbeats of services: what the goroutines guarantee

    No request is forgotten, and each is answered after a number of turns of the
    loop that is known, whatever goes on around it; a check for expired services
    finds all that are overdue, and an expired service is confirmed once its
    devices are offline.  Without the identifier of the hub, which the check of the
    configuration asks for, no request would be answered. *)

From Stdlib Require Import ZArith Lia String.
From S2P Require Import Prelude Commands Events EventStore Handler Aggregate ServiceMetadata ServiceMetadataFacts.
From S2P Require Import Validation IdentityStore Heartbeat.

Section facts.
Context `{!UUIDLib, !UUIDLaws} (cc : CommandContext) (by_service : gmap string string -> string -> list string).
Abbreviation step := (hb_step cc by_service).
Abbreviation reach := (hb_reachable cc by_service).
Implicit Types (s : HB).

(** ** Channels *)
Definition chans (l : list ReqResp) : list nat := omap rr_ResponseChan l.
Definition handled (pc : run_pc) : list ReqResp := match pc with Handling reqs _ => reqs | _ => [] end.
Definition active (pc : run_pc) : bool := match pc with AtPop _ | Handling _ _ => true | _ => false end.

Lemma send_response_mono chan r answers n :
  is_Some (answers !! n) -> is_Some (send_response chan r answers !! n).
Proof.
  unfold send_response. destruct chan as [m|]; [|done]. destruct (answers !! m) eqn:E; [done|].
  intros Hn. apply lookup_insert_is_Some. destruct (decide (m = n)); auto.
Qed.
Lemma send_response_own n r answers : is_Some (send_response (Some n) r answers !! n).
Proof.
  cbn. destruct (answers !! n) as [x|] eqn:E; [rewrite E; eauto|]. rewrite lookup_insert_eq. eauto.
Qed.
Lemma updateServiceMetadata_answers fault now version r d answers n :
  let '(_, _, answers') := updateServiceMetadata cc fault now version r d answers in
  (is_Some (answers !! n) \/ rr_ResponseChan r = Some n) -> is_Some (answers' !! n).
Proof.
  unfold updateServiceMetadata. cbv zeta. destruct fault as [[err d0]|].
  - intros [Hn| ->]; [by do 2 apply send_response_mono|apply send_response_own].
  - destruct (ServiceMetadata.HandleCommand _ _ _ _ _ _) as [d' [err|evs]].
    + intros [Hn| ->]; [by do 2 apply send_response_mono|apply send_response_own].
    + intros [Hn| ->]; [by apply send_response_mono|apply send_response_own].
Qed.

Lemma services_aggregate_ok : HubID_valid cc = true -> exists a, services_aggregate cc = inr a.
Proof.
  unfold HubID_valid, services_aggregate, NewAggregate. intros Hv.
  destruct (String.eqb_spec (cc_hubID cc) "") as [He|_]; [by rewrite He, uuid_Parse_empty in Hv|].
  destruct (String.eqb_spec (ResourceId_ToUUID (Some (NewResourceID (cc_hubID cc) ServicesResourceHref))) "") as [He|_];
    [|by eexists].
  cbn in He. pose proof (uuid_NewSHA1_parses (cc_hubID cc +:+ ServicesResourceHref)) as Hp.
  by rewrite He, uuid_Parse_empty in Hp.
Qed.
(** What handling a request leaves as it is, and that it answers. *)
Lemma processRequest_spec fault version r s n :
  let s' := (processRequest cc fault version r s).1 in
  q_requestQueue s' = q_requestQueue s /\ q_wake s' = q_wake s /\ q_wakers s' = q_wakers s /\
  q_run s' = q_run s /\ q_closed s' = q_closed s /\ q_chans s' = q_chans s /\
  (is_Some (q_answers s !! n) \/ HubID_valid cc = true /\ rr_ResponseChan r = Some n -> is_Some (q_answers s' !! n)).
Proof.
  unfold processRequest. destruct (services_aggregate cc) as [err|a] eqn:Ha0.
  { split_and!; try done. intros [Hn|[Hv _]]; [exact Hn|].
    apply services_aggregate_ok in Hv as [a Hv]. congruence. }
  pose proof (updateServiceMetadata_answers fault (q_now s) version r (q_services s)
    (q_answers s) n) as Ha.
  destruct (updateServiceMetadata _ _ _ _ _ _) as [[d snapshot] answers]. cbv zeta.
  assert (Hn : is_Some (q_answers s !! n) \/ HubID_valid cc = true /\ rr_ResponseChan r = Some n ->
    is_Some (answers !! n)) by naive_solver.
  by destruct (negb _).
Qed.

(** ** Every reachable state *)
(** A request waits in the queue only if the loop is at work, was woken, or is
    about to be; every channel that was made is answered, waits, or is at its
    turn; and the loop stops only when it is closed. *)
Definition hb_inv s : Prop :=
  (q_requestQueue s = [] \/ q_wake s = true \/ q_wakers s > 0 \/ active (q_run s) = true \/
   q_run s = RunStopped) /\
  (HubID_valid cc = true -> forall n, n < q_chans s ->
     is_Some (q_answers s !! n) \/ n ∈ chans (q_requestQueue s) \/ n ∈ chans (handled (q_run s))) /\
  (q_run s = RunStopped -> q_closed s = true) /\
  wf (q_services s) /\
  match q_run s with Handling [] _ => False | _ => True end.

Lemma inv_same s s' :
  q_requestQueue s' = q_requestQueue s -> (q_wake s = true -> q_wake s' = true) ->
  q_wakers s' = q_wakers s -> q_run s' = q_run s -> q_answers s' = q_answers s -> q_chans s' = q_chans s ->
  (q_closed s = true -> q_closed s' = true) -> wf (q_services s') -> hb_inv s -> hb_inv s'.
Proof.
  intros Hq Hw Hwk Hr Ha Hc Hcl Hwf (H1 & H2 & H3 & H4 & H5). unfold hb_inv.
  rewrite Hq, Hwk, Hr, Ha, Hc. split_and!; [naive_solver|done|auto|done|done].
Qed.

Lemma chans_app l l' : chans (l ++ l') = chans l ++ chans l'.
Proof. apply omap_app. Qed.

Lemma updateServiceMetadata_wf fault now version r d answers :
  wf d -> wf (updateServiceMetadata cc fault now version r d answers).1.1.
Proof.
  intros Hd. unfold updateServiceMetadata. cbv zeta. destruct fault as [[err d0]|]; [done|].
  destruct (ServiceMetadata.HandleCommand _ _ _ _ _ _) as [d' [err|evs]] eqn:E;
    (pose proof (HandleCommand_status cc None (fun _ => now) d
      (CmdUpdateServiceMetadata (default (MkUpdateServiceMetadataRequest None) (rr_Request r))) version Hd) as [Hw _];
     by rewrite E in Hw).
Qed.
Lemma processRequest_wf fault version r s :
  wf (q_services s) -> wf (q_services (processRequest cc fault version r s).1).
Proof.
  intros Hd. unfold processRequest. destruct (services_aggregate cc) as [err|a]; [done|].
  pose proof (updateServiceMetadata_wf fault (q_now s) version r (q_services s) (q_answers s) Hd) as Hw.
  destruct (updateServiceMetadata _ _ _ _ _ _) as [[d snapshot] answers]. cbv zeta. by destruct (negb _).
Qed.

(** A new request, with the next channel, at the end of the queue. *)
Lemma push_chans s r :
  rr_ResponseChan r = Some (q_chans s) -> hb_inv s -> HubID_valid cc = true ->
  forall n, n < S (q_chans s) -> is_Some (q_answers s !! n) \/ n ∈ chans (q_requestQueue s ++ [r]) \/
     n ∈ chans (handled (q_run s)).
Proof.
  intros Hr (_ & H2 & _) Hv n Hn. specialize (H2 Hv). rewrite chans_app, elem_of_app.
  destruct (decide (n = q_chans s)) as [-> |Hne].
  - right. left. right. cbn. rewrite Hr. by left.
  - destruct (H2 n) as [?|[?|?]]; [lia|by left|right; left; by left|by right; right].
Qed.

Lemma handleExpiredService_wf fuel faults service version now devices d devices' d' err :
  wf d -> handleExpiredService cc by_service fuel faults service version now devices d
          = Some (devices', d', err) -> wf d'.
Proof.
  revert faults devices. induction fuel as [|fuel IH]; intros faults devices Hd; cbn [handleExpiredService]; [done|].
  destruct (head faults) as [[[n e]|]|]; [by intros [= <- <- <-]| |];
    (destruct (take _ _) as [|x l]; [|by apply IH]);
    (pose proof (HandleCommand_status cc None (fun _ => now) d
       (CmdConfirmExpiredServices (MkConfirmExpiredServicesRequest [service])) version Hd) as [Hw _];
     destruct (ServiceMetadata.HandleCommand _ _ _ _ _ _) as [d2 [e|evs]]; by intros [= <- <- <-]).
Qed.

Lemma run_step_inv s s' : hb_inv s -> run_step cc s s' -> hb_inv s'.
Proof.
  intros Hinv Hstep. pose proof Hinv as (H1 & H2 & H3 & H4 & H5).
  destruct Hstep as [s Hr Hw|s Hr Ht|s nw Hr|s r reqs nw fault version Hr|s nw Hr].
  - rewrite Hr in *. split_and!; cbn; [by auto|done|done|done|done].
  - unfold pushCheckExpiredServices. destruct (existsb is_check (q_requestQueue s)).
    + rewrite Hr in *. split_and!; cbn; [by auto|done|done|done|done].
    + split_and!; cbn; [by auto 6| |done|done|done]. intros Hv n Hn. rewrite Hr in *.
      apply (push_chans s (MkReqResp (Some check_request) (Some (q_chans s))) eq_refl Hinv Hv) in Hn.
      by rewrite Hr in Hn.
  - rewrite Hr in *. unfold pop. destruct (q_requestQueue s) as [|r l] eqn:Eq.
    + split_and!; cbn; [by left| |done|done|done]. intros Hv n Hn. destruct (H2 Hv n Hn) as [?|[?|?]]; auto.
    + split_and!; cbn [set_run set_queue q_requestQueue q_wake q_wakers q_run q_chans q_answers q_services
        q_closed handled]; [by left| |done|done|done]. intros Hv n Hn. destruct (H2 Hv n Hn) as [?|[?|[]%not_elem_of_nil]]; auto.
  - rewrite Hr in *. cbn [handled] in *.
    pose proof (fun n => processRequest_spec fault version r s n) as Hp.
    pose proof (processRequest_wf fault version r s H4) as Hw.
    destruct (processRequest cc fault version r s) as [s1 t]. cbn [fst] in *. cbv zeta.
    set (nw' := if Before t nw then t else nw).
    set (pc := match reqs with [] => AtPop nw' | _ => Handling reqs nw' end).
    destruct (Hp 0) as (Hq & Hwk & Hwks & _ & Hc & Hch & _).
    assert (Hpc : active pc = true /\ handled pc = reqs /\ pc <> RunStopped /\
      match pc with Handling [] _ => False | _ => True end) by (by subst pc; destruct reqs).
    destruct Hpc as (Ha & Hh & Hns & Hne). split_and!; cbn; [by auto 6| |done|done|done].
    rewrite Hq, Hch, Hh. intros Hv n Hn. destruct (Hp n) as (_ & _ & _ & _ & _ & _ & Hans).
    destruct (H2 Hv n Hn) as [?|[?|Hin]]; [by auto|by auto|]. cbn in Hin.
    destruct (rr_ResponseChan r) as [m|] eqn:Em; [|by auto].
    apply elem_of_cons in Hin as [-> |Hin]; [left; apply Hans; by right|by auto].
  - rewrite Hr in *. split_and!; cbn.
    + destruct H1 as [?|[?|[?|[?|?]]]]; [by auto..|done|done].
    + destruct (q_closed s); exact H2.
    + by destruct (q_closed s).
    + done.
    + by destruct (q_closed s).
Qed.

Lemma hb_step_inv s s' : hb_inv s -> step s s' -> hb_inv s'.
Proof.
  intros Hinv Hstep. pose proof Hinv as (H1 & H2 & H3 & H4 & H5).
  destruct Hstep as [s t Ht|s peer cmd version|s devices|s request s' Hp|s n Hn|s Hc|s s' Hr|s l He Hw Hl
    |s off l fuel faults version devices d err He Hh|s He].
  - by apply (inv_same s).
  - apply (inv_same s); try done. cbn. by apply HandleCommand_status.
  - by apply (inv_same s).
  - unfold UpdateServiceMetadata_push in Hp. destruct (validateUpdateServiceMetadata request); [done|].
    cbn in Hp. injection Hp as <-. split_and!; cbn; [right; right; left; lia| |done|done|done].
    intros Hv. apply (push_chans s (MkReqResp (Some request) (Some (q_chans s))) eq_refl Hinv Hv).
  - split_and!; cbn; [by auto|done|done|done|done].
  - by apply (inv_same s).
  - by apply (run_step_inv s).
  - by apply (inv_same s).
  - apply (inv_same s); try done. cbn. by eapply handleExpiredService_wf.
  - by apply (inv_same s).
Qed.
Lemma reachable_inv s : reach s -> hb_inv s.
Proof.
  induction 1 as [d devices now Hd|s s' _ IH Hs]; [|by eapply hb_step_inv].
  split_and!; cbn; [by left|intros _ n Hn; lia|done|by apply reachable_wf|done].
Qed.

(** ** Liveness *)
(** The loop goes on, or a client that has pushed wakes it. *)
Inductive loop_step : HB -> HB -> Prop :=
  | loop_run s s' : run_step cc s s' -> loop_step s s'
  | loop_wake s n : q_wakers s = S n -> loop_step s (wakeUp (set_clients n (q_chans s) (q_answers s) s)).
Abbreviation goes_to := (rtc loop_step).
(** An execution of everything that goes on, with at least [k] steps of the loop. *)
Inductive runs : nat -> HB -> HB -> Prop :=
  | runs_refl s : runs 0 s s
  | runs_loop k s s1 s' : run_step cc s s1 -> runs k s1 s' -> runs (S k) s s'
  | runs_other k s s1 s' : step s s1 -> runs k s1 s' -> runs k s s'.

(** The request is answered within [k] steps of the loop: [j] is how many requests
    are handled up to it. *)
Definition answered n s : Prop := is_Some (q_answers s !! n).
Definition queued n j s : Prop := n ∈ chans (take j (q_requestQueue s)).
Definition due n k s : Prop :=
  answered n s \/
  match q_run s with
  | AtSelect => exists j, queued n j s /\ 2 + j <= k
  | AtPop _ => exists j, queued n j s /\ 1 + j <= k
  | AtReset _ => exists j, queued n j s /\ 3 + j <= k
  | Handling reqs _ => n ∈ chans (take k reqs) \/ exists j, queued n j s /\ length reqs + 1 + j <= k
  | RunStopped => False
  end.

Lemma chans_take_le n j k l : j <= k -> n ∈ chans (take j l) -> n ∈ chans (take k l).
Proof.
  intros Hjk Hn. replace k with (j + (k - j)) by lia. rewrite <- take_take_drop, chans_app. apply elem_of_app. by left.
Qed.
Lemma chans_take_app n j l l' : n ∈ chans (take j l) -> n ∈ chans (take j (l ++ l')).
Proof. rewrite take_app, chans_app. intros ?. apply elem_of_app. by left. Qed.
Lemma due_le n k k' s : k <= k' -> due n k s -> due n k' s.
Proof.
  intros Hk [Ha|Hd]; [by left|right]. destruct (q_run s); [| |destruct Hd as [Hd|Hd]; [left; by eapply chans_take_le|right]|  |done];
    destruct Hd as (j & Hj & Hle); exists j; (split; [done|lia]).
Qed.
Lemma due_now n s : due n 0 s -> answered n s.
Proof.
  intros [Ha|Hd]; [done|]. destruct (q_run s); [| |destruct Hd as [?%not_elem_of_nil|Hd]; [done|]| |done];
    destruct Hd as (j & _ & Hle); lia.
Qed.
(** What does not move the loop, and at most adds to the queue, changes nothing. *)
Lemma due_same n k s s' : q_run s' = q_run s ->
  (forall m, answered m s -> answered m s') -> (exists l, q_requestQueue s' = q_requestQueue s ++ l) ->
  due n k s -> due n k s'.
Proof.
  intros Hr Ha [l Hq] [Hd|Hd]; [left; by apply Ha|right]. rewrite Hr.
  assert (Hj : forall j, queued n j s -> queued n j s').
  { intros j. unfold queued. rewrite Hq. apply chans_take_app. }
  destruct (q_run s); naive_solver.
Qed.

Lemma run_step_closed s s' : run_step cc s s' -> q_closed s' = q_closed s.
Proof.
  destruct 1 as [s _ _|s _ _|s nw _|s r reqs nw fault version _|s nw _]; cbn; try done.
  - unfold pushCheckExpiredServices. by destruct (existsb _ _).
  - destruct (processRequest_spec fault version r s 0) as (_ & _ & _ & _ & Hc & _).
    by destruct (processRequest _ _ _ _ _) as [s1 t].
Qed.
Lemma step_closed s s' : step s s' -> q_closed s = true -> q_closed s' = true.
Proof.
  destruct 1 as [s t Ht|s peer cmd version|s devices|s request s' Hp|s n Hn|s Hc|s s' Hr|s l He Hw Hl
    |s off l fuel faults version devices d err He Hh|s He]; try done.
  - unfold UpdateServiceMetadata_push in Hp. destruct (validateUpdateServiceMetadata request); [done|].
    cbn in Hp. by injection Hp as <-.
  - by rewrite (run_step_closed _ _ Hr).
Qed.

Section due.
Context (Hub : HubID_valid cc = true).

(** A step of the loop brings the answer nearer. *)
Lemma due_run n k s s' : run_step cc s s' -> q_closed s' = false -> due n (S k) s -> due n k s'.
Proof.
  intros Hst Hc. unfold due. destruct Hst as [s Hr Hw|s Hr Ht|s nw Hr|s r reqs nw fault version Hr|s nw Hr]; rewrite Hr.
  - intros [Ha|(j & Hj & Hle)]; [by left|right]. exists j. split; [exact Hj|lia].
  - unfold pushCheckExpiredServices. destruct (existsb is_check (q_requestQueue s));
      (intros [Ha|(j & Hj & Hle)]; [by left|right; exists j; split; [|lia]]); [exact Hj|].
    unfold queued in *. cbn. by apply chans_take_app.
  - intros [Ha|(j & Hj & Hle)]; [left; exact Ha|right]. unfold queued in Hj. unfold pop.
    destruct (q_requestQueue s) as [|r l]; [by rewrite take_nil in Hj; apply not_elem_of_nil in Hj|]. left.
    eapply chans_take_le; [|exact Hj]. lia.
  - pose proof (processRequest_spec fault version r s n) as Hp.
    destruct (processRequest cc fault version r s) as [s1 t]. cbn [fst] in Hp. cbv zeta in Hp |- *.
    destruct Hp as (Hq & _ & _ & _ & _ & _ & Ha).
    intros [Hans|[Hin|(j & Hj & Hle)]]; [left; apply Ha; by left| |].
    + cbn [take chans omap list_omap] in Hin.
      assert (Hor : rr_ResponseChan r = Some n \/ n ∈ chans (take k reqs)).
      { destruct (rr_ResponseChan r) as [m|]; [|by right].
        apply elem_of_cons in Hin as [-> |Hin]; [by left|by right]. }
      destruct Hor as [Hown|Hin']; [left; apply Ha; by right|right].
      destruct reqs as [|r2 reqs]; [by rewrite take_nil in Hin'; apply not_elem_of_nil in Hin'|by left].
    + right. assert (Hj1 : n ∈ chans (take j (q_requestQueue s1))) by (unfold queued in Hj; by rewrite Hq).
      cbn [length] in Hle. destruct reqs as [|r2 reqs]; [exists j|right; exists j]; (split; [exact Hj1|cbn [length] in *; lia]).
  - cbn in Hc. rewrite Hc. intros [Ha|(j & Hj & Hle)]; [by left|right]. exists j. split; [exact Hj|lia].
Qed.
(** The other steps do not take it away. *)
Lemma due_step n k s s' : step s s' -> q_closed s' = false -> due n k s -> due n k s'.
Proof.
  intros Hst Hc Hd.
  destruct Hst as [s t Ht|s peer cmd version|s devices|s request s' Hp|s m Hn|s Hc'|s s' Hr|s l He Hw Hl
    |s off l fuel faults version devices d err He Hh|s He];
    try (apply (due_same n k s); [done|done|exists []; by rewrite app_nil_r|exact Hd]).
  - unfold UpdateServiceMetadata_push in Hp. destruct (validateUpdateServiceMetadata request); [done|].
    cbn in Hp. injection Hp as <-. apply (due_same n k s); [done|done|by eexists|exact Hd].
  - destruct k as [|k].
    + apply (due_run n 0 s); [done|done|]. apply (due_le n 0); [lia|done].
    + apply (due_le n k); [lia|]. by apply (due_run n k s).
Qed.
Lemma runs_closed k s s' : runs k s s' -> q_closed s' = false -> q_closed s = false.
Proof.
  induction 1 as [s|k s s1 s' Hr Hrs IH|k s s1 s' Hs Hrs IH]; [done| |]; intros Hc; specialize (IH Hc).
  - by rewrite <- (run_step_closed _ _ Hr).
  - apply not_true_iff_false. intros Hcs. by rewrite (step_closed _ _ Hs Hcs) in IH.
Qed.
Lemma due_runs n k s s' : runs k s s' -> q_closed s' = false -> due n k s -> answered n s'.
Proof.
  induction 1 as [s|k s s1 s' Hr Hrs IH|k s s1 s' Hs Hrs IH]; intros Hc Hd; [by apply due_now|..].
  - apply IH; [done|]. eapply due_run; [exact Hr|by eapply runs_closed|exact Hd].
  - apply IH; [done|]. eapply due_step; [exact Hs|by eapply runs_closed|exact Hd].
Qed.

(** How far away an answer can be. *)
Lemma due_from s n : hb_inv s -> q_closed s = false -> n < q_chans s ->
  due n (3 + length (handled (q_run s)) + length (q_requestQueue s)) s.
Proof.
  intros (_ & H2 & H3 & _) Hc Hn. unfold due. destruct (H2 Hub n Hn) as [Ha|[Hq|Hh]]; [by left|right..].
  - assert (Hj : queued n (length (q_requestQueue s)) s) by (unfold queued; by rewrite firstn_all).
    destruct (q_run s) eqn:Hr; cbn [handled length]; [| |right| |by rewrite H3 in Hc];
      exists (length (q_requestQueue s)); (split; [exact Hj|lia]).
  - destruct (q_run s) as [| |reqs nw| |]; cbn [handled] in *; try by apply not_elem_of_nil in Hh. left.
    rewrite take_ge by lia. exact Hh.
Qed.
(** The loop is never stuck as long as a request waits. *)
Lemma not_stuck s n : hb_inv s -> q_closed s = false -> n < q_chans s ->
  answered n s \/ q_wakers s > 0 \/ exists s', run_step cc s s'.
Proof.
  intros (H1 & H2 & H3 & _ & H5) Hc Hn. destruct (H2 Hub n Hn) as [Ha|Hin]; [by left|right].
  destruct (q_run s) as [|nw|[|r reqs] nw|nw|] eqn:Hr; [| |done| | |by rewrite H3 in Hc].
  - destruct H1 as [Hq|[Hw|[Hw|[?|?]]]]; [|right; eexists; by apply run_wake|by left|done..].
    exfalso. rewrite Hq in Hin. destruct Hin as [?%not_elem_of_nil|?%not_elem_of_nil]; done.
  - right. eexists. by eapply run_pop.
  - right. eexists. by apply (run_request cc s r reqs nw None 0%Z).
  - right. eexists. by eapply run_reset.
Qed.
End due.

(** Without the identifier of the hub no request is ever answered. *)
Lemma no_hub_no_answer s : cc_hubID cc = "" -> reach s -> q_answers s = ∅.
Proof.
  intros Hh. assert (Hagg : exists err, services_aggregate cc = inl err).
  { unfold services_aggregate, NewAggregate. rewrite Hh. by eexists. }
  destruct Hagg as [err Hagg]. induction 1 as [d devices now Hd|s s' _ IH Hs]; [done|].
  destruct Hs as [s t Ht|s peer cmd version|s devices|s request s' Hp|s n Hn|s Hc|s s' Hr|s l He Hw Hl
    |s off l fuel faults version devices d e He Hh'|s He]; try done.
  - unfold UpdateServiceMetadata_push in Hp. destruct (validateUpdateServiceMetadata request); [done|].
    cbn in Hp. by injection Hp as <-.
  - destruct Hr as [s _ _|s _ _|s nw _|s r reqs nw fault version _|s nw _]; try done.
    + unfold pushCheckExpiredServices. cbn. by destruct (existsb _ _).
    + unfold processRequest. by rewrite Hagg.
Qed.

(** A request that was taken is not forgotten: while the service is not closed,
    whenever requests wait, the loop is at work, holds a token, or a client is
    about to wake it. *)
Theorem no_request_forgotten s :
  reach s -> q_closed s = false -> q_requestQueue s <> [] ->
  q_wake s = true \/ q_wakers s > 0 \/ active (q_run s) = true.
Proof.
  intros Hs Hc Hne. destruct (reachable_inv s Hs) as ([?|[?|[?|[?|Hst]]]] & _ & H3 & _);
    [done|auto..|]. by rewrite (H3 Hst) in Hc.
Qed.

(** C28: With a configuration that is valid, every request that was taken is answered, whatever
    the clients, other instances, the clock and the store do: as long as one is not, the loop
    can take a step, or a client that has pushed has yet to wake it; and an execution, however
    it goes, that has as many steps of the loop as requests wait before the answer, and three,
    has put a response into the channel, unless the service was closed. *)
Theorem request_answered s n :
  HubID_valid cc = true -> reach s -> q_closed s = false -> n < q_chans s ->
  (is_Some (q_answers s !! n) \/ q_wakers s > 0 \/ exists s', run_step cc s s') /\
  forall k s', runs k s s' -> 3 + length (handled (q_run s)) + length (q_requestQueue s) <= k ->
    q_closed s' = false -> is_Some (q_answers s' !! n).
Proof.
  intros Hub Hs Hc Hn. pose proof (reachable_inv s Hs) as Hinv. split; [by apply not_stuck|].
  intros k s' Hr Hk Hc'. apply (due_runs Hub n k s); [done|done|]. eapply due_le; [exact Hk|]. by apply due_from.
Qed.

(** ** Overdue services *)
Lemma check_finds_overdue version chan s id u :
  HubID_valid cc = true -> wf (q_services s) -> status_of (q_services s) id = Valid u -> Before (Unix 0 u) (q_now s) = true ->
  let s' := (processRequest cc None version (MkReqResp (Some check_request) chan) s).1 in
  is_Some (q_offlineServices s' !! id) /\ q_wakeExpired s' = true.
Proof.
  intros Hub Hwf Hst Hb. unfold processRequest, updateServiceMetadata. cbv zeta.
  destruct (services_aggregate_ok Hub) as [a ->].
  cbn [rr_Request default].
  destruct (sweep_spec cc None (fun _ => q_now s) (q_services s) check_request
    (MkServiceHeartbeat "" 0 0 false) version Hwf eq_refl eq_refl eq_refl) as (d' & evs & Heq & Hwf' & _ & Hs).
  change (Datatypes.id check_request) with check_request. rewrite Heq. specialize (Hs id). rewrite Hst in Hs. cbn [aged] in Hs. rewrite Hb in Hs.
  assert (Hin : is_Some (add_all (expired d') (q_offlineServices s) !! id)).
  { unfold status_of in Hs. destruct (find_service (expired d') id) as [v|] eqn:Ef.
    - rewrite lookup_add_all. by rewrite Ef.
    - by destruct (find_service (valid d') id). }
  assert (Hsz : (size (add_all (expired d') (q_offlineServices s)) =? 0)%nat = false).
  { apply Nat.eqb_neq. intros Hz. apply map_size_empty_inv in Hz. rewrite Hz, lookup_empty in Hin.
    by destruct Hin. }
  cbn [set_offline set_services set_clients q_offlineServices q_expired]. rewrite Hsz. by split.
Qed.

(** When the timer of the idle loop fires and the store answers, the loop gives
    every service that is overdue to the goroutine that puts the devices
    offline, and wakes it. *)
Theorem timer_finds_overdue s id u :
  HubID_valid cc = true -> reach s -> q_run s = AtSelect -> q_requestQueue s = [] -> (q_timer s <= q_now s)%Z ->
  status_of (q_services s) id = Valid u -> Before (Unix 0 u) (q_now s) = true ->
  exists s', goes_to s s' /\ is_Some (q_offlineServices s' !! id) /\ q_wakeExpired s' = true.
Proof.
  intros Hub Hs Hr Hq Ht Hst Hb. destruct (reachable_inv s Hs) as (_ & _ & _ & Hwf & _).
  pose proof (run_timer cc s Hr Ht) as Hs1. unfold pushCheckExpiredServices in Hs1. rewrite Hq in Hs1.
  cbn [existsb] in Hs1. unfold push in Hs1. cbn [set_clients q_requestQueue] in Hs1. rewrite Hq in Hs1. cbn [app] in Hs1.
  set (r := MkReqResp (Some check_request) (Some (q_chans s))) in *.
  set (s1 := set_run (AtPop MaxTime) _) in Hs1.
  pose proof (run_pop cc s1 MaxTime eq_refl) as Hs2. cbn [pop] in Hs2.
  set (s2 := set_run (Handling [r] MaxTime) (set_queue [] s1)) in *.
  pose proof (run_request cc s2 r [] MaxTime None 0%Z eq_refl) as Hs3.
  destruct (check_finds_overdue 0%Z (Some (q_chans s)) s2 id u Hub Hwf Hst Hb) as [Ho Hw]. fold r in Ho, Hw.
  destruct (processRequest cc None 0%Z r s2) as [s3 t]. cbv zeta in Hs3. cbn [fst] in Ho, Hw.
  exists (set_run (AtPop (if Before t MaxTime then t else MaxTime)) s3). split; [|by split].
  eapply rtc_l; [by apply loop_run, Hs1|]. eapply rtc_l; [by apply loop_run, Hs2|]. by apply rtc_once, loop_run.
Qed.

(** *** Putting the devices of a service offline *)
Context (by_service_spec : forall devices id, NoDup (by_service devices id) /\
  forall d, d ∈ by_service devices id <-> devices !! d = Some id).
Definition without_service (id : string) (devices : gmap string string) : gmap string string :=
  filter (fun dv => dv.2 <> id) devices.

Lemma lookup_update_devices ds devices d :
  update_devices ds devices !! d = if bool_decide (d ∈ ds) then None else devices !! d.
Proof.
  unfold update_devices. revert devices. induction ds as [|x ds IH]; intros devices; cbn [fold_left].
  - by rewrite bool_decide_eq_false_2 by apply not_elem_of_nil.
  - rewrite IH. destruct (decide (d = x)) as [->|Hne].
    + rewrite lookup_delete_eq. rewrite (bool_decide_eq_true_2 (x ∈ x :: ds)) by (by left). by case_bool_decide.
    + rewrite lookup_delete_ne by done. erewrite bool_decide_ext; [done|]. rewrite elem_of_cons. naive_solver.
Qed.
Lemma update_devices_without ds id devices :
  (forall d, d ∈ ds -> devices !! d = Some id) ->
  without_service id (update_devices ds devices) = without_service id devices.
Proof.
  intros Hds. apply map_eq. intros d. apply option_eq. intros v. unfold without_service.
  rewrite !map_lookup_filter_Some, lookup_update_devices. case_bool_decide as Hin; [|done].
  split; [by intros [[=] _]|]. rewrite (Hds d Hin). cbn. by intros [[= <-] Hne].
Qed.
Lemma update_devices_size ds id devices :
  ds <> [] -> (forall d, d ∈ ds -> devices !! d = Some id) -> size (update_devices ds devices) < size devices.
Proof.
  intros Hne Hds. apply map_subset_size. split.
  - apply map_subseteq_spec. intros d v. rewrite lookup_update_devices. by case_bool_decide.
  - intros Hsub. destruct ds as [|x ds]; [done|]. rewrite map_subseteq_spec in Hsub.
    specialize (Hsub x id (Hds x ltac:(by left))). rewrite lookup_update_devices in Hsub.
    rewrite bool_decide_eq_true_2 in Hsub by (by left). done.
Qed.

(** Without faults the loop over the devices of an expired service ends: then
    no device belongs to the service, no other device was touched, and the
    service is not known any more; other services are as they were. *)
Theorem handleExpiredService_ends service version now devices d :
  wf d ->
  exists fuel d', handleExpiredService cc by_service fuel [] service version now devices d
    = Some (without_service (shh_ServiceId service) devices, d', None) /\ wf d' /\
    forall id, status_of d' id = match status_of d id with
                                 | Expired u => if decide (id = shh_ServiceId service) then Absent else Expired u
                                 | st => st
                                 end.
Proof.
  intros Hwf. set (id := shh_ServiceId service).
  assert (Hend : exists d', ServiceMetadata.HandleCommand cc None (fun _ => now) d
      (CmdConfirmExpiredServices (MkConfirmExpiredServicesRequest [service])) version = d' /\
    exists d2 evs, d' = (d2, inr evs) /\ wf d2 /\ forall j, status_of d2 j = match status_of d j with
      | Expired u => if decide (j = id) then Absent else Expired u | st => st end).
  { eexists. split; [reflexivity|]. cbn [ServiceMetadata.HandleCommand]. unfold confirmExpiredServicesRequest.
    destruct (confirmExpiredServices_spec cc now d (MkConfirmExpiredServicesRequest [service])
      (peer_meta cc None now version) (command_audit cc "") Hwf) as (d2 & evs & Heq & Hw & _ & Hs).
    exists d2, evs. split_and!; [done|done|]. intros j. rewrite Hs. destruct (status_of d j); [done..|].
    cbn. rewrite (decide_ext (j ∈ [id]) (j = id)); [done|]. by rewrite list_elem_of_singleton. }
  destruct Hend as (r & Hr & d2 & evs & -> & Hw & Hs).
  remember (size devices) as k eqn:Hk. revert devices Hk.
  induction (lt_wf k) as [k _ IH]. intros devices Hk.
  destruct (by_service_spec devices id) as [_ Hby].
  destruct (take limitNumDevices (by_service devices id)) as [|x l] eqn:Et.
  - exists 1, d2. cbn [handleExpiredService head]. fold id. rewrite Et, Hr. split; [|done].
    assert (Hnone : by_service devices id = []).
    { destruct (by_service devices id); [done|]. discriminate Et. }
    do 3 f_equal. symmetry. apply map_filter_id. intros y v Hy Hv. cbn in Hv. subst v.
    apply Hby in Hy. rewrite Hnone in Hy. by apply not_elem_of_nil in Hy.
  - assert (Hds : forall y, y ∈ x :: l -> devices !! y = Some id).
    { intros y Hy. rewrite <- Et in Hy. apply Hby. apply elem_of_take in Hy as (i & Hi & _). by eapply list_elem_of_lookup_2. }
    destruct (IH (size (update_devices (x :: l) devices))
      ltac:(rewrite Hk; by apply (update_devices_size _ id)) (update_devices (x :: l) devices) eq_refl)
      as (fuel & d' & Heq & Hrest).
    exists (S fuel), d'. cbn [handleExpiredService head tail]. fold id. rewrite Et. split; [|done].
    rewrite Heq. by rewrite update_devices_without.
Qed.
End facts.
