(* ===== verification/IdFilter.v ===== *)
(** * Filters by identifier and version: src/snippet-service/pb/idfilter.go

    Normalizing and partitioning the filters of requests to the snippet
    service, and reading them from the strings of HTTP requests.  Sorting is
    the class [Slices]; the state of the loop of NormalizeIdFilter is a record
    of the variables its closures share. *)

From Stdlib Require Import ZArith Lia Ascii String.
From Stdlib Require Import Decimal DecimalString DecimalNat.
From S2P Require Import Prelude Commands SortedSlice Slices Subjects.

(** ** Data: snippet-service/pb/service.proto *)
Inductive IDFilter_Version :=
  | IDFilter_Value (value : Z)
  | IDFilter_All (all : bool)
  | IDFilter_Latest (latest : bool).
Record IDFilter := MkIDFilter { idf_Id : string; idf_Version : option IDFilter_Version }.

Definition idf_GetId (f : option IDFilter) : string := f ~> idf_Id.
Definition GetAll (f : option IDFilter) : bool :=
  match f ~> idf_Version with Some (IDFilter_All b) => b | _ => false end.
Definition GetLatest (f : option IDFilter) : bool :=
  match f ~> idf_Version with Some (IDFilter_Latest b) => b | _ => false end.
Definition GetValue (f : option IDFilter) : Z :=
  match f ~> idf_Version with Some (IDFilter_Value v) => v | _ => 0 end.

(** ** Normalizing *)
Definition compareIdFilter (i j : option IDFilter) : Z :=
  if negb (String.eqb (idf_GetId i) (idf_GetId j)) then strings_Compare (idf_GetId i) (idf_GetId j) else
  if GetAll i then (if GetAll j then 0 else -1) else
  if GetLatest i then (if GetAll j then 1 else if GetLatest j then 0 else -1) else
  if GetAll j || GetLatest j then 1 else
  cmp_Compare (GetValue i) (GetValue j).

Definition checkEmptyIdFilter (idfilter : list (option IDFilter)) : list (option IDFilter) :=
  match idfilter with
  | [] => []
  | first :: _ => if String.eqb (idf_GetId first) "" && GetAll first then [] else idfilter
  end.

Record norm_state := MkNormState {
  updatedFilter : list (option IDFilter);
  idAll : bool; idLatest : bool; idValue : bool; idValueVersion : Z;
  prevID : string }.

Definition setNextLatest (idf : option IDFilter) (s : norm_state) : norm_state :=
  if idLatest s then s
  else MkNormState (updatedFilter s ++ [idf]) (idAll s) true (idValue s) (idValueVersion s) (prevID s).
Definition setNextValue (idf : option IDFilter) (s : norm_state) : norm_state :=
  let value := GetValue idf in
  if idValue s && (value =? idValueVersion s)%Z then s
  else MkNormState (updatedFilter s ++ [idf]) (idAll s) (idLatest s) true value (prevID s).

(** The first statement of the body of the loop. *)
Definition nextID (idf : option IDFilter) (s : norm_state) : norm_state :=
  if negb (String.eqb (idf_GetId idf) (prevID s)) then
    MkNormState (updatedFilter s ++ [idf]) (GetAll idf) (GetLatest idf)
      (negb (GetAll idf) && negb (GetLatest idf)) (GetValue idf) (prevID s)
  else s.
Definition norm_step (s : norm_state) (idf : option IDFilter) : norm_state :=
  let s := nextID idf s in
  let s := if idAll s then s else if GetLatest idf then setNextLatest idf s else setNextValue idf s in
  MkNormState (updatedFilter s) (idAll s) (idLatest s) (idValue s) (idValueVersion s) (idf_GetId idf).
Definition norm_init : norm_state := MkNormState [] false false false 0 "".

Section slices.
Context `{!Slices}.

Definition NormalizeIdFilter (idfilter : list (option IDFilter)) : list (option IDFilter) :=
  let idfilter := checkEmptyIdFilter (SortFunc compareIdFilter idfilter) in
  if (length idfilter =? 0)%nat then []
  else updatedFilter (fold_left norm_step idfilter norm_init).

(** ** Partitioning *)
Record VersionFilter := MkVersionFilter {
  vf_All : list string; vf_Latest : list string; vf_Versions : gmap string (list Z) }.
Definition IsEmpty (vf : VersionFilter) : bool :=
  (length (vf_All vf) =? 0)%nat && (length (vf_Latest vf) =? 0)%nat && (size (vf_Versions vf) =? 0)%nat.

Definition hasAllIdsVersion (vf : VersionFilter) (version : Z) : bool :=
  match vf_Versions vf !! "" with
  | Some allVersions => bool_decide (version ∈ allVersions)
  | None => false
  end.

(** The state is the filter and the flag hasAllIdsLatest. *)
Definition partition_step (st : VersionFilter * bool) (idf : option IDFilter) : VersionFilter * bool :=
  let '(vf, hasAllIdsLatest) := st in
  if GetAll idf then
    (MkVersionFilter (vf_All vf ++ [idf_GetId idf]) (vf_Latest vf) (vf_Versions vf), hasAllIdsLatest)
  else if GetLatest idf then
    if hasAllIdsLatest then st
    else (MkVersionFilter (vf_All vf) (vf_Latest vf ++ [idf_GetId idf]) (vf_Versions vf),
          String.eqb (idf_GetId idf) "")
  else
    let version := GetValue idf in
    if hasAllIdsVersion vf version then st
    else
      let idVersions := default [] (vf_Versions vf !! idf_GetId idf) ++ [version] in
      (MkVersionFilter (vf_All vf) (vf_Latest vf) (<[idf_GetId idf := idVersions]> (vf_Versions vf)),
       hasAllIdsLatest).
Definition no_versions : VersionFilter := MkVersionFilter [] [] ∅.

Definition PartitionIDFilter (idfilter : list (option IDFilter)) : VersionFilter :=
  let idFilter := NormalizeIdFilter idfilter in
  if (length idFilter =? 0)%nat then no_versions
  else (fold_left partition_step idFilter (no_versions, false)).1.
End slices.

(** ** Filters of HTTP requests *)
(** strconv.ParseUint(v, 10, 64), without the kind of its error. *)
Definition digit (c : ascii) : option Z :=
  let n := Z.of_nat (nat_of_ascii c) in
  if ((48 <=? n) && (n <=? 57))%Z then Some (n - 48)%Z else None.
Fixpoint ParseUint_from (acc : Z) (v : string) : option Z :=
  match v with
  | EmptyString => Some acc
  | String c v =>
      match digit c with
      | None => None
      | Some d => if (2 ^ 64 <=? 10 * acc + d)%Z then None else ParseUint_from (10 * acc + d) v
      end
  end.
Definition ParseUint (v : string) : option Z :=
  match v with EmptyString => None | _ => ParseUint_from 0 v end.

Definition parseVersion (v : string) : option IDFilter_Version :=
  if String.eqb v "" || String.eqb v "all" then Some (IDFilter_All true)
  else if String.eqb v "latest" then Some (IDFilter_Latest true)
  else match ParseUint v with Some ver => Some (IDFilter_Value ver) | None => None end.

(** The loop that drops leading slashes. *)
Fixpoint trim_slashes (v : string) : string :=
  match v with
  | String c v' => if Ascii.eqb c "/" then trim_slashes v' else v
  | EmptyString => v
  end.

Definition idFilterFromString (v : string) : option IDFilter :=
  if String.eqb v "" then None else
  let v := trim_slashes v in
  match SplitN2 v with
  | [id; version] =>
      match parseVersion version with
      | None => None
      | Some ver => Some (MkIDFilter id (Some ver))
      end
  | _ =>
      match parseVersion v with
      | Some ver => Some (MkIDFilter "" (Some ver))
      | None => Some (MkIDFilter v (Some (IDFilter_All true)))
      end
  end.

Definition IDFilterFromString (f : list string) : list (option IDFilter) :=
  Some <$> omap idFilterFromString f.

(** The filters of a request: those of the field and those of HTTP, which
    src/snippet-service/service/grpc/server.go appends. *)
Definition requestIdFilter (idFilter : list (option IDFilter)) (httpIdFilter : list string)
    : list (option IDFilter) := idFilter ++ IDFilterFromString httpIdFilter.

(** ** What a filter selects *)
(** The identifier, the version, and whether it is the latest of its document. *)
Definition selects (f : option IDFilter) (id : string) (v : Z) (latest : bool) : Prop :=
  (idf_GetId f = "" \/ idf_GetId f = id) /\
  if GetAll f then True else if GetLatest f then latest = true else v = GetValue f.
Definition wanted (fs : list (option IDFilter)) (id : string) (v : Z) (latest : bool) : Prop :=
  fs = [] \/ exists f, f ∈ fs /\ selects f id v latest.
(** What the readers of a VersionFilter do with it: everything if it is empty. *)
Definition vf_selects (vf : VersionFilter) (id : string) (v : Z) (latest : bool) : Prop :=
  IsEmpty vf = true \/
  exists i, (i = "" \/ i = id) /\
    (i ∈ vf_All vf \/ (latest = true /\ i ∈ vf_Latest vf) \/
     exists vs, vf_Versions vf !! i = Some vs /\ v ∈ vs).

(** [g] selects everything that [f] selects. *)
Definition subsumes (g f : option IDFilter) : Prop :=
  forall id v latest, selects f id v latest -> selects g id v latest.

Lemma selects_latest_all f : GetLatest f = true -> GetAll f = false.
Proof. unfold GetLatest, GetAll. by destruct f as [[? [[]|]]|]. Qed.

(** *** The order *)
Definition rank (f : option IDFilter) : Z := if GetAll f then 0 else if GetLatest f then 1 else 2.
Definition the_value (f : option IDFilter) : Z := if (rank f =? 2)%Z then GetValue f else 0.
Lemma compareIdFilter_key i j :
  compareIdFilter i j =
  if negb (String.eqb (idf_GetId i) (idf_GetId j)) then strings_Compare (idf_GetId i) (idf_GetId j)
  else if negb (rank i =? rank j)%Z then cmp_Compare (rank i) (rank j)
  else cmp_Compare (the_value i) (the_value j).
Proof.
  unfold compareIdFilter, the_value, rank. destruct (negb (String.eqb _ _)); [done|].
  pose proof (selects_latest_all i). pose proof (selects_latest_all j).
  destruct (GetAll i) eqn:?, (GetAll j) eqn:?, (GetLatest i) eqn:?, (GetLatest j) eqn:?;
    try done; naive_solver.
Qed.

Lemma cmp_Compare_weak : weak_order cmp_Compare.
Proof.
  split; unfold cmp_Compare; intros;
    repeat match goal with |- context [(?a <? ?b)%Z] => destruct (Z.ltb_spec a b)
           | H : context [(?a <? ?b)%Z] |- _ => destruct (Z.ltb_spec a b) end; lia.
Qed.
Lemma compareIdFilter_weak : weak_order compareIdFilter.
Proof.
  destruct strings_Compare_weak as [S1 S2]. destruct cmp_Compare_weak as [C1 C2]. split.
  - intros i j. rewrite !compareIdFilter_key, (String.eqb_sym (idf_GetId j)), (Z.eqb_sym (rank j)).
    destruct (String.eqb _ _); cbn [negb]; [|apply S1]. destruct (rank i =? rank j)%Z; apply C1.
  - intros i j k. rewrite !compareIdFilter_key.
    destruct (String.eqb_spec (idf_GetId i) (idf_GetId j)) as [->|Hij],
      (String.eqb_spec (idf_GetId j) (idf_GetId k)) as [<-|Hjk]; cbn [negb];
      rewrite ?String.eqb_refl; cbn [negb].
    + destruct (Z.eqb_spec (rank i) (rank j)) as [->|Hij], (Z.eqb_spec (rank j) (rank k)) as [<-|Hjk];
        cbn [negb]; rewrite ?Z.eqb_refl; cbn [negb].
      * apply C2.
      * auto.
      * rewrite (proj2 (Z.eqb_neq _ _) Hij). auto.
      * intros H1 H2. destruct (Z.eqb_spec (rank i) (rank k)) as [Heq|]; cbn [negb]; [|by eapply C2].
        exfalso. rewrite Heq in *. unfold cmp_Compare in *.
        repeat match goal with H : context [(?a <? ?b)%Z] |- _ => destruct (Z.ltb_spec a b) end; lia.
    + auto.
    + rewrite (proj2 (String.eqb_neq _ _) Hij). auto.
    + intros H1 H2. destruct (String.eqb_spec (idf_GetId i) (idf_GetId k)) as [Heq|]; cbn [negb]; [|by eapply S2].
      exfalso. rewrite Heq in *. apply Hij, (anti_symm String.le); by apply strings_Compare_le.
Qed.

(** *** The loop of NormalizeIdFilter *)
Definition has (s : norm_state) (id : string) (P : option IDFilter -> Prop) : Prop :=
  exists u, u ∈ updatedFilter s /\ idf_GetId u = id /\ P u.
(** The flags tell what is there for an identifier. *)
Record flags_ok (s : norm_state) (id : string) : Prop := {
  fl_all : idAll s = true -> has s id (fun u => GetAll u = true);
  fl_latest : idLatest s = true -> has s id (fun u => GetLatest u = true);
  fl_value : idValue s = true -> has s id (fun u => rank u = 2%Z /\ GetValue u = idValueVersion s) }.
Record norm_inv (P : list (option IDFilter)) (s : norm_state) : Prop := {
  ni_from : forall u, u ∈ updatedFilter s -> u ∈ P;
  ni_cover : forall f, f ∈ P -> exists u, u ∈ updatedFilter s /\ subsumes u f;
  ni_flags : flags_ok s (prevID s) }.

Lemma subsumes_refl f : subsumes f f.
Proof. by intros id v l Hs. Qed.
Lemma subsumes_all u f : idf_GetId u = idf_GetId f -> GetAll u = true -> subsumes u f.
Proof. intros Hid Ha id v l [Hf _]. unfold selects. by rewrite Hid, Ha. Qed.
Lemma subsumes_latest u f :
  idf_GetId u = idf_GetId f -> GetLatest u = true -> GetLatest f = true -> subsumes u f.
Proof.
  intros Hid Hu Hf id v l. unfold selects.
  by rewrite Hid, Hu, Hf, (selects_latest_all u Hu), (selects_latest_all f Hf).
Qed.
Lemma rank_2 f : rank f = 2%Z -> GetAll f = false /\ GetLatest f = false.
Proof. unfold rank. by destruct (GetAll f), (GetLatest f). Qed.
Lemma subsumes_value u f :
  idf_GetId u = idf_GetId f -> rank u = 2%Z -> rank f = 2%Z -> GetValue u = GetValue f -> subsumes u f.
Proof.
  intros Hid [Hu1 Hu2]%rank_2 [Hf1 Hf2]%rank_2 Hv id v l. unfold selects.
  by rewrite Hid, Hu1, Hu2, Hf1, Hf2, Hv.
Qed.

Lemma has_snoc s id P idf U a l v n p :
  updatedFilter s = U -> has s id P -> has (MkNormState (U ++ [idf]) a l v n p) id P.
Proof. intros <- (u & Hu & HP). exists u. split; [apply elem_of_app; by left|done]. Qed.
Lemma has_new s idf (P : option IDFilter -> Prop) a l v n p :
  P idf -> has (MkNormState (updatedFilter s ++ [idf]) a l v n p) (idf_GetId idf) P.
Proof. intros HP. exists idf. split; [apply elem_of_app; right; by left|done]. Qed.
Lemma elem_of_snoc {A} (x y : A) l : x ∈ l ++ [y] <-> x ∈ l \/ x = y.
Proof. by rewrite elem_of_app, list_elem_of_singleton. Qed.

(** Between the first statement and the end of the body, the flags are about
    the identifier of the filter at hand. *)
Record body_inv (P : list (option IDFilter)) (idf : option IDFilter) (s : norm_state) : Prop := {
  bi_from : forall u, u ∈ updatedFilter s -> u ∈ P ++ [idf];
  bi_cover : forall f, f ∈ P -> exists u, u ∈ updatedFilter s /\ subsumes u f;
  bi_flags : flags_ok s (idf_GetId idf) }.

Lemma nextID_inv P idf s :
  norm_inv P s -> (GetAll idf = true -> idf_GetId idf = prevID s -> idAll s = true) ->
  body_inv P idf (nextID idf s) /\ (GetAll idf = true -> idAll (nextID idf s) = true).
Proof.
  intros [Hfrom Hcover Hfl] Hall. unfold nextID.
  destruct (String.eqb_spec (idf_GetId idf) (prevID s)) as [Heq|Hne]; cbn [negb].
  - split; [|by auto]. split; [|done|by rewrite Heq]. intros u Hu. apply elem_of_snoc. auto.
  - split; [|done]. split; cbn [updatedFilter].
    + intros u. rewrite !elem_of_snoc. naive_solver.
    + intros f Hf. destruct (Hcover f Hf) as (u & Hu & Hs). exists u. split; [apply elem_of_snoc; by left|done].
    + split; cbn [idAll idLatest idValue idValueVersion]; intros Ht; apply has_new; [done|done|].
      split; [|done]. unfold rank. by destruct (GetAll idf), (GetLatest idf).
Qed.

Section body.
Context (P : list (option IDFilter)) (idf : option IDFilter) (s : norm_state).
Context (Hbody : body_inv P idf s) (Hall : GetAll idf = true -> idAll s = true).

Lemma body_skip :
  (exists u, u ∈ updatedFilter s /\ subsumes u idf) ->
  norm_inv (P ++ [idf]) (MkNormState (updatedFilter s) (idAll s) (idLatest s) (idValue s)
                            (idValueVersion s) (idf_GetId idf)).
Proof.
  destruct Hbody as [Hfrom Hcover [H1 H2 H3]]. intros Hu. split; [done| |by split].
  intros f. rewrite elem_of_snoc. intros [Hf| ->]; [by apply Hcover|done].
Qed.

Lemma body_add l v n :
  (l = true -> GetLatest idf = true \/ idLatest s = true) ->
  (v = true -> (rank idf = 2%Z /\ n = GetValue idf) \/ (idValue s = true /\ n = idValueVersion s)) ->
  norm_inv (P ++ [idf]) (MkNormState (updatedFilter s ++ [idf]) (idAll s) l v n (idf_GetId idf)).
Proof.
  destruct Hbody as [Hfrom Hcover [H1 H2 H3]]. intros Hl Hv. split; cbn [updatedFilter].
  - intros u. rewrite !elem_of_snoc. intros [Hu| ->]; [|by right].
    apply elem_of_snoc. by apply Hfrom.
  - intros f. rewrite elem_of_snoc. intros [Hf| ->].
    + destruct (Hcover f Hf) as (u & Hu & Hs). exists u. split; [apply elem_of_snoc; by left|done].
    + exists idf. rewrite elem_of_snoc. split; [by right|apply subsumes_refl].
  - split; cbn [idAll idLatest idValue idValueVersion prevID]; intros Ht.
    + by eapply has_snoc; [|apply H1].
    + destruct (Hl Ht) as [Hi|Hi]; [by apply has_new|by eapply has_snoc; [|apply H2]].
    + destruct (Hv Ht) as [[Hr ->]|[Hi ->]]; [by apply has_new|by eapply has_snoc; [|apply H3]].
Qed.

Lemma body_rest :
  let s' := if idAll s then s else if GetLatest idf then setNextLatest idf s else setNextValue idf s in
  norm_inv (P ++ [idf]) (MkNormState (updatedFilter s') (idAll s') (idLatest s') (idValue s')
                            (idValueVersion s') (idf_GetId idf)) /\
  (GetAll idf = true -> idAll s' = true).
Proof.
  pose proof (bi_flags _ _ _ Hbody) as [H1 H2 H3]. destruct (idAll s) eqn:Ea; cbv zeta.
  { split; [|done]. apply body_skip. destruct (H1 eq_refl) as (u & Hu & Hid & Hu1). exists u.
    split; [done|]. by apply subsumes_all. }
  assert (Ha : GetAll idf = false) by (destruct (GetAll idf); [by discriminate Hall|done]).
  split; [|congruence]. destruct (GetLatest idf) eqn:El.
  - unfold setNextLatest. destruct (idLatest s) eqn:Es.
    + apply body_skip. destruct (H2 eq_refl) as (u & Hu & Hid & Hlat). exists u.
      split; [done|]. by apply subsumes_latest.
    + cbn [updatedFilter idAll idLatest idValue idValueVersion]. apply body_add; auto.
  - assert (Hr : rank idf = 2%Z) by (unfold rank; by rewrite Ha, El).
    unfold setNextValue. destruct (idValue s && _) eqn:Es.
    + apply andb_true_iff in Es as [Es Ev]. apply Z.eqb_eq in Ev. apply body_skip.
      destruct (H3 Es) as (u & Hu & Hid & Hru & Hval). exists u. split; [done|].
      apply subsumes_value; [done|done|done|congruence].
    + cbn [updatedFilter idAll idLatest idValue idValueVersion]. apply body_add; auto.
Qed.
End body.

(** The filter before, and what the loop knows about it. *)
Definition last_ok (P : list (option IDFilter)) (s : norm_state) : Prop :=
  match last P with
  | None => prevID s = ""
  | Some x => prevID s = idf_GetId x /\ (GetAll x = true -> idAll s = true)
  end.

Lemma norm_step_inv P s idf :
  norm_inv P s -> (GetAll idf = true -> idf_GetId idf = prevID s -> idAll s = true) ->
  norm_inv (P ++ [idf]) (norm_step s idf) /\ last_ok (P ++ [idf]) (norm_step s idf).
Proof.
  intros Hinv Hall. destruct (nextID_inv P idf s Hinv Hall) as [Hb Ha].
  destruct (body_rest P idf (nextID idf s) Hb Ha) as [Hn Hl].
  split; [exact Hn|]. unfold last_ok. rewrite last_snoc. split; [done|exact Hl].
Qed.

Lemma same_id_all x idf :
  (compareIdFilter x idf <= 0)%Z -> idf_GetId idf = idf_GetId x -> GetAll idf = true -> GetAll x = true.
Proof.
  rewrite compareIdFilter_key. intros Hle Heq Ha. rewrite Heq, String.eqb_refl in Hle. cbn [negb] in Hle.
  unfold rank in Hle. rewrite Ha in Hle. destruct (GetAll x); [done|].
  destruct (GetLatest x); by vm_compute in Hle.
Qed.

Lemma norm_loop P s l :
  StronglySorted (fun x y => (compareIdFilter x y <= 0)%Z) (P ++ l) ->
  (forall f, head l = Some f -> P = [] -> ~ (idf_GetId f = "" /\ GetAll f = true)) ->
  norm_inv P s -> last_ok P s -> norm_inv (P ++ l) (fold_left norm_step l s).
Proof.
  revert P s. induction l as [|idf l IH]; intros P s Hs Hhd Hinv Hlast; [by rewrite app_nil_r|].
  cbn [fold_left]. replace (P ++ idf :: l) with ((P ++ [idf]) ++ l) in * by (by rewrite <- app_assoc).
  destruct (norm_step_inv P s idf) as [Hinv' Hlast']; [done| |].
  - intros Ha Hid. unfold last_ok in Hlast. destruct P as [|x P'] using rev_ind.
    + exfalso. cbn in Hlast. apply (Hhd idf); [done|done|]. rewrite Hid. by split.
    + rewrite last_snoc in Hlast. destruct Hlast as [Hp Hx]. apply Hx.
      apply (same_id_all x idf); [|congruence|done].
      rewrite <- !app_assoc in Hs. apply StronglySorted_app_1_r in Hs. cbn in Hs.
      apply StronglySorted_inv in Hs as [_ Hs]. by apply Forall_cons in Hs as [Hs _].
  - apply IH; [done| |done|done]. intros f _ Hnil. by destruct P.
Qed.

Section laws.
Context `{!Slices} `{!SlicesLaws}.

(** The normalized filters select what the filters select. *)
Lemma NormalizeIdFilter_wanted fs id v latest :
  wanted (NormalizeIdFilter fs) id v latest <-> wanted fs id v latest.
Proof.
  unfold NormalizeIdFilter. pose proof (SortFunc_perm compareIdFilter fs) as Hp.
  pose proof (SortFunc_sorted compareIdFilter fs compareIdFilter_weak) as Hs.
  assert (Hw : wanted fs id v latest <-> wanted (SortFunc compareIdFilter fs) id v latest).
  { unfold wanted. split; intros [He|(f & Hf & Hx)].
    - left. rewrite He in Hp |- *. by apply Permutation_nil_r in Hp.
    - right. exists f. by rewrite Hp.
    - left. rewrite He in Hp. by apply Permutation_nil_l in Hp.
    - right. exists f. by rewrite <- Hp. }
  rewrite Hw. clear Hw Hp. destruct (SortFunc compareIdFilter fs) as [|first l] eqn:E; [done|].
  cbn [checkEmptyIdFilter]. destruct (String.eqb (idf_GetId first) "" && GetAll first) eqn:Ef.
  { cbn. split; [|by left]. intros _. right. exists first. split; [by left|].
    apply andb_true_iff in Ef as [Hid Ha]. apply String.eqb_eq in Hid. unfold selects. rewrite Ha.
    split; [by left|done]. }
  cbn [length Nat.eqb]. destruct (norm_loop [] norm_init (first :: l)) as [Hfrom Hcover _].
  - done.
  - intros f [= <-] _ [Hid Ha]. by rewrite Hid, Ha in Ef.
  - split; [set_solver|set_solver|by split].
  - done.
  - cbn [app] in *. set (l' := updatedFilter _) in *. unfold wanted. split.
    + intros [He|(u & Hu & Hx)]; right.
      * destruct (Hcover first) as (u & Hu & _); [by left|]. rewrite He in Hu.
        by apply not_elem_of_nil in Hu.
      * exists u. split; [by apply Hfrom|done].
    + intros [He|(f & Hf & Hx)]; right; [done|]. destruct (Hcover f Hf) as (u & Hu & Hsub).
      exists u. split; [done|by apply Hsub].
Qed.

(** *** The loop of PartitionIDFilter *)
Definition entry (vf : VersionFilter) (i : string) (v : Z) (latest : bool) : Prop :=
  i ∈ vf_All vf \/ (latest = true /\ i ∈ vf_Latest vf) \/
  exists vs, vf_Versions vf !! i = Some vs /\ v ∈ vs.
Record part_inv (P : list (option IDFilter)) (st : VersionFilter * bool) : Prop := {
  pi_from : forall i v latest, entry st.1 i v latest ->
    exists f, f ∈ P /\ idf_GetId f = i /\ selects f i v latest;
  pi_cover : forall f id v latest, f ∈ P -> selects f id v latest ->
    exists i, (i = "" \/ i = id) /\ entry st.1 i v latest;
  pi_flag : st.2 = true -> "" ∈ vf_Latest st.1 }.

Lemma entry_all vf i j v latest ls vs :
  entry (MkVersionFilter (vf_All vf ++ [j]) ls vs) i v latest <->
  i = j \/ entry (MkVersionFilter (vf_All vf) ls vs) i v latest.
Proof. unfold entry. cbn. rewrite elem_of_snoc. tauto. Qed.
Lemma entry_latest vf i j v latest al vs :
  entry (MkVersionFilter al (vf_Latest vf ++ [j]) vs) i v latest <->
  (latest = true /\ i = j) \/ entry (MkVersionFilter al (vf_Latest vf) vs) i v latest.
Proof. unfold entry. cbn. rewrite elem_of_snoc. tauto. Qed.
Lemma entry_version vf i j w v latest al ls :
  entry (MkVersionFilter al ls
    (<[j := default [] (vf_Versions vf !! j) ++ [w]]> (vf_Versions vf))) i v latest <->
  (v = w /\ i = j) \/ entry (MkVersionFilter al ls (vf_Versions vf)) i v latest.
Proof.
  unfold entry. cbn. destruct (decide (i = j)) as [->|Hne].
  - rewrite lookup_insert_eq. split.
    + intros [?|[?|(vs & [= <-] & Hv)]]; [auto..|]. apply elem_of_snoc in Hv as [Hv|Hv]; [|auto].
      right. right. right. destruct (vf_Versions vf !! j) as [vs|]; [by exists vs|].
      by apply not_elem_of_nil in Hv.
    + intros [[-> _]|[?|[?|(vs & Hj & Hv)]]]; [|auto..]; right; right; eexists; (split; [done|]);
        apply elem_of_snoc; [by right|left]. by rewrite Hj.
  - rewrite lookup_insert_ne by done. split; [auto|]. intros [[_ ->]|He]; [done|done].
Qed.

Lemma selects_own f v latest :
  selects f (idf_GetId f) v latest <->
  (if GetAll f then True else if GetLatest f then latest = true else v = GetValue f).
Proof. unfold selects. split; [by intros [_ Hx]|auto]. Qed.

Lemma part_step_inv P st f : part_inv P st -> part_inv (P ++ [f]) (partition_step st f).
Proof.
  destruct st as [vf b]. intros [Hfrom Hcover Hflag]. cbn [fst snd] in *.
  assert (Hfrom' : forall i v latest, entry vf i v latest ->
    exists g, g ∈ P ++ [f] /\ idf_GetId g = i /\ selects g i v latest).
  { intros i v l He. destruct (Hfrom i v l He) as (g & Hg & Hx). exists g.
    split; [apply elem_of_snoc; by left|done]. }
  assert (Hnew : forall v latest, selects f (idf_GetId f) v latest ->
    exists g, g ∈ P ++ [f] /\ idf_GetId g = idf_GetId f /\ selects g (idf_GetId f) v latest).
  { intros v l Hs. exists f. split; [apply elem_of_snoc; by right|done]. }
  unfold partition_step. destruct (GetAll f) eqn:Ea; [|destruct (GetLatest f) eqn:El; [destruct b|]].
  - split; cbn [fst snd]; [| |done].
    + intros i v l. rewrite entry_all. intros [->|He]; [|by apply Hfrom'].
      apply Hnew, selects_own. by rewrite Ea.
    + intros g id v l. rewrite elem_of_snoc. intros [Hg| ->] Hs.
      * destruct (Hcover g id v l Hg Hs) as (i & Hi & He). exists i. rewrite entry_all. auto.
      * exists (idf_GetId f). rewrite entry_all. split; [apply Hs|by left].
  - split; cbn [fst snd]; [done| |done].
    intros g id v l. rewrite elem_of_snoc. intros [Hg| ->] Hs; [by eapply Hcover|].
    exists "". split; [by left|]. right. left. split; [|by apply Hflag].
    unfold selects in Hs. rewrite Ea, El in Hs. apply Hs.
  - split; cbn [fst snd].
    + intros i v l. rewrite entry_latest. intros [[-> ->]|He]; [|by apply Hfrom'].
      apply Hnew, selects_own. by rewrite Ea, El.
    + intros g id v l. rewrite elem_of_snoc. intros [Hg| ->] Hs.
      * destruct (Hcover g id v l Hg Hs) as (i & Hi & He). exists i. rewrite entry_latest. auto.
      * exists (idf_GetId f). rewrite entry_latest. unfold selects in Hs. rewrite Ea, El in Hs.
        destruct Hs as [Hi Hl]. split; [done|by left].
    + intros Hid%String.eqb_eq. cbn. apply elem_of_snoc. right. by rewrite Hid.
  - unfold hasAllIdsVersion. destruct (vf_Versions vf !! "") as [vs|] eqn:Ev;
      [destruct (bool_decide_reflect (GetValue f ∈ vs)) as [Hin|_]|].
    { split; cbn [fst snd]; [done| |done].
      intros g id v l. rewrite elem_of_snoc. intros [Hg| ->] Hs; [by eapply Hcover|].
      exists "". split; [by left|]. right. right. exists vs. split; [done|].
      unfold selects in Hs. rewrite Ea, El in Hs. destruct Hs as [_ ->]. done. }
    all: split; cbn [fst snd]; [| |done].
    1,3: intros i v l; rewrite entry_version; intros [[-> ->]|He]; [|by apply Hfrom'];
      apply Hnew, selects_own; by rewrite Ea, El.
    all: intros g id v l; rewrite elem_of_snoc; intros [Hg| ->] Hs;
      [destruct (Hcover g id v l Hg Hs) as (i & Hi & He); exists i; rewrite entry_version; auto|].
    all: exists (idf_GetId f); rewrite entry_version; unfold selects in Hs; rewrite Ea, El in Hs;
      destruct Hs as [Hi Hl]; split; [done|by left].
Qed.

Lemma part_loop P st l : part_inv P st -> part_inv (P ++ l) (fold_left partition_step l st).
Proof.
  revert P st. induction l as [|f l IH]; intros P st Hinv; [by rewrite app_nil_r|].
  cbn [fold_left]. replace (P ++ f :: l) with ((P ++ [f]) ++ l) by (by rewrite <- app_assoc).
  by apply IH, part_step_inv.
Qed.

Lemma entry_not_empty vf i v latest : entry vf i v latest -> IsEmpty vf = false.
Proof.
  unfold IsEmpty, entry. intros [Hi|[[_ Hi]|(vs & Hi & _)]].
  - by destruct (vf_All vf); [apply not_elem_of_nil in Hi|].
  - destruct (vf_Latest vf); [by apply not_elem_of_nil in Hi|]. cbn. by rewrite andb_false_r.
  - destruct (Nat.eqb_spec (size (vf_Versions vf)) 0) as [He|]; [|by rewrite andb_false_r].
    apply map_size_empty_inv in He. rewrite He in Hi. by rewrite lookup_empty in Hi.
Qed.

Lemma PartitionIDFilter_vf_selects fs id v latest :
  vf_selects (PartitionIDFilter fs) id v latest <-> wanted fs id v latest.
Proof.
  rewrite <- NormalizeIdFilter_wanted. unfold PartitionIDFilter.
  destruct (NormalizeIdFilter fs) as [|f l] eqn:E; cbn [length Nat.eqb].
  { split; by left. }
  destruct (part_loop [] (no_versions, false) (f :: l)) as [Hfrom Hcover _].
  { split; [|by intros ? ? ? ? ?%not_elem_of_nil|done].
    by intros i w b [?%not_elem_of_nil|[[_ ?%not_elem_of_nil]|(vs & Hi & _)]]. }
  cbn [app] in *. set (st := fold_left _ _ _) in *. unfold wanted, vf_selects. split.
  - intros [He|(i & Hi & Hent)].
    + exfalso. assert (Hs : exists w b, selects f (idf_GetId f) w b).
      { exists (GetValue f), true. apply selects_own. by destruct (GetAll f), (GetLatest f). }
      destruct Hs as (w & b & Hs). destruct (Hcover f (idf_GetId f) w b) as (i & _ & Hent); [by left|done|].
      apply entry_not_empty in Hent. congruence.
    + right. destruct (Hfrom i v latest Hent) as (g & Hg & Hid & [_ Hs]). exists g. split; [done|].
      split; [by rewrite Hid|done].
  - intros [|(g & Hg & Hs)]; [done|]. right. by eapply Hcover.
Qed.

(** A partitioned filter selects exactly what the filters of the request
    select; none of them, or one for all versions of all documents, selects
    everything. *)
Theorem PartitionIDFilter_selects fs id v latest :
  vf_selects (PartitionIDFilter fs) id v latest <-> wanted fs id v latest.
Proof. apply PartitionIDFilter_vf_selects. Qed.

(** *** The empty identifier stands alone *)
Lemma norm_sorted P s l :
  StronglySorted (fun x y => (compareIdFilter x y <= 0)%Z) (P ++ l) ->
  StronglySorted (fun x y => (compareIdFilter x y <= 0)%Z) (updatedFilter s) ->
  (forall u, u ∈ updatedFilter s -> u ∈ P) ->
  StronglySorted (fun x y => (compareIdFilter x y <= 0)%Z) (updatedFilter (fold_left norm_step l s)).
Proof.
  revert P s. induction l as [|f l IH]; intros P s Hs Hu Hin; [done|]. cbn [fold_left].
  assert (Hself : forall x, (compareIdFilter x x <= 0)%Z).
  { intros x. destruct compareIdFilter_weak as [H1 _]. specialize (H1 x x). lia. }
  assert (Hadd : forall U, StronglySorted (fun x y => (compareIdFilter x y <= 0)%Z) U ->
    (forall u, u ∈ U -> u ∈ P ++ [f]) ->
    StronglySorted (fun x y => (compareIdFilter x y <= 0)%Z) (U ++ [f]) /\
    forall u, u ∈ U ++ [f] -> u ∈ P ++ [f]).
  { intros U HU HinU. split.
    - apply StronglySorted_app. split_and!; [|done|repeat constructor].
      intros x y Hx ->%list_elem_of_singleton. apply HinU, elem_of_snoc in Hx as [Hx| ->]; [|done].
      apply StronglySorted_app in Hs as (Hs & _ & _). apply Hs; [done|by left].
    - intros u. rewrite !elem_of_snoc. intros [Hu'| ->]; [|by right]. by apply elem_of_snoc, HinU. }
  assert (Hstep : StronglySorted (fun x y => (compareIdFilter x y <= 0)%Z) (updatedFilter (norm_step s f)) /\
    forall u, u ∈ updatedFilter (norm_step s f) -> u ∈ P ++ [f]).
  { assert (Hn : StronglySorted (fun x y => (compareIdFilter x y <= 0)%Z) (updatedFilter (nextID f s)) /\
      forall u, u ∈ updatedFilter (nextID f s) -> u ∈ P ++ [f]).
    { unfold nextID. assert (Hin' : forall u, u ∈ updatedFilter s -> u ∈ P ++ [f])
        by (intros u Hu'; apply elem_of_snoc; left; by apply Hin).
      destruct (negb _); [by apply Hadd|by split]. }
    destruct Hn as [Hn1 Hn2]. unfold norm_step, setNextLatest, setNextValue.
    repeat case_match; cbn [updatedFilter]; first [by split|by apply Hadd]. }
  destruct Hstep as [H1 H2]. apply (IH (P ++ [f])); [by rewrite <- app_assoc|done|done].
Qed.

Definition ids_ok (vf : VersionFilter) : Prop :=
  ("" ∉ vf_All vf) /\ ("" ∈ vf_Latest vf -> vf_Latest vf = [""]).

Lemma NormalizeIdFilter_sorted fs :
  StronglySorted (fun x y => (compareIdFilter x y <= 0)%Z) (NormalizeIdFilter fs) /\
  forall f, f ∈ NormalizeIdFilter fs -> ~ (idf_GetId f = "" /\ GetAll f = true).
Proof.
  unfold NormalizeIdFilter. pose proof (SortFunc_sorted compareIdFilter fs compareIdFilter_weak) as Hs.
  destruct (SortFunc compareIdFilter fs) as [|first l] eqn:E.
  { split; [constructor|by intros f ?%not_elem_of_nil]. }
  cbn [checkEmptyIdFilter]. destruct (String.eqb (idf_GetId first) "" && GetAll first) eqn:Ef.
  { split; [constructor|by intros f ?%not_elem_of_nil]. }
  cbn [length Nat.eqb].
  assert (Hnone : forall f, f ∈ first :: l -> ~ (idf_GetId f = "" /\ GetAll f = true)).
  { intros f Hf [Hid Ha]. assert (Hle : first = f \/ (compareIdFilter first f <= 0)%Z).
    { apply elem_of_cons in Hf as [->|Hf]; [by left|right]. apply StronglySorted_inv in Hs as [_ Hs].
      rewrite Forall_forall in Hs. by apply Hs. }
    assert (Hfirst : idf_GetId first = "" /\ GetAll first = true).
    { destruct Hle as [->|Hle]; [done|]. assert (Hid' : idf_GetId first = "").
      { rewrite compareIdFilter_key in Hle. destruct (String.eqb_spec (idf_GetId first) (idf_GetId f)) as [->|Hne]; [done|].
        cbn [negb] in Hle. apply strings_Compare_le in Hle. rewrite Hid in Hle.
        destruct (idf_GetId first); [done|]. by destruct Hle. }
      split; [done|]. by apply (same_id_all first f); [|congruence|]. }
    destruct Hfirst as [Hfi Hfa]. by rewrite Hfi, Hfa in Ef. }
  split.
  - apply (norm_sorted [] norm_init (first :: l)); [done|constructor|by intros u ?%not_elem_of_nil].
  - intros f Hf. apply Hnone. destruct (norm_loop [] norm_init (first :: l)) as [Hfrom _ _].
    + done.
    + intros g [= <-] _. apply Hnone. by left.
    + split; [set_solver|set_solver|by split].
    + done.
    + by apply Hfrom.
Qed.

Lemma part_ids P st l :
  StronglySorted (fun x y => (compareIdFilter x y <= 0)%Z) (P ++ l) ->
  (forall f, f ∈ P ++ l -> ~ (idf_GetId f = "" /\ GetAll f = true)) ->
  part_inv P st -> ids_ok st.1 -> (st.2 = true <-> "" ∈ vf_Latest st.1) ->
  ids_ok (fold_left partition_step l st).1.
Proof.
  revert P st. induction l as [|f l IH]; intros P [vf b] Hs Hno Hinv Hok Hb; [done|]. cbn [fold_left].
  cbn [fst snd] in *.
  assert (Hf : ~ (idf_GetId f = "" /\ GetAll f = true)) by (apply Hno, elem_of_app; right; by left).
  assert (Hstep : ids_ok (partition_step (vf, b) f).1 /\
    ((partition_step (vf, b) f).2 = true <-> "" ∈ vf_Latest (partition_step (vf, b) f).1)).
  { destruct Hok as [Hall Hlat]. unfold partition_step.
    destruct (GetAll f) eqn:Ea; [|destruct (GetLatest f) eqn:El; [destruct b|]].
    - split; [|done]. split; [|done]. cbn. rewrite elem_of_snoc. intros [?|He]; [done|].
      by apply Hf.
    - by split.
    - assert (Hne : "" ∉ vf_Latest vf) by (intros Hin; by apply Hb in Hin). cbn [fst snd vf_Latest].
      rewrite elem_of_snoc, String.eqb_eq. split; [|naive_solver]. split; [done|]. cbn [vf_Latest].
      rewrite elem_of_snoc. intros [?|He]; [done|]. rewrite <- He.
      destruct (vf_Latest vf) as [|i ids] eqn:E; [done|]. exfalso. apply Hne.
      destruct (pi_from _ _ Hinv i 0%Z true) as (g & Hg & Hid & _).
      { right. left. cbn. rewrite E. split; [done|by left]. }
      apply StronglySorted_app in Hs as (Hs & _ & _). specialize (Hs g f Hg ltac:(by left)).
      rewrite compareIdFilter_key in Hs.
      destruct (String.eqb_spec (idf_GetId g) (idf_GetId f)) as [Heq|Hne']; cbn [negb] in Hs.
      + rewrite He, <- Heq, Hid. by left.
      + apply strings_Compare_le in Hs. rewrite <- He in Hs.
        destruct (idf_GetId g) as [|c u]; [rewrite <- Hid; by left|]. by destruct Hs.
    - cbn zeta. destruct (hasAllIdsVersion vf _); (split; [split; done|done]). }
  destruct Hstep as [H1 H2]. apply (IH (P ++ [f])); [by rewrite <- app_assoc|by rewrite <- app_assoc| |done|done].
  by apply part_step_inv.
Qed.

Lemma PartitionIDFilter_ids fs : ids_ok (PartitionIDFilter fs).
Proof.
  unfold PartitionIDFilter. destruct (NormalizeIdFilter_sorted fs) as [Hs Hno].
  destruct (NormalizeIdFilter fs) as [|f l]; cbn [length Nat.eqb].
  { split; [apply not_elem_of_nil|by intros ?%not_elem_of_nil]. }
  apply (part_ids []); [done|done| |split; [apply not_elem_of_nil|by intros ?%not_elem_of_nil]|].
  - split; [|by intros ? ? ? ? ?%not_elem_of_nil|done].
    by intros i w b [?%not_elem_of_nil|[[_ ?%not_elem_of_nil]|(vs & Hi & _)]].
  - split; [done|by intros ?%not_elem_of_nil].
Qed.

(** Filters of HTTP that cannot be read are dropped. *)
Lemma unreadable_filters_nil hs :
  Forall (fun h => idFilterFromString h = None) hs -> requestIdFilter [] hs = [].
Proof.
  unfold requestIdFilter, IDFilterFromString. induction 1 as [|h hs Hh _ IH]; [done|]. cbn. by rewrite Hh.
Qed.
End laws.

(** ** Reading what is printed *)
(** The format that the comments of service.proto give: [{id}/{version}]. *)
Definition print_version (v : IDFilter_Version) : string :=
  match v with
  | IDFilter_All _ => "all"
  | IDFilter_Latest _ => "latest"
  | IDFilter_Value n => NilEmpty.string_of_uint (Nat.to_uint (Z.to_nat n))
  end.
Definition print_filter (f : IDFilter) : string :=
  idf_Id f +:+ "/" +:+ match idf_Version f with Some v => print_version v | None => "" end.

Lemma ParseUint_from_uint d acc :
  (Z.of_nat (Nat.of_uint_acc d acc) < 2 ^ 64)%Z ->
  ParseUint_from (Z.of_nat acc) (NilEmpty.string_of_uint d) = Some (Z.of_nat (Nat.of_uint_acc d acc)).
Proof.
  assert (Hmono : forall d acc, acc <= Nat.of_uint_acc d acc).
  { clear. induction d; intros acc; cbn [Nat.of_uint_acc]; [done|..];
      (etransitivity; [|apply IHd]); rewrite Nat.tail_mul_spec; lia. }
  revert acc. induction d; intros acc Hlt; cbn [NilEmpty.string_of_uint ParseUint_from]; [done|..];
    cbn [Nat.of_uint_acc] in *;
    match type of Hlt with (Z.of_nat (Nat.of_uint_acc _ ?a) < _)%Z =>
      pose proof (Hmono d a) as Ha; rewrite Nat.tail_mul_spec in *;
      match goal with |- context [digit ?c] =>
        let v := eval vm_compute in (digit c) in change (digit c) with v end;
      cbv beta iota;
      match goal with |- context [(2 ^ 64 <=? ?x)%Z] =>
        destruct (Z.leb_spec (2 ^ 64) x); [exfalso; lia|];
        match type of Hlt with (Z.of_nat (Nat.of_uint_acc _ ?b) < _)%Z =>
          replace x with (Z.of_nat b) by lia end end;
      by apply IHd
    end.
Qed.

Lemma ParseUint_print n : is_u64 n -> ParseUint (print_version (IDFilter_Value n)) = Some n.
Proof.
  unfold is_u64. intros Hn. cbn [print_version]. set (d := Nat.to_uint (Z.to_nat n)).
  assert (Hd : Nat.of_uint_acc d 0 = Z.to_nat n) by apply (DecimalNat.Unsigned.of_to (Z.to_nat n)).
  assert (Hp : ParseUint_from 0 (NilEmpty.string_of_uint d) = Some n).
  { pose proof (ParseUint_from_uint d 0) as Hp. rewrite Hd, Z2Nat.id in Hp by lia. apply Hp. lia. }
  unfold ParseUint. destruct (NilEmpty.string_of_uint d) eqn:E; [|done].
  exfalso. assert (Hnil : d = Decimal.Nil) by (by destruct d).
  rewrite Hnil in Hd. unfold d in Hnil. by rewrite <- Hd in Hnil.
Qed.
Lemma print_version_digits n :
  print_version (IDFilter_Value n) <> "all" /\ print_version (IDFilter_Value n) <> "latest".
Proof. cbn [print_version]. by destruct (Nat.to_uint _). Qed.

Fixpoint slashless (s : string) : bool :=
  match s with EmptyString => true | String c s => negb (Ascii.eqb c "/"%char) && slashless s end.
Lemma SplitN2_slashless s t : slashless s = true -> SplitN2 (s +:+ String "/" t) = [s; t].
Proof.
  induction s as [|c s IH]; [done|]. cbn [slashless]. intros [Hc Hs]%andb_true_iff.
  rewrite append_cons. cbn [SplitN2]. apply negb_true_iff in Hc. by rewrite Hc, IH.
Qed.

(** Filters that say what they mean survive being printed and read. *)
Definition plain_filter (f : IDFilter) : Prop :=
  idf_Id f <> "" /\ slashless (idf_Id f) = true /\
  match idf_Version f with
  | Some (IDFilter_Value n) => is_u64 n
  | Some (IDFilter_All b) | Some (IDFilter_Latest b) => b = true
  | None => False
  end.
Theorem idFilterFromString_print f : plain_filter f -> idFilterFromString (print_filter f) = Some f.
Proof.
  intros (Hid & Hs & Hv). destruct f as [id [ver|]]; [|done]. cbn in Hid, Hs, Hv.
  unfold print_filter. cbn [idf_Id idf_Version].
  change ("/" +:+ print_version ver) with (String "/" (print_version ver)).
  destruct id as [|c id]; [done|]. unfold idFilterFromString. rewrite append_cons. cbn [String.eqb trim_slashes].
  cbn [slashless] in Hs. apply andb_true_iff in Hs as [Hc Hs]. pose proof Hc as Hc'.
  apply negb_true_iff in Hc'. rewrite Hc'.
  rewrite <- append_cons, SplitN2_slashless by (cbn [slashless]; by rewrite Hc, Hs).
  unfold parseVersion. destruct ver as [n|b|b]; [|by subst b..].
  destruct (print_version_digits n) as [H1 H2]. rewrite (proj2 (String.eqb_neq _ _) H1),
    (proj2 (String.eqb_neq _ _) H2), ParseUint_print by done.
  destruct (String.eqb_spec (print_version (IDFilter_Value n)) "") as [He|]; [|done].
  pose proof (ParseUint_print n Hv) as Hp. by rewrite He in Hp.
Qed.
