(* ===== verification/Snippets.v ===== *)
(** * Snippets: conditions, configurations and applied configurations

    The messages of src/snippet-service/pb with their validation, normalization
    and cloning (condition.go, configuration.go, appliedConfiguration.go), and
    the documents of src/snippet-service/store with their versions. *)

From Stdlib Require Import ZArith Lia String.
From S2P Require Import Prelude Commands Events SortedSlice Slices.

(** ** Messages: snippet-service/pb/service.proto *)
Record Configuration_Resource := MkConfiguration_Resource {
  cr_Href : string; cr_Content : option Content; cr_TimeToLive : Z }.
Record Configuration := MkConfiguration {
  cfg_Id : string; cfg_Version : Z; cfg_Name : string;
  cfg_Resources : list Configuration_Resource; cfg_Owner : string; cfg_Timestamp : Z }.
Record Condition := MkCondition {
  cond_Id : string; cond_Version : Z; cond_Name : string; cond_Enabled : bool;
  cond_ConfigurationId : string; cond_DeviceIdFilter : list string;
  cond_ResourceTypeFilter : list string; cond_ResourceHrefFilter : list string;
  cond_JqExpressionFilter : string; cond_ApiAccessToken : string; cond_Owner : string;
  cond_Timestamp : Z }.

Inductive AppliedStatus := UNSPECIFIED | QUEUED | PENDING | DONE | TIMEOUT.
#[export] Instance AppliedStatus_eq_dec : EqDecision AppliedStatus.
Proof. solve_decision. Defined.
Record AppliedResource := MkAppliedResource {
  ar_Href : string; ar_CorrelationId : string; ar_Status : AppliedStatus;
  ar_ResourceUpdated : option ResourceUpdated; ar_ValidUntil : Z }.
Record LinkedTo := MkLinkedToRecord { lt_Id : string; lt_Version : Z }.
Inductive ExecutedBy :=
  | ExecutedBy_OnDemand (onDemand : bool)
  | ExecutedBy_ConditionId (conditionId : option LinkedTo).
Record AppliedConfiguration := MkAppliedConfigurationRecord {
  ac_Id : string; ac_DeviceId : string; ac_ConfigurationId : option LinkedTo;
  ac_ExecutedBy : option ExecutedBy; ac_Resources : list AppliedResource; ac_Owner : string;
  ac_Timestamp : Z }.
Record InvokeConfigurationRequest := MkInvokeConfigurationRequest {
  icr_ConfigurationId : string; icr_DeviceId : string; icr_Force : bool; icr_CorrelationId : string }.

Definition GetOnDemand (c : AppliedConfiguration) : bool :=
  match ac_ExecutedBy c with Some (ExecutedBy_OnDemand b) => b | _ => false end.
Definition GetConditionId (c : AppliedConfiguration) : option LinkedTo :=
  match ac_ExecutedBy c with Some (ExecutedBy_ConditionId l) => l | _ => None end.

(** ** The errors of the store: snippet-service/store/store.go *)
Definition ErrNotFound : error := errors_New "not found".
Definition ErrNotModified : error := errors_New "not modified".
Definition ErrInvalidArgument : error := errors_New "invalid argument".
Definition ErrPartialDelete : error := errors_New "some errors occurred while deleting".
(** errors.Is: the error or one that it wraps. *)
Fixpoint errors_Is (e target : error) : bool :=
  bool_decide (e = target) || match e with Wrap _ e => errors_Is e target | _ => false end.
(** The errors it wraps besides the sentinel carry neither a sentinel nor a status. *)
Definition errInvalidArgument (err : error) : error := Wrap "%w: %w" ErrInvalidArgument.

Section uuid.
Context `{!UUIDLib}.

(** ** condition.go *)
Definition checkConfigurationId (c : string) (isUpdate : bool) : option error :=
  if isUpdate && String.eqb c "" then None
  else if uuid_Parse c then None else Some (errors_New "invalid configuration ID(%v): %w").
Definition Condition_Validate (c : Condition) (isUpdate : bool) : option error :=
  if (isUpdate || negb (String.eqb (cond_Id c) "")) && negb (uuid_Parse (cond_Id c))
  then Some (errors_New "invalid ID(%v): %w") else
  match checkConfigurationId (cond_ConfigurationId c) isUpdate with
  | Some err => Some err
  | None => if String.eqb (cond_Owner c) "" then Some (errors_New "missing owner") else None
  end.
Definition Condition_Normalize (c : Condition) : Condition :=
  MkCondition (cond_Id c) (cond_Version c) (cond_Name c) (cond_Enabled c) (cond_ConfigurationId c)
    (strings_Unique (cond_DeviceIdFilter c)) (strings_Unique (cond_ResourceTypeFilter c))
    (strings_Unique (cond_ResourceHrefFilter c)) (cond_JqExpressionFilter c) (cond_ApiAccessToken c)
    (cond_Owner c) (cond_Timestamp c).
Definition Condition_Clone (c : Condition) : Condition :=
  {| cond_Id := cond_Id c; cond_Name := cond_Name c; cond_Enabled := cond_Enabled c;
     cond_Owner := cond_Owner c; cond_ConfigurationId := cond_ConfigurationId c;
     cond_ApiAccessToken := cond_ApiAccessToken c; cond_Timestamp := cond_Timestamp c;
     cond_Version := cond_Version c; cond_DeviceIdFilter := cond_DeviceIdFilter c;
     cond_ResourceTypeFilter := cond_ResourceTypeFilter c;
     cond_ResourceHrefFilter := cond_ResourceHrefFilter c;
     cond_JqExpressionFilter := cond_JqExpressionFilter c |}.

(** ** configuration.go *)
Definition Configuration_Resource_Clone (cr : Configuration_Resource) : Configuration_Resource :=
  {| cr_Href := cr_Href cr; cr_Content := Content_Clone (cr_Content cr);
     cr_TimeToLive := cr_TimeToLive cr |}.
Definition Configuration_Validate (c : Configuration) (isUpdate : bool) : option error :=
  if (isUpdate || negb (String.eqb (cfg_Id c) "")) && negb (uuid_Parse (cfg_Id c))
  then Some (errors_New "invalid ID(%v): %w") else
  if String.eqb (cfg_Owner c) "" then Some (errors_New "missing owner") else
  if (length (cfg_Resources c) =? 0)%nat then Some (errors_New "missing resources") else None.
Definition same_href (i j : Configuration_Resource) : bool := String.eqb (cr_Href i) (cr_Href j).
Definition normalizeResources `{!Slices} (resources : list Configuration_Resource)
    : list Configuration_Resource :=
  CompactFunc same_href
    (SortFunc (fun i j => strings_Compare (cr_Href i) (cr_Href j)) resources).
Definition set_Resources (rs : list Configuration_Resource) (c : Configuration) : Configuration :=
  MkConfiguration (cfg_Id c) (cfg_Version c) (cfg_Name c) rs (cfg_Owner c) (cfg_Timestamp c).
Definition Configuration_Normalize `{!Slices} (c : Configuration) : Configuration :=
  set_Resources (normalizeResources (cfg_Resources c)) c.
Definition Configuration_Clone (c : Configuration) : Configuration :=
  {| cfg_Id := cfg_Id c; cfg_Version := cfg_Version c; cfg_Name := cfg_Name c;
     cfg_Owner := cfg_Owner c; cfg_Timestamp := cfg_Timestamp c;
     cfg_Resources := Configuration_Resource_Clone <$> cfg_Resources c |}.
Definition InvokeConfigurationRequest_Validate (r : InvokeConfigurationRequest) : option error :=
  if String.eqb (icr_ConfigurationId r) "" then Some (errors_New "missing configuration ID")
  else if String.eqb (icr_DeviceId r) "" then Some (errors_New "missing device ID") else None.

(** ** appliedConfiguration.go *)
Definition AppliedResource_Validate (r : AppliedResource) : option error :=
  if String.eqb (ar_Href r) "" then Some (errors_New "missing href")
  else if String.eqb (ar_CorrelationId r) "" then Some (errors_New "missing correlationID")
  else if bool_decide (ar_Status r = UNSPECIFIED) then Some (errors_New "invalid status") else None.
Fixpoint validate_resources (rs : list AppliedResource) : option error :=
  match rs with
  | [] => None
  | r :: rs => match AppliedResource_Validate r with
               | Some err => Some (Wrap "invalid resource: %w" err)
               | None => validate_resources rs end
  end.
Definition AppliedConfiguration_Validate (c : AppliedConfiguration) : option error :=
  if negb (String.eqb (ac_Id c) "") && negb (uuid_Parse (ac_Id c))
  then Some (errors_New "invalid ID(%v): %w")
  else if String.eqb (ac_Owner c) "" then Some (errors_New "missing owner")
  else if String.eqb (ac_DeviceId c) "" then Some (errors_New "missing deviceID")
  else if String.eqb ((ac_ConfigurationId c) ~> lt_Id) "" then Some (errors_New "invalid configurationID")
  else match ac_ExecutedBy c with
  | None => Some (errors_New "missing executedBy")
  | Some _ =>
      if (length (ac_Resources c) =? 0)%nat then Some (errors_New "missing resources")
      else validate_resources (ac_Resources c)
  end.

Definition MakeLinkedTo (id : string) (version : Z) : option LinkedTo :=
  Some (MkLinkedToRecord id version).
Definition LinkedTo_Clone (r : option LinkedTo) : option LinkedTo :=
  match r with None => None | Some _ => Some (MkLinkedToRecord (r ~> lt_Id) (r ~> lt_Version)) end.
Definition MakeExecutedByOnDemand : option ExecutedBy := Some (ExecutedBy_OnDemand true).
Definition MakeExecutedByConditionId (conditionID : string) (version : Z) : option ExecutedBy :=
  Some (ExecutedBy_ConditionId (Some (MkLinkedToRecord conditionID version))).
Definition AppliedResource_Clone (r : AppliedResource) : AppliedResource :=
  {| ar_Href := ar_Href r; ar_CorrelationId := ar_CorrelationId r; ar_Status := ar_Status r;
     ar_ResourceUpdated := ResourceUpdated_Clone (ar_ResourceUpdated r);
     ar_ValidUntil := ar_ValidUntil r |}.
Definition CloneExecutedBy (c : AppliedConfiguration) : option ExecutedBy :=
  if GetOnDemand c then MakeExecutedByOnDemand
  else match GetConditionId c with
       | Some rt => MakeExecutedByConditionId (lt_Id rt) (lt_Version rt)
       | None => None
       end.
Definition CloneAppliedConfiguration_Resources (c : AppliedConfiguration) : list AppliedResource :=
  AppliedResource_Clone <$> ac_Resources c.
Definition AppliedConfiguration_Clone (c : AppliedConfiguration) : AppliedConfiguration :=
  {| ac_Id := ac_Id c; ac_DeviceId := ac_DeviceId c;
     ac_ConfigurationId := LinkedTo_Clone (ac_ConfigurationId c); ac_ExecutedBy := CloneExecutedBy c;
     ac_Resources := CloneAppliedConfiguration_Resources c; ac_Owner := ac_Owner c;
     ac_Timestamp := ac_Timestamp c |}.
End uuid.
