(* ===== verification/SnippetStore.v ===== *)
(** * The store of the snippet service

    The documents of src/snippet-service/store and what the operations of
    store/mongodb do to their collections.  A collection is the list of its
    documents.  The queries and pipelines that the code builds are read as what
    MongoDB documents for the operators in them: a query is a predicate on
    documents, a pipeline a function on them.  Each call of the driver may fail
    ([fault]) and then changes nothing. *)

From Stdlib Require Import ZArith Lia String.
From S2P Require Import Prelude Commands SortedSlice Slices IdFilter Snippets.

(** ** Documents: store/condition.go, store/configuration.go *)
Record ConditionVersion := MkConditionVersion {
  cv_Name : string; cv_Version : Z; cv_Enabled : bool; cv_Timestamp : Z;
  cv_DeviceIdFilter : list string; cv_ResourceTypeFilter : list string;
  cv_ResourceHrefFilter : list string; cv_JqExpressionFilter : string; cv_ApiAccessToken : string }.
Record ConfigurationVersion := MkConfigurationVersion {
  gv_Name : string; gv_Version : Z; gv_Resources : list Configuration_Resource; gv_Timestamp : Z }.

Definition MakeConditionVersion (c : Condition) : ConditionVersion :=
  {| cv_Name := cond_Name c; cv_Version := cond_Version c; cv_Enabled := cond_Enabled c;
     cv_Timestamp := cond_Timestamp c; cv_DeviceIdFilter := cond_DeviceIdFilter c;
     cv_ResourceTypeFilter := cond_ResourceTypeFilter c;
     cv_ResourceHrefFilter := cond_ResourceHrefFilter c;
     cv_JqExpressionFilter := cond_JqExpressionFilter c; cv_ApiAccessToken := cond_ApiAccessToken c |}.
Definition MakeConfigurationVersion_ (c : Configuration) : ConfigurationVersion :=
  {| gv_Name := cfg_Name c; gv_Version := cfg_Version c; gv_Resources := cfg_Resources c;
     gv_Timestamp := cfg_Timestamp c |}.

(** What the pipelines need to know of a version. *)
Class Versioned (V : Type) := { v_Version : V -> Z; v_setVersion : Z -> V -> V }.
#[export] Instance ConditionVersion_Versioned : Versioned ConditionVersion := {|
  v_Version := cv_Version;
  v_setVersion n v := MkConditionVersion (cv_Name v) n (cv_Enabled v) (cv_Timestamp v)
    (cv_DeviceIdFilter v) (cv_ResourceTypeFilter v) (cv_ResourceHrefFilter v)
    (cv_JqExpressionFilter v) (cv_ApiAccessToken v) |}.
#[export] Instance ConfigurationVersion_Versioned : Versioned ConfigurationVersion := {|
  v_Version := gv_Version;
  v_setVersion n v := MkConfigurationVersion (gv_Name v) n (gv_Resources v) (gv_Timestamp v) |}.

(** store.Condition and store.Configuration; the latter has no ConfigurationId. *)
Record Doc (V : Type) := MkDoc {
  doc_Id : string; doc_Owner : string; doc_ConfigurationId : string;
  doc_Latest : option V; doc_Versions : list V }.
Arguments MkDoc {V}.
Arguments doc_Id {V}.
Arguments doc_Owner {V}.
Arguments doc_ConfigurationId {V}.
Arguments doc_Latest {V}.
Arguments doc_Versions {V}.
Definition with_versions {V} (latest : option V) (versions : list V) (d : Doc V) : Doc V :=
  MkDoc (doc_Id d) (doc_Owner d) (doc_ConfigurationId d) latest versions.

Definition MakeFirstCondition (c : Condition) : Doc ConditionVersion :=
  let version := MakeConditionVersion c in
  MkDoc (cond_Id c) (cond_Owner c) (cond_ConfigurationId c) (Some version) [version].
Definition MakeFirstConfiguration (c : Configuration) : Doc ConfigurationVersion :=
  let version := MakeConfigurationVersion_ c in
  MkDoc (cfg_Id c) (cfg_Owner c) "" (Some version) [version].

Definition condition_of (d : Doc ConditionVersion) (v : ConditionVersion) : Condition :=
  {| cond_Id := doc_Id d; cond_Owner := doc_Owner d; cond_ConfigurationId := doc_ConfigurationId d;
     cond_Name := cv_Name v; cond_Enabled := cv_Enabled v; cond_Version := cv_Version v;
     cond_Timestamp := cv_Timestamp v; cond_DeviceIdFilter := cv_DeviceIdFilter v;
     cond_ResourceTypeFilter := cv_ResourceTypeFilter v;
     cond_ResourceHrefFilter := cv_ResourceHrefFilter v;
     cond_JqExpressionFilter := cv_JqExpressionFilter v; cond_ApiAccessToken := cv_ApiAccessToken v |}.
Definition Condition_GetLatest (d : Doc ConditionVersion) : result Condition :=
  match doc_Latest d with
  | None => inl (errors_New "latest condition not set")
  | Some v => inr (condition_of d v)
  end.
Definition configuration_of (d : Doc ConfigurationVersion) (v : ConfigurationVersion) : Configuration :=
  {| cfg_Id := doc_Id d; cfg_Owner := doc_Owner d; cfg_Version := gv_Version v; cfg_Name := gv_Name v;
     cfg_Resources := gv_Resources v; cfg_Timestamp := gv_Timestamp v |}.
Definition Configuration_GetLatest (d : Doc ConfigurationVersion) : result Configuration :=
  match doc_Latest d with
  | None => inl (errors_New "latest configuration not set")
  | Some v => inr (configuration_of d v)
  end.

(** RangeVersions: [f] sees the versions one after the other until it answers
    false; [St] is what the closure changes. *)
Fixpoint RangeVersions {St M} (f : St -> M -> St * bool) (s : St) (ms : list M) : St :=
  match ms with
  | [] => s
  | m :: ms => let '(s, go_on) := f s m in if go_on then RangeVersions f s ms else s
  end.

Definition ValidateAndNormalizeCondition `{!UUIDLib} (c : Condition) (isUpdate : bool) : result Condition :=
  match Condition_Validate c isUpdate with
  | Some err => inl (errInvalidArgument err)
  | None => inr (Condition_Normalize (Condition_Clone c))
  end.
Definition ValidateAndNormalizeConfiguration `{!UUIDLib, !Slices} (c : Configuration) (isUpdate : bool)
    : result Configuration :=
  match Configuration_Validate c isUpdate with
  | Some err => inl (errInvalidArgument err)
  | None => inr (Configuration_Normalize (Configuration_Clone c))
  end.

(** ** Errors of the driver *)
Class MongoErrors := {
  ErrNoDocuments : error; ErrDuplicateKey : error;
  (** Of an error, or of those that a multierror gathers. *)
  IsDuplicateKeyError : list error -> bool }.

(** ** store/mongodb/utility.go *)
Section collection.
Context {V : Type} `{!Versioned V}.
Implicit Types (d : Doc V) (docs : list (Doc V)).

(** [None] for no query. *)
Definition inArrayQuery (values : list string) : option (list string) :=
  let f := List.filter (fun v => negb (String.eqb v "")) values in
  if (length f =? 0)%nat then None else Some f.
Definition matches_in (q : option (list string)) (x : string) : bool :=
  match q with None => true | Some l => bool_decide (x ∈ l) end.
Definition toIdFilterQuery (owner : string) (ids : option (list string)) (emptyVersions : bool) d : bool :=
  (String.eqb owner "" || String.eqb (doc_Owner d) owner) && matches_in ids (doc_Id d) &&
  (negb emptyVersions || (length (doc_Versions d) =? 0)%nat).

Definition addMatchCondition (owner id : string) d : bool :=
  negb (length (doc_Versions d) =? 0)%nat && (String.eqb id "" || String.eqb (doc_Id d) id) &&
  (String.eqb owner "" || String.eqb (doc_Owner d) owner).

(** The versions that the stage of getVersionsPipeline leaves. *)
Definition getVersionsPipeline (versions : list Z) (latest exclude : bool) d : list V :=
  let vfilter := (Some <$> versions) ++ (if latest then [v_Version <$> doc_Latest d] else []) in
  if (length vfilter =? 0)%nat then doc_Versions d
  else filter (fun v => bool_decide (Some (v_Version v) ∈ vfilter) = negb exclude) (doc_Versions d).
Definition getPipeline (owner id : string) (versions : list Z) docs : list (Doc V) :=
  (fun d => with_versions None (getVersionsPipeline versions false false d) d)
    <$> filter (fun d => addMatchCondition owner id d = true) docs.

(** UpdateMany and DeleteMany. *)
Definition UpdateMany (q : Doc V -> bool) (f : Doc V -> Doc V) docs : list (Doc V) :=
  (fun d => if q d then f d else d) <$> docs.
Definition DeleteMany (q : Doc V -> bool) docs : list (Doc V) := filter (fun d => q d = false) docs.

(** The versions are filtered, and the latest is the last one that is left. *)
Definition exclude_versions (versions : list Z) (latest : bool) d : Doc V :=
  let vs := getVersionsPipeline versions latest true d in with_versions (last vs) vs d.
Definition deleteVersion (owner id : string) (versions : list Z) docs : list (Doc V) :=
  UpdateMany (toIdFilterQuery owner (inArrayQuery [id]) false) (exclude_versions versions false) docs.
Definition deleteLatestVersion (owner : string) (ids : list string) docs : list (Doc V) :=
  UpdateMany (toIdFilterQuery owner (inArrayQuery ids) false) (exclude_versions [] true) docs.
Definition deleteDocuments (owner : string) (ids : list string) docs : list (Doc V) :=
  DeleteMany (toIdFilterQuery owner (inArrayQuery ids) false) docs.

(** [delete]: the documents, whether a call succeeded, and the errors.  The
    faults of its calls are a stream. *)
Record del_state := MkDelState {
  ds_docs : list (Doc V); ds_success : bool; ds_errors : list error; ds_calls : nat }.
Definition driver_call (fault : nat -> option error) (counts : bool)
    (f : list (Doc V) -> list (Doc V)) (s : del_state) : del_state :=
  match fault (ds_calls s) with
  | Some err => MkDelState (ds_docs s) (ds_success s) (ds_errors s ++ [err]) (S (ds_calls s))
  | None => MkDelState (f (ds_docs s)) (ds_success s || counts) (ds_errors s) (S (ds_calls s))
  end.
Definition toDeleteResult (errs : list error) (partialSuccess : bool) : option error :=
  match errs with
  | [] => None
  | err :: _ => if partialSuccess then Some (Wrap "%w: %w" ErrPartialDelete) else Some err
  end.
Context `{!Slices} (range : gmap string (list Z) -> list (string * list Z)).
Definition delete_calls (fault : nat -> option error) (owner : string)
    (idfilter : list (option IDFilter)) docs : del_state :=
  let vf := PartitionIDFilter idfilter in
  let no {A} (l : list A) := (length l =? 0)%nat in
  let s := MkDelState docs false [] 0 in
  let s := if negb (no (vf_All vf)) || IsEmpty vf
           then driver_call fault true (deleteDocuments owner (vf_All vf)) s else s in
  let s := if negb (no (vf_Latest vf))
           then driver_call fault true (deleteLatestVersion owner (vf_Latest vf)) s else s in
  let s := fold_left (fun s iv => driver_call fault true (deleteVersion owner iv.1 iv.2) s)
             (range (vf_Versions vf)) s in
  if negb (no (vf_Latest vf)) || negb (size (vf_Versions vf) =? 0)%nat
  then driver_call fault false (DeleteMany (toIdFilterQuery owner None true)) s else s.
Definition store_delete (fault : nat -> option error) (owner : string)
    (idfilter : list (option IDFilter)) docs : list (Doc V) * option error :=
  let s := delete_calls fault owner idfilter docs in
  (ds_docs s, toDeleteResult (ds_errors s) (ds_success s)).

(** processCursor: [p] gets the documents until it answers an error. *)
Fixpoint processCursor {St} (p : St -> Doc V -> St * option error) (s : St) docs : St * option error :=
  match docs with
  | [] => (s, None)
  | d :: docs => match p s d with
                 | (s, Some err) => (s, Some err)
                 | (s, None) => processCursor p s docs
                 end
  end.

(** ** store/mongodb/condition.go, configuration.go *)
(** The pipeline of an update: [version] is the one that is asked for. *)
Definition update_doc (new : V) (version : Z) d : Doc V :=
  let new := if (version =? 0)%Z
             then v_setVersion (match doc_Latest d with Some l => v_Version l | None => 0 end + 1) new
             else new in
  with_versions (Some new) (doc_Versions d ++ [new]) d.
Definition newer (version : Z) d : bool :=
  (version =? 0)%Z || match doc_Latest d with Some l => (v_Version l <? version)%Z | None => false end.

(** FindOneAndUpdate, which returns the document after the update. *)
Fixpoint FindOneAndUpdate {D} (q : D -> bool) (f : D -> D) (docs : list D) : list D * option D :=
  match docs with
  | [] => ([], None)
  | d :: docs => if q d then (f d :: docs, Some (f d))
                 else let '(docs, r) := FindOneAndUpdate q f docs in (d :: docs, r)
  end.
Definition InsertOne `{!MongoErrors} (d : Doc V) docs : list (Doc V) * option error :=
  if bool_decide (doc_Id d ∈ doc_Id <$> docs) then (docs, Some ErrDuplicateKey) else (docs ++ [d], None).

(** A sequence of cursors: each is processed, whatever the others answered;
    the faults are those of Find and Aggregate. *)
Fixpoint process_all {St} (p : St -> Doc V -> St * option error) (s : St)
    (cursors : list (option error * list (Doc V))) : St * list error :=
  match cursors with
  | [] => (s, [])
  | (Some err, _) :: cursors => let '(s, errs) := process_all p s cursors in (s, err :: errs)
  | (None, docs) :: cursors =>
      let '(s, err) := processCursor p s docs in
      let '(s, errs) := process_all p s cursors in (s, option_list err ++ errs)
  end.

Definition no_projection (d : Doc V) : Doc V := with_versions (doc_Latest d) [] d.
Definition find_docs (q : Doc V -> bool) docs : list (Doc V) := filter (fun d => q d = true) docs.

Definition GetConfigurations_cursors (owner : string) (idfilter : list (option IDFilter)) docs
    : list (list (Doc V)) :=
  let vf := PartitionIDFilter idfilter in
  let no {A} (l : list A) := (length l =? 0)%nat in
  (if negb (no (vf_All vf)) || IsEmpty vf
   then [find_docs (toIdFilterQuery owner (inArrayQuery (vf_All vf)) false) docs] else []) ++
  (if negb (no (vf_Latest vf))
   then [no_projection <$> find_docs (toIdFilterQuery owner (inArrayQuery (vf_Latest vf)) false) docs]
   else []) ++
  ((fun iv => getPipeline owner iv.1 iv.2 docs) <$> range (vf_Versions vf)).

Definition toIdOrConfIdQuery (ids confIds : list string) d : bool :=
  match inArrayQuery ids, inArrayQuery confIds with
  | None, None => true
  | Some l, None => bool_decide (doc_Id d ∈ l)
  | None, Some k => bool_decide (doc_ConfigurationId d ∈ k)
  | Some l, Some k => bool_decide (doc_Id d ∈ l) || bool_decide (doc_ConfigurationId d ∈ k)
  end.
Definition GetConditions_cursors (owner : string) (idfilter : list (option IDFilter))
    (confIds : list string) docs : list (list (Doc V)) :=
  let vf := PartitionIDFilter idfilter in
  let no {A} (l : list A) := (length l =? 0)%nat in
  let confIdLatestFilter := strings_Unique confIds in
  (if negb (no (vf_All vf)) || (IsEmpty vf && no confIdLatestFilter)
   then [find_docs (toIdFilterQuery owner (inArrayQuery (vf_All vf)) false) docs] else []) ++
  (if negb (no (vf_Latest vf)) || negb (no confIdLatestFilter)
   then [no_projection <$> find_docs (fun d => toIdFilterQuery owner None false d &&
                                               toIdOrConfIdQuery (vf_Latest vf) confIds d) docs]
   else []) ++
  ((fun iv => getPipeline owner iv.1 iv.2 docs) <$> range (vf_Versions vf)).

Definition GetDocs {St} (fault : nat -> option error) (p : St -> Doc V -> St * option error) (s : St)
    (cursors : list (list (Doc V))) : St * list error :=
  process_all p s (imap (fun k docs => (fault k, docs)) cursors).
End collection.

Section operations.
Context `{!UUIDLib, !MongoErrors, !Slices}.

Definition with_cond_version (id : string) (now : time_) (c : Condition) : Condition :=
  MkCondition id (cond_Version c) (cond_Name c) (cond_Enabled c) (cond_ConfigurationId c)
    (cond_DeviceIdFilter c) (cond_ResourceTypeFilter c) (cond_ResourceHrefFilter c)
    (cond_JqExpressionFilter c) (cond_ApiAccessToken c) (cond_Owner c) (Time_UnixNano now).
Definition with_cfg_version (id : string) (now : time_) (c : Configuration) : Configuration :=
  MkConfiguration id (cfg_Version c) (cfg_Name c) (cfg_Resources c) (cfg_Owner c) (Time_UnixNano now).

(** [uuid] is what uuid.NewString answers. *)
Definition CreateCondition (fault : option error) (uuid : string) (now : time_) (cond : Condition)
    (docs : list (Doc ConditionVersion)) : list (Doc ConditionVersion) * result Condition :=
  match ValidateAndNormalizeCondition cond false with
  | inl err => (docs, inl err)
  | inr newCond =>
      let id := if String.eqb (cond_Id newCond) "" then uuid else cond_Id newCond in
      let storeCond := MakeFirstCondition (with_cond_version id now newCond) in
      match fault with
      | Some err => (docs, inl err)
      | None => match InsertOne storeCond docs with
                | (docs, Some err) => (docs, inl err)
                | (docs, None) => (docs, Condition_GetLatest storeCond)
                end
      end
  end.
Definition CreateConfiguration (fault : option error) (uuid : string) (now : time_) (conf : Configuration)
    (docs : list (Doc ConfigurationVersion)) : list (Doc ConfigurationVersion) * result Configuration :=
  match ValidateAndNormalizeConfiguration conf false with
  | inl err => (docs, inl err)
  | inr newConf =>
      let id := if String.eqb (cfg_Id newConf) "" then uuid else cfg_Id newConf in
      let storeConf := MakeFirstConfiguration (with_cfg_version id now newConf) in
      match fault with
      | Some err => (docs, inl err)
      | None => match InsertOne storeConf docs with
                | (docs, Some err) => (docs, inl err)
                | (docs, None) => (docs, Configuration_GetLatest storeConf)
                end
      end
  end.

Definition filterCondition (cond : Condition) (d : Doc ConditionVersion) : bool :=
  String.eqb (doc_Id d) (cond_Id cond) && String.eqb (doc_Owner d) (cond_Owner cond) &&
  (String.eqb (cond_ConfigurationId cond) "" ||
   String.eqb (doc_ConfigurationId d) (cond_ConfigurationId cond)) &&
  newer (cond_Version cond) d.
Definition updateCondition (cond : Condition) : Doc ConditionVersion -> Doc ConditionVersion :=
  update_doc (MakeConditionVersion cond) (cond_Version cond).
Definition UpdateCondition (fault : option error) (now : time_) (cond : Condition)
    (docs : list (Doc ConditionVersion)) : list (Doc ConditionVersion) * result Condition :=
  match ValidateAndNormalizeCondition cond true with
  | inl err => (docs, inl err)
  | inr newCond =>
      let update := updateCondition (with_cond_version (cond_Id newCond) now newCond) in
      match fault with
      | Some err => (docs, inl err)
      | None => match FindOneAndUpdate (filterCondition newCond) update docs with
                | (docs, None) => (docs, inl ErrNoDocuments)
                | (docs, Some updatedCond) => (docs, Condition_GetLatest updatedCond)
                end
      end
  end.

Definition filterConfiguration (conf : Configuration) (d : Doc ConfigurationVersion) : bool :=
  String.eqb (doc_Id d) (cfg_Id conf) && String.eqb (doc_Owner d) (cfg_Owner conf) &&
  newer (cfg_Version conf) d.
Definition updateConfiguration (conf : Configuration)
    : Doc ConfigurationVersion -> Doc ConfigurationVersion :=
  update_doc (MakeConfigurationVersion_ conf) (cfg_Version conf).
Definition UpdateConfiguration (fault : option error) (now : time_) (conf : Configuration)
    (docs : list (Doc ConfigurationVersion)) : list (Doc ConfigurationVersion) * result Configuration :=
  match ValidateAndNormalizeConfiguration conf true with
  | inl err => (docs, inl err)
  | inr newConf =>
      let update := updateConfiguration (with_cfg_version (cfg_Id newConf) now newConf) in
      match fault with
      | Some err => (docs, inl err)
      | None => match FindOneAndUpdate (filterConfiguration newConf) update docs with
                | (docs, None) => (docs, inl ErrNoDocuments)
                | (docs, Some updatedCfg) => (docs, Configuration_GetLatest updatedCfg)
                end
      end
  end.

(** *** GetLatestEnabledConditions *)
Record GetLatestConditionsQuery := MkGetLatestConditionsQuery {
  lq_DeviceID : string; lq_ResourceHref : string; lq_ResourceTypeFilter : list string }.
Definition ValidateAndNormalizeConditionsQuery (q : GetLatestConditionsQuery)
    : result GetLatestConditionsQuery :=
  if String.eqb (lq_DeviceID q) "" && String.eqb (lq_ResourceHref q) "" &&
     (length (lq_ResourceTypeFilter q) =? 0)%nat
  then inl (errInvalidArgument (errors_New "at least one condition filter must be set"))
  else inr (MkGetLatestConditionsQuery (lq_DeviceID q) (lq_ResourceHref q)
              (strings_Unique (lq_ResourceTypeFilter q))).
(** An empty filter is left out of the document. *)
Definition unset_or (f : list string) (b : bool) : bool := (length f =? 0)%nat || b.
Definition toLatestConditionsQuery (owner : string) (q : GetLatestConditionsQuery)
    (d : Doc ConditionVersion) : bool :=
  match doc_Latest d with
  | None => false
  | Some l =>
      cv_Enabled l && (String.eqb owner "" || String.eqb (doc_Owner d) owner) &&
      (String.eqb (lq_DeviceID q) "" ||
       unset_or (cv_DeviceIdFilter l) (bool_decide (lq_DeviceID q ∈ cv_DeviceIdFilter l))) &&
      (String.eqb (lq_ResourceHref q) "" ||
       unset_or (cv_ResourceHrefFilter l) (bool_decide (lq_ResourceHref q ∈ cv_ResourceHrefFilter l))) &&
      ((length (lq_ResourceTypeFilter q) =? 0)%nat ||
       unset_or (cv_ResourceTypeFilter l)
         (forallb (fun t => bool_decide (t ∈ cv_ResourceTypeFilter l)) (lq_ResourceTypeFilter q)))
  end.
Definition GetLatestEnabledConditions {St} (fault : option error) (owner : string)
    (q : GetLatestConditionsQuery) (p : St -> Doc ConditionVersion -> St * option error) (s : St)
    (docs : list (Doc ConditionVersion)) : St * option error :=
  match ValidateAndNormalizeConditionsQuery q with
  | inl err => (s, Some err)
  | inr q =>
      match fault with
      | Some err => (s, Some err)
      | None => processCursor p s (no_projection <$> find_docs (toLatestConditionsQuery owner q) docs)
      end
  end.
Definition GetLatestConfigurationsByID {St} (fault : option error) (owner : string) (ids : list string)
    (p : St -> Doc ConfigurationVersion -> St * option error) (s : St)
    (docs : list (Doc ConfigurationVersion)) : St * option error :=
  match fault with
  | Some err => (s, Some err)
  | None => processCursor p s (no_projection <$>
              find_docs (toIdFilterQuery owner (inArrayQuery ids) false) docs)
  end.
End operations.
