(* ===== verification/SnippetStoreFacts.v ===== *)
(** * The store of the snippet service: versions and deletions

    Every operation keeps the versions of a document ascending and its latest
    version the last of them.  Without faults, a deletion removes exactly the
    versions that the filters of the request select, and the documents of
    which nothing is left. *)

From Stdlib Require Import ZArith Lia String.
From S2P Require Import Prelude Commands SortedSlice Slices IdFilter Snippets SnippetStore.

(** ** Normalizing *)
Lemma ContentClone_id c : Content_Clone c = c.
Proof. by destruct c as [[]|]. Qed.
Lemma Configuration_Clone_id c : Configuration_Clone c = c.
Proof.
  destruct c as [i v n rs o t]. unfold Configuration_Clone. cbn. f_equal.
  induction rs as [|[h c l] rs IH]; [done|]. cbn. rewrite IH. f_equal.
  unfold Configuration_Resource_Clone. cbn. by rewrite ContentClone_id.
Qed.
Lemma Condition_Clone_id c : Condition_Clone c = c.
Proof. by destruct c. Qed.

(** A normalized configuration names each href once, in ascending order, and
    the hrefs of the configuration it was made of. *)
Theorem Configuration_Normalize_hrefs `{!Slices, !SlicesLaws} c :
  let hrefs rs := cr_Href <$> rs in
  ascending (hrefs (cfg_Resources (Configuration_Normalize c))) /\
  (forall h, h ∈ hrefs (cfg_Resources (Configuration_Normalize c)) <-> h ∈ hrefs (cfg_Resources c)) /\
  forall r, r ∈ cfg_Resources (Configuration_Normalize c) -> r ∈ cfg_Resources c.
Proof.
  intros hrefs. cbn [Configuration_Normalize set_Resources cfg_Resources]. unfold normalizeResources.
  set (cmp := fun i j => strings_Compare (cr_Href i) (cr_Href j)).
  set (l := SortFunc cmp (cfg_Resources c)).
  assert (Hs : StronglySorted String.le (cr_Href <$> l)).
  { pose proof (SortFunc_sorted cmp (cfg_Resources c)
      (weak_order_key strings_Compare cr_Href strings_Compare_weak)) as Hs. fold l in Hs.
    induction Hs as [|x k _ IH Hx]; cbn; constructor; [done|].
    apply Forall_fmap. eapply Forall_impl; [exact Hx|]. intros y. apply strings_Compare_le. }
  assert (Hp : forall r, r ∈ l <-> r ∈ cfg_Resources c) by (intros r; unfold l; by rewrite SortFunc_perm).
  destruct (CompactFunc_keys cr_Href String.le same_href
    ltac:(intros; unfold same_href; apply String.eqb_eq) l Hs) as [Hk Hss].
  split_and!.
  - unfold ascending, hrefs. clear -Hss.
    induction Hss as [|x k _ IH Hx]; constructor; [done|].
    eapply Forall_impl; [exact Hx|]. intros y [Hle Hne]. apply str_lt_ne. by split.
  - intros h. unfold hrefs. rewrite Hk, !list_elem_of_fmap. by setoid_rewrite Hp.
  - intros r Hr. apply Hp. by eapply elem_of_CompactFunc.
Qed.

(** ** Well-formed documents *)
Section collection.
Context {V : Type} `{!Versioned V}.
Context (v_setVersion_version : forall n v, v_Version (v_setVersion n v) = n).
Implicit Types (d : Doc V) (docs : list (Doc V)).

Definition doc_wf d : Prop :=
  StronglySorted Z.lt (v_Version <$> doc_Versions d) /\ doc_Latest d = last (doc_Versions d).
Definition collection_wf docs : Prop := NoDup (doc_Id <$> docs) /\ Forall doc_wf docs.

Lemma StronglySorted_filter_fmap {A} (P : A -> Prop) `{!forall x, Decision (P x)} (f : A -> Z) l :
  StronglySorted Z.lt (f <$> l) -> StronglySorted Z.lt (f <$> filter P l).
Proof.
  induction l as [|x l IH]; [done|]. rewrite fmap_cons, filter_cons. intros [Hs Hx]%StronglySorted_inv.
  case_decide; [|by apply IH]. rewrite fmap_cons. constructor; [by apply IH|].
  rewrite Forall_fmap, Forall_forall in *. intros y Hy. apply list_elem_of_filter in Hy as [_ Hy].
  by apply Hx.
Qed.

Lemma getVersionsPipeline_sorted vs b e d :
  doc_wf d -> StronglySorted Z.lt (v_Version <$> getVersionsPipeline vs b e d).
Proof.
  intros [Hs _]. unfold getVersionsPipeline. destruct (Nat.eqb _ _); [done|].
  by apply StronglySorted_filter_fmap.
Qed.
Lemma exclude_versions_wf vs b d : doc_wf d -> doc_wf (exclude_versions vs b d).
Proof. intros Hd. split; [by apply getVersionsPipeline_sorted|done]. Qed.

Lemma StronglySorted_snoc l x :
  StronglySorted Z.lt l -> (forall y, last l = Some y -> (y < x)%Z) -> StronglySorted Z.lt (l ++ [x]).
Proof.
  intros Hs Hl. apply StronglySorted_app. split_and!; [|done|repeat constructor].
  intros y z Hy ->%list_elem_of_singleton. destruct l as [|w l _] using rev_ind; [by apply not_elem_of_nil in Hy|].
  rewrite last_snoc in Hl. specialize (Hl w eq_refl). apply elem_of_app in Hy as [Hy|Hy].
  - apply StronglySorted_app in Hs as (Hs & _ & _). specialize (Hs y w Hy ltac:(by left)). lia.
  - by apply list_elem_of_singleton in Hy as ->.
Qed.

Lemma update_doc_wf new version d :
  doc_wf d -> newer version d = true -> v_Version new = version -> doc_wf (update_doc new version d).
Proof.
  intros [Hs Hl] Hn Hv. split; [|cbn; by rewrite last_snoc].
  cbn [update_doc with_versions doc_Versions]. rewrite fmap_app. cbn.
  apply StronglySorted_snoc; [done|]. intros y. rewrite fmap_last, <- Hl.
  intros Hy. apply fmap_Some in Hy as (l & Hlat & ->). rewrite Hlat.
  unfold newer in Hn. rewrite Hlat in Hn. destruct (Z.eqb_spec version 0) as [->|Hne].
  - rewrite v_setVersion_version. lia.
  - rewrite Hv. by apply Z.ltb_lt in Hn.
Qed.

(** *** Collections *)
Lemma UpdateMany_wf q f docs :
  (forall d, doc_Id (f d) = doc_Id d) -> (forall d, doc_wf d -> doc_wf (f d)) ->
  collection_wf docs -> collection_wf (UpdateMany q f docs).
Proof.
  intros Hid Hwf [Hnd Hall]. split.
  - unfold UpdateMany. rewrite <- list_fmap_compose.
    replace (compose doc_Id (fun d => if q d then f d else d) <$> docs) with (doc_Id <$> docs); [done|].
    apply list_fmap_ext. intros _ d _. cbn. by destruct (q d).
  - apply Forall_fmap. eapply Forall_impl; [exact Hall|]. intros d Hd. cbn. destruct (q d); auto.
Qed.
Lemma NoDup_fmap_filter {A B} (f : A -> B) (P : A -> Prop) `{!forall x, Decision (P x)} l :
  NoDup (f <$> l) -> NoDup (f <$> filter P l).
Proof.
  induction l as [|x l IH]; [done|]. rewrite fmap_cons, filter_cons. intros [Hx Hl]%NoDup_cons.
  case_decide; [|by apply IH]. rewrite fmap_cons. apply NoDup_cons. split; [|by apply IH].
  intros (y & Heq & Hy)%list_elem_of_fmap. apply list_elem_of_filter in Hy as [_ Hy].
  apply Hx. rewrite Heq. by apply list_elem_of_fmap_2.
Qed.
Lemma DeleteMany_wf q docs : collection_wf docs -> collection_wf (DeleteMany q docs).
Proof.
  intros [Hnd Hall]. split; [by apply NoDup_fmap_filter|]. apply Forall_forall. intros d.
  intros [_ Hd]%list_elem_of_filter. rewrite Forall_forall in Hall. by apply Hall.
Qed.
Lemma InsertOne_wf `{!MongoErrors} d docs :
  doc_wf d -> collection_wf docs -> collection_wf (InsertOne d docs).1.
Proof.
  intros Hd [Hnd Hall]. unfold InsertOne. case_bool_decide as Hin; [by split|]. split.
  - cbn. rewrite fmap_app. apply NoDup_app. split_and!; [done| |apply NoDup_singleton].
    intros i Hi ->%list_elem_of_singleton. done.
  - apply Forall_app. by split; [|constructor].
Qed.
Lemma FindOneAndUpdate_wf q f docs :
  (forall d, doc_Id (f d) = doc_Id d) -> (forall d, q d = true -> doc_wf d -> doc_wf (f d)) ->
  collection_wf docs -> collection_wf (FindOneAndUpdate q f docs).1.
Proof.
  intros Hid Hwf [Hnd Hall]. split.
  - replace (doc_Id <$> (FindOneAndUpdate q f docs).1) with (doc_Id <$> docs); [done|]. clear Hall Hnd.
    induction docs as [|d docs IH]; [done|]. cbn [FindOneAndUpdate]. destruct (q d); [cbn; by rewrite Hid|].
    destruct (FindOneAndUpdate q f docs) as [ds r]. cbn in *. by rewrite IH.
  - clear Hnd. induction Hall as [|d docs Hd Hds IH]; [constructor|]. cbn [FindOneAndUpdate].
    destruct (q d) eqn:E; [constructor; auto|].
    destruct (FindOneAndUpdate q f docs) as [ds r]. by constructor.
Qed.

Context `{!Slices} (range : gmap string (list Z) -> list (string * list Z)).

Lemma driver_call_wf fault counts f s :
  (forall docs, collection_wf docs -> collection_wf (f docs)) ->
  collection_wf (ds_docs s) -> collection_wf (ds_docs (driver_call fault counts f s)).
Proof. intros Hf Hs. unfold driver_call. destruct (fault _); [done|by apply Hf]. Qed.
Lemma exclude_all_wf q vs b docs :
  collection_wf docs -> collection_wf (UpdateMany q (exclude_versions vs b) docs).
Proof. apply UpdateMany_wf; [done|]. intros d. apply exclude_versions_wf. Qed.

(** Also with faults of any of its calls, a deletion leaves well-formed documents. *)
Lemma store_delete_wf fault owner fs docs :
  collection_wf docs -> collection_wf (store_delete range fault owner fs docs).1.
Proof.
  intros Hd. unfold store_delete, delete_calls. cbn [fst].
  assert (Hfold : forall L s, collection_wf (ds_docs s) -> collection_wf (ds_docs
    (fold_left (fun s iv => driver_call fault true (deleteVersion owner iv.1 iv.2) s) L s))).
  { intros L. induction L as [|iv L IH]; intros s Hs; [done|]. cbn [fold_left]. apply IH.
    apply driver_call_wf; [|done]. intros ds. apply exclude_all_wf. }
  repeat match goal with
  | |- collection_wf (ds_docs (fold_left _ _ _)) => apply Hfold
  | |- collection_wf (ds_docs (driver_call _ _ (DeleteMany _) _)) => apply driver_call_wf; [intros ?; apply DeleteMany_wf|]
  | |- collection_wf (ds_docs (driver_call _ _ _ _)) => apply driver_call_wf; [intros ?; first [apply exclude_all_wf|apply DeleteMany_wf]|]
  | |- collection_wf (ds_docs (if ?b then _ else _)) => destruct b
  end; done.
Qed.

(** *** What a deletion deletes *)
Definition selectsb (f : option IDFilter) (id : string) (v : Z) (latest : bool) : bool :=
  (String.eqb (idf_GetId f) "" || String.eqb (idf_GetId f) id) &&
  (if GetAll f then true else if GetLatest f then latest else (v =? GetValue f)%Z).
Definition wantedb (fs : list (option IDFilter)) (id : string) (v : Z) (latest : bool) : bool :=
  (length fs =? 0)%nat || existsb (fun f => selectsb f id v latest) fs.
Lemma selectsb_spec f id v latest : selectsb f id v latest = true <-> selects f id v latest.
Proof.
  unfold selectsb, selects. rewrite andb_true_iff, orb_true_iff, !String.eqb_eq.
  destruct (GetAll f), (GetLatest f); rewrite ?Z.eqb_eq; tauto.
Qed.
Lemma wantedb_spec fs id v latest : wantedb fs id v latest = true <-> wanted fs id v latest.
Proof.
  unfold wantedb, wanted. rewrite orb_true_iff, Nat.eqb_eq, existsb_exists.
  assert (Hnil : length fs = 0 <-> fs = []) by (by destruct fs). rewrite Hnil.
  setoid_rewrite <- list_elem_of_In. by setoid_rewrite selectsb_spec.
Qed.

Definition is_latest d (v : V) : bool := bool_decide (v_Version <$> doc_Latest d = Some (v_Version v)).
(** What is left of a document of the owner. *)
Definition kept (fs : list (option IDFilter)) d : list V :=
  filter (fun v => wantedb fs (doc_Id d) (v_Version v) (is_latest d v) = false) (doc_Versions d).
Definition delete_doc (owner : string) (fs : list (option IDFilter)) d : option (Doc V) :=
  if String.eqb owner "" || String.eqb (doc_Owner d) owner then
    let vs := kept fs d in if (length vs =? 0)%nat then None else Some (with_versions (last vs) vs d)
  else Some d.

(** *** The queries *)
Definition in_ids (ids : list string) (id : string) : bool := bool_decide ("" ∈ ids \/ id ∈ ids).
Lemma List_filter_all {A} (f : A -> bool) l : Forall (fun x => f x = true) l -> List.filter f l = l.
Proof. induction 1 as [|x l Hx _ IH]; [done|]. cbn. by rewrite Hx, IH. Qed.
Lemma matches_in_ids ids id :
  ids <> [] -> ("" ∈ ids -> ids = [""]) -> matches_in (inArrayQuery ids) id = in_ids ids id.
Proof.
  intros Hne Hempty. unfold in_ids. destruct (decide ("" ∈ ids)) as [Hin|Hni].
  - rewrite (Hempty Hin). cbn. by rewrite bool_decide_eq_true_2 by (left; by left).
  - unfold inArrayQuery. rewrite List_filter_all.
    + destruct ids; [done|]. cbn [length Nat.eqb matches_in]. apply bool_decide_ext. tauto.
    + apply Forall_forall. intros x Hx. apply negb_true_iff, String.eqb_neq. congruence.
Qed.

Context {LAWS : SlicesLaws} (range_perm : forall m, range m ≡ₚ map_to_list m).

Definition owned_by (owner : string) d : bool := String.eqb owner "" || String.eqb (doc_Owner d) owner.

(** What the stages of a deletion do to one document. *)
Definition stage_latest (owner : string) (ids : list string) d : Doc V :=
  if toIdFilterQuery owner (inArrayQuery ids) false d then exclude_versions [] true d else d.
Definition stage_version (owner : string) d (iv : string * list Z) : Doc V :=
  if toIdFilterQuery owner (inArrayQuery [iv.1]) false d then exclude_versions iv.2 false d else d.

Lemma fold_versions owner L s :
  exists b k, fold_left (fun s iv => driver_call (fun _ => None) true (deleteVersion owner iv.1 iv.2) s) L s
  = MkDelState ((fun d => fold_left (stage_version owner) L d) <$> ds_docs s) b (ds_errors s) k.
Proof.
  revert s. induction L as [|iv L IH]; intros s; cbn [fold_left].
  - exists (ds_success s), (ds_calls s). destruct s as [ds b e k]. cbn. by rewrite list_fmap_id.
  - destruct (IH (driver_call (fun _ => None) true (deleteVersion owner iv.1 iv.2) s)) as (b & k & ->).
    exists b, k. cbn. unfold deleteVersion, UpdateMany. by rewrite <- list_fmap_compose.
Qed.

Definition deletes_all (vf : VersionFilter) : bool :=
  negb (length (vf_All vf) =? 0)%nat || IsEmpty vf.
Definition deletes_latest (vf : VersionFilter) : bool := negb (length (vf_Latest vf) =? 0)%nat.
Definition deletes_empty (vf : VersionFilter) : bool :=
  deletes_latest vf || negb (size (vf_Versions vf) =? 0)%nat.
Definition stages (owner : string) (vf : VersionFilter) d : option (Doc V) :=
  if deletes_all vf && toIdFilterQuery owner (inArrayQuery (vf_All vf)) false d then None else
  let d := if deletes_latest vf then stage_latest owner (vf_Latest vf) d else d in
  let d := fold_left (stage_version owner) (range (vf_Versions vf)) d in
  if deletes_empty vf && toIdFilterQuery owner None true d then None else Some d.

Lemma DeleteMany_omap q docs : DeleteMany q docs = omap (fun d => if q d then None else Some d) docs.
Proof.
  unfold DeleteMany. induction docs as [|d docs IH]; [done|]. rewrite filter_cons. cbn.
  by destruct (q d); rewrite IH.
Qed.
Lemma store_delete_stages owner fs docs :
  store_delete range (fun _ => None) owner fs docs
  = (omap (stages owner (PartitionIDFilter fs)) docs, None).
Proof.
  unfold store_delete, delete_calls, stages. set (vf := PartitionIDFilter fs). cbv zeta.
  fold (deletes_all vf) (deletes_latest vf) (deletes_empty vf).
  set (s0 := if deletes_all vf then _ else _).
  set (s1 := if deletes_latest vf then _ else _).
  destruct (fold_versions owner (range (vf_Versions vf)) s1) as (b & k & ->).
  assert (H1 : ds_errors s1 = [] /\ ds_docs s1 = omap (fun d =>
    if deletes_all vf && toIdFilterQuery owner (inArrayQuery (vf_All vf)) false d then None
    else Some (if deletes_latest vf then stage_latest owner (vf_Latest vf) d else d)) docs).
  { subst s1 s0. unfold deleteLatestVersion, deleteDocuments, UpdateMany.
    destruct (deletes_all vf), (deletes_latest vf); cbn [driver_call ds_docs ds_calls ds_errors andb];
      (split; [done|]).
    - rewrite DeleteMany_omap, fmap_as_omap, omap_bind. apply omap_ext_elem. intros d _.
      by destruct (toIdFilterQuery _ _ _ d).
    - by rewrite DeleteMany_omap.
    - by rewrite fmap_as_omap.
    - by rewrite omap_id. }
  destruct H1 as [He Hd]. destruct (deletes_empty vf) eqn:Ee;
    cbn [driver_call ds_docs ds_calls ds_errors ds_success andb]; rewrite He; cbn [toDeleteResult]; f_equal;
    rewrite Hd, ?DeleteMany_omap, ?fmap_as_omap, ?omap_bind; apply omap_ext_elem; intros d _;
    destruct (deletes_all vf && _); done.
Qed.

(** *** One document *)
Lemma getVersionsPipeline_exclude vs d :
  getVersionsPipeline vs false true d
  = filter (fun v => v_Version v ∉ vs) (doc_Versions d).
Proof.
  unfold getVersionsPipeline. rewrite app_nil_r, length_fmap.
  destruct vs as [|w vs]; cbn [length Nat.eqb].
  - symmetry. apply list_filter_all. intros v _. apply not_elem_of_nil.
  - apply filter_ext_elem. intros v _. cbn [negb]. rewrite bool_decide_eq_false.
    by rewrite list_elem_of_fmap_inj by (by intros ? ? [=]).
Qed.
Lemma getVersionsPipeline_latest d :
  getVersionsPipeline [] true true d = filter (fun v => is_latest d v = false) (doc_Versions d).
Proof.
  unfold getVersionsPipeline, is_latest. cbn [fmap list_fmap app length Nat.eqb negb].
  apply filter_ext_elem. intros v _. rewrite !bool_decide_eq_false, list_elem_of_singleton.
  split; intros Hne Heq; by apply Hne.
Qed.

Lemma with_versions_id d : doc_Latest d = last (doc_Versions d) ->
  with_versions (last (doc_Versions d)) (doc_Versions d) d = d.
Proof. destruct d. cbn. by intros <-. Qed.

Lemma owned_query owner q d : owned_by owner d = true -> toIdFilterQuery owner q false d = matches_in q (doc_Id d).
Proof. unfold toIdFilterQuery, owned_by. intros ->. by rewrite andb_true_r. Qed.

(** A version that none of the lists names for the document. *)
Definition unnamed (L : list (string * list Z)) (id : string) (v : V) : Prop :=
  Forall (fun iv => iv.1 = "" \/ iv.1 = id -> v_Version v ∉ iv.2) L.
#[local] Instance unnamed_dec L id v : Decision (unnamed L id v).
Proof. unfold unnamed. apply _. Defined.

Lemma fold_stage_version owner L d :
  owned_by owner d = true -> doc_Latest d = last (doc_Versions d) ->
  let vs := filter (unnamed L (doc_Id d)) (doc_Versions d) in
  fold_left (stage_version owner) L d = with_versions (last vs) vs d.
Proof.
  revert d. induction L as [|iv L IH]; intros d Ho Hl; cbv zeta; cbn [fold_left].
  { rewrite list_filter_all by (intros; constructor). by rewrite with_versions_id. }
  set (d1 := stage_version owner d iv).
  assert (Hd1 : d1 = let vs := filter (fun v => iv.1 = "" \/ iv.1 = doc_Id d -> v_Version v ∉ iv.2) (doc_Versions d) in
                     with_versions (last vs) vs d).
  { unfold d1, stage_version. rewrite owned_query by done. rewrite matches_in_ids; [|done|].
    - unfold in_ids. case_bool_decide as Hi.
      + unfold exclude_versions. rewrite getVersionsPipeline_exclude. cbv zeta.
        replace (filter (fun v => iv.1 = "" \/ iv.1 = doc_Id d -> v_Version v ∉ iv.2) (doc_Versions d))
          with (filter (fun v => v_Version v ∉ iv.2) (doc_Versions d)); [done|].
        apply filter_ext_elem. intros v _. rewrite !list_elem_of_singleton in Hi.
        split; [done|]. intros Hv. apply Hv. destruct Hi as [Hi|Hi]; [by left|by right].
      + cbv zeta. rewrite list_filter_all; [by rewrite with_versions_id|].
        intros v _ Hor. destruct Hi. rewrite !list_elem_of_singleton. destruct Hor; auto.
    - intros ->%list_elem_of_singleton. done. }
  clearbody d1. subst d1. cbv zeta. rewrite IH; [|done|done]. cbn [doc_Id doc_Versions with_versions].
  unfold with_versions. cbn [doc_Id doc_Owner doc_ConfigurationId].
  rewrite list_filter_filter.
  replace (filter (unnamed (iv :: L) (doc_Id d)) (doc_Versions d)) with
    (filter (fun v => unnamed L (doc_Id d) v /\ (iv.1 = "" \/ iv.1 = doc_Id d -> v_Version v ∉ iv.2)) (doc_Versions d));
    [done|].
  apply filter_ext_elem. intros v _. unfold unnamed. rewrite Forall_cons. tauto.
Qed.

Lemma stage_latest_spec owner ids d :
  owned_by owner d = true -> doc_Latest d = last (doc_Versions d) -> ("" ∈ ids -> ids = [""]) ->
  let vs := filter (fun v => is_latest d v && in_ids ids (doc_Id d) = false) (doc_Versions d) in
  (if negb (length ids =? 0)%nat then stage_latest owner ids d else d) = with_versions (last vs) vs d.
Proof.
  intros Ho Hl Hids. cbv zeta. destruct ids as [|i ids]; cbn [length Nat.eqb negb].
  { rewrite list_filter_all; [by rewrite with_versions_id|]. intros v _. unfold in_ids.
    rewrite bool_decide_eq_false_2; [by rewrite andb_false_r|]. by intros [?%not_elem_of_nil|?%not_elem_of_nil]. }
  unfold stage_latest. rewrite owned_query, matches_in_ids by done.
  destruct (in_ids (i :: ids) (doc_Id d)).
  - unfold exclude_versions. rewrite getVersionsPipeline_latest.
    replace (filter (fun v => is_latest d v && true = false) (doc_Versions d))
      with (filter (fun v => is_latest d v = false) (doc_Versions d)); [done|].
    apply filter_ext_elem. intros v _. by rewrite andb_true_r.
  - rewrite list_filter_all; [by rewrite with_versions_id|]. intros v _. by rewrite andb_false_r.
Qed.

(** What the parts of a partitioned filter select of a document that is not
    deleted as a whole. *)
Lemma not_kept_parts fs d v :
  let vf := PartitionIDFilter fs in
  deletes_all vf && matches_in (inArrayQuery (vf_All vf)) (doc_Id d) = false ->
  wantedb fs (doc_Id d) (v_Version v) (is_latest d v) = false <->
  is_latest d v && in_ids (vf_Latest vf) (doc_Id d) = false /\
  unnamed (range (vf_Versions vf)) (doc_Id d) v.
Proof.
  intros vf Hall. destruct (PartitionIDFilter_ids fs) as [Hna Hlat]. fold vf in Hna, Hlat.
  pose proof (PartitionIDFilter_vf_selects fs (doc_Id d) (v_Version v) (is_latest d v)) as Hsel.
  fold vf in Hsel. rewrite <- not_true_iff_false, wantedb_spec, <- Hsel. unfold vf_selects.
  assert (He : IsEmpty vf = false /\ forall i, i = "" \/ i = doc_Id d -> i ∉ vf_All vf).
  { unfold deletes_all in Hall. destruct (vf_All vf) as [|i ids] eqn:Ea.
    - split; [|intros i _; apply not_elem_of_nil]. cbn in Hall. by rewrite andb_true_r in Hall.
    - split; [unfold IsEmpty; by rewrite Ea|]. rewrite matches_in_ids in Hall; [|done|done].
      cbn [length Nat.eqb negb orb andb] in Hall. unfold in_ids in Hall.
      apply bool_decide_eq_false in Hall. intros j [->| ->] Hj; apply Hall; auto. }
  destruct He as [He Hno]. unfold unnamed. rewrite Forall_forall, andb_false_iff. unfold in_ids.
  rewrite bool_decide_eq_false. split.
  - intros Hn. split.
    + destruct (is_latest d v) eqn:El; [right|by left]. intros Hin. apply Hn. right.
      destruct Hin as [Hin|Hin]; [exists ""|exists (doc_Id d)]; (split; [auto|]); right; left; done.
    + intros [i vs] Hin Hi Hv. apply Hn. right. exists i. split; [done|]. right. right. exists vs.
      split; [|done]. apply elem_of_map_to_list. by rewrite <- range_perm.
  - intros [H1 H2] [|(i & Hi & [Ha|[[Hl Hin]|(vs & Hvs & Hv)]])]; [congruence|by apply (Hno i)| |].
    + destruct H1 as [H1|H1]; [congruence|]. apply H1. destruct Hi as [->| ->]; auto.
    + apply (H2 (i, vs)); [|done|done]. rewrite range_perm. by apply elem_of_map_to_list.
Qed.

Lemma stages_spec owner fs d :
  doc_wf d -> doc_Versions d <> [] -> stages owner (PartitionIDFilter fs) d = delete_doc owner fs d.
Proof.
  intros [_ Hl] Hne. unfold delete_doc. fold (owned_by owner d).
  destruct (PartitionIDFilter_ids fs) as [Hna Hlat].
  unfold stages. set (vf := PartitionIDFilter fs) in *.
  destruct (owned_by owner d) eqn:Ho.
  - rewrite owned_query by done.
    destruct (deletes_all vf && matches_in _ _) eqn:Eall.
    { assert (Hk : kept fs d = []).
      { unfold kept. apply list_filter_nil. intros v _. apply not_false_iff_true, wantedb_spec.
        apply PartitionIDFilter_vf_selects. fold vf. apply andb_true_iff in Eall as [Hd Hm].
        unfold deletes_all in Hd. destruct (vf_All vf) as [|i ids] eqn:Ea; [by left|].
        right. rewrite matches_in_ids in Hm; [|done|done]. unfold in_ids in Hm.
        apply bool_decide_eq_true in Hm. destruct Hm as [Hm|Hm]; [done|].
        exists (doc_Id d). split; [by right|left; by rewrite Ea]. }
      by rewrite Hk. }
    unfold deletes_latest. rewrite stage_latest_spec by done.
    set (vs2 := filter _ (doc_Versions d)).
    rewrite (fold_stage_version owner _ (with_versions (last vs2) vs2 d)) by done.
    cbn [with_versions doc_Versions doc_Id doc_Owner doc_ConfigurationId].
    assert (Hk : filter (unnamed (range (vf_Versions vf)) (doc_Id d)) vs2 = kept fs d).
    { unfold vs2, kept. rewrite list_filter_filter. apply filter_ext_elem. intros v _.
      rewrite (not_kept_parts fs d v Eall). fold vf. tauto. }
    rewrite Hk. unfold toIdFilterQuery. cbn [with_versions doc_Owner doc_Versions doc_Id matches_in negb].
    fold (owned_by owner d). rewrite Ho, orb_false_l. cbn [andb].
    destruct (Nat.eqb_spec (length (kept fs d)) 0) as [Hz|]; [|by rewrite andb_false_r].
    rewrite andb_true_r. destruct (deletes_empty vf) eqn:Ee; [done|]. exfalso.
    unfold deletes_empty, deletes_latest in Ee. apply orb_false_iff in Ee as [E1 E2].
    apply negb_false_iff, Nat.eqb_eq in E1, E2. apply nil_length_inv in E1.
    apply map_size_empty_inv in E2.
    assert (Hall : kept fs d = doc_Versions d); [|rewrite Hall in Hz; by apply nil_length_inv in Hz].
    unfold kept. apply list_filter_all. intros v _. apply (not_kept_parts fs d v Eall). fold vf.
    rewrite E1, E2. split.
    + unfold in_ids. rewrite bool_decide_eq_false_2; [by rewrite andb_false_r|]. set_solver.
    + unfold unnamed. apply Forall_forall. intros iv Hiv. rewrite range_perm, map_to_list_empty in Hiv.
      by apply not_elem_of_nil in Hiv.
  - assert (Hq : forall q b d', owned_by owner d' = false -> toIdFilterQuery owner q b d' = false).
    { intros q b d' Hd'. unfold toIdFilterQuery. fold (owned_by owner d'). by rewrite Hd'. }
    assert (Hs : stage_latest owner (vf_Latest vf) d = d) by (unfold stage_latest; by rewrite Hq).
    rewrite (Hq _ false d Ho), andb_false_r, Hs. cbv zeta.
    assert (Hf : fold_left (stage_version owner) (range (vf_Versions vf)) d = d).
    { induction (range (vf_Versions vf)) as [|iv L IH]; [done|]. cbn [fold_left].
      unfold stage_version at 2. by rewrite Hq. }
    assert (Hi : (if deletes_latest vf then d else d) = d) by (by destruct (deletes_latest vf)).
    rewrite Hi, Hf, (Hq _ true d Ho). by rewrite andb_false_r.
Qed.

Lemma store_delete_kept owner fs docs :
  Forall (fun d => doc_wf d /\ doc_Versions d <> []) docs ->
  store_delete range (fun _ => None) owner fs docs = (omap (delete_doc owner fs) docs, None).
Proof.
  intros Hwf. rewrite store_delete_stages. f_equal. apply omap_ext_elem. intros d Hd.
  rewrite Forall_forall in Hwf. destruct (Hwf d Hd). by apply stages_spec.
Qed.

(** C26: Without faults a deletion removes from every document of the owner exactly
    the versions that the filters select, takes the last one that is left for
    the latest, and removes the documents of which no version is left; the
    documents of others stay. *)
Theorem store_delete_exact owner fs docs :
  Forall (fun d => doc_wf d /\ doc_Versions d <> []) docs ->
  store_delete range (fun _ => None) owner fs docs = (omap (delete_doc owner fs) docs, None).
Proof. apply store_delete_kept. Qed.
End collection.

(** ** Every reachable store *)
Section reachable.
Context `{!UUIDLib, !MongoErrors, !Slices}.
Context (range : gmap string (list Z) -> list (string * list Z)).
Abbreviation Conditions := (list (Doc ConditionVersion)).
Abbreviation Configurations := (list (Doc ConfigurationVersion)).

Lemma InsertOne_spec {V} `{!Versioned V} (d : Doc V) docs v :
  doc_Versions d = [v] -> doc_Latest d = Some v -> collection_wf docs ->
  collection_wf (InsertOne d docs).1.
Proof.
  intros Hv Hl. apply InsertOne_wf. split; [rewrite Hv; repeat constructor|by rewrite Hv, Hl].
Qed.

Lemma CreateCondition_wf fault uuid now cond docs :
  collection_wf docs -> collection_wf (CreateCondition fault uuid now cond docs).1.
Proof.
  intros Hd. unfold CreateCondition. destruct (ValidateAndNormalizeCondition cond false) as [|c]; [done|].
  destruct fault; [done|]. cbv zeta. set (sc := MakeFirstCondition _).
  pose proof (InsertOne_spec sc docs _ eq_refl eq_refl Hd) as Hi.
  by destruct (InsertOne sc docs) as [ds [err|]].
Qed.
Lemma CreateConfiguration_wf fault uuid now conf docs :
  collection_wf docs -> collection_wf (CreateConfiguration fault uuid now conf docs).1.
Proof.
  intros Hd. unfold CreateConfiguration. destruct (ValidateAndNormalizeConfiguration conf false) as [|c]; [done|].
  destruct fault; [done|]. cbv zeta. set (sc := MakeFirstConfiguration _).
  pose proof (InsertOne_spec sc docs _ eq_refl eq_refl Hd) as Hi.
  by destruct (InsertOne sc docs) as [ds [err|]].
Qed.
Lemma UpdateCondition_wf fault now cond docs :
  collection_wf docs -> collection_wf (UpdateCondition fault now cond docs).1.
Proof.
  intros Hd. unfold UpdateCondition. destruct (ValidateAndNormalizeCondition cond true) as [|c]; [done|].
  destruct fault; [done|]. cbv zeta.
  pose proof (FindOneAndUpdate_wf (filterCondition c)
    (updateCondition (with_cond_version (cond_Id c) now c)) docs) as Hf.
  destruct (FindOneAndUpdate _ _ docs) as [ds [d|]]; apply Hf; try done;
    (intros d' Hq Hwf; apply update_doc_wf; [done|done| |done]);
    unfold filterCondition in Hq; by apply andb_true_iff in Hq as [_ Hq].
Qed.
Lemma UpdateConfiguration_wf fault now conf docs :
  collection_wf docs -> collection_wf (UpdateConfiguration fault now conf docs).1.
Proof.
  intros Hd. unfold UpdateConfiguration. destruct (ValidateAndNormalizeConfiguration conf true) as [|c]; [done|].
  destruct fault; [done|]. cbv zeta.
  pose proof (FindOneAndUpdate_wf (filterConfiguration c)
    (updateConfiguration (with_cfg_version (cfg_Id c) now c)) docs) as Hf.
  destruct (FindOneAndUpdate _ _ docs) as [ds [d|]]; apply Hf; try done;
    (intros d' Hq Hwf; apply update_doc_wf; [done|done| |done]);
    unfold filterConfiguration in Hq; by apply andb_true_iff in Hq as [_ Hq].
Qed.

(** The operations on the two collections, with any faults of the driver. *)
Inductive docs_step : Conditions * Configurations -> Conditions * Configurations -> Prop :=
  | step_create_condition cs gs fault uuid now cond :
      docs_step (cs, gs) ((CreateCondition fault uuid now cond cs).1, gs)
  | step_update_condition cs gs fault now cond :
      docs_step (cs, gs) ((UpdateCondition fault now cond cs).1, gs)
  | step_delete_conditions cs gs fault owner fs :
      docs_step (cs, gs) ((store_delete range fault owner fs cs).1, gs)
  | step_create_configuration cs gs fault uuid now conf :
      docs_step (cs, gs) (cs, (CreateConfiguration fault uuid now conf gs).1)
  | step_update_configuration cs gs fault now conf :
      docs_step (cs, gs) (cs, (UpdateConfiguration fault now conf gs).1)
  | step_delete_configurations cs gs fault owner fs :
      docs_step (cs, gs) (cs, (store_delete range fault owner fs gs).1).
Inductive docs_reachable : Conditions * Configurations -> Prop :=
  | docs_init : docs_reachable ([], [])
  | docs_next s s' : docs_reachable s -> docs_step s s' -> docs_reachable s'.

(** In every reachable store the identifiers of the documents are different,
    the versions of each ascend, and its latest version is the last one. *)
Theorem docs_reachable_wf s : docs_reachable s -> collection_wf s.1 /\ collection_wf s.2.
Proof.
  induction 1 as [|s s' _ [IH1 IH2] Hstep]; [repeat constructor|].
  destruct Hstep; cbn [fst snd] in *; split; try done.
  - by apply CreateCondition_wf.
  - by apply UpdateCondition_wf.
  - by apply store_delete_wf.
  - by apply CreateConfiguration_wf.
  - by apply UpdateConfiguration_wf.
  - by apply store_delete_wf.
Qed.

(** ** An update *)
Lemma FindOneAndUpdate_unique {V} (q : Doc V -> bool) f docs d :
  NoDup (doc_Id <$> docs) -> (forall d d', q d = true -> q d' = true -> doc_Id d = doc_Id d') ->
  d ∈ docs -> q d = true ->
  FindOneAndUpdate q f docs = ((fun d => if q d then f d else d) <$> docs, Some (f d)).
Proof.
  intros Hnd Hq. induction docs as [|x docs IH]; [by intros ?%not_elem_of_nil|]. intros Hin Hd.
  cbn [FindOneAndUpdate fmap list_fmap]. rewrite fmap_cons in Hnd. apply NoDup_cons in Hnd as [Hx Hnd].
  destruct (q x) eqn:Ex.
  - apply elem_of_cons in Hin as [->|Hin].
    + f_equal. f_equal. symmetry. rewrite <- (list_fmap_id docs) at 2. apply list_fmap_ext.
      intros i y Hy. destruct (q y) eqn:Ey; [|done]. destruct Hx.
      rewrite (Hq x y Ex Ey). apply list_elem_of_fmap_2. by eapply list_elem_of_lookup_2.
    + destruct Hx. rewrite (Hq x d Ex Hd). by apply list_elem_of_fmap_2.
  - apply elem_of_cons in Hin as [->|Hin]; [congruence|]. by rewrite (IH Hnd Hin Hd).
Qed.
Lemma FindOneAndUpdate_none {V} (q : Doc V -> bool) f docs :
  (forall d, d ∈ docs -> q d = false) -> FindOneAndUpdate q f docs = (docs, None).
Proof.
  induction docs as [|x docs IH]; [done|]. intros Hq. cbn [FindOneAndUpdate].
  rewrite (Hq x) by left. rewrite IH; [done|]. intros d Hd. apply Hq. by right.
Qed.

(** An update of a configuration without a version gives it the number after
    its latest one, keeps the older versions and all other documents, and needs
    the configuration to be there and to be the owner's. *)
Theorem UpdateConfiguration_spec now conf gs d :
  collection_wf gs -> Configuration_Validate conf true = None -> cfg_Version conf = 0%Z ->
  d ∈ gs -> doc_Id d = cfg_Id conf -> doc_Owner d = cfg_Owner conf ->
  exists c, UpdateConfiguration None now conf gs
    = ((fun d' => if String.eqb (doc_Id d') (cfg_Id conf)
                  then with_versions (Some (MakeConfigurationVersion_ c))
                         (doc_Versions d ++ [MakeConfigurationVersion_ c]) d else d')
         <$> gs, inr c) /\
    cfg_Version c = (match doc_Latest d with Some l => gv_Version l | None => 0 end + 1)%Z /\
    cfg_Id c = cfg_Id conf /\ cfg_Owner c = cfg_Owner conf /\ cfg_Name c = cfg_Name conf /\
    cfg_Resources c = cfg_Resources (Configuration_Normalize conf).
Proof.
  intros [Hnd _] Hval Hver Hin Hid Ho. unfold UpdateConfiguration, ValidateAndNormalizeConfiguration.
  rewrite Hval, Configuration_Clone_id. cbv zeta. set (c := Configuration_Normalize conf).
  set (f := updateConfiguration _).
  assert (Hq : forall d', filterConfiguration c d' = true -> doc_Id d' = cfg_Id conf).
  { intros d' Hq. unfold filterConfiguration in Hq.
    apply andb_true_iff in Hq as [Hq _]. apply andb_true_iff in Hq as [Hq _]. by apply String.eqb_eq in Hq. }
  assert (Hqd : filterConfiguration c d = true).
  { unfold filterConfiguration, newer. cbn. rewrite Hid, Ho, Hver, !String.eqb_refl. done. }
  rewrite (FindOneAndUpdate_unique _ f gs d Hnd) by
    (try done; intros d1 d2 Hq1 Hq2; by rewrite (Hq _ Hq1), (Hq _ Hq2)).
  exists (configuration_of (f d) (v_setVersion
    (match doc_Latest d with Some l => gv_Version l | None => 0 end + 1) (MakeConfigurationVersion_
      (with_cfg_version (cfg_Id c) now c)))).
  assert (Hf : f d = with_versions (Some (v_setVersion
      (match doc_Latest d with Some l => gv_Version l | None => 0 end + 1) (MakeConfigurationVersion_
        (with_cfg_version (cfg_Id c) now c))))
      (doc_Versions d ++ [v_setVersion
      (match doc_Latest d with Some l => gv_Version l | None => 0 end + 1) (MakeConfigurationVersion_
        (with_cfg_version (cfg_Id c) now c))]) d).
  { unfold f, updateConfiguration, update_doc. cbn [cfg_Version with_cfg_version c Configuration_Normalize set_Resources].
    rewrite Hver. done. }
  split_and!; [|done|done|done|done|done].
  f_equal.
  - apply list_fmap_ext. intros i d' Hd'.
    destruct (filterConfiguration c d') eqn:Eq.
    + rewrite (proj2 (String.eqb_eq _ _) (Hq _ Eq)).
      assert (d' = d) as ->.
      { apply (fmap_NoDup_inj doc_Id gs); [done|by eapply list_elem_of_lookup_2|done|].
        by rewrite (Hq _ Eq), Hid. }
      rewrite Hf at 1. done.
    + destruct (String.eqb_spec (doc_Id d') (cfg_Id conf)) as [Heq|]; [|done].
      assert (d' = d) as ->.
      { apply (fmap_NoDup_inj doc_Id gs); [done|by eapply list_elem_of_lookup_2|done|]. congruence. }
      congruence.
  - rewrite Hf. done.
Qed.
End reachable.
