(* ===== verification/SnippetService.v ===== *)
(** * The handlers of the snippet service

    src/snippet-service/service/grpc/server.go: checking the owner, creating,
    updating, reading and deleting conditions and configurations.  A handler
    gets the documents of its collection and what the driver answers to its
    calls; [send] is what the stream of a response answers. *)

From Stdlib Require Import ZArith Lia String.
From S2P Require Import Prelude Commands IdentityStore SortedSlice Slices IdFilter Snippets.
From S2P Require Import SnippetStore SnippetStoreFacts.

Section handlers.
Context `{!TokenLib, !UUIDLib, !MongoErrors, !Slices}.
Context (ownerClaim : string) (range : gmap string (list Z) -> list (string * list Z)).

Definition checkOwner (ctx : context) (owner : string) : result string :=
  let! ownerFromToken := OwnerFromTokenMD ctx ownerClaim in
  if negb (String.eqb owner "") && negb (String.eqb ownerFromToken owner)
  then inl (errors_New "owner mismatch: expected %v, got %v") else inr ownerFromToken.

Definition getGRPCErrorCode (err : error) : Code :=
  if errors_Is err ErrInvalidArgument then InvalidArgument else Internal.

Definition set_cfg_Owner (owner : string) (version : Z) (c : Configuration) : Configuration :=
  MkConfiguration (cfg_Id c) version (cfg_Name c) (cfg_Resources c) owner (cfg_Timestamp c).
Definition set_cond_Owner (owner : string) (version : Z) (c : Condition) : Condition :=
  MkCondition (cond_Id c) version (cond_Name c) (cond_Enabled c) (cond_ConfigurationId c)
    (cond_DeviceIdFilter c) (cond_ResourceTypeFilter c) (cond_ResourceHrefFilter c)
    (cond_JqExpressionFilter c) (cond_ApiAccessToken c) owner (cond_Timestamp c).

(** What the handlers of Create and Update share. *)
Definition answer {D A} (format : string) (r : D * result A) : D * result A :=
  match r with
  | (docs, inl err) => (docs, inl (Errorf (getGRPCErrorCode err) format))
  | r => r
  end.

Definition Server_CreateConfiguration (ctx : context) (fault : option error) (uuid : string) (now : time_)
    (conf : Configuration) (docs : list (Doc ConfigurationVersion))
    : list (Doc ConfigurationVersion) * result Configuration :=
  match checkOwner ctx (cfg_Owner conf) with
  | inl err => (docs, inl (Errorf PermissionDenied "cannot get configuration: %w"))
  | inr owner =>
      answer "cannot get configuration: %w"
        (CreateConfiguration fault uuid now (set_cfg_Owner owner (cfg_Version conf) conf) docs)
  end.
Definition Server_UpdateConfiguration (ctx : context) (fault : option error) (now : time_)
    (conf : Configuration) (docs : list (Doc ConfigurationVersion))
    : list (Doc ConfigurationVersion) * result Configuration :=
  match checkOwner ctx (cfg_Owner conf) with
  | inl err => (docs, inl (Errorf PermissionDenied "cannot update configuration: %w"))
  | inr owner =>
      answer "cannot update configuration: %w"
        (UpdateConfiguration fault now (set_cfg_Owner owner 0 conf) docs)
  end.
Definition Server_CreateCondition (ctx : context) (fault : option error) (uuid : string) (now : time_)
    (condition : Condition) (docs : list (Doc ConditionVersion))
    : list (Doc ConditionVersion) * result Condition :=
  match checkOwner ctx (cond_Owner condition) with
  | inl err => (docs, inl (Errorf PermissionDenied "cannot create condition: %w"))
  | inr owner =>
      answer "cannot create condition: %w"
        (CreateCondition fault uuid now (set_cond_Owner owner (cond_Version condition) condition) docs)
  end.
Definition Server_UpdateCondition (ctx : context) (fault : option error) (now : time_)
    (condition : Condition) (docs : list (Doc ConditionVersion))
    : list (Doc ConditionVersion) * result Condition :=
  match checkOwner ctx (cond_Owner condition) with
  | inl err => (docs, inl (Errorf PermissionDenied "cannot update condition: %w"))
  | inr owner =>
      answer "cannot update condition: %w"
        (UpdateCondition fault now (set_cond_Owner owner 0 condition) docs)
  end.

(** ** Reading *)
Section sending.
Context {St V M : Type} (mk : Doc V -> V -> M) (version : M -> Z).
Context (send : St -> M -> St * option error).

(** The closure that RangeVersions gets: the error and lastVersion are shared. *)
Definition send_version (s : St * option error * option M) (c : M)
    : (St * option error * option M) * bool :=
  let '(st, err, lastVersion) := s in
  match send st c with
  | (st, Some errS) => ((st, Some errS, lastVersion), false)
  | (st, None) => ((st, err, Some c), true)
  end.
Definition send_document (st : St) (sc : Doc V) : St * option error :=
  let '(st, err, lastVersion) := RangeVersions send_version (st, None, None) (mk sc <$> doc_Versions sc) in
  match err with
  | Some err => (st, Some err)
  | None =>
      match doc_Latest sc with
      | None => (st, None)
      | Some l =>
          let latest := mk sc l in
          match lastVersion with
          | Some v => if (version v =? version latest)%Z then (st, None) else send st latest
          | None => send st latest
          end
      end
  end.
End sending.
Definition sendConfiguration {St} := @send_document St ConfigurationVersion Configuration configuration_of cfg_Version.
Definition sendCondition {St} := @send_document St ConditionVersion Condition condition_of cond_Version.

Definition getAllLatest : list (option IDFilter) := [Some (MkIDFilter "" (Some (IDFilter_Latest true)))].
Definition internal_if (format : string) (errs : list error) : option error :=
  match errs with [] => None | _ => Some (Errorf Internal format) end.

Definition Server_GetConfigurations {St} (ctx : context) (fault : nat -> option error)
    (idFilter : list (option IDFilter)) (httpIdFilter : list string)
    (send : St -> Configuration -> St * option error) (st : St) (docs : list (Doc ConfigurationVersion))
    : St * option error :=
  match checkOwner ctx "" with
  | inl err => (st, Some (Errorf PermissionDenied "cannot get configurations: %w"))
  | inr owner =>
      let fs := requestIdFilter idFilter httpIdFilter in
      let fs := if (length fs =? 0)%nat then getAllLatest else fs in
      let '(st, errs) := GetDocs fault (sendConfiguration send) st
                           (GetConfigurations_cursors range owner fs docs) in
      (st, internal_if "cannot get configurations: %w" errs)
  end.
Definition Server_GetConditions {St} (ctx : context) (fault : nat -> option error)
    (idFilter : list (option IDFilter)) (httpIdFilter confIdFilter : list string)
    (send : St -> Condition -> St * option error) (st : St) (docs : list (Doc ConditionVersion))
    : St * option error :=
  match checkOwner ctx "" with
  | inl err => (st, Some (Errorf PermissionDenied "cannot get conditions: %w"))
  | inr owner =>
      let fs := requestIdFilter idFilter httpIdFilter in
      let fs := if (length fs =? 0)%nat && (length confIdFilter =? 0)%nat then getAllLatest else fs in
      let '(st, errs) := GetDocs fault (sendCondition send) st
                           (GetConditions_cursors range owner fs confIdFilter docs) in
      (st, internal_if "cannot get conditions: %w" errs)
  end.

(** ** Deleting *)
Definition Server_Delete {V} `{!Versioned V} (format : string) (ctx : context)
    (fault : nat -> option error) (idFilter : list (option IDFilter)) (httpIdFilter : list string)
    (docs : list (Doc V)) : list (Doc V) * option error :=
  match checkOwner ctx "" with
  | inl err => (docs, Some (Errorf PermissionDenied format))
  | inr owner =>
      match store_delete range fault owner (requestIdFilter idFilter httpIdFilter) docs with
      | (docs, Some err) => (docs, Some (Errorf Internal format))
      | (docs, None) => (docs, None)
      end
  end.
Definition Server_DeleteConfigurations :=
  Server_Delete (V := ConfigurationVersion) "cannot delete configurations: %w".
Definition Server_DeleteConditions :=
  Server_Delete (V := ConditionVersion) "cannot delete conditions: %w".
End handlers.

(** ** What a client reads *)
Section reading.
Context {V : Type} `{!Versioned V} {M : Type} (mk : Doc V -> V -> M) (version : M -> Z).
Context (of_version : forall d v, version (mk d v) = v_Version v).
Implicit Types (d : Doc V) (docs : list (Doc V)).

(** A stream that keeps what is sent. *)
Definition keep (st : list M) (m : M) : list M * option error := (st ++ [m], None).
Definition sent_of d : list M :=
  (mk d <$> doc_Versions d) ++
  match doc_Latest d with
  | None => []
  | Some l => match last (doc_Versions d) with
              | Some v => if (v_Version v =? v_Version l)%Z then [] else [mk d l]
              | None => [mk d l]
              end
  end.

Lemma RangeVersions_keep ms st lastVersion :
  RangeVersions (send_version keep) (st, None, lastVersion) ms
  = (st ++ ms, None, match last ms with Some m => Some m | None => lastVersion end).
Proof.
  revert st lastVersion. induction ms as [|m ms IH]; intros st lastVersion; cbn [RangeVersions].
  { by rewrite app_nil_r. }
  cbn [send_version keep]. rewrite IH, <- app_assoc, last_cons. by destruct (last ms).
Qed.
Lemma send_document_keep st d : send_document mk version keep st d = (st ++ sent_of d, None).
Proof.
  unfold send_document, sent_of. rewrite RangeVersions_keep, fmap_last.
  destruct (doc_Latest d) as [l|]; [|by rewrite app_nil_r].
  destruct (last (doc_Versions d)) as [v|]; cbn; [rewrite !of_version; destruct (_ =? _)%Z|];
    unfold keep; by rewrite ?app_nil_r, <- ?app_assoc.
Qed.
Lemma processCursor_keep st docs :
  processCursor (send_document mk version keep) st docs = (st ++ (docs ≫= sent_of), None).
Proof.
  revert st. induction docs as [|d docs IH]; intros st; cbn [processCursor]; [by rewrite app_nil_r|].
  rewrite send_document_keep, IH. cbn. by rewrite <- app_assoc.
Qed.
Lemma process_all_keep st cs :
  process_all (send_document mk version keep) st ((fun docs => (None, docs)) <$> cs)
  = (st ++ (concat cs ≫= sent_of), []).
Proof.
  revert st. induction cs as [|docs cs IH]; intros st; cbn [process_all fmap list_fmap];
    [by rewrite app_nil_r|].
  rewrite processCursor_keep, IH. cbn [concat]. by rewrite bind_app, <- app_assoc.
Qed.
Lemma GetDocs_keep st cs :
  GetDocs (fun _ => None) (send_document mk version keep) st cs = (st ++ (concat cs ≫= sent_of), []).
Proof.
  unfold GetDocs. rewrite <- process_all_keep. f_equal.
  apply (imap_const (fun docs => (None, docs))).
Qed.

(** *** What is sent of a document *)
Context (mk_versions : forall l vs d v, mk (with_versions l vs d) v = mk d v).

Lemma sent_of_wf d m :
  doc_wf d -> m ∈ sent_of d <-> exists v, v ∈ doc_Versions d /\ m = mk d v.
Proof.
  intros [_ Hl]. unfold sent_of. rewrite Hl, elem_of_app, list_elem_of_fmap.
  destruct (last (doc_Versions d)) as [v|] eqn:E; [rewrite Z.eqb_refl|];
    split; [intros [(w & -> & Hw)|[]%not_elem_of_nil]|intros (w & Hw & ->)|
            intros [(w & -> & Hw)|[]%not_elem_of_nil]|intros (w & Hw & ->)]; eauto.
Qed.
Lemma is_latest_spec d v l :
  doc_wf d -> doc_Latest d = Some l -> v ∈ doc_Versions d -> is_latest d v = true <-> v = l.
Proof.
  intros [Hs Hlast] Hl Hv. unfold is_latest. rewrite bool_decide_eq_true, Hl. cbn.
  split; [intros [= Heq]|by intros ->]. rewrite Hl in Hlast. symmetry in Hlast.
  apply last_Some in Hlast as [vs Hvs]. rewrite Hvs in Hs, Hv.
  apply elem_of_snoc in Hv as [Hv| ->]; [|done]. rewrite fmap_app in Hs.
  apply StronglySorted_app in Hs as (Hlt & _ & _).
  specialize (Hlt (v_Version v) (v_Version l) ltac:(by apply list_elem_of_fmap_2) ltac:(by left)). lia.
Qed.
Lemma sent_of_no_projection d m :
  doc_wf d ->
  m ∈ sent_of (no_projection d) <-> exists v, v ∈ doc_Versions d /\ is_latest d v = true /\ m = mk d v.
Proof.
  intros Hd. pose proof Hd as [_ Hlast]. unfold sent_of, no_projection.
  cbn [doc_Versions doc_Latest with_versions fmap list_fmap app last].
  destruct (doc_Latest d) as [l|] eqn:El.
  - rewrite list_elem_of_singleton, mk_versions. symmetry in Hlast. apply last_Some_elem_of in Hlast.
    split.
    + intros ->. exists l. split_and!; [done| |done]. by apply (is_latest_spec d l l).
    + intros (v & Hv & Hil & ->). by apply (is_latest_spec d v l) in Hil as ->.
  - symmetry in Hlast. apply last_None in Hlast. rewrite Hlast.
    split; [by intros ?%not_elem_of_nil|by intros (v & ?%not_elem_of_nil & _)].
Qed.
Lemma sent_of_pipeline vs d m :
  vs <> [] ->
  m ∈ sent_of (with_versions None (getVersionsPipeline vs false false d) d) <->
  exists v, v ∈ doc_Versions d /\ v_Version v ∈ vs /\ m = mk d v.
Proof.
  intros Hne. unfold sent_of. cbn [doc_Versions doc_Latest with_versions].
  rewrite app_nil_r, list_elem_of_fmap. unfold getVersionsPipeline. rewrite app_nil_r, length_fmap.
  destruct vs as [|w vs]; [done|]. cbn [length Nat.eqb]. cbv zeta.
  setoid_rewrite mk_versions. setoid_rewrite list_elem_of_filter. cbn [negb].
  setoid_rewrite bool_decide_eq_true. setoid_rewrite list_elem_of_fmap_inj; [|by intros ? ? [=]].
  naive_solver.
Qed.

(** *** What the cursors of a request hold *)
Context `{!Slices, !SlicesLaws} (range : gmap string (list Z) -> list (string * list Z)).
Context (range_perm : forall m, range m ≡ₚ map_to_list m).

Lemma partition_versions_nonempty fs i vs :
  vf_Versions (PartitionIDFilter fs) !! i = Some vs -> vs <> [].
Proof.
  assert (Hloop : forall l st, (forall i vs, vf_Versions st.1 !! i = Some vs -> vs <> []) ->
    forall i vs, vf_Versions (fold_left partition_step l st).1 !! i = Some vs -> vs <> []).
  { intros l. induction l as [|f l IH]; intros st Hst; [done|]. cbn [fold_left]. apply IH.
    destruct st as [vf b]. unfold partition_step.
    destruct (GetAll f); [done|]. destruct (GetLatest f); [by destruct b|].
    cbv zeta. destruct (hasAllIdsVersion vf (GetValue f)); [done|]. cbn [fst vf_Versions].
    intros j ws. rewrite lookup_insert_Some. intros [[_ <-]|[_ Hj]]; [|by eapply Hst].
    by destruct (default [] _). }
  unfold PartitionIDFilter. destruct (Nat.eqb _ _); [|apply Hloop; intros ? ?];
    cbn [no_versions vf_Versions fst]; by rewrite lookup_empty.
Qed.

Definition sent_by (cursors : list (list (Doc V))) (m : M) : Prop :=
  exists ds d, ds ∈ cursors /\ d ∈ ds /\ m ∈ sent_of d.
Lemma elem_of_sent cursors m : m ∈ (concat cursors ≫= sent_of) <-> sent_by cursors m.
Proof.
  rewrite list_elem_of_bind. unfold sent_by. split.
  - intros (d & Hm & Hd). apply list_elem_of_In, in_concat in Hd as (ds & Hds & Hd).
    exists ds, d. apply list_elem_of_In in Hds, Hd. done.
  - intros (ds & d & Hds & Hd & Hm). exists d. split; [done|]. apply list_elem_of_In, in_concat.
    exists ds. split; by apply list_elem_of_In.
Qed.
Lemma sent_by_app cs1 cs2 m : sent_by (cs1 ++ cs2) m <-> sent_by cs1 m \/ sent_by cs2 m.
Proof. unfold sent_by. setoid_rewrite elem_of_app. naive_solver. Qed.
Lemma sent_by_if (b : bool) c m : sent_by (if b then [c] else []) m <-> b = true /\ sent_by [c] m.
Proof.
  unfold sent_by. destruct b; [naive_solver|]. setoid_rewrite elem_of_nil. naive_solver.
Qed.
Lemma sent_by_single c m : sent_by [c] m <-> exists d, d ∈ c /\ m ∈ sent_of d.
Proof. unfold sent_by. setoid_rewrite list_elem_of_singleton. naive_solver. Qed.

(** A version of a document of the owner for which [P] holds. *)
Definition read_where (P : Doc V -> V -> Prop) (owner : string) docs (m : M) : Prop :=
  exists d v, d ∈ docs /\ owned_by owner d = true /\ v ∈ doc_Versions d /\ P d v /\ m = mk d v.

Lemma sent_all owner q docs m :
  Forall doc_wf docs ->
  sent_by [find_docs (toIdFilterQuery owner q false) docs] m <->
  read_where (fun d _ => matches_in q (doc_Id d) = true) owner docs m.
Proof.
  intros Hwf. rewrite Forall_forall in Hwf. rewrite sent_by_single. unfold find_docs, read_where.
  setoid_rewrite list_elem_of_filter. unfold toIdFilterQuery. fold (owned_by (V:=V) owner).
  split.
  - intros (d & [Hq Hd] & Hm). apply sent_of_wf in Hm as (v & Hv & ->); [|by apply Hwf].
    rewrite !andb_true_iff in Hq. exists d, v. naive_solver.
  - intros (d & v & Hd & Ho & Hv & Hq & ->). exists d. split; [split; [|done]|].
    + unfold owned_by in Ho. by rewrite Ho, Hq.
    + apply sent_of_wf; eauto.
Qed.
Lemma sent_latest (q : Doc V -> bool) owner docs m :
  Forall doc_wf docs ->
  sent_by [no_projection <$> find_docs (fun d => owned_by owner d && q d) docs] m <->
  read_where (fun d v => is_latest d v = true /\ q d = true) owner docs m.
Proof.
  intros Hwf. rewrite Forall_forall in Hwf. rewrite sent_by_single. unfold find_docs, read_where. split.
  - intros (d' & Hd' & Hm). apply list_elem_of_fmap in Hd' as (d & -> & Hd).
    apply list_elem_of_filter in Hd as [[Ho Hq]%andb_true_iff Hd].
    apply sent_of_no_projection in Hm as (v & Hv & Hil & ->); [|by apply Hwf]. exists d, v. naive_solver.
  - intros (d & v & Hd & Ho & Hv & [Hil Hq] & ->). exists (no_projection d). split.
    + apply list_elem_of_fmap_2, list_elem_of_filter. by rewrite Ho, Hq.
    + apply sent_of_no_projection; [by apply Hwf|]. eauto.
Qed.
Lemma sent_versions owner (vf : VersionFilter) docs m :
  (forall i vs, vf_Versions vf !! i = Some vs -> vs <> []) ->
  sent_by ((fun iv => getPipeline owner iv.1 iv.2 docs) <$> range (vf_Versions vf)) m <->
  read_where (fun d v => exists i vs, (i = "" \/ i = doc_Id d) /\ vf_Versions vf !! i = Some vs /\
                                      v_Version v ∈ vs) owner docs m.
Proof.
  intros Hne. unfold sent_by, read_where. split.
  - intros (ds & d' & Hds & Hd' & Hm). apply list_elem_of_fmap in Hds as ([i vs] & -> & Hi).
    cbn [fst snd] in *. rewrite range_perm, elem_of_map_to_list in Hi. unfold getPipeline in Hd'.
    apply list_elem_of_fmap in Hd' as (d & -> & Hd). apply list_elem_of_filter in Hd as [Hq Hd].
    apply sent_of_pipeline in Hm as (v & Hv & Hin & ->); [|by eapply Hne]. exists d, v.
    unfold addMatchCondition in Hq. apply andb_true_iff in Hq as [Hq Ho].
    apply andb_true_iff in Hq as [_ Hq]. apply orb_true_iff in Hq. rewrite !String.eqb_eq in Hq.
    split_and!; [done|done|done| |done]. exists i, vs. naive_solver.
  - intros (d & v & Hd & Ho & Hv & (i & vs & Hi & Hvs & Hin) & ->).
    exists (getPipeline owner i vs docs), (with_versions None (getVersionsPipeline vs false false d) d).
    split_and!.
    + apply (list_elem_of_fmap_2 (fun iv => getPipeline owner iv.1 iv.2 docs) _ (i, vs)).
      by rewrite range_perm, elem_of_map_to_list.
    + unfold getPipeline. apply list_elem_of_fmap. exists d. split; [done|]. apply list_elem_of_filter. split; [|done].
      unfold addMatchCondition. unfold owned_by in Ho. rewrite Ho.
      destruct (doc_Versions d); [by apply not_elem_of_nil in Hv|]. cbn [length Nat.eqb negb andb].
      rewrite andb_true_r. apply orb_true_iff. rewrite !String.eqb_eq. naive_solver.
    + apply sent_of_pipeline; [by eapply Hne|]. eauto.
Qed.

(** The three kinds of cursors together. *)
Lemma GetConfigurations_cursors_exact owner fs docs m :
  Forall doc_wf docs ->
  sent_by (GetConfigurations_cursors range owner fs docs) m <->
  read_where (fun d v => wanted fs (doc_Id d) (v_Version v) (is_latest d v)) owner docs m.
Proof.
  intros Hwf. unfold GetConfigurations_cursors. cbv zeta. destruct (PartitionIDFilter_ids fs) as [Hna Hlat].
  pose proof (partition_versions_nonempty fs) as Hne.
  pose proof (PartitionIDFilter_vf_selects fs) as Hsel.
  set (vf := PartitionIDFilter fs) in *. rewrite !sent_by_app, !sent_by_if, sent_all, sent_versions by done.
  assert (Hl : forall ids d, toIdFilterQuery owner (inArrayQuery ids) false d
    = owned_by owner d && matches_in (inArrayQuery ids) (doc_Id d)).
  { intros ids d. unfold toIdFilterQuery, owned_by. by rewrite andb_true_r. }
  assert (Hfind : find_docs (toIdFilterQuery owner (inArrayQuery (vf_Latest vf)) false) docs
    = find_docs (fun d => owned_by owner d && matches_in (inArrayQuery (vf_Latest vf)) (doc_Id d)) docs).
  { unfold find_docs. apply filter_ext_elem. intros d _. by rewrite Hl. }
  rewrite Hfind, sent_latest by done. unfold read_where. setoid_rewrite <- Hsel. unfold vf_selects.
  assert (Hall : forall id, (negb (length (vf_All vf) =? 0) || IsEmpty vf = true /\
      matches_in (inArrayQuery (vf_All vf)) id = true) <->
    (IsEmpty vf = true \/ exists i, (i = "" \/ i = id) /\ i ∈ vf_All vf)).
  { intros id. destruct (vf_All vf) as [|i ids] eqn:Ea; cbn [length Nat.eqb negb orb].
    - cbn [inArrayQuery List.filter length Nat.eqb matches_in]. split; [naive_solver|].
      intros [?|(i & _ & ?%not_elem_of_nil)]; done.
    - rewrite matches_in_ids by done. unfold in_ids. rewrite bool_decide_eq_true.
      assert (He : IsEmpty vf = false) by (unfold IsEmpty; by rewrite Ea). rewrite He. naive_solver. }
  assert (Hlatest : forall id, (negb (length (vf_Latest vf) =? 0) = true /\
      matches_in (inArrayQuery (vf_Latest vf)) id = true) <->
    exists i, (i = "" \/ i = id) /\ i ∈ vf_Latest vf).
  { intros id. destruct (vf_Latest vf) as [|i ids] eqn:Ea; cbn [length Nat.eqb negb].
    - split; [naive_solver|]. intros (i & _ & ?%not_elem_of_nil); done.
    - rewrite matches_in_ids by done. unfold in_ids. rewrite bool_decide_eq_true. naive_solver. }
  clear -Hall Hlatest. split.
  - intros [(Hb & d & v & Hd & Ho & Hv & Hm & ->)|[(Hb & d & v & Hd & Ho & Hv & [Hil Hm] & ->)|
      (d & v & Hd & Ho & Hv & (i & vs & Hi & Hvs & Hin) & ->)]]; exists d, v; (split_and!; [done|done|done| |done]).
    + destruct (proj1 (Hall (doc_Id d)) (conj Hb Hm)) as [?|(i & Hi & Hin)]; [by left|right]. eauto.
    + destruct (proj1 (Hlatest (doc_Id d)) (conj Hb Hm)) as (i & Hi & Hin). right. exists i. eauto.
    + right. exists i. eauto 7.
  - intros (d & v & Hd & Ho & Hv & Hw & ->). destruct Hw as [He|(i & Hi & [Ha|[[Hil Hin]|(vs & Hvs & Hin)]])].
    + left. destruct (proj2 (Hall (doc_Id d)) (or_introl He)) as [Hb Hm]. split; [done|]. exists d, v. done.
    + left. destruct (proj2 (Hall (doc_Id d)) (or_intror (ex_intro _ i (conj Hi Ha)))) as [Hb Hm].
      split; [done|]. exists d, v. done.
    + right. left. destruct (proj2 (Hlatest (doc_Id d)) (ex_intro _ i (conj Hi Hin))) as [Hb Hm].
      split; [done|]. exists d, v. done.
    + right. right. exists d, v. split_and!; [done|done|done| |done]. exists i, vs. done.
Qed.
End reading.

(** ** What the handlers do *)
Section exact.
Context `{!TokenLib, !UUIDLib, !MongoErrors, !Slices, !SlicesLaws}.
Context (ownerClaim : string) (range : gmap string (list Z) -> list (string * list Z)).
Context (range_perm : forall m, range m ≡ₚ map_to_list m).
Context (ctx : context) (owner : string) (Howner : checkOwner ownerClaim ctx "" = inr owner).

(** Without faults, GetConfigurations sends the versions of the owner's
    configurations that the filters of the request select, and nothing else; a
    request without filters asks for the latest versions. *)
Theorem Server_GetConfigurations_exact idFilter httpIdFilter docs :
  Forall doc_wf docs ->
  let fs := requestIdFilter idFilter httpIdFilter in
  let fs := if (length fs =? 0)%nat then getAllLatest else fs in
  let r := Server_GetConfigurations ownerClaim range ctx (fun _ => None) idFilter httpIdFilter keep [] docs in
  r.2 = None /\
  forall c, c ∈ r.1 <-> exists d v, d ∈ docs /\ owned_by owner d = true /\ v ∈ doc_Versions d /\
    wanted fs (doc_Id d) (gv_Version v) (is_latest d v) /\ c = configuration_of d v.
Proof.
  intros Hwf fs fs' r. unfold r, Server_GetConfigurations. rewrite Howner. cbv zeta. fold fs. fold fs'.
  unfold sendConfiguration. rewrite (GetDocs_keep configuration_of cfg_Version) by done.
  split; [done|]. intros c. cbn [app fst]. rewrite elem_of_sent, GetConfigurations_cursors_exact by done.
  done.
Qed.

(** A request to delete conditions whose filters of HTTP cannot be read succeeds
    and deletes all conditions of the owner. *)
Theorem unreadable_delete_deletes_all httpIdFilter (docs : list (Doc ConditionVersion)) :
  Forall (fun h => idFilterFromString h = None) httpIdFilter ->
  Forall (fun d => doc_wf d /\ doc_Versions d <> []) docs ->
  Server_DeleteConditions ownerClaim range ctx (fun _ => None) [] httpIdFilter docs
  = (filter (fun d => owned_by owner d = false) docs, None).
Proof.
  intros Hs Hwf. unfold Server_DeleteConditions, Server_Delete. rewrite Howner, store_delete_kept by done. f_equal.
  rewrite unreadable_filters_nil by done. clear Hwf. induction docs as [|d docs IH]; [done|].
  rewrite filter_cons. cbn [omap list_omap]. rewrite IH. unfold delete_doc. fold (owned_by owner d).
  destruct (owned_by owner d); [|done].
  assert (Hk : kept [] d = []) by (apply list_filter_nil; intros v _ Hv; discriminate Hv). by rewrite Hk.
Qed.
End exact.
