(* ===== verification/AppliedStore.v ===== *)
(** * The applied configurations of the snippet service

    src/snippet-service/store/appliedConfiguration.go and
    store/mongodb/appliedConfiguration.go: creating, replacing, reading,
    updating and deleting the documents that say how far a configuration is
    applied to a device.  The collection is the list of its documents; the
    unique indexes of store/mongodb/store.go are checked by every insertion and
    replacement.  A number that is 0 is not stored, as protojson leaves it out. *)

From Stdlib Require Import ZArith Lia String.
From S2P Require Import Prelude Commands Events SortedSlice Slices IdFilter Snippets SnippetStore.

(** ** store/appliedConfiguration.go *)
Section validation.
Context `{!UUIDLib}.

Definition ValidateAppliedConfiguration (c : AppliedConfiguration) : option error :=
  match AppliedConfiguration_Validate c with
  | Some err => Some (errInvalidArgument err)
  | None => None
  end.
Definition MakeAppliedConfiguration (c : AppliedConfiguration) : AppliedConfiguration :=
  {| ac_Id := ac_Id c; ac_DeviceId := ac_DeviceId c;
     ac_ConfigurationId := LinkedTo_Clone (ac_ConfigurationId c); ac_ExecutedBy := CloneExecutedBy c;
     ac_Resources := CloneAppliedConfiguration_Resources c; ac_Owner := ac_Owner c;
     ac_Timestamp := ac_Timestamp c |}.

Record UpdateAppliedConfigurationResourceRequest := MkUpdateAppliedConfigurationResourceRequest {
  uacr_AppliedConfigurationID : string; uacr_AppliedCondition : option LinkedTo;
  uacr_StatusFilter : list AppliedStatus; uacr_Resource : option AppliedResource }.
Definition UpdateAppliedConfigurationResourceRequest_Validate
    (u : UpdateAppliedConfigurationResourceRequest) : option error :=
  if negb (uuid_Parse (uacr_AppliedConfigurationID u))
  then Some (errInvalidArgument (errors_New "invalid ID(%v): %w")) else
  match uacr_Resource u with
  | None => Some (errInvalidArgument (errors_New "resource is required"))
  | Some r => match AppliedResource_Validate r with
              | Some err => Some (errInvalidArgument err)
              | None => None
              end
  end.
Definition ValidateInvokeConfigurationRequest (req : InvokeConfigurationRequest) : option error :=
  match InvokeConfigurationRequest_Validate req with
  | Some err => Some (errInvalidArgument err)
  | None => None
  end.
End validation.

(** ** store/mongodb/appliedConfiguration.go *)
Section store.
Context `{!UUIDLib, !MongoErrors}.
Implicit Types (d : AppliedConfiguration) (docs : list AppliedConfiguration).

Definition ac_configuration d : string := (ac_ConfigurationId d) ~> lt_Id.
(** What the unique indexes idUniqueIndex and deviceIDConfigurationIDUniqueIndex
    do not let stand beside each other. *)
Definition conflict d d' : bool :=
  String.eqb (ac_Id d) (ac_Id d') ||
  (String.eqb (ac_DeviceId d) (ac_DeviceId d') && String.eqb (ac_configuration d) (ac_configuration d')).
Definition InsertApplied d docs : list AppliedConfiguration * option error :=
  if existsb (conflict d) docs then (docs, Some ErrDuplicateKey) else (docs ++ [d], None).

(** The first document of the filter, what is before and what is after it. *)
Fixpoint find_split {D} (q : D -> bool) (docs : list D) : option (list D * D * list D) :=
  match docs with
  | [] => None
  | d :: docs => if q d then Some ([], d, docs)
                 else match find_split q docs with
                      | Some (before, r, after) => Some (d :: before, r, after)
                      | None => None
                      end
  end.
Definition replaceAppliedConfiguration (fault : option error) (newAdc : AppliedConfiguration) docs
    : list AppliedConfiguration * result (option AppliedConfiguration) :=
  match fault with
  | Some err => (docs, inl err)
  | None =>
      match find_split (fun d => String.eqb (ac_Owner d) (ac_Owner newAdc) &&
                                 String.eqb (ac_DeviceId d) (ac_DeviceId newAdc) &&
                                 String.eqb (ac_configuration d) (ac_configuration newAdc)) docs with
      | Some (before, d, after) =>
          if existsb (conflict newAdc) (before ++ after) then (docs, inl ErrDuplicateKey)
          else (before ++ newAdc :: after, inr (Some d))
      | None => match InsertApplied newAdc docs with
                | (docs, Some err) => (docs, inl err)
                | (docs, None) => (docs, inr None)
                end
      end
  end.

Definition set_ac_Timestamp (t : Z) (id : string) d : AppliedConfiguration :=
  MkAppliedConfigurationRecord id (ac_DeviceId d) (ac_ConfigurationId d) (ac_ExecutedBy d)
    (ac_Resources d) (ac_Owner d) t.
(** [uuid] is what uuid.NewString answers. *)
Definition CreateAppliedConfiguration (fault : option error) (uuid : string) (now : time_)
    (adc : AppliedConfiguration) (force : bool) docs
    : list AppliedConfiguration * result (AppliedConfiguration * option AppliedConfiguration) :=
  match ValidateAppliedConfiguration adc with
  | Some err => (docs, inl err)
  | None =>
      let newAdc := MakeAppliedConfiguration adc in
      let id := if String.eqb (ac_Id newAdc) "" then uuid else ac_Id newAdc in
      let newAdc := set_ac_Timestamp (Time_UnixNano now) id newAdc in
      if force then
        match replaceAppliedConfiguration fault newAdc docs with
        | (docs, inl err) => (docs, inl err)
        | (docs, inr replacedAdc) => (docs, inr (newAdc, replacedAdc))
        end
      else
        match fault with
        | Some err => (docs, inl err)
        | None => match InsertApplied newAdc docs with
                  | (docs, Some err) => (docs, inl err)
                  | (docs, None) => (docs, inr (newAdc, None))
                  end
        end
  end.

(** *** Reading and deleting *)
(** [None] for no filter; [key] is the identifier of the link, if it is there. *)
Definition toFilter (filters : list (AppliedConfiguration -> bool)) : option (AppliedConfiguration -> bool) :=
  match filters with
  | [] => None
  | _ => Some (fun d => existsb (fun f => f d) filters)
  end.
Definition toAppliedDeviceConfigurationsVersionFilter (key : AppliedConfiguration -> option LinkedTo)
    (vf : VersionFilter) : option (AppliedConfiguration -> bool) :=
  match vf_All vf with
  | "" :: _ => Some (fun d => match key d with Some l => negb (String.eqb (lt_Id l) "") | None => false end)
  | _ =>
      let cidFilter := match inArrayQuery (vf_All vf) with
                       | Some ids => [fun d => bool_decide ((key d) ~> lt_Id ∈ ids)]
                       | None => []
                       end in
      let versionFilters :=
        (fun (iv : string * list Z) d =>
           let v := (key d) ~> lt_Version in
           negb (v =? 0)%Z && bool_decide (v ∈ iv.2) &&
           (String.eqb iv.1 "" || String.eqb ((key d) ~> lt_Id) iv.1)) <$> map_to_list (vf_Versions vf) in
      let filters := cidFilter ++ match toFilter versionFilters with Some f => [f] | None => [] end in
      toFilter filters
  end.
Definition toAppliedDeviceConfigurationsIdFilter (idFilter deviceIdFilter : list string)
    (configurationIdFilter conditionIdFilter : VersionFilter) : option (AppliedConfiguration -> bool) :=
  let idf := match inArrayQuery (strings_Unique idFilter) with
             | Some ids => [fun d => bool_decide (ac_Id d ∈ ids)] | None => [] end in
  let dif := match inArrayQuery (strings_Unique deviceIdFilter) with
             | Some ids => [fun d => bool_decide (ac_DeviceId d ∈ ids)] | None => [] end in
  let confif := option_list (toAppliedDeviceConfigurationsVersionFilter ac_ConfigurationId configurationIdFilter) in
  let condif := option_list (toAppliedDeviceConfigurationsVersionFilter GetConditionId conditionIdFilter) in
  toFilter (idf ++ dif ++ confif ++ condif).
Definition toAppliedDeviceConfigurationsQuery (owner : string) (idFilter deviceIdFilter : list string)
    (configurationIdFilter conditionIdFilter : VersionFilter) d : bool :=
  (String.eqb owner "" || String.eqb (ac_Owner d) owner) &&
  match toAppliedDeviceConfigurationsIdFilter idFilter deviceIdFilter configurationIdFilter conditionIdFilter with
  | Some f => f d
  | None => true
  end.
(** The documents that the callback gets. *)
Definition GetAppliedConfigurations `{!Slices} (owner : string) (idFilter deviceIdFilter : list string)
    (configurationIdFilter conditionIdFilter : list (option IDFilter)) docs : list AppliedConfiguration :=
  filter (fun d => toAppliedDeviceConfigurationsQuery owner idFilter deviceIdFilter
    (PartitionIDFilter configurationIdFilter) (PartitionIDFilter conditionIdFilter) d = true) docs.
Definition DeleteAppliedConfigurations (fault : option error) (owner : string) (idFilter : list string) docs
    : list AppliedConfiguration * option error :=
  match fault with
  | Some err => (docs, Some err)
  | None => (filter (fun d => toAppliedDeviceConfigurationsQuery owner idFilter [] no_versions no_versions d
                              = false) docs, None)
  end.

(** *** Updating a resource *)
Definition matchResourceCond (href : string) (statusFilter : list AppliedStatus) (r : AppliedResource) : bool :=
  String.eqb (ar_Href r) href &&
  ((length statusFilter =? 0)%nat || bool_decide (ar_Status r ∈ statusFilter)).
(** The pipeline of the update. *)
Definition update_applied (now : Z) (q : UpdateAppliedConfigurationResourceRequest) (res : AppliedResource) d
    : AppliedConfiguration :=
  let m := matchResourceCond (ar_Href res) (uacr_StatusFilter q) in
  let matchFound := existsb m (ac_Resources d) in
  let executedBy := match uacr_AppliedCondition q with
                    | Some c => if matchFound then MakeExecutedByConditionId (lt_Id c) (lt_Version c)
                                else ac_ExecutedBy d
                    | None => ac_ExecutedBy d
                    end in
  MkAppliedConfigurationRecord (ac_Id d) (ac_DeviceId d) (ac_ConfigurationId d) executedBy
    ((fun r => if m r then res else r) <$> ac_Resources d) (ac_Owner d)
    (if matchFound then now else ac_Timestamp d).
Definition applied_filter (owner id href : string) d : bool :=
  String.eqb (ac_Id d) id && existsb (fun r => String.eqb (ar_Href r) href) (ac_Resources d) &&
  (String.eqb owner "" || String.eqb (ac_Owner d) owner).
Definition UpdateAppliedConfigurationResource (fault : option error) (now : time_) (owner : string)
    (query : UpdateAppliedConfigurationResourceRequest) docs
    : list AppliedConfiguration * result AppliedConfiguration :=
  match UpdateAppliedConfigurationResourceRequest_Validate query, uacr_Resource query with
  | Some err, _ => (docs, inl err)
  | None, None => (docs, inl (errInvalidArgument (errors_New "resource is required")))
  | None, Some res =>
      let updatedTimestamp := Time_UnixNano now in
      match fault with
      | Some err => (docs, inl err)
      | None =>
          match FindOneAndUpdate (applied_filter owner (uacr_AppliedConfigurationID query) (ar_Href res))
                  (update_applied updatedTimestamp query res) docs with
          | (docs, None) => (docs, inl (Wrap "%w: %w" ErrNotFound))
          | (docs, Some updatedAppliedCfg) =>
              if (ac_Timestamp updatedAppliedCfg =? updatedTimestamp)%Z
              then (docs, inr updatedAppliedCfg)
              else (docs, inl (Wrap "%w: %w" ErrNotModified))
          end
      end
  end.

(** *** Pending updates *)
Definition pending_match (expiredOnly : bool) (validUntil : Z) (r : AppliedResource) : bool :=
  bool_decide (ar_Status r = PENDING) &&
  (negb expiredOnly || (negb (ar_ValidUntil r =? 0)%Z && (ar_ValidUntil r <=? validUntil)%Z)).
Definition pending_keep (expiredOnly : bool) (validUntil : Z) (r : AppliedResource) : bool :=
  bool_decide (ar_Status r = PENDING) &&
  (negb expiredOnly || ((0 <? ar_ValidUntil r)%Z && (ar_ValidUntil r <=? validUntil)%Z)).
Definition set_ac_Resources (rs : list AppliedResource) d : AppliedConfiguration :=
  MkAppliedConfigurationRecord (ac_Id d) (ac_DeviceId d) (ac_ConfigurationId d) (ac_ExecutedBy d) rs
    (ac_Owner d) (ac_Timestamp d).
(** The documents that the callback gets; it never answers an error. *)
Definition GetPendingAppliedConfigurationResourceUpdates (fault : option error) (now : time_)
    (expiredOnly : bool) docs : result (list AppliedConfiguration) :=
  match fault with
  | Some err => inl err
  | None =>
      let validUntil := Time_UnixNano now in
      inr ((fun d => set_ac_Resources (filter (fun r => pending_keep expiredOnly validUntil r = true)
                                         (ac_Resources d)) d)
           <$> filter (fun d => existsb (pending_match expiredOnly validUntil) (ac_Resources d) = true) docs)
  end.
End store.

(** Filters for the latest version of a link are no filters: a request that has
    no others gets everything of the owner. *)
Lemma latest_filters_ignored key ids :
  toAppliedDeviceConfigurationsVersionFilter key (MkVersionFilter [] ids ∅) = None.
Proof. unfold toAppliedDeviceConfigurationsVersionFilter. cbn. by rewrite map_to_list_empty. Qed.
