(* ===== verification/SnippetUpdater.v ===== *)
(** * Applying configurations

    src/snippet-service/updater: what the snippet service does when a resource
    changes, when an update of a resource is finished, when an update times
    out, and when a user invokes a configuration.  Other goroutines and other
    instances of the service run between its calls, so a handler is a program:
    a tree of the calls of the store, of the resource aggregate, of the clock
    and of uuid.NewString, each with what follows its answer. *)

From Stdlib Require Import ZArith Lia Ascii String.
From S2P Require Import Prelude Commands Events Subjects SortedSlice Slices IdFilter Snippets.
From S2P Require Import IdentityStore SnippetStore SnippetService AppliedStore.

(** ** Programs *)
(** A read of a collection answers with its documents and the faults that the
    calls on it meet; the operations of the store are then run on them. *)
Inductive call : Type -> Type :=
  | NewString : call string
  | Now : call time_
  | ReadConditions : call (option error * list (Doc ConditionVersion))
  | ReadConfigurations : call ((nat -> option error) * list (Doc ConfigurationVersion))
  | CreateApplied (adc : AppliedConfiguration) (force : bool)
      : call (result (AppliedConfiguration * option AppliedConfiguration))
  | UpdateApplied (owner : string) (query : UpdateAppliedConfigurationResourceRequest)
      : call (result AppliedConfiguration)
  | GetPendingApplied (expiredOnly : bool) : call (result (list AppliedConfiguration))
  (** The calls of the client of resource-aggregate: the token that is put into
      the context, and the answer (of UpdateResource its validUntil). *)
  | RA_UpdateResource (token : option string) (upd : UpdateResourceRequest) : call (result Z)
  | RA_CancelPendingCommands (token : option string) (req : CancelPendingCommandsRequest)
      : call (option error).
Inductive prog (R : Type) : Type :=
  | Ret (r : R)
  | Vis {X : Type} (c : call X) (k : X -> prog R)
  | Panics.
Arguments Ret {R}.
Arguments Vis {R X}.
Arguments Panics {R}.
Fixpoint bind {A B} (p : prog A) (f : A -> prog B) : prog B :=
  match p with
  | Ret a => f a
  | Vis c k => Vis c (fun x => bind (k x) f)
  | Panics => Panics
  end.
Definition trigger {X} (c : call X) : prog X := Vis c Ret.
Notation "'let*' x ':=' p 'in' k" := (bind p (fun x => k))
  (at level 10, x pattern, p at level 100, k at level 200) : go_scope.

(** ** Contents: DecodeContent of resource-aggregate/commands/utils.go, and jq *)
Inductive Target := IntoMap | IntoInterface.
Class ContentLib := {
  json : Type; cbor_DecodeTo : Target -> bytes -> result json; json_DecodeTo : Target -> bytes -> result json;
  json_string : bytes -> json;
  (** The strings of these media types. *)
  type_AppCBOR : string; type_AppOcfCbor : string; type_AppJSON : string; type_TextPlain : string;
  error_Error : error -> bytes;
  jq_query : Type; gojq_Parse : string -> result jq_query;
  (** The first value of a run, if there is one, and whether it is a boolean. *)
  gojq_Run : jq_query -> json -> option json; json_bool : json -> option bool }.

Section content.
Context `{!ContentLib}.
Definition DecodeContent (content : option Content) (v : Target) : result json :=
  match content with
  | None => inl (errors_New "cannot parse empty content")
  | Some c =>
      if String.eqb (ct_ContentType c) type_AppCBOR || String.eqb (ct_ContentType c) type_AppOcfCbor
      then cbor_DecodeTo v (ct_Data c)
      else if String.eqb (ct_ContentType c) type_AppJSON then json_DecodeTo v (ct_Data c)
      else if String.eqb (ct_ContentType c) type_TextPlain then
        match v with
        | IntoInterface => inr (json_string (ct_Data c))
        | IntoMap => inl (errors_New "cannot decode content: invalid type (%T)")
        end
      else inl (errors_New "unsupported content type: %v")
  end.
Definition decodeContent (content : option Content) : result json :=
  match DecodeContent content IntoMap with
  | inr rcData => inr rcData
  | inl _ => match DecodeContent content IntoInterface with
             | inr rcData2 => inr rcData2
             | inl err => inl (Wrap "cannot decode content: %w" err)
             end
  end.
Definition EvalJQCondition (jq : string) (v : json) : result bool :=
  match gojq_Parse jq with
  | inl err => inl (Wrap "cannot parse jq query(%v): %w" err)
  | inr q => match gojq_Run q v with
             | None => inl (errors_New "jq query(%v) returned no result")
             | Some val => match json_bool val with
                           | Some r => inr r
                           | None => inl (errors_New "invalid jq result: %v")
                           end
             end
  end.
(** The closure eval of applyConfigurationsByConditions. *)
Definition eval_condition (rcData : json) (condition : Condition) : bool :=
  if String.eqb (cond_JqExpressionFilter condition) "" then true
  else match EvalJQCondition (cond_JqExpressionFilter condition) rcData with
       | inl _ => false
       | inr ok => ok
       end.
End content.

(** ** updateExecution.go *)
Inductive executeByType := executeByTypeFindCondition | executeByTypeCondition | executeByTypeOnDemand.
#[export] Instance executeByType_eq_dec : EqDecision executeByType.
Proof. solve_decision. Defined.
Record appliedCondition := MkAppliedCondition { apc_id : string; apc_version : Z; apc_token : string }.
Definition no_condition : appliedCondition := MkAppliedCondition "" 0 "".
Record execution := MkExecution {
  ex_condition : appliedCondition; ex_conditions : list Condition; ex_onDemand : string;
  ex_force : bool; ex_executeBy : executeByType }.
Record executionResult := MkExecutionResult {
  er_validUntil : Z; er_condition : appliedCondition; er_onDemand : string;
  er_executedBy : executeByType; er_err : option error }.
Definition failed (err : error) : executionResult :=
  MkExecutionResult 0 no_condition "" executeByTypeFindCondition (Some err).

Definition execution_token (e : execution) : string :=
  match ex_executeBy e with
  | executeByTypeOnDemand => ex_onDemand e
  | executeByTypeCondition => apc_token (ex_condition e)
  | executeByTypeFindCondition => ""
  end.
Definition setCondition (c : appliedCondition) (e : execution) : execution :=
  MkExecution c [] (ex_onDemand e) (ex_force e) executeByTypeCondition.
Definition set_ExecutedBy (b : option ExecutedBy) (ac : AppliedConfiguration) : AppliedConfiguration :=
  MkAppliedConfigurationRecord (ac_Id ac) (ac_DeviceId ac) (ac_ConfigurationId ac) b (ac_Resources ac)
    (ac_Owner ac) (ac_Timestamp ac).
(** [None] when e.conditions[0] panics. *)
Definition setExecutedBy (e : execution) (ac : AppliedConfiguration) : option AppliedConfiguration :=
  if bool_decide (ex_executeBy e = executeByTypeOnDemand)
  then Some (set_ExecutedBy MakeExecutedByOnDemand ac)
  else if negb (String.eqb (apc_id (ex_condition e)) "")
  then Some (set_ExecutedBy (MakeExecutedByConditionId (apc_id (ex_condition e)) (apc_version (ex_condition e))) ac)
  else match ex_conditions e with
       | [] => None
       | firstCondition :: _ =>
           Some (set_ExecutedBy (MakeExecutedByConditionId (cond_Id firstCondition) (cond_Version firstCondition)) ac)
       end.
Definition result_token (er : executionResult) : string :=
  if bool_decide (er_executedBy er = executeByTypeOnDemand) then er_onDemand er else apc_token (er_condition er).

(** ** resourceUpdater.go *)
Section updater.
Context `{!UUIDLib, !MongoErrors, !Slices, !ContentLib}.
Context (range : gmap string (list Z) -> list (string * list Z)).

(** *** Conditions and configurations *)
Definition collect_condition (eval : Condition -> bool) (conditions : list Condition)
    (v : Doc ConditionVersion) : list Condition * option error :=
  match Condition_GetLatest v with
  | inl errG => (conditions, Some (Wrap "cannot get condition: %w" errG))
  | inr c => if eval c then (conditions ++ [Condition_Clone c], None) else (conditions, None)
  end.
Definition getConditions (owner deviceID resourceHref : string) (resourceTypes : list string)
    (eval : Condition -> bool) : prog (result (list Condition)) :=
  let* (fault, docs) := trigger ReadConditions in
  match GetLatestEnabledConditions fault owner
          (MkGetLatestConditionsQuery deviceID resourceHref resourceTypes)
          (collect_condition eval) [] docs with
  | (_, Some err) => Ret (inl (Wrap "cannot get latest conditions: %w" err))
  | (conditions, None) => Ret (inr conditions)
  end.

Definition collect_configuration (configurations : list Configuration) (v : Doc ConfigurationVersion)
    : list Configuration * option error :=
  match Configuration_GetLatest v with
  | inl errG => (configurations, Some (Wrap "cannot get configuration: %w" errG))
  | inr c => (configurations ++ [Configuration_Clone c], None)
  end.
Record configurationWithExecution := MkConfigurationWithExecution {
  cwe_configuration : Configuration; cwe_execution : execution }.

(** The first loop: the conditions of each configuration, and the filters. *)
Definition add_condition (st : gmap string (list Condition) * list (option IDFilter)) (c : Condition)
    : gmap string (list Condition) * list (option IDFilter) :=
  let '(confsToConditions, idFilter) := st in
  let confID := cond_ConfigurationId c in
  if String.eqb confID "" || String.eqb (cond_ApiAccessToken c) "" then st
  else (<[confID := default [] (confsToConditions !! confID) ++ [Condition_Clone c]]> confsToConditions,
        idFilter ++ [Some (MkIDFilter confID (Some (IDFilter_Latest true)))]).
Definition with_conditions (confsToConditions : gmap string (list Condition)) (c : Configuration)
    : option configurationWithExecution :=
  match confsToConditions !! cfg_Id c with
  | None | Some [] => None
  | Some confConditions =>
      let confConditions := SortFunc (fun i j => strings_Compare (cond_ApiAccessToken i) (cond_ApiAccessToken j))
                              confConditions in
      let confConditions := CompactFunc (fun i j => String.eqb (cond_ApiAccessToken i) (cond_ApiAccessToken j))
                              confConditions in
      Some (MkConfigurationWithExecution (Configuration_Clone c)
              (MkExecution no_condition confConditions "" false executeByTypeFindCondition))
  end.
Definition getConfigurationsByConditions (owner : string) (conditions : list Condition)
    : prog (result (list configurationWithExecution)) :=
  let '(confsToConditions, idFilter) := fold_left add_condition conditions (∅, []) in
  if (length idFilter =? 0)%nat then Ret (inr []) else
  let* (fault, docs) := trigger ReadConfigurations in
  match GetDocs fault collect_configuration [] (GetConfigurations_cursors range owner idFilter docs) with
  | (_, _ :: _) => Ret (inl (errors_New "cannot get configurations: %w"))
  | (configurations, []) => Ret (inr (omap (with_conditions confsToConditions) configurations))
  end.
Definition getConfigurations (owner deviceID resourceHref : string) (resourceTypes : list string)
    (eval : Condition -> bool) : prog (result (list configurationWithExecution)) :=
  let* r := getConditions owner deviceID resourceHref resourceTypes eval in
  match r with
  | inl err => Ret (inl err)
  | inr conditions => getConfigurationsByConditions owner conditions
  end.

(** *** One resource *)
Definition ctx_token (token : string) : option string := if String.eqb token "" then None else Some token.
Definition applyConfigurationToResource (resourceID : ResourceId) (configurationID correlationID : string)
    (cr : Configuration_Resource) (token : string) : prog (result Z) :=
  trigger (RA_UpdateResource (ctx_token token)
    {| urr_ResourceId := Some resourceID; urr_CorrelationId := correlationID; urr_Content := cr_Content cr;
       urr_ResourceInterface := ""; urr_TimeToLive := cr_TimeToLive cr;
       urr_CommandMetadata := Some (MkCommandMetadata configurationID 0); urr_Force := true |}).
(** pkgGrpc.ErrToStatus(err).Code() is [error_code]. *)
Fixpoint findTokenAndApplyConfigurationToResource (resourceID : ResourceId)
    (configurationID correlationID : string) (cr : Configuration_Resource) (conditions : list Condition)
    : prog (result (Z * appliedCondition)) :=
  match conditions with
  | [] => Ret (inl (errors_New "cannot apply configuration: no valid token found"))
  | cond :: conditions =>
      let token := cond_ApiAccessToken cond in
      let* r := applyConfigurationToResource resourceID configurationID correlationID cr token in
      match r with
      | inl err =>
          if bool_decide (error_code err = Unauthenticated)
          then findTokenAndApplyConfigurationToResource resourceID configurationID correlationID cr conditions
          else Ret (inl err)
      | inr validUntil => Ret (inr (validUntil, MkAppliedCondition (cond_Id cond) (cond_Version cond) token))
      end
  end.
Definition applyExecution (ex : execution) (resourceID : ResourceId) (configurationID correlationID : string)
    (cr : Configuration_Resource) : prog executionResult :=
  match ex_executeBy ex with
  | executeByTypeOnDemand =>
      let* r := applyConfigurationToResource resourceID configurationID correlationID cr (ex_onDemand ex) in
      match r with
      | inl err => Ret (failed err)
      | inr validUntil =>
          Ret (MkExecutionResult validUntil no_condition (ex_onDemand ex) executeByTypeOnDemand None)
      end
  | executeByTypeCondition =>
      let* r := applyConfigurationToResource resourceID configurationID correlationID cr
                  (apc_token (ex_condition ex)) in
      match r with
      | inl err => Ret (failed err)
      | inr validUntil =>
          Ret (MkExecutionResult validUntil (ex_condition ex) "" executeByTypeCondition None)
      end
  | executeByTypeFindCondition =>
      let* r := findTokenAndApplyConfigurationToResource resourceID configurationID correlationID cr
                  (ex_conditions ex) in
      match r with
      | inl err => Ret (failed err)
      | inr (validUntil, appliedCond) =>
          Ret (MkExecutionResult validUntil appliedCond "" executeByTypeCondition None)
      end
  end.

(** *** Correlation identifiers *)
Fixpoint resourceCorrelationID_from (cID : string) (ids : list string) : string :=
  match ids with
  | [] => cID
  | id :: ids =>
      if String.eqb id "" then resourceCorrelationID_from cID ids
      else resourceCorrelationID_from ((if String.eqb cID "" then cID else cID +:+ ".") +:+ id) ids
  end.
Definition resourceCorrelationID (ids : list string) : string := resourceCorrelationID_from "" ids.
Definition SplitCorrelationID (correlationID : string) : option (string * string * string) :=
  match split_dots correlationID with
  | [appliedConfID; resourceCorrelationID] => Some (appliedConfID, resourceCorrelationID, "")
  | [appliedConfID; resourceCorrelationID; customCorrelationID] =>
      Some (appliedConfID, resourceCorrelationID, customCorrelationID)
  | _ => None
  end.
Fixpoint getAppliedConfigurationResources (resources : list Configuration_Resource)
    (appliedConfID correlationID : string) (updatedResources : list AppliedResource)
    (updatedResourceCorIDs : gmap string string)
    : prog (list AppliedResource * gmap string string) :=
  match resources with
  | [] => Ret (updatedResources, updatedResourceCorIDs)
  | cr :: resources =>
      let* hrefCorrelationID := trigger NewString in
      let resCorrelationID := resourceCorrelationID [appliedConfID; hrefCorrelationID; correlationID] in
      getAppliedConfigurationResources resources appliedConfID correlationID
        (updatedResources ++ [MkAppliedResource (cr_Href cr) resCorrelationID QUEUED None 0])
        (<[cr_Href cr := resCorrelationID]> updatedResourceCorIDs)
  end.

(** *** Requests *)
Definition makeResourceUpdatedWithError (confID owner correlationID : string) (resourceID : ResourceId)
    (err : error) : ResourceUpdated :=
  {| ru_ResourceId := Some resourceID; ru_Status := Status_ERROR;
     ru_Content := Some (MkContent (error_Error err) type_TextPlain 0);
     ru_AuditContext := Some (MkAuditContext "" correlationID owner);
     ru_EventMetadata := Some (MkEventMetadata 0 0 confID 0 "");
     ru_ResourceTypes := []; ru_OpenTelemetryCarrier := [] |}.
Definition getUpdateAppliedConfigurationResourceRequest (appliedConfID confID owner correlationID : string)
    (resourceID : ResourceId) (ex : executionResult) (setExecutionConditionID : bool)
    : UpdateAppliedConfigurationResourceRequest :=
  let resource st ru vu := Some (MkAppliedResource (rid_Href resourceID) correlationID st ru vu) in
  match er_err ex with
  | None =>
      MkUpdateAppliedConfigurationResourceRequest appliedConfID
        (if setExecutionConditionID
         then Some (MkLinkedToRecord (apc_id (er_condition ex)) (apc_version (er_condition ex))) else None)
        [QUEUED] (resource PENDING None (er_validUntil ex))
  | Some err =>
      MkUpdateAppliedConfigurationResourceRequest appliedConfID None [QUEUED]
        (resource DONE (Some (makeResourceUpdatedWithError confID owner correlationID resourceID err)) 0%Z)
  end.
Definition cancelPendingResourceUpdate (token : option string) (resourceID : ResourceId)
    (correlationID configurationID : string) : prog (option error) :=
  trigger (RA_CancelPendingCommands token
    {| cpr_ResourceId := Some resourceID; cpr_CorrelationIdFilter := [correlationID];
       cpr_CommandMetadata := Some (MkCommandMetadata configurationID 0) |}).
Fixpoint cancel_resources (deviceID confID : string) (token : string) (rs : list AppliedResource) : prog unit :=
  match rs with
  | [] => Ret tt
  | res :: rs =>
      if bool_decide (ar_Status res <> PENDING) then cancel_resources deviceID confID token rs
      else
        let* _ := cancelPendingResourceUpdate (Some token) (MkResourceId deviceID (ar_Href res))
                    (ar_CorrelationId res) confID in
        cancel_resources deviceID confID token rs
  end.
Definition cancelPendingResourceUpdates (appliedConf : AppliedConfiguration) (token : string) : prog unit :=
  cancel_resources (ac_DeviceId appliedConf) (ac_configuration appliedConf) token (ac_Resources appliedConf).

(** *** A configuration *)
(** What is returned is a pointer and a multierror: nothing and no errors for nil. *)
Abbreviation answer := (option AppliedConfiguration * list error)%type.
Fixpoint apply_resources (owner deviceID confID : string) (resourcesCorIDs : gmap string string)
    (crs : list Configuration_Resource) (ex : execution) (appliedConf : AppliedConfiguration)
    (errs : list error) : prog answer :=
  match crs with
  | [] => Ret (Some appliedConf, errs)
  | cr :: crs =>
      let href := cr_Href cr in
      let resourceID := MkResourceId deviceID href in
      let resCorrelationID := default "" (resourcesCorIDs !! href) in
      let* exRes := applyExecution ex resourceID confID resCorrelationID cr in
      let by_condition := bool_decide (er_executedBy exRes = executeByTypeCondition) in
      let ex := if by_condition then setCondition (er_condition exRes) ex else ex in
      let updateExecutionConditionID :=
        by_condition &&
        negb (String.eqb (apc_id (er_condition exRes)) ((GetConditionId appliedConf) ~> lt_Id)) in
      let update := getUpdateAppliedConfigurationResourceRequest (ac_Id appliedConf) confID owner
                      resCorrelationID resourceID exRes updateExecutionConditionID in
      let* r := trigger (UpdateApplied owner update) in
      match r with
      | inr updatedAppliedConf =>
          apply_resources owner deviceID confID resourcesCorIDs crs ex updatedAppliedConf errs
      | inl err =>
          if errors_Is err ErrNotFound then
            let* _ := cancelPendingResourceUpdate (ctx_token (result_token exRes)) resourceID
                        resCorrelationID confID in
            Ret (None, [err])
          else apply_resources owner deviceID confID resourcesCorIDs crs ex appliedConf (errs ++ [err])
      end
  end.
Definition applyConfigurationToResources (owner deviceID correlationID : string)
    (confWithExecution : configurationWithExecution) : prog answer :=
  let conf := cwe_configuration confWithExecution in
  let ex := cwe_execution confWithExecution in
  let* appliedConfID := trigger NewString in
  let* (resources, resourcesCorIDs) :=
    getAppliedConfigurationResources (cfg_Resources conf) appliedConfID correlationID [] ∅ in
  let* now := trigger Now in
  match setExecutedBy ex
          {| ac_Id := appliedConfID; ac_Owner := owner; ac_DeviceId := deviceID;
             ac_ConfigurationId := MakeLinkedTo (cfg_Id conf) (cfg_Version conf); ac_ExecutedBy := None;
             ac_Resources := resources; ac_Timestamp := Time_UnixNano now |} with
  | None => Panics
  | Some create =>
      let* r := trigger (CreateApplied create (ex_force ex)) in
      match r with
      | inl errC => Ret (None, [Wrap "cannot create applied device configuration: %w" errC])
      | inr (appliedConf, oldAppliedConf) =>
          let* _ := match oldAppliedConf with
                    | Some old => cancelPendingResourceUpdates old (execution_token ex)
                    | None => Ret tt
                    end in
          apply_resources owner deviceID (cfg_Id conf) resourcesCorIDs (cfg_Resources conf) ex appliedConf []
      end
  end.

(** *** Events *)
Fixpoint apply_configurations (owner deviceID : string) (cs : list configurationWithExecution)
    (errs : list error) : prog (list error) :=
  match cs with
  | [] => Ret errs
  | c :: cs =>
      if (length (cfg_Resources (cwe_configuration c)) =? 0)%nat
      then apply_configurations owner deviceID cs errs
      else
        let* (_, errA) := applyConfigurationToResources owner deviceID "" c in
        if IsDuplicateKeyError errA then apply_configurations owner deviceID cs errs
        else apply_configurations owner deviceID cs (errs ++ errA)
  end.
Definition applyConfigurationsByConditions (rc : ResourceChanged) : prog (list error) :=
  let owner := (rc_AuditContext rc) ~> Commands.ac_Owner in
  if String.eqb owner "" then Ret [errors_New "owner not set"] else
  match decodeContent (rc_Content rc) with
  | inl err => Ret [err]
  | inr rcData =>
      let resourceID := rc_ResourceId rc in
      let deviceID := resourceID ~> rid_DeviceId in
      let resourceHref := resourceID ~> rid_Href in
      let* r := getConfigurations owner deviceID resourceHref (rc_ResourceTypes rc) (eval_condition rcData) in
      match r with
      | inl err => Ret [err]
      | inr confsWithConditions => apply_configurations owner deviceID confsWithConditions []
      end
  end.

Definition finishPendingConfiguration (updated : ResourceUpdated) : prog (option error) :=
  let correlationID := (ru_AuditContext updated) ~> ac_CorrelationId in
  match SplitCorrelationID correlationID with
  | None => Ret None
  | Some (appliedConfID, resourcesCorrelationID, _) =>
      if negb (uuid_Parse appliedConfID) || negb (uuid_Parse resourcesCorrelationID) then Ret None else
      let owner := (ru_AuditContext updated) ~> Commands.ac_Owner in
      let* r := trigger (UpdateApplied owner
        (MkUpdateAppliedConfigurationResourceRequest appliedConfID None []
           (Some (MkAppliedResource ((ru_ResourceId updated) ~> rid_Href) correlationID DONE (Some updated) 0)))) in
      match r with
      | inr _ => Ret None
      | inl err => if bool_decide (ru_Status updated = Status_CANCELED) && errors_Is err ErrNotFound
                   then Ret None else Ret (Some err)
      end
  end.

(** The events of the bus, with what unmarshalling them answers. *)
Inductive updater_event :=
  | ev_ResourceChanged (changed : result ResourceChanged)
  | ev_ResourceUpdated (updated : result ResourceUpdated)
  | ev_unexpected.
Definition handleResourceChanged (ev : result ResourceChanged) : prog (list error) :=
  match ev with
  | inl err => Ret [Wrap "cannot unmarshal ResourceChanged event: %w" err]
  | inr changed => applyConfigurationsByConditions changed
  end.
Definition handleResourceUpdated (ev : result ResourceUpdated) : prog (option error) :=
  match ev with
  | inl err => Ret (Some (Wrap "cannot unmarshal ResourceUpdated event: %w" err))
  | inr updated =>
      let* err := finishPendingConfiguration updated in
      match err with
      | Some err => if errors_Is err ErrNotFound then Ret None
                    else Ret (Some (Wrap "failed to finish pending applied configuration for resource(%v): %w" err))
      | None => Ret None
      end
  end.
(** [iterErr] is what the iterator answers when it has no more events. *)
Fixpoint Handle (iterErr : option error) (evs : list updater_event) : prog (option error) :=
  match evs with
  | [] => Ret iterErr
  | ev_ResourceChanged ev :: evs => let* _ := handleResourceChanged ev in Handle iterErr evs
  | ev_ResourceUpdated ev :: evs => let* _ := handleResourceUpdated ev in Handle iterErr evs
  | ev_unexpected :: evs => Handle iterErr evs
  end.

(** *** Invoking *)
Definition applyConfigurationOnDemand (conf : Configuration) (token owner deviceID correlationID : string)
    (force : bool) : prog answer :=
  if (length (cfg_Resources conf) =? 0)%nat then Ret (None, []) else
  applyConfigurationToResources owner deviceID correlationID
    (MkConfigurationWithExecution conf (MkExecution no_condition [] token force executeByTypeOnDemand)).
Definition latest_configuration (confs : list Configuration) (v : Doc ConfigurationVersion)
    : list Configuration * option error :=
  match Configuration_GetLatest v with
  | inl err => (confs, Some err)
  | inr c => (confs ++ [Configuration_Clone c], None)
  end.
Definition InvokeConfiguration (token owner : string) (req : InvokeConfigurationRequest)
    : prog (result (option AppliedConfiguration)) :=
  match ValidateInvokeConfigurationRequest req with
  | Some err => Ret (inl err)
  | None =>
      let* (fault, docs) := trigger ReadConfigurations in
      match GetLatestConfigurationsByID (fault 0) owner [icr_ConfigurationId req] latest_configuration [] docs with
      | (_, Some err) => Ret (inl (Wrap "cannot get configuration: %w" err))
      | ([], None) => Ret (inl (errors_New "configuration not found: %v"))
      | (conf :: _, None) =>
          let* (appliedConf, errs) := applyConfigurationOnDemand conf token owner (icr_DeviceId req)
                                        (icr_CorrelationId req) (icr_Force req) in
          match errs with
          | err :: _ => Ret (inl (Wrap "cannot apply configuration: %w" err))
          | [] => Ret (inr appliedConf)
          end
      end
  end.

(** *** Timeouts *)
Definition timeoutAppliedConfigurationPendingResource (owner appliedConfigurationID correlationID : string)
    (resourceID : ResourceId) : prog unit :=
  let* _ := trigger (UpdateApplied owner
    (MkUpdateAppliedConfigurationResourceRequest appliedConfigurationID None [PENDING]
       (Some (MkAppliedResource (rid_Href resourceID) correlationID TIMEOUT
          (Some {| ru_ResourceId := Some (MkResourceId (rid_DeviceId resourceID) (rid_Href resourceID));
                   ru_Status := Status_ERROR; ru_Content := None; ru_AuditContext := None;
                   ru_EventMetadata := None; ru_ResourceTypes := []; ru_OpenTelemetryCarrier := [] |}) 0)))) in
  Ret tt.
Fixpoint each {A} (f : A -> prog unit) (l : list A) : prog unit :=
  match l with [] => Ret tt | x :: l => let* _ := f x in each f l end.
Definition TimeoutPendingResourceUpdates : prog unit :=
  let* r := trigger (GetPendingApplied true) in
  match r with
  | inl _ => Ret tt
  | inr pendingUpdates =>
      each (fun ac => each (fun res =>
        timeoutAppliedConfigurationPendingResource (ac_Owner ac) (ac_Id ac) (ar_CorrelationId res)
          (MkResourceId (ac_DeviceId ac) (ar_Href res))) (ac_Resources ac)) pendingUpdates
  end.
Fixpoint cancel_each (l : list (AppliedConfiguration * AppliedResource)) (errs : list error) : prog (list error) :=
  match l with
  | [] => Ret errs
  | (ac, res) :: l =>
      let* err := cancelPendingResourceUpdate None (MkResourceId (ac_DeviceId ac) (ar_Href res))
                    (ar_CorrelationId res) (ac_configuration ac) in
      cancel_each l (errs ++ option_list err)
  end.
Definition CancelPendingResourceUpdates : prog (list error) :=
  let* r := trigger (GetPendingApplied false) in
  match r with
  | inl err => Ret [Wrap "cannot get pending applied configurations: %w" err]
  | inr pendingUpdates =>
      cancel_each (pendingUpdates ≫= fun ac => (fun res => (ac, res)) <$> ac_Resources ac) []
  end.
End updater.

(** ** The handlers of service/grpc/server.go on applied configurations *)
Section server.
Context `{!TokenLib, !UUIDLib, !MongoErrors, !Slices, !ContentLib}.
Context (ownerClaim : string) (range : gmap string (list Z) -> list (string * list Z)).

Definition Server_InvokeConfiguration (ctx : context) (req : InvokeConfigurationRequest)
    : prog (result string) :=
  match checkOwner ownerClaim ctx "" with
  | inl err => Ret (inl (Errorf PermissionDenied "cannot invoke configuration: %w"))
  | inr owner =>
      match TokenFromMD ctx with
      | inl errT => Ret (inl (Errorf Internal "cannot invoke configuration: %w"))
      | inr token =>
          let* r := InvokeConfiguration token owner req in
          match r with
          | inl err => Ret (inl (Errorf Internal "cannot invoke configuration: %w"))
          | inr appliedConf => Ret (inr (appliedConf ~> ac_Id))
          end
      end
  end.
(** The callback sends each document; [send] may fail. *)
Fixpoint send_all {St} (send : St -> AppliedConfiguration -> St * option error) (st : St)
    (docs : list AppliedConfiguration) : St * option error :=
  match docs with
  | [] => (st, None)
  | d :: docs => match send st d with
                 | (st, Some err) => (st, Some err)
                 | (st, None) => send_all send st docs
                 end
  end.
Definition Server_GetAppliedConfigurations {St} (ctx : context) (fault : option error)
    (idFilter deviceIdFilter : list string)
    (conditionIdFilter configurationIdFilter : list (option IDFilter))
    (httpConditionIdFilter httpConfigurationIdFilter : list string)
    (send : St -> AppliedConfiguration -> St * option error) (st : St) (docs : list AppliedConfiguration)
    : St * option error :=
  match checkOwner ownerClaim ctx "" with
  | inl err => (st, Some (Errorf PermissionDenied "cannot get applied configurations: %w"))
  | inr owner =>
      let conditionIdFilter := requestIdFilter conditionIdFilter httpConditionIdFilter in
      let configurationIdFilter := requestIdFilter configurationIdFilter httpConfigurationIdFilter in
      match match fault with
            | Some err => (st, Some err)
            | None => send_all send st (GetAppliedConfigurations owner idFilter deviceIdFilter
                                          configurationIdFilter conditionIdFilter docs)
            end with
      | (st, Some err) => (st, Some (Errorf Internal "cannot get applied configurations: %w"))
      | (st, None) => (st, None)
      end
  end.
Definition Server_DeleteAppliedConfigurations (ctx : context) (fault : option error)
    (idFilter : list string) (docs : list AppliedConfiguration)
    : list AppliedConfiguration * option error :=
  match checkOwner ownerClaim ctx "" with
  | inl err => (docs, Some (Errorf PermissionDenied "cannot delete applied configurations: %w"))
  | inr owner =>
      match DeleteAppliedConfigurations fault owner idFilter docs with
      | (docs, Some err) => (docs, Some (Errorf Internal "cannot delete applied configurations: %w"))
      | (docs, None) => (docs, None)
      end
  end.
End server.
