(* ===== verification/SnippetSystem.v ===== *)
(** * The handlers of the snippet service beside each other

    The goroutines of all instances of the service share one database.  A world
    is its collections and the UUIDs that were handed out; a system is a world
    and the programs that run on it, and a step is one call of one of them, an
    operation of the gRPC server on the collections, or the start of a handler.
    Below, the rules of a program logic for one program among others: [wp] says
    what holds when the program ends, whatever the others do in between. *)

From Stdlib Require Import ZArith Lia String.
From S2P Require Import Prelude Commands Events Subjects SortedSlice Slices IdFilter Snippets.
From S2P Require Import SnippetStore SnippetStoreFacts AppliedStore SnippetUpdater.

Record world := MkWorld {
  w_conditions : list (Doc ConditionVersion); w_configurations : list (Doc ConfigurationVersion);
  w_applied : list AppliedConfiguration; w_uuids : list string }.
Definition set_applied (docs : list AppliedConfiguration) (w : world) : world :=
  MkWorld (w_conditions w) (w_configurations w) docs (w_uuids w).
Definition issue (s : string) (w : world) : world :=
  MkWorld (w_conditions w) (w_configurations w) (w_applied w) (s :: w_uuids w).

Section system.
Context `{!UUIDLib, !MongoErrors, !Slices, !ContentLib}.
Context (range : gmap string (list Z) -> list (string * list Z)).
Implicit Types (w : world) (d : AppliedConfiguration) (docs : list AppliedConfiguration).

(** What a call may answer in a world, and the world after it.  The driver and
    the resource aggregate answer anything; uuid.NewString does not repeat. *)
Definition answers w {X} (c : call X) : world -> X -> Prop :=
  match c in call X return world -> X -> Prop with
  | NewString => fun w' s => uuid_Parse s = true /\ (s ∉ w_uuids w) /\ w' = issue s w
  | Now => fun w' _ => w' = w
  | ReadConditions => fun w' x => w' = w /\ (x.2 = w_conditions w)
  | ReadConfigurations => fun w' x => w' = w /\ (x.2 = w_configurations w)
  | CreateApplied adc force => fun w' r => exists fault uuid now docs,
      CreateAppliedConfiguration fault uuid now adc force (w_applied w) = (docs, r) /\ w' = set_applied docs w
  | UpdateApplied owner query => fun w' r => exists fault now docs,
      UpdateAppliedConfigurationResource fault now owner query (w_applied w) = (docs, r) /\
      w' = set_applied docs w
  | GetPendingApplied expiredOnly => fun w' r => exists fault now,
      w' = w /\ r = GetPendingAppliedConfigurationResourceUpdates fault now expiredOnly (w_applied w)
  | RA_UpdateResource _ _ => fun w' _ => w' = w
  | RA_CancelPendingCommands _ _ => fun w' _ => w' = w
  end.

(** The programs of a system answer what InvokeConfiguration answers. *)
Abbreviation outcome := (result (option AppliedConfiguration)).
Definition ignore {A} (p : prog A) : prog outcome := bind p (fun _ => Ret (inr None)).
Inductive handler : prog outcome -> Prop :=
  | handler_Handle iterErr evs : handler (ignore (Handle range iterErr evs))
  | handler_Invoke token owner req : handler (InvokeConfiguration token owner req)
  | handler_Timeout : handler (ignore TimeoutPendingResourceUpdates)
  | handler_Cancel : handler (ignore CancelPendingResourceUpdates).

Abbreviation system := (world * list (prog outcome))%type.
Inductive sys_step : system -> system -> Prop :=
  | sys_start w ps p : handler p -> sys_step (w, ps) (w, ps ++ [p])
  | sys_call w w' ps1 ps2 X (c : call X) k x :
      answers w c w' x -> sys_step (w, ps1 ++ Vis c k :: ps2) (w', ps1 ++ k x :: ps2)
  | sys_docs w ps cs gs :
      docs_step range (w_conditions w, w_configurations w) (cs, gs) ->
      sys_step (w, ps) (MkWorld cs gs (w_applied w) (w_uuids w), ps)
  | sys_delete w ps fault owner ids :
      sys_step (w, ps)
        (set_applied (DeleteAppliedConfigurations fault owner ids (w_applied w)).1 w, ps).
Inductive sys_reachable : system -> Prop :=
  | sys_init : sys_reachable (MkWorld [] [] [] [], [])
  | sys_next s s' : sys_reachable s -> sys_step s s' -> sys_reachable s'.

(** ** Progress *)
Definition rank (s : AppliedStatus) : nat :=
  match s with QUEUED => 0 | UNSPECIFIED | PENDING => 1 | TIMEOUT => 2 | DONE => 3 end.
Definition resource_le (r r' : AppliedResource) : Prop :=
  ar_Href r = ar_Href r' /\ rank (ar_Status r) <= rank (ar_Status r').
Definition progress d d' : Prop :=
  ac_Id d = ac_Id d' /\ ac_Owner d = ac_Owner d' /\ ac_DeviceId d = ac_DeviceId d' /\
  ac_ConfigurationId d = ac_ConfigurationId d' /\
  Forall2 resource_le (ac_Resources d) (ac_Resources d').
#[export] Instance resource_le_preorder : PreOrder resource_le.
Proof. split; [by split|]. intros r1 r2 r3 [Ha Hb] [Hc Hd]. split; [congruence|lia]. Qed.
#[export] Instance progress_preorder : PreOrder progress.
Proof.
  split; [by intros d; split_and!|]. intros d1 d2 d3 (?&?&?&?&?) (?&?&?&?&?).
  split_and!; try congruence. by etrans.
Qed.

(** The updates that the handlers ask for. *)
Definition good_update (q : UpdateAppliedConfigurationResourceRequest) : Prop :=
  forall res, uacr_Resource q = Some res ->
    (uacr_StatusFilter q = [QUEUED] /\ rank (ar_Status res) >= 1) \/
    (uacr_StatusFilter q = [PENDING] /\ ar_Status res = TIMEOUT) \/
    (uacr_StatusFilter q = [] /\ ar_Status res = DONE).

Lemma update_applied_progress now q res d :
  good_update q -> uacr_Resource q = Some res -> progress d (update_applied now q res d).
Proof.
  intros Hq Hres. unfold progress, update_applied. cbn. split_and!; [done..|].
  apply Forall2_fmap_r, Forall_Forall2_diag, Forall_forall. intros r _. unfold compose.
  destruct (matchResourceCond (ar_Href res) (uacr_StatusFilter q) r) eqn:E; [|done]. unfold matchResourceCond in E.
  apply andb_true_iff in E as [Hh E]. apply String.eqb_eq in Hh. split; [done|].
  destruct (Hq res Hres) as [[Hf Hs]|[[Hf Hs]|[Hf Hs]]]; rewrite Hf in E; cbn [length Nat.eqb orb] in E.
  - apply bool_decide_eq_true, list_elem_of_singleton in E. rewrite E. cbn. lia.
  - apply bool_decide_eq_true, list_elem_of_singleton in E. rewrite E, Hs. cbn. lia.
  - rewrite Hs. by destruct (ar_Status r); cbn; lia.
Qed.

(** ** The collection of applied configurations *)
Definition device_configuration d : string * string := (ac_DeviceId d, ac_configuration d).
Definition applied_ok docs : Prop :=
  NoDup (ac_Id <$> docs) /\ NoDup (device_configuration <$> docs).

Lemma conflict_false d docs :
  existsb (conflict d) docs = false ->
  (ac_Id d ∉ ac_Id <$> docs) /\ (device_configuration d ∉ device_configuration <$> docs).
Proof.
  intros Hc.
  assert (Hn : forall x, x ∈ docs -> conflict d x = false).
  { intros x Hx. destruct (conflict d x) eqn:E; [|done].
    rewrite <- Hc. symmetry. apply existsb_exists. exists x. split; [by apply list_elem_of_In|done]. }
  unfold conflict in Hn. split; intros (x & Heq & Hx)%list_elem_of_fmap; specialize (Hn x Hx);
    apply orb_false_iff in Hn as [Hn1 Hn2].
  - by rewrite Heq, String.eqb_refl in Hn1.
  - unfold device_configuration in Heq. injection Heq as Hd Hg.
    by rewrite Hd, Hg, !String.eqb_refl in Hn2.
Qed.
Lemma applied_ok_insert d docs docs' :
  docs' ≡ₚ d :: docs -> existsb (conflict d) docs = false -> applied_ok docs -> applied_ok docs'.
Proof.
  intros Hp Hc [Hi Hd]. apply conflict_false in Hc as [Hc1 Hc2]. split; rewrite Hp, fmap_cons;
    by apply NoDup_cons.
Qed.
Lemma applied_ok_sublist docs docs' : docs' `sublist_of` docs -> applied_ok docs -> applied_ok docs'.
Proof. intros Hs [Hi Hd]. split; (eapply sublist_NoDup; [eassumption|by apply sublist_fmap]). Qed.

Lemma find_split_spec {D} (q : D -> bool) (ds before : list D) x after :
  find_split q ds = Some (before, x, after) -> ds = before ++ x :: after.
Proof.
  revert before. induction ds as [|y ds IH]; intros before; cbn; [done|].
  destruct (q y); [by intros [= <- -> ->]|].
  destruct (find_split q ds) as [[[b r] a]|]; [|done]. intros [= <- -> ->]. cbn. by rewrite (IH b).
Qed.

(** A creation adds the document, maybe in the place of another one, or nothing. *)
Lemma CreateApplied_spec fault uuid now adc force docs docs' r :
  CreateAppliedConfiguration fault uuid now adc force docs = (docs', r) ->
  applied_ok docs -> ac_Id adc <> "" ->
  applied_ok docs' /\
  match r with
  | inl _ => docs' = docs
  | inr (new, _) => new = set_ac_Timestamp (Time_UnixNano now) (ac_Id adc) (MakeAppliedConfiguration adc) /\
      forall d, d ∈ docs' -> d = new \/ d ∈ docs
  end.
Proof.
  unfold CreateAppliedConfiguration. intros Hc Hok Hid.
  destruct (ValidateAppliedConfiguration adc); [by injection Hc as <- <-|]. cbn zeta in Hc.
  rewrite (proj2 (String.eqb_neq (ac_Id (MakeAppliedConfiguration adc)) "") Hid) in Hc.
  set (new := set_ac_Timestamp _ _ _) in Hc.
  assert (Hins : forall ds e, InsertApplied new docs = (ds, e) -> applied_ok ds /\
    match e with Some _ => ds = docs | None => forall d, d ∈ ds -> d = new \/ d ∈ docs end).
  { intros ds e. unfold InsertApplied. destruct (existsb (conflict new) docs) eqn:E; intros [= <- <-]; [done|].
    split; [apply (applied_ok_insert new docs); [by rewrite Permutation_app_comm|done|done]|].
    intros d. rewrite elem_of_snoc. tauto. }
  destruct force.
  - unfold replaceAppliedConfiguration in Hc. destruct fault; [by injection Hc as <- <-|].
    destruct (find_split _ docs) as [[[before d] after]|] eqn:Ef.
    + apply find_split_spec in Ef. destruct (existsb (conflict new) (before ++ after)) eqn:E;
        injection Hc as <- <-; [done|]. split.
      * apply (applied_ok_insert new (before ++ after)); [by rewrite Permutation_middle|done|].
        eapply applied_ok_sublist; [|exact Hok]. rewrite Ef. by apply sublist_app, sublist_cons.
      * split; [done|]. intros d'. rewrite Ef, !elem_of_app, !elem_of_cons. tauto.
    + destruct (InsertApplied new docs) as [ds [err|]] eqn:Ei; destruct (Hins _ _ eq_refl);
        injection Hc as <- <-; [done|]. done.
  - destruct fault; [by injection Hc as <- <-|].
    destruct (InsertApplied new docs) as [ds [err|]] eqn:Ei; destruct (Hins _ _ eq_refl);
      injection Hc as <- <-; [done|]. done.
Qed.

Lemma FindOneAndUpdate_spec {D} (q : D -> bool) f ds ds' o :
  FindOneAndUpdate q f ds = (ds', o) ->
  Forall2 (fun x x' => x' = x \/ (q x = true /\ x' = f x)) ds ds' /\
  match o with
  | None => ds' = ds
  | Some x' => x' ∈ ds' /\ exists x, x ∈ ds /\ q x = true /\ x' = f x
  end.
Proof.
  revert ds' o. induction ds as [|x ds IH]; intros ds' o; cbn [FindOneAndUpdate]; [by intros [= <- <-]|].
  destruct (q x) eqn:E.
  - intros [= <- <-]. split.
    + constructor; [by right|]. apply Forall_Forall2_diag, Forall_forall. intros y _. by left.
    + split; [by left|]. exists x. split; [by left|done].
  - destruct (FindOneAndUpdate q f ds) as [ds1 o1]. destruct (IH _ _ eq_refl) as [Hf Ho].
    intros [= <- <-]. split; [constructor; [by left|done]|]. destruct o1 as [x'|]; [|by rewrite Ho].
    destruct Ho as [Hin (y & Hy & Hq & ->)]. split; [by right|]. exists y. split; [by right|done].
Qed.

Lemma progress_applied_ok docs docs' : Forall2 progress docs docs' -> applied_ok docs -> applied_ok docs'.
Proof.
  intros Hp. unfold applied_ok.
  assert (Hi : ac_Id <$> docs' = ac_Id <$> docs).
  { symmetry. induction Hp as [|d d' ds ds' (Hid & _) _ IH]; [done|]. by rewrite !fmap_cons, Hid, IH. }
  assert (Hd : device_configuration <$> docs' = device_configuration <$> docs).
  { symmetry. clear Hi. induction Hp as [|d d' ds ds' (_ & _ & Hd & Hc & _) _ IH]; [done|].
    rewrite !fmap_cons, IH. f_equal. unfold device_configuration, ac_configuration. by rewrite Hd, Hc. }
  by rewrite Hi, Hd.
Qed.

(** Nothing that has one of the hrefs is queued in the document [id]. *)
Definition settled (id : string) (hrefs : list string) docs : Prop :=
  forall d res, d ∈ docs -> ac_Id d = id -> res ∈ ac_Resources d -> ar_Href res ∈ hrefs ->
    ar_Status res <> QUEUED.

Lemma UpdateApplied_spec fault now owner q docs docs' r :
  UpdateAppliedConfigurationResource fault now owner q docs = (docs', r) -> good_update q ->
  Forall2 progress docs docs' /\
  forall res, uacr_Resource q = Some res -> forall ac, r = inr ac ->
    ac_Id ac = uacr_AppliedConfigurationID q /\
    (applied_ok docs -> uacr_StatusFilter q = [QUEUED] ->
     settled (ac_Id ac) [ar_Href res] docs').
Proof.
  unfold UpdateAppliedConfigurationResource. intros Hu Hq.
  assert (Hrefl : Forall2 progress docs docs) by (apply Forall_Forall2_diag, Forall_forall; by intros d _).
  destruct (UpdateAppliedConfigurationResourceRequest_Validate q); [by injection Hu as <- <-|].
  destruct (uacr_Resource q) as [res|] eqn:Hres; [|by injection Hu as <- <-]. cbn zeta in Hu.
  destruct fault; [by injection Hu as <- <-|].
  set (f := update_applied _ q res) in Hu. destruct (FindOneAndUpdate _ f docs) as [ds o] eqn:Ef.
  apply FindOneAndUpdate_spec in Ef as [Hf Ho].
  assert (Hp : Forall2 progress docs ds).
  { eapply Forall2_impl; [exact Hf|]. intros d d' [->|[_ ->]]; [done|]. by apply update_applied_progress. }
  destruct o as [upd|].
  2:{ injection Hu as <- <-. split; [by rewrite Ho|done]. }
  assert (Hu' : docs' = ds /\ (r = inr upd \/ exists e, r = inl e)).
  { destruct (_ =? _)%Z; injection Hu as <- <-; eauto. }
  destruct Hu' as [-> Hr]. split; [done|]. intros _ [= <-] ac ->.
  destruct Hr as [[= ->]|[e [=]]]. destruct Ho as [Hin (d0 & Hd0 & Hqd & Hup)].
  assert (Hid : ac_Id upd = uacr_AppliedConfigurationID q).
  { rewrite Hup. unfold applied_filter in Hqd. apply andb_true_iff in Hqd as [Hqd _].
    apply andb_true_iff in Hqd as [Hqd _]. by apply String.eqb_eq in Hqd. }
  split; [done|]. intros Hok Hfilter d r Hd Hdid Hr Hh%list_elem_of_singleton.
  assert (d = upd) as ->.
  { destruct (progress_applied_ok _ _ Hp Hok) as [Hnd _]. by apply (fmap_NoDup_inj ac_Id ds). }
  rewrite Hup in Hr. unfold f, update_applied in Hr. cbn [ac_Resources] in Hr.
  apply list_elem_of_fmap in Hr as (r0 & -> & _). rewrite Hfilter in *.
  destruct (matchResourceCond (ar_Href res) [QUEUED] r0) eqn:Em.
  - destruct (Hq res Hres) as [[_ Hs]|[[Hf' _]|[Hf' _]]]; [|congruence..].
    intros Hs'. rewrite Hs' in Hs. cbn in Hs. lia.
  - unfold matchResourceCond in Em. rewrite Hh, String.eqb_refl in Em. cbn [length Nat.eqb orb andb] in Em.
    apply bool_decide_eq_false in Em. intros Hs. apply Em. rewrite Hs. by left.
Qed.

(** ** Programs among others *)
(** The identifiers that a program got from uuid.NewString, and those of them
    with which it has not created a document. *)
Record ghost := MkGhost { fresh : list string; mine : list string }.
Definition no_ghost : ghost := MkGhost [] [].
(** What the others do to a world. *)
Definition rely (g : ghost) w w1 : Prop :=
  (forall d1, d1 ∈ w_applied w1 -> ac_Id d1 ∈ mine g -> exists d, d ∈ w_applied w /\ progress d d1) /\
  applied_ok (w_applied w1) /\
  (forall d1, d1 ∈ w_applied w1 -> ac_Id d1 ∉ fresh g).
Definition call_ok (g : ghost) w {X} (c : call X) : (ghost -> world -> X -> Prop) -> Prop :=
  match c in call X return (ghost -> world -> X -> Prop) -> Prop with
  | NewString => fun post => forall w' s, answers w NewString w' s ->
      post (MkGhost (s :: fresh g) (s :: mine g)) w' s
  | CreateApplied adc force => fun post => exists fr, fresh g ≡ₚ ac_Id adc :: fr /\
      forall w' r, answers w (CreateApplied adc force) w' r -> post (MkGhost fr (mine g)) w' r
  | UpdateApplied owner q => fun post => good_update q /\
      forall w' r, answers w (UpdateApplied owner q) w' r -> post g w' r
  | c => fun post => forall w' x, answers w c w' x -> post g w' x
  end.
Fixpoint wp {R} (g : ghost) (p : prog R) (Q : ghost -> world -> R -> Prop) w : Prop :=
  match p with
  | Ret r => Q g w r
  | Panics => False
  | Vis c k => forall w1, rely g w w1 -> call_ok g w1 c (fun g' w' x => wp g' (k x) Q w')
  end.

Lemma call_ok_mono g w {X} (c : call X) (P Q : ghost -> world -> X -> Prop) :
  (forall g' w' x, P g' w' x -> Q g' w' x) -> call_ok g w c P -> call_ok g w c Q.
Proof. intros HPQ. destruct c; cbn; naive_solver. Qed.
Lemma wp_mono {R} g (p : prog R) (P Q : ghost -> world -> R -> Prop) w :
  (forall g' w' r, P g' w' r -> Q g' w' r) -> wp g p P w -> wp g p Q w.
Proof.
  intros HPQ. revert g w. induction p as [r|X c k IH|]; intros g w; cbn [wp]; [by apply HPQ| |done].
  intros Hp w1 Hr. eapply call_ok_mono; [|by apply Hp]. intros g' w' x. apply IH.
Qed.
Lemma wp_bind {A B} g (p : prog A) (f : A -> prog B) Q w :
  wp g p (fun g' w' a => wp g' (f a) Q w') w -> wp g (bind p f) Q w.
Proof.
  revert g w. induction p as [r|X c k IH|]; intros g w; cbn [wp bind]; [done| |done].
  intros Hp w1 Hr. eapply call_ok_mono; [|by apply Hp]. intros g' w' x. apply IH.
Qed.
Lemma rely_trans g w w1 w2 : rely g w w1 -> rely g w1 w2 -> rely g w w2.
Proof.
  intros (Ha & _ & _) (Hb & Hok & Hf). split_and!; [|done|done]. intros d2 Hd2 Hm.
  destruct (Hb d2 Hd2 Hm) as (d1 & Hd1 & Hp). pose proof Hp as (Hid & _).
  destruct (Ha d1 Hd1 ltac:(by rewrite Hid)) as (d & Hd & Hp'). exists d. split; [done|by etrans].
Qed.
Lemma wp_rely {R} g (p : prog R) (Q : ghost -> world -> R -> Prop) w w1 :
  (forall r, Q g w r -> Q g w1 r) -> rely g w w1 -> wp g p Q w -> wp g p Q w1.
Proof.
  intros HQ Hr. destruct p as [r|X c k|]; cbn [wp]; [apply HQ| |done].
  intros Hp w2 Hr2. apply Hp. by eapply rely_trans.
Qed.
End system.
