(* ===== verification/SnippetSystemFacts.v ===== *)
(** * Every reachable system

    What one program proves with [wp] holds in every system that runs it: each
    step of a program is a step of the others that they rely on.  The outcome
    that a handler ends with is kept by all later steps. *)

From Stdlib Require Import ZArith Lia String.
From S2P Require Import Prelude Commands Events Subjects SortedSlice Slices IdFilter Snippets.
From S2P Require Import SnippetStore SnippetStoreFacts AppliedStore SnippetUpdater SnippetSystem.

Section pool.
Context `{!UUIDLib, !UUIDLaws, !MongoErrors, !Slices, !ContentLib}.
Context (range : gmap string (list Z) -> list (string * list Z)).
Implicit Types (w : world) (d : AppliedConfiguration) (docs : list AppliedConfiguration) (g : ghost).
Abbreviation outcome := (result (option AppliedConfiguration)).

(** What holds of a world and a program's identifiers between its calls. *)
Record ghost_ok g w : Prop := {
  go_issued : forall s, s ∈ mine g -> s ∈ w_uuids w;
  go_mine : forall s, s ∈ fresh g -> s ∈ mine g;
  go_nodup : NoDup (fresh g);
  go_parses : forall s, s ∈ fresh g -> uuid_Parse s = true;
  go_unused : forall d, d ∈ w_applied w -> ac_Id d ∉ fresh g }.
Record world_ok w : Prop := {
  wo_applied : applied_ok (w_applied w);
  wo_issued : forall d, d ∈ w_applied w -> ac_Id d ∈ w_uuids w }.

(** The effect of a call: documents progress, and a document may be created
    with an identifier that the program did not use before. *)
Record call_effect g g' w w' : Prop := {
  ce_docs : forall d1, d1 ∈ w_applied w' ->
    (exists d, d ∈ w_applied w /\ progress d d1) \/ (ac_Id d1 ∈ fresh g /\ ac_Id d1 ∉ fresh g');
  ce_mine : mine g' = mine g /\ w_uuids w' = w_uuids w \/
    exists s, (s ∉ w_uuids w) /\ mine g' = s :: mine g /\ w_uuids w' = s :: w_uuids w;
  ce_ghost : ghost_ok g' w';
  ce_world : world_ok w' }.

Lemma progress_id d d1 : progress d d1 -> ac_Id d = ac_Id d1.
Proof. by intros (Hid & _). Qed.
Lemma same_docs_effect g w : ghost_ok g w -> world_ok w -> call_effect g g w w.
Proof. intros Hg Hw. split; [|by left|done|done]. intros d1 Hd1. left. by exists d1. Qed.

Lemma progress_elem docs docs' d1 :
  Forall2 progress docs docs' -> d1 ∈ docs' -> exists d, d ∈ docs /\ progress d d1.
Proof.
  intros Hp Hd. apply list_elem_of_lookup in Hd as [i Hi].
  destruct (Forall2_lookup_r _ _ _ _ _ Hp Hi) as (d & Hd & Hpd). exists d.
  split; [by eapply list_elem_of_lookup_2|done].
Qed.

Lemma update_effect g w docs' :
  Forall2 progress (w_applied w) docs' -> ghost_ok g w -> world_ok w ->
  call_effect g g w (set_applied docs' w).
Proof.
  intros Hp Hg Hw. pose proof (fun d1 => progress_elem _ _ d1 Hp) as Hel. split; cbn.
  - intros d1 Hd1. left. by apply Hel.
  - by left.
  - destruct Hg. split; try done. cbn. intros d1 Hd1. destruct (Hel d1 Hd1) as (d & Hd & Hpd).
    rewrite <- (progress_id _ _ Hpd). auto.
  - destruct Hw as [Hok Hi]. split; cbn; [by eapply progress_applied_ok|].
    intros d1 Hd1. destruct (Hel d1 Hd1) as (d & Hd & Hpd). rewrite <- (progress_id _ _ Hpd). auto.
Qed.
Lemma create_effect g w fr fault uuid now adc force docs' r :
  CreateAppliedConfiguration fault uuid now adc force (w_applied w) = (docs', r) ->
  fresh g ≡ₚ ac_Id adc :: fr -> ghost_ok g w -> world_ok w ->
  call_effect g (MkGhost fr (mine g)) w (set_applied docs' w).
Proof.
  intros Hc Hfr [Hi Hm Hnd Hpa Hu] [Hok Hiss].
  assert (Hin : ac_Id adc ∈ fresh g) by (rewrite Hfr; by left).
  assert (Hne : ac_Id adc <> "").
  { intros He. apply Hpa in Hin. by rewrite He, uuid_Parse_empty in Hin. }
  assert (Hnf : (ac_Id adc ∉ fr) /\ NoDup fr) by (rewrite Hfr in Hnd; by apply NoDup_cons in Hnd).
  destruct (CreateApplied_spec _ _ _ _ _ _ _ _ Hc Hok Hne) as [Hok' Hr].
  assert (Hd : forall d1, d1 ∈ docs' -> d1 ∈ w_applied w \/ ac_Id d1 = ac_Id adc).
  { destruct r as [e|[new old]]; [rewrite Hr; auto|]. destruct Hr as [Hnew Hr].
    intros d1 Hd1. destruct (Hr d1 Hd1) as [->|]; [right; by rewrite Hnew|by left]. }
  split; cbn.
  - intros d1 Hd1. destruct (Hd d1 Hd1) as [Hd1'|He]; [left; by exists d1|right].
    rewrite He. split; [done|apply Hnf].
  - by left.
  - split; cbn; [done| |apply Hnf| |].
    + intros s Hs. apply Hm. rewrite Hfr. by right.
    + intros s Hs. apply Hpa. rewrite Hfr. by right.
    + intros d1 Hd1. destruct (Hd d1 Hd1) as [Hd1'| ->]; [|apply Hnf].
      intros Hs. apply (Hu d1 Hd1'). rewrite Hfr. by right.
  - split; cbn; [done|]. intros d1 Hd1. destruct (Hd d1 Hd1) as [Hd1'| ->]; auto.
Qed.
Lemma issue_effect g w s :
  uuid_Parse s = true -> s ∉ w_uuids w -> ghost_ok g w -> world_ok w ->
  call_effect g (MkGhost (s :: fresh g) (s :: mine g)) w (issue s w).
Proof.
  intros Hs Hni [Hi Hm Hnd Hpa Hu] [Hok Hiss]. split; cbn.
  - intros d1 Hd1. left. by exists d1.
  - right. by exists s.
  - split; cbn.
    + intros t [->|Ht]%elem_of_cons; [by left|right; auto].
    + intros t [->|Ht]%elem_of_cons; [by left|right; auto].
    + apply NoDup_cons. split; [|done]. intros Hs'. apply Hni, Hi, Hm, Hs'.
    + intros t [->|Ht]%elem_of_cons; auto.
    + intros d Hd [He|Hf]%elem_of_cons; [|by apply (Hu d Hd)]. apply Hni. rewrite <- He. by apply Hiss.
  - split; cbn; [done|]. intros d Hd. right. auto.
Qed.

Lemma rely_refl g w : ghost_ok g w -> world_ok w -> rely g w w.
Proof.
  intros Hg Hw. split_and!; [|apply Hw|apply Hg]. intros d Hd _. by exists d.
Qed.
(** A call of a program answers what its proof is for, and has such an effect. *)
Lemma call_ok_effect g w {X} (c : call X) post w' x :
  call_ok g w c post -> answers w c w' x -> ghost_ok g w -> world_ok w ->
  exists g', post g' w' x /\ call_effect g g' w w'.
Proof.
  intros Hc Ha Hg Hw. destruct c; cbn in Hc.
  - exists (MkGhost (x :: fresh g) (x :: mine g)). split; [by apply Hc|].
    destruct Ha as (? & ? & ->). by apply issue_effect.
  - exists g. split; [by apply Hc|]. rewrite Ha. by apply same_docs_effect.
  - exists g. split; [by apply Hc|]. rewrite (proj1 Ha). by apply same_docs_effect.
  - exists g. split; [by apply Hc|]. rewrite (proj1 Ha). by apply same_docs_effect.
  - destruct Hc as (fr & Hfr & Hpost). exists (MkGhost fr (mine g)). split; [by apply Hpost|].
    destruct Ha as (fault & uuid & now & docs & Heq & ->). by eapply create_effect.
  - destruct Hc as [Hq Hpost]. exists g. split; [by apply Hpost|].
    destruct Ha as (fault & now & docs & Heq & ->).
    destruct (UpdateApplied_spec _ _ _ _ _ _ _ Heq Hq) as [Hp _]. by apply update_effect.
  - exists g. split; [by apply Hc|]. destruct Ha as (fault & now & -> & _). by apply same_docs_effect.
  - exists g. split; [by apply Hc|]. cbn in Ha. rewrite Ha. by apply same_docs_effect.
  - exists g. split; [by apply Hc|]. cbn in Ha. rewrite Ha. by apply same_docs_effect.
Qed.

(** ** Pools of programs *)
Context (Q : ghost -> world -> outcome -> Prop).
Context (Q_stable : forall g w w1 r, rely g w w1 -> Q g w r -> Q g w1 r).
Context (handler_wp : forall p w, handler range p -> wp no_ghost p Q w).

Definition pool_ok (s : world * list (prog outcome)) : Prop :=
  world_ok s.1 /\ exists gs, Forall2 (fun g p => wp g p Q s.1) gs s.2 /\
    Forall (fun g => ghost_ok g s.1) gs /\ NoDup (concat (mine <$> gs)).

(** The other programs of a pool keep what they rely on. *)
Lemma others_rely g g' w w' gj :
  call_effect g g' w w' -> ghost_ok gj w -> (forall s, s ∈ mine gj -> s ∉ mine g) ->
  (forall s, s ∈ fresh g -> s ∈ mine g) -> rely gj w w' /\ ghost_ok gj w'.
Proof.
  intros [Hd Hm _ Hw'] [Hi Hmi Hnd Hpa Hu] Hdis Hfm.
  assert (Hunused : forall d, d ∈ w_applied w' -> ac_Id d ∉ fresh gj).
  { intros d1 Hd1 Hf. destruct (Hd d1 Hd1) as [(d & Hd' & Hp)|[Hfr _]].
    - apply (Hu d Hd'). by rewrite (progress_id _ _ Hp).
    - apply (Hdis (ac_Id d1)); [by apply Hmi|by apply Hfm]. }
  split.
  - split_and!; [|apply Hw'|done]. intros d1 Hd1 Hmine.
    destruct (Hd d1 Hd1) as [He|[Hfr _]]; [done|]. destruct (Hdis (ac_Id d1) Hmine). by apply Hfm.
  - split; try done. intros s Hs. destruct Hm as [[_ ->]|(t & _ & _ & ->)]; [auto|right; auto].
Qed.

Lemma keep_wp gs ps w w' :
  Forall2 (fun g p => wp g p Q w) gs ps -> Forall (fun g => rely g w w') gs ->
  Forall2 (fun g p => wp g p Q w') gs ps.
Proof.
  induction 1 as [|g p gs ps Hp _ IH]; [constructor|]. intros [Hr Hrs]%Forall_cons.
  constructor; [|by apply IH]. eapply wp_rely; [|done|done]. intros r. by apply Q_stable.
Qed.

(** A step of the world that only removes documents, or changes none. *)
Lemma shrink_ok w w' ps :
  (forall d, d ∈ w_applied w' -> d ∈ w_applied w) -> applied_ok (w_applied w') ->
  w_uuids w' = w_uuids w -> pool_ok (w, ps) -> pool_ok (w', ps).
Proof.
  intros Hsub Hok Hu [[_ Hi] (gs & Hps & Hgs & Hnd)]. cbn [fst snd] in *.
  assert (Hr : Forall (fun g => rely g w w' /\ ghost_ok g w') gs).
  { eapply Forall_impl; [exact Hgs|]. intros g [Hg1 Hg2 Hg3 Hg4 Hg5]. split.
    - split_and!; [|done|auto]. intros d1 Hd1 _. exists d1. split; [by apply Hsub|done].
    - split; try done; [by rewrite Hu|auto]. }
  apply Forall_and in Hr as [Hr Hg']. split; cbn [fst snd].
  - split; [done|]. rewrite Hu. auto.
  - exists gs. split_and!; [by eapply keep_wp|done|done].
Qed.

Lemma pool_step s s' : pool_ok s -> sys_step range s s' -> pool_ok s'.
Proof.
  intros Hs Hstep. destruct Hstep as [w ps p Hp|w w' ps1 ps2 X c k x Ha|w ps cs gs' _|w ps fault owner ids].
  - destruct Hs as [Hw (gs & Hps & Hgs & Hnd)]. split; [done|]. exists (gs ++ [no_ghost]). cbn [fst snd] in *.
    split_and!.
    + apply Forall2_app; [done|]. constructor; [by apply handler_wp|constructor].
    + apply Forall_app. split; [done|]. constructor; [|constructor]. destruct Hw.
      split; cbn; try (intros ? []%not_elem_of_nil); [constructor|intros; apply not_elem_of_nil].
    + rewrite fmap_app, concat_app. cbn. by rewrite !app_nil_r.
  - destruct Hs as [Hw (gs & Hps & Hgs & Hnd)]. cbn [fst snd] in *.
    apply Forall2_app_inv_r in Hps as (gs1 & gs2' & Hps1 & Hps2 & ->).
    apply Forall2_cons_inv_r in Hps2 as (g & gs2 & Hp & Hps2 & ->).
    apply Forall_app in Hgs as [Hgs1 [Hg Hgs2]%Forall_cons].
    cbn [wp] in Hp. destruct (call_ok_effect _ _ _ _ _ _ (Hp w (rely_refl _ _ Hg Hw)) Ha Hg Hw) as (g' & Hk & He).
    rewrite fmap_app, concat_app, fmap_cons in Hnd. cbn [concat] in Hnd.
    assert (Hothers : forall gs0, Forall (fun g => ghost_ok g w) gs0 ->
      (forall s, s ∈ concat (mine <$> gs0) -> s ∉ mine g) ->
      Forall (fun g => rely g w w') gs0 /\ Forall (fun g => ghost_ok g w') gs0).
    { intros gs0 Hgs0 Hdis. apply Forall_and. rewrite Forall_forall in Hgs0 |- *. intros gj Hgj.
      eapply others_rely; [exact He|by apply Hgs0| |apply Hg]. intros s Hs. apply Hdis.
      apply list_elem_of_In, in_concat. exists (mine gj). rewrite <- !list_elem_of_In.
      split; [by apply list_elem_of_fmap_2|done]. }
    assert (Hnd' : NoDup (concat (mine <$> gs1) ++ concat (mine <$> gs2)) /\ NoDup (mine g) /\
      forall s, s ∈ concat (mine <$> gs1) \/ s ∈ concat (mine <$> gs2) -> s ∉ mine g).
    { rewrite Permutation_app_swap_app in Hnd. apply NoDup_app in Hnd as (Hn1 & Hn2 & Hn3).
      split_and!; [done|done|]. intros s Hs Hsm. apply (Hn2 s Hsm). by apply elem_of_app. }
    destruct Hnd' as (Hn1 & Hn2 & Hdis).
    destruct (Hothers gs1 Hgs1 ltac:(auto)) as [Hr1 Hg1]. destruct (Hothers gs2 Hgs2 ltac:(auto)) as [Hr2 Hg2].
    split; [apply He|]. exists (gs1 ++ g' :: gs2). cbn [fst snd]. split_and!.
    + apply Forall2_app; [by eapply keep_wp|]. constructor; [done|by eapply keep_wp].
    + apply Forall_app. split; [done|]. constructor; [apply He|done].
    + rewrite fmap_app, concat_app, fmap_cons. cbn [concat].
      rewrite Permutation_app_swap_app. destruct (ce_mine _ _ _ _ He) as [[-> _]|(s & Hs & -> & _)].
      * apply NoDup_app. split_and!; [done| |done]. intros s Hs Hin. apply elem_of_app in Hin. by apply (Hdis s).
      * cbn [app]. apply NoDup_cons.
        assert (Hall : forall gs0, Forall (fun g => ghost_ok g w) gs0 -> s ∉ concat (mine <$> gs0)).
        { intros gs0 Hgs0 Hin. apply list_elem_of_In, in_concat in Hin as (l & Hl & Hin).
          apply list_elem_of_In, list_elem_of_fmap in Hl as (gj & -> & Hgj). apply list_elem_of_In in Hin.
          rewrite Forall_forall in Hgs0. apply Hs. by apply (go_issued _ _ (Hgs0 gj Hgj)). }
        split.
        -- rewrite !elem_of_app. intros [Hin|[Hin|Hin]]; [|by apply (Hall gs1)|by apply (Hall gs2)].
           apply Hs. by apply (go_issued _ _ Hg).
        -- apply NoDup_app. split_and!; [done| |done]. intros t Ht Hin. apply elem_of_app in Hin.
           by apply (Hdis t).
  - eapply shrink_ok; [| | |exact Hs]; cbn; [done| |done]. destruct Hs as [[Hok _] _]. exact Hok.
  - destruct Hs as [[Hok Hi] Hgs]. apply (shrink_ok w); cbn; [| |done|done].
    + intros d. unfold DeleteAppliedConfigurations. destruct fault; [done|]. by intros [_ Hd]%list_elem_of_filter.
    + eapply applied_ok_sublist; [|exact Hok]. unfold DeleteAppliedConfigurations.
      destruct fault; [done|]. apply sublist_filter_self.
Qed.
Lemma pool_reachable s : sys_reachable range s -> pool_ok s.
Proof.
  induction 1 as [|s s' _ IH Hstep]; [|by eapply pool_step].
  split; [split; cbn; [split; constructor|by intros d ?%not_elem_of_nil]|].
  exists []. split_and!; constructor.
Qed.
End pool.
