(* ===== verification/SnippetUpdaterFacts.v ===== *)
(** * Applying configurations: what the handlers guarantee

    Correlation identifiers are read as they were made, unless a user's own
    identifier has a dot; and in every reachable system the statuses of the
    resources of an applied configuration only go forward, a device has at most
    one applied configuration of a configuration, no handler panics, and an
    invocation that succeeds leaves no resource queued. *)

From Stdlib Require Import ZArith Lia Ascii String.
From S2P Require Import Prelude Commands Events Subjects SortedSlice Slices IdFilter Snippets.
From S2P Require Import SnippetStore SnippetStoreFacts AppliedStore SnippetUpdater SnippetSystem.
From S2P Require Import SnippetSystemFacts.

(** ** Correlation identifiers *)
Lemma split_dots_aux_length tok s : length (split_dots_aux tok s) >= 1.
Proof. revert tok. induction s as [|c s IH]; intros tok; cbn; [lia|]. destruct (Ascii.eqb c "."%char); cbn; auto; lia. Qed.
Lemma split_dots_not_free s : free "."%char s = false -> length (split_dots s) >= 2.
Proof.
  unfold split_dots. generalize "" as tok. induction s as [|c s IH]; intros tok; [done|].
  cbn [free split_dots_aux]. destruct (Ascii.eqb c "."%char); cbn [negb andb]; [|apply IH].
  intros _. pose proof (split_dots_aux_length "" s). cbn. lia.
Qed.

(** What resourceCorrelationID joins is what SplitCorrelationID finds; when the
    correlation identifier of the user has a dot, it finds nothing. *)
Theorem SplitCorrelationID_made a b custom :
  a <> "" -> b <> "" -> free "."%char a = true -> free "."%char b = true ->
  SplitCorrelationID (resourceCorrelationID [a; b; custom])
  = if free "."%char custom then Some (a, b, custom) else None.
Proof.
  intros Ha Hb Hfa Hfb. unfold resourceCorrelationID. cbn [resourceCorrelationID_from].
  rewrite !(proj2 (String.eqb_neq _ _) Ha), !(proj2 (String.eqb_neq _ _) Hb). cbn [String.eqb].
  rewrite append_nil. rewrite (proj2 (String.eqb_neq _ _) Ha).
  assert (Hj : forall s t, (s +:+ ".") +:+ t = s +:+ String "."%char t).
  { intros s t. by rewrite append_assoc. }
  assert (Hs : forall s t, free "."%char s = true -> split_dots (s +:+ String "."%char t) = s :: split_dots t).
  { intros s t Hf. unfold split_dots at 1. rewrite split_dots_aux_app. fold (split_dots s).
    by rewrite split_dots_free. }
  rewrite Hj. destruct (String.eqb_spec custom "") as [->|Hc].
  - unfold SplitCorrelationID. rewrite Hs, split_dots_free by done. done.
  - assert (Hne : String.eqb (a +:+ String "."%char b) "" = false) by (by destruct a).
    rewrite Hne, Hj, append_assoc, append_cons. unfold SplitCorrelationID. rewrite !Hs by done.
    destruct (free "."%char custom) eqn:Hf; [by rewrite split_dots_free|].
    pose proof (split_dots_not_free custom Hf) as Hl.
    destruct (split_dots custom) as [|x [|y l]]; cbn in Hl; [lia|lia|done].
Qed.

(** ** The handlers among others *)
Section handlers.
Context `{!UUIDLib, !UUIDLaws, !MongoErrors, !Slices, !SlicesLaws, !ContentLib}.
Context (range : gmap string (list Z) -> list (string * list Z)).
Implicit Types (w : world) (d : AppliedConfiguration) (docs : list AppliedConfiguration) (g : ghost).

Definition rely0 g w w' : Prop := w' = w \/ rely g w w'.
Lemma rely0_trans g w w1 w2 : rely0 g w w1 -> rely g w1 w2 -> rely g w w2.
Proof. intros [->|Hr] Hr2; [done|by eapply rely_trans]. Qed.
(** Programs that only call the resource aggregate. *)
Definition silent {R} (p : prog R) : Prop :=
  forall g w, wp g p (fun g' w' _ => g' = g /\ rely0 g w w') w.
Lemma silent_ret {R} (r : R) : silent (Ret r).
Proof. intros g w. split; [done|by left]. Qed.
Lemma silent_bind {A B} (p : prog A) (f : A -> prog B) :
  silent p -> (forall a, silent (f a)) -> silent (bind p f).
Proof.
  intros Hp Hf g w. apply wp_bind. eapply wp_mono; [|apply Hp]. intros g' w' a [-> Hr].
  eapply wp_mono; [|apply Hf]. intros g' w2 b [-> Hr2]. split; [done|].
  destruct Hr as [->|Hr]; [done|]. destruct Hr2 as [->|Hr2]; right; [done|by eapply rely_trans].
Qed.
Lemma silent_update token upd : silent (trigger (RA_UpdateResource token upd)).
Proof. intros g w w1 Hr w' x ->. split; [done|by right]. Qed.
Lemma silent_cancel token req : silent (trigger (RA_CancelPendingCommands token req)).
Proof. intros g w w1 Hr w' x ->. split; [done|by right]. Qed.
Hint Resolve @silent_ret silent_update silent_cancel : core.

Lemma silent_findToken resourceID confID corrID cr conds :
  silent (findTokenAndApplyConfigurationToResource resourceID confID corrID cr conds).
Proof.
  induction conds as [|cond conds IH]; cbn [findTokenAndApplyConfigurationToResource]; [auto|]. apply silent_bind; [apply silent_update|].
  intros [err|v]; [|auto]. case_bool_decide; auto.
Qed.
Lemma silent_applyExecution ex resourceID confID corrID cr :
  silent (applyExecution ex resourceID confID corrID cr).
Proof.
  unfold applyExecution. destruct (ex_executeBy ex);
    (apply silent_bind; [first [apply silent_findToken|apply silent_update]|]); intros [err|v]; auto.
  destruct v; auto.
Qed.
Lemma silent_cancel_resources deviceID confID token rs : silent (cancel_resources deviceID confID token rs).
Proof.
  induction rs as [|r rs IH]; cbn [cancel_resources]; [auto|]. case_bool_decide; [done|].
  apply silent_bind; [apply silent_cancel|auto].
Qed.

(** *** The documents that a program created *)
Definition doc_hrefs (id : string) (all : list string) docs : Prop :=
  forall d res, d ∈ docs -> ac_Id d = id -> res ∈ ac_Resources d -> ar_Href res ∈ all.
Definition all_settled (id : string) docs : Prop :=
  forall d res, d ∈ docs -> ac_Id d = id -> res ∈ ac_Resources d -> ar_Status res <> QUEUED.
(** Documents of an identifier come from documents that were there. *)
Definition comes_from (id : string) docs docs' : Prop :=
  forall d1, d1 ∈ docs' -> ac_Id d1 = id -> exists d, d ∈ docs /\ progress d d1.

Lemma progress_resource d d1 res1 :
  progress d d1 -> res1 ∈ ac_Resources d1 ->
  exists res, res ∈ ac_Resources d /\ ar_Href res = ar_Href res1 /\
    (ar_Status res <> QUEUED -> ar_Status res1 <> QUEUED).
Proof.
  intros (_ & _ & _ & _ & Hp) Hr. apply list_elem_of_lookup in Hr as [i Hi].
  destruct (Forall2_lookup_r _ _ _ _ _ Hp Hi) as (res & Hres & Hh & Hle). exists res.
  split_and!; [by eapply list_elem_of_lookup_2|done|]. intros Hs Hs1. rewrite Hs1 in Hle.
  destruct (ar_Status res); cbn in Hle; try done; lia.
Qed.
Lemma settled_from id hs docs docs' : comes_from id docs docs' -> settled id hs docs -> settled id hs docs'.
Proof.
  intros Hc Hs d1 res1 Hd1 Hid Hr Hh. destruct (Hc d1 Hd1 Hid) as (d & Hd & Hp).
  destruct (progress_resource _ _ _ Hp Hr) as (res & Hres & Heq & Himp). apply Himp.
  apply (Hs d); [done|by rewrite (progress_id _ _ Hp)|done|by rewrite Heq].
Qed.
Lemma doc_hrefs_from id all docs docs' :
  comes_from id docs docs' -> doc_hrefs id all docs -> doc_hrefs id all docs'.
Proof.
  intros Hc Hs d1 res1 Hd1 Hid Hr. destruct (Hc d1 Hd1 Hid) as (d & Hd & Hp).
  destruct (progress_resource _ _ _ Hp Hr) as (res & Hres & Heq & _). rewrite <- Heq.
  apply (Hs d); [done|by rewrite (progress_id _ _ Hp)|done].
Qed.
Lemma rely_comes_from g w w1 id : rely g w w1 -> id ∈ mine g -> comes_from id (w_applied w) (w_applied w1).
Proof. intros (Hr & _ & _) Hm d1 Hd1 Hid. apply Hr; [done|by rewrite Hid]. Qed.
Lemma rely0_comes_from g w w1 id : rely0 g w w1 -> id ∈ mine g -> comes_from id (w_applied w) (w_applied w1).
Proof. intros [->|Hr] Hm; [intros d1 Hd1 _; by exists d1|by eapply rely_comes_from]. Qed.
Lemma update_comes_from id docs docs' : Forall2 progress docs docs' -> comes_from id docs docs'.
Proof. intros Hp d1 Hd1 _. by eapply progress_elem. Qed.
Lemma comes_from_trans id docs1 docs2 docs3 :
  comes_from id docs1 docs2 -> comes_from id docs2 docs3 -> comes_from id docs1 docs3.
Proof.
  intros H12 H23 d3 Hd3 Hid. destruct (H23 d3 Hd3 Hid) as (d2 & Hd2 & Hp2).
  destruct (H12 d2 Hd2) as (d1 & Hd1 & Hp1); [by rewrite (progress_id _ _ Hp2)|].
  exists d1. split; [done|by etrans].
Qed.

(** *** The loop over the resources of a configuration *)
Lemma apply_update_good appliedConfID confID owner corrID resourceID ex b :
  good_update (getUpdateAppliedConfigurationResourceRequest appliedConfID confID owner corrID resourceID ex b).
Proof.
  unfold getUpdateAppliedConfigurationResourceRequest. destruct (er_err ex); intros res [= <-]; left; cbn;
    (split; [done|lia]).
Qed.
Lemma apply_update_fields appliedConfID confID owner corrID resourceID ex b :
  let q := getUpdateAppliedConfigurationResourceRequest appliedConfID confID owner corrID resourceID ex b in
  uacr_AppliedConfigurationID q = appliedConfID /\ uacr_StatusFilter q = [QUEUED] /\
  exists res, uacr_Resource q = Some res /\ ar_Href res = rid_Href resourceID.
Proof. unfold getUpdateAppliedConfigurationResourceRequest. destruct (er_err ex); cbn; eauto. Qed.

Lemma wp_apply_resources id all owner dev confID cors crs ex ac errs g w hs :
  ac_Id ac = id -> id ∈ mine g -> doc_hrefs id all (w_applied w) ->
  (errs = [] -> settled id hs (w_applied w)) -> (forall h, h ∈ all -> h ∈ hs \/ h ∈ cr_Href <$> crs) ->
  wp g (apply_resources owner dev confID cors crs ex ac errs)
    (fun g' w' r => forall ac', r = (Some ac', []) ->
      ac_Id ac' = id /\ id ∈ mine g' /\ all_settled id (w_applied w')) w.
Proof.
  revert ex ac errs g w hs. induction crs as [|cr crs IH]; intros ex ac errs g w hs Hid Hm Hall Hset Hsub.
  { intros ac' [= <- ->]. split_and!; [done|done|]. intros d res Hd Hdid Hres.
    apply (Hset eq_refl d res Hd Hdid Hres).
    destruct (Hsub (ar_Href res)) as [?|[]%not_elem_of_nil]; [by eapply Hall|done]. }
  cbn [apply_resources]. apply wp_bind. eapply wp_mono; [|apply silent_applyExecution].
  intros g1 w1 exRes [-> Hr1]. cbn zeta. cbn [bind trigger wp]. intros w2 Hr2. split; [apply apply_update_good|].
  intros w3 r (fault & now & docs & Hu & ->). cbn [wp].
  set (q := getUpdateAppliedConfigurationResourceRequest _ _ _ _ _ _ _) in Hu.
  destruct (UpdateApplied_spec _ _ _ _ _ _ _ Hu (apply_update_good _ _ _ _ _ _ _)) as [Hp Hspec].
  destruct (apply_update_fields (ac_Id ac) confID owner (default "" (cors !! cr_Href cr))
    (MkResourceId dev (cr_Href cr)) exRes
    (bool_decide (er_executedBy exRes = executeByTypeCondition) &&
     negb (String.eqb (apc_id (er_condition exRes)) ((GetConditionId ac) ~> lt_Id))))
    as (Hqid & Hqf & res & Hqr & Hqh). fold q in Hqid, Hqf, Hqr.
  assert (Hcf : comes_from id (w_applied w) docs).
  { eapply comes_from_trans; [|by apply update_comes_from]. eapply rely_comes_from; [|done].
    by eapply rely0_trans. }
  assert (Hall' : doc_hrefs id all (w_applied (set_applied docs w2))) by (by eapply doc_hrefs_from).
  assert (Hnext : forall h, h ∈ all -> h ∈ cr_Href cr :: hs \/ h ∈ cr_Href <$> crs).
  { intros h Hh. destruct (Hsub h Hh) as [?|Hin]; [left; by right|].
    rewrite fmap_cons in Hin. apply elem_of_cons in Hin as [-> |Hin]; [left; by left|by right]. }
  destruct r as [err|upd].
  - destruct (errors_Is err ErrNotFound).
    + cbn [bind trigger wp]. intros w4 _ w5 x _. cbn. intros ac' [=].
    + apply (IH _ _ _ _ _ (cr_Href cr :: hs)); [done|done|done|by destruct errs|by apply Hnext].
  - destruct (Hspec res Hqr upd eq_refl) as [Hupd Hs].
    apply (IH _ _ _ _ _ (cr_Href cr :: hs)); [congruence|done|done| |].
    + intros He d r Hd Hdid Hr [Hh|Hh]%elem_of_cons.
      * apply (Hs ltac:(apply Hr2) Hqf d r Hd ltac:(congruence) Hr). rewrite Hqh, Hh. by left.
      * by apply (settled_from _ _ _ _ Hcf (Hset He) d r).
    + by apply Hnext.
Qed.

(** *** A whole configuration *)
Lemma wp_getAppliedConfigurationResources crs confID corrID rs ids g w :
  wp g (getAppliedConfigurationResources crs confID corrID rs ids)
    (fun g' _ r => exists l, fresh g' = l ++ fresh g /\ mine g' = l ++ mine g /\
       ar_Href <$> r.1 = (ar_Href <$> rs) ++ (cr_Href <$> crs)) w.
Proof.
  revert rs ids g w. induction crs as [|cr crs IH]; intros rs ids g w; cbn [getAppliedConfigurationResources].
  { exists []. cbn. by rewrite app_nil_r. }
  cbn [bind trigger wp]. intros w1 _ w2 s _. eapply wp_mono; [|apply IH]. intros g' w' r (l & Hf & Hm & Hr).
  exists (l ++ [s]). rewrite <- !app_assoc. split_and!; [done|done|].
  rewrite Hr, fmap_app, <- app_assoc. done.
Qed.

(** An execution for which setExecutedBy finds a condition. *)
Definition exec_ok (ex : execution) : Prop :=
  ex_executeBy ex = executeByTypeOnDemand \/ ex_conditions ex <> [].
Lemma setExecutedBy_ok ex ac :
  exec_ok ex -> exists b, setExecutedBy ex ac = Some (set_ExecutedBy b ac).
Proof.
  unfold setExecutedBy. intros [Hex|Hex]; [rewrite bool_decide_eq_true_2 by done; eauto|].
  case_bool_decide; [eauto|]. destruct (negb _); [eauto|]. destruct (ex_conditions ex); [done|eauto].
Qed.

Lemma wp_applyConfigurationToResources owner dev corrID cwe g w :
  exec_ok (cwe_execution cwe) ->
  wp g (applyConfigurationToResources owner dev corrID cwe)
    (fun g' w' r => forall ac, r = (Some ac, []) ->
       ac_Id ac ∈ mine g' /\ all_settled (ac_Id ac) (w_applied w')) w.
Proof.
  intros Hex. unfold applyConfigurationToResources. cbn zeta. cbn [bind trigger wp].
  intros w1 _ w2 id (Hid & _ & ->). apply wp_bind.
  eapply wp_mono; [|apply wp_getAppliedConfigurationResources].
  intros g3 w3 [rs ids] (l & Hf & Hm & Hrs). cbn [fresh mine fst fmap list_fmap app] in Hf, Hm, Hrs.
  cbn [bind trigger wp]. intros w4 _ w5 now ->.
  destruct (setExecutedBy_ok _ {| ac_Id := id; ac_DeviceId := dev;
    ac_ConfigurationId := MakeLinkedTo (cfg_Id (cwe_configuration cwe)) (cfg_Version (cwe_configuration cwe));
    ac_ExecutedBy := None; ac_Resources := rs; ac_Owner := owner; ac_Timestamp := Time_UnixNano now |} Hex)
    as [b ->].
  cbn [wp trigger bind]. intros w6 Hr6. exists (l ++ fresh g). split.
  { rewrite Hf. cbn. by rewrite <- Permutation_middle. }
  intros w7 r (fault & uuid & now7 & docs & Hc & ->).
  destruct Hr6 as (_ & Hok6 & Hfresh6).
  assert (Hne : id <> "") by (intros ->; by rewrite uuid_Parse_empty in Hid).
  destruct (CreateApplied_spec _ _ _ _ _ _ _ _ Hc Hok6 Hne) as [_ Hr].
  destruct r as [err|[new old]]; [by intros ac [=]|]. destruct Hr as [Hnew Hr].
  apply wp_bind. eapply wp_mono with (P := fun g' w' _ =>
    g' = MkGhost (l ++ fresh g) (mine g3) /\ rely0 (MkGhost (l ++ fresh g) (mine g3)) (set_applied docs w6) w').
  2:{ destruct old; [apply silent_cancel_resources|apply silent_ret]. }
  intros g8 w8 _ [-> Hr8].
  assert (Hmine : id ∈ mine g3) by (rewrite Hm; set_solver).
  eapply wp_mono; [|apply (wp_apply_resources id (cr_Href <$> cfg_Resources (cwe_configuration cwe))) with (hs := [])].
  - intros g' w' r Hpost ac Hac. by destruct (Hpost ac Hac) as (-> & ? & ?).
  - by rewrite Hnew.
  - done.
  - eapply doc_hrefs_from; [by eapply rely0_comes_from|]. intros d res Hd Hdid Hres. cbn in Hd.
    destruct (Hr d Hd) as [->|Hd'].
    + rewrite Hnew in Hres. cbn in Hres. apply list_elem_of_fmap in Hres as (res0 & -> & Hres0). cbn.
      rewrite <- Hrs. by apply list_elem_of_fmap_2.
    + destruct (Hfresh6 d Hd'). rewrite Hf, Hdid. set_solver.
  - intros _ d res _ _ _ []%not_elem_of_nil.
  - intros h Hh. by right.
Qed.

(** *** All handlers *)
Definition any {R} : ghost -> world -> R -> Prop := fun _ _ _ => True.
Lemma wp_any {R} g (p : prog R) P w : wp g p P w -> wp g p any w.
Proof. by apply wp_mono. Qed.

Lemma with_conditions_ok m c cwe : with_conditions m c = Some cwe -> exec_ok (cwe_execution cwe).
Proof.
  unfold with_conditions. destruct (m !! cfg_Id c) as [[|cond conds]|]; [done| |done].
  intros [= <-]. right. cbn. set (cmp := fun i j : Condition => (strings_Compare _ _)).
  pose proof (SortFunc_perm cmp (cond :: conds)) as Hp.
  destruct (SortFunc cmp (cond :: conds)) as [|x l]; [|done].
  symmetry in Hp. by apply Permutation_nil_r in Hp.
Qed.
Lemma wp_getConfigurations owner dev href types eval g w :
  wp g (getConfigurations range owner dev href types eval)
    (fun _ _ r => forall cs, r = inr cs -> Forall (fun c => exec_ok (cwe_execution c)) cs) w.
Proof.
  unfold getConfigurations. apply wp_bind. eapply wp_mono with (P := any).
  - intros g1 w1 [err|conds] _; [done|]. unfold getConfigurationsByConditions.
    destruct (fold_left add_condition conds (∅, [])) as [m fs]. destruct (Nat.eqb _ _).
    { intros cs [= <-]. constructor. }
    cbn [bind trigger wp]. intros w2 _ w3 [fault docs] _. destruct (GetDocs _ _ _ _) as [confs [|e es]].
    + intros cs [= <-]. apply Forall_forall. intros c Hc. apply list_elem_of_omap in Hc as (x & _ & Hx).
      by eapply with_conditions_ok.
    + intros cs [=].
  - unfold getConditions. cbn [bind trigger wp]. intros w2 _ w3 [fault docs] _.
    by destruct (GetLatestEnabledConditions _ _ _ _ _ _) as [conds [err|]].
Qed.
Lemma wp_apply_configurations owner dev cs errs g w :
  Forall (fun c => exec_ok (cwe_execution c)) cs -> wp g (apply_configurations owner dev cs errs) any w.
Proof.
  intros Hcs. revert errs g w. induction Hcs as [|c cs Hc _ IH]; intros errs g w; cbn [apply_configurations]; [done|].
  destruct (Nat.eqb _ _); [apply IH|]. apply wp_bind.
  eapply wp_mono; [|by apply wp_applyConfigurationToResources]. intros g' w' [ac errA] _.
  destruct (IsDuplicateKeyError errA); apply IH.
Qed.
Lemma wp_handleResourceChanged ev g w : wp g (handleResourceChanged range ev) any w.
Proof.
  destruct ev as [err|rc]; [done|]. cbn [handleResourceChanged]. unfold applyConfigurationsByConditions.
  destruct (String.eqb _ _); [done|]. destruct (decodeContent _); [done|]. cbn zeta. apply wp_bind.
  eapply wp_mono; [|apply wp_getConfigurations]. intros g' w' [err|cs] Hcs; [done|].
  by apply wp_apply_configurations, Hcs.
Qed.
Lemma wp_handleResourceUpdated ev g w : wp g (handleResourceUpdated ev) any w.
Proof.
  destruct ev as [err|updated]; [done|]. cbn [handleResourceUpdated]. apply wp_bind.
  eapply wp_mono with (P := any); [by intros ? ? [err|] _; [cbn; destruct (errors_Is err _)|]|].
  unfold finishPendingConfiguration. destruct (SplitCorrelationID _) as [[[a b] c]|]; [|done].
  destruct (negb _ || negb _); [done|]. cbn [bind trigger wp]. intros w1 _. split.
  - intros res [= <-]. by right; right.
  - intros w2 [err|ac] _; [|done]. by destruct (bool_decide _ && _).
Qed.
Lemma wp_Handle iterErr evs g w : wp g (Handle range iterErr evs) any w.
Proof.
  revert g w. induction evs as [|[ev|ev|] evs IH]; intros g w; cbn [Handle]; [done|..|apply IH];
    apply wp_bind; (eapply wp_mono; [|first [apply wp_handleResourceChanged|apply wp_handleResourceUpdated]]);
    intros g' w' a _; apply IH.
Qed.
Lemma wp_each {A} (f : A -> prog unit) l g w :
  (forall x g w, wp g (f x) any w) -> wp g (each f l) any w.
Proof.
  intros Hf. revert g w. induction l as [|x l IH]; intros g w; cbn [each]; [done|]. apply wp_bind.
  eapply wp_mono; [|apply Hf]. intros g' w' a _. apply IH.
Qed.
Lemma wp_TimeoutPendingResourceUpdates g w : wp g TimeoutPendingResourceUpdates any w.
Proof.
  unfold TimeoutPendingResourceUpdates. cbn [bind trigger wp]. intros w1 _ w2 [err|acs] _; [done|].
  apply wp_each. intros ac g1 w3. apply wp_each. intros res g2 w4.
  unfold timeoutAppliedConfigurationPendingResource. cbn [bind trigger wp]. intros w5 _. split; [|done].
  intros r [= <-]. by right; left.
Qed.
Lemma wp_CancelPendingResourceUpdates g w : wp g CancelPendingResourceUpdates any w.
Proof.
  unfold CancelPendingResourceUpdates. cbn [bind trigger wp]. intros w1 _ w2 [err|acs] _; [done|].
  assert (Hc : forall l errs g w, wp g (cancel_each l errs) any w); [|apply Hc].
  intros l. induction l as [|[ac res] l IH]; intros errs g1 w3; cbn [cancel_each]; [done|].
  apply wp_bind. eapply wp_mono; [|apply silent_cancel]. intros g' w' a _. apply IH.
Qed.

(** What InvokeConfiguration leaves behind. *)
Definition settled_outcome g w (r : result (option AppliedConfiguration)) : Prop :=
  forall ac, r = inr (Some ac) -> ac_Id ac ∈ mine g /\ all_settled (ac_Id ac) (w_applied w).
Lemma settled_outcome_stable g w w1 r : rely g w w1 -> settled_outcome g w r -> settled_outcome g w1 r.
Proof.
  intros Hr Hs ac Hac. destruct (Hs ac Hac) as [Hm Hset]. split; [done|].
  intros d1 res1 Hd1 Hid Hres1. destruct (rely_comes_from _ _ _ _ Hr Hm d1 Hd1 Hid) as (d & Hd & Hp).
  destruct (progress_resource _ _ _ Hp Hres1) as (res & Hres & _ & Himp). apply Himp.
  apply (Hset d); [done|by rewrite (progress_id _ _ Hp)|done].
Qed.
Lemma wp_InvokeConfiguration token owner req g w :
  wp g (InvokeConfiguration token owner req) settled_outcome w.
Proof.
  unfold InvokeConfiguration. destruct (ValidateInvokeConfigurationRequest req); [by intros ac [=]|].
  cbn [bind trigger wp]. intros w1 _ w2 [fault docs] _.
  destruct (GetLatestConfigurationsByID _ _ _ _ _ _) as [[|conf confs] [err|]]; try (by intros ac [=]).
  apply wp_bind. unfold applyConfigurationOnDemand. destruct (Nat.eqb _ _); [by intros ac [=]|].
  eapply wp_mono; [|apply wp_applyConfigurationToResources; by left].
  intros g' w' [ac [|err errs]] Hset; [|by intros ac' [=]]. intros ac' [= ->]. by apply Hset.
Qed.
Lemma handler_settled p w : handler range p -> wp no_ghost p settled_outcome w.
Proof.
  assert (Hi : forall A (p : prog A), wp no_ghost p any w -> wp no_ghost (ignore p) settled_outcome w).
  { intros A p0 Hp. apply wp_bind. eapply wp_mono; [|exact Hp]. by intros ? ? ? _ ac [=]. }
  destruct 1; [apply Hi, wp_Handle|apply wp_InvokeConfiguration|apply Hi, wp_TimeoutPendingResourceUpdates
    |apply Hi, wp_CancelPendingResourceUpdates].
Qed.

(** ** Every reachable system *)
Lemma reachable_ok s : sys_reachable range s -> pool_ok settled_outcome s.
Proof.
  apply pool_reachable; [intros; by eapply settled_outcome_stable|intros; by apply handler_settled].
Qed.

(** C9: In every reachable system the identifiers of the applied configurations are
    different, a device has at most one applied configuration of a
    configuration, and no handler has panicked. *)
Theorem sys_reachable_ok s :
  sys_reachable range s -> applied_ok (w_applied s.1) /\ Panics ∉ s.2.
Proof.
  intros Hs. destruct (reachable_ok s Hs) as [[Hok _] (gs & Hps & _ & _)]. split; [done|].
  intros Hin. apply list_elem_of_lookup in Hin as [i Hi].
  by destruct (Forall2_lookup_r _ _ _ _ _ Hps Hi) as (g & _ & Hp).
Qed.

(** C15: The status of a resource never goes back: from queued to pending, from
    there to timeout, and from anywhere to done, whatever handlers run. *)
Theorem no_status_goes_back s s' d d' :
  sys_reachable range s -> sys_step range s s' ->
  d ∈ w_applied s.1 -> d' ∈ w_applied s'.1 -> ac_Id d = ac_Id d' -> progress d d'.
Proof.
  intros Hs Hstep Hd Hd' Hid. destruct (reachable_ok s Hs) as [Hw (gs & Hps & Hgs & _)].
  assert (Hsame : d' ∈ w_applied s.1 -> progress d d').
  { intros Hin. assert (d = d') as ->; [|done]. destruct Hw as [[Hnd _] _].
    by apply (fmap_NoDup_inj ac_Id (w_applied s.1)). }
  destruct Hstep as [w ps p Hp|w w' ps1 ps2 X c k x Ha|w ps cs gs' _|w ps fault owner ids]; cbn in *;
    [by apply Hsame| |by apply Hsame|].
  - apply Forall2_app_inv_r in Hps as (gs1 & gs2' & Hps1 & Hps2 & ->).
    apply Forall2_cons_inv_r in Hps2 as (g & gs2 & Hp & Hps2 & ->).
    apply Forall_app in Hgs as [_ [Hg _]%Forall_cons]. cbn [wp] in Hp.
    destruct (call_ok_effect _ _ _ _ _ _ (Hp w (rely_refl _ _ Hg Hw)) Ha Hg Hw) as (g' & _ & He).
    destruct (ce_docs _ _ _ _ He d' Hd') as [(d0 & Hd0 & Hp0)|[Hf _]].
    + assert (d = d0) as ->; [|done]. destruct Hw as [[Hnd _] _].
      apply (fmap_NoDup_inj ac_Id (w_applied w)); [done..|]. by rewrite Hid, (progress_id _ _ Hp0).
    + destruct (go_unused _ _ Hg d Hd). by rewrite Hid.
  - apply Hsame. unfold DeleteAppliedConfigurations in Hd'. destruct fault; [done|].
    by apply list_elem_of_filter in Hd' as [_ ?].
Qed.

(** When InvokeConfiguration has answered an applied configuration, none of its
    resources is queued, then and later: each was sent to the device or failed. *)
Theorem InvokeConfiguration_settles s ac :
  sys_reachable range s -> Ret (inr (Some ac)) ∈ s.2 ->
  forall d res, d ∈ w_applied s.1 -> ac_Id d = ac_Id ac -> res ∈ ac_Resources d -> ar_Status res <> QUEUED.
Proof.
  intros Hs Hin. destruct (reachable_ok s Hs) as [_ (gs & Hps & _ & _)].
  apply list_elem_of_lookup in Hin as [i Hi].
  destruct (Forall2_lookup_r _ _ _ _ _ Hps Hi) as (g & _ & Hp). cbn [wp] in Hp.
  by destruct (Hp ac eq_refl) as [_ Hset].
Qed.
End handlers.
