(* ===== verification/SnippetRun.v ===== *)
(** * A handler that runs alone

    Running a handler with a store that has no faults, a clock that stands
    still and a resource aggregate that answers what [ra] says.  Such a run is a
    run of a system; with it, what findTokenAndApplyConfigurationToResource and
    TimeoutPendingResourceUpdates do is said exactly. *)

From Stdlib Require Import ZArith Lia String.
From S2P Require Import Prelude Commands Events Subjects SortedSlice Slices IdFilter Snippets.
From S2P Require Import SnippetStore SnippetStoreFacts AppliedStore SnippetUpdater SnippetSystem.

Section run.
Context `{!UUIDLib, !MongoErrors, !Slices, !ContentLib}.
Context (range : gmap string (list Z) -> list (string * list Z)).
Context (uuid : nat -> string) (now : time_) (ra : option string -> UpdateResourceRequest -> result Z).
Implicit Types (w : world) (d : AppliedConfiguration) (docs : list AppliedConfiguration).

(** [None] when the supply of UUIDs is not one. *)
Definition answer_alone w {X} (c : call X) : option (world * X) :=
  match c in call X return option (world * X) with
  | NewString =>
      let s := uuid (length (w_uuids w)) in
      if uuid_Parse s && bool_decide (s ∉ w_uuids w) then Some (issue s w, s) else None
  | Now => Some (w, now)
  | ReadConditions => Some (w, (None, w_conditions w))
  | ReadConfigurations => Some (w, (fun _ => None, w_configurations w))
  | CreateApplied adc force =>
      let '(docs, r) := CreateAppliedConfiguration None "" now adc force (w_applied w) in
      Some (set_applied docs w, r)
  | UpdateApplied owner query =>
      let '(docs, r) := UpdateAppliedConfigurationResource None now owner query (w_applied w) in
      Some (set_applied docs w, r)
  | GetPendingApplied expiredOnly =>
      Some (w, GetPendingAppliedConfigurationResourceUpdates None now expiredOnly (w_applied w))
  | RA_UpdateResource token upd => Some (w, ra token upd)
  | RA_CancelPendingCommands _ _ => Some (w, None)
  end.
Fixpoint run {R} (p : prog R) w : option (world * R) :=
  match p with
  | Ret r => Some (w, r)
  | Panics => None
  | Vis c k => match answer_alone w c with
               | Some (w, x) => run (k x) w
               | None => None
               end
  end.

Lemma answer_alone_answers w {X} (c : call X) w' x : answer_alone w c = Some (w', x) -> answers w c w' x.
Proof.
  destruct c; cbn.
  - destruct (_ && _) eqn:E; [|done]. intros [= <- <-]. apply andb_true_iff in E as [E1 E2].
    apply bool_decide_eq_true in E2. done.
  - by intros [= <- <-].
  - by intros [= <- <-].
  - by intros [= <- <-].
  - destruct (CreateAppliedConfiguration _ _ _ _ _ _) as [docs r] eqn:E. intros [= <- <-].
    by exists None, "", now, docs.
  - destruct (UpdateAppliedConfigurationResource _ _ _ _ _) as [docs r] eqn:E. intros [= <- <-].
    by exists None, now, docs.
  - intros [= <- <-]. by exists None, now.
  - by intros [= <- <-].
  - by intros [= <- <-].
Qed.
Lemma run_reachable p w w' r ps1 ps2 :
  run p w = Some (w', r) -> sys_reachable range (w, ps1 ++ p :: ps2) ->
  sys_reachable range (w', ps1 ++ Ret r :: ps2).
Proof.
  revert w. induction p as [r0|X c k IH|]; intros w; cbn [run]; [by intros [= <- <-]| |done].
  destruct (answer_alone w c) as [[w1 x]|] eqn:E; [|done]. intros Hr Hs. apply (IH x w1 Hr).
  eapply sys_next; [exact Hs|]. apply sys_call. by apply answer_alone_answers.
Qed.
Lemma run_bind {A B} (p : prog A) (f : A -> prog B) w :
  run (bind p f) w = match run p w with Some (w, a) => run (f a) w | None => None end.
Proof.
  revert w. induction p as [a|X c k IH|]; intros w; cbn [bind run]; [done| |done].
  destruct (answer_alone w c) as [[w1 x]|]; [apply IH|done].
Qed.

(** ** Tokens *)
Definition accepted (resourceID : ResourceId) (confID corrID : string) (cr : Configuration_Resource)
    (cond : Condition) : result Z :=
  ra (ctx_token (cond_ApiAccessToken cond))
    {| urr_ResourceId := Some resourceID; urr_CorrelationId := corrID; urr_Content := cr_Content cr;
       urr_ResourceInterface := ""; urr_TimeToLive := cr_TimeToLive cr;
       urr_CommandMetadata := Some (MkCommandMetadata confID 0); urr_Force := true |}.
Definition unauthenticated (r : result Z) : bool :=
  match r with inl err => bool_decide (error_code err = Unauthenticated) | inr _ => false end.

(** The update is sent with the tokens of the conditions in their order, until
    one of them is not refused as unauthenticated; what is answered then is the
    answer, and it names the condition whose token it was. *)
Theorem findToken_first_valid resourceID confID corrID cr conds w :
  let first := List.find (fun c => negb (unauthenticated (accepted resourceID confID corrID cr c))) conds in
  run (findTokenAndApplyConfigurationToResource resourceID confID corrID cr conds) w
  = Some (w, match first with
             | None => inl (errors_New "cannot apply configuration: no valid token found")
             | Some c => match accepted resourceID confID corrID cr c with
                         | inl err => inl err
                         | inr validUntil =>
                             inr (validUntil, MkAppliedCondition (cond_Id c) (cond_Version c)
                                                (cond_ApiAccessToken c))
                         end
             end).
Proof.
  intros first. subst first. induction conds as [|c conds IH]; [done|].
  cbn [findTokenAndApplyConfigurationToResource List.find]. rewrite run_bind.
  unfold applyConfigurationToResource. cbn [trigger run answer_alone].
  fold (accepted resourceID confID corrID cr c).
  destruct (accepted resourceID confID corrID cr c) as [err|v] eqn:E; cbn [unauthenticated negb].
  - case_bool_decide; cbn [negb]; [exact IH|]. by rewrite E.
  - by rewrite E.
Qed.

(** ** Timeouts *)
Lemma FindOneAndUpdate_map {D} (key : D -> string) (q : D -> bool) f ds :
  NoDup (key <$> ds) -> (forall x y, q x = true -> q y = true -> key x = key y) ->
  (FindOneAndUpdate q f ds).1 = (fun x => if q x then f x else x) <$> ds.
Proof.
  intros Hnd Hq. induction ds as [|x ds IH]; [done|]. rewrite fmap_cons in Hnd.
  apply NoDup_cons in Hnd as [Hx Hnd]. cbn [FindOneAndUpdate]. rewrite fmap_cons.
  destruct (q x) eqn:E.
  - cbn. f_equal. symmetry. rewrite <- (list_fmap_id ds) at 2. apply list_fmap_ext. intros i y Hy.
    destruct (q y) eqn:Ey; [|done]. destruct Hx. rewrite (Hq x y E Ey).
    apply list_elem_of_fmap_2. by eapply list_elem_of_lookup_2.
  - specialize (IH Hnd). destruct (FindOneAndUpdate q f ds). cbn in *. by rewrite IH.
Qed.

(** The record of a resource whose update timed out. *)
Definition timeout_record d (r : AppliedResource) : AppliedResource :=
  MkAppliedResource (ar_Href r) (ar_CorrelationId r) TIMEOUT
    (Some {| ru_ResourceId := Some (MkResourceId (ac_DeviceId d) (ar_Href r)); ru_Status := Status_ERROR;
             ru_Content := None; ru_AuditContext := None; ru_EventMetadata := None;
             ru_ResourceTypes := []; ru_OpenTelemetryCarrier := [] |}) 0.
Definition timeout_query d (r : AppliedResource) : UpdateAppliedConfigurationResourceRequest :=
  MkUpdateAppliedConfigurationResourceRequest (ac_Id d) None [PENDING] (Some (timeout_record d r)).
Definition timeout_one (dr : AppliedConfiguration * AppliedResource) d : AppliedConfiguration :=
  if applied_filter (ac_Owner dr.1) (ac_Id dr.1) (ar_Href dr.2) d
  then update_applied (Time_UnixNano now) (timeout_query dr.1 dr.2) (timeout_record dr.1 dr.2) d else d.
(** What the store has checked of a document. *)
Definition stored_ok d : Prop :=
  uuid_Parse (ac_Id d) = true /\ NoDup (ar_Href <$> ac_Resources d) /\
  Forall (fun r => AppliedResource_Validate r = None) (ac_Resources d).

Lemma timeout_one_id dr d : ac_Id (timeout_one dr d) = ac_Id d.
Proof. unfold timeout_one. by destruct (applied_filter _ _ _ d). Qed.
Lemma run_timeout_one ac res w :
  NoDup (ac_Id <$> w_applied w) -> uuid_Parse (ac_Id ac) = true -> AppliedResource_Validate res = None ->
  run (timeoutAppliedConfigurationPendingResource (ac_Owner ac) (ac_Id ac) (ar_CorrelationId res)
         (MkResourceId (ac_DeviceId ac) (ar_Href res))) w
  = Some (set_applied (timeout_one (ac, res) <$> w_applied w) w, tt).
Proof.
  intros Hnd Hid Hval. unfold timeoutAppliedConfigurationPendingResource. cbn [bind trigger run answer_alone].
  change (MkUpdateAppliedConfigurationResourceRequest _ _ _ _) with (timeout_query ac res).
  assert (Hv : UpdateAppliedConfigurationResourceRequest_Validate (timeout_query ac res) = None).
  { unfold UpdateAppliedConfigurationResourceRequest_Validate. cbn. rewrite Hid. cbn.
    unfold AppliedResource_Validate in *. cbn.
    destruct (String.eqb (ar_Href res) ""); [done|]. by destruct (String.eqb (ar_CorrelationId res) ""). }
  unfold UpdateAppliedConfigurationResource. rewrite Hv. cbn [timeout_query uacr_Resource uacr_AppliedConfigurationID].
  fold (timeout_query ac res). cbn zeta.
  pose proof (FindOneAndUpdate_map ac_Id (applied_filter (ac_Owner ac) (ac_Id ac) (ar_Href (timeout_record ac res)))
    (update_applied (Time_UnixNano now) (timeout_query ac res) (timeout_record ac res)) (w_applied w) Hnd) as Hm.
  destruct (FindOneAndUpdate _ _ (w_applied w)) as [ds o]. cbn [fst] in Hm.
  assert (Hds : ds = timeout_one (ac, res) <$> w_applied w).
  { apply Hm. intros x y Hx Hy. unfold applied_filter in Hx, Hy.
    apply andb_true_iff in Hx as [Hx _], Hy as [Hy _]. apply andb_true_iff in Hx as [Hx _], Hy as [Hy _].
    apply String.eqb_eq in Hx, Hy. congruence. }
  rewrite Hds. destruct o as [upd|]; [|done]. by destruct (_ =? _)%Z.
Qed.
Lemma set_applied_twice ds ds' w : set_applied ds (set_applied ds' w) = set_applied ds w.
Proof. done. Qed.

Lemma fmap_timeout_ids dr docs : ac_Id <$> (timeout_one dr <$> docs) = ac_Id <$> docs.
Proof. rewrite <- list_fmap_compose. apply list_fmap_ext. intros i d _. apply timeout_one_id. Qed.
Definition timeout_all (drs : list (AppliedConfiguration * AppliedResource)) d : AppliedConfiguration :=
  fold_left (fun d dr => timeout_one dr d) drs d.
Lemma run_timeout_doc ac rs w :
  NoDup (ac_Id <$> w_applied w) -> uuid_Parse (ac_Id ac) = true ->
  Forall (fun r => AppliedResource_Validate r = None) rs ->
  run (each (fun res => timeoutAppliedConfigurationPendingResource (ac_Owner ac) (ac_Id ac)
         (ar_CorrelationId res) (MkResourceId (ac_DeviceId ac) (ar_Href res))) rs) w
  = Some (set_applied (timeout_all (pair ac <$> rs) <$> w_applied w) w, tt).
Proof.
  intros Hnd Hid Hrs. revert w Hnd. induction Hrs as [|r rs Hr _ IH]; intros w Hnd; cbn [each].
  { cbn. unfold timeout_all. cbn. rewrite list_fmap_id. by destruct w. }
  rewrite run_bind, run_timeout_one by done. rewrite IH by (cbn; by rewrite fmap_timeout_ids).
  cbn [w_applied set_applied]. rewrite set_applied_twice, <- list_fmap_compose. done.
Qed.
Lemma timeout_all_id drs d : ac_Id (timeout_all drs d) = ac_Id d.
Proof.
  revert d. induction drs as [|dr drs IH]; intros d; [done|]. unfold timeout_all in *. cbn [fold_left].
  by rewrite IH, timeout_one_id.
Qed.
Lemma run_timeouts acs w :
  NoDup (ac_Id <$> w_applied w) ->
  Forall (fun d => uuid_Parse (ac_Id d) = true /\ Forall (fun r => AppliedResource_Validate r = None) (ac_Resources d)) acs ->
  run (each (fun ac => each (fun res => timeoutAppliedConfigurationPendingResource (ac_Owner ac) (ac_Id ac)
         (ar_CorrelationId res) (MkResourceId (ac_DeviceId ac) (ar_Href res))) (ac_Resources ac)) acs) w
  = Some (set_applied (timeout_all (acs ≫= fun ac => pair ac <$> ac_Resources ac) <$> w_applied w) w, tt).
Proof.
  intros Hnd Hacs. revert w Hnd. induction Hacs as [|ac acs [Hid Hrs] _ IH]; intros w Hnd; cbn [each].
  { cbn. unfold timeout_all. cbn. rewrite list_fmap_id. by destruct w. }
  rewrite run_bind, run_timeout_doc by done. rewrite IH.
  - cbn [w_applied set_applied]. rewrite set_applied_twice, <- list_fmap_compose. do 3 f_equal.
    apply list_fmap_ext. intros i d _. cbn. unfold timeout_all. by rewrite fold_left_app.
  - cbn. rewrite <- list_fmap_compose. erewrite list_fmap_ext; [exact Hnd|]. intros i d _. apply timeout_all_id.
Qed.

(** *** One document *)
Abbreviation T := (Time_UnixNano now).
Definition timed_out (P : list string) d : AppliedConfiguration :=
  MkAppliedConfigurationRecord (ac_Id d) (ac_DeviceId d) (ac_ConfigurationId d) (ac_ExecutedBy d)
    ((fun r => if bool_decide (ar_Href r ∈ P) then timeout_record d r else r) <$> ac_Resources d)
    (ac_Owner d) (if (length P =? 0)%nat then ac_Timestamp d else T).
Lemma timed_out_nil d : timed_out [] d = d.
Proof.
  unfold timed_out. destruct d as [i dev conf ex rs o ts]. cbn. f_equal.
  rewrite <- (list_fmap_id rs) at 2. apply list_fmap_ext. intros k r _.
  by rewrite bool_decide_eq_false_2 by apply not_elem_of_nil.
Qed.
Lemma timeout_one_step d ac r P :
  stored_ok d -> r ∈ ac_Resources d -> ar_Status r = PENDING -> ar_Href r ∉ P ->
  ac_Id ac = ac_Id d -> ac_Owner ac = ac_Owner d -> ac_DeviceId ac = ac_DeviceId d ->
  timeout_one (ac, r) (timed_out P d) = timed_out (P ++ [ar_Href r]) d.
Proof.
  intros (_ & Hnd & _) Hr Hst Hni Hid Ho Hdev. unfold timeout_one. cbn [fst snd].
  assert (Hrec : timeout_record ac r = timeout_record d r) by (unfold timeout_record; by rewrite Hdev).
  set (m := matchResourceCond (ar_Href r) [PENDING]).
  assert (Hm : forall x, x ∈ ac_Resources d ->
    m (if bool_decide (ar_Href x ∈ P) then timeout_record d x else x) = String.eqb (ar_Href x) (ar_Href r)).
  { intros x Hx. unfold m, matchResourceCond. destruct (String.eqb_spec (ar_Href x) (ar_Href r)) as [He|Hne].
    - assert (x = r) as -> by (by apply (fmap_NoDup_inj ar_Href (ac_Resources d))).
      rewrite bool_decide_eq_false_2 by done. rewrite String.eqb_refl, Hst. done.
    - case_bool_decide; cbn [timeout_record ar_Href]; by rewrite (proj2 (String.eqb_neq _ _) Hne). }
  assert (Hf : applied_filter (ac_Owner ac) (ac_Id ac) (ar_Href r) (timed_out P d) = true).
  { unfold applied_filter. cbn [timed_out ac_Id ac_Owner ac_Resources]. rewrite Hid, Ho, !String.eqb_refl.
    rewrite orb_true_r, andb_true_r. apply existsb_exists. eexists. split.
    - apply list_elem_of_In, list_elem_of_fmap. exists r. split; [done|exact Hr].
    - rewrite bool_decide_eq_false_2 by done. apply String.eqb_refl. }
  rewrite Hf. unfold update_applied. cbn [timeout_query uacr_StatusFilter uacr_AppliedCondition].
  replace (ar_Href (timeout_record ac r)) with (ar_Href r) by done. fold m.
  assert (Hex : existsb m (ac_Resources (timed_out P d)) = true).
  { apply existsb_exists. exists r. split.
    - apply list_elem_of_In, list_elem_of_fmap. exists r. rewrite bool_decide_eq_false_2 by done. done.
    - specialize (Hm r Hr). rewrite bool_decide_eq_false_2 in Hm by done. by rewrite Hm, String.eqb_refl. }
  rewrite Hex. unfold timed_out. cbn [ac_Id ac_DeviceId ac_ConfigurationId ac_ExecutedBy ac_Resources ac_Owner ac_Timestamp].
  rewrite length_app, Nat.add_comm. cbn [length Nat.eqb Nat.add]. f_equal.
  rewrite <- list_fmap_compose. apply list_fmap_ext. intros k x Hx. cbn.
  apply list_elem_of_lookup_2 in Hx. rewrite (Hm x Hx).
  destruct (String.eqb_spec (ar_Href x) (ar_Href r)) as [He|Hne].
  - assert (x = r) as -> by (by apply (fmap_NoDup_inj ar_Href (ac_Resources d))).
    rewrite bool_decide_eq_true_2; [done|]. apply elem_of_snoc. by right.
  - erewrite bool_decide_ext; [done|]. rewrite elem_of_snoc. naive_solver.
Qed.
Lemma timeout_own d ac rs P :
  stored_ok d -> Forall (fun r => r ∈ ac_Resources d /\ ar_Status r = PENDING) rs ->
  NoDup (P ++ (ar_Href <$> rs)) ->
  ac_Id ac = ac_Id d -> ac_Owner ac = ac_Owner d -> ac_DeviceId ac = ac_DeviceId d ->
  timeout_all (pair ac <$> rs) (timed_out P d) = timed_out (P ++ (ar_Href <$> rs)) d.
Proof.
  intros Hok Hrs Hnd Hid Ho Hdev. revert P Hnd. induction Hrs as [|r rs [Hr Hst] _ IH]; intros P Hnd.
  { by rewrite app_nil_r. }
  unfold timeout_all in *. cbn [fmap list_fmap fold_left]. rewrite timeout_one_step; try done.
  - rewrite IH by (by rewrite <- app_assoc). by rewrite <- app_assoc.
  - rewrite fmap_cons in Hnd. apply NoDup_app in Hnd as (_ & Hnd & _). intros Hin. apply (Hnd _ Hin). by left.
Qed.
Lemma timeout_other drs d :
  Forall (fun dr => ac_Id dr.1 <> ac_Id d) drs -> timeout_all drs d = d.
Proof.
  induction 1 as [|dr drs Hne _ IH]; [done|]. unfold timeout_all in *. cbn [fold_left].
  assert (Ht : timeout_one dr d = d); [|by rewrite Ht].
  unfold timeout_one, applied_filter.
  destruct (String.eqb_spec (ac_Id d) (ac_Id dr.1)) as [He|_]; [congruence|done].
Qed.

(** An applied configuration whose expired updates have timed out. *)
Definition expired d : list string :=
  ar_Href <$> filter (fun r => pending_keep true T r = true) (ac_Resources d).
Definition pending_pairs docs : list (AppliedConfiguration * AppliedResource) :=
  ((fun d => set_ac_Resources (filter (fun r => pending_keep true T r = true) (ac_Resources d)) d)
     <$> filter (fun d => existsb (pending_match true T) (ac_Resources d) = true) docs)
  ≫= fun ac => pair ac <$> ac_Resources ac.
Lemma timeout_all_expired docs d :
  NoDup (ac_Id <$> docs) -> d ∈ docs -> stored_ok d ->
  timeout_all (pending_pairs docs) d = timed_out (expired d) d.
Proof.
  intros Hnd Hd Hok. apply list_elem_of_split in Hd as (pre & post & ->).
  rewrite fmap_app, fmap_cons in Hnd. apply NoDup_app in Hnd as (_ & Hpre & [Hpost _]%NoDup_cons).
  assert (Hothers : forall ds, ac_Id d ∉ ac_Id <$> ds ->
    Forall (fun dr => ac_Id dr.1 <> ac_Id d) (pending_pairs ds)).
  { intros ds Hni. apply Forall_forall. intros [ac r] Hin. apply list_elem_of_bind in Hin as (ac' & Hin & Hac).
    apply list_elem_of_fmap in Hin as (r' & [= -> _] & _). apply list_elem_of_fmap in Hac as (d0 & -> & Hd0).
    apply list_elem_of_filter in Hd0 as [_ Hd0]. cbn. intros He. apply Hni. rewrite <- He.
    by apply list_elem_of_fmap_2. }
  assert (Hsplit : pending_pairs (pre ++ d :: post) = pending_pairs pre ++ pending_pairs [d] ++ pending_pairs post).
  { unfold pending_pairs. change (d :: post) with ([d] ++ post).
    by rewrite !filter_app, !fmap_app, !bind_app. }
  rewrite Hsplit. unfold timeout_all. rewrite !fold_left_app.
  fold (timeout_all (pending_pairs pre) d). rewrite (timeout_other (pending_pairs pre) d).
  2:{ apply Hothers. intros Hin. apply (Hpre _ Hin). by left. }
  fold (timeout_all (pending_pairs [d]) d).
  assert (Hown : timeout_all (pending_pairs [d]) d = timed_out (expired d) d).
  { unfold pending_pairs. rewrite filter_cons, filter_nil. destruct (decide _) as [_|Hno].
    - cbn [fmap list_fmap mbind list_bind]. rewrite app_nil_r. unfold expired.
      set (rs := filter (fun r => pending_keep true T r = true) (ac_Resources d)).
      pose proof (timeout_own d (set_ac_Resources rs d) rs []) as Hto. rewrite timed_out_nil in Hto.
      pose proof Hok as (Hu & Hn & Hv). apply Hto; try done.
      + apply Forall_forall. intros r [Hk Hr]%list_elem_of_filter. split; [done|].
        unfold pending_keep in Hk. apply andb_true_iff in Hk as [Hk _]. by apply bool_decide_eq_true in Hk.
      + cbn [app]. by apply NoDup_fmap_filter.
    - assert (He : expired d = []).
      { unfold expired. rewrite list_filter_nil; [done|]. intros r Hr Hk. apply Hno. apply existsb_exists.
        exists r. split; [by apply list_elem_of_In|]. unfold pending_keep, pending_match in *. cbn [negb orb] in *.
        apply andb_true_iff in Hk as [-> Hk]. apply andb_true_iff in Hk as [Hk1 ->].
        apply Z.ltb_lt in Hk1. destruct (Z.eqb_spec (ar_ValidUntil r) 0); [lia|done]. }
      by rewrite He, timed_out_nil. }
  rewrite Hown. fold (timeout_all (pending_pairs post) (timed_out (expired d) d)).
  apply timeout_other. by apply (Hothers post).
Qed.

(** A run of TimeoutPendingResourceUpdates puts every pending update whose
    time is over to timeout and changes nothing else: afterwards no update that
    expired is pending. *)
Theorem TimeoutPendingResourceUpdates_spec w :
  NoDup (ac_Id <$> w_applied w) -> Forall stored_ok (w_applied w) ->
  run TimeoutPendingResourceUpdates w
  = Some (set_applied ((fun d => timed_out (expired d) d) <$> w_applied w) w, tt) /\
  forall d r, d ∈ w_applied w -> r ∈ ac_Resources (timed_out (expired d) d) ->
    pending_keep true T r = false.
Proof.
  intros Hnd Hok. rewrite Forall_forall in Hok. split.
  - unfold TimeoutPendingResourceUpdates. cbn [bind trigger run answer_alone].
    cbn [GetPendingAppliedConfigurationResourceUpdates]. rewrite run_timeouts; [|done|].
    + do 3 f_equal. apply list_fmap_ext. intros i d Hd%list_elem_of_lookup_2.
      apply timeout_all_expired; [done|done|by apply Hok].
    + apply Forall_fmap, Forall_forall. intros d [_ Hd]%list_elem_of_filter.
      destruct (Hok d Hd) as (Hid & _ & Hv). split; [done|]. cbn. rewrite Forall_forall in Hv.
      apply Forall_forall. intros r [_ Hr]%list_elem_of_filter. by apply Hv.
  - intros d r Hd Hr. apply list_elem_of_fmap in Hr as (r0 & -> & Hr0). case_bool_decide as Hin; [done|].
    destruct (pending_keep true T r0) eqn:E; [|done]. destruct Hin. apply list_elem_of_fmap_2.
    by apply list_elem_of_filter.
Qed.
End run.
