(* ===== verification/HandlerTable.v ===== *)
(** * Tables of handlers with allocated identifiers

    The caches of src/identity-store/client/ownerCache.go and
    src/grpc-gateway/subscription/subscriptionsCache.go keep their handlers in
    a map from identifiers of 64 bits, and look for a free identifier by
    counting up a counter that all subjects of a cache share and that wraps. *)

From Stdlib Require Import ZArith Lia.
From S2P Require Import Prelude.

Section table.
Context {H : Type}.
Implicit Types (m : gmap Z H) (id : Z).

(** AddHandlerLocked: whether the identifier was free. *)
Definition add_handler (id : Z) (h : H) (m : gmap Z H) : gmap Z H * bool :=
  match m !! id with
  | None => (<[id := h]> m, true)
  | Some _ => (m, false)
  end.

(** The loop of Subscribe: [atomic.AddUint64(&c.handlerID, 1)] until the
    identifier is free.  The result is the counter, which is the identifier
    that was used, and the table. *)
Fixpoint alloc_handler (fuel : nat) (counter : Z) (h : H) (m : gmap Z H) : option (Z * gmap Z H) :=
  match fuel with
  | O => None
  | S fuel =>
      let id := u64 (counter + 1) in
      match add_handler id h m with
      | (m, true) => Some (id, m)
      | (m, false) => alloc_handler fuel id h m
      end
  end.

(** Enough fuel: one turn more than there are handlers. *)
Definition alloc_fuel m : nat := S (size m).

Lemma alloc_handler_spec fuel counter h m id m' :
  alloc_handler fuel counter h m = Some (id, m') ->
  m !! id = None /\ m' = <[id := h]> m /\ is_u64 id.
Proof.
  revert counter. induction fuel as [|fuel IH]; intros counter; [done|]. cbn [alloc_handler].
  unfold add_handler. destruct (m !! u64 (counter + 1)) eqn:E; [apply IH|].
  intros [= <- <-]. split_and!; [done|done|apply u64_range].
Qed.

(** The identifiers that the loop tries. *)
Definition tried (counter : Z) (n : nat) : list Z :=
  (fun k => u64 (counter + 1 + Z.of_nat k)) <$> seq 0 n.

Lemma u64_idemp z n : u64 (u64 z + n) = u64 (z + n).
Proof. unfold u64. by rewrite Zplus_mod_idemp_l. Qed.

Lemma tried_S counter n : tried counter (S n) = u64 (counter + 1) :: tried (u64 (counter + 1)) n.
Proof.
  unfold tried. cbn [seq fmap list_fmap]. f_equal; [f_equal; lia|].
  rewrite <- fmap_S_seq, <- list_fmap_compose. apply list_fmap_ext. intros i k _.
  cbn [compose]. rewrite <- (Z.add_assoc (u64 _)), u64_idemp. f_equal. lia.
Qed.

Lemma tried_NoDup counter n : (Z.of_nat n <= 2 ^ 64)%Z -> NoDup (tried counter n).
Proof.
  intros Hn. unfold tried. apply NoDup_fmap_2_strong; [|apply NoDup_seq].
  intros i j Hi Hj Heq. apply elem_of_seq in Hi, Hj. unfold u64 in Heq.
  assert (Hd : (((counter + 1 + Z.of_nat i) - (counter + 1 + Z.of_nat j)) mod 2 ^ 64 = 0)%Z)
    by (rewrite Zminus_mod, Heq, Z.sub_diag; done).
  apply Z.mod_divide in Hd; [|done]. destruct Hd as [k Hk].
  assert (k = 0%Z) by nia. lia.
Qed.

Lemma alloc_handler_fails fuel counter h m :
  alloc_handler fuel counter h m = None -> Forall (fun id => is_Some (m !! id)) (tried counter fuel).
Proof.
  revert counter. induction fuel as [|fuel IH]; intros counter; [constructor|].
  rewrite tried_S. cbn [alloc_handler]. unfold add_handler.
  destruct (m !! u64 (counter + 1)) eqn:E; [|done].
  intros Ha. constructor; [by eexists|by apply IH].
Qed.

(** The loop ends: a table that does not fill the range of the identifiers has
    a free one among the first that are tried, even when the counter wraps. *)
Lemma alloc_handler_total counter h m :
  (Z.of_nat (size m) < 2 ^ 64)%Z ->
  exists id, alloc_handler (alloc_fuel m) counter h m = Some (id, <[id := h]> m) /\ m !! id = None.
Proof.
  intros Hm. destruct (alloc_handler (alloc_fuel m) counter h m) as [[id m']|] eqn:E.
  - apply alloc_handler_spec in E as (Hid & -> & _). by exists id.
  - exfalso. apply alloc_handler_fails in E.
    assert (Hsub : tried counter (alloc_fuel m) ⊆ elements (dom m)).
    { intros id Hid. rewrite Forall_forall in E. apply elem_of_elements, elem_of_dom. by apply E. }
    apply NoDup_submseteq in Hsub; [|apply tried_NoDup; unfold alloc_fuel; lia].
    apply submseteq_length in Hsub. unfold tried, alloc_fuel in Hsub.
    rewrite length_fmap, length_seq in Hsub.
    change (length (elements (dom m))) with (size (dom m)) in Hsub.
    rewrite size_dom in Hsub. lia.
Qed.
End table.
