(* ===== verification/Subscription.v ===== *)
(** * Subscriptions to events

    src/grpc-gateway/subscription: the bits of an event filter
    (filterBitmask.go), the filters of a request and the test of an event
    against them (subscription.go) and the subjects a subscription listens on
    (convertToSubjects.go).  The order in which Go walks over a map is a
    parameter; a UUID is its canonical text. *)

From Stdlib Require Import ZArith Lia String.
From S2P Require Import Prelude Commands Events IdentityStore SortedSlice Subjects.

(** ** filterBitmask.go *)
Abbreviation FilterBitmask := Z.
Definition FilterBitmaskResourceCreatePending : FilterBitmask := 1.
Definition FilterBitmaskResourceCreated : FilterBitmask := Z.shiftl 1 1.
Definition FilterBitmaskResourceRetrievePending : FilterBitmask := Z.shiftl 1 2.
Definition FilterBitmaskResourceRetrieved : FilterBitmask := Z.shiftl 1 3.
Definition FilterBitmaskResourceUpdatePending : FilterBitmask := Z.shiftl 1 4.
Definition FilterBitmaskResourceUpdated : FilterBitmask := Z.shiftl 1 5.
Definition FilterBitmaskResourceDeletePending : FilterBitmask := Z.shiftl 1 6.
Definition FilterBitmaskResourceDeleted : FilterBitmask := Z.shiftl 1 7.
Definition FilterBitmaskDeviceMetadataUpdatePending : FilterBitmask := Z.shiftl 1 8.
Definition FilterBitmaskDeviceMetadataUpdated : FilterBitmask := Z.shiftl 1 9.
Definition FilterBitmaskDeviceRegistered : FilterBitmask := Z.shiftl 1 10.
Definition FilterBitmaskDeviceUnregistered : FilterBitmask := Z.shiftl 1 11.
Definition FilterBitmaskResourceChanged : FilterBitmask := Z.shiftl 1 12.
Definition FilterBitmaskResourcesPublished : FilterBitmask := Z.shiftl 1 13.
Definition FilterBitmaskResourcesUnpublished : FilterBitmask := Z.shiftl 1 14.
Definition FilterBitmaskMax : FilterBitmask := 4294967295.

Definition IsFilteredBit (filteredEventTypes bit : FilterBitmask) : bool :=
  negb (Z.land filteredEventTypes bit =? 0)%Z.

(** The enumeration pb.SubscribeToEvents_CreateSubscription_Event. *)
Inductive SubscribeEvent :=
  | REGISTERED | UNREGISTERED | DEVICE_METADATA_UPDATED | DEVICE_METADATA_UPDATE_PENDING
  | RESOURCE_PUBLISHED | RESOURCE_UNPUBLISHED | RESOURCE_UPDATE_PENDING | RESOURCE_UPDATED
  | RESOURCE_RETRIEVE_PENDING | RESOURCE_RETRIEVED | RESOURCE_DELETE_PENDING | RESOURCE_DELETED
  | RESOURCE_CREATE_PENDING | RESOURCE_CREATED | RESOURCE_CHANGED
  | SubscribeEvent_other (n : Z).
#[export] Instance SubscribeEvent_eq_dec : EqDecision SubscribeEvent.
Proof. solve_decision. Defined.

(** The map eventsToBitmask; a missing key reads as zero. *)
Definition EventFilterToBitmask (f : SubscribeEvent) : FilterBitmask :=
  match f with
  | RESOURCE_CREATE_PENDING => FilterBitmaskResourceCreatePending
  | RESOURCE_CREATED => FilterBitmaskResourceCreated
  | RESOURCE_RETRIEVE_PENDING => FilterBitmaskResourceRetrievePending
  | RESOURCE_RETRIEVED => FilterBitmaskResourceRetrieved
  | RESOURCE_UPDATE_PENDING => FilterBitmaskResourceUpdatePending
  | RESOURCE_UPDATED => FilterBitmaskResourceUpdated
  | RESOURCE_DELETE_PENDING => FilterBitmaskResourceDeletePending
  | RESOURCE_DELETED => FilterBitmaskResourceDeleted
  | DEVICE_METADATA_UPDATE_PENDING => FilterBitmaskDeviceMetadataUpdatePending
  | DEVICE_METADATA_UPDATED => FilterBitmaskDeviceMetadataUpdated
  | REGISTERED => FilterBitmaskDeviceRegistered
  | UNREGISTERED => FilterBitmaskDeviceUnregistered
  | RESOURCE_PUBLISHED => FilterBitmaskResourcesPublished
  | RESOURCE_UNPUBLISHED => FilterBitmaskResourcesUnpublished
  | RESOURCE_CHANGED => FilterBitmaskResourceChanged
  | SubscribeEvent_other _ => 0
  end%Z.

Definition EventsFilterToBitmask (commandFilter : list SubscribeEvent) : FilterBitmask :=
  if (length commandFilter =? 0)%nat then FilterBitmaskMax
  else fold_left (fun bitmask f => Z.lor bitmask (EventFilterToBitmask f)) commandFilter 0%Z.

(** The enumeration pb.GetPendingCommandsRequest_Command, and the maps between
    it and the bits of the pending events. *)
Inductive PendingCommand :=
  | RESOURCE_CREATE | RESOURCE_RETRIEVE | RESOURCE_UPDATE | RESOURCE_DELETE
  | DEVICE_METADATA_UPDATE | PendingCommand_other (n : Z).
#[export] Instance PendingCommand_eq_dec : EqDecision PendingCommand.
Proof. solve_decision. Defined.

Definition pendingCommandToBitmask : list (PendingCommand * FilterBitmask) :=
  [(RESOURCE_CREATE, FilterBitmaskResourceCreatePending);
   (RESOURCE_RETRIEVE, FilterBitmaskResourceRetrievePending);
   (RESOURCE_UPDATE, FilterBitmaskResourceUpdatePending);
   (RESOURCE_DELETE, FilterBitmaskResourceDeletePending);
   (DEVICE_METADATA_UPDATE, FilterBitmaskDeviceMetadataUpdatePending)].
Definition FilterPendingCommandToBitmask (f : PendingCommand) : FilterBitmask :=
  default 0%Z (snd <$> List.find (fun x => bool_decide (x.1 = f)) pendingCommandToBitmask).
Definition FilterPendingsCommandsToBitmask (commandFilter : list PendingCommand) : FilterBitmask :=
  if (length commandFilter =? 0)%nat
  then fold_left (fun bitmask x => Z.lor bitmask x.2) pendingCommandToBitmask 0%Z
  else fold_left (fun bitmask f => Z.lor bitmask (FilterPendingCommandToBitmask f)) commandFilter 0%Z.
(** [order] is the order of the map bitmaskTopendingCommands. *)
Definition BitmaskToFilterPendingsCommands (order : list (PendingCommand * FilterBitmask))
    (bitmask : FilterBitmask) : list PendingCommand :=
  if (bitmask =? 0)%Z then [] else
  fold_left (fun res x => if (Z.land bitmask x.2 =? 0)%Z then res else res ++ [x.1]) order [].

(** ** subscription.go: the filters of a request *)
Record ResourceIdFilter := MkResourceIdFilter {
  rif_ResourceId : option ResourceId; rif_Etag : list (list byte) }.
Record CreateSubscription := MkCreateSubscription {
  cs_EventFilter : list SubscribeEvent;
  cs_DeviceIdFilter : list string;
  cs_HttpResourceIdFilter : list string;
  cs_HrefFilter : list string;
  cs_ResourceIdFilter : list (option ResourceIdFilter);
  cs_LeadResourceTypeFilter : list string }.

Record leadResourceTypeFilter := MkLeadResourceTypeFilter {
  lrf_enabled : bool; lrf_filter : list string }.
Definition makeLeadResourceTypeFilter (enabled : bool) (f : list string) : leadResourceTypeFilter :=
  MkLeadResourceTypeFilter enabled (if enabled then f else []).

Abbreviation resourceFilters := (gmap string ResourceId).
Record subjectFilters := MkSubjectFilters {
  sf_resourceFilters : resourceFilters;
  sf_leadResourceTypeFilter : leadResourceTypeFilter }.

Section filters.
Context `{!UUIDLib}.

Definition toFilters_step (st : list string * list string * list string)
    (r : option ResourceIdFilter) : list string * list string * list string :=
  let '(filterDeviceIDs, filterHrefs, filterResourceIDs) := st in
  match r ~> rif_ResourceId with
  | None => st
  | Some v =>
      if String.eqb (rid_DeviceId v) "*" && String.eqb (rid_Href v) "*" then st
      else if String.eqb (rid_DeviceId v) "*" then
        (filterDeviceIDs, filterHrefs ++ [rid_Href v], filterResourceIDs)
      else if String.eqb (rid_Href v) "*" then
        (filterDeviceIDs ++ [rid_DeviceId v], filterHrefs, filterResourceIDs)
      else (filterDeviceIDs, filterHrefs, filterResourceIDs ++ [ResourceId_ToString (Some v)])
  end.
Definition toFilters (req : CreateSubscription) : list string * list string * list string :=
  fold_left toFilters_step (cs_ResourceIdFilter req) ([], [], []).

Definition not_star (s : string) : bool := negb (String.eqb s "*").

Definition normalizeFilters (req : CreateSubscription)
    : list string * list string * list string * FilterBitmask :=
  let bitmask := EventsFilterToBitmask (cs_EventFilter req) in
  let '(filterDeviceIDs, filterHrefs, filterResourceIDs) := toFilters req in
  (strings_Unique (filterDeviceIDs ++ List.filter not_star (cs_DeviceIdFilter req)),
   strings_Unique (filterHrefs ++ List.filter not_star (cs_HrefFilter req)),
   strings_Unique filterResourceIDs, bitmask).

Definition addHrefFilters (filterSlice : list string) (fs : resourceFilters) : resourceFilters :=
  fold_left (fun fs h => <[HrefToID h := NewResourceID "*" h]> fs) filterSlice fs.
Definition addDeviceFilters (filterSlice : list string) (fs : resourceFilters) : resourceFilters :=
  fold_left (fun fs d => <[HrefToID (d +:+ "/*") := NewResourceID d "*"]> fs) filterSlice fs.

Definition addResourceIdFilter (fs : resourceFilters) (r : option ResourceIdFilter)
    : resourceFilters :=
  match r ~> rif_ResourceId with
  | None => fs
  | Some v =>
      if bool_decide (is_Some (fs !! HrefToID (rid_Href v))) then fs
      else if bool_decide (is_Some (fs !! HrefToID (rid_DeviceId v +:+ "/*"))) then fs
      else <[ResourceId_ToUUID (Some v) := v]> fs
  end.
Definition addResourceIdFilters (filterSlice : list (option ResourceIdFilter))
    (fs : resourceFilters) : resourceFilters :=
  fold_left addResourceIdFilter filterSlice fs.

Definition addProduct (filterDeviceIDs filterHrefs : list string) (fs : resourceFilters)
    : resourceFilters :=
  fold_left (fun fs d =>
    fold_left (fun fs h => <[ResourceId_ToUUID (Some (NewResourceID d h)) := NewResourceID d h]> fs)
      filterHrefs fs) filterDeviceIDs fs.

Definition getLeadResourceTypeFilter (req : CreateSubscription) (leadRTFilterEnabled : bool)
    : leadResourceTypeFilter :=
  if negb leadRTFilterEnabled then makeLeadResourceTypeFilter false []
  else if bool_decide (">" ∈ cs_LeadResourceTypeFilter req) then makeLeadResourceTypeFilter true [">"]
  else makeLeadResourceTypeFilter true (strings_Unique (cs_LeadResourceTypeFilter req)).

Definition getFilters (req : CreateSubscription) (leadRTFilterEnabled : bool)
    : subjectFilters * FilterBitmask :=
  let '(filterDeviceIDs, filterHrefs, filterResourceIDs, bitmask) := normalizeFilters req in
  let leadRTFilter := getLeadResourceTypeFilter req leadRTFilterEnabled in
  let no (l : list string) := (length l =? 0)%nat in
  let rids := cs_ResourceIdFilter req in
  let sf fs := (MkSubjectFilters fs leadRTFilter, bitmask) in
  if no filterDeviceIDs && no filterHrefs && no filterResourceIDs then sf ∅ else
  if (length rids =? 0)%nat && no filterDeviceIDs then sf (addHrefFilters filterHrefs ∅) else
  if (length rids =? 0)%nat && no filterHrefs then sf (addDeviceFilters filterDeviceIDs ∅) else
  if no filterDeviceIDs then
    sf (addResourceIdFilters rids
          (if negb (no filterHrefs) then addHrefFilters filterHrefs ∅ else ∅)) else
  if no filterHrefs then sf (addResourceIdFilters rids (addDeviceFilters filterDeviceIDs ∅)) else
  sf (addResourceIdFilters rids (addProduct filterDeviceIDs filterHrefs ∅)).

(** ** subscription.go: the test of an event *)
Context (uuid_Parse_value : string -> option string).

(** The sets that Init fills. *)
Record filtered := MkFiltered {
  filteredDeviceIDs : gset string;
  filteredHrefIDs : gset string;
  filteredResourceIDs : gset string }.

(** The outcome is what the method leaves in the sets, and whether Init goes
    on, or the error. *)
Definition setFilters (s : filtered) (v : ResourceId) : filtered * result bool :=
  if String.eqb (rid_DeviceId v) "*" && String.eqb (rid_Href v) "*" then
    (MkFiltered ∅ ∅ ∅, inr false)
  else if negb (String.eqb (rid_DeviceId v) "*") && negb (String.eqb (rid_Href v) "*") then
    match uuid_Parse_value (rid_DeviceId v) with
    | None => (s, inl (errors_New "invalid deviceId('%v'): %w"))
    | Some d =>
        (MkFiltered ({[d]} ∪ filteredDeviceIDs s) (filteredHrefIDs s)
           ({[ResourceId_ToUUID (Some v)]} ∪ filteredResourceIDs s), inr true)
    end
  else
    let s := if negb (String.eqb (rid_Href v) "*")
             then MkFiltered (filteredDeviceIDs s) ({[HrefToID (rid_Href v)]} ∪ filteredHrefIDs s)
                    (filteredResourceIDs s)
             else s in
    if negb (String.eqb (rid_DeviceId v) "*") then
      match uuid_Parse_value (rid_DeviceId v) with
      | None => (s, inl (errors_New "invalid deviceId('%v'): %w"))
      | Some d =>
          (MkFiltered ({[d]} ∪ filteredDeviceIDs s) (filteredHrefIDs s) (filteredResourceIDs s),
           inr true)
      end
    else (s, inr true).

(** The loop of Init over the resource filters. *)
Fixpoint setFilters_loop (s : filtered) (vs : list ResourceId) : filtered * option error :=
  match vs with
  | [] => (s, None)
  | v :: vs =>
      match setFilters s v with
      | (s, inl err) => (s, Some err)
      | (s, inr false) => (s, None)
      | (s, inr true) => setFilters_loop s vs
      end
  end.

(** [set.Has]: the length of a UUID is never 0. *)
Definition Has (s : gset string) (a : string) : bool := bool_decide (a ∈ s).

Definition isFilteredDevice (filteredDeviceIDs : gset string) (deviceID : string) : bool :=
  if bool_decide (filteredDeviceIDs = ∅) then true
  else match uuid_Parse_value deviceID with
       | Some v => Has filteredDeviceIDs v
       | None => false
       end.

Definition isFilteredResourceIDs (filteredResourceIDs filteredHrefs : gset string)
    (resourceID : option ResourceId) : bool :=
  if bool_decide (filteredHrefs = ∅) && bool_decide (filteredResourceIDs = ∅) then true
  else match resourceID with
       | None => false
       | Some r => Has filteredHrefs (HrefToID (rid_Href r))
                   || Has filteredResourceIDs (ResourceId_ToUUID resourceID)
       end.

(** pb.Event; the payloads that no code here looks into are left out. *)
Record PbRegistration := MkPbRegistration {
  pbr_DeviceIds : list string; pbr_OpenTelemetryCarrier : gmap string string;
  pbr_EventMetadata : option IsEventMetadata }.
Inductive PbEvent_Type :=
  | Event_DeviceRegistered_ (m : PbRegistration)
  | Event_DeviceUnregistered_ (m : PbRegistration)
  | Event_ResourcePublished (m : ResourceLinksPublished)
  | Event_ResourceUnpublished (m : ResourceLinksUnpublished)
  | Event_ResourceChanged (m : ResourceChanged)
  | Event_OperationProcessed_
  | Event_SubscriptionCanceled_ (reason : string)
  | Event_ResourceUpdatePending (m : ResourceUpdatePending)
  | Event_ResourceUpdated (m : ResourceUpdated)
  | Event_ResourceRetrievePending (m : ResourceRetrievePending)
  | Event_ResourceRetrieved (m : ResourceRetrieved)
  | Event_ResourceDeletePending (m : ResourceDeletePending)
  | Event_ResourceDeleted (m : ResourceDeleted)
  | Event_ResourceCreatePending (m : ResourceCreatePending)
  | Event_ResourceCreated (m : ResourceCreated)
  | Event_DeviceMetadataUpdatePending (m : DeviceMetadataUpdatePending)
  | Event_DeviceMetadataUpdated (m : DeviceMetadataUpdated).
Record PbEvent := MkPbEvent {
  pe_SubscriptionId : string; pe_CorrelationId_ : string; pe_Type : option PbEvent_Type }.

Definition isFilteredEventByType (s : filtered) (e : option PbEvent) : result bool :=
  let device d := isFilteredDevice (filteredDeviceIDs s) d in
  let resource r := isFilteredResourceIDs (filteredResourceIDs s) (filteredHrefIDs s) r in
  match e ~> pe_Type with
  | Some (Event_DeviceRegistered_ _) => inr true
  | Some (Event_DeviceUnregistered_ _) => inr true
  | Some (Event_ResourcePublished ev) => inr (device (rlp_DeviceId ev))
  | Some (Event_ResourceUnpublished ev) => inr (device (rlu_DeviceId ev))
  | Some (Event_ResourceChanged ev) => inr (device (GroupID ev) && resource (rc_ResourceId ev))
  | Some (Event_ResourceUpdatePending ev) =>
      inr (device (GroupID ev) && resource (rup_ResourceId ev))
  | Some (Event_ResourceUpdated ev) => inr (device (GroupID ev) && resource (ru_ResourceId ev))
  | Some (Event_ResourceRetrievePending ev) =>
      inr (device (GroupID ev) && resource (rrp_ResourceId ev))
  | Some (Event_ResourceRetrieved ev) => inr (device (GroupID ev) && resource (rr_ResourceId ev))
  | Some (Event_ResourceDeletePending ev) =>
      inr (device (GroupID ev) && resource (rdp_ResourceId ev))
  | Some (Event_ResourceDeleted ev) => inr (device (GroupID ev) && resource (rd_ResourceId ev))
  | Some (Event_ResourceCreatePending ev) =>
      inr (device (GroupID ev) && resource (rcp_ResourceId ev))
  | Some (Event_ResourceCreated ev) => inr (device (GroupID ev) && resource (rcd_ResourceId ev))
  | Some (Event_DeviceMetadataUpdatePending ev) => inr (device (GroupID ev))
  | Some (Event_DeviceMetadataUpdated ev) => inr (device (GroupID ev))
  | _ => inl (errors_New "unknown event type('%T')")
  end.

(** The fields of Sub that its methods read after Init. *)
Record Sub := MkSub {
  sub_filter : FilterBitmask;
  sub_id : string;
  sub_correlationID : string;
  sub_filtered : filtered }.

Definition isFilteredEvent (s : Sub) (e : option PbEvent) (eventType : FilterBitmask)
    : result bool :=
  match e with
  | None => inl (errors_New "invalid event")
  | Some _ =>
      if negb (IsFilteredBit (sub_filter s) eventType) then inr false
      else isFilteredEventByType (sub_filtered s) e
  end.

(** What is handed to [send], and what ProcessEvent answers. *)
Definition ProcessEvent (s : Sub) (send : PbEvent -> option error) (e : option PbEvent)
    (eventType : FilterBitmask) : option PbEvent * option error :=
  match isFilteredEvent s e eventType with
  | inl err => (None, Some (Wrap "correlationId: %v, subscriptionId: %v: cannot process event ('%v'): %w" err))
  | inr false => (None, None)
  | inr true =>
      let ev := MkPbEvent (sub_id s) (sub_correlationID s) (e ~> pe_Type) in
      match send ev with
      | Some err => (Some ev, Some (Wrap "correlationId: %v, subscriptionId: %v: cannot send event ('%v'): %w" err))
      | None => (Some ev, None)
      end
  end.
End filters.

(** ** convertToSubjects.go *)
Definition FilterBitmaskRegistrations : FilterBitmask :=
  Z.lor FilterBitmaskDeviceRegistered FilterBitmaskDeviceUnregistered.
Definition FilterBitmaskDeviceMetadata : FilterBitmask :=
  Z.lor FilterBitmaskDeviceMetadataUpdatePending FilterBitmaskDeviceMetadataUpdated.
Definition FilterBitmaskDeviceResourceLinks : FilterBitmask :=
  Z.lor FilterBitmaskResourcesPublished FilterBitmaskResourcesUnpublished.
Definition FilterBitmaskDeviceDeviceResourcesResource : FilterBitmask :=
  fold_right Z.lor 0%Z
    [FilterBitmaskResourceChanged;
     FilterBitmaskResourceCreatePending; FilterBitmaskResourceCreated;
     FilterBitmaskResourceDeletePending; FilterBitmaskResourceDeleted;
     FilterBitmaskResourceRetrievePending; FilterBitmaskResourceRetrieved;
     FilterBitmaskResourceUpdatePending; FilterBitmaskResourceUpdated].
Definition FilterBitmaskDevices : FilterBitmask :=
  Z.lor FilterBitmaskDeviceMetadata
    (Z.lor FilterBitmaskDeviceResourceLinks FilterBitmaskDeviceDeviceResourcesResource).

Section subjects.
Context `{!UUIDLib} (range : values -> list (string * string)).
Context (uuid_Parse_nonnil : string -> bool).

Definition bitmaskToSubjectsTemplate : list (FilterBitmask * string) :=
  [(FilterBitmaskMax, PlgdOwnersOwner +:+ ".>");
   (FilterBitmaskRegistrations, PlgdOwnersOwnerRegistrations +:+ ".>");
   (FilterBitmaskDeviceRegistered, ToSubject range PlgdOwnersOwnerRegistrationsEvent
      [WithEventType DevicesRegisteredEvent]);
   (FilterBitmaskDeviceUnregistered, ToSubject range PlgdOwnersOwnerRegistrationsEvent
      [WithEventType DevicesUnregisteredEvent]);
   (FilterBitmaskDevices, PlgdOwnersOwnerDevices +:+ ".>");
   (FilterBitmaskDeviceMetadata, PlgdOwnersOwnerDevicesDeviceMetadata +:+ ".>");
   (FilterBitmaskDeviceMetadataUpdatePending, ToSubject range
      PlgdOwnersOwnerDevicesDeviceMetadataEvent [WithEventType "devicemetadataupdatepending"]);
   (FilterBitmaskDeviceMetadataUpdated, ToSubject range
      PlgdOwnersOwnerDevicesDeviceMetadataEvent [WithEventType "devicemetadataupdated"]);
   (FilterBitmaskDeviceResourceLinks, PlgdOwnersOwnerDevicesDeviceResourceLinks +:+ ".>");
   (FilterBitmaskResourcesPublished, ToSubject range
      PlgdOwnersOwnerDevicesDeviceResourceLinksEvent [WithEventType "resourcelinkspublished"]);
   (FilterBitmaskResourcesUnpublished, ToSubject range
      PlgdOwnersOwnerDevicesDeviceResourceLinksEvent [WithEventType "resourcelinksunpublished"])].

Definition subjectsForLeadResourceType (template : string) (leadRTFilter : list string)
    : list string :=
  (fun leadRT => ToSubject range template [WithLeadResourceType leadRT]) <$> leadRTFilter.

Definition getSubjectsForEventType (eventType : string) (leadRTFilter : leadResourceTypeFilter)
    : list string :=
  if negb (lrf_enabled leadRTFilter) then
    [ToSubject range PlgdOwnersOwnerDevicesDeviceResourcesResourceEvent [WithEventType eventType]]
  else if (length (lrf_filter leadRTFilter) =? 0)%nat then
    [ToSubject range PlgdOwnersOwnerDevicesDeviceResourcesResourceEvent [WithEventType eventType]
       +:+ ".>"]
  else subjectsForLeadResourceType
    (ToSubject range PlgdOwnersOwnerDevicesDeviceResourcesResourceEventLeadResourceType
       [WithEventType eventType]) (lrf_filter leadRTFilter).

Definition getSubjectsForAllResources (leadRTFilter : leadResourceTypeFilter) : list string :=
  if negb (lrf_enabled leadRTFilter) || (length (lrf_filter leadRTFilter) =? 0)%nat then
    [PlgdOwnersOwnerDevicesDeviceResourcesResource +:+ ".>"]
  else subjectsForLeadResourceType
    (ToSubject range PlgdOwnersOwnerDevicesDeviceResourcesResourceEventLeadResourceType
       [WithEventType "*"]) (lrf_filter leadRTFilter).

Definition bitmaskToResourceSubjectsTemplate
    : list (FilterBitmask * (leadResourceTypeFilter -> list string)) :=
  [(FilterBitmaskDeviceDeviceResourcesResource, getSubjectsForAllResources);
   (FilterBitmaskResourceChanged, getSubjectsForEventType "resourcechanged");
   (FilterBitmaskResourceCreatePending, getSubjectsForEventType "resourcecreatepending");
   (FilterBitmaskResourceCreated, getSubjectsForEventType "resourcecreated");
   (FilterBitmaskResourceDeletePending, getSubjectsForEventType "resourcedeletepending");
   (FilterBitmaskResourceDeleted, getSubjectsForEventType "resourcedeleted");
   (FilterBitmaskResourceRetrievePending, getSubjectsForEventType "resourceretrievepending");
   (FilterBitmaskResourceRetrieved, getSubjectsForEventType "resourceretrieved");
   (FilterBitmaskResourceUpdatePending, getSubjectsForEventType "resourceupdatepending");
   (FilterBitmaskResourceUpdated, getSubjectsForEventType "resourceupdated")].

(** One turn of the loops of ConvertToSubjects: an entry all of whose bits are
    left gives its templates and takes its bits. *)
Definition take_templates (st : list string * FilterBitmask) (s : FilterBitmask * list string)
    : list string * FilterBitmask :=
  let '(rawTemplates, bitmask) := st in
  if (Z.land s.1 bitmask =? s.1)%Z
  then (rawTemplates ++ s.2, Z.land bitmask (u64 (Z.lnot s.1))) else st.

(** The subjects that a template gives; [sf_resourceFilters] is walked over. *)
Definition convertTemplateToSubjects (owner : string) (fs : list ResourceId)
    (rawTemplate : string) : list string :=
  if (length fs =? 0)%nat then
    [ToSubject range rawTemplate [WithOwner uuid_Parse_nonnil owner; WithDeviceID "*"; WithHrefId "*"]]
  else
    (fun v =>
       let deviceID := if String.eqb (rid_DeviceId v) "" then "*" else rid_DeviceId v in
       let hrefID := GetSubjectHrefID (rid_Href v) in
       ToSubject range rawTemplate
         [WithOwner uuid_Parse_nonnil owner; WithDeviceID deviceID; WithHrefId hrefID]) <$> fs.

(** The subjects are the keys of a map: a list without duplicates here. *)
Definition ConvertToSubjects (owner : string) (fs : list ResourceId)
    (lrf : leadResourceTypeFilter) (bitmask : FilterBitmask) : list string :=
  let st := fold_left take_templates ((fun s => (s.1, [s.2])) <$> bitmaskToSubjectsTemplate)
              ([], bitmask) in
  let '(rawTemplates, _) :=
    fold_left take_templates ((fun s => (s.1, s.2 lrf)) <$> bitmaskToResourceSubjectsTemplate) st in
  remove_dups (rawTemplates ≫= convertTemplateToSubjects owner fs).
End subjects.

(** ** The bits *)
Definition event_bits : list FilterBitmask :=
  [FilterBitmaskResourceCreatePending; FilterBitmaskResourceCreated;
   FilterBitmaskResourceRetrievePending; FilterBitmaskResourceRetrieved;
   FilterBitmaskResourceUpdatePending; FilterBitmaskResourceUpdated;
   FilterBitmaskResourceDeletePending; FilterBitmaskResourceDeleted;
   FilterBitmaskDeviceMetadataUpdatePending; FilterBitmaskDeviceMetadataUpdated;
   FilterBitmaskDeviceRegistered; FilterBitmaskDeviceUnregistered;
   FilterBitmaskResourceChanged; FilterBitmaskResourcesPublished;
   FilterBitmaskResourcesUnpublished].

(** A filter is a power of two: exactly the bit of its event. *)
Lemma IsFilteredBit_testbit m n : (0 <= n)%Z -> IsFilteredBit m (Z.shiftl 1 n) = Z.testbit m n.
Proof.
  intros Hn. unfold IsFilteredBit. destruct (Z.testbit m n) eqn:E.
  - apply negb_true_iff, Z.eqb_neq. intros H.
    assert (Hb : Z.testbit (Z.land m (Z.shiftl 1 n)) n = true).
    { rewrite Z.land_spec, E, Z.shiftl_spec, Z.sub_diag by done. done. }
    by rewrite H, Z.bits_0 in Hb.
  - apply negb_false_iff, Z.eqb_eq. apply Z.bits_inj'. intros k Hk.
    rewrite Z.land_spec, Z.bits_0, Z.shiftl_spec by done.
    destruct (decide (k = n)) as [->|Hne]; [by rewrite E|].
    rewrite andb_comm. replace (Z.testbit 1 (k - n)) with false; [done|].
    destruct (decide (k - n < 0)%Z) as [H|H]; [by rewrite Z.testbit_neg_r|].
    rewrite <- (Z.bits_above_log2 1 (k - n)); [done|lia|]. change (Z.log2 1) with 0%Z. lia.
Qed.
