(* ===== verification/SubscriptionFacts.v ===== *)
(** * Subscriptions: what is delivered

    The bits of an event filter say which events were asked for; the sets that
    Init fills let through nothing that no filter covers, and everything that
    a filter covers when the filters are all of one kind; the subjects hear
    every event that a subscription has to test. *)

From Stdlib Require Import ZArith Lia Ascii String.
From S2P Require Import Prelude Commands Events IdentityStore SortedSlice Subjects Subscription.

(** ** The bits of an event filter *)
Definition event_index (f : SubscribeEvent) : Z :=
  match f with
  | RESOURCE_CREATE_PENDING => 0 | RESOURCE_CREATED => 1 | RESOURCE_RETRIEVE_PENDING => 2
  | RESOURCE_RETRIEVED => 3 | RESOURCE_UPDATE_PENDING => 4 | RESOURCE_UPDATED => 5
  | RESOURCE_DELETE_PENDING => 6 | RESOURCE_DELETED => 7 | DEVICE_METADATA_UPDATE_PENDING => 8
  | DEVICE_METADATA_UPDATED => 9 | REGISTERED => 10 | UNREGISTERED => 11
  | RESOURCE_CHANGED => 12 | RESOURCE_PUBLISHED => 13 | RESOURCE_UNPUBLISHED => 14
  | SubscribeEvent_other _ => 63
  end%Z.
Definition known_event (f : SubscribeEvent) : Prop :=
  match f with SubscribeEvent_other _ => False | _ => True end.

Lemma EventFilterToBitmask_index f :
  known_event f -> EventFilterToBitmask f = Z.shiftl 1 (event_index f).
Proof. by destruct f. Qed.

Lemma EventFilterToBitmask_testbit f g :
  known_event f -> Z.testbit (EventFilterToBitmask g) (event_index f) = bool_decide (f = g).
Proof. intros Hf. destruct f, g; try done; by vm_compute. Qed.

Lemma fold_lor_testbit {A} (bit : A -> Z) l acc n :
  Z.testbit (fold_left (fun m f => Z.lor m (bit f)) l acc) n
  = Z.testbit acc n || existsb (fun f => Z.testbit (bit f) n) l.
Proof.
  revert acc. induction l as [|f l IH]; intros acc; simpl; [by rewrite orb_false_r|].
  by rewrite IH, Z.lor_spec, orb_assoc.
Qed.

(** An event filter selects exactly the events it names, and an empty one
    selects all of them. *)
Theorem EventsFilterToBitmask_spec fs f :
  known_event f ->
  IsFilteredBit (EventsFilterToBitmask fs) (EventFilterToBitmask f) = true <-> fs = [] \/ f ∈ fs.
Proof.
  intros Hf. rewrite EventFilterToBitmask_index by done.
  rewrite IsFilteredBit_testbit by (by destruct f).
  unfold EventsFilterToBitmask. destruct fs as [|g fs].
  { cbn [length Nat.eqb]. split; [by left|]. intros _. destruct f; done. }
  cbn [length Nat.eqb]. rewrite fold_lor_testbit, Z.bits_0, orb_false_l, existsb_exists.
  setoid_rewrite EventFilterToBitmask_testbit; [|done..].
  setoid_rewrite bool_decide_eq_true. setoid_rewrite <- list_elem_of_In.
  split; [intros (x & Hx & ->); by right|]. intros [|Hin]; [done|]. by exists f.
Qed.

(** ** The sets that Init fills *)
Section filters.
Context {LIB : UUIDLib} {LAWS : UUIDLaws} (uuid_Parse_value : string -> option string).

Definition all_star (v : ResourceId) : bool :=
  String.eqb (rid_DeviceId v) "*" && String.eqb (rid_Href v) "*".

(** What a filter adds to the sets. *)
Definition sets_of (v : ResourceId) : filtered :=
  let dev := if String.eqb (rid_DeviceId v) "*" then None else uuid_Parse_value (rid_DeviceId v) in
  MkFiltered
    (match dev with Some d => {[d]} | None => ∅ end)
    (if String.eqb (rid_DeviceId v) "*" then {[HrefToID (rid_Href v)]} else ∅)
    (if negb (String.eqb (rid_DeviceId v) "*") && negb (String.eqb (rid_Href v) "*")
     then {[ResourceId_ToUUID (Some v)]} else ∅).
Definition filtered_union (s t : filtered) : filtered :=
  MkFiltered (filteredDeviceIDs t ∪ filteredDeviceIDs s) (filteredHrefIDs t ∪ filteredHrefIDs s)
    (filteredResourceIDs t ∪ filteredResourceIDs s).

Lemma setFilters_spec s v s' cont :
  setFilters uuid_Parse_value s v = (s', inr cont) ->
  (all_star v = true /\ cont = false /\ s' = MkFiltered ∅ ∅ ∅) \/
  (all_star v = false /\ cont = true /\ s' = filtered_union s (sets_of v) /\
   (rid_DeviceId v <> "*" -> is_Some (uuid_Parse_value (rid_DeviceId v)))).
Proof.
  unfold setFilters, all_star, sets_of, filtered_union. destruct s as [sd sh sr].
  destruct (String.eqb_spec (rid_DeviceId v) "*") as [Hd|Hd],
    (String.eqb_spec (rid_Href v) "*") as [Hh|Hh]; cbn [negb andb].
  - intros [= <- <-]. by left.
  - intros [= <- <-]. right. split_and!; [done..| |done]. f_equal; set_solver.
  - destruct (uuid_Parse_value _) eqn:E; intros [= <- <-]. right.
    split_and!; [done..| |eauto]. cbn. f_equal; set_solver.
  - destruct (uuid_Parse_value _) eqn:E; intros [= <- <-]. right.
    split_and!; [done..| |eauto]. cbn. f_equal; set_solver.
Qed.

Lemma setFilters_loop_spec s vs s' :
  setFilters_loop uuid_Parse_value s vs = (s', None) ->
  (Exists (fun v => all_star v = true) vs /\ s' = MkFiltered ∅ ∅ ∅) \/
  (Forall (fun v => all_star v = false /\
     (rid_DeviceId v <> "*" -> is_Some (uuid_Parse_value (rid_DeviceId v)))) vs /\
   s' = fold_left (fun s v => filtered_union s (sets_of v)) vs s).
Proof.
  revert s. induction vs as [|v vs IH]; intros s; simpl; [intros [= <-]; by right|].
  destruct (setFilters uuid_Parse_value s v) as [s1 [err|cont]] eqn:E; [done|].
  apply setFilters_spec in E as [(Hs & -> & ->)|(Hs & -> & -> & Hd)].
  - intros [= <-]. left. split; [by constructor|done].
  - intros [[Hex ->]|[Hall ->]]%IH; [left; split; [by constructor|done]|].
    right. split; [by constructor|done].
Qed.

Lemma filtered_fold_elem (get : filtered -> gset string) vs s x :
  (forall s t, get (filtered_union s t) = get t ∪ get s) ->
  x ∈ get (fold_left (fun s v => filtered_union s (sets_of v)) vs s) <->
  x ∈ get s \/ exists v, v ∈ vs /\ x ∈ get (sets_of v).
Proof.
  intros Hget. revert s. induction vs as [|v vs IH]; intros s; simpl.
  - setoid_rewrite elem_of_nil. naive_solver.
  - rewrite IH, Hget. setoid_rewrite elem_of_cons. set_solver.
Qed.

(** The filters and identifiers of requests: a device identifier has no slash,
    a href starts with one. *)
Fixpoint no_slash (s : string) : bool :=
  match s with
  | EmptyString => true
  | String c s => negb (Ascii.eqb c "/"%char) && no_slash s
  end.
Definition starts_slash (s : string) : bool :=
  match s with String c _ => Ascii.eqb c "/"%char | EmptyString => false end.
Definition wf_id (r : ResourceId) : Prop :=
  no_slash (rid_DeviceId r) = true /\ starts_slash (rid_Href r) = true.
Definition wf_filter (v : ResourceId) : Prop :=
  no_slash (rid_DeviceId v) = true /\ (rid_Href v = "*" \/ starts_slash (rid_Href v) = true).

Lemma device_href_inj d h d' h' :
  no_slash d = true -> no_slash d' = true -> starts_slash h = true -> starts_slash h' = true ->
  d +:+ h = d' +:+ h' -> d = d' /\ h = h'.
Proof.
  revert d'. induction d as [|c d IH]; intros [|c' d'] Hd Hd' Hh Hh' Heq; cbn [no_slash] in *.
  - by rewrite !append_nil in Heq.
  - rewrite append_nil, append_cons in Heq. subst h. cbn in Hh. by rewrite Hh in Hd'.
  - rewrite append_nil, append_cons in Heq. subst h'. cbn in Hh'. by rewrite Hh' in Hd.
  - rewrite !append_cons in Heq. injection Heq as -> Heq.
    apply andb_prop in Hd as [_ Hd], Hd' as [_ Hd'].
    destruct (IH d' Hd Hd' Hh Hh' Heq) as [-> ->]. done.
Qed.

Lemma ToUUID_inj r v :
  wf_id r -> wf_id v -> ResourceId_ToUUID (Some v) = ResourceId_ToUUID (Some r) -> v = r.
Proof.
  intros [Hd Hh] [Hd' Hh'] Heq. destruct r as [d h], v as [d' h']. cbn in *.
  unfold ResourceId_ToUUID in Heq. cbn in Heq. destruct h, h'; try done. cbn in Heq.
  apply uuid_NewSHA1_inj in Heq.
  apply device_href_inj in Heq as [-> ->]; done.
Qed.

(** What a filter asks for. *)
Definition covers_device (v : ResourceId) (device : string) : Prop :=
  rid_DeviceId v = "*" \/
  (is_Some (uuid_Parse_value device) /\
   uuid_Parse_value (rid_DeviceId v) = uuid_Parse_value device).
Definition covers (v : ResourceId) (r : ResourceId) : Prop :=
  if String.eqb (rid_DeviceId v) "*" then rid_Href v = "*" \/ rid_Href v = rid_Href r
  else if String.eqb (rid_Href v) "*" then covers_device v (rid_DeviceId r)
  else v = r.

(** The test of the events of a resource. *)
Definition passes (s : filtered) (r : ResourceId) : bool :=
  isFilteredDevice uuid_Parse_value (filteredDeviceIDs s) (rid_DeviceId r)
  && isFilteredResourceIDs (filteredResourceIDs s) (filteredHrefIDs s) (Some r).

Lemma passes_empty r : passes (MkFiltered ∅ ∅ ∅) r = true.
Proof. done. Qed.

Lemma isFilteredDevice_spec D d :
  isFilteredDevice uuid_Parse_value D d = true <->
  D = ∅ \/ exists u, uuid_Parse_value d = Some u /\ u ∈ D.
Proof.
  unfold isFilteredDevice, Has. case_bool_decide as HD; [naive_solver|].
  destruct (uuid_Parse_value d) as [u|]; rewrite ?bool_decide_eq_true; naive_solver.
Qed.

Lemma isFilteredResourceIDs_spec R H r :
  isFilteredResourceIDs R H (Some r) = true <->
  (R = ∅ /\ H = ∅) \/ HrefToID (rid_Href r) ∈ H \/ ResourceId_ToUUID (Some r) ∈ R.
Proof.
  unfold isFilteredResourceIDs, Has.
  destruct (bool_decide (H = ∅)) eqn:EH, (bool_decide (R = ∅)) eqn:ER; bool_prop; cbn [andb];
    rewrite ?orb_true_iff, ?bool_decide_eq_true; naive_solver.
Qed.
Lemma list_not_nil {A} (l : list A) : l <> [] -> exists x, x ∈ l.
Proof. destruct l as [|x l]; [done|]. exists x. by left. Qed.

(** The elements of the sets after Init. *)
Section after_init.
Context (vs : list ResourceId).
Context (Hns : Forall (fun v => all_star v = false /\
     (rid_DeviceId v <> "*" -> is_Some (uuid_Parse_value (rid_DeviceId v)))) vs).
Let s := fold_left (fun s v => filtered_union s (sets_of v)) vs (MkFiltered ∅ ∅ ∅).

Lemma elem_filteredDeviceIDs u :
  u ∈ filteredDeviceIDs s <->
  exists v, v ∈ vs /\ rid_DeviceId v <> "*" /\ uuid_Parse_value (rid_DeviceId v) = Some u.
Proof.
  unfold s. rewrite (filtered_fold_elem filteredDeviceIDs) by done.
  cbn [filteredDeviceIDs filteredHrefIDs filteredResourceIDs]. rewrite elem_of_empty. split.
  - intros [[]|(v & Hv & Hu)]. exists v. cbn in Hu.
    destruct (String.eqb_spec (rid_DeviceId v) "*"); [by apply elem_of_empty in Hu|].
    destruct (uuid_Parse_value _) as [w|]; [|by apply elem_of_empty in Hu].
    apply elem_of_singleton in Hu as ->. done.
  - intros (v & Hv & Hne & Hu). right. exists v. split; [done|]. cbn.
    apply String.eqb_neq in Hne. rewrite Hne, Hu. set_solver.
Qed.

Lemma elem_filteredHrefIDs u :
  u ∈ filteredHrefIDs s <->
  exists v, v ∈ vs /\ rid_DeviceId v = "*" /\ HrefToID (rid_Href v) = u.
Proof.
  unfold s. rewrite (filtered_fold_elem filteredHrefIDs) by done.
  cbn [filteredDeviceIDs filteredHrefIDs filteredResourceIDs]. rewrite elem_of_empty. split.
  - intros [[]|(v & Hv & Hu)]. exists v. cbn in Hu.
    destruct (String.eqb_spec (rid_DeviceId v) "*"); [|by apply elem_of_empty in Hu].
    apply elem_of_singleton in Hu as ->. done.
  - intros (v & Hv & Hd & <-). right. exists v. split; [done|]. cbn.
    rewrite Hd. set_solver.
Qed.

Lemma elem_filteredResourceIDs u :
  u ∈ filteredResourceIDs s <->
  exists v, v ∈ vs /\ rid_DeviceId v <> "*" /\ rid_Href v <> "*" /\ ResourceId_ToUUID (Some v) = u.
Proof.
  unfold s. rewrite (filtered_fold_elem filteredResourceIDs) by done.
  cbn [filteredDeviceIDs filteredHrefIDs filteredResourceIDs]. rewrite elem_of_empty. split.
  - intros [[]|(v & Hv & Hu)]. exists v. cbn in Hu.
    destruct (String.eqb_spec (rid_DeviceId v) "*"), (String.eqb_spec (rid_Href v) "*");
      cbn in Hu; try (by apply elem_of_empty in Hu). apply elem_of_singleton in Hu as ->. done.
  - intros (v & Hv & Hd & Hh & <-). right. exists v. split; [done|]. cbn.
    apply String.eqb_neq in Hd, Hh. rewrite Hd, Hh. cbn. set_solver.
Qed.

Lemma not_all_star v : v ∈ vs -> rid_DeviceId v = "*" -> rid_Href v <> "*".
Proof.
  intros Hv Hd Hh. rewrite Forall_forall in Hns. destruct (Hns v Hv) as [Hs _].
  unfold all_star in Hs. by rewrite Hd, Hh in Hs.
Qed.

Lemma device_parses v :
  v ∈ vs -> rid_DeviceId v <> "*" -> exists u, uuid_Parse_value (rid_DeviceId v) = Some u.
Proof.
  intros Hv Hd. rewrite Forall_forall in Hns. destruct (Hns v Hv) as [_ Hs].
  by destruct (Hs Hd) as [u Hu]; exists u.
Qed.

(** What passes is covered. *)
Lemma passes_covered r :
  wf_id r -> Forall wf_filter vs -> passes s r = true -> vs = [] \/ Exists (fun v => covers v r) vs.
Proof.
  intros Hr Hwf. rewrite Forall_forall in Hwf. unfold passes.
  rewrite andb_true_iff, isFilteredDevice_spec, isFilteredResourceIDs_spec. rewrite Exists_exists.
  intros [HD [[HR HH]|[HH|HR]]].
  - destruct HD as [HD|(u & Hu & HD)].
    + destruct (decide (vs = [])) as [|Hne]; [by left|exfalso].
      destruct (list_not_nil vs Hne) as [v Hv].
      destruct (decide (rid_DeviceId v = "*")) as [Hd|Hd].
      * assert (HrefToID (rid_Href v) ∈ filteredHrefIDs s) as Hc
          by (apply elem_filteredHrefIDs; eauto). rewrite HH in Hc. set_solver.
      * destruct (device_parses v Hv Hd) as [u Hu].
        assert (u ∈ filteredDeviceIDs s) as Hc by (apply elem_filteredDeviceIDs; eauto).
        rewrite HD in Hc. set_solver.
    + right. apply elem_filteredDeviceIDs in HD as (v & Hv & Hd & Hvu). exists v. split; [done|].
      unfold covers. rewrite (proj2 (String.eqb_neq _ _) Hd).
      destruct (String.eqb_spec (rid_Href v) "*") as [Hh|Hh].
      * right. rewrite Hu, Hvu. eauto.
      * assert (ResourceId_ToUUID (Some v) ∈ filteredResourceIDs s) as Hc
          by (apply elem_filteredResourceIDs; eauto). rewrite HR in Hc. set_solver.
  - right. apply elem_filteredHrefIDs in HH as (v & Hv & Hd & Hh). exists v. split; [done|].
    unfold covers. rewrite Hd. cbn. right. by apply uuid_NewSHA1_inj in Hh.
  - right. apply elem_filteredResourceIDs in HR as (v & Hv & Hd & Hh & Hu). exists v. split; [done|].
    unfold covers. rewrite (proj2 (String.eqb_neq _ _) Hd), (proj2 (String.eqb_neq _ _) Hh).
    destruct (Hwf v Hv) as [Hw [Hw'|Hw']]; [done|]. by apply ToUUID_inj.
Qed.
End after_init.
Definition no_filtered : filtered := MkFiltered ∅ ∅ ∅.

Lemma passed_is_covered vs s r :
  setFilters_loop uuid_Parse_value no_filtered vs = (s, None) ->
  wf_id r -> Forall wf_filter vs -> passes s r = true -> vs = [] \/ Exists (fun v => covers v r) vs.
Proof.
  intros Hinit Hr Hwf Hp. apply setFilters_loop_spec in Hinit as [[Hex _]|[Hns ->]].
  - right. apply Exists_exists in Hex as (v & Hv & Hs). apply Exists_exists. exists v.
    split; [done|]. unfold all_star in Hs. apply andb_prop in Hs as [Hd Hh].
    unfold covers. rewrite Hd. left. by apply String.eqb_eq.
  - by apply passes_covered.
Qed.

(** Nothing is delivered that no filter asks for. *)
Theorem delivered_is_covered vs s r :
  setFilters_loop uuid_Parse_value no_filtered vs = (s, None) ->
  wf_id r -> Forall wf_filter vs -> passes s r = true -> vs = [] \/ Exists (fun v => covers v r) vs.
Proof. apply passed_is_covered. Qed.

(** Filters of one kind: all of them name a device and a href, or all only a
    href, or all only a device, or one of them takes everything. *)
Definition names_both (v : ResourceId) : Prop := rid_DeviceId v <> "*" /\ rid_Href v <> "*".
Definition names_href (v : ResourceId) : Prop := rid_DeviceId v = "*" /\ rid_Href v <> "*".
Definition names_device (v : ResourceId) : Prop := rid_DeviceId v <> "*" /\ rid_Href v = "*".
Definition one_kind (vs : list ResourceId) : Prop :=
  Forall names_both vs \/ Forall names_href vs \/ Forall names_device vs \/
  Exists (fun v => all_star v = true) vs.

Lemma covered_passes vs r :
  Forall (fun v => all_star v = false /\
     (rid_DeviceId v <> "*" -> is_Some (uuid_Parse_value (rid_DeviceId v)))) vs ->
  Forall names_both vs \/ Forall names_href vs \/ Forall names_device vs ->
  Exists (fun v => covers v r) vs ->
  passes (fold_left (fun s v => filtered_union s (sets_of v)) vs no_filtered) r = true.
Proof.
  intros Hns Hkind (v & Hv & Hcov)%Exists_exists. unfold passes.
  rewrite andb_true_iff, isFilteredDevice_spec, isFilteredResourceIDs_spec.
  unfold covers in Hcov. rewrite !Forall_forall in Hkind.
  destruct Hkind as [Hk|[Hk|Hk]]; destruct (Hk v Hv) as [Hd Hh].
  - rewrite (proj2 (String.eqb_neq _ _) Hd), (proj2 (String.eqb_neq _ _) Hh) in Hcov. subst v.
    destruct (device_parses _ Hns r Hv Hd) as [u Hu]. split.
    + right. exists u. split; [done|]. apply elem_filteredDeviceIDs; [done|eauto].
    + right. right. apply elem_filteredResourceIDs; [done|]. eauto.
  - rewrite (proj2 (String.eqb_eq _ _) Hd) in Hcov. destruct Hcov as [|Hcov]; [done|]. split.
    + left. apply set_eq. intros u. rewrite elem_filteredDeviceIDs by done.
      split; [|set_solver]. intros (v' & Hv' & Hd' & _). by destruct (Hk v' Hv').
    + right. left. rewrite <- Hcov. apply elem_filteredHrefIDs; [done|eauto].
  - rewrite (proj2 (String.eqb_neq _ _) Hd), (proj2 (String.eqb_eq _ _) Hh) in Hcov.
    destruct Hcov as [|[[u Hu] Hcov]]; [done|]. split.
    + right. exists u. split; [done|]. rewrite Hu in Hcov.
      apply elem_filteredDeviceIDs; [done|eauto].
    + left. split; apply set_eq; intros w.
      * rewrite elem_filteredResourceIDs by done. split; [|set_solver].
        intros (v' & Hv' & _ & Hh' & _). by destruct (Hk v' Hv').
      * rewrite elem_filteredHrefIDs by done. split; [|set_solver].
        intros (v' & Hv' & Hd' & _). by destruct (Hk v' Hv').
Qed.

(** With filters of one kind an event of a resource is delivered exactly when
    one of them asks for it. *)
Theorem one_kind_exact vs s r :
  setFilters_loop uuid_Parse_value no_filtered vs = (s, None) ->
  wf_id r -> Forall wf_filter vs -> one_kind vs ->
  passes s r = true <-> vs = [] \/ Exists (fun v => covers v r) vs.
Proof.
  intros Hinit Hr Hwf Hkind. split; [by apply passed_is_covered|].
  intros [->|Hcov]; [injection Hinit as <-; apply passes_empty|].
  apply setFilters_loop_spec in Hinit as [[_ ->]|[Hns ->]]; [apply passes_empty|].
  apply covered_passes; [done| |done]. destruct Hkind as [?|[?|[?|Hex]]]; [tauto..|].
  exfalso. apply Exists_exists in Hex as (v & Hv & Hs). rewrite Forall_forall in Hns.
  destruct (Hns v Hv). congruence.
Qed.

(** A filter on a whole device next to one on a resource of another device: the
    filters are documented as a union, but the events of the resources of the
    first device are dropped. *)
Theorem union_of_filters_lost vs s d1 h1 d2 h2 :
  setFilters_loop uuid_Parse_value no_filtered vs = (s, None) ->
  Forall (fun v => all_star v = false) vs -> Forall wf_filter vs ->
  MkResourceId d1 "*" ∈ vs -> MkResourceId d2 h2 ∈ vs -> names_both (MkResourceId d2 h2) ->
  wf_id (MkResourceId d1 h1) -> MkResourceId d1 h1 ∉ vs -> MkResourceId "*" h1 ∉ vs ->
  (is_Some (uuid_Parse_value d1) -> covers (MkResourceId d1 "*") (MkResourceId d1 h1)) /\
  passes s (MkResourceId d1 h1) = false.
Proof.
  intros Hinit Hns' Hwf H1 H2 [Hd2 Hh2] Hr Hn1 Hn2.
  apply setFilters_loop_spec in Hinit as [[Hex _]|[Hns ->]].
  { exfalso. apply Exists_exists in Hex as (v & Hv & Hs). rewrite Forall_forall in Hns'.
    specialize (Hns' v Hv). congruence. }
  split.
  - intros Hp. unfold covers. cbn. destruct (String.eqb_spec d1 "*"); [by left|]. right. done.
  - destruct (passes _ _) eqn:E; [exfalso|done]. unfold passes in E.
    rewrite andb_true_iff, isFilteredDevice_spec, isFilteredResourceIDs_spec in E.
    destruct E as [_ [[HR _]|[HH|HR]]].
    + assert (ResourceId_ToUUID (Some (MkResourceId d2 h2)) ∈ filteredResourceIDs
        (fold_left (fun s v => filtered_union s (sets_of v)) vs no_filtered)) as Hc.
      { apply elem_filteredResourceIDs; [done|]. eauto. }
      rewrite HR in Hc. set_solver.
    + apply elem_filteredHrefIDs in HH as ([d h] & Hv & Hd & Hh); [|done]. cbn in *. subst d.
      apply uuid_NewSHA1_inj in Hh. by subst h.
    + apply elem_filteredResourceIDs in HR as (v & Hv & Hd & Hh & Hu); [|done].
      rewrite Forall_forall in Hwf. destruct (Hwf v Hv) as [Hw [Hw'|Hw']]; [done|].
      apply ToUUID_inj in Hu; [|done|done]. by subst v.
Qed.
End filters.

(** ** The filters of a request

    The keys of the map of filters are hashes; [filter_key] is the hash a
    filter is stored under, and filters with different meanings have different
    keys as long as identifiers and hrefs have their usual shape. *)
Section requests.
Context {LIB : UUIDLib} {LAWS : UUIDLaws}.

Definition filter_key (v : ResourceId) : string :=
  if String.eqb (rid_DeviceId v) "*" then HrefToID (rid_Href v)
  else if String.eqb (rid_Href v) "*" then HrefToID (rid_DeviceId v +:+ "/*")
  else HrefToID (rid_DeviceId v +:+ rid_Href v).

Definition wf_device (d : string) : Prop := d <> "" /\ d <> "*" /\ no_slash d = true.
Definition wf_href (h : string) : Prop := h <> "/*" /\ starts_slash h = true.
Definition wf_entry (v : ResourceId) : Prop :=
  (wf_device (rid_DeviceId v) /\ (rid_Href v = "*" \/ wf_href (rid_Href v))) \/
  (rid_DeviceId v = "*" /\ wf_href (rid_Href v)).

Lemma wf_href_star h : wf_href h -> String.eqb h "*" = false.
Proof. intros [_ Hh]. destruct (String.eqb_spec h "*") as [->|]; done. Qed.
Lemma wf_device_star d : wf_device d -> String.eqb d "*" = false.
Proof. intros (_ & Hd & _). by apply String.eqb_neq. Qed.

Lemma device_no_href d h s :
  wf_device d -> starts_slash h = true -> h <> d +:+ s.
Proof.
  intros (Hd & _ & Hn) Hh ->. destruct d as [|c d]; [done|].
  rewrite append_cons in Hh. cbn in *. by rewrite Hh in Hn.
Qed.

Lemma filter_key_inj v w : wf_entry v -> wf_entry w -> filter_key v = filter_key w -> v = w.
Proof.
  destruct v as [d h], w as [d' h']. unfold wf_entry, filter_key, HrefToID. cbn.
  assert (Hs : starts_slash "/*" = true) by done.
  intros [[Hd Hh]|[-> Hh]] [[Hd' Hh']|[-> Hh']];
    rewrite ?(wf_device_star d), ?(wf_device_star d'), ?String.eqb_refl by done.
  - destruct Hh as [->|Hh], Hh' as [->|Hh']; rewrite ?(wf_href_star h), ?(wf_href_star h') by done;
      rewrite ?String.eqb_refl; intros Heq%uuid_NewSHA1_inj;
      apply device_href_inj in Heq as [-> Heq]; destruct Hd as (? & ? & ?), Hd' as (? & ? & ?);
      unfold wf_href in *; naive_solver.
  - intros Heq. exfalso. destruct (String.eqb h "*"); apply uuid_NewSHA1_inj in Heq;
      symmetry in Heq; apply device_no_href in Heq; unfold wf_href in *; naive_solver.
  - intros Heq. exfalso. destruct (String.eqb h' "*"); apply uuid_NewSHA1_inj in Heq;
      apply device_no_href in Heq; unfold wf_href in *; naive_solver.
  - intros Heq%uuid_NewSHA1_inj. by subst.
Qed.

(** A map of filters holds [v]; [keyed]: everything in it is where it belongs. *)
Definition holds (m : resourceFilters) (v : ResourceId) : Prop := exists k, m !! k = Some v.
Definition keyed (m : resourceFilters) : Prop :=
  map_Forall (fun k v => wf_entry v /\ k = filter_key v) m.

Lemma holds_empty v : ~ holds ∅ v.
Proof. intros [k Hk]. by rewrite lookup_empty in Hk. Qed.
Lemma filter_keyed_empty : keyed ∅.
Proof. apply map_Forall_empty. Qed.
Lemma keyed_insert m k v : keyed m -> wf_entry v -> k = filter_key v -> keyed (<[k := v]> m).
Proof. intros. by apply map_Forall_insert_2. Qed.

Lemma holds_insert m k v x :
  keyed m -> wf_entry v -> k = filter_key v -> holds (<[k := v]> m) x <-> x = v \/ holds m x.
Proof.
  intros Hm Hv ->. split.
  - intros [k Hk]. apply lookup_insert_Some in Hk as [[_ <-]|[_ Hk]]; [by left|right; by exists k].
  - intros [->|[k Hk]]; [exists (filter_key v); apply lookup_insert_eq|].
    destruct (Hm k x Hk) as [Hx ->]. destruct (decide (filter_key v = filter_key x)) as [E|E].
    + apply filter_key_inj in E as ->; [|done..]. exists (filter_key x). apply lookup_insert_eq.
    + exists (filter_key x). by rewrite lookup_insert_ne.
Qed.

Lemma holds_fold {A} (f : A -> ResourceId) (key : A -> string) l m :
  keyed m -> (forall a, a ∈ l -> wf_entry (f a) /\ key a = filter_key (f a)) ->
  let m' := fold_left (fun m a => <[key a := f a]> m) l m in
  keyed m' /\ forall x, holds m' x <-> (exists a, a ∈ l /\ x = f a) \/ holds m x.
Proof.
  revert m. induction l as [|a l IH]; intros m Hm Hl; cbn [fold_left].
  - split; [done|]. intros x. setoid_rewrite elem_of_nil. naive_solver.
  - destruct (Hl a) as [Hw Hk]; [by left|].
    destruct (IH (<[key a := f a]> m)) as [Hm' Hx].
    + by apply keyed_insert.
    + intros b Hb. apply Hl. by right.
    + split; [done|]. intros x. rewrite Hx, holds_insert by done.
      setoid_rewrite elem_of_cons. naive_solver.
Qed.

Lemma addHrefFilters_holds hs m :
  keyed m -> Forall wf_href hs ->
  keyed (addHrefFilters hs m) /\
  forall x, holds (addHrefFilters hs m) x <-> (exists h, h ∈ hs /\ x = MkResourceId "*" h) \/ holds m x.
Proof.
  intros Hm Hhs. rewrite Forall_forall in Hhs.
  apply (holds_fold (fun h => NewResourceID "*" h) HrefToID); [done|].
  intros h Hh. split; [|done]. right. split; [done|]. by apply Hhs.
Qed.

Lemma addDeviceFilters_holds ds m :
  keyed m -> Forall wf_device ds ->
  keyed (addDeviceFilters ds m) /\
  forall x, holds (addDeviceFilters ds m) x <-> (exists d, d ∈ ds /\ x = MkResourceId d "*") \/ holds m x.
Proof.
  intros Hm Hds. rewrite Forall_forall in Hds.
  apply (holds_fold (fun d => NewResourceID d "*") (fun d => HrefToID (d +:+ "/*"))); [done|].
  intros d Hd. specialize (Hds d Hd). split; [left; split; [done|by left]|].
  unfold filter_key, NewResourceID. cbn. by rewrite (wf_device_star d).
Qed.

Lemma ToUUID_filter_key d h :
  wf_device d -> wf_href h -> ResourceId_ToUUID (Some (MkResourceId d h)) = filter_key (MkResourceId d h).
Proof.
  intros Hd Hh. unfold ResourceId_ToUUID, filter_key. cbn.
  rewrite (wf_device_star d), (wf_href_star h) by done. by destruct Hh as [_ Hh]; destruct h.
Qed.

Lemma addProduct_holds ds hs m :
  keyed m -> Forall wf_device ds -> Forall wf_href hs ->
  keyed (addProduct ds hs m) /\
  forall x, holds (addProduct ds hs m) x <->
    (exists d h, d ∈ ds /\ h ∈ hs /\ x = MkResourceId d h) \/ holds m x.
Proof.
  intros Hm Hds Hhs. unfold addProduct. revert m Hm.
  induction Hds as [|d ds Hd _ IH]; intros m Hm; cbn [fold_left].
  { split; [done|]. intros x. setoid_rewrite elem_of_nil. naive_solver. }
  destruct (holds_fold (fun h => NewResourceID d h)
    (fun h => ResourceId_ToUUID (Some (NewResourceID d h))) hs m Hm) as [Hm1 Hx1].
  { intros h Hh. rewrite Forall_forall in Hhs. specialize (Hhs h Hh).
    split; [left; split; [done|by right]|by apply ToUUID_filter_key]. }
  destruct (IH _ Hm1) as [Hm2 Hx2]. split; [done|]. intros x. rewrite Hx2, Hx1.
  setoid_rewrite elem_of_cons. unfold NewResourceID. naive_solver.
Qed.
Definition text_covers (v r : ResourceId) : Prop :=
  (rid_DeviceId v = "*" \/ rid_DeviceId v = rid_DeviceId r) /\
  (rid_Href v = "*" \/ rid_Href v = rid_Href r).
Definition map_covers (m : resourceFilters) (r : ResourceId) : Prop :=
  exists v, holds m v /\ text_covers v r.

(** A concrete identifier of a resource in a request. *)
Definition concrete_id (v : ResourceId) : Prop := wf_device (rid_DeviceId v) /\ wf_href (rid_Href v).

Lemma text_covers_concrete v r : concrete_id v -> text_covers v r <-> v = r.
Proof.
  intros [Hd Hh]. unfold text_covers. apply wf_device_star in Hd. apply wf_href_star in Hh.
  apply String.eqb_neq in Hd, Hh. destruct v as [d h], r as [d' h']. cbn in *. naive_solver.
Qed.

Lemma keyed_lookup m k v :
  keyed m -> wf_entry v -> k = filter_key v -> is_Some (m !! k) -> holds m v.
Proof.
  intros Hm Hv -> [w Hw]. destruct (Hm _ _ Hw) as [Hww Hk]. apply filter_key_inj in Hk as ->; [|done..].
  by exists (filter_key w).
Qed.

Lemma addResourceIdFilter_covers m x v e :
  keyed m -> concrete_id v -> x = Some (MkResourceIdFilter (Some v) e) ->
  keyed (addResourceIdFilter m x) /\
  forall r, map_covers (addResourceIdFilter m x) r <-> map_covers m r \/ v = r.
Proof.
  intros Hm Hv ->. destruct v as [d h]. pose proof Hv as [Hd Hh]. unfold addResourceIdFilter.
  cbn -[HrefToID ResourceId_ToUUID]. cbn in Hd, Hh.
  assert (Hwv : wf_entry (MkResourceId d h)) by (left; split; [done|by right]).
  case_bool_decide as Hk1.
  - split; [done|]. intros r. split; [by left|]. intros [|<-]; [done|].
    exists (MkResourceId "*" h). split; [|split; [by left|by right]].
    apply (keyed_lookup m (HrefToID h)); [done| |done|done]. by right.
  - case_bool_decide as Hk2.
    + split; [done|]. intros r. split; [by left|]. intros [|<-]; [done|].
      exists (MkResourceId d "*"). split; [|split; [by right|by left]].
      apply (keyed_lookup m (HrefToID (d +:+ "/*"))); [done| | |done].
      * left. split; [done|by left].
      * unfold filter_key. cbn. by rewrite (wf_device_star d).
    + split; [apply keyed_insert; [done..|by apply ToUUID_filter_key]|]. intros r. unfold map_covers.
      setoid_rewrite (holds_insert m _ _ _ Hm Hwv (ToUUID_filter_key d h Hd Hh)).
      rewrite <- (text_covers_concrete (MkResourceId d h) r Hv). naive_solver.
Qed.

Definition concrete_ids (rids : list (option ResourceIdFilter)) : Prop :=
  Forall (fun x => exists v e, x = Some (MkResourceIdFilter (Some v) e) /\ concrete_id v) rids.

Lemma addResourceIdFilters_covers rids m :
  keyed m -> concrete_ids rids ->
  keyed (addResourceIdFilters rids m) /\
  forall r, map_covers (addResourceIdFilters rids m) r <->
    map_covers m r \/ exists e, Some (MkResourceIdFilter (Some r) e) ∈ rids.
Proof.
  intros Hm Hrids. unfold addResourceIdFilters. revert m Hm.
  induction Hrids as [|x rids (v & e & -> & Hv) _ IH]; intros m Hm; cbn [fold_left].
  { split; [done|]. intros r. setoid_rewrite elem_of_nil. naive_solver. }
  destruct (addResourceIdFilter_covers m _ v e Hm Hv eq_refl) as [Hm1 H1].
  destruct (IH _ Hm1) as [Hm2 H2]. split; [done|]. intros r. rewrite H2, H1.
  setoid_rewrite elem_of_cons. naive_solver.
Qed.

Lemma toFilters_concrete rids st :
  concrete_ids rids ->
  exists ss, fold_left toFilters_step rids st = (st.1.1, st.1.2, st.2 ++ ss) /\ length ss = length rids.
Proof.
  intros Hrids. revert st.
  induction Hrids as [|x rids (v & e & -> & [Hd Hh]) _ IH]; intros [[ds hs] ss]; cbn [fold_left].
  { exists []. by rewrite app_nil_r. }
  cbn -[toFilters_step]. unfold toFilters_step at 2. cbn [getter rif_ResourceId].
  rewrite (wf_device_star _ Hd), (wf_href_star _ Hh). cbn [andb].
  destruct (IH (ds, hs, ss ++ [ResourceId_ToString (Some v)])) as (ss' & Heq & Hlen).
  exists (ResourceId_ToString (Some v) :: ss'). rewrite Heq. cbn. rewrite <- app_assoc. split; [done|].
  by rewrite Hlen.
Qed.

(** What a request asks for: everything when it has no filter; else the product
    of its devices and its hrefs, together with its resources. *)
Definition requested_devices (req : CreateSubscription) : list string :=
  List.filter not_star (cs_DeviceIdFilter req).
Definition requested_hrefs (req : CreateSubscription) : list string :=
  List.filter not_star (cs_HrefFilter req).
Definition requested (req : CreateSubscription) (r : ResourceId) : Prop :=
  let ds := requested_devices req in
  let hs := requested_hrefs req in
  ((ds <> [] \/ hs <> []) /\ (ds = [] \/ rid_DeviceId r ∈ ds) /\ (hs = [] \/ rid_Href r ∈ hs)) \/
  exists e, Some (MkResourceIdFilter (Some r) e) ∈ cs_ResourceIdFilter req.

Lemma wf_device_ne d : wf_device d -> d <> "*".
Proof. by intros (_ & ? & _). Qed.
Lemma wf_href_ne h : wf_href h -> h <> "*".
Proof. intros H%wf_href_star. by apply String.eqb_neq. Qed.

Lemma length_nonempty {A} (l : list A) : l <> [] -> (length l =? 0)%nat = false.
Proof. by destruct l. Qed.

(** The map before the resources are added. *)
Definition base_filters (ds hs : list string) : resourceFilters :=
  if (length ds =? 0)%nat
  then (if (length hs =? 0)%nat then ∅ else addHrefFilters hs ∅)
  else (if (length hs =? 0)%nat then addDeviceFilters ds ∅ else addProduct ds hs ∅).

Lemma base_filters_covers ds hs :
  Forall wf_device ds -> Forall wf_href hs ->
  keyed (base_filters ds hs) /\
  forall r, map_covers (base_filters ds hs) r <->
    (ds <> [] \/ hs <> []) /\ (ds = [] \/ rid_DeviceId r ∈ ds) /\ (hs = [] \/ rid_Href r ∈ hs).
Proof.
  intros Hds Hhs. pose proof Hds as Hds'. pose proof Hhs as Hhs'. rewrite Forall_forall in Hds', Hhs'.
  unfold base_filters, map_covers, text_covers.
  destruct (decide (ds = [])) as [->|Hdn], (decide (hs = [])) as [->|Hhn];
    rewrite ?(length_nonempty ds), ?(length_nonempty hs) by done; cbn [length Nat.eqb].
  - split; [apply filter_keyed_empty|]. intros r. split; [|tauto].
    intros (v & Hv & _). by apply holds_empty in Hv.
  - destruct (addHrefFilters_holds hs ∅ filter_keyed_empty Hhs) as [Hk Hx]. split; [done|]. intros r.
    split.
    + intros (v & Hv & Hc). apply Hx in Hv as [(h & Hh & ->)|Hv]; [|by apply holds_empty in Hv].
      pose proof (wf_href_ne _ (Hhs' h Hh)). cbn in Hc. destruct Hc as [_ [?| ->]]; [done|].
      split_and!; [by right|by left|by right].
    + intros (_ & _ & [?|Hr]); [done|]. exists (MkResourceId "*" (rid_Href r)).
      split; [apply Hx; eauto|]. split; [by left|by right].
  - destruct (addDeviceFilters_holds ds ∅ filter_keyed_empty Hds) as [Hk Hx]. split; [done|]. intros r.
    split.
    + intros (v & Hv & Hc). apply Hx in Hv as [(d & Hd & ->)|Hv]; [|by apply holds_empty in Hv].
      pose proof (wf_device_ne _ (Hds' d Hd)). cbn in Hc. destruct Hc as [[?| ->] _]; [done|].
      split_and!; [by left|by right|by left].
    + intros (_ & [?|Hr] & _); [done|]. exists (MkResourceId (rid_DeviceId r) "*").
      split; [apply Hx; eauto|]. split; [by right|by left].
  - destruct (addProduct_holds ds hs ∅ filter_keyed_empty Hds Hhs) as [Hk Hx]. split; [done|]. intros r.
    split.
    + intros (v & Hv & Hc).
      apply Hx in Hv as [(d & h & Hd & Hh & ->)|Hv]; [|by apply holds_empty in Hv].
      pose proof (wf_device_ne _ (Hds' d Hd)). pose proof (wf_href_ne _ (Hhs' h Hh)).
      cbn in Hc. destruct Hc as [[?| ->] [?| ->]]; try done.
      split_and!; [by left|by right|by right].
    + intros (_ & [?|Hr] & [?|Hr']); try done. exists r. destruct r as [d h]. cbn in *.
      split; [apply Hx; left; eauto|]. split; by right.
Qed.

Lemma getFilters_map req lrt :
  Forall wf_device (requested_devices req) -> Forall wf_href (requested_hrefs req) ->
  concrete_ids (cs_ResourceIdFilter req) ->
  sf_resourceFilters (getFilters req lrt).1
  = addResourceIdFilters (cs_ResourceIdFilter req)
      (base_filters (strings_Unique (requested_devices req)) (strings_Unique (requested_hrefs req))).
Proof.
  intros Hds Hhs Hrids. unfold getFilters, normalizeFilters, toFilters.
  destruct (toFilters_concrete (cs_ResourceIdFilter req) ([], [], []) Hrids) as (ss & -> & Hlen).
  cbn [fst snd app]. fold (requested_devices req) (requested_hrefs req).
  rewrite !strings_Unique_length. unfold base_filters. rewrite !strings_Unique_length, Hlen.
  destruct (requested_devices req) as [|d ds], (requested_hrefs req) as [|h hs],
    (cs_ResourceIdFilter req) as [|x rids]; reflexivity.
Qed.

(** The filters of a request whose resource identifiers are concrete cover
    exactly what it asks for. *)
Theorem getFilters_union req lrt r :
  Forall wf_device (requested_devices req) -> Forall wf_href (requested_hrefs req) ->
  concrete_ids (cs_ResourceIdFilter req) ->
  map_covers (sf_resourceFilters (getFilters req lrt).1) r <-> requested req r.
Proof.
  intros Hds Hhs Hrids. rewrite getFilters_map by done.
  destruct (base_filters_covers (strings_Unique (requested_devices req))
    (strings_Unique (requested_hrefs req))) as [Hk Hb]; [by apply strings_Unique_Forall..|].
  destruct (addResourceIdFilters_covers _ _ Hk Hrids) as [_ ->]. rewrite Hb. unfold requested.
  rewrite !strings_Unique_elem.
  assert (Hnil : forall l, strings_Unique l = [] <-> l = []).
  { intros l. pose proof (strings_Unique_length l) as Hl. revert Hl.
    generalize (strings_Unique l) as k. intros k Hl. destruct k, l; naive_solver. }
  by rewrite !Hnil.
Qed.
End requests.
