(* ===== verification/ResourceIdFilters.v ===== *)
(** * Filters of resources as text

    grpc-gateway/pb: getResources.go (a filter parsed from the text "device",
    "device/href" or "device/href?etag=..."), and ToString of a filter
    (devices.go).  strings.Cut and encoding/base64 are written out. *)

From Stdlib Require Import ZArith Lia String Ascii.
From S2P Require Import Prelude Commands Subscription.

(** ** strings.Cut and strings.Contains for a separator of one byte *)
Fixpoint Cut (sep : ascii) (s : string) : string * string * bool :=
  match s with
  | EmptyString => (""%string, ""%string, false)
  | String c rest =>
      if Ascii.eqb c sep then (""%string, rest, true)
      else let '(before, after, found) := Cut sep rest in (String c before, after, found)
  end.
Fixpoint Contains (sep : ascii) (s : string) : bool :=
  match s with
  | EmptyString => false
  | String c rest => Ascii.eqb c sep || Contains sep rest
  end.

(** ** base64.StdEncoding *)
Definition alphabet : string := "ABCDEFGHIJKLMNOPQRSTUVWXYZabcdefghijklmnopqrstuvwxyz0123456789+/".
Definition digit (n : Z) : ascii := default "A"%char (String.get (Z.to_nat n) alphabet).
Fixpoint index_of (c : ascii) (s : string) (i : Z) : option Z :=
  match s with
  | EmptyString => None
  | String x s => if Ascii.eqb x c then Some i else index_of c s (i + 1)
  end.
Definition digit_value (c : ascii) : option Z := index_of c alphabet 0.

Definition byte_Z (b : byte) : Z := Z.of_N (Byte.to_N b).
Definition Z_byte (z : Z) : byte := default x00 (Byte.of_N (Z.to_N z)).

Fixpoint EncodeToString (l : list byte) : string :=
  match l with
  | [] => ""
  | [a] =>
      let a := byte_Z a in
      String (digit (a / 4)) (String (digit (a mod 4 * 16)) "==")
  | [a; b] =>
      let a := byte_Z a in let b := byte_Z b in
      String (digit (a / 4)) (String (digit (a mod 4 * 16 + b / 16)) (String (digit (b mod 16 * 4)) "="))
  | a :: b :: c :: l =>
      let a := byte_Z a in let b := byte_Z b in let c := byte_Z c in
      String (digit (a / 4)) (String (digit (a mod 4 * 16 + b / 16))
        (String (digit (b mod 16 * 4 + c / 64)) (String (digit (c mod 64)) (EncodeToString l))))
  end%string.

(** The decoder skips line ends; it takes four digits at a time, of which the last
    ones may be padding when nothing follows. *)
Definition skipped (c : ascii) : bool := Ascii.eqb c "010"%char || Ascii.eqb c "013"%char.
Fixpoint without_newlines (s : string) : string :=
  match s with
  | EmptyString => EmptyString
  | String c rest => if skipped c then without_newlines rest else String c (without_newlines rest)
  end.
Definition padding : ascii := "=".
Fixpoint decode_quanta (s : string) : option (list byte) :=
  match s with
  | EmptyString => Some []
  | String c1 (String c2 (String c3 (String c4 rest))) =>
      match digit_value c1, digit_value c2 with
      | Some x, Some y =>
          if Ascii.eqb c3 padding then
            if Ascii.eqb c4 padding && String.eqb rest "" then Some [Z_byte (x * 4 + y / 16)] else None
          else match digit_value c3 with
          | None => None
          | Some z =>
              if Ascii.eqb c4 padding then
                if String.eqb rest "" then Some [Z_byte (x * 4 + y / 16); Z_byte (y mod 16 * 16 + z / 4)] else None
              else match digit_value c4, decode_quanta rest with
              | Some w, Some l =>
                  Some (Z_byte (x * 4 + y / 16) :: Z_byte (y mod 16 * 16 + z / 4) :: Z_byte (z mod 4 * 64 + w) :: l)
              | _, _ => None
              end
          end
      | _, _ => None
      end
  | _ => None
  end%Z.
Definition DecodeString (s : string) : option (list byte) := decode_quanta (without_newlines s).

(** ** getResources.go *)
Definition etagQueryKey : string := "etag".

(** Each turn of the loop takes a byte of the query at least; the second component
    tells that a semicolon was met. *)
Fixpoint parseQuery_go (fuel : nat) (m : gmap string (list string)) (query : string) (err : bool)
    : gmap string (list string) * bool :=
  match fuel with
  | O => (m, err)
  | S fuel =>
      if String.eqb query "" then (m, err)
      else
        let '(key, query, _) := Cut "&" query in
        if Contains ";" key then parseQuery_go fuel m query true
        else if String.eqb key "" then parseQuery_go fuel m query err
        else
          let '(key, value, _) := Cut "=" key in
          if String.eqb key "" then parseQuery_go fuel m query err
          else parseQuery_go fuel (<[key := default [] (m !! key) ++ [value]]> m) query err
  end.
Definition parseQuery (m : gmap string (list string)) (query : string) : gmap string (list string) * bool :=
  parseQuery_go (String.length query) m query false.

(** strings.SplitN(s, sep, 2) finds the separator, or the slice has one element. *)
Definition resourceIdFilterFromString (v : string) : option ResourceIdFilter :=
  if String.eqb v "" then None else
  let v := match v with String "/"%char v' => v' | _ => v end in
  match Cut "/" v with
  | (_, _, false) => Some (MkResourceIdFilter (Some (MkResourceId v "")) [])
  | (device, rest, true) =>
      match Cut "?" rest with
      | (_, _, false) => Some (MkResourceIdFilter (Some (MkResourceId device ("/" +:+ rest))) [])
      | (href, query, true) =>
          let '(values, err) := parseQuery ∅ query in
          if err then Some (MkResourceIdFilter (Some (MkResourceId device ("/" +:+ href))) [])
          else Some (MkResourceIdFilter (Some (MkResourceId device ("/" +:+ href)))
                       (omap DecodeString (default [] (values !! etagQueryKey))))
      end
  end.
Definition ResourceIdFilterFromString (filter : list string) : list (option ResourceIdFilter) :=
  omap (fun s => Some <$> resourceIdFilterFromString s) filter.

(** ** devices.go *)
Fixpoint etags_text (first : bool) (etags : list (list byte)) : string :=
  match etags with
  | [] => ""
  | etag :: etags =>
      (if first then "?" else "&") +:+ "etag=" +:+ EncodeToString etag +:+ etags_text false etags
  end%string.
Definition ResourceIdFilter_ToString (f : option ResourceIdFilter) : string :=
  match f with
  | None => ""
  | Some f =>
      let d := (rif_ResourceId f) ~> rid_DeviceId in
      let href := (rif_ResourceId f) ~> rid_Href in
      if String.eqb href "" then d else d +:+ href +:+ etags_text true (rif_Etag f)
  end.

Example filter_without_etag :
  resourceIdFilterFromString "di/1/2/3" = Some (MkResourceIdFilter (Some (MkResourceId "di" "/1/2/3")) []).
Proof. reflexivity. Qed.
Example filter_with_etags :
  rif_Etag <$> resourceIdFilterFromString "d/light/1?etag=TVRJeg==&etag=TkRVMg=="
  = Some [[x4d; x54; x49; x7a]; [x4e; x44; x55; x32]].
Proof. vm_compute. reflexivity. Qed.

(** ** Round trips *)
(** A digit is read back, and is neither padding nor a separator. *)
Definition digit_ok (n : nat) : bool :=
  let c := digit (Z.of_nat n) in
  bool_decide (digit_value c = Some (Z.of_nat n)) && negb (Ascii.eqb c padding) && negb (skipped c)
  && negb (Ascii.eqb c "&") && negb (Ascii.eqb c ";").
Lemma digits_ok : forallb digit_ok (seq 0 64) = true.
Proof. vm_compute. reflexivity. Qed.
Lemma digit_spec n : (0 <= n < 64)%Z ->
  digit_value (digit n) = Some n /\ Ascii.eqb (digit n) padding = false /\ skipped (digit n) = false /\
  Ascii.eqb (digit n) "&" = false /\ Ascii.eqb (digit n) ";" = false.
Proof.
  intros Hn. pose proof (proj1 (forallb_forall _ _) digits_ok (Z.to_nat n)) as Hok.
  unfold digit_ok in Hok. rewrite Z2Nat.id in Hok by lia.
  specialize (Hok ltac:(apply in_seq; lia)). bool_prop. by split_and!.
Qed.

Lemma byte_Z_range b : (0 <= byte_Z b < 256)%Z.
Proof. unfold byte_Z. pose proof (Byte.to_N_bounded b). lia. Qed.
Lemma Z_byte_Z b z : z = byte_Z b -> Z_byte z = b.
Proof. intros ->. unfold Z_byte, byte_Z. by rewrite N2Z.id, Byte.of_to_N. Qed.

(** The digits of the bytes [a], [b] and [c]. *)
Section digits.
Local Open Scope Z_scope.
Lemma digits_range a b c : (0 <= a < 256) -> (0 <= b < 256) -> (0 <= c < 256) ->
  (0 <= a / 4 < 64) /\ (0 <= a mod 4 * 16 + b / 16 < 64) /\ (0 <= b mod 16 * 4 + c / 64 < 64) /\ (0 <= c mod 64 < 64).
Proof. intros. repeat split; Z.to_euclidean_division_equations; lia. Qed.
Lemma digits_bytes a b c : (0 <= a < 256) -> (0 <= b < 256) -> (0 <= c < 256) ->
  a / 4 * 4 + (a mod 4 * 16 + b / 16) / 16 = a /\
  (a mod 4 * 16 + b / 16) mod 16 * 16 + (b mod 16 * 4 + c / 64) / 4 = b /\
  (b mod 16 * 4 + c / 64) mod 4 * 64 + c mod 64 = c.
Proof. intros. repeat split; Z.to_euclidean_division_equations; lia. Qed.
End digits.

Lemma list_ind3 {A} (P : list A -> Prop) :
  P [] -> (forall a, P [a]) -> (forall a b, P [a; b]) -> (forall a b c l, P l -> P (a :: b :: c :: l)) -> forall l, P l.
Proof.
  intros Hn Ha Hb Hc. fix IH 1.
  intros [|a [|b [|c l]]]; [exact Hn|exact (Ha a)|exact (Hb a b)|exact (Hc a b c l (IH l))].
Qed.

Lemma decode_encode l : decode_quanta (EncodeToString l) = Some l.
Proof.
  induction l as [|a|a b|a b c l IH] using list_ind3; [done|..]; cbn [EncodeToString decode_quanta];
    pose proof (byte_Z_range a) as Ha.
  - pose proof (digits_range (byte_Z a) 0 0 Ha ltac:(lia) ltac:(lia)) as (R1 & R2 & _).
    pose proof (digits_bytes (byte_Z a) 0 0 Ha ltac:(lia) ltac:(lia)) as (B1 & _).
    rewrite Z.div_0_l, Z.add_0_r in R2, B1 by done.
    destruct (digit_spec _ R1) as (-> & _), (digit_spec _ R2) as (-> & _). cbn.
    by rewrite (Z_byte_Z a) by done.
  - pose proof (byte_Z_range b) as Hb.
    pose proof (digits_range (byte_Z a) (byte_Z b) 0 Ha Hb ltac:(lia)) as (R1 & R2 & R3 & _).
    pose proof (digits_bytes (byte_Z a) (byte_Z b) 0 Ha Hb ltac:(lia)) as (B1 & B2 & _).
    rewrite Z.div_0_l, Z.add_0_r in R3, B2 by done.
    destruct (digit_spec _ R1) as (-> & _), (digit_spec _ R2) as (-> & _), (digit_spec _ R3) as (-> & -> & _). cbn.
    by rewrite (Z_byte_Z a), (Z_byte_Z b) by done.
  - pose proof (byte_Z_range b) as Hb. pose proof (byte_Z_range c) as Hc.
    pose proof (digits_range _ _ _ Ha Hb Hc) as (R1 & R2 & R3 & R4).
    pose proof (digits_bytes _ _ _ Ha Hb Hc) as (B1 & B2 & B3).
    destruct (digit_spec _ R1) as (-> & _), (digit_spec _ R2) as (-> & _), (digit_spec _ R3) as (-> & -> & _),
      (digit_spec _ R4) as (-> & -> & _).
    by rewrite IH, (Z_byte_Z a), (Z_byte_Z b), (Z_byte_Z c) by done.
Qed.

(** The characters of an encoded text. *)
Fixpoint all_chars (p : ascii -> bool) (s : string) : bool :=
  match s with EmptyString => true | String c s => p c && all_chars p s end.
Definition encoded_char (c : ascii) : bool := negb (skipped c) && negb (Ascii.eqb c "&") && negb (Ascii.eqb c ";").
Lemma digit_encoded n : (0 <= n < 64)%Z -> encoded_char (digit n) = true.
Proof. intros (_ & _ & Hs & Ha & Hc)%digit_spec. unfold encoded_char. by rewrite Hs, Ha, Hc. Qed.
Lemma encode_chars l : all_chars encoded_char (EncodeToString l) = true.
Proof.
  induction l as [|a|a b|a b c l IH] using list_ind3; [done|..]; cbn [EncodeToString all_chars];
    pose proof (byte_Z_range a) as Ha.
  - pose proof (digits_range (byte_Z a) 0 0 Ha ltac:(lia) ltac:(lia)) as (R1 & R2 & _).
    rewrite Z.div_0_l, Z.add_0_r in R2 by done. by rewrite !digit_encoded.
  - pose proof (byte_Z_range b) as Hb.
    pose proof (digits_range (byte_Z a) (byte_Z b) 0 Ha Hb ltac:(lia)) as (R1 & R2 & R3 & _).
    rewrite Z.div_0_l, Z.add_0_r in R3 by done. by rewrite !digit_encoded.
  - pose proof (digits_range _ _ _ Ha (byte_Z_range b) (byte_Z_range c)) as (R1 & R2 & R3 & R4).
    by rewrite !digit_encoded, IH.
Qed.

Lemma without_newlines_id s : all_chars encoded_char s = true -> without_newlines s = s.
Proof.
  induction s as [|c s IH]; [done|]. cbn [all_chars without_newlines]. intros [Hc Hs]%andb_true_iff.
  unfold encoded_char in Hc. bool_prop. by rewrite H, IH.
Qed.
Lemma DecodeString_Encode l : DecodeString (EncodeToString l) = Some l.
Proof. unfold DecodeString. by rewrite without_newlines_id, decode_encode by apply encode_chars. Qed.


(** Cutting a text at its only separator. *)
#[local] Arguments String.append !_ _ /.
Definition no_char (sep c : ascii) : bool := negb (Ascii.eqb c sep).
Lemma Cut_at sep a b : all_chars (no_char sep) a = true -> Cut sep (a +:+ String sep b) = (a, b, true).
Proof.
  induction a as [|c a IH]; cbn [Cut String.append all_chars]; [by rewrite Ascii.eqb_refl|].
  intros [Hc%negb_true_iff Ha]%andb_true_iff.
  by rewrite Hc, IH.
Qed.
Lemma Cut_none sep a : all_chars (no_char sep) a = true -> Cut sep a = (a, ""%string, false).
Proof.
  induction a as [|c a IH]; cbn; [done|]. intros [Hc%negb_true_iff Ha]%andb_true_iff. by rewrite Hc, IH.
Qed.
Lemma Contains_none sep a : all_chars (no_char sep) a = true -> Contains sep a = false.
Proof.
  induction a as [|c a IH]; cbn; [done|]. intros [Hc%negb_true_iff Ha]%andb_true_iff. by rewrite Hc, IH.
Qed.
Lemma all_chars_impl (p q : ascii -> bool) s :
  (forall c, p c = true -> q c = true) -> all_chars p s = true -> all_chars q s = true.
Proof. intros Hpq. induction s as [|c s IH]; cbn; [done|]. intros [Hc Hs]%andb_true_iff. by rewrite Hpq, IH. Qed.
Lemma encode_no_char sep l : sep = "&"%char \/ sep = ";"%char -> all_chars (no_char sep) (EncodeToString l) = true.
Proof.
  intros Hsep. eapply all_chars_impl; [|apply encode_chars]. intros c Hc. unfold encoded_char in Hc. bool_prop.
  unfold no_char. by destruct Hsep as [-> | ->]; apply negb_true_iff.
Qed.

(** The query that is written for the tags. *)
Fixpoint query_text (etags : list (list byte)) : string :=
  match etags with
  | [] => ""
  | [etag] => "etag=" +:+ EncodeToString etag
  | etag :: etags => "etag=" +:+ EncodeToString etag +:+ "&" +:+ query_text etags
  end%string.
Lemma etags_text_query first e etags :
  etags_text first (e :: etags) = ((if first then "?" else "&") +:+ query_text (e :: etags))%string.
Proof.
  revert first e. induction etags as [|e2 etags IH]; intros first e.
  - cbn [etags_text query_text]. f_equal. f_equal. by rewrite append_nil_r.
  - change (etags_text first (e :: e2 :: etags)) with
      ((if first then "?" else "&") +:+ "etag=" +:+ EncodeToString e +:+ etags_text false (e2 :: etags))%string.
    by rewrite IH.
Qed.

(** One turn of the loop on a pair of the query. *)
Lemma parseQuery_turn fuel m e rest found :
  parseQuery_go (S fuel) m ("etag=" +:+ EncodeToString e +:+ (if found : bool then String "&" rest else "")) false
  = parseQuery_go fuel (<["etag" := default [] (m !! "etag") ++ [EncodeToString e]]> m)
      (if found then rest else "") false.
Proof.
  set (k := ("etag=" +:+ EncodeToString e)%string).
  assert (Hk : forall p, all_chars p k = all_chars p "etag=" && all_chars p (EncodeToString e)).
  { intros p. unfold k. cbn. by rewrite <- !andb_assoc. }
  assert (Hamp : all_chars (no_char "&") k = true) by (rewrite Hk; apply andb_true_intro; split; [done|apply encode_no_char; auto]).
  assert (Hsemi : all_chars (no_char ";") k = true) by (rewrite Hk; apply andb_true_intro; split; [done|apply encode_no_char; auto]).
  assert (Hcut : Cut "&" ("etag=" +:+ EncodeToString e +:+ (if found then String "&" rest else "")) =
    (k, if found then rest else "", found)).
  { rewrite <- (append_assoc "etag="). fold k. destruct found; [by apply Cut_at|].
    rewrite append_nil_r. by apply Cut_none. }
  cbn [parseQuery_go]. rewrite Hcut, (Contains_none _ _ Hsemi). reflexivity.
Qed.

Lemma parseQuery_query etags : forall fuel m, String.length (query_text etags) <= fuel ->
  exists m', parseQuery_go fuel m (query_text etags) false = (m', false) /\
    default [] (m' !! "etag") = default [] (m !! "etag") ++ map EncodeToString etags.
Proof.
  induction etags as [|e etags IH]; intros fuel m Hf.
  { exists m. split; [by destruct fuel|]. by rewrite app_nil_r. }
  destruct fuel as [|fuel]; [exfalso; destruct etags; cbn in Hf; lia|].
  set (m1 := <["etag" := default [] (m !! "etag") ++ [EncodeToString e]]> m).
  assert (Hm1 : default [] (m1 !! "etag") = default [] (m !! "etag") ++ [EncodeToString e]).
  { unfold m1. by rewrite lookup_insert_eq. }
  destruct etags as [|e2 etags].
  - exists m1. split; [|done]. pose proof (parseQuery_turn fuel m e "" false) as Ht.
    cbn [query_text]. rewrite append_nil_r in Ht. rewrite Ht. by destruct fuel.
  - pose proof (parseQuery_turn fuel m e (query_text (e2 :: etags)) true) as Ht.
    change (query_text (e :: e2 :: etags))
      with ("etag=" +:+ EncodeToString e +:+ String "&" (query_text (e2 :: etags)))%string in *.
    rewrite Ht. destruct (IH fuel m1) as (m' & Hp & Hm').
    { rewrite !length_append in Hf. cbn [String.length] in Hf. lia. }
    exists m'. split; [exact Hp|]. by rewrite Hm', Hm1, <- app_assoc.
Qed.

Lemma strip_slash c s : Ascii.eqb c "/" = false ->
  match String c s with String "/"%char v' => v' | _ => String c s end = String c s.
Proof. by destruct c as [[] [] [] [] [] [] [] []]. Qed.
Lemma from_string_cut device tail :
  device <> ""%string -> all_chars (no_char "/") device = true ->
  resourceIdFilterFromString (device +:+ String "/" tail) =
  match Cut "?" tail with
  | (_, _, false) => Some (MkResourceIdFilter (Some (MkResourceId device ("/" +:+ tail))) [])
  | (href, query, true) =>
      let '(values, err) := parseQuery ∅ query in
      if err then Some (MkResourceIdFilter (Some (MkResourceId device ("/" +:+ href))) [])
      else Some (MkResourceIdFilter (Some (MkResourceId device ("/" +:+ href)))
                   (omap DecodeString (default [] (values !! etagQueryKey))))
  end.
Proof.
  intros Hne Hd. pose proof (Cut_at "/" device tail Hd) as Hc. destruct device as [|c d]; [done|].
  cbn [all_chars] in Hd. apply andb_true_iff in Hd as [Hs%negb_true_iff _].
  change (String c d +:+ String "/" tail)%string with (String c (d +:+ String "/" tail)) in *.
  unfold resourceIdFilterFromString. cbn [String.eqb]. by rewrite strip_slash, Hc.
Qed.
Lemma omap_decode etags : omap DecodeString (map EncodeToString etags) = etags.
Proof. induction etags as [|e etags IH]; cbn; [done|]. by rewrite DecodeString_Encode, IH. Qed.

(** C34: What ToString writes for a filter of a resource ("device/href?etag=...") is
    read back: the device, the href and every entity tag, whatever its bytes. *)
Theorem ResourceIdFilter_roundtrip device rest etags :
  device <> ""%string -> all_chars (no_char "/") device = true -> all_chars (no_char "?") rest = true ->
  let f := MkResourceIdFilter (Some (MkResourceId device ("/" +:+ rest))) etags in
  resourceIdFilterFromString (ResourceIdFilter_ToString (Some f)) = Some f.
Proof.
  intros Hne Hd Hr f.
  change (ResourceIdFilter_ToString (Some f)) with (device +:+ ("/" +:+ rest) +:+ etags_text true etags)%string.
  change (("/" +:+ rest) +:+ etags_text true etags)%string with (String "/" (rest +:+ etags_text true etags)).
  rewrite from_string_cut by done. destruct etags as [|e etags].
  - cbn [etags_text]. by rewrite append_nil_r, Cut_none.
  - rewrite etags_text_query. change ("?" +:+ query_text (e :: etags))%string
      with (String "?" (query_text (e :: etags))). rewrite Cut_at by done. unfold parseQuery.
    destruct (parseQuery_query (e :: etags) _ ∅ (le_n _)) as (m' & -> & Hm).
    unfold etagQueryKey. rewrite Hm, lookup_empty. f_equal. f_equal. exact (omap_decode (e :: etags)).
Qed.
