(* ===== verification/DirectoryModels.v ===== *)
(** * The models of resource-directory

    resource-directory/service: resourceProjection.go, resourceLinksProjection.go,
    deviceMetadataProjection.go and NewEventStoreModelFactory of grpcApi.go: what
    the directory keeps of a resource, of the links and of the metadata of a
    device.  A slice that only is appended to and ranged over is a list. *)

From Stdlib Require Import ZArith Lia String.
From S2P Require Import Prelude Commands Events EventStore Handler Projection.
From S2P Require Import ResourceLinks DeviceMetadata Subscription.

(** kit's strings.Set is a Go map, and its literals and ranges are in the code;
    its methods are not. *)
Abbreviation Set_ := (gset string).
Class KitSet := {
  Set_HasOneOf : Set_ -> list string -> bool;
  Set_Add : Set_ -> list string -> Set_ }.
Class KitSetLaws `{!KitSet} := {
  Set_HasOneOf_spec : forall s l, Set_HasOneOf s l = true <-> exists x, x ∈ l /\ x ∈ s;
  Set_Add_spec : forall s l x, x ∈ Set_Add s l <-> x ∈ s \/ x ∈ l }.

(** hasMatchingType (projection.go) *)
Definition hasMatchingType `{!KitSet} (resourceTypes : list string) (typeFilter : Set_) : bool :=
  if (size typeFilter =? 0)%nat then true
  else if (length resourceTypes =? 0)%nat then false
  else Set_HasOneOf typeFilter resourceTypes.

(** ** resourceProjection.go *)
Record resourceProjection := MkResourceProjection {
  rp_resourceID : option ResourceId; rp_content : option ResourceChanged; rp_version : Z;
  rp_onResourceChangedVersion : Z; rp_resourceTypes : list string;
  rp_resourceUpdatePendings : list ResourceUpdatePending;
  rp_resourceRetrievePendings : list ResourceRetrievePending;
  rp_resourceDeletePendings : list ResourceDeletePending;
  rp_resourceCreatePendings : list ResourceCreatePending }.

Definition NewResourceProjection : resourceProjection :=
  MkResourceProjection None None 0 0 [] [] [] [] [].

(** Setters; [rp_set] writes what all handlers of a pending command write. *)
Definition rp_set_version (v : Z) (rp : resourceProjection) : resourceProjection :=
  MkResourceProjection (rp_resourceID rp) (rp_content rp) v (rp_onResourceChangedVersion rp)
    (rp_resourceTypes rp) (rp_resourceUpdatePendings rp) (rp_resourceRetrievePendings rp)
    (rp_resourceDeletePendings rp) (rp_resourceCreatePendings rp).
Definition setResourceTypesLocked (resourceTypes : list string) (rp : resourceProjection) : resourceProjection :=
  if (length resourceTypes =? 0)%nat then rp
  else MkResourceProjection (rp_resourceID rp) (rp_content rp) (rp_version rp)
         (rp_onResourceChangedVersion rp) resourceTypes (rp_resourceUpdatePendings rp)
         (rp_resourceRetrievePendings rp) (rp_resourceDeletePendings rp) (rp_resourceCreatePendings rp).
Definition rp_set (id : option ResourceId) u r d c (rp : resourceProjection) : resourceProjection :=
  MkResourceProjection id (rp_content rp) (rp_version rp) (rp_onResourceChangedVersion rp)
    (rp_resourceTypes rp) u r d c.

Definition rp_set_id (id : option ResourceId) (rp : resourceProjection) : resourceProjection :=
  rp_set id (rp_resourceUpdatePendings rp) (rp_resourceRetrievePendings rp)
    (rp_resourceDeletePendings rp) (rp_resourceCreatePendings rp) rp.
Definition rp_set_Update u (rp : resourceProjection) : resourceProjection :=
  rp_set (rp_resourceID rp) u (rp_resourceRetrievePendings rp) (rp_resourceDeletePendings rp)
    (rp_resourceCreatePendings rp) rp.
Definition rp_set_Retrieve r (rp : resourceProjection) : resourceProjection :=
  rp_set (rp_resourceID rp) (rp_resourceUpdatePendings rp) r (rp_resourceDeletePendings rp)
    (rp_resourceCreatePendings rp) rp.
Definition rp_set_Delete d (rp : resourceProjection) : resourceProjection :=
  rp_set (rp_resourceID rp) (rp_resourceUpdatePendings rp) (rp_resourceRetrievePendings rp) d
    (rp_resourceCreatePendings rp) rp.
Definition rp_set_Create c (rp : resourceProjection) : resourceProjection :=
  rp_set (rp_resourceID rp) (rp_resourceUpdatePendings rp) (rp_resourceRetrievePendings rp)
    (rp_resourceDeletePendings rp) c rp.

(** The loop over the commands that wait: those with the identifier are dropped;
    the list stays as it is when there is none. *)
Fixpoint without {T} `{!PendingEvent T} (correlationID : string) (pendings : list T) : list T * bool :=
  match pendings with
  | [] => ([], false)
  | cu :: pendings =>
      let '(tmp, found) := without correlationID pendings in
      if negb (String.eqb (pe_CorrelationId cu) correlationID) then (cu :: tmp, found) else (tmp, true)
  end.
Definition confirmed {T} `{!PendingEvent T} (correlationID : string) (pendings : list T) : list T :=
  let '(tmp, found) := without correlationID pendings in if found then tmp else pendings.

Definition handleResourceStateSnapshotTaken (version : Z) (rp : resourceProjection)
    (s : ResourceStateSnapshotTaken) : resourceProjection :=
  MkResourceProjection (rss_ResourceId s) (rss_LatestResourceChange s) (rp_version rp) version
    (rss_ResourceTypes s) (elems (rss_ResourceUpdatePendings s)) (elems (rss_ResourceRetrievePendings s))
    (elems (rss_ResourceDeletePendings s)) (elems (rss_ResourceCreatePendings s)).

Definition handleResourceChanged (version : Z) (rp : resourceProjection) (s : ResourceChanged)
    : resourceProjection :=
  let rp := setResourceTypesLocked (rc_ResourceTypes s) (rp_set_id (rc_ResourceId s) rp) in
  MkResourceProjection (rp_resourceID rp) (Some s) (rp_version rp) version (rp_resourceTypes rp)
    (rp_resourceUpdatePendings rp) (rp_resourceRetrievePendings rp) (rp_resourceDeletePendings rp)
    (rp_resourceCreatePendings rp).

Definition handleResourceUpdatePending (rp : resourceProjection) (s : ResourceUpdatePending) : resourceProjection :=
  let rp := setResourceTypesLocked (rup_ResourceTypes s) rp in
  rp_set_id (rup_ResourceId s) (rp_set_Update (rp_resourceUpdatePendings rp ++ [s]) rp).
Definition handleResourceUpdated (rp : resourceProjection) (s : ResourceUpdated) : resourceProjection :=
  let rp := rp_set_id (ru_ResourceId s) (setResourceTypesLocked (ru_ResourceTypes s) rp) in
  rp_set_Update (confirmed ((ru_AuditContext s) ~> ac_CorrelationId) (rp_resourceUpdatePendings rp)) rp.
Definition handleResourceRetrievePending (rp : resourceProjection) (s : ResourceRetrievePending) : resourceProjection :=
  let rp := rp_set_id (rrp_ResourceId s) (setResourceTypesLocked (rrp_ResourceTypes s) rp) in
  rp_set_Retrieve (rp_resourceRetrievePendings rp ++ [s]) rp.
Definition handleResourceDeletePending (rp : resourceProjection) (s : ResourceDeletePending) : resourceProjection :=
  let rp := rp_set_id (rdp_ResourceId s) (setResourceTypesLocked (rdp_ResourceTypes s) rp) in
  rp_set_Delete (rp_resourceDeletePendings rp ++ [s]) rp.
Definition handleResourceRetrieved (rp : resourceProjection) (s : ResourceRetrieved) : resourceProjection :=
  let rp := rp_set_id (rr_ResourceId s) (setResourceTypesLocked (rr_ResourceTypes s) rp) in
  rp_set_Retrieve (confirmed ((rr_AuditContext s) ~> ac_CorrelationId) (rp_resourceRetrievePendings rp)) rp.
Definition handleResourceDeleted (rp : resourceProjection) (s : ResourceDeleted) : resourceProjection :=
  let rp := rp_set_id (rd_ResourceId s) (setResourceTypesLocked (rd_ResourceTypes s) rp) in
  rp_set_Delete (confirmed ((rd_AuditContext s) ~> ac_CorrelationId) (rp_resourceDeletePendings rp)) rp.
Definition handleResourceCreatePending (rp : resourceProjection) (s : ResourceCreatePending) : resourceProjection :=
  let rp := setResourceTypesLocked (rcp_ResourceTypes s) rp in
  rp_set_id (rcp_ResourceId s) (rp_set_Create (rp_resourceCreatePendings rp ++ [s]) rp).
Definition handleResourceCreated (rp : resourceProjection) (s : ResourceCreated) : resourceProjection :=
  let rp := rp_set_id (rcd_ResourceId s) (setResourceTypesLocked (rcd_ResourceTypes s) rp) in
  rp_set_Create (confirmed ((rcd_AuditContext s) ~> ac_CorrelationId) (rp_resourceCreatePendings rp)) rp.

(** A case of a switch on the type of an event: what Unmarshal reports is returned. *)
Definition decoded {S D T} `{!Unmarshaler D T} (s : S) (eu : LoadedEvent D) (handle : T -> S)
    : S * option error :=
  match Unmarshal (le_data eu) with
  | inl err => (s, Some err)
  | inr e => (handle e, None)
  end.

Section models.
Context `{!UUIDLib} {D : Type}
  `{!Unmarshaler D ResourceStateSnapshotTaken} `{!Unmarshaler D ResourceUpdatePending}
  `{!Unmarshaler D ResourceUpdated} `{!Unmarshaler D ResourceCreatePending}
  `{!Unmarshaler D ResourceCreated} `{!Unmarshaler D ResourceChanged}
  `{!Unmarshaler D ResourceDeleted} `{!Unmarshaler D ResourceDeletePending}
  `{!Unmarshaler D ResourceRetrieved} `{!Unmarshaler D ResourceRetrievePending}
  `{!Unmarshaler D ResourceLinksSnapshotTaken} `{!Unmarshaler D ResourceLinksPublished}
  `{!Unmarshaler D ResourceLinksUnpublished} `{!Unmarshaler D DeviceMetadataSnapshotTaken}
  `{!Unmarshaler D DeviceMetadataUpdated} `{!Unmarshaler D DeviceMetadataUpdatePending}.

(** The body of the loop of resourceProjection.Handle, and what follows the loop. *)
Definition rp_step (rp : resourceProjection) (eu : LoadedEvent D) : resourceProjection * option error :=
  let rp := rp_set_version (le_version eu) rp in
  let ty := le_eventType eu in
  if String.eqb ty "resourcestatesnapshottaken" then
    decoded rp eu (handleResourceStateSnapshotTaken (le_version eu) rp)
  else if String.eqb ty "resourcechanged" then decoded rp eu (handleResourceChanged (le_version eu) rp)
  else if String.eqb ty "resourceupdatepending" then decoded rp eu (handleResourceUpdatePending rp)
  else if String.eqb ty "resourceupdated" then decoded rp eu (handleResourceUpdated rp)
  else if String.eqb ty "resourceretrievepending" then decoded rp eu (handleResourceRetrievePending rp)
  else if String.eqb ty "resourceretrieved" then decoded rp eu (handleResourceRetrieved rp)
  else if String.eqb ty "resourcedeletepending" then decoded rp eu (handleResourceDeletePending rp)
  else if String.eqb ty "resourcedeleted" then decoded rp eu (handleResourceDeleted rp)
  else if String.eqb ty "resourcecreatepending" then decoded rp eu (handleResourceCreatePending rp)
  else if String.eqb ty "resourcecreated" then decoded rp eu (handleResourceCreated rp)
  else (rp, None).
Definition rp_end (rp : resourceProjection) : option error :=
  match rp_resourceID rp with
  | None => Some (errors_New "invalid resource is stored in eventstore: Resource attribute is not set")
  | Some _ => None
  end.

(** ** resourceLinksProjection.go *)
Context (order : gmap string Resource -> list string).

Record resourceLinksProjection := MkResourceLinksProjection {
  lp_deviceID : string; lp_snapshot : option ResourceLinksSnapshotTaken }.

(** The metadata of a snapshot is cloned and its version written; a snapshot
    without metadata is not stored ([ResourceLinksSnapshotTaken_CheckInitialized]). *)
Definition with_version (em : option EventMetadata) (v : Z) : option EventMetadata :=
  Some (MkEventMetadata v (em ~> em_Timestamp) (em ~> em_ConnectionId) (em ~> em_Sequence) (em ~> em_HubId)).

Definition lp_step (rlp : resourceLinksProjection) (eu : LoadedEvent D)
    : resourceLinksProjection * option error :=
  let s := default NewResourceLinksSnapshotTaken (lp_snapshot rlp) in
  let s := set_rls (rls_DeviceId s) (rls_Resources s) (with_version (rls_EventMetadata s) (le_version eu))
             (rls_AuditContext s) in
  let at_ s := MkResourceLinksProjection (lp_deviceID rlp) (Some s) in
  let ty := le_eventType eu in
  if String.eqb ty "resourcelinkssnapshottaken" then decoded (at_ s) eu at_
  else if String.eqb ty "resourcelinkspublished" then
    decoded (at_ s) eu (fun e => at_ (HandleEventResourceLinksPublished s e).1)
  else if String.eqb ty "resourcelinksunpublished" then
    decoded (at_ s) eu (fun e => at_ (HandleEventResourceLinksUnpublished order s [] e).1)
  else (at_ s, None).

(** The links, none when there is no snapshot or no map. *)
Definition lp_resources (rlp : resourceLinksProjection) : gmap string Resource :=
  default ∅ ((lp_snapshot rlp) ~> rls_Resources).
Definition LenResources (rlp : resourceLinksProjection) : nat := size (lp_resources rlp).
Definition GetResource (rlp : resourceLinksProjection) (href : string) : option Resource :=
  lp_resources rlp !! href.

Definition ToResourceLinksPublished `{!KitSet} (rlp : resourceLinksProjection) (typeFilter : Set_)
    : option ResourceLinksPublished :=
  let resources := omap (fun href =>
    match lp_resources rlp !! href with
    | Some r => if hasMatchingType (res_ResourceTypes r) typeFilter then Some r else None
    | None => None
    end) (order (lp_resources rlp)) in
  if (length resources =? 0)%nat then None
  else Some (MkResourceLinksPublished (lp_deviceID rlp) (Some resources)
               ((lp_snapshot rlp) ~> rls_AuditContext) ((lp_snapshot rlp) ~> rls_EventMetadata) []).

(** ** deviceMetadataProjection.go *)
Record deviceMetadataProjection := MkDeviceMetadataProjection {
  mp_deviceID : string; mp_snapshot : option DeviceMetadataSnapshotTaken }.

Definition set_dms_DeviceId (id : string) (s : DeviceMetadataSnapshotTaken) : DeviceMetadataSnapshotTaken :=
  set_dms id (dms_DeviceMetadataUpdated s) (dms_UpdatePendings s) (dms_EventMetadata s).

(** What the handlers of the snapshot report is dropped; [now] is the clock they read. *)
Definition mp_step (now : time_) (p : deviceMetadataProjection) (eu : LoadedEvent D)
    : deviceMetadataProjection * option error :=
  let s := match mp_snapshot p with
           | Some s => s
           | None => set_dms (le_groupID eu) None None (Some (MakeEventMeta now "" 0 (le_version eu) "hubID"))
           end in
  let s := set_dms (dms_DeviceId s) (dms_DeviceMetadataUpdated s) (dms_UpdatePendings s)
             (with_version (dms_EventMetadata s) (le_version eu)) in
  let at_ s := MkDeviceMetadataProjection (mp_deviceID p) (Some s) in
  let ty := le_eventType eu in
  if String.eqb ty "devicemetadatasnapshottaken" then decoded (at_ s) eu at_
  else if String.eqb ty "devicemetadataupdatepending" then
    decoded (at_ s) eu (fun e =>
      match HandleDeviceMetadataUpdatePending now s e with
      | (s, Some _) => at_ s
      | (s, None) => at_ (set_dms_DeviceId (dmp_DeviceId e) s)
      end)
  else if String.eqb ty "devicemetadataupdated" then
    decoded (at_ s) eu (fun e =>
      at_ (HandleDeviceMetadataUpdated (set_dms_DeviceId (dmu_DeviceId e) s) e false).1)
  else (at_ s, None).

Definition GetDeviceMetadataUpdated (p : deviceMetadataProjection) : option DeviceMetadataUpdated :=
  (mp_snapshot p) ~> dms_DeviceMetadataUpdated.
Definition GetDeviceUpdatePendings (p : deviceMetadataProjection) (now : time_)
    : list DeviceMetadataUpdatePending :=
  List.filter (fun pendingCmd => negb (pe_IsExpired now pendingCmd))
    (elems ((mp_snapshot p) ~> dms_UpdatePendings)).
Definition IsInitialized (p : deviceMetadataProjection) : bool := bool_decide (mp_snapshot p <> None).

(** ** The models of a projection *)
Inductive dirModel :=
  | RP (rp : resourceProjection)
  | RLP (rlp : resourceLinksProjection)
  | DMP (dmp : deviceMetadataProjection).

(** The method EventType of the models. *)
Definition model_EventType (m : dirModel) : string :=
  match m with
  | RP _ => "resourcestatesnapshottaken"
  | RLP _ => "resourcelinkssnapshottaken"
  | DMP _ => "devicemetadatasnapshottaken"
  end.

(** Their Handle does not ask the iterator for its error. *)
Definition dirModel_Model (now : time_) : Model dirModel D := {|
  model_begin m := m;
  model_step m eu :=
    match m with
    | RP rp => let '(rp, err) := rp_step rp eu in (RP rp, err)
    | RLP rlp => let '(rlp, err) := lp_step rlp eu in (RLP rlp, err)
    | DMP dmp => let '(dmp, err) := mp_step now dmp eu in (DMP dmp, err)
    end;
  model_end m _ := match m with RP rp => rp_end rp | _ => None end |}.

(** NewEventStoreModelFactory *)
Definition dirFactory (deviceID resourceID : string) : result dirModel :=
  inr (if String.eqb resourceID (MakeLinksResourceUUID deviceID)
       then RLP (MkResourceLinksProjection deviceID None)
       else if String.eqb resourceID (MakeStatusResourceUUID deviceID)
       then DMP (MkDeviceMetadataProjection deviceID None)
       else RP NewResourceProjection).
End models.

(** ** Pending commands *)
Inductive pb_PendingCommand :=
  | PendingCommand_ResourceCreatePending (p : ResourceCreatePending)
  | PendingCommand_ResourceRetrievePending (p : ResourceRetrievePending)
  | PendingCommand_ResourceUpdatePending (p : ResourceUpdatePending)
  | PendingCommand_ResourceDeletePending (p : ResourceDeletePending)
  | PendingCommand_DeviceMetadataUpdatePending (p : DeviceMetadataUpdatePending).

Definition appendPendingCmd {T} `{!PendingEvent T} (pendingCmds : list pb_PendingCommand)
    (commandFilter bit : FilterBitmask) (now : time_) (create : T -> pb_PendingCommand) (data : list T)
    : list pb_PendingCommand :=
  if IsFilteredBit commandFilter bit
  then fold_left (fun pendingCmds pendingCmd =>
         if pe_IsExpired now pendingCmd then pendingCmds else pendingCmds ++ [create pendingCmd])
       data pendingCmds
  else pendingCmds.

Definition ToPendingCommands (rp : resourceProjection) (commandFilter : FilterBitmask) (now : time_)
    : list pb_PendingCommand :=
  let cmds := appendPendingCmd [] commandFilter FilterBitmaskResourceCreatePending now
                PendingCommand_ResourceCreatePending (rp_resourceCreatePendings rp) in
  let cmds := appendPendingCmd cmds commandFilter FilterBitmaskResourceRetrievePending now
                PendingCommand_ResourceRetrievePending (rp_resourceRetrievePendings rp) in
  let cmds := appendPendingCmd cmds commandFilter FilterBitmaskResourceUpdatePending now
                PendingCommand_ResourceUpdatePending (rp_resourceUpdatePendings rp) in
  appendPendingCmd cmds commandFilter FilterBitmaskResourceDeletePending now
    PendingCommand_ResourceDeletePending (rp_resourceDeletePendings rp).
