(* ===== verification/DirectoryModelsFacts.v ===== *)
(** * The models of resource-directory and the aggregates

    The directory reads the events that the aggregates of resource-aggregate
    have written: its models hold what the aggregates hold, but for the
    commands of a deleted resource. *)

From Stdlib Require Import ZArith Lia String.
From S2P Require Import Prelude Commands Events EventStore Handler Pendings Projection ProjectionFacts.
From S2P Require Import ResourceState ResourceStateFacts ResourceLinks DeviceMetadata Subscription DirectoryModels.

(** ** Commands that are dropped *)
Section pendings.
Context {T : Type} `{!PendingEvent T}.
Implicit Types (l : list T).

Lemma filter_everything (Q : T -> Prop) `{!forall x, Decision (Q x)} l : (forall x, x ∈ l -> Q x) -> filter Q l = l.
Proof.
  induction l as [|x l IH]; intros Hq; [done|]. rewrite filter_cons, decide_True by (apply Hq; by left).
  f_equal. apply IH. intros y Hy. apply Hq. by right.
Qed.

Lemma without_spec c l :
  (without c l).1 = filter (fun p => pe_CorrelationId p <> c) l /\
  ((without c l).2 = false -> filter (fun p => pe_CorrelationId p <> c) l = l).
Proof.
  induction l as [|p l [IH1 IH2]]; cbn [without]; [done|].
  destruct (without c l) as [tmp found]. cbn [fst snd] in *. subst tmp.
  destruct (String.eqb_spec (pe_CorrelationId p) c) as [Heq|Hne]; cbn [negb fst snd].
  - by rewrite filter_cons, decide_False by naive_solver.
  - rewrite filter_cons, decide_True by done. split; [done|]. intros Hf. by rewrite IH2.
Qed.

Lemma confirmed_filter c l : confirmed c l = filter (fun p => pe_CorrelationId p <> c) l.
Proof.
  unfold confirmed. destruct (without_spec c l) as [H1 H2]. destruct (without c l) as [tmp []]; cbn in *; [done|].
  by rewrite H2.
Qed.

Lemma confirmed_delete c l i :
  NoDup (pe_CorrelationId <$> l) -> findResourceOperationPendingIndex c l = Some i ->
  confirmed c l = delete i l.
Proof.
  rewrite confirmed_filter. revert i. induction l as [|p l IH]; intros i Hnd; simpl; [done|].
  rewrite fmap_cons, NoDup_cons in Hnd. destruct Hnd as [Hni Hnd].
  destruct (String.eqb_spec (pe_CorrelationId p) c) as [Heq|Hne].
  - intros [= <-]. rewrite filter_cons, decide_False by naive_solver. cbn.
    apply filter_everything. intros q Hq Hc. apply Hni. apply list_elem_of_fmap. exists q. by rewrite Heq, Hc.
  - intros (j & Hj & ->)%fmap_Some. rewrite filter_cons, decide_True by done. cbn. f_equal. by apply IH.
Qed.

Lemma confirmed_unknown c l : c ∉ (pe_CorrelationId <$> l) -> confirmed c l = l.
Proof.
  intros Hc. rewrite confirmed_filter. apply filter_everything. intros q Hq <-. apply Hc. by apply list_elem_of_fmap_2.
Qed.
End pendings.

(** ** The state of a resource *)
#[local] Abbreviation State := ResourceStateSnapshotTaken.

Record agrees (e : State) (rp : resourceProjection) : Prop := {
  ag_id : rp_resourceID rp = rss_ResourceId e;
  ag_content : rp_content rp = rss_LatestResourceChange e;
  ag_types : rp_resourceTypes rp = rss_ResourceTypes e;
  ag_create : rp_resourceCreatePendings rp = elems (rss_ResourceCreatePendings e);
  ag_retrieve : rp_resourceRetrievePendings rp = elems (rss_ResourceRetrievePendings e);
  ag_update : rp_resourceUpdatePendings rp = elems (rss_ResourceUpdatePendings e);
  ag_delete : rp_resourceDeletePendings rp = elems (rss_ResourceDeletePendings e) }.

Definition ids {T} `{!PendingEvent T} (l : gslice T) : list string := pe_CorrelationId <$> elems l.
Record unique_ids (e : State) : Prop := {
  un_create : NoDup (ids (rss_ResourceCreatePendings e));
  un_retrieve : NoDup (ids (rss_ResourceRetrievePendings e));
  un_update : NoDup (ids (rss_ResourceUpdatePendings e));
  un_delete : NoDup (ids (rss_ResourceDeletePendings e)) }.

(** The events that the aggregate writes at the time [t] in the state [e], with
    the state after: a new command has an identifier that no waiting command of
    its kind has and is not expired, a confirmation finds its command.  A
    deletion that succeeds is left out: see [deleted_keeps_commands]. *)
Inductive emits (t : time_) (e : State) : AnyEvent -> State -> Prop :=
  | emits_changed c e' : handleEventResourceChanged e c = (e', true) -> emits t e (EvResourceChanged c) e'
  | emits_create p e' : handleEventResourceCreatePending t e p = (e', None) -> pe_IsExpired t p = false ->
      pe_CorrelationId p ∉ ids (rss_ResourceCreatePendings e) -> emits t e (EvResourceCreatePending p) e'
  | emits_retrieve p e' : handleEventResourceRetrievePending t e p = (e', None) -> pe_IsExpired t p = false ->
      pe_CorrelationId p ∉ ids (rss_ResourceRetrievePendings e) -> emits t e (EvResourceRetrievePending p) e'
  | emits_update p e' : handleEventResourceUpdatePending t e p = (e', None) -> pe_IsExpired t p = false ->
      pe_CorrelationId p ∉ ids (rss_ResourceUpdatePendings e) -> emits t e (EvResourceUpdatePending p) e'
  | emits_delete p e' : handleEventResourceDeletePending t e p = (e', None) -> pe_IsExpired t p = false ->
      pe_CorrelationId p ∉ ids (rss_ResourceDeletePendings e) -> emits t e (EvResourceDeletePending p) e'
  | emits_created c e' : handleEventResourceCreated e c = (e', None) -> emits t e (EvResourceCreated c) e'
  | emits_retrieved c e' : handleEventResourceRetrieved e c = (e', None) -> emits t e (EvResourceRetrieved c) e'
  | emits_updated c e' : handleEventResourceUpdated e c = (e', None) -> emits t e (EvResourceUpdated c) e'
  | emits_not_deleted c e' : handleEventResourceDeleted e c = (e', None) ->
      rd_Status c <> Status_OK -> rd_Status c <> Status_ACCEPTED -> emits t e (EvResourceDeleted c) e'
  | emits_snapshot v : emits t e (EvResourceStateSnapshotTaken (ResourceState.TakeSnapshot t e v))
                         (ResourceState.TakeSnapshot t e v).

Inductive emits_all : State -> list AnyEvent -> State -> Prop :=
  | emits_none e : emits_all e [] e
  | emits_more t e ev e1 evs e2 : emits t e ev e1 -> emits_all e1 evs e2 -> emits_all e (ev :: evs) e2.

Section follows.
Context `{!UUIDLib}.

(** A new command in both lists. *)
Lemma agrees_types e rp l : agrees e rp -> agrees (setResourceTypes e l) (setResourceTypesLocked l rp).
Proof. unfold setResourceTypes, setResourceTypesLocked. intros []. case_match; by split. Qed.
Lemma unique_types e l : unique_ids e -> unique_ids (setResourceTypes e l).
Proof. unfold setResourceTypes. case_match; [done|]. intros []. by split. Qed.
Lemma snoc_ids {T} `{!PendingEvent T} (l : gslice T) p : pe_CorrelationId p ∉ ids l -> NoDup (ids l) ->
  NoDup (pe_CorrelationId <$> elems l ++ [p]).
Proof.
  unfold ids. intros Hni Hnd. rewrite fmap_app, NoDup_app. split_and!; [done| |].
  - intros x Hx ->%list_elem_of_singleton. done.
  - apply NoDup_singleton.
Qed.
Lemma delete_ids {T} `{!PendingEvent T} (l : gslice T) i : NoDup (ids l) -> NoDup (pe_CorrelationId <$> delete i (elems l)).
Proof.
  unfold ids. intros Hnd. apply (sublist_NoDup _ _ Hnd). apply fmap_sublist, sublist_delete.
Qed.
Hint Resolve snoc_ids delete_ids : hub.

(** What each handler writes, compared field by field. *)
Ltac compare_fields :=
  unfold setResourceTypes, setResourceTypesLocked; cbn; destruct (_ =? 0)%nat; split; split; cbn;
  try done; try congruence; auto with hub.
Ltac new_command H H2 :=
  unfold processValidUntil in H; rewrite H2 in H; cbn in H; cases_hyp H; compare_fields.
Ltac confirmation H Hl :=
  cases_hyp H; compare_fields; rewrite Hl; by apply confirmed_delete.

Lemma emits_agrees t e ev e' rp :
  emits t e ev e' -> agrees e rp -> unique_ids e ->
  exists rp', rp_step rp (loaded ev) = (rp', None) /\ agrees e' rp' /\ unique_ids e'.
Proof.
  intros Hem [Hi Hc Ht Hcr Hre Hup Hde] [Ucr Ure Uup Ude]. destruct Hem as
    [c e' H1|p e' H1 H2 H3|p e' H1 H2 H3|p e' H1 H2 H3|p e' H1 H2 H3|c e' H1|c e' H1|c e' H1|c e' H1 H2 H3|v];
    (eexists; split; [reflexivity|]).
  - unfold handleEventResourceChanged in H1. cases_hyp H1. unfold handleResourceChanged. compare_fields.
  - unfold handleEventResourceCreatePending in H1. unfold handleResourceCreatePending. new_command H1 H2.
  - unfold handleEventResourceRetrievePending in H1. unfold handleResourceRetrievePending. new_command H1 H2.
  - unfold handleEventResourceUpdatePending in H1. unfold handleResourceUpdatePending. new_command H1 H2.
  - unfold handleEventResourceDeletePending in H1. unfold handleResourceDeletePending. new_command H1 H2.
  - unfold handleEventResourceCreated in H1. unfold handleResourceCreated. confirmation H1 Hcr.
  - unfold handleEventResourceRetrieved in H1. unfold handleResourceRetrieved. confirmation H1 Hre.
  - unfold handleEventResourceUpdated in H1. unfold handleResourceUpdated. confirmation H1 Hup.
  - unfold handleEventResourceDeleted, findResourceDeletePendingIndex in H1. unfold handleResourceDeleted.
    rewrite !bool_decide_false in H1 by done. cbn [orb] in H1. confirmation H1 Hde.
  - by split; [split|].
Qed.

Lemma emits_all_agrees order now e evs e' rp :
  emits_all e evs e' -> agrees e rp -> unique_ids e ->
  exists rp', replay (Model0 := dirModel_Model order now) (RP rp) (loaded <$> evs) = (RP rp', None) /\
    agrees e' rp' /\ unique_ids e'.
Proof.
  intros Hem. revert rp. induction Hem as [e|t e ev e1 evs e2 Hem _ IH]; intros rp Hag Hun; [by exists rp|].
  destruct (emits_agrees t e ev e1 rp Hem Hag Hun) as (rp1 & Hstep & Hag1 & Hun1).
  destruct (IH rp1 Hag1 Hun1) as (rp2 & Hr & ?). exists rp2. split; [|done].
  cbn [fmap list_fmap replay model_step dirModel_Model]. by rewrite Hstep.
Qed.

Lemma emits_all_app e a e1 b e2 : emits_all e a e1 -> emits_all e1 b e2 -> emits_all e (a ++ b) e2.
Proof. intros Ha Hb. induction Ha; [done|]. cbn. econstructor; [done|auto]. Qed.
Lemma emits_one t e ev e' : emits t e ev e' -> emits_all e [ev] e'.
Proof. intros He. econstructor; [done|constructor]. Qed.

(** *** The events of a command *)
Definition regular (t : time_) (e : State) (ev : AnyEvent) : Prop :=
  match ev with
  | EvResourceCreatePending p => pe_IsExpired t p = false /\ pe_CorrelationId p ∉ ids (rss_ResourceCreatePendings e)
  | EvResourceRetrievePending p => pe_IsExpired t p = false /\ pe_CorrelationId p ∉ ids (rss_ResourceRetrievePendings e)
  | EvResourceUpdatePending p => pe_IsExpired t p = false /\ pe_CorrelationId p ∉ ids (rss_ResourceUpdatePendings e)
  | EvResourceDeletePending p => pe_IsExpired t p = false /\ pe_CorrelationId p ∉ ids (rss_ResourceDeletePendings e)
  | EvResourceDeleted d => rd_Status d <> Status_OK /\ rd_Status d <> Status_ACCEPTED
  | _ => True
  end.

Context `{!StringSet} `{!ContentCodec} (cc : CommandContext).

Lemma finish_emits t e r ev e' evs :
  finish r ev = (e', inr evs) -> Forall (regular t e) evs ->
  (r = (e', None) -> regular t e ev -> emits t e ev e') -> emits_all e evs e'.
Proof.
  intros [Hr ->]%finish_inr Hreg Hem. apply (emits_one t), Hem; [exact Hr|exact (Forall_inv Hreg)].
Qed.

(** A cancellation is a confirmation whose status deletes nothing. *)
Lemma cancel_range_emits {T} `{!PendingEvent T} (pendings : State -> gslice T) confirm flt clk e v :
  (forall now e c v e' evs, confirm now e c v = (e', inr evs) -> emits_all e evs e') ->
  (forall now e c v e' err, confirm now e c v = (e', inl err) -> e' = e) ->
  emits_all e (cancel_range pendings confirm flt clk e v).2 (cancel_range pendings confirm flt clk e v).1.
Proof.
  intros Hok Herr. unfold cancel_range.
  enough (forall n i arr e events, exists new,
    (cancel_loop pendings confirm flt clk v n i arr e events).2 = events ++ new /\
    emits_all e new (cancel_loop pendings confirm flt clk v n i arr e events).1) as Hl.
  { destruct (Hl (length (elems (pendings e))) 0 (elems (pendings e)) e []) as (new & -> & Hem). exact Hem. }
  induction n as [|n IH]; intros i arr e1 events; cbn [cancel_loop].
  { exists []. split; [by rewrite app_nil_r|constructor]. }
  destruct (arr !! i) as [ev|]; [|exists []; split; [by rewrite app_nil_r|constructor]].
  destruct (filtered_out _ _); [apply IH|].
  destruct (confirm _ _ _ _) as [e2 [err|evs]] eqn:Hc.
  - apply Herr in Hc as ->. apply IH.
  - apply Hok in Hc. destruct (IH (S i) (array_after_confirm pendings e1 (pe_CorrelationId ev) arr) e2 (events ++ evs))
      as (new & -> & Hem).
    exists (evs ++ new). split; [by rewrite app_assoc|]. by eapply emits_all_app.
Qed.

Lemma finish_inl (e : State) r ev e' err :
  finish r ev = (e', inl err) -> (r.2 <> None -> r.1 = e) -> e' = e.
Proof. destruct r as [e1 [er|]]; cbn; [|done]. intros [= <- _] Hr. by apply Hr. Qed.

(** The four confirmations: the commands that are cancelled are confirmed with
    the status CANCELED. *)
Lemma confirmUpdate_emits now e req v e' evs :
  confirmResourceUpdateRequest cc now e req v = (e', inr evs) -> emits_all e evs e'.
Proof.
  unfold confirmResourceUpdateRequest. case_match; [|done]. intros [Hr ->]%finish_inr.
  by eapply (emits_one now), emits_updated.
Qed.
Lemma confirmCreate_emits now e req v e' evs :
  confirmResourceCreateRequest cc now e req v = (e', inr evs) -> emits_all e evs e'.
Proof.
  unfold confirmResourceCreateRequest. case_match; [|done]. intros [Hr ->]%finish_inr.
  by eapply (emits_one now), emits_created.
Qed.
Lemma confirmRetrieve_emits now e req v e' evs :
  confirmResourceRetrieveRequest cc now e req v = (e', inr evs) -> emits_all e evs e'.
Proof.
  unfold confirmResourceRetrieveRequest. case_match; [|done]. intros [Hr ->]%finish_inr.
  by eapply (emits_one now), emits_retrieved.
Qed.
Lemma confirmDelete_emits now e req v e' evs :
  confirmResourceDeleteRequest cc now e req v = (e', inr evs) ->
  cdr_Status req <> Status_OK -> cdr_Status req <> Status_ACCEPTED -> emits_all e evs e'.
Proof.
  unfold confirmResourceDeleteRequest. case_match; [|done]. intros [Hr ->]%finish_inr ? ?.
  by eapply (emits_one now), emits_not_deleted.
Qed.

(** A confirmation that fails changes nothing. *)
Ltac confirm_inl L :=
  case_match; [intros Hf; eapply finish_inl in Hf; [exact Hf|apply L]|by intros [= <- _]].
Lemma cancelCreate_emits clk e req v :
  emits_all e (cancelResourceCreatePendings cc clk e req v).2 (cancelResourceCreatePendings cc clk e req v).1.
Proof.
  apply cancel_range_emits; intros now e1 c w e2 r.
  - intros Hc. eapply confirmCreate_emits, Hc.
  - unfold confirmResourceCreateRequest. confirm_inl handleEventResourceCreated_err.
Qed.
Lemma cancelUpdate_emits clk e req v :
  emits_all e (cancelResourceUpdatePendings cc clk e req v).2 (cancelResourceUpdatePendings cc clk e req v).1.
Proof.
  apply cancel_range_emits; intros now e1 c w e2 r.
  - intros Hc. eapply confirmUpdate_emits, Hc.
  - unfold confirmResourceUpdateRequest. confirm_inl handleEventResourceUpdated_err.
Qed.
Lemma cancelRetrieve_emits clk e req v :
  emits_all e (cancelResourceRetrievePendings cc clk e req v).2 (cancelResourceRetrievePendings cc clk e req v).1.
Proof.
  apply cancel_range_emits; intros now e1 c w e2 r.
  - intros Hc. eapply confirmRetrieve_emits, Hc.
  - unfold confirmResourceRetrieveRequest. confirm_inl handleEventResourceRetrieved_err.
Qed.
Lemma cancelDelete_emits clk e req v :
  emits_all e (cancelResourceDeletePendings cc clk e req v).2 (cancelResourceDeletePendings cc clk e req v).1.
Proof.
  apply cancel_range_emits; intros now e1 c w e2 r.
  - intros Hc. by eapply confirmDelete_emits.
  - unfold confirmResourceDeleteRequest. confirm_inl handleEventResourceDeleted_err.
Qed.

Lemma CancelPendingCommandsRequest_emits clk e req v e' evs :
  CancelPendingCommandsRequest_ cc clk e req v = (e', inr evs) -> emits_all e evs e'.
Proof.
  unfold CancelPendingCommandsRequest_. case_match; [|done]. cbv zeta.
  pose proof (cancelCreate_emits clk e req v) as P1.
  destruct (cancelResourceCreatePendings cc clk e req v) as [e1 a1]. cbn [fst snd] in P1.
  match goal with |- context [cancelResourceUpdatePendings cc ?k e1 _ ?w] =>
    pose proof (cancelUpdate_emits k e1 req w) as P2 end.
  destruct (cancelResourceUpdatePendings _ _ _ _ _) as [e2 a2]. cbn [fst snd] in P2.
  match goal with |- context [cancelResourceRetrievePendings cc ?k e2 _ ?w] =>
    pose proof (cancelRetrieve_emits k e2 req w) as P3 end.
  destruct (cancelResourceRetrievePendings _ _ _ _ _) as [e3 a3]. cbn [fst snd] in P3.
  match goal with |- context [cancelResourceDeletePendings cc ?k e3 _ ?w] =>
    pose proof (cancelDelete_emits k e3 req w) as P4 end.
  destruct (cancelResourceDeletePendings _ _ _ _ _) as [e4 a4]. cbn [fst snd] in P4.
  case_match; [done|]. intros [= <- <-]. rewrite <- !app_assoc. by repeat (eapply emits_all_app; [eassumption|]).
Qed.

(** The events of a command that is accepted; [regular]: new commands are not
    expired when they are written and have new identifiers, and no deletion
    has succeeded. *)
Lemma HandleCommand_emits clk e cmd v e' evs :
  ResourceState.HandleCommand cc clk e cmd v = (e', inr evs) -> Forall (regular (clk 2) e) evs -> emits_all e evs e'.
Proof.
  unfold ResourceState.HandleCommand. case_match; [done|]. intros Hh Hreg. destruct cmd; try done;
    first [by eapply confirmUpdate_emits|by eapply confirmCreate_emits|by eapply confirmRetrieve_emits
          |by eapply CancelPendingCommandsRequest_emits|idtac].
  - revert Hh. unfold handleNotifyResourceChangedRequest. case_match; [|done].
    destruct (handleEventResourceChanged e _) as [e1 []] eqn:Hc; intros [= <- <-].
    + by eapply (emits_one (clk 2)), emits_changed.
    + unfold handleEventResourceChanged in Hc. case_match; injection Hc as <-; [done|constructor].
  - revert Hh. unfold handleUpdateResourceRequest. repeat case_match; try done. intros Hf.
    eapply finish_emits; [exact Hf|exact Hreg|]. intros Hr [? ?]. by eapply emits_update.
  - revert Hh. unfold handleRetrieveResourceRequest. repeat case_match; try done. intros Hf.
    eapply finish_emits; [exact Hf|exact Hreg|]. intros Hr [? ?]. by eapply emits_retrieve.
  - revert Hh. unfold handleDeleteResourceRequest. repeat case_match; try done. intros Hf.
    eapply finish_emits; [exact Hf|exact Hreg|]. intros Hr [? ?]. by eapply emits_delete.
  - revert Hh. unfold confirmResourceDeleteRequest. case_match; [|done]. intros Hf.
    eapply finish_emits; [exact Hf|exact Hreg|]. intros Hr [? ?]. by eapply emits_not_deleted.
  - revert Hh. unfold handleCreateResourceRequest. repeat case_match; try done. intros Hf.
    eapply finish_emits; [exact Hf|exact Hreg|]. intros Hr [? ?]. by eapply emits_create.
Qed.

(** C21: The directory follows the aggregate of a resource: when a command is accepted, its
    events lead the model of the directory to what the aggregate has (the latest change,
    the types, the commands that wait), provided new commands have identifiers that no
    waiting command has and are not expired, and no deletion succeeds. *)
Theorem command_followed order now clk e cmd v e' evs rp :
  ResourceState.HandleCommand cc clk e cmd v = (e', inr evs) -> Forall (regular (clk 2) e) evs ->
  agrees e rp -> unique_ids e ->
  exists rp', replay (Model0 := dirModel_Model order now) (RP rp) (loaded <$> evs) = (RP rp', None) /\
    agrees e' rp' /\ unique_ids e'.
Proof. intros Hh Hreg Hag Hun. eapply emits_all_agrees; [by eapply HandleCommand_emits|done..]. Qed.

(** A deletion that succeeds empties the lists of the aggregate, but in the
    directory only the deletion itself goes: the other commands that wait stay in the
    answers of the directory. *)
Theorem deleted_keeps_commands e rp d :
  agrees e rp -> rd_Status d = Status_OK \/ rd_Status d = Status_ACCEPTED ->
  let e' := (handleEventResourceDeleted e d).1 in let rp' := (rp_step rp (loaded (EvResourceDeleted d))).1 in
  elems (rss_ResourceCreatePendings e') = [] /\ elems (rss_ResourceRetrievePendings e') = [] /\
  elems (rss_ResourceUpdatePendings e') = [] /\ elems (rss_ResourceDeletePendings e') = [] /\
  rp_resourceCreatePendings rp' = elems (rss_ResourceCreatePendings e) /\
  rp_resourceRetrievePendings rp' = elems (rss_ResourceRetrievePendings e) /\
  rp_resourceUpdatePendings rp' = elems (rss_ResourceUpdatePendings e) /\
  rp_resourceDeletePendings rp'
  = filter (fun p => pe_CorrelationId p <> (rd_AuditContext d) ~> ac_CorrelationId) (elems (rss_ResourceDeletePendings e)).
Proof.
  intros [Hi Hc Ht Hcr Hre Hup Hde] Hst. unfold handleEventResourceDeleted, findResourceDeletePendingIndex.
  assert (Hb : bool_decide (rd_Status d = Status_OK) || bool_decide (rd_Status d = Status_ACCEPTED) = true).
  { destruct Hst as [-> | ->]; done. }
  rewrite Hb. cbn [fst snd]. rewrite <- confirmed_filter.
  unfold setResourceTypes. cbn. unfold handleResourceDeleted, setResourceTypesLocked. cbn.
  destruct (_ =? 0)%nat; cbn; by rewrite ?Hcr, ?Hre, ?Hup, ?Hde.
Qed.
End follows.

(** ** The links of a device *)
Section links.
Context `{!UUIDLib} {D : Type} (order : gmap string Resource -> list string).

Lemma links_store r l : default ∅ (store_links r l) = fold_left (fun m res => <[res_Href res := res]> m) l (default ∅ r).
Proof. unfold store_links. revert r. induction l as [|x l IH]; intros r; cbn; [done|]. by rewrite IH. Qed.

Lemma GetNewPublishedLinks_links e s pub :
  links e = links s -> elems (GetNewPublishedLinks e pub) = elems (GetNewPublishedLinks s pub).
Proof.
  assert (Hg : forall e, elems (GetNewPublishedLinks e pub) = filter (fun resPub =>
    match links e !! res_Href resPub with None => true | Some resSnap => negb (EqualResource resPub resSnap) end = true)
    (elems (rlp_Resources pub))).
  { intros e0. unfold GetNewPublishedLinks, links. destruct (rls_Resources e0) as [m|]; [done|]. cbn.
    symmetry. apply filter_everything. intros x _. by rewrite lookup_empty. }
  intros He. by rewrite !Hg, He.
Qed.

Lemma published_links e s pub : links e = links s ->
  links (HandleEventResourceLinksPublished e pub).1 = links (HandleEventResourceLinksPublished s pub).1.
Proof.
  intros He. unfold HandleEventResourceLinksPublished. cbn. unfold links in *. cbn [rls_Resources set_rls].
  rewrite !links_store, He. f_equal. by apply GetNewPublishedLinks_links.
Qed.
Lemma unpublished_links e s ids upub : links e = links s ->
  links (HandleEventResourceLinksUnpublished order e ids upub).1
  = links (HandleEventResourceLinksUnpublished order s ids upub).1.
Proof.
  intros He. unfold HandleEventResourceLinksUnpublished, unpublishResourceLinksAndUpdateCache. rewrite <- He.
  destruct (_ =? 0)%nat eqn:Hz; [exact He|]. destruct (_ && _); [done|].
  destruct (unpublish_hrefs _ _). destruct (length ids =? 0)%nat; [done|]. by destruct (unpublish_instances _ _ _).
Qed.

Context `{!Unmarshaler D ResourceStateSnapshotTaken, !Unmarshaler D ResourceUpdatePending,
  !Unmarshaler D ResourceUpdated, !Unmarshaler D ResourceCreatePending, !Unmarshaler D ResourceCreated,
  !Unmarshaler D ResourceChanged, !Unmarshaler D ResourceDeleted, !Unmarshaler D ResourceDeletePending,
  !Unmarshaler D ResourceRetrieved, !Unmarshaler D ResourceRetrievePending,
  !Unmarshaler D ResourceLinksSnapshotTaken, !Unmarshaler D ResourceLinksPublished,
  !Unmarshaler D ResourceLinksUnpublished, !Unmarshaler D DeviceMetadataSnapshotTaken,
  !Unmarshaler D DeviceMetadataUpdated, !Unmarshaler D DeviceMetadataUpdatePending}.
#[local] Abbreviation dir_replay now := (replay (Model0 := dirModel_Model (D := D) order now)).

Lemma lp_step_links t e eu e' rlp :
  ResourceLinks.handleByEvent order t e eu = (e', None) -> links e = lp_resources rlp ->
  exists rlp', lp_step order rlp eu = (rlp', None) /\ links e' = lp_resources rlp' /\
    lp_deviceID rlp' = lp_deviceID rlp.
Proof.
  intros Hh Hl. unfold ResourceLinks.handleByEvent, unmarshal_case, lp_step, decoded in *.
  set (s := default NewResourceLinksSnapshotTaken (lp_snapshot rlp)).
  set (s1 := set_rls _ _ _ _).
  assert (Hs : links e = links s1).
  { rewrite Hl. unfold lp_resources, links, s1, s. cbn. by destruct (lp_snapshot rlp). }
  repeat case_match; try done; injection Hh as <-; (eexists; split; [reflexivity|]; split; [|done]).
  - done.
  - change (links (HandleEventResourceLinksPublished e r).1 = links (HandleEventResourceLinksPublished s1 r).1).
    by apply published_links.
  - match goal with |- links (HandleEventResourceLinksUnpublished _ _ _ ?u).1 = _ =>
      change (links (HandleEventResourceLinksUnpublished order e [] u).1
        = links (HandleEventResourceLinksUnpublished order s1 [] u).1) end.
    by apply unpublished_links.
  - exact Hs.
Qed.

(** The directory follows the links of a device: the events that lead the aggregate of
    the links from [e] to [e'] lead the model to the same links. *)
Theorem links_followed now clk e l e' rlp :
  handle_loop (ResourceLinks.handleByEvent order) clk e l None = (e', None) -> links e = lp_resources rlp ->
  exists rlp', dir_replay now (RLP rlp) l = (RLP rlp', None) /\ links e' = lp_resources rlp' /\
    lp_deviceID rlp' = lp_deviceID rlp.
Proof.
  revert clk e rlp. induction l as [|eu l IH]; intros clk e rlp; cbn [handle_loop].
  { intros [= <-] Hl. by exists rlp. }
  destruct (String.eqb _ _); [done|]. destruct (ResourceLinks.handleByEvent _ _ _ _) as [e1 [err|]] eqn:Hh; [done|].
  intros Hrest Hl. destruct (lp_step_links _ _ _ _ rlp Hh Hl) as (rlp1 & Hs & Hl1 & Hd1).
  destruct (IH _ _ rlp1 Hrest Hl1) as (rlp2 & Hr & Hl2 & Hd2). exists rlp2.
  cbn [replay model_step dirModel_Model]. rewrite Hs, Hr, Hd2. by split_and!.
Qed.

(** ** The metadata of a device *)
Lemma HandleDeviceMetadataUpdated_fields d upd :
  let d' := (HandleDeviceMetadataUpdated d upd false).1 in
  dms_DeviceMetadataUpdated d' = (if DeviceMetadataUpdated_Equal (dms_DeviceMetadataUpdated d) upd
    then dms_DeviceMetadataUpdated d else Some upd) /\
  elems (dms_UpdatePendings d')
  = match findResourceOperationPendingIndex ((dmu_AuditContext upd) ~> ac_CorrelationId) (elems (dms_UpdatePendings d)) with
    | Some i => delete i (elems (dms_UpdatePendings d))
    | None => elems (dms_UpdatePendings d)
    end.
Proof.
  unfold HandleDeviceMetadataUpdated. cbn [andb].
  destruct (findResourceOperationPendingIndex _ _); cbn; by destruct (DeviceMetadataUpdated_Equal _ _).
Qed.

Lemma HandleDeviceMetadataUpdatePending_fields now d p :
  let d' := (HandleDeviceMetadataUpdatePending now d p).1 in
  dms_DeviceMetadataUpdated d' = dms_DeviceMetadataUpdated d /\
  elems (dms_UpdatePendings d')
  = if pe_IsExpired now p || negb (checkForDuplicity (elems (dms_UpdatePendings d))
                                     ((dmp_AuditContext p) ~> ac_CorrelationId) now)
    then elems (dms_UpdatePendings d) else elems (dms_UpdatePendings d) ++ [p].
Proof. unfold HandleDeviceMetadataUpdatePending. repeat case_match; done. Qed.

(** The same update, and the same commands when both read the same clock. *)
Definition same_metadata (same_clock : Prop) (d s : DeviceMetadataSnapshotTaken) : Prop :=
  dms_DeviceMetadataUpdated d = dms_DeviceMetadataUpdated s /\
  (same_clock -> elems (dms_UpdatePendings d) = elems (dms_UpdatePendings s)).

Lemma mp_step_metadata t now d eu d' s0 mp :
  DeviceMetadata.handleByEvent t d eu = (d', None) -> mp_snapshot mp = Some s0 -> same_metadata (t = now) d s0 ->
  exists mp' s', mp_step now mp eu = (mp', None) /\ mp_snapshot mp' = Some s' /\
    same_metadata (t = now) d' s' /\ mp_deviceID mp' = mp_deviceID mp.
Proof.
  intros Hh Hm Hs. unfold DeviceMetadata.handleByEvent, unmarshal_case, mp_step, decoded in *. rewrite Hm.
  set (s1 := set_dms (dms_DeviceId s0) _ _ _). assert (Hs1 : same_metadata (t = now) d s1) by exact Hs.
  clearbody s1. clear Hs s0 Hm. destruct Hs1 as [Hu Hp].
  destruct (String.eqb (le_eventType eu) "devicemetadatasnapshottaken").
  { case_match; [done|]. injection Hh as <-. do 2 eexists. split; [reflexivity|]. by split_and!. }
  destruct (String.eqb (le_eventType eu) "devicemetadataupdated") eqn:E1.
  { rewrite (proj1 (String.eqb_eq _ _) E1). cbn [String.eqb Ascii.eqb Bool.eqb].
    case_match; [done|]. injection Hh as <-. do 2 eexists. split; [reflexivity|]. split; [reflexivity|].
    match goal with |- same_metadata _ (HandleDeviceMetadataUpdated d ?e false).1 (HandleDeviceMetadataUpdated ?x _ _).1 /\ _ =>
      pose proof (HandleDeviceMetadataUpdated_fields d e) as [A1 A2];
      pose proof (HandleDeviceMetadataUpdated_fields x e) as [B1 B2] end.
    unfold same_metadata. rewrite A1, A2, B1, B2. cbn. rewrite Hu. split_and!; [done| |done].
    intros Ht. by rewrite (Hp Ht). }
  destruct (String.eqb (le_eventType eu) "devicemetadataupdatepending").
  - case_match; [done|]. injection Hh as <-.
    match goal with |- context [HandleDeviceMetadataUpdatePending now s1 ?e] =>
      pose proof (HandleDeviceMetadataUpdatePending_fields t d e) as [A1 A2];
      pose proof (HandleDeviceMetadataUpdatePending_fields now s1 e) as [B1 B2];
      destruct (HandleDeviceMetadataUpdatePending now s1 e) as [s2 er] end. cbn [fst] in *.
    assert (Hs2 : same_metadata (t = now) (HandleDeviceMetadataUpdatePending t d d0).1 s2).
    { unfold same_metadata. rewrite A1, A2, B1, B2. split; [done|]. intros <-. by rewrite Hp. }
    destruct er; do 2 eexists; split; [reflexivity| |reflexivity|]; by split_and!.
  - injection Hh as <-. do 2 eexists. split; [reflexivity|]. by split_and!.
Qed.

(** The directory follows the metadata of a device: the events that lead the aggregate
    of the metadata from [d] to [d'] lead the model to the same state, and with the same
    clock to the same waiting commands. *)
Theorem metadata_followed t now d l d' s0 mp :
  handle_loop DeviceMetadata.handleByEvent (fun _ => t) d l None = (d', None) ->
  mp_snapshot mp = Some s0 -> same_metadata (t = now) d s0 ->
  exists mp' s', dir_replay now (DMP mp) l = (DMP mp', None) /\ mp_snapshot mp' = Some s' /\
    same_metadata (t = now) d' s' /\ mp_deviceID mp' = mp_deviceID mp.
Proof.
  revert d s0 mp. induction l as [|eu l IH]; intros d s0 mp; cbn [handle_loop].
  { intros [= <-] Hm Hs. by exists mp, s0. }
  destruct (String.eqb _ _); [done|]. destruct (DeviceMetadata.handleByEvent _ _ _) as [d1 [err|]] eqn:Hh; [done|].
  intros Hrest Hm Hs. destruct (mp_step_metadata _ now _ _ _ _ _ Hh Hm Hs) as (mp1 & s1 & Hst & Hm1 & Hs1 & Hd1).
  destruct (IH _ _ mp1 Hrest Hm1 Hs1) as (mp2 & s2 & Hr & Hm2 & Hs2 & Hd2). exists mp2, s2.
  cbn [replay model_step dirModel_Model]. rewrite Hst, Hr, Hd2. by split_and!.
Qed.
End links.
