(* ===== verification/DirectoryProjection.v ===== *)
(** * The projection of resource-directory

    resource-directory/service/projection.go: the projection of the devices that
    were asked for lately, with a cache that unregisters a device when it has
    not been asked for again, and the searches in its models.

    A search reads a model at once; between two reads, and between the
    operations of the projection, other goroutines run.  What a search has
    sent and the devices it wants to reload are threaded through it. *)

From Stdlib Require Import ZArith Lia String.
From S2P Require Import Prelude Commands Events EventStore Projection Goroutines DeviceProjection.
From S2P Require Import DirectoryModels.

(** github.com/plgd-dev/go-coap/v3/pkg/cache, for elements that are their own keys:
    an element has the time until it is valid; CheckExpirations removes those
    whose time has come and calls their function. *)
Class ExpiringCache := {
  Cache : Type;
  NewCache : Cache;
  Cache_Delete : string -> Cache -> Cache;
  Cache_LoadOrStore : string -> time_ -> Cache -> Cache;
  CheckExpirations : time_ -> Cache -> Cache * list string }.
Class ExpiringCacheLaws `{!ExpiringCache} := {
  cached : Cache -> string -> option time_;
  cached_New : forall k, cached NewCache k = None;
  cached_Delete : forall k c k', cached (Cache_Delete k c) k' = if decide (k' = k) then None else cached c k';
  cached_LoadOrStore : forall k t c k', cached c k = None ->
    cached (Cache_LoadOrStore k t c) k' = if decide (k' = k) then Some t else cached c k';
  CheckExpirations_spec : forall now c, let '(c', ks) := CheckExpirations now c in
    NoDup ks /\ forall k, (k ∈ ks <-> exists t, cached c k = Some t /\ After now t = true) /\
    cached c' k = if decide (k ∈ ks) then None else cached c k }.

(** The order in which Go ranges over maps. *)
Class MapOrder := {
  range_keys : forall {A}, gmap string A -> list string;
  range_set : Set_ -> list string }.
Class MapOrderLaws `{!MapOrder} := {
  range_keys_perm : forall A (m : gmap string A), range_keys m ≡ₚ (map_to_list m).*1;
  range_set_perm : forall s, range_set s ≡ₚ elements s }.

(** ** The models of queries (eventstore/projection.go)

    The models that Models visits, as long as onModel wants the next one. *)
Section visit.
Context {State : Type} `{!MapOrder}.
Implicit Types (p : Models State).

Definition iterateOverGroup (group : gmap string (aggregateModel State)) : list State :=
  omap (fun a => am_model <$> group !! a) (range_keys group).
Definition iterateOverAllModels p : list State :=
  mjoin (omap (fun g => iterateOverGroup <$> p !! g) (range_keys p)).
Definition iterateOverGroupModels p (groupID : string) : list State :=
  match p !! groupID with Some aggregates => iterateOverGroup aggregates | None => [] end.
Definition iterateOverAggregateModel p (groupID aggregateID : string) : list State :=
  match lookup_model p groupID aggregateID with Some apm => [am_model apm] | None => [] end.

Fixpoint Models_queries p (queries : list SnapshotQuery) : list State :=
  match queries with
  | [] => []
  | query :: queries =>
      if String.eqb (sq_GroupID query) "" && String.eqb (sq_AggregateID query) ""
      then iterateOverAllModels p
      else if negb (String.eqb (sq_GroupID query) "") && String.eqb (sq_AggregateID query) ""
      then iterateOverGroupModels p (sq_GroupID query) ++ Models_queries p queries
      else iterateOverAggregateModel p (sq_GroupID query) (sq_AggregateID query) ++ Models_queries p queries
  end.
Definition Models_of p (queries : list SnapshotQuery) : list State :=
  if (length queries =? 0)%nat then iterateOverAllModels p else Models_queries p queries.
End visit.

(** ** Filters *)

(** getResourceIDMapFilter: a device with no hrefs ([None]) is asked for as a whole. *)
Definition filter_step (m : gmap string (option Set_)) (resourceID : option ResourceId)
    : gmap string (option Set_) :=
  let d := resourceID ~> rid_DeviceId in
  if String.eqb (resourceID ~> rid_Href) "" then <[d := None]> m
  else match m !! d with
       | Some None => m
       | Some (Some hrefs) => <[d := Some (hrefs ∪ {[resourceID ~> rid_Href]})]> m
       | None => <[d := Some {[resourceID ~> rid_Href]}]> m
       end.
Definition getResourceIDMapFilter (resourceIDFilter : list (option ResourceId)) : gmap string (option Set_) :=
  fold_left filter_step resourceIDFilter ∅.

(** The test on the hrefs, of resourceFilter and of wantToReloadDevice. *)
Definition href_excluded (hrefFilter : option Set_) (href : string) : bool :=
  match hrefFilter with
  | Some hrefs => negb (size hrefs =? 0)%nat && negb (bool_decide (href ∈ hrefs))
  | None => false
  end.
Record resourceFilter := MkResourceFilter { rf_hrefFilter : option Set_; rf_typeFilter : Set_ }.
Definition isMatchingResource `{!KitSet} (rf : resourceFilter) (href : string) (resourceTypes : list string)
    : bool :=
  if href_excluded (rf_hrefFilter rf) href then false
  else hasMatchingType resourceTypes (rf_typeFilter rf).

(** resource.go *)
Record DirResource := MkDirResource {
  dr_projection : option resourceProjection; dr_Resource : Resource }.
Definition GetResourceChanged (r : DirResource) : option ResourceChanged := (dr_projection r) ~> rp_content.
Definition GetContent (r : DirResource) : option Content := (GetResourceChanged r) ~> rc_Content.

(** What a search carries along: what it has sent and the set toReloadDevices;
    [wanted]: whether the caller has given a set to collect the devices in. *)
Record Search (A : Type) := MkSearch { se_sent : list A; se_reload : Set_ }.
Arguments MkSearch {A}.
Arguments se_sent {A}.
Arguments se_reload {A}.
Definition to_reload `{!KitSet} {A} (wanted : bool) (deviceID : string) (acc : Search A) : Search A :=
  if wanted then MkSearch (se_sent acc) (Set_Add (se_reload acc) [deviceID]) else acc.

Section directory.
Context `{!UUIDLib, !KitSet, !RefCounter, !ExpiringCache, !MapOrder} {D : Type} `{!Model dirModel D}.
Context (getTopics : string -> string -> list string) (subscriber : bool).

Record DirState := MkDirState { ds_projection : PState dirModel; ds_cache : Cache }.
Definition set_projection (p : PState dirModel) (s : DirState) : DirState := MkDirState p (ds_cache s).
Definition set_cache (c : Cache) (s : DirState) : DirState := MkDirState (ds_projection s) c.

Abbreviation program := (prog DirState).
Definition on_projection {A} (p : prog (PState dirModel) A) : program A := lift ds_projection set_projection p.

#[local] Abbreviation Register := (Register getTopics range_keys dirFactory subscriber (D := D)).
#[local] Abbreviation Unregister := (Unregister getTopics range_keys subscriber (State := dirModel) (D := D)).
#[local] Abbreviation ForceUpdate := (ForceUpdate getTopics range_keys dirFactory subscriber (D := D)).

Definition models (queries : list SnapshotQuery) : program (list dirModel) :=
  act (fun s => (s, Models_of (p_models (ds_projection s)) queries)).
(** Models and GroupsModels of the projection *)
Definition Models_at (deviceID href : string) : program (list dirModel) :=
  models [MkSnapshotQuery deviceID (ResourceId_ToUUID (Some (NewResourceID deviceID href))) []].
Definition GroupsModels (deviceID : string) : program (list dirModel) := models [device_query deviceID].

(** ** ReloadDevices

    [ans d]: what the event bus and the store answer for the device [d]; the
    deferred calls of Unregister run in the end, the last one first. *)
Section reload.
Context (ans : string -> answers D) (expiration : Z) (now : time_).

Fixpoint run_deferred (deferred : list string) : program (outcome unit) :=
  match deferred with
  | [] => Ret (Returns tt)
  | ID :: deferred =>
      do? _ := on_projection (Unregister (ans ID) ID) in run_deferred deferred
  end.

Fixpoint reload_loop (deviceIDs deferred : list string) : program (outcome unit) :=
  match deviceIDs with
  | [] => run_deferred deferred
  | deviceID :: deviceIDs =>
      do? r := on_projection (Register (ans deviceID) deviceID) in
      match r with
      | inl _ => reload_loop deviceIDs deferred
      | inr created =>
          do! _ := act (fun s => (set_cache (Cache_Delete deviceID (ds_cache s)) s, tt)) in
          do! _ := act (fun s =>
            (set_cache (Cache_LoadOrStore deviceID (now + expiration)%Z (ds_cache s)) s, tt)) in
          if created : bool then reload_loop deviceIDs deferred
          else
            do? _ := on_projection (ForceUpdate (ans deviceID) (Some (NewResourceID deviceID ""))) in
            reload_loop deviceIDs (deviceID :: deferred)
      end
  end.
Definition ReloadDevices (deviceIDFilter : Set_) : program (outcome unit) :=
  reload_loop (range_set deviceIDFilter) [].

(** The periodic check of the cache; an element unregisters its device. *)
Definition check_expirations : program (outcome unit) :=
  do! evicted := act (fun s => let '(c, ks) := CheckExpirations now (ds_cache s) in (set_cache c s, ks)) in
  run_deferred evicted.
End reload.

(** ** Searches *)
Section search.
Context {A : Type} (wanted : bool).
Implicit Types (acc : Search A).
#[local] Abbreviation step B := (Search A -> B -> program (outcome (Search A * option error))).

(** The closure that LoadResourceLinks gives to Models; [true]: reload. *)
Fixpoint visit_links (onResourceLinkProjection : step resourceLinksProjection) (ms : list dirModel)
    acc (reload : bool) (err : option error) : program (outcome (Search A * bool * option error)) :=
  match ms with
  | [] => Ret (Returns (acc, reload, err))
  | RLP rl :: ms =>
      if (LenResources rl =? 0)%nat then Ret (Returns (acc, reload, err))
      else do? ' (acc, err) := onResourceLinkProjection acc rl in
           match err with
           | Some _ => Ret (Returns (acc, false, err))
           | None => visit_links onResourceLinkProjection ms acc false None
           end
  | _ :: _ => Ret Panics
  end.
Fixpoint load_links (onResourceLinkProjection : step resourceLinksProjection) (deviceIDs : list string)
    acc : program (outcome (Search A * option error)) :=
  match deviceIDs with
  | [] => Ret (Returns (acc, None))
  | deviceID :: deviceIDs =>
      do! ms := Models_at deviceID ResourceLinksHref in
      do? ' (acc, reload, err) := visit_links onResourceLinkProjection ms acc true None in
      let acc := if reload : bool then to_reload wanted deviceID acc else acc in
      match err with
      | Some err => Ret (Returns (acc, Some err))
      | None => load_links onResourceLinkProjection deviceIDs acc
      end
  end.
Definition LoadResourceLinks (deviceIDFilter : Set_) (on : step resourceLinksProjection) acc :=
  load_links on (range_set deviceIDFilter) acc.

(** LoadDevicesMetadata goes on after an error, and [err] is that of the last
    device that has metadata. *)
Fixpoint visit_metadata (onDeviceMetadataProjection : step deviceMetadataProjection) (ms : list dirModel)
    acc (reload : bool) (err : option error) : program (outcome (Search A * bool * option error)) :=
  match ms with
  | [] => Ret (Returns (acc, reload, err))
  | DMP dm :: ms =>
      if negb (IsInitialized dm) then visit_metadata onDeviceMetadataProjection ms acc reload err
      else do? ' (acc, err) := onDeviceMetadataProjection acc dm in
           match err with
           | Some _ => Ret (Returns (acc, false, err))
           | None => visit_metadata onDeviceMetadataProjection ms acc false None
           end
  | _ :: _ => Ret Panics
  end.
Fixpoint load_metadata (on : step deviceMetadataProjection) (deviceIDs : list string) acc
    (err : option error) : program (outcome (Search A * option error)) :=
  match deviceIDs with
  | [] => Ret (Returns (acc, err))
  | deviceID :: deviceIDs =>
      do! ms := Models_at deviceID StatusHref in
      do? ' (acc, reload, err) := visit_metadata on ms acc true err in
      load_metadata on deviceIDs (if reload : bool then to_reload wanted deviceID acc else acc) err
  end.
Definition LoadDevicesMetadata (deviceIDFilter : Set_) (on : step deviceMetadataProjection) acc :=
  load_metadata on (range_set deviceIDFilter) acc None.

(** The resources that IterateOverResources visits. *)
Definition resources_of (rl : resourceLinksProjection) : list Resource :=
  omap (fun href => lp_resources rl !! href) (range_keys (lp_resources rl)).

Fixpoint want_reload (rl : resourceLinksProjection) (rf : resourceFilter) (resources : list Resource)
    : program bool :=
  match resources with
  | [] => Ret false
  | res :: resources =>
      if href_excluded (rf_hrefFilter rf) (res_Href res) then want_reload rl rf resources
      else if negb (hasMatchingType (res_ResourceTypes res) (rf_typeFilter rf)) then want_reload rl rf resources
      else do! ms := Models_at (lp_deviceID rl) (res_Href res) in
           match ms with
           | [] => Ret true
           | _ :: _ => want_reload rl rf resources
           end
  end.
Definition wantToReloadDevice (rl : resourceLinksProjection) (rf : resourceFilter) : program bool :=
  want_reload rl rf (resources_of rl).

Context (onResource : Search A -> DirResource -> Search A * option error).

(** isSnapShotEvent: the model is not that of a resource. *)
Definition isSnapShotEvent (m : dirModel) : bool :=
  let t := model_EventType m in
  String.eqb t "resourcelinkssnapshottaken" || String.eqb t "devicemetadatasnapshottaken".

Fixpoint visit_resource (res : Resource) (ms : list dirModel) acc (err : option error)
    : outcome (Search A * option error) :=
  match ms with
  | [] => Returns (acc, err)
  | m :: ms =>
      if isSnapShotEvent m then visit_resource res ms acc err
      else match m with
           | RP rp => let '(acc, err) := onResource acc (MkDirResource (Some rp) res) in
                      match err with
                      | Some _ => Returns (acc, err)
                      | None => visit_resource res ms acc None
                      end
           | _ => Panics
           end
  end.
(** The error of a resource does not end the loop over the others. *)
Fixpoint iterate_resources (rl : resourceLinksProjection) (rf : resourceFilter) (resources : list Resource)
    acc (err : option error) : program (outcome (Search A * option error)) :=
  match resources with
  | [] => Ret (Returns (acc, err))
  | res :: resources =>
      if negb (isMatchingResource rf (res_Href res) (res_ResourceTypes res))
      then iterate_resources rl rf resources acc err
      else do! ms := Models_at (lp_deviceID rl) (res_Href res) in
           do? ' (acc, err) := Ret (visit_resource res ms acc err) in
           iterate_resources rl rf resources acc err
  end.

Definition loadResourceWithLinks (deviceID : string) (rf : resourceFilter) acc
    : program (outcome (Search A * option error)) :=
  LoadResourceLinks {[deviceID]} (fun acc rl =>
    do! reload := wantToReloadDevice rl rf in
    if reload && wanted
    then Ret (Returns (to_reload wanted (lp_deviceID rl) acc, None))
    else iterate_resources rl rf (resources_of rl) acc None) acc.

(** The error of onResource stays in the closure. *)
Fixpoint visit_group (rf : resourceFilter) (ms : list dirModel) acc : Search A :=
  match ms with
  | [] => acc
  | RP rp :: ms =>
      let resourceID := rp_resourceID rp in
      if negb (isMatchingResource rf (resourceID ~> rid_Href) (rp_resourceTypes rp)) then visit_group rf ms acc
      else
        let resource := MkResource (resourceID ~> rid_Href) (resourceID ~> rid_DeviceId) (rp_resourceTypes rp) []
          ("ocf://" +:+ resourceID ~> rid_DeviceId) "" [] 0 None None in
        let '(acc, err) := onResource acc (MkDirResource (Some rp) resource) in
        match err with Some _ => acc | None => visit_group rf ms acc end
  | _ :: ms => visit_group rf ms acc
  end.
Definition loadAllDeviceResources (ans : string -> answers D) (deviceID : string) (rf : resourceFilter) acc
    : program (outcome (Search A * option error)) :=
  do? err := on_projection (ForceUpdate (ans deviceID) (Some (NewResourceID deviceID ""))) in
  match err with
  | Some err => Ret (Returns (acc, Some err))
  | None => do! ms := GroupsModels deviceID in Ret (Returns (visit_group rf ms acc, None))
  end.

Fixpoint load_resources (ans : string -> answers D) (typeFilter : Set_) (includeHiddenResources : bool)
    (filter : gmap string (option Set_)) (deviceIDs : list string) acc
    : program (outcome (Search A * option error)) :=
  match deviceIDs with
  | [] => Ret (Returns (acc, None))
  | deviceID :: deviceIDs =>
      let rf := MkResourceFilter (default None (filter !! deviceID)) typeFilter in
      do? ' (acc, err) :=
        (if includeHiddenResources then loadAllDeviceResources ans deviceID rf acc
         else loadResourceWithLinks deviceID rf acc) in
      match err with
      | Some err => Ret (Returns (acc, Some err))
      | None => load_resources ans typeFilter includeHiddenResources filter deviceIDs acc
      end
  end.
Definition LoadResources (ans : string -> answers D) (resourceIDFilter : list (option ResourceId))
    (typeFilter : Set_) (includeHiddenResources : bool) acc : program (outcome (Search A * option error)) :=
  let filter := getResourceIDMapFilter resourceIDFilter in
  load_resources ans typeFilter includeHiddenResources filter (range_keys filter) acc.
End search.
End directory.
