(* ===== verification/Directory.v ===== *)
(** * The requests of resource-directory

    resource-directory/service: deviceDirectory.go, resourceShadow.go,
    resourceDirectory.go, and the handlers of the requests (getDevices.go,
    getDevicesMetadata.go, getResourceLinks.go, getResources.go,
    getPendingCommands.go); deviceconv.go of grpc-gateway/pb.

    A request searches the models of the owner's devices, reloads the devices
    for which something is not there, and searches those again.  [send l m] is
    what the stream answers to the message [m] after the messages [l]. *)

From Stdlib Require Import ZArith Lia String.
From S2P Require Import Prelude Commands Events EventStore Projection Goroutines DeviceProjection.
From S2P Require Import Subscription ResourceIdFilters DirectoryModels DirectoryProjection.

(** ** Devices

    The fields that the code uses of github.com/plgd-dev/device's device.Device, and
    the library's decoders, content types and href of the device. *)
Record LocalizedString := MkLocalizedString { ls_Language : string; ls_Value : string }.
Record schema_Device := MkSchemaDevice {
  sd_ID : string; sd_ResourceTypes : list string; sd_Interfaces : list string; sd_Name : string;
  sd_ManufacturerName : gslice LocalizedString; sd_ModelNumber : string; sd_ProtocolIndependentID : string }.
Class DeviceLib := {
  device_ResourceURI : string;
  AppCBOR : string; AppOcfCbor : string; AppJSON : string;
  cbor_Decode : bytes -> result schema_Device;
  json_Decode : bytes -> result schema_Device }.
Class DeviceLibLaws `{!DeviceLib} := { device_ResourceURI_some : device_ResourceURI <> ""%string }.

Record Device_Metadata := MkDeviceMetadata {
  dm_Connection : option Connection; dm_TwinSynchronization : option TwinSynchronization; dm_TwinEnabled : bool }.
Inductive OwnershipStatus := OwnershipStatus_UNKNOWN | UNOWNED | OWNED | UNSUPPORTED.
Record pb_Device := MkPbDevice {
  pd_Id : string; pd_Types : list string; pd_Name : string; pd_Metadata : option Device_Metadata;
  pd_ManufacturerName : gslice LocalizedString; pd_ModelNumber : string; pd_Interfaces : list string;
  pd_ProtocolIndependentId : string; pd_Data : option ResourceChanged; pd_OwnershipStatus : OwnershipStatus;
  pd_Endpoints : list string }.

Definition SchemaLocalizedStringsToProto (s : gslice LocalizedString) : gslice LocalizedString :=
  map (fun m => MkLocalizedString (ls_Language m) (ls_Value m)) <$> s.
Definition SchemaDeviceToProto (d : option schema_Device) : option pb_Device :=
  (fun d => MkPbDevice (sd_ID d) (sd_ResourceTypes d) (sd_Name d) None
     (SchemaLocalizedStringsToProto (sd_ManufacturerName d)) (sd_ModelNumber d) (sd_Interfaces d)
     (sd_ProtocolIndependentID d) None OwnershipStatus_UNKNOWN []) <$> d.
Definition ToSchema (d : pb_Device) : schema_Device :=
  MkSchemaDevice (pd_Id d) (pd_Types d) (pd_Interfaces d) (pd_Name d)
    (Some (map (fun m => MkLocalizedString (ls_Language m) (ls_Value m)) (elems (pd_ManufacturerName d))))
    (pd_ModelNumber d) (pd_ProtocolIndependentId d).

Inductive DeviceStatus := ONLINE | OFFLINE | DeviceStatus_other (n : Z).
Definition hasMatchingStatus (isOnline : bool) (statusFilter : list DeviceStatus) : bool :=
  if (length statusFilter =? 0)%nat then true
  else existsb (fun f => match f with
                        | ONLINE => isOnline | OFFLINE => negb isOnline | DeviceStatus_other _ => false
                        end) statusFilter.

Record Device := MkDevice {
  dev_ID : string; dev_Content : option schema_Device; dev_ResourceChanged : option ResourceChanged;
  dev_Metadata : option Device_Metadata; dev_Endpoints : list EndpointInformation }.
Definition zero_Device : Device := MkDevice "" None None None [].

Definition ToProto (d : Device) : pb_Device :=
  let r := default (MkPbDevice (dev_ID d) [] "" None None "" [] "" None OwnershipStatus_UNKNOWN [])
             (SchemaDeviceToProto (dev_Content d)) in
  MkPbDevice (pd_Id r) (pd_Types r) (pd_Name r) (dev_Metadata d) (pd_ManufacturerName r) (pd_ModelNumber r)
    (pd_Interfaces r) (pd_ProtocolIndependentId r) (dev_ResourceChanged d) OWNED
    (if (length (dev_Endpoints d) =? 0)%nat then pd_Endpoints r else map ei_Endpoint (dev_Endpoints d)).

Section devices.
Context `{!DeviceLib}.
Definition decodeContent (content : option Content) : result schema_Device :=
  match content with
  | None => inl (errors_New "cannot parse empty content")
  | Some content =>
      let t := ct_ContentType content in
      if String.eqb t AppCBOR || String.eqb t AppOcfCbor then cbor_Decode (ct_Data content)
      else if String.eqb t AppJSON then json_Decode (ct_Data content)
      else inl (errors_New "unsupported content type: %v")
  end.
(** The device is left as it is when there is an error. *)
Definition updateDevice (dev : Device) (resource : DirResource) : result Device :=
  let r := dr_Resource resource in
  if String.eqb (res_Href r) device_ResourceURI then
    match decodeContent (GetContent resource) with
    | inl err => inl err
    | inr c =>
        let c' := MkSchemaDevice (sd_ID c) (res_ResourceTypes r) (res_Interfaces r) (sd_Name c)
                    (sd_ManufacturerName c) (sd_ModelNumber c) (sd_ProtocolIndependentID c) in
        inr (MkDevice (sd_ID c) (Some c') (GetResourceChanged resource) (dev_Metadata dev)
               (elems (res_EndpointInformations r)))
    end
  else inr dev.
End devices.

(** ** Filters *)
Definition NewDeviceIds `{!KitSet} (deviceIds : list string) : Set_ := Set_Add ∅ deviceIds.
Definition filterDevices `{!KitSet} (deviceIds : Set_) (deviceIDsFilter : list string) : Set_ :=
  if (length deviceIDsFilter =? 0)%nat then deviceIds
  else fold_left (fun result deviceID =>
         if Set_HasOneOf deviceIds [deviceID] then Set_Add result [deviceID] else result) deviceIDsFilter ∅.

Definition of_device (deviceID : string) : option ResourceIdFilter :=
  Some (MkResourceIdFilter (Some (NewResourceID deviceID "")) []).
Definition filter_id (r : option ResourceIdFilter) : option ResourceId := r ~> rif_ResourceId.
Definition convertToResourceIDs `{!KitSet, !MapOrder} (userDeviceIds : Set_)
    (resourceIDsFilter : list (option ResourceIdFilter)) (deviceIdFilter : list string)
    : list (option ResourceIdFilter) :=
  let internal :=
    List.filter (fun r => Set_HasOneOf userDeviceIds [(filter_id r) ~> rid_DeviceId]) resourceIDsFilter
    ++ map of_device (List.filter (fun d => Set_HasOneOf userDeviceIds [d]) deviceIdFilter) in
  if (length internal =? 0)%nat then
    if negb (length resourceIDsFilter =? 0)%nat || negb (length deviceIdFilter =? 0)%nat then []
    else map of_device (range_set userDeviceIds)
  else internal.
Definition resourceIdFilterToSimple (r : list (option ResourceIdFilter)) : list (option ResourceId) :=
  map filter_id r.
(** The filters of the devices that have been reloaded. *)
Definition reloaded_filters `{!KitSet} (toReloadDevices : Set_) (resourceIDsFilter : list (option ResourceIdFilter))
    : list (option ResourceIdFilter) :=
  List.filter (fun r => Set_HasOneOf toReloadDevices [(filter_id r) ~> rid_DeviceId]) resourceIDsFilter.

(** ** Values of resources *)
Record pb_Resource := MkPbResource { pr_Types : list string; pr_Data : option ResourceChanged }.
Definition toResourceValue (resource : DirResource) : pb_Resource :=
  MkPbResource (res_ResourceTypes (dr_Resource resource)) (GetResourceChanged resource).


(** The data of a value that the client has: no content. *)
Definition not_modified (rc : option ResourceChanged) : ResourceChanged :=
  MkResourceChanged (rc ~> rc_ResourceId) (Some (MkContent None "" (-1))) Status_NOT_MODIFIED
    (rc ~> rc_AuditContext) (rc ~> rc_EventMetadata) (rc ~> rc_Etag) (rc ~> rc_ResourceTypes)
    (rc ~> rc_OpenTelemetryCarrier).
Fixpoint updateContentForResponseForETag (etags : list (list byte)) (val : pb_Resource) : option pb_Resource :=
  match etags with
  | [] => None
  | etag :: etags =>
      if negb (bytes_Equal (Some etag) ((pr_Data val) ~> rc_Etag)) then updateContentForResponseForETag etags val
      else Some (MkPbResource (pr_Types val) (Some (not_modified (pr_Data val))))
  end.
Fixpoint updateContentIfETagMatched (resourceIDsFilter : list (option ResourceIdFilter)) (val : pb_Resource)
    : pb_Resource :=
  match resourceIDsFilter with
  | [] => val
  | v :: resourceIDsFilter =>
      if (length (v ~> rif_Etag) =? 0)%nat then updateContentIfETagMatched resourceIDsFilter val
      else if negb (ResourceId_Equal (filter_id v) ((pr_Data val) ~> rc_ResourceId))
      then updateContentIfETagMatched resourceIDsFilter val
      else match updateContentForResponseForETag (v ~> rif_Etag) val with
           | Some val => val
           | None => updateContentIfETagMatched resourceIDsFilter val
           end
  end.

Definition toPendingCommands (resource : DirResource) (commandFilter : FilterBitmask) (now : time_)
    : list pb_PendingCommand :=
  match dr_projection resource with
  | None => []
  | Some rp => ToPendingCommands rp commandFilter now
  end.

(** ** Requests *)
Record GetDevicesRequest := MkGetDevicesRequest {
  gdr_TypeFilter : list string; gdr_StatusFilter : list DeviceStatus; gdr_DeviceIdFilter : list string }.
Record GetFilterRequest := MkGetFilterRequest { gfr_TypeFilter : list string; gfr_DeviceIdFilter : list string }.
Record GetResourcesRequest := MkGetResourcesRequest {
  grr_HttpResourceIdFilter : list string; grr_DeviceIdFilter : list string; grr_TypeFilter : list string;
  grr_ResourceIdFilter : list (option ResourceIdFilter) }.
Record GetPendingCommandsRequest := MkGetPendingCommandsRequest {
  gpr_CommandFilter : list PendingCommand; gpr_HttpResourceIdFilter : list string;
  gpr_DeviceIdFilter : list string; gpr_TypeFilter : list string;
  gpr_ResourceIdFilter : list (option ResourceIdFilter); gpr_IncludeHiddenResources : bool }.

Section requests.
Context `{!UUIDLib, !KitSet, !RefCounter, !ExpiringCache, !MapOrder, !DeviceLib} {D : Type} `{!Model dirModel D}.
Context (getTopics : string -> string -> list string) (subscriber : bool).
#[local] Abbreviation program := (prog DirState).

(** What the bus and the store answer to the search, to the reload and to the search
    that follows it; the expiration of the cache and the clock. *)
Record env := MkEnv {
  env_first : string -> answers D; env_reload : string -> answers D; env_second : string -> answers D;
  env_expiration : Z; env_now : time_ }.

Section stream.
Context {A : Type} (send : list A -> A -> option error).
Implicit Types (acc : Search A).
#[local] Abbreviation searched := (program (outcome (Search A * option error))).

Definition Send (msg : string) acc (m : A) : Search A * option error :=
  match send (se_sent acc) m with
  | Some err => (acc, Some (Wrap msg err))
  | None => (MkSearch (se_sent acc ++ [m]) (se_reload acc), None)
  end.
Fixpoint Send_all (msg : string) acc (ms : list A) : Search A * option error :=
  match ms with
  | [] => (acc, None)
  | m :: ms =>
      match Send msg acc m with
      | (acc, Some err) => (acc, Some err)
      | (acc, None) => Send_all msg acc ms
      end
  end.

(** A search that collects the devices to reload, and the search of these. *)
Definition two_passes (e : env) (first : Search A -> searched) (second : Set_ -> Search A -> searched)
    (sent : list A) : searched :=
  do? ' (acc, err) := first (MkSearch sent ∅) in
  match err with
  | Some err => Ret (Returns (acc, Some err))
  | None =>
      if (size (se_reload acc) =? 0)%nat then Ret (Returns (acc, None)) else
      do? _ := ReloadDevices getTopics subscriber (env_reload e) (env_expiration e) (env_now e) (se_reload acc) in
      second (se_reload acc) acc
  end.
End stream.

(** *** GetDevices *)
Section GetDevices.
Context (send : list pb_Device -> pb_Device -> option error).

Definition send_device (deviceMetadataUpdated : option DeviceMetadataUpdated) (acc : Search pb_Device)
    (resource : DirResource) : Search pb_Device * option error :=
  match updateDevice zero_Device resource with
  | inl _ => (acc, None)
  | inr d =>
      let d := MkDevice (dev_ID d) (dev_Content d) (dev_ResourceChanged d)
        (Some (MkDeviceMetadata (deviceMetadataUpdated ~> dmu_Connection)
                 (deviceMetadataUpdated ~> dmu_TwinSynchronization) (deviceMetadataUpdated ~> dmu_TwinEnabled)))
        (dev_Endpoints d) in
      Send send "cannot send device: %v" acc (ToProto d)
  end.
Definition sendDevices (ans : string -> answers D) (wanted : bool) (deviceIDs : Set_) (req : GetDevicesRequest)
    (acc : Search pb_Device) : program (outcome (Search pb_Device * option error)) :=
  let typeFilter := Set_Add ∅ (gdr_TypeFilter req) in
  LoadDevicesMetadata wanted deviceIDs (fun acc m =>
    let deviceMetadataUpdated := GetDeviceMetadataUpdated m in
    if negb (hasMatchingStatus (IsOnline (deviceMetadataUpdated ~> dmu_Connection)) (gdr_StatusFilter req))
    then Ret (Returns (acc, None))
    else LoadResources getTopics subscriber wanted (send_device deviceMetadataUpdated) ans
           [Some (NewResourceID (mp_deviceID m) device_ResourceURI)] typeFilter false acc) acc.
Definition GetDevices (e : env) (userDeviceIds : Set_) (req : GetDevicesRequest)
    : program (outcome (Search pb_Device * option error)) :=
  let deviceIDs := filterDevices userDeviceIds (gdr_DeviceIdFilter req) in
  if (size deviceIDs =? 0)%nat then Ret (Returns (MkSearch [] ∅, None)) else
  two_passes e (sendDevices (env_first e) true deviceIDs req)
    (fun toReloadDevices => sendDevices (env_second e) false toReloadDevices req) [].
End GetDevices.

(** *** GetResourceLinks *)
Section GetResourceLinks.
Context (send : list ResourceLinksPublished -> ResourceLinksPublished -> option error).

Definition sendResourceLinks (wanted : bool) (deviceIDs typeFilter : Set_) (acc : Search ResourceLinksPublished)
    : program (outcome (Search ResourceLinksPublished * option error)) :=
  LoadResourceLinks wanted deviceIDs (fun acc m => Ret (Returns
    match ToResourceLinksPublished range_keys m typeFilter with
    | None => (acc, None)
    | Some toSend => Send send "cannot send resource link %v" acc toSend
    end)) acc.
Definition GetResourceLinks (e : env) (userDeviceIds : Set_) (req : GetFilterRequest)
    : program (outcome (Search ResourceLinksPublished * option error)) :=
  let deviceIDs := filterDevices userDeviceIds (gfr_DeviceIdFilter req) in
  if (size deviceIDs =? 0)%nat then Ret (Returns (MkSearch [] ∅, None)) else
  let typeFilter := Set_Add ∅ (gfr_TypeFilter req) in
  two_passes e (sendResourceLinks true deviceIDs typeFilter)
    (fun toReloadDevices => sendResourceLinks false toReloadDevices typeFilter) [].
End GetResourceLinks.

(** *** GetDevicesMetadata *)
Section GetDevicesMetadata.
Context (send : list DeviceMetadataUpdated -> DeviceMetadataUpdated -> option error).

Definition send_metadata (acc : Search DeviceMetadataUpdated) (m : deviceMetadataProjection)
    : program (outcome (Search DeviceMetadataUpdated * option error)) :=
  Ret (Returns (match GetDeviceMetadataUpdated m with
                | None => (acc, None)
                | Some data => Send send "cannot send devices metadata %v: %v" acc data
                end)).
Definition sendDevicesMetadata (wanted : bool) (deviceIDFilter typeFilter : Set_)
    (acc : Search DeviceMetadataUpdated) : program (outcome (Search DeviceMetadataUpdated * option error)) :=
  LoadResourceLinks wanted deviceIDFilter (fun acc m =>
    match GetResource m device_ResourceURI with
    | None => Ret (Returns (to_reload wanted (lp_deviceID m) acc, None))
    | Some res =>
        if negb (size typeFilter =? 0)%nat && negb (Set_HasOneOf typeFilter (res_ResourceTypes res))
        then Ret (Returns (acc, None))
        else LoadDevicesMetadata wanted {[lp_deviceID m]} send_metadata acc
    end) acc.
Definition GetDevicesMetadata (e : env) (userDeviceIds : Set_) (req : GetFilterRequest)
    : program (outcome (Search DeviceMetadataUpdated * option error)) :=
  let deviceIDs := filterDevices userDeviceIds (gfr_DeviceIdFilter req) in
  let typeFilter := Set_Add ∅ (gfr_TypeFilter req) in
  two_passes e (sendDevicesMetadata true deviceIDs typeFilter)
    (fun toReloadDevices => sendDevicesMetadata false toReloadDevices typeFilter) [].
End GetDevicesMetadata.

(** *** GetResources *)
Section GetResources.
Context (send : list pb_Resource -> pb_Resource -> option error).

Definition send_resource (resourceIDsFilter : list (option ResourceIdFilter)) (acc : Search pb_Resource)
    (resource : DirResource) : Search pb_Resource * option error :=
  Send send "cannot send resource value %v: %v" acc
    (updateContentIfETagMatched resourceIDsFilter (toResourceValue resource)).
Definition getResources (ans : string -> answers D) (wanted : bool)
    (resourceIDsFilter : list (option ResourceIdFilter)) (typeFilter : list string) (acc : Search pb_Resource)
    : program (outcome (Search pb_Resource * option error)) :=
  LoadResources getTopics subscriber wanted (send_resource resourceIDsFilter) ans
    (resourceIdFilterToSimple resourceIDsFilter) (Set_Add ∅ typeFilter) false acc.
Definition GetResources (e : env) (userDeviceIds : Set_) (req : GetResourcesRequest)
    : program (outcome (Search pb_Resource * option error)) :=
  let ResourceIdFilter := grr_ResourceIdFilter req ++ ResourceIdFilterFromString (grr_HttpResourceIdFilter req) in
  let resourceIDsFilter := convertToResourceIDs userDeviceIds ResourceIdFilter (grr_DeviceIdFilter req) in
  two_passes e (getResources (env_first e) true resourceIDsFilter (grr_TypeFilter req))
    (fun toReloadDevices =>
       getResources (env_second e) false (reloaded_filters toReloadDevices resourceIDsFilter) (grr_TypeFilter req)) [].
End GetResources.

(** *** GetPendingCommands

    The commands of the metadata of the devices first, with a reload of their own. *)
Section GetPendingCommands.
Context (send : list pb_PendingCommand -> pb_PendingCommand -> option error).

Definition sendPendingCommands (ans : string -> answers D) (wanted : bool)
    (resourceIDsFilter : list (option ResourceIdFilter)) (typeFilter : list string) (filterCmds : FilterBitmask)
    (includeHiddenResources : bool) (now : time_) (acc : Search pb_PendingCommand)
    : program (outcome (Search pb_PendingCommand * option error)) :=
  LoadResources getTopics subscriber wanted (fun acc resource =>
      Send_all send "cannot send pending command %v: %v" acc (toPendingCommands resource filterCmds now)) ans
    (resourceIdFilterToSimple resourceIDsFilter) (Set_Add ∅ typeFilter) includeHiddenResources acc.
Definition sendDeviceMetadataUpdatePendingCommands (wanted : bool) (deviceIDs : Set_) (now : time_)
    (acc : Search pb_PendingCommand) : program (outcome (Search pb_PendingCommand * option error)) :=
  LoadDevicesMetadata wanted deviceIDs (fun acc m => Ret (Returns
    (Send_all send "cannot send device metadata update pending command: %v" acc
       (map PendingCommand_DeviceMetadataUpdatePending (GetDeviceUpdatePendings m now))))) acc.
Definition getDeviceMetadataUpdatePendingCommands (e : env) (now : time_) (userDeviceIds : Set_)
    (req : GetPendingCommandsRequest) (ids : list (option ResourceIdFilter)) (filterCmds : FilterBitmask)
    : program (outcome (Search pb_PendingCommand * option error)) :=
  if IsFilteredBit filterCmds FilterBitmaskDeviceMetadataUpdatePending
     && (length ids =? 0)%nat && (length (gpr_TypeFilter req) =? 0)%nat
  then two_passes e
         (sendDeviceMetadataUpdatePendingCommands true (filterDevices userDeviceIds (gpr_DeviceIdFilter req)) now)
         (fun toReloadDevices => sendDeviceMetadataUpdatePendingCommands false toReloadDevices now) []
  else Ret (Returns (MkSearch [] ∅, None)).
Definition GetPendingCommands (e_metadata e : env) (now : time_) (userDeviceIds : Set_) (req : GetPendingCommandsRequest)
    : program (outcome (Search pb_PendingCommand * option error)) :=
  let filterCmds := FilterPendingsCommandsToBitmask (gpr_CommandFilter req) in
  let ids := gpr_ResourceIdFilter req ++ ResourceIdFilterFromString (gpr_HttpResourceIdFilter req) in
  do? ' (acc, err) := getDeviceMetadataUpdatePendingCommands e_metadata now userDeviceIds req ids filterCmds in
  match err with
  | Some err => Ret (Returns (acc, Some err))
  | None =>
      let resourceIDsFilter := convertToResourceIDs userDeviceIds ids (gpr_DeviceIdFilter req) in
      let pass ans wanted filter :=
        sendPendingCommands ans wanted filter (gpr_TypeFilter req) filterCmds (gpr_IncludeHiddenResources req) now in
      two_passes e (pass (env_first e) true resourceIDsFilter)
        (fun toReloadDevices => pass (env_second e) false (reloaded_filters toReloadDevices resourceIDsFilter))
        (se_sent acc)
  end.
End GetPendingCommands.

(** *** The handlers

    [owner]: the owner that the token of the request names, [owned]: the devices
    that the cache of owners answers.  The code of the status is not modelled. *)
Section handlers.
Context {A : Type}.
Definition handler (unauthenticated no_devices : string) (owner : result string)
    (owned : result (list string)) (serve : Set_ -> program (outcome (Search A * option error)))
    : program (outcome (list A * option error)) :=
  match owner, owned with
  | inl err, _ => Ret (Returns ([], Some (Wrap unauthenticated err)))
  | inr _, inl err => Ret (Returns ([], Some (Wrap no_devices err)))
  | inr _, inr deviceIDs =>
      do? ' (acc, err) := serve (NewDeviceIds deviceIDs) in Ret (Returns (se_sent acc, err))
  end.
End handlers.
Definition RequestHandler_GetDevices owner owned send e req :=
  handler "cannot get devices: %v" "cannot get devices contents: %v" owner owned
    (fun ids => GetDevices send e ids req).
Definition RequestHandler_GetResourceLinks owner owned send e req :=
  handler "cannot get resource links: %v" "cannot get resource links: %v" owner owned
    (fun ids => GetResourceLinks send e ids req).
Definition RequestHandler_GetDevicesMetadata owner owned send e req :=
  handler "" "cannot retrieve devices metadata: %v" owner owned
    (fun ids => GetDevicesMetadata send e ids req).
Definition RequestHandler_GetResources owner owned send e req :=
  handler "" "cannot get devices contents: %v" owner owned
    (fun ids => GetResources send e ids req).
Definition RequestHandler_GetPendingCommands owner owned send e_metadata e now req :=
  handler "" "cannot retrieve pending commands: %v" owner owned
    (fun ids => GetPendingCommands send e_metadata e now ids req).
End requests.
Arguments env D : clear implicits.
Arguments MkEnv {D}.
