(* ===== verification/DirectoryFacts.v ===== *)
(** * Properties of the requests of resource-directory

    What the filters of a request mean, and what a request sends when other
    goroutines change the models at any time. *)

From Stdlib Require Import ZArith Lia String.
From S2P Require Import Prelude Commands Events EventStore Projection ProjectionFacts Goroutines DeviceProjection.
From S2P Require Import ResourceLinks DeviceMetadata Subscription ResourceIdFilters.
From S2P Require Import DirectoryModels DirectoryProjection Directory.

(** ** Filters *)
Section filters.
Context `{!KitSet, !KitSetLaws}.

Lemma Set_HasOneOf_one s x : Set_HasOneOf s [x] = bool_decide (x ∈ s).
Proof.
  apply eq_true_iff_eq. rewrite Set_HasOneOf_spec, bool_decide_eq_true. split; [|intros Hx; exists x; set_solver].
  intros (y & Hy & Hs). by apply list_elem_of_singleton in Hy as ->.
Qed.
Lemma size_nonzero (s : Set_) : (size s =? 0)%nat = bool_decide (s = ∅).
Proof.
  apply eq_true_iff_eq. rewrite Nat.eqb_eq, bool_decide_eq_true, size_empty_iff. split; [apply leibniz_equiv|by intros ->].
Qed.

Lemma filterDevices_spec ids l d : d ∈ filterDevices ids l <-> d ∈ ids /\ (l = [] \/ d ∈ l).
Proof.
  unfold filterDevices. destruct l as [|x l]; [set_solver|]. cbn [length Nat.eqb].
  assert (Hgo : forall l acc, d ∈ fold_left (fun result deviceID =>
    if Set_HasOneOf ids [deviceID] then Set_Add result [deviceID] else result) l acc <-> d ∈ acc \/ d ∈ ids /\ d ∈ l).
  { clear x l. intros l. induction l as [|x l IH]; intros acc; cbn [fold_left]; [set_solver|].
    rewrite IH, Set_HasOneOf_one. case_bool_decide as Hx; [rewrite Set_Add_spec|]; set_solver. }
  rewrite Hgo. set_solver.
Qed.

(** The meaning of the hrefs that are kept for a device. *)
Definition selects (m : gmap string (option Set_)) (d h : string) : bool :=
  match m !! d with Some hrefs => negb (href_excluded hrefs h) | None => false end.

(** What the map has for a device after the filters [ids]. *)
Definition entry_ok (ids : list (option ResourceId)) (d : string) (e : option (option Set_)) : Prop :=
  match e with
  | None => forall id, id ∈ ids -> id ~> rid_DeviceId <> d
  | Some None => exists id, id ∈ ids /\ id ~> rid_DeviceId = d /\ id ~> rid_Href = ""%string
  | Some (Some hs) =>
      hs <> ∅ /\ (forall h, h ∈ hs <-> exists id, id ∈ ids /\ id ~> rid_DeviceId = d /\ id ~> rid_Href = h) /\
      ""%string ∉ hs
  end.
Lemma entry_ok_other ids id d e : id ~> rid_DeviceId <> d -> entry_ok ids d e -> entry_ok (ids ++ [id]) d e.
Proof. intros Hd. unfold entry_ok. destruct e as [[hs|]|]; set_solver. Qed.
Lemma entry_ok_step ids m id d : entry_ok ids d (m !! d) -> entry_ok (ids ++ [id]) d (filter_step m id !! d).
Proof.
  intros Hok. unfold filter_step. destruct (decide (id ~> rid_DeviceId = d)) as [<-|Hd].
  - destruct (String.eqb_spec (id ~> rid_Href) "") as [He|He].
    + rewrite lookup_insert_eq. exists id. set_solver.
    + destruct (m !! (id ~> rid_DeviceId)) as [[hs|]|] eqn:Hm; [| |]; rewrite ?Hm, ?lookup_insert_eq; cbn in *.
      * destruct Hok as (Hne & Hs & Hemp). split_and!; [set_solver| |set_solver]. intros h. set_solver.
      * set_solver.
      * split_and!; [set_solver| |set_solver]. intros h. rewrite elem_of_singleton. set_solver.
  - assert (Hl : forall x, <[id ~> rid_DeviceId := x]> m !! d = m !! d) by (intros x; by apply lookup_insert_ne).
    apply entry_ok_other; [done|].
    destruct (String.eqb _ _); [by rewrite Hl|]. by destruct (m !! (id ~> rid_DeviceId)) as [[hs|]|]; rewrite ?Hl.
Qed.

Lemma grouped_filter_selects ids d h :
  selects (getResourceIDMapFilter ids) d h = true <->
  exists id, id ∈ ids /\ id ~> rid_DeviceId = d /\ (id ~> rid_Href = ""%string \/ id ~> rid_Href = h).
Proof.
  assert (Hok : entry_ok ids d (getResourceIDMapFilter ids !! d)).
  { unfold getResourceIDMapFilter. induction ids as [|id ids IH] using rev_ind.
    - cbn. rewrite lookup_empty. cbn. set_solver.
    - rewrite fold_left_app. by apply entry_ok_step. }
  unfold selects, href_excluded. destruct (_ !! d) as [[hs|]|]; cbn in *.
  - destruct Hok as (Hne & Hs & Hemp). rewrite size_nonzero, bool_decide_false by done. cbn.
    rewrite negb_involutive, bool_decide_eq_true, Hs. split; [set_solver|].
    intros (id & Hid & Hd & [He|He]); [|by exists id]. destruct Hemp. apply Hs. by exists id.
  - split; [|done]. intros _. destruct Hok as (id & Hid & Hd & He). exists id. auto.
  - split; [done|]. intros (id & Hid & Hd & _). by destruct (Hok id Hid).
Qed.

(** The filter that is grouped by devices selects a resource exactly when one of the
    resource identifiers of the request names it or its whole device, in whatever
    order and however often they name them. *)
Theorem getResourceIDMapFilter_selects ids d h :
  selects (getResourceIDMapFilter ids) d h = true <->
  exists id, id ∈ ids /\ id ~> rid_DeviceId = d /\ (id ~> rid_Href = ""%string \/ id ~> rid_Href = h).
Proof. apply grouped_filter_selects. Qed.
End filters.

(** ** Entity tags *)
Definition etag_matches (rc : option ResourceChanged) (v : option ResourceIdFilter) : bool :=
  ResourceId_Equal (filter_id v) (rc ~> rc_ResourceId)
  && existsb (fun etag => bytes_Equal (Some etag) (rc ~> rc_Etag)) (v ~> rif_Etag).

Lemma updateContentForResponse_spec etags val :
  updateContentForResponseForETag etags val =
  if existsb (fun etag => bytes_Equal (Some etag) ((pr_Data val) ~> rc_Etag)) etags
  then Some (MkPbResource (pr_Types val) (Some (not_modified (pr_Data val)))) else None.
Proof.
  induction etags as [|etag etags IH]; cbn [updateContentForResponseForETag existsb]; [done|].
  by destruct (bytes_Equal _ _); cbn.
Qed.

Lemma updateContent_spec filter val :
  updateContentIfETagMatched filter val =
  if existsb (etag_matches (pr_Data val)) filter
  then MkPbResource (pr_Types val) (Some (not_modified (pr_Data val))) else val.
Proof.
  induction filter as [|v filter IH]; cbn [updateContentIfETagMatched existsb]; [done|]. unfold etag_matches at 1.
  rewrite updateContentForResponse_spec. destruct (v ~> rif_Etag) as [|etag etags]; cbn [length Nat.eqb existsb].
  { by rewrite andb_false_r. }
  destruct (ResourceId_Equal _ _); cbn [negb andb orb]; [|done]. by destruct (bytes_Equal _ _ || _).
Qed.

(** A value loses its content, and says that it has not been modified, exactly when a
    filter of the request that names its resource has its entity tag; every other
    value is sent as it is. *)
Theorem updateContentIfETagMatched_spec filter val :
  updateContentIfETagMatched filter val =
  if existsb (etag_matches (pr_Data val)) filter
  then MkPbResource (pr_Types val) (Some (not_modified (pr_Data val))) else val.
Proof. apply updateContent_spec. Qed.

(** ** What the models are

    The kind of a model is that of its identifier: nothing changes it. *)
Section typed.
Context `{!UUIDLib, !UUIDLaws} {D : Type}
  `{!Unmarshaler D ResourceStateSnapshotTaken} `{!Unmarshaler D ResourceUpdatePending}
  `{!Unmarshaler D ResourceUpdated} `{!Unmarshaler D ResourceCreatePending}
  `{!Unmarshaler D ResourceCreated} `{!Unmarshaler D ResourceChanged}
  `{!Unmarshaler D ResourceDeleted} `{!Unmarshaler D ResourceDeletePending}
  `{!Unmarshaler D ResourceRetrieved} `{!Unmarshaler D ResourceRetrievePending}
  `{!Unmarshaler D ResourceLinksSnapshotTaken} `{!Unmarshaler D ResourceLinksPublished}
  `{!Unmarshaler D ResourceLinksUnpublished} `{!Unmarshaler D DeviceMetadataSnapshotTaken}
  `{!Unmarshaler D DeviceMetadataUpdated} `{!Unmarshaler D DeviceMetadataUpdatePending}.
Context (order : gmap string Resource -> list string) (now : time_).

Definition typed (g a : string) (m : dirModel) : Prop :=
  match m with
  | RP _ => a <> MakeLinksResourceUUID g /\ a <> MakeStatusResourceUUID g
  | RLP rlp => a = MakeLinksResourceUUID g /\ lp_deviceID rlp = g
  | DMP dmp => a = MakeStatusResourceUUID g /\ mp_deviceID dmp = g
  end.

Lemma links_not_status g : MakeLinksResourceUUID g <> MakeStatusResourceUUID g.
Proof.
  intros Heq%uuid_NewSHA1_inj. assert (Hl := f_equal String.length Heq). rewrite !length_append in Hl.
  cbn in Hl. lia.
Qed.

Lemma typed_factory g a m : dirFactory g a = inr m -> typed g a m.
Proof.
  unfold dirFactory. intros [= <-]. destruct (String.eqb_spec a (MakeLinksResourceUUID g)) as [->|Hl]; [done|].
  by destruct (String.eqb_spec a (MakeStatusResourceUUID g)) as [->|Hs].
Qed.

Lemma lp_step_deviceID rlp eu : lp_deviceID (lp_step order rlp eu).1 = lp_deviceID rlp.
Proof. unfold lp_step, decoded. by repeat case_match. Qed.
Lemma mp_step_deviceID dmp eu : mp_deviceID (mp_step now dmp eu).1 = mp_deviceID dmp.
Proof. unfold mp_step, decoded. by repeat case_match. Qed.

Lemma typed_kept g a m e : typed g a m -> typed g a (@model_step _ _ (dirModel_Model order now) m e).1.
Proof.
  destruct m as [rp|rlp|dmp]; cbn [model_step dirModel_Model].
  - by destruct (rp_step rp e).
  - pose proof (lp_step_deviceID rlp e) as Hd. destruct (lp_step order rlp e) as [rlp' err]. cbn in *. by rewrite Hd.
  - pose proof (mp_step_deviceID dmp e) as Hd. destruct (mp_step now dmp e) as [dmp' err]. cbn in *. by rewrite Hd.
Qed.

(** A model that the factory made for the links of a device stays the model of these
    links, that of its metadata stays that, and every other one is a resource, whatever
    events it handles. *)
Theorem typed_step g a m e : typed g a m -> typed g a (@model_step _ _ (dirModel_Model order now) m e).1.
Proof. apply typed_kept. Qed.
End typed.

Lemma ResourceId_Equal_device a b : ResourceId_Equal a b = true -> a ~> rid_DeviceId = b ~> rid_DeviceId.
Proof. destruct a, b; cbn; try done. by intros [->%String.eqb_eq _]%andb_true_iff. Qed.

(** ** Searches among other goroutines

    [P g a m]: what is known of the models [m] at all times. *)
Section searches.
Context `{!UUIDLib, !UUIDLaws, !KitSet, !KitSetLaws, !RefCounter, !ExpiringCache, !MapOrder, !MapOrderLaws}
  {D : Type} `{!Model dirModel D}.
Context (getTopics : string -> string -> list string) (subscriber : bool).
Context (P : string -> string -> dirModel -> Prop) (P_typed : forall g a m, P g a m -> typed g a m).

Definition sound (s : DirState) : Prop := models_ok P (p_models (ds_projection s)).
#[local] Abbreviation post := (post sound).

Lemma uuid_not_empty s : uuid_NewSHA1 s <> ""%string.
Proof. intros Hs. pose proof (uuid_NewSHA1_parses s) as Hp. by rewrite Hs, uuid_Parse_empty in Hp. Qed.
Lemma Models_of_one (p : Models dirModel) d a :
  a <> ""%string -> Models_of p [MkSnapshotQuery d a []] =
  match lookup_model p d a with Some apm => [am_model apm] | None => [] end.
Proof.
  intros Ha. unfold Models_of. cbn. apply String.eqb_neq in Ha. rewrite Ha, !andb_false_r.
  unfold iterateOverAggregateModel. apply app_nil_r.
Qed.

Lemma ToUUID_not_empty id : ResourceId_ToUUID id <> ""%string.
Proof.
  unfold ResourceId_ToUUID. destruct (String.eqb _ _); [|apply uuid_not_empty].
  intros Hn. pose proof uuid_Nil_parses as Hp. by rewrite Hn, uuid_Parse_empty in Hp.
Qed.
Lemma Models_at_post d h :
  post (Models_at d h) (fun ms => ms = [] \/
    exists m, ms = [m] /\ P d (ResourceId_ToUUID (Some (NewResourceID d h))) m).
Proof.
  apply post_act. intros s Hs. cbn [snd]. rewrite Models_of_one by apply ToUUID_not_empty.
  destruct (lookup_model _ _ _) as [am|] eqn:Hl; [right|by left]. eexists. split; [done|]. by eapply Hs.
Qed.

Lemma GroupsModels_post d :
  d <> ""%string -> post (GroupsModels d) (fun ms => forall m, m ∈ ms -> exists a, P d a m).
Proof.
  intros Hd. apply post_act. intros s Hs m. cbn [snd]. unfold Models_of. cbn.
  apply String.eqb_neq in Hd. rewrite Hd. cbn. rewrite app_nil_r. unfold iterateOverGroupModels.
  destruct (p_models (ds_projection s) !! d) as [group|] eqn:Hg; [|set_solver].
  unfold iterateOverGroup. intros (a & _ & Ha)%list_elem_of_omap. destruct (group !! a) as [am|] eqn:Hl; [|done].
  injection Ha as <-. exists a. apply Hs. unfold lookup_model. by rewrite Hg.
Qed.

Section visits.
Context {A : Type} (wanted : bool) (pk : Prop).
Implicit Types (acc : Search A).
#[local] Abbreviation step B := (Search A -> B -> prog DirState (outcome (Search A * option error))).

(** One device after the other: [J rest acc] holds when the devices [rest] are left.
    A device either is searched or will be reloaded. *)
Lemma load_links_post (on : step resourceLinksProjection) (J : list string -> Search A -> Prop) :
  (forall d rest rl acc, J (d :: rest) acc -> P d (MakeLinksResourceUUID d) (RLP rl) ->
     post (on acc rl) (out pk (fun r => J rest r.1))) ->
  (forall d rest acc, J (d :: rest) acc -> J rest (to_reload wanted d acc)) ->
  forall ds acc, J ds acc -> post (load_links wanted on ds acc) (out pk (fun r => exists rest, J rest r.1)).
Proof.
  intros Hon Hrel ds. induction ds as [|d ds IH]; intros acc HJ; cbn [load_links].
  { apply post_Ret. by exists []. }
  eapply post_bind; [apply Models_at_post|]. intros ms Hms.
  apply (post_bindO _ _ _ _ (fun '(acc', reload, _) => if reload : bool then acc' = acc else J ds acc')).
  - destruct Hms as [-> | (m & -> & Hm)]; cbn [visit_links]; [by apply post_Ret|].
    pose proof (P_typed _ _ _ Hm) as Ht. destruct m as [rp|rl|dm]; cbn in Ht.
    + by destruct Ht as [[] _].
    + case_match; [by apply post_Ret|]. eapply post_bindO; [by apply (Hon d ds)|].
      intros [acc' err] Hacc. cbn in Hacc. by destruct err; apply post_Ret.
    + destruct Ht as [Heq _]. by destruct (links_not_status d).
  - intros [[acc' reload] err] Hacc.
    assert (HJ' : J ds (if reload then to_reload wanted d acc' else acc')).
    { destruct reload; [subst; by apply Hrel|done]. }
    destruct err; [apply post_Ret; by exists ds|by apply IH].
Qed.

Lemma load_metadata_post (on : step deviceMetadataProjection) (J : list string -> Search A -> Prop) :
  (forall d rest dm acc, J (d :: rest) acc -> P d (MakeStatusResourceUUID d) (DMP dm) ->
     post (on acc dm) (out pk (fun r => J rest r.1))) ->
  (forall d rest acc, J (d :: rest) acc -> J rest (to_reload wanted d acc)) ->
  forall ds acc err, J ds acc -> post (load_metadata wanted on ds acc err) (out pk (fun r => J [] r.1)).
Proof.
  intros Hon Hrel ds. induction ds as [|d ds IH]; intros acc err HJ; cbn [load_metadata]; [by apply post_Ret|].
  eapply post_bind; [apply Models_at_post|]. intros ms Hms.
  apply (post_bindO _ _ _ _ (fun '(acc', reload, _) => if reload : bool then acc' = acc else J ds acc')).
  - destruct Hms as [-> | (m & -> & Hm)]; cbn [visit_metadata]; [by apply post_Ret|].
    pose proof (P_typed _ _ _ Hm) as Ht. destruct m as [rp|rl|dm]; cbn in Ht.
    + by destruct Ht as [_ []].
    + destruct Ht as [Heq _]. by destruct (links_not_status d).
    + case_match; [by apply post_Ret|]. eapply post_bindO; [by apply (Hon d ds)|].
      intros [acc' err'] Hacc. cbn in Hacc. by destruct err'; apply post_Ret.
  - intros [[acc' reload] err'] Hacc. apply IH. destruct reload; [subst; by apply Hrel|done].
Qed.

(** The same for what holds all along. *)
Section invariant.
Context (inv : Search A -> Prop).
Definition keeps (p : prog DirState (outcome (Search A * option error))) : Prop := post p (out pk (fun r => inv r.1)).

Lemma range_set_elem ids d : d ∈ range_set ids <-> d ∈ ids.
Proof. by rewrite range_set_perm, elem_of_elements. Qed.

Lemma LoadResourceLinks_keeps ids on acc :
  (forall d rl acc, d ∈ ids -> P d (MakeLinksResourceUUID d) (RLP rl) -> inv acc -> keeps (on acc rl)) ->
  (forall d acc, d ∈ ids -> inv acc -> inv (to_reload wanted d acc)) ->
  inv acc -> keeps (LoadResourceLinks wanted ids on acc).
Proof.
  intros Hon Hrel Hacc. eapply post_weaken.
  - apply (load_links_post on (fun ds acc => Forall (.∈ ids) ds /\ inv acc)).
    + intros d rest rl acc' [Hf Hinv] Hm. apply Forall_cons in Hf as [Hd Hf].
      eapply post_weaken; [by apply (Hon d)|]. intros [r|] Hr; [done|exact Hr].
    + intros d rest acc' [Hf Hinv]. apply Forall_cons in Hf as [Hd Hf]. auto.
    + split; [|exact Hacc]. apply Forall_forall. intros d. apply range_set_elem.
  - intros [r|] Hr; [by destruct Hr as (rest & _ & ?)|exact Hr].
Qed.
Lemma LoadDevicesMetadata_keeps ids on acc :
  (forall d dm acc, d ∈ ids -> P d (MakeStatusResourceUUID d) (DMP dm) -> inv acc -> keeps (on acc dm)) ->
  (forall d acc, d ∈ ids -> inv acc -> inv (to_reload wanted d acc)) ->
  inv acc -> keeps (LoadDevicesMetadata wanted ids on acc).
Proof.
  intros Hon Hrel Hacc. eapply post_weaken.
  - apply (load_metadata_post on (fun ds acc => Forall (.∈ ids) ds /\ inv acc)).
    + intros d rest dm acc' [Hf Hinv] Hm. apply Forall_cons in Hf as [Hd Hf].
      eapply post_weaken; [by apply (Hon d)|]. intros [r|] Hr; [done|exact Hr].
    + intros d rest acc' [Hf Hinv]. apply Forall_cons in Hf as [Hd Hf]. auto.
    + split; [|exact Hacc]. apply Forall_forall. intros d. apply range_set_elem.
  - intros [r|] Hr; [by destruct Hr as [_ ?]|exact Hr].
Qed.

(** Resources: [M d href types] holds of the resources of the device [d] that the filters
    let through. *)
Section resources.
Context (onResource : Search A -> DirResource -> Search A * option error) (devices : Set_).
Context (M : string -> string -> list string -> Prop).
Context (Hres : forall d a rp res acc, d ∈ devices -> P d a (RP rp) -> M d (res_Href res) (res_ResourceTypes res) ->
  inv acc -> inv (onResource acc (MkDirResource (Some rp) res)).1).
Context (Hrel : forall d acc, d ∈ devices -> inv acc -> inv (to_reload wanted d acc)).

Definition lets_through rf d : Prop := forall h ts, isMatchingResource rf h ts = true -> M d h ts.

Lemma visit_resource_keeps d a res ms acc err :
  d ∈ devices -> M d (res_Href res) (res_ResourceTypes res) ->
  (forall m, m ∈ ms -> P d a m) -> inv acc -> out False (fun r => inv r.1) (visit_resource onResource res ms acc err).
Proof.
  intros Hd Hm. revert acc err. induction ms as [|m ms IH]; intros acc err Hms Hacc; cbn [visit_resource]; [done|].
  assert (Hrest : forall x, x ∈ ms -> P d a x) by (intros x Hx; apply Hms; by right).
  assert (Hfirst : P d a m) by (apply Hms; by left).
  destruct m as [rp|rl|dm]; cbn; [|by apply IH..].
  pose proof (Hres d a rp res acc Hd Hfirst Hm Hacc) as Hinv.
  destruct (onResource _ _) as [acc' [e|]]; [exact Hinv|by apply IH].
Qed.
Lemma iterate_resources_keeps d rl rf resources acc err :
  d ∈ devices -> lets_through rf d -> lp_deviceID rl = d -> inv acc -> keeps (iterate_resources onResource rl rf resources acc err).
Proof.
  intros Hd Hrf Hrl. revert acc err. induction resources as [|res resources IH]; intros acc err Hacc; cbn [iterate_resources].
  { by apply post_Ret. }
  destruct (isMatchingResource _ _ _) eqn:Hm; cbn [negb]; [|by apply IH].
  eapply post_bind; [apply Models_at_post|]. intros ms Hms. rewrite Hrl in Hms.
  apply (post_bindO _ _ _ _ (fun r => inv r.1)); [|intros [acc' err'] Hacc'; by apply IH].
  apply post_Ret. set (a := ResourceId_ToUUID _) in *.
  assert (Hall : forall m, m ∈ ms -> P d a m).
  { destruct Hms as [-> | (m & -> & Hm')]; [set_solver|]. by intros x ->%list_elem_of_singleton. }
  pose proof (visit_resource_keeps d a res ms acc err Hd (Hrf _ _ Hm) Hall Hacc) as Ho.
  by destruct (visit_resource _ _ _ _ _).
Qed.
Lemma want_reload_post rl rf resources : post (want_reload rl rf resources) (fun _ => True).
Proof. done. Qed.
Lemma loadResourceWithLinks_keeps d rf acc :
  d ∈ devices -> lets_through rf d -> inv acc -> keeps (loadResourceWithLinks wanted onResource d rf acc).
Proof.
  intros Hd Hrf Hacc. unfold loadResourceWithLinks. apply LoadResourceLinks_keeps; [| |done].
  - intros d' rl acc' ->%elem_of_singleton Hm Hacc'.
    assert (Hdev : lp_deviceID rl = d) by apply (P_typed _ _ _ Hm).
    eapply post_bind; [apply want_reload_post|]. intros reload _. rewrite Hdev.
    destruct (reload && wanted); [apply post_Ret; by apply Hrel|]. by apply (iterate_resources_keeps d).
  - intros d' acc' ->%elem_of_singleton Hacc'. by apply Hrel.
Qed.
Lemma visit_group_keeps rf d ms acc :
  d ∈ devices -> lets_through rf d -> (forall m, m ∈ ms -> exists a, P d a m) -> inv acc -> inv (visit_group onResource rf ms acc).
Proof.
  intros Hd Hrf. revert acc. induction ms as [|m ms IH]; intros acc Hms Hacc; cbn [visit_group]; [done|].
  assert (Hrest : forall x, x ∈ ms -> exists a, P d a x) by (intros x Hx; apply Hms; by right).
  destruct m as [rp|rl|dm]; [|by apply IH..].
  destruct (isMatchingResource _ _ _) eqn:Hm; cbn [negb]; [|by apply IH].
  destruct (Hms (RP rp) ltac:(by left)) as [a Ha].
  set (res := MkResource _ _ _ _ _ _ _ _ _ _).
  pose proof (Hres d a rp res acc Hd Ha (Hrf _ _ Hm) Hacc) as Hinv.
  destruct (onResource _ _) as [acc' [e|]]; [exact Hinv|by apply IH].
Qed.

Lemma grouped_devices ids d : d ∈ range_keys (getResourceIDMapFilter ids) ->
  exists id, id ∈ ids /\ id ~> rid_DeviceId = d.
Proof.
  rewrite range_keys_perm. intros ([d' o] & -> & Hd)%list_elem_of_fmap. apply elem_of_map_to_list in Hd. cbn.
  destruct (proj1 (grouped_filter_selects ids d'
    (match o with Some hs => default "" (head (elements hs)) | None => "" end)%string)) as (id & Hid & Hdev & _);
    [|by exists id].
  unfold selects. rewrite Hd. destruct o as [hs|]; [|done]. cbn. rewrite size_nonzero.
  case_bool_decide as He; [by subst|]. cbn. rewrite negb_involutive. apply bool_decide_eq_true.
  rewrite <- elem_of_elements. destruct (elements hs) eqn:Hel; [|by left].
  apply elements_empty_inv in Hel. by apply leibniz_equiv in Hel.
Qed.

Lemma LoadResources_keeps ans ids typeFilter hidden acc :
  (hidden = true -> pk) -> (forall id, id ∈ ids -> id ~> rid_DeviceId ∈ devices) -> ""%string ∉ devices ->
  (forall d h ts, selects (getResourceIDMapFilter ids) d h = true -> hasMatchingType ts typeFilter = true -> M d h ts) ->
  inv acc -> keeps (LoadResources getTopics subscriber wanted onResource ans ids typeFilter hidden acc).
Proof.
  intros Hpk Hids Hne HM Hacc. unfold LoadResources. pose proof (grouped_devices ids) as Hgr.
  set (filter := getResourceIDMapFilter ids) in *.
  assert (Hf : Forall (fun d => d ∈ devices /\ is_Some (filter !! d)) (range_keys filter)).
  { apply Forall_forall. intros d Hd. destruct (Hgr d Hd) as (id & Hid & <-). split; [by apply Hids|].
    rewrite range_keys_perm in Hd. apply list_elem_of_fmap in Hd as ([d' o] & -> & Hd).
    apply elem_of_map_to_list in Hd. by exists o. }
  clear Hgr. revert acc Hacc. induction (range_keys filter) as [|d ds IH]; intros acc Hacc; cbn [load_resources].
  { by apply post_Ret. }
  apply Forall_cons in Hf as [[Hd [o Ho]] Hf]. cbv zeta.
  set (rf := MkResourceFilter (default None (filter !! d)) typeFilter).
  assert (Hrf : lets_through rf d).
  { intros h ts. unfold isMatchingResource, rf. cbn. rewrite Ho. cbn. destruct (href_excluded o h) eqn:He; [done|].
    intros Hts. apply HM; [|done]. unfold selects. rewrite Ho. by rewrite He. }
  eapply (post_bindO _ _ _ _ (fun r => inv r.1)); [|intros [acc' [e|]] Hacc'; [by apply post_Ret|by apply IH]].
  destruct hidden; [|by apply loadResourceWithLinks_keeps]. unfold loadAllDeviceResources.
  eapply (post_bindO _ _ _ _ (fun _ => True)); [intros [?|] _; [done|by apply Hpk]|].
  intros [e|] _; [by apply post_Ret|].
  eapply post_bind; [apply GroupsModels_post; by intros ->|]. intros ms Hms. apply post_Ret. by apply (visit_group_keeps _ d).
Qed.
End resources.
End invariant.
End visits.

Lemma two_passes_keeps {A} (inv : Search A -> Prop) e
    (first : Search A -> prog DirState (outcome (Search A * option error))) second sent :
  keeps True inv (first (MkSearch sent ∅)) -> (forall acc, inv acc -> keeps True inv (second (se_reload acc) acc)) ->
  keeps True inv (two_passes getTopics subscriber e first second sent).
Proof.
  intros Hf Hs. unfold two_passes. eapply (post_bindO _ _ _ _ (fun r => inv r.1)); [exact Hf|].
  intros [acc [err|]] Hacc; [by apply post_Ret|]. destruct (size (se_reload acc) =? 0)%nat; [by apply post_Ret|].
  eapply post_bindO; [apply post_True|]. intros [] _. by apply Hs.
Qed.
End searches.

(** ** Whose data is sent *)
Class HasDevice (A : Type) := device_of : A -> option string.
Definition of_resource (rc : option ResourceChanged) : string := (rc ~> rc_ResourceId) ~> rid_DeviceId.
#[export] Instance HasDevice_Device : HasDevice pb_Device := fun m => Some (of_resource (pd_Data m)).
#[export] Instance HasDevice_Links : HasDevice ResourceLinksPublished := fun m => Some (rlp_DeviceId m).
#[export] Instance HasDevice_Metadata : HasDevice DeviceMetadataUpdated := fun m => Some (dmu_DeviceId m).
#[export] Instance HasDevice_Resource : HasDevice pb_Resource :=
  fun m => (fun rc => of_resource (Some rc)) <$> pr_Data m.
#[export] Instance HasDevice_Pending : HasDevice pb_PendingCommand := fun c => Some
  match c with
  | PendingCommand_ResourceCreatePending p => (rcp_ResourceId p) ~> rid_DeviceId
  | PendingCommand_ResourceRetrievePending p => (rrp_ResourceId p) ~> rid_DeviceId
  | PendingCommand_ResourceUpdatePending p => (rup_ResourceId p) ~> rid_DeviceId
  | PendingCommand_ResourceDeletePending p => (rdp_ResourceId p) ~> rid_DeviceId
  | PendingCommand_DeviceMetadataUpdatePending p => dmp_DeviceId p
  end.
Definition only_about {A} `{!HasDevice A} (devices : Set_) (l : list A) : Prop :=
  forall m g, m ∈ l -> device_of m = Some g -> g ∈ devices.

(** What the event store has in the group of a device is about the device. *)
Definition resource_commands (rp : resourceProjection) : list pb_PendingCommand :=
  map PendingCommand_ResourceCreatePending (rp_resourceCreatePendings rp)
  ++ map PendingCommand_ResourceRetrievePending (rp_resourceRetrievePendings rp)
  ++ map PendingCommand_ResourceUpdatePending (rp_resourceUpdatePendings rp)
  ++ map PendingCommand_ResourceDeletePending (rp_resourceDeletePendings rp).
Definition metadata_commands (dm : deviceMetadataProjection) : list pb_PendingCommand :=
  map PendingCommand_DeviceMetadataUpdatePending (elems ((mp_snapshot dm) ~> dms_UpdatePendings)).
Definition about (g : string) (m : dirModel) : Prop :=
  match m with
  | RP rp => (forall rc, rp_content rp = Some rc -> of_resource (Some rc) = g) /\
             forall c, c ∈ resource_commands rp -> device_of c = Some g
  | RLP _ => True
  | DMP dm => (forall u, GetDeviceMetadataUpdated dm = Some u -> dmu_DeviceId u = g) /\
              forall c, c ∈ metadata_commands dm -> device_of c = Some g
  end.

Lemma appendPendingCmd_in {T} `{!PendingEvent T} acc filter bit now (create : T -> pb_PendingCommand) data c :
  c ∈ appendPendingCmd acc filter bit now create data -> c ∈ acc \/ c ∈ map create data.
Proof.
  unfold appendPendingCmd. destruct (IsFilteredBit _ _); [|by left].
  revert acc. induction data as [|x data IH]; intros acc; cbn [fold_left]; [by left|].
  intros [Hc|Hc]%IH; [|right; by right]. destruct (pe_IsExpired _ _); [by left|].
  apply elem_of_app in Hc as [Hc|Hc]; [by left|]. apply list_elem_of_singleton in Hc as ->. right. by left.
Qed.
Lemma ToPendingCommands_in rp filter now c : c ∈ ToPendingCommands rp filter now -> c ∈ resource_commands rp.
Proof.
  unfold ToPendingCommands, resource_commands. rewrite !elem_of_app. intros Hc.
  do 4 (apply appendPendingCmd_in in Hc as [Hc|Hc]; [|tauto]). set_solver.
Qed.
Lemma GetDeviceUpdatePendings_in dm now c :
  c ∈ map PendingCommand_DeviceMetadataUpdatePending (GetDeviceUpdatePendings dm now) -> c ∈ metadata_commands dm.
Proof.
  intros (p & -> & Hp)%list_elem_of_fmap. apply list_elem_of_fmap. exists p. split; [done|].
  unfold GetDeviceUpdatePendings in Hp. apply list_elem_of_In, filter_In in Hp as [Hp _]. by apply list_elem_of_In.
Qed.

Section requests.
Context `{!UUIDLib, !UUIDLaws, !KitSet, !KitSetLaws, !RefCounter, !ExpiringCache, !MapOrder, !MapOrderLaws, !DeviceLib,
  !DeviceLibLaws}
  {D : Type} `{!Model dirModel D}.
Context (getTopics : string -> string -> list string) (subscriber : bool).
Context (P : string -> string -> dirModel -> Prop).
Context (P_typed : forall g a m, P g a m -> typed g a m) (P_about : forall g a m, P g a m -> about g m).
Context (devices : Set_) (devices_named : ""%string ∉ devices).

(** What all five requests keep. *)
Definition mine {A} `{!HasDevice A} (acc : Search A) : Prop :=
  only_about devices (se_sent acc) /\ forall d, d ∈ se_reload acc -> d ∈ devices.
#[local] Abbreviation keeps := (keeps P True mine).

Section one.
Context {A : Type} `{!HasDevice A} (send : list A -> A -> option error).
Lemma mine_to_reload wanted d (acc : Search A) : d ∈ devices -> mine acc -> mine (to_reload wanted d acc).
Proof.
  intros Hd [Hs Hr]. destruct wanted; [|done]. split; [done|]. cbn. intros d' [?|?]%Set_Add_spec; [by apply Hr|set_solver].
Qed.
Lemma mine_Send msg acc m :
  (forall g, device_of m = Some g -> g ∈ devices) -> mine acc -> mine (Send send msg acc m).1.
Proof.
  intros Hm [Hs Hr]. unfold Send. destruct (send _ _); [done|]. split; [|done]. cbn.
  intros m' g [Hin | ->%list_elem_of_singleton]%elem_of_app; [by apply Hs|apply Hm].
Qed.
Lemma mine_Send_all msg acc ms :
  (forall m g, m ∈ ms -> device_of m = Some g -> g ∈ devices) -> mine acc -> mine (Send_all send msg acc ms).1.
Proof.
  revert acc. induction ms as [|m ms IH]; intros acc Hms Hacc; cbn [Send_all]; [done|].
  pose proof (mine_Send msg acc m (fun g => Hms m g ltac:(by left)) Hacc) as Hinv.
  destruct (Send send msg acc m) as [acc' [e|]]; [exact Hinv|]. apply IH; [|exact Hinv].
  intros x g Hx. apply Hms. by right.
Qed.
Lemma mine_start sent : only_about devices sent -> mine (MkSearch (A := A) sent ∅).
Proof. split; [done|]. cbn. set_solver. Qed.
Lemma mine_empty : mine (MkSearch (A := A) [] ∅).
Proof. apply mine_start. by intros m g ?%elem_of_nil. Qed.
End one.

Lemma GetDevices_mine send e req : keeps (GetDevices getTopics subscriber send e devices req).
Proof.
  unfold GetDevices. destruct (_ =? 0)%nat; [apply post_Ret, mine_empty|].
  assert (Hpass : forall wanted ans ids acc, (forall d, d ∈ ids -> d ∈ devices) -> mine acc ->
    keeps (sendDevices getTopics subscriber send ans wanted ids req acc)).
  { intros wanted ans ids acc Hids Hacc. apply LoadDevicesMetadata_keeps; [done| |by intros; apply mine_to_reload; auto|done].
    intros d dm acc' Hd Hm Hacc'. cbv zeta. destruct (hasMatchingStatus _ _); [|by apply post_Ret]. cbn [negb].
    assert (Hdev : mp_deviceID dm = d) by apply (P_typed _ _ _ Hm). rewrite Hdev.
    apply LoadResources_keeps with (devices := devices) (M := fun _ h _ => h = device_ResourceURI);
      [exact P_typed| |by intros; apply mine_to_reload|done| |done| |done].
    - intros d' a rp res acc2 Hd' Hrp Href Hacc2. unfold send_device, updateDevice.
      cbv beta in Href. cbn [dr_Resource]. rewrite Href, String.eqb_refl. destruct (decodeContent _) as [err|c] eqn:Hc; [done|].
      apply mine_Send; [|done]. intros g [= <-]. cbn. destruct (rp_content rp) as [rc|] eqn:Hrc.
      + destruct (P_about _ _ _ Hrp) as [Hab _]. by rewrite (Hab rc Hrc).
      + exfalso. unfold decodeContent, GetContent, GetResourceChanged in Hc. cbn in Hc. by rewrite Hrc in Hc.
    - intros id ->%list_elem_of_singleton. cbn. by apply Hids.
    - intros d' h ts (id & ->%list_elem_of_singleton & _ & [Hz|Hh])%grouped_filter_selects _; [|done].
      by destruct device_ResourceURI_some. }
  apply two_passes_keeps; [|intros acc Hacc; apply Hpass; [apply Hacc|done]].
  apply Hpass; [by intros d [? _]%filterDevices_spec|apply mine_empty].
Qed.

Lemma GetResourceLinks_mine send e req : keeps (GetResourceLinks getTopics subscriber send e devices req).
Proof.
  unfold GetResourceLinks. destruct (_ =? 0)%nat; [apply post_Ret, mine_empty|].
  assert (Hpass : forall wanted ids tf acc, (forall d, d ∈ ids -> d ∈ devices) -> mine acc ->
    keeps (sendResourceLinks send wanted ids tf acc)).
  { intros wanted ids tf acc Hids Hacc.
    apply LoadResourceLinks_keeps; [done| |by intros; apply mine_to_reload; auto|done].
    intros d rl acc' Hd Hm Hacc'. apply post_Ret.
    assert (Hdev : lp_deviceID rl = d) by apply (P_typed _ _ _ Hm).
    destruct (ToResourceLinksPublished _ rl tf) as [m|] eqn:Hl; [|done]. apply mine_Send; [|done].
    intros g [= <-]. unfold ToResourceLinksPublished in Hl. destruct (_ =? 0)%nat; [done|]. injection Hl as <-.
    cbn. rewrite Hdev. by apply Hids. }
  apply two_passes_keeps; [|intros acc Hacc; apply Hpass; [apply Hacc|done]].
  apply Hpass; [by intros d [? _]%filterDevices_spec|apply mine_empty].
Qed.

Lemma GetDevicesMetadata_mine send e req : keeps (GetDevicesMetadata getTopics subscriber send e devices req).
Proof.
  unfold GetDevicesMetadata.
  assert (Hpass : forall wanted ids tf acc, (forall d, d ∈ ids -> d ∈ devices) -> mine acc ->
    keeps (sendDevicesMetadata send wanted ids tf acc)).
  { intros wanted ids tf acc Hids Hacc.
    apply LoadResourceLinks_keeps; [done| |by intros; apply mine_to_reload; auto|done].
    intros d rl acc' Hd Hm Hacc'. cbv beta.
    assert (Hdev : lp_deviceID rl = d) by apply (P_typed _ _ _ Hm). rewrite Hdev.
    destruct (GetResource _ _); [|apply post_Ret; apply mine_to_reload; auto]. destruct (_ && _); [by apply post_Ret|].
    apply LoadDevicesMetadata_keeps; [done| |intros ? ? ->%elem_of_singleton; apply mine_to_reload; auto|done].
    intros d' dm acc2 ->%elem_of_singleton Hdm Hacc2. apply post_Ret. apply P_about in Hdm as [Hu _].
    destruct (GetDeviceMetadataUpdated dm) as [u|]; [|done]. apply mine_Send; [|done].
    intros g [= <-]. cbn. rewrite (Hu u) by done. by apply Hids. }
  apply two_passes_keeps; [|intros acc Hacc; apply Hpass; [apply Hacc|done]].
  apply Hpass; [by intros d [? _]%filterDevices_spec|apply mine_empty].
Qed.

Definition filters_mine (ids : list (option ResourceIdFilter)) : Prop :=
  forall id, id ∈ ids -> (filter_id id) ~> rid_DeviceId ∈ devices.
Lemma convertToResourceIDs_mine ids l : filters_mine (convertToResourceIDs devices ids l).
Proof.
  unfold convertToResourceIDs. set (kept := _ ++ _).
  assert (Hk : filters_mine kept).
  { intros id [Hid|Hid]%elem_of_app.
    - apply list_elem_of_In, filter_In in Hid as [_ Hid]. rewrite Set_HasOneOf_one in Hid. by bool_prop.
    - apply list_elem_of_fmap in Hid as (d & -> & Hd). apply list_elem_of_In, filter_In in Hd as [_ Hd].
      rewrite Set_HasOneOf_one in Hd. by bool_prop. }
  destruct (length kept =? 0)%nat; [|exact Hk]. destruct (_ || _); [by intros id ?%elem_of_nil|].
  intros id (d & -> & Hd)%list_elem_of_fmap. cbn. by apply range_set_elem.
Qed.
Lemma reloaded_filters_mine toReload ids : filters_mine ids -> filters_mine (reloaded_filters toReload ids).
Proof. intros Hids id Hid. apply list_elem_of_In, filter_In in Hid as [Hid _]. apply Hids. by apply list_elem_of_In. Qed.
Lemma simple_mine ids id : filters_mine ids -> id ∈ resourceIdFilterToSimple ids -> id ~> rid_DeviceId ∈ devices.
Proof. intros Hids (f & -> & Hf)%list_elem_of_fmap. by apply Hids. Qed.

Lemma GetResources_mine send e req : keeps (GetResources getTopics subscriber send e devices req).
Proof.
  unfold GetResources. cbv zeta.
  assert (Hpass : forall wanted ans ids tf acc, filters_mine ids -> mine acc ->
    keeps (getResources getTopics subscriber send ans wanted ids tf acc)).
  { intros wanted ans ids tf acc Hids Hacc. apply LoadResources_keeps with (devices := devices) (M := fun _ _ _ => True);
      [exact P_typed| |by intros; apply mine_to_reload|done|intros id; by apply simple_mine|done|done|done].
    intros d a rp res acc' Hd Hrp _ Hacc'. apply mine_Send; [|done]. rewrite updateContent_spec.
    intros g. apply P_about in Hrp as [Hc _]. destruct (existsb _ _) eqn:Hex; cbn.
    - intros [= <-]. apply existsb_exists in Hex as (v & Hv%list_elem_of_In & [Heq _]%andb_true_iff).
      apply ResourceId_Equal_device in Heq. cbn in Heq. unfold of_resource. cbn. rewrite <- Heq. by apply Hids.
    - destruct (rp_content rp) as [rc|]; [|done]. intros [= <-]. by rewrite (Hc rc). }
  apply two_passes_keeps.
  - apply Hpass; [apply convertToResourceIDs_mine|apply mine_empty].
  - intros acc Hacc. apply Hpass; [apply reloaded_filters_mine, convertToResourceIDs_mine|done].
Qed.

Lemma GetPendingCommands_mine send e_metadata e now req :
  keeps (GetPendingCommands getTopics subscriber send e_metadata e now devices req).
Proof.
  unfold GetPendingCommands. cbv zeta.
  assert (Hmeta : forall wanted ids acc, (forall d, d ∈ ids -> d ∈ devices) -> mine acc ->
    keeps (sendDeviceMetadataUpdatePendingCommands send wanted ids now acc)).
  { intros wanted ids acc Hids Hacc. apply LoadDevicesMetadata_keeps; [done| |by intros; apply mine_to_reload; auto|done].
    intros d dm acc' Hd Hm Hacc'. apply post_Ret. apply P_about in Hm as [_ Hc]. apply mine_Send_all; [|done].
    intros c g Hin%GetDeviceUpdatePendings_in Hg. rewrite (Hc c Hin) in Hg. injection Hg as <-. by apply Hids. }
  assert (Hpass : forall wanted ans ids tf f hidden acc, filters_mine ids -> mine acc ->
    keeps (sendPendingCommands getTopics subscriber send ans wanted ids tf f hidden now acc)).
  { intros wanted ans ids tf f hidden acc Hids Hacc.
    apply LoadResources_keeps with (devices := devices) (M := fun _ _ _ => True);
      [exact P_typed| |by intros; apply mine_to_reload|done|intros id; by apply simple_mine|done|done|done].
    intros d a rp res acc' Hd Hrp _ Hacc'. apply mine_Send_all; [|done]. apply P_about in Hrp as [_ Hc].
    intros c g Hin%ToPendingCommands_in Hg. rewrite (Hc c Hin) in Hg. by injection Hg as <-. }
  eapply (post_bindO _ _ _ _ (fun r => mine r.1)).
  - unfold getDeviceMetadataUpdatePendingCommands. destruct (_ && _); [|apply post_Ret, mine_empty].
    apply two_passes_keeps; [|intros acc Hacc; apply Hmeta; [apply Hacc|done]].
    apply Hmeta; [by intros d [? _]%filterDevices_spec|apply mine_empty].
  - intros [acc [err|]] Hacc; [by apply post_Ret|]. apply two_passes_keeps.
    + apply Hpass; [apply convertToResourceIDs_mine|apply mine_start, Hacc].
    + intros acc' Hacc'. apply Hpass; [apply reloaded_filters_mine, convertToResourceIDs_mine|done].
Qed.
End requests.

(** ** The handlers *)
Section handlers.
Context `{!UUIDLib, !UUIDLaws, !KitSet, !KitSetLaws, !RefCounter, !ExpiringCache, !MapOrder, !MapOrderLaws, !DeviceLib,
  !DeviceLibLaws} {D : Type} `{!Model dirModel D}.
Context (getTopics : string -> string -> list string) (subscriber : bool).

(** At all times every model is of the kind of its identifier and about the device of
    its group. *)
Definition tidy : DirState -> Prop := sound (fun g a m => typed g a m /\ about g m).

Lemma handler_mine {A} `{!HasDevice A} m1 m2 owner deviceIDs
    (serve : Set_ -> prog DirState (outcome (Search A * option error))) sent err :
  ""%string ∉ deviceIDs ->
  (forall ids, ""%string ∉ ids -> keeps (fun g a m => typed g a m /\ about g m) True (mine ids) (serve ids)) ->
  yields tidy (handler m1 m2 owner (inr deviceIDs) serve) (Returns (sent, err)) ->
  only_about (list_to_set deviceIDs) sent.
Proof.
  intros Hne Hserve. unfold handler. destruct owner as [e|o].
  { intros [= -> _]%yields_Ret. by intros m g ?%elem_of_nil. }
  intros ([acc er] & Hy & [= -> _]%yields_Ret)%yields_bindO_Returns.
  assert (Hids : forall d, d ∈ NewDeviceIds deviceIDs <-> d ∈ deviceIDs).
  { intros d. unfold NewDeviceIds. rewrite Set_Add_spec. set_solver. }
  destruct (Hserve (NewDeviceIds deviceIDs) ltac:(by rewrite Hids) _ Hy) as [Honly _].
  intros m g Hm Hg. apply elem_of_list_to_set, Hids. by eapply Honly.
Qed.

(** C7: Whatever other goroutines do to the models while a request is served (events,
    reloads, evictions, other requests), each of the five requests sends messages about
    devices of the owner only. *)
Theorem requests_stay_with_owner owner deviceIDs : ""%string ∉ deviceIDs ->
  (forall send e req sent err,
     yields tidy (RequestHandler_GetDevices getTopics subscriber owner (inr deviceIDs) send e req)
       (Returns (sent, err)) -> only_about (list_to_set deviceIDs) sent) /\
  (forall send e req sent err,
     yields tidy (RequestHandler_GetResourceLinks getTopics subscriber owner (inr deviceIDs) send e req)
       (Returns (sent, err)) -> only_about (list_to_set deviceIDs) sent) /\
  (forall send e req sent err,
     yields tidy (RequestHandler_GetDevicesMetadata getTopics subscriber owner (inr deviceIDs) send e req)
       (Returns (sent, err)) -> only_about (list_to_set deviceIDs) sent) /\
  (forall send e req sent err,
     yields tidy (RequestHandler_GetResources getTopics subscriber owner (inr deviceIDs) send e req)
       (Returns (sent, err)) -> only_about (list_to_set deviceIDs) sent) /\
  (forall send e_metadata e now req sent err,
     yields tidy (RequestHandler_GetPendingCommands getTopics subscriber owner (inr deviceIDs) send e_metadata e now req)
       (Returns (sent, err)) -> only_about (list_to_set deviceIDs) sent).
Proof.
  intros Hne. split_and!; intros *; apply handler_mine; [done| |done| |done| |done| |done|]; intros ids Hids.
  - by apply GetDevices_mine; [intros ??? [??]..|].
  - by apply GetResourceLinks_mine; [intros ??? [??]..|].
  - by apply GetDevicesMetadata_mine; [intros ??? [??]..|].
  - by apply GetResources_mine; [intros ??? [??]..|].
  - by apply GetPendingCommands_mine; [intros ??? [??]..|].
Qed.

(** *** Once *)
Definition sent_devices (acc : Search ResourceLinksPublished) : list string := rlp_DeviceId <$> se_sent acc.
(** The devices [rest] are left to search; those that will be reloaded ([first]) have
    sent nothing. *)
Definition once (first : Prop) (rest : list string) (acc : Search ResourceLinksPublished) : Prop :=
  NoDup (sent_devices acc) /\ NoDup rest /\ (forall d, d ∈ rest -> d ∉ sent_devices acc) /\
  (first -> forall d, d ∈ se_reload acc -> d ∉ sent_devices acc /\ d ∉ rest).

Lemma once_pass (first : Prop) wanted send tf ids acc :
  (wanted = true -> first) -> (first -> wanted = true) -> once first (range_set ids) acc ->
  post tidy (sendResourceLinks send wanted ids tf acc) (out True (fun r => exists rest, once first rest r.1)).
Proof.
  intros Hw Hf Hacc. apply load_links_post with (P := fun g a m => typed g a m /\ about g m);
    [by intros ??? [??]| | |exact Hacc]; clear acc Hacc.
  - intros d rest rl acc (Hs & Hr & Hd & Hrel) [[_ Hdev] _]. apply post_Ret. cbn [out].
    apply NoDup_cons in Hr as [Hdr Hr].
    assert (Hkeep : once first rest acc).
    { split_and!; [done|done| |]; [set_solver|]. intros F x Hx. destruct (Hrel F x Hx). set_solver. }
    destruct (ToResourceLinksPublished _ rl tf) as [m|] eqn:Hl; [|exact Hkeep].
    assert (Hm : rlp_DeviceId m = d).
    { unfold ToResourceLinksPublished in Hl. destruct (_ =? 0)%nat; [done|]. by injection Hl as <-. }
    unfold Send. destruct (send _ _); [exact Hkeep|]. unfold once, sent_devices. cbn [fst se_sent se_reload].
    rewrite fmap_app. cbn [fmap list_fmap]. rewrite Hm. split_and!.
    + apply NoDup_app. split_and!; [done| |apply NoDup_singleton]. intros x Hx ->%list_elem_of_singleton.
      apply (Hd d); [by left|done].
    + done.
    + intros x Hx. rewrite elem_of_app, list_elem_of_singleton. intros [Hin | ->]; [|done].
      by apply (Hd x); [right|].
    + intros F x Hx. destruct (Hrel F x Hx) as [Hns Hnr]. rewrite elem_of_app, list_elem_of_singleton. set_solver.
  - intros d rest acc (Hs & Hr & Hd & Hrel). apply NoDup_cons in Hr as [Hdr Hr]. unfold once, to_reload.
    destruct wanted eqn:Hw'; cbn [se_sent se_reload]; [|split_and!; [done|done|set_solver|by intros F%Hf]].
    split_and!; [done|done| |]; [intros x Hx; apply Hd; by right|].
    intros F x [Hx|Hx]%Set_Add_spec; [destruct (Hrel F x Hx); set_solver|].
    apply list_elem_of_singleton in Hx as ->. split; [apply Hd; by left|done].
Qed.
Lemma range_set_NoDup ids : NoDup (range_set ids).
Proof. rewrite range_set_perm. apply NoDup_elements. Qed.

(** The links of a device are sent once at most, in the two searches together, whatever
    the other goroutines do in between. *)
Theorem links_sent_once send e devices req acc err :
  yields tidy (GetResourceLinks getTopics subscriber send e devices req) (Returns (acc, err)) ->
  NoDup (sent_devices acc).
Proof.
  intros Hy. cut (post tidy (GetResourceLinks getTopics subscriber send e devices req)
    (out True (fun r => NoDup (sent_devices r.1)))); [intros Hp; exact (Hp _ Hy)|].
  unfold GetResourceLinks. destruct (_ =? 0)%nat; [apply post_Ret; constructor|].
  unfold two_passes. eapply post_bindO.
  - apply (once_pass True); [done|done|]. split_and!; [constructor|apply range_set_NoDup|set_solver|set_solver].
  - intros [acc1 [e1|]] (rest & Hs & _ & _ & Hrel); [by apply post_Ret|].
    destruct (_ =? 0)%nat; [by apply post_Ret|]. eapply post_bindO; [apply post_True|]. intros [] _.
    eapply post_weaken; [apply (once_pass False); [done|done|]|].
    + split_and!; [done|apply range_set_NoDup| |done]. intros d Hd%range_set_elem. by apply Hrel.
    + intros [r|]; [by intros (rest' & ? & _)|done].
Qed.
End handlers.
