(* ===== verification/DirectoryRun.v ===== *)
(** * Requests of resource-directory that run alone

    With everything that is asked for in the projection, the searches change nothing
    and send exactly what the filters select. *)

From Stdlib Require Import ZArith Lia String.
From S2P Require Import Prelude Commands Events EventStore Projection ProjectionFacts Goroutines DeviceProjection.
From S2P Require Import ResourceLinks Subscription ResourceIdFilters.
From S2P Require Import DirectoryModels DirectoryProjection Directory DirectoryFacts.

Section run.
Context `{!UUIDLib, !UUIDLaws, !KitSet, !KitSetLaws, !RefCounter, !ExpiringCache, !MapOrder, !MapOrderLaws}
  {D : Type} `{!Model dirModel D}.
Context (getTopics : string -> string -> list string) (subscriber : bool).
Implicit Types (s : DirState).

Definition model_at s d a : option dirModel := am_model <$> lookup_model (p_models (ds_projection s)) d a.
Definition opt_list {B} (o : option B) : list B := match o with Some x => [x] | None => [] end.
Lemma run_Models_at d h s :
  run (Models_at d h) s = Some (s, opt_list (model_at s d (ResourceId_ToUUID (Some (NewResourceID d h))))).
Proof.
  unfold Models_at, models. rewrite run_act, Models_of_one by apply ToUUID_not_empty. unfold model_at.
  by destruct (lookup_model _ _ _).
Qed.

(** The links of a device, and each of the resources that are linked, are loaded. *)
Record loaded s (d : string) (rl : resourceLinksProjection) (rp : string -> resourceProjection) : Prop := {
  ld_links : model_at s d (MakeLinksResourceUUID d) = Some (RLP rl);
  ld_device : lp_deviceID rl = d;
  ld_some : LenResources rl <> 0;
  ld_resources : forall r, r ∈ resources_of rl ->
    model_at s d (ResourceId_ToUUID (Some (NewResourceID d (res_Href r)))) = Some (RP (rp (res_Href r))) }.

Lemma resources_of_elem rl r : r ∈ resources_of rl <-> exists href, lp_resources rl !! href = Some r.
Proof.
  unfold resources_of. rewrite list_elem_of_omap. setoid_rewrite range_keys_perm. split; [naive_solver|].
  intros [href Hr]. exists href. split; [|done]. apply list_elem_of_fmap. exists (href, r).
  by rewrite elem_of_map_to_list.
Qed.

Section searches.
Context {A : Type} (wanted : bool) (rl : string -> resourceLinksProjection) (rp : string -> string -> resourceProjection).
Implicit Types (acc : Search A).

Lemma run_load_links (on : Search A -> resourceLinksProjection -> prog DirState (outcome (Search A * option error)))
    (f : Search A -> string -> Search A) s ds acc :
  (forall d, d ∈ ds -> loaded s d (rl d) (rp d)) ->
  (forall d acc, d ∈ ds -> run (on acc (rl d)) s = Some (s, Returns (f acc d, None))) ->
  run (load_links wanted on ds acc) s = Some (s, Returns (fold_left f ds acc, None)).
Proof.
  intros Hl Hon. revert acc. induction ds as [|d ds IH]; intros acc; cbn [load_links fold_left]; [done|].
  destruct (Hl d ltac:(by left)) as [Hm _ Hlen _]. rewrite run_seq, run_Models_at.
  change (ResourceId_ToUUID (Some (NewResourceID d ResourceLinksHref))) with (MakeLinksResourceUUID d). rewrite Hm.
  cbn [opt_list]. rewrite run_bindO. cbn [visit_links]. apply Nat.eqb_neq in Hlen. rewrite Hlen.
  rewrite run_bindO, (Hon d acc) by by left. cbn [run]. apply IH; [intros; apply Hl|intros; apply Hon]; by right.
Qed.

Section resources.
Context (onResource : Search A -> DirResource -> Search A * option error) (f : Search A -> DirResource -> Search A).
Hypothesis on_ok : forall acc r, onResource acc r = (f acc r, None).

(** The resources of a device that a filter selects, as the search finds them. *)
Definition matching (rf : resourceFilter) (d : string) : list DirResource :=
  map (fun r => MkDirResource (Some (rp d (res_Href r))) r)
    (List.filter (fun r => isMatchingResource rf (res_Href r) (res_ResourceTypes r)) (resources_of (rl d))).

Lemma run_iterate_resources rf d rs s acc :
  loaded s d (rl d) (rp d) -> (forall r, r ∈ rs -> r ∈ resources_of (rl d)) ->
  run (iterate_resources onResource (rl d) rf rs acc None) s =
  Some (s, Returns (fold_left f (map (fun r => MkDirResource (Some (rp d (res_Href r))) r)
    (List.filter (fun r => isMatchingResource rf (res_Href r) (res_ResourceTypes r)) rs)) acc, None)).
Proof.
  intros Hl. revert acc. induction rs as [|r rs IH]; intros acc Hrs; cbn [iterate_resources List.filter]; [done|].
  assert (Hrest : forall x, x ∈ rs -> x ∈ resources_of (rl d)) by (intros; apply Hrs; by right).
  destruct (isMatchingResource _ _ _); cbn [negb]; [|by apply IH].
  rewrite run_seq, run_Models_at, (ld_device _ _ _ _ Hl), (ld_resources _ _ _ _ Hl) by (apply Hrs; by left).
  cbn [opt_list visit_resource]. cbn. rewrite on_ok. cbn. by apply IH.
Qed.

Lemma run_want_reload rf d rs s :
  loaded s d (rl d) (rp d) -> (forall r, r ∈ rs -> r ∈ resources_of (rl d)) ->
  run (want_reload (rl d) rf rs) s = Some (s, false).
Proof.
  intros Hl. induction rs as [|r rs IH]; intros Hrs; cbn [want_reload]; [done|].
  assert (Hrest : forall x, x ∈ rs -> x ∈ resources_of (rl d)) by (intros; apply Hrs; by right).
  destruct (href_excluded _ _); [by apply IH|]. destruct (hasMatchingType _ _); cbn [negb]; [|by apply IH].
  rewrite run_seq, run_Models_at, (ld_device _ _ _ _ Hl), (ld_resources _ _ _ _ Hl) by (apply Hrs; by left).
  by apply IH.
Qed.

Lemma range_set_singleton d : range_set {[d]} = [d].
Proof. pose proof (range_set_perm {[d]}) as Hp. rewrite elements_singleton in Hp. by apply Permutation_singleton_r in Hp. Qed.

Lemma run_loadResourceWithLinks rf d s acc :
  loaded s d (rl d) (rp d) ->
  run (loadResourceWithLinks wanted onResource d rf acc) s = Some (s, Returns (fold_left f (matching rf d) acc, None)).
Proof.
  intros Hl. unfold loadResourceWithLinks, LoadResourceLinks. rewrite range_set_singleton.
  apply (run_load_links _ (fun acc d => fold_left f (matching rf d) acc) s [d]).
  - by intros d' ->%list_elem_of_singleton.
  - intros d' acc' ->%list_elem_of_singleton. unfold wantToReloadDevice.
    rewrite run_seq, run_want_reload by done. cbn. by rewrite run_iterate_resources.
Qed.

Definition filter_of (filter : gmap string (option Set_)) typeFilter d : resourceFilter :=
  MkResourceFilter (default None (filter !! d)) typeFilter.
Lemma run_LoadResources ans ids typeFilter s acc :
  (forall d, d ∈ range_keys (getResourceIDMapFilter ids) -> loaded s d (rl d) (rp d)) ->
  run (LoadResources getTopics subscriber wanted onResource ans ids typeFilter false acc) s =
  Some (s, Returns (fold_left f
    (mjoin (map (fun d => matching (filter_of (getResourceIDMapFilter ids) typeFilter d) d)
      (range_keys (getResourceIDMapFilter ids)))) acc, None)).
Proof.
  unfold LoadResources. set (filter := getResourceIDMapFilter ids). clearbody filter.
  revert acc. induction (range_keys filter) as [|d ds IH]; intros acc Hl; cbn [load_resources]; [done|].
  cbn [map mjoin list_join]. rewrite fold_left_app, run_bindO, run_loadResourceWithLinks by (apply Hl; by left).
  cbv iota. apply IH. intros d' Hd'. apply Hl. by right.
Qed.
End resources.
End searches.

(** What the search of all devices finds. *)
Lemma found_elem rl rp filter typeFilter x :
  x ∈ mjoin (map (fun d => matching rl rp (filter_of filter typeFilter d) d) (range_keys filter)) <->
  exists d r, x = MkDirResource (Some (rp d (res_Href r))) r /\ r ∈ resources_of (rl d) /\
    selects filter d (res_Href r) = true /\ hasMatchingType (res_ResourceTypes r) typeFilter = true.
Proof.
  rewrite list_elem_of_join.
  assert (Hm : forall d o r, filter !! d = Some o ->
    isMatchingResource (filter_of filter typeFilter d) (res_Href r) (res_ResourceTypes r) =
    selects filter d (res_Href r) && hasMatchingType (res_ResourceTypes r) typeFilter).
  { intros d o r Ho. unfold isMatchingResource, selects, filter_of. cbn. rewrite Ho. cbn. by destruct (href_excluded _ _). }
  split.
  - intros (l & Hx & (d & -> & Hd)%list_elem_of_fmap). rewrite range_keys_perm in Hd.
    apply list_elem_of_fmap in Hd as ([d' o] & -> & Hd%elem_of_map_to_list). cbn in *.
    apply list_elem_of_fmap in Hx as (r & -> & Hr). apply list_elem_of_In, filter_In in Hr as [Hr%list_elem_of_In Hs].
    rewrite (Hm _ _ _ Hd) in Hs. apply andb_true_iff in Hs as [Hsel Hts]. by exists d', r.
  - intros (d & r & -> & Hr & Hsel & Hts).
    assert (Hd : is_Some (filter !! d)) by (unfold selects in Hsel; destruct (filter !! d) as [o|]; [by exists o|done]).
    destruct Hd as [o Hd]. exists (matching rl rp (filter_of filter typeFilter d) d). split; [|apply list_elem_of_fmap; exists d; split; [done|]].
    + apply list_elem_of_fmap. exists r. split; [done|]. apply list_elem_of_In, filter_In.
      split; [by apply list_elem_of_In|]. by rewrite (Hm _ _ _ Hd), Hsel, Hts.
    + rewrite range_keys_perm. apply list_elem_of_fmap. exists (d, o). by rewrite elem_of_map_to_list.
Qed.

(** ** GetResources *)
Section exact.
Context `{!DeviceLib}.
Context (rl : string -> resourceLinksProjection) (rp : string -> string -> resourceProjection) (devices : Set_).

(** What the filters of a request ask for: everything without filters, or the union. *)
Definition asked (ids : list (option ResourceIdFilter)) (deviceFilter : list string) (d h : string) : Prop :=
  ids = [] /\ deviceFilter = [] \/ d ∈ deviceFilter \/
  exists f, f ∈ ids /\ (filter_id f) ~> rid_DeviceId = d /\
            ((filter_id f) ~> rid_Href = ""%string \/ (filter_id f) ~> rid_Href = h).
Definition named_by (fs : list (option ResourceIdFilter)) (d h : string) : Prop :=
  exists f, f ∈ fs /\ (filter_id f) ~> rid_DeviceId = d /\
            ((filter_id f) ~> rid_Href = ""%string \/ (filter_id f) ~> rid_Href = h).

Lemma named_by_devices ds d h : named_by (map of_device ds) d h <-> d ∈ ds.
Proof.
  split.
  - intros (f & (x & -> & Hx)%list_elem_of_fmap & <- & _). exact Hx.
  - intros Hd. exists (of_device d). split; [|split; [done|by left]]. apply list_elem_of_fmap. by exists d.
Qed.
Lemma convertToResourceIDs_asked ids l d h :
  d ∈ devices -> named_by (convertToResourceIDs devices ids l) d h <-> asked ids l d h.
Proof.
  intros Hd. unfold convertToResourceIDs, asked.
  set (owned1 := List.filter _ ids). set (owned2 := List.filter _ l).
  assert (Hkept : named_by owned1 d h <-> named_by ids d h).
  { unfold named_by, owned1. split; intros (f & Hf & Hfd & Hfh); exists f; (split; [|done]).
    - by apply list_elem_of_In, filter_In in Hf as [?%list_elem_of_In _].
    - apply list_elem_of_In, filter_In. rewrite Set_HasOneOf_one, Hfd, bool_decide_true by done.
      split; [by apply list_elem_of_In|done]. }
  assert (Hdevs : d ∈ owned2 <-> d ∈ l).
  { unfold owned2. rewrite !list_elem_of_In, filter_In, Set_HasOneOf_one, bool_decide_true by done. tauto. }
  assert (Happ : named_by (owned1 ++ map of_device owned2) d h <-> named_by ids d h \/ d ∈ l).
  { rewrite <- Hkept, <- Hdevs, <- (named_by_devices owned2 d h). unfold named_by. setoid_rewrite elem_of_app. naive_solver. }
  destruct (owned1 ++ map of_device owned2) as [|x xs] eqn:Hk; cbn [length Nat.eqb].
  - assert (Hno : ~ (named_by ids d h \/ d ∈ l)).
    { intros (f & Hf & _)%Happ. by apply elem_of_nil in Hf. }
    destruct ids as [|i ids], l as [|y l]; cbn [length Nat.eqb negb orb].
    + rewrite named_by_devices, range_set_elem. tauto.
    + split; [intros (f & ?%elem_of_nil & _); done|]. intros [[_ ?]|[?|?]]; [done|..]; by destruct Hno; auto.
    + split; [intros (f & ?%elem_of_nil & _); done|]. intros [[? _]|[?|?]]; [done|..]; by destruct Hno; auto.
    + split; [intros (f & ?%elem_of_nil & _); done|]. intros [[? _]|[?|?]]; [done|..]; by destruct Hno; auto.
  - rewrite Happ. split; [tauto|]. intros [[-> ->]|[?|?]]; [done|tauto..].
Qed.

Context (send : list pb_Resource -> pb_Resource -> option error) (send_ok : forall l m, send l m = None).
Definition value_of fs (r : DirResource) : pb_Resource := updateContentIfETagMatched fs (toResourceValue r).
Lemma fold_send fs rs acc :
  fold_left (fun acc r => MkSearch (se_sent acc ++ [value_of fs r]) (se_reload acc)) rs acc =
  MkSearch (se_sent acc ++ map (value_of fs) rs) (se_reload acc).
Proof.
  revert acc. induction rs as [|r rs IH]; intros acc; cbn [fold_left map]; [rewrite app_nil_r; by destruct acc|].
  rewrite IH. cbn. by rewrite <- app_assoc.
Qed.

Definition all_ids (req : GetResourcesRequest) : list (option ResourceIdFilter) :=
  grr_ResourceIdFilter req ++ ResourceIdFilterFromString (grr_HttpResourceIdFilter req).

Lemma selects_devices fs d h :
  selects (getResourceIDMapFilter (resourceIdFilterToSimple fs)) d h = true <-> named_by fs d h.
Proof.
  rewrite grouped_filter_selects. unfold named_by, resourceIdFilterToSimple. setoid_rewrite list_elem_of_fmap.
  naive_solver.
Qed.

(** C18: When the links and the resources of the owner's devices are loaded, and the stream
    takes what it is given, GetResources reloads nothing, leaves the directory as it was
    and sends exactly the values of the linked resources that the filters ask for and
    whose type is asked for, those with a known entity tag without their content. *)
Theorem GetResources_exact s e req : (forall d, d ∈ devices -> loaded s d (rl d) (rp d)) ->
  exists sent, run (GetResources getTopics subscriber send e devices req) s =
                 Some (s, Returns (MkSearch sent ∅, None)) /\
    forall m, m ∈ sent <-> exists d r, d ∈ devices /\ r ∈ resources_of (rl d) /\
      asked (all_ids req) (grr_DeviceIdFilter req) d (res_Href r) /\
      hasMatchingType (res_ResourceTypes r) (Set_Add ∅ (grr_TypeFilter req)) = true /\
      m = updateContentIfETagMatched (convertToResourceIDs devices (all_ids req) (grr_DeviceIdFilter req))
            (MkPbResource (res_ResourceTypes r) (rp_content (rp d (res_Href r)))).
Proof.
  intros Hl. unfold GetResources, two_passes. fold (all_ids req). cbv zeta.
  pose proof (convertToResourceIDs_mine devices (all_ids req) (grr_DeviceIdFilter req)) as Hmine.
  assert (Hasked := fun d h => convertToResourceIDs_asked (all_ids req) (grr_DeviceIdFilter req) d h).
  set (fs := convertToResourceIDs _ _ _) in *. unfold getResources.
  assert (Hgr : forall d, d ∈ range_keys (getResourceIDMapFilter (resourceIdFilterToSimple fs)) -> d ∈ devices).
  { intros d (id & Hid & <-)%grouped_devices. by eapply simple_mine. }
  rewrite run_bindO, (run_LoadResources true rl rp _
    (fun acc r => MkSearch (se_sent acc ++ [value_of fs r]) (se_reload acc)));
    [|intros acc r; unfold send_resource, Send; by rewrite send_ok|intros d Hd; by apply Hl, Hgr].
  rewrite fold_send. cbn [se_sent se_reload app]. rewrite size_empty. cbn [Nat.eqb run].
  eexists. split; [done|]. intros m. rewrite list_elem_of_fmap.
  setoid_rewrite found_elem. setoid_rewrite selects_devices. split.
  - intros (x & -> & d & r & -> & Hr & Hsel & Hts). destruct (Hsel) as (f & Hf & Hfd & _).
    assert (Hd : d ∈ devices) by (rewrite <- Hfd; by apply Hmine). exists d, r. rewrite <- Hasked by done. done.
  - intros (d & r & Hd & Hr & Ha & Hts & ->). eexists. split; [|exists d, r; rewrite Hasked by done; done]. done.
Qed.
End exact.
End run.
