(* ===== verification/DirectoryCache.v ===== *)
(** * The cache of the directory and the registrations of its projection

    One operation after another: the devices that the projection follows are those in
    the cache, registered once each. *)

From Stdlib Require Import ZArith Lia String.
From S2P Require Import Prelude Commands Events EventStore Projection ProjectionFacts Goroutines DeviceProjection.
From S2P Require Import DeviceProjectionFacts DirectoryModels DirectoryProjection.

Section cache.
Context `{!UUIDLib, !KitSet, !RefCounter, !RefCounterLaws, !ExpiringCache, !ExpiringCacheLaws, !MapOrder, !MapOrderLaws}
  {D : Type} `{!Model dirModel D}.
Context (getTopics : string -> string -> list string) (subscriber : bool).
Hypothesis topics_NoDup : forall d, NoDup (getTopics "*" d).
Hypothesis topics_some : forall d, getTopics "*" d <> [].
Hypothesis topics_apart : forall d d' t, t ∈ getTopics "*" d -> t ∈ getTopics "*" d' -> d = d'.
Context (P : string -> string -> dirModel -> Prop).
Hypothesis P_factory : forall g a m, dirFactory g a = inr m -> P g a m.
Hypothesis P_begin : forall g a m, P g a m -> P g a (model_begin m).
Hypothesis P_step : forall g a m e, P g a m -> P g a (model_step m e).1.

#[local] Abbreviation idle := (idle getTopics subscriber P).
#[local] Abbreviation Register := (Register getTopics range_keys dirFactory subscriber (D := D)).
#[local] Abbreviation Unregister := (Unregister getTopics range_keys subscriber (State := dirModel) (D := D)).
#[local] Abbreviation ForceUpdate := (ForceUpdate getTopics range_keys dirFactory subscriber (D := D)).
Implicit Types (s : DirState) (n : gmap string nat) (d : string).

Lemma range_keys_some {A} (m : gmap string A) t : t ∈ range_keys m <-> is_Some (m !! t).
Proof.
  rewrite range_keys_perm, list_elem_of_fmap. split.
  - intros ([t' x] & -> & Ht%elem_of_map_to_list). by exists x.
  - intros [x Ht]. exists (t, x). by rewrite elem_of_map_to_list.
Qed.
Lemma range_set_nodup (ids : Set_) : NoDup (range_set ids).
Proof. rewrite range_set_perm. apply NoDup_elements. Qed.

Lemma run_on_projection {A} (p : prog (PState dirModel) A) s p' r :
  run p (ds_projection s) = Some (p', r) -> run (on_projection p) s = Some (MkDirState p' (ds_cache s), r).
Proof.
  intros Hr. destruct (run_lift ds_projection set_projection p ltac:(done) ltac:(done) s p' r Hr)
    as (s' & Hs' & Hp & [-> | ->]); unfold on_projection; rewrite Hs'; [|done].
  subst p'. by destruct s.
Qed.

(** A device is registered once for its element in the cache, and once more for each
    entry of [deferred]. *)
Definition registrations (c : Cache) (deferred : list string) d : option nat :=
  match cached c d, decide (d ∈ deferred) with
  | Some _, left _ => Some 2
  | Some _, right _ => Some 1
  | None, left _ => Some 1
  | None, right _ => None
  end.
Definition follows s (deferred : list string) : Prop :=
  exists n, idle (ds_projection s) n /\ forall d, n !! d = registrations (ds_cache s) deferred d.

Definition replies (ans : string -> answers D) : Prop := forall d,
  honest (ans d) [device_query d] d /\ honest (ans d) [force_query (Some (NewResourceID d ""))] d.

Lemma run_deferred_ok ans deferred s : replies ans -> NoDup deferred -> follows s deferred ->
  exists s', run (run_deferred getTopics subscriber ans deferred) s = Some (s', Returns tt) /\ follows s' [] /\
    ds_cache s' = ds_cache s.
Proof.
  intros Hans. revert s. induction deferred as [|d deferred IH]; intros s Hnd (n & Hi & Hn); cbn [run_deferred].
  { exists s. split; [done|]. split; [by exists n|done]. }
  apply NoDup_cons in Hnd as [Hd Hnd].
  assert (Hk : exists k, n !! d = Some (S k) /\ k = match cached (ds_cache s) d with Some _ => 1 | None => 0 end).
  { rewrite Hn. unfold registrations. destruct (decide (d ∈ d :: deferred)) as [_|[]]; [|by left].
    destruct (cached _ _); [by exists 1|by exists 0]. }
  destruct Hk as (k & Hk & Hkc).
  destruct (Unregister_known getTopics range_keys subscriber range_keys_some topics_NoDup topics_some topics_apart P
    (ans d) _ n d k Hi Hk ltac:(apply Hans)) as (p' & Hrun & Hi').
  rewrite run_bindO, (run_on_projection _ _ _ _ Hrun). cbv iota beta.
  destruct (IH (MkDirState p' (ds_cache s)) Hnd) as (s' & Hs' & Hf & Hc); [|by exists s'].
  eexists. split; [exact Hi'|]. intros d'. cbn [ds_cache]. unfold registrations in *.
  destruct (decide (d' = d)) as [->|Hne].
  - destruct (decide (d ∈ deferred)) as [?|_]; [done|].
    destruct (cached _ d); subst k;
      [rewrite decide_False by done; apply lookup_insert_eq|rewrite decide_True by done; apply lookup_delete_eq].
  - assert (Hl : (if decide (k = 0) then delete d n else <[d:=k]> n) !! d' = n !! d').
    { case_decide; [by apply lookup_delete_ne|by apply lookup_insert_ne]. }
    rewrite Hl, Hn. destruct (decide (d' ∈ d :: deferred)), (decide (d' ∈ deferred)); [done|set_solver|set_solver|done].
Qed.

(** The periodic check drops the elements whose time has come, and the projection
    goes on following the devices that are left in the cache, and no others. *)
Theorem check_expirations_ok ans now s : replies ans -> follows s [] ->
  exists s', run (check_expirations getTopics subscriber ans now) s = Some (s', Returns tt) /\ follows s' [] /\
    forall d, cached (ds_cache s') d =
      match cached (ds_cache s) d with Some t => if After now t then None else Some t | None => None end.
Proof.
  intros Hans (n & Hi & Hn). unfold check_expirations. rewrite run_seq, run_act.
  pose proof (CheckExpirations_spec now (ds_cache s)) as Hc. destruct (CheckExpirations now (ds_cache s)) as [c ks].
  destruct Hc as [Hnd Hks].
  destruct (run_deferred_ok ans ks (set_cache c s) Hans Hnd) as (s' & Hs' & Hf & Hcs).
  - exists n. split; [done|]. intros d. rewrite Hn. unfold registrations. cbn [ds_cache set_cache].
    destruct (Hks d) as [Hd ->]. destruct (decide (d ∈ [])) as [[]%not_elem_of_nil|_].
    case_decide as Hin; [|by destruct (cached _ _)]. apply Hd in Hin as (t & -> & _). done.
  - exists s'. split; [exact Hs'|]. split; [done|]. intros d. rewrite Hcs. cbn [ds_cache set_cache].
    destruct (Hks d) as [Hd ->]. case_decide as Hin.
    + apply Hd in Hin as (t & -> & ->). done.
    + destruct (cached _ d) as [t|] eqn:Ht; [|done]. destruct (After now t) eqn:Ha; [|done].
      destruct Hin. apply Hd. by exists t.
Qed.

(** ** ReloadDevices *)
Lemma cached_stored c d t x :
  cached (Cache_LoadOrStore d t (Cache_Delete d c)) x = if decide (x = d) then Some t else cached c x.
Proof.
  rewrite cached_LoadOrStore by (rewrite cached_Delete; by rewrite decide_True).
  case_decide; [done|]. by rewrite cached_Delete, decide_False.
Qed.
Lemma registrations_stored c deferred d t x : d ∉ deferred ->
  registrations (Cache_LoadOrStore d t (Cache_Delete d c)) deferred x =
  if decide (x = d) then Some 1 else registrations c deferred x.
Proof.
  intros Hd. unfold registrations. rewrite cached_stored. case_decide as Hx; [|done]. subst.
  by destruct (decide (d ∈ deferred)).
Qed.
Lemma registrations_defer c deferred d t x : d ∉ deferred ->
  registrations (Cache_LoadOrStore d t (Cache_Delete d c)) (d :: deferred) x =
  if decide (x = d) then Some 2 else registrations c deferred x.
Proof.
  intros Hd. unfold registrations. rewrite cached_stored. case_decide as Hx.
  - subst. destruct (decide (d ∈ d :: deferred)) as [_|[]]; [done|by left].
  - destruct (decide (x ∈ d :: deferred)), (decide (x ∈ deferred)); [done|set_solver|set_solver|done].
Qed.

(** What the reload of the devices [ids] leaves in the cache. *)
Definition reloaded (t : time_) (ids : list string) (c c' : Cache) : Prop := forall d,
  (d ∉ ids -> cached c' d = cached c d) /\
  (d ∈ ids -> cached c' d = Some t \/ cached c d = None /\ cached c' d = None).
Lemma reloaded_cons t d ids c c1 c' : d ∉ ids ->
  (cached c1 d = Some t \/ cached c d = None /\ cached c1 d = None) ->
  (forall x, x <> d -> cached c1 x = cached c x) -> reloaded t ids c1 c' -> reloaded t (d :: ids) c c'.
Proof.
  intros Hd Hc1 Hother Hr x. destruct (Hr x) as [Hout Hin]. destruct (decide (x = d)) as [->|Hne].
  - split; [set_solver|]. intros _. rewrite Hout by done. exact Hc1.
  - rewrite <- Hother by done. split; [intros Hx; apply Hout; set_solver|intros Hx; apply Hin; set_solver].
Qed.

Lemma reload_loop_ok ans expiration now ids deferred s :
  replies ans -> NoDup (ids ++ deferred) -> follows s deferred ->
  exists s', run (reload_loop getTopics subscriber ans expiration now ids deferred) s = Some (s', Returns tt) /\
    follows s' [] /\ reloaded (now + expiration)%Z ids (ds_cache s) (ds_cache s').
Proof.
  intros Hans. revert s deferred. induction ids as [|d ids IH]; intros s deferred Hnd Hf; cbn [reload_loop].
  { destruct (run_deferred_ok ans deferred s Hans Hnd Hf) as (s' & Hs' & Hf' & Hc). exists s'. split; [done|].
    split; [done|]. intros d. rewrite Hc. split; [done|by intros ?%elem_of_nil]. }
  cbn [app] in Hnd. apply NoDup_cons in Hnd as [Hd Hnd]. apply not_elem_of_app in Hd as [Hdi Hdd].
  destruct Hf as (n & Hi & Hn). pose proof (Hn d) as Hnd'. unfold registrations in Hnd'.
  destruct (decide (d ∈ deferred)) as [?|_]; [done|]. rewrite run_bindO.
  set (c1 := Cache_LoadOrStore d (now + expiration)%Z (Cache_Delete d (ds_cache s))).
  assert (Hnext : forall p' n1 df, idle p' n1 -> (forall x, n1 !! x = registrations c1 df x) -> NoDup (ids ++ df) ->
    exists s', run (reload_loop getTopics subscriber ans expiration now ids df) (MkDirState p' c1) = Some (s', Returns tt) /\
      follows s' [] /\ reloaded (now + expiration)%Z (d :: ids) (ds_cache s) (ds_cache s')).
  { intros p' n1 df Hi1 Hn1 Hnd1. destruct (IH (MkDirState p' c1) df Hnd1) as (s' & Hs' & Hf' & Hr'); [by exists n1|].
    exists s'. split; [done|]. split; [done|]. eapply reloaded_cons; [done| | |exact Hr'].
    - left. cbn. unfold c1. rewrite cached_stored. by rewrite decide_True.
    - intros x Hx. cbn. unfold c1. rewrite cached_stored. by rewrite decide_False. }
  destruct (cached (ds_cache s) d) as [t0|] eqn:Hc.
  - destruct (Register_again getTopics range_keys dirFactory subscriber range_keys_some P (ans d) _ n d 1 Hi Hnd')
      as (p' & Hrun & Hi'). rewrite (run_on_projection _ _ _ _ Hrun). cbv iota beta.
    rewrite run_seq, run_act, run_seq, run_act, run_bindO. unfold set_cache. cbn [ds_cache ds_projection]. fold c1.
    destruct (ForceUpdate_known getTopics range_keys dirFactory subscriber range_keys_some P P_factory P_begin P_step
      (ans d) p' (<[d:=2]> n) (Some (NewResourceID d ""))) as (p2 & err & Hrun2 & Hi2);
      [exact Hi'|by rewrite lookup_insert_eq|apply Hans|].
    rewrite (run_on_projection _ (MkDirState p' c1) _ _ Hrun2). cbv iota beta. cbn [ds_cache].
    apply (Hnext p2 (<[d:=2]> n) (d :: deferred) Hi2).
    + intros x. unfold c1. rewrite registrations_defer by done. case_decide as Hx; [subst; apply lookup_insert_eq|].
      by rewrite lookup_insert_ne, Hn by done.
    + rewrite <- Permutation_middle. apply NoDup_cons. split; [set_solver|done].
  - destruct (Register_new getTopics range_keys dirFactory subscriber range_keys_some topics_NoDup topics_some topics_apart
      P P_factory P_begin P_step (ans d) _ n d Hi Hnd') as (p' & r & Hrun & [[-> Hi'] | [[err ->] Hi']]); [apply Hans|..];
      rewrite (run_on_projection _ _ _ _ Hrun); cbv iota beta.
    + rewrite run_seq, run_act, run_seq, run_act. unfold set_cache. cbn [ds_cache ds_projection]. fold c1.
      apply (Hnext p' (<[d:=1]> n) deferred Hi'); [|done].
      intros x. unfold c1. rewrite registrations_stored by done. case_decide as Hx; [subst; apply lookup_insert_eq|].
      by rewrite lookup_insert_ne, Hn by done.
    + destruct (IH (MkDirState p' (ds_cache s)) deferred Hnd) as (s' & Hs' & Hf' & Hr'); [by exists n|].
      exists s'. split; [done|]. split; [done|]. eapply reloaded_cons; [done| |done|exact Hr']. by right.
Qed.

(** C20: A reload gives every device that is asked for a new time in the cache, or leaves it
    out when its events cannot be loaded; the projection then follows the devices in the
    cache, each registered once, and no others.  Nothing panics. *)
Theorem ReloadDevices_ok ans expiration now ids s : replies ans -> follows s [] ->
  exists s', run (ReloadDevices getTopics subscriber ans expiration now ids) s = Some (s', Returns tt) /\
    follows s' [] /\ forall d,
      (d ∉ ids -> cached (ds_cache s') d = cached (ds_cache s) d) /\
      (d ∈ ids -> cached (ds_cache s') d = Some (now + expiration)%Z \/
                  cached (ds_cache s) d = None /\ cached (ds_cache s') d = None).
Proof.
  intros Hans Hf. destruct (reload_loop_ok ans expiration now (range_set ids) [] s Hans) as (s' & Hs' & Hf' & Hr).
  - rewrite app_nil_r. apply range_set_nodup.
  - done.
  - exists s'. split; [done|]. split; [done|]. intros d. specialize (Hr d).
    by rewrite range_set_perm, elem_of_elements in Hr.
Qed.
End cache.
