(* ===== verification/DirectoryEvents.v ===== *)
(** * Events on request

    resource-directory/service: getEvents.go (the stored events of the owner's
    devices, as messages of a stream) and getLatestDeviceEtags.go. *)

From Stdlib Require Import ZArith Lia String.
From S2P Require Import Prelude Commands Events EventStore Projection MongoStore.
From S2P Require Import Subscription ResourceIdFilters DirectoryModels DirectoryProjection Directory.

(** The oneof of the message GetEventsResponse. *)
Inductive GetEventsResponse :=
  | GetEventsResponse_ResourceLinksPublished (e : ResourceLinksPublished)
  | GetEventsResponse_ResourceLinksUnpublished (e : ResourceLinksUnpublished)
  | GetEventsResponse_ResourceLinksSnapshotTaken (e : ResourceLinksSnapshotTaken)
  | GetEventsResponse_ResourceChanged (e : ResourceChanged)
  | GetEventsResponse_ResourceUpdatePending (e : ResourceUpdatePending)
  | GetEventsResponse_ResourceUpdated (e : ResourceUpdated)
  | GetEventsResponse_ResourceRetrievePending (e : ResourceRetrievePending)
  | GetEventsResponse_ResourceRetrieved (e : ResourceRetrieved)
  | GetEventsResponse_ResourceDeletePending (e : ResourceDeletePending)
  | GetEventsResponse_ResourceDeleted (e : ResourceDeleted)
  | GetEventsResponse_ResourceCreatePending (e : ResourceCreatePending)
  | GetEventsResponse_ResourceCreated (e : ResourceCreated)
  | GetEventsResponse_ResourceStateSnapshotTaken (e : ResourceStateSnapshotTaken)
  | GetEventsResponse_DeviceMetadataUpdatePending (e : DeviceMetadataUpdatePending)
  | GetEventsResponse_DeviceMetadataUpdated (e : DeviceMetadataUpdated)
  | GetEventsResponse_DeviceMetadataSnapshotTaken (e : DeviceMetadataSnapshotTaken).

Section events.
Context `{!UUIDLib, !KitSet, !MapOrder} {D : Type}
  `{!Unmarshaler D ResourceLinksPublished} `{!Unmarshaler D ResourceLinksUnpublished}
  `{!Unmarshaler D ResourceLinksSnapshotTaken} `{!Unmarshaler D ResourceChanged}
  `{!Unmarshaler D ResourceUpdatePending} `{!Unmarshaler D ResourceUpdated}
  `{!Unmarshaler D ResourceRetrievePending} `{!Unmarshaler D ResourceRetrieved}
  `{!Unmarshaler D ResourceDeletePending} `{!Unmarshaler D ResourceDeleted}
  `{!Unmarshaler D ResourceCreatePending} `{!Unmarshaler D ResourceCreated}
  `{!Unmarshaler D ResourceStateSnapshotTaken} `{!Unmarshaler D DeviceMetadataUpdatePending}
  `{!Unmarshaler D DeviceMetadataUpdated} `{!Unmarshaler D DeviceMetadataSnapshotTaken}.

(** An event that cannot be decoded is logged and left out. *)
Definition decoded_as {T} `{!Unmarshaler D T} (c : T -> GetEventsResponse) (eu : LoadedEvent D)
    : option GetEventsResponse :=
  match Unmarshal (le_data eu) with inl _ => None | inr e => Some (c e) end.
Definition events_handleResourceLinksPublished := decoded_as GetEventsResponse_ResourceLinksPublished.
Definition events_handleResourceLinksUnpublished := decoded_as GetEventsResponse_ResourceLinksUnpublished.
Definition events_handleResourceLinksSnapshotTaken := decoded_as GetEventsResponse_ResourceLinksSnapshotTaken.
Definition events_handleResourceChanged := decoded_as GetEventsResponse_ResourceChanged.
Definition events_handleResourceUpdatePending := decoded_as GetEventsResponse_ResourceUpdatePending.
Definition events_handleResourceUpdated := decoded_as GetEventsResponse_ResourceUpdated.
Definition events_handleResourceRetrievePending := decoded_as GetEventsResponse_ResourceRetrievePending.
Definition events_handleResourceRetrieved := decoded_as GetEventsResponse_ResourceRetrieved.
Definition events_handleResourceDeletePending := decoded_as GetEventsResponse_ResourceDeletePending.
Definition events_handleResourceDeleted := decoded_as GetEventsResponse_ResourceDeleted.
Definition events_handleResourceCreatePending := decoded_as GetEventsResponse_ResourceCreatePending.
Definition events_handleResourceCreated := decoded_as GetEventsResponse_ResourceCreated.
Definition events_handleResourceStateSnapshotTaken := decoded_as GetEventsResponse_ResourceStateSnapshotTaken.
Definition events_handleDeviceMetadataUpdatePending := decoded_as GetEventsResponse_DeviceMetadataUpdatePending.
Definition events_handleDeviceMetadataUpdated := decoded_as GetEventsResponse_DeviceMetadataUpdated.
Definition events_handleDeviceMetadataSnapshotTaken := decoded_as GetEventsResponse_DeviceMetadataSnapshotTaken.

Definition eventTypeToEventHandler : list (string * (LoadedEvent D -> option GetEventsResponse)) :=
  [("resourcelinkspublished"%string, events_handleResourceLinksPublished);
   ("resourcelinksunpublished"%string, events_handleResourceLinksUnpublished);
   ("resourcelinkssnapshottaken"%string, events_handleResourceLinksSnapshotTaken);
   ("resourcechanged"%string, events_handleResourceChanged);
   ("resourceupdatepending"%string, events_handleResourceUpdatePending);
   ("resourceupdated"%string, events_handleResourceUpdated);
   ("resourceretrievepending"%string, events_handleResourceRetrievePending);
   ("resourceretrieved"%string, events_handleResourceRetrieved);
   ("resourcedeletepending"%string, events_handleResourceDeletePending);
   ("resourcedeleted"%string, events_handleResourceDeleted);
   ("resourcecreatepending"%string, events_handleResourceCreatePending);
   ("resourcecreated"%string, events_handleResourceCreated);
   ("resourcestatesnapshottaken"%string, events_handleResourceStateSnapshotTaken);
   ("devicemetadataupdatepending"%string, events_handleDeviceMetadataUpdatePending);
   ("devicemetadataupdated"%string, events_handleDeviceMetadataUpdated);
   ("devicemetadatasnapshottaken"%string, events_handleDeviceMetadataSnapshotTaken)].
Definition handleEvent (eu : LoadedEvent D) : option GetEventsResponse :=
  match List.find (fun x => String.eqb x.1 (le_eventType eu)) eventTypeToEventHandler with
  | Some (_, handler) => handler eu
  | None => None
  end.

Section stream.
Context (send : list GetEventsResponse -> GetEventsResponse -> option error).

(** resourceEvent.Handle: an error leaves the iterator where it is. *)
Fixpoint handle_events (events : list (LoadedEvent D)) (err : option error) (sent : list GetEventsResponse)
    : list GetEventsResponse * option error :=
  match events with
  | [] => (sent, err)
  | eu :: events =>
      if String.eqb (le_eventType eu) "" then (sent, Some (errors_New "cannot determine type of event"))
      else match handleEvent eu with
           | None => handle_events events err sent
           | Some resp =>
               match send sent resp with
               | Some err => (sent, Some err)
               | None => handle_events events err (sent ++ [resp])
               end
           end
  end.
Definition resourceEvent_Handle (iter : Iter D) (sent : list GetEventsResponse)
    : list GetEventsResponse * option error :=
  handle_events (it_rest iter) (it_err iter) sent.

(** The store calls Handle for its iterators and goes on after an error ([Loaded]). *)
Fixpoint load_events (iters : list (Iter D)) (err : option error) (sent : list GetEventsResponse)
    : list GetEventsResponse * option error :=
  match iters with
  | [] => (sent, err)
  | iter :: iters =>
      let '(sent, err') := resourceEvent_Handle iter sent in
      load_events iters (match err with Some _ => err | None => err' end) sent
  end.

Definition getDeviceQueries (deviceIDFilter : list string) (userDeviceIDs : Set_) : list GetEventsQuery :=
  omap (fun d => if bool_decide (d ∈ userDeviceIDs) then Some (MkGetEventsQuery d "" []) else None) deviceIDFilter.
Definition getResourceQueries (resourceFilter : list (option Subscription.ResourceIdFilter)) (userDeviceIDs : Set_)
    : list GetEventsQuery :=
  omap (fun f =>
    let d := (filter_id f) ~> rid_DeviceId in
    if Set_HasOneOf userDeviceIDs [d] then Some (MkGetEventsQuery d (ResourceId_ToUUID (filter_id f)) []) else None)
    resourceFilter.
Definition getUserDeviceQueries (userDeviceIds : Set_) : list GetEventsQuery :=
  map (fun d => MkGetEventsQuery d "" []) (range_set userDeviceIds).

Record GetEventsRequest := MkGetEventsRequest {
  ger_DeviceIdFilter : list string; ger_HttpResourceIdFilter : list string; ger_TimestampFilter : Z;
  ger_ResourceIdFilter : list (option Subscription.ResourceIdFilter) }.

(** The queries of a request, and what of them is sent; [store] is the event store.  An
    owner with devices asks for some without filters. *)
Definition event_queries (mapUserDeviceIDs : Set_) (req : GetEventsRequest) : list GetEventsQuery :=
  let ids := ger_ResourceIdFilter req ++ ResourceIdFilterFromString (ger_HttpResourceIdFilter req) in
  if (length (ger_DeviceIdFilter req) =? 0)%nat && (length ids =? 0)%nat
  then getUserDeviceQueries mapUserDeviceIDs
  else getDeviceQueries (ger_DeviceIdFilter req) mapUserDeviceIDs ++ getResourceQueries ids mapUserDeviceIDs.
Definition RequestHandler_GetEvents (owner : result string) (owned : result (list string))
    (store : list GetEventsQuery -> Z -> Loaded D) (req : GetEventsRequest) : list GetEventsResponse * option error :=
  match owner, owned with
  | inl err, _ => ([], Some (Wrap "cannot get owner: %v" err))
  | inr _, inl err => ([], Some (Wrap "cannot get owned devices: %v" err))
  | inr _, inr userDeviceIDs =>
      if (length userDeviceIDs =? 0)%nat then ([], None) else
      let queries := event_queries (list_to_set userDeviceIDs) req in
      if (length queries =? 0)%nat then ([], None) else
      let l := store queries (ger_TimestampFilter req) in
      let '(sent, err) := load_events (ld_iters l) (ld_err l) [] in
      (sent, match err with Some err => Some (Wrap "cannot get events: %v" err) | None => None end)
  end.
End stream.

(** getLatestDeviceEtags.go; [latest] is the event store. *)
Definition RequestHandler_GetLatestDeviceETags (owner : result string) (owned : result (list string))
    (latest : string -> Z -> result (list (list byte))) (deviceId : string) (limit : Z) : result (list (list byte)) :=
  match owner, owned with
  | inl err, _ => inl err
  | inr _, inl err => inl (Wrap "cannot get latest device etag: %v" err)
  | inr _, inr deviceIDs =>
      if (size (filterDevices (NewDeviceIds deviceIDs) [deviceId]) =? 0)%nat
      then inl (errors_New "cannot get latest device etag: device %v not found")
      else match latest deviceId limit with
           | inl err => inl (Wrap "cannot get latest device etag: %w" err)
           | inr etags => inr etags
           end
  end.
End events.

(** ** Whose events are sent *)
Section facts.
Context `{!UUIDLib, !KitSet, !KitSetLaws, !MapOrder, !MapOrderLaws}.

Lemma event_queries_owned devices req q : q ∈ event_queries devices req -> gq_GroupID q ∈ devices.
Proof.
  unfold event_queries. destruct (_ && _).
  - intros (d & -> & Hd)%list_elem_of_fmap. cbn. by rewrite range_set_perm, elem_of_elements in Hd.
  - intros [(d & Hd & Hq)%list_elem_of_omap|(f & Hf & Hq)%list_elem_of_omap]%elem_of_app.
    + case_bool_decide; [|done]. by injection Hq as <-.
    + cbv zeta in Hq. destruct (Set_HasOneOf _ _) eqn:Hone; [|done]. injection Hq as <-. cbn.
      apply Set_HasOneOf_spec in Hone as (x & ->%list_elem_of_singleton & Hx). done.
Qed.
End facts.

Section requests.
Context `{!UUIDLib, !KitSet, !KitSetLaws, !MapOrder, !MapOrderLaws} {D : Type}
  `{!Unmarshaler D ResourceLinksPublished} `{!Unmarshaler D ResourceLinksUnpublished}
  `{!Unmarshaler D ResourceLinksSnapshotTaken} `{!Unmarshaler D ResourceChanged}
  `{!Unmarshaler D ResourceUpdatePending} `{!Unmarshaler D ResourceUpdated}
  `{!Unmarshaler D ResourceRetrievePending} `{!Unmarshaler D ResourceRetrieved}
  `{!Unmarshaler D ResourceDeletePending} `{!Unmarshaler D ResourceDeleted}
  `{!Unmarshaler D ResourceCreatePending} `{!Unmarshaler D ResourceCreated}
  `{!Unmarshaler D ResourceStateSnapshotTaken} `{!Unmarshaler D DeviceMetadataUpdatePending}
  `{!Unmarshaler D DeviceMetadataUpdated} `{!Unmarshaler D DeviceMetadataSnapshotTaken}.
Implicit Types (send : list GetEventsResponse -> GetEventsResponse -> option error).

Lemma handle_events_sent send events err sent m :
  m ∈ (handle_events send events err sent).1 -> m ∈ sent \/ exists ev, ev ∈ events /\ handleEvent ev = Some m.
Proof.
  revert sent. induction events as [|ev events IH]; intros sent; cbn [handle_events]; [by left|].
  destruct (String.eqb _ _); [by left|].
  assert (Hmore : forall sent', m ∈ (handle_events send events err sent').1 ->
    m ∈ sent' \/ exists ev', ev' ∈ ev :: events /\ handleEvent ev' = Some m).
  { intros sent' [?|(ev' & Hev & Hm)]%IH; [by left|]. right. exists ev'. split; [by right|done]. }
  destruct (handleEvent ev) as [resp|] eqn:Hh; [|apply Hmore]. destruct (send sent resp); [by left|].
  intros [Hin|?]%Hmore; [|by right]. apply elem_of_app in Hin as [?|Hin]; [by left|].
  apply list_elem_of_singleton in Hin as ->. right. exists ev. split; [by left|done].
Qed.
Lemma load_events_sent send iters err sent m :
  m ∈ (load_events send iters err sent).1 ->
  m ∈ sent \/ exists iter ev, iter ∈ iters /\ ev ∈ it_rest iter /\ handleEvent ev = Some m.
Proof.
  revert err sent. induction iters as [|iter iters IH]; intros err sent; cbn [load_events]; [by left|].
  destruct (resourceEvent_Handle send iter sent) as [sent1 err1] eqn:Hi.
  intros [Hm|(it & ev & Hit & Hev & Hm)]%IH; [|right; exists it, ev; split; [by right|done]].
  assert (Hs1 : sent1 = (handle_events send (it_rest iter) (it_err iter) sent).1) by (unfold resourceEvent_Handle in Hi; by rewrite Hi).
  rewrite Hs1 in Hm. apply handle_events_sent in Hm as [?|(ev & Hev & Hm)]; [by left|].
  right. exists iter, ev. split; [by left|done].
Qed.

End requests.

(** ** A device and one of its resources

    In the event store of MongoDB the filters of a request are made a union first, which
    says that all aggregates of the device are asked for; the query is made from the
    filters themselves. *)
Theorem device_with_resource_narrowed {D} d a (timestamp : Z) (doc : @DBDoc D) :
  d <> ""%string -> a <> ""%string -> doc_aggregateID doc <> a ->
  let queries := [MkGetEventsQuery d "" []; MkGetEventsQuery d a []] in
  df_DeviceIds (GetNormalizedGetEventsFilter queries) !! d = Some (MongoStore.MkResourceIdFilter true ∅) /\
  getEventsFilter d queries timestamp doc = false.
Proof.
  intros Hd Ha Hdoc queries. apply String.eqb_neq in Hd as Hd'. split.
  - unfold GetNormalizedGetEventsFilter, queries. cbn. rewrite Hd'. cbn. unfold add_get_query. cbn.
    rewrite lookup_empty. cbn. rewrite lookup_insert_eq. cbn. apply lookup_insert_eq.
  - unfold getEventsFilter. set (ids := getEventsAggregateIdFilter d queries).
    assert (Hids : ids = {[a]}).
    { unfold ids, getEventsAggregateIdFilter, queries. rewrite filter_cons, decide_False by (cbn; naive_solver).
      rewrite filter_cons, decide_True by done. cbn. set_solver. }
    rewrite Hids, size_singleton. cbn [Nat.eqb orb]. rewrite (bool_decide_false (doc_aggregateID doc ∈ {[a]})) by set_solver.
    by rewrite andb_false_r.
Qed.
