(* ===== verification/DeviceSubscriber.v ===== *)
(** * The commands that wait for a device

    grpc-gateway/client/deviceSubscriber.go.  A command reaches the gateway of its
    device through the event bus and from the directory, which is asked for the
    commands that wait when the gateway connects again.  The versions that were
    seen decide which of the two ways hands it on.

    The subscriber is shared by the goroutine of [reconnect] and the one that
    handles the events of the bus: its operations are programs. *)

From Stdlib Require Import ZArith Lia String.
From S2P Require Import Prelude Commands Events EventStore Goroutines DirectoryModels.


(** ** hash/crc64 with the ISO polynomial *)
Definition crc64_ISO : Z := 0xD800000000000000%Z.
Definition crc64_shift (crc : Z) : Z :=
  if Z.testbit crc 0 then Z.lxor (Z.shiftr crc 1) crc64_ISO else Z.shiftr crc 1.
Definition crc64_table (i : Z) : Z := Nat.iter 8 crc64_shift i.
Definition crc64_byte (crc : Z) (b : byte) : Z :=
  Z.lxor (crc64_table (Z.land (Z.lxor crc (Z.of_N (Byte.to_N b))) 255)) (Z.shiftr crc 8).
Definition toCRC64 (v : string) : Z :=
  Z.lxor (fold_left crc64_byte (list_byte_of_string v) (2 ^ 64 - 1)%Z) (2 ^ 64 - 1)%Z.

(** ** The versions of the commands *)
Record syncVersion := MkSyncVersion {
  sv_dbVersionWasSet : bool; sv_dbVersion : Z; sv_natsVersion : Z; sv_natsVersionWasSet : bool }.
#[global] Instance syncVersion_eq_dec : EqDecision syncVersion.
Proof. solve_decision. Defined.
Abbreviation versions := (gmap Z syncVersion).

Definition wantToProcessEvent (key eventVersion : Z) (fromDB : bool) (m : versions) : versions * bool :=
  match m !! key with
  | None =>
      (<[key := if fromDB then MkSyncVersion true eventVersion 0 false else MkSyncVersion false 0 eventVersion true]> m,
       true)
  | Some v =>
      if fromDB then
        if sv_dbVersionWasSet v && (eventVersion <=? sv_dbVersion v)%Z then (m, false) else
        (<[key := MkSyncVersion true eventVersion (sv_natsVersion v) (sv_natsVersionWasSet v)]> m,
         negb (sv_natsVersionWasSet v && (eventVersion <=? sv_natsVersion v)%Z))
      else
        let v := if negb (sv_natsVersionWasSet v) || (sv_natsVersion v <? eventVersion)%Z
                 then MkSyncVersion (sv_dbVersionWasSet v) (sv_dbVersion v) eventVersion true else v in
        (<[key := v]> m, negb (sv_dbVersionWasSet v && (eventVersion <=? sv_dbVersion v)%Z))
  end.

(** ** What is done with a command, on a state [T] *)
Record Operations (T : Type) := MkOperations {
  op_RetrieveResource : ResourceRetrievePending -> prog T (option error);
  op_UpdateResource : ResourceUpdatePending -> prog T (option error);
  op_DeleteResource : ResourceDeletePending -> prog T (option error);
  op_CreateResource : ResourceCreatePending -> prog T (option error);
  op_UpdateDeviceMetadata : DeviceMetadataUpdatePending -> prog T (option error);
  op_OnDeviceSubscriberReconnectError : error -> prog T unit }.
Arguments op_RetrieveResource {T}.
Arguments op_UpdateResource {T}.
Arguments op_DeleteResource {T}.
Arguments op_CreateResource {T}.
Arguments op_UpdateDeviceMetadata {T}.
Arguments op_OnDeviceSubscriberReconnectError {T}.

(** The handlers are objects with the versions they have seen, [ds_handlers] of their
    numbers; the channels have room for one message each. *)
Record DState (T : Type) := MkDState {
  ds_handlers : gmap nat versions; ds_pendingCommandsHandler : option nat; ds_mutex : bool;
  ds_reconnectChan : bool; ds_setHandlerChan : option nat; ds_done : bool; ds_ops : T }.
Arguments MkDState {T}.
Arguments ds_handlers {T}.
Arguments ds_pendingCommandsHandler {T}.
Arguments ds_mutex {T}.
Arguments ds_reconnectChan {T}.
Arguments ds_setHandlerChan {T}.
Arguments ds_done {T}.
Arguments ds_ops {T}.

Section subscriber.
Context {T : Type} `{!UUIDLib}.
#[local] Abbreviation state := (DState T).
#[local] Abbreviation program := (prog state).
(** The operations of a handler. *)
Context (operations : nat -> Operations T).

Definition set_ops (t : T) (s : state) : state :=
  MkDState (ds_handlers s) (ds_pendingCommandsHandler s) (ds_mutex s) (ds_reconnectChan s) (ds_setHandlerChan s)
    (ds_done s) t.
Definition set_handlers (hs : gmap nat versions) (s : state) : state :=
  MkDState hs (ds_pendingCommandsHandler s) (ds_mutex s) (ds_reconnectChan s) (ds_setHandlerChan s) (ds_done s)
    (ds_ops s).
Definition set_handler (h : option nat) (s : state) : state :=
  MkDState (ds_handlers s) h (ds_mutex s) (ds_reconnectChan s) (ds_setHandlerChan s) (ds_done s) (ds_ops s).
Definition set_mutex (b : bool) (s : state) : state :=
  MkDState (ds_handlers s) (ds_pendingCommandsHandler s) b (ds_reconnectChan s) (ds_setHandlerChan s) (ds_done s)
    (ds_ops s).
Definition set_reconnectChan (b : bool) (s : state) : state :=
  MkDState (ds_handlers s) (ds_pendingCommandsHandler s) (ds_mutex s) b (ds_setHandlerChan s) (ds_done s) (ds_ops s).
Definition set_setHandlerChan (h : option nat) (s : state) : state :=
  MkDState (ds_handlers s) (ds_pendingCommandsHandler s) (ds_mutex s) (ds_reconnectChan s) h (ds_done s) (ds_ops s).
Definition set_done (s : state) : state :=
  MkDState (ds_handlers s) (ds_pendingCommandsHandler s) (ds_mutex s) (ds_reconnectChan s) (ds_setHandlerChan s) true
    (ds_ops s).

(** ** DeviceSubscriptionHandlers

    wantToProcessEvent holds the mutex of the handler: it is one action. *)
Definition want (h : nat) (key eventVersion : Z) (fromDB : bool) : program bool :=
  act (fun s =>
    let '(m, b) := wantToProcessEvent key eventVersion fromDB (default ∅ (ds_handlers s !! h)) in
    (set_handlers (<[h := m]> (ds_handlers s)) s, b)).

Definition handle {E} `{!Event E} (h : nat) (id text : string) (op : E -> prog T (option error)) (val : E)
    (fromDB : bool) : program (option error) :=
  do! wanted := want h (toCRC64 (id +:+ EventType val)) (Version val) fromDB in
  if negb wanted then Ret None else
  do! err := lift ds_ops set_ops (op val) in
  Ret (match err with Some err => Some (Wrap text err) | None => None end).
Definition HandleResourceUpdatePending (h : nat) (val : ResourceUpdatePending) : bool -> program (option error) :=
  handle h (ResourceId_ToUUID (rup_ResourceId val)) "unable to update resource %v: %w"
    (op_UpdateResource (operations h)) val.
Definition HandleResourceRetrievePending (h : nat) (val : ResourceRetrievePending) : bool -> program (option error) :=
  handle h (ResourceId_ToUUID (rrp_ResourceId val)) "unable to retrieve resource %v: %w"
    (op_RetrieveResource (operations h)) val.
Definition HandleResourceDeletePending (h : nat) (val : ResourceDeletePending) : bool -> program (option error) :=
  handle h (ResourceId_ToUUID (rdp_ResourceId val)) "unable to delete resource %v: %w"
    (op_DeleteResource (operations h)) val.
Definition HandleResourceCreatePending (h : nat) (val : ResourceCreatePending) : bool -> program (option error) :=
  handle h (ResourceId_ToUUID (rcp_ResourceId val)) "unable to create resource %v: %w"
    (op_CreateResource (operations h)) val.
Definition HandleDeviceMetadataUpdatePending (h : nat) (val : DeviceMetadataUpdatePending)
    : bool -> program (option error) :=
  handle h (AggregateID val) "unable to update device metadata %v: %w" (op_UpdateDeviceMetadata (operations h)) val.

Definition processPendingCommand (h : nat) (ev : pb_PendingCommand) : program (option error) :=
  match ev with
  | PendingCommand_ResourceCreatePending val => HandleResourceCreatePending h val true
  | PendingCommand_ResourceRetrievePending val => HandleResourceRetrievePending h val true
  | PendingCommand_ResourceUpdatePending val => HandleResourceUpdatePending h val true
  | PendingCommand_ResourceDeletePending val => HandleResourceDeletePending h val true
  | PendingCommand_DeviceMetadataUpdatePending val => HandleDeviceMetadataUpdatePending h val true
  end.

(** ** The goroutine of reconnect

    The answer of GetPendingCommands: the commands that are received, and the error
    that ends the stream. *)
Abbreviation answer := (list pb_PendingCommand * option error)%type.

Fixpoint process_all (h : nat) (cmds : list pb_PendingCommand) (end_ : option error) : program (option error) :=
  match cmds with
  | [] => Ret end_
  | cmd :: cmds =>
      do! err := processPendingCommand h cmd in
      match err with Some err => Ret (Some err) | None => process_all h cmds end_ end
  end.
Definition coldStartPendingCommandsLocked (h : nat) (resp : answer) : program (option error) :=
  do! iterErr := process_all h resp.1 resp.2 in
  Ret (match iterErr with
       | Some err => if bool_decide (error_code err = NotFound) then None
                     else Some (Wrap "cannot retrieve pending commands for %v: %w" err)
       | None => None
       end).

Definition lock : program unit :=
  wait (fun s => if ds_mutex s then None else Some (set_mutex true s, tt)).
Definition unlock {A} (a : A) : program A := act (fun s => (set_mutex false s, a)).

(** [None]: the handler stays; the operation of the error belongs to the handler it fails for. *)
Definition tryReconnectToGRPC (wantToSet : option nat) (resp : answer) : program bool :=
  do! _ := lock in
  do! handler := act (fun s =>
    let s := match wantToSet with Some h => set_handler (Some h) s | None => s end in
    (s, ds_pendingCommandsHandler s)) in
  match handler with
  | None => unlock false
  | Some h =>
      do! err := coldStartPendingCommandsLocked h resp in
      match err with
      | None => unlock true
      | Some err =>
          if bool_decide (error_code err <> Unavailable) then
            do! _ := lift ds_ops set_ops (op_OnDeviceSubscriberReconnectError (operations h) err) in
            unlock false
          else unlock false
      end
  end.

Definition triggerReconnect : program unit :=
  act (fun s => (if ds_done s then s else set_reconnectChan true s, tt)).
Definition TriggerGetPendingCommands : program unit := triggerReconnect.
Definition SubscribeToPendingCommands (h : nat) : program unit :=
  act (fun s => (if ds_done s then s else
                 match ds_setHandlerChan s with None => set_setHandlerChan (Some h) s | Some _ => s end, tt)).

(** What the selects take, and for each try the answer of the directory, what the next
    retry answers and what ends the wait.  A case that is not ready is waited for. *)
Inductive case_ := SetHandler | Reconnect | Done | After_.
Record attempt := MkAttempt { at_resp : answer; at_retry : option error; at_select : case_ }.

Definition receive_reconnect : program unit :=
  wait (fun s => if ds_reconnectChan s then Some (set_reconnectChan false s, tt) else None).
Definition receive_handler : program nat :=
  wait (fun s => match ds_setHandlerChan s with Some h => Some (set_setHandlerChan None s, h) | None => None end).
Definition receive_done : program unit := wait (fun s => if ds_done s then Some (s, tt) else None).

(** Whether the goroutine goes on; [None]: the tries of the script are used up. *)
Fixpoint try_reconnect (wantToSet : option nat) (tries : list attempt) : program (outcome (option bool)) :=
  match tries with
  | [] => Ret (Returns None)
  | a :: tries =>
      do! ok := tryReconnectToGRPC wantToSet (at_resp a) in
      if ok : bool then Ret (Returns (Some true)) else
      match at_retry a with
      | Some err =>
          do! handler := act (fun s => (s, ds_pendingCommandsHandler s)) in
          match handler with
          | None => Ret Panics
          | Some h =>
              do! _ := lift ds_ops set_ops (op_OnDeviceSubscriberReconnectError (operations h) err) in
              Ret (Returns (Some false))
          end
      | None =>
          match at_select a with
          | Reconnect => do! _ := receive_reconnect in Ret (Returns (Some true))
          | Done => do! _ := receive_done in Ret (Returns (Some false))
          | _ => try_reconnect wantToSet tries
          end
      end
  end.
Fixpoint reconnect (script : list (case_ * list attempt)) : program (outcome unit) :=
  match script with
  | [] => Ret (Returns tt)
  | (c, tries) :: script =>
      let retries wantToSet :=
        do! go := try_reconnect wantToSet tries in
        match go with
        | Returns (Some true) => reconnect script
        | Returns _ => Ret (Returns tt)
        | Panics => Ret Panics
        end in
      match c with
      | SetHandler => do! h := receive_handler in retries (Some h)
      | Reconnect => do! _ := receive_reconnect in retries None
      | _ => do! _ := receive_done in Ret (Returns tt)
      end
  end.

(** ** The events of the bus *)
Section bus.
Context {D : Type} `{!Unmarshaler D ResourceRetrievePending, !Unmarshaler D ResourceUpdatePending}
  `{!Unmarshaler D ResourceDeletePending, !Unmarshaler D ResourceCreatePending}
  `{!Unmarshaler D DeviceMetadataUpdatePending}.

Definition send_case {E} `{!Event E, !Unmarshaler D E} (text : string) (handle : E -> bool -> program (option error))
    (ev : LoadedEvent D) : program (option error) :=
  match Unmarshal (T := E) (le_data ev) with
  | inl err => Ret (Some (Wrap text err))
  | inr event => handle event false
  end.
Definition sendEvent (h : nat) (ev : LoadedEvent D) : program (option error) :=
  let of_type := String.eqb (le_eventType ev) in
  if of_type "resourceretrievepending" then
    send_case "cannot unmarshal resource retrieve pending event('%v'): %w" (HandleResourceRetrievePending h) ev
  else if of_type "resourceupdatepending" then
    send_case "cannot unmarshal resource update pending event('%v'): %w" (HandleResourceUpdatePending h) ev
  else if of_type "resourcedeletepending" then
    send_case "cannot unmarshal resource delete pending event('%v'): %w" (HandleResourceDeletePending h) ev
  else if of_type "resourcecreatepending" then
    send_case "cannot unmarshal resource create pending event('%v'): %w" (HandleResourceCreatePending h) ev
  else if of_type "devicemetadataupdatepending" then
    send_case "cannot unmarshal device metadate update pending event('%v'): %w" (HandleDeviceMetadataUpdatePending h) ev
  else Ret None.

Definition getPendingCommandsHandler : program (option nat) :=
  wait (fun s => if ds_mutex s then None else Some (s, ds_pendingCommandsHandler s)).
Fixpoint send_events (h : nat) (evs : list (LoadedEvent D)) : program (option error) :=
  match evs with
  | [] => Ret None
  | ev :: evs =>
      do! err := sendEvent h ev in
      match err with Some err => Ret (Some err) | None => send_events h evs end
  end.
Definition Handle (evs : list (LoadedEvent D)) : program (option error) :=
  do! handler := getPendingCommandsHandler in
  match handler with None => Ret None | Some h => send_events h evs end.
End bus.
End subscriber.

(** ** What becomes of the commands that wait for a device

    The versions that a handler has seen as a history of offers; a command is
    handed on once; a cold start hands on every command; what happens when the
    two ways overtake each other. *)

(** ** Offers *)
Record offer := MkOffer { of_key : Z; of_version : Z; of_fromDB : bool }.
#[global] Instance offer_eq_dec : EqDecision offer.
Proof. solve_decision. Defined.

(** The offers one after the other, with what is decided on each. *)
Fixpoint decide_all (os : list offer) (m : versions) : versions * list (offer * bool) :=
  match os with
  | [] => (m, [])
  | o :: os =>
      let '(m, b) := wantToProcessEvent (of_key o) (of_version o) (of_fromDB o) m in
      let '(m, l) := decide_all os m in (m, (o, b) :: l)
  end.
Definition seen_after (os : list offer) : versions := (decide_all os ∅).1.
Definition accepted_of (os : list offer) : list offer :=
  fst <$> filter (fun p => p.2 = true) (decide_all os ∅).2.

(** A version at least [x] was offered for [key], by the directory or by the bus. *)
Definition covered (m : versions) (key : Z) (fromDB : bool) (x : Z) : bool :=
  match m !! key with
  | None => false
  | Some v => if fromDB then sv_dbVersionWasSet v && (x <=? sv_dbVersion v)%Z
              else sv_natsVersionWasSet v && (x <=? sv_natsVersion v)%Z
  end.

Lemma want_decides key v fromDB m :
  (wantToProcessEvent key v fromDB m).2 = negb (covered m key true v || fromDB && covered m key false v).
Proof.
  unfold wantToProcessEvent, covered. destruct (m !! key) as [[ds d n ns]|]; [|by destruct fromDB].
  cbn [sv_dbVersionWasSet sv_dbVersion sv_natsVersion sv_natsVersionWasSet].
  destruct fromDB, ds, ns; cbn; try (destruct (n <? v)%Z; cbn); by destruct (v <=? d)%Z, (v <=? n)%Z.
Qed.
Lemma want_covers key v fromDB m key' db' x :
  covered (wantToProcessEvent key v fromDB m).1 key' db' x
  = covered m key' db' x || (key' =? key)%Z && Bool.eqb db' fromDB && (x <=? v)%Z.
Proof.
  unfold wantToProcessEvent, covered. destruct (Z.eqb_spec key' key) as [->|Hne].
  2:{ cbn [andb]. rewrite orb_false_r. destruct (m !! key) as [v'|]; [|by cbn; rewrite lookup_insert_ne by congruence].
      destruct fromDB; [destruct (sv_dbVersionWasSet v' && _); [done|]|]; cbn; by rewrite lookup_insert_ne by congruence. }
  destruct (m !! key) as [[ds d n ns]|] eqn:Hm; [|cbn; rewrite lookup_insert_eq; by destruct fromDB, db'; cbn].
  destruct fromDB, ds, ns, db'; cbn;
    repeat match goal with |- context [(?a <=? ?b)%Z] => destruct (Z.leb_spec a b) end;
    repeat match goal with |- context [(?a <? ?b)%Z] => destruct (Z.ltb_spec a b) end;
    cbn; rewrite ?lookup_insert_eq, ?Hm; cbn; try done;
    repeat match goal with |- context [(?a <=? ?b)%Z] => destruct (Z.leb_spec a b) end; done || lia.
Qed.

Lemma decide_all_app os os' m :
  decide_all (os ++ os') m =
  let '(m1, l1) := decide_all os m in let '(m2, l2) := decide_all os' m1 in (m2, l1 ++ l2).
Proof.
  revert m. induction os as [|o os IH]; intros m; cbn; [by destruct (decide_all os' m)|].
  destruct (wantToProcessEvent _ _ _ m) as [m1 b]. rewrite IH. destruct (decide_all os m1) as [m2 l2].
  by destruct (decide_all os' m2).
Qed.

(** The versions say exactly which offers there were. *)
Lemma seen_after_covered os key db x :
  covered (seen_after os) key db x = true <->
  exists o, o ∈ os /\ of_key o = key /\ of_fromDB o = db /\ (x <= of_version o)%Z.
Proof.
  unfold seen_after. induction os as [|o os IH] using rev_ind.
  { cbn. unfold covered. rewrite lookup_empty. split; [done|]. by intros (? & ?%not_elem_of_nil & _). }
  rewrite decide_all_app. destruct (decide_all os ∅) as [m1 l1]. cbn [fst] in IH. cbn [decide_all].
  pose proof (want_covers (of_key o) (of_version o) (of_fromDB o) m1 key db x) as Hc.
  destruct (wantToProcessEvent _ _ _ m1) as [m2 b]. cbn [fst] in *. rewrite Hc, orb_true_iff, IH, !andb_true_iff.
  rewrite Z.eqb_eq, eqb_true_iff, Z.leb_le. split.
  - intros [(o' & Hin & Ho')|[[-> ->] Hx]]; [exists o'|exists o]; (split; [set_solver|done]).
  - intros (o' & [Hin|Hin]%elem_of_app & Hk & Hd & Hx); [left; by exists o'|right].
    apply list_elem_of_singleton in Hin as ->. by subst.
Qed.

(** An offer is handed on unless the directory has offered its version or a later one
    for the same resource and kind before, or, when it comes from the directory, the bus has. *)
Theorem wantToProcessEvent_spec os o :
  (wantToProcessEvent (of_key o) (of_version o) (of_fromDB o) (seen_after os)).2 = true <->
  forall o', o' ∈ os -> of_key o' = of_key o -> of_fromDB o' = true \/ of_fromDB o = true ->
    (of_version o' < of_version o)%Z.
Proof.
  rewrite want_decides, negb_true_iff, orb_false_iff, andb_false_iff, <- !not_true_iff_false, !seen_after_covered.
  split.
  - intros [Hdb Hn] o' Hin Hk Hd. apply Z.nle_gt. intros Hle. destruct (of_fromDB o') eqn:Ho'.
    + apply Hdb. by exists o'.
    + destruct Hd as [Hd|Hd]; [done|]. destruct Hn as [Hn|Hn]; [by rewrite Hd in Hn|]. apply Hn. by exists o'.
  - intros Hall. split.
    + intros (o' & Hin & Hk & Hd & Hx). specialize (Hall o' Hin Hk (or_introl Hd)). lia.
    + destruct (of_fromDB o) eqn:Hd; [right|by left].
      intros (o' & Hin & Hk & Hd' & Hx). specialize (Hall o' Hin Hk (or_intror eq_refl)). lia.
Qed.

Lemma accepted_of_snoc os o :
  accepted_of (os ++ [o]) = accepted_of os ++
    if (wantToProcessEvent (of_key o) (of_version o) (of_fromDB o) (seen_after os)).2 then [o] else [].
Proof.
  unfold accepted_of, seen_after. rewrite decide_all_app. destruct (decide_all os ∅) as [m l]. cbn.
  destruct (wantToProcessEvent _ _ _ m) as [m' b]. cbn. rewrite filter_app, fmap_app. by destruct b.
Qed.
Lemma accepted_of_offered os o : o ∈ accepted_of os -> o ∈ os.
Proof.
  induction os as [|o1 os IH] using rev_ind; [done|]. rewrite accepted_of_snoc, !elem_of_app.
  intros [Hin|Hin]; [left; by apply IH|right]. case_match; [done|by apply not_elem_of_nil in Hin].
Qed.

(** C11: In whatever order the bus and the directory offer the commands, and however often
    the directory does, no command is handed on twice, unless the bus itself
    delivers it twice. *)
Theorem handed_on_once os :
  NoDup (filter (fun o => of_fromDB o = false) os) ->
  NoDup ((fun o => (of_key o, of_version o)) <$> accepted_of os).
Proof.
  induction os as [|o os IH] using rev_ind; [constructor|].
  rewrite filter_app. intros (Hn & Hdis & _)%NoDup_app. specialize (IH Hn).
  rewrite accepted_of_snoc. case_match eqn:Hw; [|by rewrite app_nil_r].
  rewrite fmap_app. apply NoDup_app. split; [done|]. split; [|apply NoDup_singleton].
  intros x (o' & -> & Ho')%list_elem_of_fmap Hx. apply list_elem_of_singleton in Hx. injection Hx as Hk Hv.
  apply accepted_of_offered in Ho'. pose proof (proj1 (wantToProcessEvent_spec os o) Hw o' Ho' Hk) as Hlt.
  destruct (of_fromDB o') eqn:Hd'; [specialize (Hlt (or_introl eq_refl)); lia|].
  destruct (of_fromDB o) eqn:Hd; [specialize (Hlt (or_intror eq_refl)); lia|].
  assert (o' = o) as -> by (destruct o, o'; cbn in *; congruence).
  apply (Hdis o); [by apply list_elem_of_filter|]. apply list_elem_of_filter. split; [done|]. by left.
Qed.

(** When neither way overtakes the other, every command that is offered is handed on. *)
Theorem handed_on_in_order os o :
  StronglySorted (fun o1 o2 => of_key o1 = of_key o2 -> (of_version o1 <= of_version o2)%Z) os ->
  o ∈ os -> exists o', o' ∈ accepted_of os /\ of_key o' = of_key o /\ of_version o' = of_version o.
Proof.
  revert o. induction os as [|o1 os IH] using rev_ind; [by intros o _ ?%not_elem_of_nil|].
  intros o (Hle & Hs & _)%StronglySorted_app Hin.
  assert (Hold : forall o, o ∈ os -> exists o', o' ∈ accepted_of (os ++ [o1]) /\ of_key o' = of_key o /\
    of_version o' = of_version o).
  { intros o2 Ho2. destruct (IH o2 Hs Ho2) as (o' & Ha & Ho'). exists o'. rewrite accepted_of_snoc. set_solver. }
  apply elem_of_app in Hin as [Hin|Hin]; [by apply Hold|]. apply list_elem_of_singleton in Hin as ->.
  destruct (wantToProcessEvent (of_key o1) (of_version o1) (of_fromDB o1) (seen_after os)).2 eqn:Hw.
  { exists o1. rewrite accepted_of_snoc, Hw. set_solver. }
  rewrite want_decides, negb_false_iff, orb_true_iff, andb_true_iff, !seen_after_covered in Hw.
  assert (exists o', o' ∈ os /\ of_key o' = of_key o1 /\ (of_version o1 <= of_version o')%Z)
    as (o' & Hin & Hk & Hv) by naive_solver.
  destruct (Hold o' Hin) as (o2 & Ha & Hk2 & Hv2). exists o2. split; [done|].
  specialize (Hle o' o1 Hin). rewrite list_elem_of_singleton in Hle. specialize (Hle eq_refl Hk).
  split; [congruence|lia].
Qed.

(** The bus brings version 7 while the gateway asks the directory for what it missed: version
    6, which the bus never brought, is not handed on. *)
Example overtaken_lost :
  accepted_of [MkOffer 0 7 false; MkOffer 0 6 true; MkOffer 0 7 true] = [MkOffer 0 7 false].
Proof. vm_compute. reflexivity. Qed.

(** ** The programs *)
Section programs.
Context {T : Type} `{!UUIDLib} (operations : nat -> Operations T).
#[local] Abbreviation state := (DState T).

Lemma run_ops {A} (p : prog T A) (s : state) :
  run (lift ds_ops set_ops p) s =
  match run p (ds_ops s) with Some (t, r) => Some (set_ops t s, r) | None => None end.
Proof.
  revert p s. fix IH 1. intros p s. destruct p as [a|f]; cbn [run lift]; [by destruct s|].
  destruct (f (ds_ops s)) as [[t1 p1]|]; [|done]. rewrite IH. cbn. by destruct (run p1 t1) as [[??]|].
Qed.

Definition versions_of (h : nat) (s : state) : versions := default ∅ (ds_handlers s !! h).
Definition offered (h : nat) (o : offer) (s : state) : state :=
  set_handlers (<[h := (wantToProcessEvent (of_key o) (of_version o) (of_fromDB o) (versions_of h s)).1]>
    (ds_handlers s)) s.

Lemma run_handle {E} `{!Event E} h id text (op : E -> prog T (option error)) val fromDB s :
  let o := MkOffer (toCRC64 (id +:+ EventType val)) (Version val) fromDB in
  run (handle h id text op val fromDB) s =
  if (wantToProcessEvent (of_key o) (of_version o) (of_fromDB o) (versions_of h s)).2 then
    match run (op val) (ds_ops s) with
    | Some (t, err) => Some (set_ops t (offered h o s), match err with Some err => Some (Wrap text err) | None => None end)
    | None => None
    end
  else Some (offered h o s, None).
Proof.
  cbv zeta. unfold handle. rewrite run_seq. unfold want. rewrite run_act. unfold offered, versions_of.
  cbn [of_key of_version of_fromDB]. destruct (wantToProcessEvent _ _ _ _) as [m [|]]; cbn [negb fst snd]; [|done].
  rewrite run_seq, run_ops. cbn [ds_ops set_handlers]. by destruct (run (op val) (ds_ops s)) as [[t err]|].
Qed.

Lemma versions_of_offered h o t s :
  versions_of h (set_ops t (offered h o s)) =
  (wantToProcessEvent (of_key o) (of_version o) (of_fromDB o) (versions_of h s)).1.
Proof. unfold versions_of at 1, offered. cbn [ds_handlers set_ops set_handlers]. by rewrite lookup_insert_eq. Qed.

(** *** A cold start *)
Definition command_offer (cmd : pb_PendingCommand) : offer :=
  match cmd with
  | PendingCommand_ResourceCreatePending p => MkOffer (toCRC64 (AggregateID p +:+ EventType p)) (Version p) true
  | PendingCommand_ResourceRetrievePending p => MkOffer (toCRC64 (AggregateID p +:+ EventType p)) (Version p) true
  | PendingCommand_ResourceUpdatePending p => MkOffer (toCRC64 (AggregateID p +:+ EventType p)) (Version p) true
  | PendingCommand_ResourceDeletePending p => MkOffer (toCRC64 (AggregateID p +:+ EventType p)) (Version p) true
  | PendingCommand_DeviceMetadataUpdatePending p => MkOffer (toCRC64 (AggregateID p +:+ EventType p)) (Version p) true
  end.
(** What the operations answer for a command. *)
Definition serve (h : nat) (cmd : pb_PendingCommand) : prog T (option error) :=
  let wrap text p := do! err := p in Ret (match err with Some err => Some (Wrap text err) | None => None end) in
  let ops := operations h in
  match cmd with
  | PendingCommand_ResourceCreatePending p => wrap "unable to create resource %v: %w" (op_CreateResource ops p)
  | PendingCommand_ResourceRetrievePending p => wrap "unable to retrieve resource %v: %w" (op_RetrieveResource ops p)
  | PendingCommand_ResourceUpdatePending p => wrap "unable to update resource %v: %w" (op_UpdateResource ops p)
  | PendingCommand_ResourceDeletePending p => wrap "unable to delete resource %v: %w" (op_DeleteResource ops p)
  | PendingCommand_DeviceMetadataUpdatePending p =>
      wrap "unable to update device metadata %v: %w" (op_UpdateDeviceMetadata ops p)
  end.
(** The commands one after the other, until one fails. *)
Fixpoint serve_all (h : nat) (cmds : list pb_PendingCommand) (end_ : option error) : prog T (option error) :=
  match cmds with
  | [] => Ret end_
  | cmd :: cmds => do! err := serve h cmd in match err with Some err => Ret (Some err) | None => serve_all h cmds end_ end
  end.

Lemma handle_serves {E} `{!Event E} h text (op : E -> prog T (option error)) val fromDB s :
  let o := MkOffer (toCRC64 (AggregateID val +:+ EventType val)) (Version val) fromDB in
  run (handle h (AggregateID val) text op val fromDB) s =
  if (wantToProcessEvent (of_key o) (of_version o) (of_fromDB o) (versions_of h s)).2 then
    match run (do! err := op val in Ret (match err with Some err => Some (Wrap text err) | None => None end)) (ds_ops s) with
    | Some (t, err) => Some (set_ops t (offered h o s), err)
    | None => None
    end
  else Some (offered h o s, None).
Proof.
  cbv zeta. rewrite run_handle, run_seq. case_match; [|done]. by destruct (run (op val) (ds_ops s)) as [[??]|].
Qed.
Lemma run_processPendingCommand h cmd s :
  let o := command_offer cmd in
  run (processPendingCommand operations h cmd) s =
  if (wantToProcessEvent (of_key o) (of_version o) (of_fromDB o) (versions_of h s)).2 then
    match run (serve h cmd) (ds_ops s) with
    | Some (t, err) => Some (set_ops t (offered h o s), err)
    | None => None
    end
  else Some (offered h o s, None).
Proof.
  destruct cmd as [p|p|p|p|p].
  - exact (handle_serves h _ (op_CreateResource (operations h)) p true s).
  - exact (handle_serves h _ (op_RetrieveResource (operations h)) p true s).
  - exact (handle_serves h _ (op_UpdateResource (operations h)) p true s).
  - exact (handle_serves h _ (op_DeleteResource (operations h)) p true s).
  - exact (handle_serves h _ (op_UpdateDeviceMetadata (operations h)) p true s).
Qed.

(** Nothing in the versions stands in the way of the commands. *)
Definition unseen (m : versions) (cmd : pb_PendingCommand) : Prop :=
  forall db, covered m (of_key (command_offer cmd)) db (of_version (command_offer cmd)) = false.
Lemma command_fromDB cmd : of_fromDB (command_offer cmd) = true.
Proof. by destruct cmd. Qed.

Lemma run_process_all h cmds end_ s :
  StronglySorted (fun o1 o2 => of_key o1 = of_key o2 -> (of_version o1 < of_version o2)%Z) (command_offer <$> cmds) ->
  Forall (unseen (versions_of h s)) cmds ->
  match run (serve_all h cmds end_) (ds_ops s) with
  | Some (t, err) => exists m, run (process_all operations h cmds end_) s = Some (set_ops t (set_handlers m s), err)
  | None => run (process_all operations h cmds end_) s = None
  end.
Proof.
  revert s. induction cmds as [|cmd cmds IH]; intros s Hs Hun; cbn [serve_all process_all run].
  { exists (ds_handlers s). by destruct s. }
  cbn [fmap list_fmap] in Hs. apply StronglySorted_cons in Hs as [Hlt Hs]. apply Forall_cons in Hun as [Hu Hun].
  rewrite !run_seq. rewrite run_processPendingCommand.
  replace (wantToProcessEvent _ _ _ (versions_of h s)).2 with true.
  2:{ by rewrite want_decides, command_fromDB, !Hu. }
  destruct (run (serve h cmd) (ds_ops s)) as [[t [err|]]|]; [by eexists| |done].
  set (s1 := set_ops t (offered h (command_offer cmd) s)).
  assert (Hun1 : Forall (unseen (versions_of h s1)) cmds).
  { rewrite Forall_forall in Hun |- *. intros cmd' Hin db. specialize (Hun cmd' Hin db).
    unfold s1. rewrite versions_of_offered, want_covers, Hun. cbn [orb].
    rewrite Forall_forall in Hlt. specialize (Hlt (command_offer cmd')).
    destruct (Z.eqb_spec (of_key (command_offer cmd')) (of_key (command_offer cmd))) as [He|]; [|done].
    destruct (Z.leb_spec (of_version (command_offer cmd')) (of_version (command_offer cmd))); [|by rewrite andb_false_r].
    specialize (Hlt ltac:(by apply list_elem_of_fmap_2) (eq_sym He)). lia. }
  specialize (IH s1 Hs Hun1). change (ds_ops s1) with t in IH. destruct (run (serve_all h cmds end_) t) as [[t' err]|].
  - destruct IH as [m ->]. by exists m.
  - done.
Qed.

(** C19: The gateway asks for the commands that wait, and none of their versions was seen:
    when the operations succeed, all commands were handed to them, one after the other,
    the mutex is free, and the handler stays for the events of the bus. *)
Theorem cold_start_serves w h (resp : list pb_PendingCommand * option error) s t :
  ds_mutex s = false -> w = Some h \/ w = None /\ ds_pendingCommandsHandler s = Some h ->
  StronglySorted (fun o1 o2 => of_key o1 = of_key o2 -> (of_version o1 < of_version o2)%Z)
    (command_offer <$> resp.1) ->
  Forall (unseen (versions_of h s)) resp.1 ->
  run (serve_all h resp.1 resp.2) (ds_ops s) = Some (t, None) ->
  exists s', run (tryReconnectToGRPC operations w resp) s = Some (s', true) /\
    ds_ops s' = t /\ ds_mutex s' = false /\ ds_pendingCommandsHandler s' = Some h.
Proof.
  intros Hm Hw Hs Hun Hrun. unfold tryReconnectToGRPC, lock. rewrite run_seq, run_wait, Hm, run_seq, run_act.
  set (s1 := match w with Some h => set_handler (Some h) (set_mutex true s) | None => set_mutex true s end).
  assert (Hh : ds_pendingCommandsHandler s1 = Some h) by (by destruct Hw as [-> | [-> Hh]]).
  assert (Hops : ds_ops s1 = ds_ops s) by (by destruct w).
  assert (Hv : versions_of h s1 = versions_of h s) by (by destruct w).
  cbn [fst snd]. rewrite Hh. unfold coldStartPendingCommandsLocked. rewrite !run_seq.
  rewrite <- Hv in Hun. rewrite <- Hops in Hrun.
  pose proof (run_process_all h resp.1 resp.2 s1 Hs Hun) as Hp. rewrite Hrun in Hp. destruct Hp as [m ->].
  cbn [run]. unfold unlock. rewrite run_act. by eexists.
Qed.

(** An operation that fails with the code NotFound ends a cold start, as if it had
    succeeded: the commands that follow are not handed on. *)
Lemma NotFound_ends_cold_start h cmd cmds end_ s t err :
  unseen (versions_of h s) cmd -> run (serve h cmd) (ds_ops s) = Some (t, Some err) -> error_code err = NotFound ->
  run (coldStartPendingCommandsLocked operations h (cmd :: cmds, end_)) s
    = Some (set_ops t (offered h (command_offer cmd) s), None).
Proof.
  intros Hu Hr Hc. unfold coldStartPendingCommandsLocked. rewrite run_seq. cbn [fst snd process_all].
  rewrite run_seq, run_processPendingCommand. rewrite want_decides, command_fromDB, !Hu. cbn [negb orb andb].
  rewrite Hr. cbn [run]. by rewrite bool_decide_eq_true_2.
Qed.

(** A trigger that arrives while the goroutine waits for its next try ends the tries,
    and is taken: the goroutine waits for another one. *)
Lemma trigger_ends_tries w a s s1 tries script :
  run (tryReconnectToGRPC operations w (at_resp a)) s = Some (s1, false) ->
  at_retry a = None -> at_select a = Reconnect -> ds_reconnectChan s1 = true ->
  exists s2, run (try_reconnect operations w [a]) s = Some (s2, Returns (Some true)) /\
    run (reconnect operations ((Reconnect, tries) :: script)) s2 = None.
Proof.
  intros Hr Ha Hs Hc. cbn [try_reconnect]. rewrite run_seq, Hr, Ha, Hs. unfold receive_reconnect.
  rewrite run_seq, run_wait, Hc. cbn [run]. eexists. split; [reflexivity|].
  cbn [reconnect]. unfold receive_reconnect. rewrite run_seq, run_wait. reflexivity.
Qed.
End programs.
