(* ===== verification/CoapConv.v ===== *)
(** * Messages of devices

    coap-gateway/coapconv: coapconv.go and grpcErr2CoapCode.go.  What devices
    say in CoAP and what the hub says in commands and events.  A message is the
    record of what the methods of go-coap's pool.Message answer. *)

From Stdlib Require Import ZArith Lia String.
From S2P Require Import Prelude Commands Events ResourceState.


(** ** go-coap and the schema of the device SDK *)
Module codes.
Inductive Code :=
  | Created | Deleted | Valid | Changed | Content | BadRequest | Unauthorized | BadOption | Forbidden
  | NotFound | MethodNotAllowed | NotAcceptable | PreconditionFailed | RequestEntityTooLarge
  | UnsupportedMediaType | InternalServerError | NotImplemented | BadGateway | ServiceUnavailable
  | GatewayTimeout | ProxyingNotSupported | Code_other (n : Z).
#[global] Instance Code_eq_dec : EqDecision Code.
Proof. solve_decision. Defined.
End codes.

Record BatchRepresentation := MkBatchRepresentation {
  br_Href : string; br_Content : bytes; br_ETag : bytes; br_ResourceTypes : list string }.

(** The constants, the checks of an option, and the decoders into the types of the code. *)
Class CoapLib := {
  TextPlain : Z; OC_IF_CREATE : string; OC_IF_B : string; resources_ResourceURI : string;
  SetPath : string -> option error; CheckETag : list byte -> option error;
  cbor_ct : list byte -> result (list string); json_ct : list byte -> result (list string);
  cbor_Batch : bytes -> result (list BatchRepresentation);
  cbor_len_of_map : bytes -> result nat }.

Inductive Method := GET | POST | DELETE.
Record CoapRequest := MkCoapRequest {
  cr_Method : Method; cr_Path : string; cr_Token : list byte; cr_MediaType : option Z; cr_Body : bytes;
  cr_Queries : list string; cr_ETags : list (list byte) }.
Record Message := MkMessage {
  msg_Code : codes.Code; msg_ContentFormat : result Z; msg_Body : bytes; msg_ETag : result (list byte);
  msg_ETags : result (list (list byte)); msg_Queries : result (list string); msg_Sequence : Z;
  msg_Observe : result Z }.

(** ** Codes *)
Inductive Operation := Create | Retrieve | Update | Delete.

Definition StatusToCoapCode (status : Status) (operation : Operation) : codes.Code :=
  match status with
  | Status_OK =>
      match operation with
      | Update => codes.Changed
      | Retrieve => codes.Content
      | Delete => codes.Deleted
      | Create => codes.Created
      end
  | Status_CREATED => codes.Created
  | Status_NOT_MODIFIED => codes.Valid
  | Status_ACCEPTED => codes.Valid
  | Status_BAD_REQUEST => codes.BadRequest
  | Status_UNAUTHORIZED => codes.Unauthorized
  | Status_FORBIDDEN => codes.Forbidden
  | Status_NOT_FOUND => codes.NotFound
  | Status_UNAVAILABLE => codes.ServiceUnavailable
  | Status_NOT_IMPLEMENTED => codes.NotImplemented
  | _ => codes.BadRequest
  end.
Definition CoapCodeToStatus (code : codes.Code) (operation : Operation) : Status :=
  match code with
  | codes.Changed | codes.Content | codes.Deleted => Status_OK
  | codes.Valid =>
      match operation with Retrieve => Status_NOT_MODIFIED | _ => Status_ACCEPTED end
  | codes.BadRequest => Status_BAD_REQUEST
  | codes.Unauthorized => Status_UNAUTHORIZED
  | codes.Forbidden => Status_FORBIDDEN
  | codes.NotFound => Status_NOT_FOUND
  | codes.ServiceUnavailable => Status_UNAVAILABLE
  | codes.NotImplemented => Status_NOT_IMPLEMENTED
  | codes.MethodNotAllowed => Status_METHOD_NOT_ALLOWED
  | codes.Created => Status_CREATED
  | _ => Status_ERROR
  end.

(** The map of the error codes; it has all of them. *)
Definition grpcErrorCode2CoapCode (c : Code) : option codes.Code :=
  match c with
  | OK => None
  | Canceled => Some codes.ServiceUnavailable
  | Unknown => Some codes.InternalServerError
  | InvalidArgument => Some codes.BadRequest
  | DeadlineExceeded => Some codes.InternalServerError
  | NotFound => Some codes.NotFound
  | AlreadyExists => Some codes.InternalServerError
  | PermissionDenied => Some codes.Forbidden
  | ResourceExhausted => Some codes.InternalServerError
  | FailedPrecondition => Some codes.PreconditionFailed
  | Aborted => Some codes.InternalServerError
  | OutOfRange => Some codes.RequestEntityTooLarge
  | Unimplemented => Some codes.NotImplemented
  | Internal => Some codes.InternalServerError
  | Unavailable => Some codes.ServiceUnavailable
  | DataLoss => Some codes.InternalServerError
  | Unauthenticated => Some codes.Unauthorized
  end.
Definition grpcCode2CoapCode (statusCode : Code) (operation : Operation) : codes.Code :=
  match statusCode with
  | OK =>
      match operation with
      | Update => codes.Changed
      | Retrieve => codes.Content
      | Create => codes.Created
      | Delete => codes.Deleted
      end
  | _ => default codes.InternalServerError (grpcErrorCode2CoapCode statusCode)
  end.
Definition GrpcErr2CoapCode (err : option error) (operation : Operation) : codes.Code :=
  grpcCode2CoapCode (match err with Some err => error_code err | None => OK end) operation.

Section conv.
Context `{!ContentCodec, !CoapLib}.

(** ** Requests for a device *)
Definition InterfaceQueryKeyPrefix : string := "if=".

(** message.MediaType has 16 bits. *)
Definition MakeMediaType (coapContentFormat : Z) (contentType : string) : result Z :=
  if (0 <=? coapContentFormat)%Z then inr (coapContentFormat mod 2 ^ 16)%Z
  else if String.eqb contentType (MediaType_String TextPlain) then inr TextPlain
  else if String.eqb contentType (MediaType_String AppJSON) then inr AppJSON
  else if String.eqb contentType (MediaType_String AppCBOR) then inr AppCBOR
  else if String.eqb contentType (MediaType_String AppOcfCbor) then inr AppOcfCbor
  else inl (errors_New "unknown content type coapContentFormat(%v), contentType(%v)").

Definition interface_query (resourceInterface : string) : list string :=
  if String.eqb resourceInterface "" then [] else [InterfaceQueryKeyPrefix +:+ resourceInterface].

Definition newCoapResourceCreateOrUpdateRequest (token : result (list byte)) (resourceID : option ResourceId)
    (content : option Content) (resourceInterface : string) : result CoapRequest :=
  match MakeMediaType (-1) (content ~> ct_ContentType), content, token with
  | inl err, _, _ => inl (Wrap "invalid content type for request: %w" err)
  | _, None, _ => inl (errors_New "invalid content for request")
  | _, _, inl err => inl err
  | inr mediaType, Some c, inr token =>
      match SetPath (resourceID ~> rid_Href) with
      | Some err => inl err
      | None => inr (MkCoapRequest POST (resourceID ~> rid_Href) token (Some mediaType) (ct_Data c)
                       (interface_query resourceInterface) [])
      end
  end.
Definition NewCoapResourceUpdateRequest (token : result (list byte)) (event : ResourceUpdatePending)
    : result CoapRequest :=
  newCoapResourceCreateOrUpdateRequest token (rup_ResourceId event) (rup_Content event) (rup_ResourceInterface event).
Definition NewCoapResourceCreateRequest (token : result (list byte)) (event : ResourceCreatePending)
    : result CoapRequest :=
  newCoapResourceCreateOrUpdateRequest token (rcp_ResourceId event) (rcp_Content event) OC_IF_CREATE.

(** The first entity tag that cannot be added. *)
Fixpoint AddETags (etags : list (list byte)) : option error :=
  match etags with
  | [] => None
  | etag :: etags => match CheckETag etag with Some err => Some err | None => AddETags etags end
  end.
Definition NewCoapResourceRetrieveRequest (token : result (list byte)) (event : ResourceRetrievePending)
    : result CoapRequest :=
  let href := (rrp_ResourceId event) ~> rid_Href in
  match token with
  | inl err => inl err
  | inr token =>
      match SetPath href, AddETags (rrp_Etag event) with
      | Some err, _ => inl err
      | None, Some err => inl err
      | None, None => inr (MkCoapRequest GET href token None None (interface_query (rrp_ResourceInterface event))
                             (rrp_Etag event))
      end
  end.
Definition NewCoapResourceDeleteRequest (token : result (list byte)) (event : ResourceDeletePending)
    : result CoapRequest :=
  let href := (rdp_ResourceId event) ~> rid_Href in
  match token with
  | inl err => inl err
  | inr token =>
      match SetPath href with
      | Some err => inl err
      | None => inr (MkCoapRequest DELETE href token None None (interface_query (rdp_ResourceInterface event)) [])
      end
  end.

(** ** What a message says *)
Definition GetContentData (msg : Message) : bytes * Z :=
  (msg_Body msg, match msg_ContentFormat msg with inr mt => mt | inl _ => (-1)%Z end).
Definition GetContentFormatString (coapContentFormat : Z) : string :=
  if negb (coapContentFormat =? -1)%Z then MediaType_String (coapContentFormat mod 2 ^ 16)%Z else "".
Definition NewContent (msg : Message) : Content :=
  let '(data, coapContentFormat) := GetContentData msg in
  MkContent data (GetContentFormatString coapContentFormat) coapContentFormat.
Definition NewCommandMetadata (sequenceNumber : Z) (connectionID : string) : CommandMetadata :=
  {| cm_Sequence := sequenceNumber; cm_ConnectionId := connectionID |}.
Definition getETagFromMessage (msg : Message) : bytes :=
  match msg_ETag msg with inl _ => None | inr etag => Some etag end.

(** ETags fills a buffer of [n] entries, or reports that it is too small. *)
Fixpoint getETags_loop (fuel n : nat) (etags : list (list byte)) : option (list (list byte)) :=
  match fuel with
  | O => None
  | S fuel => if (n <? length etags)%nat then getETags_loop fuel (n * 2) etags else Some etags
  end.
Definition getETagsFromMessage (msg : Message) : list (list byte) :=
  match msg_ETags msg with
  | inl _ => []
  | inr etags => default [] (getETags_loop (S (length etags)) 32 etags)
  end.

(** *** Confirmations *)
Definition NewConfirmResourceRetrieveRequest (resourceID : option ResourceId) (correlationID connectionID : string)
    (req : Message) : ConfirmResourceRetrieveRequest :=
  {| ctr_ResourceId := resourceID; ctr_CorrelationId := correlationID;
     ctr_Status := CoapCodeToStatus (msg_Code req) Retrieve; ctr_Content := Some (NewContent req);
     ctr_CommandMetadata := Some (NewCommandMetadata (msg_Sequence req) connectionID);
     ctr_Etag := getETagFromMessage req |}.
Definition NewConfirmResourceUpdateRequest (resourceID : option ResourceId) (correlationID connectionID : string)
    (req : Message) : ConfirmResourceUpdateRequest :=
  {| cur_ResourceId := resourceID; cur_CorrelationId := correlationID;
     cur_Status := CoapCodeToStatus (msg_Code req) Update; cur_Content := Some (NewContent req);
     cur_CommandMetadata := Some (NewCommandMetadata (msg_Sequence req) connectionID) |}.
Definition NewConfirmResourceDeleteRequest (resourceID : option ResourceId) (correlationID connectionID : string)
    (req : Message) : ConfirmResourceDeleteRequest :=
  {| cdr_ResourceId := resourceID; cdr_CorrelationId := correlationID;
     cdr_Status := CoapCodeToStatus (msg_Code req) Delete; cdr_Content := Some (NewContent req);
     cdr_CommandMetadata := Some (NewCommandMetadata (msg_Sequence req) connectionID) |}.
Definition NewConfirmResourceCreateRequest (resourceID : option ResourceId) (correlationID connectionID : string)
    (req : Message) : ConfirmResourceCreateRequest :=
  {| ccr_ResourceId := resourceID; ccr_CorrelationId := correlationID;
     ccr_Status := CoapCodeToStatus (msg_Code req) Create; ccr_Content := Some (NewContent req);
     ccr_CommandMetadata := Some (NewCommandMetadata (msg_Sequence req) connectionID) |}.

(** *** Changes of resources *)
Definition tryToGetResourceTypesFromContent (contentFormat : Z) (content : bytes) : list string :=
  match elems content with
  | [] => []
  | data =>
      let decoded :=
        if (contentFormat =? AppOcfCbor)%Z || (contentFormat =? AppCBOR)%Z then cbor_ct data
        else if (contentFormat =? AppJSON)%Z then json_ct data
        else inl (errors_New "unsupported") in
      match decoded with inr types => types | inl _ => [] end
  end.
Definition NewNotifyResourceChangedRequest (resourceID : option ResourceId) (resourceTypes : list string)
    (connectionID : string) (req : Message) : NotifyResourceChangedRequest :=
  let content := NewContent req in
  let rtFromBody := tryToGetResourceTypesFromContent (ct_CoapContentFormat content) (ct_Data content) in
  {| ncr_ResourceId := resourceID; ncr_Content := Some content;
     ncr_CommandMetadata := Some (NewCommandMetadata (msg_Sequence req) connectionID);
     ncr_Status := CoapCodeToStatus (msg_Code req) Update; ncr_Etag := getETagFromMessage req;
     ncr_ResourceTypes := if (0 <? length rtFromBody)%nat then rtFromBody else resourceTypes |}.

Definition filterOutEmptyResources : list string := ["/oc/wk/introspection"; "/oic/sec/"]%string.
Definition filterOutEmptyResource (resource : BatchRepresentation) : bool * bool :=
  if (length (elems (br_Content resource)) =? 2)%nat then
    match cbor_len_of_map (br_Content resource) with
    | inr O => (true, existsb (fun f => String.prefix f (br_Href resource)) filterOutEmptyResources)
    | _ => (false, false)
    end
  else (false, false).

(** The request for a representation that is not left out. *)
Definition batch_request (deviceID connectionID : string) (req : Message) (r : BatchRepresentation)
    : NotifyResourceChangedRequest :=
  let contentFormat := (GetContentData req).2 in
  let isEmpty := (filterOutEmptyResource r).1 in
  let ct := if isEmpty then (-1)%Z else contentFormat in
  {| ncr_ResourceId := Some (NewResourceID deviceID (br_Href r));
     ncr_Content := Some (MkContent (if isEmpty then None else br_Content r) (GetContentFormatString ct) ct);
     ncr_CommandMetadata := Some (NewCommandMetadata (msg_Sequence req) connectionID);
     ncr_Status := if isEmpty then Status_NOT_FOUND else CoapCodeToStatus (msg_Code req) Retrieve;
     ncr_Etag := br_ETag r;
     ncr_ResourceTypes :=
       if (length (br_ResourceTypes r) =? 0)%nat
       then tryToGetResourceTypesFromContent contentFormat (br_Content r) else br_ResourceTypes r |}.
(** The loop: the requests, and the one whose entity tag is that of the message. *)
Fixpoint batch_loop (deviceID connectionID : string) (req : Message) (rs : list BatchRepresentation)
    (requests : list NotifyResourceChangedRequest) (latest : option NotifyResourceChangedRequest)
    : list NotifyResourceChangedRequest * option NotifyResourceChangedRequest :=
  match rs with
  | [] => (requests, latest)
  | r :: rs =>
      if (filterOutEmptyResource r).2 then batch_loop deviceID connectionID req rs requests latest
      else
        let request := batch_request deviceID connectionID req r in
        let etag := getETagFromMessage req in
        if (0 <? length (elems etag))%nat && bytes_Equal etag (br_ETag r)
        then batch_loop deviceID connectionID req rs requests (Some request)
        else batch_loop deviceID connectionID req rs (requests ++ [request]) latest
  end.
Definition NewNotifyResourceChangedRequestsFromBatchResourceDiscovery (deviceID connectionID : string)
    (req : Message) : result (list NotifyResourceChangedRequest) :=
  let '(data, contentFormat) := GetContentData req in
  if (contentFormat =? AppOcfCbor)%Z || (contentFormat =? AppCBOR)%Z then
    match cbor_Batch data with
    | inl err => inl (Wrap "failed to parse discovery resource: %w" err)
    | inr rs =>
        let '(requests, latest) := batch_loop deviceID connectionID req rs [] None in
        inr (requests ++ match latest with Some r => [r] | None => [] end)
    end
  else inl (Wrap "failed to parse discovery resource: %w" (errors_New "invalid format(%v)")).

(** *** Requests of a client *)
Definition TrimPrefix (s prefix : string) : string :=
  if String.prefix prefix s then String.substring (String.length prefix) (String.length s) s else s.
Definition getResourceInterface (req : Message) : string :=
  match msg_Queries req with
  | inl _ => ""
  | inr qs => match List.find (String.prefix InterfaceQueryKeyPrefix) qs with
              | Some q => TrimPrefix q InterfaceQueryKeyPrefix
              | None => ""
              end
  end.
(** [correlationID]: the random identifier that createCorrelationID makes. *)
Definition with_correlationID {A} (correlationID : result string) (f : string -> A) : result A :=
  match correlationID with
  | inl err => inl (Wrap "cannot create correlationID: %w" err)
  | inr id => inr (f id)
  end.
Definition NewDeleteResourceRequest (correlationID : result string) (resourceID : option ResourceId)
    (req : Message) (connectionID : string) : result DeleteResourceRequest :=
  with_correlationID correlationID (fun id =>
    {| drr_ResourceId := resourceID; drr_CorrelationId := id; drr_TimeToLive := 0;
       drr_CommandMetadata := Some (NewCommandMetadata (msg_Sequence req) connectionID);
       drr_ResourceInterface := getResourceInterface req; drr_Force := false |}).
Definition NewUpdateResourceRequest (correlationID : result string) (resourceID : option ResourceId)
    (req : Message) (connectionID : string) : result UpdateResourceRequest :=
  with_correlationID correlationID (fun id =>
    {| urr_ResourceId := resourceID; urr_CorrelationId := id;
       urr_Content := Some (MkContent (ct_Data (NewContent req)) (ct_ContentType (NewContent req)) 0);
       urr_ResourceInterface := getResourceInterface req; urr_TimeToLive := 0;
       urr_CommandMetadata := Some (NewCommandMetadata (msg_Sequence req) connectionID); urr_Force := false |}).
Definition NewRetrieveResourceRequest (correlationID : result string) (resourceID : option ResourceId)
    (req : Message) (connectionID : string) : result RetrieveResourceRequest :=
  with_correlationID correlationID (fun id =>
    {| rrr_ResourceId := resourceID; rrr_CorrelationId := id; rrr_ResourceInterface := getResourceInterface req;
       rrr_TimeToLive := 0; rrr_CommandMetadata := Some (NewCommandMetadata (msg_Sequence req) connectionID);
       rrr_Etag := getETagsFromMessage req |}).
Definition NewCreateResourceRequest (correlationID : result string) (resourceID : option ResourceId)
    (req : Message) (connectionID : string) : result CreateResourceRequest :=
  with_correlationID correlationID (fun id =>
    {| crr_ResourceId := resourceID; crr_CorrelationId := id; crr_Content := Some (NewContent req);
       crr_TimeToLive := 0; crr_CommandMetadata := Some (NewCommandMetadata (msg_Sequence req) connectionID);
       crr_Force := false |}).
End conv.

(** ** The notifications of a batch

    What becomes of the representations of a batch: which requests they give and in
    which order; statuses and codes. *)

Section batch.
Context `{!ContentCodec, !CoapLib}.

(** Representations that are not left out; those with the entity tag of the message. *)
Definition reported (r : BatchRepresentation) : bool := negb (filterOutEmptyResource r).2.
Definition carries (req : Message) (r : BatchRepresentation) : bool :=
  (0 <? length (elems (getETagFromMessage req))) && bytes_Equal (getETagFromMessage req) (br_ETag r).

Lemma batch_loop_spec deviceID connectionID req rs requests latest :
  let kept := filter (fun r => Is_true (reported r)) rs in
  let request := batch_request deviceID connectionID req in
  batch_loop deviceID connectionID req rs requests latest =
  (requests ++ map request (filter (fun r => ~ Is_true (carries req r)) kept),
   match last (filter (fun r => Is_true (carries req r)) kept) with
   | Some r => Some (request r)
   | None => latest
   end).
Proof.
  cbv zeta. revert requests latest.
  induction rs as [|r rs IH]; intros requests latest; cbn [batch_loop]; [by rewrite app_nil_r|].
  rewrite filter_cons. destruct (filterOutEmptyResource r).2 eqn:Hf.
  { rewrite decide_False by (unfold reported; rewrite Hf; intros []). apply IH. }
  rewrite decide_True by (unfold reported; by rewrite Hf). fold (carries req r). rewrite !(filter_cons _ r).
  destruct (carries req r) eqn:Hc; rewrite IH.
  - rewrite (decide_False (P := ~ _)) by (intros Hn; by apply Hn). rewrite decide_True by done.
    f_equal. rewrite last_cons. by destruct (last _).
  - rewrite (decide_True (P := ~ _)) by (intros []). rewrite decide_False by (intros []).
    cbn [map]. by rewrite <- app_assoc.
Qed.

(** C36: A batch of a message of type CBOR gives a request for every representation that is
    not left out, in their order, but the one with the entity tag of the message comes last;
    of several with that tag only the last is reported. *)
Theorem batch_requests deviceID connectionID req rs :
  let kept := filter (fun r => Is_true (reported r)) rs in
  let latest := filter (fun r => Is_true (carries req r)) kept in
  let request := batch_request deviceID connectionID req in
  (GetContentData req).2 = AppOcfCbor \/ (GetContentData req).2 = AppCBOR ->
  cbor_Batch (msg_Body req) = inr rs ->
  exists requests,
    NewNotifyResourceChangedRequestsFromBatchResourceDiscovery deviceID connectionID req = inr requests /\
    (length latest <= 1 -> requests ≡ₚ map request kept) /\
    (forall r, last latest = Some r -> last requests = Some (request r)) /\
    sublist (map request (filter (fun r => ~ Is_true (carries req r)) kept)) requests /\
    length requests = length kept - (length latest - 1).
Proof.
  cbv zeta. intros Hct Hrs. unfold NewNotifyResourceChangedRequestsFromBatchResourceDiscovery.
  destruct (GetContentData req) as [data ct] eqn:Hd. cbn [snd] in Hct.
  assert (data = msg_Body req) as -> by (unfold GetContentData in Hd; congruence).
  replace ((ct =? AppOcfCbor)%Z || (ct =? AppCBOR)%Z) with true
    by (symmetry; destruct Hct as [-> | ->]; rewrite Z.eqb_refl; by rewrite ?orb_true_r).
  rewrite Hrs, batch_loop_spec. cbv zeta. cbn [app].
  set (kept := filter (fun r => Is_true (reported r)) rs).
  set (request := batch_request deviceID connectionID req).
  set (others := filter (fun r => ~ Is_true (carries req r)) kept).
  set (latest := filter (fun r => Is_true (carries req r)) kept).
  assert (Hp : latest ++ others ≡ₚ kept) by (apply filter_app_complement).
  eexists. split; [reflexivity|].
  assert (Hl : match last latest with Some r => exists l, latest = l ++ [r] | None => latest = [] end).
  { destruct latest as [|x l'] using rev_ind; [done|]. rewrite last_snoc. by eexists. }
  pose proof (Permutation_length Hp) as Hlen. rewrite length_app in Hlen.
  destruct (last latest) as [r|] eqn:Hlast.
  - destruct Hl as [l Hl]. split_and!.
    + intros Hone. rewrite Hl, length_app in Hone. cbn in Hone. destruct l; [|cbn in Hone; lia].
      rewrite <- Hp, Hl. cbn [app map]. rewrite Permutation_app_comm. done.
    + intros r' [= <-]. by rewrite last_snoc.
    + by apply sublist_inserts_r.
    + rewrite length_app, length_map. rewrite Hl, length_app in Hlen |- *. cbn in *. lia.
  - rewrite app_nil_r. rewrite Hl in *. cbn [app length] in *. split_and!; [|done|done|].
    + intros _. by rewrite <- Hp.
    + rewrite length_map. lia.
Qed.

(** *** Entity tags

    The buffer grows until the tags have room. *)
Lemma getETags_loop_total fuel n etags :
  1 <= n -> length etags <= n + fuel -> getETags_loop (S fuel) n etags = Some etags.
Proof.
  revert n. induction fuel as [|fuel IH]; intros n Hn Hl; cbn [getETags_loop];
    (destruct (Nat.ltb_spec n (length etags)); [|done]); [lia|]. apply IH; lia.
Qed.
Lemma getETagsFromMessage_all msg etags : msg_ETags msg = inr etags -> getETagsFromMessage msg = etags.
Proof. intros He. unfold getETagsFromMessage. rewrite He, getETags_loop_total by lia. done. Qed.
End batch.

(** ** Codes

    The codes that a device answers with and that a client of the gateway gets. *)
Definition success_code (operation : Operation) : codes.Code :=
  match operation with
  | Create => codes.Created | Retrieve => codes.Content | Update => codes.Changed | Delete => codes.Deleted
  end.
Theorem code_survives c operation :
  StatusToCoapCode (CoapCodeToStatus c operation) operation = c <->
  c = success_code operation \/
  c ∈ [codes.Created; codes.Valid; codes.BadRequest; codes.Unauthorized; codes.Forbidden; codes.NotFound;
       codes.ServiceUnavailable; codes.NotImplemented].
Proof.
  split.
  - destruct c, operation; cbn; try done; intros _; try (by left); right; set_solver.
  - intros [-> | Hin]; [by destruct operation|].
    repeat (apply elem_of_cons in Hin as [-> | Hin]; [by destruct operation|]). by apply not_elem_of_nil in Hin.
Qed.
