(* ===== verification/Session.v ===== *)
(** * The session of a device in coap-gateway

    coap-gateway/service/session.go: the commands of the hub for the device and
    their confirmations, what the device tells about its resources, and how the
    session ends; getSessionExpiration and ValidUntil.

    An operation is a program on the list of the calls it makes, to the device,
    to resource-aggregate and to the parts of the session.  The authorization
    context can be replaced at any time: [readings k] is the context and the
    clock when it is read for the k-th time. *)

From Stdlib Require Import ZArith Lia String.
From S2P Require Import Prelude Commands Events EventStore Handler Pendings ResourceState ResourceStateFacts.
From S2P Require Import ResourceCancel ResourceCommands Goroutines DirectoryModels DeviceSubscriber CoapConv.


(** ** The authorization context *)
Record authorizationContext := MkAuthorizationContext {
  az_Expire : time_; az_DeviceID : string; az_AccessToken : string; az_UserID : string }.
#[export] Instance Zero_authorizationContext : Zero authorizationContext :=
  MkAuthorizationContext zeroTime "" "" "".
Definition IsValid (now : time_) (a : option authorizationContext) : option error :=
  match a with
  | None => Some (errors_New "invalid authorization context")
  | Some a =>
      if String.eqb (az_AccessToken a) "" then Some (errors_New "invalid access token")
      else if negb (IsZero (az_Expire a)) && (Time_UnixNano (az_Expire a) <? Time_UnixNano now)%Z
      then Some (errors_New "token is expired")
      else None
  end.
Abbreviation reading := (option authorizationContext * time_)%type.
Definition GetAuthorizationContext (r : reading) : option authorizationContext * option error :=
  (r.1, IsValid r.2 r.1).

(** The session ends with the token, or with the certificate of the device. *)
Definition getSessionExpiration (tls_enabled disconnectOnExpiredCertificate : bool) (tlsValidUntil validJWTUntil : time_)
    : time_ :=
  if tls_enabled && disconnectOnExpiredCertificate && (IsZero validJWTUntil || After validJWTUntil tlsValidUntil)
  then tlsValidUntil else validJWTUntil.
(** validUntil.go *)
Definition ValidUntil (now expiry : time_) : Z * bool :=
  if IsZero expiry then (0%Z, true)
  else if Before now expiry then (UnixNano expiry, true) else (UnixNano expiry, false).

(** ** Calls

    A call of resource-aggregate carries the token; [None]: the context is nil. *)
Inductive RequestRA :=
  | RAConfirmResourceUpdate (r : ConfirmResourceUpdateRequest)
  | RAConfirmResourceRetrieve (r : ConfirmResourceRetrieveRequest)
  | RAConfirmResourceDelete (r : ConfirmResourceDeleteRequest)
  | RAConfirmResourceCreate (r : ConfirmResourceCreateRequest)
  | RANotifyResourceChanged (r : NotifyResourceChangedRequest)
  | RABatchNotifyResourceChanged (batch : list NotifyResourceChangedRequest)
  | RAConfirmDeviceMetadataUpdate (r : ConfirmDeviceMetadataUpdateRequest)
  | RAUpdateDeviceMetadata (r : UpdateDeviceMetadataRequest).
Inductive Call :=
  | Do (req : CoapRequest)
  | ToRA (token : option string) (r : RequestRA)
  | UnpublishRA (token : option string) (r : UnpublishResourceLinksRequest)
  | Close
  | RemovePublishedResources (hrefs : list string)
  | ResourceHasBeenSynchronized (href : string)
  | ReplaceDeviceObserver (twinEnabled twinForceSynchronization : bool)
  | CloseDeviceObserver | CancelResourceSubscriptions | CloseDeviceSubscriber | UnsubscribeFromDeviceEvents
  | DeleteExpiration (deviceID : string)
  | SubmitCloseDeviceSubscriber.

Section session.
Context `{!ContentCodec, !CoapLib}.
#[local] Abbreviation program := (prog (list Call)).

(** What the others answer, after the calls that were made: the device, the methods of
    resource-aggregate, and the observer of the device (there is none, or an error). *)
Context (device : list Call -> CoapRequest -> result Message).
Context (ra : list Call -> RequestRA -> option error).
Context (ra_unpublish : list Call -> UnpublishResourceLinksRequest -> result (list string)).
Context (observer : list Call -> result bool).
Context (replace_observer : list Call -> bool -> bool -> result bool).
(** The address of the device, the sequence number of the connection, the text of an
    error, and errors.Is(err, context.Canceled). *)
Context (RemoteAddr : string) (Sequence : list Call -> Z) (Error : error -> list byte) (is_Canceled : error -> bool).
(** The sequence number of a message from the pool. *)
Context (pool_Sequence : list Call -> Z).
Context (readings : nat -> reading).

Definition call (c : Call) : program unit := act (fun l => (l ++ [c], tt)).
Definition to_device (req : CoapRequest) : program (result Message) := act (fun l => (l ++ [Do req], device l req)).
Definition to_ra (token : option string) (r : RequestRA) : program (option error) :=
  act (fun l => (l ++ [ToRA token r], ra l r)).

(** ** Links that are gone *)
Definition unpublishResourceLinks (r : reading) (ctx : option string) (hrefs : list string) (instanceIDs : list Z)
    : program (list string) :=
  match GetAuthorizationContext r with
  | (_, Some _) => Ret []
  | (authCtx, None) =>
      do! resp := act (fun l =>
        let req := {| ulr_Hrefs := hrefs; ulr_DeviceId := authCtx ~> az_DeviceID;
                      ulr_CommandMetadata := Some (NewCommandMetadata (Sequence l) RemoteAddr);
                      ulr_InstanceIds := instanceIDs |} in
        (l ++ [UnpublishRA ctx req], ra_unpublish l req)) in
      match resp with
      | inl _ => Ret []
      | inr [] => Ret []
      | inr unpublished =>
          do! obs := act (fun l => (l, observer l)) in
          match obs with
          | inr true => do! _ := call (RemovePublishedResources unpublished) in Ret unpublished
          | _ => Ret unpublished
          end
      end
  end.
Definition getUserAuthorizedContext (r : reading) : option string :=
  match GetAuthorizationContext r with
  | (_, Some _) => None
  | (authCtx, None) => Some (authCtx ~> az_AccessToken)
  end.

(** ** Commands for the device *)
Definition new_message (code : codes.Code) (sequence : Z) : Message :=
  MkMessage code (inl (errors_New "")) None (inl (errors_New "")) (inr []) (inr []) sequence (inl (errors_New "")).
Definition error_message (code : codes.Code) (err : error) (sequence : Z) : Message :=
  MkMessage code (inr TextPlain) (Some (Error err)) (inl (errors_New "")) (inr []) (inr []) sequence
    (inl (errors_New "")).
(** sendErrorConfirmResourceUpdate and the others. *)
Definition sendErrorConfirm (ctx : option string) (confirm : Message -> RequestRA) (code : codes.Code)
    (errToSend : error) : program (option error) :=
  do! sequence := act (fun l => (l, pool_Sequence l)) in
  do! _ := to_ra ctx (confirm (error_message code errToSend sequence)) in
  Ret (Some errToSend).

(** What the four commands share: [request] is the one for the device, [status_code] what
    the resource of the status answers, [confirm id] the confirmation with a message for the
    resource [id]; [error_id] is the resource of the confirmation with an error. *)
Definition serve_command (acquired : bool) (signing_off cannot : string) (id error_id : option ResourceId)
    (request : result CoapRequest) (status_code : codes.Code) (confirm : option ResourceId -> Message -> RequestRA) : program (option error) :=
  if negb acquired then Ret (Some (errors_New signing_off)) else
  match GetAuthorizationContext (readings 0) with
  | (_, Some err) => do! _ := call Close in Ret (Some (Wrap cannot err))
  | (authCtx, None) =>
      let sendConfirmCtx := Some (authCtx ~> az_AccessToken) in
      let href := id ~> rid_Href in
      if String.eqb href StatusHref
      then
        do! sequence := act (fun l => (l, Sequence l)) in
        to_ra sendConfirmCtx (confirm id (new_message status_code sequence))
      else
        match request with
        | inl err => sendErrorConfirm sendConfirmCtx (confirm error_id) codes.BadRequest err
        | inr req =>
            do! resp := to_device req in
            match resp with
            | inl err => sendErrorConfirm sendConfirmCtx (confirm error_id) codes.ServiceUnavailable err
            | inr resp =>
                do! _ := (if bool_decide (msg_Code resp = codes.NotFound)
                          then unpublishResourceLinks (readings 2) (getUserAuthorizedContext (readings 1)) [href] []
                          else Ret []) in
                to_ra sendConfirmCtx (confirm id resp)
            end
        end
  end.

Definition same_id (id : option ResourceId) : option ResourceId :=
  Some (NewResourceID (id ~> rid_DeviceId) (id ~> rid_Href)).
Definition UpdateResource (acquired : bool) (token : result (list byte)) (event : ResourceUpdatePending)
    : program (option error) :=
  serve_command acquired "cannot update resource /%v%v: signOff processing" "cannot update resource /%v%v: %w"
    (rup_ResourceId event) (same_id (rup_ResourceId event)) (NewCoapResourceUpdateRequest token event)
    codes.MethodNotAllowed
    (fun id msg => RAConfirmResourceUpdate (NewConfirmResourceUpdateRequest id
       ((rup_AuditContext event) ~> ac_CorrelationId) RemoteAddr msg)).
Definition RetrieveResource (acquired : bool) (token : result (list byte)) (event : ResourceRetrievePending)
    : program (option error) :=
  serve_command acquired "cannot retrieve resource /%v%v: signOff processing" "cannot retrieve resource /%v%v: %w"
    (rrp_ResourceId event) (same_id (rrp_ResourceId event)) (NewCoapResourceRetrieveRequest token event) codes.Content
    (fun id msg => RAConfirmResourceRetrieve (NewConfirmResourceRetrieveRequest id
       ((rrp_AuditContext event) ~> ac_CorrelationId) RemoteAddr msg)).
Definition DeleteResource (acquired : bool) (token : result (list byte)) (event : ResourceDeletePending)
    : program (option error) :=
  serve_command acquired "cannot delete resource /%v%v: signOff processing" "cannot delete resource /%v%v: %w"
    (rdp_ResourceId event) (same_id (rdp_ResourceId event)) (NewCoapResourceDeleteRequest token event) codes.Forbidden
    (fun id msg => RAConfirmResourceDelete (NewConfirmResourceDeleteRequest id
       ((rdp_AuditContext event) ~> ac_CorrelationId) RemoteAddr msg)).
Definition CreateResource (acquired : bool) (token : result (list byte)) (event : ResourceCreatePending)
    : program (option error) :=
  serve_command acquired "cannot create resource /%v%v: signOff processing" "cannot create resource /%v%v: %w"
    (rcp_ResourceId event) (rcp_ResourceId event) (NewCoapResourceCreateRequest token event) codes.Forbidden
    (fun id msg => RAConfirmResourceCreate (NewConfirmResourceCreateRequest id
       ((rcp_AuditContext event) ~> ac_CorrelationId) RemoteAddr msg)).

(** ** The metadata of the device *)
Definition twin_enabled (event : DeviceMetadataUpdatePending) : bool :=
  match dmp_UpdatePending event with Some (DeviceMetadataUpdatePending_TwinEnabled b) => b | _ => false end.
Definition twin_force (event : DeviceMetadataUpdatePending) : bool :=
  match dmp_UpdatePending event with
  | Some (DeviceMetadataUpdatePending_TwinForceSynchronization b) => b
  | _ => false
  end.
Definition confirmDeviceMetadataUpdate (ctx : option string) (event : DeviceMetadataUpdatePending)
    : program (option error) :=
  act (fun l =>
    let r := RAConfirmDeviceMetadataUpdate
      {| cmr_DeviceId := dmp_DeviceId event; cmr_CorrelationId := (dmp_AuditContext event) ~> ac_CorrelationId;
         cmr_Status := Status_OK;
         cmr_Confirm := Some (if twin_force event then ConfirmDeviceMetadataUpdateRequest_TwinForceSynchronization true
                              else ConfirmDeviceMetadataUpdateRequest_TwinEnabled (twin_enabled event));
         cmr_CommandMetadata := Some (NewCommandMetadata (Sequence l) RemoteAddr) |} in
    (l ++ [ToRA ctx r], ra l r)).
(** replaceDeviceObserverWithDeviceTwin: whether the twin was enabled before. *)
Definition replace (twinEnabled twinForceSynchronization : bool) : program (result bool) :=
  act (fun l => (l ++ [ReplaceDeviceObserver twinEnabled twinForceSynchronization],
                 replace_observer l twinEnabled twinForceSynchronization)).
Definition UpdateDeviceMetadata (acquired : bool) (event : DeviceMetadataUpdatePending) : program (option error) :=
  if negb acquired then Ret (Some (errors_New "cannot update device('%v') metadata: signOff processing")) else
  match GetAuthorizationContext (readings 0) with
  | (_, Some err) => do! _ := call Close in Ret (Some (Wrap "cannot update device('%v') metadata: %w" err))
  | (authCtx, None) =>
      match dmp_UpdatePending event with
      | None => Ret None
      | Some _ =>
          let ctx := Some (authCtx ~> az_AccessToken) in
          do! ' (err, obs) :=
            (if twin_enabled event || twin_force event then
               do! err := confirmDeviceMetadataUpdate ctx event in
               do! obs := replace (twin_enabled event) (twin_force event) in
               Ret (err, obs)
             else
               do! obs := replace (twin_enabled event) false in
               do! err := confirmDeviceMetadataUpdate ctx event in
               Ret (err, obs)) in
          match obs with
          | inl errObs => do! _ := call Close in Ret (Some (Wrap "cannot update device('%v') metadata: %w" errObs))
          | inr previous =>
              match err with
              | None => Ret None
              | Some e =>
                  if is_Canceled e then Ret err else
                  do! again := replace previous false in
                  match again with
                  | inl _ => do! _ := call Close in Ret err
                  | inr _ => Ret err
                  end
              end
          end
      end
  end.

(** The callback of the observer for the synchronization of the twin. *)
Definition UpdateTwinSynchronizationStatus (deviceID : string) (state : TwinSynchronization_State) (t : time_)
    : program (option error) :=
  match GetAuthorizationContext (readings 0) with
  | (_, Some err) => do! _ := call Close in Ret (Some (Wrap "cannot update twin synchronization %v to %v: %w" err))
  | (authCtx, None) =>
      let startAt := match state with TwinSynchronization_SYNCING => Time_UnixNano t | _ => 0%Z end in
      let finishedAt := match state with TwinSynchronization_IN_SYNC => Time_UnixNano t | _ => 0%Z end in
      do! sequence := act (fun l => (l, Sequence l)) in
      to_ra (Some (authCtx ~> az_AccessToken)) (RAUpdateDeviceMetadata
        {| udr_DeviceId := deviceID; udr_CorrelationId := "";
           udr_Update := Some (UpdateDeviceMetadataRequest_TwinSynchronization
             (Some (MkTwinSynchronization state startAt finishedAt None 0)));
           udr_TimeToLive := 0; udr_CommandMetadata := Some (NewCommandMetadata sequence RemoteAddr) |})
  end.

(** ** What the device tells

    The size of the body of a message can be found. *)
Definition batchNotifyContentChanged (ctx : option string) (deviceID : string) (notification : Message)
    : program (option error) :=
  match NewNotifyResourceChangedRequestsFromBatchResourceDiscovery deviceID RemoteAddr notification with
  | inl err => Ret (Some err)
  | inr batch => to_ra ctx (RABatchNotifyResourceChanged batch)
  end.
Definition notifyContentChanged (r : reading) (acquired : bool) (deviceID href : string) (resourceTypes : list string)
    (batch : bool) (notification : Message) : program (option error) :=
  if negb acquired then Ret None else
  match GetAuthorizationContext r with
  | (_, Some err) => Ret (Some (Wrap "cannot notify resource /%v%v content changed: %w" err))
  | (authCtx, None) =>
      if bool_decide (msg_Code notification = codes.Valid) && (length (elems (msg_Body notification)) =? 0)%nat
      then Ret None
      else
        let ctx := Some (authCtx ~> az_AccessToken) in
        do! err := (if batch && String.eqb href resources_ResourceURI
                    then batchNotifyContentChanged ctx deviceID notification
                    else to_ra ctx (RANotifyResourceChanged (NewNotifyResourceChangedRequest
                           (Some (NewResourceID deviceID href)) resourceTypes RemoteAddr notification))) in
        Ret (match err with
             | Some err => Some (Wrap "cannot notify resource /%v%v content changed: %w" err)
             | None => None
             end)
  end.

(** The task of onGetResourceContent and of onObserveResource. *)
Definition notification_task (acquired : bool) (deviceID href : string) (resourceTypes : list string) (batch : bool)
    (notification : Message) : program unit :=
  do! _ := (if bool_decide (msg_Code notification = codes.NotFound)
            then unpublishResourceLinks (readings 1) (getUserAuthorizedContext (readings 0)) [href] []
            else Ret []) in
  do! err := notifyContentChanged (readings 2) acquired deviceID href resourceTypes batch notification in
  match err with
  | Some _ => call Close
  | None =>
      do! obs := act (fun l => (l, observer l)) in
      match obs with inr true => call (ResourceHasBeenSynchronized href) | _ => Ret tt end
  end.
(** [submitted]: the error of the queue of tasks.  The task itself runs later. *)
Definition onObserveResource (submitted : option error) : program (option error) :=
  match submitted with
  | Some err => do! _ := call Close in Ret (Some (Wrap "cannot handle resource observation: %w" err))
  | None => Ret None
  end.
Definition onGetResourceContent (submitted : option error) : program (option error) :=
  match submitted with
  | Some err => do! _ := call Close in Ret (Some (Wrap "cannot get resource /%v%v content: %w" err))
  | None => Ret None
  end.

Definition OnDeviceSubscriberReconnectError (err : error) : program unit :=
  do! _ := call Close in call SubmitCloseDeviceSubscriber.

(** ** The end of a session *)
Fixpoint calls (cs : list Call) : program unit :=
  match cs with [] => Ret tt | c :: cs => do! _ := call c in calls cs end.
(** CleanUp(false): the authorization context, which is still needed. *)
Definition CleanUp (r : reading) : program (option authorizationContext) :=
  do! _ := calls [CloseDeviceObserver; CancelResourceSubscriptions; CloseDeviceSubscriber; UnsubscribeFromDeviceEvents] in
  Ret r.1.
Definition offline (deviceID : string) (sequence : Z) : UpdateDeviceMetadataRequest :=
  {| udr_DeviceId := deviceID; udr_CorrelationId := "";
     udr_Update := Some (UpdateDeviceMetadataRequest_Connection
       (Some (MkConnection Connection_OFFLINE "" 0 zero "" [])));
     udr_TimeToLive := 0; udr_CommandMetadata := Some (NewCommandMetadata sequence RemoteAddr) |}.
Definition OnClose : program unit :=
  let authCtx := (readings 0).1 in
  do! oldAuthCtx := CleanUp (readings 1) in
  if negb (String.eqb (oldAuthCtx ~> az_DeviceID) "") then
    do! _ := call (DeleteExpiration (oldAuthCtx ~> az_DeviceID)) in
    do! sequence := act (fun l => (l, Sequence l)) in
    do! _ := to_ra (Some (oldAuthCtx ~> az_AccessToken))
               (RAUpdateDeviceMetadata (offline (authCtx ~> az_DeviceID) sequence)) in
    Ret tt
  else Ret tt.
End session.

(** ** The session as the operations of a subscriber

    What the operations ask for along the way: whether the session is not signing
    off, the token of a request, and the authorization context. *)
Section operations.
Context `{!ContentCodec, !CoapLib}.
Context (device : list Call -> CoapRequest -> result Message) (ra : list Call -> RequestRA -> option error)
  (ra_unpublish : list Call -> UnpublishResourceLinksRequest -> result (list string))
  (observer : list Call -> result bool) (replace_observer : list Call -> bool -> bool -> result bool)
  (RemoteAddr : string) (Sequence : list Call -> Z) (Error : error -> list byte) (is_Canceled : error -> bool)
  (pool_Sequence : list Call -> Z) (readings : list Call -> nat -> reading)
  (blockSignOff : list Call -> bool) (GetToken : list Call -> result (list byte)).

Definition operation {A} (f : (nat -> reading) -> bool -> result (list byte) -> prog (list Call) A) : prog (list Call) A :=
  do! l := act (fun l => (l, l)) in f (readings l) (blockSignOff l) (GetToken l).
Definition session_operations : Operations (list Call) := {|
  op_RetrieveResource val := operation (fun r acquired token =>
    RetrieveResource device ra ra_unpublish observer RemoteAddr Sequence Error pool_Sequence r acquired token val);
  op_UpdateResource val := operation (fun r acquired token =>
    UpdateResource device ra ra_unpublish observer RemoteAddr Sequence Error pool_Sequence r acquired token val);
  op_DeleteResource val := operation (fun r acquired token =>
    DeleteResource device ra ra_unpublish observer RemoteAddr Sequence Error pool_Sequence r acquired token val);
  op_CreateResource val := operation (fun r acquired token =>
    CreateResource device ra ra_unpublish observer RemoteAddr Sequence Error pool_Sequence r acquired token val);
  op_UpdateDeviceMetadata val := operation (fun r acquired _ =>
    UpdateDeviceMetadata ra replace_observer RemoteAddr Sequence is_Canceled r acquired val);
  op_OnDeviceSubscriberReconnectError := OnDeviceSubscriberReconnectError |}.
End operations.

(** ** What a session does with a command

    Every command that a session takes is answered to resource-aggregate, once;
    together with the aggregate of the resource: a command that was accepted waits
    no more when the session has served it. *)

(** A call of resource-aggregate other than that for links. *)
Definition is_ToRA (c : Call) : bool := match c with ToRA _ _ => true | _ => false end.

Section session.
Context `{!ContentCodec, !CoapLib}.
Context (device : list Call -> CoapRequest -> result Message) (ra : list Call -> RequestRA -> option error)
  (ra_unpublish : list Call -> UnpublishResourceLinksRequest -> result (list string))
  (observer : list Call -> result bool) (replace_observer : list Call -> bool -> bool -> result bool)
  (RemoteAddr : string) (Sequence : list Call -> Z) (Error : error -> list byte) (is_Canceled : error -> bool)
  (pool_Sequence : list Call -> Z).

Lemma run_call c l : run (call c) l = Some (l ++ [c], tt).
Proof. unfold call. by rewrite run_act. Qed.

(** Only links are unpublished, and only when the context is valid. *)
Lemma run_unpublishResourceLinks r ctx hrefs ids l :
  exists cs res, run (unpublishResourceLinks ra_unpublish observer RemoteAddr Sequence r ctx hrefs ids) l
      = Some (l ++ cs, res) /\ Forall (fun c => is_ToRA c = false) cs.
Proof.
  unfold unpublishResourceLinks. destruct (GetAuthorizationContext r) as [a [err|]].
  { exists [], []. by rewrite app_nil_r. }
  rewrite run_seq, run_act. destruct (ra_unpublish _ _) as [err|[|u us]];
    [by eexists [_], _; split; [reflexivity|repeat constructor]..|].
  rewrite run_seq, run_act. destruct (observer _) as [err|[|]];
    [by eexists [_], _; split; [reflexivity|repeat constructor]| |
     by eexists [_], _; split; [reflexivity|repeat constructor]].
  rewrite run_seq, run_call. cbn [run]. rewrite <- app_assoc.
  eexists [_; _], _. split; [reflexivity|repeat constructor].
Qed.

(** What a command is answered with. *)
Inductive answered (l : list Call) (id error_id : option ResourceId) (request : result CoapRequest)
    (status_code : codes.Code) : list Call -> option ResourceId -> Message -> Prop :=
  | answered_status sequence :
      id ~> rid_Href = StatusHref -> answered l id error_id request status_code [] id (new_message status_code sequence)
  | answered_bad err sequence :
      request = inl err ->
      answered l id error_id request status_code [] error_id (error_message Error codes.BadRequest err sequence)
  | answered_unavailable req err sequence :
      request = inr req -> device l req = inl err ->
      answered l id error_id request status_code [Do req] error_id
        (error_message Error codes.ServiceUnavailable err sequence)
  | answered_device req resp cs :
      request = inr req -> device l req = inr resp -> (msg_Code resp <> codes.NotFound -> cs = []) ->
      Forall (fun c => is_ToRA c = false) cs ->
      answered l id error_id request status_code (Do req :: cs) id resp.

(** A command of a session that is not signing off and is authorized: the last call,
    and the only one of its kind, confirms the command. *)
Lemma serve_command_answers readings signing_off cannot id error_id request status_code confirm l a :
  GetAuthorizationContext (readings 0) = (Some a, None) ->
  exists cs id' msg r,
    run (serve_command device ra ra_unpublish observer RemoteAddr Sequence Error pool_Sequence readings
           true signing_off cannot id error_id request status_code confirm) l
      = Some (l ++ cs ++ [ToRA (Some (az_AccessToken a)) (confirm id' msg)], r) /\
    answered l id error_id request status_code cs id' msg.
Proof.
  intros Ha. unfold serve_command. cbn [negb]. rewrite Ha.
  destruct (String.eqb_spec (id ~> rid_Href) StatusHref) as [Hs|_].
  { rewrite run_seq, run_act. unfold to_ra. rewrite run_act. eexists [], _, _, _. split; [reflexivity|by constructor]. }
  destruct request as [err|req].
  { unfold sendErrorConfirm. rewrite run_seq, run_act, run_seq. unfold to_ra. rewrite run_act. cbn [run].
    eexists [], _, _, _. split; [reflexivity|by constructor]. }
  rewrite run_seq. unfold to_device. rewrite run_act. destruct (device l req) as [err|resp] eqn:Hd.
  { unfold sendErrorConfirm. rewrite run_seq, run_act, run_seq. unfold to_ra. rewrite run_act. cbn [run].
    rewrite <- app_assoc. eexists [_], _, _, _. split; [reflexivity|by econstructor]. }
  rewrite run_seq. case_bool_decide as Hc.
  - destruct (run_unpublishResourceLinks (readings 2) (getUserAuthorizedContext (readings 1)) [id ~> rid_Href] []
      (l ++ [Do req])) as (cs & res & -> & Hcs).
    unfold to_ra. rewrite run_act, <- !app_assoc. eexists (_ :: cs), _, _, _. split; [reflexivity|by econstructor].
  - cbn [run]. unfold to_ra. rewrite run_act, <- app_assoc. eexists [_], _, _, _.
    split; [reflexivity|by econstructor].
Qed.

Lemma answered_others l id error_id request status_code cs id' msg :
  answered l id error_id request status_code cs id' msg -> Forall (fun c => is_ToRA c = false) cs.
Proof. destruct 1; repeat constructor; done. Qed.

(** ** The four commands on resources *)
Context (readings : list Call -> nat -> reading) (blockSignOff : list Call -> bool)
  (GetToken : list Call -> result (list byte)).
#[local] Abbreviation ops := (session_operations device ra ra_unpublish observer replace_observer RemoteAddr Sequence
  Error is_Canceled pool_Sequence readings blockSignOff GetToken).

Definition serve_event (ev : AnyEvent) : option (prog (list Call) (option error)) :=
  match ev with
  | EvResourceUpdatePending p => Some (op_UpdateResource ops p)
  | EvResourceRetrievePending p => Some (op_RetrieveResource ops p)
  | EvResourceDeletePending p => Some (op_DeleteResource ops p)
  | EvResourceCreatePending p => Some (op_CreateResource ops p)
  | _ => None
  end.
(** The request of a confirmation, as the aggregate of the resource takes it. *)
Definition command_of (r : RequestRA) : option Command :=
  match r with
  | RAConfirmResourceUpdate c => Some (CmdConfirmResourceUpdate c)
  | RAConfirmResourceRetrieve c => Some (CmdConfirmResourceRetrieve c)
  | RAConfirmResourceDelete c => Some (CmdConfirmResourceDelete c)
  | RAConfirmResourceCreate c => Some (CmdConfirmResourceCreate c)
  | _ => None
  end.

(** [c] confirms the command that [req] asks for: it finds the command by the
    identifier, or it is a deletion that succeeded. *)
Definition confirms (id : string) (req c : Command) : Prop :=
  answers id req c \/
  exists r cd, req = CmdDeleteResource r /\ c = CmdConfirmResourceDelete cd /\ is_Some (cdr_CommandMetadata cd) /\
    (cdr_Status cd = Status_OK \/ cdr_Status cd = Status_ACCEPTED).
(** [req] asks for a command with the correlation identifier [id], and [ev] tells of it. *)
Definition tells (id : string) (req : Command) (ev : AnyEvent) : Prop :=
  match req, ev with
  | CmdUpdateResource r, EvResourceUpdatePending p =>
      urr_CorrelationId r = id /\ (rup_AuditContext p) ~> ac_CorrelationId = id
  | CmdRetrieveResource r, EvResourceRetrievePending p =>
      rrr_CorrelationId r = id /\ (rrp_AuditContext p) ~> ac_CorrelationId = id
  | CmdDeleteResource r, EvResourceDeletePending p =>
      drr_CorrelationId r = id /\ (rdp_AuditContext p) ~> ac_CorrelationId = id
  | CmdCreateResource r, EvResourceCreatePending p =>
      crr_CorrelationId r = id /\ (rcp_AuditContext p) ~> ac_CorrelationId = id
  | _, _ => False
  end.

Ltac served Ha Hb :=
  edestruct serve_command_answers as (cs & id' & msg & res & Hrun & Hans); [exact Ha|];
  do 5 eexists; split; [reflexivity|]; split;
  [cbn [session_operations op_UpdateResource op_RetrieveResource op_DeleteResource op_CreateResource]; unfold operation;
   rewrite run_seq, run_act, Hb; exact Hrun|];
  split; [by eapply answered_others|]; split; [reflexivity|].

Lemma event_confirmed id req ev l a :
  tells id req ev -> blockSignOff l = true -> GetAuthorizationContext (readings l 0) = (Some a, None) ->
  exists p cs conf c r, serve_event ev = Some p /\
    run p l = Some (l ++ cs ++ [ToRA (Some (az_AccessToken a)) conf], r) /\
    Forall (fun c => is_ToRA c = false) cs /\ command_of conf = Some c /\ confirms id req c.
Proof.
  intros Ht Hb Ha. unfold tells in Ht. destruct req; try done; destruct ev; try done; destruct Ht as [<- Hid].
  - served Ha Hb. left. by constructor.
  - served Ha Hb. left. by constructor.
  - served Ha Hb. destruct (decide (CoapCodeToStatus (msg_Code msg) Delete = Status_OK)) as [Hs|Hs];
      [right; by eauto 10|].
    destruct (decide (CoapCodeToStatus (msg_Code msg) Delete = Status_ACCEPTED)) as [Hs'|Hs'];
      [right; by eauto 10|]. left. by constructor.
  - served Ha Hb. left. by constructor.
Qed.
End session.

(** ** The aggregate and the session *)
Section served.
Context `{!UUIDLib} `{!StringSet} `{!ContentCodec, !CoapLib}.

Definition asks (id : string) (cmd : Command) : Prop :=
  match cmd with
  | CmdUpdateResource r => urr_CorrelationId r = id
  | CmdRetrieveResource r => rrr_CorrelationId r = id
  | CmdDeleteResource r => drr_CorrelationId r = id
  | CmdCreateResource r => crr_CorrelationId r = id
  | _ => False
  end.

Lemma accepted_tells cc clk e req v id e1 evs :
  asks id req -> HandleCommand cc clk e req v = (e1, inr evs) -> exists ev, evs = [ev] /\ tells id req ev.
Proof.
  intros Hid Hreq. unfold HandleCommand in Hreq. case_match; [done|].
  destruct req; try done; cbn in Hid;
    [unfold handleUpdateResourceRequest in Hreq|unfold handleRetrieveResourceRequest in Hreq|
     unfold handleDeleteResourceRequest in Hreq|unfold handleCreateResourceRequest in Hreq];
    cases_hyp Hreq; apply finish_inr in Hreq as [_ ->]; eexists; split; try reflexivity; done.
Qed.

Lemma confirms_accepted cc cc' clk clk' e req v v' id e1 evs c :
  confirms id req c -> id ∉ all_ids e -> HandleCommand cc clk e req v = (e1, inr evs) ->
  lists_of e1 = lists_of e \/
  exists e2 ev, HandleCommand cc' clk' e1 c v' = (e2, inr [ev]) /\
    (lists_of e2 = lists_of e \/ lists_of e2 = ([], [], [], []) /\ exists r, req = CmdDeleteResource r).
Proof.
  intros [Hans|(r & cd & -> & -> & Hm & Hst)] Hid Hreq.
  - destruct (confirm_accepted cc cc' id clk clk' e req c v v' e1 evs Hans Hid Hreq) as [He|(e2 & ev & He2 & Hl)];
      [by left|right]. exists e2, ev. auto.
  - right. destruct (confirm_delete_drops cc' clk' clk' e1 cd v' (CmdConfirmResourceDelete cd) v' Hm Hst)
      as (e2 & ev & He2 & Hl & _). exists e2, ev. eauto.
Qed.

(** The session as [session_operations] takes it. *)
Context (device : list Call -> CoapRequest -> result Message) (ra : list Call -> RequestRA -> option error)
  (ra_unpublish : list Call -> UnpublishResourceLinksRequest -> result (list string))
  (observer : list Call -> result bool) (replace_observer : list Call -> bool -> bool -> result bool)
  (RemoteAddr : string) (Sequence : list Call -> Z) (Error : error -> list byte) (is_Canceled : error -> bool)
  (pool_Sequence : list Call -> Z).
Context (readings : list Call -> nat -> reading) (blockSignOff : list Call -> bool)
  (GetToken : list Call -> result (list byte)).
#[local] Abbreviation ops := (session_operations device ra ra_unpublish observer replace_observer RemoteAddr Sequence
  Error is_Canceled pool_Sequence readings blockSignOff GetToken).

Definition event_offer (ev : AnyEvent) : offer :=
  MkOffer (toCRC64 (AggregateID ev +:+ EventType ev)) (Version ev) false.

Ltac sent Hw Hr run_handle :=
  eexists; etransitivity; [apply run_handle|];
  etransitivity; [exact (f_equal (fun b : bool => if b then _ else _) Hw)|];
  etransitivity; [exact (f_equal (fun r => match r with Some _ => _ | None => _ end) Hr)|].
Lemma run_sendEvent id req ev p h s t r :
  tells id req ev ->
  serve_event device ra ra_unpublish observer replace_observer RemoteAddr Sequence Error is_Canceled pool_Sequence
    readings blockSignOff GetToken ev = Some p ->
  covered (versions_of h s) (of_key (event_offer ev)) true (of_version (event_offer ev)) = false ->
  run p (ds_ops s) = Some (t, r) ->
  exists r', run (sendEvent (D := AnyEvent) (fun _ => ops) h (loaded ev)) s
    = Some (set_ops t (offered h (event_offer ev) s), r').
Proof.
  intros Ht Hp Hc Hr. unfold tells in Ht.
  assert (Hw : (wantToProcessEvent (of_key (event_offer ev)) (of_version (event_offer ev)) (of_fromDB (event_offer ev))
    (versions_of h s)).2 = true) by (rewrite want_decides, Hc; done).
  destruct req; try done; destruct ev as [| | | |q| |q| |q| |q| | | | | | |]; try done; injection Hp as <-.
  - by sent Hw Hr (run_handle h (ResourceId_ToUUID (rup_ResourceId q)) "unable to update resource %v: %w"
      (op_UpdateResource ops) q false s).
  - by sent Hw Hr (run_handle h (ResourceId_ToUUID (rrp_ResourceId q)) "unable to retrieve resource %v: %w"
      (op_RetrieveResource ops) q false s).
  - by sent Hw Hr (run_handle h (ResourceId_ToUUID (rdp_ResourceId q)) "unable to delete resource %v: %w"
      (op_DeleteResource ops) q false s).
  - by sent Hw Hr (run_handle h (ResourceId_ToUUID (rcp_ResourceId q)) "unable to create resource %v: %w"
      (op_CreateResource ops) q false s).
Qed.

(** C3: The event of an accepted command, when the bus hands it to the subscriber of a
    device whose session is authorized and not signing off: the session makes one call
    of resource-aggregate besides those for links, the last one, and it confirms the
    command: handled by the aggregate, whenever and by whomever, it gives one event,
    and the commands that wait are those from before the command, or none, when a
    deletion succeeded.  A command that was expired from the start never waits. *)
Theorem command_served cc clk e req v id e1 evs h s a :
  asks id req -> id ∉ all_ids e -> HandleCommand cc clk e req v = (e1, inr evs) ->
  ds_mutex s = false -> ds_pendingCommandsHandler s = Some h ->
  (forall ev, ev ∈ evs ->
     covered (versions_of h s) (of_key (event_offer ev)) true (of_version (event_offer ev)) = false) ->
  blockSignOff (ds_ops s) = true -> GetAuthorizationContext (readings (ds_ops s) 0) = (Some a, None) ->
  exists s' r cs conf c,
    run (Handle (D := AnyEvent) (fun _ => ops) (loaded <$> evs)) s = Some (s', r) /\
    ds_ops s' = ds_ops s ++ cs ++ [ToRA (Some (az_AccessToken a)) conf] /\
    Forall (fun c => is_ToRA c = false) cs /\ command_of conf = Some c /\
    (lists_of e1 = lists_of e \/
     forall cc' clk' v', exists e2 ev, HandleCommand cc' clk' e1 c v' = (e2, inr [ev]) /\
       (lists_of e2 = lists_of e \/ lists_of e2 = ([], [], [], []) /\ exists r, req = CmdDeleteResource r)).
Proof.
  intros Hasks Hid Hreq Hm Hh Hun Hb Ha.
  destruct (accepted_tells cc clk e req v id e1 evs Hasks Hreq) as (ev & -> & Ht).
  destruct (event_confirmed device ra ra_unpublish observer replace_observer RemoteAddr Sequence Error is_Canceled
    pool_Sequence readings blockSignOff GetToken id req ev (ds_ops s) a Ht Hb Ha)
    as (p & cs & conf & c & r & Hp & Hrun & Hcs & Hc & Hconf).
  destruct (run_sendEvent id req ev p h s _ r Ht Hp (Hun ev ltac:(by left)) Hrun) as [r' Hsend].
  eexists _, r', cs, conf, c. split.
  - cbn [fmap list_fmap]. unfold Handle, getPendingCommandsHandler. rewrite run_seq, run_wait, Hm, Hh. cbn [send_events].
    rewrite run_seq, Hsend. by destruct r'.
  - split; [reflexivity|]. split_and!; [done..|].
    destruct (decide (lists_of e1 = lists_of e)) as [He|He]; [by left|right]. intros cc' clk' v'.
    by destruct (confirms_accepted cc cc' clk clk' e req v v' id e1 [ev] c Hconf Hid Hreq).
Qed.
End served.
