(* ===== verification/ResourcesObserver.v ===== *)
(** * The resources of a device that a gateway observes

    coap-gateway/service/observation: observedResource.go, resourcesObserver.go and
    deviceObserver.go.
    The objects of the resources are shared by the slice, which is sorted by
    href, and by the loops that work on them; the slice has their numbers.  What
    runs under the lock of the observer is one action. *)

From Stdlib Require Import ZArith Lia String.
From S2P Require Import Prelude Commands ResourceLinks SortedSlice Goroutines CoapConv.

(** ** encoding/base64: RawURLEncoding *)
Definition base64_alphabet : string := "ABCDEFGHIJKLMNOPQRSTUVWXYZabcdefghijklmnopqrstuvwxyz0123456789-_".
Definition base64_char (i : N) : string :=
  match String.get (N.to_nat i) base64_alphabet with Some c => String c "" | None => "" end.
Fixpoint RawURL_EncodeToString (src : list byte) : string :=
  match src with
  | [] => ""
  | [a] => let a := Byte.to_N a in base64_char (a / 4) +:+ base64_char (a mod 4 * 16)
  | [a; b] =>
      let a := Byte.to_N a in let b := Byte.to_N b in
      base64_char (a / 4) +:+ base64_char (a mod 4 * 16 + b / 16) +:+ base64_char (b mod 16 * 4)
  | a :: b :: c :: src =>
      let a := Byte.to_N a in let b := Byte.to_N b in let c := Byte.to_N c in
      base64_char (a / 4) +:+ base64_char (a mod 4 * 16 + b / 16) +:+ base64_char (b mod 16 * 4 + c / 64)
      +:+ base64_char (c mod 64) +:+ RawURL_EncodeToString src
  end.

(** ** Entity tags in queries *)
Definition maxURIQueryLen : nat := 255.
Definition maxETagLen : nat := 8.
Definition prefixQueryIncChanges : string := "incChanges=".

(** The loop: the queries that are complete, and the builder. *)
Definition encodeETag (st : list string * string) (etag : list byte) : list string * string :=
  let '(etagsStr, b) := st in
  if maxETagLen <? length etag then st else
  let b := (if String.length b =? 0 then b +:+ prefixQueryIncChanges else b +:+ ",") +:+ RawURL_EncodeToString etag in
  if maxURIQueryLen - maxETagLen * 2 <=? String.length b then (etagsStr ++ [b], "") else (etagsStr, b).
Definition encodeETagsForIncrementChanges (etags : list (list byte)) : list string :=
  if length etags <? 1 then [] else
  let '(etagsStr, b) := fold_left encodeETag etags ([], "") in
  if 0 <? String.length b then etagsStr ++ [b] else etagsStr.

(** ** observedResource.go *)
Record observedResource := MkObservedResource {
  or_href : string; or_resInterface : string; or_synced : bool; or_isObservable : bool;
  or_resourceTypes : list string; or_observation : option nat }.
Definition newObservedResource (href resInterface : string) (isObservable : bool) (resourceTypes : list string)
    : observedResource := MkObservedResource href resInterface false isObservable resourceTypes None.
Definition set_synced (r : observedResource) : observedResource :=
  MkObservedResource (or_href r) (or_resInterface r) true (or_isObservable r) (or_resourceTypes r) (or_observation r).
Definition set_observation (o : option nat) (r : observedResource) : observedResource :=
  MkObservedResource (or_href r) (or_resInterface r) (or_synced r) (or_isObservable r) (or_resourceTypes r) o.

Inductive CoapOption := OptETag (etag : list byte) | OptURIQuery (query : string).

Section toCoapOptions.
Context `{!CoapLib}.
Definition isBatchObservation (r : observedResource) : bool := String.eqb (or_resInterface r) OC_IF_B.
Definition toCoapOptions (r : observedResource) (etags : list (list byte)) : list CoapOption :=
  let '(opts, etags) := match etags with e :: etags => ([OptETag e], etags) | [] => ([], []) end in
  opts ++ map OptURIQuery (interface_query (or_resInterface r))
  ++ if isBatchObservation r then map OptURIQuery (encodeETagsForIncrementChanges etags) else [].
End toCoapOptions.

(** The slice of observed resources; [key] is the href of a number. *)
Section slice.
Context (key : nat -> string).
Definition search (o : list nat) (href : string) : nat := SearchStrings (key <$> o) href.
Definition found (o : list nat) (href : string) : option nat :=
  match o !! search o href with Some r => if String.eqb (key r) href then Some r else None | None => None end.
Definition contains (o : list nat) (href : string) : bool := bool_decide (is_Some (found o href)).
Definition insert1 (o : list nat) (v : nat) : list nat :=
  if contains o (key v) then o else let i := search o (key v) in take i o ++ v :: drop i o.
(** [copy] shifts the array, and the slice is cut at the end; slicing with a negative
    bound panics: [None]. *)
Definition remove_step (st : list nat * list nat) (h : string) : list nat * list nat :=
  let '(o, removed) := st in
  match found o h with
  | Some r => (remove_in_place (search o h) (length o) o, removed ++ [r])
  | None => st
  end.
Definition removeByHref (o : list nat) (hrefs : list string) : option (list nat * list nat) :=
  let '(o, removed) := fold_left remove_step hrefs (o, []) in
  if length o <? length removed then None else Some (take (length o - length removed) o, removed).
End slice.

(** ** resourcesObserver.go

    Calls: of the device, with the number of an observation that was made and with the
    answer to a cancellation, and of the callback for the twin synchronization. *)
Inductive ObserverCall :=
  | CallObserve (href : string) (opts : list CoapOption) (observation : option nat)
  | CallGet (href : string) (etag : option (list byte))
  | CallCancel (observation : nat) (err : option error)
  | CallUpdateTwinSynchronization (deviceID : string) (state : TwinSynchronization_State).

Record OState := MkOState {
  os_objs : list observedResource; os_resources : list nat; os_calls : list ObserverCall }.
Definition set_objs (l : list observedResource) (s : OState) : OState := MkOState l (os_resources s) (os_calls s).
Definition set_resources (l : list nat) (s : OState) : OState := MkOState (os_objs s) l (os_calls s).
Definition called (c : ObserverCall) (s : OState) : OState := MkOState (os_objs s) (os_resources s) (os_calls s ++ [c]).
(** newResourcesObserver *)
Definition newResourcesObserver : OState := MkOState [] [] [].

Definition href_of (s : OState) (r : nat) : string :=
  match os_objs s !! r with Some o => or_href o | None => "" end.

(** The bit of the schema of devices. *)
Class SchemaLib := { schema_Observable : Z }.
Definition IsObservable `{!SchemaLib} (res : Resource) : bool :=
  match res_Policy res with Some p => negb (Z.land (pol_BitFlags p) schema_Observable =? 0)%Z | None => false end.
Definition emptyDeviceIDError : error := errors_New "empty deviceID".

Section observer.
Context `{!CoapLib, !SchemaLib}.
(** What the device answers, after the calls that were made: Observe an error or whether
    the observation was cancelled at once; Get and the callback for the content an error;
    Cancel an error. *)
Context (Observe : list ObserverCall -> string -> result bool) (Get : list ObserverCall -> string -> option error)
  (Cancel : list ObserverCall -> nat -> option error).
Context (deviceID : string).

Definition addResourceLocked (res : Resource) (obsInterface : string) (s : OState) : OState * result (option nat) :=
  if String.eqb deviceID "" then (s, inl (Wrap "cannot add resource observation: %w" emptyDeviceIDError))
  else if negb (String.eqb deviceID (res_DeviceId res))
  then (s, inl (Wrap "cannot add resource observation: %w" (errors_New "invalid deviceID(%v)")))
  else if contains (href_of s) (os_resources s) (res_Href res) then (s, inr None)
  else
    let r := length (os_objs s) in
    let s := set_objs (os_objs s ++ [newObservedResource (res_Href res) obsInterface (IsObservable res)
                                       (res_ResourceTypes res)]) s in
    (set_resources (insert1 (href_of s) (os_resources s) r) s, inr (Some r)).

Definition observeResource (obsRes : observedResource) (etags : list (list byte)) (s : OState) : OState * result nat :=
  let error err := Wrap "cannot observe resource /%v%v: %w" err in
  if String.eqb deviceID "" then (s, inl (error emptyDeviceIDError)) else
  let n := length (os_calls s) in
  let call := CallObserve (or_href obsRes) (toCoapOptions obsRes etags) in
  match Observe (os_calls s) (or_href obsRes) with
  | inl err => (called (call None) s, inl (error err))
  | inr true => (called (call None) s, inl (error (errors_New "resource not observable")))
  | inr false => (called (call (Some n)) s, inr n)
  end.
Definition getResourceContent (href : string) (etag : option (list byte)) (s : OState) : OState * option error :=
  let error err := Wrap "cannot get resource /%v%v content: %w" err in
  if String.eqb deviceID "" then (s, Some (error emptyDeviceIDError))
  else (called (CallGet href etag) s, error <$> Get (os_calls s) href).
Definition handleResource (r : nat) (etags : list (list byte)) (s : OState) : OState * option error :=
  match os_objs s !! r with
  | None => (s, None)
  | Some obsRes =>
      if String.eqb (or_href obsRes) StatusHref then (s, None)
      else if or_isObservable obsRes then
        match observeResource obsRes etags s with
        | (s, inl err) => (s, Some err)
        | (s, inr obs) => (set_objs (alter (set_observation (Some obs)) r (os_objs s)) s, None)
        end
      else getResourceContent (or_href obsRes) (head etags) s
  end.

(** An error of removeByHref is a panic; the href of one resource is removed here. *)
Definition remove1 (href : string) (s : OState) : OState :=
  match removeByHref (href_of s) (os_resources s) [href] with
  | Some (retained, _) => set_resources retained s
  | None => s
  end.
Fixpoint performObservationLocked (obs : list (nat * list (list byte))) (s : OState) : OState * list error :=
  match obs with
  | [] => (s, [])
  | (r, etags) :: obs =>
      match handleResource r etags s with
      | (s, None) => performObservationLocked obs s
      | (s, Some err) =>
          let '(s, errors) := performObservationLocked obs (remove1 (href_of s r) s) in (s, err :: errors)
      end
  end.
Definition notify (state : TwinSynchronization_State) (s : OState) : OState :=
  called (CallUpdateTwinSynchronization deviceID state) s.
Definition notifyAboutStartTwinSynchronization : OState -> OState := notify TwinSynchronization_SYNCING.
Definition notifyAboutFinishTwinSynchronization : OState -> OState := notify TwinSynchronization_IN_SYNC.

Definition isSynchronizedLocked (s : OState) : bool :=
  forallb (fun r => match os_objs s !! r with Some o => or_synced o | None => true end) (os_resources s).
Definition setSynchronizedAtResource (href : string) (s : OState) : OState * bool :=
  match found (href_of s) (os_resources s) href with
  | Some r =>
      match os_objs s !! r with
      | Some o =>
          if or_synced o then (s, false) else
          let s := set_objs (alter set_synced r (os_objs s)) s in (s, isSynchronizedLocked s)
      | None => (s, false)
      end
  | None => (s, false)
  end.

#[local] Abbreviation program := (prog OState).
Definition addResource (res : Resource) (obsInterface : string) (etags : list (list byte)) : program (option error) :=
  act (fun s =>
    match addResourceLocked res obsInterface s with
    | (s, inl err) => (s, Some err)
    | (s, inr None) => (s, None)
    | (s, inr (Some r)) =>
        match performObservationLocked [(r, etags)] (notifyAboutStartTwinSynchronization s) with
        | (s, []) => (s, None)
        | (s, err :: _) =>
            (notifyAboutFinishTwinSynchronization (remove1 (href_of s r) s), Some (Wrap "cannot perform observation: %w" err))
        end
    end).
Definition resourceHasBeenSynchronized (href : string) : program unit :=
  do! synchronized := act (setSynchronizedAtResource href) in
  if synchronized : bool then act (fun s => (notifyAboutFinishTwinSynchronization s, tt)) else Ret tt.

Fixpoint addResourcesLocked (resources : list Resource) (s : OState) : OState * (list nat * list error) :=
  match resources with
  | [] => (s, ([], []))
  | res :: resources =>
      let '(s, added) := addResourceLocked res "" s in
      let '(s, (rs, errors)) := addResourcesLocked resources s in
      (s, match added with
          | inl err => (rs, err :: errors)
          | inr (Some r) => (r :: rs, errors)
          | inr None => (rs, errors)
          end)
  end.
(** Under the lock: the errors that are collected, and whether to finish the synchronization,
    which a deferred call does when the lock is free again. *)
Definition addResources_locked (resources : list Resource) (s : OState) : OState * (list error * bool) :=
  let '(s, (rs, errors)) := addResourcesLocked resources s in
  match rs with
  | [] => (s, (errors, false))
  | _ =>
      let '(s, errors2) := performObservationLocked (map (fun r => (r, [])) rs)
                             (notifyAboutStartTwinSynchronization s) in
      (s, (errors ++ errors2, match errors2 with [] => false | _ => isSynchronizedLocked s end))
  end.
Definition addResources (resources : list Resource) : program (list error) :=
  do! added := act (addResources_locked resources) in
  if (added : list error * bool).2
  then do! _ := act (fun s => (notifyAboutFinishTwinSynchronization s, tt)) in Ret added.1
  else Ret added.1.

Definition getResources : program (list ResourceId) :=
  act (fun s => (s, map (fun r => MkResourceId deviceID (href_of s r)) (os_resources s))).

(** PopObservation of the resources, one after the other. *)
Fixpoint pop_observations (rs : list nat) (s : OState) : OState * list nat :=
  match rs with
  | [] => (s, [])
  | r :: rs =>
      let obs := match os_objs s !! r with Some o => or_observation o | None => None end in
      let '(s, observations) := pop_observations rs (set_objs (alter (set_observation None) r (os_objs s)) s) in
      (s, match obs with Some n => n :: observations | None => observations end)
  end.
Definition popTrackedObservations (hrefs : list string) (s : OState) : OState * outcome (list nat) :=
  match removeByHref (href_of s) (os_resources s) hrefs with
  | None => (s, Panics)
  | Some (newResources, []) => (s, Returns [])
  | Some (newResources, delResources) =>
      let '(s, observations) := pop_observations delResources s in
      (set_resources newResources s, Returns observations)
  end.
(** The error of Cancel is logged. *)
Definition cancel (obs : nat) (s : OState) : OState := called (CallCancel obs (Cancel (os_calls s) obs)) s.
Fixpoint cancel_all (observations : list nat) : program unit :=
  match observations with
  | [] => Ret tt
  | obs :: observations => do! _ := act (fun s => (cancel obs s, tt)) in cancel_all observations
  end.
Definition cancelResourcesObservations (hrefs : list string) : program (outcome unit) :=
  do? observations := act (popTrackedObservations hrefs) in
  do! _ := cancel_all observations in Ret (Returns tt).

Definition cleanObservedResourcesLocked (s : OState) : OState :=
  let '(s', observations) := pop_observations (os_resources s) s in
  fold_left (fun s obs => cancel obs s) observations (set_resources [] s').
Definition CleanObservedResources : program unit := act (fun s => (cleanObservedResourcesLocked s, tt)).
End observer.

(** ** deviceObserver.go

    The links that a device publishes about itself: the schema of the device SDK. *)
Record schema_ResourceLink := MkSchemaResourceLink {
  sl_Href : string; sl_Observable : bool; sl_Interfaces : list string }.
Class LinksLib := {
  links_Sort : list schema_ResourceLink -> list schema_ResourceLink;
  GetResourceLink : list schema_ResourceLink -> string -> option schema_ResourceLink;
  resources_Sort : list Resource -> list Resource }.
(** ResourceLinks.GetResourceLink finds a link by its href; Sort orders by href. *)
Class LinksLibLaws `{!LinksLib} := {
  links_Sort_perm : forall l, links_Sort l ≡ₚ l;
  links_Sort_sorted : forall l, StronglySorted (fun a b => String.le (sl_Href a) (sl_Href b)) (links_Sort l);
  GetResourceLink_some : forall l h, is_Some (GetResourceLink l h) <-> h ∈ sl_Href <$> l;
  resources_Sort_perm : forall l, resources_Sort l ≡ₚ l;
  resources_Sort_sorted : forall l, StronglySorted (fun a b => String.le (res_Href a) (res_Href b)) (resources_Sort l) }.

Inductive ObservationType := ObservationType_Detect | ObservationType_PerDevice | ObservationType_PerResource.
#[global] Instance ObservationType_eq_dec : EqDecision ObservationType.
Proof. solve_decision. Defined.
Record DeviceObserver := MkDeviceObserver {
  do_resourcesObserver : option OState; do_deviceID : string; do_observationType : ObservationType;
  do_twinEnabled : bool }.
Record DeviceObserverConfig := MkDeviceObserverConfig {
  cfg_ObservationType : ObservationType; cfg_TwinEnabled : bool; cfg_TwinEnabledSet : bool; cfg_UseETags : bool;
  cfg_RequireBatchObserveEnabled : bool; cfg_MaxETagsCountInRequest : Z }.

Section deviceObserver.
Context `{!CoapLib, !SchemaLib, !LinksLib}.

Definition IsDiscoveryResourceObservable (links : list schema_ResourceLink) : result bool :=
  if length links =? 0 then inl (errors_New "no links") else
  match GetResourceLink links resources_ResourceURI with
  | None => inl (errors_New "resourceLink for href(%v) not found")
  | Some res => if negb (sl_Observable res) then inr false else inr (existsb (String.eqb OC_IF_B) (sl_Interfaces res))
  end.
Definition detectObservationType (links : list schema_ResourceLink) : ObservationType * option error :=
  match IsDiscoveryResourceObservable links with
  | inl err => (ObservationType_PerDevice, Some (Wrap "cannot determine whether /oic/res is observable: %w" err))
  | inr true => (ObservationType_PerDevice, None)
  | inr false => (ObservationType_PerResource, None)
  end.

(** A stream: an error of the call, or what is received and the error that ends it ([None]: EOF). *)
Abbreviation stream A := (result (list A * option error)).
Definition loadTwinEnabled (deviceID : string) (resp : stream bool) : result bool :=
  if String.eqb deviceID "" then inl (Wrap "cannot get device(%v) metadata: %w" (errors_New "invalid deviceID")) else
  match resp with
  | inl err => if bool_decide (error_code err = NotFound) then inr false
               else inl (Wrap "cannot get device(%v) metadata: %w" err)
  | inr (received, end_) =>
      let twinEnabled := default true (last received) in
      match end_ with
      | None => inr twinEnabled
      | Some err => if bool_decide (error_code err = NotFound) then inr twinEnabled
                    else inl (Wrap "cannot get device(%v) metadata: %w" err)
      end
  end.
Definition getPublishedResources (deviceID : string) (resp : stream (list Resource)) : result (list Resource) :=
  if String.eqb deviceID "" then inl (Wrap "cannot get resource links for device(%v): %w" emptyDeviceIDError) else
  match resp with
  | inl err => if bool_decide (error_code err = NotFound) then inr []
               else inl (Wrap "cannot get resource links for device(%v): %w" err)
  | inr (received, None) => inr (concat received)
  | inr (_, Some err) => if bool_decide (error_code err = NotFound) then inr []
                         else inl (Wrap "cannot get resource links for device(%v): %w" err)
  end.

(** The loop on the two sorted slices. *)
Fixpoint skip_links (href : string) (links : list schema_ResourceLink) : list schema_ResourceLink :=
  match links with
  | l :: rest => if str_lt (sl_Href l) href then skip_links href rest else links
  | [] => []
  end.
Fixpoint diff_loop (published : list Resource) (links : list schema_ResourceLink) (valid : list Resource)
    (ids : list Z) : list Resource * list Z :=
  match published with
  | [] => (valid, ids)
  | res :: published =>
      match skip_links (res_Href res) links with
      | [] => (valid, ids)
      | (l :: _) as links =>
          if String.eqb (sl_Href l) (res_Href res) then diff_loop published links (valid ++ [res]) ids
          else diff_loop published links valid (ids ++ [GetInstanceID (res_Href res)])
      end
  end.
(** It sorts both slices in place. *)
Definition diffResources (publishedResources : list Resource) (deviceResources : list schema_ResourceLink)
    : list Resource * list Z := diff_loop (resources_Sort publishedResources) (links_Sort deviceResources) [] [].
Definition clean_step (links : list schema_ResourceLink) (st : list Resource * list Z) (res : Resource)
    : list Resource * list Z :=
  if bool_decide (is_Some (GetResourceLink links (res_Href res))) then (st.1 ++ [res], st.2)
  else (st.1, st.2 ++ [GetInstanceID (res_Href res)]).
(** The request to resource-aggregate, if there is one, and the result. *)
Definition cleanUpPublishedResources (ra : UnpublishResourceLinksRequest -> option error)
    (deviceID connectionID : string) (sequence : Z) (publishedResources : list Resource)
    (deviceResources : list schema_ResourceLink) : option UnpublishResourceLinksRequest * result (list Resource) :=
  if length publishedResources =? 0 then (None, inr [])
  else if length deviceResources =? 0 then (None, inr publishedResources)
  else
    let '(valid, ids) := fold_left (clean_step (links_Sort deviceResources)) (resources_Sort publishedResources)
                           (diffResources publishedResources deviceResources) in
    if 0 <? length ids then
      let req := {| ulr_Hrefs := []; ulr_DeviceId := deviceID;
                    ulr_CommandMetadata := Some (NewCommandMetadata sequence connectionID); ulr_InstanceIds := ids |} in
      (Some req, match ra req with Some err => inl err | None => inr valid end)
    else (None, inr valid).

(** What the device and the directory answer when an observer is made. *)
Context (Observe : list ObserverCall -> string -> result bool) (Get : list ObserverCall -> string -> option error)
  (Cancel : list ObserverCall -> nat -> option error) (links : result (list schema_ResourceLink * Z)) (is_Canceled : error -> bool)
  (metadata : stream bool) (published_links : stream (list Resource)) (etags : result (list (list byte)))
  (ra : UnpublishResourceLinksRequest -> option error) (RemoteAddr : string).

Definition with_type (t : ObservationType) (cfg : DeviceObserverConfig) : DeviceObserverConfig :=
  MkDeviceObserverConfig t (cfg_TwinEnabled cfg) (cfg_TwinEnabledSet cfg) (cfg_UseETags cfg)
    (cfg_RequireBatchObserveEnabled cfg) (cfg_MaxETagsCountInRequest cfg).
Definition prepareSetupDeviceObserver (deviceID : string) (cfg : DeviceObserverConfig)
    : option UnpublishResourceLinksRequest * result (DeviceObserverConfig * list Resource) :=
  let detect t := if bool_decide (cfg_ObservationType cfg = ObservationType_Detect) then with_type t cfg else cfg in
  let continue cfg ls sequence :=
    match getPublishedResources deviceID published_links with
    | inl err => (None, inl err)
    | inr published =>
        match cleanUpPublishedResources ra deviceID RemoteAddr sequence published ls with
        | (req, inl err) => (req, inl err)
        | (req, inr published) => (req, inr (cfg, published))
        end
    end in
  match links with
  | inr (ls, sequence) => continue (detect (detectObservationType ls).1) ls sequence
  | inl err => if is_Canceled err then (None, inl err) else continue (detect ObservationType_PerDevice) [] 0%Z
  end.
Definition getETags (cfg : DeviceObserverConfig) : list (list byte) :=
  if negb (cfg_UseETags cfg) then [] else match etags with inl _ => [] | inr es => es end.

(** The observers; on an error what was observed is cancelled.  [calls]: those made before. *)
Definition run_observer {A} (p : prog OState (A)) (calls : list ObserverCall) : option (OState * A) :=
  run p (MkOState [] [] calls).
Definition createDiscoveryResourceObserver (deviceID : string) (etags : list (list byte)) : OState * option error :=
  match run_observer (addResource Observe Get deviceID
          (MkResource resources_ResourceURI deviceID [] [] "" "" [] 0 (Some (MkPolicy schema_Observable)) None)
          OC_IF_B etags) [] with
  | Some (s, Some err) => (cleanObservedResourcesLocked Cancel s, Some err)
  | Some (s, None) => (s, None)
  | None => (newResourcesObserver, None)
  end.
Definition createPublishedResourcesObserver (deviceID : string) (published : list Resource) (calls : list ObserverCall)
    : OState * option error :=
  match run_observer (addResources Observe Get deviceID published) calls with
  | Some (s, err :: _) => (cleanObservedResourcesLocked Cancel s, Some err)
  | Some (s, []) => (s, None)
  | None => (newResourcesObserver, None)
  end.

(** The calls of the observers, the request to resource-aggregate, and the observer. *)
Definition NewDeviceObserver (deviceID : string) (cfg : DeviceObserverConfig)
    : list ObserverCall * option UnpublishResourceLinksRequest * result DeviceObserver :=
  let failed calls req err := (calls, req, inl (Wrap "cannot create device observer: %w" err)) in
  if String.eqb deviceID "" then failed [] None emptyDeviceIDError else
  let set b := MkDeviceObserverConfig (cfg_ObservationType cfg) b (cfg_TwinEnabledSet cfg) (cfg_UseETags cfg)
                 (cfg_RequireBatchObserveEnabled cfg) (cfg_MaxETagsCountInRequest cfg) in
  match (if cfg_TwinEnabledSet cfg then inr cfg else
         match loadTwinEnabled deviceID metadata with inl err => inl err | inr b => inr (set b) end) with
  | inl err => failed [] None err
  | inr cfg =>
      if negb (cfg_TwinEnabled cfg)
      then ([], None, inr (MkDeviceObserver None deviceID ObservationType_Detect false))
      else
        match prepareSetupDeviceObserver deviceID cfg with
        | (req, inl err) => failed [] req err
        | (req, inr (cfg, published)) =>
            let per_resource calls :=
              if cfg_RequireBatchObserveEnabled cfg
              then failed calls req (errors_New "device(%v) doesn't support batch observe, which is required by configuration")
              else
                match createPublishedResourcesObserver deviceID published calls with
                | (s, Some err) => failed (os_calls s) req err
                | (s, None) =>
                    (os_calls s, req, inr (MkDeviceObserver (Some s) deviceID ObservationType_PerResource (cfg_TwinEnabled cfg)))
                end in
            if bool_decide (cfg_ObservationType cfg = ObservationType_PerDevice) then
              match createDiscoveryResourceObserver deviceID (getETags cfg) with
              | (s, None) =>
                  (os_calls s, req, inr (MkDeviceObserver (Some s) deviceID ObservationType_PerDevice (cfg_TwinEnabled cfg)))
              | (s, Some _) => per_resource (os_calls s)
              end
            else per_resource []
        end
  end.

(** The methods work on the observer of resources that was made, when the twin of the device is
    enabled; [do_resourcesObserver] has the state that it had when it was made. *)
Definition ResourceHasBeenSynchronized (d : DeviceObserver) (href : string) : prog OState unit :=
  if negb (do_twinEnabled d) then Ret tt else resourceHasBeenSynchronized (do_deviceID d) href.
Definition GetResources (d : DeviceObserver) : prog OState (result (list ResourceId)) :=
  if negb (do_twinEnabled d) then Ret (inr [])
  else match do_resourcesObserver d with
       | None => Ret (inl (Wrap "cannot get observed resources: %w" (errors_New "resources observer is nil")))
       | Some _ => do! matches := getResources (do_deviceID d) in Ret (inr matches)
       end.
Definition Clean (d : DeviceObserver) : prog OState unit :=
  if negb (do_twinEnabled d) then Ret tt else CleanObservedResources Cancel.
Definition AddPublishedResources (d : DeviceObserver) (resources : list Resource) : prog OState (list error) :=
  if negb (do_twinEnabled d) || bool_decide (do_observationType d = ObservationType_PerDevice) then Ret []
  else addResources Observe Get (do_deviceID d) resources.
Definition RemovePublishedResources (d : DeviceObserver) (resourceHrefs : list string) : prog OState (outcome unit) :=
  if negb (do_twinEnabled d) || bool_decide (do_observationType d = ObservationType_PerDevice) then Ret (Returns tt)
  else cancelResourcesObservations Cancel resourceHrefs.
End deviceObserver.
