(* ===== verification/ResourcesObserverFacts.v ===== *)
(** * What a gateway observes of a device

    The entity tags in queries; the slice of resources as a set; which observations
    are open, and what the twin synchronization of the device says. *)

From Stdlib Require Import ZArith Lia String.
From stdpp Require Import relations.
From S2P Require Import Prelude Commands ResourceLinks SortedSlice Goroutines CoapConv ResourcesObserver.

(** ** Entity tags in queries *)
Lemma base64_char_length i : String.length (base64_char i) <= 1.
Proof. unfold base64_char. destruct (String.get _ _); cbn; lia. Qed.
Lemma RawURL_length src : 3 * String.length (RawURL_EncodeToString src) <= 4 * length src + 2.
Proof.
  enough (Hall : forall n src, length src <= n -> 3 * String.length (RawURL_EncodeToString src) <= 4 * length src + 2)
    by (by eapply Hall).
  clear src. induction n as [|n IH]; intros [|a [|b [|c src]]] Hn; cbn [length] in Hn; try lia;
    cbn [RawURL_EncodeToString]; cbv zeta; rewrite ?length_append;
    repeat match goal with |- context [String.length (base64_char ?i)] =>
      pose proof (base64_char_length i); generalize dependent (String.length (base64_char i)); intros end;
    cbn [length String.length]; try lia.
  specialize (IH src ltac:(lia)). lia.
Qed.

(** A query with the tags of a group. *)
Definition query (g : list (list byte)) : string :=
  prefixQueryIncChanges +:+ String.concat "," (RawURL_EncodeToString <$> g).
Definition short (etag : list byte) : Prop := length etag <= maxETagLen.
#[global] Instance short_dec etag : Decision (short etag).
Proof. unfold short. apply _. Defined.

Lemma concat_snoc sep l x : l <> [] -> String.concat sep (l ++ [x]) = String.concat sep l +:+ sep +:+ x.
Proof.
  induction l as [|y l IH]; [done|]. intros _. destruct l as [|z l]; [done|].
  change (y +:+ sep +:+ String.concat sep ((z :: l) ++ [x]) = (y +:+ sep +:+ String.concat sep (z :: l)) +:+ sep +:+ x).
  rewrite IH by done. by rewrite !append_assoc.
Qed.
Lemma query_snoc g e : g <> [] -> query (g ++ [e]) = (query g +:+ ",") +:+ RawURL_EncodeToString e.
Proof.
  intros Hg. unfold query. rewrite fmap_app. cbn [fmap list_fmap]. rewrite concat_snoc; [|by destruct g].
  by rewrite !append_assoc.
Qed.

(** What the loop has built: complete queries, and one that still has room. *)
Definition built (etags : list (list byte)) (st : list string * string) : Prop :=
  exists gs g, st = (query <$> gs, if decide (g = []) then "" else query g) /\
    concat gs ++ g = filter short etags /\ Forall (fun g => g <> []) gs /\
    Forall (fun g => String.length (query g) <= maxURIQueryLen) gs /\
    String.length (query g) < maxURIQueryLen - maxETagLen * 2.

Lemma encodeETag_built etags st e : built etags st -> built (etags ++ [e]) (encodeETag st e).
Proof.
  intros (gs & g & -> & Hc & Hne & Hle & Hlt). unfold encodeETag, built.
  rewrite (filter_app short etags [e]).
  destruct (Nat.ltb_spec maxETagLen (length e)) as [He|He].
  { exists gs, g. rewrite filter_cons_False by (unfold short; lia). by rewrite app_nil_r. }
  assert (Hs : filter short [e] = [e]) by (by rewrite filter_cons_True).
  pose proof (RawURL_length e) as Hr.
  set (b := (if String.length _ =? 0 then _ else _) +:+ RawURL_EncodeToString e).
  assert (Hb : b = query (g ++ [e])).
  { unfold b. destruct (decide (g = [])) as [-> |Hg]; [done|].
    destruct (Nat.eqb_spec (String.length (query g)) 0) as [Hz|_]; [by unfold query in Hz|]. by rewrite query_snoc. }
  assert (Hbl : String.length b <= maxURIQueryLen).
  { rewrite Hb. unfold maxURIQueryLen, maxETagLen in *. destruct (decide (g = [])) as [-> |Hg].
    - unfold query. cbn [app fmap list_fmap String.concat]. rewrite length_append. cbn [String.length prefixQueryIncChanges]. lia.
    - rewrite query_snoc by done. rewrite !length_append. cbn [String.length]. lia. }
  clearbody b. destruct (Nat.leb_spec (maxURIQueryLen - maxETagLen * 2) (String.length b)) as [Hfull|Hroom].
  - exists (gs ++ [g ++ [e]]), []. split; [by rewrite fmap_app, Hb|]. split_and!.
    + rewrite concat_app, Hs, <- Hc. cbn. by rewrite !app_nil_r, app_assoc.
    + apply Forall_app. split; [done|]. constructor; [by destruct g|done].
    + apply Forall_app. split; [done|]. constructor; [by rewrite <- Hb|done].
    + vm_compute. lia.
  - exists gs, (g ++ [e]). split; [rewrite decide_False by (by destruct g); by rewrite Hb|]. split_and!; [|done|done|].
    + by rewrite Hs, <- Hc, app_assoc.
    + by rewrite <- Hb.
Qed.

(** C37: The queries are those of groups of entity tags, no longer than a query may be; the
    groups together are the tags of at most 8 bytes, in their order. *)
Theorem encodeETags_groups etags :
  exists gs, encodeETagsForIncrementChanges etags = query <$> gs /\ concat gs = filter short etags /\
    Forall (fun g => g <> [] /\ String.length (query g) <= maxURIQueryLen) gs.
Proof.
  unfold encodeETagsForIncrementChanges. destruct (Nat.ltb_spec (length etags) 1) as [Hl|_].
  { exists []. destruct etags; [by split_and!|cbn in Hl; lia]. }
  assert (Hb : built etags (fold_left encodeETag etags ([], ""))).
  { induction etags as [|e etags IH] using rev_ind.
    - exists [], []. split_and!; [done..|]. vm_compute. lia.
    - rewrite fold_left_app. by apply encodeETag_built. }
  destruct Hb as (gs & g & -> & Hc & Hne & Hle & Hlt). destruct (decide (g = [])) as [-> |Hg].
  - exists gs. rewrite app_nil_r in Hc. split_and!; [done..|]. by apply Forall_and.
  - destruct (Nat.ltb_spec 0 (String.length (query g))) as [_|Hz]; [|unfold query in Hz; rewrite length_append in Hz; cbn [String.length prefixQueryIncChanges] in Hz; lia].
    exists (gs ++ [g]). split; [by rewrite fmap_app|]. split; [by rewrite concat_app, <- Hc; cbn; rewrite app_nil_r|].
    apply Forall_app. split; [by apply Forall_and|]. constructor; [|done]. split; [done|].
    unfold maxURIQueryLen, maxETagLen in *. lia.
Qed.

(** ** The slice of resources as a set *)
Section slice.
Context (key : nat -> string).

Lemma search_eq o h : search key o h = SearchStrings (key <$> o) h.
Proof. done. Qed.
Lemma found_spec o h : ascending (key <$> o) ->
  match found key o h with Some r => r ∈ o /\ key r = h | None => h ∉ key <$> o end.
Proof.
  intros Ha. pose proof (Contains_spec (key <$> o) h Ha) as Hc. unfold Contains in Hc. rewrite <- search_eq in Hc.
  unfold found. destruct (o !! search key o h) as [r|] eqn:Hr.
  - rewrite list_lookup_fmap, Hr in Hc. cbn [fmap option_fmap option_map] in Hc.
    assert (Hlt : (search key o h <? length (key <$> o)) = true).
    { apply Nat.ltb_lt. rewrite length_fmap. by eapply lookup_lt_Some. }
    rewrite Hlt in Hc. cbn [andb] in Hc. destruct (String.eqb_spec (key r) h) as [He|He].
    + split; [by eapply list_elem_of_lookup_2|done].
    + rewrite <- Hc, bool_decide_eq_true. congruence.
  - rewrite list_lookup_fmap, Hr in Hc. rewrite <- Hc. cbn [fmap option_fmap option_map].
    rewrite bool_decide_eq_false_2 by done. by rewrite andb_false_r.
Qed.
Lemma contains_spec o h : ascending (key <$> o) -> contains key o h = true <-> h ∈ key <$> o.
Proof.
  intros Ha. pose proof (found_spec o h Ha) as Hf. unfold contains. rewrite bool_decide_eq_true.
  destruct (found key o h) as [r|].
  - destruct Hf as [Hin <-]. split; [|done]. intros _. by apply list_elem_of_fmap_2.
  - split; [by intros [? ?]|done].
Qed.

Lemma insert1_spec o v : ascending (key <$> o) -> key v ∉ key <$> o ->
  ascending (key <$> insert1 key o v) /\ insert1 key o v ≡ₚ v :: o.
Proof.
  intros Ha Hv. unfold insert1.
  assert (Hc : contains key o (key v) = false) by (apply not_true_iff_false; by rewrite contains_spec).
  rewrite Hc. split.
  - pose proof (Insert1_spec (key <$> o) (key v) Ha) as [Hs _]. unfold Insert1 in Hs.
    assert (Hc' : Contains (key <$> o) (key v) = false) by (apply not_true_iff_false; by rewrite Contains_spec).
    rewrite Hc' in Hs. by rewrite fmap_app, fmap_cons, fmap_take, fmap_drop.
  - transitivity (v :: take (search key o (key v)) o ++ drop (search key o (key v)) o);
      [symmetry; apply Permutation_middle|by rewrite take_drop].
Qed.

Lemma fmap_remove_in_place i len (l : list nat) :
  key <$> remove_in_place i len l = remove_in_place i len (key <$> l).
Proof. unfold remove_in_place. by rewrite !delete_take_drop, !fmap_app, fmap_take, !fmap_drop, fmap_take. Qed.
Lemma remove_in_place_elem i len (l : list nat) x : x ∈ remove_in_place i len l -> x ∈ l.
Proof.
  unfold remove_in_place. rewrite elem_of_app, delete_take_drop, elem_of_app.
  pose proof (fun n => subseteq_take n l) as Ht. pose proof (fun n => subseteq_drop n l) as Hd.
  intros [[Hx%subseteq_take|Hx%subseteq_drop]|Hx%subseteq_drop]; [by apply subseteq_take in Hx..|done].
Qed.
Lemma remove_in_place_length i len (l : list nat) : i < len <= length l -> length (remove_in_place i len l) = length l.
Proof. intros Hi. unfold remove_in_place. rewrite length_app, length_drop, length_delete, length_take; [lia|]. apply lookup_lt_is_Some. rewrite length_take. lia. Qed.

(** The loop is that of SortedSlice.Remove on the hrefs. *)
Lemma remove_loop_keys hrefs o removed :
  let st := fold_left (remove_step key) hrefs (o, removed) in
  fold_left Remove1 hrefs (key <$> o, length removed) = (key <$> st.1, length st.2) /\
  (forall r, r ∈ st.1 -> r ∈ o) /\ length st.1 = length o /\
  exists rs, st.2 = removed ++ rs /\ (key <$> rs) `sublist_of` hrefs /\ forall r, r ∈ rs -> r ∈ o.
Proof.
  revert o removed. induction hrefs as [|h hrefs IH]; intros o removed; cbn [fold_left].
  { split_and!; [done..|]. exists []. rewrite app_nil_r. split_and!; [done|constructor|]. by intros ? ?%not_elem_of_nil. }
  assert (Hstep : remove_step key (o, removed) h = (o, removed) /\
      Remove1 (key <$> o, length removed) h = (key <$> o, length removed) \/
    exists r, r ∈ o /\ key r = h /\ search key o h < length o /\
      remove_step key (o, removed) h = (remove_in_place (search key o h) (length o) o, removed ++ [r]) /\
      Remove1 (key <$> o, length removed) h =
        (remove_in_place (search key o h) (length o) (key <$> o), S (length removed))).
  { unfold remove_step, Remove1, found. change (SearchStrings (key <$> o) h) with (search key o h).
    rewrite length_fmap, list_lookup_fmap. destruct (o !! search key o h) as [r|] eqn:Hr; cbn.
    - pose proof (lookup_lt_Some _ _ _ Hr) as Hlt. rewrite (proj2 (Nat.leb_gt _ _)) by done. cbn [orb].
      destruct (String.eqb_spec (key r) h) as [He|He].
      + right. exists r. rewrite bool_decide_eq_true_2 by congruence. split_and!; [|done..].
        by eapply list_elem_of_lookup_2.
      + left. rewrite bool_decide_eq_false_2 by congruence. done.
    - left. rewrite bool_decide_eq_false_2 by done. by rewrite orb_true_r. }
  destruct Hstep as [[-> ->]|(r & Hin & Hk & Hlt & -> & ->)].
  - destruct (IH o removed) as (He & Hel & Hlen & rs & Hrs & Hsub & Hrin). split_and!; [done..|].
    exists rs. split_and!; [done|by apply sublist_cons|done].
  - destruct (IH (remove_in_place (search key o h) (length o) o) (removed ++ [r]))
      as (He & Hel & Hlen & rs & Hrs & Hsub & Hrin).
    rewrite fmap_remove_in_place, length_app, Nat.add_comm in He. split; [exact He|]. split.
    { intros x Hx. by eapply remove_in_place_elem, Hel. }
    split; [by rewrite Hlen, remove_in_place_length by lia|].
    exists (r :: rs). split; [by rewrite Hrs, <- app_assoc|]. split; [rewrite fmap_cons, Hk; by apply sublist_skip|].
    intros x [-> |Hx]%elem_of_cons; [done|]. by eapply remove_in_place_elem, Hrin.
Qed.

Lemma key_inj (o : list nat) r r' : ascending (key <$> o) -> r ∈ o -> r' ∈ o -> key r = key r' -> r = r'.
Proof.
  intros Ha [i Hi]%list_elem_of_lookup [j Hj]%list_elem_of_lookup Hk.
  assert (i = j) as ->; [|congruence].
  eapply NoDup_lookup; [by eapply ascending_NoDup|by rewrite list_lookup_fmap, Hi|rewrite list_lookup_fmap, Hj; cbn; by rewrite Hk].
Qed.
Lemma fmap_key_inj (o l l' : list nat) : ascending (key <$> o) -> (forall r, r ∈ l -> r ∈ o) -> (forall r, r ∈ l' -> r ∈ o) ->
  key <$> l = key <$> l' -> l = l'.
Proof.
  intros Ha. revert l'. induction l as [|r l IH]; intros [|r' l'] Hl Hl' He; try done.
  rewrite !fmap_cons in He. injection He as Hk He. f_equal.
  - apply (key_inj o); [done|apply Hl; by left|apply Hl'; by left|done].
  - apply IH; [intros x Hx; apply Hl; by right|intros x Hx; apply Hl'; by right|done].
Qed.

(** Removing different hrefs removes exactly their resources. *)
Lemma removeByHref_spec o hrefs : ascending (key <$> o) -> NoDup hrefs ->
  exists removed, removeByHref key o hrefs = Some (filter (fun r => key r ∉ hrefs) o, removed) /\
    removed ≡ₚ filter (fun r => key r ∈ hrefs) o.
Proof.
  intros Ha Hnd. pose proof (remove_loop_keys hrefs o []) as Hl. cbv zeta in Hl. unfold removeByHref.
  destruct (fold_left (remove_step key) hrefs (o, [])) as [o' removed]. cbn [fst snd length app] in Hl.
  destruct Hl as (He & Hel & Hlen & rs & -> & Hsub & Hrin).
  pose proof (Remove_spec (key <$> o) hrefs Ha Hnd) as Hr. unfold SortedSlice_Remove in Hr. rewrite He in Hr.
  rewrite length_fmap, Hlen in Hr. rewrite Hlen. destruct (length o <? length rs) eqn:Hlt; [done|].
  injection Hr as Hr. rewrite <- fmap_take in Hr.
  assert (Hret : take (length o - length rs) o' = filter (fun r => key r ∉ hrefs) o).
  { apply (fmap_key_inj o); [done| | |].
    - intros r Hin%subseteq_take. by apply Hel.
    - by intros r [_ Hin]%list_elem_of_filter.
    - rewrite Hr. clear. induction o as [|r o IH]; [done|]. rewrite fmap_cons, !filter_cons.
      case_decide; [by rewrite fmap_cons, IH|done]. }
  exists rs. split; [by rewrite Hret|].
  assert (Hn : length (filter (fun r => key r ∈ hrefs) o) = length rs).
  { apply Nat.ltb_ge in Hlt.
    pose proof (filter_app_complement (fun r => key r ∈ hrefs) o) as Hp. apply Permutation_length in Hp.
    rewrite length_app in Hp. apply (f_equal length) in Hret. rewrite length_take in Hret. lia. }
  apply submseteq_length_Permutation; [|lia]. apply NoDup_submseteq.
  - apply (NoDup_fmap_1 key). by eapply sublist_NoDup.
  - intros r Hin. apply list_elem_of_filter. split; [|by apply Hrin].
    assert (Hsub' : key r ∈ key <$> rs) by by apply list_elem_of_fmap_2.
    eapply elem_of_submseteq; [exact Hsub'|]. by apply sublist_submseteq.
Qed.
End slice.

(** ** The observer *)
Definition opened (calls : list ObserverCall) : list nat :=
  omap (fun c => match c with CallObserve _ _ o => o | _ => None end) calls.
(** Those that the device was asked to cancel, and those it has cancelled. *)
Definition cancelled (calls : list ObserverCall) : list nat :=
  omap (fun c => match c with CallCancel n _ => Some n | _ => None end) calls.
Definition ended (calls : list ObserverCall) : list nat :=
  omap (fun c => match c with CallCancel n None => Some n | _ => None end) calls.
Definition twin_states (calls : list ObserverCall) : list TwinSynchronization_State :=
  omap (fun c => match c with CallUpdateTwinSynchronization _ t => Some t | _ => None end) calls.
(** The observation of a resource. *)
Definition holds (s : OState) (r : nat) : option nat := os_objs s !! r ≫= or_observation.
Definition synced (s : OState) (r : nat) : option bool := or_synced <$> os_objs s !! r.

(** The resources are sorted by href; the observations that were made and not given to Cancel
    are those of the resources, each of one resource; Cancel is called once for an observation. *)
Record observed (s : OState) : Prop := {
  ob_objs : forall r, r ∈ os_resources s -> r < length (os_objs s);
  ob_sorted : ascending (href_of s <$> os_resources s);
  ob_held : forall r n, holds s r = Some n ->
    r ∈ os_resources s /\ n ∈ opened (os_calls s) /\ n ∉ cancelled (os_calls s);
  ob_open : forall n, n ∈ opened (os_calls s) -> n ∉ cancelled (os_calls s) -> exists r, holds s r = Some n;
  ob_one : forall r r' n, holds s r = Some n -> holds s r' = Some n -> r = r';
  ob_once : NoDup (cancelled (os_calls s));
  ob_fresh : forall n, n ∈ opened (os_calls s) \/ n ∈ cancelled (os_calls s) -> n < length (os_calls s) }.

Lemma omap_snoc {A B} (f : A -> option B) l x :
  omap f (l ++ [x]) = omap f l ++ match f x with Some y => [y] | None => [] end.
Proof. rewrite omap_app. cbn. by destruct (f x). Qed.
Lemma href_of_eq s s' r : or_href <$> os_objs s' !! r = or_href <$> os_objs s !! r -> href_of s' r = href_of s r.
Proof.
  unfold href_of. destruct (os_objs s' !! r), (os_objs s !! r); cbn; try done. by intros [= ->].
Qed.
Lemma hrefs_eq s s' (l : list nat) : (forall r, r ∈ l -> href_of s' r = href_of s r) -> href_of s' <$> l = href_of s <$> l.
Proof. intros He. apply list_fmap_ext. intros i r Hr. apply He. by eapply list_elem_of_lookup_2. Qed.

(** A call that opens and cancels nothing. *)
Definition quiet (c : ObserverCall) : Prop :=
  match c with CallObserve _ _ (Some _) | CallCancel _ _ => False | _ => True end.
Lemma observed_quiet c s : quiet c -> observed s -> observed (called c s).
Proof.
  intros Hc [Ho Hs Hh Hop H1 Hcn Hf]. unfold called.
  assert (Heq : opened (os_calls s ++ [c]) = opened (os_calls s) /\ cancelled (os_calls s ++ [c]) = cancelled (os_calls s)).
  { unfold opened, cancelled. rewrite !omap_snoc. destruct c as [? ? [|]| | |]; try done; by rewrite !app_nil_r. }
  destruct Heq as [Heq1 Heq2].
  split; cbn [os_calls os_objs os_resources]; rewrite ?Heq1, ?Heq2; [exact Ho|exact Hs|exact Hh|exact Hop|exact H1|exact Hcn|].
  intros n Hn. rewrite length_app. cbn. specialize (Hf n Hn). lia.
Qed.

(** Objects that change neither their href nor their observation. *)
Lemma observed_objs s objs : (forall r, or_href <$> objs !! r = or_href <$> os_objs s !! r) ->
  (forall r, objs !! r ≫= or_observation = os_objs s !! r ≫= or_observation) -> observed s -> observed (set_objs objs s).
Proof.
  intros Hh Ho [Hb Hs Hhd Hop H1 Hcn Hf].
  assert (Hholds : forall r, holds (set_objs objs s) r = holds s r) by (intros r; apply Ho).
  split; cbn [os_resources os_calls set_objs].
  - intros r Hr. specialize (Hb r Hr). apply lookup_lt_is_Some in Hb. apply lookup_lt_is_Some. cbn [os_objs set_objs].
    specialize (Hh r). destruct (objs !! r), (os_objs s !! r); try done; by destruct Hb.
  - rewrite (hrefs_eq s); [done|]. intros r _. by apply href_of_eq.
  - intros r n. rewrite Hholds. apply Hhd.
  - intros n Hn Hc. destruct (Hop n Hn Hc) as [r Hr]. exists r. by rewrite Hholds.
  - intros r r' n. rewrite !Hholds. apply H1.
  - done.
  - done.
Qed.

Lemma alter_lookup {A} (f : A -> A) r (l : list A) r' :
  alter f r l !! r' = if decide (r = r') then f <$> l !! r' else l !! r'.
Proof. case_decide as Hr; [subst; apply list_lookup_alter_eq|by apply list_lookup_alter_ne]. Qed.

Lemma observed_synced r s : observed s -> observed (set_objs (alter set_synced r (os_objs s)) s).
Proof.
  apply observed_objs; intros r'; rewrite alter_lookup; case_decide; [|done| |done];
    by destruct (os_objs s !! r').
Qed.

(** A new observation. *)
Lemma observed_opened s r href opts :
  r ∈ os_resources s -> holds s r = None -> observed s ->
  let n := length (os_calls s) in
  observed (set_objs (alter (set_observation (Some n)) r (os_objs s)) (called (CallObserve href opts (Some n)) s)).
Proof.
  cbv zeta. intros Hr Hn [Hb Hs Hh Hop H1 Hcn Hf]. set (n := length (os_calls s)).
  set (s' := set_objs _ _).
  assert (Hholds : forall r', holds s' r' = if decide (r = r') then Some n else holds s r').
  { intros r'. unfold holds, s'. cbn [os_objs set_objs called]. rewrite alter_lookup. case_decide as He; [|done]. subst r'.
    specialize (Hb r Hr). apply lookup_lt_is_Some in Hb as [o ->]. done. }
  assert (Hopened : opened (os_calls s') = opened (os_calls s) ++ [n]).
  { unfold opened, s'. cbn [os_calls set_objs called]. by rewrite omap_snoc. }
  assert (Hcancel : cancelled (os_calls s') = cancelled (os_calls s)).
  { unfold cancelled, s'. cbn [os_calls set_objs called]. by rewrite omap_snoc, app_nil_r. }
  assert (Hnew : n ∉ opened (os_calls s) /\ n ∉ cancelled (os_calls s)).
  { split; intros Hin; [specialize (Hf n (or_introl Hin))|specialize (Hf n (or_intror Hin))]; unfold n in Hf; lia. }
  split; change (os_resources s') with (os_resources s); rewrite ?Hopened, ?Hcancel.
  - intros r' Hr'. unfold s'. cbn [os_objs set_objs called]. rewrite length_alter. by apply Hb.
  - rewrite (hrefs_eq s); [done|]. intros r' _. apply href_of_eq. unfold s'. cbn [os_objs set_objs called].
    rewrite alter_lookup. case_decide; [|done]. by destruct (os_objs s !! r').
  - intros r' m. rewrite Hholds. case_decide as He; [subst r'|].
    + intros [= <-]. split_and!; [done|apply elem_of_app; right; by left|apply Hnew].
    + intros Hm. destruct (Hh r' m Hm) as (? & ? & ?). split_and!; [done|apply elem_of_app; by left|done].
  - intros m [Hm|Hm]%elem_of_app Hc.
    + destruct (Hop m Hm Hc) as [r' Hr']. exists r'. rewrite Hholds. rewrite decide_False; [done|]. intros ->. congruence.
    + apply list_elem_of_singleton in Hm as ->. exists r. rewrite Hholds. by rewrite decide_True.
  - intros r1 r2 m. rewrite !Hholds. case_decide; case_decide; try congruence.
    + intros [= <-] Hm. destruct (Hh _ _ Hm) as (_ & Hin & _). by destruct Hnew.
    + intros Hm [= <-]. destruct (Hh _ _ Hm) as (_ & Hin & _). by destruct Hnew.
    + apply H1.
  - done.
  - intros m Hm. unfold s'. cbn [os_calls set_objs called]. rewrite length_app. cbn [length].
    rewrite elem_of_app, list_elem_of_singleton in Hm. fold n.
    destruct Hm as [[Hm| ->]|Hm]; [specialize (Hf m (or_introl Hm))|lia|specialize (Hf m (or_intror Hm))]; fold n in Hf; lia.
Qed.

Lemma ascending_fmap_filter (key : nat -> string) (P : nat -> Prop) `{!forall r, Decision (P r)} l :
  ascending (key <$> l) -> ascending (key <$> filter P l).
Proof.
  induction l as [|r l IH]; [done|]. rewrite fmap_cons, ascending_cons, filter_cons. intros [Hl Hr].
  case_decide; [|by apply IH]. rewrite fmap_cons, ascending_cons. split; [by apply IH|].
  intros y (r' & -> & [_ Hr']%list_elem_of_filter)%list_elem_of_fmap. apply Hr. by apply list_elem_of_fmap_2.
Qed.
(** Resources without an observation can go. *)
Lemma observed_fewer s (P : nat -> Prop) `{!forall r, Decision (P r)} :
  (forall r, r ∈ os_resources s -> ~ P r -> holds s r = None) -> observed s ->
  observed (set_resources (filter P (os_resources s)) s).
Proof.
  intros HP [Hb Hs Hh Hop H1 Hcn Hf]. split; cbn [os_resources os_calls os_objs set_resources]; try done.
  - intros r [_ Hr]%list_elem_of_filter. by apply Hb.
  - by apply ascending_fmap_filter.
  - intros r n Hn. destruct (Hh r n Hn) as (Hr & ? & ?). split_and!; [|done..]. apply list_elem_of_filter.
    split; [|done]. destruct (decide (P r)) as [|HnP]; [done|]. change (holds s r = Some n) in Hn.
    by rewrite (HP r Hr HnP) in Hn.
Qed.

(** ** The operations *)
Section operations.
Context `{!CoapLib, !SchemaLib}.
Context (Observe : list ObserverCall -> string -> result bool) (Get : list ObserverCall -> string -> option error)
  (Cancel : list ObserverCall -> nat -> option error) (deviceID : string).

(** What the work on a resource leaves alone. *)
Record frame (s s' : OState) : Prop := {
  fr_href : forall r, href_of s' r = href_of s r;
  fr_synced : forall r, synced s' r = synced s r;
  fr_twin : twin_states (os_calls s') = twin_states (os_calls s) }.
Lemma frame_refl s : frame s s.
Proof. by split. Qed.
Lemma frame_trans s1 s2 s3 : frame s1 s2 -> frame s2 s3 -> frame s1 s3.
Proof. intros [Ha Hb Hc] [Hd He Hf]. split; intros; [by rewrite Hd, Ha|by rewrite He, Hb|by rewrite Hf, Hc]. Qed.
Lemma frame_called c s : (forall d t, c <> CallUpdateTwinSynchronization d t) -> frame s (called c s).
Proof.
  intros Hc. split; [done..|]. unfold twin_states. cbn [os_calls called]. rewrite omap_snoc.
  destruct c as [? ? ?| | |d t]; [by rewrite app_nil_r..|]. by destruct (Hc d t).
Qed.
Lemma frame_resources l s : frame s (set_resources l s).
Proof. by split. Qed.

Lemma handleResource_spec r etags s s' err :
  observed s -> r ∈ os_resources s -> holds s r = None ->
  handleResource Observe Get deviceID r etags s = (s', err) ->
  observed s' /\ frame s s' /\ os_resources s' = os_resources s /\
  (forall r', r' <> r -> holds s' r' = holds s r') /\ (err <> None -> holds s' r = None).
Proof.
  intros Hob Hr Hn. unfold handleResource.
  destruct (os_objs s !! r) as [o|] eqn:Ho; [|intros [= <- <-]; by split_and!].
  destruct (String.eqb (or_href o) StatusHref); [intros [= <- <-]; by split_and!|].
  assert (Hq : forall c, quiet c -> (forall d t, c <> CallUpdateTwinSynchronization d t) ->
    observed (called c s) /\ frame s (called c s) /\ os_resources (called c s) = os_resources s /\
    (forall r', r' <> r -> holds (called c s) r' = holds s r') /\ holds (called c s) r = None).
  { intros c Hc Ht. split_and!; [by apply observed_quiet|by apply frame_called|done..]. }
  destruct (or_isObservable o).
  - unfold observeResource. destruct (String.eqb deviceID ""); [intros [= <- <-]; by split_and!|].
    destruct (Observe (os_calls s) (or_href o)) as [e|[|]].
    + intros [= <- <-]. destruct (Hq (CallObserve (or_href o) (toCoapOptions o etags) None) I ltac:(done)) as (?&?&?&?&?).
      by split_and!.
    + intros [= <- <-]. destruct (Hq (CallObserve (or_href o) (toCoapOptions o etags) None) I ltac:(done)) as (?&?&?&?&?).
      by split_and!.
    + intros [= <- <-]. split_and!; [by apply observed_opened| |done| |done].
      * eapply frame_trans; [by apply (frame_called (CallObserve (or_href o) (toCoapOptions o etags)
          (Some (length (os_calls s)))))|].
        split; [intros q; apply href_of_eq|intros q; unfold synced|done]; cbn [os_objs set_objs called];
          rewrite alter_lookup; case_decide; try done; destruct (os_objs s !! q) as [oq|]; reflexivity.
      * intros r' Hne. unfold holds. cbn [os_objs set_objs called]. by rewrite alter_lookup, decide_False.
  - unfold getResourceContent. destruct (String.eqb deviceID ""); [intros [= <- <-]; by split_and!|].
    intros [= <- _]. destruct (Hq (CallGet (or_href o) (head etags)) I ltac:(done)) as (?&?&?&?&?). by split_and!.
Qed.

Lemma remove1_eq s r : observed s -> r ∈ os_resources s ->
  remove1 (href_of s r) s = set_resources (filter (fun r' => r' <> r) (os_resources s)) s.
Proof.
  intros Hob Hr. unfold remove1. pose proof (ob_sorted s Hob) as Hs.
  destruct (removeByHref_spec (href_of s) (os_resources s) [href_of s r] Hs (NoDup_singleton _)) as (rm & -> & _).
  f_equal. apply filter_ext_elem. intros r' Hr'. rewrite list_elem_of_singleton. split; intros Hne He; apply Hne.
  - by rewrite He.
  - by apply (key_inj _ _ _ _ Hs).
Qed.
Lemma remove1_spec s r : observed s -> r ∈ os_resources s -> holds s r = None ->
  observed (remove1 (href_of s r) s) /\ frame s (remove1 (href_of s r) s) /\
  (forall r', holds (remove1 (href_of s r) s) r' = holds s r') /\
  forall r', r' ∈ os_resources (remove1 (href_of s r) s) <-> r' ∈ os_resources s /\ r' <> r.
Proof.
  intros Hob Hr Hn. rewrite remove1_eq by done. split_and!.
  - apply observed_fewer; [|done]. intros r' _ Hne. by destruct (decide (r' = r)) as [-> |].
  - apply frame_resources.
  - done.
  - intros r'. cbn [os_resources set_resources]. rewrite list_elem_of_filter. naive_solver.
Qed.

(** The resources that are worked on: they have no observation yet. *)
Record fresh_in (s : OState) (rs : list nat) : Prop := {
  fi_NoDup : NoDup rs; fi_in : forall r, r ∈ rs -> r ∈ os_resources s /\ holds s r = None }.

Lemma performObservationLocked_spec obs s s' errs :
  observed s -> fresh_in s obs.*1 -> performObservationLocked Observe Get deviceID obs s = (s', errs) ->
  observed s' /\ frame s s' /\ (forall r, r ∈ os_resources s' -> r ∈ os_resources s) /\
  (errs = [] -> os_resources s' = os_resources s).
Proof.
  revert s s' errs. induction obs as [|[r etags] obs IH]; intros s s' errs Hob [Hnd Hin]; cbn [performObservationLocked].
  { intros [= <- <-]. split_and!; [done|apply frame_refl|done..]. }
  rewrite fmap_cons in Hnd, Hin. apply NoDup_cons in Hnd as [Hr Hnd]. cbn [fst] in *.
  destruct (Hin r ltac:(by left)) as [Hrin Hrn].
  destruct (handleResource _ _ _ r etags s) as [s1 err] eqn:Hh.
  destruct (handleResource_spec r etags s s1 err Hob Hrin Hrn Hh) as (Hob1 & Hf1 & Hres1 & Hold1 & Hn1).
  assert (Hin1 : forall r', r' ∈ obs.*1 -> r' ∈ os_resources s1 /\ holds s1 r' = None /\ r' <> r).
  { intros r' Hr'. destruct (Hin r' ltac:(by right)) as [Hi Hn']. assert (r' <> r) by (by intros ->).
    rewrite Hres1, Hold1 by done. done. }
  destruct err as [err|].
  - assert (Hrin1 : r ∈ os_resources s1) by (by rewrite Hres1).
    destruct (remove1_spec s1 r Hob1 Hrin1 (Hn1 ltac:(done))) as (Hob2 & Hf2 & Hh2 & Hel2).
    destruct (performObservationLocked _ _ _ obs _) as [s2 errs2] eqn:Hp. intros [= <- <-].
    destruct (IH (remove1 (href_of s1 r) s1) s2 errs2) as (Hob3 & Hf3 & Hsub3 & _); [done| |exact Hp|].
    { split; [done|]. intros r' (? & ? & ?)%Hin1. rewrite Hel2, Hh2. by split_and!. }
    split_and!; [done| | |done].
    + eapply frame_trans; [exact Hf1|]. by eapply frame_trans.
    + intros r' Hr'%Hsub3%Hel2. rewrite <- Hres1. by destruct Hr'.
  - intros Hp. destruct (IH s1 s' errs) as (Hob3 & Hf3 & Hsub3 & Hsame); [done| |exact Hp|].
    { split; [done|]. intros r' (? & ? & ?)%Hin1. done. }
    split_and!; [done|by eapply frame_trans| |].
    + intros r' Hr'%Hsub3. by rewrite <- Hres1.
    + intros He. rewrite (Hsame He). exact Hres1.
Qed.

Lemma notify_spec state s : observed s -> observed (notify deviceID state s) /\
  (forall r, synced (notify deviceID state s) r = synced s r) /\ os_resources (notify deviceID state s) = os_resources s /\
  twin_states (os_calls (notify deviceID state s)) = twin_states (os_calls s) ++ [state].
Proof.
  intros Hob. split_and!; [by apply observed_quiet|done..|]. unfold twin_states. cbn [os_calls notify called].
  by rewrite omap_snoc.
Qed.

(** *** New resources *)
Lemma addResourceLocked_spec res iface s s' added :
  observed s -> addResourceLocked deviceID res iface s = (s', added) ->
  match added with
  | inr (Some r) =>
      observed s' /\ os_calls s' = os_calls s /\ r = length (os_objs s) /\ length (os_objs s') = S r /\
      (forall r', r' ∈ os_resources s' <-> r' = r \/ r' ∈ os_resources s) /\ holds s' r = None /\
      synced s' r = Some false /\
      (forall r', r' < length (os_objs s) -> holds s' r' = holds s r' /\ synced s' r' = synced s r')
  | _ => s' = s
  end.
Proof.
  intros Hob. unfold addResourceLocked. destruct (String.eqb deviceID ""); [by intros [= <- <-]|].
  destruct (negb _); [by intros [= <- <-]|]. pose proof (ob_sorted s Hob) as Hs.
  destruct (contains _ _ (res_Href res)) eqn:Hc; [by intros [= <- <-]|].
  apply not_true_iff_false in Hc. rewrite contains_spec in Hc by done. intros [= <- <-].
  set (o := newObservedResource _ _ _ _). set (s1 := set_objs (os_objs s ++ [o]) s). set (r := length (os_objs s)).
  assert (Hold : forall r', r' < r -> os_objs s1 !! r' = os_objs s !! r') by (intros r' Hr'; by apply lookup_app_l).
  assert (Hnew : os_objs s1 !! r = Some o) by (unfold s1, r; cbn [os_objs set_objs]; by apply list_lookup_middle).
  assert (Hhref : forall r', r' ∈ os_resources s -> href_of s1 r' = href_of s r').
  { intros r' Hr'. apply href_of_eq. by rewrite Hold by (by apply ob_objs). }
  assert (Hkeys : href_of s1 <$> os_resources s = href_of s <$> os_resources s) by (by apply hrefs_eq).
  assert (Hhr : href_of s1 r = res_Href res) by (unfold href_of; by rewrite Hnew).
  destruct (insert1_spec (href_of s1) (os_resources s) r) as [Hsort Hperm]; [by rewrite Hkeys|by rewrite Hkeys, Hhr|].
  assert (Hel : forall r', r' ∈ insert1 (href_of s1) (os_resources s) r <-> r' = r \/ r' ∈ os_resources s).
  { intros r'. by rewrite Hperm, elem_of_cons. }
  assert (Hlen : length (os_objs s1) = S r) by (unfold s1; cbn [os_objs set_objs]; rewrite length_app; cbn; unfold r; lia).
  assert (Hholds : forall r', holds s1 r' = holds s r').
  { intros r'. unfold holds. destruct (Nat.lt_trichotomy r' r) as [Hlt|[-> |Hgt]]; [by rewrite Hold| |].
    - rewrite Hnew. by rewrite (proj2 (lookup_ge_None (os_objs s) r)) by done.
    - rewrite !(proj2 (lookup_ge_None _ r')); [done|unfold r in Hgt; lia|lia]. }
  destruct Hob as [Hb _ Hh Hop H1 Honce Hf].
  split_and!; try done.
  - split; cbn [os_resources os_objs os_calls set_resources]; try done.
    + intros r' [-> |Hr']%Hel; rewrite Hlen; [lia|]. specialize (Hb r' Hr'). fold r in Hb. lia.
    + intros r' n Hn. change (holds s1 r' = Some n) in Hn. rewrite Hholds in Hn.
      destruct (Hh r' n Hn) as (? & ? & ?). split_and!; [|done..]. apply Hel. by right.
    + intros n Hn Hcn. destruct (Hop n Hn Hcn) as [r' Hr']. exists r'. change (holds s1 r' = Some n). by rewrite Hholds.
    + intros r1 r2 n. change (holds s1 r1 = Some n -> holds s1 r2 = Some n -> r1 = r2). rewrite !Hholds. apply H1.
  - change (holds s1 r = None). unfold holds. by rewrite Hnew.
  - unfold synced. cbn [os_objs set_resources]. by rewrite Hnew.
  - intros r' Hr'. split; [apply Hholds|]. unfold synced. cbn [os_objs set_resources]. by rewrite Hold.
Qed.

Lemma addResourcesLocked_spec resources s s' rs errs :
  observed s -> addResourcesLocked deviceID resources s = (s', (rs, errs)) ->
  observed s' /\ os_calls s' = os_calls s /\ length (os_objs s) <= length (os_objs s') /\
  (forall r, r ∈ os_resources s -> r ∈ os_resources s') /\
  (forall r, r < length (os_objs s) -> holds s' r = holds s r /\ synced s' r = synced s r) /\
  fresh_in s' rs /\ (forall r, r ∈ rs -> length (os_objs s) <= r /\ synced s' r = Some false) /\
  (rs = [] -> s' = s).
Proof.
  revert s s' rs errs. induction resources as [|res resources IH]; intros s s' rs errs Hob; cbn [addResourcesLocked].
  { intros [= <- <- <-]. split_and!; try done; [split; [constructor|]|]; by intros ? ?%not_elem_of_nil. }
  destruct (addResourceLocked _ res "" s) as [s1 added] eqn:Ha. pose proof (addResourceLocked_spec _ _ _ _ _ Hob Ha) as Hspec.
  destruct (addResourcesLocked _ resources s1) as [s2 [rs2 errs2]] eqn:Hr. intros [= <- Hrs].
  destruct added as [err|[r|]].
  - subst s1. injection Hrs as <- _. by eapply IH.
  - destruct Hspec as (Hob1 & Hc1 & -> & Hlen1 & Hel1 & Hn1 & Hs1 & Hold1). set (r := length (os_objs s)) in *.
    destruct (IH s1 s2 rs2 errs2 Hob1 Hr) as (Hob2 & Hc2 & Hlen2 & Hin2 & Hold2 & [Hnd2 Hfr2] & Hge2 & _). injection Hrs as <- _.
    assert (Hlt : r < length (os_objs s1)) by lia. destruct (Hold2 r Hlt) as [Hhr Hsr].
    split_and!; [done|by rewrite Hc2|lia| | | | |done].
    + intros r' Hr'. apply Hin2, Hel1. by right.
    + intros r' Hr'. destruct (Hold1 r' Hr') as [? ?]. destruct (Hold2 r') as [-> ->]; [lia|done].
    + split.
      * apply NoDup_cons. split; [|done]. intros Hin. destruct (Hge2 r Hin) as [? _]. lia.
      * intros r' [-> |Hr']%elem_of_cons; [|by apply Hfr2]. split; [apply Hin2, Hel1; by left|by rewrite Hhr].
    + intros r' [-> |Hr']%elem_of_cons; [split; [done|by rewrite Hsr]|]. destruct (Hge2 r' Hr'). split; [lia|done].
  - subst s1. injection Hrs as <- _. by eapply IH.
Qed.

(** *** Cancelled observations *)
(** All at once: the same, when the resources are different. *)
Definition pop_all (rs : list nat) (s : OState) : OState * list nat :=
  (set_objs (fold_left (fun objs r => alter (set_observation None) r objs) rs (os_objs s)) s,
   omap (holds s) rs).
Lemma pop_observations_eq rs s : NoDup rs -> pop_observations rs s = pop_all rs s.
Proof.
  revert s. induction rs as [|r rs IH]; intros s; [by destruct s|]. intros [Hr Hnd]%NoDup_cons.
  cbn [pop_observations]. rewrite IH by done. unfold pop_all. cbn [fold_left omap list_omap os_objs set_objs].
  set (s1 := set_objs (alter (set_observation None) r (os_objs s)) s).
  assert (Ho : omap (holds s1) rs = omap (holds s) rs).
  { clear -Hr. induction rs as [|r' rs IH]; [done|]. apply not_elem_of_cons in Hr as [Hne Hr]. cbn [omap list_omap].
    replace (holds s1 r') with (holds s r'); [by rewrite IH|]. unfold holds, s1. cbn [os_objs set_objs].
    by rewrite alter_lookup, decide_False. }
  rewrite Ho. change (match os_objs s !! r with Some o => or_observation o | None => None end) with (holds s r).
  unfold holds at 2. by destruct (os_objs s !! r ≫= or_observation).
Qed.
Lemma pop_lookup rs (objs : list observedResource) r :
  fold_left (fun objs r => alter (set_observation None) r objs) rs objs !! r =
  if decide (r ∈ rs) then set_observation None <$> objs !! r else objs !! r.
Proof.
  revert objs. induction rs as [|r1 rs IH]; intros objs; cbn [fold_left].
  { rewrite decide_False; [done|]. by intros ?%not_elem_of_nil. }
  rewrite IH, alter_lookup. destruct (decide (r1 = r)) as [-> |Hne].
  - rewrite (decide_True (P := r ∈ r :: rs)) by (by left). case_decide; [by destruct (objs !! r)|done].
  - destruct (decide (r ∈ rs)) as [Hin|Hin].
    + by rewrite decide_True by (by right).
    + rewrite decide_False; [done|]. intros [-> |?]%elem_of_cons; done.
Qed.
Lemma pop_length rs (objs : list observedResource) :
  length (fold_left (fun objs r => alter (set_observation None) r objs) rs objs) = length objs.
Proof. revert objs. induction rs as [|r rs IH]; intros objs; cbn [fold_left]; [done|]. by rewrite IH, length_alter. Qed.

(** The calls of a loop of cancellations. *)
Fixpoint cancels (calls : list ObserverCall) (l : list nat) : list ObserverCall :=
  match l with [] => [] | n :: l => let c := CallCancel n (Cancel calls n) in c :: cancels (calls ++ [c]) l end.
(** The observations of [rs] are popped and cancelled, and [rs] leaves the slice. *)
Definition dropped (rs l : list nat) (s : OState) : OState :=
  MkOState (os_objs (pop_all rs s).1) l (os_calls s ++ cancels (os_calls s) (pop_all rs s).2).
Lemma holds_popped rs s r : os_objs (pop_all rs s).1 !! r ≫= or_observation =
  if decide (r ∈ rs) then None else holds s r.
Proof.
  cbn [pop_all os_objs set_objs fst]. rewrite pop_lookup. case_decide; [|done]. by destruct (os_objs s !! r).
Qed.
Lemma opened_cancels calls l : opened (cancels calls l) = [].
Proof. unfold opened. revert calls. induction l as [|n l IH]; intros calls; [done|]. apply IH. Qed.
Lemma twin_cancels calls l : twin_states (cancels calls l) = [].
Proof. unfold twin_states. revert calls. induction l as [|n l IH]; intros calls; [done|]. apply IH. Qed.
Lemma cancelled_cancels calls l : cancelled (cancels calls l) = l.
Proof.
  unfold cancelled. revert calls. induction l as [|n l IH]; intros calls; [done|].
  cbn [cancels omap list_omap]. f_equal. apply IH.
Qed.
Lemma observed_dropped rs l s : observed s -> (forall r, r ∈ rs -> r ∈ os_resources s) -> NoDup rs ->
  l = filter (fun r => r ∉ rs) (os_resources s) -> observed (dropped rs l s).
Proof.
  intros [Hb Hs Hh Hop H1 Hcn Hf] Hrs Hnd ->.
  assert (Hholds : forall r, holds (dropped rs (filter (fun r => r ∉ rs) (os_resources s)) s) r
      = if decide (r ∈ rs) then None else holds s r) by (intros r; apply holds_popped).
  assert (Hopened : opened (os_calls s ++ cancels (os_calls s) (pop_all rs s).2) = opened (os_calls s)).
  { unfold opened. rewrite omap_app. fold (opened (cancels (os_calls s) (pop_all rs s).2)).
    by rewrite opened_cancels, app_nil_r. }
  assert (Hcanc : cancelled (os_calls s ++ cancels (os_calls s) (pop_all rs s).2)
      = cancelled (os_calls s) ++ (pop_all rs s).2).
  { unfold cancelled at 1. rewrite omap_app. f_equal. apply cancelled_cancels. }
  assert (Hpop : forall n, n ∈ (pop_all rs s).2 <-> exists r, r ∈ rs /\ holds s r = Some n).
  { intros n. cbn [pop_all snd]. by rewrite list_elem_of_omap. }
  split; cbn [os_resources os_calls dropped]; rewrite ?Hopened, ?Hcanc.
  - intros r [_ Hr]%list_elem_of_filter. cbn [os_objs dropped pop_all set_objs fst]. rewrite pop_length. by apply Hb.
  - rewrite (hrefs_eq s); [by apply ascending_fmap_filter|]. intros r _. apply href_of_eq.
    cbn [os_objs dropped pop_all set_objs fst]. rewrite pop_lookup. case_decide; [|done]. by destruct (os_objs s !! r).
  - intros r n. rewrite Hholds. case_decide as Hr; [done|]. intros Hn. destruct (Hh r n Hn) as (Hin & Ho & Hc).
    split_and!; [by apply list_elem_of_filter|done|]. rewrite elem_of_app, Hpop. intros [?|(r' & Hr' & Hn')]; [done|].
    by rewrite (H1 _ _ _ Hn Hn') in Hr.
  - intros n Hn. rewrite not_elem_of_app, Hpop. intros [Hc Hp]. destruct (Hop n Hn Hc) as [r Hr]. exists r.
    rewrite Hholds. rewrite decide_False; [done|]. intros Hin. apply Hp. by exists r.
  - intros r r' n. rewrite !Hholds. case_decide; [done|]. case_decide; [done|]. apply H1.
  - apply NoDup_app. split_and!; [done| |].
    + intros n Hn (r & _ & Hr)%Hpop. by destruct (Hh r n Hr) as (_ & _ & ?).
    + cbn [pop_all snd]. clear -H1 Hnd. induction Hnd as [|r rs Hr Hnd IH]; [constructor|]. cbn [omap list_omap].
      destruct (holds s r) as [n|] eqn:Hn; [|done]. constructor; [|done].
      intros (r' & Hr' & Hn')%list_elem_of_omap. by rewrite (H1 _ _ _ Hn Hn') in Hr.
  - intros n. rewrite elem_of_app, Hpop, length_app. intros [Hn|[Hn|(r & _ & Hn)]].
    + specialize (Hf n (or_introl Hn)). lia.
    + specialize (Hf n (or_intror Hn)). lia.
    + destruct (Hh r n Hn) as (_ & Ho & _). specialize (Hf n (or_introl Ho)). lia.
Qed.

Lemma run_cancel_all l s :
  run (cancel_all Cancel l) s = Some (MkOState (os_objs s) (os_resources s) (os_calls s ++ cancels (os_calls s) l), tt).
Proof.
  revert s. induction l as [|n l IH]; intros s; cbn [cancel_all cancels run].
  { rewrite app_nil_r. by destruct s. }
  rewrite run_seq, run_act, IH. cbn [os_objs os_resources os_calls called cancel]. by rewrite <- app_assoc.
Qed.
Lemma resources_NoDup s : observed s -> NoDup (os_resources s).
Proof. intros Hob. apply (NoDup_fmap_1 (href_of s)). apply ascending_NoDup. by apply ob_sorted. Qed.
Lemma run_cancelResourcesObservations hrefs s : observed s -> NoDup hrefs ->
  exists rs l, run (cancelResourcesObservations Cancel hrefs) s = Some (dropped rs l s, Returns tt) /\
    l = filter (fun r => r ∉ rs) (os_resources s) /\
    NoDup rs /\ (forall r, r ∈ rs <-> r ∈ os_resources s /\ href_of s r ∈ hrefs).
Proof.
  intros Hob Hnd. destruct (removeByHref_spec (href_of s) (os_resources s) hrefs (ob_sorted s Hob) Hnd) as (rs & Hr & Hp).
  assert (Hel : forall r, r ∈ rs <-> r ∈ os_resources s /\ href_of s r ∈ hrefs).
  { intros r. rewrite Hp, list_elem_of_filter. tauto. }
  assert (Hl : filter (fun r => href_of s r ∉ hrefs) (os_resources s) = filter (fun r => r ∉ rs) (os_resources s)).
  { apply filter_ext_elem. intros r Hin. rewrite Hel. tauto. }
  assert (Hndr : NoDup rs) by (rewrite Hp; apply NoDup_filter; by apply resources_NoDup).
  exists rs, (filter (fun r => r ∉ rs) (os_resources s)). split; [|done].
  unfold cancelResourcesObservations. rewrite run_bindO, run_act. unfold popTrackedObservations. rewrite Hr, Hl.
  destruct rs as [|r rs].
  - cbn [cancel_all]. rewrite run_seq. cbn [run]. unfold dropped, pop_all. cbn [fold_left omap list_omap map fst snd].
    rewrite app_nil_r. replace (filter _ (os_resources s)) with (os_resources s); [by destruct s|].
    symmetry. apply list_filter_all. by intros ? _ ?%not_elem_of_nil.
  - rewrite pop_observations_eq by done. destruct (pop_all (r :: rs) s) as [s1 obs] eqn:Hpop. rewrite run_seq, run_cancel_all. cbn [run].
    unfold dropped. rewrite Hpop. cbn [fst snd os_objs os_resources os_calls set_resources].
    unfold pop_all in Hpop. injection Hpop as <- _. done.
Qed.
Lemma cleaned s : observed s -> cleanObservedResourcesLocked Cancel s = dropped (os_resources s) [] s.
Proof.
  intros Hob. unfold cleanObservedResourcesLocked, dropped. rewrite pop_observations_eq by by apply resources_NoDup. destruct (pop_all (os_resources s) s) as [s1 obs] eqn:Hp.
  unfold pop_all in Hp. injection Hp as <- _. cbn [fst snd os_objs set_objs].
  assert (Hc : forall l s, fold_left (fun s obs => cancel Cancel obs s) l s
    = MkOState (os_objs s) (os_resources s) (os_calls s ++ cancels (os_calls s) l)).
  { clear. intros l. induction l as [|n l IH]; intros s; cbn [fold_left cancels]; [rewrite app_nil_r; by destruct s|].
    rewrite IH. cbn [cancel called os_objs os_resources os_calls]. by rewrite <- app_assoc. }
  by rewrite Hc.
Qed.

(** ** One operation after the other

    [cancels]: whether observations are cancelled along the way.  A single resource
    is added to an observer that has none: that of a whole device. *)
Inductive observer_step (cancels : bool) (s s' : OState) : Prop :=
  | step_add resources errs : run (addResources Observe Get deviceID resources) s = Some (s', errs) -> observer_step cancels s s'
  | step_first res iface etags err :
      os_resources s = [] -> run (addResource Observe Get deviceID res iface etags) s = Some (s', err) ->
      observer_step cancels s s'
  | step_synced href u : run (resourceHasBeenSynchronized deviceID href) s = Some (s', u) -> observer_step cancels s s'
  | step_cancel hrefs u : cancels = true -> NoDup hrefs -> run (cancelResourcesObservations Cancel hrefs) s = Some (s', u) ->
      observer_step cancels s s'
  | step_clean u : cancels = true -> run (CleanObservedResources Cancel) s = Some (s', u) -> observer_step cancels s s'.
Definition reachable (cancels : bool) (s : OState) : Prop := rtc (observer_step cancels) newResourcesObserver s.

Lemma isSynchronizedLocked_spec s : observed s ->
  isSynchronizedLocked s = true <-> forall r, r ∈ os_resources s -> synced s r = Some true.
Proof.
  intros Hob. unfold isSynchronizedLocked. rewrite forallb_forall. split; intros Hall r Hr.
  - pose proof (ob_objs s Hob r Hr) as Hlt. apply lookup_lt_is_Some in Hlt as [o Ho].
    specialize (Hall r ltac:(by apply list_elem_of_In)). unfold synced. rewrite Ho in Hall |- *. cbn. by rewrite Hall.
  - apply list_elem_of_In in Hr. specialize (Hall r Hr). unfold synced in Hall.
    destruct (os_objs s !! r); [|done]. cbn in Hall. congruence.
Qed.

(** What the twin synchronization of the device says. *)
Definition twin_ok (cancels : bool) (s : OState) : Prop :=
  match last (twin_states (os_calls s)) with
  | None => os_resources s = []
  | Some TwinSynchronization_IN_SYNC => isSynchronizedLocked s = true
  | Some TwinSynchronization_SYNCING => cancels = true \/ isSynchronizedLocked s = false
  | Some _ => False
  end.
Lemma twin_ok_notified cancels s t : (if isSynchronizedLocked s then t = TwinSynchronization_IN_SYNC else False) ->
  twin_ok cancels (notify deviceID t s).
Proof.
  unfold twin_ok. intros Ht. destruct (isSynchronizedLocked s) eqn:Hs; [subst t|done].
  unfold twin_states. cbn [os_calls notify called]. by rewrite omap_snoc, last_snoc.
Qed.
Lemma twin_ok_working cancels s s1 :
  twin_states (os_calls s1) = twin_states (os_calls s) ++ [TwinSynchronization_SYNCING] ->
  isSynchronizedLocked s1 = false -> twin_ok cancels s1.
Proof. intros Ht Hs. unfold twin_ok. rewrite Ht, last_snoc. by right. Qed.
Lemma not_synchronized s r : observed s -> r ∈ os_resources s -> synced s r = Some false -> isSynchronizedLocked s = false.
Proof. intros Hob Hr Hs. apply not_true_iff_false. rewrite isSynchronizedLocked_spec by done. intros Hall. by rewrite (Hall r Hr) in Hs. Qed.

Lemma fst_untagged (rs : list nat) : (map (fun r => (r, [] : list (list byte))) rs).*1 = rs.
Proof. induction rs as [|r rs IH]; [done|]. cbn [map fmap list_fmap fst]. f_equal. exact IH. Qed.
Lemma step_add_ok cancels s s' resources errs : observed s -> twin_ok cancels s ->
  run (addResources Observe Get deviceID resources) s = Some (s', errs) -> observed s' /\ twin_ok cancels s'.
Proof.
  intros Hob Htw. unfold addResources. rewrite run_seq, run_act. unfold addResources_locked. intros Hrun.
  destruct (addResourcesLocked _ resources s) as [s1 [rs errs1]] eqn:Ha.
  destruct (addResourcesLocked_spec resources s s1 rs errs1 Hob Ha)
    as (Hob1 & _ & _ & _ & _ & [Hnd Hfr] & Hge & Hnil).
  destruct rs as [|r0 rs]; [specialize (Hnil eq_refl) as ->; cbn in Hrun; by injection Hrun as <- _|].
  destruct (notify_spec TwinSynchronization_SYNCING s1 Hob1) as (Hob2 & Hsy2 & Hres2 & Htw2).
  fold (notifyAboutStartTwinSynchronization deviceID s1) in *.
  set (s2 := notifyAboutStartTwinSynchronization deviceID s1) in *.
  destruct (performObservationLocked _ _ _ _ s2) as [s3 errs2] eqn:Hp.
  destruct (performObservationLocked_spec (map (fun r => (r, [])) (r0 :: rs)) s2 s3 errs2 Hob2) as (Hob3 & [_ Hsy3 Htw3] & Hsub3 & Hsame); [|exact Hp|].
  { rewrite fst_untagged. by split. }
  rewrite Htw2 in Htw3. destruct errs2 as [|e errs2]; cbn [fst snd] in Hrun.
  - cbn [run] in Hrun. injection Hrun as <- _. split; [done|]. apply (twin_ok_working _ s1); [done|]. apply (not_synchronized _ r0 Hob3).
    + rewrite Hsame, Hres2 by done. by apply Hfr; left.
    + rewrite Hsy3, Hsy2. by apply Hge; left.
  - destruct (isSynchronizedLocked s3) eqn:Hsync.
    + rewrite run_seq, run_act in Hrun. cbn [run] in Hrun. injection Hrun as <- _.
      split; [by apply notify_spec|]. apply twin_ok_notified. by rewrite Hsync.
    + cbn [run] in Hrun. injection Hrun as <- _. split; [done|]. by apply (twin_ok_working _ s1).
Qed.

Lemma remove1_empty h s : os_resources s = [] -> remove1 h s = s.
Proof. intros Hr. destruct s as [objs l calls]. cbn in Hr. subst l. reflexivity. Qed.
Lemma step_first_ok cancels s s' res iface etags err : observed s -> twin_ok cancels s -> os_resources s = [] ->
  run (addResource Observe Get deviceID res iface etags) s = Some (s', err) -> observed s' /\ twin_ok cancels s'.
Proof.
  intros Hob Htw Hempty. unfold addResource. rewrite run_act. intros [= Hrun].
  destruct (addResourceLocked _ res iface s) as [s1 added] eqn:Ha.
  pose proof (addResourceLocked_spec res iface s s1 added Hob Ha) as Hspec.
  destruct added as [e|[r|]]; [by injection Hrun as <- _; subst| |by injection Hrun as <- _; subst].
  destruct Hspec as (Hob1 & _ & _ & _ & Hel & Hn & Hsy & _).
  destruct (notify_spec TwinSynchronization_SYNCING s1 Hob1) as (Hob2 & Hsy2 & Hres2 & Htw2).
  fold (notifyAboutStartTwinSynchronization deviceID s1) in *.
  set (s2 := notifyAboutStartTwinSynchronization deviceID s1) in *.
  assert (Hr2 : r ∈ os_resources s2) by (rewrite Hres2; apply Hel; by left).
  cbn [performObservationLocked] in Hrun. destruct (handleResource _ _ _ r etags s2) as [s3 e] eqn:Hh.
  destruct (handleResource_spec r etags s2 s3 e Hob2 Hr2 Hn Hh) as (Hob3 & [_ Hsy3 Htw3] & Hres3 & _ & Hn3).
  rewrite Htw2 in Htw3. assert (Hr3 : r ∈ os_resources s3) by (by rewrite Hres3). destruct e as [e|].
  - destruct (remove1_spec s3 r Hob3 Hr3 (Hn3 ltac:(done))) as (Hob4 & _ & _ & Hel4).
    assert (He4 : os_resources (remove1 (href_of s3 r) s3) = []).
    { apply elem_of_nil_inv. intros r' [Hr' Hne]%Hel4. rewrite Hres3, Hres2, Hel, Hempty in Hr'.
      destruct Hr' as [|?%not_elem_of_nil]; done. }
    rewrite (remove1_empty _ (remove1 (href_of s3 r) s3)) in Hrun by done. injection Hrun as <- _.
    split; [by apply notify_spec|]. apply twin_ok_notified. unfold isSynchronizedLocked. by rewrite He4.
  - injection Hrun as <- _. split; [done|]. apply (twin_ok_working _ s1); [done|].
    apply (not_synchronized _ r Hob3 Hr3). by rewrite Hsy3, Hsy2.
Qed.

Lemma step_synced_ok cancels s s' href u : observed s -> twin_ok cancels s ->
  run (resourceHasBeenSynchronized deviceID href) s = Some (s', u) -> observed s' /\ twin_ok cancels s'.
Proof.
  intros Hob Htw. unfold resourceHasBeenSynchronized. rewrite run_seq, run_act. unfold setSynchronizedAtResource.
  pose proof (found_spec (href_of s) (os_resources s) href (ob_sorted s Hob)) as Hf.
  destruct (found _ _ href) as [r|]; [|by intros [= <- _]]. destruct Hf as [Hr _].
  destruct (os_objs s !! r) as [o|] eqn:Ho; [|by intros [= <- _]].
  destruct (or_synced o) eqn:Hso; [by intros [= <- _]|].
  set (s1 := set_objs (alter set_synced r (os_objs s)) s). assert (Hob1 : observed s1) by by apply observed_synced.
  assert (Huns : isSynchronizedLocked s = false).
  { apply (not_synchronized s r); [done..|]. unfold synced. rewrite Ho. cbn. by rewrite Hso. }
  cbn [fst snd]. destruct (isSynchronizedLocked s1) eqn:Hs1.
  - rewrite run_act. intros [= <- _]. split; [by apply notify_spec|]. apply twin_ok_notified. by rewrite Hs1.
  - intros [= <- _]. split; [done|]. unfold twin_ok in *. change (os_calls s1) with (os_calls s).
    change (os_resources s1) with (os_resources s). destruct (last (twin_states (os_calls s))) as [[]|]; try done; try congruence.
Qed.

Lemma dropped_ok s rs l : observed s -> twin_ok true s -> (forall r, r ∈ rs -> r ∈ os_resources s) -> NoDup rs ->
  l = filter (fun r => r ∉ rs) (os_resources s) -> observed (dropped rs l s) /\ twin_ok true (dropped rs l s).
Proof.
  intros Hob Htw Hrs Hnd Hl. pose proof (observed_dropped rs l s Hob Hrs Hnd Hl) as Hob'. split; [done|].
  assert (Ht : twin_states (os_calls (dropped rs l s)) = twin_states (os_calls s)).
  { unfold twin_states, dropped. cbn [os_calls]. rewrite omap_app.
    fold (twin_states (cancels (os_calls s) (pop_all rs s).2)). by rewrite twin_cancels, app_nil_r. }
  unfold twin_ok in *. rewrite Ht. destruct (last (twin_states (os_calls s))) as [[]|]; try done; [by left| |].
  - apply isSynchronizedLocked_spec; [done|]. intros r Hr. cbn [os_resources dropped] in Hr. subst l.
    apply list_elem_of_filter in Hr as [Hnr Hr]. pose proof (proj1 (isSynchronizedLocked_spec s Hob) Htw r Hr) as Hsy.
    unfold synced in *. cbn [os_objs dropped pop_all set_objs fst]. rewrite pop_lookup. by rewrite decide_False.
  - cbn [os_resources dropped]. by rewrite Hl, Htw.
Qed.

Lemma observer_step_ok cancels s s' : observed s -> twin_ok cancels s -> observer_step cancels s s' ->
  observed s' /\ twin_ok cancels s'.
Proof.
  intros Hob Htw [resources errs Hr|res iface etags err He Hr|href u Hr|hrefs u -> Hnd Hr|u -> Hr].
  - by eapply step_add_ok.
  - by eapply step_first_ok.
  - by eapply step_synced_ok.
  - destruct (run_cancelResourcesObservations hrefs s Hob Hnd) as (rs & l & Hrun & Hl & Hndr & Hel).
    rewrite Hrun in Hr. injection Hr as <- _. apply dropped_ok; [done..| |done|done]. by intros r [? _]%Hel.
  - unfold CleanObservedResources in Hr. rewrite run_act in Hr. injection Hr as <- _. rewrite cleaned by done.
    apply dropped_ok; [done..|by apply resources_NoDup|]. symmetry. apply elem_of_nil_inv. intros r [Hn Hr]%list_elem_of_filter. done.
Qed.
Lemma observer_reachable_ok cancels s : reachable cancels s -> observed s /\ twin_ok cancels s.
Proof.
  intros Hr. enough (Hall : forall s1 s2, rtc (observer_step cancels) s1 s2 -> observed s1 /\ twin_ok cancels s1 ->
    observed s2 /\ twin_ok cancels s2).
  { eapply Hall; [exact Hr|]. split; [|done]. split; cbn; try done; try (by intros ? ?%not_elem_of_nil).
    - constructor.
    - constructor.
    - by intros n [?%not_elem_of_nil|?%not_elem_of_nil]. }
  intros s1 s2 Hs. induction Hs as [|s1 s2 s3 Hst Hs IH]; [done|]. intros [Hob Htw]. apply IH.
  by eapply observer_step_ok.
Qed.

(** C12: One operation after another, with different hrefs in each that cancels (the aggregate
    reports no href twice; [removed_twice_leaks] is what happens otherwise), and whatever calls of
    the device fail: the resources are sorted by href; an observation that was made is that of
    exactly one of the resources, or the device was asked once to cancel it; so those that the
    device may still have open are those of the resources, and those it failed to cancel. *)
Theorem no_observation_leaks s : reachable true s ->
  ascending (href_of s <$> os_resources s) /\
  (forall n, n ∈ opened (os_calls s) /\ n ∉ cancelled (os_calls s) <->
     exists r, r ∈ os_resources s /\ holds s r = Some n) /\
  (forall r r' n, holds s r = Some n -> holds s r' = Some n -> r = r') /\
  NoDup (cancelled (os_calls s)) /\
  (forall n, n ∈ opened (os_calls s) -> n ∉ ended (os_calls s) ->
     (exists r, r ∈ os_resources s /\ holds s r = Some n) \/ exists err, CallCancel n (Some err) ∈ os_calls s).
Proof.
  intros [[Hb Hs Hh Hop H1 Hcn Hf] _]%observer_reachable_ok.
  assert (Hheld : forall n, n ∈ opened (os_calls s) /\ n ∉ cancelled (os_calls s) <->
    exists r, r ∈ os_resources s /\ holds s r = Some n).
  { intros n. split.
    - intros [Hn Hc]. destruct (Hop n Hn Hc) as [r Hr]. exists r. split; [by apply (Hh r n)|done].
    - intros (r & _ & Hr). by apply (Hh r n). }
  split_and!; [done..|]. intros n Hn He. destruct (decide (n ∈ cancelled (os_calls s))) as [Hc|Hc]; [right|left; by apply Hheld].
  unfold cancelled in Hc. apply list_elem_of_omap in Hc as (c & Hin & Hc). destruct c as [| |m err|]; try done.
  injection Hc as ->. destruct err as [err|]; [by exists err|]. destruct He. apply list_elem_of_omap. by exists (CallCancel n None).
Qed.

(** C13: The device is told to be synchronized only when all its resources are; as long as nothing
    is cancelled it is told so as soon as they are, and while it is told to be
    synchronizing some resource is not synchronized. *)
Theorem twin_follows cancels s : reachable cancels s ->
  match last (twin_states (os_calls s)) with
  | None => os_resources s = []
  | Some TwinSynchronization_IN_SYNC => forall r, r ∈ os_resources s -> synced s r = Some true
  | Some TwinSynchronization_SYNCING =>
      cancels = true \/ exists r, r ∈ os_resources s /\ synced s r <> Some true
  | Some _ => False
  end.
Proof.
  intros [Hob Htw]%observer_reachable_ok. unfold twin_ok in Htw.
  destruct (last (twin_states (os_calls s))) as [[]|]; try done.
  - destruct Htw as [|Hn]; [by left|right]. unfold isSynchronizedLocked in Hn.
    destruct (decide (Exists (fun r => synced s r <> Some true) (os_resources s))) as [He|He].
    + apply Exists_exists in He. done.
    + apply not_Exists_Forall in He; [|apply _]. apply not_true_iff_false in Hn. exfalso. apply Hn.
      apply isSynchronizedLocked_spec; [done|]. intros r Hr. rewrite Forall_forall in He. specialize (He r Hr).
      by apply dec_stable in He.
  - by apply isSynchronizedLocked_spec.
Qed.
End operations.

(** ** The published resources that the device does not have *)
Section clean_up.
Context `{!CoapLib, !SchemaLib, !LinksLib, !LinksLibLaws}.

Lemma skip_links_spec h links : StronglySorted (fun a b => String.le (sl_Href a) (sl_Href b)) links ->
  exists skipped, links = skipped ++ skip_links h links /\ (forall l, l ∈ skipped -> str_lt (sl_Href l) h = true) /\
    (forall l, l ∈ skip_links h links -> str_lt (sl_Href l) h = false).
Proof.
  induction links as [|l links IH]; intros Hs; cbn [skip_links].
  { exists []. split_and!; [done|by intros ? ?%not_elem_of_nil..]. }
  apply StronglySorted_cons in Hs as [Hl Hs]. destruct (str_lt (sl_Href l) h) eqn:Hlt.
  - destruct (IH Hs) as (sk & He & Hsk & Hrest). exists (l :: sk). split; [by rewrite He at 1|]. split; [|done].
    intros l' [-> |Hl']%elem_of_cons; [done|by apply Hsk].
  - exists []. split_and!; [done|by intros ? ?%not_elem_of_nil|]. intros l' [-> |Hl']%elem_of_cons; [done|].
    apply str_lt_false. apply str_lt_false in Hlt. rewrite Forall_forall in Hl. etrans; [exact Hlt|by apply Hl].
Qed.

(** [P]: the device has the resource. *)
Definition sorted_out (has : string -> Prop) (published : list Resource) (st : list Resource * list Z) : Prop :=
  (forall r, r ∈ st.1 -> r ∈ published /\ has (res_Href r)) /\
  (forall i, i ∈ st.2 -> exists r, r ∈ published /\ ~ has (res_Href r) /\ i = GetInstanceID (res_Href r)).

Lemma diff_loop_sorted_out (all : list schema_ResourceLink) published0 published skipped links valid ids :
  all = skipped ++ links -> StronglySorted (fun a b => String.le (sl_Href a) (sl_Href b)) links ->
  StronglySorted (fun a b => String.le (res_Href a) (res_Href b)) published ->
  (forall l r, l ∈ skipped -> r ∈ published -> str_lt (sl_Href l) (res_Href r) = true) ->
  (forall r, r ∈ published -> r ∈ published0) ->
  sorted_out (fun h => h ∈ sl_Href <$> all) published0 (valid, ids) ->
  sorted_out (fun h => h ∈ sl_Href <$> all) published0 (diff_loop published links valid ids).
Proof.
  revert skipped links valid ids. induction published as [|r published IH]; intros skipped links valid ids Hall Hl Hp Hsk Hin Hst;
    cbn [diff_loop]; [done|]. apply StronglySorted_cons in Hp as [Hr Hp]. rewrite Forall_forall in Hr.
  destruct (skip_links_spec (res_Href r) links Hl) as (sk & He & Hlt & Hge).
  destruct (skip_links (res_Href r) links) as [|l rest] eqn:Hsl; [done|].
  assert (Hall' : all = (skipped ++ sk) ++ l :: rest) by (by rewrite <- app_assoc, <- He).
  assert (Hl' : StronglySorted (fun a b => String.le (sl_Href a) (sl_Href b)) (l :: rest)).
  { rewrite He in Hl. by apply StronglySorted_app in Hl as (_ & _ & Hl). }
  assert (Hbelow : forall l' , l' ∈ skipped ++ sk -> str_lt (sl_Href l') (res_Href r) = true).
  { intros l' [Hl1|Hl1]%elem_of_app; [by apply Hsk; [|left]|by apply Hlt]. }
  assert (Hsk' : forall l' r', l' ∈ skipped ++ sk -> r' ∈ published -> str_lt (sl_Href l') (res_Href r') = true).
  { intros l' r' Hl1 Hr'. apply Hbelow in Hl1. specialize (Hr r' Hr'). apply str_lt_ne in Hl1 as [Hla Hlb].
    apply str_lt_ne. split; [by etrans|]. intros He'. apply Hlb. apply (anti_symm String.le); [done|]. by rewrite He'. }
  destruct Hst as [Hv Hi]. destruct (String.eqb_spec (sl_Href l) (res_Href r)) as [Heq|Hne].
  - eapply IH; [exact Hall'|done|done|done|intros r' Hr'; apply Hin; by right|]. split; [|done].
    intros r' [Hr'|Hr']%elem_of_app; [by apply Hv|]. apply list_elem_of_singleton in Hr' as ->.
    split; [apply Hin; by left|]. rewrite <- Heq. apply list_elem_of_fmap_2. rewrite Hall'. apply elem_of_app. right. by left.
  - eapply IH; [exact Hall'|done|done|done|intros r' Hr'; apply Hin; by right|]. split; [done|].
    intros i [Hi'|Hi']%elem_of_app; [by apply Hi|]. apply list_elem_of_singleton in Hi' as ->. exists r.
    split; [apply Hin; by left|]. split; [|done]. intros (l' & Hh & Hl1)%list_elem_of_fmap. rewrite Hall' in Hl1.
    apply elem_of_app in Hl1 as [Hl1|Hl1].
    + apply Hbelow in Hl1. rewrite Hh, str_lt_irrefl in Hl1. done.
    + assert (Hle : String.le (sl_Href l) (sl_Href l')).
      { apply StronglySorted_cons in Hl' as [Hf _]. rewrite Forall_forall in Hf.
        apply elem_of_cons in Hl1 as [-> |Hl1]; [done|by apply Hf]. }
      apply Hne. apply (anti_symm String.le); [by rewrite Hh|]. apply str_lt_false. apply Hge. by left.
Qed.

Lemma clean_steps links published0 published st :
  (forall r, r ∈ published -> r ∈ published0) ->
  sorted_out (fun h => h ∈ sl_Href <$> links) published0 st ->
  let st' := fold_left (clean_step links) published st in
  sorted_out (fun h => h ∈ sl_Href <$> links) published0 st' /\
  (forall r, r ∈ published -> res_Href r ∈ sl_Href <$> links -> r ∈ st'.1) /\
  (forall r, r ∈ published -> res_Href r ∉ sl_Href <$> links -> GetInstanceID (res_Href r) ∈ st'.2) /\
  (forall r, r ∈ st.1 -> r ∈ st'.1) /\ (forall i, i ∈ st.2 -> i ∈ st'.2).
Proof.
  cbv zeta. revert st. induction published as [|r published IH]; intros st Hin Hst; cbn [fold_left].
  { split_and!; try done; by intros ? ?%not_elem_of_nil. }
  assert (Hst1 : sorted_out (fun h => h ∈ sl_Href <$> links) published0 (clean_step links st r)).
  { destruct Hst as [Hv Hi]. unfold clean_step. case_bool_decide as Hg; rewrite GetResourceLink_some in Hg; split; try done; cbn.
    - intros r' [Hr'|Hr']%elem_of_app; [by apply Hv|]. apply list_elem_of_singleton in Hr' as ->. split; [apply Hin; by left|done].
    - intros i [Hi'|Hi']%elem_of_app; [by apply Hi|]. apply list_elem_of_singleton in Hi' as ->. exists r.
      split; [apply Hin; by left|done]. }
  destruct (IH (clean_step links st r)) as (Hso & Hv & Hi & Hkv & Hki); [intros r' Hr'; apply Hin; by right|done|].
  assert (Hkeep : (forall r', r' ∈ st.1 -> r' ∈ (clean_step links st r).1) /\ (forall i, i ∈ st.2 -> i ∈ (clean_step links st r).2)).
  { unfold clean_step. case_bool_decide; split; cbn; set_solver. }
  destruct Hkeep as [Hkv1 Hki1]. split_and!; [done| | |auto|auto].
  - intros r' [-> |Hr']%elem_of_cons Hh; [|by apply Hv]. apply Hkv. unfold clean_step.
    rewrite bool_decide_eq_true_2 by (by apply GetResourceLink_some). cbn. set_solver.
  - intros r' [-> |Hr']%elem_of_cons Hh; [|by apply Hi]. apply Hki. unfold clean_step.
    rewrite bool_decide_eq_false_2 by (by rewrite GetResourceLink_some). cbn. set_solver.
Qed.

(** When the device answers with links, the published resources that are kept are those that
    the device has, and the others are unpublished, by the identifiers of their hrefs; nothing
    is asked for when there are none. *)
Theorem cleanUpPublishedResources_exact ra deviceID connectionID sequence published links :
  published <> [] -> links <> [] ->
  exists valid ids,
    (forall r, r ∈ valid <-> r ∈ published /\ res_Href r ∈ sl_Href <$> links) /\
    (forall i, i ∈ ids <-> exists r, r ∈ published /\ res_Href r ∉ sl_Href <$> links /\ i = GetInstanceID (res_Href r)) /\
    let req := MkUnpublishResourceLinksRequest [] deviceID (Some (NewCommandMetadata sequence connectionID)) ids in
    cleanUpPublishedResources ra deviceID connectionID sequence published links =
    if bool_decide (ids = []) then (None, inr valid)
    else (Some req, match ra req with Some err => inl err | None => inr valid end).
Proof.
  intros Hp Hl. set (all := links_Sort links). set (pub := resources_Sort published).
  assert (Hhas : forall h, h ∈ sl_Href <$> all <-> h ∈ sl_Href <$> links).
  { intros h. unfold all. by rewrite (links_Sort_perm links). }
  assert (Hpub : forall r, r ∈ pub <-> r ∈ published) by (intros r; unfold pub; by rewrite resources_Sort_perm).
  assert (Hd : sorted_out (fun h => h ∈ sl_Href <$> all) pub (diffResources published links)).
  { apply (diff_loop_sorted_out all pub pub []); [done|apply links_Sort_sorted|apply resources_Sort_sorted|
      by intros ? ? ?%not_elem_of_nil|done|]. split; cbn; by intros ? ?%not_elem_of_nil. }
  destruct (clean_steps all pub pub _ ltac:(done) Hd) as ([Hv Hi] & Hv' & Hi' & _).
  destruct (fold_left (clean_step all) pub (diffResources published links)) as [valid ids] eqn:Hf. cbn [fst snd] in *.
  exists valid, ids. split_and!.
  - intros r. rewrite <- Hpub, <- Hhas. split; [apply Hv|]. intros [Hr Hh]. by apply Hv'.
  - intros i. split.
    + intros (r & Hr & Hn & ->)%Hi. exists r. by rewrite <- Hpub, <- Hhas.
    + intros (r & Hr & Hn & ->). apply Hi'; [by apply Hpub|]. by rewrite Hhas.
  - unfold cleanUpPublishedResources. destruct published as [|r published]; [done|]. destruct links as [|l links]; [done|].
    cbn [length Nat.eqb]. fold all pub. rewrite Hf. destruct ids as [|i ids]; [done|].
    by rewrite bool_decide_eq_false_2.
Qed.
End clean_up.
