(* ===== verification/SubscriptionsCache.v ===== *)
(** * The cache of subscriptions

    src/grpc-gateway/subscription/subscriptionsCache.go: the conversion of the
    messages of the event bus, the subjects with their senders, and the cache
    that shares one NATS subscription between all handlers of a subject.
    Unmarshalling is the class [Unmarshaler] of EventStore.v; the table of
    handlers is that of HandlerTable.v.  The steps of [cache_step] are the
    critical sections of the code, so that its traces are the interleavings of
    concurrent calls. *)

From Stdlib Require Import ZArith Lia String.
From S2P Require Import Prelude Commands Events EventStore IdentityStore Subjects Subscription.
From S2P Require Import HandlerTable.

(** ** Messages *)
(** pb.Event of src/resource-aggregate/cqrs/eventbus/pb. *)
Record EventbusEvent (D : Type) := MkEventbusEvent {
  ebe_EventType : string; ebe_Data : D; ebe_Version : Z; ebe_GroupId : string;
  ebe_AggregateId : string }.
Arguments MkEventbusEvent {D}.
Arguments ebe_EventType {D}.
Arguments ebe_Data {D}.

Record Msg (D : Type) := MkMsg { msg_Subject : string; msg_Data : D }.
Arguments MkMsg {D}.
Arguments msg_Subject {D}.
Arguments msg_Data {D}.

Definition registrationEventToGrpcEvent (e : IsEvent) : option (PbEvent * FilterBitmask) :=
  match GetDevicesRegistered e with
  | Some r =>
      Some (MkPbEvent "" "" (Some (Event_DeviceRegistered_
        {| pbr_DeviceIds := dr_DeviceIds r; pbr_OpenTelemetryCarrier := dr_OpenTelemetryCarrier r;
           pbr_EventMetadata := dr_EventMetadata r |})), FilterBitmaskDeviceRegistered)
  | None =>
  match GetDevicesUnregistered e with
  | Some u =>
      Some (MkPbEvent "" "" (Some (Event_DeviceUnregistered_
        {| pbr_DeviceIds := du_DeviceIds u; pbr_OpenTelemetryCarrier := du_OpenTelemetryCarrier u;
           pbr_EventMetadata := du_EventMetadata u |})), FilterBitmaskDeviceUnregistered)
  | None => None
  end end.

Definition errorUnmarshalEventFmt : string := "failed to unmarshal event %v: %w".

Section conversions.
Context {D : Type} `{!Unmarshaler D ResourceLinksPublished, !Unmarshaler D ResourceLinksUnpublished}
  `{!Unmarshaler D ResourceChanged, !Unmarshaler D ResourceUpdatePending, !Unmarshaler D ResourceUpdated}
  `{!Unmarshaler D ResourceRetrievePending, !Unmarshaler D ResourceRetrieved}
  `{!Unmarshaler D ResourceDeletePending, !Unmarshaler D ResourceDeleted}
  `{!Unmarshaler D ResourceCreatePending, !Unmarshaler D ResourceCreated}
  `{!Unmarshaler D DeviceMetadataUpdatePending, !Unmarshaler D DeviceMetadataUpdated}.

(** What the conversion functions share: unmarshal the data as a [T], put it
    in the event, and answer with the bit of its type. *)
Definition conv (T : Type) `{!Unmarshaler D T} (type : T -> PbEvent_Type) (bit : FilterBitmask)
    (ev : EventbusEvent D) : result (PbEvent * FilterBitmask) :=
  match Unmarshal (T := T) (ebe_Data ev) with
  | inl err => inl (Wrap errorUnmarshalEventFmt err)
  | inr e => inr (MkPbEvent "" "" (Some (type e)), bit)
  end.

Definition convResourcesPublished : EventbusEvent D -> result (PbEvent * FilterBitmask) :=
  conv ResourceLinksPublished Event_ResourcePublished FilterBitmaskResourcesPublished.
Definition convResourcesUnpublished : EventbusEvent D -> result (PbEvent * FilterBitmask) :=
  conv ResourceLinksUnpublished Event_ResourceUnpublished FilterBitmaskResourcesUnpublished.
Definition convResourceChanged : EventbusEvent D -> result (PbEvent * FilterBitmask) :=
  conv ResourceChanged Event_ResourceChanged FilterBitmaskResourceChanged.
Definition convResourceUpdatePending : EventbusEvent D -> result (PbEvent * FilterBitmask) :=
  conv ResourceUpdatePending Event_ResourceUpdatePending FilterBitmaskResourceUpdatePending.
Definition convResourceUpdated : EventbusEvent D -> result (PbEvent * FilterBitmask) :=
  conv ResourceUpdated Event_ResourceUpdated FilterBitmaskResourceUpdated.
Definition convResourceRetrievePending : EventbusEvent D -> result (PbEvent * FilterBitmask) :=
  conv ResourceRetrievePending Event_ResourceRetrievePending FilterBitmaskResourceRetrievePending.
Definition convResourceRetrieved : EventbusEvent D -> result (PbEvent * FilterBitmask) :=
  conv ResourceRetrieved Event_ResourceRetrieved FilterBitmaskResourceRetrieved.
Definition convResourceDeletePending : EventbusEvent D -> result (PbEvent * FilterBitmask) :=
  conv ResourceDeletePending Event_ResourceDeletePending FilterBitmaskResourceDeletePending.
Definition convResourceDeleted : EventbusEvent D -> result (PbEvent * FilterBitmask) :=
  conv ResourceDeleted Event_ResourceDeleted FilterBitmaskResourceDeleted.
Definition convResourceCreatePending : EventbusEvent D -> result (PbEvent * FilterBitmask) :=
  conv ResourceCreatePending Event_ResourceCreatePending FilterBitmaskResourceCreatePending.
Definition convResourceCreated : EventbusEvent D -> result (PbEvent * FilterBitmask) :=
  conv ResourceCreated Event_ResourceCreated FilterBitmaskResourceCreated.
Definition convDeviceMetadataUpdatePending : EventbusEvent D -> result (PbEvent * FilterBitmask) :=
  conv DeviceMetadataUpdatePending Event_DeviceMetadataUpdatePending FilterBitmaskDeviceMetadataUpdatePending.
Definition convDeviceMetadataUpdated : EventbusEvent D -> result (PbEvent * FilterBitmask) :=
  conv DeviceMetadataUpdated Event_DeviceMetadataUpdated FilterBitmaskDeviceMetadataUpdated.

(** The map from event types to conversions. *)
Definition devicesEventToGrpcPb (type : string)
    : option (EventbusEvent D -> result (PbEvent * FilterBitmask)) :=
  if String.eqb type "resourcelinkspublished" then Some convResourcesPublished else
  if String.eqb type "resourcelinksunpublished" then Some convResourcesUnpublished else
  if String.eqb type "resourcechanged" then Some convResourceChanged else
  if String.eqb type "resourceupdatepending" then Some convResourceUpdatePending else
  if String.eqb type "resourceupdated" then Some convResourceUpdated else
  if String.eqb type "resourceretrievepending" then Some convResourceRetrievePending else
  if String.eqb type "resourceretrieved" then Some convResourceRetrieved else
  if String.eqb type "resourcedeletepending" then Some convResourceDeletePending else
  if String.eqb type "resourcedeleted" then Some convResourceDeleted else
  if String.eqb type "resourcecreatepending" then Some convResourceCreatePending else
  if String.eqb type "resourcecreated" then Some convResourceCreated else
  if String.eqb type "devicemetadataupdatepending" then Some convDeviceMetadataUpdatePending else
  if String.eqb type "devicemetadataupdated" then Some convDeviceMetadataUpdated else
  None.
End conversions.

(** ** A subject and its senders *)
Section subject.
Context {H : Type}.

Record eventSubject := MkEventSubject {
  es_senders : gmap Z H;
  es_subscription : option Z }.

Definition newEventSubject : eventSubject := MkEventSubject ∅ None.
Definition AddHandlerLocked (id : Z) (h : H) (d : eventSubject) : eventSubject * bool :=
  let '(senders, ok) := add_handler id h (es_senders d) in
  (MkEventSubject senders (es_subscription d), ok).
Definition RemoveHandlerLocked (v : Z) (d : eventSubject) : eventSubject * bool :=
  let senders := delete v (es_senders d) in
  (MkEventSubject senders (es_subscription d), bool_decide (senders = ∅)).
(** [answer] is what the connection answers to the subscription. *)
Definition subscribeLocked (answer : result Z) (d : eventSubject) : eventSubject * option error :=
  match es_subscription d with
  | None =>
      match answer with
      | inl err => (d, Some err)
      | inr sub => (MkEventSubject (es_senders d) (Some sub), None)
      end
  | Some _ => (d, None)
  end.

(** ** The cache *)
Record SubscriptionsCache := MkSubscriptionsCache {
  sc_subjects : gmap string eventSubject;
  sc_handlerID : Z }.
Definition NewSubscriptionsCache : SubscriptionsCache := MkSubscriptionsCache ∅ 0.

(** The critical section of Subscribe, on the subject that is loaded or
    created; [onEvent] is [None] for a nil handler.  Besides the cache, its
    result is the identifier that the close function will remove, and the
    error. *)
Definition Subscribe_locked (c : SubscriptionsCache) (subject : string) (onEvent : option H)
    (answer : result Z) : option (SubscriptionsCache * option Z * option error) :=
  let s := default newEventSubject (sc_subjects c !! subject) in
  let store s id := MkSubscriptionsCache (<[subject := s]> (sc_subjects c)) id in
  match onEvent with
  | Some h =>
      match alloc_handler (alloc_fuel (es_senders s)) (sc_handlerID c) h (es_senders s) with
      | None => None
      | Some (id, senders) =>
          let '(s, err) := subscribeLocked answer (MkEventSubject senders (es_subscription s)) in
          Some (store s id, Some id, err)
      end
  | None =>
      let '(s, err) := subscribeLocked answer s in
      Some (store s (sc_handlerID c), None, err)
  end.

(** The critical section of a close function: the cache, and the subscription
    that is to be cancelled. *)
Definition close_locked (c : SubscriptionsCache) (subject : string) (id : Z)
    : SubscriptionsCache * option Z :=
  match sc_subjects c !! subject with
  | None => (c, None)
  | Some s =>
      let '(s', empty) := RemoveHandlerLocked id s in
      if empty
      then (MkSubscriptionsCache (delete subject (sc_subjects c)) (sc_handlerID c), es_subscription s')
      else (MkSubscriptionsCache (<[subject := s']> (sc_subjects c)) (sc_handlerID c), None)
  end.

(** ** Interleavings

    The connection is seen as the set of its live subscriptions; [cs_pending]
    are those between the critical section of a close function and the call
    of Unsubscribe, and [cs_used] all that were ever handed out. *)
Record cache_state := MkCacheState {
  cs_cache : SubscriptionsCache;
  cs_live : gset Z;
  cs_pending : list Z;
  cs_used : gset Z }.

Inductive cache_step : cache_state -> cache_state -> Prop :=
  | step_subscribe st subject h answer c id err :
      (forall sub, answer = inr sub -> sub ∉ cs_used st) ->
      Subscribe_locked (cs_cache st) subject (Some h) answer = Some (c, id, err) ->
      let new := match es_subscription (default newEventSubject (sc_subjects (cs_cache st) !! subject)),
                   answer with
                 | None, inr sub => {[sub]} | _, _ => ∅ end in
      cache_step st (MkCacheState c (new ∪ cs_live st) (cs_pending st) (new ∪ cs_used st))
  | step_close st subject id c sub :
      close_locked (cs_cache st) subject id = (c, sub) ->
      cache_step st (MkCacheState c (cs_live st) (option_list sub ++ cs_pending st) (cs_used st))
  | step_unsubscribe st l k sub :
      cs_pending st = l ++ sub :: k ->
      cache_step st (MkCacheState (cs_cache st) (cs_live st ∖ {[sub]}) (l ++ k) (cs_used st)).

Definition cache_init : cache_state := MkCacheState NewSubscriptionsCache ∅ [] ∅.
Inductive cache_reachable : cache_state -> Prop :=
  | cache_reachable_init : cache_reachable cache_init
  | cache_reachable_step st st' :
      cache_reachable st -> cache_step st st' -> cache_reachable st'.
End subject.
Arguments eventSubject : clear implicits.
Arguments SubscriptionsCache : clear implicits.
Arguments cache_state : clear implicits.

(** ** Delivery of a message *)
Section delivery.
Context {D : Type} `{!Unmarshaler D ResourceLinksPublished, !Unmarshaler D ResourceLinksUnpublished}
  `{!Unmarshaler D ResourceChanged, !Unmarshaler D ResourceUpdatePending, !Unmarshaler D ResourceUpdated}
  `{!Unmarshaler D ResourceRetrievePending, !Unmarshaler D ResourceRetrieved}
  `{!Unmarshaler D ResourceDeletePending, !Unmarshaler D ResourceDeleted}
  `{!Unmarshaler D ResourceCreatePending, !Unmarshaler D ResourceCreated}
  `{!Unmarshaler D DeviceMetadataUpdatePending, !Unmarshaler D DeviceMetadataUpdated}
  `{!Unmarshaler D IsEvent, !Unmarshaler D (EventbusEvent D)}.

Abbreviation SendEventWithTypeFunc := (PbEvent -> FilterBitmask -> option error).

(** The errors of the senders, in their order; an empty list is no error. *)
Definition sendToSenders (ev : PbEvent) (bit : FilterBitmask) (senders : list SendEventWithTypeFunc)
    : list error :=
  omap (fun send => send ev bit) senders.

(** In an order that Go chooses. *)
Definition copySenders (order : gmap Z SendEventWithTypeFunc -> list SendEventWithTypeFunc)
    (d : eventSubject SendEventWithTypeFunc) : list SendEventWithTypeFunc :=
  order (es_senders d).

Definition handleRegistrationsEvent order (d : eventSubject SendEventWithTypeFunc) (msg : Msg D)
    : list error :=
  match Unmarshal (T := IsEvent) (msg_Data msg) with
  | inl err => [err]
  | inr e =>
      match registrationEventToGrpcEvent e with
      | None => [errors_New "unhandled registrations event type('%T')"]
      | Some (ev, bit) => sendToSenders ev bit (copySenders order d)
      end
  end.

Definition handleDevicesEvent order (d : eventSubject SendEventWithTypeFunc) (msg : Msg D)
    : list error :=
  match Unmarshal (T := EventbusEvent D) (msg_Data msg) with
  | inl err => [err]
  | inr e =>
      match devicesEventToGrpcPb (ebe_EventType e) with
      | None => [errors_New "unhandled event type('%v')"]
      | Some h =>
          match h e with
          | inl err => [err]
          | inr (ev, bit) => sendToSenders ev bit (copySenders order d)
          end
      end
  end.

(** strings.Contains *)
Fixpoint Contains_string (s sub : string) : bool :=
  String.prefix sub s ||
  match s with EmptyString => false | String _ s => Contains_string s sub end.

Definition handleEvent order (d : eventSubject SendEventWithTypeFunc) (msg : Msg D) : list error :=
  if Contains_string (msg_Subject msg) ("." +:+ Registrations) then
    handleRegistrationsEvent order d msg
  else if Contains_string (msg_Subject msg) ("." +:+ Devices) then
    handleDevicesEvent order d msg
  else [errors_New "cannot process event from unknown subject(%v)"].
End delivery.
