(* ===== verification/SubscriptionsCacheFacts.v ===== *)
(** * The cache of subscriptions: no subscription is lost or leaked

    The invariant of the cache over all interleavings of Subscribe, of the
    close functions and of the calls of Unsubscribe they end with. *)

From Stdlib Require Import ZArith Lia String.
From S2P Require Import Prelude Commands Events EventStore IdentityStore Subjects Subscription.
From S2P Require Import HandlerTable SubscriptionsCache.

Section cache.
Context {H : Type}.
Implicit Types (c : SubscriptionsCache H) (st : cache_state H) (subject : string) (sub : Z).

(** The subject that holds a subscription. *)
Definition holds_sub c subject sub : Prop :=
  exists s, sc_subjects c !! subject = Some s /\ es_subscription s = Some sub.

(** The subscriptions that are live are those of the subjects in the cache and
    those about to be cancelled, each once; a subject in the cache has a
    sender. *)
Record cache_inv st : Prop := {
  inv_live : forall sub, sub ∈ cs_live st <->
    (exists subject, holds_sub (cs_cache st) subject sub) \/ sub ∈ cs_pending st;
  inv_unique : forall subject subject' sub,
    holds_sub (cs_cache st) subject sub -> holds_sub (cs_cache st) subject' sub -> subject = subject';
  inv_pending : NoDup (cs_pending st);
  inv_apart : forall subject sub, holds_sub (cs_cache st) subject sub -> sub ∉ cs_pending st;
  inv_used : cs_live st ⊆ cs_used st;
  inv_senders : forall subject s, sc_subjects (cs_cache st) !! subject = Some s -> es_senders s <> ∅ }.

Lemma no_sub_at_first subject sub : ~ holds_sub NewSubscriptionsCache subject sub.
Proof. intros (s & Hs & _). cbn in Hs. by rewrite lookup_empty in Hs. Qed.

Lemma cache_inv_init : cache_inv cache_init.
Proof.
  split; cbn -[NewSubscriptionsCache].
  - intros sub. split; [set_solver|]. intros [(subject & Hs)|Hp]; [|set_solver].
    by apply no_sub_at_first in Hs.
  - intros subject subject' sub Hs. by apply no_sub_at_first in Hs.
  - constructor.
  - intros subject sub Hs. by apply no_sub_at_first in Hs.
  - done.
  - intros subject s Hs. cbn in Hs. by rewrite lookup_empty in Hs.
Qed.

Lemma holds_sub_insert c subject s n subject' sub :
  holds_sub (MkSubscriptionsCache (<[subject := s]> (sc_subjects c)) n) subject' sub <->
  (subject' = subject /\ es_subscription s = Some sub) \/
  (subject' <> subject /\ holds_sub c subject' sub).
Proof.
  unfold holds_sub. cbn. destruct (decide (subject' = subject)) as [->|Hne].
  - rewrite lookup_insert_eq. naive_solver.
  - rewrite lookup_insert_ne by done. naive_solver.
Qed.

Lemma holds_sub_delete c subject n subject' sub :
  holds_sub (MkSubscriptionsCache (delete subject (sc_subjects c)) n) subject' sub <->
  subject' <> subject /\ holds_sub c subject' sub.
Proof.
  unfold holds_sub. cbn. destruct (decide (subject' = subject)) as [->|Hne].
  - rewrite lookup_delete_eq. naive_solver.
  - rewrite lookup_delete_ne by done. naive_solver.
Qed.

Lemma elem_of_option_list {A} (x : A) o : x ∈ option_list o <-> o = Some x.
Proof. destruct o; cbn; rewrite ?list_elem_of_singleton, ?elem_of_nil; naive_solver. Qed.

(** What the critical section of Subscribe does to the subject. *)
Lemma Subscribe_locked_spec c subject h answer c' id err :
  Subscribe_locked c subject (Some h) answer = Some (c', id, err) ->
  exists n s, let old := default newEventSubject (sc_subjects c !! subject) in
    id = Some n /\ es_senders old !! n = None /\
    c' = MkSubscriptionsCache (<[subject := s]> (sc_subjects c)) n /\
    es_senders s = <[n := h]> (es_senders old) /\
    es_subscription s = match es_subscription old, answer with
                        | None, inr sub => Some sub | x, _ => x end /\
    err = match es_subscription old, answer with None, inl e => Some e | _, _ => None end.
Proof.
  unfold Subscribe_locked. set (old := default _ _).
  destruct (alloc_handler _ _ _ _) as [[n senders]|] eqn:E; [|done].
  apply alloc_handler_spec in E as (Hn & -> & _). unfold subscribeLocked.
  cbn [es_subscription es_senders].
  destruct (es_subscription old) as [x|] eqn:Ex, answer as [e|sub]; intros [= <- <- <-];
    exists n; eexists; split_and!; try done.
Qed.

(** Subscribe always finds an identifier. *)
Theorem Subscribe_locked_total c subject onEvent answer :
  (Z.of_nat (size (es_senders (default newEventSubject (sc_subjects c !! subject)))) < 2 ^ 64)%Z ->
  is_Some (Subscribe_locked c subject onEvent answer).
Proof.
  intros Hsize. unfold Subscribe_locked. destruct onEvent as [h|].
  - destruct (alloc_handler_total (sc_handlerID c) h
      (es_senders (default newEventSubject (sc_subjects c !! subject))) Hsize) as (id & -> & _).
    by destruct (subscribeLocked _ _).
  - by destruct (subscribeLocked _ _).
Qed.

Lemma cache_inv_subscribe st subject h answer c id err :
  cache_inv st ->
  (forall sub, answer = inr sub -> sub ∉ cs_used st) ->
  Subscribe_locked (cs_cache st) subject (Some h) answer = Some (c, id, err) ->
  let new := match es_subscription (default newEventSubject (sc_subjects (cs_cache st) !! subject)),
                   answer with
                 | None, inr sub => {[sub]} | _, _ => ∅ end in
  cache_inv (MkCacheState c (new ∪ cs_live st) (cs_pending st) (new ∪ cs_used st)).
Proof.
  intros [Hlive Huniq Hpend Hapart Hused Hsend] Hfresh Hs.
  apply Subscribe_locked_spec in Hs as (n & s & _ & _ & -> & Hsenders & Hsub & _). intros new.
  set (old := default newEventSubject (sc_subjects (cs_cache st) !! subject)) in *.
  assert (Hold : forall sub, es_subscription old = Some sub <-> holds_sub (cs_cache st) subject sub).
  { intros sub. unfold old, holds_sub. destruct (sc_subjects (cs_cache st) !! subject); cbn; naive_solver. }
  assert (Hnew : forall sub, es_subscription s = Some sub <->
    holds_sub (cs_cache st) subject sub \/ sub ∈ new).
  { intros sub. rewrite Hsub, <- Hold. unfold new.
    destruct (es_subscription old) as [x|], answer as [e|y]; set_solver. }
  assert (Hnotused : forall sub, sub ∈ new -> sub ∉ cs_used st).
  { intros sub. unfold new. destruct (es_subscription old), answer as [e|y]; set_solver. }
  assert (Hheld : forall subject' sub, holds_sub (cs_cache st) subject' sub -> sub ∈ cs_used st).
  { intros subject' sub Hh. apply Hused, Hlive. left. by exists subject'. }
  split; cbn [cs_cache cs_live cs_pending cs_used]; try done.
  - intros sub. rewrite elem_of_union, Hlive. setoid_rewrite holds_sub_insert.
    setoid_rewrite Hnew. split.
    + intros [Hn|[[subject' Hh]|Hp]]; [left; exists subject; naive_solver| |by right].
      left. exists subject'. destruct (decide (subject' = subject)) as [->|]; naive_solver.
    + naive_solver.
  - intros s1 s2 sub. rewrite !holds_sub_insert, !Hnew.
    intros [[-> [H1|H1]]|[Hn1 H1]] [[-> [H2|H2]]|[Hn2 H2]]; try done; try by eapply Huniq.
    + exfalso. apply (Hnotused sub H1). by eapply Hheld.
    + exfalso. apply (Hnotused sub H2). by eapply Hheld.
  - intros s1 sub. rewrite holds_sub_insert, Hnew. intros [[-> [H1|H1]]|[_ H1]]; [by eapply Hapart| |by eapply Hapart].
    intros Hp. apply (Hnotused sub H1). apply Hused, Hlive. by right.
  - set_solver.
  - intros s1 s'. destruct (decide (s1 = subject)) as [->|Hne].
    + cbn. rewrite lookup_insert_eq. intros [= <-]. rewrite Hsenders. apply insert_non_empty.
    + cbn. rewrite lookup_insert_ne by done. apply Hsend.
Qed.

Lemma cache_inv_close st subject id c closed :
  cache_inv st -> close_locked (cs_cache st) subject id = (c, closed) ->
  cache_inv (MkCacheState c (cs_live st) (option_list closed ++ cs_pending st) (cs_used st)).
Proof.
  intros Hinv. pose proof Hinv as [Hlive Huniq Hpend Hapart Hused Hsend]. unfold close_locked.
  destruct (sc_subjects (cs_cache st) !! subject) as [s|] eqn:Es.
  2: { intros [= <- <-]. by destruct st. }
  unfold RemoveHandlerLocked. cbn [es_subscription es_senders].
  assert (Hs : forall x, es_subscription s = Some x <-> holds_sub (cs_cache st) subject x).
  { intros x. unfold holds_sub. rewrite Es. naive_solver. }
  case_bool_decide as Hempty; intros [= <- <-].
  - split; cbn [cs_cache cs_live cs_pending cs_used]; try done.
    + intros x. rewrite Hlive, elem_of_app, elem_of_option_list, Hs.
      setoid_rewrite holds_sub_delete. split; [|naive_solver].
      intros [[subject' Hh]|Hp]; [|by right; right].
      destruct (decide (subject' = subject)) as [->|]; naive_solver.
    + intros s1 s2 x. rewrite !holds_sub_delete. intros [_ H1] [_ H2]. by eapply Huniq.
    + apply NoDup_app. split_and!; [by destruct (es_subscription s); repeat constructor; set_solver| |done].
      intros x. rewrite elem_of_option_list, Hs. apply Hapart.
    + intros s1 x. rewrite holds_sub_delete. intros [Hne Hh].
      rewrite not_elem_of_app, elem_of_option_list, Hs. split; [|by eapply Hapart].
      intros H2. apply Hne. by eapply Huniq.
    + intros s1 s'. cbn. rewrite lookup_delete_Some. intros [_ ?]. by eapply Hsend.
  - cbn [option_list app]. split; cbn [cs_cache cs_live cs_pending cs_used]; try done.
    + intros x. rewrite Hlive. setoid_rewrite holds_sub_insert. cbn [es_subscription]. setoid_rewrite Hs.
      split; [|naive_solver]. intros [[subject' Hh]|Hp]; [|by right]. left. exists subject'.
      destruct (decide (subject' = subject)) as [->|]; naive_solver.
    + intros s1 s2 x. rewrite !holds_sub_insert. cbn [es_subscription]. rewrite !Hs.
      intros [[-> H1]|[Hn1 H1]] [[-> H2]|[Hn2 H2]]; try done; by eapply Huniq.
    + intros s1 x. rewrite holds_sub_insert. cbn [es_subscription]. rewrite Hs.
      intros [[-> H1]|[_ H1]]; by eapply Hapart.
    + intros s1 s'. cbn. destruct (decide (s1 = subject)) as [->|Hne].
      * rewrite lookup_insert_eq. by intros [= <-].
      * rewrite lookup_insert_ne by done. apply Hsend.
Qed.

Lemma cache_inv_unsubscribe st l k sub :
  cache_inv st -> cs_pending st = l ++ sub :: k ->
  cache_inv (MkCacheState (cs_cache st) (cs_live st ∖ {[sub]}) (l ++ k) (cs_used st)).
Proof.
  intros [Hlive Huniq Hpend Hapart Hused Hsend] Hp. rewrite Hp in *.
  assert (Hsub : sub ∉ l ++ k).
  { apply NoDup_app in Hpend as (_ & H1 & H2). apply NoDup_cons in H2 as [H2 _].
    intros [Hx|Hx]%elem_of_app; [|done]. apply (H1 sub Hx). by left. }
  split; cbn [cs_cache cs_live cs_pending cs_used]; try done.
  - intros x. rewrite elem_of_difference, Hlive, elem_of_singleton, !elem_of_app, elem_of_cons.
    split; [naive_solver|]. intros [[subject Hh]|Hx].
    + split; [by left; exists subject|]. intros ->. apply (Hapart _ _ Hh).
      apply elem_of_app. right. by left.
    + split; [naive_solver|]. intros ->. apply Hsub. by apply elem_of_app.
  - apply NoDup_app in Hpend as (H1 & H2 & H3). apply NoDup_cons in H3 as [_ H3].
    apply NoDup_app. split_and!; [done| |done]. intros x Hx Hk. apply (H2 x Hx). by right.
  - intros subject x Hh Hx. apply (Hapart _ _ Hh). apply elem_of_app in Hx as [Hx|Hx];
      apply elem_of_app; [by left|right; by right].
  - set_solver.
Qed.

Lemma cache_inv_step st st' : cache_step st st' -> cache_inv st -> cache_inv st'.
Proof.
  destruct 1; intros IH;
    [by eapply cache_inv_subscribe|by eapply cache_inv_close|by eapply cache_inv_unsubscribe].
Qed.
Lemma cache_inv_reachable st : cache_reachable st -> cache_inv st.
Proof. induction 1 as [|st st' _ IH Hstep]; [apply cache_inv_init|by eapply cache_inv_step]. Qed.

(** In every interleaving the live subscriptions of the connection are those
    of the subjects in the cache and those about to be cancelled. *)
Theorem cache_reachable_inv st : cache_reachable st -> cache_inv st.
Proof. apply cache_inv_reachable. Qed.

(** C33: Nothing leaks: once no subject has a sender and no cancellation is on its
    way, no subscription is live. *)
Theorem no_subscription_leaks st :
  cache_reachable st -> cs_pending st = [] ->
  (forall subject s, sc_subjects (cs_cache st) !! subject = Some s -> es_senders s = ∅) ->
  sc_subjects (cs_cache st) = ∅ /\ cs_live st = ∅.
Proof.
  intros Hr Hp Hs. apply cache_inv_reachable in Hr as [Hlive _ _ _ _ Hsend].
  assert (Hempty : sc_subjects (cs_cache st) = ∅).
  { apply map_empty. intros subject. destruct (_ !! subject) as [s|] eqn:E; [|done].
    by destruct (Hsend _ _ E); eapply Hs. }
  split; [done|]. apply set_eq. intros sub. rewrite Hlive, Hp. unfold holds_sub.
  rewrite Hempty. setoid_rewrite lookup_empty. set_solver.
Qed.
End cache.
