(* ===== verification/SubscriptionSubjects.v ===== *)
(** * Subscriptions: the subjects hear every event that is asked for

    ConvertToSubjects turns a bitmask and filters into subjects.  For each
    event whose bit is set and that a filter covers, one of them matches the
    subject the publisher chooses for the event, with and without leading
    resource types; and the conversion of the message gives the bit back. *)

From Stdlib Require Import ZArith Lia Ascii String.
From S2P Require Import Prelude Commands Events EventStore IdentityStore SortedSlice Subjects.
From S2P Require Import Subscription SubscriptionFacts SubscriptionsCache.

(** The kind of a published event. *)
Definition event_kind (ev : AnyEvent) : option SubscribeEvent :=
  match ev with
  | EvResourceLinksPublished _ => Some RESOURCE_PUBLISHED
  | EvResourceLinksUnpublished _ => Some RESOURCE_UNPUBLISHED
  | EvResourceChanged _ => Some RESOURCE_CHANGED
  | EvResourceUpdatePending _ => Some RESOURCE_UPDATE_PENDING
  | EvResourceUpdated _ => Some RESOURCE_UPDATED
  | EvResourceRetrievePending _ => Some RESOURCE_RETRIEVE_PENDING
  | EvResourceRetrieved _ => Some RESOURCE_RETRIEVED
  | EvResourceDeletePending _ => Some RESOURCE_DELETE_PENDING
  | EvResourceDeleted _ => Some RESOURCE_DELETED
  | EvResourceCreatePending _ => Some RESOURCE_CREATE_PENDING
  | EvResourceCreated _ => Some RESOURCE_CREATED
  | EvDeviceMetadataUpdatePending _ => Some DEVICE_METADATA_UPDATE_PENDING
  | EvDeviceMetadataUpdated _ => Some DEVICE_METADATA_UPDATED
  | _ => None
  end.

(** ** The choice of templates *)
Lemma take_templates_acc l st x :
  x ∈ st.1 -> x ∈ (fold_left take_templates l st).1.
Proof.
  revert st. induction l as [|s l IH]; intros [ts m] Hx; [done|]. apply IH.
  unfold take_templates. case_match; [|done]. cbn in *. set_solver.
Qed.

Lemma take_templates_rest l st n :
  (0 <= n < 64)%Z -> Z.testbit st.2 n = true ->
  Z.testbit (fold_left take_templates l st).2 n = false ->
  exists s, s ∈ l /\ Z.testbit s.1 n = true /\
    forall x, x ∈ s.2 -> x ∈ (fold_left take_templates l st).1.
Proof.
  intros Hn. revert st. induction l as [|s l IH]; intros [ts m] Hm Hrest; cbn [fold_left] in *.
  { cbn in *. congruence. }
  destruct (Z.testbit (take_templates (ts, m) s).2 n) eqn:E.
  - destruct (IH _ E Hrest) as (s' & Hs' & Hb & Hx). exists s'. split_and!; [by right|done|done].
  - exists s. unfold take_templates in *. destruct (Z.land s.1 m =? s.1)%Z eqn:Ec; cbn in *; [|congruence].
    split_and!; [by left| |].
    + rewrite Z.land_spec, Hm in E. cbn in E. unfold u64 in E.
      rewrite Z.mod_pow2_bits_low in E by lia. rewrite Z.lnot_spec in E by lia.
      by destruct (Z.testbit s.1 n).
    + intros x Hx. apply take_templates_acc. cbn. set_solver.
Qed.

(** A bit that has an entry of its own is gone after the loop. *)
Lemma take_templates_single l st n :
  (0 <= n < 64)%Z -> (exists t, (Z.shiftl 1 n, t) ∈ l) ->
  Z.testbit (fold_left take_templates l st).2 n = false.
Proof.
  intros Hn. revert st.
  assert (Hmono : forall l st, Z.testbit st.2 n = false ->
    Z.testbit (fold_left take_templates l st).2 n = false).
  { intros k. induction k as [|s k IH]; intros [ts m] Hm; [done|]. apply IH.
    unfold take_templates. case_match; [|done]. cbn in *. by rewrite Z.land_spec, Hm. }
  induction l as [|s l IH]; intros st [t Ht]; [by apply not_elem_of_nil in Ht|]. cbn [fold_left].
  apply elem_of_cons in Ht as [<-|Ht]; [|by apply IH; exists t].
  apply Hmono. destruct st as [ts m]. unfold take_templates. cbn [fst snd].
  destruct (Z.testbit m n) eqn:Em; [|case_match; cbn; rewrite ?Z.land_spec, ?Em; done].
  assert (Hland : Z.land (Z.shiftl 1 n) m = Z.shiftl 1 n).
  { apply Z.bits_inj'. intros k Hk. rewrite Z.land_spec, Z.shiftl_spec by done.
    destruct (decide (k = n)) as [->|Hne]; [by rewrite Em, andb_true_r|].
    replace (Z.testbit 1 (k - n)) with false; [done|].
    destruct (decide (k - n < 0)%Z) as [H|H]; [by rewrite Z.testbit_neg_r|].
    rewrite <- (Z.bits_above_log2 1 (k - n)); [done|lia|]. change (Z.log2 1) with 0%Z. lia. }
  rewrite Hland, Z.eqb_refl. cbn. rewrite Z.land_spec. unfold u64.
  rewrite Z.mod_pow2_bits_low, Z.lnot_spec, Z.shiftl_spec, Z.sub_diag by lia. by rewrite andb_false_r.
Qed.

Section cover.
Context `{!UUIDLib} (range : values -> list (string * string)) `{!SubjectLaws range}.
Context (np : string -> bool).

(** The raw templates that are chosen for a bitmask. *)
Definition raw_templates (lrf : leadResourceTypeFilter) : list (FilterBitmask * list string) :=
  ((fun s => (s.1, [s.2])) <$> bitmaskToSubjectsTemplate range)
  ++ ((fun s => (s.1, s.2 lrf)) <$> bitmaskToResourceSubjectsTemplate range).

Lemma ConvertToSubjects_elem owner fs lrf mask kind subject :
  known_event kind -> IsFilteredBit mask (EventFilterToBitmask kind) = true ->
  (forall b ts, (b, ts) ∈ raw_templates lrf -> Z.testbit b (event_index kind) = true ->
    exists raw, raw ∈ ts /\ exists pattern,
      pattern ∈ convertTemplateToSubjects range np owner fs raw /\
      nats_matches pattern subject = true) ->
  exists pattern, pattern ∈ ConvertToSubjects range np owner fs lrf mask /\
    nats_matches pattern subject = true.
Proof.
  intros Hk Hbit Hraw.
  rewrite EventFilterToBitmask_index in Hbit by done.
  rewrite IsFilteredBit_testbit in Hbit by (by destruct kind).
  destruct (take_templates_rest (raw_templates lrf) ([], mask) (event_index kind))
    as ([b ts] & Hs & Hb & Hin); [by destruct kind|done| |].
  { apply take_templates_single; [by destruct kind|].
    destruct kind; try done; eexists; unfold raw_templates;
      cbn [fmap list_fmap bitmaskToSubjectsTemplate bitmaskToResourceSubjectsTemplate app fst snd];
      repeat (first [apply list_elem_of_here | apply list_elem_of_further]). }
  destruct (Hraw b ts Hs Hb) as (raw & Hr & pattern & Hp & Hm). exists pattern. split; [|done].
  unfold ConvertToSubjects. rewrite <- fold_left_app. fold (raw_templates lrf).
  destruct (fold_left take_templates (raw_templates lrf) ([], mask)) as [raws rest].
  apply elem_of_remove_dups, list_elem_of_bind. exists raw. split; [done|by apply Hin].
Qed.

(** ** The tokens of a pattern *)
Definition base_values (owner device href : string) : values :=
  <[HrefIDKey := href]> (<[DeviceIDKey := device]> (<[OwnerIdKey := owner_value np owner]> ∅)).
Definition pattern_of (owner device href raw : string) : string :=
  ToSubject range raw [WithOwner np owner; WithDeviceID device; WithHrefId href].

Lemma pattern_split raw vs0 ts owner device href :
  raw = fill vs0 ts -> ts <> [] -> forallb plain_token ts = true -> plain_values vs0 ->
  safe (owner_value np owner) = true -> safe device = true -> safe href = true ->
  split_dots (pattern_of owner device href raw)
  = concat ((fun t => split_dots (fill_token (vs0 ∪ base_values owner device href) t)) <$> ts).
Proof.
  intros -> Hne Hts Hvs [Ho _]%safe_free [Hd _]%safe_free [Hh _]%safe_free. unfold pattern_of.
  rewrite ToSubject_fill; [|apply range_perm|done|done|].
  2: { cbn [fold_left]. rewrite WithOwner_value. repeat apply plain_insert; done. }
  cbn [fold_left]. rewrite WithOwner_value. by rewrite split_dots_fill.
Qed.

(** The first half of a template: its event type, or what else is known. *)
Lemma with_type template type ts :
  template = fill ∅ ts -> forallb plain_token ts = true -> free "{" type = true ->
  ToSubject range template [WithEventType type] = fill (<[EventTypeKey := type]> ∅) ts.
Proof.
  intros -> Hts Ht. rewrite (ToSubject_template _ _ ts _ (<[EventTypeKey := type]> ∅)); try done.
  apply plain_insert; done.
Qed.

Lemma match_either t q pat subj tok :
  t = "*" \/ t = tok -> match_tokens (t :: q :: pat) (tok :: subj) = match_tokens (q :: pat) subj.
Proof. intros [->| ->]; [apply match_star|apply match_same]. Qed.
End cover.

Section patterns.
Context `{!UUIDLib} (range : values -> list (string * string)) `{!SubjectLaws range}.
Context (np : string -> bool) (owner device href : string).
Context (Ho : safe (owner_value np owner) = true) (Hd : safe device = true) (Hh : safe href = true).

(** What the tables fill in before the owner: a type, and a leading type. *)
Definition table_values (type lead : option string) : values :=
  let vs := match lead with Some f => {[LeadResourceTypeKey := f]} | None => ∅ end in
  match type with Some t => <[EventTypeKey := t]> vs | None => vs end.

(** The tokens that a token of a template ends up as. *)
Definition known (type lead : option string) (t : token) : option (list string) :=
  match t with
  | Lit s => if free "." s then Some [s] else None
  | Hole k =>
      if String.eqb k OwnerIdKey then Some [owner_value np owner]
      else if String.eqb k DeviceIDKey then Some [device]
      else if String.eqb k HrefIDKey then Some [href]
      else if String.eqb k EventTypeKey then (fun t => [t]) <$> type
      else if String.eqb k LeadResourceTypeKey then split_dots <$> lead
      else None
  end.

Lemma known_token type lead t l :
  (forall ty, type = Some ty -> safe ty = true) -> known type lead t = Some l ->
  split_dots (fill_token (table_values type lead ∪ base_values np owner device href) t) = l.
Proof.
  intros Hty. destruct t as [s|k]; cbn [known fill_token].
  { destruct (free "." s) eqn:E; [|done]. intros [= <-]. by apply split_dots_free. }
  assert (Hnone : forall k, k <> EventTypeKey -> k <> LeadResourceTypeKey ->
    table_values type lead !! k = None).
  { intros k' H1 H2. unfold table_values. destruct type, lead; cbn zeta match;
      rewrite ?lookup_insert_ne, ?lookup_singleton_ne, ?lookup_empty by done; done. }
  assert (Hr : forall k, k <> EventTypeKey -> k <> LeadResourceTypeKey ->
    (table_values type lead ∪ base_values np owner device href) !! k
    = base_values np owner device href !! k).
  { intros k' H1 H2. apply lookup_union_r. by apply Hnone. }
  destruct (String.eqb_spec k OwnerIdKey) as [->|_].
  { intros [= <-]. rewrite Hr by done. unfold base_values. simplify_map_eq. by apply split_dots_free, safe_free. }
  destruct (String.eqb_spec k DeviceIDKey) as [->|_].
  { intros [= <-]. rewrite Hr by done. unfold base_values. simplify_map_eq. by apply split_dots_free, safe_free. }
  destruct (String.eqb_spec k HrefIDKey) as [->|_].
  { intros [= <-]. rewrite Hr by done. unfold base_values. simplify_map_eq. by apply split_dots_free, safe_free. }
  destruct (String.eqb_spec k EventTypeKey) as [->|Hk].
  { destruct type as [ty|]; intros [= <-]. unfold table_values.
    erewrite lookup_union_Some_l by apply lookup_insert_eq.
    by apply split_dots_free, safe_free, Hty. }
  destruct (String.eqb_spec k LeadResourceTypeKey) as [->|_]; [|done].
  destruct lead as [f|]; intros [= <-]. unfold table_values.
  erewrite lookup_union_Some_l; [reflexivity|].
  destruct type; [rewrite lookup_insert_ne by done|]; apply lookup_singleton_eq.
Qed.

Lemma pattern_known raw type lead ts tss :
  raw = fill (table_values type lead) ts -> ts <> [] -> forallb plain_token ts = true ->
  (forall ty, type = Some ty -> safe ty = true) ->
  (forall f, lead = Some f -> free "{" f = true) ->
  mapM (known type lead) ts = Some tss ->
  split_dots (pattern_of range np owner device href raw) = concat tss.
Proof.
  intros Hraw Hne Hts Hty Hlead Hm. rewrite (pattern_split _ _ raw (table_values type lead) ts); try done.
  - f_equal. apply mapM_Some in Hm. clear -Hm Hty Ho Hd Hh. induction Hm as [|t l ts tss Ht _ IH]; [done|].
    cbn. f_equal; [by apply known_token|exact IH].
  - unfold plain_values, table_values. set (vs := match lead with Some _ => _ | None => _ end).
    assert (Hvs : map_Forall (fun _ v => free "{" v = true) vs).
    { unfold vs. destruct lead as [f|]; [|apply map_Forall_empty].
      apply map_Forall_singleton. by apply Hlead. }
    destruct type as [ty|]; [|done]. apply map_Forall_insert_2; [|done]. by apply safe_free, Hty.
Qed.
End patterns.

(** ** The tokens of a published event *)
Section published.
Context `{!UUIDLib} (range : values -> list (string * string)) `{!SubjectLaws range}.
Context (np : string -> bool).

(** The part of the tree of subjects that an event belongs to. *)
Definition event_section (ev : AnyEvent) : string :=
  match ev with
  | EvResourceLinksPublished _ | EvResourceLinksUnpublished _ => "resource-links"
  | _ => "metadata"
  end.
Definition published_tokens (p : option leadResourceType) (owner : string) (ev : AnyEvent)
    : list string :=
  ["plgd"; "owners"; owner_value np owner; "devices"; GroupID ev] ++
  match GetResourceId_of ev with
  | Some rid => ["resources"; HrefToID (rid ~> rid_Href); EventType ev] ++ lead_tokens p (Types ev)
  | None => [event_section ev; EventType ev]
  end.

Lemma GetPublishSubject_tokens p owner ev kind :
  event_kind ev = Some kind ->
  safe (owner_value np owner) = true -> safe (GroupID ev) = true ->
  free "{" (GetLeadResourceType p (Types ev)) = true ->
  exists subject, GetPublishSubject range np p owner ev = [subject] /\
    split_dots subject = published_tokens p owner ev.
Proof.
  intros Hkind Ho Hd Hl. unfold published_tokens. destruct (GetResourceId_of ev) as [rid|] eqn:Hrid.
  - eexists. split; [by apply GetPublishSubject_resource|]. by apply publish_tokens.
  - pose proof (EventType_safe ev) as Ht. unfold GetPublishSubject. rewrite Hrid.
    destruct ev; try discriminate Hkind; try discriminate Hrid; cbn [EventType event_section];
      eexists; (split; [reflexivity|]);
      by apply (publish_tokens_device range np owner).
Qed.

(** A filter covers an event when it stands for the device and, if the event
    is one of a resource, for the href. *)
Definition href_value (href : string) (ev : AnyEvent) : Prop :=
  forall rid, GetResourceId_of ev = Some rid -> href = "*" \/ href = HrefToID (rid ~> rid_Href).
Definition subject_covers (v : ResourceId) (ev : AnyEvent) : Prop :=
  (rid_DeviceId v = "" \/ rid_DeviceId v = "*" \/ rid_DeviceId v = GroupID ev) /\
  forall rid, GetResourceId_of ev = Some rid ->
    rid_Href v = "" \/ rid_Href v = "*" \/ rid_Href v = rid ~> rid_Href.

(** A subscription with leading resource types hears what is published with
    them: all of it without a filter, else what one of the filters matches. *)
Definition lead_ok (p : option leadResourceType) (types : list string)
    (lrf : leadResourceTypeFilter) : Prop :=
  match p with
  | None => lrf_enabled lrf = false
  | Some _ =>
      lrf_enabled lrf = true /\
      (lrf_filter lrf = [] \/
       (GetLeadResourceType p types <> "" /\
        exists f, f ∈ lrf_filter lrf /\ free "{" f = true /\
          nats_matches f (GetLeadResourceType p types) = true))
  end.

Section event.
Context (p : option leadResourceType) (owner device href : string) (ev : AnyEvent).
Context (Ho : safe (owner_value np owner) = true) (Hd : safe device = true) (Hh : safe href = true).
Context (Hdev : device = "*" \/ device = GroupID ev) (Hhref : href_value href ev).

(** A pattern from a table matches the published event. *)
Definition heard (raw : string) : Prop :=
  match_tokens (split_dots (pattern_of range np owner device href raw)) (published_tokens p owner ev)
  = true.

Lemma heard_known raw type lead ts tss :
  raw = fill (table_values type lead) ts -> ts <> [] -> forallb plain_token ts = true ->
  (forall ty, type = Some ty -> safe ty = true) ->
  (forall f, lead = Some f -> free "{" f = true) ->
  mapM (known np owner device href type lead) ts = Some tss ->
  match_tokens (concat tss) (published_tokens p owner ev) = true -> heard raw.
Proof.
  intros. unfold heard. by rewrite (pattern_known range np owner device href Ho Hd Hh raw type lead ts tss).
Qed.

Lemma heard_all : heard (PlgdOwnersOwner +:+ ".>").
Proof.
  eapply (heard_known _ None None [Lit "plgd"; Lit "owners"; Hole OwnerIdKey; Lit ">"]);
    [reflexivity|done|reflexivity|done|done|reflexivity|].
  unfold published_tokens. cbn [concat app]. by rewrite !match_same.
Qed.

Lemma heard_devices : heard (PlgdOwnersOwnerDevices +:+ ".>").
Proof.
  eapply (heard_known _ None None [Lit "plgd"; Lit "owners"; Hole OwnerIdKey; Lit "devices"; Lit ">"]);
    [reflexivity|done|reflexivity|done|done|reflexivity|].
  unfold published_tokens. cbn [concat app]. by rewrite !match_same.
Qed.

(** The sections of links and metadata. *)
Lemma match_section section pat subj :
  match_tokens (section :: pat) subj = true -> pat <> [] ->
  match_tokens (["plgd"; "owners"; owner_value np owner; "devices"; device] ++ section :: pat)
    (["plgd"; "owners"; owner_value np owner; "devices"; GroupID ev] ++ subj) = true.
Proof.
  intros Hm Hne. destruct pat as [|q pat]; [done|]. cbn [app]. rewrite !match_same.
  by rewrite (match_either device section (q :: pat) subj (GroupID ev) Hdev).
Qed.

Lemma heard_section :
  GetResourceId_of ev = None ->
  heard (PlgdOwnersOwnerDevicesDevice +:+ "." +:+ event_section ev +:+ ".>").
Proof.
  intros Hrid.
  eapply (heard_known _ None None [Lit "plgd"; Lit "owners"; Hole OwnerIdKey; Lit "devices";
    Hole DeviceIDKey; Lit (event_section ev); Lit ">"]);
    [by destruct ev|done|by destruct ev|done|done| |].
  - instantiate (1 := [["plgd"]; ["owners"]; [owner_value np owner]; ["devices"]; [device];
      [event_section ev]; [">"]]). by destruct ev.
  - unfold published_tokens. rewrite Hrid.
    apply (match_section (event_section ev) [">"] [event_section ev; EventType ev]); [|done].
    by rewrite match_same.
Qed.

Lemma heard_section_type :
  GetResourceId_of ev = None ->
  heard (ToSubject range (PlgdOwnersOwnerDevicesDevice +:+ "." +:+ event_section ev
           +:+ ".{" +:+ EventTypeKey +:+ "}") [WithEventType (EventType ev)]).
Proof.
  intros Hrid. pose proof (EventType_safe ev) as Ht.
  eapply (heard_known _ (Some (EventType ev)) None [Lit "plgd"; Lit "owners"; Hole OwnerIdKey;
    Lit "devices"; Hole DeviceIDKey; Lit (event_section ev); Hole EventTypeKey]);
    [|done|by destruct ev|by intros ? [= <-]|done| |].
  - apply with_type; [apply _|by destruct ev|by destruct ev|by apply safe_free].
  - instantiate (1 := [["plgd"]; ["owners"]; [owner_value np owner]; ["devices"]; [device];
      [event_section ev]; [EventType ev]]). by destruct ev.
  - unfold published_tokens. rewrite Hrid.
    apply (match_section (event_section ev) [EventType ev] [event_section ev; EventType ev]); [|done].
    rewrite match_same. apply match_last, EventType_not_rest.
Qed.

(** The resources. *)
Lemma match_resource rid type pat subj :
  GetResourceId_of ev = Some rid -> match_tokens (type :: pat) subj = true ->
  match_tokens (["plgd"; "owners"; owner_value np owner; "devices"; device; "resources"; href]
                  ++ type :: pat)
    (["plgd"; "owners"; owner_value np owner; "devices"; GroupID ev; "resources";
      HrefToID (rid ~> rid_Href)] ++ subj) = true.
Proof.
  intros Hrid Hm. cbn [app]. rewrite !match_same.
  rewrite (match_either device "resources" _ _ (GroupID ev) Hdev), match_same.
  by rewrite (match_either href type pat subj (HrefToID (rid ~> rid_Href)) (Hhref rid Hrid)).
Qed.

Lemma heard_resources rid :
  GetResourceId_of ev = Some rid ->
  heard (PlgdOwnersOwnerDevicesDeviceResourcesResource +:+ ".>").
Proof.
  intros Hrid.
  eapply (heard_known _ None None [Lit "plgd"; Lit "owners"; Hole OwnerIdKey; Lit "devices";
    Hole DeviceIDKey; Lit "resources"; Hole HrefIDKey; Lit ">"]);
    [reflexivity|done|reflexivity|done|done|reflexivity|].
  unfold published_tokens. rewrite Hrid. cbn [concat app].
  by apply (match_resource rid ">" [] (EventType ev :: lead_tokens p (Types ev))).
Qed.

(** A template of resource events with a type: the type of the event or any. *)
Lemma heard_resource_type rid type :
  GetResourceId_of ev = Some rid -> type = "*" \/ type = EventType ev -> p = None ->
  heard (ToSubject range PlgdOwnersOwnerDevicesDeviceResourcesResourceEvent [WithEventType type]).
Proof.
  intros Hrid Hty Hp. pose proof (EventType_safe ev) as Ht.
  assert (Hs : safe type = true) by (destruct Hty as [->| ->]; done).
  eapply (heard_known _ (Some type) None event_tokens);
    [|done|reflexivity|by intros ? [= <-]|done|reflexivity|].
  - apply with_type; [apply _|reflexivity|reflexivity|by apply safe_free].
  - unfold published_tokens. rewrite Hrid, Hp. cbn [concat app lead_tokens].
    apply (match_resource rid type [] [EventType ev]); [done|].
    destruct Hty as [->| ->]; [done|apply match_last, EventType_not_rest].
Qed.

Lemma heard_resource_rest rid type :
  GetResourceId_of ev = Some rid -> type = EventType ev -> is_Some p ->
  heard (ToSubject range PlgdOwnersOwnerDevicesDeviceResourcesResourceEvent [WithEventType type]
           +:+ ".>").
Proof.
  intros Hrid -> [q Hp]. pose proof (EventType_safe ev) as Ht.
  eapply (heard_known _ (Some (EventType ev)) None (event_tokens ++ [Lit ">"]));
    [|done|reflexivity|by intros ? [= <-]|done|reflexivity|].
  - rewrite (with_type range _ _ event_tokens) by (reflexivity || by apply safe_free).
    by apply (fill_snoc_lit _ event_tokens ">").
  - unfold published_tokens. rewrite Hrid, Hp. cbn [concat app lead_tokens].
    apply (match_resource rid (EventType ev) [">"] (EventType ev :: LeadResourcePrefix :: _)); [done|].
    by rewrite match_same.
Qed.

Lemma heard_resource_lead rid type f :
  GetResourceId_of ev = Some rid -> type = "*" \/ type = EventType ev -> is_Some p ->
  GetLeadResourceType p (Types ev) <> "" -> free "{" f = true ->
  nats_matches f (GetLeadResourceType p (Types ev)) = true ->
  heard (ToSubject range
    (ToSubject range PlgdOwnersOwnerDevicesDeviceResourcesResourceEventLeadResourceType
       [WithEventType type]) [WithLeadResourceType f]).
Proof.
  intros Hrid Hty [q Hp] Hne Hf Hm. pose proof (EventType_safe ev) as Ht.
  assert (Hs : safe type = true) by (destruct Hty as [->| ->]; done).
  eapply (heard_known _ (Some type) (Some f)
    (event_tokens ++ [Lit LeadResourcePrefix; Hole LeadResourceTypeKey]));
    [|done|reflexivity|by intros ? [= <-]|by intros ? [= <-]|reflexivity|].
  - rewrite (with_type range _ _ (event_tokens ++ [Lit LeadResourcePrefix; Hole LeadResourceTypeKey]))
      by (reflexivity || by apply safe_free).
    rewrite ToSubject_fill; [|apply range_perm|reflexivity| |].
    + reflexivity.
    + apply map_Forall_insert_2; [by apply safe_free|apply map_Forall_empty].
    + cbn [fold_left]. apply plain_insert; [done|done|apply map_Forall_empty].
  - unfold published_tokens. rewrite Hrid. cbn [concat app].
    apply (match_resource rid type (LeadResourcePrefix :: split_dots f ++ [])
      (EventType ev :: lead_tokens p (Types ev))); [done|].
    rewrite app_nil_r, Hp in *. cbn [lead_tokens].
    rewrite (match_either type LeadResourcePrefix (split_dots f) _ (EventType ev) Hty).
    rewrite (proj2 (String.eqb_neq _ _) Hne).
    unfold nats_matches in Hm. destruct (split_dots f) as [|t ts] eqn:Ef.
    { destruct (split_dots (GetLeadResourceType _ _)) eqn:E; [|done].
      unfold split_dots in E. clear -E. exfalso. revert E. generalize "" as tok.
      induction (GetLeadResourceType _ _) as [|c s IH]; intros tok; [done|].
      cbn. destruct (Ascii.eqb c "."); [done|apply IH]. }
    by rewrite match_same.
Qed.

(** Some template of an entry of the tables is heard. *)
Definition some_heard (ts : list string) : Prop := exists raw, raw ∈ ts /\ heard raw.

Lemma some_heard_single raw : heard raw -> some_heard [raw].
Proof. intros Hr. exists raw. split; [by left|done]. Qed.

Lemma heard_types rid lrf :
  GetResourceId_of ev = Some rid -> lead_ok p (Types ev) lrf ->
  some_heard (getSubjectsForEventType range (EventType ev) lrf).
Proof.
  intros Hrid Hl. unfold getSubjectsForEventType, lead_ok in *. destruct p as [q|] eqn:Hp.
  - destruct Hl as [-> [->|(Hne & f & Hf & Hfree & Hm)]]; cbn [negb].
    + apply some_heard_single. apply (heard_resource_rest rid); [done..|]. by rewrite Hp.
    + destruct (lrf_filter lrf) as [|f0 fs] eqn:Efs; [by apply not_elem_of_nil in Hf|].
      cbn [length Nat.eqb]. rewrite <- Efs in *. eexists. split; [by apply list_elem_of_fmap_2|].
      apply (heard_resource_lead rid); rewrite ?Hp; auto.
  - rewrite Hl. cbn [negb]. apply some_heard_single. apply (heard_resource_type rid); auto.
Qed.

Lemma heard_all_resources rid lrf :
  GetResourceId_of ev = Some rid -> lead_ok p (Types ev) lrf ->
  some_heard (getSubjectsForAllResources range lrf).
Proof.
  intros Hrid Hl. unfold getSubjectsForAllResources, lead_ok in *. destruct p as [q|] eqn:Hp.
  - destruct Hl as [-> [->|(Hne & f & Hf & Hfree & Hm)]]; cbn [negb orb].
    + apply some_heard_single. by apply (heard_resources rid).
    + destruct (lrf_filter lrf) as [|f0 fs] eqn:Efs; [by apply not_elem_of_nil in Hf|].
      cbn [length Nat.eqb]. rewrite <- Efs in *. eexists. split; [by apply list_elem_of_fmap_2|].
      apply (heard_resource_lead rid); rewrite ?Hp; auto.
  - rewrite Hl. cbn [negb orb]. apply some_heard_single. by apply (heard_resources rid).
Qed.
End event.

(** Every entry of the tables that has the bit of an event hears it. *)
Lemma entries_hear p owner device href ev kind lrf b ts :
  safe (owner_value np owner) = true -> safe device = true -> safe href = true ->
  device = "*" \/ device = GroupID ev -> href_value href ev ->
  event_kind ev = Some kind -> lead_ok p (Types ev) lrf ->
  (b, ts) ∈ raw_templates range lrf -> Z.testbit b (event_index kind) = true ->
  some_heard p owner device href ev ts.
Proof.
  intros Ho Hd Hh Hdev Hhref Hkind Hl Hin Hb.
  unfold raw_templates in Hin.
  cbn [fmap list_fmap bitmaskToSubjectsTemplate bitmaskToResourceSubjectsTemplate app fst snd] in Hin.
  destruct ev; try discriminate Hkind; injection Hkind as <-; cbn [event_index] in Hb.
  all: repeat (apply elem_of_cons in Hin as [[= -> ->]|Hin];
    [first [exfalso; vm_compute in Hb; discriminate Hb|idtac]|]);
    [..|by apply not_elem_of_nil in Hin].
  all: first
    [ exact (some_heard_single _ _ _ _ _ _ (heard_all p owner device href _ Ho Hd Hh))
    | exact (some_heard_single _ _ _ _ _ _ (heard_devices p owner device href _ Ho Hd Hh))
    | exact (heard_all_resources p owner device href _ Ho Hd Hh Hdev Hhref _ lrf eq_refl Hl)
    | exact (heard_types p owner device href _ Ho Hd Hh Hdev Hhref _ lrf eq_refl Hl)
    | exact (some_heard_single _ _ _ _ _ _
        (heard_section p owner device href _ Ho Hd Hh Hdev Hhref eq_refl))
    | exact (some_heard_single _ _ _ _ _ _
        (heard_section_type p owner device href _ Ho Hd Hh Hdev Hhref eq_refl)) ].
Qed.

(** C17: Every published event whose bit is set, that is one of the owner's, that a
    filter covers and whose leading resource type is subscribed to, is heard
    on one of the subjects. *)
Theorem subjects_hear p owner ev kind fs lrf mask :
  event_kind ev = Some kind -> IsFilteredBit mask (EventFilterToBitmask kind) = true ->
  safe (owner_value np owner) = true -> safe (GroupID ev) = true ->
  free "{" (GetLeadResourceType p (Types ev)) = true -> lead_ok p (Types ev) lrf ->
  fs = [] \/ Exists (fun v => subject_covers v ev) fs ->
  exists subject pattern,
    GetPublishSubject range np p owner ev = [subject] /\
    pattern ∈ ConvertToSubjects range np owner fs lrf mask /\
    nats_matches pattern subject = true.
Proof.
  intros Hkind Hbit Ho Hd Hfree Hl Hcov.
  destruct (GetPublishSubject_tokens p owner ev kind Hkind Ho Hd Hfree) as (subject & Hs & Htoks).
  assert (Hval : exists device href,
    safe device = true /\ safe href = true /\ (device = "*" \/ device = GroupID ev) /\
    href_value href ev /\
    forall raw, pattern_of range np owner device href raw ∈ convertTemplateToSubjects range np owner fs raw).
  { destruct Hcov as [->|(v & Hv & Hcd & Hch)%Exists_exists].
    - exists "*", "*". split_and!; try done; [by left|by intros ? _; left|].
      intros raw. by left.
    - exists (if String.eqb (rid_DeviceId v) "" then "*" else rid_DeviceId v),
        (GetSubjectHrefID (rid_Href v)). split_and!.
      + destruct Hcd as [->|[->| ->]]; [done|done|]. by case_match.
      + apply (GetSubjectHrefID_safe range).
      + destruct Hcd as [->|[->| ->]]; [by left|by left|]. case_match; [by left|by right].
      + intros rid Hrid. unfold GetSubjectHrefID. destruct (Hch rid Hrid) as [->|[->| ->]];
          [by left|by left|]. case_match; [by left|by right].
      + intros raw. unfold convertTemplateToSubjects.
        destruct fs as [|w fs]; [by apply not_elem_of_nil in Hv|]. cbn [length Nat.eqb].
        apply list_elem_of_fmap. by exists v. }
  destruct Hval as (device & href & Hsd & Hsh & Hdev & Hhref & Hin).
  assert (Hk : known_event kind) by (destruct ev; try discriminate Hkind; by injection Hkind as <-).
  destruct (ConvertToSubjects_elem range np owner fs lrf mask kind subject Hk Hbit)
    as (pattern & Hp & Hm).
  { intros b ts Hb Hbt.
    destruct (entries_hear p owner device href ev kind lrf b ts) as (raw & Hraw & Hheard); try done.
    exists raw. split; [done|]. eexists. split; [apply Hin|].
    unfold nats_matches. by rewrite Htoks. }
  by exists subject, pattern.
Qed.

(** A subscription to all events listens on one subject, whatever leading
    resource types it asks for; no test that follows looks at them either. *)
Theorem all_events_ignore_lead_filter owner fs lrf lrf' :
  ConvertToSubjects range np owner fs lrf (EventsFilterToBitmask [])
  = ConvertToSubjects range np owner fs lrf' (EventsFilterToBitmask []).
Proof. reflexivity. Qed.
End published.

(** The conversion of the message of a published event gives the event and the
    bit that the filters use. *)
Definition pb_type (ev : AnyEvent) : option PbEvent_Type :=
  match ev with
  | EvResourceLinksPublished e => Some (Event_ResourcePublished e)
  | EvResourceLinksUnpublished e => Some (Event_ResourceUnpublished e)
  | EvResourceChanged e => Some (Event_ResourceChanged e)
  | EvResourceUpdatePending e => Some (Event_ResourceUpdatePending e)
  | EvResourceUpdated e => Some (Event_ResourceUpdated e)
  | EvResourceRetrievePending e => Some (Event_ResourceRetrievePending e)
  | EvResourceRetrieved e => Some (Event_ResourceRetrieved e)
  | EvResourceDeletePending e => Some (Event_ResourceDeletePending e)
  | EvResourceDeleted e => Some (Event_ResourceDeleted e)
  | EvResourceCreatePending e => Some (Event_ResourceCreatePending e)
  | EvResourceCreated e => Some (Event_ResourceCreated e)
  | EvDeviceMetadataUpdatePending e => Some (Event_DeviceMetadataUpdatePending e)
  | EvDeviceMetadataUpdated e => Some (Event_DeviceMetadataUpdated e)
  | _ => None
  end.

Theorem converted `{!UUIDLib} ev kind version group aggregate :
  event_kind ev = Some kind ->
  exists h type, devicesEventToGrpcPb (D := AnyEvent) (EventType ev) = Some h /\
    pb_type ev = Some type /\
    h (MkEventbusEvent (EventType ev) ev version group aggregate)
    = inr (MkPbEvent "" "" (Some type), EventFilterToBitmask kind).
Proof.
  intros Hkind. destruct ev; try discriminate Hkind; injection Hkind as <-;
    eexists; eexists; (split; [reflexivity|]); split; reflexivity.
Qed.
