(* ===== verification/OwnerCache.v ===== *)
(** * The cache of the devices of an owner

    src/identity-store/client/ownerCache.go: the subject of an owner, its
    handlers and its devices, and the operations of the cache on the map of
    the owners.  A critical section is a function on the subject or on the
    map; the time, the answers of the connection and of the identity store are
    arguments (one reading of the time per operation).  A stream of devices is the list of what Recv answers before
    the end of the stream. *)

From Stdlib Require Import ZArith Lia String.
From S2P Require Import Prelude IdentityStore SortedSlice HandlerTable.

Section cache.
Context {H : Type}.

Record ownerSubject := MkOwnerSubject {
  os_handlers : gmap Z H;
  os_subscription : option Z;
  os_devices : SortedSlice;
  os_validUntil : time_;
  os_devicesSynced : bool }.

Definition newOwnerSubject (validUntil : time_) : ownerSubject :=
  MkOwnerSubject ∅ None [] validUntil false.

Definition set_devices (devices : SortedSlice) (d : ownerSubject) : ownerSubject :=
  MkOwnerSubject (os_handlers d) (os_subscription d) devices (os_validUntil d) (os_devicesSynced d).
Definition set_validUntil (t : time_) (d : ownerSubject) : ownerSubject :=
  MkOwnerSubject (os_handlers d) (os_subscription d) (os_devices d) t (os_devicesSynced d).
Definition set_handlers (hs : gmap Z H) (d : ownerSubject) : ownerSubject :=
  MkOwnerSubject hs (os_subscription d) (os_devices d) (os_validUntil d) (os_devicesSynced d).

(** Handle: [None] when it panics; else the subject and the handlers to call
    with the event, or the error of the unmarshalling. *)
Definition Handle (msg : result IsEvent) (d : ownerSubject)
    : option (ownerSubject * result (gmap Z H * IsEvent)) :=
  match msg with
  | inl err => Some (d, inl err)
  | inr e =>
      if os_devicesSynced d then
        let devices := SortedSlice_Insert (os_devices d) ((GetDevicesRegistered e) ~> dr_DeviceIds) in
        match SortedSlice_Remove devices ((GetDevicesUnregistered e) ~> du_DeviceIds) with
        | None => None
        | Some devices => Some (set_devices devices d, inr (os_handlers d, e))
        end
      else Some (d, inr (os_handlers d, e))
  end.

Definition AddHandlerLocked (id : Z) (h : H) (d : ownerSubject) : ownerSubject * bool :=
  let '(hs, ok) := add_handler id h (os_handlers d) in (set_handlers hs d, ok).
Definition RemoveHandlerLocked (v : Z) (d : ownerSubject) : ownerSubject :=
  set_handlers (delete v (os_handlers d)) d.

Definition updateDevicesLocked (devices : list string) (d : ownerSubject)
    : ownerSubject * (list string * list string) :=
  let deviceIDs := MakeSortedSlice devices in
  let added := Difference deviceIDs (os_devices d) in
  let removed := Difference (os_devices d) deviceIDs in
  (MkOwnerSubject (os_handlers d) (os_subscription d) deviceIDs (os_validUntil d) true,
   (added, removed)).

Definition subscribeLocked (answer : result Z) (d : ownerSubject) : ownerSubject * option error :=
  match os_subscription d with
  | None =>
      match answer with
      | inl err => (d, Some err)
      | inr sub => (MkOwnerSubject (os_handlers d) (Some sub) (os_devices d) (os_validUntil d)
                      (os_devicesSynced d), None)
      end
  | Some _ => (d, None)
  end.

(** getOwnerDevices: GetDevices opens the stream, Recv is called until it
    answers with an error or ends. *)
Fixpoint recv_loop (ownerDevices : list string) (stream : list (result string))
    : result (list string) :=
  match stream with
  | [] => inr ownerDevices
  | inl err :: _ => inl (Errorf (error_code err) "cannot receive owners devices: %v")
  | inr device :: stream => recv_loop (ownerDevices ++ [device]) stream
  end.
Definition getOwnerDevices (getDevices : result (list (result string))) : result (list string) :=
  match getDevices with
  | inl err => inl (Errorf (error_code err) "cannot get owners devices: %v")
  | inr stream => recv_loop [] stream
  end.

(** What the outside answers to syncDevicesLocked, and the time it reads. *)
Record sync_answers := MkSyncAnswers {
  sa_subscribe : result Z;
  sa_getDevices : result (list (result string));
  sa_now : time_ }.

Definition syncDevicesLocked (expiration : Z) (a : sync_answers) (d : ownerSubject)
    : ownerSubject * result (list string * list string) :=
  let '(d, err) := subscribeLocked (sa_subscribe a) d in
  match err with
  | Some err => (d, inl (ForwardFromError InvalidArgument err))
  | None =>
      match getOwnerDevices (sa_getDevices a) with
      | inl err => (d, inl (ForwardFromError InvalidArgument err))
      | inr devices =>
          let d := set_validUntil (sa_now a + expiration)%Z d in
          let '(d, changes) := updateDevicesLocked devices d in
          (d, inr changes)
      end
  end.

(** ** The map of the owners *)
Record OwnerCache := MkOwnerCache {
  oc_owners : gmap string ownerSubject;
  oc_expiration : Z;
  oc_handlerID : Z }.
Definition with_owners (owners : gmap string ownerSubject) (c : OwnerCache) : OwnerCache :=
  MkOwnerCache owners (oc_expiration c) (oc_handlerID c).

(** executeOnLockedOwnerSubject, for a [fn] that changes the subject and has a
    result; [now] is read when the subject is new. *)
Definition executeOnLockedOwnerSubject {A} (c : OwnerCache) (owner : string) (now : time_)
    (fn : ownerSubject -> ownerSubject * A) : OwnerCache * A :=
  let s := default (newOwnerSubject (now + oc_expiration c)%Z) (oc_owners c !! owner) in
  let '(s, a) := fn s in
  (with_owners (<[owner := s]> (oc_owners c)) c, a).

(** The function that a close function passes to ReplaceWithFunc. *)
Definition close_handler (c : OwnerCache) (owner : string) (id : Z) (now : time_) : OwnerCache :=
  match oc_owners c !! owner with
  | None => c
  | Some s =>
      let s := RemoveHandlerLocked id s in
      let s := if bool_decide (os_handlers s = ∅) && After (os_validUntil s) now
               then set_validUntil (now + oc_expiration c)%Z s else s in
      with_owners (<[owner := s]> (oc_owners c)) c
  end.

(** The critical section of Subscribe; the result is the identifier of the
    handler and the error. *)
Definition OwnerCache_Subscribe (c : OwnerCache) (owner : string) (onEvent : option H)
    (answer : result Z) (now : time_) : option (OwnerCache * (option Z * option error)) :=
  let s := default (newOwnerSubject (now + oc_expiration c)%Z) (oc_owners c !! owner) in
  let store s id := MkOwnerCache (<[owner := s]> (oc_owners c)) (oc_expiration c) id in
  match onEvent with
  | Some h =>
      match alloc_handler (alloc_fuel (os_handlers s)) (oc_handlerID c) h (os_handlers s) with
      | None => None
      | Some (id, hs) =>
          let '(s, err) := subscribeLocked answer (set_handlers hs s) in
          Some (store s id, (Some id, err))
      end
  | None =>
      let '(s, err) := subscribeLocked answer s in
      Some (store s (oc_handlerID c), (None, err))
  end.

(** [owner] is what OwnerFromTokenMD answers. *)
Definition OwnerCache_Update (c : OwnerCache) (owner : result string) (now : time_)
    (a : sync_answers) : OwnerCache * result (list string * list string) :=
  match owner with
  | inl err => (c, inl (ForwardFromError InvalidArgument err))
  | inr owner => executeOnLockedOwnerSubject c owner now (syncDevicesLocked (oc_expiration c) a)
  end.

(** Devices are synchronized before they are read, unless they are. *)
Definition synced_devices (c : OwnerCache) (a : sync_answers) (s : ownerSubject)
    : ownerSubject * option error :=
  if negb (os_devicesSynced s) then
    match syncDevicesLocked (oc_expiration c) a s with
    | (s, inl err) => (s, Some err)
    | (s, inr _) => (s, None)
    end
  else (s, None).

Definition OwnerCache_GetDevices (c : OwnerCache) (owner : result string) (now : time_)
    (a : sync_answers) : OwnerCache * result (list string) :=
  match owner with
  | inl err => (c, inl (ForwardFromError InvalidArgument err))
  | inr owner =>
      executeOnLockedOwnerSubject c owner now (fun s =>
        if negb (os_devicesSynced s) then
          match synced_devices c a s with
          | (s, Some err) => (s, inl err)
          | (s, None) => (s, inr (os_devices s))
          end
        else
          let s := set_validUntil (now + oc_expiration c)%Z s in (s, inr (os_devices s)))
  end.

Definition GetSelectedDevices (c : OwnerCache) (owner : result string) (now : time_)
    (a : sync_answers) (devices : list string) : OwnerCache * result (list string) :=
  match owner with
  | inl err => (c, inl (ForwardFromError InvalidArgument err))
  | inr owner =>
      let deviceIds := MakeSortedSlice devices in
      executeOnLockedOwnerSubject c owner now (fun s =>
        match synced_devices c a s with
        | (s, Some err) => (s, inl err)
        | (s, None) => (s, inr (Intersection (os_devices s) deviceIds))
        end)
  end.

Definition OwnsDevices (c : OwnerCache) (owner : result string) (now : time_) (a : sync_answers)
    (devices : list string) : OwnerCache * result bool :=
  match owner with
  | inl err => (c, inl (ForwardFromError InvalidArgument err))
  | inr owner =>
      let deviceIds := MakeSortedSlice devices in
      executeOnLockedOwnerSubject c owner now (fun s =>
        match synced_devices c a s with
        | (s, Some err) => (s, inl err)
        | (s, None) => (s, inr (IsSuperslice (os_devices s) deviceIds))
        end)
  end.
Definition OwnsDevice (c : OwnerCache) (owner : result string) (now : time_) (a : sync_answers)
    (deviceID : string) : OwnerCache * result bool :=
  OwnsDevices c owner now a [deviceID].

(** getExpiredOwnerSubjects: what it does to the subjects, and the owners that
    it returns in the order of [range]. *)
Definition expire_devices (t : time_) (s : ownerSubject) : ownerSubject :=
  if negb (bool_decide (os_handlers s = ∅)) && Before (os_validUntil s) t
  then MkOwnerSubject (os_handlers s) (os_subscription s) [] (os_validUntil s) false
  else s.
Definition is_expired_owner (t : time_) (s : ownerSubject) : bool :=
  bool_decide (os_handlers s = ∅) && Before (os_validUntil s) t.
Definition getExpiredOwnerSubjects (range : gmap string ownerSubject -> list (string * ownerSubject))
    (c : OwnerCache) (t : time_) : OwnerCache * list string :=
  (with_owners (expire_devices t <$> oc_owners c) c,
   omap (fun os => if is_expired_owner t os.2 then Some os.1 else None) (range (oc_owners c))).

(** The deletion of one expired owner, and the subscription to cancel. *)
Definition delete_expired (c : OwnerCache) (o : string) (now : time_) : OwnerCache * option Z :=
  match oc_owners c !! o with
  | None => (c, None)
  | Some s =>
      if negb (bool_decide (os_handlers s = ∅)) then (c, None)
      else if Before (os_validUntil s) now
      then (with_owners (delete o (oc_owners c)) c, os_subscription s)
      else (c, None)
  end.

Fixpoint delete_all_expired (c : OwnerCache) (owners : list string) (now : time_)
    : OwnerCache * list Z :=
  match owners with
  | [] => (c, [])
  | o :: owners =>
      let '(c, sub) := delete_expired c o now in
      let '(c, subs) := delete_all_expired c owners now in
      (c, option_list sub ++ subs)
  end.

(** checkExpiration, when nothing else runs in between. *)
Definition checkExpiration (range : gmap string ownerSubject -> list (string * ownerSubject))
    (c : OwnerCache) (now : time_) : OwnerCache * list Z :=
  let '(c, expiredOwners) := getExpiredOwnerSubjects range c now in
  delete_all_expired c expiredOwners now.
End cache.
Arguments ownerSubject : clear implicits.
Arguments OwnerCache : clear implicits.
