(* ===== verification/OwnerCacheFacts.v ===== *)
(** * The identity store and the cache of an owner's devices

    The events that the handlers of the identity store publish replay the
    change of its table; a cache that was synchronized at some moment and
    hears the events from an earlier moment on ends up with the devices of the
    table.  The devices of a cache are ascending, so that its answers about
    them are those of the set. *)

From Stdlib Require Import ZArith Lia String.
From S2P Require Import Prelude IdentityStore SortedSlice HandlerTable OwnerCache.

(** ** The meaning of an event *)
Definition registered (e : IsEvent) : list string := (GetDevicesRegistered e) ~> dr_DeviceIds.
Definition unregistered (e : IsEvent) : list string := (GetDevicesUnregistered e) ~> du_DeviceIds.
Definition apply_event (s : gset string) (e : IsEvent) : gset string :=
  (s ∪ list_to_set (registered e)) ∖ list_to_set (unregistered e).

(** An event carries one of the two lists. *)
Lemma one_list e : registered e = [] \/ unregistered e = [].
Proof.
  unfold registered, unregistered, GetDevicesRegistered, GetDevicesUnregistered.
  destruct (ev_Type e) as [[m|m]|]; cbn; auto.
Qed.

Lemma elem_of_apply_event s e d :
  d ∈ apply_event s e <-> (d ∈ s \/ d ∈ registered e) /\ d ∉ unregistered e.
Proof. unfold apply_event. set_solver. Qed.

(** Whether a device is in after some events: the last event that names it
    decides. *)
Fixpoint decided (es : list IsEvent) (d : string) : option bool :=
  match es with
  | [] => None
  | e :: es =>
      match decided es d with
      | Some b => Some b
      | None => if bool_decide (d ∈ unregistered e) then Some false
                else if bool_decide (d ∈ registered e) then Some true else None
      end
  end.

Lemma elem_of_apply_events es s d :
  d ∈ fold_left apply_event es s <->
  match decided es d with Some b => b = true | None => d ∈ s end.
Proof.
  revert s. induction es as [|e es IH]; intros s; [done|]. cbn [fold_left decided]. rewrite IH.
  destruct (decided es d); [done|]. rewrite elem_of_apply_event.
  repeat case_bool_decide; naive_solver.
Qed.

Lemma decided_app es fs d :
  decided (es ++ fs) d = match decided fs d with Some b => Some b | None => decided es d end.
Proof.
  induction es as [|e es IH]; cbn [app decided]; [by destruct (decided fs d)|].
  rewrite IH. by destruct (decided fs d).
Qed.

(** Hearing some of the events again, before the new ones, does no harm. *)
Theorem apply_events_overlap old seen new s :
  fold_left apply_event (seen ++ new) (fold_left apply_event (old ++ seen) s)
  = fold_left apply_event (old ++ seen ++ new) s.
Proof.
  apply set_eq. intros d.
  rewrite (elem_of_apply_events (seen ++ new)), (elem_of_apply_events (old ++ seen ++ new)), !decided_app.
  destruct (decided new d); [done|]. destruct (decided seen d) as [b|] eqn:E; [done|].
  by rewrite elem_of_apply_events, decided_app, E.
Qed.

(** ** The identity store *)
Section store.
Context `{!TokenLib} {T : Type} `{!PersistenceTx T} (table : T -> gmap string string).
Context `{!PersistenceLaws T table}.
Context (toSlice : gset string -> list string).
Context (toSlice_elements : forall s, toSlice s ≡ₚ elements s).

(** The devices of an owner. *)
Definition owned (t : T) (owner : string) : gset string :=
  dom (filter (fun dv => dv.2 = owner) (table t)).

Lemma elem_of_owned t owner d : d ∈ owned t owner <-> table t !! d = Some owner.
Proof.
  unfold owned. rewrite elem_of_dom. unfold is_Some. setoid_rewrite map_lookup_filter_Some.
  cbn. naive_solver.
Qed.

(** The owner of a token. *)
Definition owner_of (s : IsService) (ctx : context) : option string :=
  match parseTokenMD ctx (is_ownerClaim s) with inr (owner, _) => Some owner | inl _ => None end.

Lemma decided_registered ctx now owner user hub ids d :
  decided [publishDevicesRegistered ctx now owner user hub ids] d
  = if bool_decide (d ∈ ids) then Some true else None.
Proof.
  cbn [decided]. change (unregistered _) with (@nil string). change (registered _) with ids.
  by rewrite bool_decide_eq_false_2 by apply not_elem_of_nil.
Qed.
Lemma decided_unregistered ctx now owner user hub ids d :
  decided [publishDevicesUnregistered ctx now owner user hub ids] d
  = if bool_decide (d ∈ ids) then Some false else None.
Proof.
  cbn [decided]. change (unregistered _) with ids. change (registered _) with (@nil string).
  by rewrite (bool_decide_eq_false_2 (d ∈ [])) by apply not_elem_of_nil.
Qed.

(** AddDevice publishes the one change it makes, and never takes a device from
    another owner. *)
Theorem AddDevice_spec s ctx now t device t' evs r :
  AddDevice s ctx now t device = (t', evs, r) ->
  (forall o, owned t' o = fold_left apply_event (if bool_decide (owner_of s ctx = Some o) then evs else [])
                            (owned t o)) /\
  (r = inr tt -> forall o, owner_of s ctx = Some o -> device ∈ owned t' o).
Proof.
  unfold AddDevice, owner_of. destruct (parseTokenMD ctx _) as [err|[owner user]] eqn:Ep.
  { intros [= <- <- <-]. split; [|done]. intros o. by case_bool_decide. }
  destruct (String.eqb device ""); [intros [= <- <- <-]; split; [|done]; intros o; by case_bool_decide|].
  destruct (RetrieveByDevice t device) as [err|[dev|]] eqn:Er.
  - intros [= <- <- <-]. split; [|done]. intros o. by case_bool_decide.
  - apply RetrieveByDevice_law in Er. destruct (table t !! device) as [o'|] eqn:Et; [|done].
    injection Er as ->. cbn [ad_Owner]. destruct (String.eqb_spec o' owner) as [->|Hne]; intros [= <- <- <-].
    + split; [intros o; by case_bool_decide|]. intros _ o [= <-]. by apply elem_of_owned.
    + split; [|done]. intros o. by case_bool_decide.
  - apply RetrieveByDevice_law in Er. destruct (table t !! device) as [o'|] eqn:Et; [done|].
    pose proof (Persist_law t (MkAuthorizedDevice device owner)) as Hp.
    destruct (Persist t _) as [t1 [err|]]; cbn in Hp; intros [= <- <- <-].
    + split; [|done]. intros o. unfold owned. rewrite Hp. by case_bool_decide.
    + split.
      * intros o. apply set_eq. intros d. rewrite elem_of_apply_events, !elem_of_owned, Hp.
        case_bool_decide as Ho; [rewrite decided_registered|cbn [decided]].
        -- destruct (decide (d = device)) as [->|Hd].
           ++ rewrite lookup_insert_eq, bool_decide_eq_true_2 by (by left). split; congruence.
           ++ rewrite lookup_insert_ne by done.
              rewrite bool_decide_eq_false_2 by (by rewrite list_elem_of_singleton).
              symmetry. apply elem_of_owned.
        -- destruct (decide (d = device)) as [->|Hd].
           ++ rewrite lookup_insert_eq, elem_of_owned, Et. split; [congruence|done].
           ++ rewrite lookup_insert_ne by done. symmetry. apply elem_of_owned.
      * intros _ o [= <-]. apply elem_of_owned. rewrite Hp. apply lookup_insert_eq.
Qed.

(** *** DeleteDevices *)
Definition owned_by (t : T) (owner d : string) : Prop := table t !! d = Some owner.
#[local] Instance owned_by_dec t owner d : Decision (owned_by t owner d).
Proof. unfold owned_by. apply _. Defined.

Lemma deleteDevice_spec t d owner t' ok :
  deleteDevice t d owner = (t', inr ok) ->
  ok = bool_decide (owned_by t owner d) /\ table t' = if ok then delete d (table t) else table t.
Proof.
  unfold deleteDevice. destruct (Retrieve t d owner) as [err|r] eqn:Er; [done|].
  apply Retrieve_law in Er. subst r. change (bool_decide (table t !! d = Some owner))
    with (bool_decide (owned_by t owner d)).
  destruct (bool_decide (owned_by t owner d)).
  - pose proof (Delete_law t d owner) as Hd.
    destruct (PersistenceTx_Delete t d owner) as [t1 [err|]]; intros [= <- <-]. by cbn in Hd.
  - by intros [= <- <-].
Qed.

Lemma deleteDevices_loop_spec t owner deleted ids t' l :
  NoDup ids -> deleteDevices_loop t owner deleted ids = (t', inr l) ->
  l = deleted ++ filter (owned_by t owner) ids /\
  forall d, table t' !! d = if bool_decide (d ∈ filter (owned_by t owner) ids) then None else table t !! d.
Proof.
  intros Hnd. revert t deleted. induction Hnd as [|d ids Hd Hnd IH]; intros t deleted.
  { cbn. intros [= <- <-]. rewrite app_nil_r. split; [done|]. intros d.
    by rewrite bool_decide_eq_false_2 by apply not_elem_of_nil. }
  cbn [deleteDevices_loop]. destruct (deleteDevice t d owner) as [t1 [err|ok]] eqn:E1; [done|].
  apply deleteDevice_spec in E1 as [Hok Ht1]. intros Hloop. apply IH in Hloop as [-> Ht'].
  assert (Hsame : filter (owned_by t1 owner) ids = filter (owned_by t owner) ids).
  { apply filter_ext_elem. intros x Hx. unfold owned_by. rewrite Ht1. destruct ok; [|done].
    rewrite lookup_delete_ne by (intros ->; done). done. }
  rewrite Hsame in *. rewrite filter_cons. case_decide as Hown.
  - rewrite bool_decide_eq_true_2 in Hok by done. subst ok. split; [by rewrite <- app_assoc|].
    intros x. rewrite Ht', Ht1. destruct (decide (x = d)) as [->|Hx].
    + rewrite (bool_decide_eq_true_2 (d ∈ d :: _)) by (by left).
      rewrite lookup_delete_eq. by case_bool_decide.
    + rewrite lookup_delete_ne by done.
      by rewrite (bool_decide_ext (x ∈ d :: _) (x ∈ filter (owned_by t owner) ids)) by set_solver.
  - rewrite bool_decide_eq_false_2 in Hok by done. subst ok. split; [done|]. by rewrite <- Ht1.
Qed.

Lemma getUniqueDeviceIds_NoDup ids :
  NoDup (getUniqueDeviceIds toSlice ids) /\
  forall d, d ∈ getUniqueDeviceIds toSlice ids <-> d ∈ ids /\ d <> "".
Proof.
  unfold getUniqueDeviceIds. split.
  - rewrite toSlice_elements. apply NoDup_elements.
  - intros d. rewrite toSlice_elements, elem_of_elements. set_solver.
Qed.

Lemma getDeviceIDs_NoDup request t owner ids :
  it_err_after (RetrieveByOwner t owner) = None ->
  getDeviceIDs toSlice request t owner = inr ids ->
  NoDup ids /\ forall d, owned_by t owner d -> d ∈ ids <-> request = [] \/ (d ∈ request /\ d <> "").
Proof.
  intros Hafter. unfold getDeviceIDs, IdentityStore.getOwnerDevices. destruct request as [|r request].
  - cbn [length Nat.eqb]. destruct (it_err_before (RetrieveByOwner t owner)); [done|]. intros [= <-].
    destruct (RetrieveByOwner_law t owner Hafter) as [Hnd Hin]. split; [done|].
    intros d Hd. split; [by left|]. intros _. apply list_elem_of_fmap.
    exists (MkAuthorizedDevice d owner). split; [done|]. by apply Hin.
  - cbn [length Nat.eqb]. destruct (getUniqueDeviceIds_NoDup (r :: request)) as [Hnd Hin].
    case_match; [done|]. intros [= <-]. split; [done|]. intros d _. rewrite Hin. naive_solver.
Qed.

(** A request to delete that succeeds deletes exactly the devices it names that
    the owner has, or all of them; it answers and publishes them, each once,
    and the event replays the change of the table. *)
Theorem DeleteDevices_spec s ctx now t request t' evs l :
  (forall o, it_err_after (RetrieveByOwner t o) = None) ->
  DeleteDevices toSlice s ctx now t request = (t', evs, inr l) ->
  exists owner, owner_of s ctx = Some owner /\ NoDup l /\
    (forall d, d ∈ l <-> owned_by t owner d /\ (request = [] \/ (d ∈ request /\ d <> ""))) /\
    Forall (fun e => unregistered e = l) evs /\
    forall o, owned t' o = fold_left apply_event (if bool_decide (o = owner) then evs else []) (owned t o).
Proof.
  intros Hafter. unfold DeleteDevices, owner_of.
  destruct (parseTokenMD ctx _) as [err|[owner user]]; [done|].
  destruct (getDeviceIDs _ _ _ _) as [err|ids] eqn:Eids; [done|].
  apply getDeviceIDs_NoDup in Eids as [Hnd Hids]; [|done].
  destruct (length ids =? 0)%nat eqn:Elen.
  { intros [= <- <- <-]. apply Nat.eqb_eq, nil_length_inv in Elen as ->.
    exists owner. split_and!; [done|constructor| |constructor|intros o; by case_bool_decide].
    intros d. split; [intros Hd; by apply not_elem_of_nil in Hd|].
    intros [Hown Hreq]. by apply Hids. }
  destruct (deleteDevices_loop t owner [] ids) as [t1 [err|del]] eqn:Eloop; [done|].
  apply deleteDevices_loop_spec in Eloop as [Hdel Ht1]; [|done]. cbn [app] in Hdel.
  intros [= <- <- <-]. exists owner. split_and!; [done| | |by repeat constructor|].
  - rewrite Hdel. by apply NoDup_filter.
  - intros d. rewrite Hdel, list_elem_of_filter. specialize (Hids d). naive_solver.
  - intros o. apply set_eq. intros d. rewrite elem_of_apply_events, elem_of_owned, Ht1, <- Hdel.
    case_bool_decide as Hd; case_bool_decide as Ho.
    + rewrite decided_unregistered, bool_decide_eq_true_2 by done. done.
    + cbn [decided]. rewrite elem_of_owned. split; [done|]. intros Hdo.
      rewrite Hdel in Hd. apply list_elem_of_filter in Hd as [Hd _]. unfold owned_by in Hd. congruence.
    + rewrite decided_unregistered, bool_decide_eq_false_2 by done. symmetry. apply elem_of_owned.
    + cbn [decided]. symmetry. apply elem_of_owned.
Qed.

(** GetDevices sends the devices of the owner that the filter lets through. *)
Lemma send_loop_all ids : send_loop (fun _ => None) ids = (ids, None).
Proof. induction ids as [|d ids IH]; [done|]. cbn. by rewrite IH. Qed.

Theorem GetDevices_spec s ctx t filters owner sent :
  OwnerFromTokenMD ctx (is_ownerClaim s) = inr owner ->
  IsGetDevices s ctx t filters (fun _ => None) = (sent, None) ->
  NoDup sent /\ forall d, d ∈ sent <-> d ∈ owned t owner /\ (filters = [] \/ d ∈ filters).
Proof.
  unfold IsGetDevices, sendDevices. intros ->.
  destruct (it_err_after (RetrieveByOwner t owner)) as [err|] eqn:Ea; [done|].
  rewrite send_loop_all. intros [= <-]. destruct (RetrieveByOwner_law t owner Ea) as [Hnd Hin].
  split; [by apply NoDup_filter|]. intros d. rewrite list_elem_of_filter, list_elem_of_fmap.
  unfold hasMatchDeviceID. rewrite orb_true_iff, !bool_decide_eq_true, elem_of_owned.
  setoid_rewrite Hin. rewrite elem_of_list_to_set.
  assert (Hnil : (list_to_set filters : gset string) = ∅ <-> filters = []).
  { split; [|by intros ->]. intros Hf. destruct filters as [|f fs]; [done|]. exfalso.
    assert (Hx : f ∈ (list_to_set (f :: fs) : gset string)) by set_solver. rewrite Hf in Hx. set_solver. }
  rewrite Hnil. split.
  - intros [Hf (x & -> & Ho & Ht)]. done.
  - intros [Ht Hf]. split; [done|]. by exists (MkAuthorizedDevice d owner).
Qed.
End store.

(** ** The devices of a subject *)
Section cache.
Context {H : Type}.
Implicit Types (s : ownerSubject H) (c : OwnerCache H).

(** The devices are ascending, and there are none before they are known. *)
Definition subject_ok s : Prop :=
  ascending (os_devices s) /\ (os_devicesSynced s = false -> os_devices s = []).
Definition device_set s : gset string := list_to_set (os_devices s).

Lemma new_subject_ok t : subject_ok (newOwnerSubject t).
Proof. split; [constructor|done]. Qed.

(** An event is heard without a panic, when it lists a removed device once; the
    devices stay ascending and follow the event. *)
Theorem Handle_spec s e :
  subject_ok s -> NoDup (unregistered e) ->
  exists s', Handle (inr e) s = Some (s', inr (os_handlers s, e)) /\ subject_ok s' /\
    os_devicesSynced s' = os_devicesSynced s /\
    device_set s' = if os_devicesSynced s then apply_event (device_set s) e else ∅.
Proof.
  intros Hok Hnd. pose proof Hok as [Ha Hs]. unfold Handle. destruct (os_devicesSynced s) eqn:Es.
  - fold (registered e) (unregistered e).
    destruct (Insert_spec (os_devices s) (registered e) Ha) as [Hi Hel].
    rewrite Remove_spec by done. eexists. split; [done|]. split; [|split].
    + split; cbn; [by apply ascending_filter|by rewrite Es].
    + done.
    + unfold device_set, apply_event. cbn. apply set_eq. intros d.
      rewrite elem_of_list_to_set, list_elem_of_filter, Hel. set_solver.
  - exists s. split; [done|]. split; [done|]. split; [done|]. unfold device_set. by rewrite Hs.
Qed.

(** updateDevicesLocked takes the devices over and reports the differences. *)
Theorem updateDevicesLocked_spec s devices s' added removed :
  subject_ok s -> updateDevicesLocked devices s = (s', (added, removed)) ->
  subject_ok s' /\ os_devicesSynced s' = true /\ device_set s' = list_to_set devices /\
  (list_to_set added : gset string) = list_to_set devices ∖ device_set s /\
  (list_to_set removed : gset string) = device_set s ∖ list_to_set devices.
Proof.
  intros [Ha Hs] Hu. unfold updateDevicesLocked in Hu. injection Hu as <- <- <-.
  destruct (MakeSortedSlice_spec devices) as [Hm Hel]. unfold device_set. cbn.
  split_and!; [by split|done| | |].
  - apply set_eq. intros d. by rewrite !elem_of_list_to_set.
  - rewrite Difference_spec by done. apply set_eq. intros d.
    rewrite elem_of_list_to_set, list_elem_of_filter, Hel, elem_of_difference, !elem_of_list_to_set.
    tauto.
  - rewrite Difference_spec by done. apply set_eq. intros d.
    rewrite elem_of_list_to_set, list_elem_of_filter, Hel, elem_of_difference, !elem_of_list_to_set.
    tauto.
Qed.

(** A sequence of messages. *)
Fixpoint Handle_all (es : list IsEvent) s : option (ownerSubject H) :=
  match es with
  | [] => Some s
  | e :: es => match Handle (inr e) s with Some (s, _) => Handle_all es s | None => None end
  end.

Lemma Handle_all_spec es s :
  subject_ok s -> os_devicesSynced s = true -> Forall (fun e => NoDup (unregistered e)) es ->
  exists s', Handle_all es s = Some s' /\ subject_ok s' /\ os_devicesSynced s' = true /\
    device_set s' = fold_left apply_event es (device_set s).
Proof.
  intros Hok Hs Hes. revert s Hok Hs. induction Hes as [|e es He _ IH]; intros s Hok Hs.
  { exists s. done. }
  destruct (Handle_spec s e Hok He) as (s1 & Hh & Hok1 & Hs1 & Hd1). rewrite Hs in *.
  destruct (IH s1 Hok1 Hs1) as (s2 & Hh2 & Hok2 & Hs2 & Hd2). exists s2. cbn [Handle_all fold_left].
  rewrite Hh, Hh2, Hd2, Hd1. done.
Qed.

(** C25: The cache catches up: the devices it read after the events [old ++ seen],
    and the events from [seen] on, even those it had seen in the devices, give
    the devices after all events. *)
Theorem cache_converges s s' (table : gset string) old seen new devices changes :
  subject_ok s -> updateDevicesLocked devices s = (s', changes) ->
  (list_to_set devices : gset string) = fold_left apply_event (old ++ seen) table ->
  Forall (fun e => NoDup (unregistered e)) (seen ++ new) ->
  exists s'', Handle_all (seen ++ new) s' = Some s'' /\ subject_ok s'' /\
    device_set s'' = fold_left apply_event (old ++ seen ++ new) table.
Proof.
  intros Hok Hu Hdev Hes. destruct changes as [added removed].
  destruct (updateDevicesLocked_spec s devices s' added removed Hok Hu) as (Hok' & Hs' & Hd' & _).
  destruct (Handle_all_spec (seen ++ new) s' Hok' Hs' Hes) as (s'' & Hh & Hok'' & _ & Hd'').
  exists s''. split_and!; [done|done|]. by rewrite Hd'', Hd', Hdev, apply_events_overlap.
Qed.

(** ** Every reachable cache *)
Definition cache_ok c : Prop := map_Forall (fun _ s => subject_ok s) (oc_owners c).

Lemma subscribeLocked_ok answer s : subject_ok s -> subject_ok (subscribeLocked answer s).1.
Proof. unfold subscribeLocked. destruct (os_subscription s), answer; done. Qed.

Lemma syncDevicesLocked_ok exp a s : subject_ok s -> subject_ok (syncDevicesLocked exp a s).1.
Proof.
  intros Hok. unfold syncDevicesLocked. apply (subscribeLocked_ok (sa_subscribe a)) in Hok.
  destruct (subscribeLocked _ _) as [s1 [err|]]; [done|].
  destruct (getOwnerDevices _) as [err|ds]; [done|].
  assert (Hok1 : subject_ok (set_validUntil (sa_now a + exp)%Z s1)) by exact Hok.
  destruct (updateDevicesLocked ds _) as [s2 [x y]] eqn:Eu.
  apply updateDevicesLocked_spec in Eu as [Hok2 _]; done.
Qed.

Lemma synced_devices_ok c a s : subject_ok s -> subject_ok (synced_devices c a s).1.
Proof.
  intros Hok. unfold synced_devices. destruct (os_devicesSynced s); [done|]. cbn [negb].
  apply (syncDevicesLocked_ok (oc_expiration c) a) in Hok.
  by destruct (syncDevicesLocked _ a s) as [s1 [err|x]].
Qed.

Lemma cache_ok_insert c o s : cache_ok c -> subject_ok s -> cache_ok (with_owners (<[o := s]> (oc_owners c)) c).
Proof. intros Hc Hs. by apply map_Forall_insert_2. Qed.

Lemma cached_ok c o t : cache_ok c -> subject_ok (default (newOwnerSubject t) (oc_owners c !! o)).
Proof.
  intros Hc. destruct (oc_owners c !! o) as [s|] eqn:E; [by apply (Hc o)|apply new_subject_ok].
Qed.

Lemma execute_ok {A} c o now (fn : ownerSubject H -> ownerSubject H * A) :
  cache_ok c -> (forall s, subject_ok s -> subject_ok (fn s).1) ->
  cache_ok (executeOnLockedOwnerSubject c o now fn).1.
Proof.
  intros Hc Hfn. unfold executeOnLockedOwnerSubject.
  pose proof (Hfn _ (cached_ok c o (now + oc_expiration c)%Z Hc)) as Hs.
  destruct (fn _) as [s a]. by apply cache_ok_insert.
Qed.

(** The operations of the cache, and the messages that arrive; an event lists a
    device once, which the identity store guarantees. *)
Inductive oc_step : OwnerCache H -> OwnerCache H -> Prop :=
  | oc_subscribe c owner onEvent answer now c' r :
      OwnerCache_Subscribe c owner onEvent answer now = Some (c', r) -> oc_step c c'
  | oc_close c owner id now : oc_step c (close_handler c owner id now)
  | oc_update c owner now a : oc_step c (OwnerCache_Update c owner now a).1
  | oc_getDevices c owner now a : oc_step c (OwnerCache_GetDevices c owner now a).1
  | oc_selected c owner now a ds : oc_step c (GetSelectedDevices c owner now a ds).1
  | oc_owns c owner now a ds : oc_step c (OwnsDevices c owner now a ds).1
  | oc_expire range c t : oc_step c (getExpiredOwnerSubjects range c t).1
  | oc_delete c o now : oc_step c (delete_expired c o now).1
  | oc_handle c owner s e s' r :
      oc_owners c !! owner = Some s -> NoDup (unregistered e) -> Handle (inr e) s = Some (s', r) ->
      oc_step c (with_owners (<[owner := s']> (oc_owners c)) c).
Inductive oc_reachable : OwnerCache H -> Prop :=
  | oc_init expiration : oc_reachable (MkOwnerCache ∅ expiration 0)
  | oc_next c c' : oc_reachable c -> oc_step c c' -> oc_reachable c'.

Lemma expire_devices_ok t s : subject_ok s -> subject_ok (expire_devices t s).
Proof. unfold expire_devices. case_match; [|done]. intros _. split; [constructor|done]. Qed.

Lemma oc_step_ok c c' : oc_step c c' -> cache_ok c -> cache_ok c'.
Proof.
  destruct 1 as [c owner onEvent answer now c' r Hs|c owner id now|c [?|owner] now a|c [?|owner] now a
    |c [?|owner] now a ds|c [?|owner] now a ds|range c t|c o now|c owner s e s' r Ho Hnd Hh];
    intros Hc; try done.
  - unfold OwnerCache_Subscribe in Hs.
    pose proof (cached_ok c owner (now + oc_expiration c)%Z Hc) as Hok. set (s := default _ _) in *.
    destruct onEvent as [h|].
    + destruct (alloc_handler _ _ _ _) as [[id hs]|]; [|done].
      assert (Hok' : subject_ok (set_handlers hs s)) by exact Hok.
      apply (subscribeLocked_ok answer) in Hok'. destruct (subscribeLocked _ _) as [s1 err].
      injection Hs as <- <-. by apply map_Forall_insert_2.
    + apply (subscribeLocked_ok answer) in Hok. destruct (subscribeLocked _ _) as [s1 err].
      injection Hs as <- <-. by apply map_Forall_insert_2.
  - unfold close_handler. destruct (oc_owners c !! owner) as [s|] eqn:Eo; [|done].
    pose proof (Hc _ _ Eo) as Hok. apply cache_ok_insert; [done|]. by case_match.
  - apply execute_ok; [done|]. intros s. apply syncDevicesLocked_ok.
  - apply execute_ok; [done|]. intros s Hok. destruct (negb (os_devicesSynced s)); [|exact Hok].
    apply (synced_devices_ok c a) in Hok. by destruct (synced_devices c a s) as [s1 [err|]].
  - apply execute_ok; [done|]. intros s Hok.
    apply (synced_devices_ok c a) in Hok. by destruct (synced_devices c a s) as [s1 [err|]].
  - apply execute_ok; [done|]. intros s Hok.
    apply (synced_devices_ok c a) in Hok. by destruct (synced_devices c a s) as [s1 [err|]].
  - intros o s. cbn. rewrite lookup_fmap_Some. intros (s1 & <- & Hs). apply expire_devices_ok.
    by apply (Hc o).
  - unfold delete_expired. destruct (oc_owners c !! o) as [s|] eqn:Eo; [|done].
    repeat case_match; try done. by apply map_Forall_delete.
  - pose proof (Hc _ _ Ho) as Hok. destruct (Handle_spec s e Hok Hnd) as (s1 & Hh' & Hok1 & _).
    rewrite Hh in Hh'. injection Hh' as -> _. by apply cache_ok_insert.
Qed.

(** In every reachable cache the devices of every owner are ascending, and
    there are none for an owner whose devices are not synchronized. *)
Theorem oc_reachable_ok c : oc_reachable c -> cache_ok c.
Proof. induction 1 as [|c c' _ IH Hs]; [apply map_Forall_empty|by eapply oc_step_ok]. Qed.

(** ** Answers *)
(** The answers about the devices are those of the set that is left in the cache. *)
Lemma execute_lookup {A} c o now (fn : ownerSubject H -> ownerSubject H * A) c' r :
  executeOnLockedOwnerSubject c o now fn = (c', r) ->
  exists s, oc_owners c' !! o = Some s /\
    fn (default (newOwnerSubject (now + oc_expiration c)%Z) (oc_owners c !! o)) = (s, r).
Proof.
  unfold executeOnLockedOwnerSubject. destruct (fn _) as [s a] eqn:E. intros [= <- <-].
  exists s. split; [|done]. cbn. apply lookup_insert_eq.
Qed.

Theorem OwnsDevices_spec c owner now a devices c' b :
  cache_ok c -> OwnsDevices c (inr owner) now a devices = (c', inr b) ->
  exists s, oc_owners c' !! owner = Some s /\ os_devicesSynced s = true /\
    (b = true <-> forall d, d ∈ devices -> d ∈ device_set s).
Proof.
  intros Hc Ho. unfold OwnsDevices in Ho. apply execute_lookup in Ho as (s & Hs & Hfn).
  exists s. split; [done|].
  pose proof (cached_ok c owner (now + oc_expiration c)%Z Hc) as Hok. set (s0 := default _ _) in *.
  pose proof (synced_devices_ok c a s0 Hok) as Hok1.
  assert (Hsynced : forall s1, synced_devices c a s0 = (s1, None) -> os_devicesSynced s1 = true).
  { unfold synced_devices. intros s1. destruct (os_devicesSynced s0) eqn:E; [by intros [= <-]|].
    cbn [negb]. unfold syncDevicesLocked, updateDevicesLocked.
    destruct (subscribeLocked _ s0) as [s2 [err|]]; [done|].
    destruct (getOwnerDevices _); [done|]. by intros [= <-]. }
  destruct (synced_devices c a s0) as [s1 [err|]]; [done|]. injection Hfn as -> <-.
  split; [by apply Hsynced|]. cbn in Hok1. destruct Hok1 as [Ha _].
  destruct (MakeSortedSlice_spec devices) as [Hm Hel].
  unfold IsSuperslice. rewrite IsSubslice_spec by done. unfold device_set.
  setoid_rewrite elem_of_list_to_set. unfold subseteq, list_subseteq. by setoid_rewrite Hel.
Qed.

(** ** Expiration *)
(** An owner without handlers whose time is over leaves the cache; with handlers,
    its devices are forgotten; nothing else changes. *)
Lemma delete_all_expired_spec c owners now o :
  oc_owners (delete_all_expired c owners now).1 !! o =
  match oc_owners c !! o with
  | Some s => if bool_decide (o ∈ owners) && is_expired_owner now s then None else Some s
  | None => None
  end.
Proof.
  revert c. induction owners as [|o' owners IH]; intros c; cbn [delete_all_expired].
  { cbn [fst]. destruct (oc_owners c !! o); [|done].
    rewrite bool_decide_eq_false_2; [done|apply not_elem_of_nil]. }
  destruct (delete_expired c o' now) as [c1 sub] eqn:E1.
  destruct (delete_all_expired c1 owners now) as [c2 subs] eqn:E2. cbn.
  specialize (IH c1). rewrite E2 in IH. cbn in IH. rewrite IH. unfold delete_expired in E1.
  assert (Hc1 : oc_owners c1 !! o =
    match oc_owners c !! o with
    | Some s => if bool_decide (o = o') && is_expired_owner now s then None else Some s
    | None => None end).
  { destruct (decide (o = o')) as [->|Hne].
    - rewrite bool_decide_eq_true_2 by done. cbn [andb]. unfold is_expired_owner.
      destruct (oc_owners c !! o') as [s|] eqn:Eo; [|injection E1 as <- _; by rewrite Eo].
      destruct (bool_decide (os_handlers s = ∅)); cbn [negb andb] in *.
      + destruct (Before _ now); injection E1 as <- _; cbn; [apply lookup_delete_eq|done].
      + injection E1 as <- _. done.
    - rewrite bool_decide_eq_false_2 by done. cbn [andb].
      enough (oc_owners c1 !! o = oc_owners c !! o) as -> by (by destruct (oc_owners c !! o)).
      destruct (oc_owners c !! o') as [s|]; [|by injection E1 as <- _].
      destruct (negb _); [by injection E1 as <- _|].
      destruct (Before _ now); injection E1 as <- _; [|done]. cbn. by rewrite lookup_delete_ne. }
  rewrite Hc1. destruct (oc_owners c !! o) as [s|]; [|done].
  rewrite (bool_decide_ext (o ∈ o' :: owners) (o = o' \/ o ∈ owners)) by apply elem_of_cons.
  rewrite bool_decide_or. destruct (bool_decide (o = o')), (is_expired_owner now s) eqn:Ee; cbn;
    by rewrite ?Ee, ?andb_false_r.
Qed.

Theorem checkExpiration_spec range c now o :
  (forall m, range m ≡ₚ map_to_list m) ->
  oc_owners (checkExpiration range c now).1 !! o =
  match oc_owners c !! o with
  | Some s => if is_expired_owner now s then None else Some (expire_devices now s)
  | None => None
  end.
Proof.
  intros Hr. unfold checkExpiration, getExpiredOwnerSubjects. rewrite delete_all_expired_spec.
  cbn. rewrite lookup_fmap. destruct (oc_owners c !! o) as [s|] eqn:Eo; [|done]. cbn.
  assert (Hexp : is_expired_owner now (expire_devices now s) = is_expired_owner now s).
  { unfold is_expired_owner, expire_devices. by destruct (bool_decide (os_handlers s = ∅)) eqn:E1,
      (Before (os_validUntil s) now) eqn:E2; cbn; rewrite ?E1, ?E2. }
  rewrite Hexp. destruct (is_expired_owner now s) eqn:Ee; [|by rewrite andb_false_r].
  rewrite bool_decide_eq_true_2; [done|]. apply list_elem_of_omap. exists (o, s).
  rewrite Hr, elem_of_map_to_list. cbn. by rewrite Ee.
Qed.
End cache.
