(* ===== verification/RequestHandler.v ===== *)
(** * The gRPC API of resource-aggregate

    resource-aggregate/service: grpcApi.go, batchNotifyResourceChanged.go,
    deleteDevices.go, and the handlers of updateDeviceMetadata.go,
    confirmDeviceMetadataUpdate.go, cancelDeviceMetadataUpdates.go and
    cancelResourceCommands.go.  A handler finds out who calls and whether the
    device is theirs, lets the aggregate handle the command, and publishes the
    events.  The state is the event store, what was given to the publisher, and
    whatever answers the question for the devices of an owner; the only error a
    publisher can answer is logged. *)

From Stdlib Require Import ZArith String.
From S2P Require Import Prelude Commands Events EventStore Handler Projection Aggregate.
From S2P Require Import ResourceState ResourceLinks DeviceMetadata ResourceModel Validation Subjects.
From S2P Require Import SortedSlice IdentityStore HandlerTable OwnerCache.

(** ** The models of the other aggregates: service/aggregate.go *)
Section factories.
Context `{!UUIDLib} `{!StringSet} (cc : CommandContext).
Definition DeviceMetadata_AggregateModel
    : AggregateModel DeviceMetadataSnapshotTaken AnyEvent AnyEvent Command := {|
  ag_step := loop_body DeviceMetadata.handleByEvent;
  ag_HandleCommand clk _ m cmd newVersion := DeviceMetadata.HandleCommand cc clk m cmd newVersion;
  ag_TakeSnapshot t m version :=
    Some (EvDeviceMetadataSnapshotTaken (DeviceMetadata.TakeSnapshot t m version)) |}.
Definition DeviceMetadataFactoryModel : Factory DeviceMetadataSnapshotTaken :=
  fun _ _ => inr NewDeviceMetadataSnapshotTaken.
Definition ResourceLinksFactoryModel : Factory ResourceModel :=
  fun _ _ => inr (ResourceLinks_ NewResourceLinksSnapshotTaken).
(** NewAggregate: no additional models. *)
Definition NewAggregate_ {M} (resourceID : option ResourceId) (factoryModel : Factory M)
    : result (Aggregate M) :=
  match Aggregate.NewAggregate (resourceID ~> rid_DeviceId) (ResourceId_ToUUID resourceID) factoryModel [] with
  | inl err => inl (Wrap "cannot create aggregate for resource" err)
  | inr a => inr a
  end.
End factories.

(** ** Responses *)
Record PublishResourceLinksResponse := MkPublishResourceLinksResponse {
  pls_AuditContext : AuditContext; pls_PublishedResources : gslice Resource; pls_DeviceId : string }.
Record UnpublishResourceLinksResponse := MkUnpublishResourceLinksResponse {
  uls_AuditContext : AuditContext; uls_UnpublishedHrefs : gslice string; uls_DeviceId : string }.
(** NotifyResourceChangedResponse and the responses to confirmations. *)
Record AuditResponse := MkAuditResponse { as_AuditContext : AuditContext }.
(** UpdateResourceResponse, RetrieveResourceResponse, DeleteResourceResponse and CreateResourceResponse. *)
Record PendingResponse := MkPendingResponse { ps_AuditContext : AuditContext; ps_ValidUntil : Z }.
(** CancelPendingCommandsResponse and CancelPendingMetadataUpdatesResponse. *)
Record CancelResponse := MkCancelResponse { cs_AuditContext : AuditContext; cs_CorrelationIds : list string }.
Record UpdateDeviceMetadataResponse := MkUpdateDeviceMetadataResponse {
  uds_AuditContext : AuditContext; uds_TwinEnabled : bool; uds_ValidUntil : Z }.
Record DeleteDevicesResponse := MkDeleteDevicesResponse {
  dds_DeviceIds : list string; dds_AuditContext : AuditContext }.

(** What the publisher is given: the subjects, the ids and the event. *)
Record Publication := MkPublication {
  pb_subjects : list string; pb_DeviceID : string; pb_ResourceID : string; pb_Event : AnyEvent }.

(** The fields of Config that the handlers read. *)
Record Config := MkConfig {
  cfg_OwnerClaim : string; cfg_HubID : string; cfg_ConcurrencyExceptionMaxRetry : Z;
  cfg_DefaultCommandTimeToLive : Z }.

(** src/pkg/net/grpc/auth.go *)
Definition SubjectFromTokenMD `{!TokenLib} (ctx : context) : result string :=
  match TokenFromMD ctx with
  | inl err => inl (ForwardFromError InvalidArgument err)
  | inr token =>
  match ParseToken token with
  | inl err => inl (ForwardFromError InvalidArgument err)
  | inr claims =>
  match Claims_GetSubject claims with
  | inl err => inl (ForwardFromError InvalidArgument err)
  | inr subject =>
      if String.eqb subject "" then inl (Errorf InvalidArgument "invalid subject in token") else inr subject
  end end end.

(** ** The requests of the API

    The service ResourceAggregate of pb/service.proto, but for UpdateServiceMetadata, which the
    loop of the heartbeats answers ([UpdateServiceMetadata_push] and [processRequest] in Heartbeat). *)
Inductive Request :=
  | RqPublishResourceLinks (r : PublishResourceLinksRequest)
  | RqUnpublishResourceLinks (r : UnpublishResourceLinksRequest)
  | RqNotifyResourceChanged (r : NotifyResourceChangedRequest)
  | RqUpdateResource (r : UpdateResourceRequest)
  | RqConfirmResourceUpdate (r : ConfirmResourceUpdateRequest)
  | RqRetrieveResource (r : RetrieveResourceRequest)
  | RqConfirmResourceRetrieve (r : ConfirmResourceRetrieveRequest)
  | RqDeleteResource (r : DeleteResourceRequest)
  | RqConfirmResourceDelete (r : ConfirmResourceDeleteRequest)
  | RqCreateResource (r : CreateResourceRequest)
  | RqConfirmResourceCreate (r : ConfirmResourceCreateRequest)
  | RqUpdateDeviceMetadata (r : UpdateDeviceMetadataRequest)
  | RqConfirmDeviceMetadataUpdate (r : ConfirmDeviceMetadataUpdateRequest)
  | RqCancelPendingMetadataUpdates (r : CancelPendingMetadataUpdatesRequest)
  | RqCancelPendingCommands (r : CancelPendingCommandsRequest)
  | RqDeleteDevices (deviceIds : list string)
  | RqBatchNotifyResourceChanged (batch : list NotifyResourceChangedRequest).
(** The command that a request for one device gives to the aggregate. *)
Definition request_command (rq : Request) : option Command :=
  match rq with
  | RqPublishResourceLinks r => Some (CmdPublishResourceLinks r)
  | RqUnpublishResourceLinks r => Some (CmdUnpublishResourceLinks r)
  | RqNotifyResourceChanged r => Some (CmdNotifyResourceChanged r)
  | RqUpdateResource r => Some (CmdUpdateResource r)
  | RqConfirmResourceUpdate r => Some (CmdConfirmResourceUpdate r)
  | RqRetrieveResource r => Some (CmdRetrieveResource r)
  | RqConfirmResourceRetrieve r => Some (CmdConfirmResourceRetrieve r)
  | RqDeleteResource r => Some (CmdDeleteResource r)
  | RqConfirmResourceDelete r => Some (CmdConfirmResourceDelete r)
  | RqCreateResource r => Some (CmdCreateResource r)
  | RqConfirmResourceCreate r => Some (CmdConfirmResourceCreate r)
  | RqUpdateDeviceMetadata r => Some (CmdUpdateDeviceMetadata r)
  | RqConfirmDeviceMetadataUpdate r => Some (CmdConfirmDeviceMetadataUpdate r)
  | RqCancelPendingMetadataUpdates r => Some (CmdCancelPendingMetadataUpdates r)
  | RqCancelPendingCommands r => Some (CmdCancelPendingCommands r)
  | RqDeleteDevices _ | RqBatchNotifyResourceChanged _ => None
  end.
(** The one device that a request is for. *)
Definition request_device (rq : Request) : option string :=
  match rq with
  | RqPublishResourceLinks r => Some (plr_DeviceId r)
  | RqUnpublishResourceLinks r => Some (ulr_DeviceId r)
  | RqUpdateDeviceMetadata r => Some (udr_DeviceId r)
  | RqConfirmDeviceMetadataUpdate r => Some (cmr_DeviceId r)
  | RqCancelPendingMetadataUpdates r => Some (cxr_DeviceId r)
  | RqNotifyResourceChanged r => Some ((ncr_ResourceId r) ~> rid_DeviceId)
  | RqUpdateResource r => Some ((urr_ResourceId r) ~> rid_DeviceId)
  | RqConfirmResourceUpdate r => Some ((cur_ResourceId r) ~> rid_DeviceId)
  | RqRetrieveResource r => Some ((rrr_ResourceId r) ~> rid_DeviceId)
  | RqConfirmResourceRetrieve r => Some ((ctr_ResourceId r) ~> rid_DeviceId)
  | RqDeleteResource r => Some ((drr_ResourceId r) ~> rid_DeviceId)
  | RqConfirmResourceDelete r => Some ((cdr_ResourceId r) ~> rid_DeviceId)
  | RqCreateResource r => Some ((crr_ResourceId r) ~> rid_DeviceId)
  | RqConfirmResourceCreate r => Some ((ccr_ResourceId r) ~> rid_DeviceId)
  | RqCancelPendingCommands r => Some ((cpr_ResourceId r) ~> rid_DeviceId)
  | RqDeleteDevices _ | RqBatchNotifyResourceChanged _ => None
  end.

(** ** The handlers *)
Section handlers.
Context `{!UUIDLib} `{!StringSet} `{!ContentCodec} `{!TokenLib} {St Dv : Type}
  `{!EventStore St AnyEvent AnyEvent} (order : gmap string Resource -> list string)
  (RemoveUpToVersion : St -> VersionQuery -> St) (Delete : St -> list string -> St * option error)
  (GetPublishSubject : string -> AnyEvent -> list string) (trace : context -> carrier)
  (ToSlice : gset string -> list string)
  (getOwnerDevicesFunc : Dv -> context -> string -> list string -> Dv * result (list string))
  (config : Config).

(** RequestHandler: the event store, what the publisher was given, and what the
    devices of an owner are asked from. *)
Record RequestHandler := MkRequestHandler {
  rh_eventstore : St; rh_published : list Publication; rh_devices : Dv }.
Implicit Types (s : RequestHandler) (ctx : context).
Definition with_store (store : St) s : RequestHandler := MkRequestHandler store (rh_published s) (rh_devices s).

(** A handler answers an error or a response; [None] is a loop that has not ended. *)
Abbreviation Outcome A := (option (RequestHandler * result A)).
#[local] Notation "'do!' x , s ':=' c 'in' k" :=
  (match c with
   | None => None
   | Some (s, inl err) => Some (s, inl err)
   | Some (s, inr x) => k
   end) (at level 10, x pattern, s name, c at level 100, k at level 200).

Definition PublishEvents (owner deviceID resourceID : string) (events : list AnyEvent) s : RequestHandler :=
  MkRequestHandler (rh_eventstore s)
    (rh_published s ++
     ((fun event => MkPublication (GetPublishSubject owner event) deviceID resourceID event) <$> events))
    (rh_devices s).

(** *** Who calls *)
Definition isUserDevice ctx (owner deviceID : string) s : RequestHandler * result bool :=
  let '(dv, r) := getOwnerDevicesFunc (rh_devices s) ctx owner [deviceID] in
  (MkRequestHandler (rh_eventstore s) (rh_published s) dv,
   let! deviceIds := r in inr (length deviceIds =? 1)%nat).
Definition validateAccessToDeviceWithOwner ctx (deviceID owner : string) s : RequestHandler * option error :=
  match isUserDevice ctx owner deviceID s with
  | (s, inl err) => (s, Some (ForwardErrorf Internal "cannot validate: %v" err))
  | (s, inr ok) => (s, if ok then None else Some (Errorf PermissionDenied "access denied"))
  end.
Definition validateAccessToDevice ctx (deviceID : string) s : RequestHandler * result (string * string) :=
  match SubjectFromTokenMD ctx with
  | inl err => (s, inl (ForwardErrorf InvalidArgument "invalid userID: %v" err))
  | inr userID =>
  match OwnerFromTokenMD ctx (cfg_OwnerClaim config) with
  | inl err => (s, inl (ForwardErrorf InvalidArgument "invalid owner: %v" err))
  | inr owner =>
  match validateAccessToDeviceWithOwner ctx deviceID owner s with
  | (s, Some err) => (s, inl err)
  | (s, None) => (s, inr (userID, owner))
  end end end.
Definition getOwnedDevices ctx (deviceIDs : list string) s
    : RequestHandler * result (string * string * list string) :=
  match SubjectFromTokenMD ctx with
  | inl err => (s, inl (ForwardErrorf InvalidArgument "invalid userID: %v" err))
  | inr userID =>
  match OwnerFromTokenMD ctx (cfg_OwnerClaim config) with
  | inl err => (s, inl (ForwardErrorf InvalidArgument "invalid owner: %v" err))
  | inr owner =>
  let '(dv, r) := getOwnerDevicesFunc (rh_devices s) ctx owner deviceIDs in
  let s := MkRequestHandler (rh_eventstore s) (rh_published s) dv in
  match r with
  | inl err => (s, inl (ForwardErrorf InvalidArgument "cannot validate: %v" err))
  | inr ownedDevices => (s, inr (userID, owner, ownedDevices))
  end end end.
(** The beginning of a handler for one device. *)
Definition access ctx (deviceID : string) s : Outcome (string * string) :=
  match validateAccessToDevice ctx deviceID s with
  | (s, inl err) => Some (s, inl (ForwardErrorf Internal "cannot validate user access: %v" err))
  | (s, inr user) => Some (s, inr user)
  end.

(** *** What all handlers do with an aggregate

    The method of the aggregate for [cmd], which checks it (Validation) and
    handles it; [unable] is the message of the method; [cannot] those of the
    handler, when there is no aggregate and when the method fails, and [code] the
    code of the latter; [wanted] tells whether to publish. *)
Definition method {M} `{!AggregateModel M AnyEvent AnyEvent Command} (unable : string) (reuse : bool)
    (att : nat -> Attempt St) (a : Aggregate M) (cmd : Command) (store : St)
    : option (St * result (list AnyEvent * M * (string -> option M))) :=
  match validate cmd with
  | Some err => Some (store, inl err)
  | None =>
      let retry := MkDefaultRetry (cfg_ConcurrencyExceptionMaxRetry config) 0 in
      match HandleCommand_go reuse (2 + Z.to_nat (retry_limit retry - retry_counter retry)) att true a (a_factoryModel a)
              retry store cmd with
      | None => None
      | Some (store, _, inl err) => Some (store, inl (Wrap unable err))
      | Some (store, _, inr (events, m, others)) =>
          Some (fold_left RemoveUpToVersion (cleanUpToSnapshot events) store, inr (events, m, others))
      end
  end.
Definition execute {M} `{!AggregateModel M AnyEvent AnyEvent Command} (unable : string) (cannot : string * string)
    (code : Code) (reuse : bool) (att : nat -> Attempt St) (owner : string) (aggregate : result (Aggregate M))
    (cmd : Command) (wanted : (string -> option M) -> bool) s : Outcome (list AnyEvent * M) :=
  match aggregate with
  | inl err => Some (s, inl (ForwardErrorf InvalidArgument cannot.1 err))
  | inr a =>
      match method unable reuse att a cmd (rh_eventstore s) with
      | None => None
      | Some (store, inl err) => Some (with_store store s, inl (ForwardErrorf code cannot.2 err))
      | Some (store, inr (events, m, others)) =>
          let s := with_store store s in
          Some (if wanted others then PublishEvents owner (a_groupID a) (a_aggregateID a) events s else s,
                inr (events, m))
      end
  end.
Definition command_context ctx (user : string * string) : CommandContext :=
  MkCommandContext user.1 user.2 (cfg_HubID config) None (trace ctx).
(** The aggregates of a resource, of the links and of the metadata of a device. *)
Definition on_resource (unable : string) (cannot : string * string) (code : Code) (linked : bool) ctx (user : string * string)
    (att : nat -> Attempt St) (rid : option ResourceId) (cmd : Command)
    (wanted : (string -> option ResourceModel) -> bool) s : Outcome (list AnyEvent * ResourceModel) :=
  execute (AggregateModel0 := ResourceModel_AggregateModel (command_context ctx user) order (rid ~> rid_DeviceId))
    unable cannot code true att user.2 (NewResourceAggregate rid linked) cmd wanted s.
Definition on_links (unable : string) (cannot : string * string) ctx (user : string * string) (att : nat -> Attempt St)
    (deviceID : string) (cmd : Command) s : Outcome (list AnyEvent * ResourceModel) :=
  execute (AggregateModel0 := ResourceModel_AggregateModel (command_context ctx user) order deviceID)
    unable cannot Internal false att user.2
    (NewAggregate_ (Some (NewResourceID deviceID ResourceLinksHref)) ResourceLinksFactoryModel) cmd
    (fun _ => true) s.
Definition on_device (unable : string) (cannot : string * string) (code : Code) ctx (user : string * string)
    (att : nat -> Attempt St) (deviceID : string) (cmd : Command) s
    : Outcome (list AnyEvent * DeviceMetadataSnapshotTaken) :=
  execute (AggregateModel0 := DeviceMetadata_AggregateModel (command_context ctx user))
    unable cannot code false att user.2
    (NewAggregate_ (Some (NewResourceID deviceID StatusHref)) DeviceMetadataFactoryModel) cmd
    (fun _ => true) s.
Definition both (m : string) : string * string := (m, m).
Definition always {X} : X -> bool := fun _ => true.

(** *** Links *)
Definition newPublishResourceLinksResponse (events : list AnyEvent) (deviceID : string) (ac : AuditContext)
    : PublishResourceLinksResponse :=
  match head (omap (fun e => match e with EvResourceLinksPublished p => Some p | _ => None end) events) with
  | Some rlp => MkPublishResourceLinksResponse ac (rlp_Resources rlp) deviceID
  | None => MkPublishResourceLinksResponse ac None deviceID
  end.
Definition PublishResourceLinks att ctx (request : PublishResourceLinksRequest) s
    : Outcome PublishResourceLinksResponse :=
  do! user, s := access ctx (plr_DeviceId request) s in
  do! (events, _), s := on_links "unable to process publish resource links command"
    (both "cannot publish resource links: %v") ctx user att (plr_DeviceId request)
    (CmdPublishResourceLinks request) s in
  Some (s, inr (newPublishResourceLinksResponse events (plr_DeviceId request) (NewAuditContext user.1 "" user.2))).
Definition newUnpublishResourceLinksResponse (events : list AnyEvent) (deviceID : string) (ac : AuditContext)
    : UnpublishResourceLinksResponse :=
  match head (omap (fun e => match e with EvResourceLinksUnpublished p => Some p | _ => None end) events) with
  | Some rlu => MkUnpublishResourceLinksResponse ac (rlu_Hrefs rlu) deviceID
  | None => MkUnpublishResourceLinksResponse ac None deviceID
  end.

(** *** Contents *)
Definition notifyResourceChanged att ctx (request : NotifyResourceChangedRequest) (user : string * string) s
    : Outcome unit :=
  do! _, s := on_resource "unable to process notify content changed command"
    (both "cannot notify about resource content change: %v") Internal
    (length (ncr_ResourceTypes request) =? 0)%nat ctx user att (ncr_ResourceId request)
    (CmdNotifyResourceChanged request) always s in
  Some (s, inr tt).
Definition NotifyResourceChanged att ctx (request : NotifyResourceChangedRequest) s : Outcome AuditResponse :=
  do! user, s := access ctx ((ncr_ResourceId request) ~> rid_DeviceId) s in
  do! _, s := notifyResourceChanged att ctx request user s in
  Some (s, inr (MkAuditResponse (NewAuditContext user.1 "" user.2))).
(** The content of a resource that is gone. *)
Definition unpublished_content (deviceID href : string) (cm : option CommandMetadata)
    : NotifyResourceChangedRequest :=
  MkNotifyResourceChangedRequest (Some (NewResourceID deviceID href)) (Some (MkContent None "" (-1)))
    cm Status_NOT_FOUND None [].
(** The loop over the hrefs, which logs the errors. *)
Fixpoint reset_contents (att : nat -> nat -> Attempt St) ctx (deviceID : string) (cm : option CommandMetadata)
    (hrefs : list string) s : option RequestHandler :=
  match hrefs with
  | [] => Some s
  | href :: hrefs =>
      match NotifyResourceChanged (att 0) ctx (unpublished_content deviceID href cm) s with
      | None => None
      | Some (s, _) => reset_contents (fun n => att (S n)) ctx deviceID cm hrefs s
      end
  end.
Definition UnpublishResourceLinks (att : nat -> nat -> Attempt St) ctx (request : UnpublishResourceLinksRequest) s
    : Outcome UnpublishResourceLinksResponse :=
  do! user, s := access ctx (ulr_DeviceId request) s in
  do! (events, _), s := on_links "unable to process unpublish resource links command"
    (both "cannot unpublish resource links: %v") ctx user (att 0) (ulr_DeviceId request)
    (CmdUnpublishResourceLinks request) s in
  let resp := newUnpublishResourceLinksResponse events (ulr_DeviceId request)
                (NewAuditContext user.1 "" user.2) in
  match reset_contents (fun n => att (S n)) ctx (uls_DeviceId resp) (ulr_CommandMetadata request)
          (elems (uls_UnpublishedHrefs resp)) s with
  | None => None
  | Some s => Some (s, inr resp)
  end.

(** *** Commands on a resource *)
(** [validUntil] of the first pending command among the events. *)
Definition valid_until (f : AnyEvent -> option Z) (events : list AnyEvent) : Z :=
  default 0%Z (head (omap f events)).
Definition wantToPublish (force : bool) (rid : option ResourceId) (others : string -> option ResourceModel) : bool :=
  if negb force then true else isPublished (Some (links_of (rid ~> rid_DeviceId) others)) rid.
Definition default_ttl : Z -> Z := checkTimeToLiveForDefault (cfg_DefaultCommandTimeToLive config).

Definition UpdateResource att ctx (r : UpdateResourceRequest) s : Outcome PendingResponse :=
  do! user, s := access ctx ((urr_ResourceId r) ~> rid_DeviceId) s in
  let r := MkUpdateResourceRequest (urr_ResourceId r) (urr_CorrelationId r) (urr_Content r)
             (urr_ResourceInterface r) (default_ttl (urr_TimeToLive r)) (urr_CommandMetadata r) (urr_Force r) in
  do! (events, _), s := on_resource "unable to process update resource content command"
    (both "cannot update resource content: %v") Internal true ctx user att (urr_ResourceId r) (CmdUpdateResource r)
    (wantToPublish (urr_Force r) (urr_ResourceId r)) s in
  Some (s, inr (MkPendingResponse (NewAuditContext user.1 (urr_CorrelationId r) user.2)
    (valid_until (fun e => match e with EvResourceUpdatePending p => Some (rup_ValidUntil p) | _ => None end) events))).
Definition RetrieveResource att ctx (r : RetrieveResourceRequest) s : Outcome PendingResponse :=
  do! user, s := access ctx ((rrr_ResourceId r) ~> rid_DeviceId) s in
  let r := MkRetrieveResourceRequest (rrr_ResourceId r) (rrr_CorrelationId r) (rrr_ResourceInterface r)
             (default_ttl (rrr_TimeToLive r)) (rrr_CommandMetadata r) (rrr_Etag r) in
  do! (events, _), s := on_resource "unable to process retrieve resource content command"
    (both "cannot retrieve resource content: %v") Internal true ctx user att (rrr_ResourceId r) (CmdRetrieveResource r)
    always s in
  Some (s, inr (MkPendingResponse (NewAuditContext user.1 (rrr_CorrelationId r) user.2)
    (valid_until (fun e => match e with EvResourceRetrievePending p => Some (rrp_ValidUntil p) | _ => None end) events))).
Definition DeleteResource att ctx (r : DeleteResourceRequest) s : Outcome PendingResponse :=
  do! user, s := access ctx ((drr_ResourceId r) ~> rid_DeviceId) s in
  let r := MkDeleteResourceRequest (drr_ResourceId r) (drr_CorrelationId r) (default_ttl (drr_TimeToLive r))
             (drr_CommandMetadata r) (drr_ResourceInterface r) (drr_Force r) in
  do! (events, _), s := on_resource "unable to process delete resource content command"
    (both "cannot delete resource: %v") Internal true ctx user att (drr_ResourceId r) (CmdDeleteResource r)
    (wantToPublish (drr_Force r) (drr_ResourceId r)) s in
  Some (s, inr (MkPendingResponse (NewAuditContext user.1 (drr_CorrelationId r) user.2)
    (valid_until (fun e => match e with EvResourceDeletePending p => Some (rdp_ValidUntil p) | _ => None end) events))).
Definition CreateResource att ctx (r : CreateResourceRequest) s : Outcome PendingResponse :=
  do! user, s := access ctx ((crr_ResourceId r) ~> rid_DeviceId) s in
  let r := MkCreateResourceRequest (crr_ResourceId r) (crr_CorrelationId r) (crr_Content r)
             (default_ttl (crr_TimeToLive r)) (crr_CommandMetadata r) (crr_Force r) in
  do! (events, _), s := on_resource "unable to process create resource content command"
    (both "cannot create resource: %v") Internal true ctx user att (crr_ResourceId r) (CmdCreateResource r)
    (wantToPublish (crr_Force r) (crr_ResourceId r)) s in
  Some (s, inr (MkPendingResponse (NewAuditContext user.1 (crr_CorrelationId r) user.2)
    (valid_until (fun e => match e with EvResourceCreatePending p => Some (rcp_ValidUntil p) | _ => None end) events))).

(** What the four confirmations have in common. *)
Definition confirm (unable : string) (cannot : string * string) att ctx (rid : option ResourceId) (correlationID : string)
    (cmd : Command) s : Outcome AuditResponse :=
  do! user, s := access ctx (rid ~> rid_DeviceId) s in
  do! _, s := on_resource unable cannot Internal true ctx user att rid cmd always s in
  Some (s, inr (MkAuditResponse (NewAuditContext user.1 correlationID user.2))).
Definition ConfirmResourceUpdate att ctx (r : ConfirmResourceUpdateRequest) : RequestHandler -> Outcome AuditResponse :=
  confirm "unable to process update resource content notification command"
    (both "cannot confirm resource content update: %v") att ctx (cur_ResourceId r) (cur_CorrelationId r)
    (CmdConfirmResourceUpdate r).
Definition ConfirmResourceRetrieve att ctx (r : ConfirmResourceRetrieveRequest) : RequestHandler -> Outcome AuditResponse :=
  confirm "unable to process retrieve resource content notification command"
    ("ccannot confirm resource content retrieve: %v", "cannot confirm resource content retrieve: %v") att ctx (ctr_ResourceId r) (ctr_CorrelationId r)
    (CmdConfirmResourceRetrieve r).
Definition ConfirmResourceDelete att ctx (r : ConfirmResourceDeleteRequest) : RequestHandler -> Outcome AuditResponse :=
  confirm "unable to process delete resource content notification command"
    (both "cannot confirm resource deletion: %v") att ctx (cdr_ResourceId r) (cdr_CorrelationId r)
    (CmdConfirmResourceDelete r).
Definition ConfirmResourceCreate att ctx (r : ConfirmResourceCreateRequest) : RequestHandler -> Outcome AuditResponse :=
  confirm "unable to process create resource content notification command"
    (both "cannot confirm resource creation: %v") att ctx (ccr_ResourceId r) (ccr_CorrelationId r)
    (CmdConfirmResourceCreate r).

Definition CancelPendingCommands att ctx (r : CancelPendingCommandsRequest) s : Outcome CancelResponse :=
  do! user, s := access ctx ((cpr_ResourceId r) ~> rid_DeviceId) s in
  do! (cancelEvents, _), s := on_resource "unable to process cancel resource command"
    (both "cannot cancel resource('%v') command: %v") InvalidArgument false ctx user att (cpr_ResourceId r)
    (CmdCancelPendingCommands r) always s in
  let canceled e := match e with
    | EvResourceCreated ev => Some ((rcd_AuditContext ev) ~> ac_CorrelationId)
    | EvResourceUpdated ev => Some ((ru_AuditContext ev) ~> ac_CorrelationId)
    | EvResourceRetrieved ev => Some ((rr_AuditContext ev) ~> ac_CorrelationId)
    | EvResourceDeleted ev => Some ((rd_AuditContext ev) ~> ac_CorrelationId)
    | _ => None
    end in
  Some (s, inr (MkCancelResponse (NewAuditContext user.1 "" user.2) (omap canceled cancelEvents))).

(** *** Metadata of a device *)
Definition UpdateDeviceMetadata att ctx (r : UpdateDeviceMetadataRequest) s
    : Outcome UpdateDeviceMetadataResponse :=
  do! user, s := access ctx (udr_DeviceId r) s in
  let r := MkUpdateDeviceMetadataRequest (udr_DeviceId r) (udr_CorrelationId r) (udr_Update r)
             (default_ttl (udr_TimeToLive r)) (udr_CommandMetadata r) in
  do! (events, latestSnapshot), s := on_device "unable to process update device metadata command command"
    (both "cannot update device('%v') metadata: %v") Internal ctx user att (udr_DeviceId r)
    (CmdUpdateDeviceMetadata r) s in
  Some (s, inr (MkUpdateDeviceMetadataResponse (NewAuditContext user.1 "" user.2)
    ((dms_DeviceMetadataUpdated latestSnapshot) ~> dmu_TwinEnabled)
    (valid_until (fun e => match e with EvDeviceMetadataUpdatePending p => Some (dmp_ValidUntil p) | _ => None end)
       events))).
Definition ConfirmDeviceMetadataUpdate att ctx (r : ConfirmDeviceMetadataUpdateRequest) s
    : Outcome AuditResponse :=
  do! user, s := access ctx (cmr_DeviceId r) s in
  do! _, s := on_device "unable to process confirm device metadata update command"
    (both "cannot confirm device('%v') metadata update: %v") Internal ctx user att (cmr_DeviceId r)
    (CmdConfirmDeviceMetadataUpdate r) s in
  Some (s, inr (MkAuditResponse (NewAuditContext user.1 "" user.2))).
Definition CancelPendingMetadataUpdates att ctx (r : CancelPendingMetadataUpdatesRequest) s
    : Outcome CancelResponse :=
  do! user, s := access ctx (cxr_DeviceId r) s in
  do! (cancelEvents, _), s := on_device "unable to process cancel resource command"
    ("cannot cancel device ('%v') metadata updates: %v", "cannot cancel resource('%v') metadata updates: %v")
    InvalidArgument ctx user att (cxr_DeviceId r) (CmdCancelPendingMetadataUpdates r) s in
  let canceled e := match e with
    | EvDeviceMetadataUpdated ev => Some ((dmu_AuditContext ev) ~> ac_CorrelationId)
    | _ => None
    end in
  Some (s, inr (MkCancelResponse (NewAuditContext user.1 "" user.2) (omap canceled cancelEvents))).

(** updateServiceHeartbeat.go: a device of an expired service is put offline; the
    owner is the one that the metadata of the device name. *)
Definition updateDeviceToExpired att ctx (userID serviceID deviceID : string) s : Outcome unit :=
  let resID := Some (NewResourceID deviceID StatusHref) in
  do! (events, latestSnapshot), s :=
    execute (AggregateModel0 := DeviceMetadata_AggregateModel
        (MkCommandContext userID "" (cfg_HubID config) None (trace ctx)))
      "unable to process update device metadata command command"
      (both "cannot set device('%v') to offline state: %v") Internal false att ""
      (NewAggregate_ resID DeviceMetadataFactoryModel)
      (CmdUpdateDeviceToOffline (MkUpdateDeviceToOfflineRequest deviceID serviceID)) (fun _ => false) s in
  Some (PublishEvents (((dms_DeviceMetadataUpdated latestSnapshot) ~> dmu_AuditContext) ~> ac_Owner)
          deviceID (ResourceId_ToUUID resID) events s, inr tt).

(** *** Several devices *)
(** The loop of BatchNotifyResourceChanged; a multierror is the list of its errors. *)
Fixpoint batch_notify (att : nat -> nat -> Attempt St) ctx (user : string * string)
    (batch : list NotifyResourceChangedRequest) (errors : list error) s : option (RequestHandler * list error) :=
  match batch with
  | [] => Some (s, errors)
  | notify :: batch =>
      let failed err := Wrap "cannot notify resource changed %v: %w" err in
      let next := fun n => att (S n) in
      match validateAccessToDeviceWithOwner ctx ((ncr_ResourceId notify) ~> rid_DeviceId) user.2 s with
      | (s, Some err) => batch_notify next ctx user batch (errors ++ [failed err]) s
      | (s, None) =>
          match notifyResourceChanged (att 0) ctx notify user s with
          | None => None
          | Some (s, inl err) => batch_notify next ctx user batch (errors ++ [failed err]) s
          | Some (s, inr _) => batch_notify next ctx user batch errors s
          end
      end
  end.
(** ErrToGrpcStatus of a multierror: the first of its errors that has a status. *)
Definition ForwardErrors (code : Code) (formatter : string) (errors : list error) : error :=
  Errorf (default code (head (omap ErrToGrpcStatus errors))) formatter.
Definition BatchNotifyResourceChanged (att : nat -> nat -> Attempt St) ctx
    (batch : list NotifyResourceChangedRequest) s : Outcome AuditResponse :=
  match OwnerFromTokenMD ctx (cfg_OwnerClaim config) with
  | inl err => Some (s, inl (ForwardErrorf InvalidArgument
      "cannot process batch  notify resource changed: invalid owner: %v" err))
  | inr owner =>
  match SubjectFromTokenMD ctx with
  | inl err => Some (s, inl (ForwardErrorf InvalidArgument
      "cannot process batch  notify resource changed: invalid userID: %v" err))
  | inr userID =>
  match batch_notify att ctx (userID, owner) batch [] s with
  | None => None
  | Some (s, []) => Some (s, inr (MkAuditResponse (NewAuditContext userID "" owner)))
  | Some (s, errors) => Some (s, inl (ForwardErrors InvalidArgument
      "cannot process batch notify resource changed: %w" errors))
  end end end.

Definition getUniqueDeviceIdsFromDeleteRequest (deviceIds : list string) : list string :=
  ToSlice (list_to_set (filter (fun deviceID => deviceID <> "") deviceIds)).
Definition DeleteDevices ctx (deviceIds : list string) s : RequestHandler * result DeleteDevicesResponse :=
  match getOwnedDevices ctx (getUniqueDeviceIdsFromDeleteRequest deviceIds) s with
  | (s, inl err) => (s, inl (ForwardErrorf Internal "cannot validate user access: %v" err))
  | (s, inr (userID, owner, ownedDevices)) =>
      let ac := NewAuditContext userID "" owner in
      if (length ownedDevices =? 0)%nat then (s, inr (MkDeleteDevicesResponse [] ac))
      else
        match Delete (rh_eventstore s) ownedDevices with
        | (store, Some err) => (with_store store s, inl (ForwardErrorf Internal "cannot delete devices: %v" err))
        | (store, None) => (with_store store s, inr (MkDeleteDevicesResponse ownedDevices ac))
        end
  end.

(** *** One door for the requests *)
(** The state, and the error unless there is a response. *)
Definition forget {A} (o : Outcome A) : option (RequestHandler * option error) :=
  match o with
  | None => None
  | Some (s, inl err) => Some (s, Some err)
  | Some (s, inr _) => Some (s, None)
  end.
Definition serve (att : nat -> nat -> Attempt St) ctx (rq : Request) s : option (RequestHandler * option error) :=
  match rq with
  | RqPublishResourceLinks r => forget (PublishResourceLinks (att 0) ctx r s)
  | RqUnpublishResourceLinks r => forget (UnpublishResourceLinks att ctx r s)
  | RqNotifyResourceChanged r => forget (NotifyResourceChanged (att 0) ctx r s)
  | RqUpdateResource r => forget (UpdateResource (att 0) ctx r s)
  | RqConfirmResourceUpdate r => forget (ConfirmResourceUpdate (att 0) ctx r s)
  | RqRetrieveResource r => forget (RetrieveResource (att 0) ctx r s)
  | RqConfirmResourceRetrieve r => forget (ConfirmResourceRetrieve (att 0) ctx r s)
  | RqDeleteResource r => forget (DeleteResource (att 0) ctx r s)
  | RqConfirmResourceDelete r => forget (ConfirmResourceDelete (att 0) ctx r s)
  | RqCreateResource r => forget (CreateResource (att 0) ctx r s)
  | RqConfirmResourceCreate r => forget (ConfirmResourceCreate (att 0) ctx r s)
  | RqUpdateDeviceMetadata r => forget (UpdateDeviceMetadata (att 0) ctx r s)
  | RqConfirmDeviceMetadataUpdate r => forget (ConfirmDeviceMetadataUpdate (att 0) ctx r s)
  | RqCancelPendingMetadataUpdates r => forget (CancelPendingMetadataUpdates (att 0) ctx r s)
  | RqCancelPendingCommands r => forget (CancelPendingCommands (att 0) ctx r s)
  | RqDeleteDevices deviceIds => forget (Some (DeleteDevices ctx deviceIds s))
  | RqBatchNotifyResourceChanged batch => forget (BatchNotifyResourceChanged att ctx batch s)
  end.
End handlers.
Arguments RequestHandler : clear implicits.

(** ** Where the devices of an owner come from: NewService

    The cache of the devices of owners; [answers] are the times it reads and what
    the identity store and the event bus answer it, call by call. *)
Definition NewService_getOwnerDevicesFunc `{!TokenLib} {H} (ownerClaim : string)
    (answers : nat -> time_ * sync_answers) (d : OwnerCache H * nat) (ctx : context) (_ : string)
    (deviceIDs : list string) : OwnerCache H * nat * result (list string) :=
  let '(c, k) := d in
  let '(now, a) := answers k in
  let owner := OwnerFromTokenMD ctx ownerClaim in
  let '(c, r) := if negb (length deviceIDs =? 0)%nat then GetSelectedDevices c owner now a deviceIDs
                 else OwnerCache_GetDevices c owner now a in
  (c, S k, r).
