(* ===== verification/RequestHandlerFacts.v ===== *)
(** * The gRPC API of resource-aggregate: what its handlers guarantee

    A request for a device that is not the caller's changes and publishes
    nothing; a request on a resource that is answered was one step on the log of
    the resource, and what is published is what the log got; a batch is its parts
    one by one; a deletion deletes what the caller owns of what was asked for;
    every request but UpdateServiceMetadata, which is that of the heartbeats, is answered. *)

From Stdlib Require Import ZArith Lia String.
From S2P Require Import Prelude Commands Events EventStore Handler Projection ProjectionFacts Aggregate AggregateFacts.
From S2P Require Import ResourceState ResourceStateFacts ResourceStateSpec ResourceLinks ResourceModel Validation.
From S2P Require Import SortedSlice IdentityStore HandlerTable OwnerCache RequestHandler.

Section facts.
Context `{!UUIDLib} `{!StringSet} `{!ContentCodec} `{!TokenLib} {St Dv : Type}
  `{!EventStore St AnyEvent AnyEvent} (order : gmap string Resource -> list string)
  (RemoveUpToVersion : St -> VersionQuery -> St) (Delete : St -> list string -> St * option error)
  (GetPublishSubject : string -> AnyEvent -> list string) (trace : context -> carrier)
  (ToSlice : gset string -> list string)
  (getOwnerDevicesFunc : Dv -> context -> string -> list string -> Dv * result (list string))
  (config : Config).
#[local] Abbreviation RH := (RequestHandler St Dv).
Implicit Types (s : RH) (ctx : context).

#[local] Abbreviation with_env f :=
  (f order RemoveUpToVersion GetPublishSubject trace getOwnerDevicesFunc config) (only parsing).
#[local] Abbreviation serve :=
  (serve order RemoveUpToVersion Delete GetPublishSubject trace ToSlice getOwnerDevicesFunc config).

(** ** Access *)
#[local] Abbreviation validate_access := (validateAccessToDevice getOwnerDevicesFunc config).
(** Who may work on the device: the caller has a token with a subject and an owner,
    and of the one device asked for the answer has one. *)
Definition granted ctx (deviceID : string) (dv : Dv) (user : string * string) : Prop :=
  SubjectFromTokenMD ctx = inr user.1 /\ OwnerFromTokenMD ctx (cfg_OwnerClaim config) = inr user.2 /\
  exists dv' d, getOwnerDevicesFunc dv ctx user.2 [deviceID] = (dv', inr [d]).
Lemma validateAccess_spec ctx deviceID s :
  let '(s', r) := validate_access ctx deviceID s in
  rh_eventstore s' = rh_eventstore s /\ rh_published s' = rh_published s /\
  match r with
  | inl _ => forall user, ~ granted ctx deviceID (rh_devices s) user
  | inr user => granted ctx deviceID (rh_devices s) user
  end.
Proof.
  unfold validateAccessToDevice, granted.
  destruct (SubjectFromTokenMD ctx) as [err|userID]; [split_and!; [done..|]; naive_solver|].
  destruct (OwnerFromTokenMD ctx _) as [err|owner]; [split_and!; [done..|]; naive_solver|].
  unfold validateAccessToDeviceWithOwner, isUserDevice.
  destruct (getOwnerDevicesFunc (rh_devices s) ctx owner [deviceID]) as [dv [err|l]] eqn:Hg.
  - split_and!; [done..|]. intros [u o] (Hu & Ho & dv' & d & Hd). cbn in *. simplify_eq. congruence.
  - destruct (Nat.eqb_spec (length l) 1) as [Hl|Hl]; (split_and!; [done..|]).
    + destruct l as [|d [|]]; try done. by exists dv, d.
    + intros [u o] (Hu & Ho & dv' & d & Hd). cbn in *. simplify_eq. rewrite Hg in Hd. by injection Hd as _ ->.
Qed.
Lemma access_spec ctx deviceID s s' r :
  access getOwnerDevicesFunc config ctx deviceID s = Some (s', r) ->
  rh_eventstore s' = rh_eventstore s /\ rh_published s' = rh_published s /\
  match r with
  | inl _ => forall user, ~ granted ctx deviceID (rh_devices s) user
  | inr user => granted ctx deviceID (rh_devices s) user
  end.
Proof.
  unfold access. pose proof (validateAccess_spec ctx deviceID s) as Hv.
  destruct (validate_access ctx deviceID s) as [s1 [err|user]]; intros [= <- <-]; exact Hv.
Qed.
Lemma access_total ctx deviceID s :
  exists s' r, access getOwnerDevicesFunc config ctx deviceID s = Some (s', r).
Proof. unfold access. destruct (validate_access ctx deviceID s) as [s1 [err|user]]; by eexists _, _. Qed.
(** A handler that begins with [access] and goes on with [k]. *)
Lemma denied_stops {A} ctx deviceID s (k : string * string -> RH -> option (RH * result A)) :
  (forall user, ~ granted ctx deviceID (rh_devices s) user) ->
  exists s' err,
    forget (match access getOwnerDevicesFunc config ctx deviceID s with
            | None => None
            | Some (s', inl err) => Some (s', inl err)
            | Some (s', inr user) => k user s'
            end) = Some (s', Some err) /\
    rh_eventstore s' = rh_eventstore s /\ rh_published s' = rh_published s.
Proof.
  intros Hd. destruct (access_total ctx deviceID s) as (s' & r & Ha).
  pose proof (access_spec _ _ _ _ _ Ha) as (Hst & Hpub & Hr). rewrite Ha.
  destruct r as [err|user]; [|by destruct (Hd user)]. by exists s', err.
Qed.

(** C4: A request for one device (fifteen of the seventeen kinds) that is not the caller's is answered
    an error, and neither the store nor the event bus hears of it. *)
Theorem foreign_device_untouched att ctx rq deviceID s :
  request_device rq = Some deviceID ->
  (forall user, ~ granted ctx deviceID (rh_devices s) user) ->
  exists s' err, serve att ctx rq s = Some (s', Some err) /\
    rh_eventstore s' = rh_eventstore s /\ rh_published s' = rh_published s.
Proof.
  intros Hrq Hd. destruct rq; cbn in Hrq; try done; injection Hrq as <-; cbn [RequestHandler.serve];
    by apply denied_stops.
Qed.

(** ** What is done with an aggregate *)
Section execute.
Context {M : Type} `{!AggregateModel M AnyEvent AnyEvent Command}.
#[local] Abbreviation exec := (execute RemoveUpToVersion GetPublishSubject config).
Definition publications (owner : string) (a : Aggregate M) (evs : list AnyEvent) : list Publication :=
  (fun event => MkPublication (GetPublishSubject owner event) (a_groupID a) (a_aggregateID a) event) <$> evs.
(** What was published, and where the response comes from. *)
Lemma execute_spec unable cannot code reuse att owner agg cmd wanted s s' r :
  exec unable cannot code reuse att owner agg cmd wanted s = Some (s', r) ->
  rh_devices s' = rh_devices s /\
  match r with
  | inl _ => rh_published s' = rh_published s
  | inr (evs, m) => exists a store retry others,
      agg = inr a /\ validate cmd = None /\
      HandleCommand_go reuse (2 + Z.to_nat (cfg_ConcurrencyExceptionMaxRetry config - 0)) att true a
        (a_factoryModel a) (MkDefaultRetry (cfg_ConcurrencyExceptionMaxRetry config) 0) (rh_eventstore s) cmd
      = Some (store, retry, inr (evs, m, others)) /\
      rh_eventstore s' = fold_left RemoveUpToVersion (cleanUpToSnapshot evs) store /\
      rh_published s' = rh_published s ++ (if wanted others then publications owner a evs else [])
  end.
Proof.
  unfold execute, method. destruct agg as [err|a]; [by intros [= <- <-]|].
  destruct (validate cmd) as [err|] eqn:Hv; [by intros [= <- <-]|]. cbn [retry_limit retry_counter].
  destruct (HandleCommand_go _ _ _ _ _ _ _ _ _) as [[[store retry] [err|[[evs m] others]]]|] eqn:Hgo;
    [by intros [= <- <-]| |done].
  intros [= <- <-]. split; [by destruct (wanted others)|]. exists a, store, retry, others. split_and!; try done.
  - by destruct (wanted others).
  - destruct (wanted others); cbn; [done|by rewrite app_nil_r].
Qed.
Lemma execute_total unable cannot code reuse att owner agg cmd wanted s :
  exists s' r, exec unable cannot code reuse att owner agg cmd wanted s = Some (s', r).
Proof.
  unfold execute, method. destruct agg as [err|a]; [by eexists _, _|].
  destruct (validate cmd) as [err|]; [by eexists _, _|].
  destruct (HandleCommand_go_total reuse
    (2 + Z.to_nat (cfg_ConcurrencyExceptionMaxRetry config - 0)) att true a (a_factoryModel a)
    (MkDefaultRetry (cfg_ConcurrencyExceptionMaxRetry config) 0) (rh_eventstore s) cmd)
    as [[[store retry] [err|[[evs m] others]]] Hgo]; [cbn; lia| |];
    cbn [retry_limit retry_counter]; rewrite Hgo; by eexists _, _.
Qed.
End execute.

(** ** Every request is answered *)
Definition ends {A} (o : option (RH * A)) : Prop := exists s r, o = Some (s, r).
Lemma forget_ends {A} (o : option (RH * result A)) : ends o -> ends (forget o).
Proof. intros (s & [err|r] & ->); by eexists _, _. Qed.
Lemma bind_ends {A B} (o : option (RH * result A)) (k : A -> RH -> option (RH * result B)) :
  ends o -> (forall x s, ends (k x s)) ->
  ends (match o with None => None | Some (s, inl err) => Some (s, inl err) | Some (s, inr x) => k x s end).
Proof. intros (s & [err|r] & ->) Hk; [by eexists _, _|apply Hk]. Qed.
Lemma some_ends {A} s (r : A) : ends (Some (s, r)).
Proof. by eexists _, _. Qed.
#[local] Ltac answers := repeat first [apply forget_ends | apply some_ends | apply access_total | apply execute_total
  | apply (bind_ends (access _ _ _ _ _)); [|intros user ?] | apply (bind_ends (execute _ _ _ _ _ _ _ _ _ _ _ _ _)); [|intros [evs m] ?] ].
Lemma NotifyResourceChanged_ends att ctx r s : ends (with_env NotifyResourceChanged att ctx r s).
Proof.
  unfold NotifyResourceChanged. apply (bind_ends (access _ _ _ _ _)); [apply access_total|]. intros user s1.
  apply (bind_ends (notifyResourceChanged _ _ _ _ _ _ _ _ _ _)); [|intros; apply some_ends].
  unfold notifyResourceChanged, on_resource. answers.
Qed.
Lemma reset_contents_ends att ctx deviceID cm hrefs s :
  exists s', with_env reset_contents att ctx deviceID cm hrefs s = Some s'.
Proof.
  revert att s. induction hrefs as [|href hrefs IH]; intros att s; cbn [reset_contents]; [by eexists|].
  destruct (NotifyResourceChanged_ends (att 0) ctx (unpublished_content deviceID href cm) s) as (s1 & r & ->). apply IH.
Qed.
Lemma batch_notify_ends att ctx user batch errors s : ends (with_env batch_notify att ctx user batch errors s).
Proof.
  revert att errors s. induction batch as [|n batch IH]; intros att errors s; cbn [batch_notify]; [by eexists _, _|].
  destruct (validateAccessToDeviceWithOwner _ _ _ _ _) as [s1 [err|]]; [apply IH|].
  edestruct (notifyResourceChanged _ _ _ _ _ _ _ _ _ _) as [[s2 [err|[]]]|] eqn:Hn; [apply IH..|].
  exfalso. assert (He : ends (notifyResourceChanged order RemoveUpToVersion GetPublishSubject trace config (att 0)
    ctx n user s1)) by (unfold notifyResourceChanged, on_resource; answers).
  destruct He as (? & ? & He). congruence.
Qed.
(** Every request but UpdateServiceMetadata (for which see HeartbeatFacts) is answered, with an
    error or a response, however often other writers are faster: the retries are bounded. *)
Theorem every_request_answered att ctx rq s : ends (serve att ctx rq s).
Proof.
  destruct rq as [| | | | | | | | | | | | | | |ids|batch]; cbn [RequestHandler.serve]; apply forget_ends;
    try (unfold PublishResourceLinks, UpdateResource, ConfirmResourceUpdate, RetrieveResource,
      ConfirmResourceRetrieve, DeleteResource, ConfirmResourceDelete, CreateResource, ConfirmResourceCreate,
      CancelPendingCommands, UpdateDeviceMetadata, ConfirmDeviceMetadataUpdate, CancelPendingMetadataUpdates,
      confirm, on_links, on_resource, on_device; by answers).
  - unfold UnpublishResourceLinks. apply (bind_ends (access _ _ _ _ _)); [apply access_total|]. intros user s1.
    unfold on_links. apply (bind_ends (execute _ _ _ _ _ _ _ _ _ _ _ _ _)); [apply execute_total|]. intros [evs m] s2.
    edestruct reset_contents_ends as (s3 & ->). apply some_ends.
  - apply NotifyResourceChanged_ends.
  - destruct (DeleteDevices _ _ _ _ _ _ _) as [s1 r]. apply some_ends.
  - unfold BatchNotifyResourceChanged. destruct (OwnerFromTokenMD _ _) as [err|owner]; [apply some_ends|].
    destruct (SubjectFromTokenMD _) as [err|userID]; [apply some_ends|].
    edestruct batch_notify_ends as (s2 & errs & Heq). rewrite Heq. destruct errs; apply some_ends.
Qed.

(** ** Batches *)
(** The requests of a batch one by one, each whatever became of the others. *)
Fixpoint notify_each (att : nat -> nat -> Attempt St) ctx (batch : list NotifyResourceChangedRequest) s
    : option (RH * list error) :=
  match batch with
  | [] => Some (s, [])
  | r :: batch =>
      match with_env NotifyResourceChanged (att 0) ctx r s with
      | None => None
      | Some (s, answer) =>
          match notify_each (fun n => att (S n)) ctx batch s with
          | None => None
          | Some (s, errors) => Some (s, match answer with inl err => err :: errors | inr _ => errors end)
          end
      end
  end.
Lemma execute_error_status {M} `{!AggregateModel M AnyEvent AnyEvent Command} unable cannot code reuse att owner
    agg cmd wanted s s' err :
  execute RemoveUpToVersion GetPublishSubject config (M := M) unable cannot code reuse att owner agg cmd wanted s
  = Some (s', inl err) -> ErrToGrpcStatus err = Some (error_code err).
Proof.
  unfold execute. destruct agg as [e|a]; [by intros [= <- <-]|].
  destruct (method _ _ _ _ _ _ _ _) as [[store [e|[[evs m] others]]]|]; [by intros [= <- <-]|done..].
Qed.
(** The state after a batch, and its errors, are those of its requests one by one. *)
Lemma batch_notify_each att ctx user batch errors s :
  SubjectFromTokenMD ctx = inr user.1 -> OwnerFromTokenMD ctx (cfg_OwnerClaim config) = inr user.2 ->
  exists s' es es', with_env batch_notify att ctx user batch errors s = Some (s', errors ++ es) /\
    notify_each att ctx batch s = Some (s', es') /\
    Forall2 (fun e e' => ErrToGrpcStatus e = Some (error_code e')) es es'.
Proof.
  intros Hu Ho. revert att errors s. induction batch as [|n batch IH]; intros att errors s; cbn [batch_notify notify_each].
  { exists s, [], []. by rewrite app_nil_r. }
  unfold NotifyResourceChanged, access, validateAccessToDevice. rewrite Hu, Ho. destruct user as [userID owner]. cbn [fst snd].
  destruct (validateAccessToDeviceWithOwner _ _ _ _ _) as [s1 [err|]] eqn:Hv.
  - destruct (IH (fun k => att (S k)) (errors ++ [Wrap "cannot notify resource changed %v: %w" err]) s1)
      as (s' & es & es' & -> & -> & Hes). rewrite <- app_assoc. eexists s', _, _. split_and!; [done..|].
    constructor; [|done]. unfold validateAccessToDeviceWithOwner in Hv.
    by destruct (isUserDevice _ _ _ _ _) as [s2 [e|[]]]; simplify_eq/=.
  - destruct (notifyResourceChanged _ _ _ _ _ _ _ _ _ _) as [[s2 [err|[]]]|] eqn:Hn.
    + destruct (IH (fun k => att (S k)) (errors ++ [Wrap "cannot notify resource changed %v: %w" err]) s2)
        as (s' & es & es' & -> & -> & Hes). rewrite <- app_assoc. eexists s', _, _. split_and!; [done..|].
      constructor; [|done]. unfold notifyResourceChanged, on_resource in Hn.
      destruct (execute _ _ _ _ _ _ _ _ _ _ _ _ _) as [[s3 [e|[evs m]]]|] eqn:He; [|done..].
      injection Hn as <- <-. cbn [ErrToGrpcStatus]. by eapply execute_error_status.
    + destruct (IH (fun k => att (S k)) errors s2) as (s' & es & es' & -> & -> & Hes). by eexists s', es, es'.
    + exfalso. assert (He : ends (notifyResourceChanged order RemoveUpToVersion GetPublishSubject trace config (att 0)
        ctx n (userID, owner) s1)) by (unfold notifyResourceChanged, on_resource; answers).
      destruct He as (? & ? & He). congruence.
Qed.
(** C24: A batch leaves the state that its requests leave one by one, and fails when
    one of them does, with the code of the first that did. *)
Theorem BatchNotify_each att ctx batch s userID owner :
  SubjectFromTokenMD ctx = inr userID -> OwnerFromTokenMD ctx (cfg_OwnerClaim config) = inr owner ->
  exists s' r errors, with_env BatchNotifyResourceChanged att ctx batch s = Some (s', r) /\
    notify_each att ctx batch s = Some (s', errors) /\
    match r, errors with
    | inr _, [] => True
    | inl err, e :: _ => error_code err = error_code e
    | _, _ => False
    end.
Proof.
  intros Hu Ho. destruct (batch_notify_each att ctx (userID, owner) batch [] s Hu Ho) as (s' & es & es' & Hb & He & Hes).
  unfold BatchNotifyResourceChanged. rewrite Ho, Hu, Hb. cbn [app]. destruct Hes as [|e e' es es' Hee Hes].
  - by eexists s', _, [].
  - eexists s', _, (e' :: es'). split_and!; [done..|]. cbn. by rewrite Hee.
Qed.

(** ** Requests on a resource *)
Definition is_resource_command (cmd : Command) : bool :=
  match cmd with
  | CmdNotifyResourceChanged _ | CmdUpdateResource _ | CmdConfirmResourceUpdate _ | CmdRetrieveResource _
  | CmdConfirmResourceRetrieve _ | CmdDeleteResource _ | CmdConfirmResourceDelete _ | CmdCreateResource _
  | CmdConfirmResourceCreate _ | CmdCancelPendingCommands _ => true
  | _ => false
  end.
(** The command as the aggregate gets it: with the time to live of the configuration
    if it has none. *)
Definition handed (cmd : Command) : Command :=
  match cmd with
  | CmdUpdateResource r => CmdUpdateResource (MkUpdateResourceRequest (urr_ResourceId r) (urr_CorrelationId r)
      (urr_Content r) (urr_ResourceInterface r) (default_ttl config (urr_TimeToLive r)) (urr_CommandMetadata r)
      (urr_Force r))
  | CmdRetrieveResource r => CmdRetrieveResource (MkRetrieveResourceRequest (rrr_ResourceId r)
      (rrr_CorrelationId r) (rrr_ResourceInterface r) (default_ttl config (rrr_TimeToLive r))
      (rrr_CommandMetadata r) (rrr_Etag r))
  | CmdDeleteResource r => CmdDeleteResource (MkDeleteResourceRequest (drr_ResourceId r) (drr_CorrelationId r)
      (default_ttl config (drr_TimeToLive r)) (drr_CommandMetadata r) (drr_ResourceInterface r) (drr_Force r))
  | CmdCreateResource r => CmdCreateResource (MkCreateResourceRequest (crr_ResourceId r) (crr_CorrelationId r)
      (crr_Content r) (default_ttl config (crr_TimeToLive r)) (crr_CommandMetadata r) (crr_Force r))
  | _ => cmd
  end.
(** Whether the links of the device are loaded with the resource, and what they say about publishing. *)
Definition linked (cmd : Command) : bool :=
  match cmd with
  | CmdNotifyResourceChanged r => (length (ncr_ResourceTypes r) =? 0)%nat
  | CmdCancelPendingCommands _ => false
  | _ => true
  end.
Definition forced (cmd : Command) : bool :=
  match cmd with
  | CmdUpdateResource r => urr_Force r
  | CmdDeleteResource r => drr_Force r
  | CmdCreateResource r => crr_Force r
  | _ => false
  end.
Definition wanted (cmd : Command) : (string -> option ResourceModel) -> bool :=
  wantToPublish (forced cmd) (command_resource cmd).
Lemma command_resource_handed cmd : command_resource (handed cmd) = command_resource cmd.
Proof. by destruct cmd. Qed.

Lemma bind_inv {A B} (o : option (RH * result A)) (k : A -> RH -> option (RH * result B)) s' :
  forget (match o with None => None | Some (s, inl err) => Some (s, inl err) | Some (s, inr x) => k x s end)
  = Some (s', None) ->
  exists x s1, o = Some (s1, inr x) /\ forget (k x s1) = Some (s', None).
Proof. destruct o as [[s1 [err|x]]|]; [done| |done]. by exists x, s1. Qed.
(** A request on a resource that is answered has worked on the aggregate of the resource. *)
Lemma serve_resource att ctx rq cmd s s' :
  request_command rq = Some cmd -> is_resource_command cmd = true -> serve att ctx rq s = Some (s', None) ->
  exists s1 user unable cannot code evs m,
    granted ctx ((command_resource cmd) ~> rid_DeviceId) (rh_devices s) user /\ rh_eventstore s1 = rh_eventstore s /\
    rh_published s1 = rh_published s /\
    on_resource order RemoveUpToVersion GetPublishSubject trace config unable cannot code (linked cmd) ctx user
      (att 0) (command_resource cmd) (handed cmd) (wanted cmd) s1 = Some (s', inr (evs, m)).
Proof.
  intros Hrq Hr Hs. destruct rq; cbn in Hrq; simplify_eq; try done; cbn [RequestHandler.serve] in Hs;
    unfold NotifyResourceChanged, UpdateResource, ConfirmResourceUpdate, RetrieveResource,
      ConfirmResourceRetrieve, DeleteResource, ConfirmResourceDelete, CreateResource, ConfirmResourceCreate,
      CancelPendingCommands, confirm in Hs;
    apply (bind_inv (access _ _ _ _ _)) in Hs as (user & s1 & Ha & Hs); apply access_spec in Ha as (Hst & Hpub & Hg).
  1: apply (bind_inv (notifyResourceChanged _ _ _ _ _ _ _ _ _ _)) in Hs as ([] & s2 & Hs & Hs2); injection Hs2 as <-;
     unfold notifyResourceChanged in Hs;
     destruct (on_resource _ _ _ _ _ _ _ _ _ _ _ _ _ _ _ _) as [[s3 [err|[evs m]]]|] eqn:Ho; [done| |done];
     injection Hs as <-; by eexists s1, user, _, _, _, evs, m.
  all: apply (bind_inv (on_resource _ _ _ _ _ _ _ _ _ _ _ _ _ _ _ _)) in Hs as ([evs m] & s2 & Ho & Hs2);
    injection Hs2 as <-; by eexists s1, user, _, _, _, evs, m.
Qed.

Section refinement.
Context `{!UUIDLaws} `{!EventStoreLaws St AnyEvent AnyEvent}.
#[local] Abbreviation log := (log (St := St)).
(** What the removal of old events leaves: what loads deliver, as long as it is not newer. *)
Context (RemoveUpToVersion_law : forall (st : St) q g a,
  (g = vq_GroupID q -> a = vq_AggregateID q ->
   forall e, e ∈ since_snapshot (log st g a) -> (vq_Version q <= Version e)%Z) ->
  since_snapshot (log (RemoveUpToVersion st q) g a) = since_snapshot (log st g a)).

(** After the clean-up of a command loads deliver the snapshot it saved. *)
Lemma cleaned_up (st : St) g a evs snapshot v :
  evs <> [] -> Forall (fun ev => AggregateID ev = a /\ GroupID ev = g) evs -> versions_from v evs ->
  (0 <= v)%Z -> (v + Z.of_nat (length evs) <= 2 ^ 64)%Z ->
  Version (EvResourceStateSnapshotTaken snapshot) = u64 (v + (Z.of_nat (length evs) - 1)) ->
  since_snapshot (log st g a) = [EvResourceStateSnapshotTaken snapshot] ->
  since_snapshot (log (fold_left RemoveUpToVersion (cleanUpToSnapshot evs) st) g a)
  = [EvResourceStateSnapshotTaken snapshot].
Proof.
  intros Hne Hids Hv Hpos Hlt Hsv Hs. destruct evs as [|last evs] using rev_ind; [done|]. clear IHevs Hne.
  rewrite length_app in *. cbn [length] in *.
  assert (Hlast : Version last = Version (EvResourceStateSnapshotTaken snapshot)).
  { rewrite Hsv, (Hv (length evs) last) by by apply list_lookup_middle. f_equal. lia. }
  unfold cleanUpToSnapshot. rewrite (cleanUp_one a g v) by (done || lia). rewrite map_to_list_singleton. cbn [fmap list_fmap fold_left].
  rewrite RemoveUpToVersion_law; [done|]. intros _ _ e He. rewrite Hs in He. apply list_elem_of_singleton in He as ->.
  cbn [vq_Version snd fst]. lia.
Qed.

(** C2: A request on a resource that is answered, from the caller to the log and the
    event bus: the caller may work on the device; there was a moment at which the
    log of the resource gave the state [e] to the aggregate, the command, with the
    links that were loaded, made the events [evs] of it, and the store added them
    to that log with a snapshot for the last one; after the clean-up loads deliver
    that snapshot, from which they rebuild the state the command left; and these
    events were published for the owner, in their order, unless the command is
    forced on a resource that is not published. *)
Theorem resource_request_refines att ctx rq cmd s s' a :
  (forall ev, stored (St := St) ev = loaded ev) ->
  request_command rq = Some cmd -> is_resource_command cmd = true ->
  plain_resource (command_resource cmd) -> NewResourceAggregate (command_resource cmd) (linked cmd) = inr a ->
  attempts_ok true a (att 0) -> store_ok true a (rh_eventstore s) ->
  serve att ctx rq s = Some (s', None) ->
  exists user evs others,
    granted ctx ((command_resource cmd) ~> rid_DeviceId) (rh_devices s) user /\
    rh_published s' = rh_published s ++
      (if wanted cmd others then publications user.2 a evs else []) /\
    (evs <> [] -> exists st t clk e e' snapshot,
       own_log a (rh_eventstore s) `prefix_of` own_log a st /\
       ResourceState.Handle (fun _ => t) NewResourceStateSnapshotTaken
         (loaded <$> since_snapshot (own_log a st)) None = (e, None) /\
       ResourceState.HandleCommand
         (with_links (command_context trace config ctx user) (links_of ((command_resource cmd) ~> rid_DeviceId) others)) clk e
         (handed cmd) (next_version (own_log a st)) = (e', inr evs) /\
       (exists st', own_log a st' = own_log a st ++ removelast evs ++ [EvResourceStateSnapshotTaken snapshot] /\
          rh_eventstore s' = fold_left RemoveUpToVersion (cleanUpToSnapshot evs) st') /\
       ((next_version (own_log a st) + Z.of_nat (length evs) <= 2 ^ 64)%Z ->
        since_snapshot (own_log a (rh_eventstore s')) = [EvResourceStateSnapshotTaken snapshot] /\
        forall t', res_eq (ResourceState.Handle (fun _ => t') NewResourceStateSnapshotTaken
                             [loaded (EvResourceStateSnapshotTaken snapshot)] None) (e', None))).
Proof.
  intros Hst Hrq Hr Hplain Ha Hatt Hok Hs.
  destruct (serve_resource _ _ _ _ _ _ Hrq Hr Hs) as (s1 & user & unable & cannot & code & evs & m & Hg & Hst1 & Hpub1 & Ho).
  unfold on_resource in Ho.
  apply execute_spec in Ho as (_ & a' & store & retry & others & Ha' & _ & Hgo & Hst' & Hpub').
  rewrite Ha in Ha'. injection Ha' as <-. exists user, evs, others.
  split; [done|]. split; [by rewrite Hpub', Hpub1|]. intros Hne. rewrite Hst1 in Hgo.
  apply (resource_committed _ _ (command_resource cmd) (linked cmd)) in Hgo; try done; [|by rewrite command_resource_handed].
  destruct Hgo as (st & t & clk & e & e' & snapshot & Hpre & He & Hc & _ & Hver & Hown & Hsv & Hlog & Hres).
  exists st, t, clk, e, e', snapshot. split_and!; [done|done|done|by exists store|].
  intros Hlt. split; [|exact Hres]. rewrite Hst'. unfold own_log.
  eapply (cleaned_up store _ _ evs snapshot (next_version (own_log a st))); try done.
  - eapply Forall_impl; [exact Hown|]. by intros ev [? ?].
  - apply next_version_u64.
  - fold (own_log a store). by rewrite Hlog, app_assoc, since_snapshot_snoc.
Qed.
End refinement.
End facts.

(** ** Deletions *)
Section deletions.
Context `{!TokenLib} {St Dv : Type} (Delete : St -> list string -> St * option error)
  (ToSlice : gset string -> list string)
  (getOwnerDevicesFunc : Dv -> context -> string -> list string -> Dv * result (list string)) (config : Config).
Lemma unique_ids ids :
  (forall m, ToSlice m ≡ₚ elements m) ->
  let l := getUniqueDeviceIdsFromDeleteRequest ToSlice ids in
  (forall d, d ∈ l <-> d ∈ ids /\ d <> "") /\ (l = [] <-> Forall (fun x => x = "") ids).
Proof.
  intros Hslice l. assert (Hl : forall d, d ∈ l <-> d ∈ ids /\ d <> "").
  { intros d. unfold l, getUniqueDeviceIdsFromDeleteRequest. rewrite (Hslice _).
    rewrite elem_of_elements, elem_of_list_to_set, list_elem_of_filter. naive_solver. }
  split; [done|]. rewrite Forall_forall. split.
  - intros Hn x Hx. destruct (decide (x = "")); [done|]. exfalso.
    assert (Hin : x ∈ l) by (by apply Hl). rewrite Hn in Hin. by apply not_elem_of_nil in Hin.
  - intros Hall. destruct l as [|x l']; [done|]. exfalso.
    destruct (proj1 (Hl x) ltac:(by left)) as [Hx Hne]. by apply Hne, Hall.
Qed.
(** A deletion deletes of what was asked for what the caller owns, and answers it;
    a request that names no device, or only empty ones, is one for all devices. *)
Theorem DeleteDevices_exact ctx ids s s' resp userID owner (owned : string -> Prop) :
  SubjectFromTokenMD ctx = inr userID -> OwnerFromTokenMD ctx (cfg_OwnerClaim config) = inr owner ->
  (forall m, ToSlice m ≡ₚ elements m) ->
  (forall dv ds dv' l, getOwnerDevicesFunc dv ctx owner ds = (dv', inr l) ->
     forall d, d ∈ l <-> owned d /\ (ds = [] \/ d ∈ ds)) ->
  DeleteDevices Delete ToSlice getOwnerDevicesFunc config ctx ids s = (s', inr resp) ->
  rh_published s' = rh_published s /\
  (forall d, d ∈ dds_DeviceIds resp <-> owned d /\ (Forall (fun x => x = "") ids \/ d ∈ ids /\ d <> "")) /\
  rh_eventstore s' = match dds_DeviceIds resp with
                     | [] => rh_eventstore s
                     | l => (Delete (rh_eventstore s) l).1
                     end.
Proof.
  intros Hu Ho Hslice Hown. unfold DeleteDevices, getOwnedDevices. rewrite Hu, Ho.
  destruct (getOwnerDevicesFunc _ _ _ _) as [dv [err|l]] eqn:Hg; [done|].
  assert (Hl : forall d, d ∈ l <-> owned d /\ (Forall (fun x => x = "") ids \/ d ∈ ids /\ d <> "")).
  { intros d. rewrite (Hown _ _ _ _ Hg d). destruct (unique_ids ids Hslice) as [-> ->]. naive_solver. }
  destruct (Nat.eqb_spec (length l) 0) as [Hz|Hz].
  - intros [= <- <-]. apply nil_length_inv in Hz as ->. done.
  - destruct (Delete (rh_eventstore s) l) as [store [err|]] eqn:Hd; [by cbn; rewrite Hd|]. cbn [rh_eventstore]. rewrite Hd.
    intros [= <- <-]. split_and!; [done|done|]. cbn. destruct l; [done|]. by rewrite Hd.
Qed.
End deletions.

(** ** Access by the cache of devices *)
Section cache.
Context `{!TokenLib} {Hdl : Type} (config : Config) (answers : nat -> time_ * sync_answers).
Lemma Intersection_one devices d : ascending devices -> Intersection devices [d] = if decide (d ∈ devices) then [d] else [].
Proof.
  intros Ha. rewrite Intersection_spec by first [done|apply ascending_cons; split; [constructor|by intros y Hy%not_elem_of_nil]].
  destruct (decide (d ∈ devices)) as [Hd|Hd].
  - apply list_elem_of_split in Hd as (l1 & l2 & ->). rewrite filter_app, filter_cons_True by by apply list_elem_of_singleton.
    apply ascending_app in Ha as (_ & Ha & Hlt). apply ascending_cons in Ha as [_ Hgt].
    assert (Hne : forall y, str_lt y y = true -> False) by (intros y Hy; by rewrite str_lt_irrefl in Hy).
    rewrite !list_filter_nil; [done|..]; intros y Hy ->%list_elem_of_singleton; apply (Hne d).
    + by apply Hgt.
    + apply Hlt; [done|by left].
  - rewrite list_filter_nil; [done|]. by intros y Hy ->%list_elem_of_singleton.
Qed.
(** With the cache of NewService a caller may work on the devices that the cache
    has synchronized for the owner, and on no others. *)
Theorem granted_by_cache ctx d (c : OwnerCache Hdl) k user sub :
  oc_owners c !! user.2 = Some sub -> os_devicesSynced sub = true -> ascending (os_devices sub) ->
  granted (NewService_getOwnerDevicesFunc (cfg_OwnerClaim config) answers) config ctx d (c, k) user <->
  SubjectFromTokenMD ctx = inr user.1 /\ OwnerFromTokenMD ctx (cfg_OwnerClaim config) = inr user.2 /\
  d ∈ os_devices sub.
Proof.
  intros Hc Hs Ha. unfold granted, NewService_getOwnerDevicesFunc. destruct (answers k) as [now a].
  split; intros (Hu & Ho & Hdev); (split; [done|]); (split; [done|]).
  - destruct Hdev as (dv & x & Hx). cbn [length Nat.eqb negb] in Hx. unfold GetSelectedDevices, executeOnLockedOwnerSubject in Hx.
    rewrite Ho, Hc in Hx. cbn [from_option id] in Hx. unfold synced_devices in Hx. rewrite Hs in Hx. cbn [negb] in Hx.
    change (MakeSortedSlice [d]) with [d] in Hx. rewrite Intersection_one in Hx by done. by destruct (decide (d ∈ os_devices sub)).
  - eexists _, d. cbn [length Nat.eqb negb]. unfold GetSelectedDevices, executeOnLockedOwnerSubject.
    rewrite Ho, Hc. cbn [from_option id]. unfold synced_devices. rewrite Hs. cbn [negb].
    change (MakeSortedSlice [d]) with [d]. rewrite Intersection_one by done. by rewrite decide_True.
Qed.
End cache.
