(* ===== verification/Concrete.v ===== *)
(** * Concrete libraries and a store in memory

    Instances of everything that is a parameter elsewhere: UUIDs, sets of
    strings, codecs, the order of a map, and an event store that keeps all
    events in one list.  They show that the laws asked of these parameters can
    be met; the witnesses run on them. *)

From Stdlib Require Import ZArith Lia Ascii String.
From S2P Require Import Prelude Commands Events EventStore Handler ResourceState ResourceLinksFacts.
From S2P Require Import Projection ProjectionFacts Aggregate AggregateFacts.
From S2P Require Import Subjects IdentityStore SortedSlice Slices Snippets SnippetStore SnippetUpdater.

(** ** Libraries *)
(** A UUID is a prefix and the name, its dots and braces escaped. *)
Definition uuid_prefix : string := "uuid:".
Definition escape_char (c : ascii) : string :=
  if Ascii.eqb c "." then "_d" else if Ascii.eqb c "{" then "_b"
  else if Ascii.eqb c "_" then "__" else String c "".
Fixpoint escape (s : string) : string :=
  match s with EmptyString => "" | String c s => escape_char c +:+ escape s end.
Lemma escape_char_inj c d s t :
  escape_char c +:+ s = escape_char d +:+ t -> c = d /\ s = t.
Proof.
  unfold escape_char.
  repeat match goal with |- context [Ascii.eqb ?x ?y] => destruct (Ascii.eqb_spec x y); [subst x|] end;
    rewrite ?append_cons, ?append_nil; intros [=]; subst; done.
Qed.
Lemma escape_inj s t : escape s = escape t -> s = t.
Proof.
  assert (Hne : forall c s, escape_char c +:+ s <> "").
  { intros c k. unfold escape_char. by repeat case_match; rewrite append_cons. }
  revert t. induction s as [|c s IH]; intros [|d t]; cbn [escape]; try done.
  - intros Heq. by destruct (Hne d (escape t)).
  - intros Heq. by destruct (Hne c (escape s)).
  - intros [-> ->%IH]%escape_char_inj. done.
Qed.
Lemma escape_safe s : safe (escape s) = true.
Proof.
  unfold safe. apply andb_true_iff. induction s as [|c s [IH1 IH2]]; [done|]. cbn [escape].
  rewrite !free_app, IH1, IH2, !andb_true_r. unfold escape_char.
  repeat match goal with |- context [Ascii.eqb ?x ?y] => destruct (Ascii.eqb_spec x y); [by subst|] end.
  cbn. rewrite !andb_true_r, !negb_true_iff, !Ascii.eqb_neq. done.
Qed.

#[export] Instance concrete_UUIDLib : UUIDLib := {|
  uuid_NewSHA1 s := uuid_prefix +:+ escape s; uuid_Nil := uuid_prefix;
  uuid_Parse s := String.prefix uuid_prefix s |}.
Definition concrete_Parse_value (s : string) : option string :=
  if String.prefix uuid_prefix s then Some s else None.

#[export] Instance concrete_UUIDLaws : UUIDLaws.
Proof.
  split.
  - intros s. cbn. by destruct (escape s).
  - reflexivity.
  - reflexivity.
  - intros s t H. cbn in H. injection H as H. by apply escape_inj.
Qed.

Definition concrete_range (vs : values) : list (string * string) := map_to_list vs.
#[export] Instance concrete_SubjectLaws : SubjectLaws concrete_range.
Proof.
  split; [done|]. intros s. cbn [uuid_NewSHA1 concrete_UUIDLib]. pose proof (escape_safe s) as Hs.
  unfold safe in *. by rewrite !free_app.
Qed.

#[export] Instance concrete_StringSet : StringSet := {|
  kit_Set := list string; MakeSet l := remove_dups l; set_len l := length l;
  HasOneOf l x := bool_decide (x ∈ l) |}.
#[export] Instance concrete_StringSetLaws : StringSetLaws.
Proof.
  split; simpl.
  - intros l. split; [|by intros ->]. intros Hl. destruct l as [|x l]; [done|]. exfalso.
    apply nil_length_inv in Hl. assert (Hx : x ∈ remove_dups (x :: l)) by (apply elem_of_remove_dups; left).
    rewrite Hl in Hx. by apply not_elem_of_nil in Hx.
  - intros l x. rewrite bool_decide_eq_true. apply elem_of_remove_dups.
Qed.

(** Contents are encoded as they are. *)
#[export] Instance concrete_ContentCodec : ContentCodec := {|
  MediaType_String z := if (z =? 60)%Z then "application/cbor"
                        else if (z =? 10000)%Z then "application/vnd.ocf+cbor" else "application/json";
  AppCBOR := 60; AppOcfCbor := 10000; AppJSON := 50;
  codec_value := list byte; cbor_Encode v := inr v; cbor_Decode b := inr (elems b);
  json_Encode v := inr v; json_Decode b := inr (elems b) |}.

Definition concrete_order (m : gmap string Resource) : list string := (map_to_list m).*1.
Lemma concrete_map_order : map_order concrete_order.
Proof. intros m. reflexivity. Qed.

(** ** Sorting, errors of the driver, and contents for the snippet service *)
Definition le_by {A} (cmp : A -> A -> Z) (x y : A) : Prop := (cmp x y <= 0)%Z.
#[export] Instance le_by_dec {A} (cmp : A -> A -> Z) : RelDecision (le_by cmp).
Proof. intros x y. unfold le_by. apply _. Defined.
#[export] Instance concrete_Slices : Slices := {| SortFunc A cmp l := merge_sort (le_by cmp) l |}.
#[export] Instance concrete_SlicesLaws : SlicesLaws.
Proof.
  split; cbn; intros A cmp l; [apply merge_sort_Permutation|]. intros [Ha Ht].
  assert (Transitive (le_by cmp)) by (intros x y z; apply Ht).
  assert (Total (le_by cmp)).
  { intros x y. unfold le_by. specialize (Ha y x). destruct (Z.le_gt_cases (cmp x y) 0); [by left|right; lia]. }
  apply (StronglySorted_merge_sort (le_by cmp)).
Qed.
#[export] Instance concrete_MongoErrors : MongoErrors := {|
  ErrNoDocuments := errors_New "mongo: no documents in result";
  ErrDuplicateKey := errors_New "E11000 duplicate key";
  IsDuplicateKeyError := existsb (fun e => errors_Is e (errors_New "E11000 duplicate key")) |}.
(** Contents are their bytes; a query is true of everything. *)
#[export] Instance concrete_ContentLib : ContentLib := {|
  json := bytes; cbor_DecodeTo _ b := inr b; json_DecodeTo _ b := inr b; json_string b := b;
  type_AppCBOR := "application/cbor"; type_AppOcfCbor := "application/vnd.ocf+cbor";
  type_AppJSON := "application/json"; type_TextPlain := "text/plain;charset=utf-8";
  error_Error _ := None; jq_query := unit; gojq_Parse _ := inr tt;
  gojq_Run _ v := Some v; json_bool _ := Some true |}.
Definition concrete_range_versions (m : gmap string (list Z)) : list (string * list Z) := map_to_list m.

(** ** The identity store in memory: tokens are their owners *)
#[export] Instance concrete_TokenLib : TokenLib := {|
  context := string; jwt_Claims := string;
  TokenFromMD ctx := if String.eqb ctx "" then inl (Errorf Unauthenticated "no token") else inr ctx;
  ParseToken := inr; Claims_GetOwner claims _ := inr claims;
  Claims_GetSubject claims := inr claims; TraceFromCtx _ := ∅ |}.

Definition concrete_by_owner (t : gmap string string) (o : string) : list AuthorizedDevice :=
  (fun dv => MkAuthorizedDevice dv.1 dv.2) <$> filter (fun dv => dv.2 = o) (map_to_list t).
#[export] Instance concrete_PersistenceTx : PersistenceTx (gmap string string) := {|
  Retrieve t d o := inr (if bool_decide (t !! d = Some o) then Some (MkAuthorizedDevice d o) else None);
  RetrieveByDevice t d := inr (MkAuthorizedDevice d <$> t !! d);
  RetrieveByOwner t o := MkPersistenceIterator (concrete_by_owner t o) None None;
  Persist t x := (<[ad_DeviceID x := ad_Owner x]> t, None);
  PersistenceTx_Delete t d _ := (delete d t, None) |}.
#[export] Instance concrete_PersistenceLaws : PersistenceLaws (gmap string string) id.
Proof.
  split; cbn; try done.
  - by intros t d o r [= <-].
  - by intros t d r [= <-].
  - intros t o _. unfold concrete_by_owner. split.
    + rewrite <- list_fmap_compose. apply (NoDup_fmap_2_strong _).
      * intros [d v] [d' v'] Hd Hd' [= ->]. apply list_elem_of_filter in Hd as [_ Hd], Hd' as [_ Hd'].
        apply elem_of_map_to_list in Hd, Hd'. rewrite Hd in Hd'. by injection Hd' as ->.
      * apply NoDup_filter, NoDup_map_to_list.
    + intros [d v]. cbn. rewrite list_elem_of_fmap. setoid_rewrite list_elem_of_filter. split.
      * intros ([d' v'] & [= -> ->] & <- & Hin). by apply elem_of_map_to_list in Hin.
      * intros [-> Hd]. exists (d, o). by rewrite elem_of_map_to_list.
Qed.

(** ** A store in memory *)
Abbreviation MemoryStore := (list AnyEvent).
Definition memory_log (s : MemoryStore) (g a : string) : list AnyEvent :=
  filter (fun e => GroupID e = g /\ AggregateID e = a) s.

Definition memory_Save (s : MemoryStore) (evs : list AnyEvent) : MemoryStore * result SaveStatus :=
  match ValidateEventsBeforeSave (Some <$> evs), evs with
  | Some err, _ => (s, inl err)
  | None, [] => (s, inr SaveOk)
  | None, first :: _ =>
      if (next_version (memory_log s (GroupID first) (AggregateID first)) =? Version first)%Z
      then (s ++ evs, inr SaveOk) else (s, inr ConcurrencyException)
  end.

Definition to_log (l : list AnyEvent) : option (LoadedEvent AnyEvent * list (LoadedEvent AnyEvent)) :=
  match loaded <$> since_snapshot l with [] => None | e :: l => Some (e, l) end.
Definition memory_LoadFromSnapshot (s : MemoryStore) (qs : list SnapshotQuery) : Loaded AnyEvent :=
  MkLoaded
    [MkIter (log_stream (omap (fun id => to_log (memory_log s (default "" (sq_GroupID <$> head qs)) id))
                           (remove_dups (sq_AggregateID <$> qs)))) None false] None.

#[export] Instance memory_EventStore : EventStore MemoryStore AnyEvent AnyEvent := {|
  Save := memory_Save; LoadFromSnapshot := memory_LoadFromSnapshot |}.

Lemma memory_Save_own evs first :
  ValidateEventsBeforeSave (Some <$> evs) = None -> head evs = Some first ->
  Forall (fun e => GroupID e = GroupID first /\ AggregateID e = AggregateID first) evs.
Proof.
  intros Hv Hh. apply ValidateEventsBeforeSave_None in Hv as (l & Heq & Hs).
  apply (inj (fmap Some)) in Heq. subst l. destruct evs as [|x evs]; [done|]. injection Hh as ->.
  destruct Hs as (_ & _ & Hok & _). eapply Forall_impl; [exact Hok|].
  intros e (Ha & Hg & _). by split.
Qed.

Lemma to_log_Some l L : to_log l = Some L -> L.1 :: L.2 = loaded <$> since_snapshot l.
Proof. unfold to_log. destruct (loaded <$> since_snapshot l) as [|e k]; [done|]. by intros [= <-]. Qed.

Lemma to_log_key s g id L : to_log (memory_log s g id) = Some L -> log_key L = (g, id).
Proof.
  intros HL. apply to_log_Some in HL.
  destruct (since_snapshot (memory_log s g id)) as [|e k] eqn:Hs; [done|]. injection HL as H1 _.
  destruct (since_snapshot_suffix (memory_log s g id)) as [pre Hpre].
  assert (He : e ∈ memory_log s g id) by (rewrite Hpre, Hs; set_solver).
  apply list_elem_of_filter in He as [[Hg Ha] _]. unfold log_key. rewrite H1. simpl. by rewrite <- Hg, <- Ha.
Qed.

#[export] Instance memory_EventStoreLaws : EventStoreLaws MemoryStore AnyEvent AnyEvent.
Proof.
  refine {| log := memory_log; stored := loaded |}.
  - done.
  - intros s s' evs. simpl. unfold memory_Save.
    destruct (ValidateEventsBeforeSave _) eqn:Hv; [done|]. destruct evs as [|x evs]; [done|].
    destruct (Z.eqb_spec (next_version (memory_log s (GroupID x) (AggregateID x))) (Version x)) as [Hn|];
      [|done]. intros [= <-]. split; [done|]. intros first [= <-]. split; [done|]. intros g a.
    pose proof (memory_Save_own _ x Hv eq_refl) as Hown. unfold memory_log. rewrite filter_app.
    case_decide as Hd.
    + destruct Hd as [-> ->]. f_equal. apply list_filter_all. by apply Forall_forall.
    + rewrite <- (app_nil_r (filter _ s)) at 2. f_equal. apply list_filter_nil.
      intros e He [<- <-]. apply Hd. rewrite Forall_forall in Hown. by destruct (Hown e He).
  - intros s s' evs. simpl. unfold memory_Save.
    destruct (ValidateEventsBeforeSave _) eqn:Hv; [done|]. destruct evs as [|x evs]; [done|].
    destruct (Z.eqb_spec (next_version (memory_log s (GroupID x) (AggregateID x))) (Version x)) as [|Hn];
      [done|]. intros [= <-]. split_and!; [done|done|]. by intros first [= <-].
  - intros s qs g Hqs _. cbv zeta. right; right.
    eexists. split; [reflexivity|]. set (ids := remove_dups _).
    assert (Hg : qs <> [] -> default "" (sq_GroupID <$> head qs) = g).
    { destruct qs as [|q qs']; [done|]. intros _. by apply Forall_cons in Hqs as [? _]. }
    assert (Hids : forall id, id ∈ ids -> exists q, q ∈ qs /\ sq_AggregateID q = id).
    { intros id Hid. apply elem_of_remove_dups, list_elem_of_fmap in Hid as (q & -> & Hq). by exists q. }
    assert (Hgid : forall id, id ∈ ids -> default "" (sq_GroupID <$> head qs) = g).
    { intros id Hid. apply Hg. destruct (Hids id Hid) as (q & Hq & _).
      intros ->. by apply not_elem_of_nil in Hq. }
    split; [|split].
    + assert (Hnd : NoDup ids) by apply NoDup_remove_dups. revert Hnd Hgid. clear Hids.
      induction ids as [|id ids' IH]; intros Hnd Hgid; simpl; [constructor|].
      apply NoDup_cons in Hnd as [Hni Hnd].
      destruct (to_log _) as [L|] eqn:HL; [|apply IH; [done|set_solver]]. simpl. apply NoDup_cons. split.
      * intros Hin. apply list_elem_of_fmap in Hin as (L' & Hk & HL').
        apply list_elem_of_omap in HL' as (id' & Hid' & HL').
        apply to_log_key in HL. apply to_log_key in HL'. rewrite HL, HL' in Hk. injection Hk as ->. done.
      * apply IH; [done|set_solver].
    + intros L HL. apply list_elem_of_omap in HL as (id & Hid & HL). rewrite (Hgid id Hid) in HL.
      destruct (Hids id Hid) as (q & Hq & <-). exists q. split; [done|]. by apply to_log_Some.
    + intros q Hq Hne. assert (Hid : sq_AggregateID q ∈ ids).
      { apply elem_of_remove_dups. by apply list_elem_of_fmap_2. }
      destruct (to_log (memory_log s g (sq_AggregateID q))) as [L|] eqn:HL.
      * exists L. split; [|by apply to_log_Some]. apply list_elem_of_omap. exists (sq_AggregateID q).
        by rewrite (Hgid _ Hid).
      * unfold to_log in HL. destruct (since_snapshot _) eqn:Hs; [|done].
        by apply since_snapshot_nil in Hs.
Defined.
