(* ===== verification/Witnesses.v ===== *)
(** * The theorems at work

    Each theorem with hypotheses, applied to a small concrete situation in
    which they hold: a lamp that is published, commanded and confirmed, its
    device, a service that sends heartbeats, and a store in memory. *)

From Stdlib Require Import ZArith Lia String.
From S2P Require Import Prelude Commands Events EventStore Handler Pendings ResourceState.
From S2P Require Import ResourceStateFacts ResourceCancel ResourceStateSpec ResourceCommands.
From S2P Require Import ResourceLinks ResourceLinksFacts DeviceMetadata DeviceMetadataFacts.
From S2P Require Import ServiceMetadata ServiceMetadataFacts Projection ProjectionFacts Aggregate.
From S2P Require Import AggregateFacts ResourceModel Validation Concrete.

(** ** The lamp *)
Definition ex_cc : CommandContext := MkCommandContext "user" "owner" "hub" None [].
Definition ex_time : time_ := 1000000000000000000%Z.
(** A clock that stops after a thousand readings. *)
Definition ex_clk (n : nat) : time_ := (ex_time + Z.min (Z.of_nat n) 1000)%Z.
Definition ex_dev : string := "uuid:dev".
Definition ex_rid : option ResourceId := Some (MkResourceId ex_dev "/light").
Definition ex_cm : option CommandMetadata := Some (MkCommandMetadata "conn" 1).
Definition ex_update (id : string) : Command :=
  CmdUpdateResource (MkUpdateResourceRequest ex_rid id None "" 0 ex_cm true).
Definition ex_confirm (id : string) : Command :=
  CmdConfirmResourceUpdate (MkConfirmResourceUpdateRequest ex_rid id Status_OK None ex_cm).
Definition ex_delete : ConfirmResourceDeleteRequest :=
  MkConfirmResourceDeleteRequest ex_rid "c3" Status_OK None ex_cm.
Definition ex_new : ResourceStateSnapshotTaken := NewResourceStateSnapshotTaken.
Definition ex_step (e : ResourceStateSnapshotTaken) (cmd : Command) : ResourceStateSnapshotTaken :=
  (ResourceState.HandleCommand ex_cc (fun _ => ex_time) e cmd 0).1.
(** Three updates wait for the lamp. *)
Definition ex_waiting : ResourceStateSnapshotTaken :=
  fold_left ex_step [ex_update "c1"; ex_update "c2"; ex_update "c3"] ex_new.
Definition ex_waiting_ids : list string := pe_CorrelationId <$> elems (rss_ResourceUpdatePendings ex_waiting).

Lemma ex_sane_clock : sane_clock ex_clk.
Proof. unfold ex_clk, ex_time. split; intros n; unfold is_i64; lia. Qed.

(** Decides a closed proposition by running its decision procedure. *)
Ltac by_decision := refine (bool_decide_unpack _ _); vm_compute; exact I.

Lemma HandleCommand_replays_witness :
  exists e' evs, evs <> [] /\
    ResourceState.HandleCommand ex_cc ex_clk ex_new (ex_update "c1") 7 = (e', inr evs) /\
    ResourceState.Handle (fun _ => ex_clk 2) ex_new (loaded <$> evs) None = (e', None).
Proof.
  assert (Hv : is_u64 7) by (unfold is_u64; lia).
  pose proof (HandleCommand_replays ex_cc ex_clk ex_new (ex_update "c1") 7 Hv) as H.
  destruct (ResourceState.HandleCommand _ _ _ _ _) as [e' [err|evs]] eqn:Hc; [by vm_compute in Hc|].
  exists e', evs. split; [|by split]. vm_compute in Hc. by injection Hc as <- <-.
Defined.

Lemma HandleCommand_saveable_witness :
  exists e' evs, evs <> [] /\
    ResourceState.HandleCommand ex_cc ex_clk ex_new (ex_update "c1") 7 = (e', inr evs) /\
    ValidateEventsBeforeSave (Some <$> evs) = None.
Proof.
  destruct (ResourceState.HandleCommand ex_cc ex_clk ex_new (ex_update "c1") 7) as [e' [err|evs]] eqn:Hc;
    [by vm_compute in Hc|].
  assert (Hne : evs <> []) by (vm_compute in Hc; by injection Hc as <- <-).
  exists e', evs. split; [done|]. split; [done|].
  apply (HandleCommand_saveable ex_cc ex_clk ex_new (ex_update "c1") 7 e' evs ex_sane_clock);
    [unfold is_u64; lia|done|exact Hc|exact Hne].
Defined.

Lemma ex_step_reachable e cmd :
  ResourceStateFacts.reachable ex_time e -> ResourceStateFacts.reachable ex_time (ex_step e cmd).
Proof. intros He. apply (ResourceStateFacts.reach_command _ ex_time); [lia|unfold is_u64; lia|done]. Qed.

Lemma reachable_unique_live_ids_witness :
  all_live_ids ex_time ex_waiting = ["c1"; "c2"; "c3"] /\ unique_live_ids ex_time ex_waiting.
Proof.
  split; [by vm_compute|]. apply (reachable_unique_live_ids ex_time). unfold ex_waiting. simpl fold_left.
  do 3 apply ex_step_reachable. constructor.
Defined.

Lemma CancelPendingCommandsRequest_all_witness :
  exists e' res,
    CancelPendingCommandsRequest_ ex_cc ex_clk ex_waiting (MkCancelPendingCommandsRequest ex_rid [] ex_cm) 3
    = (e', res) /\
    lists_of e' = ([], passed_over (elems (rss_ResourceUpdatePendings ex_waiting)), [], []).
Proof.
  destruct (CancelPendingCommandsRequest_all ex_cc ex_clk ex_waiting ex_rid (MkCommandMetadata "conn" 1) 3 []
    (elems (rss_ResourceUpdatePendings ex_waiting)) [] []) as (e' & res & Hc & Hl & _).
  - by vm_compute.
  - constructor.
  - by_decision.
  - constructor.
  - constructor.
  - exists e', res. split; [exact Hc|exact Hl].
Defined.

Lemma CancelPendingCommandsRequest_one_witness :
  exists e' res,
    CancelPendingCommandsRequest_ ex_cc ex_clk ex_waiting (MkCancelPendingCommandsRequest ex_rid ["c2"] ex_cm) 3
    = (e', res) /\
    all_ids e' = ["c1"; "c3"].
Proof.
  destruct (CancelPendingCommandsRequest_one ex_cc ex_clk ex_waiting ex_rid "c2" (MkCommandMetadata "conn" 1) 3 []
    (elems (rss_ResourceUpdatePendings ex_waiting)) [] []) as (e' & res & Hc & Hl & _).
  - by vm_compute.
  - constructor.
  - by_decision.
  - constructor.
  - constructor.
  - exists e', res. split; [exact Hc|]. unfold all_ids. rewrite Hl. by vm_compute.
Defined.

Lemma Handle_from_snapshot_witness :
  exists evs e1,
    ResourceState.HandleCommand ex_cc ex_clk ex_waiting (ex_confirm "c2") 3 = (e1, inr evs) /\ evs <> [] /\
    res_eq
      (ResourceState.Handle (fun _ => ex_time) ex_new
         (loaded <$> EvResourceStateSnapshotTaken (ResourceState.TakeSnapshot ex_time ex_waiting 2) :: evs) None)
      (ResourceState.Handle (fun _ => ex_time) ex_waiting (loaded <$> [] ++ evs) None).
Proof.
  destruct (ResourceState.HandleCommand ex_cc ex_clk ex_waiting (ex_confirm "c2") 3) as [e1 [err|evs]] eqn:Hc;
    [by vm_compute in Hc|].
  exists evs, e1. split; [done|]. split; [vm_compute in Hc; by injection Hc as <- <-|].
  apply (Handle_from_snapshot ex_time ex_time 2 ex_waiting ex_waiting [] evs ex_new). reflexivity.
Defined.

Definition ex_change (seq : Z) (data : list byte) : ResourceChanged :=
  MkResourceChanged ex_rid (Some (MkContent (Some data) "" 50)) Status_OK None
    (Some (MkEventMetadata 0 ex_time "conn" seq "hub")) None [] [].
Definition ex_changes : list ResourceChanged := [ex_change 2 [x01]; ex_change 1 [x02]; ex_change 3 [x03]].

Lemma apply_changes_ascending_witness :
  let '(e', acc) := apply_changes ex_new ex_changes in
  sequence_of <$> acc = [2; 3]%Z /\ StronglySorted Z.lt (sequence_of <$> acc).
Proof.
  pose proof (apply_changes_ascending ex_new ex_changes "conn") as H.
  destruct (apply_changes ex_new ex_changes) as [e' acc] eqn:Ha.
  split; [vm_compute in Ha; by injection Ha as <- <-|]. apply H. by repeat constructor.
Defined.

Lemma confirm_accepted_witness :
  exists e1 evs, ResourceState.HandleCommand ex_cc ex_clk ex_waiting (ex_update "c4") 3 = (e1, inr evs) /\
    exists e2 ev, ResourceState.HandleCommand ex_cc ex_clk e1 (ex_confirm "c4") 4 = (e2, inr [ev]) /\
      lists_of e2 = lists_of ex_waiting.
Proof.
  destruct (ResourceState.HandleCommand ex_cc ex_clk ex_waiting (ex_update "c4") 3) as [e1 [err|evs]] eqn:Hc;
    [by vm_compute in Hc|].
  exists e1, evs. split; [done|].
  destruct (confirm_accepted ex_cc ex_cc "c4" ex_clk ex_clk ex_waiting (ex_update "c4") (ex_confirm "c4") 3 4 e1 evs)
    as [Hl|Hl]; [by constructor|by_decision|done| |exact Hl].
  vm_compute in Hc. injection Hc as <- _. by vm_compute in Hl.
Defined.

Lemma confirm_delete_drops_witness :
  exists e1 ev, ResourceState.HandleCommand ex_cc ex_clk ex_waiting (CmdConfirmResourceDelete ex_delete) 3
                = (e1, inr [ev]) /\ lists_of e1 = ([], [], [], []) /\
    exists err, ResourceState.HandleCommand ex_cc ex_clk e1 (ex_confirm "c1") 4 = (e1, inl err).
Proof.
  destruct (confirm_delete_drops ex_cc ex_clk ex_clk ex_waiting ex_delete 3 (ex_confirm "c1") 4)
    as (e1 & ev & Hc & Hl & _ & Hn); [by eexists|by left|].
  exists e1, ev. split; [exact Hc|]. split; [exact Hl|]. by apply Hn.
Defined.

Lemma cancel_check_complete_witness :
  exists err, CancelPendingCommandsRequest_ ex_cc ex_clk ex_new (MkCancelPendingCommandsRequest ex_rid ["c1"] ex_cm) 0
              = (ex_new, inl err).
Proof.
  apply (cancel_check_complete ex_cc ex_clk ex_new (MkCancelPendingCommandsRequest ex_rid ["c1"] ex_cm) 0);
    [constructor|reflexivity|by vm_compute].
Defined.

(** ** The log of the lamp *)
Fixpoint ex_run (e : ResourceStateSnapshotTaken) (cmds : list Command) (v : Z) : list AnyEvent :=
  match cmds with
  | [] => []
  | cmd :: cmds =>
      match ResourceState.HandleCommand ex_cc (fun _ => ex_time) e cmd v with
      | (_, inl _) => []
      | (e, inr evs) => evs ++ ex_run e cmds (v + Z.of_nat (length evs))
      end
  end.
Definition ex_log : list (LoadedEvent AnyEvent) :=
  loaded <$> ex_run ex_new [ex_update "c1"; ex_update "c2"; ex_confirm "c1"] 0.
Definition ex_id : string := ResourceId_ToUUID ex_rid.

#[local] Instance ex_state_model : Model ResourceStateSnapshotTaken AnyEvent := {|
  model_begin e := e; model_step := loop_body ResourceState.handleByEvent ex_time;
  model_end _ err := err |}.
Definition ex_factory (_ _ : string) : result ResourceStateSnapshotTaken := inr ex_new.
Definition ex_at (k : nat) : aggregateModel ResourceStateSnapshotTaken :=
  MkAggregateModel ex_dev ex_id (replay ex_new (take k ex_log)).1 (Z.of_nat k - 1) true.
Definition ex_models (k : nat) : Models ResourceStateSnapshotTaken := {[ex_dev := {[ex_id := ex_at k]}]}.

Lemma ex_numbered : numbered 0 ex_log.
Proof.
  assert (Hv : le_version <$> ex_log = [0; 1; 2]%Z) by (vm_compute; reflexivity).
  intros i e Hi. assert (Hl : (le_version <$> ex_log) !! i = Some (le_version e)).
  { rewrite list_lookup_fmap, Hi. reflexivity. }
  rewrite Hv in Hl. clear Hi Hv. destruct i as [|[|[|i]]]; simpl in Hl; [injection Hl as <-..|discriminate];
    split; unfold is_u64; lia.
Qed.

Lemma ex_log_stream (e : LoadedEvent AnyEvent) l : log_stream [(e, l)] = e :: l.
Proof. unfold log_stream. simpl. by rewrite app_nil_r. Qed.

Lemma handle_loads_logs_witness :
  exists L p' am, L.1 :: L.2 = ex_log /\
    handle ex_factory ∅ (MkIter ex_log None false) = Some (p', inr []) /\
    lookup_model p' ex_dev ex_id = Some am /\ am_version am = 2%Z /\ all_ids (am_model am) = ["c2"].
Proof.
  destruct ex_log as [|e l] eqn:Hlog; [by vm_compute in Hlog|].
  destruct (handle_loads_logs ex_factory ∅ [(e, l)]) as (p' & Hh & Hm & _).
  - done.
  - constructor; [|constructor]. split; [|split].
    + vm_compute in Hlog. injection Hlog as <- <-. by_decision.
    + cbn [fst snd]. rewrite <- Hlog. pose proof ex_numbered as Hn. rewrite Hlog in Hn |- *.
      by rewrite (proj1 (Hn 0 e eq_refl)).
    + left. vm_compute in Hlog. by injection Hlog as <- <-.
  - by_decision.
  - constructor; [|constructor]. vm_compute in Hlog. injection Hlog as <- <-. by_decision.
  - constructor; [|constructor]. apply lookup_model_empty.
  - destruct (Hm (e, l)) as (am & Ham & Hmod & Hv & _); [by left|].
    exists (e, l), p', am. split; [done|]. split.
    { rewrite ex_log_stream in Hh. exact Hh. }
    vm_compute in Hlog. injection Hlog as <- <-. split; [exact Ham|]. split; [exact Hv|].
    assert (Hids : all_ids <$> Some (am_model am) = Some ["c2"]) by (rewrite Hmod; vm_compute; reflexivity).
    by injection Hids.
Defined.

Lemma redelivery_witness :
  exists p' am', handle ex_factory (ex_models 2) (MkIter (drop 1 ex_log) None false) = Some (p', inr []) /\
    lookup_model p' ex_dev ex_id = Some am' /\ reached ex_new ex_log 0 3 am'.
Proof.
  destruct (drop 1 ex_log) as [|e l] eqn:Hd; [by vm_compute in Hd|].
  destruct (redelivery ex_factory (ex_models 2) (ex_at 2) ex_dev ex_id ex_new ex_log 0 (replay ex_new ex_log).1
    2 1 e l) as (p' & am' & Hh & Hl & Hr & _).
  - done.
  - by vm_compute.
  - done.
  - done.
  - by vm_compute.
  - exact ex_numbered.
  - done.
  - split_and!; [vm_compute; lia|vm_compute; lia|by vm_compute..].
  - lia.
  - rewrite Hd. vm_compute in Hd. injection Hd as <- <-. by vm_compute.
  - done.
  - vm_compute in Hd. injection Hd as <- <-. by_decision.
  - exists p', am'. split; [exact Hh|]. split; [exact Hl|].
    vm_compute in Hd. injection Hd as <- <-. exact Hr.
Defined.

Lemma gap_reloads_witness :
  exists e l p', e :: l = drop 2 ex_log /\ lookup_model p' ex_dev ex_id = Some (ex_at 1) /\
    HandleWithReload ex_factory
      (fun qs => MkLoaded [MkIter (if bool_decide (length qs = 1) then drop 1 ex_log else []) None false] None)
      (ex_models 1) (MkIter (e :: l) None false)
    = match Load ex_factory p' [MkIter (drop 1 ex_log) None false] None with
      | Some (p, Some err) => Some (p, Some (Wrap "cannot reload events for db" err))
      | r => r
      end.
Proof.
  destruct (drop 2 ex_log) as [|e l] eqn:Hd; [by vm_compute in Hd|].
  destruct (gap_reloads ex_factory
    (fun qs => MkLoaded [MkIter (if bool_decide (length qs = 1) then drop 1 ex_log else []) None false] None)
    (ex_models 1) (ex_at 1) ex_dev ex_id e l) as (p' & Hp & Hh).
  - by vm_compute.
  - done.
  - done.
  - vm_compute in Hd. injection Hd as <- <-. by_decision.
  - change (is_u64 0). unfold is_u64. lia.
  - done.
  - vm_compute in Hd. injection Hd as <- <-. by vm_compute.
  - done.
  - exists e, l, p'. split; [done|]. split.
    + rewrite Hp, decide_True by done. reflexivity.
    + rewrite Hh. cbn [ld_iters ld_err]. by destruct (Load ex_factory p' _ None) as [[? [|]]|].
Defined.

(** ** A command on the lamp, from the request to the store *)
#[local] Instance ex_model : AggregateModel ResourceModel AnyEvent AnyEvent Command :=
  ResourceModel_AggregateModel ex_cc concrete_order (ex_rid ~> rid_DeviceId).
Definition ex_aggregate : Aggregate ResourceModel :=
  MkAggregate ex_dev ex_id resourceStateModel_model [].
Definition ex_attempts (_ : nat) : Attempt MemoryStore :=
  MkAttempt ex_time (fun _ => ex_time) ex_time id id false.
Definition ex_retry : DefaultRetry := MkDefaultRetry 3 0.
Definition ex_empty : MemoryStore := [].
Definition ex_handled (s : MemoryStore) (cmd : Command) :
    option (MemoryStore * DefaultRetry * result (list AnyEvent)) :=
  Aggregate.HandleCommand true ex_attempts ex_aggregate ex_retry s cmd.

Lemma ex_attempts_ok reuse : attempts_ok reuse ex_aggregate ex_attempts.
Proof. intros n. split; intros s Hs; (split; [exact Hs|reflexivity]). Qed.
Lemma ex_aggregate_ok : aggregate_ok ex_aggregate.
Proof. by repeat constructor. Qed.
Lemma ex_store_ok : store_ok true ex_aggregate ex_empty.
Proof.
  split; [|intros _; exact I]. constructor; [|constructor]. exists 0%Z.
  split_and!; [done|intros i e Hi; discriminate|constructor|intros e Hi; discriminate].
Qed.
Lemma ex_NewResourceAggregate : NewResourceAggregate ex_rid false = inr ex_aggregate.
Proof. reflexivity. Qed.
Lemma ex_stored (ev : AnyEvent) : stored (St := MemoryStore) ev = loaded ev.
Proof. reflexivity. Qed.
Lemma ex_plain : plain_resource ex_rid.
Proof. unfold plain_resource. by_decision. Qed.

Lemma HandleCommand_serializable_witness :
  exists s' retry' evs, ex_handled ex_empty (ex_update "c1") = Some (s', retry', inr evs) /\ evs <> [] /\
    exists s2, store_ok true ex_aggregate s2 /\
      committed ex_aggregate (ResourceState_ ex_new) (ex_update "c1") s2 s' evs.
Proof.
  destruct (ex_handled ex_empty (ex_update "c1")) as [[[s' retry'] [err|evs]]|] eqn:Hh;
    [by vm_compute in Hh| |by vm_compute in Hh].
  assert (Hne : evs <> []) by (vm_compute in Hh; by injection Hh as _ _ <-).
  exists s', retry', evs. split; [reflexivity|]. split; [exact Hne|].
  destruct (HandleCommand_serializable (model_names ex_rid) true ex_attempts ex_aggregate (ResourceState_ ex_new)
    ex_retry ex_empty (ex_update "c1") s' retry' evs ex_aggregate_ok) as (s2 & Hok & _ & Hc).
  - by apply model_handles_for; [exact ex_stored|..].
  - by left.
  - apply ex_attempts_ok.
  - intros _. apply model_snapshot_replaces; [exact ex_stored|exact ex_plain|done|done].
  - exact ex_store_ok.
  - reflexivity.
  - exact Hh.
  - exact Hne.
  - exists s2. split; [exact Hok|exact Hc].
Defined.

Definition ex_saved : MemoryStore :=
  match ex_handled ex_empty (ex_update "c1") with Some (s, _, _) => s | None => [] end.
Definition ex_answer : ResourceModel * result (list AnyEvent) :=
  ag_HandleCommand (fun _ => ex_time) (fun _ => None) (ResourceState_ ex_new) (ex_update "c1") 0.

Lemma ex_wf_saved : wf_store ex_aggregate ex_saved.
Proof.
  assert (Hl : exists x, memory_log ex_saved ex_dev ex_id = [x] /\ Version x = 0%Z /\ IsSnapshot x = true /\
    GroupID x = ex_dev /\ AggregateID x = ex_id).
  { vm_compute. eexists. split; [reflexivity|]. by repeat split. }
  destruct Hl as (x & Hl & Hv & Hs & Hg & Ha). constructor; [|constructor].
  change (wf_log ex_dev ex_id (memory_log ex_saved ex_dev ex_id)). rewrite Hl. exists 0%Z. split_and!.
  - lia.
  - intros [|i] e; [|discriminate]. intros [= <-]. rewrite Hv. unfold is_u64. split; lia.
  - by repeat constructor.
  - intros e [= <-]. by left.
Qed.

Lemma ex_committed evs :
  ex_answer.2 = inr evs -> committed ex_aggregate (ResourceState_ ex_new) (ex_update "c1") ex_empty ex_saved evs.
Proof.
  intros He. exists ex_answer.1, (fun _ => None), ex_time, (fun _ => ex_time), (ResourceState_ ex_new), ex_time.
  vm_compute in He. injection He as <-. eexists. split_and!; [by vm_compute..].
Qed.

Lemma load_after_command_witness :
  exists evs w others,
    NewAggregateModel ex_time ex_dev ex_id ex_saved resourceStateModel_model [] = Some (inr (w, others)) /\
    ex_answer.2 = inr evs /\ new_version w = u64 (0 + Z.of_nat (length evs)).
Proof.
  destruct ex_answer.2 as [err|evs] eqn:He; [by vm_compute in He|].
  destruct (NewAggregateModel ex_time ex_dev ex_id ex_saved resourceStateModel_model [])
    as [[err|[w others]]|] eqn:Hl; [by vm_compute in Hl| |by vm_compute in Hl].
  exists evs, w, others. split; [reflexivity|]. split; [reflexivity|].
  destruct (load_after_command (model_names ex_rid) ex_aggregate (ResourceState_ ex_new) (ex_update "c1") ex_empty
    ex_saved evs ex_time w others ex_aggregate_ok) as [Hn _]; [..|exact Hn].
  - apply model_handles_for; [exact ex_stored|done..].
  - by left.
  - apply ex_store_ok.
  - exact ex_wf_saved.
  - reflexivity.
  - by apply ex_committed.
  - exact Hl.
Defined.

(** ** The device of the lamp *)
Definition ex_device_cmd (id : string) (u : UpdateDeviceMetadataRequest_Update) (seq : Z) : UpdateDeviceMetadataRequest :=
  MkUpdateDeviceMetadataRequest ex_dev id (Some u) 0 (Some (MkCommandMetadata "conn" seq)).
Definition ex_connection (s : Connection_Status) : UpdateDeviceMetadataRequest_Update :=
  UpdateDeviceMetadataRequest_Connection (Some (MkConnection s "" 5 Connection_COAP "service" ["coap://lamp"])).
Definition ex_enable (id : string) : Command :=
  CmdUpdateDeviceMetadata (ex_device_cmd id (UpdateDeviceMetadataRequest_TwinEnabled true) 2).
Definition ex_confirm_enable (id : string) : Command :=
  CmdConfirmDeviceMetadataUpdate (MkConfirmDeviceMetadataUpdateRequest ex_dev id Status_OK
    (Some (ConfirmDeviceMetadataUpdateRequest_TwinEnabled true)) (Some (MkCommandMetadata "conn" 3))).
Definition ex_device_step (d : DeviceMetadataSnapshotTaken) (cmd : Command) : DeviceMetadataSnapshotTaken :=
  (DeviceMetadata.HandleCommand ex_cc (fun _ => ex_time) d cmd 1).1.
(** The device is online, and three updates of its twin wait. *)
Definition ex_online : DeviceMetadataSnapshotTaken :=
  fold_left ex_device_step
    [CmdUpdateDeviceMetadata (ex_device_cmd "" (ex_connection Connection_ONLINE) 1);
     ex_enable "m1"; ex_enable "m2"; ex_enable "m3"] NewDeviceMetadataSnapshotTaken.
(** The first one is confirmed. *)
Definition ex_enabled : DeviceMetadataSnapshotTaken := ex_device_step ex_online (ex_confirm_enable "m1").

Lemma ex_fresh_ids : fresh_ids ex_online.
Proof. unfold fresh_ids. by_decision. Qed.

Lemma HandleCommand_device_witness :
  exists d' evs,
    DeviceMetadata.HandleCommand ex_cc ex_clk ex_online (ex_confirm_enable "m1") 7 = (d', inr evs) /\ length evs = 1 /\
    produced DeviceMetadata.handleByEvent (of_device ex_dev) ex_clk (ex_clk 2) 7 0 6 ex_online d' evs.
Proof.
  pose proof (HandleCommand_device ex_cc ex_clk ex_online (ex_confirm_enable "m1") 7 ltac:(unfold is_u64; lia)) as Ho.
  destruct (DeviceMetadata.HandleCommand ex_cc ex_clk ex_online (ex_confirm_enable "m1") 7) as [d' [err|evs]] eqn:Hc;
    [by vm_compute in Hc|].
  assert (Hl : length evs = 1) by (vm_compute in Hc; by injection Hc as _ <-).
  exists d', evs. split; [reflexivity|]. split; [exact Hl|]. destruct evs as [|ev evs]; [discriminate Hl|].
  destruct Ho as (d2 & Hp & _ & Hex). rewrite Hex; [exact Hp|left; exact ex_fresh_ids].
Defined.
(** The update [m1] is asked for again.  Confirming it makes no event, since the update equals the last one;
    but it waits no longer, while a replay of the log has it wait. *)
Definition ex_asked_again : DeviceMetadataSnapshotTaken := ex_device_step ex_enabled (ex_enable "m1").
Example dropped_without_event :
  let '(d', r) := DeviceMetadata.HandleCommand ex_cc ex_clk ex_asked_again (ex_confirm_enable "m1") 7 in
  r = inr [] /\ pending_ids ex_asked_again = ["m2"; "m3"; "m1"] /\ pending_ids d' = ["m2"; "m3"].
Proof. vm_compute. done. Qed.

Lemma ex_device_reachable d cmd :
  DeviceMetadataFacts.reachable ex_time d -> DeviceMetadataFacts.reachable ex_time (ex_device_step d cmd).
Proof. intros Hd. apply (DeviceMetadataFacts.reach_command _ ex_time); [lia|done]. Qed.

Lemma reachable_live_ids_witness :
  device_live_ids ex_time ex_online = ["m1"; "m2"; "m3"] /\ NoDup (device_live_ids ex_time ex_online).
Proof.
  split; [by vm_compute|]. apply (reachable_live_ids ex_time ex_online). unfold ex_online. simpl fold_left.
  do 4 apply ex_device_reachable. constructor.
Defined.

Lemma offline_only_by_owner_witness :
  let cmd := CmdUpdateDeviceMetadata (ex_device_cmd "" (ex_connection Connection_OFFLINE) 4) in
  let d' := (DeviceMetadata.HandleCommand ex_cc ex_clk ex_online cmd 7).1 in
  IsOnline (connection ex_online) = true /\ IsOnline (connection d') = false /\
  (connection d') ~> con_Id = (connection ex_online) ~> con_Id.
Proof.
  intros cmd d'.
  destruct (offline_only_by_owner ex_cc ex_clk ex_online cmd 7) as (_ & Hid & _); [by vm_compute..|].
  split; [by vm_compute|]. split; [by vm_compute|exact Hid].
Defined.

Definition ex_report : TwinSynchronization :=
  MkTwinSynchronization TwinSynchronization_SYNCING 9 0 None 0.
Lemma twin_report_witness :
  exists d' ev ts', DeviceMetadata.HandleCommand ex_cc ex_clk ex_enabled
    (CmdUpdateDeviceMetadata (ex_device_cmd "" (UpdateDeviceMetadataRequest_TwinSynchronization (Some ex_report)) 4)) 7
    = (d', inr [ev]) /\ twin d' = Some ts' /\ ts_State ts' = TwinSynchronization_SYNCING.
Proof.
  pose proof (twin_report ex_cc ex_clk ex_enabled
    (ex_device_cmd "" (UpdateDeviceMetadataRequest_TwinSynchronization (Some ex_report)) 4) ex_report 7 eq_refl eq_refl) as H.
  destruct (DeviceMetadata.HandleCommand _ _ _ _ _) as [d' [err|[|ev [|]]]] eqn:Hc;
    [by vm_compute in Hc|by vm_compute in Hc| |by vm_compute in Hc].
  destruct H as (ts' & Hts & Hst & _). exists d', ev, ts'. split; [reflexivity|]. split; [exact Hts|exact Hst].
Defined.

Lemma CancelPendingMetadataUpdatesRequest_keeps_witness :
  let cancel flt := (CancelPendingMetadataUpdatesRequest_ ex_cc ex_clk ex_online
                       (MkCancelPendingMetadataUpdatesRequest ex_dev flt ex_cm) 7).1 in
  pending_ids (cancel ["m2"]) = ["m1"; "m3"] /\ pending_ids (cancel []) = ["m2"].
Proof.
  intros cancel.
  destruct (CancelPendingMetadataUpdatesRequest_keeps ex_cc ex_clk ex_online ex_dev (MkCommandMetadata "conn" 1) 7)
    as [Hall Hone]; [by_decision|].
  unfold pending_ids, cancel. unfold ex_cm. rewrite Hall, Hone. split; by vm_compute.
Defined.

(** ** The links of the device *)
Definition ex_resource (href : string) : Resource :=
  MkResource href ex_dev ["oic.r.switch"] ["oic.if.a"] "" "" [] 0 None None.
Definition ex_links : list Resource := [ex_resource "/light"; ex_resource "/lamp"].
Definition ex_publish : Command :=
  CmdPublishResourceLinks (MkPublishResourceLinksRequest (Some ex_links) ex_dev ex_cm).
Definition ex_no_links : ResourceLinksSnapshotTaken := NewResourceLinksSnapshotTaken.
Definition ex_published : ResourceLinksSnapshotTaken :=
  (ResourceLinks.HandleCommand ex_cc concrete_order ex_time ex_no_links ex_publish 0).1.
Definition ex_pub : ResourceLinksPublished := MkResourceLinksPublished ex_dev (Some ex_links) None None [].
Definition ex_unpub (hrefs : list string) : ResourceLinksUnpublished :=
  MkResourceLinksUnpublished ex_dev (Some hrefs) None None [].

Lemma HandleCommand_links_witness :
  exists e' ev, ResourceLinks.HandleCommand ex_cc concrete_order ex_time ex_no_links ex_publish 7 = (e', inr [ev]) /\
    Version ev = 7%Z /\ ValidateEventsBeforeSave [Some ev] = None.
Proof.
  pose proof (HandleCommand_links ex_cc concrete_order concrete_order ex_time ex_no_links ex_publish 7
    concrete_map_order) as H.
  destruct (ResourceLinks.HandleCommand _ _ _ _ _ _) as [e' [err|[|x l]]] eqn:Hc;
    [by vm_compute in Hc|by vm_compute in Hc|].
  destruct H as (ev & Hev & Hv & _ & Hs); [unfold is_u64; lia|]. injection Hev as -> ->.
  exists e', ev. split; [reflexivity|]. split; [exact Hv|]. apply Hs; [|done|done].
  unfold is_i64, ex_time. lia.
Defined.

Lemma HandleEventResourceLinksPublished_links_witness :
  let '(e', published) := HandleEventResourceLinksPublished ex_no_links ex_pub in
  (forall r, r ∈ ex_links -> exists s, links e' !! res_Href r = Some s /\ EqualResource r s = true) /\
  elems published = ex_links.
Proof.
  pose proof (HandleEventResourceLinksPublished_links ex_no_links ex_pub ex_pub) as H.
  destruct (HandleEventResourceLinksPublished ex_no_links ex_pub) as [e' published] eqn:Hh.
  destruct H as [Hl _]; [by_decision|reflexivity|]. split.
  - intros r Hr. destruct (Hl r Hr) as (s & Hs & He & _). exists s. split; [exact Hs|exact He].
  - vm_compute in Hh. injection Hh as _ <-. by vm_compute.
Defined.

Lemma HandleEventResourceLinksUnpublished_links_witness :
  let '(e', unpublished) := HandleEventResourceLinksUnpublished concrete_order ex_published [] (ex_unpub ["/light"]) in
  links e' !! "/light" = None /\ elems unpublished = ["/light"].
Proof.
  pose proof (HandleEventResourceLinksUnpublished_links concrete_order concrete_map_order ex_published []
    (ex_unpub ["/light"])) as H.
  destruct (HandleEventResourceLinksUnpublished _ _ _ _) as [e' unpublished] eqn:Hh.
  destruct H as (_ & _ & Hu & _). split; [apply Hu; left; by left|].
  vm_compute in Hh. injection Hh as _ <-. reflexivity.
Defined.

Lemma reachable_keys_match_witness : is_Some (links ex_published !! "/lamp") /\ keys_match ex_published.
Proof.
  split; [by vm_compute; eexists|].
  apply reachable_keys_match. apply (ResourceLinksFacts.reach_command ex_cc concrete_order ex_time); [|constructor].
  exact concrete_map_order.
Defined.

Lemma publish_unpublish_roundtrip_witness :
  links (HandleEventResourceLinksUnpublished concrete_order
           (HandleEventResourceLinksPublished ex_no_links ex_pub).1 [] (ex_unpub ["/lamp"; "/light"])).1
  = links ex_no_links.
Proof.
  apply (publish_unpublish_roundtrip concrete_order ex_no_links ex_pub (ex_unpub ["/lamp"; "/light"])).
  - exact concrete_map_order.
  - by_decision.
  - intros r _. reflexivity.
  - discriminate.
  - apply perm_swap.
Defined.

(** ** Services *)
Definition ex_heartbeat (id : string) (register : bool) : ServiceHeartbeat :=
  MkServiceHeartbeat id (10 * Minute) 0 register.
Definition ex_beat (id : string) (register : bool) : UpdateServiceMetadataRequest :=
  MkUpdateServiceMetadataRequest (Some (UpdateServiceMetadataRequest_Heartbeat (Some (ex_heartbeat id register)))).
Definition ex_no_services : ServiceMetadataSnapshotTaken := NewServiceMetadataSnapshotTaken.
Definition ex_service_step (d : ServiceMetadataSnapshotTaken) (c : time_ * Command) : ServiceMetadataSnapshotTaken :=
  (ServiceMetadata.HandleCommand ex_cc None (fun _ => c.1) d c.2 0).1.
(** [s1] registers, [s2] an hour later; [s1] has expired by then. *)
Definition ex_services : ServiceMetadataSnapshotTaken :=
  fold_left ex_service_step
    [(ex_time, CmdUpdateServiceMetadata (ex_beat "s1" true));
     ((ex_time + 60 * Minute)%Z, CmdUpdateServiceMetadata (ex_beat "s2" true))] ex_no_services.
Definition ex_ask (ids : list string) : ConfirmExpiredServicesRequest :=
  MkConfirmExpiredServicesRequest ((fun id => MkServicesHeartbeat_Heartbeat id 0) <$> ids).

Lemma ex_service_reachable d c :
  ServiceMetadataFacts.reachable d -> ServiceMetadataFacts.reachable (ex_service_step d c).
Proof. apply ServiceMetadataFacts.reach_command. Qed.

Lemma reachable_wf_witness : expired ex_services <> [] /\ wf ex_services.
Proof.
  split; [by vm_compute|]. apply reachable_wf. unfold ex_services. simpl fold_left.
  do 2 apply ex_service_reachable. constructor.
Defined.

(** The state is in order, found by computing. *)
Lemma ex_wf : wf ex_services.
Proof.
  constructor; [by_decision|by_decision|by_decision|by_decision|].
  intros id v Hv. apply find_service_id in Hv as [<- Hv]. apply find_service_None.
  assert (Ha : Forall (fun v => shh_ServiceId v ∉ (shh_ServiceId <$> valid ex_services)) (expired ex_services))
    by by_decision.
  rewrite Forall_forall in Ha. by apply Ha.
Qed.

Lemma heartbeat_spec_witness :
  let r := ServiceMetadata.HandleCommand ex_cc None ex_clk ex_services (CmdUpdateServiceMetadata (ex_beat "s2" false)) 3 in
  rejects_with FailedPrecondition ex_services
    (ServiceMetadata.HandleCommand ex_cc None ex_clk ex_services (CmdUpdateServiceMetadata (ex_beat "s1" false)) 3) /\
  exists d' evs, r = (d', inr evs) /\
    status_of d' "s2" = Valid (new_until (ex_clk 1) (ex_clk 2) (ex_heartbeat "s2" false)).
Proof.
  intros r. split.
  - pose proof (heartbeat_spec ex_cc None ex_clk ex_services (ex_beat "s1" false) (ex_heartbeat "s1" false) 3 ex_wf
      eq_refl ltac:(discriminate)) as H.
    cbv zeta in H. change (hb_ServiceId (ex_heartbeat "s1" false)) with "s1" in H.
    destruct (status_of ex_services "s1") eqn:Hs; [by vm_compute in Hs|by vm_compute in Hs|exact H].
  - pose proof (heartbeat_spec ex_cc None ex_clk ex_services (ex_beat "s2" false) (ex_heartbeat "s2" false) 3 ex_wf
      eq_refl ltac:(discriminate)) as H.
    cbv zeta in H. change (hb_ServiceId (ex_heartbeat "s2" false)) with "s2" in H.
    change (hb_Register (ex_heartbeat "s2" false)) with false in H.
    destruct (status_of ex_services "s2") eqn:Hs; [by vm_compute in Hs| |by vm_compute in Hs].
    destruct H as (d' & evs & Hr & _ & _ & Hst). exists d', evs. split; [exact Hr|].
    rewrite Hst, decide_True by reflexivity. reflexivity.
Defined.

Lemma confirm_spec_witness :
  exists d' evs,
    ServiceMetadata.HandleCommand ex_cc None ex_clk ex_services (CmdConfirmExpiredServices (ex_ask ["s1"])) 3
    = (d', inr evs) /\ status_of d' "s1" = Absent.
Proof.
  destruct (confirm_spec ex_cc None ex_clk ex_services (ex_ask ["s1"]) 3 ex_wf) as (d' & evs & Hr & _ & _ & Hs).
  exists d', evs. split; [exact Hr|]. rewrite Hs. by vm_compute.
Defined.

Lemma expired_until_confirmed_witness :
  exists u, status_of ex_services "s1" = Expired u /\
    status_of (run ex_services [MkCall ex_cc None ex_clk (CmdUpdateServiceMetadata (ex_beat "s1" true)) 3;
                                MkCall ex_cc None ex_clk (CmdUpdateServiceMetadata (ex_beat "s2" false)) 3]) "s1"
    = Expired u.
Proof.
  destruct (status_of ex_services "s1") as [|u|u] eqn:Hs; [by vm_compute in Hs|by vm_compute in Hs|].
  exists u. split; [reflexivity|]. apply (expired_until_confirmed ex_services _ "s1" u ex_wf Hs).
  intros c [->|[->|[]%not_elem_of_nil]%elem_of_cons]%elem_of_cons; reflexivity.
Defined.

Lemma HandleCommand_services_replay_witness :
  exists d' evs d'', evs <> [] /\
    ServiceMetadata.HandleCommand ex_cc None ex_clk ex_services (CmdConfirmExpiredServices (ex_ask ["s1"])) 3
    = (d', inr evs) /\
    ServiceMetadata.Handle ex_clk ex_services (loaded <$> evs) None = (d'', None) /\
    sms_ServiceMetadataUpdated d'' = sms_ServiceMetadataUpdated d'.
Proof.
  pose proof (HandleCommand_services_replay ex_cc None ex_clk ex_services
    (CmdConfirmExpiredServices (ex_ask ["s1"])) 3 ex_wf) as H.
  destruct (ServiceMetadata.HandleCommand ex_cc None ex_clk ex_services
    (CmdConfirmExpiredServices (ex_ask ["s1"])) 3) as [d' [err|evs]] eqn:Hc; [clear H; vm_compute in Hc; discriminate|].
  destruct H as (d'' & Hh & Hs & _). exists d', evs, d''.
  split; [vm_compute in Hc; by injection Hc as _ <-|]. split; [reflexivity|]. split; [exact Hh|exact Hs].
Defined.

Lemma calculateTimeToLive_spec_witness :
  let hb := MkServiceHeartbeat "s1" (10 * Minute) ex_time false in
  calculateTimeToLive (ex_time + 5)%Z (ex_time + 7)%Z hb = (10 * Minute + 70)%Z.
Proof.
  intros hb.
  destruct (calculateTimeToLive_spec (ex_time + 5)%Z (ex_time + 7)%Z hb) as [Hc _];
    [unfold is_i64, hb, ex_time; simpl; lia|lia|unfold hb, Minute, Second; simpl; lia|].
  rewrite Hc. reflexivity.
Defined.

(** ** The events that a snapshot replaced *)
Lemma cleanUpToSnapshot_last_witness :
  exists evs last, evs ++ [last] = ex_run ex_new [ex_update "c1"; ex_update "c2"] 0 /\
    cleanUpToSnapshot (evs ++ [last]) = [MkVersionQuery ex_dev ex_id 1].
Proof.
  destruct (ex_run ex_new [ex_update "c1"; ex_update "c2"] 0) as [|x [|y [|]]] eqn:Hr; try by vm_compute in Hr.
  exists [x], y. split; [reflexivity|].
  rewrite (cleanUpToSnapshot_last ex_id ex_dev 0 [x] y).
  - vm_compute in Hr. injection Hr as _ <-. reflexivity.
  - vm_compute in Hr. injection Hr as <- <-. by_decision.
  - intros i e Hi. destruct i as [|[|i]]; [| |discriminate]; injection Hi as <-;
      vm_compute in Hr; injection Hr as <- <-; reflexivity.
  - lia.
  - simpl. lia.
Defined.
