(* ===== verification/SnippetWitnesses.v ===== *)
(** * The theorems at work: conditions, configurations and their application

    A user creates a configuration with the setting of a lamp, invokes it for a
    device, and the update of the lamp times out. *)

From Stdlib Require Import ZArith Lia String.
From S2P Require Import Prelude Commands Events Subjects SortedSlice Slices IdFilter Snippets.
From S2P Require Import IdentityStore SnippetStore SnippetStoreFacts SnippetService AppliedStore.
From S2P Require Import SnippetUpdater SnippetSystem SnippetSystemFacts SnippetUpdaterFacts SnippetRun.
From S2P Require Import Concrete Witnesses.

Abbreviation ex_range := concrete_range_versions.
Lemma ex_range_perm m : ex_range m ≡ₚ map_to_list m.
Proof. done. Qed.

(** ** Filters *)
Definition ex_filter (id : string) (v : IDFilter_Version) : option IDFilter := Some (MkIDFilter id (Some v)).
Lemma PartitionIDFilter_selects_witness :
  vf_selects (PartitionIDFilter [ex_filter "a" (IDFilter_Value 3); ex_filter "" (IDFilter_Latest true)]) "a" 3 false.
Proof.
  apply PartitionIDFilter_selects. right. exists (ex_filter "a" (IDFilter_Value 3)).
  split; [by left|]. split; [by right|reflexivity].
Defined.
Lemma idFilterFromString_print_witness :
  idFilterFromString "a/42" = Some (MkIDFilter "a" (Some (IDFilter_Value 42))).
Proof.
  apply (idFilterFromString_print (MkIDFilter "a" (Some (IDFilter_Value 42)))).
  split; [done|]. split; [reflexivity|]. cbn. unfold is_u64. lia.
Defined.

(** ** Configurations *)
Definition ex_user : string := "uuid:owner".
Definition ex_ctx : @context concrete_TokenLib := ex_user.
Definition ex_lamp : Configuration_Resource := MkConfiguration_Resource "/light" None 0.
Definition ex_conf : Configuration := MkConfiguration "" 0 "lamp" [ex_lamp] ex_user 0.
Definition ex_created := CreateConfiguration None "uuid:c1" 5%Z ex_conf [].
Definition ex_confs : list (Doc ConfigurationVersion) := ex_created.1.
Definition ex_next : Configuration := MkConfiguration "uuid:c1" 0 "lamp" [ex_lamp] ex_user 0.
Definition ex_two_versions : list (Doc ConfigurationVersion) := (UpdateConfiguration None 6%Z ex_next ex_confs).1.

Lemma ex_reachable : docs_reachable ex_range ([], ex_two_versions).
Proof.
  eapply docs_next; [|apply (step_update_configuration _ [] ex_confs None 6%Z ex_next)].
  eapply docs_next; [apply docs_init|]. apply (step_create_configuration _ [] [] None "uuid:c1" 5%Z ex_conf).
Qed.
Lemma docs_reachable_wf_witness : collection_wf ex_two_versions /\ length ex_two_versions = 1.
Proof. split; [apply (docs_reachable_wf ex_range ([], ex_two_versions) ex_reachable)|reflexivity]. Defined.

Lemma UpdateConfiguration_spec_witness :
  exists c, (UpdateConfiguration None 6%Z ex_next ex_confs).2 = inr c /\ cfg_Version c = 1%Z.
Proof.
  destruct (UpdateConfiguration_spec 6%Z ex_next ex_confs (default (MkDoc "" "" "" None []) (head ex_confs)))
    as (c & Heq & Hv & _).
  - split; [unfold ex_confs; cbn; by_decision|]. constructor; [|constructor].
    split; [repeat constructor|reflexivity].
  - reflexivity.
  - reflexivity.
  - left.
  - reflexivity.
  - reflexivity.
  - exists c. rewrite Heq. split; [reflexivity|]. rewrite Hv. reflexivity.
Defined.

Lemma ex_two_wf : Forall (fun d => doc_wf d /\ doc_Versions d <> []) ex_two_versions.
Proof.
  repeat constructor; cbn; try done; try lia.
Qed.
Lemma store_delete_exact_witness :
  let r := store_delete ex_range (fun _ => None) ex_user [ex_filter "uuid:c1" (IDFilter_Value 0)] ex_two_versions in
  r.2 = None /\ gv_Version <$> (r.1 ≫= doc_Versions) = [1%Z].
Proof.
  assert (Hv : forall n (v : ConfigurationVersion), v_Version (v_setVersion n v) = n) by done.
  cbv zeta. rewrite (store_delete_exact Hv ex_range ex_range_perm) by apply ex_two_wf.
  split; reflexivity.
Defined.

Lemma Server_GetConfigurations_exact_witness :
  let r := Server_GetConfigurations "sub" ex_range ex_ctx (fun _ => None) [] [] keep [] ex_two_versions in
  r.2 = None /\ exists c, c ∈ r.1 /\ cfg_Version c = 1%Z.
Proof.
  destruct (Server_GetConfigurations_exact "sub" ex_range ex_range_perm ex_ctx ex_user eq_refl [] [] ex_two_versions)
    as [He Hc].
  - eapply Forall_impl; [apply ex_two_wf|]. by intros d [Hd _].
  - split; [exact He|].
    set (d := default (MkDoc "" "" "" None []) (head ex_two_versions)).
    set (v := default (MkConfigurationVersion "" 0 [] 0) (doc_Latest d)).
    exists (configuration_of d v). split; [|reflexivity]. apply Hc. exists d, v.
    split_and!; [by left|reflexivity|right; by left| |reflexivity].
    right. exists (Some (MkIDFilter "" (Some (IDFilter_Latest true)))). split; [by left|].
    split; [by left|reflexivity].
Defined.

Definition ex_cond : Condition :=
  MkCondition "" 0 "night" true "uuid:c1" [] [] [] "" "token" ex_user 0.
Definition ex_conds : list (Doc ConditionVersion) := (CreateCondition None "uuid:k1" 5%Z ex_cond []).1.
Lemma unreadable_delete_deletes_all_witness :
  length ex_conds = 1 /\
  Server_DeleteConditions "sub" ex_range ex_ctx (fun _ => None) [] ["uuid:k1/first"] ex_conds = ([], None).
Proof.
  split; [reflexivity|].
  rewrite (unreadable_delete_deletes_all "sub" ex_range ex_range_perm ex_ctx ex_user eq_refl).
  - reflexivity.
  - repeat constructor.
  - repeat constructor; cbn; try done; try lia.
Defined.

(** ** An invocation *)
Lemma SplitCorrelationID_made_witness :
  SplitCorrelationID (resourceCorrelationID ["uuid:a"; "uuid:r"; "mine"]) = Some ("uuid:a", "uuid:r", "mine") /\
  SplitCorrelationID (resourceCorrelationID ["uuid:a"; "uuid:r"; "my.own"]) = None.
Proof. split; rewrite SplitCorrelationID_made by done; reflexivity. Defined.

Definition ex_uuid (n : nat) : string := "uuid:" +:+ String (Ascii.ascii_of_nat (97 + n)) "".
Definition ex_ra (token : option string) (upd : UpdateResourceRequest) : result Z := inr 100%Z.
Definition ex_invoke : prog (result (option AppliedConfiguration)) :=
  InvokeConfiguration "token" ex_user (MkInvokeConfigurationRequest "uuid:c1" "uuid:dev" false "mine").
Definition ex_world : world := MkWorld [] ex_confs [] [].
Definition ex_run := run ex_uuid 7%Z ex_ra ex_invoke ex_world.
Definition ex_after : world := default ex_world (fst <$> ex_run).
Definition ex_outcome : result (option AppliedConfiguration) := default (inr None) (snd <$> ex_run).

Lemma ex_invoked : sys_reachable ex_range (ex_after, [Ret ex_outcome]).
Proof.
  apply (run_reachable ex_range ex_uuid 7%Z ex_ra ex_invoke ex_world ex_after ex_outcome [] []);
    [vm_compute; reflexivity|].
  eapply (sys_next _ (ex_world, [])); [|apply (sys_start _ ex_world [] ex_invoke), handler_Invoke].
  eapply sys_next; [apply sys_init|]. apply (sys_docs _ (MkWorld [] [] [] []) [] [] ex_confs).
  apply (step_create_configuration _ [] [] None "uuid:c1" 5%Z ex_conf).
Qed.
Definition ex_applied : AppliedConfiguration :=
  default (MkAppliedConfigurationRecord "" "" None None [] "" 0) (head (w_applied ex_after)).

Lemma sys_reachable_ok_witness : applied_ok (w_applied ex_after) /\ ac_Id <$> w_applied ex_after = ["uuid:a"].
Proof.
  split; [|vm_compute; reflexivity]. apply (sys_reachable_ok ex_range (ex_after, [Ret ex_outcome]) ex_invoked).
Defined.
Lemma InvokeConfiguration_settles_witness :
  Forall (fun res => ar_Status res <> QUEUED) (ac_Resources ex_applied) /\ length (ac_Resources ex_applied) = 1.
Proof.
  split; [|vm_compute; reflexivity]. apply Forall_forall. intros res Hres.
  assert (Ho : ex_outcome = inr (Some ex_applied)) by (vm_compute; reflexivity).
  apply (InvokeConfiguration_settles ex_range (ex_after, [Ret ex_outcome]) ex_applied ex_invoked)
    with (d := ex_applied); [rewrite Ho; by left| |reflexivity|exact Hres].
  assert (Hw : w_applied ex_after = [ex_applied]) by (vm_compute; reflexivity).
  cbn [fst]. rewrite Hw. by left.
Defined.

(** The lamp answers: the handler of the event is one step away from done. *)
Definition ex_updated : ResourceUpdated :=
  MkResourceUpdated (Some (MkResourceId "uuid:dev" "/light")) Status_OK None
    (Some (MkAuditContext "" "uuid:a.uuid:b.mine" ex_user)) None [] [].
Definition ex_finish : prog (result (option AppliedConfiguration)) :=
  ignore (Handle ex_range None [ev_ResourceUpdated (inr ex_updated)]).
Lemma no_status_goes_back_witness :
  exists d', d' ∈ w_applied (default ex_after (fst <$> run ex_uuid 8%Z ex_ra ex_finish ex_after)) /\
    progress ex_applied d' /\ ar_Status <$> ac_Resources d' = [DONE].
Proof.
  set (w' := default ex_after (fst <$> run ex_uuid 8%Z ex_ra ex_finish ex_after)).
  set (d' := default ex_applied (head (w_applied w'))).
  assert (Hw : w_applied ex_after = [ex_applied]) by (vm_compute; reflexivity).
  assert (Hw' : w_applied w' = [d']) by (vm_compute; reflexivity).
  exists d'. split; [rewrite Hw'; by left|]. split; [|vm_compute; reflexivity].
  assert (Hs : sys_reachable ex_range (ex_after, [Ret ex_outcome; ex_finish])).
  { eapply sys_next; [apply ex_invoked|]. apply (sys_start _ ex_after [Ret ex_outcome]), handler_Handle. }
  assert (Hstep : exists p, sys_step ex_range (ex_after, [Ret ex_outcome; ex_finish]) (w', [Ret ex_outcome; p])).
  { eexists. apply (sys_call ex_range ex_after w' [Ret ex_outcome] []).
    exists None, 8%Z. eexists. split; vm_compute; reflexivity. }
  destruct Hstep as [p Hstep].
  apply (no_status_goes_back ex_range _ _ ex_applied d' Hs Hstep); cbn [fst];
    [rewrite Hw; by left|rewrite Hw'; by left|vm_compute; reflexivity].
Defined.

Lemma TimeoutPendingResourceUpdates_spec_witness :
  exists w', run ex_uuid 200%Z ex_ra TimeoutPendingResourceUpdates ex_after = Some (w', tt) /\
    (w_applied w' ≫= fun d => ar_Status <$> ac_Resources d) = [TIMEOUT].
Proof.
  destruct (TimeoutPendingResourceUpdates_spec ex_uuid 200%Z ex_ra ex_after) as [Hr _].
  - assert (Hw : ac_Id <$> w_applied ex_after = ["uuid:a"]) by (vm_compute; reflexivity).
    rewrite Hw. by_decision.
  - assert (Hw : w_applied ex_after = [ex_applied]) by (vm_compute; reflexivity). rewrite Hw.
    constructor; [|constructor]. split; [reflexivity|]. split; [|repeat constructor].
    assert (Hh : ar_Href <$> ac_Resources ex_applied = ["/light"]) by (vm_compute; reflexivity).
    rewrite Hh. by_decision.
  - eexists. split; [exact Hr|]. vm_compute; reflexivity.
Defined.
