(* ===== verification/HeartbeatWitnesses.v ===== *)
(** * The theorems at work: the heartbeats of services

    A gateway registers for a minute and is not heard of again; its one device
    is put offline.  And how the loop forgets the time of its next check. *)

From Stdlib Require Import ZArith Lia String.
From S2P Require Import Prelude Commands Events EventStore Handler ServiceMetadata Validation.
From S2P Require Import ServiceMetadataFacts IdentityStore Heartbeat HeartbeatFacts Concrete Witnesses.

(** The devices of a service, in the order of the map. *)
Definition concrete_by_service (devices : gmap string string) (id : string) : list string :=
  (map_to_list (filter (fun dv : string * string => dv.2 = id) devices)).*1.
Lemma concrete_by_service_spec devices id :
  NoDup (concrete_by_service devices id) /\
  forall d, d ∈ concrete_by_service devices id <-> devices !! d = Some id.
Proof.
  unfold concrete_by_service. split; [apply NoDup_fst_map_to_list|]. intros d.
  rewrite list_elem_of_fmap. split.
  - intros ([d' s] & -> & Hin). apply elem_of_map_to_list in Hin.
    apply map_lookup_filter_Some in Hin as [Hl Hs]. cbn in *. by subst.
  - intros Hl. exists (d, id). split; [done|]. apply elem_of_map_to_list, map_lookup_filter_Some. by split.
Qed.

(** One step of a concrete state, which is evaluated. *)
Tactic Notation "go" hyp(H) tactic3(t) :=
  let H' := fresh in
  eassert (H' : hb_reachable _ _ _); [eapply hb_next; [exact H|t]|]; clear H; rename H' into H; vm_compute in H.

(** A hub with an identifier that the configuration accepts. *)
Definition hb_cc : CommandContext := MkCommandContext "user" "owner" "uuid:hub" None [].
(** A heartbeat of one minute. *)
Definition beat (register : bool) : UpdateServiceMetadataRequest :=
  MkUpdateServiceMetadataRequest (Some (UpdateServiceMetadataRequest_Heartbeat
    (Some (MkServiceHeartbeat "gateway" Minute 0 register)))).

Abbreviation ex_reach by_service := (hb_reachable hb_cc by_service).
Definition ex_devices : gmap string string := {["uuid:dev" := "gateway"]}.
Definition ex_start : HB := NewServiceHeartbeat_ NewServiceMetadataSnapshotTaken ex_devices 1000%Z.
Lemma ex_start_reachable by_service : ex_reach by_service ex_start.
Proof. apply hb_init, reach_new. Qed.

(** A request waits and its client has yet to wake the loop. *)
Definition ex_pushed : HB := fst (UpdateServiceMetadata_push (beat true) ex_start).
Lemma ex_pushed_reachable by_service : ex_reach by_service ex_pushed.
Proof.
  eapply hb_next; [apply ex_start_reachable|]. apply (step_request _ _ _ (beat true)). vm_compute; reflexivity.
Qed.

Lemma no_request_forgotten_witness :
  q_wake ex_pushed = true \/ q_wakers ex_pushed > 0 \/ active (q_run ex_pushed) = true.
Proof.
  apply (no_request_forgotten hb_cc concrete_by_service ex_pushed (ex_pushed_reachable _));
    [reflexivity|vm_compute; discriminate].
Defined.

(** The client wakes the loop, which takes four steps. *)
Lemma ex_four_steps : exists s', runs hb_cc concrete_by_service 4 ex_pushed s' /\ q_closed s' = false.
Proof.
  eexists. split.
  - eapply runs_other; [apply (step_wake _ _ _ 0); vm_compute; reflexivity|].
    eapply runs_loop; [apply run_wake; vm_compute; reflexivity|].
    eapply runs_loop; [eapply run_pop; vm_compute; reflexivity|].
    eapply runs_loop; [eapply (run_request _ _ _ _ _ None 0%Z); vm_compute; reflexivity|].
    eapply runs_loop; [eapply run_pop; vm_compute; reflexivity|]. apply runs_refl.
  - vm_compute. reflexivity.
Qed.
Lemma request_answered_witness :
  exists s', runs hb_cc concrete_by_service 4 ex_pushed s' /\ is_Some (q_answers s' !! 0).
Proof.
  destruct ex_four_steps as (s' & Hr & Hc). exists s'. split; [exact Hr|].
  refine (proj2 (request_answered hb_cc concrete_by_service ex_pushed 0 _ (ex_pushed_reachable _) _ _) 4 s' Hr _ Hc);
    [reflexivity|reflexivity|by_decision|vm_compute; lia].
Defined.

(** The loop is idle again after the heartbeat, and two minutes go by. *)
Definition ex_handled : HB :=
  let '(s, t) := processRequest hb_cc None 0 (MkReqResp (Some (beat true)) (Some 0))
    (set_run (Handling [MkReqResp (Some (beat true)) (Some 0)] MaxTime)
      (pop (set_run (AtPop MaxTime) (set_wake false false
        (wakeUp (set_clients 0 (q_chans ex_pushed) (q_answers ex_pushed) ex_pushed))))).2) in
  set_run (AtPop (if Before t MaxTime then t else MaxTime)) s.
Definition ex_idle : HB := set_run AtSelect (reset_timer 60000001000%Z (set_queue [] ex_handled)).
Definition ex_late : HB := set_now 120000000000%Z ex_idle.
Lemma ex_late_reachable by_service : ex_reach by_service ex_late.
Proof.
  pose proof (ex_pushed_reachable by_service) as Hs. vm_compute in Hs.
  go Hs (apply (step_wake _ _ _ 0); reflexivity).
  go Hs (apply step_run; eapply run_wake; reflexivity).
  go Hs (apply step_run; eapply run_pop; reflexivity).
  go Hs (apply step_run; eapply (run_request _ _ _ _ _ None 0%Z); reflexivity).
  go Hs (apply step_run; eapply run_pop; reflexivity).
  go Hs (apply step_run; eapply run_reset; reflexivity).
  go Hs (apply (step_time _ _ _ 120000000000%Z); by_decision).
  match type of Hs with hb_reachable _ _ ?s => replace ex_late with s; [exact Hs|vm_compute; reflexivity] end.
Qed.

Lemma timer_finds_overdue_witness :
  exists s', rtc (loop_step hb_cc) ex_late s' /\
    is_Some (q_offlineServices s' !! "gateway") /\ q_wakeExpired s' = true.
Proof.
  apply (timer_finds_overdue hb_cc concrete_by_service ex_late "gateway" 60000001000%Z);
    [reflexivity|apply ex_late_reachable|reflexivity|vm_compute; reflexivity|by_decision|vm_compute; reflexivity|vm_compute; reflexivity].
Defined.

Definition ex_gateway : ServicesHeartbeat_Heartbeat := MkServicesHeartbeat_Heartbeat "gateway" 60000001000.
Lemma handleExpiredService_ends_witness :
  exists fuel d', handleExpiredService hb_cc concrete_by_service fuel [] ex_gateway 1 120000000000%Z
    ex_devices ex_services = Some (without_service "gateway" ex_devices, d', None) /\
    map_to_list (without_service "gateway" ex_devices) = [].
Proof.
  destruct (handleExpiredService_ends hb_cc concrete_by_service concrete_by_service_spec ex_gateway 1
    120000000000%Z ex_devices ex_services ex_wf) as (fuel & d' & Hr & _).
  exists fuel, d'. split; [exact Hr|]. vm_compute; reflexivity.
Defined.

(** ** The timer can be forgotten *)
(** A heartbeat that comes while another one is handled is handled in the same
    turn, but its token wakes the idle loop once more; that turn finds no
    request and sets the timer to the end of time.  If no heartbeat follows, no
    check is made when the service's time is over: here the service is valid
    for a minute, and the timer fires after 292 years. *)
Theorem timer_forgotten :
  exists s u, hb_reachable hb_cc concrete_by_service s /\ q_run s = AtSelect /\ q_wake s = false /\ q_wakers s = 0 /\
    q_requestQueue s = [] /\ status_of (q_services s) "gateway" = Valid u /\
    (u <= q_now s + Minute)%Z /\ (q_timer s = q_now s + (2 ^ 63 - 1))%Z.
Proof.
  pose proof (hb_init hb_cc concrete_by_service _ ∅ 1000%Z reach_new) as Hs. vm_compute in Hs.
  go Hs (apply (step_request _ _ _ (beat true)); reflexivity).
  go Hs (apply (step_wake _ _ _ 0); reflexivity).
  go Hs (apply step_run; eapply run_wake; reflexivity).
  go Hs (apply step_run; eapply run_pop; reflexivity).
  go Hs (apply (step_request _ _ _ (beat false)); reflexivity).
  go Hs (apply (step_wake _ _ _ 0); reflexivity).
  go Hs (apply step_run; eapply (run_request _ _ _ _ _ None 0%Z); reflexivity).
  go Hs (apply step_run; eapply run_pop; reflexivity).
  go Hs (apply step_run; eapply (run_request _ _ _ _ _ None 1%Z); reflexivity).
  go Hs (apply step_run; eapply run_pop; reflexivity).
  go Hs (apply step_run; eapply run_reset; reflexivity).
  go Hs (apply step_run; eapply run_wake; reflexivity).
  go Hs (apply step_run; eapply run_pop; reflexivity).
  go Hs (apply step_run; eapply run_reset; reflexivity).
  match type of Hs with hb_reachable _ _ ?s => exists s end.
  exists 60000001000%Z. split; [exact Hs|]. split_and!; vm_compute; done.
Qed.
