(* ===== verification/MongoWitnesses.v ===== *)
(** * The theorems at work: the event store in MongoDB

    A lamp reports its light; its document has room for four bytes, a snapshot
    taking three, so that the second snapshot goes to a document of its own. *)

From Stdlib Require Import ZArith Lia String.
From S2P Require Import Prelude Commands Events EventStore MongoStore MongoStoreFacts Concrete Witnesses.

Definition ex_meta (v : Z) : option EventMetadata := Some (MkEventMetadata v (ex_time + v) "conn" 1 "hub").
Definition ex_light (v : Z) (data : list byte) : AnyEvent :=
  EvResourceChanged (MkResourceChanged ex_rid (Some (MkContent (Some data) "" 50)) Status_OK None (ex_meta v) None [] []).
Definition ex_snap (v : Z) : AnyEvent :=
  EvResourceStateSnapshotTaken (MkResourceStateSnapshotTaken ex_rid None None None None None None (ex_meta v) []).
Abbreviation AnyDoc := (DBDoc (D := AnyEvent)).
Definition ex_marshal (e : AnyEvent) : result AnyEvent := inr e.
Definition ex_size (e : AnyEvent) : nat :=
  match e with EvResourceChanged c => length (elems ((rc_Content c) ~> ct_Data)) | _ => 3 end.
Definition ex_fits (d : AnyDoc) : bool := (list_sum (ex_size ∘ ev_data <$> doc_log d) <=? 4)%nat.
Definition ex_save (docs : list AnyDoc) (events : list AnyEvent) : list AnyDoc * result SaveStatus :=
  Save ex_marshal ex_fits (fun _ => None) docs events.
Definition ex_lamp_id : string := ResourceId_ToUUID ex_rid.

Definition ex_one : list AnyDoc := (ex_save [] [ex_light 0 [x01]]).1.
Definition ex_full : list AnyDoc := (ex_save ex_one [ex_snap 1]).1.
Definition ex_two_docs : list AnyDoc := (ex_save ex_full [ex_snap 2]).1.

Lemma ex_saved_one e v : ValidateEventsBeforeSave [Some e] = None -> Version e = v -> (0 <= v < 100)%Z -> saved [e] e.
Proof. intros Hv <- Hb. split_and!; [done|done|lia|cbn [length]; lia]. Qed.
(** What the first document is called stays, and nothing is full before the second snapshot. *)
Lemma ex_fresh docs a v (first : AnyDoc) rest :
  docs = first :: rest -> doc_id first = Some (version_id a 0) ->
  forallb (fun d => doc_isActive d || negb (doc_latestVersion d =? v - 1)%Z) docs = true -> fresh docs a v.
Proof.
  intros -> Hid Hb. split.
  - intros d Hd _ Hl. rewrite forallb_forall in Hb. apply list_elem_of_In, Hb in Hd.
    rewrite Hl, Z.eqb_refl, orb_false_r in Hd. done.
  - intros _ _. exists first. split; [by left|done].
Qed.
Lemma ex_fits_inactive (docs : list AnyDoc) : forallb (fun d => ex_fits (set_inactive d).1) docs = true ->
  forall d, d ∈ docs -> ex_fits (set_inactive d).1 = true.
Proof. intros Hb d Hd. rewrite forallb_forall in Hb. by apply Hb, list_elem_of_In. Qed.
Lemma ex_in_group (docs : list AnyDoc) a g : forallb (fun d => bool_decide (doc_groupID d = Some g)) docs = true -> in_group docs a g.
Proof.
  intros Hb. unfold in_group. apply Forall_forall. intros d Hd. apply elem_docs_of in Hd as [_ Hd].
  rewrite forallb_forall in Hb. apply list_elem_of_In, Hb in Hd. by apply bool_decide_eq_true in Hd.
Qed.
Lemma ex_empty_ok : docs_ok ([] : list AnyDoc).
Proof. intros a Ha. done. Qed.
Lemma ex_one_ok : docs_ok ex_one.
Proof.
  pose proof (Save_refines ex_marshal ex_fits [] [ex_light 0 [x01]] (ex_light 0 [x01]) ex_empty_ok) as Hs.
  unfold ex_one, ex_save. destruct (Save _ _ _ _ _) as [docs' r] eqn:E.
  assert (r = inr SaveOk) as -> by (vm_compute in E; by injection E as <- <-).
  destruct Hs as [_ [? _]].
  - apply (ex_saved_one _ 0); [vm_compute; reflexivity|reflexivity|lia].
  - constructor.
  - split; [intros d Hd; by apply not_elem_of_nil in Hd|done].
  - intros d Hd. by apply not_elem_of_nil in Hd.
  - done.
Qed.
Lemma ex_full_ok : docs_ok ex_full.
Proof.
  pose proof (Save_refines ex_marshal ex_fits ex_one [ex_snap 1] (ex_snap 1) ex_one_ok) as Hs.
  unfold ex_full, ex_save. destruct (Save _ _ _ ex_one _) as [docs' r] eqn:E.
  assert (r = inr SaveOk) as -> by (vm_compute in E; by injection E as <- <-).
  destruct Hs as [_ [? _]].
  - apply (ex_saved_one _ 1); [vm_compute; reflexivity|reflexivity|lia].
  - apply ex_in_group. vm_compute; reflexivity.
  - eapply ex_fresh; [reflexivity|vm_compute; reflexivity|vm_compute; reflexivity].
  - apply ex_fits_inactive. vm_compute; reflexivity.
  - done.
Qed.

(** The document is full: the second snapshot starts a new one. *)
Lemma Save_refines_witness :
  save_outcome ex_marshal ex_fits ex_full ex_two_docs (ex_snap 2) [ex_snap 2] (inr SaveOk) /\ length ex_two_docs = 2.
Proof.
  split; [|vm_compute; reflexivity].
  pose proof (Save_refines ex_marshal ex_fits ex_full [ex_snap 2] (ex_snap 2) ex_full_ok) as Hs.
  unfold ex_two_docs, ex_save. destruct (Save _ _ _ ex_full _) as [docs' r] eqn:E.
  assert (Hr : r = inr SaveOk) by (vm_compute in E; by injection E as <- <-). rewrite Hr in Hs. apply Hs.
  - apply (ex_saved_one _ 2); [vm_compute; reflexivity|reflexivity|lia].
  - apply ex_in_group. vm_compute; reflexivity.
  - eapply ex_fresh; [reflexivity|vm_compute; reflexivity|vm_compute; reflexivity].
  - apply ex_fits_inactive. vm_compute; reflexivity.
Defined.

Definition ex_query : SnapshotQuery := MkSnapshotQuery ex_dev ex_lamp_id [].

Lemma RemoveUpToVersion_keeps_witness :
  let '(docs', errs) := RemoveUpToVersion (inl ErrNilDocument) map_to_list (fun _ _ => None)
    [MkVersionQuery ex_dev ex_lamp_id 1] ex_full in
  errs = [] /\ ev_version <$> log docs' ex_lamp_id = [1%Z].
Proof.
  pose proof (RemoveUpToVersion_keeps (inl ErrNilDocument) map_to_list ex_full ex_dev ex_lamp_id 1 ex_full_ok) as Hs.
  destruct (RemoveUpToVersion _ _ _ _ ex_full) as [docs' errs].
  destruct Hs as (-> & _ & _ & _ & ->).
  - done.
  - done.
  - vm_compute. discriminate.
  - vm_compute. discriminate.
  - vm_compute. discriminate.
  - assert (Hf : forallb (fun e => 1 <=? ev_version e)%Z (since_snapshot (log ex_full ex_lamp_id)) = true) by (vm_compute; reflexivity).
    intros e He. rewrite forallb_forall in Hf. by apply Z.leb_le, Hf, list_elem_of_In.
  - assert (Hf : forallb (fun d => forallb (fun e => match doc_firstVersion d with
        | Some n => (n <=? ev_version e)%Z && (ev_version e <=? doc_latestVersion d)%Z | None => false end) (doc_log d))
        (docs_of ex_lamp_id ex_full) = true) by (vm_compute; reflexivity).
    intros d e Hd He. rewrite forallb_forall in Hf. apply list_elem_of_In, Hf in Hd. rewrite forallb_forall in Hd.
    apply list_elem_of_In, Hd in He. destruct (doc_firstVersion d) as [n|]; [|done]. exists n. split; [done|].
    apply andb_prop in He as [H1 H2]. apply Z.leb_le in H1, H2. lia.
  - split; [done|]. vm_compute; reflexivity.
Defined.

(** A writer that saw only the first document appends to it. *)
Definition ex_stale : AnyEvent := ex_light 2 [].

Lemma interrupted_snapshot_blocks_witness :
  let '(docs', r) := Save ex_marshal ex_fits (fun k => if (k =? 4)%nat then Some (OtherError, false) else None)
    ex_full [ex_snap 2] in
  Forall (fun d => doc_isActive d = false) (docs_of ex_lamp_id docs') /\
  Save ex_marshal ex_fits (fun _ => None) docs' [ex_light 0 [x01]] = (docs', inr ConcurrencyException).
Proof.
  pose proof (interrupted_snapshot_blocks ex_marshal ex_fits ex_full [ex_snap 2] (ex_snap 2) ex_full_ok) as Hs.
  destruct (Save _ _ _ ex_full _) as [docs' r]. destruct Hs as (_ & _ & Hin & Hblock).
  - apply (ex_saved_one _ 2); [vm_compute; reflexivity|reflexivity|lia].
  - done.
  - reflexivity.
  - eapply ex_fresh; [reflexivity|vm_compute; reflexivity|vm_compute; reflexivity].
  - vm_compute; reflexivity.
  - apply ex_fits_inactive. vm_compute; reflexivity.
  - destruct ex_full as [|d docs] eqn:E; [by vm_compute in E|]. exists d. split; [by left|].
    vm_compute in E. injection E as <- _. vm_compute; reflexivity.
  - vm_compute; reflexivity.
  - eexists. vm_compute; reflexivity.
  - split; [exact Hin|]. eapply (Hblock _ (ex_light 0 [x01])).
    + apply (ex_saved_one _ 0); [vm_compute; reflexivity|reflexivity|lia].
    + reflexivity.
    + reflexivity.
    + vm_compute; reflexivity.
    + vm_compute; reflexivity.
Defined.

Lemma Insert_newest_witness :
  (Insert None (MkTask "g" "a" 3) {["a" := MkTask "g" "a" 5]}).2 <> None.
Proof.
  pose proof (Insert_newest (MkTask "g" "a" 3) {["a" := MkTask "g" "a" 5]}) as Hi.
  destruct (Insert _ _ _) as [records' err]. destruct Hi as [[Hi _] _]; [done|done|].
  intros Hn. specialize (Hi Hn (MkTask "g" "a" 5) eq_refl). cbn in Hi. lia.
Defined.
