(* ===== verification/BusWitnesses.v ===== *)
(** * The theorems at work: events, subscriptions and the devices of an owner

    The lamp of [Witnesses] changes, and a client of its owner has subscribed
    to it; the owner adds and deletes devices, and a cache follows. *)

From Stdlib Require Import ZArith Lia String.
From S2P Require Import Prelude Commands Events EventStore BusPool SortedSlice Subjects BusPoolFacts IdentityStore.
From S2P Require Import HandlerTable Subscription SubscriptionFacts SubscriptionsCache SubscriptionsCacheFacts.
From S2P Require Import SubscriptionSubjects OwnerCache OwnerCacheFacts Concrete Witnesses.


(** ** Subjects *)
Definition ex_np (s : string) : bool := String.prefix uuid_prefix s.
Definition ex_owner : string := "uuid:owner".
Definition ex_changed : AnyEvent := EvResourceChanged (ex_change 1 [x01]).
Definition ex_filters : list ResourceId := [MkResourceId ex_dev "/light"].
Definition ex_no_leads : leadResourceTypeFilter := MkLeadResourceTypeFilter false [].

Lemma published_reaches_subscriber_witness :
  exists subject,
    GetPublishSubject concrete_range ex_np None ex_owner ex_changed = [subject] /\
    Forall (fun pattern => nats_matches pattern subject = true)
      (GetResourceEventSubjects concrete_range ex_np ex_owner (Some (MkResourceId ex_dev "/light"))
         (EventType ex_changed) false).
Proof.
  apply (published_reaches_subscriber concrete_range ex_np None ex_owner ex_changed
    (Some (MkResourceId ex_dev "/light"))); reflexivity.
Defined.

Lemma subjects_hear_witness :
  exists subject pattern,
    GetPublishSubject concrete_range ex_np None ex_owner ex_changed = [subject] /\
    pattern ∈ ConvertToSubjects concrete_range ex_np ex_owner ex_filters ex_no_leads
                FilterBitmaskResourceChanged /\
    nats_matches pattern subject = true.
Proof.
  apply (subjects_hear concrete_range ex_np None ex_owner ex_changed RESOURCE_CHANGED);
    try reflexivity.
  right. left. split; [by right; right|]. intros rid [= <-]. by right; right.
Defined.

(** ** Filters *)
Definition ex_dev2 : string := "uuid:dev2".
Definition ex_two : list ResourceId := [MkResourceId ex_dev "/light"; MkResourceId ex_dev2 "/light"].
Definition ex_mixed : list ResourceId := [MkResourceId ex_dev "*"; MkResourceId ex_dev2 "/light"].
Definition ex_sets (vs : list ResourceId) : filtered :=
  (setFilters_loop concrete_Parse_value no_filtered vs).1.

Lemma delivered_is_covered_witness :
  passes concrete_Parse_value (ex_sets ex_mixed) (MkResourceId ex_dev2 "/light") = true /\
  Exists (fun v => covers concrete_Parse_value v (MkResourceId ex_dev2 "/light")) ex_mixed.
Proof.
  split; [by vm_compute|].
  destruct (delivered_is_covered concrete_Parse_value ex_mixed (ex_sets ex_mixed)
    (MkResourceId ex_dev2 "/light")) as [He|He]; [..|discriminate|exact He].
  - vm_compute; reflexivity.
  - by split.
  - unfold wf_filter. by_decision.
  - vm_compute; reflexivity.
Defined.

Lemma one_kind_exact_witness :
  let p := passes concrete_Parse_value (ex_sets ex_two) in
  p (MkResourceId ex_dev "/light") = true /\ p (MkResourceId ex_dev "/lamp") = false.
Proof.
  assert (Hi : setFilters_loop concrete_Parse_value no_filtered ex_two = (ex_sets ex_two, None))
    by (vm_compute; reflexivity).
  assert (Hw : Forall wf_filter ex_two) by (unfold wf_filter; by_decision).
  assert (Hk : one_kind ex_two) by (left; repeat constructor; discriminate).
  pose proof (fun r Hr => one_kind_exact concrete_Parse_value ex_two (ex_sets ex_two) r Hi Hr Hw Hk) as Hx.
  intros p. split.
  - apply Hx; [by split|]. right. by left.
  - apply not_true_iff_false. intros Hp. apply Hx in Hp; [|by split].
    destruct Hp as [Hp|Hp]; [discriminate|].
    apply Exists_cons in Hp as [Hp|Hp]; [discriminate Hp|].
    apply Exists_cons in Hp as [Hp|Hp]; [discriminate Hp|]. by apply Exists_nil in Hp.
Defined.

Lemma union_of_filters_lost_witness :
  covers concrete_Parse_value (MkResourceId ex_dev "*") (MkResourceId ex_dev "/lamp") /\
  passes concrete_Parse_value (ex_sets ex_mixed) (MkResourceId ex_dev "/lamp") = false.
Proof.
  destruct (union_of_filters_lost concrete_Parse_value ex_mixed (ex_sets ex_mixed)
    ex_dev "/lamp" ex_dev2 "/light") as [Hc Hp].
  - vm_compute; reflexivity.
  - by repeat constructor.
  - unfold wf_filter. by_decision.
  - by_decision.
  - by_decision.
  - by split.
  - by split.
  - by_decision.
  - by_decision.
  - split; [apply Hc; by vm_compute; eexists|exact Hp].
Defined.

Definition ex_request : CreateSubscription :=
  MkCreateSubscription [] [ex_dev] [] ["/light"] [Some (MkResourceIdFilter (Some (MkResourceId ex_dev2 "/lamp")) [])] [].
Lemma getFilters_union_witness :
  let m := sf_resourceFilters (getFilters ex_request false).1 in
  map_covers m (MkResourceId ex_dev "/light") /\ map_covers m (MkResourceId ex_dev2 "/lamp") /\
  ~ map_covers m (MkResourceId ex_dev "/lamp").
Proof.
  intros m.
  assert (Hu : forall r, map_covers m r <-> requested ex_request r).
  { intros r. apply (getFilters_union ex_request false r).
    - repeat constructor; discriminate.
    - repeat constructor; discriminate.
    - repeat constructor. exists (MkResourceId ex_dev2 "/lamp"), [].
      split; [reflexivity|]. repeat constructor; discriminate. }
  split_and!; [apply Hu; left|apply Hu; right|rewrite Hu].
  - split_and!; [left; discriminate|right; by_decision|right; by_decision].
  - exists []. by left.
  - intros [(_ & _ & [He|He])|[e He]].
    + discriminate.
    + apply list_elem_of_singleton in He. discriminate.
    + apply list_elem_of_singleton in He. discriminate.
Defined.

(** ** The cache of subscriptions: a client comes and goes *)
Definition ex_subject : string := "plgd.owners.o.>".
Definition ex_cache1 : cache_state unit :=
  match Subscribe_locked NewSubscriptionsCache ex_subject (Some tt) (inr 7%Z) with
  | Some (c, _, _) => MkCacheState c {[7%Z]} [] {[7%Z]}
  | None => cache_init
  end.
Definition ex_cache2 : cache_state unit :=
  MkCacheState (close_locked (cs_cache ex_cache1) ex_subject 1).1 {[7%Z]} [7%Z] {[7%Z]}.
Definition ex_cache3 : cache_state unit :=
  MkCacheState (cs_cache ex_cache2) ({[7%Z]} ∖ {[7%Z]}) [] {[7%Z]}.

Lemma ex_cache2_reachable : cache_reachable ex_cache2.
Proof.
  apply (cache_reachable_step ex_cache1).
  - apply (cache_reachable_step cache_init); [constructor|].
    pose proof (step_subscribe (H := unit) cache_init ex_subject tt (inr 7%Z)
      (cs_cache ex_cache1) (Some 1%Z) None) as Hs. cbv zeta in Hs.
    match type of Hs with
    | _ -> _ -> cache_step _ ?st => replace ex_cache1 with st by (vm_compute; reflexivity)
    end.
    apply Hs; [|by vm_compute]. intros sub _. by apply not_elem_of_empty.
  - apply (step_close ex_cache1 ex_subject 1 (cs_cache ex_cache2) (Some 7%Z)). by vm_compute.
Qed.
Lemma ex_cache3_reachable : cache_reachable ex_cache3.
Proof.
  apply (cache_reachable_step ex_cache2); [apply ex_cache2_reachable|].
  by apply (step_unsubscribe ex_cache2 [] [] 7).
Qed.

Lemma cache_reachable_inv_witness :
  cs_pending ex_cache2 = [7%Z] /\ cache_inv ex_cache2.
Proof. split; [by vm_compute|]. apply cache_reachable_inv, ex_cache2_reachable. Defined.

Lemma no_subscription_leaks_witness :
  sc_subjects (cs_cache ex_cache3) = ∅ /\ cs_live ex_cache3 = ∅.
Proof.
  apply no_subscription_leaks; [apply ex_cache3_reachable|reflexivity|].
  intros subject s Hs. assert (He : sc_subjects (cs_cache ex_cache3) = ∅) by (vm_compute; reflexivity).
  rewrite He in Hs. by rewrite lookup_empty in Hs.
Defined.

Lemma Subscribe_locked_total_witness :
  is_Some (Subscribe_locked (cs_cache ex_cache1) ex_subject (Some tt) (inr 8%Z)).
Proof. apply Subscribe_locked_total. vm_compute. reflexivity. Defined.

(** ** The devices of an owner *)
Definition ex_alice : @context concrete_TokenLib := "alice".
Definition ex_service : IsService := MkIsService "sub" "hub".
Definition ex_table : gmap string string := <["d2" := "alice"]> (<["d3" := "bob"]> {["d1" := "alice"]}).
Definition ex_slice (s : gset string) : list string := elements s.

Lemma AddDevice_spec_witness :
  exists t' evs, AddDevice ex_service ex_alice 5%Z ex_table "d4" = (t', evs, inr tt) /\
    (owned id t' "alice" = fold_left apply_event evs (owned id ex_table "alice")) /\
    "d4" ∈ owned id t' "alice".
Proof.
  destruct (AddDevice ex_service ex_alice 5%Z ex_table "d4") as [[t' evs] [err|[]]] eqn:Ha;
    [by vm_compute in Ha|].
  destruct (AddDevice_spec id ex_service ex_alice 5%Z ex_table "d4" t' evs (inr tt) Ha) as [Hr Hd].
  exists t', evs. split_and!; [reflexivity|exact (Hr "alice")|by apply (Hd eq_refl "alice")].
Defined.

Lemma DeleteDevices_spec_witness :
  exists t' evs, DeleteDevices ex_slice ex_service ex_alice 5%Z ex_table ["d1"; "d3"; "d1"] = (t', evs, inr ["d1"]) /\
    owned id t' "alice" = fold_left apply_event evs (owned id ex_table "alice") /\
    owned id t' "bob" = owned id ex_table "bob".
Proof.
  destruct (DeleteDevices ex_slice ex_service ex_alice 5%Z ex_table ["d1"; "d3"; "d1"])
    as [[t' evs] r] eqn:Hd.
  assert (Hr : r = inr ["d1"]) by (vm_compute in Hd; by injection Hd).
  subst r.
  destruct (DeleteDevices_spec id ex_slice (fun _ => reflexivity _) ex_service ex_alice 5%Z ex_table
    ["d1"; "d3"; "d1"] t' evs ["d1"]) as (owner & Ho & _ & _ & _ & Hrep); [reflexivity|exact Hd|].
  assert (owner = "alice") as -> by (vm_compute in Ho; by injection Ho).
  exists t', evs. split_and!; [reflexivity|exact (Hrep "alice")|exact (Hrep "bob")].
Defined.

Lemma GetDevices_spec_witness :
  exists sent, IsGetDevices ex_service ex_alice ex_table ["d2"; "d3"] (fun _ => None) = (sent, None) /\
    forall d, d ∈ sent <-> d ∈ owned id ex_table "alice" /\ (["d2"; "d3"] = [] \/ d ∈ ["d2"; "d3"]).
Proof.
  destruct (IsGetDevices ex_service ex_alice ex_table ["d2"; "d3"] (fun _ => None)) as [sent err] eqn:Hg.
  assert (err = None) as -> by (vm_compute in Hg; by injection Hg).
  destruct (GetDevices_spec id ex_slice (fun _ => reflexivity _) ex_service ex_alice ex_table ["d2"; "d3"] "alice" sent) as [_ Hs];
    [reflexivity|exact Hg|].
  exists sent. split; [reflexivity|exact Hs].
Defined.

(** *** The cache *)
Definition ex_registered (ids : list string) : IsEvent :=
  publishDevicesRegistered ex_alice 5%Z "alice" "alice" "hub" ids.
Definition ex_unregistered (ids : list string) : IsEvent :=
  publishDevicesUnregistered ex_alice 5%Z "alice" "alice" "hub" ids.

Lemma cache_converges_witness :
  exists s', Handle_all [ex_unregistered ["d1"]; ex_registered ["d4"]]
      (updateDevicesLocked ["d2"] (newOwnerSubject (H := unit) 0%Z)).1 = Some s' /\
    device_set s' = {["d2"; "d4"]}.
Proof.
  destruct (updateDevicesLocked ["d2"] (newOwnerSubject (H := unit) 0%Z)) as [s1 changes] eqn:Hu.
  destruct (cache_converges (newOwnerSubject (H := unit) 0%Z) s1 {["d1"; "d2"]} []
    [ex_unregistered ["d1"]] [ex_registered ["d4"]] ["d2"] changes) as (s' & Hh & _ & Hd).
  - apply new_subject_ok.
  - exact Hu.
  - by_decision.
  - repeat constructor; by_decision.
  - exists s'. split; [exact Hh|]. rewrite Hd. by_decision.
Defined.

Definition ex_answers : sync_answers := MkSyncAnswers (inr 1%Z) (inr [inr "d2"; inr "d1"; inr "d2"]) 5%Z.
Definition ex_owners : OwnerCache unit :=
  (OwnerCache_Update (MkOwnerCache ∅ 100%Z 0%Z) (inr "alice") 5%Z ex_answers).1.

Lemma ex_owners_reachable : oc_reachable ex_owners.
Proof. eapply oc_next; [apply (oc_init 100%Z)|]. apply oc_update. Qed.

Lemma oc_reachable_ok_witness :
  os_devices <$> oc_owners ex_owners !! "alice" = Some ["d1"; "d2"] /\ cache_ok ex_owners.
Proof. split; [by vm_compute|]. apply oc_reachable_ok, ex_owners_reachable. Defined.

Lemma ex_owners_ok : cache_ok ex_owners.
Proof.
  eapply oc_step_ok; [apply (oc_update (MkOwnerCache ∅ 100%Z 0%Z))|]. apply map_Forall_empty.
Qed.
Lemma OwnsDevices_spec_witness :
  exists c' s, OwnsDevices ex_owners (inr "alice") 6%Z ex_answers ["d2"; "d3"] = (c', inr false) /\
    oc_owners c' !! "alice" = Some s /\ ~ (forall d, d ∈ ["d2"; "d3"] -> d ∈ device_set s).
Proof.
  destruct (OwnsDevices ex_owners (inr "alice") 6%Z ex_answers ["d2"; "d3"]) as [c' r] eqn:Ho.
  assert (r = inr false) as -> by (vm_compute in Ho; by injection Ho).
  destruct (OwnsDevices_spec ex_owners "alice" 6%Z ex_answers ["d2"; "d3"] c' false ex_owners_ok Ho)
    as (s & Hs & _ & Hb).
  exists c', s. split_and!; [reflexivity|exact Hs|]. intros Hall. by apply Hb in Hall.
Defined.

Lemma checkExpiration_spec_witness :
  oc_owners (checkExpiration map_to_list ex_owners 1000%Z).1 !! "alice" = None /\
  is_Some (oc_owners (checkExpiration map_to_list ex_owners 50%Z).1 !! "alice").
Proof.
  rewrite !(checkExpiration_spec map_to_list ex_owners _ "alice" (fun _ => reflexivity _)).
  by vm_compute; eauto.
Defined.

(** ** The queues of the event bus: concrete runs

    Runs of BusPool with numbers for the events of one aggregate: the instances
    of the theorems of BusPoolFacts, and a run in which an event overtakes an
    earlier one of its aggregate. *)

Definition ex_group (_ : nat) : string := "d".
Definition ex_aggregate (_ : nat) : string := "r".
#[local] Abbreviation ex_step pool faulty := (bus_step ex_group ex_aggregate pool faulty).

(** The goroutine [i] makes the step [c]. *)
#[local] Ltac goes i c :=
  eapply rtc_l; [eapply (bus_go _ _ _ _ _ i); [reflexivity|eapply c; vm_compute; reflexivity]|].
#[local] Ltac called events :=
  eapply rtc_l; [exact (bus_call ex_group ex_aggregate _ _ _ events)|].
#[local] Ltac there := apply rtc_refl.

(** Handle is called with the event 1 and puts it into the queue of its name. *)
Lemma ex_pushed (faulty : bool) :
  exists s, bus_reachable ex_group ex_aggregate true faulty s /\
    b_processors s = [MkEventsProcessor "d.r" [1] true] /\ b_goroutines s = [Starting 0 []] /\
    b_container s = {["d.r" := 0]} /\ b_pushed s = [(0, [1])] /\ b_handed s = [].
Proof.
  eexists. split.
  - called [1]. goes 0 @step_get. goes 0 @step_push. there.
  - by split_and!.
Defined.

(** An event overtakes an earlier one of its aggregate, all calls of Handle
    being made one after the other and nothing failing.  The goroutine of the
    first event has found its queue empty, but has not yet removed it from the
    map, when the queue is looked up for the second event; it is removed before
    the second event is put into it, and the third event goes into a queue of its
    own, which another goroutine empties. *)
Theorem event_overtaken :
  exists s, bus_reachable ex_group ex_aggregate true false s /\
    b_pushed s = [(0, [1]); (0, [2]); (1, [3])] /\ b_handed s = [(0, [1]); (1, [3]); (0, [2])].
Proof.
  eexists. split.
  - called [1]. goes 0 @step_get. goes 0 @step_push. goes 0 @step_start. goes 0 @step_return.
    goes 1 @step_pop. goes 1 @step_handled. goes 1 @step_pop_nil.
    called [2]. goes 2 @step_get. goes 1 @step_delete. goes 2 @step_push. goes 2 @step_start. goes 2 @step_return.
    called [3]. goes 4 @step_get. goes 4 @step_push. goes 4 @step_start. goes 5 @step_pop. goes 3 @step_pop. there.
  - by split_and!.
Qed.

Lemma handed_in_order_witness :
  exists s, events_of 0 (b_pushed s) = events_of 0 (b_handed s) ++ [1] /\ owners 0 (b_goroutines s) <= 1.
Proof.
  destruct (ex_pushed false) as (s & Hr & Hp & _). exists s.
  apply (handed_in_order ex_group ex_aggregate true false s 0 (MkEventsProcessor "d.r" [1] true)); [exact Hr|by rewrite Hp].
Defined.

(** The same queue, to the end of the goroutine that empties it. *)
#[local] Ltac runs i c :=
  eapply nsteps_l; [exists i; eexists; split; [reflexivity|eapply c; vm_compute; reflexivity]|].
Lemma ex_run s :
  b_processors s = [MkEventsProcessor "d.r" [1] true] -> b_goroutines s = [Starting 0 []] ->
  exists s', nsteps (goroutines_step true false) 6 s s' /\ b_goroutines s' = [Finished false; Finished false] /\
    b_handed s' = b_handed s ++ [(0, [1])].
Proof.
  destruct s as [cont ps gs pu ha]. cbn. intros -> ->. eexists. split.
  - runs 0 @step_start. runs 0 @step_return. runs 1 @step_pop. runs 1 @step_handled. runs 1 @step_pop_nil.
    eapply nsteps_l; [exists 1; eexists; split; [reflexivity|eapply step_delete; reflexivity]|]. apply nsteps_O.
  - unfold tryToDelete. cbn. destruct (cont !! "d.r") as [[|[|p]]|]; by split.
Defined.
Lemma ex_finished (s s' : bus nat) : b_goroutines s = [Finished false; Finished false] -> ~ goroutines_step true false s s'.
Proof. intros Hg (i & g & Hi & Hs). rewrite Hg in Hi. destruct i as [|[|i]]; [injection Hi as <-; inversion Hs..|done]. Qed.
Lemma pushed_is_handed_witness :
  exists s', 6 <= 8 /\ events_of 0 (b_handed s') = events_of 0 (b_pushed s') /\ b_handed s' = [(0, [1])].
Proof.
  destruct (ex_pushed false) as (s & Hr & Hp & Hg & Hc & Hpu & Hh).
  destruct (ex_run s Hp Hg) as (s' & Hn & Hf & Hh'). exists s'.
  destruct (pushed_is_handed ex_group ex_aggregate true false s 6 s' eq_refl Hr Hn) as [Hb Hall].
  split; [|split].
  - unfold bus_work in Hb. rewrite Hp, Hg in Hb. exact Hb.
  - apply Hall. intros s''. by apply ex_finished.
  - by rewrite Hh', Hh.
Defined.

(** The pool refuses the goroutine, and a second event is put into the same queue. *)
Lemma failed_spawn_stuck_witness :
  exists s, b_pushed s = [(0, [1]); (0, [2])] /\ events_of 0 (b_handed s) = [] /\ getEventsData "d.r" s = (s, 0).
Proof.
  destruct (ex_pushed true) as (s & Hr & Hp & Hg & Hc & Hpu & Hh).
  assert (Hrun : exists s'', rtc (bus_step ex_group ex_aggregate true true) (at_goroutine 0 (Finished true) s) s'' /\
    b_pushed s'' = [(0, [1]); (0, [2])]).
  { destruct s as [cont ps gs pu ha]. cbn in Hp, Hg, Hc, Hpu, Hh. subst. eexists. split.
    - called [2]. goes 1 @step_get. goes 1 @step_push. there.
    - by vm_compute. }
  destruct Hrun as (s'' & Hs & Hpu'). exists s''. split; [exact Hpu'|]. rewrite <- (eq_refl : events_of (Ev := nat) 0 [] = []).
  rewrite <- Hh. eapply (failed_spawn_stuck ex_group ex_aggregate true true s 0 0 [] _ s'' "d.r" Hr); [by rewrite Hg| |reflexivity|exact Hs|by rewrite Hc].
  by apply step_refused.
Defined.
