(* ===== verification/RequestWitnesses.v ===== *)
(** * The gRPC API of resource-aggregate: concrete requests

    The owner of one lamp talks to the API over the store in memory; the caller's
    token is the name of the owner. *)

From Stdlib Require Import ZArith Lia String.
From S2P Require Import Prelude Commands Events EventStore Handler Projection ProjectionFacts Aggregate AggregateFacts.
From S2P Require Import ResourceState ResourceLinks ResourceModel Validation SortedSlice IdentityStore HandlerTable OwnerCache.
From S2P Require Import RequestHandler RequestHandlerFacts Concrete Witnesses.

(** Removing the events of an aggregate before a version, in memory. *)
Definition memory_RemoveUpToVersion (s : MemoryStore) (q : VersionQuery) : MemoryStore :=
  filter (fun e => ~ (GroupID e = vq_GroupID q /\ AggregateID e = vq_AggregateID q /\ (Version e < vq_Version q)%Z)) s.
Lemma since_snapshot_filter (P : AnyEvent -> Prop) `{!forall e, Decision (P e)} l :
  (forall e, e ∈ since_snapshot l -> P e) -> since_snapshot (filter P l) = since_snapshot l.
Proof.
  assert (Hex : forall l, existsb IsSnapshot (since_snapshot l) = existsb IsSnapshot l).
  { clear l. induction l as [|e l IH]; [done|]. cbn [since_snapshot]. destruct (existsb IsSnapshot l) eqn:Hs; [|done].
    rewrite IH. cbn [existsb]. by rewrite Hs, orb_true_r. }
  induction l as [|e l IH]; intros HP; [done|]. cbn [since_snapshot] in HP |- *.
  destruct (existsb IsSnapshot l) eqn:Hs.
  - specialize (IH HP). rewrite filter_cons. destruct (decide (P e)) as [He|He]; [|done]. cbn [since_snapshot].
    assert (Hf : existsb IsSnapshot (filter P l) = true) by (rewrite <- Hex, IH, Hex; done). by rewrite Hf.
  - assert (Hall : filter P (e :: l) = e :: l).
    { apply list_filter_all. exact HP. }
    rewrite Hall. cbn [since_snapshot]. by rewrite Hs.
Qed.
Lemma memory_RemoveUpToVersion_law (st : MemoryStore) q g a :
  (g = vq_GroupID q -> a = vq_AggregateID q ->
   forall e, e ∈ since_snapshot (memory_log st g a) -> (vq_Version q <= Version e)%Z) ->
  since_snapshot (memory_log (memory_RemoveUpToVersion st q) g a) = since_snapshot (memory_log st g a).
Proof.
  intros Hq. rewrite <- (since_snapshot_filter (fun e => ~ (GroupID e = vq_GroupID q /\ AggregateID e = vq_AggregateID q /\
    (Version e < vq_Version q)%Z)) (memory_log st g a)).
  - unfold memory_log, memory_RemoveUpToVersion. rewrite !list_filter_filter. f_equal. apply list_filter_iff. intros e. tauto.
  - intros e He (Hg & Ha & Hv). assert (Hin : e ∈ memory_log st g a).
    { destruct (since_snapshot_suffix (memory_log st g a)) as [pre ->]. apply elem_of_app. by right. }
    apply list_elem_of_filter in Hin as [[Hg' Ha'] _]. specialize (Hq ltac:(congruence) ltac:(congruence) e He). lia.
Qed.

Definition memory_Delete (s : MemoryStore) (groups : list string) : MemoryStore * option error :=
  (filter (fun e => GroupID e ∉ groups) s, None).

Definition ex_config : Config := MkConfig "sub" "hub" 3 0.
(** The owner has the lamp, and no one else has a device. *)
Definition ex_owner : context := "owner".
Definition ex_thief : context := "thief".
Definition ex_devices (dv : unit) (_ : context) (owner : string) (ds : list string) : unit * result (list string) :=
  (dv, inr (if String.eqb owner "owner" then filter (fun d => ds = [] \/ d ∈ ds) [ex_dev] else [])).
Definition ex_subject (owner : string) (ev : AnyEvent) : list string := [owner +:+ "." +:+ EventType ev].
Definition ex_notify : NotifyResourceChangedRequest :=
  MkNotifyResourceChangedRequest ex_rid (Some (MkContent (Some [x01]) "" 50)) ex_cm Status_OK None [].
Definition ex_request : Request := RqNotifyResourceChanged ex_notify.
Abbreviation ex_RH := (RequestHandler MemoryStore unit).
Definition ex_state : ex_RH := MkRequestHandler [] [] tt.
Definition ex_serve (ctx : context) (rq : Request) (s : ex_RH) :=
  serve concrete_order memory_RemoveUpToVersion memory_Delete ex_subject (fun _ => []) elements ex_devices ex_config
    (fun _ => ex_attempts) ctx rq s.

Lemma foreign_device_untouched_witness :
  exists s' err, ex_serve ex_thief ex_request ex_state = Some (s', Some err) /\
    rh_eventstore s' = [] /\ rh_published s' = [].
Proof.
  apply (foreign_device_untouched concrete_order memory_RemoveUpToVersion memory_Delete ex_subject (fun _ => []) elements
    ex_devices ex_config (fun _ => ex_attempts) ex_thief ex_request ex_dev ex_state); [reflexivity|].
  intros [u o] (Hu & Ho & dv & d & Hd). injection Ho as <-. by vm_compute in Hd.
Defined.

(** The resource with the links of its device. *)
Definition ex_linked : Aggregate ResourceModel :=
  MkAggregate ex_dev ex_id resourceStateModel_model [MkAdditionalModel ex_dev (linksAggregateID ex_dev)].
Lemma ex_linked_store_ok : store_ok true ex_linked (rh_eventstore ex_state).
Proof.
  split; [|intros _; exact I].
  repeat constructor; exists 0%Z; (split_and!; [done|intros i e Hi; discriminate|constructor|intros e Hi; discriminate]).
Qed.
Lemma ex_linked_attempts : attempts_ok true ex_linked ex_attempts.
Proof. intros n. split; intros s Hs; (split; [exact Hs|reflexivity]). Qed.
Lemma resource_request_refines_witness :
  exists s' evs, ex_serve ex_owner ex_request ex_state = Some (s', None) /\
    rh_published s' = publications ex_subject "owner" ex_linked evs /\ length evs = 1.
Proof.
  destruct (ex_serve ex_owner ex_request ex_state) as [[s' [err|]]|] eqn:Hs;
    [by vm_compute in Hs| |by vm_compute in Hs].
  destruct (resource_request_refines (EventStoreLaws0 := memory_EventStoreLaws) concrete_order memory_RemoveUpToVersion memory_Delete
    ex_subject (fun _ => []) elements ex_devices ex_config
    memory_RemoveUpToVersion_law (fun _ => ex_attempts) ex_owner ex_request (CmdNotifyResourceChanged ex_notify) ex_state s' ex_linked)
    as (user & evs & others & (Hu & Ho & _) & Hp & _).
  - exact ex_stored.
  - reflexivity.
  - reflexivity.
  - exact ex_plain.
  - reflexivity.
  - exact ex_linked_attempts.
  - exact ex_linked_store_ok.
  - exact Hs.
  - exists s', evs. split; [reflexivity|]. injection Ho as Ho. rewrite <- Ho in Hp. split; [exact Hp|].
    assert (Hl : length (rh_published s') = 1) by (vm_compute in Hs; by injection Hs as <-).
    rewrite Hp in Hl. change (length (publications ex_subject "owner" ex_linked evs) = 1) in Hl.
    unfold publications in Hl. by rewrite length_fmap in Hl.
Defined.

(** A batch of two, of which the second is for a device of someone else. *)
Definition ex_batch : list NotifyResourceChangedRequest :=
  [MkNotifyResourceChangedRequest ex_rid (Some (MkContent (Some [x01]) "" 50)) ex_cm Status_OK None [];
   MkNotifyResourceChangedRequest (Some (MkResourceId "uuid:other" "/light")) (Some (MkContent None "" 50)) ex_cm
     Status_OK None []].
Lemma BatchNotify_each_witness :
  exists s' err errors,
    BatchNotifyResourceChanged concrete_order memory_RemoveUpToVersion ex_subject (fun _ => []) ex_devices ex_config
      (fun _ => ex_attempts) ex_owner ex_batch ex_state = Some (s', inl err) /\
    notify_each concrete_order memory_RemoveUpToVersion ex_subject (fun _ => []) ex_devices ex_config
      (fun _ => ex_attempts) ex_owner ex_batch ex_state = Some (s', errors) /\ errors <> [] /\
    error_code err = PermissionDenied /\ length (rh_published s') = 1.
Proof.
  destruct (BatchNotify_each concrete_order memory_RemoveUpToVersion ex_subject (fun _ => []) ex_devices ex_config
    (fun _ => ex_attempts) ex_owner ex_batch ex_state "owner" "owner" eq_refl eq_refl) as (s' & r & errors & Hb & He & Hr).
  assert (Hc : exists err, r = inl err /\ error_code err = PermissionDenied /\ length (rh_published s') = 1).
  { vm_compute in Hb. injection Hb as <- <-. eexists. split; [reflexivity|]. split; reflexivity. }
  destruct Hc as (err & -> & Hc & Hl). exists s', err, errors. split_and!; [exact Hb|exact He| |exact Hc|exact Hl].
  by destruct errors.
Defined.

(** A deletion that names no device but an empty one deletes all devices of the owner. *)
Lemma DeleteDevices_exact_witness :
  exists s' resp,
    DeleteDevices memory_Delete elements ex_devices ex_config ex_owner [""] ex_state = (s', inr resp) /\
    ex_dev ∈ dds_DeviceIds resp.
Proof.
  destruct (DeleteDevices memory_Delete elements ex_devices ex_config ex_owner [""] ex_state) as [s' [err|resp]] eqn:Hd;
    [by vm_compute in Hd|].
  exists s', resp. split; [reflexivity|].
  destruct (DeleteDevices_exact memory_Delete elements ex_devices ex_config ex_owner [""] ex_state s' resp "owner" "owner"
    (fun d => d = ex_dev)) as (_ & Hx & _).
  - reflexivity.
  - reflexivity.
  - reflexivity.
  - intros [] ds [] l Hl d. injection Hl as <-. change (String.eqb "owner" "owner") with true. cbn iota.
    rewrite list_elem_of_filter, list_elem_of_singleton. tauto.
  - exact Hd.
  - apply Hx. split; [reflexivity|]. left. by repeat constructor.
Defined.

(** The cache has synchronized the lamp for the owner. *)
Definition ex_cache : OwnerCache unit :=
  MkOwnerCache {["owner" := MkOwnerSubject ∅ (Some 1%Z) [ex_dev] 0%Z true]} 100%Z 0%Z.
Definition ex_answers (_ : nat) : time_ * sync_answers := (ex_time, MkSyncAnswers (inr 1%Z) (inr []) ex_time).
Lemma granted_by_cache_witness :
  granted (NewService_getOwnerDevicesFunc (cfg_OwnerClaim ex_config) ex_answers) ex_config ex_owner ex_dev (ex_cache, 0)
    ("owner", "owner").
Proof.
  apply (granted_by_cache ex_config ex_answers ex_owner ex_dev ex_cache 0 ("owner", "owner")
    (MkOwnerSubject ∅ (Some 1%Z) [ex_dev] 0%Z true)).
  - reflexivity.
  - reflexivity.
  - apply ascending_cons. split; [constructor|by intros y Hy%not_elem_of_nil].
  - split_and!; [reflexivity|reflexivity|by left].
Defined.
