(* ===== verification/DirectoryWitnesses.v ===== *)
(** * The directory at work

    Instances of the parameters of the directory, the races of its projection, and the
    theorems about it at concrete inputs: a lamp with its links, its metadata and a
    command that waits. *)

From Stdlib Require Import ZArith Lia String.
From S2P Require Import Prelude Commands Events EventStore Handler Projection ProjectionFacts Goroutines.
From S2P Require Import DeviceProjection DeviceProjectionFacts ResourceState ResourceLinks DeviceMetadata MongoStore.
From S2P Require Import Subscription ResourceIdFilters DirectoryModels DirectoryModelsFacts DirectoryProjection.
From S2P Require Import Directory DirectoryFacts DirectoryRun DirectoryCache DirectoryEvents Concrete Witnesses.
From stdpp Require Import relations.

(** ** Instances *)
#[export] Instance concrete_KitSet : KitSet := {|
  Set_HasOneOf s l := existsb (fun x => bool_decide (x ∈ s)) l;
  Set_Add s l := s ∪ list_to_set l |}.
#[export] Instance concrete_KitSetLaws : KitSetLaws.
Proof.
  split.
  - intros s l. cbn. rewrite existsb_exists. setoid_rewrite bool_decide_eq_true. by setoid_rewrite <- list_elem_of_In.
  - intros s l x. cbn. set_solver.
Qed.
#[export] Instance concrete_RefCounter : RefCounter := {|
  RC := nat; NewRefCounter := 1; Acquire := S;
  Release c := (Nat.pred c, bool_decide (Nat.pred c = 0)) |}.
#[export] Instance concrete_RefCounterLaws : RefCounterLaws.
Proof. refine {| count := fun c => c |}; try done. by intros c n ->. Defined.
#[export] Instance concrete_MapOrder : MapOrder := {|
  range_keys A m := (map_to_list m).*1; range_set s := elements s |}.
#[export] Instance concrete_MapOrderLaws : MapOrderLaws.
Proof. by split. Qed.
Definition due (now : time_) (c : gmap string time_) : list string :=
  (map_to_list (filter (fun x => After now x.2 = true) c)).*1.
Lemma due_spec now (c : gmap string time_) k : k ∈ due now c <-> exists t, c !! k = Some t /\ After now t = true.
Proof.
  unfold due. rewrite list_elem_of_fmap. split.
  - intros ([k' t] & -> & Ht%elem_of_map_to_list). apply map_lookup_filter_Some in Ht. by exists t.
  - intros (t & Ht & Ha). exists (k, t). split; [done|]. by rewrite elem_of_map_to_list, map_lookup_filter_Some.
Qed.
Lemma not_due now (c : gmap string time_) k :
  filter (fun x => After now x.2 = false) c !! k = if decide (k ∈ due now c) then None else c !! k.
Proof.
  case_decide as Hk.
  - apply due_spec in Hk as (t & Ht & Ha). apply map_lookup_filter_None. right. intros x Hx. rewrite Ht in Hx.
    injection Hx as <-. cbn. by rewrite Ha.
  - destruct (c !! k) as [t|] eqn:Ht; [|by apply map_lookup_filter_None; left].
    apply map_lookup_filter_Some. split; [done|]. cbn. destruct (After now t) eqn:Ha; [|done].
    destruct Hk. apply due_spec. by exists t.
Qed.
Lemma dropped (k k' : string) (c : gmap string time_) : delete k c !! k' = if decide (k' = k) then None else c !! k'.
Proof. case_decide; [subst; apply lookup_delete_eq|by apply lookup_delete_ne]. Qed.
Lemma kept (k k' : string) (t : time_) (c : gmap string time_) : c !! k = None ->
  (match c !! k with Some _ => c | None => <[k := t]> c end) !! k' = if decide (k' = k) then Some t else c !! k'.
Proof. intros ->. case_decide; [subst; apply lookup_insert_eq|by apply lookup_insert_ne]. Qed.
#[export] Instance concrete_ExpiringCache : ExpiringCache := {|
  Cache := gmap string time_; NewCache := ∅; Cache_Delete k c := delete k c;
  Cache_LoadOrStore k t c := match c !! k with Some _ => c | None => <[k := t]> c end;
  CheckExpirations now c := (filter (fun x => After now x.2 = false) c, due now c) |}.
#[export] Instance concrete_ExpiringCacheLaws : ExpiringCacheLaws.
Proof.
  refine {| cached := (fun c k => (c : gmap string time_) !! k) : @Cache concrete_ExpiringCache -> string -> option time_ |}.
  - intros k. exact (lookup_empty (M := gmap string) k).
  - intros k c k'. exact (dropped k k' c).
  - intros k t c k'. exact (kept k k' t c).
  - intros now c. cbn. split; [apply NoDup_fst_map_to_list|]. intros k. split; [apply due_spec|apply not_due].
Defined.
#[export] Instance concrete_DeviceLib : DeviceLib := {|
  device_ResourceURI := "/oic/d"; AppCBOR := "application/cbor"; AppOcfCbor := "application/vnd.ocf+cbor";
  AppJSON := "application/json";
  cbor_Decode _ := inl (errors_New "cbor"); json_Decode _ := inr (MkSchemaDevice "uuid:dev" [] [] "lamp" None "" "") |}.
#[export] Instance concrete_DeviceLibLaws : DeviceLibLaws.
Proof. by split. Qed.
#[local] Instance ex_dir_model : Model dirModel AnyEvent := dirModel_Model concrete_order ex_time.

(** ** Races of the projection

    The subject of a device is its name; the store answers nothing. *)
Definition ex_topics (_ deviceID : string) : list string := [deviceID].
Definition ex_nothing : Loaded AnyEvent := MkLoaded [] None.
Definition ex_ans : answers AnyEvent := MkAnswers Bus_ok Bus_ok (fun _ => ex_nothing).
Definition ex_bad : answers AnyEvent :=
  MkAnswers Bus_ok Bus_ok (fun _ => MkLoaded [] (Some (errors_New "the store is down"))).
#[local] Abbreviation ex_state := (PState dirModel).
Definition ex_Register (an : answers AnyEvent) (d : string) : prog ex_state (outcome (result bool)) :=
  Register ex_topics range_keys dirFactory true an d.
Definition ex_Unregister (d : string) : prog ex_state (outcome (result bool)) :=
  do! r := Unregister (D := AnyEvent) ex_topics range_keys true ex_ans d in
  Ret (match r with
       | Returns None => Returns (inr true)
       | Returns (Some err) => Returns (inl err)
       | Panics => Panics
       end).

(** The topics are computed and handed to the bus in two steps: the registrations of two
    devices at the same time can leave the bus subscribed to the subjects of one of them
    although both have succeeded. *)
Theorem subscription_overtaken :
  exists s, rtc pool_step (NewProjection, [ex_Register ex_ans "a"; ex_Register ex_ans "b"])
              (s, [Ret (Returns (inr true)); Ret (Returns (inr true))]) /\
    is_Some (p_topics s !! "b") /\ p_observer s = Some ["a"].
Proof.
  destruct (exec ([0; 0; 0] ++ [1; 1; 1; 1; 1; 1] ++ [0; 0; 0])
    (NewProjection, [ex_Register ex_ans "a"; ex_Register ex_ans "b"])) as [[s ps]|] eqn:He; [|by vm_compute in He].
  apply exec_steps in He as Hs. vm_compute in He. injection He as <- <-. eexists. split; [exact Hs|].
  split; [by eexists|done].
Qed.

(** A device that is registered once. *)
Definition ex_registered : ex_state := default NewProjection (fst <$> run (ex_Register ex_ans "a") NewProjection).

(** When the last registration of a device goes, its counter is deleted a second time
    after the mark was read: a registration that begins in between succeeds, but has no
    counter and no models; unregistering it is an error. *)
Theorem registration_lost :
  exists s err s', rtc pool_step (ex_registered, [ex_Unregister "a"; ex_Register ex_ans "a"])
                     (s, [Ret (Returns (inr true)); Ret (Returns (inr true))]) /\
    p_refs s !! "a" = None /\ run (ex_Unregister "a") s = Some (s', Returns (inl err)).
Proof.
  destruct (exec (repeat 0 8 ++ repeat 1 5 ++ repeat 0 4)
    (ex_registered, [ex_Unregister "a"; ex_Register ex_ans "a"])) as [[s ps]|] eqn:He; [|by vm_compute in He].
  apply exec_steps in He as Hs. vm_compute in He. injection He as <- <-. do 3 eexists. split; [exact Hs|].
  split; [done|]. vm_compute. reflexivity.
Qed.

(** The goroutine [i] of a pool has panicked. *)
Definition panicked {S A} (i : nat) (c : option (S * list (prog S (outcome A)))) : bool :=
  match c with
  | Some (_, ps) => match ps !! i with Some (Ret Panics) => true | _ => false end
  | None => false
  end.

(** In the same window a registration whose load fails panics: it releases a counter
    that is not in the map any more. *)
Theorem release_panics :
  exists c, rtc pool_step (ex_registered, [ex_Unregister "a"; ex_Register ex_bad "a"]) c /\
    panicked 1 (Some c) = true.
Proof.
  assert (Hp : panicked 1 (exec (repeat 0 8 ++ repeat 1 4 ++ [0] ++ repeat 1 2)
    (ex_registered, [ex_Unregister "a"; ex_Register ex_bad "a"])) = true) by (vm_compute; reflexivity).
  destruct (exec _ _) as [c|] eqn:He; [|done]. exists c. split; [by apply exec_steps in He|exact Hp].
Qed.

(** ** Registrations one after another *)
Lemma ex_honest qs g : honest ex_ans qs g.
Proof. by split; [|constructor]. Qed.
Definition ex_ops : list (operation (D := AnyEvent) * answers AnyEvent) :=
  [(ORegister "a", ex_ans); (ORegister "a", ex_ans); (OUnregister "a", ex_ans);
   (OForceUpdate (Some (MkResourceId "a" "/light")), ex_ans); (OUnregister "a", ex_ans); (OUnregister "a", ex_ans)].
Lemma projection_refines_witness :
  exists s' rs n',
    perform_all ex_topics range_keys dirFactory true ex_ops NewProjection = Some (s', rs) /\
    abstract_run ∅ ex_ops rs n' /\ idle ex_topics true (fun _ _ _ => True) s' n'.
Proof.
  apply (projection_refines ex_topics range_keys dirFactory true).
  - apply range_keys_some.
  - intros d. apply NoDup_singleton.
  - done.
  - intros d d' t. unfold ex_topics. rewrite !list_elem_of_singleton. by intros -> ->.
  - done.
  - done.
  - done.
  - apply idle_NewProjection.
  - repeat apply Forall_cons_2; [apply ex_honest|apply ex_honest|done|apply ex_honest|done|done|constructor].
Defined.

(** ** The lamp in the directory

    Its links are two, its content is known, and an update waits. *)
Definition ex_rl : resourceLinksProjection := MkResourceLinksProjection ex_dev
  (Some (MkResourceLinksSnapshotTaken ex_dev
           (Some {["/light" := ex_resource "/light"; "/lamp" := ex_resource "/lamp"]}) None None)).
Definition ex_pending : ResourceUpdatePending :=
  MkResourceUpdatePending ex_rid "" None (Some (MkAuditContext "user" "c1" "owner")) None 0 [] [].
Definition ex_content (href : string) : ResourceChanged :=
  MkResourceChanged (Some (MkResourceId ex_dev href)) (Some (MkContent (Some [x01]) "" 50)) Status_OK None None
    (Some [x02]) ["oic.r.switch"] [].
Definition ex_rp (href : string) : resourceProjection :=
  MkResourceProjection (Some (MkResourceId ex_dev href)) (Some (ex_content href)) 3 2 ["oic.r.switch"]
    (if String.eqb href "/light" then [ex_pending] else []) [] [] [].
Definition ex_dmp : deviceMetadataProjection := MkDeviceMetadataProjection ex_dev
  (Some (MkDeviceMetadataSnapshotTaken ex_dev (Some (MkDeviceMetadataUpdated ex_dev None None true None None false [])) None None)).

Definition ex_apm (a : string) (m : dirModel) : aggregateModel dirModel := MkAggregateModel ex_dev a m 3 true.
Definition ex_group : gmap string (aggregateModel dirModel) :=
  let at_ a m g := <[a := ex_apm a m]> g in
  let resource h := at_ (ResourceId_ToUUID (Some (MkResourceId ex_dev h))) (RP (ex_rp h)) in
  at_ (MakeLinksResourceUUID ex_dev) (RLP ex_rl)
    (at_ (MakeStatusResourceUUID ex_dev) (DMP ex_dmp) (resource "/light" (resource "/lamp" ∅))).
Definition ex_dir : DirState := MkDirState (set_models {[ex_dev := ex_group]} NewProjection) NewCache.

Lemma ex_dir_model_at (I : string -> string -> dirModel -> Prop) :
  I ex_dev (MakeLinksResourceUUID ex_dev) (RLP ex_rl) -> I ex_dev (MakeStatusResourceUUID ex_dev) (DMP ex_dmp) ->
  (forall h, h ∈ ["/light"; "/lamp"] -> I ex_dev (ResourceId_ToUUID (Some (MkResourceId ex_dev h))) (RP (ex_rp h))) ->
  sound I ex_dir.
Proof.
  intros Hl Hs Hr g a am. unfold lookup_model, ex_dir. cbn [ds_projection p_models set_models]. unfold Models.
  rewrite lookup_singleton. case_decide as Hg; [subst g; unfold ex_group; cbn [default id from_option]; unfold id|done].
  rewrite !lookup_insert_Some, lookup_empty. intros Ham.
  repeat destruct Ham as [[<- <-]|[_ Ham]]; [done|done|..|done]; split_and!; try done; apply Hr; set_solver.
Qed.
Lemma ex_dir_tidy : tidy ex_dir.
Proof.
  apply ex_dir_model_at.
  - by split.
  - split; [done|]. split; [by intros u [= <-]|]. cbn. by intros c ?%elem_of_nil.
  - intros h Hh. split.
    + rewrite !elem_of_cons, elem_of_nil in Hh. destruct Hh as [-> | [-> |[]]]; split; vm_compute; discriminate.
    + split; [by intros rc [= <-]|]. unfold resource_commands, ex_rp. cbn.
      destruct (String.eqb _ _); cbn; [|by intros c ?%elem_of_nil]. by intros c ->%list_elem_of_singleton.
Qed.
Lemma ex_dir_loaded : DirectoryRun.loaded ex_dir ex_dev ex_rl ex_rp.
Proof.
  split; [vm_compute; reflexivity|reflexivity|vm_compute; discriminate|]. intros r Hr. apply (resources_of_elem ex_topics) in Hr as [href Hr].
  cbn in Hr. rewrite lookup_insert_Some, lookup_singleton_Some in Hr.
  destruct Hr as [[<- <-]|[_ [<- <-]]]; vm_compute; reflexivity.
Qed.

(** *** Requests *)
Definition ex_env : env AnyEvent := MkEnv (fun _ => ex_ans) (fun _ => ex_ans) (fun _ => ex_ans) 60 ex_time.
Definition ex_send {A} (_ : list A) (_ : A) : option error := None.
Definition ex_owner : result string := inr "owner".
(** A request that runs alone in the directory, which it leaves as it is. *)
Definition ex_answers {A} (p : prog DirState (outcome A)) : option A :=
  match run p ex_dir with Some (_, Returns a) => Some a | _ => None end.
Lemma ex_yields {A} (p : prog DirState (outcome A)) a :
  visits p ex_dir = replicate (length (visits p ex_dir)) ex_dir -> ex_answers p = Some a -> yields tidy p (Returns a).
Proof.
  intros Hv. unfold ex_answers. destruct (run p ex_dir) as [[s [a'|]]|] eqn:Hr; [|done..]. intros [= ->].
  eapply visits_yields; [|exact Hr]. rewrite Hv. apply Forall_replicate, ex_dir_tidy.
Qed.
Ltac alone := apply ex_yields; [vm_compute; reflexivity|vm_compute; reflexivity].
Definition ex_all_devices : GetDevicesRequest := MkGetDevicesRequest [] [] [].
Definition ex_all : GetFilterRequest := MkGetFilterRequest [] [].
Definition ex_all_resources : GetResourcesRequest := MkGetResourcesRequest [] [] [] [].
Definition ex_light_only : GetResourcesRequest :=
  MkGetResourcesRequest [] [] ["oic.r.switch"] [Some (MkResourceIdFilter ex_rid [[x02]])].
Definition ex_commands : GetPendingCommandsRequest := MkGetPendingCommandsRequest [] [] [] [] [] false.

Lemma ex_GetResources_yields :
  yields tidy (RequestHandler_GetResources ex_topics true ex_owner (inr [ex_dev]) ex_send ex_env ex_light_only)
    (Returns ([MkPbResource ["oic.r.switch"] (Some (not_modified (Some (ex_content "/light"))))], None)).
Proof. alone. Qed.
Lemma ex_GetPendingCommands_yields :
  yields tidy (RequestHandler_GetPendingCommands ex_topics true ex_owner (inr [ex_dev]) ex_send ex_env ex_env ex_time
    ex_commands) (Returns ([PendingCommand_ResourceUpdatePending ex_pending], None)).
Proof. alone. Qed.
Lemma requests_stay_with_owner_witness :
  only_about (list_to_set [ex_dev]) [MkPbResource ["oic.r.switch"] (Some (not_modified (Some (ex_content "/light"))))] /\
  only_about (list_to_set [ex_dev]) [PendingCommand_ResourceUpdatePending ex_pending].
Proof.
  destruct (requests_stay_with_owner ex_topics true ex_owner [ex_dev]) as (_ & _ & _ & Hr & Hp); [by_decision|].
  split; [exact (Hr _ _ _ _ _ ex_GetResources_yields)|exact (Hp _ _ _ _ _ _ _ ex_GetPendingCommands_yields)].
Defined.

Lemma links_sent_once_witness :
  exists acc err, yields tidy (GetResourceLinks ex_topics true ex_send ex_env {[ex_dev]} ex_all) (Returns (acc, err)) /\
    se_sent acc <> [] /\ NoDup (sent_devices acc).
Proof.
  eexists _, None. split; [|split].
  - alone.
  - discriminate.
  - apply (links_sent_once ex_topics true ex_send ex_env {[ex_dev]} ex_all _ None); alone.
Defined.

Definition ex_count {A} (r : option (DirState * outcome (Search A * option error))) : nat :=
  match r with Some (_, Returns (acc, _)) => length (se_sent acc) | _ => 0 end.
Lemma GetResources_exact_witness :
  exists sent, run (GetResources ex_topics true ex_send ex_env {[ex_dev]} ex_all_resources) ex_dir =
                 Some (ex_dir, Returns (MkSearch sent ∅, None)) /\ length sent = 2.
Proof.
  destruct (GetResources_exact ex_topics true (fun _ => ex_rl) (fun _ => ex_rp) {[ex_dev]} ex_send ltac:(done) ex_dir
    ex_env ex_all_resources) as (sent & Hrun & _).
  - intros d ->%elem_of_singleton. apply ex_dir_loaded.
  - exists sent. split; [exact Hrun|]. change (length sent) with (ex_count (Some (ex_dir, Returns (MkSearch sent ∅, @None error)))).
    rewrite <- Hrun. vm_compute. reflexivity.
Defined.

Lemma typed_step_witness :
  typed ex_dev (MakeLinksResourceUUID ex_dev) (RLP ex_rl) /\
  typed ex_dev (MakeLinksResourceUUID ex_dev)
    (model_step (RLP ex_rl) (EventStore.loaded (EvResourceLinksPublished ex_pub))).1.
Proof. split; [by split|]. apply (typed_step concrete_order ex_time). by split. Defined.

(** *** The cache *)
Lemma ex_replies : replies (fun _ => ex_ans).
Proof. intros d. split; apply ex_honest. Qed.
Definition ex_fresh : DirState := MkDirState NewProjection NewCache.
Lemma ex_fresh_follows : follows ex_topics true (fun _ _ _ => True) ex_fresh [].
Proof.
  exists ∅. split; [apply idle_NewProjection|]. intros d. unfold registrations. rewrite lookup_empty.
  by rewrite decide_False by apply not_elem_of_nil.
Qed.
Definition ex_any (_ _ : string) (_ : dirModel) : Prop := True.
Lemma ex_topics_NoDup d : NoDup (ex_topics "*" d).
Proof. apply NoDup_singleton. Qed.
Lemma ex_topics_some d : ex_topics "*" d <> [].
Proof. discriminate. Qed.
Lemma ex_topics_apart d d' t : t ∈ ex_topics "*" d -> t ∈ ex_topics "*" d' -> d = d'.
Proof. unfold ex_topics. rewrite !list_elem_of_singleton. by intros -> ->. Qed.
Definition ex_cached (r : option (DirState * outcome unit)) : option time_ :=
  match r with Some (s, Returns _) => cached (ds_cache s) ex_dev | _ => None end.
Lemma ReloadDevices_ok_witness :
  exists s', run (ReloadDevices ex_topics true (fun _ => ex_ans) 60 ex_time {[ex_dev]}) ex_fresh = Some (s', Returns tt) /\
    follows ex_topics true ex_any s' [] /\ cached (ds_cache s') ex_dev = Some (ex_time + 60)%Z.
Proof.
  destruct (ReloadDevices_ok ex_topics true ex_topics_NoDup ex_topics_some ex_topics_apart ex_any
    (fun _ _ _ _ => I) (fun _ _ _ _ => I) (fun _ _ _ _ _ => I) (fun _ => ex_ans) 60 ex_time {[ex_dev]} ex_fresh
    ex_replies ex_fresh_follows) as (s' & Hrun & Hf & _).
  exists s'. split; [exact Hrun|]. split; [exact Hf|].
  change (cached (ds_cache s') ex_dev) with (ex_cached (Some (s', Returns tt))). rewrite <- Hrun. vm_compute. reflexivity.
Defined.
Lemma check_expirations_ok_witness :
  exists s', run (check_expirations ex_topics true (fun _ => ex_ans) ex_time) ex_fresh = Some (s', Returns tt) /\
    follows ex_topics true ex_any s' [].
Proof.
  destruct (check_expirations_ok ex_topics true ex_topics_NoDup ex_topics_some ex_topics_apart ex_any
    (fun _ _ _ _ => I) (fun _ _ _ _ => I) (fun _ _ _ _ _ => I) (fun _ => ex_ans) ex_time ex_fresh ex_replies ex_fresh_follows) as (s' & Hrun & Hf & _).
  exists s'. split; [exact Hrun|exact Hf].
Defined.

(** *** What the directory follows *)
Lemma ResourceIdFilter_roundtrip_witness :
  let f := MkResourceIdFilter (Some (MkResourceId ex_dev "/light")) [[x02]; []] in
  resourceIdFilterFromString (ResourceIdFilter_ToString (Some f)) = Some f.
Proof. apply (ResourceIdFilter_roundtrip ex_dev "light" [[x02]; []]); by vm_compute. Defined.

Lemma command_followed_witness :
  exists e' evs rp', ResourceState.HandleCommand ex_cc ex_clk ex_new (ex_update "c1") 0 = (e', inr evs) /\
    replay (RP NewResourceProjection) (EventStore.loaded <$> evs) = (RP rp', None) /\ agrees e' rp' /\
    length (rp_resourceUpdatePendings rp') = 1.
Proof.
  destruct (ResourceState.HandleCommand ex_cc ex_clk ex_new (ex_update "c1") 0) as [e' [err|evs]] eqn:Hc;
    [by vm_compute in Hc|].
  destruct (command_followed ex_cc concrete_order ex_time ex_clk ex_new (ex_update "c1") 0 e' evs NewResourceProjection Hc)
    as (rp' & Hr & Ha & _).
  - vm_compute in Hc. injection Hc as <- <-. constructor; [|constructor]. split; [vm_compute; reflexivity|by intros ?%elem_of_nil].
  - by split.
  - split; constructor.
  - exists e', evs, rp'. split_and!; [done|exact Hr|exact Ha|]. destruct Ha as [_ _ _ _ _ -> _].
    vm_compute in Hc. by injection Hc as <- <-.
Defined.

(** *** Events on request *)
Definition ex_store (qs : list GetEventsQuery) (_ : Z) : Loaded AnyEvent :=
  MkLoaded (map (fun q => MkIter [EventStore.loaded (EvResourceLinksPublished (MkResourceLinksPublished (gq_GroupID q) None None None []))]
    None false) qs) None.

(** A filter for the whole device goes before one for a resource of it. *)
Lemma getResourceIDMapFilter_selects_witness :
  selects (getResourceIDMapFilter [Some (NewResourceID ex_dev "/light"); Some (NewResourceID ex_dev "")]) ex_dev "/lamp" = true.
Proof.
  apply (getResourceIDMapFilter_selects [Some (NewResourceID ex_dev "/light"); Some (NewResourceID ex_dev "")] ex_dev "/lamp").
  exists (Some (NewResourceID ex_dev "")). split; [right; left|]. split; [reflexivity|left; reflexivity].
Defined.
