(* ===== verification/DeviceWitnesses.v ===== *)
(** * The theorems on devices at work

    The lamp of [Witnesses] behind a gateway: its commands are handed on, served
    and confirmed. *)

From Stdlib Require Import ZArith Lia String.
From S2P Require Import Prelude Commands Events EventStore Handler Pendings ResourceState ResourceStateFacts.
From S2P Require Import ResourceCancel ResourceCommands DirectoryModels Goroutines DeviceSubscriber CoapConv.
From S2P Require Import Session Concrete Witnesses.
From S2P Require Import SortedSlice ResourcesObserver ResourcesObserverFacts.
From stdpp Require Import relations.

(** A batch is its number of bytes: so many resources, the first two with the same entity tag. *)
Definition ex_representation (i : nat) : BatchRepresentation :=
  MkBatchRepresentation (String.concat "" (repeat "/r"%string i)) (Some [x01]) (Some [if i <=? 1 then x00 else x01]) [].
#[export] Instance ex_CoapLib : CoapLib := {|
  TextPlain := 0; OC_IF_CREATE := "oic.if.create"; OC_IF_B := "oic.if.b"; resources_ResourceURI := "/oic/res";
  SetPath _ := None; CheckETag _ := None;
  cbor_ct _ := inr []; json_ct _ := inr [];
  cbor_Batch b := inr (ex_representation <$> seq 0 (length (elems b)));
  cbor_len_of_map _ := inl (errors_New "not a map") |}.

(** ** The lamp is switched on *)
Definition ex_response : Message :=
  MkMessage codes.Changed (inl (errors_New "")) None (inl (errors_New "")) (inr []) (inr []) 5 (inl (errors_New "")).
Definition ex_reading : reading := (Some (MkAuthorizationContext zeroTime ex_dev "token" "user"), ex_time).
Definition ex_ops : Operations (list Call) :=
  session_operations (fun _ _ => inr ex_response) (fun _ _ => None) (fun _ _ => inr []) (fun _ => inr true)
    (fun _ _ _ => inr true) "1.2.3.4" (fun _ => 1%Z) (fun _ => []) (fun _ => false) (fun _ => 0%Z)
    (fun _ _ => ex_reading) (fun _ => true) (fun _ => inr [x07]).
Definition ex_subscriber : DState (list Call) := MkDState {[0 := ∅]} (Some 0) false false None false [].
Definition ex_switch : Command :=
  CmdUpdateResource (MkUpdateResourceRequest ex_rid "c4" (Some (MkContent (Some [x01]) "application/cbor" 60)) "" 0 ex_cm true).
Definition ex_requests (cs : list Call) : list RequestRA :=
  omap (fun c => match c with ToRA _ r => Some r | _ => None end) cs.

Lemma command_served_witness :
  exists e1 evs s' r, ResourceState.HandleCommand ex_cc ex_clk ex_waiting ex_switch 3 = (e1, inr evs) /\
    run (Handle (D := AnyEvent) (fun _ => ex_ops) (loaded <$> evs)) ex_subscriber = Some (s', r) /\
    exists c, omap command_of (ex_requests (ds_ops s')) = [c] /\
      exists e2 ev, ResourceState.HandleCommand ex_cc ex_clk e1 c 4 = (e2, inr [ev]) /\
        lists_of e2 = lists_of ex_waiting.
Proof.
  destruct (ResourceState.HandleCommand ex_cc ex_clk ex_waiting ex_switch 3) as [e1 [err|evs]] eqn:Hc;
    [by vm_compute in Hc|].
  destruct (command_served (fun _ _ => inr ex_response) (fun _ _ => None) (fun _ _ => inr []) (fun _ => inr true)
    (fun _ _ _ => inr true) "1.2.3.4" (fun _ => 1%Z) (fun _ => []) (fun _ => false) (fun _ => 0%Z)
    (fun _ _ => ex_reading) (fun _ => true) (fun _ => inr [x07])
    ex_cc ex_clk ex_waiting ex_switch 3 "c4" e1 evs 0 ex_subscriber
    (MkAuthorizationContext zeroTime ex_dev "token" "user"))
    as (s' & r & cs & conf & c & Hrun & Hops & Hcs & Hconf & Hserved);
    [reflexivity|by_decision|exact Hc|reflexivity|reflexivity|intros ev _; reflexivity|reflexivity|reflexivity|].
  exists e1, evs, s', r. split; [done|]. split; [exact Hrun|]. exists c. split.
  - rewrite Hops. change (ds_ops ex_subscriber) with (@nil Call). unfold ex_requests. cbn [app].
    rewrite omap_app. cbn [omap list_omap].
    assert (Hn : omap (fun c => match c with ToRA _ r => Some r | _ => None end) cs = []).
    { clear -Hcs. induction Hcs as [|x l Hx Hl IH]; [done|]. cbn. by destruct x. }
    rewrite Hn. cbn. by rewrite Hconf.
  - destruct Hserved as [Hl|Hserved]; [vm_compute in Hc; injection Hc as <- _; by vm_compute in Hl|].
    destruct (Hserved ex_cc ex_clk 4%Z) as (e2 & ev & He2 & [Hl|(_ & rq & Hr)]);
      [exists e2, ev; split; [exact He2|exact Hl]|discriminate Hr].
Defined.

(** The bus and the directory both bring version 1; the bus brings version 3 before 2. *)
Definition ex_offers : list offer :=
  [MkOffer 5 1 false; MkOffer 5 1 true; MkOffer 5 3 false; MkOffer 5 2 false; MkOffer 5 1 true; MkOffer 5 3 true].
Lemma handed_on_once_witness :
  accepted_of ex_offers = [MkOffer 5 1 false; MkOffer 5 3 false; MkOffer 5 2 false] /\
  NoDup ((fun o => (of_key o, of_version o)) <$> accepted_of ex_offers).
Proof. split; [by vm_compute|]. apply handed_on_once. by_decision. Defined.

Lemma handed_on_in_order_witness :
  exists o', o' ∈ accepted_of [MkOffer 5 1 true; MkOffer 5 1 false; MkOffer 5 3 false] /\ of_key o' = 5%Z /\ of_version o' = 3%Z.
Proof.
  apply (handed_on_in_order [MkOffer 5 1 true; MkOffer 5 1 false; MkOffer 5 3 false] (MkOffer 5 3 false)).
  - repeat constructor; cbn; lia.
  - by_decision.
Defined.

(** Two commands wait when the gateway of the lamp connects. *)
Definition ex_pending (v : Z) : pb_PendingCommand :=
  PendingCommand_ResourceUpdatePending
    (MkResourceUpdatePending ex_rid "" (Some (MkContent (Some [x01]) "application/cbor" 60)) None (Some (MkEventMetadata v ex_time "conn" 1 "hub")) 0 [] []).

Lemma cold_start_serves_witness :
  exists s', run (tryReconnectToGRPC (fun _ => ex_ops) None ([ex_pending 4; ex_pending 6], None)) ex_subscriber
      = Some (s', true) /\ ds_mutex s' = false /\
    length (ex_requests (ds_ops s')) = 2.
Proof.
  destruct (run (serve_all (fun _ => ex_ops) 0 [ex_pending 4; ex_pending 6] None) []) as [[t r]|] eqn:Hr;
    [|by vm_compute in Hr].
  assert (Hl : length (ex_requests t) = 2 /\ r = None).
  { change ((fun x => match x with Some (t, r) => length (ex_requests t) = 2 /\ r = None | None => False end) (Some (t, r))).
    rewrite <- Hr. vm_compute. done. }
  destruct Hl as [Hl ->].
  destruct (cold_start_serves (fun _ => ex_ops) None 0 ([ex_pending 4; ex_pending 6], None) ex_subscriber t)
    as (s' & Hs' & <- & Hm & _).
  - reflexivity.
  - right. by split.
  - by_decision.
  - by_decision.
  - exact Hr.
  - exists s'. split; [exact Hs'|]. split; [exact Hm|exact Hl].
Defined.

(** A batch of four resources; two of them have the entity tag of the batch. *)
Definition ex_batch (n : nat) : Message :=
  MkMessage codes.Content (inr 60%Z) (Some (repeat x00 n)) (inr [x00]) (inr []) (inr []) 5 (inl (errors_New "")).
Definition ex_hrefs (r : result (list NotifyResourceChangedRequest)) : list string :=
  match r with inr l => (fun q => (ncr_ResourceId q) ~> rid_Href) <$> l | inl _ => [] end.
Lemma batch_requests_witness :
  ex_hrefs (NewNotifyResourceChangedRequestsFromBatchResourceDiscovery ex_dev "conn" (ex_batch 4))
    = ["/r/r"; "/r/r/r"; "/r"]%string /\
  exists requests,
    NewNotifyResourceChangedRequestsFromBatchResourceDiscovery ex_dev "conn" (ex_batch 1) = inr requests /\
    length requests = 1.
Proof.
  split; [by vm_compute|].
  destruct (batch_requests ex_dev "conn" (ex_batch 1) [ex_representation 0]) as (requests & Hr & _ & _ & _ & Hl);
    [by right|reflexivity|]. exists requests. split; [exact Hr|]. rewrite Hl. by vm_compute.
Defined.

(** The check value of the checksum. *)
Example toCRC64_check : toCRC64 "123456789" = 0xb90956c775a41001%Z.
Proof. vm_compute. reflexivity. Qed.

(** ** The resources of the lamp *)
#[export] Instance ex_SchemaLib : SchemaLib := {| schema_Observable := 2 |}.
Definition by_href {A} (href : A -> string) (x y : A) : Prop := String.le (href x) (href y).
#[export] Instance by_href_dec {A} (href : A -> string) : RelDecision (by_href href).
Proof. intros x y. unfold by_href. apply _. Defined.
#[export] Instance by_href_total {A} (href : A -> string) : Total (by_href href).
Proof. intros x y. unfold by_href. apply (total String.le). Qed.
#[export] Instance by_href_trans {A} (href : A -> string) : Transitive (by_href href).
Proof. intros x y z. unfold by_href. apply (transitivity (R := String.le)). Qed.
#[export] Instance ex_LinksLib : LinksLib := {|
  links_Sort l := merge_sort (by_href sl_Href) l;
  GetResourceLink l h := List.find (fun x => String.eqb (sl_Href x) h) l;
  resources_Sort l := merge_sort (by_href res_Href) l |}.
#[export] Instance ex_LinksLibLaws : LinksLibLaws.
Proof.
  split.
  - intros l. apply merge_sort_Permutation.
  - intros l. apply (StronglySorted_merge_sort (by_href sl_Href)).
  - intros l h. cbn. split.
    + intros [x Hx]. apply List.find_some in Hx as [Hin Heq]. apply String.eqb_eq in Heq as <-.
      apply list_elem_of_fmap_2. by apply list_elem_of_In.
    + intros (x & -> & Hin)%list_elem_of_fmap. destruct (List.find _ l) eqn:Hf; [by eexists|].
      apply list_elem_of_In in Hin. pose proof (List.find_none _ _ Hf x Hin) as Hn. cbn in Hn. by rewrite String.eqb_refl in Hn.
  - intros l. apply merge_sort_Permutation.
  - intros l. apply (StronglySorted_merge_sort (by_href res_Href)).
Qed.

Definition ex_resource (href : string) : Resource :=
  MkResource href ex_dev [] [] "" "" [] 0 (Some (MkPolicy 2)) None.
Definition ex_observe : list ObserverCall -> string -> result bool := fun _ _ => inr false.
Definition ex_get : list ObserverCall -> string -> option error := fun _ _ => None.
Definition ex_cancel_obs : list ObserverCall -> nat -> option error := fun _ _ => None.
Definition ex_ends {A} (p : prog OState A) (s : OState) : OState := match run p s with Some (s, _) => s | None => s end.
Definition ex_add (hrefs : list string) : OState -> OState :=
  ex_ends (addResources ex_observe ex_get ex_dev (ex_resource <$> hrefs)).
Definition ex_sync (href : string) : OState -> OState := ex_ends (resourceHasBeenSynchronized ex_dev href).
Definition ex_cancel (hrefs : list string) : OState -> OState := ex_ends (cancelResourcesObservations ex_cancel_obs hrefs).

Lemma ex_add_step c hrefs s : observer_step ex_observe ex_get ex_cancel_obs ex_dev c s (ex_add hrefs s).
Proof.
  unfold ex_add, ex_ends. destruct (run _ s) as [[s' errs]|] eqn:Hr; [by eapply step_add|].
  unfold addResources in Hr. rewrite run_seq, run_act in Hr.
  destruct (addResources_locked _ _ _ _ s) as [s1 [errs [|]]]; cbn in Hr; done.
Qed.
Lemma ex_sync_step c href s : observer_step ex_observe ex_get ex_cancel_obs ex_dev c s (ex_sync href s).
Proof.
  unfold ex_sync, ex_ends. destruct (run _ s) as [[s' u]|] eqn:Hr; [by eapply step_synced|].
  unfold resourceHasBeenSynchronized in Hr. rewrite run_seq, run_act in Hr.
  destruct (setSynchronizedAtResource href s) as [s1 [|]]; cbn in Hr; done.
Qed.

Definition ex_lamp : OState := ex_sync "/b" (ex_add ["/b"; "/a"] newResourcesObserver).
Lemma ex_lamp_reachable c : reachable ex_observe ex_get ex_cancel_obs ex_dev c ex_lamp.
Proof. unfold reachable, ex_lamp. eapply rtc_l; [apply ex_add_step|]. eapply rtc_l; [apply ex_sync_step|]. constructor. Qed.

Lemma no_observation_leaks_witness :
  href_of ex_lamp <$> os_resources ex_lamp = ["/a"; "/b"]%string /\
  forall n, n ∈ opened (os_calls ex_lamp) /\ n ∉ cancelled (os_calls ex_lamp) <->
    exists r, r ∈ os_resources ex_lamp /\ holds ex_lamp r = Some n.
Proof.
  split; [by vm_compute|].
  destruct (no_observation_leaks ex_observe ex_get ex_cancel_obs ex_dev ex_lamp (ex_lamp_reachable true)) as (_ & Hn & _). exact Hn.
Defined.
Lemma twin_follows_witness :
  last (twin_states (os_calls ex_lamp)) = Some TwinSynchronization_SYNCING /\
  exists r, r ∈ os_resources ex_lamp /\ synced ex_lamp r <> Some true.
Proof.
  pose proof (twin_follows ex_observe ex_get ex_cancel_obs ex_dev false ex_lamp (ex_lamp_reachable false)) as Ht.
  split; [by vm_compute|]. change (last (twin_states (os_calls ex_lamp))) with (Some TwinSynchronization_SYNCING) in Ht.
  destruct Ht as [Hf|Ht]; [discriminate Hf|exact Ht].
Defined.

(** When the only resource that is not synchronized is cancelled, the device stays synchronizing. *)
Example cancel_leaves_syncing :
  let s := ex_cancel ["/a"] ex_lamp in
  last (twin_states (os_calls s)) = Some TwinSynchronization_SYNCING /\ isSynchronizedLocked s = true.
Proof. vm_compute. done. Qed.
(** A resource is added between the check that all are synchronized and the call that says so:
    the device is in sync while the new resource is not. *)
Example in_sync_too_early :
  match exec [0; 1; 0] (ex_add ["/a"] newResourcesObserver,
      [do! _ := resourceHasBeenSynchronized ex_dev "/a" in Ret tt;
       do! _ := addResources ex_observe ex_get ex_dev [ex_resource "/b"] in Ret tt]) with
  | Some (s, _) => last (twin_states (os_calls s)) = Some TwinSynchronization_IN_SYNC /\ isSynchronizedLocked s = false
  | None => False
  end.
Proof. vm_compute. done. Qed.
(** An href that is listed twice takes another resource along, whose observation stays open. *)
Example removed_twice_leaks :
  let s := ex_cancel ["/b"; "/b"] ex_lamp in
  os_resources s = [] /\ length (opened (os_calls s)) = 2 /\ length (cancelled (os_calls s)) = 1.
Proof. vm_compute. done. Qed.

(** A device that fails to cancel keeps the observation open, and nobody holds it any more: the
    error is only logged. *)
Example failed_cancel_leaves_open :
  let s := ex_ends (cancelResourcesObservations (fun _ _ => Some (errors_New "timeout")) ["/b"]) ex_lamp in
  (href_of s <$> os_resources s) = ["/a"]%string /\ length (opened (os_calls s)) = 2 /\
  length (cancelled (os_calls s)) = 1 /\ ended (os_calls s) = [].
Proof. vm_compute. done. Qed.

Definition ex_link (href : string) : schema_ResourceLink := MkSchemaResourceLink href true [].
Definition ex_clean_up : option UnpublishResourceLinksRequest * result (list Resource) :=
  cleanUpPublishedResources (fun _ => None) ex_dev "conn" 7 (ex_resource <$> ["/c"; "/a"; "/b"]) (ex_link <$> ["/d"; "/b"]).
(** What the first loop finds is found by the second loop again. *)
Example listed_twice :
  match ex_clean_up with
  | (Some req, inr valid) => (res_Href <$> valid) = ["/b"; "/b"]%string /\
      ulr_InstanceIds req = ResourceLinks.GetInstanceID <$> ["/a"; "/c"; "/a"; "/c"]%string
  | _ => False
  end.
Proof. vm_compute. done. Qed.
Lemma cleanUpPublishedResources_exact_witness :
  exists valid (ids : list Z),
    (forall r, r ∈ valid <-> r ∈ ex_resource <$> ["/c"; "/a"; "/b"]%string /\
       res_Href r ∈ sl_Href <$> (ex_link <$> ["/d"; "/b"]%string)) /\
    ResourceLinks.GetInstanceID "/c" ∈ ids /\ ex_clean_up.2 = inr valid.
Proof.
  destruct (cleanUpPublishedResources_exact (fun _ => None) ex_dev "conn" 7 (ex_resource <$> ["/c"; "/a"; "/b"]%string)
    (ex_link <$> ["/d"; "/b"]%string) ltac:(by intros Hd%(f_equal length)) ltac:(by intros Hd%(f_equal length))) as (valid & ids & Hv & Hi & Hc).
  exists valid, ids. split; [exact Hv|]. split.
  - apply Hi. exists (ex_resource "/c"). split_and!; [by_decision|by_decision|reflexivity].
  - cbv zeta in Hc. unfold ex_clean_up. rewrite Hc. by case_bool_decide.
Defined.
